(* ===== verification/_CoqProject ===== *)
-Q . S2P
Prelude.v
Types.v
Kernel.v
Io.v
Own.v
Prp.v
Paged.v
PrpSpec.v
Sgl.v
SglSpec.v
Ring.v
Irq.v
Queue.v
Cmd.v
Tamper.v
Meta.v
Ioctl.v
Core.v
Inv.v
Demo.v
QueueSpec.v
IrqSpec.v
IrqSet.v
IrqRun.v
Trace.v
QueueOps.v
MetaSpec.v
CmdSpec.v
Submit.v
Quiet.v
SqFifo.v
Complete.v
CqFifo.v
Reap.v
Hmb.v
Clock.v
Life.v
Netlink.v
Probe.v
Frame.v
ProbeSpec.v
ProbeLife.v
Mmap.v
Crc.v
Layout.v
Structs.v
Host.v
HostSpec.v
LibIoctl.v
LibNetlink.v
LibCmd.v
LibAdmin.v
LibQueue.v
LibCore.v
Bag.v
LibQuiet.v
LibSafe.v
IdDesc.v
NetSpec.v
Ioq.v
Wire.v
LibDriver.v
