(* ===== verification/Prelude.v ===== *)
(** * dnvme: a verification library for the NVMe test driver

    The repository is a test tool for NVMe devices.  Its core is a Linux kernel module,
    [modules/dnvme], which gives a test program direct access to one controller: it maps
    registers, allocates queues, builds the data pointers of commands, submits them,
    collects completions and fields interrupts, all on request of the program through
    [ioctl], [mmap] and netlink.  Above it is a user library ([lib/nvme], with the
    checksums of [lib/crc]), which starts a device, fills commands, submits them through
    the module and reads what comes back.  Around the two are a test application
    ([app/unittest]) and build scripts.  This library models the module, the user library
    and the checksums, proves each correct on its own, and composes the two: the user
    library running on the driver.

    ** The parts of the driver and where they are modelled

    - [Prelude]: record update, machine integers with their wrap-around, byte buffers.
    - [Types]: structures and constants of [core.h], [include/uapi/dnvme.h] and the NVMe
      headers, with the field names of the source.
    - [Kernel]: the kernel as the driver sees it.  [world] is the state: the device
      structure, the heap with the kind, size and contents of every live block, pinned
      pages, mapped scatterlists, registered interrupt handlers, the interrupt mode, and
      the history of calls out of the driver.  [M] is the monad of the model; a
      computation returns a value ([Val]), faults ([Oops]: null pointer, use after free,
      wrong free, out of bounds, undefined or uninitialised value) or runs out of fuel
      ([Hang]).  [Env] answers every call out of the driver from the history, so that a
      theorem about all [Env] holds whatever the kernel, the user and the device do.
      [wp] is the weakest precondition; it excludes faults and hangs.
    - [Own]: [holds R w] says that exactly the items [R] are live in [w]; [triple] is a
      specification with a frame in terms of it.
    - [Io]: [io.c] and the generic accesses of [ioctl.c].
    - [Prp], [Paged], [PrpSpec]: user pages and PRP lists of [cmd.c].
    - [Sgl], [SglSpec]: SGLs with bit buckets of [cmd.c].
    - [Ring], [Queue]: [queue.c]; [Ring] has the scan for new completions.
    - [Irq]: [irq.c] with the configuration accesses of [pci.c].
    - [Cmd]: submission of [cmd.c]; [Tamper]: changing pending commands.
    - [Meta]: [meta.c].
    - [Ioctl]: the other handlers of [ioctl.c], resets of [pci.c], clean-up of [core.c].
    - [Core]: file operations of [core.c]: open, release, ioctl, mmap.
    - [Probe]: probe and removal of [core.c], capabilities of [pci.c], controller memory
      buffer ([cmb.c]) and persistent memory region ([pmr.c]).  Whatever the kernel hands
      out that is not memory is recorded in [ndev_res].
    - [Netlink]: reaping with a time limit over netlink, [netlink.c].

    A C pointer to a queue is its identifier (a queue that is gone is a use after free);
    objects that own others hold them by value.  Handlers run with the mutex of the
    device held, so they are atomic; interrupts, bottom halves and writes of the
    controller happen between them ([Life.op]).

    ** The parts of the user library and where they are modelled

    - [Crc]: [lib/crc/crc.c] and the bit reversals of [lib/base].
    - [Layout], [Structs]: the layout of C structures and the structures of
      [include/uapi/nvme], of which commands and identify data are instances.
    - [Host], [HostSpec]: the process.  [U] is the monad of library code: it returns,
      crashes or waits forever; the live allocations, the open descriptors and
      [struct nvme_dev_info] are its state.  The kernel and the C library are the class
      [Host]: a state of any type and one function per service.
    - [LibIoctl]: [ioctl.c], [irq.c], [meta.c], [pcie.c] and their headers.
    - [LibCmd], [LibAdmin]: the commands of [cmd/]; features and identify.
    - [LibQueue]: [queue.c]; [LibNetlink]: [netlink.c]; [LibCore]: [core.c].
    - [Wire]: [driver_host], the driver as the instance of [Host]: [ioctl(2)] is
      [dnvme_ioctl] of [Core].

    ** What is proved of the driver

    - [Inv] states the invariant of the driver, [inv X w]: the device structure is well
      formed, what is live is exactly what it owns and the foreign items [X], and the
      registered handlers are those of the interrupt list.  Keeping [inv X] for every
      [X] is freedom from leaks, double frees and use after free.  [Demo] has concrete
      devices in the invariant, for the witnesses.
    - [QueueSpec], [QueueOps]: queues are created, prepared, reset and deleted exactly as
      asked, on every path; admin queues are announced in the registers; doorbells are
      where the controller looks.
    - [IrqSpec], [IrqSet], [IrqRun]: an interrupt scheme is installed whole or not at all,
      no interrupt is lost, teardown is complete.
    - [PrpSpec], [SglSpec], [MetaSpec]: a controller that follows the rules of the
      specification from the command reads exactly the mapped buffer.
    - [CmdSpec], [Submit], [Trace], [Quiet], [SqFifo]: submission is exact, touches no
      register before the doorbell, and a submission queue refines a FIFO.
    - [Ring], [Complete], [CqFifo], [Reap]: new completions are counted, handled once,
      copied out in order and consumed; a completion queue refines a FIFO.
    - [Hmb], [Clock], [Mmap]: the host memory buffer, the bounded wait for the
      controller, mappings that stay in their buffer.
    - [Life]: everything that can happen to an open device as a transition system; every
      reachable world is in the invariant, whatever can happen next returns, and closing
      returns all there is.
    - [Netlink]: the answer to a request over netlink says exactly what the caller was
      given.
    - [Frame]: no request changes what probe set up.  [ProbeSpec], [ProbeLife]: probe
      gives back everything on each of its error paths or leaves a device at rest with
      exactly what its fields name; a device that was probed, used in any way and removed
      leaves nothing behind.

    ** What is proved of the user library

    - [Crc]: the table-driven checksums equal the bit-serial shift register, detect every
      error burst up to their width, and the T10 guard checks to 0.
    - [Structs]: the structures have the sizes the library asserts and the driver
      assumes, and the fields the driver reads by offset are where it reads them.
    - [Bag], [LibQuiet], [LibSafe]: with any kernel and any device, start-up frees only
      what it owns, and shutdown gives back all that start-up allocated.
    - [IdDesc]: the descriptor parser accepts exactly the encodings of descriptor lists.
    - [NetSpec]: what the library sends is read back by a netlink parser; what it
      receives is parsed without leaving the buffer it was read into.
    - [Ioq]: the tables of I/O queues are complete and in range, and shuffling them
      before the queues are created only permutes their values.
    - [Wire], [LibDriver]: a read or write, and the creation of a queue, through the
      library and the driver puts exactly the fields the caller named into one new entry
      of the submission queue; the requests of the library pass the checks of the driver.

    Several theorems are negative: they prove a fault or a divergence of the code
    ([release_hmb_faults], [hmb_desc_failure_leaks], [prp_last_link_misread],
    [config_bound_check_wraps], [get_cqe_remain_diverges], [aq_discontiguous_faults],
    [cmb_cq_release_faults], [duplicate_bucket_refused], [reap_hides_error],
    [nvme64b_check_value]).  [Life.allowed] is the complement: the conditions under which
    a request is served correctly.

    ** Bounds and fuel

    Integers are [Z] with [u8] .. [u64], [s32] and [s64] where the C type wraps.  Loops
    that are not structural take fuel: the scan of a completion queue [elements + 1]
    rounds (enough by [get_cqe_remain_counts]), the SGL and PRP loops as many rounds as
    there are entries, the wait for CSTS.RDY [fuel] rounds, where [Clock.WAIT_ROUNDS] =
    129000 rounds of 1 ms are enough for the 127.5 s the register can ask for
    ([wait_ready_terminates], against the interface [Clock]).  The poll of PMRSTS has no
    sleep in it; that [fuel] rounds are enough for it is the hypothesis [polled].  Running out of fuel is
    [Hang], which no theorem about a result allows.

    ** What is not modelled

    Registration of the driver and of the netlink family with the kernel, and the parsing
    of messages by it; [proc.c], [debug.c], [trace.c] of the driver and [debug.c] and the
    display functions of the library (printing); the test application, which drives a
    real device; the vendored JSON and kconfig code.  Messages to the log are left out.
    The kernel's [sort] is a parameter with its contract as a hypothesis. *)

From stdpp Require Export base gmap list sets strings sorting.
From Stdlib Require Export ZArith Lia.

#[global] Open Scope Z_scope.

(** ** Record update

    [Eta R] names the eta expansion of a record; from it the setter of each
    field is computed once, when [r <| f := v |>] is elaborated. *)

Class Eta (R : Type) := eta_expand : R → R.
Class Setter {R E : Type} (proj : R → E) := set_field : (E → E) → R → R.
Arguments set_field {R E} proj {_} _ _.

Ltac solve_setter :=
  lazymatch goal with
  | |- @Setter ?R ?E ?proj =>
    let inst := constr:(_ : Eta R) in
    let u := fresh "u" in let r := fresh "r" in
    unfold Setter; intros u r;
    let body := eval hnf in (inst r) in
    let abs := eval pattern (proj r) in body in
    lazymatch abs with
    | ?F _ => let t := eval cbv beta in (F (u (proj r))) in exact t
    end
  end.

#[global] Hint Extern 1 (@Setter _ _ _) => solve_setter : typeclass_instances.

Notation "r <| f := v |>" := (set_field f (λ _, v) r)
  (at level 1, f at level 1, v at level 200, left associativity,
   format "r <| f  :=  v |>").
Notation "r <| f ::= h |>" := (set_field f h r)
  (at level 1, f at level 1, h at level 200, left associativity,
   format "r <| f  ::=  h |>").

(** ** Machine integers: [w]-bit values are [Z] with their wrap-around *)

Definition u8 (x : Z) : Z := x mod 2 ^ 8.
Definition u16 (x : Z) : Z := x mod 2 ^ 16.
Definition u32 (x : Z) : Z := x mod 2 ^ 32.
Definition u64 (x : Z) : Z := x mod 2 ^ 64.
(** A conversion to [int] keeps the low 32 bits, two's complement. *)
Definition s32 (x : Z) : Z := (x + 2 ^ 31) mod 2 ^ 32 - 2 ^ 31.

Definition s64 (x : Z) : Z := (x + 2 ^ 63) mod 2 ^ 64 - 2 ^ 63.

Definition BIT (n : Z) : Z := Z.shiftl 1 n.
Definition DIV_ROUND_UP (n d : Z) : Z := (n + d - 1) / d.

Definition in_u8 (x : Z) : Prop := 0 ≤ x < 2 ^ 8.
Definition in_u16 (x : Z) : Prop := 0 ≤ x < 2 ^ 16.
Definition in_u32 (x : Z) : Prop := 0 ≤ x < 2 ^ 32.
Definition in_u64 (x : Z) : Prop := 0 ≤ x < 2 ^ 64.

Create HintDb ints.
Create Rewrite HintDb ints_rw.

Lemma u8_range x : 0 ≤ u8 x < 2 ^ 8.
Proof. apply Z.mod_pos_bound; lia. Qed.
Lemma u16_range x : 0 ≤ u16 x < 2 ^ 16.
Proof. apply Z.mod_pos_bound; lia. Qed.
Lemma u32_range x : 0 ≤ u32 x < 2 ^ 32.
Proof. apply Z.mod_pos_bound; lia. Qed.
Lemma u64_range x : 0 ≤ u64 x < 2 ^ 64.
Proof. apply Z.mod_pos_bound; lia. Qed.

Lemma u8_small x : 0 ≤ x < 2 ^ 8 → u8 x = x.
Proof. apply Z.mod_small. Qed.
Lemma u16_small x : 0 ≤ x < 2 ^ 16 → u16 x = x.
Proof. apply Z.mod_small. Qed.
Lemma u32_small x : 0 ≤ x < 2 ^ 32 → u32 x = x.
Proof. apply Z.mod_small. Qed.
Lemma u64_small x : 0 ≤ x < 2 ^ 64 → u64 x = x.
Proof. apply Z.mod_small. Qed.

Lemma s32_small x : - 2 ^ 31 ≤ x < 2 ^ 31 → s32 x = x.
Proof. intros ?. unfold s32. rewrite Z.mod_small; lia. Qed.

#[export] Hint Resolve u8_range u16_range u32_range u64_range : ints.
#[export] Hint Rewrite u8_small u16_small u32_small u64_small s32_small
  using lia : ints_rw.

Lemma DIV_ROUND_UP_spec n d : 0 < d → 0 ≤ n →
  d * (DIV_ROUND_UP n d - 1) < n ≤ d * DIV_ROUND_UP n d ∨
  n = 0 ∧ DIV_ROUND_UP n d = 0.
Proof.
  intros Hd Hn. unfold DIV_ROUND_UP.
  pose proof (Z.div_mod (n + d - 1) d ltac:(lia)) as Heq.
  pose proof (Z.mod_pos_bound (n + d - 1) d Hd) as Hb.
  destruct (decide (n = 0)) as [->|]; [right | left; nia].
  split; [done|]. apply Z.div_small. lia.
Qed.

(** ** Byte buffers

    A buffer is its list of bytes.  [load_le]/[store_le] are the typed C
    accesses [*(uN * )(buf + off)] on a little-endian host; [None] is an access
    that leaves the buffer. *)

Fixpoint le_bytes (n : nat) (v : Z) : list Z :=
  match n with
  | O => []
  | S n => v mod 256 :: le_bytes n (v / 256)
  end.

Fixpoint le_val (bs : list Z) : Z :=
  match bs with
  | [] => 0
  | b :: bs => b + 256 * le_val bs
  end.

(** [memcpy(dst, buf + off, n)]: the bytes read, when in bounds. *)
Definition load_bytes (buf : list Z) (off n : Z) : option (list Z) :=
  if decide (0 ≤ off ∧ 0 ≤ n ∧ off + n ≤ Z.of_nat (length buf))
  then Some (take (Z.to_nat n) (drop (Z.to_nat off) buf))
  else None.

(** [memcpy(buf + off, bs, length bs)]: the buffer after, when in bounds. *)
Definition store_bytes (buf : list Z) (off : Z) (bs : list Z) : option (list Z) :=
  if decide (0 ≤ off ∧ off + Z.of_nat (length bs) ≤ Z.of_nat (length buf))
  then Some (take (Z.to_nat off) buf ++ bs ++
             drop (Z.to_nat off + length bs) buf)
  else None.

Definition load_le (n : nat) (buf : list Z) (off : Z) : option Z :=
  le_val <$> load_bytes buf off (Z.of_nat n).
Definition store_le (n : nat) (buf : list Z) (off v : Z) : option (list Z) :=
  store_bytes buf off (le_bytes n v).

Lemma length_le_bytes n v : length (le_bytes n v) = n.
Proof. revert v; induction n; intros; simpl; auto. Qed.

Lemma le_val_bytes n v : le_val (le_bytes n v) = v mod 2 ^ (8 * Z.of_nat n).
Proof.
  revert v; induction n as [|n IH]; intros v.
  { simpl. by rewrite Z.mod_1_r. }
  cbn [le_bytes le_val]. rewrite IH.
  replace (8 * Z.of_nat (S n)) with (8 + 8 * Z.of_nat n) by lia.
  rewrite Z.pow_add_r by lia. change (2 ^ 8) with 256.
  rewrite Z.rem_mul_r; [done|lia|]. apply Z.pow_pos_nonneg; lia.
Qed.

Lemma length_store_bytes buf off bs buf' :
  store_bytes buf off bs = Some buf' → length buf' = length buf.
Proof.
  unfold store_bytes. case_decide as H; [|done]. intros [= <-].
  rewrite !length_app, length_take, length_drop. lia.
Qed.

Lemma store_bytes_Some buf off bs :
  0 ≤ off → off + Z.of_nat (length bs) ≤ Z.of_nat (length buf) →
  is_Some (store_bytes buf off bs).
Proof. intros. unfold store_bytes. rewrite decide_True by lia. eauto. Qed.

Lemma load_store_same buf off bs buf' :
  store_bytes buf off bs = Some buf' →
  load_bytes buf' off (Z.of_nat (length bs)) = Some bs.
Proof.
  intros Hs. pose proof (length_store_bytes _ _ _ _ Hs) as Hlen.
  unfold store_bytes in Hs. case_decide as H; [|done]. injection Hs as <-.
  unfold load_bytes. rewrite decide_True by (rewrite Hlen; lia). f_equal.
  rewrite drop_app_ge by (rewrite length_take; lia).
  rewrite length_take.
  replace (Z.to_nat off - (Z.to_nat off `min` length buf))%nat with O by lia.
  rewrite drop_0, Nat2Z.id. by rewrite take_app_length.
Qed.

(** Bytes outside the stored range are untouched. *)
Lemma lookup_store_bytes_ne buf off bs buf' (i : nat) :
  store_bytes buf off bs = Some buf' →
  (Z.of_nat i < off ∨ off + Z.of_nat (length bs) ≤ Z.of_nat i) →
  buf' !! i = buf !! i.
Proof.
  unfold store_bytes. case_decide as H; [|done]. intros [= <-] Hi.
  destruct (decide (i < Z.to_nat off)%nat) as [Hlt|Hge].
  { rewrite lookup_app_l by (rewrite length_take; lia).
    by rewrite lookup_take_lt by lia. }
  rewrite lookup_app_r by (rewrite length_take; lia).
  rewrite length_take, lookup_app_r by lia. rewrite lookup_drop. f_equal. lia.
Qed.

Lemma load_store_ne buf off bs buf' off' n :
  store_bytes buf off bs = Some buf' →
  (off' + n ≤ off ∨ off + Z.of_nat (length bs) ≤ off') →
  load_bytes buf' off' n = load_bytes buf off' n.
Proof.
  intros Hs Hd. pose proof (length_store_bytes _ _ _ _ Hs) as Hlen.
  unfold load_bytes. rewrite Hlen. case_decide as H; [|done]. f_equal.
  apply list_eq. intros i.
  destruct (decide (i < Z.to_nat n)%nat) as [Hlt|Hge].
  - rewrite !lookup_take_lt, !lookup_drop by done.
    eapply lookup_store_bytes_ne; [done|lia].
  - rewrite !lookup_take_ge by lia. done.
Qed.

Lemma load_store_le n buf off v buf' :
  store_le n buf off v = Some buf' →
  load_le n buf' off = Some (v mod 2 ^ (8 * Z.of_nat n)).
Proof.
  unfold store_le, load_le. intros Hs. apply load_store_same in Hs.
  rewrite length_le_bytes in Hs. rewrite Hs. simpl. by rewrite le_val_bytes.
Qed.
