(* ===== verification/Types.v ===== *)
(** * The driver's data

    Constants and structures of [modules/dnvme/core.h], [include/uapi/dnvme.h],
    [include/uapi/nvme.h] and [include/uapi/nvme/property.h].  Fields carry a
    short prefix of their structure, because Rocq record fields share one name
    space.  A bit field or a [bool] is a [bool]; an integer is a [Z] kept in the
    range of its C type; a pointer is a [Z] with [0] for [NULL]; a pointer that
    owns its target ([sq->prps], [cmd->prps], [ndev->hmb], ...) is an [option]
    of the target.  An enumeration that is read from user memory has one
    constructor for the values outside it. *)

From S2P Require Import Prelude.

(** ** Error numbers *)

Definition EPERM := 1.
Definition ENOENT := 2.
Definition EBUSY := 16.
Definition EEXIST := 17.
Definition ENODEV := 19.
Definition EINVAL := 22.
Definition ENOMEM := 12.
Definition EFAULT := 14.
Definition ENOSPC := 28.
Definition EBADRQC := 56.
Definition EBADSLT := 57.
Definition ETIME := 62.
Definition EMSGSIZE := 90.
Definition EOPNOTSUPP := 95.
Definition ETIMEDOUT := 110.

(** ** Constants *)

Definition PAGE_SIZE := 4096.
Definition NVME_PRP_ENTRY_SIZE := 8.
Definition SGL_DESC_SIZE := 16.
Definition NVME_SGES_PER_PAGE := PAGE_SIZE / SGL_DESC_SIZE.
Definition NVME_PRPS_PER_PAGE := PAGE_SIZE / NVME_PRP_ENTRY_SIZE.

Definition NVME_AQ_ID := 0.
Definition NVME_AQ_MAX_SIZE := 4096.
Definition NVME_ADM_SQES := 6.
Definition NVME_ADM_CQES := 4.
Definition NVME_NVM_IOSQES := 6.
Definition NVME_NVM_IOCQES := 4.

Definition NVME_REG_CAP := 0x0.
Definition NVME_REG_INTMS := 0xc.
Definition NVME_REG_INTMC := 0x10.
Definition NVME_REG_CC := 0x14.
Definition NVME_REG_CSTS := 0x1c.
Definition NVME_REG_NSSR := 0x20.
Definition NVME_REG_AQA := 0x24.
Definition NVME_REG_ASQ := 0x28.
Definition NVME_REG_ACQ := 0x30.
Definition NVME_REG_CMBLOC := 0x38.
Definition NVME_REG_CMBSZ := 0x3c.
Definition NVME_REG_CMBMSC := 0x50.
Definition NVME_REG_PMRCAP := 0xe00.
Definition NVME_REG_PMRCTL := 0xe04.
Definition NVME_REG_PMRSTS := 0xe08.
Definition NVME_REG_PMRMSCL := 0xe14.
Definition NVME_REG_PMRMSCU := 0xe18.
Definition NVME_REG_DBS := 0x1000.

Definition NVME_CAP_MQES (cap : Z) := Z.land cap 0xffff.
Definition NVME_CAP_CQR (cap : Z) := Z.land (Z.shiftr cap 16) 0x1.
Definition NVME_CAP_TIMEOUT (cap : Z) := Z.land (Z.shiftr cap 24) 0xff.
Definition NVME_CAP_STRIDE (cap : Z) := Z.land (Z.shiftr cap 32) 0xf.
Definition NVME_CAP_PMRS (cap : Z) := Z.land (Z.shiftr cap 56) 0x1.
Definition NVME_CAP_CMBS (cap : Z) := Z.land (Z.shiftr cap 57) 0x1.

Definition NVME_CC_ENABLE := BIT 0.
Definition NVME_CC_FOR_IOSQES (sqes : Z) := Z.shiftl (Z.land sqes 0xf) 16.
Definition NVME_CC_IOSQES_MASK := NVME_CC_FOR_IOSQES 0xf.
Definition NVME_CC_FOR_IOCQES (cqes : Z) := Z.shiftl (Z.land cqes 0xf) 20.
Definition NVME_CC_IOCQES_MASK := NVME_CC_FOR_IOCQES 0xf.
Definition NVME_CSTS_RDY := BIT 0.

Definition NVME_AQA_FOR_ASQS (aqa : Z) := Z.land aqa 0xfff.
Definition NVME_AQA_TO_ASQS (aqa : Z) := Z.land aqa 0xfff.
Definition NVME_AQA_ASQS_MASK := NVME_AQA_FOR_ASQS 0xfff.
Definition NVME_AQA_FOR_ACQS (aqa : Z) := Z.shiftl (Z.land aqa 0xfff) 16.
Definition NVME_AQA_TO_ACQS (aqa : Z) := Z.land (Z.shiftr aqa 16) 0xfff.
Definition NVME_AQA_ACQS_MASK := NVME_AQA_FOR_ACQS 0xfff.

(** [nvme_admin_opcode], command flags and queue flags used by the driver. *)
Definition nvme_admin_delete_sq := 0x00.
Definition nvme_admin_create_sq := 0x01.
Definition nvme_admin_delete_cq := 0x04.
Definition nvme_admin_create_cq := 0x05.
Definition NVME_CMD_SGL_ALL := Z.lor (Z.shiftl 1 6) (Z.shiftl 1 7).
Definition NVME_QUEUE_PHYS_CONTIG := Z.shiftl 1 0.
Definition NVME_CQ_IRQ_ENABLED := Z.shiftl 1 1.

(** [enum nvme_64b_cmd_mask]. *)
Definition NVME_MASK_PRP1_PAGE := Z.shiftl 1 0.
Definition NVME_MASK_PRP1_LIST := Z.shiftl 1 1.
Definition NVME_MASK_PRP2_PAGE := Z.shiftl 1 2.
Definition NVME_MASK_PRP2_LIST := Z.shiftl 1 3.
Definition NVME_MASK_MPTR := Z.shiftl 1 4.

(** SGL descriptor types, already shifted into the identifier byte by the code. *)
Definition NVME_SGL_TYPE_DATA_DESC := 0x0.
Definition NVME_SGL_TYPE_BIT_BUCKET_DESC := 0x1.
Definition NVME_SGL_TYPE_SEG_DESC := 0x2.
Definition NVME_SGL_TYPE_LAST_SEG_DESC := 0x3.

Definition PCI_MSI_VEC_MAX := 32.
Definition PCI_MSIX_VEC_MAX := 2048.
Definition PCI_MSIX_ENTRY_SIZE := 16.
Definition PCI_MSIX_ENTRY_VECTOR_CTRL := 0xc.
Definition PCI_MSIX_ENTRY_CTRL_MASKBIT := 1.
Definition PCI_MSIX_FLAGS_QSIZE := 0x7ff.
Definition PCI_MSIX_BIR := 7.
Definition PCI_MSIX_OFFSET := 0xfffffff8.
Definition PCI_MSI_FLAGS := 2.
Definition PCI_MSI_FLAGS_QMASK := 0xe.
Definition PCI_CFG_SPACE_EXP_SIZE := 4096.
Definition PCI_COMMAND := 4.
Definition PCI_COMMAND_INTX_DISABLE := 0x400.
Definition UINT_MAX := 2 ^ 32 - 1.

(** ** Enumerations of [include/uapi/dnvme.h] *)

Inductive nvme_region := NVME_PCI_CONFIG | NVME_BAR0_BAR1 | NVME_REGION_OTHER (n : Z).
Inductive nvme_access_type :=
  NVME_ACCESS_BYTE | NVME_ACCESS_WORD | NVME_ACCESS_DWORD | NVME_ACCESS_QWORD
| NVME_ACCESS_OTHER (n : Z).
Inductive nvme_queue_type :=
  NVME_ADMIN_SQ | NVME_ADMIN_CQ | NVME_CQ | NVME_SQ | NVME_QUEUE_OTHER (n : Z).
Inductive nvme_state :=
  NVME_ST_ENABLE | NVME_ST_DISABLE | NVME_ST_DISABLE_COMPLETE
| NVME_ST_SUBSYSTEM_RESET | NVME_ST_PCIE_FLR_RESET | NVME_ST_PCIE_HOT_RESET
| NVME_ST_PCIE_LINKDOWN_RESET | NVME_ST_OTHER (n : Z).
Inductive nvme_irq_type :=
  NVME_INT_MSI_SINGLE | NVME_INT_MSI_MULTI | NVME_INT_MSIX | NVME_INT_PIN
| NVME_INT_NONE | NVME_INT_OTHER (n : Z).
Inductive dma_data_direction :=
  DMA_BIDIRECTIONAL | DMA_TO_DEVICE | DMA_FROM_DEVICE | DMA_NONE | DMA_OTHER (n : Z).

#[export] Instance nvme_queue_type_eq_dec : EqDecision nvme_queue_type.
Proof. solve_decision. Defined.
#[export] Instance nvme_state_eq_dec : EqDecision nvme_state.
Proof. solve_decision. Defined.
#[export] Instance nvme_irq_type_eq_dec : EqDecision nvme_irq_type.
Proof. solve_decision. Defined.
#[export] Instance dma_data_direction_eq_dec : EqDecision dma_data_direction.
Proof. solve_decision. Defined.

(** ** Arguments of the ioctls ([include/uapi/dnvme.h]) *)

Record nvme_access := {
  acc_region : nvme_region; acc_type : nvme_access_type;
  acc_bytes : Z; acc_offset : Z }.

Record nvme_prep_sq := {
  psq_elements : Z; psq_sq_id : Z; psq_cq_id : Z;
  psq_contig : bool; psq_use_cmb : bool }.

Record nvme_prep_cq := {
  pcq_elements : Z; pcq_cq_id : Z; pcq_irq_en : Z; pcq_irq_no : Z;
  pcq_contig : bool; pcq_use_cmb : bool }.

Record nvme_sgl_bit_bucket := mk_bit_bucket { bb_offset : Z; bb_length : Z }.

Definition bb_le (a b : nvme_sgl_bit_bucket) : Prop := bb_offset a ≤ bb_offset b.
#[export] Instance bb_le_dec : RelDecision bb_le.
Proof. intros a b. unfold bb_le. apply _. Defined.

(** [cmd_buf_ptr] is used only by [submit_64b_cmd]; whether it is [NULL] is
    [c64_has_cmd_buf], and the bytes it points to are an argument there. *)
Record nvme_64b_cmd := {
  c64_sqid : Z; c64_cid : Z; c64_has_cmd_buf : bool; c64_bit_mask : Z;
  c64_data_buf_ptr : Z; c64_data_buf_size : Z;
  c64_data_dir : dma_data_direction; c64_meta_id : Z;
  c64_nr_bit_bucket : Z; c64_bit_bucket : list nvme_sgl_bit_bucket }.
#[export] Instance eta_nvme_64b_cmd : Eta nvme_64b_cmd := λ c,
  Build_nvme_64b_cmd (c64_sqid c) (c64_cid c) (c64_has_cmd_buf c)
    (c64_bit_mask c) (c64_data_buf_ptr c) (c64_data_buf_size c)
    (c64_data_dir c) (c64_meta_id c) (c64_nr_bit_bucket c) (c64_bit_bucket c).

Record nvme_interrupt := { int_num_irqs : Z; int_irq_type : nvme_irq_type }.

Record nvme_cq_public := {
  cqp_q_id : Z; cqp_tail_ptr : Z; cqp_head_ptr : Z; cqp_elements : Z;
  cqp_irq_enabled : Z; cqp_irq_no : Z; cqp_pbit_new_entry : Z; cqp_cqes : Z }.
#[export] Instance eta_nvme_cq_public : Eta nvme_cq_public := λ q,
  Build_nvme_cq_public (cqp_q_id q) (cqp_tail_ptr q) (cqp_head_ptr q)
    (cqp_elements q) (cqp_irq_enabled q) (cqp_irq_no q) (cqp_pbit_new_entry q)
    (cqp_cqes q).

Record nvme_sq_public := {
  sqp_sq_id : Z; sqp_cq_id : Z; sqp_tail_ptr : Z; sqp_tail_ptr_virt : Z;
  sqp_head_ptr : Z; sqp_elements : Z; sqp_sqes : Z }.
#[export] Instance eta_nvme_sq_public : Eta nvme_sq_public := λ q,
  Build_nvme_sq_public (sqp_sq_id q) (sqp_cq_id q) (sqp_tail_ptr q)
    (sqp_tail_ptr_virt q) (sqp_head_ptr q) (sqp_elements q) (sqp_sqes q).

Record nvme_reap := {
  rp_cqid : Z; rp_expect : Z; rp_remained : Z; rp_reaped : Z; rp_size : Z }.
#[export] Instance eta_nvme_reap : Eta nvme_reap := λ r,
  Build_nvme_reap (rp_cqid r) (rp_expect r) (rp_remained r) (rp_reaped r) (rp_size r).

Record nvme_inquiry := { inq_cqid : Z; inq_nr_cqe : Z }.

Record nvme_meta_create := { mc_id : Z; mc_buf : Z; mc_size : Z; mc_contig : Z }.

Record nvme_admin_queue := { aq_type : nvme_queue_type; aq_elements : Z }.

(** [bsize] is the flexible array behind the structure. *)
Record nvme_hmb_alloc := { ha_page_size : Z; ha_nr_desc : Z; ha_bsize : list Z }.

Record nt_iops := { io_sqid : Z; io_cqid : Z; io_time : Z; io_perf : Z }.
#[export] Instance eta_nt_iops : Eta nt_iops := λ r,
  Build_nt_iops (io_sqid r) (io_cqid r) (io_time r) (io_perf r).

(** [struct nvme_sgl_desc] of [include/uapi/nvme/command.h]. *)
Record nvme_sgl_desc := mk_sgl_desc { sge_addr : Z; sge_length : Z; sge_type : Z }.
#[export] Instance eta_nvme_sgl_desc : Eta nvme_sgl_desc := λ s,
  mk_sgl_desc (sge_addr s) (sge_length s) (sge_type s).
Definition sgl_desc_zero := mk_sgl_desc 0 0 0.

(** ** Structures of [modules/dnvme/core.h] *)

(** One entry of a mapped scatterlist: [sg_dma_address] and [sg_dma_len]. *)
Record scatterlist := mk_sg { sg_dma_address : Z; sg_dma_len : Z }.

(** The pages [prps->prp_list[i]]: [void *] pages that hold either PRP entries
    or SGL descriptors, so the two views are two constructors. *)
Inductive prp_pages :=
| PP_null
| PP_prp (pages : list (list Z))
| PP_sgl (pages : list (list nvme_sgl_desc)).

(** [pg_va] are the page addresses stored in the array [prp_list], [pg_addr]
    their bus addresses; [prp_list_ptr]/[pg_addr_ptr] are the two arrays
    themselves.  [sg_ptr] is [prps->sg] ([0] for [NULL]) and [sg] its entries. *)
Record nvme_prps := {
  pg_pool : Z;
  prp_list_ptr : Z; prp_list : prp_pages; pg_va : list Z;
  pg_addr_ptr : Z; pg_addr : list Z;
  nr_pages : Z; nr_entry : Z; is_sgl : bool;
  prps_buf : Z;
  sg_ptr : Z; sg : list scatterlist;
  num_map_pgs : Z; data_buf_size : Z; data_buf_addr : Z;
  data_dir : dma_data_direction }.
#[export] Instance eta_nvme_prps : Eta nvme_prps := λ p,
  Build_nvme_prps (pg_pool p) (prp_list_ptr p) (prp_list p) (pg_va p)
    (pg_addr_ptr p) (pg_addr p) (nr_pages p) (nr_entry p) (is_sgl p)
    (prps_buf p) (sg_ptr p) (sg p) (num_map_pgs p) (data_buf_size p)
    (data_buf_addr p) (data_dir p).

(** [kzalloc(sizeof(struct nvme_prps))]. *)
Definition prps_zero : nvme_prps := {|
  pg_pool := 0; prp_list_ptr := 0; prp_list := PP_null; pg_va := [];
  pg_addr_ptr := 0; pg_addr := []; nr_pages := 0; nr_entry := 0;
  is_sgl := false; prps_buf := 0; sg_ptr := 0; sg := []; num_map_pgs := 0;
  data_buf_size := 0; data_buf_addr := 0; data_dir := DMA_BIDIRECTIONAL |}.

(** An owned allocation: its address and its contents. *)
Definition owned (A : Type) : Type := Z * A.

Record nvme_cmd := {
  cmd_ptr : Z;
  cmd_cid : Z; cmd_sqid : Z; cmd_target_qid : Z; cmd_idx : Z; cmd_opcode : Z;
  cmd_prps : option (owned nvme_prps) }.
#[export] Instance eta_nvme_cmd : Eta nvme_cmd := λ c,
  Build_nvme_cmd (cmd_ptr c) (cmd_cid c) (cmd_sqid c) (cmd_target_qid c)
    (cmd_idx c) (cmd_opcode c) (cmd_prps c).

Record nvme_cq := {
  cq_ptr : Z;
  cq_pub : nvme_cq_public; cq_buf : Z; cq_dma : Z; cq_size : Z;
  cq_prps : option (owned nvme_prps); cq_db : Z;
  cq_contig : bool; cq_created : bool; cq_use_cmb : bool }.
#[export] Instance eta_nvme_cq : Eta nvme_cq := λ q,
  Build_nvme_cq (cq_ptr q) (cq_pub q) (cq_buf q) (cq_dma q) (cq_size q)
    (cq_prps q) (cq_db q) (cq_contig q) (cq_created q) (cq_use_cmb q).

Record nvme_sq := {
  sq_ptr : Z;
  sq_pub : nvme_sq_public; sq_cmd_list : list nvme_cmd;
  sq_buf : Z; sq_dma : Z; sq_size : Z;
  sq_prps : option (owned nvme_prps); sq_db : Z; sq_next_cid : Z;
  sq_contig : bool; sq_created : bool; sq_use_cmb : bool }.
#[export] Instance eta_nvme_sq : Eta nvme_sq := λ q,
  Build_nvme_sq (sq_ptr q) (sq_pub q) (sq_cmd_list q) (sq_buf q) (sq_dma q)
    (sq_size q) (sq_prps q) (sq_db q) (sq_next_cid q) (sq_contig q)
    (sq_created q) (sq_use_cmb q).

Record nvme_icq := mk_icq { icq_ptr : Z; icq_cq_id : Z }.

Record nvme_irq := {
  irq_ptr : Z; irq_icq_list : list nvme_icq; irq_id : Z; irq_int_vec : Z;
  irq_isr_fired : Z; irq_isr_count : Z }.
#[export] Instance eta_nvme_irq : Eta nvme_irq := λ i,
  Build_nvme_irq (irq_ptr i) (irq_icq_list i) (irq_id i) (irq_int_vec i)
    (irq_isr_fired i) (irq_isr_count i).

Record nvme_work := { work_ptr : Z; work_irq_id : Z; work_int_vec : Z }.

Record nvme_meta := {
  meta_ptr : Z; meta_id : Z; meta_buf : Z; meta_dma : Z; meta_size : Z;
  meta_prps : option (owned nvme_prps); meta_contig : bool }.
#[export] Instance eta_nvme_meta : Eta nvme_meta := λ m,
  Build_nvme_meta (meta_ptr m) (meta_id m) (meta_buf m) (meta_dma m)
    (meta_size m) (meta_prps m) (meta_contig m).

(** PCI capabilities ([include/uapi/pci_caps.h]); the first field is the address of the
    structure. *)
Record pci_cap_pm := { pm_ptr : Z; pm_offset : Z; pm_pmc : Z; pm_pmcsr : Z }.
Record pci_cap_msi := { msi_ptr : Z; msi_offset : Z; msi_mc : Z }.
Record pci_cap_express := { exp_ptr : Z; exp_offset : Z; exp_exp_cap : Z; exp_dev_cap : Z }.
Record pci_cap_msix := {
  msix_ptr : Z; msix_offset : Z; msix_mc : Z; msix_table : Z; msix_pba : Z }.
Record pci_ext_cap_ltr := { ltr_ptr : Z; ltr_offset : Z }.
Record pci_ext_cap_l1ss := { l1ss_ptr : Z; l1ss_offset : Z }.

Record nvme_capability := {
  cap_pm : option pci_cap_pm; cap_msi : option pci_cap_msi; cap_msix : option pci_cap_msix;
  cap_express : option pci_cap_express; cap_ltr : option pci_ext_cap_ltr;
  cap_l1ss : option pci_ext_cap_l1ss }.
#[export] Instance eta_nvme_capability : Eta nvme_capability := λ c,
  Build_nvme_capability (cap_pm c) (cap_msi c) (cap_msix c) (cap_express c) (cap_ltr c)
    (cap_l1ss c).
Definition no_capability : nvme_capability := Build_nvme_capability None None None None None None.

Inductive nvme_cap_type := NVME_CAP_TYPE_PCI | NVME_CAP_TYPE_PCIE | NVME_CAP_TYPE_OTHER (n : Z).
Record nvme_get_cap := { gcap_type : nvme_cap_type; gcap_id : Z; gcap_size : Z }.

(** [wq] is the address of the workqueue, [0] for [NULL]; [wq_pending] the work
    items queued on it that have not run. *)
Record nvme_irq_set := {
  is_irq_list : list nvme_irq;
  is_msix_irqs : Z; is_msix_tb : Z; is_msix_pba : Z;
  is_irq_type : nvme_irq_type; is_nr_irq : Z;
  is_wq : Z; is_wq_pending : list Z; is_work_list : list nvme_work }.
#[export] Instance eta_nvme_irq_set : Eta nvme_irq_set := λ s,
  Build_nvme_irq_set (is_irq_list s) (is_msix_irqs s) (is_msix_tb s)
    (is_msix_pba s) (is_irq_type s) (is_nr_irq s) (is_wq s) (is_wq_pending s)
    (is_work_list s).

Record nvme_cmb := {
  cmb_ptr : Z; cmb_bar : Z; cmb_res_addr : Z; cmb_bus_addr : Z;
  cmb_size : Z; cmb_offset : Z;
  cmb_sqs : bool; cmb_cqs : bool; cmb_lists : bool; cmb_rds : bool; cmb_wds : bool;
  cmb_cqmms : bool; cmb_cqpds : bool; cmb_cdpmls : bool; cmb_cdpcils : bool;
  cmb_cdmmms : bool; cmb_cqda : bool }.
#[export] Instance eta_nvme_cmb : Eta nvme_cmb := λ c,
  Build_nvme_cmb (cmb_ptr c) (cmb_bar c) (cmb_res_addr c) (cmb_bus_addr c)
    (cmb_size c) (cmb_offset c) (cmb_sqs c) (cmb_cqs c) (cmb_lists c)
    (cmb_rds c) (cmb_wds c) (cmb_cqmms c) (cmb_cqpds c) (cmb_cdpmls c)
    (cmb_cdpcils c) (cmb_cdmmms c) (cmb_cqda c).

Record nvme_pmr := {
  pmr_ptr : Z; pmr_bir : Z; pmr_timeout : Z; pmr_res_addr : Z; pmr_bus_addr : Z;
  pmr_size : Z; pmr_cmss : bool }.
#[export] Instance eta_nvme_pmr : Eta nvme_pmr := λ p,
  Build_nvme_pmr (pmr_ptr p) (pmr_bir p) (pmr_timeout p) (pmr_res_addr p) (pmr_bus_addr p)
    (pmr_size p) (pmr_cmss p).

Record nvme_hmb_buffer := { hb_virt_addr : Z; hb_phy_addr : Z; hb_size : Z }.
Record nvme_hmb := {
  hmb_ptr : Z; hmb_desc : Z; hmb_desc_addr : Z; hmb_desc_size : Z; hmb_desc_num : Z;
  hmb_bufs : list nvme_hmb_buffer }.
#[export] Instance eta_nvme_hmb : Eta nvme_hmb := λ h,
  Build_nvme_hmb (hmb_ptr h) (hmb_desc h) (hmb_desc_addr h) (hmb_desc_size h)
    (hmb_desc_num h) (hmb_bufs h).

(** The fields of [struct pci_dev] the driver reads. *)
Record pci_dev := {
  pdev_irq : Z; pdev_vendor : Z; pdev_device : Z;
  pdev_bus_number : Z; pdev_devfn : Z }.
#[export] Instance eta_pci_dev : Eta pci_dev := λ p,
  Build_pci_dev (pdev_irq p) (pdev_vendor p) (pdev_device p)
    (pdev_bus_number p) (pdev_devfn p).

(** What the kernel has given to the device at probe, beside memory: the DMA pools, the
    minor number, the name, the character device, the regions and mappings of the BARs,
    the enabled PCI function, the place in the list of devices. *)
Inductive probe_res :=
| R_pool (p : Z) | R_instance (i : Z) | R_name | R_cdev
| R_region (idx : Z) | R_iomap (p : Z) | R_enabled | R_listed.
#[export] Instance probe_res_eq_dec : EqDecision probe_res.
Proof. solve_decision. Defined.

(** [bar0] is [bar[0]] and [bars] has the others; [res] is not a field of the structure:
    it records what the kernel has registered for the device. *)
Record nvme_device := {
  ndev_pdev : pci_dev;
  ndev_sqs : gmap Z nvme_sq; ndev_cqs : gmap Z nvme_cq;
  ndev_meta : gmap Z nvme_meta;
  ndev_bar0 : Z; ndev_bars : gmap Z Z; ndev_dbs : Z;
  ndev_cmd_pool : Z; ndev_queue_pool : Z; ndev_meta_pool : Z;
  ndev_irq_set : nvme_irq_set; ndev_cap : nvme_capability;
  ndev_hmb : option nvme_hmb; ndev_cmb : option nvme_cmb;
  ndev_pmr : option nvme_pmr; ndev_res : list probe_res;
  ndev_reg_cap : Z; ndev_q_depth : Z; ndev_db_stride : Z;
  ndev_opened : bool; ndev_instance : Z }.
#[export] Instance eta_nvme_device : Eta nvme_device := λ d,
  Build_nvme_device (ndev_pdev d) (ndev_sqs d) (ndev_cqs d) (ndev_meta d)
    (ndev_bar0 d) (ndev_bars d) (ndev_dbs d) (ndev_cmd_pool d) (ndev_queue_pool d)
    (ndev_meta_pool d) (ndev_irq_set d) (ndev_cap d) (ndev_hmb d) (ndev_cmb d)
    (ndev_pmr d) (ndev_res d)
    (ndev_reg_cap d) (ndev_q_depth d) (ndev_db_stride d) (ndev_opened d)
    (ndev_instance d).
