(* ===== verification/Kernel.v ===== *)
(** * The kernel the driver runs in

    The services of the kernel are not part of the sources: their answers are
    the parameter [Env], a function of the complete history of the calls made so
    far, so any behaviour over time is covered.  What the driver itself must get
    right about them is kept as state: the live allocations ([w_heap], with kind
    and size, so that a leak, a double free and a free with the wrong size are
    visible), the pinned pages, the mapped scatterlists, the registered interrupt
    handlers and the interrupt mode of the function.

    Driver code runs in the monad [M]: a step either returns ([Val]), faults
    ([Oops]: NULL dereference, access outside a buffer, bad free, [BUG_ON]) or
    exceeds its iteration bound ([Hang]). *)

From S2P Require Import Prelude Types.

(** ** Calls to the environment *)

(** What [copy_to_user] hands to user space. *)
Inductive upayload :=
| UP_bytes (bs : list Z)
| UP_64b_cmd (c : nvme_64b_cmd)
| UP_sq (q : nvme_sq_public)
| UP_cq (q : nvme_cq_public)
| UP_inquiry (i : nvme_inquiry)
| UP_reap (r : nvme_reap)
| UP_hmb (desc_list page_size nr_desc : Z)
| UP_u16 (v : Z)
| UP_dev_info (devno family : Z)
| UP_iops (r : nt_iops)
| UP_cap_pm (c : pci_cap_pm) | UP_cap_msi (c : pci_cap_msi)
| UP_cap_express (c : pci_cap_express) | UP_cap_msix (c : pci_cap_msix)
| UP_cap_ltr (c : pci_ext_cap_ltr) | UP_cap_l1ss (c : pci_ext_cap_l1ss)
| UP_cap_offset (offset : Z).

(** The calls of [probe] and [remove]. *)
Inductive probe_call :=
| PC_dma_supported | PC_dma_mask | PC_dma_coherent_mask
| PC_pool_create (which : Z) | PC_pool_destroy (p : Z)
| PC_ida_get | PC_ida_remove (i : Z)
| PC_set_name | PC_free_name | PC_cdev_add | PC_cdev_del
| PC_select_bars | PC_request_region (idx : Z) | PC_release_region (idx : Z)
| PC_ioremap (idx : Z) | PC_iounmap (p : Z)
| PC_res_start (idx : Z) | PC_res_len (idx : Z) | PC_bus_address (idx : Z)
| PC_set_master | PC_enable | PC_disable
| PC_find_capability (id : Z) | PC_find_ext_capability (id : Z)
| PC_p2p_add (bar size off : Z) | PC_p2p_publish
| PC_list_add | PC_list_del.

Inductive event :=
| E_kmalloc (size : Z)
| E_kfree (p : Z)
| E_dma_alloc (size : Z)
| E_dma_free (p size : Z)
| E_p2p_alloc (size : Z)
| E_p2p_bus (p : Z)
| E_p2p_free (p size : Z)
| E_pool_alloc (pool : Z)
| E_pool_free (pool p : Z)
| E_gup (addr n : Z)
| E_put_pages (n : Z)
| E_vmap (n : Z)
| E_vunmap (p : Z)
| E_map_sg (n : Z)
| E_unmap_sg (n : Z)
| E_sync_sg
| E_copy_from_user
| E_copy_to_user (u : upayload)
| E_xa_insert (idx : Z)
| E_readb (a : Z) | E_readw (a : Z) | E_readl (a : Z)
| E_writeb (a v : Z) | E_writew (a v : Z) | E_writel (a v : Z)
| E_cfg_read (w off : Z)
| E_cfg_write (w off v : Z)
| E_request_irq (vec : Z)
| E_free_irq (vec : Z)
| E_enable_msi | E_disable_msi
| E_alloc_vectors (n : Z)
| E_enable_msix (n : Z) | E_disable_msix
| E_create_wq | E_flush_wq | E_destroy_wq
| E_jiffies
| E_sleep
| E_ktime
| E_virt_to_phys (p : Z)
| E_remap (pfn len : Z)
| E_pcie (what : Z)
| E_genlmsg_new | E_genlmsg_put
| E_genl_unicast (status : Z) (num : option Z)
| E_probe (c : probe_call).

Abbreviation history := (list event).

(** The environment: the integer a call returns, the bus address a mapping call
    assigns, the entries [dma_map_sg] produces, the bytes of fresh memory, the vector
    MSI-X entry [i] gets, what [sort] of [linux/sort.h] makes of an array of bit
    buckets;
    the head of the history is the call being answered. *)
Class Env := {
  ans : history → Z;
  ans_dma : history → Z;
  ans_sg : history → Z → scatterlist;
  ans_fill : history → Z → Z;
  ans_vector : history → Z → Z;
  ans_sort : list nvme_sgl_bit_bucket → list nvme_sgl_bit_bucket;
  (** [CONFIG_DNVME_FLUSH_REG_WRITE] *)
  cfg_flush_reg_write : bool;
  (** [CONFIG_HZ] *)
  cfg_hz : Z }.

(** ** World *)

Inductive akind :=
  AK_kmalloc | AK_coherent | AK_p2p | AK_pool (pool : Z) | AK_vmap | AK_wq.
#[export] Instance akind_eq_dec : EqDecision akind.
Proof. solve_decision. Defined.

Record block := mk_block { blk_kind : akind; blk_size : Z; blk_data : list Z }.
#[export] Instance eta_block : Eta block := λ b,
  mk_block (blk_kind b) (blk_size b) (blk_data b).

Inductive int_mode := MODE_none | MODE_msi | MODE_msix.

Record world := {
  w_dev : nvme_device;
  w_heap : gmap Z block;
  w_pins : Z;
  w_sgmaps : Z;
  w_irqs : list Z;
  w_mode : int_mode;
  w_hist : history }.
#[export] Instance eta_world : Eta world := λ w,
  Build_world (w_dev w) (w_heap w) (w_pins w) (w_sgmaps w)
    (w_irqs w) (w_mode w) (w_hist w).

(** ** The monad *)

Inductive fault :=
| F_null          (** dereference of NULL *)
| F_uaf           (** use of an object that is not allocated any more *)
| F_bad_free      (** free of a dead pointer, or with the wrong kind or size *)
| F_oob           (** access outside a buffer *)
| F_bug           (** BUG_ON *)
| F_uninit        (** use of an uninitialised pointer *)
| F_ub.           (** division by zero, shift beyond the width *)

Inductive outcome (A : Type) : Type :=
| Val (a : A) (w : world)
| Oops (f : fault)
| Hang.
Arguments Val {A} a w.
Arguments Oops {A} f.
Arguments Hang {A}.

Definition M (A : Type) : Type := world → outcome A.

#[export] Instance M_ret : MRet M := λ A a w, Val a w.
#[export] Instance M_bind : MBind M := λ A B f m w,
  match m w with
  | Val a w' => f a w'
  | Oops e => Oops e
  | Hang => Hang
  end.

Definition oops {A} (f : fault) : M A := λ _, Oops f.
Definition hang {A} : M A := λ _, Hang.
Definition gets {A} (f : world → A) : M A := λ w, Val (f w) w.
Definition modify (f : world → world) : M unit := λ w, Val tt (f w).

(** Running a loop body over a list, left to right. *)
Fixpoint mapM_ {A} (f : A → M unit) (l : list A) : M unit :=
  match l with
  | [] => mret tt
  | x :: l => f x;; mapM_ f l
  end.

Fixpoint foldM {A B} (f : B → A → M B) (b : B) (l : list A) : M B :=
  match l with
  | [] => mret b
  | x :: l => b' ← f b x; foldM f b' l
  end.

(** ** Weakest preconditions

    [wp m Q w]: run from [w], [m] returns (it neither faults nor hangs) with a
    value and a world that satisfy [Q]. *)

Definition wp {A} (m : M A) (Q : A → world → Prop) (w : world) : Prop :=
  match m w with
  | Val a w' => Q a w'
  | Oops _ | Hang => False
  end.

Section wp_rules.
Context {A B : Type}.
Implicit Types (w : world).

Lemma wp_ret (a : A) Q w : Q a w → wp (mret a) Q w.
Proof. done. Qed.

Lemma wp_bind (m : M A) (f : A → M B) Q w :
  wp m (λ a, wp (f a) Q) w → wp (x ← m; f x) Q w.
Proof. unfold wp, mbind, M_bind. by destruct (m w). Qed.

Lemma wp_bind_inv (m : M A) (f : A → M B) Q w :
  wp (x ← m; f x) Q w → wp m (λ a, wp (f a) Q) w.
Proof. unfold wp, mbind, M_bind. by destruct (m w). Qed.

Lemma wp_mono (m : M A) (Q Q' : A → world → Prop) w :
  wp m Q w → (∀ a w', Q a w' → Q' a w') → wp m Q' w.
Proof. unfold wp. destruct (m w); naive_solver. Qed.

Lemma wp_gets (f : world → A) Q w : Q (f w) w → wp (gets f) Q w.
Proof. done. Qed.

Lemma wp_modify (f : world → world) Q w : Q tt (f w) → wp (modify f) Q w.
Proof. done. Qed.

Lemma wp_run (m : M A) Q w : wp m Q w ↔ ∃ a w', m w = Val a w' ∧ Q a w'.
Proof.
  unfold wp. destruct (m w) as [a w'| |]; split;
    [eauto|intros (?&?&[= -> ->]&?); done|done|intros (?&?&?&?); done
    |done|intros (?&?&?&?); done].
Qed.

Lemma wp_and (m : M A) (Q Q' : A → world → Prop) w :
  wp m Q w → wp m Q' w → wp m (λ a w', Q a w' ∧ Q' a w') w.
Proof. unfold wp. destruct (m w); naive_solver. Qed.
End wp_rules.

(** Invariant of a loop over a list. *)
Lemma wp_mapM_ {A} (f : A → M unit) (I : list A → world → Prop)
    (Q : unit → world → Prop) l w :
  I l w →
  (∀ x l' w', I (x :: l') w' → wp (f x) (λ _, I l') w') →
  (∀ w', I [] w' → Q tt w') →
  wp (mapM_ f l) Q w.
Proof.
  intros HI Hstep HQ. revert w HI.
  induction l as [|x l IH]; intros w HI; simpl; [by apply HQ|].
  apply wp_bind. eapply wp_mono; [by apply Hstep|]. auto.
Qed.

(** ** Kernel services *)

Section services.
Context {E : Env}.

(** Make the call [e]; the environment answers from the history. *)
Definition ext (e : event) : M Z := λ w,
  let h := e :: w_hist w in Val (ans h) (w <| w_hist := h |>).
Definition ext_dma (e : event) : M (Z * Z) := λ w,
  let h := e :: w_hist w in Val (ans h, ans_dma h) (w <| w_hist := h |>).
Definition emit (e : event) : M unit := modify (λ w, w <| w_hist ::= cons e |>).

(** *** Allocation *)

(** An address that no live allocation has; never [NULL]. *)
Definition fresh_ptr (h : gmap Z block) : Z :=
  1 + map_fold (λ k _ m, Z.max k m) 0 h.

Definition new_block (k : akind) (size : Z) (data : list Z) : M Z := λ w,
  let p := fresh_ptr (w_heap w) in
  Val p (w <| w_heap ::= <[p := mk_block k size data]> |>).

Definition zeros (n : Z) : list Z := replicate (Z.to_nat n) 0.
Definition unset_bytes (h : history) (n : Z) : list Z :=
  (λ i, u8 (ans_fill h i)) <$> seqZ 0 n.

(** [kzalloc], [kmalloc], [kcalloc]: [0] when the request fails. *)
Definition kmalloc (size : Z) : M Z :=
  r ← ext (E_kmalloc size);
  if r =? 0 then mret 0 else new_block AK_kmalloc size [].

(** Give [p] back: it must be live, of kind [k], and of size [size] when the
    interface takes the size. *)
Definition free_block (k : akind) (p : Z) (size : option Z) : M unit := λ w,
  match w_heap w !! p with
  | Some b =>
    if decide (blk_kind b = k ∧ default (blk_size b) size = blk_size b)
    then Val tt (w <| w_heap ::= delete p |>)
    else Oops F_bad_free
  | None => Oops F_bad_free
  end.

(** [kfree(NULL)] does nothing. *)
Definition kfree (p : Z) : M unit :=
  if p =? 0 then mret tt
  else emit (E_kfree p);; free_block AK_kmalloc p None.

(** [dma_alloc_coherent] returns zeroed memory and its bus address. *)
Definition dma_alloc_coherent (size : Z) : M (Z * Z) :=
  '(r, dma) ← ext_dma (E_dma_alloc size);
  if r =? 0 then mret (0, 0)
  else p ← new_block AK_coherent size (zeros size); mret (p, u64 dma).
Definition dma_free_coherent (size p : Z) : M unit :=
  emit (E_dma_free p size);; free_block AK_coherent p (Some size).

Definition pci_alloc_p2pmem (size : Z) : M Z :=
  r ← ext (E_p2p_alloc size);
  if r =? 0 then mret 0
  else h ← gets w_hist; new_block AK_p2p size (unset_bytes h size).
Definition pci_p2pmem_virt_to_bus (p : Z) : M Z :=
  '(_, dma) ← ext_dma (E_p2p_bus p); mret (u64 dma).
Definition pci_free_p2pmem (p size : Z) : M unit :=
  emit (E_p2p_free p size);; free_block AK_p2p p (Some size).

(** [dma_pool_alloc(pool, __GFP_ZERO)]; the pools have blocks of one page. *)
Definition dma_pool_alloc (pool : Z) : M (Z * Z) :=
  '(r, dma) ← ext_dma (E_pool_alloc pool);
  if r =? 0 then mret (0, 0)
  else p ← new_block (AK_pool pool) PAGE_SIZE []; mret (p, u64 dma).
Definition dma_pool_free (pool p : Z) : M unit :=
  emit (E_pool_free pool p);; free_block (AK_pool pool) p None.

(** *** Memory contents *)

Definition get_block (p : Z) : M block := λ w,
  if p =? 0 then Oops F_null
  else match w_heap w !! p with
       | Some b => Val b w
       | None => Oops F_uaf
       end.
Definition put_data (p : Z) (bs : list Z) : M unit :=
  modify (λ w, w <| w_heap ::= alter (λ b, b <| blk_data := bs |>) p |>).

(** [memset(p, 0, size)] *)
Definition memset0 (p size : Z) : M unit :=
  b ← get_block p;
  match store_bytes (blk_data b) 0 (zeros size) with
  | Some d => put_data p d
  | None => oops F_oob
  end.
(** [memcpy(p + off, bs, length bs)] *)
Definition mem_write (p off : Z) (bs : list Z) : M unit :=
  b ← get_block p;
  match store_bytes (blk_data b) off bs with
  | Some d => put_data p d
  | None => oops F_oob
  end.
(** [memcpy(dst, p + off, n)] *)
Definition mem_read (p off n : Z) : M (list Z) :=
  b ← get_block p;
  match load_bytes (blk_data b) off n with
  | Some d => mret d
  | None => oops F_oob
  end.

(** *** User memory: [true] when the copy went through *)

Definition copy_from_user : M bool :=
  r ← ext E_copy_from_user; mret (r =? 0).
Definition copy_to_user (u : upayload) : M bool :=
  r ← ext (E_copy_to_user u); mret (r =? 0).

(** [get_user_pages_fast]: the number of pages pinned, or an error. *)
Definition get_user_pages_fast (addr n : Z) : M Z :=
  r ← ext (E_gup addr n);
  let r := Z.min (s32 r) n in
  modify (λ w, w <| w_pins ::= Z.add (Z.max 0 r) |>);;
  mret r.
Definition put_pages (n : Z) : M unit :=
  emit (E_put_pages n);;
  modify (λ w, w <| w_pins ::= λ x, x - Z.max 0 n |>).

Definition vmap (n : Z) : M Z :=
  r ← ext (E_vmap n);
  if r =? 0 then mret 0
  else h ← gets w_hist;
       new_block AK_vmap (n * PAGE_SIZE) (unset_bytes h (n * PAGE_SIZE)).
Definition vunmap (p : Z) : M unit :=
  if p =? 0 then mret tt
  else emit (E_vunmap p);; free_block AK_vmap p None.

(** The table as the mapping call that ends [h] leaves it. *)
Definition sg_answer (h : history) (n : Z) : list scatterlist :=
  (λ i, mk_sg (u64 (sg_dma_address (ans_sg h i))) (u32 (sg_dma_len (ans_sg h i)))) <$> seqZ 0 n.
(** [dma_map_sg] on a table of [n] entries: the number of entries mapped (not
    positive on failure), and the DMA addresses and lengths it left in the
    table. *)
Definition dma_map_sg (n : Z) : M (Z * list scatterlist) := λ w,
  let h := E_map_sg n :: w_hist w in
  let r := s32 (ans h) in
  Val (r, sg_answer h n)
    (w <| w_hist := h |>
       <| w_sgmaps ::= λ x, if 0 <? r then x + 1 else x |>).
Definition dma_unmap_sg (n : Z) : M unit :=
  emit (E_unmap_sg n);; modify (λ w, w <| w_sgmaps ::= λ x, x - 1 |>).

(** *** Workqueues *)

Definition create_workqueue : M Z :=
  r ← ext E_create_wq;
  if r =? 0 then mret 0 else new_block AK_wq 0 [].
Definition destroy_workqueue (p : Z) : M unit :=
  emit E_destroy_wq;; free_block AK_wq p None.

(** *** Registers *)

Definition readb (a : Z) : M Z := r ← ext (E_readb a); mret (u8 r).
Definition readw (a : Z) : M Z := r ← ext (E_readw a); mret (u16 r).
Definition readl (a : Z) : M Z := r ← ext (E_readl a); mret (u32 r).
Definition writeb (v a : Z) : M unit := emit (E_writeb a (u8 v)).
Definition writew (v a : Z) : M unit := emit (E_writew a (u16 v)).
Definition writel (v a : Z) : M unit := emit (E_writel a (u32 v)).
(** [linux/io-64-nonatomic-lo-hi.h]: two 32-bit accesses, the low one first. *)
Definition lo_hi_readq (a : Z) : M Z :=
  lo ← readl a; hi ← readl (a + 4); mret (Z.lor lo (Z.shiftl hi 32)).
Definition lo_hi_writeq (v a : Z) : M unit :=
  writel v a;; writel (Z.shiftr (u64 v) 32) (a + 4).

(** *** Interrupt vectors *)

Definition request_irq (vec : Z) : M Z :=
  r ← ext (E_request_irq vec);
  if s32 r <? 0 then mret (s32 r)
  else modify (λ w, w <| w_irqs ::= cons vec |>);; mret 0.
Fixpoint remove_one (x : Z) (l : list Z) : list Z :=
  match l with
  | [] => []
  | y :: l => if x =? y then l else y :: remove_one x l
  end.
Definition free_irq (vec : Z) : M unit :=
  emit (E_free_irq vec);; modify (λ w, w <| w_irqs ::= remove_one vec |>).

Definition set_pdev_irq (v : Z) : M unit :=
  modify (λ w, w <| w_dev ::= λ d, d <| ndev_pdev ::= λ p, p <| pdev_irq := v |> |> |>).
Definition set_mode (m : int_mode) : M unit := modify (λ w, w <| w_mode := m |>).

(** A successful call switches the function to MSI and changes [pdev->irq]. *)
Definition pci_enable_msi : M Z :=
  r ← ext E_enable_msi;
  if s32 r <? 0 then mret (s32 r)
  else h ← gets w_hist;
       set_mode MODE_msi;; set_pdev_irq (u32 (ans_vector h 0));; mret 0.
(** With equal bounds the call gives exactly [n] vectors or an error. *)
Definition pci_alloc_irq_vectors (n : Z) : M Z :=
  r ← ext (E_alloc_vectors n);
  if s32 r <? 0 then mret (s32 r)
  else h ← gets w_hist;
       set_mode MODE_msi;; set_pdev_irq (u32 (ans_vector h 0));; mret n.
(** The vectors of the entries [0 .. n-1]. *)
Definition pci_enable_msix_range (n : Z) : M (Z * list Z) :=
  r ← ext (E_enable_msix n);
  if s32 r <? 0 then mret (s32 r, [])
  else h ← gets w_hist;
       set_mode MODE_msix;;
       mret (n, (λ i, u32 (ans_vector h i)) <$> seqZ 0 n).
(** The handlers must be freed before the vectors are given back: the kernel
    stops with [BUG_ON] otherwise. *)
Definition pci_disable_vectors (e : event) : M unit :=
  irqs ← gets w_irqs;
  match irqs with
  | [] => emit e;; set_mode MODE_none
  | _ :: _ => oops F_bug
  end.
Definition pci_disable_msi : M unit := pci_disable_vectors E_disable_msi.
Definition pci_disable_msix : M unit := pci_disable_vectors E_disable_msix.
End services.

(** ** The device structure *)

Definition get_dev : M nvme_device := gets w_dev.
Definition upd_dev (f : nvme_device → nvme_device) : M unit :=
  modify (λ w, w <| w_dev ::= f |>).

(** ** Facts on allocation *)

Lemma map_fold_max_bound (h : gmap Z block) :
  0 ≤ map_fold (λ k _ m, Z.max k m) 0 h ∧
  ∀ p, is_Some (h !! p) → p ≤ map_fold (λ k _ m, Z.max k m) 0 h.
Proof.
  apply (map_fold_weak_ind
    (λ m (h : gmap Z block), 0 ≤ m ∧ ∀ p, is_Some (h !! p) → p ≤ m)).
  - split; [done|]. intros p Hp. rewrite lookup_empty in Hp. by destruct Hp.
  - intros i x m r _ [Hr IH]. split; [lia|]. intros p.
    rewrite lookup_insert_is_Some. intros [<-|[_ Hp]]; [lia|].
    specialize (IH p Hp). lia.
Qed.

Lemma fresh_ptr_None h : h !! fresh_ptr h = None.
Proof.
  destruct (h !! fresh_ptr h) eqn:Hl; [|done]. exfalso.
  destruct (map_fold_max_bound h) as [_ Hb].
  specialize (Hb (fresh_ptr h) ltac:(eauto)). unfold fresh_ptr in *. lia.
Qed.

Lemma fresh_ptr_pos h : 0 < fresh_ptr h.
Proof. destruct (map_fold_max_bound h). unfold fresh_ptr. lia. Qed.

(** ** PCI configuration space *)

(** [pcibios_err_to_errno] of [linux/pci.h]. *)
Definition pcibios_err_to_errno (err : Z) : Z :=
  if err <=? 0 then err
  else if err =? 0x81 then - ENOENT
  else if err =? 0x83 then - 25
  else if err =? 0x86 then - ENODEV
  else if err =? 0x87 then - EFAULT
  else if err =? 0x88 then - 5
  else if err =? 0x89 then - ENOSPC
  else - 34.

Section config_space.
Context {E : Env}.

(** [pci_read_config_byte/word/dword]: the PCIBIOS status and the value of the
    [n] bytes at [off]. *)
Definition pci_read_config (n off : Z) : M (Z * Z) :=
  '(st, v) ← ext_dma (E_cfg_read n off); mret (s32 st, v mod 2 ^ (8 * n)).
Definition pci_write_config (n off v : Z) : M Z :=
  st ← ext (E_cfg_write n off v); mret (s32 st).
End config_space.

(** ** Proof automation

    [wp_step] executes the next operation of a program; [wp_steps] repeats it
    until a branch of the program, which is split by [wp_case]. *)

Create HintDb wp.

Lemma wp_ext `{Env} e Q w :
  Q (ans (e :: w_hist w)) (w <| w_hist := e :: w_hist w |>) → wp (ext e) Q w.
Proof. done. Qed.
Lemma wp_emit e Q w : Q tt (w <| w_hist ::= cons e |>) → wp (emit e) Q w.
Proof. done. Qed.
Lemma wp_ext_dma `{Env} e (Q : Z * Z → world → Prop) w :
  Q (ans (e :: w_hist w), ans_dma (e :: w_hist w))
    (w <| w_hist := e :: w_hist w |>) →
  wp (ext_dma e) Q w.
Proof. done. Qed.

Lemma wp_if {A} (b : bool) (m1 m2 : M A) Q w :
  (b = true → wp m1 Q w) → (b = false → wp m2 Q w) →
  wp (if b then m1 else m2) Q w.
Proof. destruct b; auto. Qed.

Lemma wp_new_block k size d (Q : Z → world → Prop) w :
  (∀ p, 0 < p → w_heap w !! p = None →
    Q p (w <| w_heap ::= <[p := mk_block k size d]> |>)) →
  wp (new_block k size d) Q w.
Proof. intros HQ. apply (HQ _ (fresh_ptr_pos _) (fresh_ptr_None _)). Qed.

Lemma wp_kmalloc `{Env} size (Q : Z → world → Prop) w :
  Q 0 (w <| w_hist ::= cons (E_kmalloc size) |>) →
  (∀ p, 0 < p → w_heap w !! p = None →
    Q p (w <| w_hist ::= cons (E_kmalloc size) |>
           <| w_heap ::= <[p := mk_block AK_kmalloc size []]> |>)) →
  wp (kmalloc size) Q w.
Proof.
  intros H0 H1. unfold kmalloc. apply wp_bind, wp_ext. apply wp_if; intros _.
  - apply wp_ret, H0.
  - apply wp_new_block, H1.
Qed.

Lemma wp_kfree p (Q : unit → world → Prop) w :
  (∃ b, w_heap w !! p = Some b ∧ blk_kind b = AK_kmalloc) ∧
    Q tt (w <| w_hist ::= cons (E_kfree p) |> <| w_heap ::= delete p |>) ∧ p ≠ 0 ∨
  p = 0 ∧ Q tt w →
  wp (kfree p) Q w.
Proof.
  unfold kfree. intros [((b&Hb&Hk)&HQ&Hp)|[-> HQ]]; [|done].
  destruct (Z.eqb_spec p 0); [lia|].
  apply wp_bind, wp_emit. unfold wp, free_block. simpl. rewrite Hb.
  by rewrite decide_True.
Qed.

(** [hist_only w w']: between [w] and [w'] only the history has grown. *)
Definition hist_only (w w' : world) : Prop :=
  ∃ h, w' = w <| w_hist := h ++ w_hist w |>.

#[export] Instance hist_only_preorder : PreOrder hist_only.
Proof.
  split.
  - intros w. exists []. by destruct w.
  - intros w1 w2 w3 [h1 ->] [h2 ->]. exists (h2 ++ h1). simpl.
    by rewrite <- (assoc_L (++)).
Qed.

Lemma hist_only_cons w e : hist_only w (w <| w_hist := e :: w_hist w |>).
Proof. by exists [e]. Qed.
Lemma hist_only_emit w e : hist_only w (w <| w_hist ::= cons e |>).
Proof. by exists [e]. Qed.
#[export] Hint Resolve hist_only_cons hist_only_emit : wp.

Lemma hist_only_dev w w' : hist_only w w' → w_dev w' = w_dev w.
Proof. by intros [h ->]. Qed.
Lemma hist_only_heap w w' : hist_only w w' → w_heap w' = w_heap w.
Proof. by intros [h ->]. Qed.

(** ** A concrete environment

    Every allocation succeeds with new bus addresses, every user copy goes
    through, mappings are page by page. *)
Definition demo_env : Env := {|
  ans h := match h with
           | (E_kmalloc _ | E_dma_alloc _ | E_p2p_alloc _ | E_pool_alloc _ | E_vmap _) :: _ => 1
           | (E_gup _ n | E_map_sg n) :: _ => n
           | E_create_wq :: _ => 1
           | _ => 0
           end;
  ans_dma h := 4096 * (1 + Z.of_nat (length h));
  ans_sg _ i := mk_sg (0x100000 + 4096 * i) 4096;
  ans_fill _ _ := 0;
  ans_vector _ i := 32 + i;
  ans_sort l := merge_sort bb_le l;
  cfg_flush_reg_write := false;
  cfg_hz := 1000 |}.

Definition demo_dev : nvme_device := {|
  ndev_pdev := {| pdev_irq := 11; pdev_vendor := 0x1e4b; pdev_device := 0x1202;
                  pdev_bus_number := 1; pdev_devfn := 0 |};
  ndev_sqs := ∅; ndev_cqs := ∅; ndev_meta := ∅;
  ndev_bar0 := 0x10000; ndev_bars := ∅; ndev_dbs := 0x11000;
  ndev_cmd_pool := 1; ndev_queue_pool := 2; ndev_meta_pool := 3;
  ndev_irq_set := {| is_irq_list := []; is_msix_irqs := 0; is_msix_tb := 0;
                     is_msix_pba := 0; is_irq_type := NVME_INT_NONE; is_nr_irq := 0;
                     is_wq := 0; is_wq_pending := []; is_work_list := [] |};
  ndev_cap := no_capability;
  ndev_hmb := None; ndev_cmb := None; ndev_pmr := None; ndev_res := [];
  ndev_reg_cap := 0x3ff; ndev_q_depth := 1024; ndev_db_stride := 1;
  ndev_opened := true; ndev_instance := 0 |}.

Definition demo_world : world := {|
  w_dev := demo_dev; w_heap := ∅; w_pins := 0; w_sgmaps := 0; w_irqs := [];
  w_mode := MODE_none; w_hist := [] |}.
