(* ===== verification/Io.v ===== *)
(** * Register and configuration-space access

    [modules/dnvme/io.h] and [modules/dnvme/io.c], and the generic read/write
    ioctls of [modules/dnvme/ioctl.c] that drive them.  The buffer is the byte
    list of the kernel buffer; the loops are the [do ... while] loops of the
    sources, with the number of bytes as iteration bound (each round moves [idx]
    by at least one). *)

From S2P Require Import Prelude Types Kernel.

Section io.
Context {E : Env}.

(** ** [io.h] *)

Definition dnvme_readb (base oft : Z) : M Z := readb (base + oft).
Definition dnvme_writeb (base oft val : Z) : M unit := writeb val (base + oft).
Definition dnvme_readw (base oft : Z) : M Z := readw (base + oft).
Definition dnvme_writew (base oft val : Z) : M unit := writew val (base + oft).
Definition dnvme_readl (base oft : Z) : M Z := readl (base + oft).
Definition dnvme_writel (base oft val : Z) : M unit := writel val (base + oft).
Definition dnvme_readq (base oft : Z) : M Z := lo_hi_readq (base + oft).
Definition dnvme_writeq (base oft val : Z) : M unit := lo_hi_writeq val (base + oft).

(** [*(uN * )(buf + idx) = v] and [*(uN * )(buf + idx)] on the kernel buffer. *)
Definition buf_store (n : nat) (buf : list Z) (idx v : Z) : M (list Z) :=
  match store_le n buf idx v with Some b => mret b | None => oops F_oob end.
Definition buf_load (n : nat) (buf : list Z) (idx : Z) : M Z :=
  match load_le n buf idx with Some v => mret v | None => oops F_oob end.

(** ** [io.c] *)

(** One round of the read loop: the status, the buffer and [idx] after it;
    [None] is the [default:] case of the switch. *)
Definition read_config_round (access : nvme_access) (idx : Z) (buf : list Z) :
    M (option (Z * list Z * Z)) :=
  match acc_type access with
  | NVME_ACCESS_DWORD =>
    '(ret, v) ← pci_read_config 4 (u32 (acc_offset access + idx));
    buf ← buf_store 4 buf idx v; mret (Some (ret, buf, u32 (idx + 4)))
  | NVME_ACCESS_WORD =>
    '(ret, v) ← pci_read_config 2 (u32 (acc_offset access + idx));
    buf ← buf_store 2 buf idx v; mret (Some (ret, buf, u32 (idx + 2)))
  | NVME_ACCESS_BYTE =>
    '(ret, v) ← pci_read_config 1 (u32 (acc_offset access + idx));
    buf ← buf_store 1 buf idx v; mret (Some (ret, buf, u32 (idx + 1)))
  | NVME_ACCESS_QWORD | NVME_ACCESS_OTHER _ => mret None
  end.

Fixpoint read_config_loop (fuel : nat) (access : nvme_access) (idx : Z)
    (buf : list Z) : M (Z * list Z) :=
  match fuel with
  | O => hang
  | S fuel =>
    r ← read_config_round access idx buf;
    match r with
    | None => mret (- EINVAL, buf)
    | Some (ret, buf, idx) =>
      let ret := pcibios_err_to_errno ret in
      if ret <? 0 then mret (ret, buf)
      else if idx <? acc_bytes access
      then read_config_loop fuel access idx buf
      else mret (0, buf)
    end
  end.

Definition dnvme_read_from_config (access : nvme_access) (buf : list Z) :
    M (Z * list Z) :=
  if PCI_CFG_SPACE_EXP_SIZE <? u32 (acc_offset access + acc_bytes access)
  then mret (- EINVAL, buf)
  else read_config_loop (S (Z.to_nat (acc_bytes access))) access 0 buf.

Definition write_config_round (access : nvme_access) (idx : Z) (buf : list Z) :
    M (option (Z * Z)) :=
  match acc_type access with
  | NVME_ACCESS_DWORD =>
    v ← buf_load 4 buf idx;
    ret ← pci_write_config 4 (u32 (acc_offset access + idx)) v;
    mret (Some (ret, u32 (idx + 4)))
  | NVME_ACCESS_WORD =>
    v ← buf_load 2 buf idx;
    ret ← pci_write_config 2 (u32 (acc_offset access + idx)) v;
    mret (Some (ret, u32 (idx + 2)))
  | NVME_ACCESS_BYTE =>
    v ← buf_load 1 buf idx;
    ret ← pci_write_config 1 (u32 (acc_offset access + idx)) v;
    mret (Some (ret, u32 (idx + 1)))
  | NVME_ACCESS_QWORD | NVME_ACCESS_OTHER _ => mret None
  end.

Fixpoint write_config_loop (fuel : nat) (access : nvme_access) (idx : Z)
    (buf : list Z) : M Z :=
  match fuel with
  | O => hang
  | S fuel =>
    r ← write_config_round access idx buf;
    match r with
    | None => mret (- EINVAL)
    | Some (ret, idx) =>
      let ret := pcibios_err_to_errno ret in
      if ret <? 0 then mret ret
      else if idx <? acc_bytes access
      then write_config_loop fuel access idx buf
      else mret 0
    end
  end.

Definition dnvme_write_to_config (access : nvme_access) (buf : list Z) : M Z :=
  if PCI_CFG_SPACE_EXP_SIZE <? u32 (acc_offset access + acc_bytes access)
  then mret (- EINVAL)
  else write_config_loop (S (Z.to_nat (acc_bytes access))) access 0 buf.

Definition read_bar_round (bar : Z) (access : nvme_access) (idx : Z)
    (buf : list Z) : M (option (list Z * Z)) :=
  let oft := u32 (acc_offset access + idx) in
  match acc_type access with
  | NVME_ACCESS_QWORD =>
    v ← dnvme_readq bar oft; buf ← buf_store 8 buf idx v;
    mret (Some (buf, u32 (idx + 8)))
  | NVME_ACCESS_DWORD =>
    v ← dnvme_readl bar oft; buf ← buf_store 4 buf idx v;
    mret (Some (buf, u32 (idx + 4)))
  | NVME_ACCESS_WORD =>
    v ← dnvme_readw bar oft; buf ← buf_store 2 buf idx v;
    mret (Some (buf, u32 (idx + 2)))
  | NVME_ACCESS_BYTE =>
    v ← dnvme_readb bar oft; buf ← buf_store 1 buf idx v;
    mret (Some (buf, u32 (idx + 1)))
  | NVME_ACCESS_OTHER _ => mret None
  end.

Fixpoint read_bar_loop (fuel : nat) (bar : Z) (access : nvme_access) (idx : Z)
    (buf : list Z) : M (Z * list Z) :=
  match fuel with
  | O => hang
  | S fuel =>
    r ← read_bar_round bar access idx buf;
    match r with
    | None => mret (- EINVAL, buf)
    | Some (buf, idx) =>
      if idx <? acc_bytes access then read_bar_loop fuel bar access idx buf
      else mret (0, buf)
    end
  end.

Definition dnvme_read_from_bar (bar : Z) (access : nvme_access) (buf : list Z) :
    M (Z * list Z) :=
  read_bar_loop (S (Z.to_nat (acc_bytes access))) bar access 0 buf.

Definition write_bar_round (bar : Z) (access : nvme_access) (idx : Z)
    (buf : list Z) : M (option Z) :=
  let oft := u32 (acc_offset access + idx) in
  match acc_type access with
  | NVME_ACCESS_QWORD =>
    v ← buf_load 8 buf idx; dnvme_writeq bar oft v;; mret (Some (u32 (idx + 8)))
  | NVME_ACCESS_DWORD =>
    v ← buf_load 4 buf idx; dnvme_writel bar oft v;; mret (Some (u32 (idx + 4)))
  | NVME_ACCESS_WORD =>
    v ← buf_load 2 buf idx; dnvme_writew bar oft v;; mret (Some (u32 (idx + 2)))
  | NVME_ACCESS_BYTE =>
    v ← buf_load 1 buf idx; dnvme_writeb bar oft v;; mret (Some (u32 (idx + 1)))
  | NVME_ACCESS_OTHER _ => mret None
  end.

Fixpoint write_bar_loop (fuel : nat) (bar : Z) (access : nvme_access) (idx : Z)
    (buf : list Z) : M Z :=
  match fuel with
  | O => hang
  | S fuel =>
    r ← write_bar_round bar access idx buf;
    match r with
    | None => mret (- EINVAL)
    | Some idx =>
      if idx <? acc_bytes access then write_bar_loop fuel bar access idx buf
      else mret 0
    end
  end.

Definition dnvme_write_to_bar (bar : Z) (access : nvme_access) (buf : list Z) :
    M Z :=
  write_bar_loop (S (Z.to_nat (acc_bytes access))) bar access 0 buf.

(** ** The ioctls of [ioctl.c] *)

Definition dnvme_check_access_align (access : nvme_access) : Z :=
  let bytes := acc_bytes access in let offset := acc_offset access in
  match acc_type access with
  | NVME_ACCESS_QWORD =>
    if negb (bytes mod 8 =? 0) || negb (offset mod 4 =? 0) then - EINVAL else 0
  | NVME_ACCESS_DWORD =>
    if negb (bytes mod 4 =? 0) || negb (offset mod 4 =? 0) then - EINVAL else 0
  | NVME_ACCESS_WORD =>
    if negb (bytes mod 2 =? 0) || negb (offset mod 2 =? 0) then - EINVAL else 0
  | NVME_ACCESS_BYTE | NVME_ACCESS_OTHER _ => 0
  end.

(** [access] is the structure at [uaccess]. *)
Definition dnvme_generic_read (access : nvme_access) : M Z :=
  ok ← copy_from_user;
  if negb ok then mret (- EFAULT)
  else if acc_bytes access =? 0 then mret 0
  else
    let ret := dnvme_check_access_align access in
    if ret <? 0 then mret ret
    else
      p ← kmalloc (acc_bytes access);
      if p =? 0 then mret (- ENOMEM)
      else
        ret ← (let buf := zeros (acc_bytes access) in
          match acc_region access with
          | NVME_PCI_CONFIG =>
            '(ret, buf) ← dnvme_read_from_config access buf;
            if ret <? 0 then mret ret
            else ok ← copy_to_user (UP_bytes buf);
                 mret (if ok : bool then ret else - EFAULT)
          | NVME_BAR0_BAR1 =>
            dev ← get_dev;
            '(ret, buf) ← dnvme_read_from_bar (ndev_bar0 dev) access buf;
            if ret <? 0 then mret ret
            else ok ← copy_to_user (UP_bytes buf);
                 mret (if ok : bool then ret else - EFAULT)
          | NVME_REGION_OTHER _ => mret (- EINVAL)
          end);
        kfree p;;
        mret ret.

(** [data] are the [access.bytes] bytes at [access.buffer]. *)
Definition dnvme_generic_write (access : nvme_access) (data : list Z) : M Z :=
  ok ← copy_from_user;
  if negb ok then mret (- EFAULT)
  else if acc_bytes access =? 0 then mret 0
  else
    let ret := dnvme_check_access_align access in
    if ret <? 0 then mret ret
    else
      p ← kmalloc (acc_bytes access);
      if p =? 0 then mret (- ENOMEM)
      else
        ret ← (ok ← copy_from_user;
          if negb ok then mret (- EFAULT)
          else match acc_region access with
          | NVME_PCI_CONFIG => dnvme_write_to_config access data
          | NVME_BAR0_BAR1 =>
            dev ← get_dev; dnvme_write_to_bar (ndev_bar0 dev) access data
          | NVME_REGION_OTHER _ => mret (- EINVAL)
          end);
        kfree p;;
        mret ret.
End io.

(** ** Memory safety of the loops *)

(** The width of an access, in bytes. *)
Definition access_width (t : nvme_access_type) : option Z :=
  match t with
  | NVME_ACCESS_BYTE => Some 1
  | NVME_ACCESS_WORD => Some 2
  | NVME_ACCESS_DWORD => Some 4
  | NVME_ACCESS_QWORD => Some 8
  | NVME_ACCESS_OTHER _ => None
  end.

Lemma check_access_align_width access k :
  access_width (acc_type access) = Some k →
  dnvme_check_access_align access = 0 → (k | acc_bytes access).
Proof.
  unfold dnvme_check_access_align.
  destruct (acc_type access); intros [= <-]; try (intros _; apply Z.divide_1_l);
  match goal with |- context [?b mod ?m =? 0] => destruct (Z.eqb_spec (b mod m) 0) end;
  simpl; try done; intros _; by apply Z.mod_divide.
Qed.

Lemma access_width_pos t k : access_width t = Some k → 0 < k ≤ 8.
Proof. destruct t; naive_solver lia. Qed.

Section io_safety.
Context {E : Env}.

(** Where the loops stand: [idx] bytes done, [k] more fit. *)
Definition loop_pos (access : nvme_access) (idx : Z) (buf : list Z) : Prop :=
  Z.of_nat (length buf) = acc_bytes access ∧ 0 ≤ idx < acc_bytes access ∧
  acc_bytes access < 2 ^ 32 ∧
  ∀ k, access_width (acc_type access) = Some k →
    (k | idx) ∧ (k | acc_bytes access).

Lemma loop_pos_room access idx buf k :
  loop_pos access idx buf → access_width (acc_type access) = Some k →
  idx + k ≤ acc_bytes access.
Proof.
  intros (_&Hi&_&Hk) Hw. destruct (Hk k Hw) as [[a ->] [b Hb]].
  rewrite Hb in *.
  pose proof (access_width_pos _ _ Hw). assert (a < b) by nia. nia.
Qed.

(** [idx += k] stays aligned and does not wrap. *)
Lemma loop_pos_next access idx buf buf' k :
  loop_pos access idx buf → access_width (acc_type access) = Some k →
  length buf' = length buf → u32 (idx + k) < acc_bytes access →
  loop_pos access (u32 (idx + k)) buf' ∧ idx < u32 (idx + k).
Proof.
  intros Hp Hw Hl Hlt. pose proof (loop_pos_room _ _ _ _ Hp Hw).
  destruct Hp as (Hb&Hi&Hmax&Hk).
  pose proof (access_width_pos _ _ Hw).
  destruct (Hk k Hw) as [Hdi Hdb].
  rewrite u32_small in * by lia. split; [|lia].
  split_and!; try lia. intros k' Hk'. simplify_eq.
  split; [|done]. apply Z.divide_add_r; [done|apply Z.divide_refl].
Qed.

Lemma wp_buf_store n buf idx v (Q : list Z → world → Prop) w :
  0 ≤ idx → idx + Z.of_nat n ≤ Z.of_nat (length buf) →
  (∀ buf', store_le n buf idx v = Some buf' → length buf' = length buf →
    Q buf' w) →
  wp (buf_store n buf idx v) Q w.
Proof.
  intros H0 H1 HQ. unfold buf_store.
  destruct (store_bytes_Some buf idx (le_bytes n v)) as [b' Hb'];
    [done|rewrite length_le_bytes; lia|].
  unfold store_le in *. rewrite Hb'. apply wp_ret, HQ; [done|].
  by eapply length_store_bytes.
Qed.

Lemma wp_buf_load n buf idx (Q : Z → world → Prop) w :
  0 ≤ idx → idx + Z.of_nat n ≤ Z.of_nat (length buf) →
  (∀ v, load_le n buf idx = Some v → Q v w) →
  wp (buf_load n buf idx) Q w.
Proof.
  intros H0 H1 HQ. unfold buf_load.
  assert (∃ v, load_le n buf idx = Some v) as [v Hv].
  { unfold load_le, load_bytes. rewrite decide_True by lia. by eexists. }
  rewrite Hv. by apply wp_ret, HQ.
Qed.

Definition round_ok {A} (access : nvme_access) (idx : Z) (w : world)
    (new_idx : A → Z) (r : option A) (w' : world) : Prop :=
  hist_only w w' ∧
  match r with
  | None => True
  | Some a => ∃ k, access_width (acc_type access) = Some k ∧ new_idx a = u32 (idx + k)
  end.

Ltac round_store :=
  apply wp_bind, wp_buf_store;
    [lia|simpl; lia|]; intros ?b ? ?; apply wp_ret.
Ltac round_load :=
  apply wp_bind, wp_buf_load; [lia|simpl; lia|]; intros ?v ?.

Lemma wp_read_config_round access idx buf w :
  loop_pos access idx buf →
  wp (read_config_round access idx buf)
    (λ r w', round_ok access idx w snd r w' ∧
      ∀ st b i, r = Some (st, b, i) → length b = length buf) w.
Proof.
  intros Hp. pose proof Hp as (Hlen&Hi&_&_).
  pose proof (λ k, loop_pos_room _ _ _ k Hp) as Hroom.
  unfold read_config_round, round_ok.
  destruct (acc_type access); simpl in Hroom;
    try (apply wp_ret; split; [split; [reflexivity|done]|done]);
    specialize (Hroom _ eq_refl);
    apply wp_bind; unfold pci_read_config; apply wp_bind, wp_ext_dma, wp_ret;
    round_store; (split; [split; [apply hist_only_cons|by eexists]|by intros ??? [= _ <- _]]).
Qed.

Lemma wp_read_config_loop fuel access idx buf w :
  loop_pos access idx buf →
  acc_bytes access - idx < Z.of_nat fuel →
  wp (read_config_loop fuel access idx buf) (λ _, hist_only w) w.
Proof.
  revert idx buf w. induction fuel as [|fuel IH]; intros idx buf w Hp Hf.
  { destruct Hp as (_&?&_); lia. }
  simpl. apply wp_bind. eapply wp_mono; [by apply wp_read_config_round|].
  intros [[[st b] i]|] w1; simpl; intros [[H1 Hk] Hb]; [|by apply wp_ret].
  destruct Hk as (k&Hk&Hk'); simpl in Hk'; subst i. apply wp_if; intros _; [by apply wp_ret|].
  apply wp_if; intros Hlt; [|by apply wp_ret]. apply Z.ltb_lt in Hlt.
  edestruct (loop_pos_next access idx buf b k) as [Hp' Hgt]; eauto.
  eapply wp_mono; [apply IH; [done|lia]|]. intros ? w2 H2. by etrans.
Qed.

Lemma wp_write_config_round access idx buf w :
  loop_pos access idx buf →
  wp (write_config_round access idx buf) (round_ok access idx w snd) w.
Proof.
  intros Hp. pose proof Hp as (Hlen&Hi&_&_).
  pose proof (λ k, loop_pos_room _ _ _ k Hp) as Hroom.
  unfold write_config_round, round_ok.
  destruct (acc_type access); simpl in Hroom;
    try (apply wp_ret; split; [reflexivity|done]);
    specialize (Hroom _ eq_refl); round_load;
    apply wp_bind; unfold pci_write_config; apply wp_bind, wp_ext, wp_ret, wp_ret;
    (split; [apply hist_only_cons|by eexists]).
Qed.

Lemma wp_write_config_loop fuel access idx buf w :
  loop_pos access idx buf →
  acc_bytes access - idx < Z.of_nat fuel →
  wp (write_config_loop fuel access idx buf) (λ _, hist_only w) w.
Proof.
  revert idx w. induction fuel as [|fuel IH]; intros idx w Hp Hf.
  { destruct Hp as (_&?&_); lia. }
  simpl. apply wp_bind. eapply wp_mono; [by apply wp_write_config_round|].
  intros [[st i]|] w1; simpl; intros [H1 Hk]; [|by apply wp_ret].
  destruct Hk as (k&Hk&Hk'); simpl in Hk'; subst i. apply wp_if; intros _; [by apply wp_ret|].
  apply wp_if; intros Hlt; [|by apply wp_ret]. apply Z.ltb_lt in Hlt.
  edestruct (loop_pos_next access idx buf buf k) as [Hp' Hgt]; eauto.
  eapply wp_mono; [apply IH; [done|lia]|]. intros ? w2 H2. by etrans.
Qed.
End io_safety.

Section io_bar_safety.
Context {E : Env}.

Lemma wp_readq a (Q : Z → world → Prop) w :
  (∀ v w', hist_only w w' → Q v w') → wp (lo_hi_readq a) Q w.
Proof.
  intros HQ. unfold lo_hi_readq, readl.
  apply wp_bind, wp_bind, wp_ext, wp_ret, wp_bind, wp_bind, wp_ext, wp_ret, wp_ret.
  apply HQ. etrans; apply hist_only_cons.
Qed.

Lemma wp_writeq v a (Q : unit → world → Prop) w :
  (∀ w', hist_only w w' → Q tt w') → wp (lo_hi_writeq v a) Q w.
Proof.
  intros HQ. unfold lo_hi_writeq, writel.
  apply wp_bind, wp_emit, wp_emit, HQ. etrans; apply hist_only_emit.
Qed.

Lemma wp_read_bar_round bar access idx buf w :
  loop_pos access idx buf →
  wp (read_bar_round bar access idx buf)
    (λ r w', round_ok access idx w snd r w' ∧
      ∀ b i, r = Some (b, i) → length b = length buf) w.
Proof.
  intros Hp. pose proof Hp as (Hlen&Hi&_&_).
  pose proof (λ k, loop_pos_room _ _ _ k Hp) as Hroom.
  unfold read_bar_round, round_ok.
  destruct (acc_type access); simpl in Hroom;
    try (apply wp_ret; split; [split; [reflexivity|done]|done]);
    specialize (Hroom _ eq_refl); apply wp_bind;
    unfold dnvme_readb, dnvme_readw, dnvme_readl, dnvme_readq, readb, readw, readl;
    [apply wp_bind, wp_ext, wp_ret| apply wp_bind, wp_ext, wp_ret
    |apply wp_bind, wp_ext, wp_ret| apply wp_readq; intros ? w' Hw'];
    (apply wp_bind, wp_buf_store; [lia|simpl; lia|]; intros b ? ?; apply wp_ret);
    (split; [split; [auto with wp|by eexists]|by intros ?? [= <- _]]).
Qed.

Lemma wp_read_bar_loop fuel bar access idx buf w :
  loop_pos access idx buf →
  acc_bytes access - idx < Z.of_nat fuel →
  wp (read_bar_loop fuel bar access idx buf) (λ _, hist_only w) w.
Proof.
  revert idx buf w. induction fuel as [|fuel IH]; intros idx buf w Hp Hf.
  { destruct Hp as (_&?&_); lia. }
  simpl. apply wp_bind. eapply wp_mono; [by apply wp_read_bar_round|].
  intros [[b i]|] w1; simpl; intros [[H1 Hk] Hb]; [|by apply wp_ret].
  destruct Hk as (k&Hk&Hk'); simpl in Hk'; subst i.
  apply wp_if; intros Hlt; [|by apply wp_ret]. apply Z.ltb_lt in Hlt.
  edestruct (loop_pos_next access idx buf b k) as [Hp' Hgt]; eauto.
  eapply wp_mono; [apply IH; [done|lia]|]. intros ? w2 H2. by etrans.
Qed.

Lemma wp_write_bar_round bar access idx buf w :
  loop_pos access idx buf →
  wp (write_bar_round bar access idx buf) (round_ok access idx w id) w.
Proof.
  intros Hp. pose proof Hp as (Hlen&Hi&_&_).
  pose proof (λ k, loop_pos_room _ _ _ k Hp) as Hroom.
  unfold write_bar_round, round_ok.
  destruct (acc_type access); simpl in Hroom;
    try (apply wp_ret; split; [reflexivity|done]);
    specialize (Hroom _ eq_refl);
    (apply wp_bind, wp_buf_load; [lia|simpl; lia|]; intros ? ?; apply wp_bind);
    unfold dnvme_writeb, dnvme_writew, dnvme_writel, dnvme_writeq, writeb, writew, writel;
    [apply wp_emit|apply wp_emit|apply wp_emit|apply wp_writeq; intros w' Hw'];
    apply wp_ret; (split; [auto with wp|by eexists]).
Qed.

Lemma wp_write_bar_loop fuel bar access idx buf w :
  loop_pos access idx buf →
  acc_bytes access - idx < Z.of_nat fuel →
  wp (write_bar_loop fuel bar access idx buf) (λ _, hist_only w) w.
Proof.
  revert idx w. induction fuel as [|fuel IH]; intros idx w Hp Hf.
  { destruct Hp as (_&?&_); lia. }
  simpl. apply wp_bind. eapply wp_mono; [by apply wp_write_bar_round|].
  intros [i|] w1; simpl; intros [H1 Hk]; [|by apply wp_ret].
  destruct Hk as (k&Hk&Hk'); simpl in Hk'; subst i.
  apply wp_if; intros Hlt; [|by apply wp_ret]. apply Z.ltb_lt in Hlt.
  edestruct (loop_pos_next access idx buf buf k) as [Hp' Hgt]; eauto.
  eapply wp_mono; [apply IH; [done|lia]|]. intros ? w2 H2. by etrans.
Qed.

(** The state of a fresh access: nothing done, the whole buffer there. *)
Lemma loop_pos_start access buf :
  in_u32 (acc_bytes access) → acc_bytes access ≠ 0 →
  Z.of_nat (length buf) = acc_bytes access →
  dnvme_check_access_align access = 0 → loop_pos access 0 buf.
Proof.
  intros [? ?] ? ? Hal. split_and!; try lia.
  intros k Hk. split; [apply Z.divide_0_r|].
  by eapply check_access_align_width.
Qed.

Lemma check_access_align_sign access :
  (dnvme_check_access_align access <? 0) = false →
  dnvme_check_access_align access = 0.
Proof.
  unfold dnvme_check_access_align. destruct (acc_type access); try done;
    case_match; done.
Qed.
End io_bar_safety.

Section io_ioctl_safety.
Context {E : Env}.

Lemma wp_read_from_config access w :
  in_u32 (acc_bytes access) → acc_bytes access ≠ 0 →
  dnvme_check_access_align access = 0 →
  wp (dnvme_read_from_config access (zeros (acc_bytes access)))
    (λ _, hist_only w) w.
Proof.
  intros Hb H0 Hal. unfold dnvme_read_from_config.
  apply wp_if; intros _; [by apply wp_ret|].
  apply wp_read_config_loop; [|rewrite Nat2Z.inj_succ, Z2Nat.id; [lia|apply Hb]].
  apply loop_pos_start; auto. unfold zeros.
  rewrite length_replicate, Z2Nat.id; [done|apply Hb].
Qed.

Lemma wp_read_from_bar bar access w :
  in_u32 (acc_bytes access) → acc_bytes access ≠ 0 →
  dnvme_check_access_align access = 0 →
  wp (dnvme_read_from_bar bar access (zeros (acc_bytes access)))
    (λ _, hist_only w) w.
Proof.
  intros Hb H0 Hal. unfold dnvme_read_from_bar.
  apply wp_read_bar_loop; [|rewrite Nat2Z.inj_succ, Z2Nat.id; [lia|apply Hb]].
  apply loop_pos_start; auto. unfold zeros.
  rewrite length_replicate, Z2Nat.id; [done|apply Hb].
Qed.

Lemma wp_write_to_config access data w :
  in_u32 (acc_bytes access) → acc_bytes access ≠ 0 →
  Z.of_nat (length data) = acc_bytes access →
  dnvme_check_access_align access = 0 →
  wp (dnvme_write_to_config access data) (λ _, hist_only w) w.
Proof.
  intros Hb H0 Hl Hal. unfold dnvme_write_to_config.
  apply wp_if; intros _; [by apply wp_ret|].
  apply wp_write_config_loop; [|rewrite Nat2Z.inj_succ, Z2Nat.id; [lia|apply Hb]].
  by apply loop_pos_start.
Qed.

Lemma wp_write_to_bar bar access data w :
  in_u32 (acc_bytes access) → acc_bytes access ≠ 0 →
  Z.of_nat (length data) = acc_bytes access →
  dnvme_check_access_align access = 0 →
  wp (dnvme_write_to_bar bar access data) (λ _, hist_only w) w.
Proof.
  intros Hb H0 Hl Hal. unfold dnvme_write_to_bar.
  apply wp_write_bar_loop; [|rewrite Nat2Z.inj_succ, Z2Nat.id; [lia|apply Hb]].
  by apply loop_pos_start.
Qed.

(** A buffer obtained with [kmalloc] and given back with [kfree] around a body
    that leaves the heap alone leaves the heap as it was. *)
Lemma wp_with_buffer (size : Z) (body : M Z) (Q : Z → world → Prop) w :
  (∀ w', wp body (λ r, hist_only w') w') → (∀ r w', hist_only w w' → Q r w') →
  wp (p ← kmalloc size;
      if p =? 0 then mret (- ENOMEM) else ret ← body; kfree p;; mret ret) Q w.
Proof.
  intros Hbody HQ. apply wp_bind, wp_kmalloc; [by apply wp_ret, HQ; eexists [_]|].
  intros p Hp Hnone. destruct (Z.eqb_spec p 0); [lia|].
  apply wp_bind. eapply wp_mono; [apply Hbody|]. intros r w1 [h ->].
  apply wp_bind, wp_kfree. left. cbn. split_and!; [|apply wp_ret, HQ|done].
  - eexists. by rewrite lookup_insert_eq.
  - exists (E_kfree p :: h ++ [E_kmalloc size]). unfold set_field. cbn.
    rewrite delete_insert_id by done. by rewrite <- (assoc_L (++)).
Qed.
End io_ioctl_safety.

Section io_claims.
Context {E : Env}.

Lemma wp_copy_from_user (Q : bool → world → Prop) w :
  (∀ b w', hist_only w w' → Q b w') → wp copy_from_user Q w.
Proof. intros HQ. apply wp_bind, wp_ext, wp_ret, HQ, hist_only_cons. Qed.

Lemma wp_copy_to_user u (Q : bool → world → Prop) w :
  (∀ b w', hist_only w w' → Q b w') → wp (copy_to_user u) Q w.
Proof. intros HQ. apply wp_bind, wp_ext, wp_ret, HQ, hist_only_cons. Qed.

(** The tail of the read ioctl: hand the buffer to the user. *)
Lemma wp_read_out (m : M (Z * list Z)) w :
  wp m (λ _, hist_only w) w →
  wp ('(ret, buf) ← m;
      if ret <? 0 then mret ret
      else ok ← copy_to_user (UP_bytes buf);
           mret (if ok : bool then ret else - EFAULT)) (λ _, hist_only w) w.
Proof.
  intros Hm. apply wp_bind. eapply wp_mono; [exact Hm|]. intros [ret buf] w1 H1.
  apply wp_if; intros _; [by apply wp_ret|].
  apply wp_bind, wp_copy_to_user. intros b w2 H2. apply wp_ret. by etrans.
Qed.

Lemma generic_read_ok access w :
  in_u32 (acc_bytes access) →
  wp (dnvme_generic_read access)
    (λ _, hist_only w) w.
Proof.
  intros Hb. unfold dnvme_generic_read.
  apply wp_bind, wp_copy_from_user. intros b w1 H1.
  apply wp_if; intros _; [by apply wp_ret|].
  apply wp_if; intros Hz; [by apply wp_ret|]. apply Z.eqb_neq in Hz.
  apply wp_if; intros Hal; [by apply wp_ret|].
  apply check_access_align_sign in Hal.
  apply wp_with_buffer; [|intros r w2 H2; by etrans]. intros w2.
  destruct (acc_region access); [| |by apply wp_ret].
  - apply wp_read_out, wp_read_from_config; done.
  - unfold get_dev. apply wp_bind, wp_gets, wp_read_out, wp_read_from_bar; done.
Qed.

Lemma generic_write_ok access data w :
  in_u32 (acc_bytes access) → Z.of_nat (length data) = acc_bytes access →
  wp (dnvme_generic_write access data)
    (λ _, hist_only w) w.
Proof.
  intros Hb Hl. unfold dnvme_generic_write.
  apply wp_bind, wp_copy_from_user. intros b w1 H1.
  apply wp_if; intros _; [by apply wp_ret|].
  apply wp_if; intros Hz; [by apply wp_ret|]. apply Z.eqb_neq in Hz.
  apply wp_if; intros Hal; [by apply wp_ret|].
  apply check_access_align_sign in Hal.
  apply wp_with_buffer; [|intros r w2 H2; by etrans]. intros w2.
  apply wp_bind, wp_copy_from_user. intros b2 w3 H3.
  apply wp_if; intros _; [by apply wp_ret|].
  destruct (acc_region access); [| |by apply wp_ret].
  - eapply wp_mono; [by apply wp_write_to_config|]. intros ? w4 H4. by etrans.
  - unfold get_dev. apply wp_bind, wp_gets.
    eapply wp_mono; [by apply wp_write_to_bar|]. intros ? w4 H4. by etrans.
Qed.

End io_claims.

(** ** What a configuration-space read returns *)

Section config_read.
Context {E : Env} (cfg : Z → Z).
(** The configuration space answers every read with the bytes [cfg]. *)
Context (Hst : ∀ h n off, ans (E_cfg_read n off :: h) = 0).
Context (Hval : ∀ h n off, ans_dma (E_cfg_read n off :: h) =
                           le_val (cfg <$> seqZ off n)).
Context (Hcfg : ∀ i, 0 ≤ cfg i < 256).

Lemma le_bytes_val bs : Forall (λ b, 0 ≤ b < 256) bs →
  le_bytes (length bs) (le_val bs) = bs.
Proof.
  induction 1 as [|b bs Hb _ IH]; [done|]. cbn [length le_bytes le_val].
  rewrite (Z.mul_comm 256), Z_mod_plus_full, Z.mod_small by lia.
  rewrite Z.div_add, Z.div_small, Z.add_0_l by lia. by rewrite IH.
Qed.

Lemma le_val_bound bs : Forall (λ b, 0 ≤ b < 256) bs →
  0 ≤ le_val bs < 2 ^ (8 * Z.of_nat (length bs)).
Proof.
  induction 1 as [|b bs Hb _ IH]; [simpl; lia|].
  cbn [length le_val]. rewrite Nat2Z.inj_succ, Z.mul_succ_r, Z.pow_add_r by lia.
  change (2 ^ 8) with 256. lia.
Qed.

Lemma cfg_bytes n off :
  0 ≤ n → le_bytes (Z.to_nat n) (le_val (cfg <$> seqZ off n) mod 2 ^ (8 * n)) =
          cfg <$> seqZ off n.
Proof.
  intros Hn.
  assert (Forall (λ b, 0 ≤ b < 256) (cfg <$> seqZ off n)) as Hf.
  { apply Forall_fmap, Forall_forall. intros i _. apply Hcfg. }
  pose proof (le_val_bound _ Hf) as Hb.
  rewrite length_fmap, length_seqZ, Z2Nat.id in Hb by done.
  rewrite Z.mod_small by done.
  replace (Z.to_nat n) with (length (cfg <$> seqZ off n)).
  - by apply le_bytes_val.
  - by rewrite length_fmap, length_seqZ.
Qed.

(** The buffer once the first [idx] bytes are read. *)
Definition cfg_prefix (off idx total : Z) : list Z :=
  (cfg <$> seqZ off idx) ++ zeros (total - idx).

Lemma length_cfg_prefix off idx total :
  0 ≤ idx ≤ total → Z.of_nat (length (cfg_prefix off idx total)) = total.
Proof.
  intros ?. unfold cfg_prefix, zeros.
  rewrite length_app, length_fmap, length_seqZ, length_replicate. lia.
Qed.

Lemma store_cfg_prefix off idx k total :
  0 ≤ idx → 0 < k → idx + k ≤ total →
  store_bytes (cfg_prefix off idx total) idx (cfg <$> seqZ (off + idx) k) =
  Some (cfg_prefix off (idx + k) total).
Proof.
  intros Hi Hk Ht. unfold store_bytes.
  rewrite length_fmap, length_seqZ, decide_True
    by (rewrite length_cfg_prefix by lia; lia).
  f_equal. unfold cfg_prefix.
  rewrite take_app_length' by (rewrite length_fmap, length_seqZ; lia).
  rewrite drop_app_ge by (rewrite length_fmap, length_seqZ; lia).
  rewrite length_fmap, length_seqZ. unfold zeros. rewrite drop_replicate.
  rewrite seqZ_app, fmap_app, <- (assoc_L (++)) by lia. f_equal. f_equal.
  f_equal. lia.
Qed.

Lemma read_config_round_exact access k idx w :
  access_width (acc_type access) = Some k → k ≤ 4 →
  0 ≤ idx → idx + k ≤ acc_bytes access →
  0 ≤ acc_offset access → acc_offset access + acc_bytes access ≤ 4096 →
  read_config_round access idx (cfg_prefix (acc_offset access) idx (acc_bytes access)) w =
  Val (Some (0, cfg_prefix (acc_offset access) (idx + k) (acc_bytes access), idx + k))
    (w <| w_hist ::= cons (E_cfg_read k (acc_offset access + idx)) |>).
Proof.
  intros Hk Hk4 Hi Hb Ho Hob.
  pose proof (access_width_pos _ _ Hk) as Hpos.
  pose proof (store_cfg_prefix (acc_offset access) idx k (acc_bytes access)
                Hi ltac:(lia) Hb) as Hs.
  rewrite <- (cfg_bytes k) in Hs by lia.
  unfold read_config_round, pci_read_config, ext_dma, buf_store, mbind, M_bind,
    mret, M_ret.
  destruct (acc_type access); simpl in Hk; simplify_eq; try lia;
    rewrite (u32_small (acc_offset access + idx)) by lia;
    rewrite Hst, Hval; unfold store_le;
    match type of Hs with store_bytes _ _ (le_bytes (Z.to_nat ?n) _) = _ =>
      let m := eval compute in (Z.to_nat n) in change (Z.to_nat n) with m in Hs end;
    rewrite Hs; rewrite u32_small by lia; reflexivity.
Qed.

Definition config_reads (k off i n : Z) : list event :=
  (λ j, E_cfg_read k (off + k * j)) <$> seqZ i n.

Lemma read_config_loop_exact access k (m : nat) fuel i w :
  access_width (acc_type access) = Some k → k ≤ 4 →
  0 ≤ i → acc_bytes access = k * (i + Z.of_nat (S m)) → (m < fuel)%nat →
  0 ≤ acc_offset access → acc_offset access + acc_bytes access ≤ 4096 →
  read_config_loop fuel access (k * i)
    (cfg_prefix (acc_offset access) (k * i) (acc_bytes access)) w =
  Val (0, cfg_prefix (acc_offset access) (acc_bytes access) (acc_bytes access))
    (w <| w_hist ::= app (reverse (config_reads k (acc_offset access) i (Z.of_nat (S m)))) |>).
Proof.
  intros Hk Hk4 Hi Hb Hf Ho Hob. pose proof (access_width_pos _ _ Hk) as Hpos.
  revert fuel i w Hi Hb Hf.
  induction m as [|m IH]; intros fuel i w Hi Hb Hf; (destruct fuel as [|fuel]; [lia|]);
    cbn [read_config_loop]; unfold mbind at 1, M_bind at 1;
    rewrite (read_config_round_exact access k) by (try done; nia); cbn -[Z.mul read_config_loop seqZ].
  - replace (k * i + k <? acc_bytes access) with false
      by (symmetry; apply Z.ltb_ge; lia).
    replace (k * i + k) with (acc_bytes access) by lia.
    unfold config_reads. rewrite (seqZ_cons i) by lia. done.
  - replace (k * i + k <? acc_bytes access) with true
      by (symmetry; apply Z.ltb_lt; nia).
    replace (k * i + k) with (k * (i + 1)) by lia.
    rewrite IH by lia. f_equal. unfold config_reads.
    rewrite (seqZ_cons i) by lia. rewrite fmap_cons, reverse_cons.
    replace (Z.pred (Z.of_nat (S (S m)))) with (Z.of_nat (S m)) by lia.
    replace (Z.succ i) with (i + 1) by lia.
    destruct w; unfold set_field; simpl. by rewrite <- (assoc_L (++)).
Qed.
End config_read.

Section config_claims.
Context {E : Env}.

(** A configuration-space read returns exactly the requested bytes: on a
    function whose configuration space holds the bytes [cfg], an aligned byte,
    word or dword access inside the 4096 bytes of the space succeeds, fills the
    buffer with [cfg(offset) .. cfg(offset + bytes - 1)] and touches the device
    with exactly the [bytes / width] reads at [offset], [offset + width], ... *)
Theorem read_from_config_exact (cfg : Z → Z) access k n w
    (Hst : ∀ h n off, ans (E_cfg_read n off :: h) = 0)
    (Hval : ∀ h n off, ans_dma (E_cfg_read n off :: h) = le_val (cfg <$> seqZ off n))
    (Hcfg : ∀ i, 0 ≤ cfg i < 256)
    (Hk : access_width (acc_type access) = Some k) (Hk4 : k ≤ 4)
    (Hn : 0 < n) (Hb : acc_bytes access = k * n)
    (Ho : 0 ≤ acc_offset access)
    (Hob : acc_offset access + acc_bytes access ≤ PCI_CFG_SPACE_EXP_SIZE) :
  dnvme_read_from_config access (zeros (acc_bytes access)) w =
  Val (0, cfg <$> seqZ (acc_offset access) (acc_bytes access))
    (w <| w_hist ::= app (reverse (config_reads k (acc_offset access) 0 n)) |>).
Proof.
  unfold PCI_CFG_SPACE_EXP_SIZE in Hob.
  pose proof (access_width_pos _ _ Hk) as Hpos.
  unfold dnvme_read_from_config, PCI_CFG_SPACE_EXP_SIZE.
  replace (4096 <? u32 (acc_offset access + acc_bytes access)) with false
    by (symmetry; apply Z.ltb_ge; rewrite u32_small; nia).
  pose proof (read_config_loop_exact cfg Hst Hval Hcfg access k (Z.to_nat (n - 1))
    (S (Z.to_nat (acc_bytes access))) 0 w) as Hloop.
  rewrite Z.mul_0_r in Hloop. unfold cfg_prefix in Hloop.
  rewrite Z.sub_0_r, Z.sub_diag in Hloop. simpl app in Hloop.
  replace (Z.of_nat (S (Z.to_nat (n - 1)))) with n in Hloop by lia.
  rewrite app_nil_r in Hloop. apply Hloop; try done; nia.
Qed.

(** The bound check of the configuration-space accesses is computed modulo
    2^32, so it does not bound the access: a well-formed, aligned request for 8
    bytes at offset 0xfffffffc passes it and reads the configuration space at
    0xfffffffc. *)
Theorem config_bound_check_wraps w
    (Hst : ∀ h n off, ans (E_cfg_read n off :: h) = 0) :
  let access := {| acc_region := NVME_PCI_CONFIG; acc_type := NVME_ACCESS_DWORD;
                   acc_bytes := 8; acc_offset := 0xfffffffc |} in
  dnvme_check_access_align access = 0 ∧
  PCI_CFG_SPACE_EXP_SIZE < acc_offset access + acc_bytes access ∧
  wp (dnvme_read_from_config access (zeros 8))
    (λ r w', r.1 = 0 ∧
      w_hist w' = E_cfg_read 4 0 :: E_cfg_read 4 0xfffffffc :: w_hist w) w.
Proof.
  intros access. split_and!; [done|done|].
  unfold dnvme_read_from_config. apply wp_if; [by vm_compute|intros _].
  unfold read_config_loop, read_config_round, pci_read_config. simpl acc_type.
  apply wp_bind, wp_bind, wp_bind, wp_ext_dma, wp_ret. rewrite Hst.
  apply wp_bind, wp_buf_store; [done|done|]. intros b1 _ Hb1.
  apply wp_ret, wp_bind, wp_bind, wp_bind, wp_ext_dma, wp_ret. rewrite Hst.
  apply wp_bind, wp_buf_store; [done|by rewrite Hb1|]. intros b2 _ _.
  by apply wp_ret.
Qed.
End config_claims.

(** *** Witnesses *)

(** A configuration space whose byte [i] is [i mod 256]. *)
Definition cfg_env : Env := {|
  ans h := match h with E_kmalloc _ :: _ => 1 | _ => 0 end;
  ans_dma h := match h with
               | E_cfg_read n off :: _ => le_val ((λ i, i mod 256) <$> seqZ off n)
               | _ => 0
               end;
  ans_sg _ _ := mk_sg 0 0; ans_fill _ _ := 0; ans_vector _ _ := 0; ans_sort l := l;
  cfg_flush_reg_write := false; cfg_hz := 1000 |}.

Definition demo_access : nvme_access := {|
  acc_region := NVME_PCI_CONFIG; acc_type := NVME_ACCESS_WORD;
  acc_bytes := 4; acc_offset := 0x10 |}.


Lemma read_from_config_exact_witness :
  dnvme_read_from_config (E := cfg_env) demo_access (zeros 4) demo_world =
  Val (0, [0x10; 0x11; 0x12; 0x13])
    (demo_world <| w_hist := [E_cfg_read 2 0x12; E_cfg_read 2 0x10] |>).
Proof.
  apply (read_from_config_exact (E := cfg_env) (λ i, i mod 256) demo_access 2 2 demo_world);
    try done. intros i. apply Z.mod_pos_bound. lia.
Defined.

Lemma config_bound_check_wraps_witness :
  let access := {| acc_region := NVME_PCI_CONFIG; acc_type := NVME_ACCESS_DWORD;
                   acc_bytes := 8; acc_offset := 0xfffffffc |} in
  dnvme_check_access_align access = 0 ∧
  PCI_CFG_SPACE_EXP_SIZE < acc_offset access + acc_bytes access ∧
  wp (dnvme_read_from_config (E := cfg_env) access (zeros 8))
    (λ r w', r.1 = 0 ∧
      w_hist w' = E_cfg_read 4 0 :: E_cfg_read 4 0xfffffffc :: w_hist demo_world) demo_world.
Proof. by apply (config_bound_check_wraps (E := cfg_env)). Defined.
