(* ===== verification/Own.v ===== *)
(** * Resource ownership

    The kernel gives the driver memory blocks, pinned pages and mapped
    scatterlists, and expects each of them back exactly once.  [holds R w] says
    that what is out in the world [w] is exactly the list [R]; [triple P m Q] that
    [m], run by an owner of [P], never faults and ends owning some [R] with [Q],
    whatever else is owned and leaving that and the device structure alone.  The
    rules follow the structure of programs, so a proof that a function leaks
    nothing on any path is a walk through its branches. *)

From S2P Require Import Prelude Types Kernel.

(** ** Items and worlds *)

(** A block with its kind, and its size where the interface that frees it takes
    one; pinned pages; a mapped scatterlist. *)
Inductive item :=
| Blk (p : Z) (k : akind) (size : option Z)
| Pins (n : Z)
| SgMap.

Definition item_ptrs (it : item) : list Z :=
  match it with Blk p _ _ => [p] | _ => [] end.
Definition item_pins (it : item) : Z := match it with Pins n => n | _ => 0 end.
Definition item_maps (it : item) : Z := match it with SgMap => 1 | _ => 0 end.

Definition ptrs (R : list item) : list Z := R ≫= item_ptrs.
Definition sumZ (l : list Z) : Z := foldr Z.add 0 l.

(** The contents of coherent and peer-to-peer memory have the size of the block. *)
Definition blk_ok (b : block) : Prop :=
  blk_kind b = AK_coherent ∨ blk_kind b = AK_p2p ∨ blk_kind b = AK_vmap →
  Z.of_nat (length (blk_data b)) = Z.max 0 (blk_size b).

Definition item_in (h : gmap Z block) (it : item) : Prop :=
  match it with
  | Blk p k sz => p ≠ 0 ∧ ∃ b, h !! p = Some b ∧ blk_kind b = k ∧
                  default (blk_size b) sz = blk_size b ∧ blk_ok b
  | _ => True
  end.

Record holds (R : list item) (w : world) : Prop := {
  h_nodup : NoDup (ptrs R);
  h_dom : ∀ p, is_Some (w_heap w !! p) → p ∈ ptrs R;
  h_in : Forall (item_in (w_heap w)) R;
  h_pins : w_pins w = sumZ (item_pins <$> R);
  h_maps : w_sgmaps w = sumZ (item_maps <$> R) }.

Lemma sumZ_cons x l : sumZ (x :: l) = x + sumZ l.
Proof. done. Qed.
Lemma sumZ_app l1 l2 : sumZ (l1 ++ l2) = sumZ l1 + sumZ l2.
Proof. induction l1; simpl; lia. Qed.
Lemma sumZ_perm l1 l2 : l1 ≡ₚ l2 → sumZ l1 = sumZ l2.
Proof. induction 1; simpl; lia. Qed.
Lemma ptrs_app R1 R2 : ptrs (R1 ++ R2) = ptrs R1 ++ ptrs R2.
Proof. apply bind_app. Qed.

#[export] Instance ptrs_perm : Proper ((≡ₚ) ==> (≡ₚ)) ptrs.
Proof. intros R1 R2 HR. unfold ptrs. by rewrite HR. Qed.

(** The order of the items does not matter. *)
#[export] Instance holds_perm : Proper ((≡ₚ) ==> eq ==> iff) holds.
Proof.
  assert (∀ R1 R2 w, R1 ≡ₚ R2 → holds R1 w → holds R2 w) as Himp.
  { intros R1 R2 w HR [Hn Hd Hi Hp Hm]. split.
    - by rewrite <- HR.
    - intros p ?. rewrite <- HR. auto.
    - by rewrite <- HR.
    - rewrite Hp. apply sumZ_perm. by rewrite HR.
    - rewrite Hm. apply sumZ_perm. by rewrite HR. }
  intros R1 R2 HR w ? <-. split; apply Himp; [done|by symmetry].
Qed.

(** What the functions below leave alone. *)
Definition same_dev (w w' : world) : Prop :=
  w_dev w' = w_dev w ∧ w_irqs w' = w_irqs w ∧ w_mode w' = w_mode w.
#[export] Instance same_dev_preorder : PreOrder same_dev.
Proof. split; [done|]. intros w1 w2 w3 (?&?&?) (?&?&?). split_and!; congruence. Qed.

Lemma same_dev_dev w w' : same_dev w w' → w_dev w' = w_dev w.
Proof. by intros []. Qed.

(** [holds] looks at the heap and the counters only. *)
Lemma holds_ext R w w' :
  w_heap w' = w_heap w → w_pins w' = w_pins w → w_sgmaps w' = w_sgmaps w →
  holds R w → holds R w'.
Proof. intros H1 H2 H3 []. split; rewrite ?H1, ?H2, ?H3; done. Qed.

Lemma holds_blk p k sz R w :
  holds (Blk p k sz :: R) w →
  p ≠ 0 ∧ ∃ b, w_heap w !! p = Some b ∧ blk_kind b = k ∧
               default (blk_size b) sz = blk_size b ∧ blk_ok b.
Proof. intros [_ _ Hi _ _]. by apply Forall_cons_1 in Hi as [Hi _]. Qed.

Lemma holds_new p k sz size d R w w' :
  0 < p → w_heap w !! p = None →
  w_heap w' = <[p := mk_block k size d]> (w_heap w) →
  w_pins w' = w_pins w → w_sgmaps w' = w_sgmaps w →
  default size sz = size → blk_ok (mk_block k size d) →
  holds R w → holds (Blk p k sz :: R) w'.
Proof.
  intros Hp Hnone Hh H2 H3 Hsz Hok [Hn Hd Hi Hpi Hm].
  assert (p ∉ ptrs R) as Hnin.
  { unfold ptrs. rewrite list_elem_of_bind. intros (it & Hit & Hin).
    destruct it; simpl in Hit; rewrite ?list_elem_of_singleton in Hit; [subst|set_solver..].
    rewrite Forall_forall in Hi. destruct (Hi _ Hin) as (_&b&Hb&_). congruence. }
  split; cbn [fmap list_fmap item_pins item_maps sumZ foldr];
    try (rewrite ?H2, ?H3, ?Hpi, ?Hm; reflexivity).
  - simpl. by constructor.
  - intros q. rewrite Hh, lookup_insert_is_Some. simpl. intros [->|[_ ?]]; set_solver.
  - constructor.
    + split; [lia|]. eexists. rewrite Hh, lookup_insert_eq. done.
    + eapply Forall_impl; [exact Hi|]. intros [q k' sz'| |]; try done. simpl.
      intros (?&b&Hb&?). split; [done|]. exists b.
      rewrite Hh, lookup_insert_ne by congruence. done.
Qed.

Lemma holds_free p k sz R w w' :
  w_heap w' = delete p (w_heap w) →
  w_pins w' = w_pins w → w_sgmaps w' = w_sgmaps w →
  holds (Blk p k sz :: R) w → holds R w'.
Proof.
  intros Hh H2 H3 [Hn Hd Hi Hpi Hm]. simpl in *.
  apply NoDup_cons in Hn as [Hnin Hn].
  apply Forall_cons_1 in Hi as [_ Hi].
  split; rewrite ?H2, ?H3; try done.
  - intros q. rewrite Hh, lookup_delete_is_Some. intros [? ?].
    specialize (Hd q ltac:(done)). set_solver.
  - rewrite Forall_forall in *. intros it Hin. specialize (Hi it Hin).
    destruct it as [q k' sz'| |]; try done. simpl in *.
    assert (p ≠ q).
    { intros ->. apply Hnin. unfold ptrs. rewrite list_elem_of_bind.
      exists (Blk q k' sz'). split; [set_solver|done]. }
    rewrite Hh, lookup_delete_ne by done. done.
Qed.

(** The blocks of [X] keep their contents. *)
Definition untouched (X : list item) (w w' : world) : Prop :=
  ∀ p, p ∈ ptrs X → w_heap w' !! p = w_heap w !! p.
#[export] Instance untouched_preorder X : PreOrder (untouched X).
Proof.
  split; [done|]. intros w1 w2 w3 H1 H2 p Hp. by rewrite (H2 p Hp), (H1 p Hp).
Qed.

Lemma untouched_app X Y w w' : untouched (X ++ Y) w w' → untouched X w w' ∧ untouched Y w w'.
Proof. intros H. split; intros p Hp; apply H; rewrite ptrs_app; set_solver. Qed.
Lemma untouched_perm X Y w w' : X ≡ₚ Y → untouched X w w' → untouched Y w w'.
Proof. intros HX H p Hp. apply H. by rewrite HX. Qed.

Lemma untouched_incl X Y w w' : (∀ x, x ∈ X → x ∈ Y) → untouched Y w w' → untouched X w w'.
Proof.
  intros Hin H p Hp. apply H. unfold ptrs in *. rewrite list_elem_of_bind in *. naive_solver.
Qed.

(** What is owned is in the heap. *)
Lemma holds_ptr R w p : holds R w → p ∈ ptrs R → is_Some (w_heap w !! p).
Proof.
  intros [_ _ Hi _ _] Hp. unfold ptrs in Hp. rewrite list_elem_of_bind in Hp.
  destruct Hp as (it & Hit & Hin). rewrite Forall_forall in Hi. specialize (Hi it Hin).
  destruct it; simpl in Hit; rewrite ?list_elem_of_singleton in Hit; [subst|set_solver..].
  destruct Hi as (_ & b & Hb & _). eauto.
Qed.
Lemma untouched_new R p b w w' :
  holds R w → w_heap w !! p = None → w_heap w' = <[p := b]> (w_heap w) → untouched R w w'.
Proof.
  intros Hw Hnone Hh q Hq. rewrite Hh, lookup_insert_ne; [done|].
  intros ->. destruct (holds_ptr _ _ _ Hw Hq). congruence.
Qed.
Lemma untouched_free p k sz R w w' :
  holds (Blk p k sz :: R) w → w_heap w' = delete p (w_heap w) → untouched R w w'.
Proof.
  intros [Hn _ _ _ _] Hh q Hq. simpl in Hn. apply NoDup_cons in Hn as [Hnin _].
  rewrite Hh, lookup_delete_ne; [done|]. by intros ->.
Qed.

(** ** Triples *)

Definition triple {A} (P : list item) (m : M A) (Q : A → list item → Prop) : Prop :=
  ∀ X w, holds (P ++ X) w →
    wp m (λ a w', ∃ R, Q a R ∧ holds (R ++ X) w' ∧ same_dev w w' ∧ untouched X w w') w.

Lemma triple_ret {A} P (a : A) (Q : A → list item → Prop) : Q a P → triple P (mret a) Q.
Proof. intros HQ X w Hw. apply wp_ret. exists P. done. Qed.

Lemma triple_bind {A B} P (m : M A) (f : A → M B) Q (Q' : B → list item → Prop) :
  triple P m Q → (∀ a R, Q a R → triple R (f a) Q') → triple P (x ← m; f x) Q'.
Proof.
  intros Hm Hf X w Hw. apply wp_bind. eapply wp_mono; [by apply Hm|].
  intros a w1 (R & HQ & Hw1 & Hd1 & Hu1). eapply wp_mono; [by apply (Hf a R)|].
  intros b w2 (R2 & ? & ? & ? & ?). exists R2. split_and!; [done..|by etrans|by etrans].
Qed.

(** Consequence: reorder what is owned, weaken the result. *)
Lemma triple_conseq {A} P P' (m : M A) (Q Q' : A → list item → Prop) :
  P' ≡ₚ P → triple P m Q → (∀ a R, Q a R → Q' a R) → triple P' m Q'.
Proof.
  intros HP Hm HQ X w Hw. rewrite HP in Hw. eapply wp_mono; [by apply Hm|].
  intros a w1 (R & ? & ? & ?). exists R. auto.
Qed.

Lemma triple_perm {A} P P' (m : M A) Q : P' ≡ₚ P → triple P m Q → triple P' m Q.
Proof. intros. by eapply triple_conseq. Qed.

(** The frame rule. *)
Lemma triple_frame {A} F P (m : M A) Q :
  triple P m Q → triple (P ++ F) m (λ a R, ∃ R', R = R' ++ F ∧ Q a R').
Proof.
  intros Hm X w Hw. rewrite <- (assoc_L (++)) in Hw.
  eapply wp_mono; [by apply Hm|]. intros a w1 (R & ? & Hw1 & ? & Hu).
  exists (R ++ F). split_and!; [by exists R| |done|apply (untouched_app _ _ _ _ Hu)].
  by rewrite <- (assoc_L (++)).
Qed.

(** Run [m] on the part [P] of what is owned. *)
Lemma triple_step {A B} F P P' (m : M A) (f : A → M B) Q Q' :
  triple P m Q → P' ≡ₚ P ++ F →
  (∀ a R, Q a R → triple (R ++ F) (f a) Q') → triple P' (x ← m; f x) Q'.
Proof.
  intros Hm HP Hf. eapply triple_perm; [exact HP|].
  eapply triple_bind; [by apply triple_frame|]. intros a R (R' & -> & HQ). auto.
Qed.

Lemma triple_if {A} P (b : bool) (m1 m2 : M A) Q :
  (b = true → triple P m1 Q) → (b = false → triple P m2 Q) →
  triple P (if b then m1 else m2) Q.
Proof. destruct b; auto. Qed.

Lemma triple_get_dev {A} P (f : nvme_device → M A) Q :
  (∀ d, triple P (f d) Q) → triple P (d ← get_dev; f d) Q.
Proof. intros Hf X w Hw. apply wp_bind, wp_gets. by apply Hf. Qed.

(** A computation that does not touch the world. *)
Lemma triple_pure {A} P (m : M A) a :
  (∀ w, m w = Val a w) → triple P m (λ a' R, a' = a ∧ R = P).
Proof. intros Hm X w Hw. unfold wp. rewrite Hm. exists P. done. Qed.

(** The result of a function that gives back all it owns. *)
Definition gone {A} : A → list item → Prop := λ _ R, R = [].

Section triple_services.
Context {E : Env}.

Lemma triple_ext e : triple [] (ext e) gone.
Proof. intros X w Hw. apply wp_ext. exists []. split_and!; [done| |done..].
  by eapply holds_ext, Hw. Qed.
Lemma triple_emit e : triple [] (emit e) gone.
Proof. intros X w Hw. apply wp_emit. exists []. split_and!; [done| |done..].
  by eapply holds_ext, Hw. Qed.

(** What an allocator of blocks of kind [k] returns: [NULL], or a new block. *)
Definition new_blk (k : akind) (sz : option Z) (p : Z) (R : list item) : Prop :=
  p = 0 ∧ R = [] ∨ 0 < p ∧ R = [Blk p k sz].

Lemma triple_new_block k sz size d :
  default size sz = size → blk_ok (mk_block k size d) →
  triple [] (new_block k size d) (λ p R, 0 < p ∧ R = [Blk p k sz]).
Proof.
  intros Hsz Hok X w Hw. apply wp_new_block. intros p Hp Hnone. eexists.
  split_and!; [done|done| |done|by eapply untouched_new; [exact Hw|exact Hnone|]]. by eapply holds_new.
Qed.

Lemma length_sg_answer h n : length (sg_answer h n) = Z.to_nat n.
Proof. unfold sg_answer. by rewrite length_fmap, length_seqZ. Qed.

(** Allocations of [size] bytes always succeed. *)
Definition alloc_ok (size : Z) : Prop := ∀ h, ans (E_kmalloc size :: h) ≠ 0.

Lemma triple_kmalloc_null size :
  triple [] (kmalloc size) (λ p R, p = 0 ∧ R = [] ∧ ¬ alloc_ok size ∨
    0 < p ∧ R = [Blk p AK_kmalloc None]).
Proof.
  intros X w Hw. unfold kmalloc. apply wp_bind, wp_ext. apply wp_if; intros Hr.
  - apply wp_ret. exists []. split_and!; [left; split_and!; try done| |done|done].
    + intros Hok. apply Z.eqb_eq in Hr. by apply (Hok (w_hist w)).
    + by eapply holds_ext, Hw.
  - apply wp_new_block. intros p Hp Hnone. eexists. split; [by right|]. split; [|split; [done|by eapply untouched_new; [exact Hw|exact Hnone|]]].
    apply (holds_new p AK_kmalloc None size [] _ w); try done. by intros [|[|]].
Qed.

Lemma triple_kmalloc size : triple [] (kmalloc size) (new_blk AK_kmalloc None).
Proof.
  eapply triple_bind; [apply triple_ext|]. intros r R ->.
  apply triple_if; intros _; [by apply triple_ret; left|].
  eapply triple_conseq; [done|by apply (triple_new_block _ None); [|intros [|[|]]]|].
  intros p R [? ->]. by right.
Qed.

Lemma triple_free_block p k sz :
  triple [Blk p k sz] (free_block k p sz) gone.
Proof.
  intros X w Hw. destruct (holds_blk _ _ _ _ _ Hw) as (_&b&Hb&Hk&Hs&_).
  unfold wp, free_block. rewrite Hb, decide_True by done.
  exists []. split_and!; [done| |done|by eapply untouched_free; [exact Hw|]].
  by eapply holds_free, Hw.
Qed.

(** A free of a block whose size is known through an interface without size. *)
Lemma triple_free_block_nosize p k sz :
  triple [Blk p k sz] (free_block k p None) gone.
Proof.
  intros X w Hw. destruct (holds_blk _ _ _ _ _ Hw) as (_&b&Hb&Hk&Hs&_).
  unfold wp, free_block. rewrite Hb, decide_True by done.
  exists []. split_and!; [done| |done|by eapply untouched_free; [exact Hw|]].
  by eapply holds_free, Hw.
Qed.

Lemma triple_emit_then {A} e P (m : M A) Q : triple P m Q → triple P (emit e;; m) Q.
Proof.
  intros Hm X w Hw. apply wp_bind, wp_emit. eapply wp_mono; [apply Hm|].
  - by eapply holds_ext, Hw.
  - intros a w' (R & ? & ? & ? & ?). exists R. split_and!; [done..| |]; by etrans.
Qed.

Lemma triple_kfree p sz : p ≠ 0 → triple [Blk p AK_kmalloc sz] (kfree p) gone.
Proof.
  intros Hp. unfold kfree. destruct (Z.eqb_spec p 0); [done|].
  apply triple_emit_then, triple_free_block_nosize.
Qed.
Lemma triple_kfree_null : triple [] (kfree 0) gone.
Proof. by apply triple_ret. Qed.

Lemma triple_dma_alloc size : 0 ≤ size →
  triple [] (dma_alloc_coherent size)
    (λ pd R, new_blk AK_coherent (Some size) pd.1 R ∧ 0 ≤ pd.2 < 2 ^ 64).
Proof.
  intros Hs. intros X w Hw. unfold dma_alloc_coherent.
  apply wp_bind, wp_ext_dma. apply wp_if; intros _.
  - apply wp_ret. exists []. split; [split; [by left|simpl; lia]|split; [|done]].
    by eapply holds_ext, Hw.
  - apply wp_bind, wp_new_block. intros p Hp Hnone. apply wp_ret. eexists.
    split; [split; [by right|apply u64_range]|]. split; [|split; [done|by eapply untouched_new; [exact Hw|exact Hnone|]]].
    eapply holds_new; [done|apply Hnone|..|by eapply holds_ext, Hw]; try done.
    intros _. simpl. unfold zeros. rewrite length_replicate. lia.
Qed.
Lemma triple_dma_free p size :
  triple [Blk p AK_coherent (Some size)] (dma_free_coherent size p) gone.
Proof. apply triple_emit_then, triple_free_block. Qed.

Lemma triple_p2p_alloc size : 0 ≤ size →
  triple [] (pci_alloc_p2pmem size) (new_blk AK_p2p (Some size)).
Proof.
  intros Hs X w Hw. unfold pci_alloc_p2pmem. apply wp_bind, wp_ext.
  apply wp_if; intros _.
  - apply wp_ret. exists []. split_and!; [by left| |done..]. by eapply holds_ext, Hw.
  - apply wp_bind, wp_gets, wp_new_block. intros p Hp Hnone. eexists.
    split; [by right|]. split; [|split; [done|by eapply untouched_new; [exact Hw|exact Hnone|]]].
    eapply holds_new; [done|apply Hnone|..|by eapply holds_ext, Hw]; try done.
    intros _. simpl. unfold unset_bytes. rewrite length_fmap, length_seqZ. lia.
Qed.
Lemma triple_p2p_free p size :
  triple [Blk p AK_p2p (Some size)] (pci_free_p2pmem p size) gone.
Proof. apply triple_emit_then, triple_free_block. Qed.

Lemma triple_p2p_bus p :
  triple [] (pci_p2pmem_virt_to_bus p) (λ d R, 0 ≤ d < 2 ^ 64 ∧ R = []).
Proof.
  intros X w Hw. apply wp_bind, wp_ext_dma, wp_ret. exists [].
  split; [by split; [apply u64_range|]|split; [|done]]. by eapply holds_ext, Hw.
Qed.

Lemma triple_pool_alloc pool :
  triple [] (dma_pool_alloc pool)
    (λ pd R, new_blk (AK_pool pool) None pd.1 R ∧ 0 ≤ pd.2 < 2 ^ 64).
Proof.
  intros X w Hw. unfold dma_pool_alloc.
  apply wp_bind, wp_ext_dma. apply wp_if; intros _.
  - apply wp_ret. exists []. split; [split; [by left|simpl; lia]|split; [|done]].
    by eapply holds_ext, Hw.
  - apply wp_bind, wp_new_block. intros p Hp Hnone. apply wp_ret. eexists.
    split; [split; [by right|apply u64_range]|]. split; [|split; [done|by eapply untouched_new; [exact Hw|exact Hnone|]]].
    eapply holds_new; [done|apply Hnone|..|by eapply holds_ext, Hw]; try done. by intros [|[|]].
Qed.
Lemma triple_pool_free pool p :
  triple [Blk p (AK_pool pool) None] (dma_pool_free pool p) gone.
Proof. apply triple_emit_then, triple_free_block. Qed.

Lemma triple_gup addr n :
  triple [] (get_user_pages_fast addr n) (λ r R, r ≤ n ∧ R = [Pins (Z.max 0 r)]).
Proof.
  intros X w Hw. unfold get_user_pages_fast. apply wp_bind, wp_ext.
  apply wp_bind, wp_modify, wp_ret. eexists. split; [split; [|reflexivity]|].
  { lia. }
  split; [|done]. destruct Hw as [Hn Hd Hi Hp Hm].
  split; [done|done| | |done].
  - by constructor.
  - cbn. simpl in Hp. rewrite Hp. unfold sumZ. lia.
Qed.
Lemma triple_put_pages n : triple [Pins (Z.max 0 n)] (put_pages n) gone.
Proof.
  intros X w [Hn Hd Hi Hp Hm]. apply wp_bind, wp_emit, wp_modify. exists [].
  split_and!; [done| |done..]. split; [done|done| | |done].
  - by apply Forall_cons_1 in Hi as [_ Hi].
  - simpl. rewrite Hp. cbn. unfold sumZ. lia.
Qed.

Lemma triple_vmap n : 0 ≤ n → triple [] (vmap n) (new_blk AK_vmap (Some (n * PAGE_SIZE))).
Proof.
  intros Hs X w Hw. unfold vmap. apply wp_bind, wp_ext.
  apply wp_if; intros _.
  - apply wp_ret. exists []. split_and!; [by left| |done..]. by eapply holds_ext, Hw.
  - apply wp_bind, wp_gets, wp_new_block. intros p Hp Hnone. eexists.
    split; [by right|]. split; [|split; [done|by eapply untouched_new; [exact Hw|exact Hnone|]]].
    eapply holds_new; [done|apply Hnone|..|by eapply holds_ext, Hw]; try done.
    intros _. simpl. unfold unset_bytes. rewrite length_fmap, length_seqZ.
    unfold PAGE_SIZE. lia.
Qed.
Lemma triple_vunmap p sz : p ≠ 0 → triple [Blk p AK_vmap sz] (vunmap p) gone.
Proof.
  intros Hp. unfold vunmap. destruct (Z.eqb_spec p 0); [done|].
  apply triple_emit_then, triple_free_block_nosize.
Qed.

Lemma triple_map_sg n :
  triple [] (dma_map_sg n)
    (λ re R, (∃ h, re.2 = sg_answer (E_map_sg n :: h) n) ∧
      (re.1 ≤ 0 ∧ R = [] ∨ 0 < re.1 ∧ R = [SgMap])).
Proof.
  intros X w [Hn Hd Hi Hp Hm]. unfold wp, dma_map_sg.
  set (r := s32 _). destruct (Z.ltb_spec 0 r) as [Hr|Hr]; eexists;
    (split; [split; [by exists (w_hist w)|]|]).
  - right. by split.
  - split; [|done]. split; [done|done| |done|].
    + by constructor.
    + cbn. simpl in Hm. rewrite Hm. unfold sumZ. lia.
  - left. by split.
  - split; [|done]. by split.
Qed.
Lemma triple_unmap_sg n : triple [SgMap] (dma_unmap_sg n) gone.
Proof.
  intros X w [Hn Hd Hi Hp Hm]. apply wp_bind, wp_emit, wp_modify. exists [].
  split_and!; [done| |done..]. split; [done|done| |done|].
  - by apply Forall_cons_1 in Hi as [_ Hi].
  - simpl. rewrite Hm. cbn. unfold sumZ. lia.
Qed.

Lemma triple_copy_from_user : triple [] copy_from_user gone.
Proof.
  eapply triple_bind; [apply triple_ext|]. intros r R ->. by apply triple_ret.
Qed.
Lemma triple_copy_to_user u : triple [] (copy_to_user u) gone.
Proof.
  eapply triple_bind; [apply triple_ext|]. intros r R ->. by apply triple_ret.
Qed.
End triple_services.

(** ** Proof automation

    [tcall L]: the next call takes nothing ([L] is its triple); [tgive F L]: the
    next call takes all that is owned but [F]; [tlast L]: the last call of the
    function takes what is owned, up to order. *)

Ltac tcall L :=
  lazymatch goal with
  | |- triple ?P _ _ =>
    eapply (triple_step P []); [apply L|reflexivity|]; cbn beta; simpl app
  end.
Ltac tgive F L :=
  eapply (triple_step F); [apply L|solve_Permutation|]; cbn beta; simpl app.
Ltac tlast L := eapply triple_conseq; [|apply L|]; [solve_Permutation|].
Ltac tif := apply triple_if.

Lemma triple_null_free {A} P (m : M A) Q : triple P m Q → triple P (kfree 0;; m) Q.
Proof. done. Qed.

(** A loop that gives back one item per element. *)
Lemma triple_mapM_gone {A} (f : A → M unit) (it : A → list item) l :
  (∀ x, x ∈ l → triple (it x) (f x) gone) → triple (l ≫= it) (mapM_ f l) gone.
Proof.
  induction l as [|x l IH]; intros Hf; simpl; [by apply triple_ret|].
  eapply (triple_step (l ≫= it)); [apply Hf; set_solver|done|].
  intros _ R ->. simpl. apply IH. intros y ?. apply Hf. set_solver.
Qed.
