(* ===== verification/Prp.v ===== *)
(** * User pages and PRP lists

    The first part of [modules/dnvme/cmd.c]: pinning and mapping the user buffer
    of a command ([dnvme_map_user_page]), building the PRP entries that describe
    it ([dnvme_setup_prps]) and giving everything back ([dnvme_free_prp_list],
    [dnvme_unmap_user_page], [dnvme_release_prps]).

    A [struct nvme_prps] under construction is a value that the functions take and
    return.  The arrays it owns are blocks of the kernel heap; what is stored in
    them is the typed view [prp_list]/[pg_va]/[pg_addr]/[sg] of the record. *)

From S2P Require Import Prelude Types Kernel Own.

(** Sizes of the allocated objects on a 64-bit kernel. *)
Definition SIZEOF_ptr := 8.
Definition SIZEOF_dma_addr_t := 8.
Definition SIZEOF_scatterlist := 32.
Definition SIZEOF_nvme_prps := 96.

Definition offset_in_page (a : Z) : Z := Z.land a (PAGE_SIZE - 1).
Definition IS_ALIGNED (x a : Z) : bool := Z.land x (a - 1) =? 0.

(** ** Fields of a 64-byte command ([include/uapi/nvme/command.h])

    A command is the byte list of [cmd_buf]; an access outside it faults. *)

Definition ccmd_get (n : nat) (off : Z) (c : list Z) : M Z :=
  match load_le n c off with Some v => mret v | None => oops F_oob end.
Definition ccmd_set (n : nat) (off v : Z) (c : list Z) : M (list Z) :=
  match store_le n c off v with Some c' => mret c' | None => oops F_oob end.

Definition ccmd_opcode := ccmd_get 1 0.
Definition ccmd_flags := ccmd_get 1 1.
Definition ccmd_set_command_id := ccmd_set 2 2.
Definition ccmd_command_id := ccmd_get 2 2.
Definition ccmd_set_metadata := ccmd_set 8 16.
Definition ccmd_set_prp1 := ccmd_set 8 24.
Definition ccmd_set_prp2 := ccmd_set 8 32.

Section prp.
Context {E : Env}.

(** ** Mapping user pages *)

(** The entries of the table before [dma_map_sg]: offset and length in each
    page ([sg_set_page]). *)
Fixpoint sg_set_pages (n : nat) (offset len : Z) : list (Z * Z) :=
  match n with
  | O => []
  | S n => (offset, Z.min len (PAGE_SIZE - offset)) ::
           sg_set_pages n 0 (u32 (len - (PAGE_SIZE - offset)))
  end.

(** [sg_init_table] and [sg_mark_end] write the entry [nr_pages - 1].  The
    pages are those [get_user_pages_fast] pinned: none is [NULL]. *)
Definition dnvme_pages_to_sgl (nr_pages offset len : Z) : M (Z * list (Z * Z)) :=
  sgl ← kmalloc (nr_pages * SIZEOF_scatterlist);
  if sgl =? 0 then mret (0, [])
  else if nr_pages <=? 0 then oops F_oob
  else mret (sgl, sg_set_pages (Z.to_nat nr_pages) offset len).

(** The result is [ret] and the structure at [prps]. *)
Definition dnvme_map_user_page (prps : nvme_prps) (data size : Z)
    (dir : dma_data_direction) (access : bool) : M (Z * nvme_prps) :=
  let addr := data in
  if (addr =? 0) || negb (IS_ALIGNED addr 4) || (size =? 0)
  then mret (- EINVAL, prps)
  else
    let offset := offset_in_page addr in
    let nr_pages := s32 (DIV_ROUND_UP (u32 (offset + size)) PAGE_SIZE) in
    pages ← kmalloc (nr_pages * SIZEOF_ptr);
    if pages =? 0 then mret (- ENOMEM, prps)
    else
      (** [out:] drops the first [n] pages and the array. *)
      let out (n ret : Z) : M (Z * nvme_prps) :=
        put_pages n;; kfree pages;; mret (ret, prps) in
      ret ← get_user_pages_fast addr nr_pages;
      if ret <? nr_pages then out ret (- EFAULT)
      else
        buf ← (if access then vmap nr_pages else mret 0);
        if access && (buf =? 0) then out nr_pages (- EFAULT)
        else
          '(sgl, _) ← dnvme_pages_to_sgl nr_pages offset size;
          if sgl =? 0 then vunmap buf;; out nr_pages ret
          else
            '(ret, ents) ← dma_map_sg nr_pages;
            if ret <=? 0
            then kfree sgl;; vunmap buf;; out nr_pages (- ENOMEM)
            else
              kfree pages;;
              mret (0, prps <| sg_ptr := sgl |> <| sg := ents |>
                            <| num_map_pgs := nr_pages |>
                            <| prps_buf := buf |>
                            <| data_dir := dir |>
                            <| data_buf_addr := addr |>
                            <| data_buf_size := size |>).

(** [access] is asked for the memory of a discontiguous queue. *)
Definition dnvme_cmd_map_user_page (cmd : nvme_64b_cmd) (ccmd : list Z)
    (prps : nvme_prps) : M (Z * nvme_prps) :=
  op ← ccmd_opcode ccmd;
  let access := (c64_sqid cmd =? NVME_AQ_ID) &&
    ((op =? nvme_admin_create_sq) || (op =? nvme_admin_create_cq)) in
  dnvme_map_user_page prps (c64_data_buf_ptr cmd) (c64_data_buf_size cmd)
    (c64_data_dir cmd) access.

Definition dnvme_unmap_user_page (prps : nvme_prps) : M nvme_prps :=
  prps ← (if prps_buf prps =? 0 then mret prps
          else vunmap (prps_buf prps);; mret (prps <| prps_buf := 0 |>));
  if sg_ptr prps =? 0 then mret prps
  else
    dma_unmap_sg (num_map_pgs prps);;
    put_pages (num_map_pgs prps);;
    kfree (sg_ptr prps);;
    mret (prps <| sg_ptr := 0 |> <| sg := [] |>).

(** ** Pages of PRP entries or SGL descriptors *)

(** [dma_pool_free(pool, list[i], dma[i])] for [i--; i >= 0; i--]. *)
Definition free_pool_pages (pool : Z) (l : list (Z * Z)) : M unit :=
  mapM_ (λ pg, dma_pool_free pool pg.1) (reverse l).

(** The allocation loop; [None] when a page could not be had, those obtained
    before it are given back. *)
Fixpoint alloc_pool_pages (pool : Z) (n : nat) (got : list (Z * Z)) :
    M (option (list (Z * Z))) :=
  match n with
  | O => mret (Some got)
  | S n =>
    '(p, dma) ← dma_pool_alloc pool;
    if p =? 0 then free_pool_pages pool got;; mret None
    else alloc_pool_pages pool n (got ++ [(p, dma)])
  end.

(** The two arrays and the pages of a list of [n] pages; [None] is [-ENOMEM]
    with everything given back. *)
Definition alloc_list (pool n : Z) : M (option (Z * Z * list (Z * Z))) :=
  lp ← kmalloc (SIZEOF_ptr * n);
  if lp =? 0 then mret None
  else
    dp ← kmalloc (SIZEOF_dma_addr_t * n);
    if dp =? 0 then kfree lp;; mret None
    else
      r ← alloc_pool_pages pool (Z.to_nat n) [];
      match r with
      | None => kfree dp;; kfree lp;; mret None
      | Some pgs => mret (Some (lp, dp, pgs))
      end.

(** The initialiser [pool = prps->pg_pool] stands before the [NULL] check; its
    value is used behind it only. *)
Definition dnvme_free_prp_list (prps : nvme_prps) : M nvme_prps :=
  if prp_list_ptr prps =? 0 then mret prps
  else
    mapM_ (dma_pool_free (pg_pool prps)) (take (Z.to_nat (nr_pages prps)) (pg_va prps));;
    kfree (pg_addr_ptr prps);;
    kfree (prp_list_ptr prps);;
    mret (prps <| pg_addr_ptr := 0 |> <| pg_addr := [] |>
               <| prp_list_ptr := 0 |> <| prp_list := PP_null |> <| pg_va := [] |>).

(** ** The PRP list *)

(** [pages[j][k] = v] *)
Definition set_cell {A} (pages : list (list A)) (j k : Z) (v : A) :
    M (list (list A)) :=
  match pages !! Z.to_nat j with
  | Some pg =>
    if (0 <=? j) && (0 <=? k) && (k <? Z.of_nat (length pg))
    then mret (<[Z.to_nat j := <[Z.to_nat k := v]> pg]> pages)
    else oops F_oob
  | None => oops F_oob
  end.
Definition get_dma (prp_dma : list Z) (j : Z) : M Z :=
  match prp_dma !! Z.to_nat j with
  | Some d => if 0 <=? j then mret d else oops F_oob
  | None => oops F_oob
  end.

(** The loop that fills the pages.  [sgs] is the current entry of the
    scatterlist followed by those behind it, so [sg_next] is its tail. *)
Fixpoint prp_fill (fuel : nat) (prp_dma : list Z) (j k buf_len dma_len pg_oft dma_addr : Z)
    (sgs : list scatterlist) (pages : list (list Z)) (nr : Z) :
    M (Z * list (list Z) * Z) :=
  if buf_len <=? 0 then mret (0, pages, nr)
  else
  match fuel with
  | O => hang
  | S fuel =>
    if k =? NVME_PRPS_PER_PAGE - 1
    then
      d ← get_dma prp_dma (j + 1);
      pages ← set_cell pages j k d;
      prp_fill fuel prp_dma (j + 1) 0 buf_len dma_len pg_oft dma_addr sgs pages (nr + 1)
    else
      pages ← set_cell pages j k dma_addr;
      let nr := nr + 1 in
      let buf_len := s32 (buf_len - (PAGE_SIZE - pg_oft)) in
      let dma_len := s32 (dma_len - (PAGE_SIZE - pg_oft)) in
      if buf_len <=? 0 then mret (0, pages, nr)
      else if 0 <? dma_len
      then prp_fill fuel prp_dma j (k + 1) buf_len dma_len 0
             (u64 (dma_addr + PAGE_SIZE)) sgs pages nr
      else if dma_len <? 0 then mret (- EFAULT, pages, nr)
      else
        match tail sgs with
        | [] => oops F_null
        | s :: _ =>
          prp_fill fuel prp_dma j (k + 1) buf_len (s32 (sg_dma_len s)) 0
            (sg_dma_address s) (tail sgs) pages nr
        end
  end.

Inductive prp_flag := PRP1_LIST | PRP2_LIST.

(** From the label [prp_list:] on. *)
Definition setup_prp_list (flag : prp_flag) (buf_len dma_len pg_oft dma_addr : Z)
    (sgs : list scatterlist) (ccmd : list Z) (prps : nvme_prps) :
    M (Z * list Z * nvme_prps) :=
  let nr_entry' := u32 (DIV_ROUND_UP (u32 (pg_oft + buf_len)) PAGE_SIZE) in
  let nr_pages' := u32 (DIV_ROUND_UP (u32 (NVME_PRP_ENTRY_SIZE * nr_entry'))
                          (PAGE_SIZE - NVME_PRP_ENTRY_SIZE)) in
  r ← alloc_list (pg_pool prps) nr_pages';
  match r with
  | None => mret (- ENOMEM, ccmd, prps)
  | Some (lp, dp, pgs) =>
    let prp_dma := pgs.*2 in
    let prps := prps <| prp_list_ptr := lp |> <| pg_va := pgs.*1 |>
                     <| nr_pages := nr_pages' |>
                     <| pg_addr_ptr := dp |> <| pg_addr := prp_dma |> in
    d0 ← get_dma prp_dma 0;
    ccmd ← (match flag with
            | PRP1_LIST => c ← ccmd_set_prp1 d0 ccmd; ccmd_set_prp2 0 c
            | PRP2_LIST => ccmd_set_prp2 d0 ccmd
            end);
    '(ret, pages, nr) ←
      prp_fill (S (2 * Z.to_nat nr_entry')) prp_dma 0 0 buf_len dma_len pg_oft
        dma_addr sgs
        (replicate (length pgs) (replicate (Z.to_nat NVME_PRPS_PER_PAGE) 0)) 0;
    let prps := prps <| nr_entry := nr |> <| prp_list := PP_prp pages |> in
    if ret <? 0
    then free_pool_pages (pg_pool prps) pgs;; kfree dp;; kfree lp;;
         mret (ret, ccmd, prps)
    else mret (0, ccmd, prps)
  end.

Definition has_mask (mask bit : Z) : bool := negb (Z.land mask bit =? 0).

(** The result is [ret], the command and the structure at [prps]. *)
Definition dnvme_setup_prps (cmd : nvme_64b_cmd) (ccmd : list Z) (prps : nvme_prps) :
    M (Z * list Z * nvme_prps) :=
  let prp_mask := c64_bit_mask cmd in
  let sgs := sg prps in
  let buf_len := s32 (data_buf_size prps) in
  match sgs with
  | [] => oops F_null
  | s :: _ =>
    let dma_addr := sg_dma_address s in
    let dma_len := s32 (sg_dma_len s) in
    let pg_oft := offset_in_page dma_addr in
    op ← ccmd_opcode ccmd;
    if (c64_sqid cmd =? NVME_AQ_ID) &&
       ((op =? nvme_admin_create_sq) || (op =? nvme_admin_create_cq))
    then
      if negb (has_mask prp_mask NVME_MASK_PRP1_LIST) then mret (- EINVAL, ccmd, prps)
      else setup_prp_list PRP1_LIST buf_len dma_len pg_oft dma_addr sgs ccmd prps
    else if negb (has_mask prp_mask NVME_MASK_PRP1_PAGE)
    then mret (- EINVAL, ccmd, prps)
    else
      ccmd ← ccmd_set_prp1 dma_addr ccmd;
      let buf_len := s32 (buf_len - (PAGE_SIZE - pg_oft)) in
      let dma_len := s32 (dma_len - (PAGE_SIZE - pg_oft)) in
      if buf_len <=? 0 then mret (0, ccmd, prps)
      else
        '(dma_addr, dma_len, sgs) ←
          (if negb (dma_len =? 0)
           then mret (u64 (dma_addr + (PAGE_SIZE - pg_oft)), dma_len, sgs)
           else match tail sgs with
                | [] => oops F_null
                | s :: _ => mret (sg_dma_address s, s32 (sg_dma_len s), tail sgs)
                end);
        if buf_len <=? PAGE_SIZE
        then
          if negb (has_mask prp_mask NVME_MASK_PRP2_PAGE)
          then mret (- EINVAL, ccmd, prps)
          else ccmd ← ccmd_set_prp2 dma_addr ccmd; mret (0, ccmd, prps)
        else if negb (has_mask prp_mask NVME_MASK_PRP2_LIST)
        then mret (- EINVAL, ccmd, prps)
        else setup_prp_list PRP2_LIST buf_len dma_len 0 dma_addr sgs ccmd prps
  end.

(** ** Release *)

(** [None] is the [NULL] pointer. *)
Definition dnvme_release_prps (prps : option (owned nvme_prps)) : M unit :=
  match prps with
  | None => mret tt
  | Some (p, prps) =>
    prps ← dnvme_free_prp_list prps;
    dnvme_unmap_user_page prps;;
    kfree p
  end.

(** The list of the queue is empty afterwards. *)
Definition dnvme_delete_cmd_list (sq : nvme_sq) : M nvme_sq :=
  mapM_ (λ cmd, dnvme_release_prps (cmd_prps cmd);; kfree (cmd_ptr cmd))
    (sq_cmd_list sq);;
  mret (sq <| sq_cmd_list := [] |>).
End prp.

(** ** What a [struct nvme_prps] owns *)

Definition list_items (prps : nvme_prps) : list item :=
  if prp_list_ptr prps =? 0 then []
  else (pg_va prps ≫= λ va, [Blk va (AK_pool (pg_pool prps)) None]) ++
       [Blk (pg_addr_ptr prps) AK_kmalloc None; Blk (prp_list_ptr prps) AK_kmalloc None].
(** The kernel mapping of [n] pages at [buf], [NULL] for none. *)
Definition buf_items (buf n : Z) : list item :=
  if buf =? 0 then [] else [Blk buf AK_vmap (Some (n * PAGE_SIZE))].
Definition map_items (prps : nvme_prps) : list item :=
  buf_items (prps_buf prps) (num_map_pgs prps) ++
  (if sg_ptr prps =? 0 then []
   else [SgMap; Pins (Z.max 0 (num_map_pgs prps)); Blk (sg_ptr prps) AK_kmalloc None]).
Definition prps_items (prps : nvme_prps) : list item :=
  list_items prps ++ map_items prps.
Definition oprps_items (o : option (owned nvme_prps)) : list item :=
  match o with
  | None => []
  | Some (p, prps) => Blk p AK_kmalloc None :: prps_items prps
  end.

(** The page array has the length the release loop uses. *)
Definition prps_wf (prps : nvme_prps) : Prop :=
  prp_list_ptr prps ≠ 0 →
  nr_pages prps = Z.of_nat (length (pg_va prps)) ∧ pg_addr_ptr prps ≠ 0.
Definition oprps_wf (o : option (owned nvme_prps)) : Prop :=
  match o with None => True | Some (p, prps) => p ≠ 0 ∧ prps_wf prps end.

Section prp_own.
Context {E : Env}.

Lemma triple_pages_to_sgl n offset len : 0 < n →
  triple [] (dnvme_pages_to_sgl n offset len)
    (λ se R, se.1 = 0 ∧ R = [] ∧ ¬ alloc_ok (n * SIZEOF_scatterlist) ∨
      0 < se.1 ∧ R = [Blk se.1 AK_kmalloc None]).
Proof.
  intros Hn. unfold dnvme_pages_to_sgl. tcall triple_kmalloc_null.
  intros p R [(-> & -> & ?)|[Hp ->]]; simpl.
  - apply triple_ret. by left.
  - destruct (Z.eqb_spec p 0); [lia|]. destruct (Z.leb_spec n 0); [lia|].
    apply triple_ret. by right.
Qed.

Lemma triple_out p (prps : nvme_prps) (n ret : Z) : 0 < p →
  triple [Pins (Z.max 0 n); Blk p AK_kmalloc None]
    (put_pages n;; kfree p;; mret (ret, prps))
    (λ rp R, rp = (ret, prps) ∧ R = []).
Proof.
  intros Hp. tgive [Blk p AK_kmalloc None] triple_put_pages. intros _ R ->.
  tgive (@nil item) (triple_kfree p None ltac:(lia)). intros _ R ->.
  by apply triple_ret.
Qed.

(** What [dnvme_map_user_page] leaves: nothing on an error; nothing, the structure
    untouched and a positive result when the scatterlist could not be allocated;
    the mapping on success. *)
Definition map_post (prps : nvme_prps) (data size : Z) (dir : dma_data_direction)
    (access : bool) (rp : Z * nvme_prps) (R : list item) : Prop :=
  let n := DIV_ROUND_UP (offset_in_page data + size) PAGE_SIZE in
  (rp.1 < 0 ∨ 0 < rp.1 ∧ ¬ alloc_ok (n * SIZEOF_scatterlist)) ∧ rp.2 = prps ∧ R = [] ∨
  rp.1 = 0 ∧ R ≡ₚ map_items rp.2 ∧ 0 < n ∧
  ∃ sgl h buf, 0 < sgl ∧ (buf = 0 ↔ access = false) ∧
    rp.2 = prps <| sg_ptr := sgl |> <| sg := sg_answer (E_map_sg n :: h) n |>
                <| num_map_pgs := n |> <| prps_buf := buf |> <| data_dir := dir |>
                <| data_buf_addr := data |> <| data_buf_size := size |>.

Lemma offset_in_page_range a : 0 ≤ offset_in_page a < PAGE_SIZE.
Proof.
  unfold offset_in_page, PAGE_SIZE. change (4096 - 1) with (Z.ones 12).
  rewrite Z.land_ones by lia. apply Z.mod_pos_bound. lia.
Qed.

Lemma map_nr_pages data size :
  0 < size → offset_in_page data + size < 2 ^ 32 →
  let n := DIV_ROUND_UP (offset_in_page data + size) PAGE_SIZE in
  s32 (DIV_ROUND_UP (u32 (offset_in_page data + size)) PAGE_SIZE) = n ∧ 0 < n.
Proof.
  intros Hs Hw. pose proof (offset_in_page_range data).
  rewrite u32_small by lia.
  destruct (DIV_ROUND_UP_spec (offset_in_page data + size) PAGE_SIZE) as [Hb|Hb];
    [done|lia| |lia].
  unfold PAGE_SIZE in *. split; [apply s32_small|]; lia.
Qed.

Lemma triple_vmap_opt n access : 0 ≤ n →
  triple [] (if access : bool then vmap n else mret 0)
    (λ b R, b = 0 ∧ access = true ∧ R = [] ∨
            (b = 0 ↔ access = false) ∧ R = buf_items b n).
Proof.
  intros Hn. destruct access; [|apply triple_ret; by right].
  eapply triple_conseq; [done|by apply triple_vmap|].
  intros b R [[-> ->]|[Hb ->]]; [by left|right]. unfold buf_items.
  destruct (Z.eqb_spec b 0); [lia|]. split; [split; [lia|done]|done].
Qed.

Lemma triple_vunmap_opt {A} buf n P (k : M A) Q :
  triple P k Q → triple (buf_items buf n ++ P) (vunmap buf;; k) Q.
Proof.
  intros Hk. unfold buf_items. destruct (Z.eqb_spec buf 0) as [->|]; [exact Hk|].
  tgive P (triple_vunmap buf (Some (n * PAGE_SIZE))); [done|]. by intros _ R ->.
Qed.

Lemma triple_map_user_page prps data size dir access :
  0 ≤ size → offset_in_page data + size < 2 ^ 32 →
  prps_buf prps = 0 → sg_ptr prps = 0 →
  triple [] (dnvme_map_user_page prps data size dir access)
    (map_post prps data size dir access).
Proof.
  intros Hs Hw Hb0 Hsg0. unfold dnvme_map_user_page.
  tif; intros Hcond; [apply triple_ret; left; split_and!; [by left|done|done]|].
  apply orb_false_iff in Hcond as [_ Hsz%Z.eqb_neq].
  destruct (map_nr_pages data size ltac:(lia) Hw) as [-> Hn].
  set (n := DIV_ROUND_UP _ _) in *.
  tcall triple_kmalloc. intros p R [[-> ->]|[Hp ->]]; simpl.
  { apply triple_ret. left. split_and!; [by left|done|done]. }
  destruct (Z.eqb_spec p 0); [lia|].
  tcall triple_gup. intros r R [Hrn ->]. simpl.
  tif; intros Hlt.
  { eapply triple_conseq; [done|by apply triple_out|].
    intros a R [-> ->]. left. simpl. split_and!; [by left|done|done]. }
  apply Z.ltb_ge in Hlt. assert (r = n) as -> by lia.
  tcall (triple_vmap_opt n access ltac:(lia)).
  intros buf R [(->&->&->)|(Hacc&->)].
  { simpl. eapply triple_conseq; [done|by apply triple_out|].
    intros a R [-> ->]. left. simpl. split_and!; [by left|done|done]. }
  replace (access && (buf =? 0)) with false
    by (destruct access; simpl; [symmetry; apply Z.eqb_neq; naive_solver|done]).
  tcall (triple_pages_to_sgl n (offset_in_page data) size Hn).
  intros [sgl se] R [(Hsgl & -> & Hna)|[Hsgl ->]]; simpl in Hsgl; simpl.
  { subst sgl. apply triple_vunmap_opt. eapply triple_conseq; [done|by apply triple_out|].
    intros a R [-> ->]. left. simpl. split_and!; [right; split; [lia|done]|done|done]. }
  destruct (Z.eqb_spec sgl 0); [lia|].
  tcall (triple_map_sg n). intros [ret ents] R [[h Hents] Hret]. simpl in *.
  tif; intros Hle.
  { apply Z.leb_le in Hle. destruct Hret as [[_ ->]|[? _]]; [|lia]. simpl.
    tgive (buf_items buf n ++ [Pins (Z.max 0 n); Blk p AK_kmalloc None])
      (triple_kfree sgl None ltac:(lia)). intros _ R ->.
    apply triple_vunmap_opt. eapply triple_conseq; [done|by apply triple_out|].
    intros a R [-> ->]. left. simpl. split_and!; [by left|done|done]. }
  apply Z.leb_gt in Hle. destruct Hret as [[? _]|[_ ->]]; [lia|].
  tgive (SgMap :: Blk sgl AK_kmalloc None :: buf_items buf n ++ [Pins (Z.max 0 n)])
    (triple_kfree p None ltac:(lia)). intros _ R ->. apply triple_ret. right.
  simpl. split_and!; [done| |done|].
  - unfold map_items. simpl. destruct (Z.eqb_spec sgl 0); [lia|].
    solve_Permutation.
  - exists sgl, h, buf. by subst.
Qed.

Lemma triple_unmap_user_page prps :
  triple (map_items prps) (dnvme_unmap_user_page prps)
    (λ p R, R = [] ∧ pg_pool p = pg_pool prps).
Proof.
  unfold dnvme_unmap_user_page, map_items.
  eapply (triple_step _ (buf_items (prps_buf prps) (num_map_pgs prps)) _ _ _
    (λ p R, R = [] ∧ sg_ptr p = sg_ptr prps ∧ num_map_pgs p = num_map_pgs prps ∧
            pg_pool p = pg_pool prps)); [|done|].
  { destruct (Z.eqb_spec (prps_buf prps) 0) as [->|Hb]; [by apply triple_ret|].
    rewrite <- (app_nil_r (buf_items _ _)). by apply triple_vunmap_opt, triple_ret. }
  intros p R (-> & Hs & Hn & Hpool). simpl. rewrite Hs, Hn.
  destruct (Z.eqb_spec (sg_ptr prps) 0) as [H0|H0]; [by apply triple_ret|].
  tgive [Pins (Z.max 0 (num_map_pgs prps)); Blk (sg_ptr prps) AK_kmalloc None]
    triple_unmap_sg. intros _ R ->.
  tgive [Blk (sg_ptr prps) AK_kmalloc None] triple_put_pages. intros _ R ->.
  tgive (@nil item) (triple_kfree (sg_ptr prps) None H0). intros _ R ->.
  by apply triple_ret.
Qed.

Definition pool_items (pool : Z) (vas : list Z) : list item :=
  vas ≫= λ va, [Blk va (AK_pool pool) None].

Lemma triple_free_list {A} pool vas lp dp P (k : M A) Q :
  lp ≠ 0 → dp ≠ 0 → triple P k Q →
  triple ((pool_items pool vas ++ [Blk dp AK_kmalloc None; Blk lp AK_kmalloc None]) ++ P)
    (mapM_ (dma_pool_free pool) vas;; kfree dp;; kfree lp;; k) Q.
Proof.
  intros Hl Hd Hk.
  eapply (triple_step ([Blk dp AK_kmalloc None; Blk lp AK_kmalloc None] ++ P)).
  { apply triple_mapM_gone. intros va _. apply triple_pool_free. }
  { by rewrite <- (assoc_L (++)). }
  intros _ R ->. simpl.
  tgive (Blk lp AK_kmalloc None :: P) (triple_kfree dp None Hd). intros _ R ->.
  tgive P (triple_kfree lp None Hl). by intros _ R ->.
Qed.

Lemma triple_free_prp_list prps : prps_wf prps →
  triple (list_items prps) (dnvme_free_prp_list prps)
    (λ p R, R = [] ∧ map_items p = map_items prps).
Proof.
  intros Hwf. unfold dnvme_free_prp_list, list_items.
  destruct (Z.eqb_spec (prp_list_ptr prps) 0) as [H0|H0]; [by apply triple_ret|].
  destruct (Hwf H0) as [-> Hpa]. rewrite Nat2Z.id, firstn_all.
  rewrite <- (app_nil_r (_ ++ [_; _])).
  apply triple_free_list; [done|done|]. by apply triple_ret.
Qed.

Lemma triple_release_prps o : oprps_wf o →
  triple (oprps_items o) (dnvme_release_prps o) gone.
Proof.
  destruct o as [[p prps]|]; [|by intros; apply triple_ret]. intros [Hp Hwf]. simpl.
  eapply (triple_step (Blk p AK_kmalloc None :: map_items prps)).
  { by apply triple_free_prp_list. }
  { unfold prps_items. solve_Permutation. }
  intros prps1 R [-> Hm]. rewrite <- Hm. simpl.
  tgive [Blk p AK_kmalloc None] triple_unmap_user_page. intros prps2 R [-> _].
  by apply (triple_kfree p None).
Qed.

(** What a list of commands owns. *)
Definition cmd_items (c : nvme_cmd) : list item :=
  Blk (cmd_ptr c) AK_kmalloc None :: oprps_items (cmd_prps c).
Definition cmd_wf (c : nvme_cmd) : Prop := cmd_ptr c ≠ 0 ∧ oprps_wf (cmd_prps c).

Lemma triple_delete_cmd_list sq : Forall cmd_wf (sq_cmd_list sq) →
  triple (sq_cmd_list sq ≫= cmd_items) (dnvme_delete_cmd_list sq)
    (λ sq' R, sq' = sq <| sq_cmd_list := [] |> ∧ R = []).
Proof.
  intros Hwf. rewrite Forall_forall in Hwf. unfold dnvme_delete_cmd_list.
  eapply triple_bind; [apply triple_mapM_gone|intros _ R ->; by apply triple_ret].
  intros c Hc. destruct (Hwf c Hc) as [Hp Ho]. unfold cmd_items.
  tgive [Blk (cmd_ptr c) AK_kmalloc None] (triple_release_prps _ Ho).
  intros _ R ->. by apply (triple_kfree _ None).
Qed.

Lemma triple_free_pool_pages pool pgs :
  triple (pool_items pool pgs.*1) (free_pool_pages pool pgs) gone.
Proof.
  unfold free_pool_pages. eapply (triple_perm (reverse pgs ≫= λ pg, [Blk pg.1 (AK_pool pool) None])).
  - unfold pool_items.
    induction pgs as [|pg pgs IH]; [done|]. rewrite fmap_cons, reverse_cons, bind_app.
    simpl. rewrite IH. solve_Permutation.
  - apply triple_mapM_gone. intros pg _. apply triple_pool_free.
Qed.

Definition dma_ok (pg : Z * Z) : Prop := 0 ≤ pg.2 < 2 ^ 64.

Lemma triple_alloc_pool_pages pool n got : Forall dma_ok got →
  triple (pool_items pool got.*1) (alloc_pool_pages pool n got)
    (λ o R, o = None ∧ R = [] ∨
      ∃ pgs, o = Some pgs ∧ length pgs = (length got + n)%nat ∧ Forall dma_ok pgs ∧
             R = pool_items pool pgs.*1).
Proof.
  revert got. induction n as [|n IH]; intros got Hok; simpl.
  { apply triple_ret. right. exists got. split_and!; [done|lia|done|done]. }
  tcall triple_pool_alloc. intros [p dma] R [[[Hp ->]|[Hp ->]] Hdma]; simpl in Hp |- *.
  - subst p. simpl. eapply triple_bind; [apply triple_free_pool_pages|].
    intros _ R ->. apply triple_ret. by left.
  - destruct (Z.eqb_spec p 0); [lia|].
    eapply triple_conseq; [|apply (IH (got ++ [(p, dma)]))|].
    + unfold pool_items. rewrite fmap_app, bind_app. simpl. solve_Permutation.
    + apply Forall_app_2; [done|]. by apply Forall_singleton.
    + intros o R [?|(pgs & -> & Hl & Hf & ->)]; [by left|right]. exists pgs.
      rewrite length_app in Hl. simpl in Hl. split_and!; [done|lia|done|done].
Qed.

Lemma triple_alloc_list pool n :
  triple [] (alloc_list pool n)
    (λ o R, o = None ∧ R = [] ∨
      ∃ lp dp pgs, o = Some (lp, dp, pgs) ∧ lp ≠ 0 ∧ dp ≠ 0 ∧
        length pgs = Z.to_nat n ∧ Forall dma_ok pgs ∧
        R ≡ₚ pool_items pool pgs.*1 ++ [Blk dp AK_kmalloc None; Blk lp AK_kmalloc None]).
Proof.
  unfold alloc_list. tcall triple_kmalloc. intros lp R [[-> ->]|[Hlp ->]]; simpl.
  { apply triple_ret. by left. }
  destruct (Z.eqb_spec lp 0); [lia|].
  tcall triple_kmalloc. intros dp R [[-> ->]|[Hdp ->]]; simpl.
  { tgive (@nil item) (triple_kfree lp None ltac:(lia)). intros _ R ->.
    apply triple_ret. by left. }
  destruct (Z.eqb_spec dp 0); [lia|].
  eapply (triple_step [Blk dp AK_kmalloc None; Blk lp AK_kmalloc None]);
    [apply (triple_alloc_pool_pages pool (Z.to_nat n) []); constructor|done|].
  intros o R [[-> ->]|(pgs & -> & Hl & Hf & ->)]; simpl.
  - tgive [Blk lp AK_kmalloc None] (triple_kfree dp None ltac:(lia)). intros _ R ->.
    tgive (@nil item) (triple_kfree lp None ltac:(lia)). intros _ R ->.
    apply triple_ret. by left.
  - apply triple_ret. right. exists lp, dp, pgs. split_and!; done.
Qed.
End prp_own.
