(* ===== verification/Paged.v ===== *)
(** * Chained pages of entries

    PRP lists and SGL segments are both stored as a chain of pages: [epp] entries
    per page, then one cell that links to the next page once a page is full and
    more is to come.  This file has the table they form ([paged]), the effect of
    the stores of the fill loops on it, and what its rows hold. *)

From S2P Require Import Prelude Types Kernel Own Prp.

(** ** Tables of cells

    [grid rows cols f] is the table of pages with cell [f j k] in page [j] at
    index [k]; the fill loops of the sources keep their pages of this form. *)

Definition grid {A} (rows cols : Z) (f : Z → Z → A) : list (list A) :=
  (λ j, f j <$> seqZ 0 cols) <$> seqZ 0 rows.

Lemma replicate_seqZ {A} n (x : A) : replicate (Z.to_nat n) x = (λ _, x) <$> seqZ 0 n.
Proof.
  apply list_eq. intros i. rewrite list_lookup_fmap.
  destruct (decide (i < Z.to_nat n)%nat).
  - rewrite lookup_replicate_2, lookup_seqZ_lt by lia. done.
  - rewrite (proj1 (lookup_replicate_None _ _ _)), lookup_seqZ_ge by lia. done.
Qed.

Lemma grid_const {A} rows cols (v : A) :
  replicate (Z.to_nat rows) (replicate (Z.to_nat cols) v) = grid rows cols (λ _ _, v).
Proof. unfold grid. by rewrite !replicate_seqZ. Qed.

Lemma length_grid {A} rows cols (f : Z → Z → A) :
  length (grid rows cols f) = Z.to_nat rows.
Proof. unfold grid. by rewrite length_fmap, length_seqZ. Qed.

Lemma grid_ext {A} rows cols (f g : Z → Z → A) :
  (∀ j k, 0 ≤ j < rows → 0 ≤ k < cols → f j k = g j k) →
  grid rows cols f = grid rows cols g.
Proof.
  intros H. unfold grid. apply list_fmap_ext. intros i j Hj.
  apply lookup_seqZ in Hj as [-> ?]. apply list_fmap_ext. intros i' k Hk.
  apply lookup_seqZ in Hk as [-> ?]. apply H; lia.
Qed.

Lemma grid_lookup {A} rows cols (f : Z → Z → A) j :
  0 ≤ j < rows → grid rows cols f !! Z.to_nat j = Some (f j <$> seqZ 0 cols).
Proof.
  intros Hj. unfold grid. rewrite list_lookup_fmap, lookup_seqZ_lt by lia. simpl.
  by rewrite Z2Nat.id by lia.
Qed.

Definition upd2 {A} (f : Z → Z → A) (j k : Z) (v : A) : Z → Z → A :=
  λ j' k', if (j' =? j) && (k' =? k) then v else f j' k'.

Lemma insert_row {A} cols (f : Z → A) k v :
  0 ≤ k < cols →
  <[Z.to_nat k := v]> (f <$> seqZ 0 cols) =
  (λ k', if k' =? k then v else f k') <$> seqZ 0 cols.
Proof.
  intros Hk. apply list_eq. intros i. rewrite list_lookup_fmap.
  destruct (decide (i < Z.to_nat cols)%nat) as [Hi|Hi].
  - rewrite lookup_seqZ_lt by lia. simpl. rewrite Z.add_0_l.
    destruct (Z.eqb_spec (Z.of_nat i) k) as [<-|Hne].
    + rewrite Nat2Z.id, list_lookup_insert_eq; [done|].
      rewrite length_fmap, length_seqZ. done.
    + rewrite list_lookup_insert_ne by lia.
      rewrite list_lookup_fmap, lookup_seqZ_lt by lia. done.
  - rewrite lookup_seqZ_ge by lia. simpl. apply lookup_ge_None_2.
    rewrite length_insert, length_fmap, length_seqZ. lia.
Qed.

Lemma set_cell_grid {A} rows cols (f : Z → Z → A) j k v w :
  0 ≤ j < rows → 0 ≤ k < cols →
  set_cell (grid rows cols f) j k v w = Val (grid rows cols (upd2 f j k v)) w.
Proof.
  intros Hj Hk. unfold set_cell. rewrite grid_lookup by done.
  rewrite length_fmap, length_seqZ, Z2Nat.id by lia.
  rewrite (proj2 (Z.leb_le 0 j)), (proj2 (Z.leb_le 0 k)), (proj2 (Z.ltb_lt k cols)) by lia.
  unfold mret, M_ret. f_equal. rewrite insert_row by done. unfold grid.
  rewrite (insert_row rows (λ j, f j <$> seqZ 0 cols) j) by done.
  apply list_fmap_ext. intros i j' Hj'. apply lookup_seqZ in Hj' as [-> ?].
  unfold upd2. apply list_eq. intros i'. destruct (Z.eqb_spec (0 + Z.of_nat i) j) as [->|].
  - done.
  - done.
Qed.

(** ** Chains

    After [epp * j + k] entries of [cs] have been stored, with [j] pages closed by
    a link: entry [epp * j' + k'] is in page [j'] at index [k'], and the last cell
    of a closed page [j'] is [link j']. *)

Section paged.
Context {A : Type} (epp : Z) (v0 : A) (cs : list A) (link : Z → A) (np : Z).
Context (Hepp : 0 < epp).

Definition paged_cells (j k : Z) : Z → Z → A := λ j' k',
  if k' =? epp then (if j' <? j then link j' else v0)
  else if epp * j' + k' <? epp * j + k
       then default v0 (cs !! Z.to_nat (epp * j' + k')) else v0.

Definition paged (j k : Z) : list (list A) := grid np (epp + 1) (paged_cells j k).

Lemma paged_zero :
  replicate (Z.to_nat np) (replicate (Z.to_nat (epp + 1)) v0) = paged 0 0.
Proof.
  rewrite grid_const. apply grid_ext. intros j k ??. unfold paged_cells.
  rewrite (proj2 (Z.ltb_ge j 0)), (proj2 (Z.ltb_ge _ (epp * 0 + 0))) by nia.
  by destruct (_ =? _).
Qed.

(** [epp * j' + k' < epp * j + k] is the lexicographic order on positions. *)
Lemma pos_lt j k j' k' : 0 ≤ k ≤ epp → 0 ≤ k' < epp →
  epp * j' + k' < epp * j + k ↔ j' < j ∨ j' = j ∧ k' < k.
Proof. intros Hk Hk'. split; [|nia]. intros H. destruct (decide (j' = j)); [right; nia|left; nia]. Qed.

Lemma set_entry j k a w :
  0 ≤ j < np → 0 ≤ k < epp → cs !! Z.to_nat (epp * j + k) = Some a →
  set_cell (paged j k) j k a w = Val (paged j (k + 1)) w.
Proof.
  intros Hj Hk Ha. unfold paged. rewrite set_cell_grid by lia. f_equal.
  apply grid_ext. intros j' k' Hj' Hk'. unfold upd2, paged_cells.
  destruct (Z.eqb_spec k' epp) as [->|Hne].
  { rewrite (proj2 (Z.eqb_neq epp k)), andb_false_r by lia. done. }
  pose proof (pos_lt j k j' k' ltac:(lia) ltac:(lia)) as H1.
  pose proof (pos_lt j (k + 1) j' k' ltac:(lia) ltac:(lia)) as H2.
  destruct (Z.eqb_spec j' j) as [->|]; destruct (Z.eqb_spec k' k) as [->|]; simpl;
    repeat match goal with |- context [?x <? ?y] => destruct (Z.ltb_spec x y) end;
    try done; try lia; by rewrite Ha.
Qed.

Lemma set_link j w :
  0 ≤ j < np → set_cell (paged j epp) j epp (link j) w = Val (paged (j + 1) 0) w.
Proof.
  intros Hj. unfold paged. rewrite set_cell_grid by lia. f_equal.
  apply grid_ext. intros j' k' Hj' Hk'. unfold upd2, paged_cells.
  destruct (Z.eqb_spec k' epp) as [->|Hne].
  - destruct (Z.eqb_spec j' j) as [->|]; simpl;
      repeat match goal with |- context [?x <? ?y] => destruct (Z.ltb_spec x y) end;
      try done; lia.
  - rewrite andb_false_r. by replace (epp * (j + 1) + 0) with (epp * j + epp) by lia.
Qed.

(** ** The completed chain *)

Local Abbreviation N := (Z.of_nat (length cs)).

Definition paged_final : list (list A) := paged ((N - 1) / epp) ((N - 1) mod epp + 1).
Definition paged_row (j : Z) : Z → A := paged_cells ((N - 1) / epp) ((N - 1) mod epp + 1) j.

Lemma paged_final_lookup j : 0 ≤ j < np →
  paged_final !! Z.to_nat j = Some (paged_row j <$> seqZ 0 (epp + 1)).
Proof. intros Hj. by apply grid_lookup. Qed.

Lemma take_row {B} (f : Z → B) n m : 0 ≤ n ≤ m →
  take (Z.to_nat n) (f <$> seqZ 0 m) = f <$> seqZ 0 n.
Proof.
  intros H. rewrite <- fmap_take. f_equal.
  replace m with (n + (m - n)) by lia. rewrite seqZ_app by lia.
  rewrite take_app_length'; [done|]. by rewrite length_seqZ.
Qed.

(** The data cells of a page. *)
Lemma row_data j n : 0 ≤ j → 0 ≤ n ≤ epp → epp * j + n ≤ N →
  paged_row j <$> seqZ 0 n = take (Z.to_nat n) (drop (Z.to_nat (epp * j)) cs).
Proof.
  intros Hj Hn Hle. pose proof (Z.div_mod (N - 1) epp ltac:(lia)) as Hdm.
  apply list_eq. intros i. rewrite list_lookup_fmap.
  destruct (decide (Z.of_nat i < n)).
  - rewrite lookup_seqZ_lt, lookup_take_lt, lookup_drop by lia.
    cbn [fmap option_fmap option_map].
    rewrite Z.add_0_l. unfold paged_row, paged_cells. rewrite (proj2 (Z.eqb_neq _ _)) by lia.
    rewrite (proj2 (Z.ltb_lt _ _)) by lia.
    replace (Z.to_nat (epp * j + Z.of_nat i)) with (Z.to_nat (epp * j) + i)%nat by nia.
    destruct (cs !! _) eqn:Hc; [done|]. apply lookup_ge_None in Hc. nia.
  - rewrite lookup_seqZ_ge, lookup_take_ge by lia. done.
Qed.

(** The last cell of a page that is not the last one. *)
Lemma row_link j : j < (N - 1) / epp → paged_row j epp = link j.
Proof.
  intros Hj. unfold paged_row, paged_cells. rewrite Z.eqb_refl.
  by rewrite (proj2 (Z.ltb_lt _ _)) by lia.
Qed.

Lemma last_index M j k :
  0 ≤ k < epp → M - 1 = epp * j + k → (M - 1) / epp = j ∧ (M - 1) mod epp = k.
Proof.
  intros Hk ->. split.
  - symmetry. apply (Z.div_unique _ _ _ k); lia.
  - symmetry. apply (Z.mod_unique _ _ j k); lia.
Qed.
End paged.

Lemma suffix_step {A} (cs : list A) x y a cs' :
  (∀ i, cs !! (Z.to_nat x + i)%nat = (a :: cs') !! i) → 0 ≤ x → y = x + 1 →
  ∀ i, cs !! (Z.to_nat y + i)%nat = cs' !! i.
Proof. intros H Hx -> i. etransitivity; [|exact (H (S i))]. f_equal. lia. Qed.
