(* ===== verification/PrpSpec.v ===== *)
(** * What a PRP list describes

    The reference: the memory pages a scatterlist covers ([sg_chunks]) and the
    way an NVMe controller reads PRP entries ([prp_walk], [prp_decode]).  The
    theorems relate them to [dnvme_setup_prps]. *)

From S2P Require Import Prelude Types Kernel Own Prp Paged.

(** ** The reference *)

(** The pages of [len] bytes from the page-aligned address [a]. *)
Definition seg_pages (a len : Z) : list Z :=
  (λ i, u64 (a + PAGE_SIZE * i)) <$> seqZ 0 (DIV_ROUND_UP len PAGE_SIZE).

(** One address per page touched by the segment, the first with its offset. *)
Definition chunks (s : scatterlist) : list Z :=
  let room := PAGE_SIZE - offset_in_page (sg_dma_address s) in
  sg_dma_address s ::
  seg_pages (sg_dma_address s + room) (sg_dma_len s - room).

Definition sg_chunks (l : list scatterlist) : list Z := l ≫= chunks.

(** A mapped buffer of [size] bytes: every segment but the last ends on a page
    boundary and every segment but the first starts on one. *)
Fixpoint segs_wf (l : list scatterlist) : Prop :=
  match l with
  | [] => True
  | s :: l =>
    offset_in_page (sg_dma_address s) = 0 ∧ 0 ≤ sg_dma_address s < 2 ^ 64 ∧
    0 < sg_dma_len s < 2 ^ 31 ∧ (l ≠ [] → (PAGE_SIZE | sg_dma_len s)) ∧ segs_wf l
  end.

Definition sg_wf (l : list scatterlist) (size : Z) : Prop :=
  match l with
  | [] => False
  | s :: l =>
    0 ≤ sg_dma_address s < 2 ^ 64 ∧ 0 < sg_dma_len s < 2 ^ 31 ∧
    (l ≠ [] → (PAGE_SIZE | offset_in_page (sg_dma_address s) + sg_dma_len s)) ∧
    segs_wf l ∧ size = sumZ (sg_dma_len <$> s :: l) ∧ size < 2 ^ 31
  end.

(** The controller's view of a PRP list of [n] entries at bus address [base]:
    a list that does not fit the page ends with the address of the next page. *)
Fixpoint prp_walk (fuel : nat) (mem : Z → option (list Z)) (base : Z) (n : Z) :
    option (list Z) :=
  match fuel with
  | O => None
  | S fuel =>
    page ← mem base;
    if n <=? NVME_PRPS_PER_PAGE then Some (take (Z.to_nat n) page)
    else
      next ← page !! Z.to_nat (NVME_PRPS_PER_PAGE - 1);
      rest ← prp_walk fuel mem next (n - (NVME_PRPS_PER_PAGE - 1));
      Some (take (Z.to_nat (NVME_PRPS_PER_PAGE - 1)) page ++ rest)
  end.

(** The memory behind the pages of [prps]. *)
Definition prps_mem (prps : nvme_prps) (a : Z) : option (list Z) :=
  match prp_list prps with
  | PP_prp pages => '(i, _) ← list_find (eq a) (pg_addr prps); pages !! i
  | _ => None
  end.

(** The data pages of a transfer of [n] pages, from the two PRP fields. *)
Definition prp_decode (prps : nvme_prps) (prp1 prp2 n : Z) : option (list Z) :=
  if n =? 1 then Some [prp1]
  else if n =? 2 then Some [prp1; prp2]
  else cons prp1 <$> prp_walk (Z.to_nat n) (prps_mem prps) prp2 (n - 1).

(** ** The cursor of the fill loop

    [cursor bl dl a l cs]: with [bl] bytes of the buffer left, [dl] of them in the
    current segment from the page-aligned address [a], the loop emits [cs]. *)

Inductive cursor : Z → Z → Z → list scatterlist → list Z → Prop :=
| cursor_last bl dl a l : 0 < bl ≤ PAGE_SIZE → 0 ≤ dl < 2 ^ 31 → cursor bl dl a l [a]
| cursor_same bl dl a l cs :
    PAGE_SIZE < bl < 2 ^ 31 → PAGE_SIZE < dl < 2 ^ 31 →
    cursor (bl - PAGE_SIZE) (dl - PAGE_SIZE) (u64 (a + PAGE_SIZE)) l cs →
    cursor bl dl a l (a :: cs)
| cursor_next bl a s0 s l cs :
    PAGE_SIZE < bl < 2 ^ 31 →
    cursor (bl - PAGE_SIZE) (s32 (sg_dma_len s)) (sg_dma_address s) (s :: l) cs →
    cursor bl PAGE_SIZE a (s0 :: s :: l) (a :: cs).

Lemma cursor_nonempty bl dl a l cs :
  cursor bl dl a l cs → 0 < Z.of_nat (length cs) ∧ 0 < bl < 2 ^ 31.
Proof. induction 1; simpl in *; unfold PAGE_SIZE in *; lia. Qed.

Lemma cursor_length bl dl a l cs :
  cursor bl dl a l cs → Z.of_nat (length cs) = DIV_ROUND_UP bl PAGE_SIZE.
Proof.
  unfold DIV_ROUND_UP, PAGE_SIZE. induction 1 as [| |]; cbn [length];
    unfold PAGE_SIZE in *.
  - apply (Z.div_unique _ _ _ (bl - 1)); lia.
  - rewrite Nat2Z.inj_succ, IHcursor.
    replace (bl + 4096 - 1) with (bl - 4096 + 4096 - 1 + 1 * 4096) by lia.
    rewrite Z.div_add by lia. lia.
  - rewrite Nat2Z.inj_succ, IHcursor.
    replace (bl + 4096 - 1) with (bl - 4096 + 4096 - 1 + 1 * 4096) by lia.
    rewrite Z.div_add by lia. lia.
Qed.

(** ** The loop fills the pages *)

(** Data entries per page: [NVME_PRPS_PER_PAGE - 1]. *)
Abbreviation EPP := 511 (only parsing).

(** The link of page [j] is the bus address of the next page. *)
Definition next_page (dmas : list Z) (j : Z) : Z := default 0 (dmas !! Z.to_nat (j + 1)).

Definition prp_table (cs dmas : list Z) (np j k : Z) : list (list Z) :=
  paged EPP 0 cs (next_page dmas) np j k.

Section fill.
Context (dmas : list Z) (np : Z).
Context (Hdmas : Z.of_nat (length dmas) = np).

(** The link iteration. *)
Lemma prp_fill_link fuel cs j bl dl a l nr w :
  0 ≤ j → j + 1 < np → 0 < bl →
  prp_fill (S fuel) dmas j EPP bl dl 0 a l (prp_table cs dmas np j EPP) nr w =
  prp_fill fuel dmas (j + 1) 0 bl dl 0 a l (prp_table cs dmas np (j + 1) 0) (nr + 1) w.
Proof.
  intros Hj Hnp Hbl. cbn [prp_fill]. rewrite (proj2 (Z.leb_gt _ _)) by lia.
  change (NVME_PRPS_PER_PAGE - 1) with 511. rewrite Z.eqb_refl. unfold get_dma.
  destruct (dmas !! Z.to_nat (j + 1)) as [d|] eqn:Hd;
    [|apply lookup_ge_None in Hd; lia].
  rewrite (proj2 (Z.leb_le 0 (j + 1))) by lia.
  replace d with (next_page dmas j) by (unfold next_page; by rewrite Hd).
  unfold mbind, M_bind, mret, M_ret, prp_table. by rewrite set_link by (done || lia).
Qed.

(** Before an entry is written, a full page is closed. *)
Lemma prp_fill_norm fuel cs j k bl dl a l nr w :
  0 ≤ j → 0 ≤ k ≤ EPP → 0 < bl → EPP * j + k < EPP * np → (1 ≤ fuel)%nat →
  ∃ fuel' j' k', (fuel ≤ S fuel')%nat ∧ j ≤ j' < np ∧ 0 ≤ k' < EPP ∧
    EPP * j' + k' = EPP * j + k ∧
    prp_fill fuel dmas j k bl dl 0 a l (prp_table cs dmas np j k) nr w =
    prp_fill fuel' dmas j' k' bl dl 0 a l (prp_table cs dmas np j' k') (nr + (j' - j)) w.
Proof.
  intros Hj Hk Hbl Hnp Hf. destruct (decide (k = EPP)) as [->|].
  - destruct fuel as [|fuel]; [lia|]. exists fuel, (j + 1), 0.
    rewrite prp_fill_link by lia. split_and!; try lia. do 2 f_equal; lia.
  - exists fuel, j, k. split_and!; try lia. do 2 f_equal; lia.
Qed.

(** One data entry, in the three cases of the cursor. *)
Lemma prp_fill_entry fuel cs j k bl dl a l nr w :
  0 ≤ j < np → 0 ≤ k < EPP → 0 < bl < 2 ^ 31 → 0 ≤ dl < 2 ^ 31 →
  cs !! Z.to_nat (EPP * j + k) = Some a →
  prp_fill (S fuel) dmas j k bl dl 0 a l (prp_table cs dmas np j k) nr w =
  (if bl - PAGE_SIZE <=? 0 then mret (0, prp_table cs dmas np j (k + 1), nr + 1)
   else if 0 <? dl - PAGE_SIZE
   then prp_fill fuel dmas j (k + 1) (bl - PAGE_SIZE) (dl - PAGE_SIZE) 0
          (u64 (a + PAGE_SIZE)) l (prp_table cs dmas np j (k + 1)) (nr + 1)
   else if dl - PAGE_SIZE <? 0
   then mret (- EFAULT, prp_table cs dmas np j (k + 1), nr + 1)
   else match tail l with
        | [] => oops F_null
        | s :: _ =>
          prp_fill fuel dmas j (k + 1) (bl - PAGE_SIZE) (s32 (sg_dma_len s)) 0
            (sg_dma_address s) (tail l) (prp_table cs dmas np j (k + 1)) (nr + 1)
        end) w.
Proof.
  intros Hj Hk Hbl Hdl Ha. cbn [prp_fill]. rewrite (proj2 (Z.leb_gt bl 0)) by lia.
  change (NVME_PRPS_PER_PAGE - 1) with 511.
  rewrite (proj2 (Z.eqb_neq k 511)) by lia.
  unfold mbind at 1, M_bind at 1. unfold prp_table. rewrite (set_entry EPP 0 cs _ _ ltac:(lia) j k a) by done.
  rewrite Z.sub_0_r. unfold PAGE_SIZE.
  by rewrite !(s32_small (_ - 4096)) by lia.
Qed.

Lemma prp_fill_data cs bl dl a l rest :
  cursor bl dl a l rest → ∀ fuel j k nr w,
  0 ≤ j → 0 ≤ k ≤ EPP →
  (∀ i, cs !! (Z.to_nat (EPP * j + k) + i)%nat = rest !! i) →
  EPP * j + k + Z.of_nat (length rest) ≤ EPP * np →
  (2 * length rest ≤ fuel)%nat →
  let N := EPP * j + k + Z.of_nat (length rest) in
  prp_fill fuel dmas j k bl dl 0 a l (prp_table cs dmas np j k) nr w =
  Val (0, prp_table cs dmas np ((N - 1) / EPP) ((N - 1) mod EPP + 1),
       nr + Z.of_nat (length rest) + (N - 1) / EPP - j) w.
Proof.
  induction 1 as [bl dl a l Hb Hd|bl dl a l cs' Hb Hd Hc IH|bl a s0 s l cs' Hb Hc IH];
    intros fuel j k nr w Hj Hk Hcs Hnp Hf; cbn [length] in *; unfold PAGE_SIZE in *;
    edestruct (prp_fill_norm fuel cs j k bl)
       as (fuel' & j' & k' & Hf' & Hj' & Hk' & Hjk & ->); try lia;
    destruct fuel' as [|fuel']; try lia;
    pose proof (Hcs O) as Hhd; rewrite Nat.add_0_r, <- Hjk in Hhd;
    rewrite (prp_fill_entry _ cs) by (done || lia); unfold PAGE_SIZE.
  - rewrite (proj2 (Z.leb_le _ 0)) by lia.
    destruct (last_index EPP (EPP * j + k + Z.of_nat 1) j' k') as [-> ->]; [lia|lia|].
    unfold mret, M_ret. do 2 f_equal. lia.
  - rewrite (proj2 (Z.leb_gt _ 0)), (proj2 (Z.ltb_lt 0 _)) by lia.
    rewrite IH; try lia; [|by apply (suffix_step _ _ _ _ _ Hcs); lia].
    replace (EPP * j' + (k' + 1) + Z.of_nat (length cs'))
      with (EPP * j + k + Z.of_nat (S (length cs'))) by lia.
    do 2 f_equal. lia.
  - rewrite (proj2 (Z.leb_gt _ 0)), (proj2 (Z.ltb_ge 0 _)), (proj2 (Z.ltb_ge _ 0)) by lia.
    cbn [tail].
    rewrite IH; try lia; [|by apply (suffix_step _ _ _ _ _ Hcs); lia].
    replace (EPP * j' + (k' + 1) + Z.of_nat (length cs'))
      with (EPP * j + k + Z.of_nat (S (length cs'))) by lia.
    do 2 f_equal. lia.
Qed.
End fill.

(** ** A well-formed scatterlist drives the cursor *)

Lemma seg_pages_cons a dl :
  0 ≤ a < 2 ^ 64 → 0 < dl →
  seg_pages a dl = a :: seg_pages (u64 (a + PAGE_SIZE)) (dl - PAGE_SIZE).
Proof.
  intros Ha Hdl. unfold seg_pages, DIV_ROUND_UP, PAGE_SIZE.
  rewrite seqZ_cons by (apply Z.div_str_pos; lia).
  rewrite fmap_cons, Z.mul_0_r, Z.add_0_r, u64_small by done. f_equal.
  replace (dl - 4096 + 4096 - 1) with (dl + 4096 - 1 + (-1) * 4096) by lia.
  rewrite Z.div_add by lia.
  replace (Z.pred _) with ((dl + 4096 - 1) / 4096 + -1) by lia.
  apply list_eq. intros i. rewrite !list_lookup_fmap.
  destruct (decide (Z.of_nat i < (dl + 4096 - 1) / 4096 + -1)).
  - rewrite !lookup_seqZ_lt by lia. simpl. f_equal. unfold u64.
    rewrite Z.add_mod_idemp_l by lia. f_equal. lia.
  - rewrite !lookup_seqZ_ge by lia. done.
Qed.

Lemma chunks_aligned s :
  offset_in_page (sg_dma_address s) = 0 → 0 ≤ sg_dma_address s < 2 ^ 64 →
  0 < sg_dma_len s →
  chunks s = seg_pages (sg_dma_address s) (sg_dma_len s).
Proof.
  intros Ho Ha Hl. unfold chunks. rewrite Ho, Z.sub_0_r, (seg_pages_cons (sg_dma_address s)) by done.
  f_equal. unfold seg_pages. apply list_fmap_ext. intros i x _. unfold u64.
  by rewrite Z.add_mod_idemp_l by lia.
Qed.

Lemma seg_pages_short a dl : 0 ≤ a < 2 ^ 64 → 0 < dl ≤ PAGE_SIZE → seg_pages a dl = [a].
Proof.
  intros Ha Hdl. rewrite seg_pages_cons by (done || lia). f_equal.
  unfold seg_pages, DIV_ROUND_UP, PAGE_SIZE in *.
  rewrite Z.div_small by lia. done.
Qed.

Lemma segs_wf_nonneg l : segs_wf l → 0 ≤ sumZ (sg_dma_len <$> l).
Proof.
  induction l as [|s l IH]; [done|]. intros (_&_&?&_&Hl). specialize (IH Hl).
  rewrite fmap_cons, sumZ_cons. lia.
Qed.

Lemma cursor_segs l : ∀ (n : nat) s0 dl a unused,
  segs_wf l → 0 < dl < 2 ^ 31 → dl ≤ PAGE_SIZE * Z.of_nat n → 0 ≤ a < 2 ^ 64 →
  (l ≠ [] → (PAGE_SIZE | dl)) →
  dl + sumZ (sg_dma_len <$> l) < 2 ^ 31 →
  cursor (dl + sumZ (sg_dma_len <$> l)) dl a (s0 :: l ++ unused) (seg_pages a dl ++ sg_chunks l).
Proof.
  induction l as [|s l IHl]; intros n; induction n as [|n IHn];
    intros s0 dl a unused Hwf Hdl Hn Ha Hdiv Hsum; try lia.
  - change (sumZ _) with 0 in *. change (sg_chunks []) with (@nil Z).
    rewrite app_nil_r in *. rewrite Z.add_0_r in *.
    destruct (decide (dl ≤ PAGE_SIZE)).
    + rewrite seg_pages_short by lia. apply cursor_last; lia.
    + rewrite seg_pages_cons by lia. cbn [app]. apply cursor_same; [lia|lia|].
      rewrite <- (Z.add_0_r (dl - PAGE_SIZE)) at 1.
      rewrite <- (app_nil_r (seg_pages (u64 _) _)). unfold PAGE_SIZE in *.
      apply (IHn s0 (dl - 4096) (u64 (a + 4096)) unused); try done; try lia; auto with ints.
  - destruct (Hdiv ltac:(done)) as [m ->].
    pose proof Hwf as (Ho & Has & Hls & Hds & Hwl). fold segs_wf in Hwl.
    pose proof (segs_wf_nonneg _ Hwl). rewrite fmap_cons, sumZ_cons in *.
    destruct (decide (m = 1)) as [->|].
    + rewrite Z.mul_1_l, seg_pages_short by (unfold PAGE_SIZE in *; lia).
      cbn [app]. apply cursor_next; [unfold PAGE_SIZE in *; lia|].
      rewrite s32_small by lia. cbn [sg_chunks mbind list_bind].
      rewrite chunks_aligned by (done || lia).
      replace (PAGE_SIZE + _ - PAGE_SIZE)
        with (sg_dma_len s + sumZ (sg_dma_len <$> l)) by lia.
      apply (IHl (Z.to_nat (sg_dma_len s))); try done; try (unfold PAGE_SIZE in *; lia).
    + rewrite seg_pages_cons by (unfold PAGE_SIZE in *; lia). cbn [app].
      apply cursor_same; [unfold PAGE_SIZE in *; lia|unfold PAGE_SIZE in *; lia|].
      specialize (IHn s0 (m * PAGE_SIZE - PAGE_SIZE) (u64 (a + PAGE_SIZE)) unused).
      replace (m * PAGE_SIZE + _ - PAGE_SIZE) with
        (m * PAGE_SIZE - PAGE_SIZE + (sg_dma_len s + sumZ (sg_dma_len <$> l))) by lia.
      apply IHn; try done; unfold PAGE_SIZE in *; try lia; auto with ints.
      intros _. exists (m - 1). lia.
Qed.

(** ** The controller reads the pages back *)

Section walk.
Context (cs dmas : list Z) (np : Z).
Local Abbreviation N := (Z.of_nat (length cs)).
Context (HN : 0 < N) (Hnp : N ≤ EPP * np) (Hlen : Z.of_nat (length dmas) = np).
Context (Hdist : NoDup dmas).

Definition prp_final : list (list Z) := paged_final EPP 0 cs (next_page dmas) np.
Local Abbreviation row := (paged_row EPP 0 cs (next_page dmas)).

(** What the controller sees as data pages: the data, except that the last one
    is replaced by a link when one entry is left for the last page. *)
Definition prp_seen : list Z :=
  if (N mod EPP =? 1) && (1 <? N)
  then take (length cs - 1) cs ++ [default 0 (dmas !! Z.to_nat ((N - 1) / EPP))]
  else cs.

Local Definition mem (a : Z) : option (list Z) :=
  '(i, _) ← list_find (eq a) dmas; prp_final !! i.

Lemma mem_page j d :
  0 ≤ j → dmas !! Z.to_nat j = Some d →
  mem d = Some (row j <$> seqZ 0 NVME_PRPS_PER_PAGE).
Proof.
  intros Hj Hd. unfold mem.
  assert (list_find (eq d) dmas = Some (Z.to_nat j, d)) as ->.
  { apply list_find_Some. split_and!; [done|done|]. intros i y Hi Hlt ->.
    pose proof (NoDup_lookup _ _ _ _ Hdist Hi Hd). lia. }
  apply lookup_lt_Some in Hd. apply paged_final_lookup. lia.
Qed.

(** The last cell of a page that is not the last one. *)
Lemma row_next j : 0 ≤ j < (N - 1) / EPP →
  ∃ d, dmas !! Z.to_nat (j + 1) = Some d ∧ row j EPP = d.
Proof.
  intros Hj. pose proof (Z.div_mod (N - 1) EPP ltac:(lia)) as Hdm.
  pose proof (Z.mod_pos_bound (N - 1) EPP ltac:(lia)).
  destruct (dmas !! Z.to_nat (j + 1)) as [d|] eqn:Hd.
  - exists d. split; [done|]. rewrite row_link by lia. unfold next_page. by rewrite Hd.
  - apply lookup_ge_None in Hd. lia.
Qed.

Lemma seen_prefix n : 0 ≤ n → n < N → take (Z.to_nat n) prp_seen = take (Z.to_nat n) cs.
Proof.
  intros H0 Hn. unfold prp_seen. destruct (_ && _); [|done].
  rewrite take_app_le by (rewrite length_take; lia).
  rewrite take_take. f_equal. lia.
Qed.

Lemma prp_walk_final fuel j d :
  0 ≤ j ≤ (N - 1) / EPP → (N - 1) / EPP - j < Z.of_nat fuel →
  dmas !! Z.to_nat j = Some d → (1 < N - EPP * j ∨ N = 1) →
  prp_walk fuel mem d (N - EPP * j) = Some (drop (Z.to_nat (EPP * j)) prp_seen).
Proof.
  pose proof (Z.div_mod (N - 1) EPP ltac:(lia)) as Hdm.
  pose proof (Z.mod_pos_bound (N - 1) EPP ltac:(lia)) as Hmb.
  revert j d. induction fuel as [|fuel IH]; intros j d Hj Hf Hd Hn; [lia|].
  cbn [prp_walk]. rewrite (mem_page j d) by (done || lia). cbn [mbind option_bind].
  change NVME_PRPS_PER_PAGE with 512. change (512 - 1) with EPP.
  destruct (Z.leb_spec (N - EPP * j) 512) as [Hle|Hgt].
  - destruct (decide (N - EPP * j = 512)) as [H512|].
    + assert ((N - 1) / EPP = j + 1) as HJ by lia.
      destruct (row_next j) as (d' & Hd' & Hlink); [lia|].
      rewrite H512, firstn_all2 by (rewrite length_fmap, length_seqZ; lia).
      change 512 with (EPP + 1). rewrite seqZ_app, fmap_app, row_data by lia.
      unfold prp_seen. rewrite HJ, Hd'.
      replace (N mod EPP =? 1) with true by (symmetry; apply Z.eqb_eq;
        symmetry; apply (Z.mod_unique _ _ (j + 1)); lia).
      rewrite (proj2 (Z.ltb_lt 1 N)) by lia. cbn [andb default].
      rewrite drop_app_le by (rewrite length_take; lia).
      rewrite skipn_firstn_comm.
      f_equal. f_equal.
      * f_equal. lia.
      * change (seqZ (0 + EPP) 1) with [EPP]. cbn [fmap list_fmap]. by rewrite Hlink.
    + rewrite take_row, row_data by lia. f_equal. unfold prp_seen.
      replace (_ && _) with false.
      { rewrite take_ge; [done|]. rewrite length_drop. lia. }
      symmetry. apply andb_false_iff. destruct Hn as [Hn| ->]; [left|by right].
      apply Z.eqb_neq. intros Hmod.
      pose proof (Z.div_mod N EPP ltac:(lia)). lia.
  - destruct (row_next j) as (d' & Hd' & Hlink); [lia|].
    rewrite list_lookup_fmap, lookup_seqZ_lt by lia. cbn [fmap option_fmap option_map mbind option_bind].
    rewrite Z2Nat.id, Z.add_0_l, Hlink by lia.
    replace (N - EPP * j - EPP) with (N - EPP * (j + 1)) by lia.
    rewrite (IH (j + 1) d') by (done || lia). cbn [mbind option_bind].
    rewrite take_row, row_data by lia. f_equal.
    rewrite <- (take_drop (Z.to_nat EPP) (drop (Z.to_nat (EPP * j)) prp_seen)).
    rewrite drop_drop. f_equal; [|f_equal; lia].
    rewrite !take_drop_commute. f_equal.
    replace (Z.to_nat (EPP * j) + Z.to_nat EPP)%nat with (Z.to_nat (EPP * (j + 1))) by lia.
    by rewrite seen_prefix by lia.
Qed.
End walk.

(** ** [dnvme_setup_prps] *)

Lemma ccmd_get_ok n off c v : load_le n c off = Some v → ∀ w, ccmd_get n off c w = Val v w.
Proof. intros H w. unfold ccmd_get. by rewrite H. Qed.
Lemma ccmd_set_ok n off v c :
  0 ≤ off → off + Z.of_nat n ≤ Z.of_nat (length c) →
  ∃ c', store_le n c off v = Some c' ∧ ∀ w, ccmd_set n off v c w = Val c' w.
Proof.
  intros H0 H1. unfold ccmd_set, store_le.
  destruct (store_bytes_Some c off (le_bytes n v)) as [c' Hc'];
    [done|by rewrite length_le_bytes|]. exists c'. by rewrite Hc'.
Qed.

(** The commands differ at most in the data pointer, bytes 24 to 39. *)
Definition dptr_only (c c' : list Z) : Prop :=
  length c' = length c ∧
  ∀ off n, off + n ≤ 24 ∨ 40 ≤ off → load_bytes c' off n = load_bytes c off n.
#[export] Instance dptr_only_preorder : PreOrder dptr_only.
Proof.
  split; [done|]. intros c1 c2 c3 [L1 H1] [L2 H2]. split; [congruence|].
  intros off n Ho. by rewrite H2, H1.
Qed.
Lemma store_dptr n c off v c' :
  store_le n c off v = Some c' → 24 ≤ off → off + Z.of_nat n ≤ 40 → dptr_only c c'.
Proof.
  intros Hs H1 H2. split; [by eapply length_store_bytes|]. intros o m Ho.
  eapply load_store_ne; [exact Hs|]. rewrite length_le_bytes. lia.
Qed.
Lemma dptr_load_le n c c' off :
  dptr_only c c' → off + Z.of_nat n ≤ 24 ∨ 40 ≤ off → load_le n c' off = load_le n c off.
Proof. intros [_ H] Ho. unfold load_le. by rewrite H. Qed.

(** What a completed list holds; [d0] is its bus address. *)
Definition list_built (prps : nvme_prps) (cs : list Z) (p' : nvme_prps) (d0 : Z) : Prop :=
  ∃ lp dp pgs np, lp ≠ 0 ∧ dp ≠ 0 ∧ Z.of_nat (length pgs) = np ∧
    Z.of_nat (length cs) ≤ EPP * np ∧ pgs.*2 !! O = Some d0 ∧ 0 ≤ d0 < 2 ^ 64 ∧
    p' = prps <| prp_list_ptr := lp |> <| pg_va := pgs.*1 |> <| nr_pages := np |>
              <| pg_addr_ptr := dp |> <| pg_addr := pgs.*2 |>
              <| nr_entry := Z.of_nat (length cs) + (Z.of_nat (length cs) - 1) / EPP |>
              <| prp_list := PP_prp (prp_final cs pgs.*2 np) |>.

Lemma nr_pages_spec N : 0 < N → N < 2 ^ 29 →
  let np := u32 (DIV_ROUND_UP (u32 (NVME_PRP_ENTRY_SIZE * N)) (PAGE_SIZE - NVME_PRP_ENTRY_SIZE)) in
  0 < np ∧ N ≤ EPP * np ∧ EPP * (np - 1) < N.
Proof.
  intros H0 H1. unfold NVME_PRP_ENTRY_SIZE, PAGE_SIZE. change (4096 - 8) with 4088.
  rewrite (u32_small (8 * N)) by lia.
  destruct (DIV_ROUND_UP_spec (8 * N) 4088) as [Hb|Hb]; [lia|lia| |lia].
  rewrite u32_small by lia. lia.
Qed.

(** The loop, from the zeroed pages. *)
Lemma prp_fill_init bl dl a l cs dmas np w :
  cursor bl dl a l cs → Z.of_nat (length dmas) = np → Z.of_nat (length cs) ≤ EPP * np →
  prp_fill (S (2 * Z.to_nat (Z.of_nat (length cs)))) dmas 0 0 bl dl 0 a l
    (replicate (Z.to_nat np) (replicate (Z.to_nat NVME_PRPS_PER_PAGE) 0)) 0 w =
  Val (0, prp_final cs dmas np,
       Z.of_nat (length cs) + (Z.of_nat (length cs) - 1) / EPP) w.
Proof.
  intros Hc Hd Hnp. change (Z.to_nat NVME_PRPS_PER_PAGE) with (Z.to_nat (EPP + 1)).
  rewrite (paged_zero EPP 0 cs (next_page dmas)) by lia.
  fold (prp_table cs dmas np 0 0).
  rewrite (prp_fill_data dmas np Hd cs bl dl a l cs); try done; try lia.
  by rewrite Z.mul_0_r, !Z.add_0_l, Z.sub_0_r.
Qed.

(** The command after the list has been hooked into it. *)
Definition set_list_ptr (flag : prp_flag) (ccmd : list Z) (d0 : Z) : option (list Z) :=
  match flag with
  | PRP1_LIST => c ← store_le 8 ccmd 24 d0; store_le 8 c 32 0
  | PRP2_LIST => store_le 8 ccmd 32 d0
  end.

Lemma set_list_ptr_ok flag ccmd d0 :
  40 ≤ Z.of_nat (length ccmd) →
  ∃ c', set_list_ptr flag ccmd d0 = Some c' ∧
    ∀ w, match flag with
         | PRP1_LIST => c ← ccmd_set_prp1 d0 ccmd; ccmd_set_prp2 0 c
         | PRP2_LIST => ccmd_set_prp2 d0 ccmd
         end w = Val c' w.
Proof.
  intros Hlen. unfold set_list_ptr, ccmd_set_prp1, ccmd_set_prp2. destruct flag.
  - destruct (ccmd_set_ok 8 24 d0 ccmd) as (c1 & Hc1 & Hw1); [lia|lia|].
    destruct (ccmd_set_ok 8 32 0 c1) as (c2 & Hc2 & Hw2); [lia| |].
    { rewrite (length_store_bytes _ _ _ _ Hc1). lia. }
    exists c2. rewrite Hc1. split; [done|]. intros w. unfold mbind, M_bind. by rewrite Hw1.
  - apply ccmd_set_ok; lia.
Qed.

(** ** The first page

    [dnvme_setup_prps] puts it into [prp1] and moves to what follows it. *)

Lemma cursor_head bl dl a l cs : cursor bl dl a l cs → ∃ cs', cs = a :: cs'.
Proof. inversion 1; eauto. Qed.

Lemma seg_pages_u64 a dl : seg_pages (u64 a) dl = seg_pages a dl.
Proof.
  unfold seg_pages. apply list_fmap_ext. intros i x _. unfold u64.
  by rewrite Z.add_mod_idemp_l by lia.
Qed.

Lemma sg_wf_size s l size : sg_wf (s :: l) size →
  size = sg_dma_len s + sumZ (sg_dma_len <$> l) ∧ 0 ≤ sumZ (sg_dma_len <$> l) ∧
  (l ≠ [] → 0 < sumZ (sg_dma_len <$> l)).
Proof.
  intros (_&_&_&Hl&->&_). split_and!; [done|by apply segs_wf_nonneg|].
  destruct l as [|s' l]; [done|]. destruct Hl as (_&_&?&_&Hl).
  apply segs_wf_nonneg in Hl. rewrite fmap_cons, sumZ_cons. lia.
Qed.

Section first_page.
Context (s : scatterlist) (l unused : list scatterlist) (size : Z).
Context (Hwf : sg_wf (s :: l) size).
Local Abbreviation room := (PAGE_SIZE - offset_in_page (sg_dma_address s)).

Lemma room_range : 0 < room ≤ PAGE_SIZE.
Proof. pose proof (offset_in_page_range (sg_dma_address s)). lia. Qed.

(** The segment does not end inside its first page unless it is the last. *)
Lemma first_div : l ≠ [] → room ≤ sg_dma_len s ∧ (PAGE_SIZE | sg_dma_len s - room).
Proof.
  intros Hl. destruct Hwf as (_&Hlen&Hd&_). destruct (Hd Hl) as [m Hm].
  pose proof room_range. unfold PAGE_SIZE in *.
  split; [|exists (m - 1)]; lia.
Qed.

Lemma first_only : size ≤ room → sg_chunks (s :: l) = [sg_dma_address s].
Proof.
  intros Hle. destruct (sg_wf_size _ _ _ Hwf) as (Hsz & Hnn & Hpos).
  destruct (decide (l = [])) as [Hnil|Hne].
  - subst l. cbn [sg_chunks mbind list_bind]. rewrite app_nil_r. unfold chunks. f_equal.
    unfold seg_pages, DIV_ROUND_UP. pose proof room_range.
    destruct Hwf as (_&Hlen&_). change (sumZ _) with 0 in Hsz. unfold PAGE_SIZE in *.
    rewrite Z.div_small by lia. done.
  - destruct (first_div Hne). specialize (Hpos Hne). lia.
Qed.

(** The current segment goes on in the next page. *)
Lemma next_same : room < size → sg_dma_len s - room ≠ 0 →
  cursor (size - room) (sg_dma_len s - room) (u64 (sg_dma_address s + room))
    (s :: l ++ unused) (tail (sg_chunks (s :: l))).
Proof.
  intros Hlt Hne. destruct (sg_wf_size _ _ _ Hwf) as (Hsz & Hnn & Hpos).
  pose proof room_range as Hr. pose proof first_div as Hfd.
  destruct Hwf as (Ha&Hlen&_&Hl&_&Hs31).
  assert (0 < sg_dma_len s - room).
  { destruct (decide (l = [])) as [Hnil|Hl0].
    - rewrite Hnil in Hsz. change (sumZ _) with 0 in Hsz. lia.
    - destruct (Hfd Hl0). lia. }
  replace (size - room) with (sg_dma_len s - room + sumZ (sg_dma_len <$> l)) by lia.
  replace (tail _) with (seg_pages (u64 (sg_dma_address s + room)) (sg_dma_len s - room) ++
    sg_chunks l) by (rewrite seg_pages_u64; done).
  apply (cursor_segs l (Z.to_nat (sg_dma_len s))); try done; unfold PAGE_SIZE in *; try lia.
  - apply u64_range.
  - intros Hl0. by destruct (Hfd Hl0).
Qed.

(** The current segment ends with the first page. *)
Lemma next_seg : room < size → sg_dma_len s - room = 0 →
  ∃ s' l', l ++ unused = s' :: l' ∧ 0 ≤ sg_dma_address s' < 2 ^ 64 ∧
    cursor (size - room) (s32 (sg_dma_len s')) (sg_dma_address s') (s' :: l')
      (tail (sg_chunks (s :: l))).
Proof.
  intros Hlt H0. destruct (sg_wf_size _ _ _ Hwf) as (Hsz & Hnn & Hpos).
  destruct Hwf as (Ha&Hlen&_&Hl&_&Hs31). clear Hwf.
  destruct l as [|s' l']; [change (sumZ _) with 0 in Hsz; lia|].
  destruct Hl as (Ho&Has&Hls&Hds&Hl'). exists s', (l' ++ unused).
  split; [done|]. split; [done|].
  rewrite s32_small by lia. rewrite fmap_cons, sumZ_cons in Hsz.
  replace (size - room) with (sg_dma_len s' + sumZ (sg_dma_len <$> l')) by lia.
  replace (tail _) with (seg_pages (sg_dma_address s') (sg_dma_len s') ++ sg_chunks l').
  2:{ assert (chunks s = [sg_dma_address s]) as Hs
        by (unfold chunks; cbv zeta; by rewrite H0).
      rewrite <- chunks_aligned by (done || lia). unfold sg_chunks.
      cbn [mbind list_bind]. by rewrite Hs. }
  pose proof (segs_wf_nonneg _ Hl'). pose proof (room_range).
  apply (cursor_segs l' (Z.to_nat (sg_dma_len s'))); try done; unfold PAGE_SIZE in *; lia.
Qed.
End first_page.

Section setup.
Context {E : Env}.

Lemma triple_setup_prp_list flag bl dl a l cs ccmd prps :
  cursor bl dl a l cs → 40 ≤ Z.of_nat (length ccmd) →
  triple [] (setup_prp_list flag bl dl 0 a l ccmd prps)
    (λ '(ret, c', p') R,
      ret = - ENOMEM ∧ R = [] ∧ p' = prps ∨
      ret = 0 ∧ R ≡ₚ list_items p' ∧ ∃ d0, list_built prps cs p' d0 ∧
        set_list_ptr flag ccmd d0 = Some c').
Proof.
  intros Hc Hlen. pose proof (cursor_nonempty _ _ _ _ _ Hc) as [HN Hbl].
  pose proof (cursor_length _ _ _ _ _ Hc) as HNl.
  assert (Z.of_nat (length cs) < 2 ^ 29) as Hsm.
  { rewrite HNl. unfold DIV_ROUND_UP, PAGE_SIZE. apply Z.div_lt_upper_bound; lia. }
  unfold setup_prp_list. rewrite Z.add_0_l, (u32_small bl), <- HNl by lia.
  rewrite (u32_small (Z.of_nat (length cs))) by lia.
  destruct (nr_pages_spec (Z.of_nat (length cs)) HN Hsm) as (Hnp0 & Hnp1 & _).
  set (np := u32 _) in *.
  tcall triple_alloc_list. intros o R [[-> ->]|(lp & dp & pgs & -> & Hl & Hd & Hlpg & Hok & HR)].
  { apply triple_ret. by left. }
  rewrite app_nil_r. eapply triple_perm; [exact HR|].
  destruct (pgs.*2 !! O) as [d0|] eqn:Hd0;
    [|apply lookup_ge_None in Hd0; rewrite length_fmap in Hd0; lia].
  eapply triple_bind; [apply (triple_pure _ _ d0); intros w; unfold get_dma;
    change (Z.to_nat 0) with O; by rewrite Hd0|]. intros ? R' [-> ->].
  destruct (set_list_ptr_ok flag ccmd d0 Hlen) as (c' & Hst & Hset).
  eapply triple_bind; [by apply (triple_pure _ _ c')|]. intros ? R' [-> ->].
  assert (Z.of_nat (length pgs.*2) = np) as Hdm by (rewrite length_fmap; lia).
  eapply triple_bind; [eapply triple_pure; intros w; rewrite Hlpg;
    by apply (prp_fill_init _ _ _ _ cs)|]. intros ? R' [-> ->].
  apply triple_ret. right. split_and!; [done| |].
  - unfold list_items. simpl. destruct (Z.eqb_spec lp 0); [lia|done].
  - exists d0. split; [|done]. exists lp, dp, pgs, np. split_and!; try done; try lia.
    all: rewrite list_lookup_fmap in Hd0; destruct (pgs !! O) as [pg|] eqn:Hpg; [|done];
      apply (Forall_lookup_1 _ _ _ _ Hok) in Hpg; unfold dma_ok in Hpg;
      injection Hd0 as <-; lia.
Qed.

(** The entries the controller finds, through the two PRP fields of [c']. *)
Definition prp_desc (c' : list Z) (p' : nvme_prps) (cs : list Z) : Prop :=
  ∃ prp1 prp2, load_le 8 c' 24 = Some prp1 ∧ load_le 8 c' 32 = Some prp2 ∧
    (NoDup (pg_addr p') →
     prp_decode p' prp1 prp2 (Z.of_nat (length cs)) =
     match cs with
     | a :: cs' => Some (a :: prp_seen cs' (pg_addr p'))
     | [] => None
     end).

Definition is_create (cmd : nvme_64b_cmd) (op : Z) : bool :=
  (c64_sqid cmd =? NVME_AQ_ID) &&
  ((op =? nvme_admin_create_sq) || (op =? nvme_admin_create_cq)).

Lemma load_prp1 ccmd a c : 0 ≤ a < 2 ^ 64 →
  store_le 8 ccmd 24 a = Some c → load_le 8 c 24 = Some a.
Proof. intros Ha Hc. apply load_store_le in Hc. by rewrite Hc, Z.mod_small. Qed.

(** [prp2] overwritten, [prp1] kept. *)
Lemma load_prps c a b c' : 0 ≤ b < 2 ^ 64 →
  load_le 8 c 24 = Some a → store_le 8 c 32 b = Some c' →
  load_le 8 c' 24 = Some a ∧ load_le 8 c' 32 = Some b.
Proof.
  intros Hb Ha Hc. split.
  - unfold load_le in *. rewrite <- Ha. f_equal. eapply load_store_ne; [exact Hc|]. lia.
  - apply load_store_le in Hc. by rewrite Hc, Z.mod_small.
Qed.

Lemma list_built_walk prps cs p' d0 fuel :
  list_built prps cs p' d0 → 0 < Z.of_nat (length cs) → NoDup (pg_addr p') →
  Z.of_nat (length cs) ≤ Z.of_nat fuel →
  prp_walk fuel (prps_mem p') d0 (Z.of_nat (length cs)) = Some (prp_seen cs (pg_addr p')).
Proof.
  intros (lp & dp & pgs & np & _ & _ & Hlen & Hnp & Hd0 & _ & ->) Hcs Hnd Hf. simpl in Hnd.
  replace (Z.of_nat (length cs)) with (Z.of_nat (length cs) - EPP * 0) at 1 by lia.
  change (prps_mem _) with (mem cs pgs.*2 np).
  rewrite (prp_walk_final cs pgs.*2 np) with (j := 0); try done; try lia.
  - rewrite length_fmap. lia.
  - split; [done|]. apply Z.div_pos; lia.
  - pose proof (Z.div_lt_upper_bound (Z.of_nat (length cs) - 1) EPP
      (Z.of_nat (length cs))). lia.
Qed.

Lemma prp_decode_list prps p' a d0 cs' :
  list_built prps cs' p' d0 → (2 ≤ length cs')%nat → NoDup (pg_addr p') →
  prp_decode p' a d0 (Z.of_nat (S (length cs'))) = Some (a :: prp_seen cs' (pg_addr p')).
Proof.
  intros Hb Hcs Hnd. unfold prp_decode. rewrite !(proj2 (Z.eqb_neq _ _)) by lia.
  replace (Z.of_nat (S (length cs')) - 1) with (Z.of_nat (length cs')) by lia.
  by rewrite (list_built_walk _ _ _ _ _ Hb) by (done || lia).
Qed.

Definition setup_post (ccmd : list Z) (prps : nvme_prps) (cs : list Z)
    (r : Z * list Z * nvme_prps) (R : list item) : Prop :=
  let '(ret, c', p') := r in
  (ret = - EINVAL ∨ ret = - ENOMEM) ∧ R = [] ∧ p' = prps ∨
  ret = 0 ∧ R ≡ₚ list_items p' ∧ map_items p' = map_items prps ∧ prps_wf p' ∧
  dptr_only ccmd c' ∧ prp_desc c' p' cs.

Lemma setup_post_trans c c1 prps cs r R :
  dptr_only c c1 → setup_post c1 prps cs r R → setup_post c prps cs r R.
Proof.
  intros Hd. destruct r as [[ret c'] p']. intros [?|(?&?&?&?&?&?)]; [by left|right].
  split_and!; try done. by etrans.
Qed.

Lemma list_built_wf prps cs p' d0 : list_built prps cs p' d0 →
  map_items p' = map_items prps ∧ prps_wf p'.
Proof.
  intros (lp & dp & pgs & np & Hl & Hd & Hlen & _ & _ & _ & ->). split; [done|].
  intros _. simpl. by rewrite length_fmap.
Qed.

Lemma list_built_d0 prps cs p' d0 : list_built prps cs p' d0 → 0 ≤ d0 < 2 ^ 64.
Proof. by intros (lp & dp & pgs & np & _ & _ & _ & _ & _ & ? & _). Qed.

(** [prp2], once [prp1] is set and there are bytes left. *)
Lemma triple_prp2 cmd prps c1 a0 bl dl a l cs' :
  length c1 = 64%nat → load_le 8 c1 24 = Some a0 → cursor bl dl a l cs' →
  0 ≤ a < 2 ^ 64 → prp_list_ptr prps = 0 →
  triple []
    (if bl <=? PAGE_SIZE
     then
       if negb (has_mask (c64_bit_mask cmd) NVME_MASK_PRP2_PAGE)
       then mret (- EINVAL, c1, prps)
       else c ← ccmd_set_prp2 a c1; mret (0, c, prps)
     else if negb (has_mask (c64_bit_mask cmd) NVME_MASK_PRP2_LIST)
     then mret (- EINVAL, c1, prps)
     else setup_prp_list PRP2_LIST bl dl 0 a l c1 prps)
    (setup_post c1 prps (a0 :: cs')).
Proof.
  intros Hlen Hp1 Hc Ha Hlp. pose proof (cursor_length _ _ _ _ _ Hc) as HN.
  pose proof (cursor_nonempty _ _ _ _ _ Hc) as [_ Hbl].
  destruct (cursor_head _ _ _ _ _ Hc) as [cs'' Hcs].
  destruct (DIV_ROUND_UP_spec bl PAGE_SIZE) as [Hdiv|Hdiv]; [done|lia| |lia].
  rewrite <- HN in Hdiv. unfold PAGE_SIZE in Hdiv.
  tif; intros Hb; (tif; intros _; [apply triple_ret; left; tauto|]).
  - apply Z.leb_le in Hb. unfold PAGE_SIZE in Hb.
    assert (cs'' = []) as -> by (apply length_zero_iff_nil; subst cs'; simpl in *; lia).
    destruct (ccmd_set_ok 8 32 a c1) as (c2 & Hc2 & Hw2); [lia|lia|].
    destruct (load_prps _ _ _ _ Ha Hp1 Hc2) as [Hl1 Hl2].
    eapply triple_bind; [by apply (triple_pure _ _ c2)|]. intros ? R [-> ->].
    apply triple_ret. right. unfold list_items. rewrite Hlp, Hcs. split_and!; try done.
    + eapply store_dptr; [exact Hc2|lia..].
    + exists a0, a. split_and!; done.
  - apply Z.leb_gt in Hb. unfold PAGE_SIZE in Hb.
    eapply triple_conseq; [done|apply triple_setup_prp_list; [exact Hc|lia]|].
    intros [[ret c'] p'] R [(->&->&->)|(->&HR&d0&Hbt&Hst)]; [left; tauto|right].
    destruct (list_built_wf _ _ _ _ Hbt) as [Hm Hpw]. simpl in Hst.
    destruct (load_prps _ _ d0 _ (list_built_d0 _ _ _ _ Hbt) Hp1 Hst) as [Hl1 Hl2].
    split_and!; try done.
    + eapply store_dptr; [exact Hst|lia..].
    + exists a0, d0. split_and!; [done|done|]. intros Hnd. cbn [length].
      eapply prp_decode_list; [done| |done]. lia.
Qed.

Lemma triple_setup_prps cmd ccmd prps s l unused op :
  sg prps = s :: l ++ unused → sg_wf (s :: l) (data_buf_size prps) →
  length ccmd = 64%nat → load_le 1 ccmd 0 = Some op → is_create cmd op = false →
  prp_list_ptr prps = 0 →
  triple [] (dnvme_setup_prps cmd ccmd prps)
    (setup_post ccmd prps (sg_chunks (s :: l))).
Proof.
  intros Hsg Hwf Hlen Hop Hcr Hlp. unfold dnvme_setup_prps. rewrite Hsg.
  pose proof (room_range s) as Hroom. pose proof Hwf as (Ha&Hls&_&_&_&Hs31).
  destruct (sg_wf_size _ _ _ Hwf) as (Hsz & Hnn & _).
  pose proof (first_only s l _ Hwf) as Honly.
  pose proof (next_same s l unused _ Hwf) as Hsame.
  pose proof (next_seg s l unused _ Hwf) as Hnext.
  set (room := PAGE_SIZE - offset_in_page (sg_dma_address s)) in *.
  eapply triple_bind; [eapply triple_pure, ccmd_get_ok, Hop|]. intros ? R [-> ->].
  fold (is_create cmd op). rewrite Hcr.
  tif; intros _; [apply triple_ret; left; tauto|].
  destruct (ccmd_set_ok 8 24 (sg_dma_address s) ccmd) as (c1 & Hc1 & Hw1); [lia|lia|].
  pose proof (length_store_bytes _ _ _ _ Hc1) as Hl1. rewrite Hlen in Hl1.
  eapply triple_bind; [by apply (triple_pure _ _ c1)|]. intros ? R [-> ->].
  pose proof (load_prp1 _ _ _ Ha Hc1) as Hp1.
  assert (dptr_only ccmd c1) as Hd1 by (eapply store_dptr; [exact Hc1|lia..]).
  eapply triple_conseq; [done| |intros r R; apply (setup_post_trans ccmd c1 _ _ _ _ Hd1)].
  rewrite (s32_small (data_buf_size prps)), (s32_small (sg_dma_len s)) by lia.
  unfold PAGE_SIZE in Hroom. rewrite !(s32_small (_ - room)) by lia.
  tif; intros Hb.
  { apply Z.leb_le in Hb. rewrite Honly by lia. apply triple_ret. right.
    unfold list_items. rewrite Hlp. split_and!; try done.
    destruct (load_le 8 c1 32) as [b|] eqn:Hb2.
    - by exists (sg_dma_address s), b.
    - unfold load_le, load_bytes in Hb2. rewrite decide_True in Hb2 by lia. done. }
  apply Z.leb_gt in Hb.
  change (sg_chunks (s :: l)) with (sg_dma_address s :: tail (sg_chunks (s :: l))).
  destruct (Z.eqb_spec (sg_dma_len s - room) 0) as [H0|H0]; cbn [negb tail].
  - destruct Hnext as (s' & l' & -> & Has & Hc); [lia|done|].
    eapply triple_bind; [by apply (triple_pure _ _ _ (λ w, eq_refl))|].
    intros ? R [-> ->]. by apply triple_prp2.
  - eapply triple_bind; [by apply (triple_pure _ _ _ (λ w, eq_refl))|].
    intros ? R [-> ->]. apply triple_prp2; try done; [apply Hsame; lia|apply u64_range].
Qed.

(** The memory of a discontiguous queue: all its pages are in the list, which PRP1
    points to. *)
Lemma triple_setup_prps_queue cmd ccmd prps s l unused op :
  sg prps = s :: l ++ unused → sg_wf (s :: l) (data_buf_size prps) →
  offset_in_page (sg_dma_address s) = 0 →
  length ccmd = 64%nat → load_le 1 ccmd 0 = Some op → is_create cmd op = true →
  triple [] (dnvme_setup_prps cmd ccmd prps)
    (λ '(ret, c', p') R,
      (ret = - EINVAL ∨ ret = - ENOMEM) ∧ R = [] ∧ p' = prps ∨
      ret = 0 ∧ R ≡ₚ list_items p' ∧ dptr_only ccmd c' ∧
      ∃ d0, list_built prps (sg_chunks (s :: l)) p' d0 ∧ load_le 8 c' 24 = Some d0).
Proof.
  intros Hsg (Ha & Hls & Hdiv & Hsegs & Hsz & Hs31) Hal Hlen Hop Hcr.
  unfold dnvme_setup_prps. rewrite Hsg, Hal in *. rewrite fmap_cons, sumZ_cons in Hsz.
  pose proof (segs_wf_nonneg _ Hsegs).
  eapply triple_bind; [eapply triple_pure, ccmd_get_ok, Hop|]. intros ? R [-> ->].
  fold (is_create cmd op). rewrite Hcr. tif; intros _; [apply triple_ret; left; tauto|].
  assert (cursor (data_buf_size prps) (sg_dma_len s) (sg_dma_address s) (s :: l ++ unused)
    (sg_chunks (s :: l))) as Hc.
  { rewrite Hsz. cbn [sg_chunks mbind list_bind]. rewrite chunks_aligned by (done || lia).
    apply (cursor_segs l (Z.to_nat (sg_dma_len s))); try done; unfold PAGE_SIZE; lia. }
  rewrite !s32_small by lia.
  eapply triple_conseq; [done|apply triple_setup_prp_list; [exact Hc|lia]|].
  intros [[ret c'] p'] R [(->&->&->)|(->&HR&d0&Hbt&Hst)]; [left; tauto|right].
  simpl in Hst. destruct (store_le 8 ccmd 24 d0) as [c1|] eqn:H1; [|done]. simpl in Hst.
  split_and!; [done|done| |].
  - etrans; [eapply store_dptr; [exact H1|lia..]|eapply store_dptr; [exact Hst|lia..]].
  - exists d0. split; [done|].
    apply (load_prp1 _ _ _ (list_built_d0 _ _ _ _ Hbt)) in H1.
    by destruct (load_prps _ _ 0 _ ltac:(lia) H1 Hst).
Qed.
End setup.

(** ** Claims *)

Lemma sg_chunks_cons s l :
  sg_chunks (s :: l) = sg_dma_address s :: tail (sg_chunks (s :: l)).
Proof. done. Qed.

Section prp_claims.
Context {E : Env}.

(** C18. PRP construction is correct: for a data command on a mapped buffer
    (segments that meet at page boundaries, an arbitrary offset in the first
    page) [dnvme_setup_prps] never faults and either fails with -EINVAL/-ENOMEM
    owning nothing, or returns 0 owning exactly the PRP list pages, and a
    controller that follows the NVMe rules from PRP1/PRP2 visits exactly the
    pages of the buffer, in order; this for every buffer whose list does not
    leave a single entry for its last page. *)
Theorem prp_setup_describes_buffer cmd ccmd prps s l unused op
    (Hsg : sg prps = s :: l ++ unused)
    (Hwf : sg_wf (s :: l) (data_buf_size prps))
    (Hlen : length ccmd = 64%nat) (Hop : load_le 1 ccmd 0 = Some op)
    (Hcr : is_create cmd op = false) (Hlp : prp_list_ptr prps = 0)
    (Hfit : (Z.of_nat (length (sg_chunks (s :: l))) - 1) mod EPP ≠ 1 ∨
            Z.of_nat (length (sg_chunks (s :: l))) ≤ 2) :
  triple [] (dnvme_setup_prps cmd ccmd prps)
    (λ '(ret, c', p') R,
      (ret = - EINVAL ∨ ret = - ENOMEM) ∧ R = [] ∨
      ret = 0 ∧ R ≡ₚ list_items p' ∧
      ∃ prp1 prp2, load_le 8 c' 24 = Some prp1 ∧ load_le 8 c' 32 = Some prp2 ∧
        (NoDup (pg_addr p') →
         prp_decode p' prp1 prp2 (Z.of_nat (length (sg_chunks (s :: l)))) =
         Some (sg_chunks (s :: l)))).
Proof.
  eapply triple_conseq; [done|by eapply triple_setup_prps|].
  intros [[ret c'] p'] R [(Hr & -> & _)|(-> & HR & _ & _ & _ & prp1 & prp2 & H1 & H2 & H3)];
    [by left|right].
  split_and!; [done|done|]. exists prp1, prp2. split_and!; [done|done|].
  intros Hnd. specialize (H3 Hnd). rewrite sg_chunks_cons in *.
  set (cs := tail _) in *. rewrite H3. do 2 f_equal. cbn [length] in Hfit. unfold prp_seen.
  destruct (Z.eqb_spec (Z.of_nat (length cs) mod EPP) 1) as [Hm|]; [|done].
  rewrite (proj2 (Z.ltb_ge 1 _)); [done|]. destruct Hfit as [Hfit|Hfit]; [|lia].
  exfalso. apply Hfit. rewrite <- Hm. f_equal. lia.
Qed.

(** When the list leaves a single entry for its last page (512, 1023, ...
    entries) the driver still writes a link in the last slot of the page before,
    where a controller expects the last data page: it reads the bus address of a
    PRP list page as a data page. *)
Theorem prp_last_link_misread cmd ccmd prps s l unused op
    (Hsg : sg prps = s :: l ++ unused)
    (Hwf : sg_wf (s :: l) (data_buf_size prps))
    (Hlen : length ccmd = 64%nat) (Hop : load_le 1 ccmd 0 = Some op)
    (Hcr : is_create cmd op = false) (Hlp : prp_list_ptr prps = 0)
    (Hone : (Z.of_nat (length (sg_chunks (s :: l))) - 1) mod EPP = 1)
    (Hbig : 2 < Z.of_nat (length (sg_chunks (s :: l)))) :
  triple [] (dnvme_setup_prps cmd ccmd prps)
    (λ '(ret, c', p') R,
      (ret = - EINVAL ∨ ret = - ENOMEM) ∨
      ret = 0 ∧ ∃ prp1 prp2, load_le 8 c' 24 = Some prp1 ∧ load_le 8 c' 32 = Some prp2 ∧
        (NoDup (pg_addr p') →
         let n := length (sg_chunks (s :: l)) in
         prp_decode p' prp1 prp2 (Z.of_nat n) =
         Some (take (n - 1) (sg_chunks (s :: l)) ++
               [next_page (pg_addr p') ((Z.of_nat n - 2) / EPP - 1)]))).
Proof.
  eapply triple_conseq; [done|by eapply triple_setup_prps|].
  intros [[ret c'] p'] R [(Hr & -> & _)|(-> & HR & _ & _ & _ & prp1 & prp2 & H1 & H2 & H3)];
    [by left|right].
  split; [done|]. exists prp1, prp2. split_and!; [done|done|].
  intros Hnd n. specialize (H3 Hnd). subst n. rewrite sg_chunks_cons in *.
  set (cs := tail _) in *. rewrite H3. cbn [length] in *. unfold prp_seen.
  replace (Z.of_nat (S (length cs)) - 1) with (Z.of_nat (length cs)) in Hone by lia.
  rewrite Hone, Z.eqb_refl, (proj2 (Z.ltb_lt 1 _)) by lia. cbn [andb].
  unfold next_page. f_equal. rewrite app_comm_cons. f_equal.
  - replace (S (length cs) - 1)%nat with (S (length cs - 1)) by lia. done.
  - rewrite Z.sub_add.
    by replace (Z.of_nat (S (length cs)) - 2) with (Z.of_nat (length cs) - 1) by lia.
Qed.

(** C33. The memory of a discontiguous queue: for the commands that create queues, on a
    mapped buffer that starts on a page boundary, [dnvme_setup_prps] never faults and
    fails owning nothing or returns 0 owning exactly the list pages, and the list at
    PRP1 read by the controller's rules is the pages of the queue in order, unless
    one entry is left for its last page. *)
Theorem queue_list_describes_memory cmd ccmd prps s l unused op
    (Hsg : sg prps = s :: l ++ unused)
    (Hwf : sg_wf (s :: l) (data_buf_size prps))
    (Hal : offset_in_page (sg_dma_address s) = 0)
    (Hlen : length ccmd = 64%nat) (Hop : load_le 1 ccmd 0 = Some op)
    (Hcr : is_create cmd op = true)
    (Hfit : Z.of_nat (length (sg_chunks (s :: l))) mod EPP ≠ 1 ∨
            Z.of_nat (length (sg_chunks (s :: l))) ≤ 1) :
  triple [] (dnvme_setup_prps cmd ccmd prps)
    (λ '(ret, c', p') R,
      (ret = - EINVAL ∨ ret = - ENOMEM) ∧ R = [] ∨
      ret = 0 ∧ R ≡ₚ list_items p' ∧
      ∃ prp1, load_le 8 c' 24 = Some prp1 ∧
        let n := Z.of_nat (length (sg_chunks (s :: l))) in
        (NoDup (pg_addr p') →
         prp_walk (Z.to_nat n) (prps_mem p') prp1 n = Some (sg_chunks (s :: l)))).
Proof.
  eapply triple_conseq; [done|by eapply triple_setup_prps_queue|].
  intros [[ret c'] p'] R [(Hr & -> & _)|(-> & HR & _ & d0 & Hb & H1)]; [by left|right].
  split_and!; [done|done|]. exists d0. split; [done|]. intros n Hnd.
  unfold n. rewrite (list_built_walk _ _ _ _ _ Hb) by (done || simpl; lia).
  unfold prp_seen. destruct (Z.eqb_spec (Z.of_nat (length (sg_chunks (s :: l))) mod EPP) 1) as [Hm|];
    [|done]. rewrite (proj2 (Z.ltb_ge 1 _)); [done|]. by destruct Hfit.
Qed.
End prp_claims.

(** *** Witnesses *)

(** A 64-byte read command, and a buffer of three segments from offset 16. *)
Definition demo_cmd : nvme_64b_cmd := {|
  c64_sqid := 1; c64_cid := 0; c64_has_cmd_buf := true; c64_bit_mask := 0xf;
  c64_data_buf_ptr := 0x7f0010; c64_data_buf_size := 8276;
  c64_data_dir := DMA_FROM_DEVICE; c64_meta_id := 0; c64_nr_bit_bucket := 0;
  c64_bit_bucket := [] |}.
Definition demo_ccmd : list Z := 2 :: replicate 63 0.
Definition demo_prps (l : list scatterlist) (size : Z) : nvme_prps :=
  prps_zero <| sg_ptr := 9 |> <| sg := l |> <| num_map_pgs := Z.of_nat (length l) |>
            <| data_buf_size := size |> <| pg_pool := 1 |>.

Lemma prp_setup_describes_buffer_witness :
  let s := mk_sg 0x100010 4080 in
  let l := [mk_sg 0x200000 4096; mk_sg 0x300000 100] in
  sg_chunks (s :: l) = [0x100010; 0x200000; 0x300000] ∧
  triple [] (dnvme_setup_prps (E := demo_env) demo_cmd demo_ccmd (demo_prps (s :: l ++ []) 8276))
    (λ '(ret, c', p') R,
      (ret = - EINVAL ∨ ret = - ENOMEM) ∧ R = [] ∨
      ret = 0 ∧ R ≡ₚ list_items p' ∧
      ∃ prp1 prp2, load_le 8 c' 24 = Some prp1 ∧ load_le 8 c' 32 = Some prp2 ∧
        (NoDup (pg_addr p') →
         prp_decode p' prp1 prp2 (Z.of_nat (length (sg_chunks (s :: l)))) =
         Some (sg_chunks (s :: l)))).
Proof.
  intros s l. split; [done|].
  apply (prp_setup_describes_buffer (E := demo_env)) with (op := 2) (unused := []); try done.
  left. by vm_compute.
Defined.

(** One segment of 513 pages: a list of 512 entries. *)
Lemma prp_last_link_misread_witness :
  let s := mk_sg 0x100000 (4096 * 513) in
  length (sg_chunks [s]) = 513%nat ∧
  triple [] (dnvme_setup_prps (E := demo_env) demo_cmd demo_ccmd (demo_prps ([s] ++ []) (4096 * 513)))
    (λ '(ret, c', p') R,
      (ret = - EINVAL ∨ ret = - ENOMEM) ∨
      ret = 0 ∧ ∃ prp1 prp2, load_le 8 c' 24 = Some prp1 ∧ load_le 8 c' 32 = Some prp2 ∧
        (NoDup (pg_addr p') →
         let n := length (sg_chunks [s]) in
         prp_decode p' prp1 prp2 (Z.of_nat n) =
         Some (take (n - 1) (sg_chunks [s]) ++
               [next_page (pg_addr p') ((Z.of_nat n - 2) / EPP - 1)]))).
Proof.
  intros s. split; [by vm_compute|].
  apply (prp_last_link_misread (E := demo_env)) with (op := 2) (unused := []); done.
Defined.

(** The memory of a queue of 256 entries of 64 bytes, in two segments. *)
Lemma queue_list_describes_memory_witness :
  let cmd := demo_cmd <| c64_sqid := 0 |> in
  let ccmd := 1 :: replicate 63 0 in
  let s := mk_sg 0x100000 8192 in
  let l := [mk_sg 0x300000 8192] in
  triple [] (dnvme_setup_prps (E := demo_env) cmd ccmd (demo_prps (s :: l ++ []) 16384))
    (λ '(ret, c', p') R,
      (ret = - EINVAL ∨ ret = - ENOMEM) ∧ R = [] ∨
      ret = 0 ∧ R ≡ₚ list_items p' ∧
      ∃ prp1, load_le 8 c' 24 = Some prp1 ∧
        (NoDup (pg_addr p') →
         prp_walk 4 (prps_mem p') prp1 4 = Some [0x100000; 0x101000; 0x300000; 0x301000])).
Proof.
  intros cmd ccmd s l.
  apply (queue_list_describes_memory (E := demo_env)) with (op := 1) (unused := []) (s := s) (l := l);
    try done; [|by left].
  split_and!; try done; intros _; simpl; by exists 2.
Defined.
