(* ===== verification/Sgl.v ===== *)
(** * SGL segments

    The SGL part of [modules/dnvme/cmd.c]: descriptors, bit buckets
    ([dnvme_count_sgl_desc_num], [dnvme_init_sgl_desc_list]) and the chain of
    segments ([dnvme_cmd_setup_sgl]). *)

From S2P Require Import Prelude Types Kernel Own Prp PrpSpec.

Definition SIZEOF_sgl_bit_bucket := 8.
Definition SIZEOF_sgl_desc_entry := 16.
Definition SIZEOF_sgl_desc_list := 8.

(** [struct sgl_desc_entry]: [addr = 0] marks a bit bucket. *)
Record sgl_desc_entry := mk_sde { sde_addr : Z; sde_length : Z }.

(** ** Descriptors *)

Definition dnvme_use_sgls (flags : Z) (cmd : nvme_64b_cmd) : bool :=
  if negb (has_mask flags NVME_CMD_SGL_ALL) then false
  else if c64_sqid cmd =? 0 then false
  else true.

Definition dnvme_sgl_set_data' (addr length : Z) : nvme_sgl_desc :=
  mk_sgl_desc (u64 addr) (u32 length) (Z.shiftl NVME_SGL_TYPE_DATA_DESC 4).
Definition dnvme_sgl_set_data (s : scatterlist) : nvme_sgl_desc :=
  dnvme_sgl_set_data' (sg_dma_address s) (sg_dma_len s).
(** The address of the descriptor is left as it is. *)
Definition dnvme_sgl_set_bit_bucket (sge : nvme_sgl_desc) (length : Z) : nvme_sgl_desc :=
  sge <| sge_length := u32 length |>
      <| sge_type := Z.shiftl NVME_SGL_TYPE_BIT_BUCKET_DESC 4 |>.
Definition dnvme_sgl_set_seg (dma_addr entries : Z) : nvme_sgl_desc :=
  if u64 entries <? NVME_SGES_PER_PAGE
  then mk_sgl_desc (u64 dma_addr) (u32 (entries * SGL_DESC_SIZE))
         (Z.shiftl NVME_SGL_TYPE_LAST_SEG_DESC 4)
  else mk_sgl_desc (u64 dma_addr) PAGE_SIZE (Z.shiftl NVME_SGL_TYPE_SEG_DESC 4).

(** [ccmd->dptr.sgl]: the three fields of the descriptor the code stores. *)
Definition ccmd_set_sgl (d : nvme_sgl_desc) (c : list Z) : M (list Z) :=
  c ← ccmd_set 8 24 (sge_addr d) c;
  c ← ccmd_set 4 32 (sge_length d) c;
  ccmd_set 1 39 (sge_type d) c.

(** ** Bit buckets *)

Definition dnvme_compare_sgl_bit_bucket (b1 b2 : nvme_sgl_bit_bucket) : Z :=
  if bb_offset b2 <? bb_offset b1 then 1
  else if bb_offset b1 <? bb_offset b2 then -1
  else 0.

(** Does [off] lie at the beginning or the end of an entry, from [offset] on? *)
Fixpoint at_boundary (off offset : Z) (sgs : list scatterlist) : bool :=
  match sgs with
  | [] => false
  | s :: sgs =>
    (off =? offset) || (off =? u32 (offset + sg_dma_len s)) ||
    at_boundary off (u32 (offset + sg_dma_len s)) sgs
  end.

Definition dnvme_count_sgl_desc_num (sgs : list scatterlist)
    (buckets : list nvme_sgl_bit_bucket) : Z :=
  let num := foldl (λ num b,
    if at_boundary (bb_offset b) 0 sgs then num + 1 else num + 2) 0 buckets in
  num + Z.of_nat (length sgs).

Section sgl.
Context {E : Env}.

Definition dnvme_sort_sgl_bit_bucket (l : list nvme_sgl_bit_bucket) :
    list nvme_sgl_bit_bucket := ans_sort l.

(** [list->entry[desc] = e; desc++] in an array of [cap] entries: the entries
    written so far are the list. *)
Definition put_desc (cap : Z) (list : list sgl_desc_entry) (e : sgl_desc_entry) :
    M (Datatypes.list sgl_desc_entry) :=
  if Z.of_nat (length list) <? cap then mret (list ++ [e]) else oops F_oob.

(** The buckets before all data. *)
Fixpoint lead_buckets (cap : Z) (bits : list nvme_sgl_bit_bucket) (last : Z)
    (list : list sgl_desc_entry) :
    M (Datatypes.list nvme_sgl_bit_bucket * Z * Datatypes.list sgl_desc_entry) :=
  match bits with
  | [] => mret ([], last, list)
  | b :: bits' =>
    if 0 <? bb_offset b then mret (bits, last, list)
    else
      list ← put_desc cap list (mk_sde 0 (bb_length b));
      lead_buckets cap bits' (bb_offset b) list
  end.

(** The [while] loop of one scatterlist entry: the buckets left, the offset of
    the last bucket, [sg_oft] and the entries. *)
Fixpoint sge_buckets (cap : Z) (bits : list nvme_sgl_bit_bucket)
    (offset sg_addr sg_len sg_oft last : Z) (list : list sgl_desc_entry) :
    M (Datatypes.list nvme_sgl_bit_bucket * Z * Z * Datatypes.list sgl_desc_entry) :=
  match bits with
  | [] => mret ([], last, sg_oft, list)
  | b :: bits' =>
    let endo := u32 (offset + sg_len) in
    if bb_offset b <? endo then
      '(sg_oft, list) ←
        (if negb (last =? bb_offset b)
         then let len := u32 (bb_offset b - (offset + sg_oft)) in
              list ← put_desc cap list (mk_sde (u64 (sg_addr + sg_oft)) len);
              mret (u32 (sg_oft + len), list)
         else mret (sg_oft, list));
      list ← put_desc cap list (mk_sde 0 (bb_length b));
      sge_buckets cap bits' offset sg_addr sg_len sg_oft (bb_offset b) list
    else if bb_offset b =? endo then
      '(sg_oft, list) ←
        (if negb (last =? bb_offset b)
         then let len := u32 (sg_len - sg_oft) in
              list ← put_desc cap list (mk_sde (u64 (sg_addr + sg_oft)) len);
              mret (u32 (sg_oft + len), list)
         else mret (sg_oft, list));
      list ← put_desc cap list (mk_sde 0 (bb_length b));
      sge_buckets cap bits' offset sg_addr sg_len sg_oft (bb_offset b) list
    else
      '(sg_oft, list) ←
        (if 0 <? u32 (sg_len - sg_oft)
         then let len := u32 (sg_len - sg_oft) in
              list ← put_desc cap list (mk_sde (u64 (sg_addr + sg_oft)) len);
              mret (u32 (sg_oft + len), list)
         else mret (sg_oft, list));
      mret (bits, last, sg_oft, list)
  end.

(** The loop over the scatterlist. *)
Fixpoint sg_loop (cap : Z) (sgs : list scatterlist) (bits : list nvme_sgl_bit_bucket)
    (offset last : Z) (list : list sgl_desc_entry) :
    M (Datatypes.list nvme_sgl_bit_bucket * Datatypes.list sgl_desc_entry) :=
  match sgs with
  | [] => mret (bits, list)
  | s :: sgs =>
    let sg_addr := sg_dma_address s in
    let sg_len := sg_dma_len s in
    '(bits, last, sg_oft, list) ← sge_buckets cap bits offset sg_addr sg_len 0 last list;
    list ← (match bits with
            | [] => if 0 <? u32 (sg_len - sg_oft)
                    then put_desc cap list
                           (mk_sde (u64 (sg_addr + sg_oft)) (u32 (sg_len - sg_oft)))
                    else mret list
            | _ :: _ => mret list
            end);
    sg_loop cap sgs bits (u32 (offset + sg_len)) last list
  end.

Fixpoint trail_buckets (cap : Z) (bits : list nvme_sgl_bit_bucket)
    (list : list sgl_desc_entry) : M (Datatypes.list sgl_desc_entry) :=
  match bits with
  | [] => mret list
  | b :: bits =>
    list ← put_desc cap list (mk_sde 0 (bb_length b));
    trail_buckets cap bits list
  end.

(** The loops together; [bits] is sorted. *)
Definition fill_desc_list (sgs : list scatterlist) (bits : list nvme_sgl_bit_bucket)
    (nr_desc : Z) : M (list sgl_desc_entry) :=
  '(bits, last, list) ← lead_buckets nr_desc bits 0 [];
  '(bits, list) ← sg_loop nr_desc sgs bits 0 last list;
  trail_buckets nr_desc bits list.

(** The address of the list and its entries; [0] for [NULL]. *)
Definition dnvme_init_sgl_desc_list (sgs : list scatterlist)
    (bits : list nvme_sgl_bit_bucket) (nr_desc : Z) : M (Z * list sgl_desc_entry) :=
  p ← kmalloc (SIZEOF_sgl_desc_list + nr_desc * SIZEOF_sgl_desc_entry);
  if p =? 0 then mret (0, [])
  else
    list ← fill_desc_list sgs bits nr_desc;
    if negb (Z.of_nat (length list) =? nr_desc) then kfree p;; mret (0, [])
    else mret (p, list).

Definition dnvme_deinit_sgl_desc_list (p : Z) : M unit := kfree p.

(** ** The chain of segments *)

(** The loop that stores the descriptors; [ents] are those left, so [nr_desc] is
    their number. *)
Fixpoint sgl_fill (fuel : nat) (prp_dma : list Z) (j k : Z)
    (ents : list sgl_desc_entry) (pages : list (list nvme_sgl_desc)) :
    M (list (list nvme_sgl_desc)) :=
  match ents with
  | [] => mret pages
  | e :: ents' =>
    match fuel with
    | O => hang
    | S fuel =>
      if k =? NVME_SGES_PER_PAGE - 1
      then
        d ← get_dma prp_dma (j + 1);
        pages ← set_cell pages j k (dnvme_sgl_set_seg d (Z.of_nat (length ents)));
        sgl_fill fuel prp_dma (j + 1) 0 ents pages
      else
        pages ← set_cell pages j k
          (if negb (sde_addr e =? 0)
           then dnvme_sgl_set_data' (sde_addr e) (sde_length e)
           else dnvme_sgl_set_bit_bucket sgl_desc_zero (sde_length e));
        sgl_fill fuel prp_dma j (k + 1) ents' pages
    end
  end.

(** Releases the list of bit buckets on every path out. *)
Definition free_bit_bucket (nr p : Z) : M unit :=
  if nr =? 0 then mret tt else kfree p.

(** The result is [ret], the command and the structure at [prps]. *)
Definition dnvme_cmd_setup_sgl (cmd : nvme_64b_cmd) (ccmd : list Z) (prps : nvme_prps) :
    M (Z * list Z * nvme_prps) :=
  let nr_bit_bucket := c64_nr_bit_bucket cmd in
  let nr_desc := num_map_pgs prps in
  if (nr_desc =? 1) && (nr_bit_bucket =? 0)
  then
    match sg prps with
    | [] => oops F_null
    | s :: _ => ccmd ← ccmd_set_sgl (dnvme_sgl_set_data s) ccmd; mret (0, ccmd, prps)
    end
  else
    bp ← (if nr_bit_bucket =? 0 then mret 0
          else kmalloc (nr_bit_bucket * SIZEOF_sgl_bit_bucket));
    if negb (nr_bit_bucket =? 0) && (bp =? 0) then mret (- ENOMEM, ccmd, prps)
    else
      ok ← (if nr_bit_bucket =? 0 then mret true else copy_from_user);
      if negb ok then free_bit_bucket nr_bit_bucket bp;; mret (- EFAULT, ccmd, prps)
      else
        let bits := if nr_bit_bucket =? 0 then []
                    else dnvme_sort_sgl_bit_bucket (c64_bit_bucket cmd) in
        let nr_desc := if nr_bit_bucket =? 0 then nr_desc
                       else u32 (dnvme_count_sgl_desc_num (sg prps) bits) in
        '(lp, ents) ← dnvme_init_sgl_desc_list (sg prps) bits nr_desc;
        if lp =? 0 then free_bit_bucket nr_bit_bucket bp;; mret (- EPERM, ccmd, prps)
        else
          let prps := prps <| nr_entry := nr_desc |> in
          let nr_seg := u32 (DIV_ROUND_UP (SGL_DESC_SIZE * nr_desc)
                               (PAGE_SIZE - SGL_DESC_SIZE)) in
          r ← alloc_list (pg_pool prps) nr_seg;
          match r with
          | None =>
            dnvme_deinit_sgl_desc_list lp;;
            free_bit_bucket nr_bit_bucket bp;;
            mret (- ENOMEM, ccmd, prps)
          | Some (ap, dp, pgs) =>
            let prp_dma := pgs.*2 in
            d0 ← get_dma prp_dma 0;
            ccmd ← ccmd_set_sgl (dnvme_sgl_set_seg d0 nr_desc) ccmd;
            pages ← sgl_fill (2 * length ents) prp_dma 0 0 ents
              (replicate (length pgs)
                (replicate (Z.to_nat NVME_SGES_PER_PAGE) sgl_desc_zero));
            dnvme_deinit_sgl_desc_list lp;;
            free_bit_bucket nr_bit_bucket bp;;
            mret (0, ccmd,
              prps <| prp_list_ptr := ap |> <| pg_va := pgs.*1 |>
                   <| nr_pages := nr_seg |>
                   <| pg_addr_ptr := dp |> <| pg_addr := prp_dma |>
                   <| prp_list := PP_sgl pages |>)
          end.
End sgl.
