(* ===== verification/SglSpec.v ===== *)
(** * What an SGL describes

    The meaning of a list of SGL entries is the sequence of data bytes and the
    places where bit buckets sit in it ([sem]); the meaning of a chain of
    segments is the sequence of descriptors a controller finds in it
    ([sgl_walk]).  The theorems: the entry list never overruns its array and means
    the mapped buffer with the requested buckets; the chain reads back as the
    entry list. *)

From S2P Require Import Prelude Types Kernel Own Prp Paged PrpSpec Sgl.

(** ** Meaning of an entry list *)

Definition span (a n : Z) : list Z := Z.add a <$> seqZ 0 n.

Lemma length_span a n : Z.of_nat (length (span a n)) = Z.max 0 n.
Proof. unfold span. rewrite length_fmap, length_seqZ. lia. Qed.

Lemma span_app a n m : 0 ≤ n → 0 ≤ m → span a (n + m) = span a n ++ span (a + n) m.
Proof.
  intros Hn Hm. unfold span. rewrite seqZ_app, fmap_app by lia. f_equal.
  apply list_eq. intros i. rewrite !list_lookup_fmap.
  destruct (decide (Z.of_nat i < m)).
  - rewrite !lookup_seqZ_lt by lia. simpl. f_equal. lia.
  - rewrite !lookup_seqZ_ge by lia. done.
Qed.

(** The addresses of the data bytes, and each bucket with the number of data
    bytes before it. *)
Definition sem_step (db : list Z * list (Z * Z)) (e : sgl_desc_entry) :
    list Z * list (Z * Z) :=
  if sde_addr e =? 0 then (db.1, db.2 ++ [(Z.of_nat (length db.1), sde_length e)])
  else (db.1 ++ span (sde_addr e) (sde_length e), db.2).
Definition sem (l : list sgl_desc_entry) : list Z * list (Z * Z) :=
  foldl sem_step ([], []) l.

Lemma sem_snoc l e : sem (l ++ [e]) = sem_step (sem l) e.
Proof. unfold sem. by rewrite foldl_app. Qed.

(** No bucket sits behind more bytes than there are. *)
Lemma sem_positions l : Forall (λ p, p.1 ≤ Z.of_nat (length (sem l).1)) (sem l).2.
Proof.
  induction l as [|e l IH] using rev_ind; [constructor|].
  rewrite sem_snoc. unfold sem_step. destruct (sde_addr e =? 0); simpl.
  - apply Forall_app_2; [done|]. apply Forall_singleton. simpl. lia.
  - eapply Forall_impl; [exact IH|]. simpl. intros p Hp. rewrite length_app. lia.
Qed.

(** ** Bit buckets in the array *)

(** A scatterlist of addressable segments of less than 4 GiB altogether. *)
Definition seg_ok (s : scatterlist) : Prop :=
  0 < sg_dma_address s ∧ 0 ≤ sg_dma_len s ∧ sg_dma_address s + sg_dma_len s ≤ 2 ^ 64.
Definition total (sgs : list scatterlist) : Z := sumZ (sg_dma_len <$> sgs).

Lemma total_nonneg sgs : Forall seg_ok sgs → 0 ≤ total sgs.
Proof.
  induction 1 as [|s l [_ [? _]] _ IH]; [done|].
  unfold total in *. rewrite fmap_cons, sumZ_cons. lia.
Qed.
Lemma total_cons s l : total (s :: l) = sg_dma_len s + total l.
Proof. done. Qed.

(** An offset strictly inside an entry is no boundary. *)
Lemma interior_not_boundary pre s post off offset :
  Forall seg_ok (pre ++ s :: post) →
  0 ≤ offset → offset + total (pre ++ s :: post) < 2 ^ 32 →
  offset + total pre < off < offset + total pre + sg_dma_len s →
  at_boundary off offset (pre ++ s :: post) = false.
Proof.
  assert (∀ l offset, Forall seg_ok l → 0 ≤ offset → offset + total l < 2 ^ 32 →
    off < offset → at_boundary off offset l = false) as Hbelow.
  { induction l as [|s' l IH]; intros o Hf Ho Ht Hlt; [done|].
    rewrite total_cons in Ht. apply Forall_cons in Hf as [(?&?&?) Hf]. simpl.
    pose proof (total_nonneg _ Hf).
    rewrite u32_small by lia. rewrite IH; [|done|lia|lia|lia].
    rewrite !(proj2 (Z.eqb_neq _ _)) by lia. done. }
  revert offset. induction pre as [|s' pre IH]; intros o Hf Ho Ht Hoff.
  - simpl in *. rewrite total_cons in *. apply Forall_cons in Hf as [(?&?&?) Hf].
    change (total []) with 0 in Hoff. pose proof (total_nonneg _ Hf).
    rewrite u32_small by lia. rewrite Hbelow; [|done|lia|lia|lia].
    rewrite !(proj2 (Z.eqb_neq _ _)) by lia. done.
  - simpl app in *. rewrite total_cons in *. apply Forall_cons in Hf as [(?&?&?) Hf].
    pose proof (total_nonneg _ Hf).
    assert (0 ≤ total pre).
    { apply total_nonneg. by apply Forall_app in Hf as [? _]. }
    simpl. rewrite u32_small by lia. rewrite IH; [|done|lia|lia|lia].
    rewrite !(proj2 (Z.eqb_neq _ _)) by lia. done.
Qed.

Lemma if_true_le (b : bool) : 0 ≤ (if b then 1 else 0).
Proof. by destruct b. Qed.

Section buckets.
Context {E : Env} (all : list scatterlist) (cap : Z).
Context (Hall : Forall seg_ok all) (Htot : total all < 2 ^ 32).

(** The number of entries the count reserves for a bucket. *)
Definition weight (b : nvme_sgl_bit_bucket) : Z :=
  if at_boundary (bb_offset b) 0 all then 1 else 2.
Definition weights (l : list nvme_sgl_bit_bucket) : Z := sumZ (weight <$> l).

Lemma weight_pos b : 1 ≤ weight b.
Proof. unfold weight. destruct (at_boundary _ _ _); lia. Qed.
Lemma weights_cons b l : weights (b :: l) = weight b + weights l.
Proof. done. Qed.
Lemma weights_nonneg l : 0 ≤ weights l.
Proof. induction l; [done|]. rewrite weights_cons. pose proof (weight_pos a). lia. Qed.

Lemma wp_put_desc l e (Q : list sgl_desc_entry → world → Prop) w :
  Z.of_nat (length l) < cap → Q (l ++ [e]) w → wp (put_desc cap l e) Q w.
Proof. intros Hl HQ. unfold put_desc. by rewrite (proj2 (Z.ltb_lt _ _)). Qed.

Definition bpos (b : nvme_sgl_bit_bucket) : Z * Z := (bb_offset b, bb_length b).
Definition bits_ok (l : list nvme_sgl_bit_bucket) : Prop :=
  Sorted bb_le l ∧ Forall (λ b, 0 ≤ bb_offset b < 2 ^ 32) l.

(** The state of the [while] loop at data position [offset + oft]: the buckets
    left lie there or behind; one that lies exactly there follows a bucket at
    the same place. *)
Record at_pos (offset oft last : Z) (bits : list nvme_sgl_bit_bucket)
    (D : list Z) (B : list (Z * Z)) (l : list sgl_desc_entry) : Prop := {
  ap_sem : sem l = (D, B);
  ap_len : Z.of_nat (length D) = offset + oft;
  ap_last : last ≤ offset + oft;
  ap_bits : ∀ b, b ∈ bits → offset + oft < bb_offset b ∨
                            offset + oft = bb_offset b ∧ last = bb_offset b }.

Lemma sem_bucket l D B k :
  sem l = (D, B) → sem (l ++ [mk_sde 0 k]) = (D, B ++ [(Z.of_nat (length D), k)]).
Proof. intros H. by rewrite sem_snoc, H. Qed.

Lemma sem_piece l D0 B addr oft n :
  sem l = (D0 ++ span addr oft, B) → 0 < addr → 0 ≤ oft → 0 ≤ n →
  addr + oft + n ≤ 2 ^ 64 → addr + oft < 2 ^ 64 →
  sem (l ++ [mk_sde (u64 (addr + oft)) n]) = (D0 ++ span addr (oft + n), B).
Proof.
  intros H ?????. rewrite sem_snoc, H, u64_small by lia. unfold sem_step. simpl.
  rewrite (proj2 (Z.eqb_neq _ _)) by lia.
  by rewrite <- (assoc_L (++)), <- span_app by lia.
Qed.

(** After a bucket, the rest of the loop state. *)
Lemma at_pos_bucket offset oft b bits D B l :
  Sorted bb_le (b :: bits) → sem l = (D, B) →
  Z.of_nat (length D) = offset + oft → bb_offset b = offset + oft →
  at_pos offset oft (bb_offset b) bits D (B ++ [bpos b]) (l ++ [mk_sde 0 (bb_length b)]).
Proof.
  intros Hs Hsem HD Hb. split; [|done|lia|].
  - rewrite (sem_bucket _ _ _ _ Hsem). unfold bpos. by rewrite HD, Hb.
  - intros b' Hin. apply Sorted_StronglySorted in Hs; [|intros ???; unfold bb_le; lia].
    apply StronglySorted_inv in Hs as [_ Hs]. rewrite Forall_forall in Hs.
    specialize (Hs b' Hin). unfold bb_le in Hs. lia.
Qed.

(** One entry of the scatterlist. *)
Section entry.
Context (pre post : list scatterlist) (s : scatterlist) (R : Z) (D0 : list Z).
Context (Heq : all = pre ++ s :: post).
Local Abbreviation offset := (total pre).
Local Abbreviation addr := (sg_dma_address s).
Local Abbreviation len := (sg_dma_len s).
Context (HD0 : Z.of_nat (length D0) = offset).

(** One array slot is kept for the rest of the entry while there is any. *)
Definition slack (oft : Z) : Z := if oft <? len then 1 else 0.

Lemma entry_facts : seg_ok s ∧ 0 ≤ offset ∧ offset + len < 2 ^ 32 ∧
  (∀ b, offset < bb_offset b < offset + len → weight b = 2).
Proof using Heq Hall Htot.
  clear HD0 D0.
  pose proof Hall as Hf. rewrite Heq in Hf.
  apply Forall_app in Hf as [Hpre Hf]. apply Forall_cons in Hf as [Hs Hpost].
  pose proof (total_nonneg _ Hpre). pose proof (total_nonneg _ Hpost).
  assert (total all = offset + (len + total post)) as Ht.
  { rewrite Heq. unfold total. rewrite fmap_app, sumZ_app, fmap_cons, sumZ_cons. lia. }
  split_and!; [done..|lia|lia|].
  intros b Hb. unfold weight. rewrite Heq, interior_not_boundary; try done.
  - by rewrite <- Heq.
  - rewrite <- Heq. lia.
Qed.

Definition entry_post (bits : list nvme_sgl_bit_bucket) (B : list (Z * Z))
    (r : list nvme_sgl_bit_bucket * Z * Z * list sgl_desc_entry) : Prop :=
  let '(bits', last', oft', l') := r in
  ∃ done, bits = done ++ bits' ∧ 0 ≤ oft' ≤ len ∧
    at_pos offset oft' last' bits' (D0 ++ span addr oft') (B ++ (bpos <$> done)) l' ∧
    (bits' ≠ [] → oft' = len ∧ ∀ b, b ∈ bits' → offset + len < bb_offset b) ∧
    Z.of_nat (length l') + weights bits' + slack oft' + R ≤ cap.

Lemma entry_post_step b bits B r :
  entry_post bits (B ++ [bpos b]) r → entry_post (b :: bits) B r.
Proof.
  destruct r as [[[bits' last'] oft'] l']. intros (done & -> & ? & Hap & ?).
  exists (b :: done). split_and!; try tauto. rewrite fmap_cons.
  by rewrite <- (assoc_L (++)) in Hap.
Qed.

Lemma entry_length oft : 0 ≤ oft ≤ len →
  Z.of_nat (length (D0 ++ span addr oft)) = offset + oft.
Proof. intros. rewrite length_app, Nat2Z.inj_add, length_span. lia. Qed.

(** Data up to the bucket [b], then [b]: the two branches that consume one.  A
    data piece takes a slot of its own: the second one of a bucket inside the
    entry, or the one kept for the rest of the entry. *)
Lemma wp_piece_bucket {A} b bits oft last B l n (k : Z → list sgl_desc_entry → M A) Q w :
  Sorted bb_le (b :: bits) → 0 ≤ oft ≤ len → bb_offset b ≤ offset + len →
  at_pos offset oft last (b :: bits) (D0 ++ span addr oft) B l →
  Z.of_nat (length l) + weights (b :: bits) + slack oft + R ≤ cap → 0 ≤ R →
  n = bb_offset b - (offset + oft) →
  (∀ l', at_pos offset (bb_offset b - offset) (bb_offset b) bits
           (D0 ++ span addr (bb_offset b - offset)) (B ++ [bpos b]) l' →
    0 ≤ bb_offset b - offset ≤ len →
    Z.of_nat (length l') + weights bits + slack (bb_offset b - offset) + R ≤ cap →
    wp (k (bb_offset b - offset) l') Q w) →
  wp ('(sg_oft, list) ←
        (if negb (last =? bb_offset b)
         then list ← put_desc cap l (mk_sde (u64 (addr + oft)) (u32 n));
              mret (u32 (oft + u32 n), list)
         else mret (oft, l));
      list ← put_desc cap list (mk_sde 0 (bb_length b));
      k sg_oft list) Q w.
Proof.
  destruct entry_facts as ((Ha&Hl&Hal)&Ho&Hol&Hint).
  intros Hs Hoft Hend [Hsem Hlen Hlast Hbits] Hcap HR -> HQ.
  pose proof (weight_pos b) as Hw1. pose proof (weights_nonneg bits).
  rewrite weights_cons in Hcap. unfold slack in *.
  destruct (Hbits b) as [Hlt|[Heqp Hle]]; [set_solver| |].
  - rewrite (proj2 (Z.eqb_neq last _)) by lia. cbn [negb].
    rewrite (u32_small (bb_offset b - _)), (u32_small (oft + _)) by lia.
    assert (Z.of_nat (length l) + 1 + weights bits +
      (if bb_offset b - offset <? len then 1 else 0) + R < cap) as Hcap'.
    { rewrite (proj2 (Z.ltb_lt oft len)) in Hcap by lia.
      destruct (Z.ltb_spec (bb_offset b - offset) len); [|lia].
      rewrite Hint in Hcap by lia. lia. }
    pose proof (if_true_le (bb_offset b - offset <? len)).
    apply wp_bind, wp_bind, wp_put_desc; [lia|]. apply wp_ret.
    replace (oft + (bb_offset b - (offset + oft))) with (bb_offset b - offset) by lia.
    apply wp_bind, wp_put_desc; [rewrite length_app; simpl; lia|].
    apply HQ; [|lia|rewrite !length_app; simpl; lia].
    apply at_pos_bucket; [done| |rewrite entry_length; lia|lia].
    rewrite (sem_piece _ D0 B) by (done || lia). do 3 f_equal. lia.
  - rewrite Hle, Z.eqb_refl. cbn [negb].
    pose proof (if_true_le (oft <? len)).
    apply wp_bind, wp_ret, wp_bind, wp_put_desc; [lia|].
    replace oft with (bb_offset b - offset) in * by lia.
    apply HQ; [|lia|rewrite length_app; simpl; lia].
    apply at_pos_bucket; [done|done|rewrite entry_length; lia|lia].
Qed.

Lemma wp_sge_buckets bits oft last B l w :
  bits_ok bits → 0 ≤ oft ≤ len →
  at_pos offset oft last bits (D0 ++ span addr oft) B l →
  Z.of_nat (length l) + weights bits + slack oft + R ≤ cap → 0 ≤ R →
  wp (sge_buckets cap bits offset addr len oft last l)
    (λ r w', w' = w ∧ entry_post bits B r) w.
Proof.
  destruct entry_facts as ((Ha&Hl&Hal)&Ho&Hol&Hint).
  revert oft last B l.
  induction bits as [|b bits IH]; intros oft last B l [Hs Hf] Hoft Hap Hcap HR;
    cbn [sge_buckets].
  { apply wp_ret. split; [done|]. exists []. split_and!; try done; try lia.
    by rewrite app_nil_r. }
  apply Forall_cons in Hf as [Hb Hf].
  rewrite (u32_small (offset + len)) by lia.
  assert (bits_ok bits) as Hok by (split; [by apply Sorted_inv in Hs as [? _]|done]).
  assert (∀ l', at_pos offset (bb_offset b - offset) (bb_offset b) bits
           (D0 ++ span addr (bb_offset b - offset)) (B ++ [bpos b]) l' →
    0 ≤ bb_offset b - offset ≤ len →
    Z.of_nat (length l') + weights bits + slack (bb_offset b - offset) + R ≤ cap →
    wp (sge_buckets cap bits offset addr len (bb_offset b - offset) (bb_offset b) l')
      (λ r w', w' = w ∧ entry_post (b :: bits) B r) w) as Hnext.
  { intros l' ???. eapply wp_mono; [by apply IH|].
    intros r w' [-> ?]. split; [done|]. by apply entry_post_step. }
  destruct (Z.ltb_spec (bb_offset b) (offset + len)) as [Hlt|Hge].
  { eapply wp_piece_bucket; try done; lia. }
  destruct (Z.eqb_spec (bb_offset b) (offset + len)) as [He|Hne].
  { eapply wp_piece_bucket; try done; lia. }
  assert (∀ b', b' ∈ b :: bits → offset + len < bb_offset b') as Hbeh.
  { intros b' Hin. apply Sorted_StronglySorted in Hs; [|intros ???; unfold bb_le; lia].
    apply StronglySorted_inv in Hs as [_ Hs]. rewrite Forall_forall in Hs.
    apply elem_of_cons in Hin as [->|Hin]; [lia|].
    specialize (Hs b' Hin). unfold bb_le in Hs. lia. }
  destruct Hap as [Hsem Hlen Hlast Hbits]. rewrite !u32_small by lia.
  pose proof (weights_nonneg (b :: bits)).
  destruct (Z.ltb_spec 0 (len - oft)).
  - assert (slack oft = 1) as Hsl by (unfold slack; by rewrite (proj2 (Z.ltb_lt _ _)) by lia).
    apply wp_bind, wp_bind, wp_put_desc; [lia|]. do 2 apply wp_ret. split; [done|].
    replace (oft + (len - oft)) with len by lia.
    exists []. split_and!; try done; try lia.
    + rewrite app_nil_r. split; [|rewrite entry_length; lia|lia|intros b' ?; left; by apply Hbeh].
      rewrite (sem_piece _ D0 B) by (done || lia). do 3 f_equal. lia.
    + rewrite length_app. simpl. unfold slack in *. rewrite Z.ltb_irrefl. lia.
  - apply wp_bind, wp_ret, wp_ret. split; [done|]. exists []. change (bpos <$> []) with (@nil (Z * Z)).
    rewrite app_nil_r. split_and!; try done; try lia. intros _. split; [lia|done].
Qed.
End entry.

(** ** The whole array *)

Definition sg_data (l : list scatterlist) : list Z :=
  l ≫= λ s, span (sg_dma_address s) (sg_dma_len s).

Lemma length_sg_data l : Forall seg_ok l → Z.of_nat (length (sg_data l)) = total l.
Proof.
  induction 1 as [|s l (?&?&?) Hl IH]; [done|].
  change (sg_data (s :: l)) with (span (sg_dma_address s) (sg_dma_len s) ++ sg_data l).
  rewrite length_app, Nat2Z.inj_add, length_span, IH, total_cons. lia.
Qed.

(** Between two entries of the scatterlist. *)
Record between (pre : list scatterlist) (last : Z) (bits : list nvme_sgl_bit_bucket)
    (B : list (Z * Z)) (l : list sgl_desc_entry) : Prop := {
  bw_sem : sem l = (sg_data pre, B);
  bw_last : last ≤ total pre;
  bw_bits : ∀ b, b ∈ bits → total pre < bb_offset b }.

Lemma bits_ok_app done bits : bits_ok (done ++ bits) → bits_ok bits.
Proof.
  intros [Hs Hf]. apply Forall_app in Hf as [_ Hf]. split; [|done].
  induction done; [done|]. apply IHdone. by apply Sorted_inv in Hs as [? _].
Qed.

Lemma sg_data_snoc pre s :
  sg_data (pre ++ [s]) = sg_data pre ++ span (sg_dma_address s) (sg_dma_len s).
Proof. unfold sg_data. rewrite bind_app. simpl. by rewrite app_nil_r. Qed.
Lemma total_snoc pre s : total (pre ++ [s]) = total pre + sg_dma_len s.
Proof. unfold total. rewrite fmap_app, sumZ_app. simpl. unfold sumZ. simpl. lia. Qed.

(** One entry of the scatterlist: its buckets, then what is left of it. *)
Lemma wp_sg_entry {A} pre s sgs bits last B l (k : list nvme_sgl_bit_bucket → Z → list sgl_desc_entry → M A)
    (Φ : A → world → Prop) w :
  all = pre ++ s :: sgs → bits_ok bits → between pre last bits B l →
  Z.of_nat (length l) + weights bits + Z.of_nat (S (length sgs)) ≤ cap →
  (∀ done bits' last' l', bits = done ++ bits' → between (pre ++ [s]) last' bits' (B ++ (bpos <$> done)) l' →
    Z.of_nat (length l') + weights bits' + Z.of_nat (length sgs) ≤ cap → wp (k bits' last' l') Φ w) →
  wp ('(bits, last, sg_oft, list) ←
        sge_buckets cap bits (total pre) (sg_dma_address s) (sg_dma_len s) 0 last l;
      list ← (match bits with
              | [] => if 0 <? u32 (sg_dma_len s - sg_oft)
                      then put_desc cap list
                             (mk_sde (u64 (sg_dma_address s + sg_oft)) (u32 (sg_dma_len s - sg_oft)))
                      else mret list
              | _ :: _ => mret list
              end);
      k bits last list) Φ w.
Proof.
  intros Heq Hok [Hsem Hlast Hbits] Hcap Hgo. pose proof Hall as Hf. rewrite Heq in Hf.
  apply Forall_app in Hf as [Hpre _]. destruct (entry_facts pre sgs s Heq) as ((Ha&Hl&Hal)&Ho&Hol&_).
  apply wp_bind. eapply wp_mono.
  { apply (wp_sge_buckets pre sgs s (Z.of_nat (length sgs)) (sg_data pre) Heq
      (length_sg_data _ Hpre) bits 0 last B l); [done|lia| |unfold slack|lia].
    - split.
      + rewrite Hsem. unfold span. simpl. by rewrite app_nil_r.
      + rewrite length_app, Nat2Z.inj_add, length_sg_data, length_span by done. lia.
      + lia.
      + intros b Hb. specialize (Hbits b Hb). lia.
    - destruct (_ <? _); lia. }
  intros [[[bits' last'] oft'] l'] w' [-> (done & -> & Hoft & [Hsem' Hlen' Hlast' Hb'] & Hne & Hc)].
  unfold slack in Hc.
  assert (∀ l'', sem l'' = (sg_data (pre ++ [s]), B ++ (bpos <$> done)) →
    Z.of_nat (length l'') + weights bits' + Z.of_nat (length sgs) ≤ cap →
    (∀ b, b ∈ bits' → total (pre ++ [s]) < bb_offset b) → wp (k bits' last' l'') Φ w) as Hdone.
  { intros l'' Hs'' Hc'' Hb''. apply (Hgo done); [done| |done]. split; [done|rewrite total_snoc; lia|done]. }
  rewrite sg_data_snoc, total_snoc in Hdone. destruct bits' as [|b bits'].
  - destruct (Z.ltb_spec 0 (sg_dma_len s - oft')) as [Hlt|Hge].
    + rewrite (u32_small (sg_dma_len s - oft')), (proj2 (Z.ltb_lt _ _)) by lia.
      rewrite (proj2 (Z.ltb_lt _ _)) in Hc by lia.
      apply wp_bind, wp_put_desc; [change (weights []) with 0 in Hc; lia|].
      apply Hdone; [|rewrite length_app; simpl; lia|set_solver].
      rewrite (sem_piece _ (sg_data pre) (B ++ (bpos <$> done))) by (done || lia). do 3 f_equal. lia.
    + assert (oft' = sg_dma_len s) as -> by lia. rewrite Z.sub_diag. apply wp_bind, wp_ret.
      rewrite Z.ltb_irrefl in Hc. apply Hdone; [done|lia|set_solver].
  - destruct (Hne ltac:(done)) as [-> Hstrict]. rewrite Z.ltb_irrefl in Hc.
    apply wp_bind, wp_ret, Hdone; [done|lia|done].
Qed.

Lemma wp_sg_loop sgs : ∀ pre bits last B l w,
  all = pre ++ sgs → bits_ok bits → between pre last bits B l →
  Z.of_nat (length l) + weights bits + Z.of_nat (length sgs) ≤ cap →
  wp (sg_loop cap sgs bits (total pre) last l)
    (λ r w', w' = w ∧ ∃ done, bits = done ++ r.1 ∧
      sem r.2 = (sg_data all, B ++ (bpos <$> done)) ∧
      (∀ b, b ∈ r.1 → total all < bb_offset b) ∧
      Z.of_nat (length r.2) + weights r.1 ≤ cap) w.
Proof.
  induction sgs as [|s sgs IH]; intros pre bits last B l w Heq Hok Hbw Hcap; cbn [sg_loop].
  { destruct Hbw. apply wp_ret. split; [done|]. rewrite app_nil_r in Heq. exists [].
    change (bpos <$> []) with (@nil (Z * Z)). rewrite app_nil_r, Heq. simpl in *.
    split_and!; try done; lia. }
  destruct (entry_facts pre sgs s Heq) as ((Ha&Hl&Hal)&Ho&Hol&_). rewrite u32_small by lia.
  apply (wp_sg_entry pre s sgs bits last B l (λ bits last l, sg_loop cap sgs bits (total pre + sg_dma_len s) last l));
    [done..|]. intros done bits' last' l' -> Hbw' Hc'. rewrite <- total_snoc. eapply wp_mono.
  { apply (IH (pre ++ [s]) bits' last' (B ++ (bpos <$> done)) l'); [by rewrite <- (assoc_L (++))|by eapply bits_ok_app|done|done]. }
  intros r w' (-> & done' & -> & Hs' & ?). split; [done|]. exists (done ++ done').
  rewrite (assoc_L (++)). split_and!; try tauto. rewrite Hs'. by rewrite fmap_app, (assoc_L (++)).
Qed.

Lemma wp_lead_buckets R bits : 0 ≤ R → ∀ B l w,
  bits_ok bits → sem l = ([], B) → Z.of_nat (length l) + weights bits + R ≤ cap →
  wp (lead_buckets cap bits 0 l)
    (λ r w', w' = w ∧ ∃ done, bits = done ++ r.1.1 ∧
      between [] r.1.2 r.1.1 (B ++ (bpos <$> done)) r.2 ∧
      Z.of_nat (length r.2) + weights r.1.1 + R ≤ cap) w.
Proof.
  intros HR. induction bits as [|b bits IH]; intros B l w Hok Hsem Hcap; cbn [lead_buckets].
  { apply wp_ret. split; [done|]. exists []. split_and!; [done| |done].
    split; [by rewrite app_nil_r|done|set_solver]. }
  pose proof Hok as [Hs Hf]. apply Forall_cons in Hf as [Hb _].
  destruct (Z.ltb_spec 0 (bb_offset b)) as [Hlt|Hge].
  - apply wp_ret. split; [done|]. exists []. split_and!; [done| |done].
    split; [by rewrite app_nil_r|done|]. intros b' Hin. simpl in Hin.
    apply Sorted_StronglySorted in Hs; [|intros ???; unfold bb_le; lia].
    apply StronglySorted_inv in Hs as [_ Hs]. rewrite Forall_forall in Hs.
    change (total []) with 0. apply elem_of_cons in Hin as [->|Hin]; [done|].
    specialize (Hs b' Hin). unfold bb_le in Hs. lia.
  - rewrite weights_cons in Hcap. pose proof (weight_pos b). pose proof (weights_nonneg bits).
    apply wp_bind, wp_put_desc; [lia|]. assert (bb_offset b = 0) as Hb0 by lia.
    rewrite Hb0. eapply wp_mono.
    { apply (IH (B ++ [bpos b])); [by apply (bits_ok_app [b])| |].
      - rewrite (sem_bucket _ _ _ _ Hsem). unfold bpos. by rewrite Hb0.
      - rewrite length_app. simpl. lia. }
    intros r w' (-> & done & -> & Hbw & Hc). split; [done|]. exists (b :: done).
    rewrite fmap_cons. split_and!; [done| |done]. by rewrite <- (assoc_L (++)) in Hbw.
Qed.

Lemma wp_trail_buckets bits : ∀ D B l w,
  sem l = (D, B) → Z.of_nat (length l) + weights bits ≤ cap →
  wp (trail_buckets cap bits l)
    (λ l' w', w' = w ∧ Z.of_nat (length l') ≤ cap ∧
      sem l' = (D, B ++ ((λ b, (Z.of_nat (length D), bb_length b)) <$> bits))) w.
Proof.
  induction bits as [|b bits IH]; intros D B l w Hsem Hcap; cbn [trail_buckets].
  { apply wp_ret. rewrite app_nil_r. change (weights []) with 0 in Hcap.
    split_and!; [done|lia|done]. }
  rewrite weights_cons in Hcap. pose proof (weight_pos b). pose proof (weights_nonneg bits).
  apply wp_bind, wp_put_desc; [lia|]. eapply wp_mono.
  { eapply IH; [by apply sem_bucket|]. rewrite length_app. simpl. lia. }
  intros l' w' (-> & Hc & Hs). split_and!; [done|done|]. rewrite Hs, fmap_cons.
  by rewrite <- (assoc_L (++)).
Qed.

(** Where a bucket lands: at its offset, or behind all data. *)
Definition landing (b : nvme_sgl_bit_bucket) : Z * Z :=
  (Z.min (bb_offset b) (total all), bb_length b).

Lemma wp_fill_desc_list bits w :
  bits_ok bits → cap = weights bits + Z.of_nat (length all) →
  wp (fill_desc_list all bits cap)
    (λ l w', w' = w ∧ Z.of_nat (length l) ≤ cap ∧
             sem l = (sg_data all, landing <$> bits)) w.
Proof.
  intros Hok Hcap. unfold fill_desc_list. apply wp_bind. eapply wp_mono.
  { apply (wp_lead_buckets (Z.of_nat (length all)) bits ltac:(lia) [] []);
      [done|done|simpl; lia]. }
  intros [[bits1 last] l1] w' (-> & done1 & -> & Hbw & Hc1). apply wp_bind.
  cbn [fst snd] in *. eapply wp_mono.
  { apply (wp_sg_loop all []); [done|by eapply bits_ok_app|exact Hbw|lia]. }
  intros [bits2 l2] w' (-> & done2 & -> & Hsem & Hrest & Hc2). cbn [fst snd] in *.
  pose proof (sem_positions l2) as Hpos. rewrite Hsem in Hpos. cbn [fst snd] in Hpos.
  rewrite length_sg_data in Hpos by done.
  eapply wp_mono; [by apply wp_trail_buckets|]. intros l w' (-> & Hc & Hs).
  split_and!; [done|done|]. rewrite Hs. f_equal.
  rewrite !fmap_app, app_nil_l, (assoc_L (++)), <- !fmap_app.
  rewrite app_nil_l, <- fmap_app in Hpos. rewrite (fmap_app landing). f_equal.
  - apply list_fmap_ext. intros i b Hb.
    unfold landing, bpos. f_equal. symmetry. apply Z.min_l.
    rewrite Forall_fmap, Forall_forall in Hpos. apply (Hpos b).
    by eapply list_elem_of_lookup_2.
  - apply list_fmap_ext. intros i b Hb. unfold landing. f_equal.
    rewrite length_sg_data by done. symmetry. apply Z.min_r.
    apply Z.lt_le_incl, Hrest. by eapply list_elem_of_lookup_2.
Qed.
End buckets.

Lemma foldl_weights all l n :
  foldl (λ num b, if at_boundary (bb_offset b) 0 all then num + 1 else num + 2) n l =
  n + weights all l.
Proof.
  revert n. induction l as [|b l IH]; intros n; simpl; [by rewrite Z.add_0_r|].
  rewrite IH, weights_cons. unfold weight. destruct (at_boundary _ _ _); lia.
Qed.

(** The count is what the array needs at most. *)
Lemma count_weights sgs bits :
  dnvme_count_sgl_desc_num sgs bits = weights sgs bits + Z.of_nat (length sgs).
Proof. unfold dnvme_count_sgl_desc_num. by rewrite foldl_weights. Qed.

(** ** The chain of segments *)

(** Data descriptors per page: [NVME_SGES_PER_PAGE - 1]. *)
Abbreviation SPP := 255 (only parsing).

Definition desc_of (e : sgl_desc_entry) : nvme_sgl_desc :=
  if negb (sde_addr e =? 0) then dnvme_sgl_set_data' (sde_addr e) (sde_length e)
  else dnvme_sgl_set_bit_bucket sgl_desc_zero (sde_length e).

(** The descriptors a controller finds from the segment descriptor [d]; the last
    descriptor of a segment that is not the last describes the next segment. *)
Fixpoint sgl_walk (fuel : nat) (mem : Z → option (list nvme_sgl_desc))
    (d : nvme_sgl_desc) : option (list nvme_sgl_desc) :=
  match fuel with
  | O => None
  | S fuel =>
    page ← mem (sge_addr d);
    let n := sge_length d / SGL_DESC_SIZE in
    if sge_type d =? Z.shiftl NVME_SGL_TYPE_LAST_SEG_DESC 4
    then Some (take (Z.to_nat n) page)
    else if sge_type d =? Z.shiftl NVME_SGL_TYPE_SEG_DESC 4
    then
      next ← page !! Z.to_nat (n - 1);
      rest ← sgl_walk fuel mem next;
      Some (take (Z.to_nat (n - 1)) page ++ rest)
    else None
  end.

Section chain.
Context (cs : list nvme_sgl_desc) (dmas : list Z) (np : Z).
Local Abbreviation N := (Z.of_nat (length cs)).
Context (Hdmas : Z.of_nat (length dmas) = np) (HN : 0 < N) (Hnp : N ≤ SPP * np).
Context (HN31 : N < 2 ^ 28).

Definition seg_link (j : Z) : nvme_sgl_desc :=
  dnvme_sgl_set_seg (next_page dmas j) (N - SPP * (j + 1)).
Definition sgl_table (j k : Z) : list (list nvme_sgl_desc) :=
  paged SPP sgl_desc_zero cs seg_link np j k.

Lemma sgl_fill_data rest : ∀ fuel j k w,
  0 ≤ j → 0 ≤ k ≤ SPP → rest ≠ [] →
  (∀ i, cs !! (Z.to_nat (SPP * j + k) + i)%nat = (desc_of <$> rest) !! i) →
  SPP * j + k + Z.of_nat (length rest) = N → (2 * length rest ≤ fuel)%nat →
  sgl_fill fuel dmas j k rest (sgl_table j k) w =
  Val (paged_final SPP sgl_desc_zero cs seg_link np) w.
Proof.
  induction rest as [|e rest IH]; intros fuel j k w Hj Hk Hne Hcs Hlen Hf; [done|].
  assert (Hgo : ∀ fuel j k, 0 ≤ j → 0 ≤ k < SPP →
    (∀ i, cs !! (Z.to_nat (SPP * j + k) + i)%nat = (desc_of <$> e :: rest) !! i) →
    SPP * j + k + Z.of_nat (length (e :: rest)) = N →
    (1 + 2 * length rest ≤ fuel)%nat →
    sgl_fill fuel dmas j k (e :: rest) (sgl_table j k) w =
    Val (paged_final SPP sgl_desc_zero cs seg_link np) w).
  { clear Hcs Hlen Hf Hj Hk j k fuel. intros fuel j k Hj Hk Hcs Hlen Hf.
    destruct fuel as [|fuel]; [lia|]. cbn [sgl_fill].
    change (NVME_SGES_PER_PAGE - 1) with 255.
    rewrite (proj2 (Z.eqb_neq k 255)) by lia. fold (desc_of e).
    unfold mbind, M_bind, sgl_table. cbn [length] in Hlen.
    rewrite (set_entry SPP sgl_desc_zero cs seg_link np ltac:(lia) j k (desc_of e)); [|lia|lia|].
    2:{ specialize (Hcs O). by rewrite Nat.add_0_r in Hcs. }
    destruct rest as [|e' rest'].
    - cbn [sgl_fill]. unfold mret, M_ret, paged_final. simpl in Hlen.
      destruct (last_index SPP N j k) as [-> ->]; [lia|lia|]. by destruct fuel.
    - apply IH; [lia|lia|done|by apply (suffix_step _ _ _ _ _ Hcs); nia| |].
      + rewrite Nat2Z.inj_succ in Hlen. lia.
      + lia. }
  cbn [length] in Hf. destruct (decide (k = SPP)) as [->|]; [|apply Hgo; try done; lia].
  destruct fuel as [|fuel]; [lia|]. cbn [sgl_fill].
  change (NVME_SGES_PER_PAGE - 1) with 255. rewrite Z.eqb_refl.
  assert (get_dma dmas (j + 1) w = Val (next_page dmas j) w) as Hd.
  { unfold get_dma, next_page. destruct (dmas !! Z.to_nat (j + 1)) eqn:Hd.
    - by rewrite (proj2 (Z.leb_le 0 (j + 1))) by lia.
    - apply lookup_ge_None in Hd. cbn [length] in *. lia. }
  unfold mbind, M_bind. rewrite Hd.
  replace (Z.of_nat (length (e :: rest))) with (N - SPP * (j + 1)) by lia.
  fold (seg_link j). unfold sgl_table.
  rewrite set_link by (cbn [length] in *; lia). apply Hgo; try done; try lia.
  - intros i. rewrite <- Hcs. f_equal. lia.
Qed.

Definition seg_mem (a : Z) : option (list nvme_sgl_desc) :=
  '(i, _) ← list_find (eq a) dmas; paged_final SPP sgl_desc_zero cs seg_link np !! i.

Context (Hdist : NoDup dmas) (Hrange : Forall (λ d, 0 ≤ d < 2 ^ 64) dmas).

Lemma seg_mem_page j d :
  0 ≤ j → dmas !! Z.to_nat j = Some d →
  seg_mem d = Some (paged_row SPP sgl_desc_zero cs seg_link j <$> seqZ 0 256).
Proof.
  intros Hj Hd. unfold seg_mem.
  assert (list_find (eq d) dmas = Some (Z.to_nat j, d)) as ->.
  { apply list_find_Some. split_and!; [done|done|]. intros i y Hi Hlt ->.
    pose proof (NoDup_lookup _ _ _ _ Hdist Hi Hd). lia. }
  apply lookup_lt_Some in Hd. apply paged_final_lookup. lia.
Qed.

(** The segment that starts in page [j] and holds the rest of the list. *)
Lemma sgl_walk_chain fuel j d :
  0 ≤ j → SPP * j < N → (N - 1) / SPP - j < Z.of_nat fuel →
  dmas !! Z.to_nat j = Some d →
  sgl_walk fuel seg_mem (dnvme_sgl_set_seg d (N - SPP * j)) =
  Some (drop (Z.to_nat (SPP * j)) cs).
Proof.
  pose proof (Z.div_mod (N - 1) SPP ltac:(lia)) as Hdm.
  pose proof (Z.mod_pos_bound (N - 1) SPP ltac:(lia)) as Hmb.
  revert j d. induction fuel as [|fuel IH]; intros j d Hj Hjn Hf Hd.
  { assert (j ≤ (N - 1) / SPP) by (apply Z.div_le_lower_bound; lia). lia. }
  pose proof (Forall_lookup_1 _ _ _ _ Hrange Hd) as Hdr.
  unfold dnvme_sgl_set_seg. rewrite (u64_small (N - _)), (u64_small d) by (done || lia).
  change NVME_SGES_PER_PAGE with 256. cbn [sgl_walk].
  destruct (Z.ltb_spec (N - SPP * j) 256) as [Hlt|Hge]; cbn [sge_addr sge_length sge_type];
    rewrite (seg_mem_page j d) by done; cbn [mbind option_bind].
  - rewrite Z.eqb_refl. unfold SGL_DESC_SIZE. rewrite u32_small, Z.div_mul by lia.
    rewrite take_row, row_data by lia. f_equal.
    apply take_ge. rewrite length_drop. lia.
  - change (PAGE_SIZE / SGL_DESC_SIZE) with 256. change (256 - 1) with 255.
    rewrite list_lookup_fmap, lookup_seqZ_lt by lia.
    cbn [fmap option_fmap option_map mbind option_bind].
    rewrite Z2Nat.id, Z.add_0_l by lia.
    rewrite row_link by lia. unfold seg_link.
    destruct (dmas !! Z.to_nat (j + 1)) as [d'|] eqn:Hd';
      [|apply lookup_ge_None in Hd'; lia].
    replace (next_page dmas j) with d' by (unfold next_page; by rewrite Hd').
    rewrite (IH (j + 1) d') by (done || lia). cbn [mbind option_bind].
    change (_ =? _) with false at 1. cbv iota. rewrite Z.eqb_refl.
    rewrite take_row, row_data by lia. f_equal.
    rewrite <- (take_drop (Z.to_nat SPP) (drop (Z.to_nat (SPP * j)) cs)) at 2.
    rewrite drop_drop. do 2 f_equal. lia.
Qed.
End chain.

(** ** [dnvme_cmd_setup_sgl] *)

(** The descriptor in [dptr]. *)
Definition ccmd_sgl (c : list Z) : option nvme_sgl_desc :=
  a ← load_le 8 c 24; n ← load_le 4 c 32; t ← load_le 1 c 39;
  Some (mk_sgl_desc a n t).

Definition prps_seg_mem (prps : nvme_prps) (a : Z) : option (list nvme_sgl_desc) :=
  match prp_list prps with
  | PP_sgl pages => '(i, _) ← list_find (eq a) (pg_addr prps); pages !! i
  | _ => None
  end.

(** What the controller reads from the command [c]. *)
Definition sgl_decode (c : list Z) (prps : nvme_prps) : option (list nvme_sgl_desc) :=
  d ← ccmd_sgl c;
  if sge_type d =? Z.shiftl NVME_SGL_TYPE_DATA_DESC 4 then Some [d]
  else sgl_walk (S (length (pg_addr prps))) (prps_seg_mem prps) d.

Definition sgl_desc_ok (d : nvme_sgl_desc) : Prop :=
  0 ≤ sge_addr d < 2 ^ 64 ∧ 0 ≤ sge_length d < 2 ^ 32 ∧ 0 ≤ sge_type d < 2 ^ 8.

Lemma set_seg_ok d n : sgl_desc_ok (dnvme_sgl_set_seg d n).
Proof.
  unfold sgl_desc_ok, dnvme_sgl_set_seg. pose proof (u64_range d).
  pose proof (u32_range (n * SGL_DESC_SIZE)).
  destruct (_ <? _); cbn [sge_addr sge_length sge_type]; (split_and!; try lia); done.
Qed.
Lemma set_data_ok a n : sgl_desc_ok (dnvme_sgl_set_data' a n).
Proof.
  unfold sgl_desc_ok, dnvme_sgl_set_data'. pose proof (u64_range a). pose proof (u32_range n).
  cbn [sge_addr sge_length sge_type]; (split_and!; try lia); done.
Qed.

Lemma ccmd_set_sgl_ok d c :
  sgl_desc_ok d → length c = 64%nat →
  ∃ c', dptr_only c c' ∧ ccmd_sgl c' = Some d ∧ ∀ w, ccmd_set_sgl d c w = Val c' w.
Proof.
  intros (Ha & Hl & Ht) Hlen.
  destruct (ccmd_set_ok 8 24 (sge_addr d) c) as (c1 & H1 & W1); [lia|lia|].
  pose proof (length_store_bytes _ _ _ _ H1) as L1.
  destruct (ccmd_set_ok 4 32 (sge_length d) c1) as (c2 & H2 & W2); [lia|lia|].
  pose proof (length_store_bytes _ _ _ _ H2) as L2.
  destruct (ccmd_set_ok 1 39 (sge_type d) c2) as (c3 & H3 & W3); [lia|lia|].
  pose proof (length_store_bytes _ _ _ _ H3) as L3.
  exists c3. split.
  { do 2 (etrans; [eapply store_dptr; [eassumption|lia..]|]). eapply store_dptr; [exact H3|lia..]. }
  split.
  - unfold ccmd_sgl, load_le.
    rewrite (load_store_ne _ _ _ _ 24 (Z.of_nat 8) H3), (load_store_ne _ _ _ _ 24 (Z.of_nat 8) H2),
      (load_store_ne _ _ _ _ 32 (Z.of_nat 4) H3) by (rewrite length_le_bytes; lia).
    apply load_store_le in H1, H2, H3. unfold load_le in *. rewrite H1, H2, H3.
    simpl. destruct d. simpl in *. by rewrite !Z.mod_small.
  - intros w. unfold ccmd_set_sgl, mbind, M_bind. by rewrite W1, W2.
Qed.

Section setup_sgl.
Context {E : Env}.
Context (cmd : nvme_64b_cmd) (ccmd : list Z) (prps : nvme_prps).

(** The buckets as the driver works on them. *)
Definition sgl_bits : list nvme_sgl_bit_bucket :=
  if c64_nr_bit_bucket cmd =? 0 then [] else ans_sort (c64_bit_bucket cmd).
Definition sgl_count : Z := weights (sg prps) sgl_bits + Z.of_nat (length (sg prps)).

Definition sgl_post (r : Z * list Z * nvme_prps) (R : list item) : Prop :=
  let '(ret, c', p') := r in
  (ret = - ENOMEM ∨ ret = - EFAULT ∨ ret = - EPERM) ∧ R = [] ∧
    map_items p' = map_items prps ∨
  ret = 0 ∧ R ≡ₚ list_items p' ∧ map_items p' = map_items prps ∧ prps_wf p' ∧
  dptr_only ccmd c' ∧
  ∃ ents, sem ents = (sg_data (sg prps), landing (sg prps) <$> sgl_bits) ∧
    (NoDup (pg_addr p') → sgl_decode c' p' = Some (desc_of <$> ents)).

Context (Hlen : length ccmd = 64%nat) (Hlp : prp_list_ptr prps = 0).
Context (Hsg : Forall seg_ok (sg prps)) (Htot : total (sg prps) < 2 ^ 32).
Context (Hnum : num_map_pgs prps = Z.of_nat (length (sg prps))).
Context (Hne : sg prps ≠ []).
Context (Hbits : bits_ok sgl_bits) (Hcount : sgl_count < 2 ^ 28).

Lemma triple_init_desc_list :
  triple [] (dnvme_init_sgl_desc_list (sg prps) sgl_bits sgl_count)
    (λ r R, r.1 = 0 ∧ R = [] ∨
      0 < r.1 ∧ R = [Blk r.1 AK_kmalloc None] ∧ Z.of_nat (length r.2) = sgl_count ∧
      sem r.2 = (sg_data (sg prps), landing (sg prps) <$> sgl_bits)).
Proof.
  unfold dnvme_init_sgl_desc_list. tcall triple_kmalloc.
  intros p R [[-> ->]|[Hp ->]]; simpl; [apply triple_ret; by left|].
  destruct (Z.eqb_spec p 0); [lia|].
  eapply (triple_bind _ _ _ (λ l R, R = [Blk p AK_kmalloc None] ∧
     sem l = (sg_data (sg prps), landing (sg prps) <$> sgl_bits))).
  { intros X w Hw. eapply wp_mono; [by apply wp_fill_desc_list|].
    intros l w' (-> & _ & Hs). by exists [Blk p AK_kmalloc None]. }
  intros l R [-> Hs]. destruct (Z.eqb_spec (Z.of_nat (length l)) sgl_count); simpl.
  - apply triple_ret. right. done.
  - tgive (@nil item) (triple_kfree p None ltac:(lia)). intros _ R ->.
    apply triple_ret. by left.
Qed.

(** The buckets' memory, if any. *)
Definition bb_items (bp : Z) : list item :=
  if c64_nr_bit_bucket cmd =? 0 then [] else [Blk bp AK_kmalloc None].

Lemma triple_free_bit_bucket {A} bp P (k : M A) Q :
  (c64_nr_bit_bucket cmd ≠ 0 → bp ≠ 0) → triple P k Q →
  triple (bb_items bp ++ P) (free_bit_bucket (c64_nr_bit_bucket cmd) bp;; k) Q.
Proof.
  intros Hbp Hk. unfold free_bit_bucket, bb_items.
  destruct (Z.eqb_spec (c64_nr_bit_bucket cmd) 0); [exact Hk|].
  tgive P (triple_kfree bp None (Hbp ltac:(done))). by intros _ R ->.
Qed.

Lemma nr_desc_count :
  (if c64_nr_bit_bucket cmd =? 0 then num_map_pgs prps
   else u32 (dnvme_count_sgl_desc_num (sg prps) sgl_bits)) = sgl_count.
Proof.
  rewrite count_weights. fold sgl_count. unfold sgl_count, sgl_bits in *.
  pose proof (weights_nonneg (sg prps) (ans_sort (c64_bit_bucket cmd))).
  destruct (c64_nr_bit_bucket cmd =? 0); [by rewrite Hnum|].
  apply u32_small. lia.
Qed.

(** The segments, once the entries are known. *)
Lemma triple_segments ents :
  Z.of_nat (length ents) = sgl_count →
  sem ents = (sg_data (sg prps), landing (sg prps) <$> sgl_bits) →
  let nr_seg := u32 (DIV_ROUND_UP (SGL_DESC_SIZE * sgl_count) (PAGE_SIZE - SGL_DESC_SIZE)) in
  ∀ lp dp pgs, lp ≠ 0 → dp ≠ 0 → length pgs = Z.to_nat nr_seg → Forall dma_ok pgs →
  ∃ d0 c' pages, pgs.*2 !! O = Some d0 ∧
    (∀ w, ccmd_set_sgl (dnvme_sgl_set_seg d0 sgl_count) ccmd w = Val c' w) ∧
    (∀ w, sgl_fill (2 * length ents) pgs.*2 0 0 ents
       (replicate (length pgs) (replicate (Z.to_nat NVME_SGES_PER_PAGE) sgl_desc_zero)) w =
       Val pages w) ∧
    sgl_post (0, c', prps <| nr_entry := sgl_count |>
      <| prp_list_ptr := lp |> <| pg_va := pgs.*1 |> <| nr_pages := nr_seg |>
      <| pg_addr_ptr := dp |> <| pg_addr := pgs.*2 |> <| prp_list := PP_sgl pages |>)
      (pool_items (pg_pool prps) pgs.*1 ++
       [Blk dp AK_kmalloc None; Blk lp AK_kmalloc None]).
Proof.
  intros Hents Hsem nr_seg lp dp pgs Hl Hd Hpgs Hok.
  assert (0 < sgl_count) as Hpos.
  { unfold sgl_count. pose proof (weights_nonneg (sg prps) sgl_bits).
    destruct (sg prps) eqn:Hs; [done|]. simpl. lia. }
  assert (0 < nr_seg ∧ sgl_count ≤ SPP * nr_seg) as [Hseg0 Hseg].
  { unfold nr_seg, SGL_DESC_SIZE, PAGE_SIZE. change (4096 - 16) with 4080.
    destruct (DIV_ROUND_UP_spec (16 * sgl_count) 4080) as [Hb|Hb]; [lia|lia| |lia].
    rewrite u32_small by lia. lia. }
  assert (Z.of_nat (length pgs.*2) = nr_seg) as Hdm by (rewrite length_fmap; lia).
  destruct (pgs.*2 !! O) as [d0|] eqn:Hd0; [|apply lookup_ge_None in Hd0; lia].
  destruct (ccmd_set_sgl_ok (dnvme_sgl_set_seg d0 sgl_count) ccmd) as (c' & Hc' & Hcs & Hset);
    [apply set_seg_ok|done|].
  exists d0, c', (paged_final SPP sgl_desc_zero (desc_of <$> ents) (seg_link (desc_of <$> ents) pgs.*2) nr_seg).
  split; [done|]. split; [done|]. split.
  - intros w. rewrite Hpgs. change (Z.to_nat NVME_SGES_PER_PAGE) with (Z.to_nat (SPP + 1)).
    rewrite (paged_zero SPP sgl_desc_zero (desc_of <$> ents) (seg_link (desc_of <$> ents) pgs.*2)) by lia.
    apply sgl_fill_data; rewrite ?length_fmap; try done; try lia.
    destruct ents; [simpl in Hents; lia|done].
  - right. split_and!; try done.
    + unfold list_items. simpl. destruct (Z.eqb_spec lp 0); [lia|done].
    + intros _. simpl. rewrite !length_fmap in *. lia.
    + exists ents. split; [done|]. intros Hnd. simpl in Hnd.
      unfold sgl_decode. rewrite Hcs. cbn [mbind option_bind].
      replace (_ =? _) with false.
      2:{ unfold dnvme_sgl_set_seg. by destruct (_ <? _). }
      rewrite <- Hents at 1.
      change (prps_seg_mem _) with (seg_mem (desc_of <$> ents) pgs.*2 nr_seg).
      replace (Z.of_nat (length ents)) with (Z.of_nat (length (desc_of <$> ents)) - SPP * 0)
        by (rewrite length_fmap; lia).
      rewrite (sgl_walk_chain (desc_of <$> ents) pgs.*2 nr_seg) with (j := 0);
        rewrite ?length_fmap; try done; try lia.
      * rewrite Forall_fmap. eapply Forall_impl; [exact Hok|]. done.
      * simpl.
        assert ((Z.of_nat (length ents) - 1) / SPP < nr_seg)
          by (apply Z.div_lt_upper_bound; lia). lia.
Qed.

Lemma triple_single :
  num_map_pgs prps = 1 → c64_nr_bit_bucket cmd = 0 →
  triple [] (match sg prps with
             | [] => oops F_null
             | s :: _ => c ← ccmd_set_sgl (dnvme_sgl_set_data s) ccmd; mret (0, c, prps)
             end) sgl_post.
Proof.
  intros H1 H0. destruct (sg prps) as [|s [|]] eqn:Hs; [done| |simpl in Hnum; lia].
  destruct (ccmd_set_sgl_ok (dnvme_sgl_set_data s) ccmd) as (c' & Hc' & Hcs & Hset);
    [apply set_data_ok|done|].
  eapply triple_bind; [by apply (triple_pure _ _ c')|]. intros ? R [-> ->].
  apply triple_ret. right. unfold list_items. rewrite Hlp.
  split_and!; try done.
  apply Forall_singleton in Hsg as (Ha & _).
  exists [mk_sde (sg_dma_address s) (sg_dma_len s)]. split.
  - unfold sem, sem_step, sgl_bits. simpl. rewrite Hs, H0. simpl.
    rewrite (proj2 (Z.eqb_neq _ _)) by lia. unfold sg_data. simpl. by rewrite app_nil_r.
  - intros _. unfold sgl_decode. rewrite Hcs. cbn. unfold desc_of. simpl.
    by rewrite (proj2 (Z.eqb_neq _ _)) by lia.
Qed.

Lemma triple_setup_sgl : triple [] (dnvme_cmd_setup_sgl cmd ccmd prps) sgl_post.
Proof.
  unfold dnvme_cmd_setup_sgl, dnvme_sort_sgl_bit_bucket. cbv zeta. tif; intros Hone.
  { apply andb_true_iff in Hone as [?%Z.eqb_eq ?%Z.eqb_eq]. by apply triple_single. }
  clear Hone. fold sgl_bits.
  eapply (triple_bind _ _ _ (λ bp R, (c64_nr_bit_bucket cmd ≠ 0 → bp = 0) ∧ R = [] ∧
      c64_nr_bit_bucket cmd ≠ 0 ∨ (c64_nr_bit_bucket cmd ≠ 0 → bp ≠ 0) ∧ R = bb_items bp)).
  { unfold bb_items. destruct (Z.eqb_spec (c64_nr_bit_bucket cmd) 0).
    - apply triple_ret. by right.
    - eapply triple_conseq; [done|apply triple_kmalloc|].
      intros p R [[-> ->]|[? ->]]; [by left|right]. split; [lia|done]. }
  intros bp R Hbp.
  destruct (negb _ && _) eqn:Hfail.
  { apply andb_true_iff in Hfail as [Hn%negb_true_iff%Z.eqb_neq ->%Z.eqb_eq].
    destruct Hbp as [(_&->&_)|[H _]]; [|by specialize (H Hn)].
    apply triple_ret. left. tauto. }
  assert ((c64_nr_bit_bucket cmd ≠ 0 → bp ≠ 0) ∧ R = bb_items bp) as [Hbp0 ->].
  { destruct Hbp as [(H1&_&H2)|?]; [|done]. rewrite (H1 H2) in Hfail.
    rewrite (proj2 (Z.eqb_neq _ _) H2) in Hfail. done. }
  clear Hbp Hfail.
  rewrite <- (app_nil_r (bb_items bp)).
  eapply (triple_step (bb_items bp) [] _ _ _ gone); [|solve_Permutation|].
  { destruct (_ =? _); [by apply triple_ret|apply triple_copy_from_user]. }
  intros ok R ->. rewrite app_nil_l, <- (app_nil_r (bb_items bp)).
  tif; intros _.
  { apply triple_free_bit_bucket; [done|]. apply triple_ret. left. tauto. }
  rewrite nr_desc_count.
  eapply (triple_step (bb_items bp)); [apply triple_init_desc_list|solve_Permutation|].
  intros [lp ents] R [[Hlp0 ->]|(Hlp0 & -> & Hents & Hsem)]; cbn [fst snd] in *.
  { subst lp. simpl. rewrite <- (app_nil_r (bb_items bp)).
    apply triple_free_bit_bucket; [done|]. apply triple_ret. left. tauto. }
  destruct (Z.eqb_spec lp 0); [lia|].
  tcall triple_alloc_list. unfold dnvme_deinit_sgl_desc_list.
  intros o R [[-> ->]|(ap & dp & pgs & -> & Hap & Hdp & Hpgs & Hok & HR)].
  { tgive (bb_items bp ++ []) (triple_kfree lp None ltac:(done)). intros _ R ->. simpl.
    apply triple_free_bit_bucket; [done|]. apply triple_ret. left. tauto. }
  destruct (triple_segments ents Hents Hsem ap dp pgs Hap Hdp Hpgs Hok)
    as (d0 & c' & pages & Hd0 & Hset & Hfill & Hpost).
  eapply triple_bind; [apply (triple_pure _ _ d0); intros w; unfold get_dma;
    change (Z.to_nat 0) with O; by rewrite Hd0|]. intros ? R' [-> ->].
  eapply triple_bind; [by apply (triple_pure _ _ c')|]. intros ? R' [-> ->].
  eapply triple_bind; [by apply (triple_pure _ _ pages)|]. intros ? R' [-> ->].
  tgive (bb_items bp ++ R) (triple_kfree lp None ltac:(done)). intros _ R' ->. simpl.
  apply triple_free_bit_bucket; [done|]. eapply triple_perm; [exact HR|].
  by apply triple_ret.
Qed.
End setup_sgl.

(** ** Claims *)

Section sgl_claims.
Context {E : Env}.

(** C19. SGL construction is correct: for a mapped buffer and any request of bit
    buckets, [dnvme_cmd_setup_sgl] never faults — in particular the entry array
    sized by [dnvme_count_sgl_desc_num] is never overrun and the segment pages
    are never left — and gives back every temporary.  It either fails with
    -ENOMEM/-EFAULT/-EPERM owning nothing, or returns 0 owning exactly the segment
    pages, and a controller that follows the chain from the descriptor in the
    command reads a list of descriptors whose data bytes are the buffer in order
    and whose bit buckets sit at the requested offsets. *)
Theorem sgl_setup_describes_buffer cmd ccmd prps
    (Hsort : ∀ l, ans_sort l ≡ₚ l ∧ Sorted bb_le (ans_sort l))
    (Hoffs : Forall (λ b, 0 ≤ bb_offset b < 2 ^ 32) (c64_bit_bucket cmd))
    (Hlen : length ccmd = 64%nat) (Hlp : prp_list_ptr prps = 0)
    (Hsg : Forall seg_ok (sg prps)) (Htot : total (sg prps) < 2 ^ 32)
    (Hnum : num_map_pgs prps = Z.of_nat (length (sg prps))) (Hne : sg prps ≠ [])
    (Hcount : sgl_count cmd prps < 2 ^ 28) :
  triple [] (dnvme_cmd_setup_sgl cmd ccmd prps)
    (λ '(ret, c', p') R,
      (ret = - ENOMEM ∨ ret = - EFAULT ∨ ret = - EPERM) ∧ R = [] ∨
      ret = 0 ∧ R ≡ₚ list_items p' ∧
      ∃ ents, sem ents = (sg_data (sg prps), landing (sg prps) <$> sgl_bits cmd) ∧
        (NoDup (pg_addr p') → sgl_decode c' p' = Some (desc_of <$> ents))).
Proof.
  eapply triple_conseq; [done|apply triple_setup_sgl; try done|].
  - unfold sgl_bits. destruct (_ =? _); [by split; constructor|].
    destruct (Hsort (c64_bit_bucket cmd)) as [Hp Hs]. split; [done|]. by rewrite Hp.
  - intros [[ret c'] p'] R [(Hr & -> & _)|(-> & HR & _ & _ & _ & Hd)]; [by left|by right].
Qed.

(** Two bit buckets at the same offset inside a segment are counted as two
    splits of it but split it once, so the filled array is shorter than the
    count and the request is refused ([dnvme_init_sgl_desc_list] returns NULL,
    which becomes -EPERM). *)
Theorem duplicate_bucket_refused s o n1 n2 w
    (Hs : seg_ok s) (Ho : 0 < o < sg_dma_len s) (Hl : sg_dma_len s < 2 ^ 32) :
  let bits := [mk_bit_bucket o n1; mk_bit_bucket o n2] in
  wp (dnvme_init_sgl_desc_list [s] bits (dnvme_count_sgl_desc_num [s] bits))
    (λ r w', r = (0, []) ∧ w_heap w' = w_heap w) w.
Proof.
  intros bits. destruct Hs as (Ha & Hn & Hal).
  assert (dnvme_count_sgl_desc_num [s] bits = 5) as ->.
  { unfold dnvme_count_sgl_desc_num. simpl. rewrite Z.add_0_l, u32_small by lia.
    rewrite !(proj2 (Z.eqb_neq _ _)) by lia. done. }
  assert (∀ w, wp (fill_desc_list [s] bits 5) (λ l w', w' = w ∧ length l = 4%nat) w) as Hfill.
  { clear w. intros w. unfold fill_desc_list, bits.
    cbn [lead_buckets sg_loop sge_buckets trail_buckets bb_offset bb_length].
    rewrite (proj2 (Z.ltb_lt 0 o)) by lia. apply wp_bind, wp_ret, wp_bind, wp_bind.
    cbn [sge_buckets bb_offset bb_length].
    rewrite !Z.add_0_l, (u32_small (sg_dma_len s)), (u32_small (o - 0)) by lia.
    rewrite Z.sub_0_r, (u32_small o), Z.eqb_refl by lia.
    rewrite (proj2 (Z.ltb_lt o _)), (proj2 (Z.eqb_neq 0 o)) by lia. cbn [negb].
    apply wp_bind, wp_bind, wp_put_desc; [done|].
    apply wp_ret, wp_bind, wp_put_desc; [done|].
    apply wp_bind, wp_ret, wp_bind, wp_put_desc; [done|]. apply wp_ret, wp_bind.
    rewrite (u32_small (sg_dma_len s - o)), (proj2 (Z.ltb_lt 0 _)) by lia.
    apply wp_put_desc; [done|]. do 2 apply wp_ret. done. }
  unfold dnvme_init_sgl_desc_list. apply wp_bind, wp_kmalloc; [by apply wp_ret|].
  intros p Hp Hnone. destruct (Z.eqb_spec p 0); [lia|].
  apply wp_bind. eapply wp_mono; [apply Hfill|]. intros l w' [-> Hl4].
  rewrite Hl4. apply wp_bind, wp_kfree. left. split_and!; [|apply wp_ret|done].
  - eexists. simpl. by rewrite lookup_insert_eq.
  - split; [done|]. simpl. by rewrite delete_insert_id.
Qed.
End sgl_claims.

(** *** Witnesses *)

#[export] Instance bb_le_total : Total bb_le.
Proof. intros a b. unfold bb_le. lia. Qed.

Lemma demo_sort_ok l : @ans_sort demo_env l ≡ₚ l ∧ Sorted bb_le (@ans_sort demo_env l).
Proof. split; [apply merge_sort_Permutation|apply (Sorted_merge_sort bb_le)]. Qed.

(** Two pages with a bucket of 512 bytes after the first 16 bytes. *)
Lemma sgl_setup_describes_buffer_witness :
  let cmd := demo_cmd <| c64_nr_bit_bucket := 1 |>
                      <| c64_bit_bucket := [mk_bit_bucket 16 512] |> in
  let prps := demo_prps [mk_sg 0x100000 4096; mk_sg 0x200000 4096] 8192 in
  triple [] (dnvme_cmd_setup_sgl (E := demo_env) cmd demo_ccmd prps)
    (λ '(ret, c', p') R,
      (ret = - ENOMEM ∨ ret = - EFAULT ∨ ret = - EPERM) ∧ R = [] ∨
      ret = 0 ∧ R ≡ₚ list_items p' ∧
      ∃ ents, sem ents = (sg_data (sg prps),
                          landing (sg prps) <$> sgl_bits (E := demo_env) cmd) ∧
        (NoDup (pg_addr p') → sgl_decode c' p' = Some (desc_of <$> ents))).
Proof.
  intros cmd prps. apply (sgl_setup_describes_buffer (E := demo_env)); try done.
  - apply demo_sort_ok.
  - repeat constructor; simpl; lia.
  - repeat constructor; simpl; lia.
Defined.

Lemma duplicate_bucket_refused_witness :
  let s := mk_sg 0x100000 4096 in
  let bits := [mk_bit_bucket 16 512; mk_bit_bucket 16 8] in
  wp (dnvme_init_sgl_desc_list (E := demo_env) [s] bits (dnvme_count_sgl_desc_num [s] bits))
    (λ r w', r = (0, []) ∧ w_heap w' = w_heap demo_world) demo_world.
Proof. apply (duplicate_bucket_refused (E := demo_env)); unfold seg_ok; simpl; lia. Defined.
