(* ===== verification/Ring.v ===== *)
(** * Queue rings

    The inline helpers of [modules/dnvme/queue.h] and the completion scan
    [dnvme_get_cqe_remain] of [queue.c].

    A [struct nvme_sq *] or [struct nvme_cq *] that the driver holds is the
    identifier under which the object is in the xarray; the use of a pointer whose
    object is gone faults.  The memory of a completion queue is the contents of
    its block; an entry is 16 bytes ([struct nvme_completion]). *)

From S2P Require Import Prelude Types Kernel Own Prp.

(** ** Objects of the device *)

Definition dnvme_find_sq (d : nvme_device) (id : Z) : option nvme_sq := ndev_sqs d !! id.
Definition dnvme_find_cq (d : nvme_device) (id : Z) : option nvme_cq := ndev_cqs d !! id.
Definition dnvme_find_meta (d : nvme_device) (id : Z) : option nvme_meta := ndev_meta d !! id.

(** [*sq] and [*cq]. *)
Definition get_sq (id : Z) : M nvme_sq :=
  d ← get_dev;
  match dnvme_find_sq d id with Some sq => mret sq | None => oops F_uaf end.
Definition get_cq (id : Z) : M nvme_cq :=
  d ← get_dev;
  match dnvme_find_cq d id with Some cq => mret cq | None => oops F_uaf end.
Definition upd_sq (id : Z) (f : nvme_sq → nvme_sq) : M unit :=
  upd_dev (λ d, d <| ndev_sqs ::= alter f id |>).
Definition upd_cq (id : Z) (f : nvme_cq → nvme_cq) : M unit :=
  upd_dev (λ d, d <| ndev_cqs ::= alter f id |>).

(** ** [queue.h] *)

(** A division by zero traps. *)
Definition dnvme_sq_is_full (p : nvme_sq_public) : M bool :=
  if sqp_elements p =? 0 then oops F_ub
  else mret (u32 (sqp_tail_ptr_virt p + 1) mod sqp_elements p =? sqp_head_ptr p).
Definition dnvme_sq_is_empty (p : nvme_sq_public) : bool :=
  sqp_tail_ptr_virt p =? sqp_head_ptr p.

(** ** Completion entries *)

Definition SIZEOF_completion := 16.

Definition cqe_field (n : nat) (off : Z) (data : list Z) (base : Z) : M Z :=
  match load_le n data (base + off) with Some v => mret v | None => oops F_oob end.
Definition cqe_sq_head := cqe_field 2 8.
Definition cqe_sq_id := cqe_field 2 10.
Definition cqe_command_id := cqe_field 2 12.
Definition cqe_status := cqe_field 2 14.

Definition NVME_CQE_STATUS_TO_PHASE (s : Z) : Z := Z.land (Z.shiftr s 0) 0x1.
Definition NVME_CQE_STATUS_TO_STATE (s : Z) : Z := Z.land (Z.shiftr s 1) 0x7fff.

(** The scan loop: the count and the tail at the first entry with the other
    phase. *)
Fixpoint cqe_scan (fuel : nat) (data : list Z) (elements tail phase remain : Z) :
    M (Z * Z) :=
  match fuel with
  | O => hang
  | S fuel =>
    st ← cqe_status data (SIZEOF_completion * tail);
    if NVME_CQE_STATUS_TO_PHASE st =? phase
    then
      let remain := u32 (remain + 1) in
      let tail := u16 (tail + 1) in
      if elements <=? tail
      then cqe_scan fuel data elements 0 (Z.lxor phase 1) remain
      else cqe_scan fuel data elements tail phase remain
    else mret (remain, tail)
  end.

(** The block that holds the entries. *)
Definition cq_addr (cq : nvme_cq) : M Z :=
  if cq_contig cq then mret (cq_buf cq)
  else match cq_prps cq with
       | None => oops F_null
       | Some (_, prps) => emit E_sync_sg;; mret (prps_buf prps)
       end.

Definition dnvme_get_cqe_remain (id : Z) : M Z :=
  cq ← get_cq id;
  addr ← cq_addr cq;
  b ← get_block addr;
  let p := cq_pub cq in
  '(remain, tail) ← cqe_scan (S (Z.to_nat (cqp_elements p))) (blk_data b)
                      (cqp_elements p) (cqp_head_ptr p) (cqp_pbit_new_entry p) 0;
  upd_cq id (λ cq, cq <| cq_pub ::= λ p, p <| cqp_tail_ptr := tail |> |>);;
  mret remain.

(** ** The scan terminates and counts the entries of the current pass *)

(** The phase bit of entry [i]. *)
Definition cqe_phase (data : list Z) (i : Z) : Z :=
  match load_le 2 data (SIZEOF_completion * i + 14) with
  | Some st => NVME_CQE_STATUS_TO_PHASE st
  | None => 0
  end.

(** The [i]-th entry from [head] on is new: it carries the phase of the pass it
    belongs to. *)
Definition cqe_new (data : list Z) (elements head phase i : Z) : Prop :=
  if head + i <? elements then cqe_phase data (head + i) = phase
  else cqe_phase data (head + i - elements) = Z.lxor phase 1.

#[export] Instance cqe_new_dec data elements head phase i :
  Decision (cqe_new data elements head phase i).
Proof. unfold cqe_new. destruct (_ <? _); apply _. Defined.

(** The number of new entries: the length of the run of them from the head. *)
Fixpoint new_run (n : nat) (data : list Z) (elements head phase i : Z) : Z :=
  match n with
  | O => 0
  | S n => if decide (cqe_new data elements head phase i)
           then 1 + new_run n data elements head phase (i + 1) else 0
  end.

Lemma new_run_bounds n data elements head phase i :
  0 ≤ new_run n data elements head phase i ≤ Z.of_nat n.
Proof.
  revert i. induction n as [|n IH]; intros i; simpl; [lia|].
  case_decide; [|lia]. specialize (IH (i + 1)). lia.
Qed.

(** Every entry of the run is new, and the one behind it is not. *)
Lemma new_run_spec n data elements head phase i :
  let r := new_run n data elements head phase i in
  (∀ k, 0 ≤ k < r → cqe_new data elements head phase (i + k)) ∧
  (r < Z.of_nat n → ¬ cqe_new data elements head phase (i + r)).
Proof.
  revert i. induction n as [|n IH]; intros i; simpl; [split; lia|].
  case_decide as Hd; simpl.
  - destruct (IH (i + 1)) as [H1 H2]. split.
    + intros k Hk. destruct (decide (k = 0)) as [->|]; [by rewrite Z.add_0_r|].
      replace (i + k) with (i + 1 + (k - 1)) by lia. apply H1. lia.
    + intros Hr. replace (i + (1 + _)) with (i + 1 + new_run n data elements head phase (i + 1))
        by lia. apply H2. lia.
  - split; [lia|]. intros _. by rewrite Z.add_0_r.
Qed.

Section scan.
Context (data : list Z) (elements head phase : Z).
Context (He : 0 < elements < 2 ^ 16) (Hh : 0 ≤ head < elements).
Context (Hp : phase = 0 ∨ phase = 1).
Context (Hd : SIZEOF_completion * elements ≤ Z.of_nat (length data)).

(** Position and phase of the [i]-th step. *)
Definition pos (i : Z) : Z := if head + i <? elements then head + i else head + i - elements.
Definition ph (i : Z) : Z := if head + i <? elements then phase else Z.lxor phase 1.

Lemma pos_range i : 0 ≤ i ≤ elements → 0 ≤ pos i < elements.
Proof. intros Hi. unfold pos. destruct (Z.ltb_spec (head + i) elements); lia. Qed.

Lemma cqe_new_pos i : cqe_new data elements head phase i ↔ cqe_phase data (pos i) = ph i.
Proof. unfold cqe_new, pos, ph. by destruct (_ <? _). Qed.

Lemma cqe_status_val i w : 0 ≤ i < elements →
  ∃ st, cqe_status data (SIZEOF_completion * i) w = Val st w ∧
        NVME_CQE_STATUS_TO_PHASE st = cqe_phase data i.
Proof.
  unfold SIZEOF_completion in *. intros Hi.
  unfold cqe_status, cqe_field, cqe_phase, SIZEOF_completion.
  destruct (load_le 2 data (16 * i + 14)) as [st|] eqn:Hl; [by exists st|].
  unfold load_le, load_bytes in Hl. rewrite decide_True in Hl by lia. done.
Qed.

(** A full turn ends the run: the head entry cannot carry both phases. *)
Lemma full_turn : cqe_new data elements head phase 0 →
  ¬ cqe_new data elements head phase elements.
Proof.
  rewrite !cqe_new_pos. unfold pos, ph. rewrite Z.add_0_r.
  rewrite (proj2 (Z.ltb_lt head elements)), (proj2 (Z.ltb_ge (head + elements) elements)) by lia.
  replace (head + elements - elements) with head by lia.
  intros ->. destruct Hp as [-> | ->]; done.
Qed.

(** One step of the scan. *)
Lemma cqe_scan_step fuel i w : 0 ≤ i ≤ elements →
  cqe_scan (S fuel) data elements (pos i) (ph i) i w =
  if decide (cqe_new data elements head phase i)
  then if decide (i < elements)
       then cqe_scan fuel data elements (pos (i + 1)) (ph (i + 1)) (i + 1) w
       else cqe_scan (S fuel) data elements (pos i) (ph i) i w
  else Val (i, pos i) w.
Proof.
  intros Hi. case_decide as Hn.
  - case_decide as Hlt; [|done]. cbn [cqe_scan].
    destruct (cqe_status_val (pos i) w) as (st & Hst & Hph); [by apply pos_range|].
    unfold mbind, M_bind. rewrite Hst, Hph. apply cqe_new_pos in Hn.
    rewrite (proj2 (Z.eqb_eq _ _) Hn).
    pose proof (pos_range i Hi). rewrite (u32_small (i + 1)), (u16_small (pos i + 1)) by lia.
    unfold pos, ph in *.
    destruct (Z.ltb_spec (head + i) elements), (Z.ltb_spec (head + (i + 1)) elements);
      try lia.
    + rewrite (proj2 (Z.leb_gt _ _)) by lia. f_equal; lia.
    + rewrite (proj2 (Z.leb_le _ _)) by lia. f_equal; lia.
    + rewrite (proj2 (Z.leb_gt _ _)) by lia. f_equal; lia.
  - cbn [cqe_scan].
    destruct (cqe_status_val (pos i) w) as (st & Hst & Hph); [by apply pos_range|].
    unfold mbind, M_bind. rewrite Hst, Hph. rewrite cqe_new_pos in Hn.
    by rewrite (proj2 (Z.eqb_neq _ _) Hn).
Qed.

Lemma cqe_scan_run (n fuel : nat) i w :
  0 ≤ i → i + Z.of_nat n = elements → (n < fuel)%nat →
  (n = O → i = elements → ¬ cqe_new data elements head phase elements) →
  (0 < i → cqe_new data elements head phase 0) →
  let r := i + new_run n data elements head phase i in
  cqe_scan fuel data elements (pos i) (ph i) i w = Val (r, pos r) w.
Proof.
  revert fuel i. induction n as [|n IH]; intros fuel i Hi Hn Hf Hfull H0;
    (destruct fuel as [|fuel]; [lia|]); rewrite cqe_scan_step by lia; cbn [new_run].
  - rewrite decide_False; [by rewrite Z.add_0_r|].
    replace i with elements by lia. apply Hfull; lia.
  - case_decide as Hnew; [|by rewrite Z.add_0_r].
    rewrite decide_True by lia. rewrite IH; try lia.
    + by rewrite Z.add_assoc.
    + intros -> He'. apply full_turn. destruct (decide (i = 0)) as [<-|]; [done|].
      apply H0. lia.
    + intros _. destruct (decide (i = 0)) as [<-|]; [done|]. apply H0. lia.
Qed.

Lemma cqe_scan_counts w :
  let r := new_run (Z.to_nat elements) data elements head phase 0 in
  cqe_scan (S (Z.to_nat elements)) data elements head phase 0 w = Val (r, pos r) w.
Proof.
  pose proof (cqe_scan_run (Z.to_nat elements) (S (Z.to_nat elements)) 0 w) as Hrun.
  unfold pos at 1, ph in Hrun. rewrite Z.add_0_r in Hrun.
  rewrite (proj2 (Z.ltb_lt head elements)) in Hrun by lia. cbv zeta in Hrun.
  rewrite Z.add_0_l in Hrun. apply Hrun; lia.
Qed.
End scan.

(** ** Claims *)

Section ring_claims.
(** A contiguous completion queue whose memory is [data]. *)
Definition cq_in (w : world) (id : Z) (cq : nvme_cq) (data : list Z) : Prop :=
  dnvme_find_cq (w_dev w) id = Some cq ∧ cq_contig cq = true ∧ cq_buf cq ≠ 0 ∧
  (∃ b, w_heap w !! cq_buf cq = Some b ∧ blk_data b = data).

(** Head and phase are in range, the memory holds the entries. *)
Definition cq_ok (cq : nvme_cq) (data : list Z) : Prop :=
  let p := cq_pub cq in
  0 < cqp_elements p < 2 ^ 16 ∧ 0 ≤ cqp_head_ptr p < cqp_elements p ∧
  (cqp_pbit_new_entry p = 0 ∨ cqp_pbit_new_entry p = 1) ∧
  SIZEOF_completion * cqp_elements p ≤ Z.of_nat (length data).

(** The number of new entries of a queue. *)
Definition cq_news (cq : nvme_cq) (data : list Z) : Z :=
  let p := cq_pub cq in
  new_run (Z.to_nat (cqp_elements p)) data (cqp_elements p) (cqp_head_ptr p)
    (cqp_pbit_new_entry p) 0.

Definition set_cq_tail (id tail : Z) (w : world) : world :=
  w <| w_dev ::= λ d, d <| ndev_cqs ::=
    alter (λ cq, cq <| cq_pub ::= λ p, p <| cqp_tail_ptr := tail |> |>) id |> |>.

Lemma get_cqe_remain_eq id cq data w :
  cq_in w id cq data → cq_ok cq data →
  dnvme_get_cqe_remain id w =
  Val (cq_news cq data)
    (set_cq_tail id (pos (cqp_elements (cq_pub cq)) (cqp_head_ptr (cq_pub cq))
                       (cq_news cq data)) w).
Proof.
  intros (Hcq & Hc & Hb0 & b & Hb & Hd) (He & Hh & Hp & Hl).
  unfold dnvme_get_cqe_remain, get_cq, get_dev, gets, cq_addr, get_block, upd_cq, upd_dev,
    modify, mbind, M_bind, mret, M_ret.
  rewrite Hcq, Hc, (proj2 (Z.eqb_neq _ _) Hb0), Hb, Hd.
  by rewrite cqe_scan_counts.
Qed.


Lemma cqe_scan_hang data elements phase fuel tail remain w :
  2 ^ 16 ≤ elements → 0 ≤ tail < 2 ^ 16 →
  SIZEOF_completion * 2 ^ 16 ≤ Z.of_nat (length data) →
  (∀ i, 0 ≤ i < 2 ^ 16 → cqe_phase data i = phase) →
  cqe_scan fuel data elements tail phase remain w = Hang.
Proof.
  intros He Ht Hl Hall. revert tail remain Ht.
  induction fuel as [|fuel IH]; intros tail remain Ht; [done|]. cbn [cqe_scan].
  unfold cqe_status, cqe_field, mbind, M_bind.
  pose proof (Hall tail Ht) as Hph. unfold cqe_phase in Hph. unfold SIZEOF_completion in *.
  destruct (load_le 2 data (16 * tail + 14)) as [st|] eqn:Hst.
  - unfold mret, M_ret. rewrite Hph, Z.eqb_refl. pose proof (u16_range (tail + 1)).
    rewrite (proj2 (Z.leb_gt _ _)) by lia. apply IH. lia.
  - unfold load_le, load_bytes in Hst. rewrite decide_True in Hst by lia. done.
Qed.

(** For a completion queue of 65536 entries the 16-bit tail never reaches
    [elements], so the phase is not flipped at the wrap: when every entry carries
    the expected phase (a full queue) the scan never stops, however long it
    runs. *)
Theorem get_cqe_remain_diverges data elements phase tail w
    (He : 2 ^ 16 ≤ elements) (Ht : 0 ≤ tail < 2 ^ 16)
    (Hl : SIZEOF_completion * 2 ^ 16 ≤ Z.of_nat (length data))
    (Hall : ∀ i, 0 ≤ i < 2 ^ 16 → cqe_phase data i = phase) :
  ∀ fuel, cqe_scan fuel data elements tail phase 0 w = Hang.
Proof. intros fuel. by apply cqe_scan_hang. Qed.
End ring_claims.

(** *** Witnesses *)

(** A queue of two entries with head 1 and phase 1; entry 1 is new. *)
Definition demo_cq : nvme_cq := {|
  cq_ptr := 1;
  cq_pub := {| cqp_q_id := 5; cqp_tail_ptr := 0; cqp_head_ptr := 1; cqp_elements := 2;
               cqp_irq_enabled := 0; cqp_irq_no := 0; cqp_pbit_new_entry := 1;
               cqp_cqes := 4 |};
  cq_buf := 2; cq_dma := 4096; cq_size := 32; cq_prps := None; cq_db := 0;
  cq_contig := true; cq_created := true; cq_use_cmb := false |}.
Definition demo_cqes : list Z := replicate 14 0 ++ [1; 0] ++ replicate 14 0 ++ [1; 0].
Definition demo_cq_world : world :=
  demo_world <| w_dev ::= λ d, d <| ndev_cqs := {[ 5 := demo_cq ]} |> |>
             <| w_heap := {[ 1 := mk_block AK_kmalloc 96 [];
                             2 := mk_block AK_coherent 32 demo_cqes ]} |>.


Lemma get_cqe_remain_diverges_witness :
  cq_ok demo_cq demo_cqes ∧
  ∀ fuel, cqe_scan fuel (replicate (Z.to_nat 1048576) 0) 65536 0 0 0 demo_world = Hang.
Proof.
  split; [unfold cq_ok, SIZEOF_completion; simpl; lia|].
  set (n := Z.to_nat 1048576). assert (Z.of_nat n = 1048576) as Hn by (subst n; lia).
  clearbody n.
  apply get_cqe_remain_diverges; [lia|lia|rewrite length_replicate; unfold SIZEOF_completion; lia|].
  intros i Hi. unfold cqe_phase, load_le, load_bytes, SIZEOF_completion.
  rewrite length_replicate, decide_True by lia.
  rewrite drop_replicate, take_replicate.
  replace (Nat.min _ _) with 2%nat by lia. done.
Defined.
