(* ===== verification/Irq.v ===== *)
(** * Interrupts

    [modules/dnvme/irq.c] and the configuration-space helpers of [pci.c] it uses:
    the masks, the lists of irq nodes (each with the completion queues bound to
    it) and work nodes, the set-up and tear-down of the interrupt schemes, the
    handler and its bottom half.

    List nodes are values that carry their address; a function that changes a
    node changes the element with that address. *)

From S2P Require Import Prelude Types Kernel Io Own Prp Ring.

Definition SIZEOF_nvme_icq := 24.
Definition SIZEOF_nvme_irq := 56.
Definition SIZEOF_nvme_work := 72.
Definition SIZEOF_msix_entry := 8.

Section irq.
Context {E : Env}.

Definition get_irq_set : M nvme_irq_set := d ← get_dev; mret (ndev_irq_set d).
Definition upd_irq_set (f : nvme_irq_set → nvme_irq_set) : M unit :=
  upd_dev (λ d, d <| ndev_irq_set ::= f |>).
Definition get_bar0 : M Z := d ← get_dev; mret (ndev_bar0 d).

(** ** Masks *)

Definition set_int_mask (bar0 val : Z) : M unit :=
  dnvme_writel bar0 NVME_REG_INTMS val;;
  if cfg_flush_reg_write then dnvme_readl bar0 NVME_REG_INTMS;; mret tt else mret tt.
Definition clear_int_mask (bar0 val : Z) : M unit :=
  dnvme_writel bar0 NVME_REG_INTMC val;;
  if cfg_flush_reg_write then dnvme_readl bar0 NVME_REG_INTMC;; mret tt else mret tt.

Definition set_msix_single_mask (msix_tbl entry : Z) : M unit :=
  let msix_entry := msix_tbl + u32 (entry * PCI_MSIX_ENTRY_SIZE) in
  vec ← dnvme_readl msix_entry PCI_MSIX_ENTRY_VECTOR_CTRL;
  dnvme_writel msix_entry PCI_MSIX_ENTRY_VECTOR_CTRL
    (Z.lor vec PCI_MSIX_ENTRY_CTRL_MASKBIT).
Definition clear_msix_single_mask (msix_tbl entry : Z) : M unit :=
  let msix_entry := msix_tbl + u32 (entry * PCI_MSIX_ENTRY_SIZE) in
  vec ← dnvme_readl msix_entry PCI_MSIX_ENTRY_VECTOR_CTRL;
  dnvme_writel msix_entry PCI_MSIX_ENTRY_VECTOR_CTRL
    (Z.land vec (u32 (Z.lnot PCI_MSIX_ENTRY_CTRL_MASKBIT))).

(** [arr[i].entry] is [i] for the [count] entries the driver uses. *)
Definition set_msix_mask (msix_tbl count : Z) : M unit :=
  mapM_ (set_msix_single_mask msix_tbl) (seqZ 0 count).

Definition pba_bit_is_set (pba_tbl entry : Z) : M bool :=
  let bit := Z.land entry 0x1f in
  pba ← dnvme_readl pba_tbl (4 * Z.shiftr entry 5);
  mret (negb (Z.land pba (Z.shiftl 1 bit) =? 0)).
Fixpoint pba_bits_is_set (pba_tbl : Z) (entries : list Z) : M bool :=
  match entries with
  | [] => mret false
  | e :: entries =>
    b ← pba_bit_is_set pba_tbl e;
    if b : bool then mret true else pba_bits_is_set pba_tbl entries
  end.

(** [0x1 << irq_no] on a 32-bit int. *)
Definition irq_bit (irq_no : Z) : M Z :=
  if irq_no <? 32 then mret (Z.shiftl 1 irq_no) else oops F_ub.

Definition dnvme_mask_interrupt (irq_no : Z) : M Z :=
  s ← get_irq_set; bar0 ← get_bar0;
  match is_irq_type s with
  | NVME_INT_PIN | NVME_INT_MSI_SINGLE | NVME_INT_MSI_MULTI =>
    b ← irq_bit irq_no; set_int_mask bar0 b;; mret 0
  | NVME_INT_MSIX => set_msix_single_mask (is_msix_tb s) irq_no;; mret 0
  | NVME_INT_NONE => mret 0
  | NVME_INT_OTHER _ => mret (- EINVAL)
  end.
Definition dnvme_unmask_interrupt (irq_no : Z) : M Z :=
  s ← get_irq_set; bar0 ← get_bar0;
  match is_irq_type s with
  | NVME_INT_PIN | NVME_INT_MSI_SINGLE | NVME_INT_MSI_MULTI =>
    b ← irq_bit irq_no; clear_int_mask bar0 b;; mret 0
  | NVME_INT_MSIX => clear_msix_single_mask (is_msix_tb s) irq_no;; mret 0
  | NVME_INT_NONE => mret 0
  | NVME_INT_OTHER _ => mret (- EINVAL)
  end.

(** ** Lists *)

Definition find_icq_node (irq : nvme_irq) (cq_id : Z) : option nvme_icq :=
  snd <$> list_find (λ n, icq_cq_id n = cq_id) (irq_icq_list irq).
Definition find_irq_node_by_vec (s : nvme_irq_set) (vec : Z) : option nvme_irq :=
  snd <$> list_find (λ n, irq_int_vec n = vec) (is_irq_list s).
Definition find_irq_node_by_id (s : nvme_irq_set) (id : Z) : option nvme_irq :=
  snd <$> list_find (λ n, irq_id n = id) (is_irq_list s).
Definition find_work_node_by_vec (s : nvme_irq_set) (vec : Z) : option nvme_work :=
  snd <$> list_find (λ n, work_int_vec n = vec) (is_work_list s).
Definition find_work_node_by_id (s : nvme_irq_set) (id : Z) : option nvme_work :=
  snd <$> list_find (λ n, work_irq_id n = id) (is_work_list s).

(** [*irq = f( *irq)] for the node at address [p]. *)
Definition upd_irq_node (p : Z) (f : nvme_irq → nvme_irq) : M unit :=
  upd_irq_set (λ s, s <| is_irq_list ::=
    fmap (λ n, if irq_ptr n =? p then f n else n) |>).

Definition create_icq_node (irq : nvme_irq) (cq_id : Z) : M Z :=
  match find_icq_node irq cq_id with
  | Some _ => mret 0
  | None =>
    p ← kmalloc SIZEOF_nvme_icq;
    if p =? 0 then mret (- ENOMEM)
    else
      upd_irq_node (irq_ptr irq) (λ n, n <| irq_icq_list ::= λ l, l ++ [mk_icq p cq_id] |>);;
      mret 0
  end.

Definition dnvme_create_icq_node (cq_id irq_no : Z) : M Z :=
  s ← get_irq_set;
  match find_irq_node_by_id s irq_no with
  | None => mret (- EINVAL)
  | Some irq =>
    ret ← create_icq_node irq cq_id;
    if ret <? 0 then mret ret else mret 0
  end.

(** The node [icq] of the irq node at [p]. *)
Definition delete_icq_node (p : Z) (icq : nvme_icq) : M unit :=
  upd_irq_node p (λ n, n <| irq_icq_list ::= filter (λ x, icq_ptr x ≠ icq_ptr icq) |>);;
  kfree (icq_ptr icq).

Definition dnvme_delete_icq_node (cq_id irq_no : Z) : M unit :=
  s ← get_irq_set;
  match find_irq_node_by_id s irq_no with
  | None => mret tt
  | Some irq =>
    match find_icq_node irq cq_id with
    | None => mret tt
    | Some icq => delete_icq_node (irq_ptr irq) icq
    end
  end.

Definition delete_icq_list (irq : nvme_irq) : M unit :=
  mapM_ (delete_icq_node (irq_ptr irq)) (irq_icq_list irq).

Definition create_irq_node (int_vec id : Z) : M Z :=
  s ← get_irq_set;
  match find_irq_node_by_id s id with
  | Some irq => mret (if irq_int_vec irq =? int_vec then 0 else - EINVAL)
  | None =>
    match find_irq_node_by_vec s int_vec with
    | Some _ => mret (- EINVAL)
    | None =>
      p ← kmalloc SIZEOF_nvme_irq;
      if p =? 0 then mret (- ENOMEM)
      else
        upd_irq_set (λ s, s <| is_irq_list ::= λ l, l ++
          [{| irq_ptr := p; irq_icq_list := []; irq_id := id; irq_int_vec := int_vec;
              irq_isr_fired := 0; irq_isr_count := 0 |}] |>);;
        mret 0
    end
  end.

(** [None] is [NULL]. *)
Definition delete_irq_node (o : option nvme_irq) : M unit :=
  match o with
  | None => mret tt
  | Some irq =>
    delete_icq_list irq;;
    upd_irq_set (λ s, s <| is_irq_list ::= filter (λ n, irq_ptr n ≠ irq_ptr irq) |>);;
    kfree (irq_ptr irq)
  end.

Definition delete_irq_list : M unit :=
  s ← get_irq_set; mapM_ (λ irq, delete_irq_node (Some irq)) (is_irq_list s).

(** ** Bottom half *)

Definition inc_isr_count (id : Z) : M unit :=
  s ← get_irq_set;
  match find_irq_node_by_id s id with
  | None => mret tt
  | Some irq =>
    upd_irq_node (irq_ptr irq)
      (λ n, n <| irq_isr_fired := 1 |> <| irq_isr_count ::= λ c, s32 (c + 1) |>)
  end.

(** [wk] is the address of the work node; it must be there when the item runs. *)
Definition update_irq_flag (wk : Z) : M unit :=
  s ← get_irq_set;
  match list_find (λ n, work_ptr n = wk) (is_work_list s) with
  | None => oops F_uaf
  | Some (_, n) => inc_isr_count (work_irq_id n)
  end.

Definition create_work_node (int_vec id : Z) : M Z :=
  s ← get_irq_set;
  match find_work_node_by_id s id with
  | Some n => mret (if work_int_vec n =? int_vec then 0 else - EINVAL)
  | None =>
    match find_work_node_by_vec s int_vec with
    | Some _ => mret (- EINVAL)
    | None =>
      p ← kmalloc SIZEOF_nvme_work;
      if p =? 0 then mret (- ENOMEM)
      else
        upd_irq_set (λ s, s <| is_work_list ::= λ l, l ++
          [{| work_ptr := p; work_irq_id := id; work_int_vec := int_vec |}] |>);;
        mret 0
    end
  end.

Definition delete_work_node (o : option nvme_work) : M unit :=
  match o with
  | None => mret tt
  | Some wk =>
    upd_irq_set (λ s, s <| is_work_list ::= filter (λ n, work_ptr n ≠ work_ptr wk) |>);;
    kfree (work_ptr wk)
  end.

Definition delete_work_list : M unit :=
  s ← get_irq_set; mapM_ (λ wk, delete_work_node (Some wk)) (is_work_list s).

(** [flush_workqueue] runs what is queued. *)
Definition flush_workqueue : M unit :=
  emit E_flush_wq;;
  s ← get_irq_set;
  mapM_ update_irq_flag (is_wq_pending s);;
  upd_irq_set (λ s, s <| is_wq_pending := [] |>).

Definition create_irq_work_queue : M Z :=
  s ← get_irq_set;
  if negb (is_wq s =? 0) then mret 0
  else
    wq ← create_workqueue;
    upd_irq_set (λ s, s <| is_wq := wq |>);;
    mret (if wq =? 0 then - ENOMEM else 0).

Definition destroy_irq_work_queue : M unit :=
  s ← get_irq_set;
  if is_wq s =? 0 then mret tt
  else
    flush_workqueue;;
    destroy_workqueue (is_wq s);;
    upd_irq_set (λ s, s <| is_wq := 0 |>).

(** [find_irq_node_by_id] on the list as it is now. *)
Definition irq_node_now (id : Z) : M (option nvme_irq) :=
  s ← get_irq_set; mret (find_irq_node_by_id s id).
Definition work_node_now (id : Z) : M (option nvme_work) :=
  s ← get_irq_set; mret (find_work_node_by_id s id).

Definition create_irq_work_pair (int_vec id : Z) : M Z :=
  ret ← create_irq_node int_vec id;
  if ret <? 0 then mret ret
  else
    ret ← create_work_node int_vec id;
    if ret <? 0
    then o ← irq_node_now id; delete_irq_node o;; mret ret
    else if id =? 0
    then
      o ← irq_node_now id;
      match o with
      | None => oops F_null
      | Some irq =>
        ret ← create_icq_node irq 0;
        if ret <? 0
        then
          wk ← work_node_now id; delete_work_node wk;;
          o ← irq_node_now id; delete_irq_node o;;
          mret ret
        else mret 0
      end
    else mret 0.

Definition destroy_irq_work_pair (id : Z) : M unit :=
  wk ← work_node_now id; delete_work_node wk;;
  o ← irq_node_now id; delete_irq_node o.

(** ** Schemes *)

Definition pci_enable_int_pin : M Z :=
  '(ret, val) ← pci_read_config 2 PCI_COMMAND;
  ret ← (if ret =? 0
         then pci_write_config 2 PCI_COMMAND
                (Z.land val (u16 (Z.lnot PCI_COMMAND_INTX_DISABLE)))
         else mret ret);
  mret (pcibios_err_to_errno ret).
Definition pci_disable_int_pin : M Z :=
  '(ret, val) ← pci_read_config 2 PCI_COMMAND;
  ret ← (if ret =? 0
         then pci_write_config 2 PCI_COMMAND (Z.lor val PCI_COMMAND_INTX_DISABLE)
         else mret ret);
  mret (pcibios_err_to_errno ret).
Definition pci_msi_read_mc (offset : Z) : M (Z * Z) :=
  '(ret, val) ← pci_read_config 2 (u32 (offset + PCI_MSI_FLAGS));
  mret (pcibios_err_to_errno ret, val).

(** [pdev->irq], which the MSI calls change. *)
Definition get_pdev_irq : M Z := d ← get_dev; mret (pdev_irq (ndev_pdev d)).

Definition set_int_pin : M Z :=
  bar0 ← get_bar0; irq ← get_pdev_irq;
  ret ← request_irq irq;
  if ret <? 0 then mret ret
  else
    ret ← create_irq_work_pair irq 0;
    if ret <? 0 then free_irq irq;; mret ret
    else clear_int_mask bar0 UINT_MAX;; pci_enable_int_pin;; mret 0.

Definition set_int_msi_single : M Z :=
  bar0 ← get_bar0;
  clear_int_mask bar0 UINT_MAX;;
  ret ← pci_enable_msi;
  if negb (ret =? 0) then set_int_mask bar0 UINT_MAX;; mret ret
  else
    irq ← get_pdev_irq;
    ret ← request_irq irq;
    if ret <? 0
    then pci_disable_msi;; set_int_mask bar0 UINT_MAX;; mret ret
    else
      ret ← create_irq_work_pair irq 0;
      if ret <? 0
      then free_irq irq;; pci_disable_msi;; set_int_mask bar0 UINT_MAX;; mret ret
      else mret 0.

(** Request the vectors one by one: the return code and the ones obtained. *)
Fixpoint request_irqs (vecs got : list Z) : M (Z * list Z) :=
  match vecs with
  | [] => mret (0, got)
  | v :: vecs =>
    ret ← request_irq v;
    if ret <? 0 then mret (ret, got) else request_irqs vecs (got ++ [v])
  end.
Definition free_irqs (got : list Z) : M unit := mapM_ free_irq (reverse got).

(** Create the pairs ([vector], [id]) one by one: the return code and the ids done. *)
Fixpoint create_pairs (pairs : list (Z * Z)) (got : list Z) : M (Z * list Z) :=
  match pairs with
  | [] => mret (0, got)
  | (v, id) :: pairs =>
    ret ← create_irq_work_pair v id;
    if ret <? 0 then mret (ret, got) else create_pairs pairs (got ++ [id])
  end.
Definition destroy_pairs (got : list Z) : M unit :=
  mapM_ destroy_irq_work_pair (reverse got).

Definition set_int_msi_multi (num_irqs : Z) : M Z :=
  bar0 ← get_bar0;
  clear_int_mask bar0 UINT_MAX;;
  ret ← pci_alloc_irq_vectors num_irqs;
  if negb (ret =? num_irqs) then set_int_mask bar0 UINT_MAX;; mret ret
  else
    irq ← get_pdev_irq;
    let vecs := (λ i, u32 (irq + i)) <$> seqZ 0 num_irqs in
    '(ret, got) ← request_irqs vecs [];
    if ret <? 0 then free_irqs got;; set_int_mask bar0 UINT_MAX;; mret ret
    else
      '(ret, ids) ← create_pairs (zip vecs (seqZ 0 num_irqs)) [];
      if ret <? 0
      then destroy_pairs ids;; free_irqs got;; set_int_mask bar0 UINT_MAX;; mret ret
      else mret 0.

Definition set_int_msix (num_irqs : Z) : M Z :=
  entries ← kmalloc (num_irqs * SIZEOF_msix_entry);
  if entries =? 0 then mret (- ENOMEM)
  else
    '(ret, vecs) ← pci_enable_msix_range num_irqs;
    if negb (ret =? num_irqs) then kfree entries;; mret (- EPERM)
    else
      '(ret, got) ← request_irqs vecs [];
      if ret <? 0
      then free_irqs got;; pci_disable_msix;; kfree entries;; mret ret
      else
        '(ret, ids) ← create_pairs (zip vecs (seqZ 0 num_irqs)) [];
        if ret <? 0
        then destroy_pairs ids;; free_irqs got;; pci_disable_msix;; kfree entries;; mret ret
        else
          s ← get_irq_set;
          b ← pba_bits_is_set (is_msix_pba s) (seqZ 0 num_irqs);
          if b : bool
          then destroy_pairs ids;; free_irqs got;; pci_disable_msix;; kfree entries;;
               mret (- EINVAL)
          else
            set_msix_mask (is_msix_tb s) num_irqs;;
            kfree entries;;
            mret 0.

Definition init_msix_ptr (cap : pci_cap_msix) : M Z :=
  s ← get_irq_set; bar0 ← get_bar0;
  if negb (is_msix_irqs s =? 0) then mret 0
  else
    upd_irq_set (λ s, s <| is_msix_irqs :=
      u16 (Z.land (msix_mc cap) PCI_MSIX_FLAGS_QSIZE + 1) |>);;
    let msix_tbir := Z.land (msix_table cap) PCI_MSIX_BIR in
    let msix_to := Z.land (msix_table cap) PCI_MSIX_OFFSET in
    let msix_pbir := Z.land (msix_pba cap) PCI_MSIX_BIR in
    let msix_pbao := Z.land (msix_pba cap) PCI_MSIX_OFFSET in
    if negb (msix_tbir =? 0) then mret (- EINVAL)
    else
      upd_irq_set (λ s, s <| is_msix_tb := bar0 + msix_to |>);;
      if negb (msix_pbir =? 0) then mret (- EINVAL)
      else
        upd_irq_set (λ s, s <| is_msix_pba := bar0 + msix_pbao |>);;
        mret 0.

Definition check_interrupt (irq : nvme_interrupt) : M Z :=
  d ← get_dev;
  cc ← dnvme_readl (ndev_bar0 d) NVME_REG_CC;
  if negb (Z.land cc NVME_CC_ENABLE =? 0) then mret (- EINVAL)
  else
  let cap := ndev_cap d in
  match int_irq_type irq with
  | NVME_INT_MSI_SINGLE =>
    if negb (int_num_irqs irq =? 1) then mret (- EINVAL)
    else match cap_msi cap with
         | None => mret (- EINVAL)
         | Some msi => mret (if msi_offset msi =? 0 then - EINVAL else 0)
         end
  | NVME_INT_MSI_MULTI =>
    if (PCI_MSI_VEC_MAX <? int_num_irqs irq) || (int_num_irqs irq =? 0)
    then mret (- EINVAL)
    else match cap_msi cap with
         | None => mret (- EINVAL)
         | Some msi =>
           if msi_offset msi =? 0 then mret (- EINVAL)
           else
             '(ret, mc) ← pci_msi_read_mc (msi_offset msi);
             if ret <? 0 then mret ret
             else if Z.shiftl 1 (Z.shiftr (Z.land mc PCI_MSI_FLAGS_QMASK) 1) <? int_num_irqs irq
             then mret (- EINVAL) else mret 0
         end
  | NVME_INT_MSIX =>
    if (PCI_MSIX_VEC_MAX <? int_num_irqs irq) || (int_num_irqs irq =? 0)
    then mret (- EINVAL)
    else match cap_msix cap with
         | None => mret (- EINVAL)
         | Some msix =>
           if msix_offset msix =? 0 then mret (- EINVAL)
           else
             ret ← init_msix_ptr msix;
             if ret <? 0 then mret ret
             else
               s ← get_irq_set;
               if is_msix_irqs s <? int_num_irqs irq then mret (- EINVAL) else mret 0
         end
  | NVME_INT_PIN | NVME_INT_NONE => mret 0
  | NVME_INT_OTHER _ => mret (- EINVAL)
  end.

Definition dnvme_clean_interrupt : M unit :=
  s ← get_irq_set;
  mapM_ (λ irq, free_irq (irq_int_vec irq)) (is_irq_list s);;
  (match is_irq_type s with
   | NVME_INT_MSI_SINGLE | NVME_INT_MSI_MULTI => pci_disable_msi
   | NVME_INT_MSIX => pci_disable_msix
   | NVME_INT_PIN => pci_disable_int_pin;; mret tt
   | NVME_INT_NONE | NVME_INT_OTHER _ => mret tt
   end);;
  destroy_irq_work_queue;;
  delete_irq_list;;
  delete_work_list;;
  upd_irq_set (λ s, s <| is_irq_type := NVME_INT_NONE |> <| is_nr_irq := 0 |>).

(** [irq] is the structure at [uirq]. *)
Definition dnvme_set_interrupt (irq : nvme_interrupt) : M Z :=
  s ← get_irq_set;
  let act_irq := is_irq_type s in
  ok ← copy_from_user;
  if negb ok then mret (- EFAULT)
  else
    ret ← check_interrupt irq;
    if ret <? 0 then mret ret
    else
      (if decide (act_irq = NVME_INT_NONE) then mret tt else dnvme_clean_interrupt);;
      ret ← create_irq_work_queue;
      if ret <? 0 then mret ret
      else
        ret ← (match int_irq_type irq with
               | NVME_INT_MSI_SINGLE => set_int_msi_single
               | NVME_INT_MSI_MULTI => set_int_msi_multi (int_num_irqs irq)
               | NVME_INT_MSIX => set_int_msix (int_num_irqs irq)
               | NVME_INT_PIN => set_int_pin
               | NVME_INT_NONE => mret ret
               | NVME_INT_OTHER _ => mret (- EBADRQC)
               end);
        if ret <? 0 then destroy_irq_work_queue;; mret ret
        else
          upd_irq_set (λ s, s <| is_irq_type := int_irq_type irq |>
                              <| is_nr_irq := int_num_irqs irq |>);;
          mret 0.

(** The loop over the completion queues of an irq: [inl] an early return, [inr]
    the count of the last queue looked at. *)
Fixpoint icq_remain (icqs : list nvme_icq) (remain : Z) : M (Z + Z) :=
  match icqs with
  | [] => mret (inr remain)
  | icq :: icqs =>
    d ← get_dev;
    match dnvme_find_cq d (icq_cq_id icq) with
    | None => mret (inl (- EBADSLT))
    | Some _ =>
      remain ← dnvme_get_cqe_remain (icq_cq_id icq);
      if negb (remain =? 0) then mret (inr remain) else icq_remain icqs remain
    end
  end.

Definition dnvme_reset_isr_flag (irq_no : Z) : M Z :=
  s ← get_irq_set;
  match find_irq_node_by_id s irq_no with
  | None => mret (- EINVAL)
  | Some irq =>
    r ← icq_remain (irq_icq_list irq) 0;
    match r with
    | inl ret => mret ret
    | inr remain =>
      (if remain =? 0
       then upd_irq_node (irq_ptr irq) (λ n, n <| irq_isr_fired := 0 |>)
       else mret tt);;
      mret 0
    end
  end.

(** ** The handler *)

Inductive irqreturn_t := IRQ_NONE | IRQ_HANDLED.

Definition dnvme_interrupt (int_vec : Z) : M irqreturn_t :=
  s ← get_irq_set;
  match find_work_node_by_vec s int_vec with
  | None => mret IRQ_NONE
  | Some wk =>
    dnvme_mask_interrupt (work_irq_id wk);;
    s ← get_irq_set;
    (** [queue_work] does nothing when the item is queued already *)
    (if is_wq s =? 0 then oops F_null
     else if decide (work_ptr wk ∈ is_wq_pending s) then mret tt
     else upd_irq_set (λ s, s <| is_wq_pending ::= λ l, l ++ [work_ptr wk] |>));;
    mret IRQ_HANDLED
  end.
End irq.
