(* ===== verification/Queue.v ===== *)
(** * Queues

    [modules/dnvme/queue.c]: allocation and release of submission and completion
    queues, the admin queues, the doorbells, completion handling and reaping.
    The two predicates of [cmb.c] the allocation asks are here as well. *)

From S2P Require Import Prelude Types Kernel Io Own Prp Ring Irq.

Definition SIZEOF_nvme_sq := 96.
Definition SIZEOF_nvme_cq := 88.

Definition dnvme_cmb_support_sq (cmb : option nvme_cmb) : bool :=
  match cmb with Some c => cmb_sqs c | None => false end.
Definition dnvme_cmb_support_cq (cmb : option nvme_cmb) : bool :=
  match cmb with Some c => cmb_cqs c | None => false end.

Definition dnvme_check_qid_unique (d : nvme_device) (type : nvme_queue_type) (id : Z) : Z :=
  match type with
  | NVME_SQ => match dnvme_find_sq d id with Some _ => - EEXIST | None => 0 end
  | NVME_CQ => match dnvme_find_cq d id with Some _ => - EEXIST | None => 0 end
  | _ => 0
  end.

Definition dnvme_find_cmd (sq : nvme_sq) (cid : Z) : option nvme_cmd :=
  snd <$> list_find (λ c, cmd_cid c = cid) (sq_cmd_list sq).

(** The keys of an xarray in the order [xa_for_each] visits them. *)
Definition xa_keys {A} (m : gmap Z A) : list Z := merge_sort (≤) (map_to_list m).*1.

Section queue.
Context {E : Env}.

(** [xa_insert]: an entry is there already, or no memory for a node. *)
Definition xa_insert_ret {A} (m : gmap Z A) (id : Z) : M Z :=
  r ← ext (E_xa_insert id);
  mret (match m !! id with Some _ => - EBUSY | None => if r =? 0 then 0 else - ENOMEM end).

(** [&ndev->dbs[i]]: the doorbells are 32-bit registers. *)
Definition db_addr (d : nvme_device) (i : Z) : Z := ndev_dbs d + 4 * i.

(** [list_del] and [kfree] of the command at address [p] of queue [id]. *)
Definition dnvme_delete_cmd (id : Z) (cmd : nvme_cmd) : M unit :=
  _ ← get_sq id;
  upd_sq id (λ sq, sq <| sq_cmd_list ::= filter (λ c, cmd_ptr c ≠ cmd_ptr cmd) |>);;
  kfree (cmd_ptr cmd).

(** The memory of a queue: [None] when it cannot be had, else buffer, bus address
    and whether it lies in the CMB; an uninitialised [dma] is not used. *)
Definition alloc_queue_buf (contig use_cmb support : bool) (size : Z) :
    M (option (Z * Z * bool)) :=
  if contig then
    if use_cmb then
      if negb support then mret None
      else
        buf ← pci_alloc_p2pmem size;
        if buf =? 0 then mret None
        else
          dma ← pci_p2pmem_virt_to_bus buf;
          if dma =? 0 then pci_free_p2pmem buf size;; mret None
          else memset0 buf size;; mret (Some (buf, dma, true))
    else
      '(buf, dma) ← dma_alloc_coherent size;
      if buf =? 0 then mret None
      else memset0 buf size;; mret (Some (buf, dma, false))
  else mret (Some (0, 0, false)).

(** The identifier of the new queue is its pointer; [None] is [NULL]. *)
Definition dnvme_alloc_sq (prep : nvme_prep_sq) (sqes : Z) : M (option Z) :=
  d ← get_dev;
  p ← kmalloc SIZEOF_nvme_sq;
  if p =? 0 then mret None
  else
    let size := u32 (Z.shiftl (psq_elements prep) sqes) in
    r ← alloc_queue_buf (psq_contig prep) (psq_use_cmb prep)
          (dnvme_cmb_support_sq (ndev_cmb d)) size;
    match r with
    | None => kfree p;; mret None
    | Some (buf, dma, cmb) =>
      let sq := {|
        sq_ptr := p;
        sq_pub := {| sqp_sq_id := psq_sq_id prep; sqp_cq_id := psq_cq_id prep;
                     sqp_tail_ptr := 0; sqp_tail_ptr_virt := 0; sqp_head_ptr := 0;
                     sqp_elements := psq_elements prep; sqp_sqes := sqes |};
        sq_cmd_list := []; sq_buf := buf; sq_dma := dma; sq_size := size;
        sq_prps := None;
        sq_db := db_addr d (u32 (psq_sq_id prep * 2 * ndev_db_stride d));
        sq_next_cid := 0; sq_contig := psq_contig prep; sq_created := false;
        sq_use_cmb := cmb |} in
      ret ← xa_insert_ret (ndev_sqs d) (psq_sq_id prep);
      if ret <? 0
      then
        (if sq_contig sq
         then if sq_use_cmb sq then pci_free_p2pmem (sq_buf sq) (sq_size sq)
              else dma_free_coherent (sq_size sq) (sq_buf sq)
         else mret tt);;
        kfree p;;
        mret None
      else
        upd_dev (λ d, d <| ndev_sqs ::= <[psq_sq_id prep := sq]> |>);;
        mret (Some (psq_sq_id prep))
    end.

(** [None] is [NULL]; the object itself is the argument, so that it can be used
    after it has left the xarray. *)
Definition dnvme_release_sq (o : option nvme_sq) : M unit :=
  match o with
  | None => mret tt
  | Some sq =>
    upd_dev (λ d, d <| ndev_sqs ::= delete (sqp_sq_id (sq_pub sq)) |>);;
    sq ← dnvme_delete_cmd_list sq;
    (if sq_contig sq
     then if sq_use_cmb sq then pci_free_p2pmem (sq_buf sq) (sq_size sq)
          else dma_free_coherent (sq_size sq) (sq_buf sq)
     else dnvme_release_prps (sq_prps sq));;
    kfree (sq_ptr sq)
  end.

Definition dnvme_delete_sq (id : Z) : M unit :=
  d ← get_dev;
  match dnvme_find_sq d id with
  | None => mret tt
  | Some sq => dnvme_release_sq (Some sq)
  end.

Definition dnvme_alloc_cq (prep : nvme_prep_cq) (cqes : Z) : M (option Z) :=
  d ← get_dev;
  p ← kmalloc SIZEOF_nvme_cq;
  if p =? 0 then mret None
  else
    let size := u32 (Z.shiftl (pcq_elements prep) cqes) in
    r ← alloc_queue_buf (pcq_contig prep) (pcq_use_cmb prep)
          (dnvme_cmb_support_cq (ndev_cmb d)) size;
    match r with
    | None => kfree p;; mret None
    | Some (buf, dma, cmb) =>
      let cq := {|
        cq_ptr := p;
        cq_pub := {| cqp_q_id := pcq_cq_id prep; cqp_tail_ptr := 0; cqp_head_ptr := 0;
                     cqp_elements := pcq_elements prep;
                     cqp_irq_enabled := pcq_irq_en prep; cqp_irq_no := pcq_irq_no prep;
                     cqp_pbit_new_entry := 1; cqp_cqes := cqes |};
        cq_buf := buf; cq_dma := dma; cq_size := size; cq_prps := None;
        cq_db := db_addr d (u32 ((pcq_cq_id prep * 2 + 1) * ndev_db_stride d));
        cq_contig := pcq_contig prep; cq_created := false; cq_use_cmb := cmb |} in
      ret ← xa_insert_ret (ndev_cqs d) (pcq_cq_id prep);
      if ret <? 0
      then
        (if cq_contig cq
         then if cq_use_cmb cq then pci_free_p2pmem (cq_buf cq) (cq_dma cq)
              else dma_free_coherent (cq_size cq) (cq_buf cq)
         else mret tt);;
        kfree p;;
        mret None
      else
        upd_dev (λ d, d <| ndev_cqs ::= <[pcq_cq_id prep := cq]> |>);;
        mret (Some (pcq_cq_id prep))
    end.

(** The size given back for a queue in the CMB is its bus address. *)
Definition dnvme_release_cq (o : option nvme_cq) : M unit :=
  match o with
  | None => mret tt
  | Some cq =>
    upd_dev (λ d, d <| ndev_cqs ::= delete (cqp_q_id (cq_pub cq)) |>);;
    (if cq_contig cq
     then if cq_use_cmb cq then pci_free_p2pmem (cq_buf cq) (cq_dma cq)
          else dma_free_coherent (cq_size cq) (cq_buf cq)
     else dnvme_release_prps (cq_prps cq));;
    kfree (cq_ptr cq)
  end.

Definition dnvme_delete_cq (id : Z) : M unit :=
  d ← get_dev;
  match dnvme_find_cq d id with
  | None => mret tt
  | Some cq =>
    dnvme_delete_icq_node id (cqp_irq_no (cq_pub cq));;
    dnvme_release_cq (Some cq)
  end.

(** ** Admin queues *)

Definition dnvme_create_asq (elements : Z) : M Z :=
  bar0 ← get_bar0;
  if (elements =? 0) || (NVME_AQ_MAX_SIZE <? elements) then mret (- EINVAL)
  else
    d ← get_dev;
    let ret := dnvme_check_qid_unique d NVME_SQ 0 in
    if ret <? 0 then mret ret
    else
      cc ← dnvme_readl bar0 NVME_REG_CC;
      if negb (Z.land cc NVME_CC_ENABLE =? 0) then mret (- EPERM)
      else
        r ← dnvme_alloc_sq {| psq_elements := elements; psq_sq_id := 0; psq_cq_id := 0;
                              psq_contig := true; psq_use_cmb := false |} NVME_ADM_SQES;
        match r with
        | None => mret (- ENOMEM)
        | Some id =>
          aqa ← dnvme_readl bar0 NVME_REG_AQA;
          let aqa := Z.lor (Z.land aqa (u32 (Z.lnot NVME_AQA_ASQS_MASK)))
                           (NVME_AQA_FOR_ASQS (u32 (elements - 1))) in
          dnvme_writel bar0 NVME_REG_AQA aqa;;
          sq ← get_sq id;
          dnvme_writeq bar0 NVME_REG_ASQ (sq_dma sq);;
          mret 0
        end.

Definition dnvme_create_acq (elements : Z) : M Z :=
  bar0 ← get_bar0;
  if (elements =? 0) || (NVME_AQ_MAX_SIZE <? elements) then mret (- EINVAL)
  else
    d ← get_dev;
    let ret := dnvme_check_qid_unique d NVME_CQ 0 in
    if ret <? 0 then mret ret
    else
      cc ← dnvme_readl bar0 NVME_REG_CC;
      if negb (Z.land cc NVME_CC_ENABLE =? 0) then mret (- EPERM)
      else
        r ← dnvme_alloc_cq {| pcq_elements := elements; pcq_cq_id := 0; pcq_irq_en := 1;
                              pcq_irq_no := 0; pcq_contig := true;
                              pcq_use_cmb := false |} NVME_ADM_CQES;
        match r with
        | None => mret (- ENOMEM)
        | Some id =>
          aqa ← dnvme_readl bar0 NVME_REG_AQA;
          let aqa := Z.lor (Z.land aqa (u32 (Z.lnot NVME_AQA_ACQS_MASK)))
                           (NVME_AQA_FOR_ACQS (u32 (elements - 1))) in
          dnvme_writel bar0 NVME_REG_AQA aqa;;
          cq ← get_cq id;
          dnvme_writeq bar0 NVME_REG_ACQ (cq_dma cq);;
          mret 0
        end.

Definition dnvme_reinit_asq (id : Z) : M unit :=
  sq ← get_sq id;
  sq ← dnvme_delete_cmd_list sq;
  upd_sq id (λ _, sq <| sq_pub ::= λ p, p <| sqp_head_ptr := 0 |> <| sqp_tail_ptr := 0 |>
                                          <| sqp_tail_ptr_virt := 0 |> |>
                     <| sq_next_cid := 0 |>);;
  memset0 (sq_buf sq) (sq_size sq).

Definition dnvme_reinit_acq (id : Z) : M unit :=
  cq ← get_cq id;
  upd_cq id (λ cq, cq <| cq_pub ::= λ p, p <| cqp_head_ptr := 0 |> <| cqp_tail_ptr := 0 |>
                                          <| cqp_pbit_new_entry := 1 |>
                                          <| cqp_irq_enabled := 1 |> |>);;
  memset0 (cq_buf cq) (cq_size cq).

Definition dnvme_ring_sq_doorbell (id : Z) : M Z :=
  d ← get_dev;
  match dnvme_find_sq d id with
  | None => mret (- EINVAL)
  | Some sq =>
    let tail := sqp_tail_ptr_virt (sq_pub sq) in
    upd_sq id (λ sq, sq <| sq_pub ::= λ p, p <| sqp_tail_ptr := tail |> |>);;
    dnvme_writel (sq_db sq) 0 tail;;
    mret 0
  end.

Definition dnvme_delete_all_queues (state : nvme_state) : M unit :=
  bar0 ← get_bar0;
  let save_aq := negb (bool_decide (state = NVME_ST_DISABLE_COMPLETE)) in
  d ← get_dev;
  mapM_ (λ i,
    d ← get_dev;
    match dnvme_find_sq d i with
    | None => mret tt
    | Some sq =>
      if save_aq && (sqp_sq_id (sq_pub sq) =? NVME_AQ_ID) then dnvme_reinit_asq i
      else dnvme_release_sq (Some sq)
    end) (xa_keys (ndev_sqs d));;
  d ← get_dev;
  mapM_ (λ i,
    d ← get_dev;
    match dnvme_find_cq d i with
    | None => mret tt
    | Some cq =>
      if save_aq && (cqp_q_id (cq_pub cq) =? NVME_AQ_ID) then dnvme_reinit_acq i
      else dnvme_release_cq (Some cq)
    end) (xa_keys (ndev_cqs d));;
  if negb save_aq
  then
    dnvme_writel bar0 NVME_REG_AQA 0;;
    dnvme_writeq bar0 NVME_REG_ASQ 0;;
    dnvme_writeq bar0 NVME_REG_ACQ 0
  else mret tt.

(** [inq] is the structure at [uinq]. *)
Definition dnvme_inquiry_cqe (inq : nvme_inquiry) : M Z :=
  ok ← copy_from_user;
  if negb ok then mret (- EFAULT)
  else
    d ← get_dev;
    match dnvme_find_cq d (inq_cqid inq) with
    | None => mret (- EINVAL)
    | Some cq =>
      n ← dnvme_get_cqe_remain (inq_cqid inq);
      ok ← copy_to_user (UP_inquiry {| inq_cqid := inq_cqid inq; inq_nr_cqe := n |});
      if negb ok then mret (- EFAULT)
      else if cqp_elements (cq_pub cq) <=? n then mret (- EPERM) else mret 0
    end.

(** ** Completions *)

Definition handle_queue_cmd_completion (sq_id : Z) (cmd : nvme_cmd)
    (type : nvme_queue_type) (free_queue : bool) : M Z :=
  ret ← (if negb free_queue then mret 0
         else if cmd_target_qid cmd =? NVME_AQ_ID then mret (- EINVAL)
         else
           (match type with
            | NVME_CQ => dnvme_delete_cq (cmd_target_qid cmd)
            | NVME_SQ => dnvme_delete_sq (cmd_target_qid cmd)
            | _ => mret tt
            end);;
           mret 0);
  dnvme_delete_cmd sq_id cmd;;
  mret ret.

Definition handle_gen_cmd_completion (sq_id : Z) (cmd : nvme_cmd) : M Z :=
  dnvme_release_prps (cmd_prps cmd);;
  dnvme_delete_cmd sq_id cmd;;
  mret 0.

Definition handle_admin_cmd_completion (sq_id : Z) (cmd : nvme_cmd) (status : Z) : M Z :=
  let op := cmd_opcode cmd in
  if op =? nvme_admin_delete_sq
  then handle_queue_cmd_completion sq_id cmd NVME_SQ (status =? 0)
  else if op =? nvme_admin_create_sq
  then handle_queue_cmd_completion sq_id cmd NVME_SQ (negb (status =? 0))
  else if op =? nvme_admin_delete_cq
  then handle_queue_cmd_completion sq_id cmd NVME_CQ (status =? 0)
  else if op =? nvme_admin_create_cq
  then handle_queue_cmd_completion sq_id cmd NVME_CQ (negb (status =? 0))
  else handle_gen_cmd_completion sq_id cmd.

(** The entry at [base] of [data]. *)
Definition handle_cmd_completion (data : list Z) (base : Z) : M Z :=
  sqid ← cqe_sq_id data base;
  d ← get_dev;
  match dnvme_find_sq d sqid with
  | None => mret (- EBADSLT)
  | Some sq =>
    head ← cqe_sq_head data base;
    upd_sq sqid (λ sq, sq <| sq_pub ::= λ p, p <| sqp_head_ptr := head |> |>);;
    st ← cqe_status data base;
    let status := Z.land (NVME_CQE_STATUS_TO_STATE st) 0x7ff in
    cid ← cqe_command_id data base;
    match dnvme_find_cmd sq cid with
    | None => mret (- EBADSLT)
    | Some cmd =>
      if sqid =? NVME_AQ_ID then handle_admin_cmd_completion sqid cmd status
      else handle_gen_cmd_completion sqid cmd
    end
  end.

(** The loop of [copy_cq_data] over [nr] entries: the return code and how many
    are left.  [head] is [cq_head - cq_base]. *)
Fixpoint copy_loop (nr : nat) (id addr : Z) (head cqes : Z) : M (Z * Z) :=
  match nr with
  | O => mret (0, 0)
  | S nr' =>
    b ← get_block addr;
    latentErr ← handle_cmd_completion (blk_data b) head;
    b ← get_block addr;
    ok ← (match load_bytes (blk_data b) head cqes with
          | None => oops F_oob
          | Some bs => copy_to_user (UP_bytes bs)
          end);
    if negb ok then mret (- EFAULT, Z.of_nat nr)
    else
      cq ← get_cq id;
      let head := if cq_size cq <=? head + cqes then 0 else head + cqes in
      if negb (latentErr =? 0) then mret (latentErr, Z.of_nat nr')
      else copy_loop nr' id addr head cqes
  end.

Definition copy_cq_data (id nr_reap : Z) : M (Z * Z) :=
  cq ← get_cq id;
  let p := cq_pub cq in
  addr ← (if cq_contig cq then mret (cq_buf cq)
          else match cq_prps cq with
               | None => oops F_null
               | Some (_, prps) => mret (prps_buf prps)
               end);
  copy_loop (Z.to_nat nr_reap) id addr
    (u32 (Z.shiftl (cqp_head_ptr p) (cqp_cqes p))) (u32 (Z.shiftl 1 (cqp_cqes p))).

Definition update_cq_head (id num_reaped : Z) : M unit :=
  cq ← get_cq id;
  let p := cq_pub cq in
  let head := u32 (cqp_head_ptr p + num_reaped) in
  if (cqp_elements p <=? head) && (cqp_elements p =? 0) then oops F_ub
  else
    let wrap := cqp_elements p <=? head in
    let p' := p <| cqp_pbit_new_entry ::= λ b,
                     if wrap then (if b =? 0 then 1 else 0) else b |>
                <| cqp_head_ptr := u16 (if wrap then head mod cqp_elements p else head) |> in
    upd_cq id (λ cq, cq <| cq_pub := p' |>);;
    dnvme_writel (cq_db cq) 0 (cqp_head_ptr p').

(** [has_buf] is whether the user buffer is there. *)
Definition dnvme_reap_cqe (id expect : Z) (has_buf : bool) (size : Z) : M Z :=
  s ← get_irq_set;
  cq ← get_cq id;
  if expect =? 0 then mret (- EINVAL)
  else if negb has_buf then mret (- EFAULT)
  else if size <? u32 (Z.shiftl expect (cqp_cqes (cq_pub cq))) then mret (- ENOMEM)
  else
    '(_, actual) ← copy_cq_data id expect;
    let reaped := u32 (expect - actual) in
    (if reaped =? 0 then mret tt else update_cq_head id reaped);;
    remain ← dnvme_get_cqe_remain id;
    cq ← get_cq id;
    (if negb (bool_decide (is_irq_type s = NVME_INT_NONE)) &&
        (cqp_irq_enabled (cq_pub cq) =? 1) && (remain =? 0)
     then
       dnvme_reset_isr_flag (cqp_irq_no (cq_pub cq));;
       dnvme_unmask_interrupt (cqp_irq_no (cq_pub cq));;
       mret tt
     else mret tt);;
    mret reaped.

(** [reap] is the structure at [ureap]. *)
Definition dnvme_reap_cqe_legacy (reap : nvme_reap) : M Z :=
  s ← get_irq_set;
  ok ← copy_from_user;
  if negb ok then mret (- EFAULT)
  else
    d ← get_dev;
    let id := rp_cqid reap in
    match dnvme_find_cq d id with
    | None => mret (- EBADSLT)
    | Some cq =>
      let room := Z.shiftr (rp_size reap) (cqp_cqes (cq_pub cq)) in
      let expect := if rp_expect reap =? 0 then room else Z.min (rp_expect reap) room in
      remain ← dnvme_get_cqe_remain id;
      if cqp_elements (cq_pub cq) <=? remain then mret (- EPERM)
      else
        let reaped := Z.min expect remain in
        let remained := u32 (remain - reaped) in
        '(ret, actual) ← copy_cq_data id reaped;
        let reaped := u32 (reaped - actual) in
        let remained := u32 (remained + actual) in
        ok ← copy_to_user (UP_reap (reap <| rp_reaped := reaped |>
                                         <| rp_remained := remained |>));
        if negb ok then mret (if ret =? 0 then - EFAULT else ret)
        else
          (if reaped =? 0 then mret tt else update_cq_head id reaped);;
          cq ← get_cq id;
          if negb (bool_decide (is_irq_type s = NVME_INT_NONE)) &&
             (cqp_irq_enabled (cq_pub cq) =? 1) && (remained =? 0)
          then
            ret ← dnvme_reset_isr_flag (cqp_irq_no (cq_pub cq));
            if ret <? 0 then mret ret
            else dnvme_unmask_interrupt (cqp_irq_no (cq_pub cq));; mret 0
          else mret 0
    end.
End queue.
