(* ===== verification/Cmd.v ===== *)
(** * Commands

    The second part of [modules/dnvme/cmd.c]: the command nodes of a submission
    queue ([dnvme_add_cmd_node]), the preparation of a command with its data
    buffer ([dnvme_prepare_64b_cmd]), the checks on the commands that create and
    delete queues, and [dnvme_submit_64b_cmd], which places the command in the
    submission queue.

    The command itself is the byte list of [cmd_buf]; the functions take it and
    return it. *)

From S2P Require Import Prelude Types Kernel Own Prp Sgl Ring Queue.

Definition SIZEOF_nvme_cmd := 40.

(** Fields of the commands that name a queue: [create_sq.sqid], [create_cq.cqid]
    and [delete_queue.qid] are the same 16 bits; the flags follow the size. *)
Definition ccmd_qid := ccmd_get 2 40.
Definition ccmd_qflags := ccmd_get 2 44.

(** [copy_from_user(dst, p, n)], [mem] being the user memory from [p] on. *)
Definition user_bytes (mem : Z → Z) (n : Z) : list Z := (λ i, u8 (mem i)) <$> seqZ 0 n.

Section cmd.
Context {E : Env}.

(** [wait_sq->prps = prps], [wait_cq->prps = prps]: what the pointer held before is
    overwritten. *)
Definition set_sq_prps (id : Z) (prps : option (owned nvme_prps)) : M unit :=
  upd_sq id (λ q, q <| sq_prps := prps |>).
Definition set_cq_prps (id : Z) (prps : option (owned nvme_prps)) : M unit :=
  upd_cq id (λ q, q <| cq_prps := prps |>).

(** The queue a queue command waits for. *)
Inductive wait_queue := WAIT_none | WAIT_sq | WAIT_cq.

(** [target_qid] and the waiting queue of a command. *)
Definition cmd_target (sqid : Z) (ccmd : list Z) : M (Z * wait_queue) :=
  if sqid =? NVME_AQ_ID then
    op ← ccmd_opcode ccmd;
    d ← get_dev;
    if op =? nvme_admin_create_sq then
      qid ← ccmd_qid ccmd;
      match dnvme_find_sq d qid with
      | Some _ => mret (qid, WAIT_sq)
      | None => oops F_bug
      end
    else if op =? nvme_admin_create_cq then
      qid ← ccmd_qid ccmd;
      match dnvme_find_cq d qid with
      | Some _ => mret (qid, WAIT_cq)
      | None => oops F_bug
      end
    else if (op =? nvme_admin_delete_sq) || (op =? nvme_admin_delete_cq) then
      qid ← ccmd_qid ccmd; mret (qid, WAIT_none)
    else mret (0, WAIT_none)
  else mret (0, WAIT_none).

(** [prps] is [NULL] or the structure the command keeps. *)
Definition dnvme_add_cmd_node (cmd : nvme_64b_cmd) (ccmd : list Z)
    (prps : option (owned nvme_prps)) : M Z :=
  let sqid := c64_sqid cmd in
  d ← get_dev;
  match dnvme_find_sq d sqid with
  | None => mret (- EBADSLT)
  | Some sq =>
    p ← kmalloc SIZEOF_nvme_cmd;
    if p =? 0 then mret (- ENOMEM)
    else
      cid ← ccmd_command_id ccmd;
      op ← ccmd_opcode ccmd;
      '(target, wait) ← cmd_target sqid ccmd;
      (match prps with
       | None => mret tt
       | Some _ =>
         if target =? 0 then mret tt
         else match wait with
              | WAIT_sq => set_sq_prps target prps
              | WAIT_cq => set_cq_prps target prps
              | WAIT_none => mret tt
              end
       end);;
      let node := {|
        cmd_ptr := p; cmd_cid := cid; cmd_sqid := sqid; cmd_target_qid := target;
        cmd_idx := sqp_tail_ptr_virt (sq_pub sq); cmd_opcode := op;
        cmd_prps := if target =? 0 then prps else None |} in
      upd_sq sqid (λ q, q <| sq_cmd_list ::= λ l, l ++ [node] |>);;
      mret 0
  end.

(** Whether the command has a data buffer to describe, and whether it is the
    memory of a queue. *)
Definition cmd_need_prp (cmd : nvme_64b_cmd) (op : Z) : bool * bool :=
  let has_buf := negb (c64_data_buf_ptr cmd =? 0) in
  if c64_sqid cmd =? NVME_AQ_ID then
    if (op =? nvme_admin_create_sq) || (op =? nvme_admin_create_cq) then (has_buf, has_buf)
    else if (op =? nvme_admin_delete_sq) || (op =? nvme_admin_delete_cq) then (false, false)
    else (has_buf, false)
  else (has_buf, false).

(** The result is [ret] and the command. *)
Definition dnvme_prepare_64b_cmd (cmd : nvme_64b_cmd) (ccmd : list Z) : M (Z * list Z) :=
  op ← (if c64_sqid cmd =? NVME_AQ_ID then ccmd_opcode ccmd else mret 0);
  let '(need_prp, queue_mem) := cmd_need_prp cmd op in
  if negb need_prp
  then ret ← dnvme_add_cmd_node cmd ccmd None; mret (ret, ccmd)
  else
    p ← kmalloc SIZEOF_nvme_prps;
    if p =? 0 then mret (- ENOMEM, ccmd)
    else
      d ← get_dev;
      let pool := if queue_mem : bool
                  then (if ndev_queue_pool d =? 0 then ndev_cmd_pool d else ndev_queue_pool d)
                  else ndev_cmd_pool d in
      let prps := prps_zero <| pg_pool := pool |> in
      '(ret, prps) ← dnvme_cmd_map_user_page cmd ccmd prps;
      if ret <? 0 then kfree p;; mret (ret, ccmd)
      else
        flags ← ccmd_flags ccmd;
        '(ret, ccmd, prps) ←
          (if dnvme_use_sgls flags cmd
           then '(ret, ccmd, prps) ← dnvme_cmd_setup_sgl cmd ccmd prps;
                mret (ret, ccmd, prps <| is_sgl := true |>)
           else '(ret, ccmd, prps) ← dnvme_setup_prps cmd ccmd prps;
                mret (ret, ccmd, prps <| is_sgl := false |>));
        if ret <? 0 then dnvme_unmap_user_page prps;; kfree p;; mret (ret, ccmd)
        else
          ret ← dnvme_add_cmd_node cmd ccmd (Some (p, prps));
          if ret <? 0
          then prps ← dnvme_free_prp_list prps; dnvme_unmap_user_page prps;; kfree p;;
               mret (ret, ccmd)
          else mret (0, ccmd).

(** [sq_flags] and [contig] agree, and the memory is where [contig] says. *)
Definition contig_mismatch (flags : Z) (contig : bool) : bool :=
  (has_mask flags NVME_QUEUE_PHYS_CONTIG && negb contig) ||
  (negb (has_mask flags NVME_QUEUE_PHYS_CONTIG) && contig).
Definition mem_mismatch (cmd : nvme_64b_cmd) (contig : bool) (buf : Z) : bool :=
  (negb contig && (c64_data_buf_ptr cmd =? 0)) || (contig && (buf =? 0)).

(** [dptr] of a contiguous queue: PRP1 is its memory. *)
Definition ccmd_set_queue_mem (dma : Z) (ccmd : list Z) : M (list Z) :=
  c ← ccmd_set_prp1 dma ccmd; ccmd_set_prp2 0 c.

Definition dnvme_create_iosq (cmd : nvme_64b_cmd) (ccmd : list Z) : M (Z * list Z) :=
  id ← ccmd_qid ccmd;
  d ← get_dev;
  match dnvme_find_sq d id with
  | None => mret (- EINVAL, ccmd)
  | Some wait_sq =>
    flags ← ccmd_qflags ccmd;
    if contig_mismatch flags (sq_contig wait_sq) then mret (- EINVAL, ccmd)
    else if mem_mismatch cmd (sq_contig wait_sq) (sq_buf wait_sq) then mret (- EINVAL, ccmd)
    else if sq_created wait_sq then mret (- EPERM, ccmd)
    else
      '(ret, ccmd) ← dnvme_prepare_64b_cmd cmd ccmd;
      if ret <? 0 then mret (ret, ccmd)
      else
        ccmd ← (if sq_contig wait_sq then ccmd_set_queue_mem (sq_dma wait_sq) ccmd
                else mret ccmd);
        upd_sq id (λ q, q <| sq_created := true |>);;
        mret (0, ccmd)
  end.

Definition dnvme_delete_iosq (cmd : nvme_64b_cmd) (ccmd : list Z) : M (Z * list Z) :=
  '(ret, ccmd) ← dnvme_prepare_64b_cmd cmd ccmd;
  if ret <? 0 then mret (ret, ccmd) else mret (0, ccmd).

Definition dnvme_create_iocq (cmd : nvme_64b_cmd) (ccmd : list Z) : M (Z * list Z) :=
  id ← ccmd_qid ccmd;
  d ← get_dev;
  match dnvme_find_cq d id with
  | None => mret (- EBADSLT, ccmd)
  | Some wait_cq =>
    flags ← ccmd_qflags ccmd;
    if contig_mismatch flags (cq_contig wait_cq) then mret (- EINVAL, ccmd)
    else if mem_mismatch cmd (cq_contig wait_cq) (cq_buf wait_cq) then mret (- EINVAL, ccmd)
    else if cq_created wait_cq then mret (- EINVAL, ccmd)
    else if has_mask flags NVME_CQ_IRQ_ENABLED &&
            bool_decide (is_irq_type (ndev_irq_set d) = NVME_INT_NONE)
    then mret (- EINVAL, ccmd)
    else
      '(ret, ccmd) ← dnvme_prepare_64b_cmd cmd ccmd;
      if ret <? 0 then mret (ret, ccmd)
      else
        ccmd ← (if cq_contig wait_cq then ccmd_set_queue_mem (cq_dma wait_cq) ccmd
                else mret ccmd);
        upd_cq id (λ q, q <| cq_created := true |>);;
        mret (0, ccmd)
  end.

Definition dnvme_delete_iocq (cmd : nvme_64b_cmd) (ccmd : list Z) : M (Z * list Z) :=
  '(ret, ccmd) ← dnvme_prepare_64b_cmd cmd ccmd;
  if ret <? 0 then mret (ret, ccmd) else mret (0, ccmd).

Definition dnvme_deal_ccmd (cmd : nvme_64b_cmd) (ccmd : list Z) : M (Z * list Z) :=
  '(ret, ccmd) ← dnvme_prepare_64b_cmd cmd ccmd;
  if ret <? 0 then mret (ret, ccmd) else mret (0, ccmd).

(** The bus address of a meta buffer: [meta->prps->pg_addr[0]] when it is
    described by an SGL. *)
Definition dnvme_fill_mptr (ccmd : list Z) (meta_id : Z) : M (Z * list Z) :=
  d ← get_dev;
  match dnvme_find_meta d meta_id with
  | None => mret (- EINVAL, ccmd)
  | Some meta =>
    a ← (if meta_contig meta then mret (meta_dma meta)
         else match meta_prps meta with
              | None => oops F_null
              | Some (_, prps) =>
                if pg_addr_ptr prps =? 0 then oops F_null else get_dma (pg_addr prps) 0
              end);
    ccmd ← ccmd_set_metadata a ccmd;
    mret (0, ccmd)
  end.

(** The handler of the command, by queue and opcode. *)
Definition dispatch_ccmd (cmd : nvme_64b_cmd) (ccmd : list Z) : M (Z * list Z) :=
  if c64_sqid cmd =? NVME_AQ_ID then
    op ← ccmd_opcode ccmd;
    if op =? nvme_admin_delete_sq then dnvme_delete_iosq cmd ccmd
    else if op =? nvme_admin_create_sq then dnvme_create_iosq cmd ccmd
    else if op =? nvme_admin_delete_cq then dnvme_delete_iocq cmd ccmd
    else if op =? nvme_admin_create_cq then dnvme_create_iocq cmd ccmd
    else dnvme_deal_ccmd cmd ccmd
  else dnvme_deal_ccmd cmd ccmd.

(** Copy the command to entry [tail_ptr_virt] and advance the tail. *)
Definition place_cmd (sqid : Z) (ccmd : list Z) : M unit :=
  sq ← get_sq sqid;
  let p := sq_pub sq in
  let off := u32 (Z.shiftl (sqp_tail_ptr_virt p) (sqp_sqes p)) in
  (if sq_contig sq then mem_write (sq_buf sq) off ccmd
   else match sq_prps sq with
        | None => oops F_null
        | Some (_, prps) => mem_write (prps_buf prps) off ccmd;; emit E_sync_sg
        end);;
  if sqp_elements p =? 0 then oops F_ub
  else upd_sq sqid (λ q, q <| sq_pub ::= λ p, p <| sqp_tail_ptr_virt ::= λ t,
                                u16 (u32 (t + 1) mod sqp_elements p) |> |>).

(** [cmd] is the structure at [ucmd] and [mem] the memory at its [cmd_buf_ptr]. *)
Definition dnvme_submit_64b_cmd (cmd : nvme_64b_cmd) (mem : Z → Z) : M Z :=
  ok ← copy_from_user;
  if negb ok then mret (- EFAULT)
  else if negb (c64_has_cmd_buf cmd) then mret (- EFAULT)
  else if (negb (c64_data_buf_size cmd =? 0) && (c64_data_buf_ptr cmd =? 0)) ||
          ((c64_data_buf_size cmd =? 0) && negb (c64_data_buf_ptr cmd =? 0))
  then mret (- EINVAL)
  else
    let sqid := c64_sqid cmd in
    d ← get_dev;
    match dnvme_find_sq d sqid with
    | None => mret (- EBADSLT)
    | Some sq =>
      full ← dnvme_sq_is_full (sq_pub sq);
      if full : bool then mret (- EBUSY)
      else
        let len := Z.shiftl 1 (sqp_sqes (sq_pub sq)) in
        p ← kmalloc len;
        if p =? 0 then mret (- ENOMEM)
        else
          let out (ret : Z) : M Z := kfree p;; mret ret in
          ok ← copy_from_user;
          if negb ok then out (- EFAULT)
          else
            let ccmd := user_bytes mem len in
            let cid := sq_next_cid sq in
            upd_sq sqid (λ q, q <| sq_next_cid := u16 (cid + 1) |>);;
            let cmd := cmd <| c64_cid := cid |> in
            ccmd ← ccmd_set_command_id cid ccmd;
            ok ← copy_to_user (UP_64b_cmd cmd);
            if negb ok then out (- EFAULT)
            else
              '(ret, ccmd) ← (if has_mask (c64_bit_mask cmd) NVME_MASK_MPTR
                              then dnvme_fill_mptr ccmd (c64_meta_id cmd)
                              else mret (0, ccmd));
              if ret <? 0 then out ret
              else
                '(ret, ccmd) ← dispatch_ccmd cmd ccmd;
                if ret <? 0
                then upd_sq sqid (λ q, q <| sq_next_cid ::= λ c, u16 (c - 1) |>);; out ret
                else
                  place_cmd sqid ccmd;;
                  kfree p;;
                  mret 0
    end.
End cmd.
