(* ===== verification/Tamper.v ===== *)
(** * Tampering with commands in flight

    The third part of [modules/dnvme/cmd.c] ([dnvme_tamper_cmd] and its helpers):
    a test program inquires, fetches or modifies a command that is in a submission
    queue, its PRP list or its SGL segments.

    [struct nvme_cmd_tamper] is kept as its bytes (x86-64 layout of
    [include/uapi/dnvme.h]): [sqid] at 0, [cid] at 2, [option] at 4, the nine flag
    bits from byte 5 on, the three sizes at 8, 12 and 16, the command at 24, the
    flexible [data] at 88.  In [data] the entries of a list follow its 32-bit
    counter at offset 8. *)

From S2P Require Import Prelude Types Kernel Own Prp Sgl Ring Queue Cmd.

Definition SIZEOF_cmd_tamper := 88.
Definition TAMPER_CMD_OFF := 24.
Definition SIZEOF_common_command := 64.
Definition TAMPER_ENTRY_OFF := SIZEOF_cmd_tamper + 8.

Definition NVME_TAMPER_OPT_INQUIRY := 1.
Definition NVME_TAMPER_OPT_FETCH := 2.
Definition NVME_TAMPER_OPT_MODIFY := 3.

Definition tamper_field (n : nat) (off : Z) (t : list Z) : Z := default 0 (load_le n t off).
Definition tamper_sqid := tamper_field 2 0.
Definition tamper_cid := tamper_field 2 2.
Definition tamper_option := tamper_field 1 4.
Definition tamper_flag (k : Z) (t : list Z) : bool := Z.testbit (tamper_field 2 5 t) k.
Definition inq_prp_list := tamper_flag 0.
Definition inq_prp_page := tamper_flag 1.
Definition inq_sgl_seg := tamper_flag 2.
Definition fet_prp_list := tamper_flag 3.
Definition fet_sgl_seg := tamper_flag 5.
Definition mdf_prp_list := tamper_flag 6.
Definition mdf_sgl_seg := tamper_flag 8.
Definition tamper_prp_list_size := tamper_field 4 8.
Definition tamper_sgl_seg_size := tamper_field 4 16.

(** Stores into a buffer held by value; an access outside it faults. *)
Definition put_bytes (off : Z) (bs buf : list Z) : M (list Z) :=
  match store_bytes buf off bs with Some b => mret b | None => oops F_oob end.
Definition put_le (n : nat) (off v : Z) (buf : list Z) : M (list Z) :=
  put_bytes off (le_bytes n v) buf.
Definition take_le (n : nat) (off : Z) (buf : list Z) : M Z :=
  match load_le n buf off with Some v => mret v | None => oops F_oob end.

Definition dnvme_tamper_cmd_get_prp_list_size (cmd : nvme_cmd) : Z :=
  match cmd_prps cmd with
  | Some (_, prps) =>
    if negb (is_sgl prps) && negb (nr_entry prps =? 0) then u32 (8 * nr_entry prps) else 0
  | None => 0
  end.
Definition dnvme_tamper_cmd_get_prp_page_size (cmd : nvme_cmd) : Z := 0.
Definition dnvme_tamper_cmd_get_sgl_seg_size (cmd : nvme_cmd) : Z :=
  match cmd_prps cmd with
  | Some (_, prps) =>
    if is_sgl prps && negb (nr_entry prps =? 0) then u32 (SGL_DESC_SIZE * nr_entry prps) else 0
  | None => 0
  end.

(** The block and the offset of entry [idx] of a submission queue. *)
Definition sq_entry (sq : nvme_sq) (idx : Z) : M (Z * Z) :=
  let off := u32 (Z.shiftl idx (sqp_sqes (sq_pub sq))) in
  if sq_contig sq then mret (sq_buf sq, off)
  else match sq_prps sq with
       | None => oops F_null
       | Some (_, prps) => mret (prps_buf prps, off)
       end.

(** A descriptor is 16 bytes: address, length, three reserved bytes, type. *)
Definition desc_bytes (d : nvme_sgl_desc) : list Z :=
  le_bytes 8 (sge_addr d) ++ le_bytes 4 (sge_length d) ++ [0; 0; 0] ++ le_bytes 1 (sge_type d).
Definition desc_of_bytes (off : Z) (buf : list Z) : M nvme_sgl_desc :=
  a ← take_le 8 off buf; l ← take_le 4 (off + 8) buf; t ← take_le 1 (off + 15) buf;
  mret (mk_sgl_desc a l t).

(** [cmd->prps->prp_list[i]], in the view the caller casts it to; a list of the
    other kind would be reinterpreted, which is not modelled and faults. *)
Definition prp_view (prps : nvme_prps) : M (list (list Z)) :=
  match prp_list prps with
  | PP_prp pages => mret pages
  | PP_sgl _ => oops F_ub
  | PP_null => oops F_null
  end.
Definition sgl_view (prps : nvme_prps) : M (list (list nvme_sgl_desc)) :=
  match prp_list prps with
  | PP_sgl pages => mret pages
  | PP_prp _ => oops F_ub
  | PP_null => oops F_null
  end.
Definition need_prps (cmd : nvme_cmd) : M nvme_prps :=
  match cmd_prps cmd with Some (_, prps) => mret prps | None => oops F_null end.

Section tamper.
Context {E : Env}.

Definition dnvme_tamper_cmd_fetch_cmd (sq : nvme_sq) (cmd : nvme_cmd) (tamper : list Z) :
    M (list Z) :=
  '(p, off) ← sq_entry sq (cmd_idx cmd);
  bs ← mem_read p off SIZEOF_common_command;
  put_bytes TAMPER_CMD_OFF bs tamper.

(** The two nested loops copy the entries in the order of the pages; the copy of
    entry [cnt] goes to [data]. *)
Fixpoint fetch_entries {A} (put : Z → A → list Z → M (list Z)) (ents : list A)
    (cnt nr : Z) (all : list Z) : M (list Z) :=
  match ents with
  | [] => mret all
  | e :: ents =>
    all ← put cnt e all;
    if nr <=? cnt + 1 then mret all else fetch_entries put ents (cnt + 1) nr all
  end.

Definition dnvme_tamper_cmd_fetch_prp_list (cmd : nvme_cmd) (all : list Z) : M (list Z) :=
  prps ← need_prps cmd;
  all ← put_le 4 SIZEOF_cmd_tamper (nr_entry prps) all;
  pages ← prp_view prps;
  fetch_entries (λ cnt e, put_le 8 (TAMPER_ENTRY_OFF + 8 * cnt) e)
    (mjoin (take (Z.to_nat NVME_PRPS_PER_PAGE) <$> take (Z.to_nat (nr_pages prps)) pages))
    0 (nr_entry prps) all.

Definition dnvme_tamper_cmd_fetch_sgl_seg (cmd : nvme_cmd) (all : list Z) : M (list Z) :=
  prps ← need_prps cmd;
  all ← put_le 4 SIZEOF_cmd_tamper (nr_entry prps) all;
  pages ← sgl_view prps;
  fetch_entries (λ cnt e, put_bytes (TAMPER_ENTRY_OFF + SGL_DESC_SIZE * cnt) (desc_bytes e))
    (mjoin (take (Z.to_nat NVME_SGES_PER_PAGE) <$> take (Z.to_nat (nr_pages prps)) pages))
    0 (nr_entry prps) all.

Definition dnvme_tamper_cmd_modify_cmd (sq : nvme_sq) (cmd : nvme_cmd) (tamper : list Z) :
    M unit :=
  '(p, off) ← sq_entry sq (cmd_idx cmd);
  match load_bytes tamper TAMPER_CMD_OFF SIZEOF_common_command with
  | None => oops F_oob
  | Some bs =>
    mem_write p off bs;;
    if sq_contig sq then mret tt else emit E_sync_sg
  end.

(** The inner loop over the entries of page [i]: the pages, the next count, and
    whether all entries are done. *)
Fixpoint modify_page {A} (n : nat) (get : Z → M A) (i j : Z) (pages : list (list A))
    (cnt nr : Z) : M (list (list A) * Z * bool) :=
  match n with
  | O => mret (pages, cnt, false)
  | S n =>
    e ← get cnt;
    pages ← set_cell pages i j e;
    if nr <=? cnt + 1 then mret (pages, cnt + 1, true)
    else modify_page n get i (j + 1) pages (cnt + 1) nr
  end.
Fixpoint modify_pages {A} (n : nat) (width : Z → nat) (get : Z → M A) (i : Z)
    (pages : list (list A)) (cnt nr : Z) : M (list (list A)) :=
  match n with
  | O => mret pages
  | S n =>
    '(pages, cnt, fin) ← modify_page (width i) get i 0 pages cnt nr;
    if fin : bool then mret pages else modify_pages n width get (i + 1) pages cnt nr
  end.

(** Store the pages in the command of queue [sqid]. *)
Definition upd_cmd_pages (sqid : Z) (cmd : nvme_cmd) (pages : prp_pages) : M unit :=
  upd_sq sqid (λ q, q <| sq_cmd_list ::= fmap (λ c,
    if cmd_ptr c =? cmd_ptr cmd
    then c <| cmd_prps ::= fmap (λ pp, (pp.1, pp.2 <| prp_list := pages |>)) |>
    else c) |>).

Definition dnvme_tamper_cmd_modify_prp_list (sqid : Z) (cmd : nvme_cmd) (all : list Z) :
    M unit :=
  _ ← take_le 4 SIZEOF_cmd_tamper all;
  prps ← need_prps cmd;
  pages ← prp_view prps;
  pages ← modify_pages (Z.to_nat (nr_pages prps)) (λ _, Z.to_nat NVME_PRPS_PER_PAGE)
            (λ cnt, take_le 8 (TAMPER_ENTRY_OFF + 8 * cnt) all) 0 pages 0 (nr_entry prps);
  upd_cmd_pages sqid cmd (PP_prp pages).

(** The condition of the inner loop is on the page index: it runs until all entries
    are done for the first pages, and never for the pages behind. *)
Definition dnvme_tamper_cmd_modify_sgl_seg (sqid : Z) (cmd : nvme_cmd) (all : list Z) :
    M unit :=
  _ ← take_le 4 SIZEOF_cmd_tamper all;
  prps ← need_prps cmd;
  pages ← sgl_view prps;
  pages ← modify_pages (Z.to_nat (nr_pages prps))
            (λ i, if i <? NVME_SGES_PER_PAGE then S (Z.to_nat (nr_entry prps)) else O)
            (λ cnt, desc_of_bytes (TAMPER_ENTRY_OFF + SGL_DESC_SIZE * cnt) all)
            0 pages 0 (nr_entry prps);
  upd_cmd_pages sqid cmd (PP_sgl pages).

(** The error message for a queue that does not exist reads [cmd->sqid] through a
    [NULL] pointer. *)
Definition tamper_find {A} (tamper : list Z) (k : nvme_sq → nvme_cmd → M A)
    (enoent : A) : M A :=
  d ← get_dev;
  match dnvme_find_sq d (tamper_sqid tamper) with
  | None => oops F_null
  | Some sq =>
    match dnvme_find_cmd sq (tamper_cid tamper) with
    | None => mret enoent
    | Some cmd => k sq cmd
    end
  end.

(** [sizeof(tamper)] is the size of a pointer. *)
Definition dnvme_tamper_cmd_inquiry (tamper : list Z) : M Z :=
  tamper_find tamper (λ sq cmd,
    tamper ← dnvme_tamper_cmd_fetch_cmd sq cmd tamper;
    tamper ← (if inq_prp_list tamper
              then put_le 4 8 (dnvme_tamper_cmd_get_prp_list_size cmd) tamper
              else mret tamper);
    tamper ← (if inq_prp_page tamper
              then put_le 4 12 (dnvme_tamper_cmd_get_prp_page_size cmd) tamper
              else mret tamper);
    tamper ← (if inq_sgl_seg tamper
              then put_le 4 16 (dnvme_tamper_cmd_get_sgl_seg_size cmd) tamper
              else mret tamper);
    ok ← copy_to_user (UP_bytes (take (Z.to_nat SIZEOF_ptr) tamper));
    mret (if negb ok then - EFAULT else 0)) (- ENOENT).

Definition dnvme_tamper_cmd_fetch (tamper : list Z) : M Z :=
  tamper_find tamper (λ sq cmd,
    let prp := fet_prp_list tamper in
    let sgl := fet_sgl_seg tamper in
    if prp && sgl then mret (- EINVAL)
    else if prp && negb (tamper_prp_list_size tamper =?
                         dnvme_tamper_cmd_get_prp_list_size cmd) then mret (- EINVAL)
    else if sgl && negb (tamper_sgl_seg_size tamper =?
                         dnvme_tamper_cmd_get_sgl_seg_size cmd) then mret (- EINVAL)
    else
      let size := u32 (SIZEOF_cmd_tamper + (if prp then tamper_prp_list_size tamper else 0) +
                       (if sgl then tamper_sgl_seg_size tamper else 0)) in
      p ← kmalloc size;
      if p =? 0 then mret (- ENOMEM)
      else
        all ← put_bytes 0 (take (Z.to_nat SIZEOF_cmd_tamper) tamper) (zeros size);
        all ← dnvme_tamper_cmd_fetch_cmd sq cmd all;
        all ← (if prp && negb (tamper_prp_list_size tamper =? 0)
               then dnvme_tamper_cmd_fetch_prp_list cmd all else mret all);
        all ← (if sgl && negb (tamper_sgl_seg_size tamper =? 0)
               then dnvme_tamper_cmd_fetch_sgl_seg cmd all else mret all);
        ok ← copy_to_user (UP_bytes all);
        kfree p;;
        mret (if negb ok then - EFAULT else 0)) (- ENOENT).

(** [mem] is the user memory at [utamper]. *)
Definition dnvme_tamper_cmd_modify (tamper : list Z) (mem : Z → Z) : M Z :=
  tamper_find tamper (λ sq cmd,
    let prp := fet_prp_list tamper in
    if prp && negb (tamper_prp_list_size tamper =?
                    dnvme_tamper_cmd_get_prp_list_size cmd) then mret (- EINVAL)
    else
      let size := u32 (SIZEOF_cmd_tamper + (if prp then tamper_prp_list_size tamper else 0)) in
      p ← kmalloc size;
      if p =? 0 then mret (- ENOMEM)
      else
        ok ← copy_from_user;
        if negb ok then kfree p;; mret (- EFAULT)
        else
          let all := user_bytes mem size in
          (if mdf_prp_list tamper && negb (tamper_prp_list_size tamper =? 0)
           then dnvme_tamper_cmd_modify_prp_list (tamper_sqid tamper) cmd all else mret tt);;
          (if mdf_sgl_seg tamper && negb (tamper_sgl_seg_size tamper =? 0)
           then dnvme_tamper_cmd_modify_sgl_seg (tamper_sqid tamper) cmd all else mret tt);;
          dnvme_tamper_cmd_modify_cmd sq cmd tamper;;
          kfree p;;
          mret 0) (- ENOENT).

Definition dnvme_tamper_cmd (mem : Z → Z) : M Z :=
  ok ← copy_from_user;
  if negb ok then mret (- EFAULT)
  else
    let tamper := user_bytes mem SIZEOF_cmd_tamper in
    let option := tamper_option tamper in
    if option =? NVME_TAMPER_OPT_INQUIRY then dnvme_tamper_cmd_inquiry tamper
    else if option =? NVME_TAMPER_OPT_FETCH then dnvme_tamper_cmd_fetch tamper
    else if option =? NVME_TAMPER_OPT_MODIFY then dnvme_tamper_cmd_modify tamper mem
    else mret (- EINVAL).
End tamper.
