(* ===== verification/Meta.v ===== *)
(** * Meta buffers

    [modules/dnvme/meta.c]: the buffers for the metadata of commands, one DMA
    block or pages of the user described by an SGL. *)

From S2P Require Import Prelude Types Kernel Own Prp PrpSpec Sgl Ring Queue.

Definition SIZEOF_nvme_meta := 48.

Section meta.
Context {E : Env}.

(** The loop that stores the descriptors of the scatterlist from page 1 on; [nr]
    is [nr_desc], the descriptors left. *)
Fixpoint meta_fill (fuel : nat) (prp_dma : list Z) (j k nr : Z) (sgs : list scatterlist)
    (pages : list (list nvme_sgl_desc)) : M (list (list nvme_sgl_desc)) :=
  if nr =? 0 then mret pages
  else
  match fuel with
  | O => hang
  | S fuel =>
    if k =? NVME_SGES_PER_PAGE - 1
    then
      d ← get_dma prp_dma (j + 1);
      pages ← set_cell pages j k (dnvme_sgl_set_seg d nr);
      meta_fill fuel prp_dma (j + 1) 0 nr sgs pages
    else
      match sgs with
      | [] => oops F_null
      | s :: sgs =>
        pages ← set_cell pages j k (dnvme_sgl_set_data s);
        meta_fill fuel prp_dma j (k + 1) (nr - 1) sgs pages
      end
  end.

Definition dnvme_meta_setup_sgl (prps : nvme_prps) : M (Z * nvme_prps) :=
  let nr_desc := num_map_pgs prps in
  let nr_seg := u32 (if nr_desc =? 1 then 1
                     else DIV_ROUND_UP (SGL_DESC_SIZE * nr_desc) (PAGE_SIZE - SGL_DESC_SIZE) + 1) in
  r ← alloc_list (pg_pool prps) nr_seg;
  match r with
  | None => mret (- ENOMEM, prps)
  | Some (lp, dp, pgs) =>
    let prp_dma := pgs.*2 in
    let pages := replicate (length pgs) (replicate (Z.to_nat NVME_SGES_PER_PAGE) sgl_desc_zero) in
    let prps := prps <| prp_list_ptr := lp |> <| pg_va := pgs.*1 |>
                     <| pg_addr_ptr := dp |> <| pg_addr := prp_dma |>
                     <| nr_pages := nr_seg |> in
    if nr_desc =? 1
    then
      match sg prps with
      | [] => oops F_null
      | s :: _ =>
        pages ← set_cell pages 0 0 (dnvme_sgl_set_data s);
        mret (0, prps <| prp_list := PP_sgl pages |>)
      end
    else
      d ← get_dma prp_dma 1;
      pages ← set_cell pages 0 0 (dnvme_sgl_set_seg d nr_desc);
      pages ← meta_fill (2 * Z.to_nat nr_desc) prp_dma 1 0 nr_desc (sg prps) pages;
      mret (0, prps <| prp_list := PP_sgl pages |>)
  end.

(** The result is [ret] and [meta->prps]. *)
Definition dnvme_meta_prepare_sgl (buf size : Z) : M (Z * option (owned nvme_prps)) :=
  p ← kmalloc SIZEOF_nvme_prps;
  if p =? 0 then mret (- ENOMEM, None)
  else
    d ← get_dev;
    let prps := prps_zero <| pg_pool := ndev_meta_pool d |> in
    '(ret, prps) ← dnvme_map_user_page prps buf size DMA_BIDIRECTIONAL true;
    if ret <? 0 then kfree p;; mret (ret, None)
    else
      '(ret, prps) ← dnvme_meta_setup_sgl prps;
      if ret <? 0
      then dnvme_unmap_user_page prps;; kfree p;; mret (ret, None)
      else mret (0, Some (p, prps)).

(** [get_random_bytes(p, n)] *)
Definition get_random_bytes (p n : Z) : M unit :=
  h ← gets w_hist; mem_write p 0 (unset_bytes h n).

(** [mc] is the structure at [umc]. *)
Definition dnvme_create_meta_node (mc : nvme_meta_create) : M Z :=
  ok ← copy_from_user;
  if negb ok then mret (- EFAULT)
  else if (mc_contig mc =? 0) && (mc_buf mc =? 0) then mret (- EINVAL)
  else
    d ← get_dev;
    match dnvme_find_meta d (mc_id mc) with
    | Some _ => mret (- EEXIST)
    | None =>
      p ← kmalloc SIZEOF_nvme_meta;
      if p =? 0 then mret (- ENOMEM)
      else
        '(ret, meta) ←
          (if negb (mc_contig mc =? 0)
           then
             '(buf, dma) ← dma_alloc_coherent (mc_size mc);
             let meta := {| meta_ptr := p; meta_id := mc_id mc; meta_buf := buf;
                            meta_dma := dma; meta_size := mc_size mc; meta_prps := None;
                            meta_contig := true |} in
             if buf =? 0 then mret (- ENOMEM, meta)
             else get_random_bytes buf (mc_size mc);; mret (0, meta)
           else
             '(ret, prps) ← dnvme_meta_prepare_sgl (mc_buf mc) (mc_size mc);
             mret (ret, {| meta_ptr := p; meta_id := mc_id mc; meta_buf := 0;
                           meta_dma := 0; meta_size := mc_size mc; meta_prps := prps;
                           meta_contig := false |}));
        if ret <? 0 then kfree p;; mret ret
        else
          ret ← xa_insert_ret (ndev_meta d) (mc_id mc);
          if ret <? 0
          then
            (if negb (mc_contig mc =? 0)
             then dma_free_coherent (meta_size meta) (meta_buf meta)
             else dnvme_release_prps (meta_prps meta));;
            kfree p;;
            mret ret
          else
            upd_dev (λ d, d <| ndev_meta ::= <[mc_id mc := meta]> |>);;
            mret 0
    end.

Definition dnvme_delete_meta_node (meta : nvme_meta) : M unit :=
  upd_dev (λ d, d <| ndev_meta ::= delete (meta_id meta) |>);;
  (if meta_contig meta then dma_free_coherent (meta_size meta) (meta_buf meta)
   else dnvme_release_prps (meta_prps meta));;
  kfree (meta_ptr meta).

Definition dnvme_delete_meta_nodes : M unit :=
  d ← get_dev;
  mapM_ (λ i,
    d ← get_dev;
    match dnvme_find_meta d i with
    | None => mret tt
    | Some meta => dnvme_delete_meta_node meta
    end) (xa_keys (ndev_meta d)).

Definition dnvme_delete_meta_id (id : Z) : M unit :=
  d ← get_dev;
  match dnvme_find_meta d id with
  | None => mret tt
  | Some meta => dnvme_delete_meta_node meta
  end.
End meta.
