(* ===== verification/Ioctl.v ===== *)
(** * Device state, queue preparation, host memory buffer

    The handlers of [modules/dnvme/ioctl.c] that are not register accesses
    ([Io]), [dnvme_cleanup_device] of [core.c] and the resets of [pci.c] they
    use.

    A loop that waits for the device or the clock takes the number of rounds it
    may run ([fuel]); running out of it is [Hang]. *)

From S2P Require Import Prelude Types Kernel Io Own Prp PrpSpec Ring Irq Queue Meta.

Definition PCI_VENDOR_ID_MAXIO := 0x1e4b.
Definition PCI_DEVICE_ID_FALCON_LITE := 0x1602.
Definition NVME_NSSR_KEY := 0x4e564d65.
Definition PCI_EXP_DEVCAP_FLR := 0x10000000.
Definition PCI_EXP_LNKCTL_LD := 0x0010.
Definition SIZEOF_hmb_descriptor := 16.
Definition SIZEOF_hmb_alloc := 16.
Definition SIZEOF_nvme_hmb := 32.
Definition SIZEOF_nvme_hmb_buffer := 24.

(** [time_after(a, b)] of [linux/jiffies.h]. *)
Definition time_after (a b : Z) : bool := s64 (b - a) <? 0.

Section ioctl.
Context {E : Env}.

Definition get_jiffies : M Z := r ← ext E_jiffies; mret (u64 r).

(** ** Controller state *)

(** The register is all ones when the device is gone. *)
Fixpoint wait_loop (fuel : nat) (bar0 bit timeout : Z) : M Z :=
  match fuel with
  | O => hang
  | S fuel =>
    csts ← dnvme_readl bar0 NVME_REG_CSTS;
    if csts =? u32 (Z.lnot 0) then mret (- ENODEV)
    else if Z.land csts NVME_CSTS_RDY =? bit then mret 0
    else
      emit E_sleep;;
      j ← get_jiffies;
      if time_after j timeout then mret (- ETIME)
      else wait_loop fuel bar0 bit timeout
  end.

Definition dnvme_wait_ready (fuel : nat) (enabled : bool) : M Z :=
  bar0 ← get_bar0;
  cap ← dnvme_readq bar0 NVME_REG_CAP;
  j ← get_jiffies;
  let timeout := u64 ((NVME_CAP_TIMEOUT cap + 1) * cfg_hz / 2 + j) in
  wait_loop fuel bar0 (if enabled then NVME_CSTS_RDY else 0) timeout.

(** The value written to CC. *)
Definition ctrl_cc (cc : Z) (enabled : bool) : Z :=
  if enabled
  then
    let cc := Z.land cc (u32 (Z.lnot (Z.lor NVME_CC_IOSQES_MASK NVME_CC_IOCQES_MASK))) in
    let cc := Z.lor cc (NVME_CC_FOR_IOSQES NVME_NVM_IOSQES) in
    let cc := Z.lor cc (NVME_CC_FOR_IOCQES NVME_NVM_IOCQES) in
    Z.lor cc NVME_CC_ENABLE
  else Z.land cc (u32 (Z.lnot NVME_CC_ENABLE)).

Definition dnvme_set_ctrl_state (fuel : nat) (enabled : bool) : M Z :=
  bar0 ← get_bar0;
  cc ← dnvme_readl bar0 NVME_REG_CC;
  dnvme_writel bar0 NVME_REG_CC (ctrl_cc cc enabled);;
  dnvme_wait_ready fuel enabled.

Definition dnvme_reset_subsystem (fuel : nat) : M Z :=
  d ← get_dev;
  dnvme_writel (ndev_bar0 d) NVME_REG_NSSR NVME_NSSR_KEY;;
  if (pdev_vendor (ndev_pdev d) =? PCI_VENDOR_ID_MAXIO) &&
     (pdev_device (ndev_pdev d) =? PCI_DEVICE_ID_FALCON_LITE)
  then dnvme_wait_ready fuel false
  else mret 0.

(** [pci_save_state], the reset and [pci_restore_state] are calls to the kernel. *)
Definition PCIE_READ_DEVCAP := 0.
Definition PCIE_SAVE := 1.
Definition PCIE_FLR := 2.
Definition PCIE_RESTORE := 3.
Definition PCIE_BUS_RESET := 4.
Definition PCIE_READ_LNKCTL := 5.
Definition PCIE_WRITE_LNKCTL := 6.

Definition pcie_do_flr_reset : M Z :=
  cap ← ext (E_pcie PCIE_READ_DEVCAP);
  if Z.land (u32 cap) PCI_EXP_DEVCAP_FLR =? 0 then mret (- EOPNOTSUPP)
  else
    emit (E_pcie PCIE_SAVE);; emit (E_pcie PCIE_FLR);; emit (E_pcie PCIE_RESTORE);;
    mret 0.
Definition pcie_do_hot_reset : M Z :=
  emit (E_pcie PCIE_SAVE);; emit (E_pcie PCIE_BUS_RESET);; emit (E_pcie PCIE_RESTORE);;
  mret 0.
(** The value written is recorded in the low bits of the event. *)
Definition pcie_set_link (enable : bool) : M Z :=
  r ← ext (E_pcie PCIE_READ_LNKCTL);
  let lnk_ctrl := if enable then Z.land (u16 r) (u16 (Z.lnot PCI_EXP_LNKCTL_LD))
                  else Z.lor (u16 r) PCI_EXP_LNKCTL_LD in
  emit (E_pcie (2 ^ 16 * PCIE_WRITE_LNKCTL + lnk_ctrl));;
  mret 0.
Definition pcie_do_linkdown_reset : M Z :=
  emit (E_pcie PCIE_SAVE);;
  pcie_set_link false;;
  emit E_sleep;;
  pcie_set_link true;;
  emit (E_pcie PCIE_RESTORE);;
  mret 0.

(** ** Host memory buffer *)

(** Buffers [i ..] of the request: the buffers obtained, or [None] when one could
    not be had and all were given back.  [bsize] is the array as it was copied;
    reading behind it faults. *)
Fixpoint alloc_hmb_bufs (n : nat) (i : nat) (page_size : Z) (bsize : list Z)
    (got : list nvme_hmb_buffer) : M (option (list nvme_hmb_buffer)) :=
  match n with
  | O => mret (Some got)
  | S n =>
    match bsize !! i with
    | None => oops F_oob
    | Some b =>
      let buf_size := u32 (page_size * b) in
      '(va, pa) ← dma_alloc_coherent buf_size;
      if va =? 0
      then mapM_ (λ hb, dma_free_coherent (hb_size hb) (hb_virt_addr hb)) (reverse got);;
           mret None
      else
        memset0 va buf_size;;
        alloc_hmb_bufs n (S i) page_size bsize
          (got ++ [{| hb_virt_addr := va; hb_phy_addr := pa; hb_size := buf_size |}])
    end
  end.

(** [ndev->hmb], which is not [NULL] where the helpers use it. *)
Definition get_hmb : M nvme_hmb :=
  d ← get_dev; match ndev_hmb d with Some h => mret h | None => oops F_null end.
Definition upd_hmb (f : nvme_hmb → nvme_hmb) : M unit :=
  upd_dev (λ d, d <| ndev_hmb ::= fmap f |>).

Definition dnvme_alloc_hmb_buffer (need : nvme_hmb_alloc) : M Z :=
  _ ← get_hmb;
  r ← alloc_hmb_bufs (Z.to_nat (ha_nr_desc need)) 0 (ha_page_size need) (ha_bsize need) [];
  match r with
  | None => mret (- ENOMEM)
  | Some bufs => upd_hmb (λ h, h <| hmb_bufs := bufs |>);; mret 0
  end.

(** [desc_num] buffers; the array must have them. *)
Definition dnvme_release_hmb_buffer : M unit :=
  hmb ← get_hmb;
  if Z.of_nat (length (hmb_bufs hmb)) <? hmb_desc_num hmb then oops F_oob
  else mapM_ (λ hb, dma_free_coherent (hb_size hb) (hb_virt_addr hb))
         (take (Z.to_nat (hmb_desc_num hmb)) (hmb_bufs hmb)).

Definition dnvme_alloc_hmb_desc (need : nvme_hmb_alloc) : M Z :=
  _ ← get_hmb;
  '(va, pa) ← dma_alloc_coherent PAGE_SIZE;
  upd_hmb (λ h, h <| hmb_desc := va |> <| hmb_desc_addr := pa |>);;
  if va =? 0 then mret (- ENOMEM)
  else
    memset0 va PAGE_SIZE;;
    upd_hmb (λ h, h <| hmb_desc_size := PAGE_SIZE |> <| hmb_desc_num := ha_nr_desc need |>);;
    mret 0.

Definition dnvme_release_hmb_desc : M unit :=
  hmb ← get_hmb; dma_free_coherent (hmb_desc_size hmb) (hmb_desc hmb).

(** [desc[i]]: address and size of buffer [i], in the descriptor page. *)
Fixpoint fill_hmb (n : nat) (i : Z) (desc : Z) (bufs : list nvme_hmb_buffer) : M unit :=
  match n with
  | O => mret tt
  | S n =>
    match bufs !! Z.to_nat i with
    | None => oops F_oob
    | Some hb =>
      mem_write desc (SIZEOF_hmb_descriptor * i) (le_bytes 8 (hb_phy_addr hb));;
      mem_write desc (SIZEOF_hmb_descriptor * i + 8) (le_bytes 4 (hb_size hb));;
      fill_hmb n (i + 1) desc bufs
    end
  end.
Definition dnvme_fill_hmb_descriptor : M Z :=
  hmb ← get_hmb;
  fill_hmb (Z.to_nat (hmb_desc_num hmb)) 0 (hmb_desc hmb) (hmb_bufs hmb);;
  mret 0.

(** [head] and [copy] are the two reads of the user structure, which another
    thread may change in between; the second one reads as many elements of
    [bsize] as the first one announces. *)
Definition dnvme_alloc_hmb (head copy : nvme_hmb_alloc) : M Z :=
  d ← get_dev;
  match ndev_hmb d with
  | Some _ => mret (- EPERM)
  | None =>
    ok ← copy_from_user;
    if negb ok then mret (- EFAULT)
    else if ha_page_size head =? 0 then mret (- EINVAL)
    else if PAGE_SIZE / SIZEOF_hmb_descriptor <? ha_nr_desc head then mret (- EINVAL)
    else
      cp ← kmalloc (SIZEOF_hmb_alloc + 4 * ha_nr_desc head);
      if cp =? 0 then mret (- ENOMEM)
      else
        ok ← copy_from_user;
        if negb ok then kfree cp;; mret (- EFAULT)
        else
          let copy := {| ha_page_size := ha_page_size copy; ha_nr_desc := ha_nr_desc copy;
                         ha_bsize := take (Z.to_nat (ha_nr_desc head)) (ha_bsize copy) |} in
          hp ← kmalloc (SIZEOF_nvme_hmb + ha_nr_desc copy * SIZEOF_nvme_hmb_buffer);
          if hp =? 0 then kfree cp;; mret (- ENOMEM)
          else
            upd_dev (λ d, d <| ndev_hmb := Some {| hmb_ptr := hp; hmb_desc := 0;
              hmb_desc_addr := 0; hmb_desc_size := 0; hmb_desc_num := 0; hmb_bufs := [] |} |>);;
            let free_hmb (ret : Z) : M Z :=
              kfree hp;; upd_dev (λ d, d <| ndev_hmb := None |>);; kfree cp;; mret ret in
            ret ← dnvme_alloc_hmb_buffer copy;
            if ret <? 0 then free_hmb ret
            else
              ret ← dnvme_alloc_hmb_desc copy;
              if ret <? 0 then dnvme_release_hmb_buffer;; free_hmb ret
              else
                dnvme_fill_hmb_descriptor;;
                hmb ← get_hmb;
                ok ← copy_to_user (UP_hmb (hmb_desc_addr hmb) (ha_page_size head)
                                     (ha_nr_desc head));
                if negb ok
                then dnvme_release_hmb_desc;; dnvme_release_hmb_buffer;; free_hmb (- EFAULT)
                else kfree cp;; mret 0
  end.

(** The pointer given to the last [kfree] is a local variable that is never
    assigned. *)
Definition dnvme_release_hmb : M Z :=
  d ← get_dev;
  match ndev_hmb d with
  | None => mret 0
  | Some _ => dnvme_release_hmb_desc;; dnvme_release_hmb_buffer;; oops F_uninit
  end.

(** ** Clean-up and state changes *)

Definition dnvme_cleanup_device (state : nvme_state) : M unit :=
  dnvme_clean_interrupt;;
  dnvme_delete_all_queues state;;
  dnvme_delete_meta_nodes;;
  dnvme_release_hmb;;
  mret tt.

Definition dnvme_set_device_state (fuel : nat) (state : nvme_state) : M Z :=
  match state with
  | NVME_ST_ENABLE => dnvme_set_ctrl_state fuel true
  | NVME_ST_DISABLE | NVME_ST_DISABLE_COMPLETE =>
    ret ← dnvme_set_ctrl_state fuel false;
    if ret <? 0 then mret ret else dnvme_cleanup_device state;; mret ret
  | NVME_ST_SUBSYSTEM_RESET => dnvme_reset_subsystem fuel
  | NVME_ST_PCIE_FLR_RESET => pcie_do_flr_reset
  | NVME_ST_PCIE_HOT_RESET => pcie_do_hot_reset
  | NVME_ST_PCIE_LINKDOWN_RESET => pcie_do_linkdown_reset
  | NVME_ST_OTHER _ => mret (- EINVAL)
  end.

(** ** Queues *)

Definition dnvme_create_admin_queue (aq : nvme_admin_queue) : M Z :=
  ok ← copy_from_user;
  if negb ok then mret (- EFAULT)
  else match aq_type aq with
       | NVME_ADMIN_SQ => dnvme_create_asq (aq_elements aq)
       | NVME_ADMIN_CQ => dnvme_create_acq (aq_elements aq)
       | _ => mret (- EINVAL)
       end.

Definition dnvme_prepare_sq (prep : nvme_prep_sq) : M Z :=
  ok ← copy_from_user;
  if negb ok then mret (- EFAULT)
  else
    d ← get_dev;
    if (psq_elements prep =? 0) || (ndev_q_depth d <? psq_elements prep) then mret (- EINVAL)
    else
      let ret := dnvme_check_qid_unique d NVME_SQ (psq_sq_id prep) in
      if ret <? 0 then mret ret
      else if negb (NVME_CAP_CQR (ndev_reg_cap d) =? 0) && negb (psq_contig prep)
      then mret (- EINVAL)
      else
        r ← dnvme_alloc_sq prep NVME_NVM_IOSQES;
        match r with None => mret (- ENOMEM) | Some _ => mret 0 end.

Definition dnvme_prepare_cq (prep : nvme_prep_cq) : M Z :=
  ok ← copy_from_user;
  if negb ok then mret (- EFAULT)
  else
    d ← get_dev;
    if (pcq_elements prep =? 0) || (ndev_q_depth d <? pcq_elements prep) then mret (- EINVAL)
    else
      let ret := dnvme_check_qid_unique d NVME_CQ (pcq_cq_id prep) in
      if ret <? 0 then mret ret
      else if negb (NVME_CAP_CQR (ndev_reg_cap d) =? 0) && negb (pcq_contig prep)
      then mret (- EINVAL)
      else
        r ← dnvme_alloc_cq prep NVME_NVM_IOCQES;
        match r with
        | None => mret (- ENOMEM)
        | Some id =>
          cq ← get_cq id;
          if cqp_irq_enabled (cq_pub cq) =? 0 then mret 0
          else
            ret ← dnvme_create_icq_node (cqp_q_id (cq_pub cq)) (cqp_irq_no (cq_pub cq));
            if ret <? 0 then dnvme_release_cq (Some cq);; mret ret else mret 0
        end.

(** ** Information *)

Definition dnvme_get_sq_info (sq_id : Z) : M Z :=
  ok ← copy_from_user;
  if negb ok then mret (- EFAULT)
  else
    d ← get_dev;
    match dnvme_find_sq d sq_id with
    | None => mret (- EBADSLT)
    | Some sq => ok ← copy_to_user (UP_sq (sq_pub sq)); mret (if negb ok then - EFAULT else 0)
    end.
Definition dnvme_get_cq_info (q_id : Z) : M Z :=
  ok ← copy_from_user;
  if negb ok then mret (- EFAULT)
  else
    d ← get_dev;
    match dnvme_find_cq d q_id with
    | None => mret (- EBADSLT)
    | Some cq => ok ← copy_to_user (UP_cq (cq_pub cq)); mret (if negb ok then - EFAULT else 0)
    end.
Definition dnvme_get_pci_bdf : M Z :=
  d ← get_dev;
  let p := ndev_pdev d in
  let bdf := u16 (Z.lor (Z.shiftl (u16 (pdev_bus_number p)) 8) (Z.land (pdev_devfn p) 0xff)) in
  ok ← copy_to_user (UP_u16 bdf);
  mret (if negb ok then - EFAULT else 0).
(** [family] is [nvme_gnl_id]. *)
Definition dnvme_get_dev_info (family : Z) : M Z :=
  d ← get_dev;
  ok ← copy_to_user (UP_dev_info (ndev_instance d) family);
  mret (if negb ok then - EFAULT else 0).

(** ** Capabilities *)

Definition PCI_CAP_ID_PM := 0x01.
Definition PCI_CAP_ID_MSI := 0x05.
Definition PCI_CAP_ID_EXP := 0x10.
Definition PCI_CAP_ID_MSIX := 0x11.
Definition PCI_EXT_CAP_ID_LTR := 0x18.
Definition PCI_EXT_CAP_ID_L1SS := 0x1e.
Definition SIZEOF_pci_cap_pm := 6.
Definition SIZEOF_pci_cap_msi := 4.
Definition SIZEOF_pci_cap_express := 8.
Definition SIZEOF_pci_cap_msix := 12.
Definition SIZEOF_pci_ext_cap := 2.

Definition pci_find_capability (id : Z) : M Z :=
  r ← ext (E_probe (PC_find_capability id)); mret (u8 r).
Definition pci_find_ext_capability (id : Z) : M Z :=
  r ← ext (E_probe (PC_find_ext_capability id)); mret (u16 r).

(** The three checks of each case: there, large enough, copied. *)
Definition give_cap {A} (o : option A) (size need : Z) (up : A → upayload) : M Z :=
  match o with
  | None => mret (- ENOENT)
  | Some c =>
    if size <? need then mret (- ENOSPC)
    else ok ← copy_to_user (up c); mret (if negb ok then - EFAULT else 0)
  end.
Definition give_offset (offset size need : Z) : M Z :=
  if offset =? 0 then mret (- EINVAL)
  else if size <? need then mret (- ENOSPC)
  else ok ← copy_to_user (UP_cap_offset offset); mret (if negb ok then - EFAULT else 0).

Definition dnvme_get_pci_capability (gcap : nvme_get_cap) : M Z :=
  d ← get_dev;
  let cap := ndev_cap d in
  let size := gcap_size gcap in
  if gcap_id gcap =? PCI_CAP_ID_PM then give_cap (cap_pm cap) size SIZEOF_pci_cap_pm UP_cap_pm
  else if gcap_id gcap =? PCI_CAP_ID_MSI then give_cap (cap_msi cap) size SIZEOF_pci_cap_msi UP_cap_msi
  else if gcap_id gcap =? PCI_CAP_ID_EXP
  then give_cap (cap_express cap) size SIZEOF_pci_cap_express UP_cap_express
  else if gcap_id gcap =? PCI_CAP_ID_MSIX
  then give_cap (cap_msix cap) size SIZEOF_pci_cap_msix UP_cap_msix
  else offset ← pci_find_capability (gcap_id gcap); give_offset offset size 1.

Definition dnvme_get_pcie_capability (gcap : nvme_get_cap) : M Z :=
  d ← get_dev;
  let cap := ndev_cap d in
  let size := gcap_size gcap in
  if gcap_id gcap =? PCI_EXT_CAP_ID_LTR then give_cap (cap_ltr cap) size SIZEOF_pci_ext_cap UP_cap_ltr
  else if gcap_id gcap =? PCI_EXT_CAP_ID_L1SS
  then give_cap (cap_l1ss cap) size SIZEOF_pci_ext_cap UP_cap_l1ss
  else offset ← pci_find_ext_capability (gcap_id gcap); give_offset offset size 2.

Definition dnvme_get_capability (gcap : nvme_get_cap) : M Z :=
  ok ← copy_from_user;
  if negb ok then mret (- EFAULT)
  else match gcap_type gcap with
       | NVME_CAP_TYPE_PCI => dnvme_get_pci_capability gcap
       | NVME_CAP_TYPE_PCIE => dnvme_get_pcie_capability gcap
       | NVME_CAP_TYPE_OTHER _ => mret (- EINVAL)
       end.

(** ** IOPS measurement *)

(** The scan of [__dnvme_test_iops_polling]: entries, tail, and the SQ head of the
    last one ([None] when there is none: the variable is not assigned). *)
Fixpoint iops_scan (fuel : nat) (data : list Z) (elements tail phase remain : Z)
    (sq_head : option Z) : M (Z * Z * option Z) :=
  match fuel with
  | O => hang
  | S fuel =>
    st ← cqe_status data (SIZEOF_completion * tail);
    if NVME_CQE_STATUS_TO_PHASE st =? phase
    then
      h ← cqe_sq_head data (SIZEOF_completion * tail);
      let remain := u32 (remain + 1) in
      let tail := u16 (tail + 1) in
      if elements <=? tail
      then iops_scan fuel data elements 0 (Z.lxor phase 1) remain (Some h)
      else iops_scan fuel data elements tail phase remain (Some h)
    else mret (remain, tail, sq_head)
  end.

Definition dnvme_test_iops_polling (sqid cqid : Z) : M Z :=
  sq ← get_sq sqid;
  cq ← get_cq cqid;
  let p := cq_pub cq in
  b ← get_block (cq_buf cq);
  '(remain, tail, sq_head) ←
    iops_scan (S (Z.to_nat (cqp_elements p))) (blk_data b) (cqp_elements p) (cqp_head_ptr p)
      (cqp_pbit_new_entry p) 0 None;
  upd_cq cqid (λ cq, cq <| cq_pub ::= λ p, p <| cqp_tail_ptr := tail |> |>);;
  if (remain =? 0) || (remain <? 256) then mret 0
  else
    let head := u32 (cqp_head_ptr p + remain) in
    if (cqp_elements p <=? head) && (cqp_elements p =? 0) then oops F_ub
    else
      let wrap := cqp_elements p <=? head in
      let head := u16 (if wrap then head mod cqp_elements p else head) in
      upd_cq cqid (λ cq, cq <| cq_pub ::= λ p, p
        <| cqp_pbit_new_entry ::= λ b, if wrap then (if b =? 0 then 1 else 0) else b |>
        <| cqp_head_ptr := head |> |>);;
      dnvme_writel (cq_db cq) 0 head;;
      match sq_head with
      | None => oops F_uninit
      | Some h =>
        dnvme_writel (sq_db sq) 0
          (if negb (h =? 0) then h - 1 else sqp_elements (sq_pub sq) - 1);;
        mret remain
      end.

Definition ktime_get : M Z := r ← ext E_ktime; mret (s64 r).

(** Poll until the clock (in ns) passes [stop]. *)
Fixpoint iops_loop (fuel : nat) (sqid cqid stop total : Z) : M Z :=
  match fuel with
  | O => hang
  | S fuel =>
    t ← ktime_get;
    if t <? stop
    then n ← dnvme_test_iops_polling sqid cqid; iops_loop fuel sqid cqid stop (u32 (total + n))
    else mret total
  end.

Definition dnvme_test_iops (fuel : nat) (iops : nt_iops) : M Z :=
  ok ← copy_from_user;
  if negb ok then mret (- EFAULT)
  else
    d ← get_dev;
    match dnvme_find_sq d (io_sqid iops) with
    | None => mret (- EBADSLT)
    | Some sq =>
      match dnvme_find_cq d (io_cqid iops) with
      | None => mret (- EBADSLT)
      | Some _ =>
        let p := sq_pub sq in
        if negb (sq_contig sq) then mret (- EPERM)
        else
          bs ← mem_read (sq_buf sq) 0 (Z.shiftl 1 (sqp_sqes p));
          mem_write (sq_buf sq) (u32 (Z.shiftl (u32 (sqp_elements p - 1)) (sqp_sqes p))) bs;;
          mem_write (sq_buf sq) (u32 (Z.shiftl (sqp_tail_ptr_virt p) (sqp_sqes p)) + 2)
            (le_bytes 2 (u16 (sqp_elements p)));;
          dnvme_writel (sq_db sq) 0 (u32 (sqp_elements p - 1));;
          start ← ktime_get;
          total ← iops_loop fuel (io_sqid iops) (io_cqid iops)
                    (s64 (start + io_time iops * 1000000)) 0;
          stop ← ktime_get;
          let ms := Z.quot (stop - start) 1000000 in
          if ms =? 0 then oops F_ub
          else
            ok ← copy_to_user (UP_iops (iops <| io_perf := u32 (Z.quot total ms) |>));
            mret (if negb ok then - EFAULT else 0)
      end
    end.
End ioctl.
