(* ===== verification/Core.v ===== *)
(** * The character device

    The file operations of [modules/dnvme/core.c]: [open], [release], [mmap] and
    the dispatch of [ioctl].  Every operation looks its device up by the minor
    number and runs with the mutex of the device held, so operations are atomic
    with respect to each other; what runs concurrently is the interrupt handler
    ([Irq]).  The arguments a handler reads from user memory are the arguments of
    the request. *)

From S2P Require Import Prelude Types Kernel Io Own Prp PrpSpec Ring Irq Queue Cmd Tamper Meta Ioctl.

Definition NVME_VMPGOFF_TO_TYPE (n : Z) : Z := Z.shiftr n 16.
Definition NVME_VMPGOFF_FOR_TYPE (n : Z) : Z := Z.shiftl n 16.
Definition NVME_VMPGOFF_ID (n : Z) : Z := Z.land n 0xffff.
Definition NVME_VMPGOFF_TYPE_CQ := 0.
Definition NVME_VMPGOFF_TYPE_SQ := 1.
Definition NVME_VMPGOFF_TYPE_META := 2.

Inductive ioctl_req :=
| IOCTL_GET_SQ_INFO (sq_id : Z)
| IOCTL_GET_CQ_INFO (q_id : Z)
| IOCTL_READ_GENERIC (a : nvme_access)
| IOCTL_WRITE_GENERIC (a : nvme_access) (data : list Z)
| IOCTL_GET_PCI_BDF
| IOCTL_GET_DEV_INFO (family : Z)
| IOCTL_GET_CAPABILITY (gcap : nvme_get_cap)
| IOCTL_CREATE_ADMIN_QUEUE (aq : nvme_admin_queue)
| IOCTL_SET_DEV_STATE (st : nvme_state)
| IOCTL_PREPARE_IOSQ (prep : nvme_prep_sq)
| IOCTL_PREPARE_IOCQ (prep : nvme_prep_cq)
| IOCTL_RING_SQ_DOORBELL (arg : Z)
| IOCTL_SUBMIT_64B_CMD (cmd : nvme_64b_cmd) (mem : Z → Z)
| IOCTL_TAMPER_CMD (mem : Z → Z)
| IOCTL_EMPTY_CMD_LIST (arg : Z)
| IOCTL_INQUIRY_CQE (inq : nvme_inquiry)
| IOCTL_REAP_CQE (reap : nvme_reap)
| IOCTL_CREATE_META_NODE (mc : nvme_meta_create)
| IOCTL_DELETE_META_NODE (arg : Z)
| IOCTL_SET_IRQ (irq : nvme_interrupt)
| IOCTL_MASK_IRQ (arg : Z)
| IOCTL_UNMASK_IRQ (arg : Z)
| IOCTL_ALLOC_HMB (head copy : nvme_hmb_alloc)
| IOCTL_RELEASE_HMB
| IOCTL_IOPS (iops : nt_iops)
| IOCTL_OTHER.

Section core.
Context {E : Env}.

(** Whether the minor number is the one of the device. *)
Definition dnvme_lock_device (instance : Z) : M bool :=
  d ← get_dev; mret (instance =? ndev_instance d).

(** ** mmap *)

(** The result is [ret], [*kva] and [*size]. *)
Definition mmap_parse_vmpgoff (vm_pgoff : Z) : M (Z * Z * Z) :=
  d ← get_dev;
  let type := u32 (NVME_VMPGOFF_TO_TYPE vm_pgoff) in
  let id := u32 (NVME_VMPGOFF_ID vm_pgoff) in
  if type =? NVME_VMPGOFF_TYPE_CQ then
    match dnvme_find_cq d id with
    | None => mret (- EBADSLT, 0, 0)
    | Some cq => mret (if cq_contig cq then (0, cq_buf cq, cq_size cq) else (- EOPNOTSUPP, 0, 0))
    end
  else if type =? NVME_VMPGOFF_TYPE_SQ then
    match dnvme_find_sq d id with
    | None => mret (- EBADSLT, 0, 0)
    | Some sq => mret (if sq_contig sq then (0, sq_buf sq, sq_size sq) else (- EOPNOTSUPP, 0, 0))
    end
  else if type =? NVME_VMPGOFF_TYPE_META then
    match dnvme_find_meta d id with
    | None => mret (- EBADSLT, 0, 0)
    | Some m => mret (if meta_contig m then (0, meta_buf m, meta_size m) else (- EOPNOTSUPP, 0, 0))
    end
  else mret (- EINVAL, 0, 0).

(** [vm_len] is [vma->vm_end - vma->vm_start]. *)
Definition dnvme_mmap (minor vm_pgoff vm_len : Z) : M Z :=
  ok ← dnvme_lock_device minor;
  if negb ok then mret (- ENODEV)
  else
    '(ret, map_addr, map_size) ← mmap_parse_vmpgoff vm_pgoff;
    if ret <? 0 then mret ret
    else
      let npages := s32 (DIV_ROUND_UP map_size PAGE_SIZE) in
      if u64 (npages * PAGE_SIZE) <? vm_len then mret (- EINVAL)
      else
        pa ← ext (E_virt_to_phys map_addr);
        let pfn := Z.shiftr (u64 pa) 12 in
        if pfn =? 0 then mret (- EFAULT)
        else r ← ext (E_remap pfn vm_len); mret (s32 r).

(** ** ioctl *)

Definition ioctl_body (fuel : nat) (req : ioctl_req) : M Z :=
  match req with
  | IOCTL_GET_SQ_INFO id => dnvme_get_sq_info id
  | IOCTL_GET_CQ_INFO id => dnvme_get_cq_info id
  | IOCTL_READ_GENERIC a => dnvme_generic_read a
  | IOCTL_WRITE_GENERIC a data => dnvme_generic_write a data
  | IOCTL_GET_PCI_BDF => dnvme_get_pci_bdf
  | IOCTL_GET_DEV_INFO family => dnvme_get_dev_info family
  | IOCTL_GET_CAPABILITY gcap => dnvme_get_capability gcap
  | IOCTL_CREATE_ADMIN_QUEUE aq => dnvme_create_admin_queue aq
  | IOCTL_SET_DEV_STATE st => dnvme_set_device_state fuel st
  | IOCTL_PREPARE_IOSQ prep => dnvme_prepare_sq prep
  | IOCTL_PREPARE_IOCQ prep => dnvme_prepare_cq prep
  | IOCTL_RING_SQ_DOORBELL arg => dnvme_ring_sq_doorbell (u16 arg)
  | IOCTL_SUBMIT_64B_CMD cmd mem => dnvme_submit_64b_cmd cmd mem
  | IOCTL_TAMPER_CMD mem => dnvme_tamper_cmd mem
  | IOCTL_EMPTY_CMD_LIST arg =>
    d ← get_dev;
    match dnvme_find_sq d (u16 arg) with
    | Some sq => sq ← dnvme_delete_cmd_list sq; upd_sq (u16 arg) (λ _, sq);; mret 0
    | None => mret (- EINVAL)
    end
  | IOCTL_INQUIRY_CQE inq => dnvme_inquiry_cqe inq
  | IOCTL_REAP_CQE reap => dnvme_reap_cqe_legacy reap
  | IOCTL_CREATE_META_NODE mc => dnvme_create_meta_node mc
  | IOCTL_DELETE_META_NODE arg => dnvme_delete_meta_id (u32 arg);; mret 0
  | IOCTL_SET_IRQ irq => dnvme_set_interrupt irq
  | IOCTL_MASK_IRQ arg => dnvme_mask_interrupt (u16 arg)
  | IOCTL_UNMASK_IRQ arg => dnvme_unmask_interrupt (u16 arg)
  | IOCTL_ALLOC_HMB head copy => dnvme_alloc_hmb head copy
  | IOCTL_RELEASE_HMB => dnvme_release_hmb
  | IOCTL_IOPS iops => dnvme_test_iops fuel iops
  | IOCTL_OTHER => mret (- EINVAL)
  end.

(** The debug message before the lookup prints through [ndev] before it is
    assigned; it is compiled only with debugging on and is left out. *)
Definition dnvme_ioctl (fuel : nat) (minor : Z) (req : ioctl_req) : M Z :=
  ok ← dnvme_lock_device minor;
  if negb ok then mret (- ENODEV) else ioctl_body fuel req.

(** ** open and release *)

Definition dnvme_open (minor : Z) : M Z :=
  ok ← dnvme_lock_device minor;
  if negb ok then mret (- ENODEV)
  else
    d ← get_dev;
    if ndev_opened d then mret (- EPERM)
    else upd_dev (λ d, d <| ndev_opened := true |>);; mret 0.

Definition dnvme_release (minor : Z) : M Z :=
  ok ← dnvme_lock_device minor;
  if negb ok then mret (- ENODEV)
  else
    upd_dev (λ d, d <| ndev_opened := false |>);;
    dnvme_cleanup_device NVME_ST_DISABLE_COMPLETE;;
    mret 0.
End core.
