(* ===== verification/Inv.v ===== *)
(** * The invariant of the driver

    [dev_items d] is everything the device structure owns: the queues with their
    memory and pending commands, the meta buffers, the interrupt nodes, the host
    memory buffer.  [inv X w] says that what is live in the kernel is exactly that
    and [X] (what others own), that the structure is well formed and that the
    registered interrupt handlers are those of the irq list.  A handler that keeps
    [inv X] for every [X] therefore neither leaks nor frees twice, on no path. *)

From S2P Require Import Prelude Types Kernel Io Own Prp Ring.

(** ** What the device structure owns *)

Definition qmem_items (contig cmb : bool) (buf size : Z) (o : option (owned nvme_prps)) :
    list item :=
  if contig then [Blk buf (if cmb then AK_p2p else AK_coherent) (Some size)]
  else oprps_items o.
Definition sq_items (q : nvme_sq) : list item :=
  Blk (sq_ptr q) AK_kmalloc None ::
  qmem_items (sq_contig q) (sq_use_cmb q) (sq_buf q) (sq_size q) (sq_prps q) ++
  (sq_cmd_list q ≫= cmd_items).
Definition cq_items (q : nvme_cq) : list item :=
  Blk (cq_ptr q) AK_kmalloc None ::
  qmem_items (cq_contig q) (cq_use_cmb q) (cq_buf q) (cq_size q) (cq_prps q).
Definition meta_items (m : nvme_meta) : list item :=
  Blk (meta_ptr m) AK_kmalloc None ::
  qmem_items (meta_contig m) false (meta_buf m) (meta_size m) (meta_prps m).
Definition icq_items (i : nvme_icq) : list item := [Blk (icq_ptr i) AK_kmalloc None].
Definition irq_node_items (n : nvme_irq) : list item :=
  Blk (irq_ptr n) AK_kmalloc None :: (irq_icq_list n ≫= icq_items).
Definition work_items (n : nvme_work) : list item := [Blk (work_ptr n) AK_kmalloc None].
Definition irq_items (s : nvme_irq_set) : list item :=
  (is_irq_list s ≫= irq_node_items) ++ (is_work_list s ≫= work_items) ++
  (if is_wq s =? 0 then [] else [Blk (is_wq s) AK_wq None]).
Definition hmb_buf_items (b : nvme_hmb_buffer) : list item :=
  [Blk (hb_virt_addr b) AK_coherent (Some (hb_size b))].
Definition hmb_items (o : option nvme_hmb) : list item :=
  match o with
  | None => []
  | Some h =>
    Blk (hmb_ptr h) AK_kmalloc None ::
    (if hmb_desc h =? 0 then []
     else [Blk (hmb_desc h) AK_coherent (Some (hmb_desc_size h))]) ++
    (hmb_bufs h ≫= hmb_buf_items)
  end.

(** The objects of an xarray. *)
Definition xa_items {A} (f : A → list item) (m : gmap Z A) : list item :=
  map_to_list m ≫= λ kv, f kv.2.

Definition dev_items (d : nvme_device) : list item :=
  xa_items sq_items (ndev_sqs d) ++ xa_items cq_items (ndev_cqs d) ++
  xa_items meta_items (ndev_meta d) ++ irq_items (ndev_irq_set d) ++ hmb_items (ndev_hmb d).

Section xa_items.
Context {A : Type} (f : A → list item).

Lemma xa_items_empty : xa_items f ∅ = [].
Proof. unfold xa_items. by rewrite map_to_list_empty. Qed.

Lemma xa_items_insert m i x : m !! i = None →
  xa_items f (<[i := x]> m) ≡ₚ f x ++ xa_items f m.
Proof. intros Hi. unfold xa_items. by rewrite (map_to_list_insert m i x Hi). Qed.

Lemma xa_items_delete m i x : m !! i = Some x →
  xa_items f m ≡ₚ f x ++ xa_items f (delete i m).
Proof.
  intros Hi. rewrite <- (insert_delete_id m i x Hi) at 1.
  apply xa_items_insert, lookup_delete_eq.
Qed.

Lemma xa_items_alter g m i x : m !! i = Some x →
  xa_items f (alter g i m) ≡ₚ f (g x) ++ xa_items f (delete i m).
Proof.
  intros Hi. rewrite (xa_items_delete (alter g i m) i (g x)).
  - by rewrite delete_alter_eq.
  - by rewrite lookup_alter_eq, Hi.
Qed.
End xa_items.

(** ** One object in focus *)

Lemma dev_items_sq d id q : ndev_sqs d !! id = Some q →
  dev_items d ≡ₚ sq_items q ++ dev_items (d <| ndev_sqs ::= delete id |>).
Proof.
  intros Hq. unfold dev_items. cbn. rewrite (xa_items_delete _ _ _ _ Hq).
  by rewrite <- (assoc_L (++)).
Qed.
Lemma dev_items_cq d id q : ndev_cqs d !! id = Some q →
  dev_items d ≡ₚ cq_items q ++ dev_items (d <| ndev_cqs ::= delete id |>).
Proof.
  intros Hq. unfold dev_items. cbn. rewrite (xa_items_delete _ _ _ _ Hq).
  solve_Permutation.
Qed.
Lemma dev_items_meta d id m : ndev_meta d !! id = Some m →
  dev_items d ≡ₚ meta_items m ++ dev_items (d <| ndev_meta ::= delete id |>).
Proof.
  intros Hq. unfold dev_items. cbn. rewrite (xa_items_delete _ _ _ _ Hq).
  solve_Permutation.
Qed.

Lemma dev_items_new_sq d id q : ndev_sqs d !! id = None →
  dev_items (d <| ndev_sqs ::= <[id := q]> |>) ≡ₚ sq_items q ++ dev_items d.
Proof.
  intros Hq. unfold dev_items. cbn. rewrite (xa_items_insert _ _ _ _ Hq). solve_Permutation.
Qed.
Lemma dev_items_new_cq d id q : ndev_cqs d !! id = None →
  dev_items (d <| ndev_cqs ::= <[id := q]> |>) ≡ₚ cq_items q ++ dev_items d.
Proof.
  intros Hq. unfold dev_items. cbn. rewrite (xa_items_insert _ _ _ _ Hq). solve_Permutation.
Qed.
Lemma dev_items_new_meta d id m : ndev_meta d !! id = None →
  dev_items (d <| ndev_meta ::= <[id := m]> |>) ≡ₚ meta_items m ++ dev_items d.
Proof.
  intros Hq. unfold dev_items. cbn. rewrite (xa_items_insert _ _ _ _ Hq). solve_Permutation.
Qed.

Lemma dev_items_upd_sq d id q g : ndev_sqs d !! id = Some q →
  dev_items (d <| ndev_sqs ::= alter g id |>) ≡ₚ
  sq_items (g q) ++ dev_items (d <| ndev_sqs ::= delete id |>).
Proof.
  intros Hq. unfold dev_items. cbn. rewrite (xa_items_alter _ _ _ _ _ Hq). solve_Permutation.
Qed.
Lemma dev_items_upd_cq d id q g : ndev_cqs d !! id = Some q →
  dev_items (d <| ndev_cqs ::= alter g id |>) ≡ₚ
  cq_items (g q) ++ dev_items (d <| ndev_cqs ::= delete id |>).
Proof.
  intros Hq. unfold dev_items. cbn. rewrite (xa_items_alter _ _ _ _ _ Hq). solve_Permutation.
Qed.

(** Updates that agree on the queue are the same. *)
Lemma upd_sq_eq d id q f g : ndev_sqs d !! id = Some q → f q = g q →
  d <| ndev_sqs ::= alter f id |> = d <| ndev_sqs ::= alter g id |>.
Proof.
  intros Hq Hfg. unfold set_field. f_equal. apply alter_ext. intros x Hx. simplify_eq. done.
Qed.

(** ** Well-formed objects *)

(** The opcodes that create and delete queues. *)
Definition is_queue_op (op : Z) : bool :=
  (op =? nvme_admin_delete_sq) || (op =? nvme_admin_create_sq) ||
  (op =? nvme_admin_delete_cq) || (op =? nvme_admin_create_cq).

(** A discontiguous queue has its mapped memory once the command that creates it is
    submitted, and the memory holds all entries. *)
Record qmem_wf (contig created : bool) (size : Z) (o : option (owned nvme_prps)) : Prop := {
  qm_contig : contig = true → o = None;
  qm_new : created = false → o = None;
  qm_prps : oprps_wf o;
  qm_size : ∀ p prps, o = Some (p, prps) →
    prps_buf prps ≠ 0 ∧ size ≤ num_map_pgs prps * PAGE_SIZE }.

Record sq_wf (id : Z) (q : nvme_sq) : Prop := {
  sqw_id : sqp_sq_id (sq_pub q) = id;
  sqw_elements : 0 < sqp_elements (sq_pub q) ≤ 2 ^ 16;
  sqw_tail : 0 ≤ sqp_tail_ptr_virt (sq_pub q) < sqp_elements (sq_pub q);
  sqw_sqes : sqp_sqes (sq_pub q) = NVME_NVM_IOSQES;
  sqw_size : sq_size q = 64 * sqp_elements (sq_pub q);
  sqw_mem : qmem_wf (sq_contig q) (sq_created q) (sq_size q) (sq_prps q);
  sqw_aq : id = NVME_AQ_ID → sq_contig q = true;
  sqw_cmds : Forall cmd_wf (sq_cmd_list q);
  (** the command that creates or deletes a queue keeps no buffer of its own *)
  sqw_admin : id = NVME_AQ_ID →
    Forall (λ c, is_queue_op (cmd_opcode c) = true → cmd_prps c = None) (sq_cmd_list q) }.

Record cq_wf (id : Z) (q : nvme_cq) : Prop := {
  cqw_id : cqp_q_id (cq_pub q) = id;
  cqw_elements : 0 < cqp_elements (cq_pub q) < 2 ^ 16;
  cqw_head : 0 ≤ cqp_head_ptr (cq_pub q) < cqp_elements (cq_pub q);
  cqw_phase : cqp_pbit_new_entry (cq_pub q) = 0 ∨ cqp_pbit_new_entry (cq_pub q) = 1;
  cqw_cqes : cqp_cqes (cq_pub q) = NVME_NVM_IOCQES;
  cqw_size : cq_size q = 16 * cqp_elements (cq_pub q);
  cqw_aq : id = NVME_AQ_ID → cq_contig q = true;
  cqw_cmb : cq_use_cmb q = false;
  cqw_mem : qmem_wf (cq_contig q) (cq_created q) (cq_size q) (cq_prps q) }.

Record meta_wf (id : Z) (m : nvme_meta) : Prop := {
  mw_id : meta_id m = id;
  mw_size : in_u32 (meta_size m);
  mw_prps : oprps_wf (meta_prps m);
  mw_addr : meta_contig m = false → ∃ p prps, meta_prps m = Some (p, prps) ∧
    pg_addr_ptr prps ≠ 0 ∧ pg_addr prps ≠ [] }.

Record hmb_wf (h : nvme_hmb) : Prop := {
  hw_desc : hmb_desc h ≠ 0;
  hw_num : hmb_desc_num h = Z.of_nat (length (hmb_bufs h)) }.

(** The irq nodes and the work nodes are in step; what is queued is there; nodes
    exist only with a workqueue and a scheme, and outside MSI-X their numbers fit
    the mask registers. *)
Record irq_wf (s : nvme_irq_set) : Prop := {
  iw_ids : NoDup (irq_id <$> is_irq_list s);
  iw_vecs : NoDup (irq_int_vec <$> is_irq_list s);
  iw_step : ((λ n, (irq_id n, irq_int_vec n)) <$> is_irq_list s) =
            ((λ n, (work_irq_id n, work_int_vec n)) <$> is_work_list s);
  iw_pending : ∀ p, p ∈ is_wq_pending s → p ∈ (work_ptr <$> is_work_list s);
  iw_wq : is_wq s = 0 → is_irq_list s = [] ∧ is_wq_pending s = [];
  iw_none : is_irq_type s = NVME_INT_NONE → is_irq_list s = [];
  iw_bits : is_irq_type s ≠ NVME_INT_MSIX →
    Forall (λ n, 0 ≤ irq_id n < 32) (is_irq_list s) }.

Record dev_wf (d : nvme_device) : Prop := {
  dw_sqs : map_Forall sq_wf (ndev_sqs d);
  dw_cqs : map_Forall cq_wf (ndev_cqs d);
  dw_meta : map_Forall meta_wf (ndev_meta d);
  dw_irq : irq_wf (ndev_irq_set d);
  dw_hmb : ∀ h, ndev_hmb d = Some h → hmb_wf h }.

Record inv (X : list item) (w : world) : Prop := {
  i_holds : holds (dev_items (w_dev w) ++ X) w;
  i_dev : dev_wf (w_dev w);
  i_irqs : w_irqs w ≡ₚ (irq_int_vec <$> is_irq_list (ndev_irq_set (w_dev w))) }.

(** ** Rules *)

#[export] Instance inv_perm : Proper ((≡ₚ) ==> eq ==> iff) inv.
Proof.
  assert (∀ X Y w, X ≡ₚ Y → inv X w → inv Y w) as Himp.
  { intros X Y w HX [Hh Hd Hi]. split; [|done|done]. by rewrite <- HX. }
  intros X Y HX w ? <-. split; apply Himp; [done|by symmetry].
Qed.

(** The invariant after steps that leave the device structure alone. *)
Lemma inv_same_dev X Y w w' :
  inv X w → same_dev w w' → holds (dev_items (w_dev w) ++ Y) w' → inv Y w'.
Proof.
  intros [_ Hd Hi] (Hdev & Hirqs & _) Hw. split; rewrite ?Hdev, ?Hirqs; assumption.
Qed.

Lemma inv_upd_eq X w (f g : nvme_device → nvme_device) :
  f (w_dev w) = g (w_dev w) → inv X (w <| w_dev ::= g |>) → inv X (w <| w_dev ::= f |>).
Proof. unfold set_field. by intros ->. Qed.

Lemma inv_hist X w h : inv X w → inv X (w <| w_hist := h |>).
Proof. intros [Hh Hd Hi]. split; [|done|done]. by eapply holds_ext, Hh. Qed.

(** A call that works on the part [P] of what is owned beside the device; the memory
    of the device and of the rest keeps its contents. *)
Lemma wp_own_frame {A} P Y (m : M A) Q T (Φ : A → world → Prop) w :
  triple P m Q → inv T w → T ≡ₚ P ++ Y →
  (∀ a R w', Q a R → inv (R ++ Y) w' → same_dev w w' →
    untouched (dev_items (w_dev w) ++ Y) w w' → Φ a w') → wp m Φ w.
Proof.
  intros Hm Hw HT HΦ. rewrite HT in Hw. pose proof (i_holds _ _ Hw) as Hh.
  eapply wp_mono; [apply (Hm (dev_items (w_dev w) ++ Y))|].
  - revert Hh. apply holds_perm; [|done]. solve_Permutation.
  - intros a w' (R & HQ & Hw' & Hs & Hu). eapply HΦ; [exact HQ| |exact Hs|exact Hu].
    eapply inv_same_dev; [exact Hw|exact Hs|].
    revert Hw'. apply holds_perm; [|done]. solve_Permutation.
Qed.
Lemma wp_own {A} P Y (m : M A) Q T (Φ : A → world → Prop) w :
  triple P m Q → inv T w → T ≡ₚ P ++ Y →
  (∀ a R w', Q a R → inv (R ++ Y) w' → same_dev w w' → Φ a w') → wp m Φ w.
Proof. intros Hm Hw HT HΦ. eapply wp_own_frame; eauto. Qed.

(** The same on what is live in the world. *)
Lemma wp_triple_frame {A} P Y (m : M A) Q R (Φ : A → world → Prop) w :
  triple P m Q → holds R w → R ≡ₚ P ++ Y →
  (∀ a R' w', Q a R' → holds (R' ++ Y) w' → same_dev w w' → untouched Y w w' → Φ a w') → wp m Φ w.
Proof.
  intros Hm Hw HR HΦ. rewrite HR in Hw. eapply wp_mono; [by apply Hm|].
  intros a w' (R' & ? & ? & ? & ?). eauto.
Qed.
Lemma wp_triple {A} P Y (m : M A) Q R (Φ : A → world → Prop) w :
  triple P m Q → holds R w → R ≡ₚ P ++ Y →
  (∀ a R' w', Q a R' → holds (R' ++ Y) w' → same_dev w w' → Φ a w') → wp m Φ w.
Proof. intros Hm Hw HR HΦ. eapply wp_triple_frame; eauto. Qed.

(** A call that works on what the device owns and leaves it as it was. *)
Lemma wp_borrow {A} P Y (m : M A) X (Φ : A → world → Prop) w :
  triple P m (λ _ R, R = P) → inv X w → dev_items (w_dev w) ++ X ≡ₚ P ++ Y →
  (∀ a w', inv X w' → same_dev w w' → Φ a w') → wp m Φ w.
Proof.
  intros Hm Hw HP HΦ. eapply (wp_triple P Y); [exact Hm|apply (i_holds _ _ Hw)|exact HP|].
  intros a R w' -> Hw' Hs. apply HΦ; [|done]. eapply inv_same_dev; [exact Hw|exact Hs|].
  by rewrite HP.
Qed.

(** Register accesses take nothing. *)
Section registers.
Context {E : Env}.

Lemma triple_readl b o : triple [] (dnvme_readl b o) gone.
Proof. eapply triple_bind; [apply triple_ext|]. intros r R ->. by apply triple_ret. Qed.
Lemma triple_writel b o v : triple [] (dnvme_writel b o v) gone.
Proof. apply triple_emit. Qed.
Lemma triple_writeq b o v : triple [] (dnvme_writeq b o v) gone.
Proof. eapply triple_bind; [apply triple_emit|]. intros r R ->. apply triple_emit. Qed.
End registers.

Lemma inv_emit X e (Φ : unit → world → Prop) w :
  inv X w → (∀ w', inv X w' → w' = w <| w_hist ::= cons e |> → Φ tt w') → wp (emit e) Φ w.
Proof. intros Hw HΦ. apply wp_emit, HΦ; [|done]. by apply inv_hist. Qed.

(** Handing an object over to the device structure, and taking it out. *)
Section handover.
Context (X : list item) (w : world).

Lemma inv_new_sq id q :
  inv (sq_items q ++ X) w → ndev_sqs (w_dev w) !! id = None → sq_wf id q →
  inv X (w <| w_dev ::= λ d, d <| ndev_sqs ::= <[id := q]> |> |>).
Proof.
  intros [Hh [Hs Hc Hm Hi Hb] Hirqs] Hq Hwf. split; [| |exact Hirqs].
  - eapply (holds_ext _ w); [done..|]. cbn. rewrite (dev_items_new_sq _ _ _ Hq).
    revert Hh. apply holds_perm; [|done]. solve_Permutation.
  - split; try done. cbn. by apply map_Forall_insert_2.
Qed.
Lemma inv_new_cq id q :
  inv (cq_items q ++ X) w → ndev_cqs (w_dev w) !! id = None → cq_wf id q →
  inv X (w <| w_dev ::= λ d, d <| ndev_cqs ::= <[id := q]> |> |>).
Proof.
  intros [Hh [Hs Hc Hm Hi Hb] Hirqs] Hq Hwf. split; [| |exact Hirqs].
  - eapply (holds_ext _ w); [done..|]. cbn. rewrite (dev_items_new_cq _ _ _ Hq).
    revert Hh. apply holds_perm; [|done]. solve_Permutation.
  - split; try done. cbn. by apply map_Forall_insert_2.
Qed.
Lemma inv_new_meta id m :
  inv (meta_items m ++ X) w → ndev_meta (w_dev w) !! id = None → meta_wf id m →
  inv X (w <| w_dev ::= λ d, d <| ndev_meta ::= <[id := m]> |> |>).
Proof.
  intros [Hh [Hs Hc Hm Hi Hb] Hirqs] Hq Hwf. split; [| |exact Hirqs].
  - eapply (holds_ext _ w); [done..|]. cbn. rewrite (dev_items_new_meta _ _ _ Hq).
    revert Hh. apply holds_perm; [|done]. solve_Permutation.
  - split; try done. cbn. by apply map_Forall_insert_2.
Qed.

Lemma inv_drop_sq id q :
  inv X w → ndev_sqs (w_dev w) !! id = Some q →
  inv (sq_items q ++ X) (w <| w_dev ::= λ d, d <| ndev_sqs ::= delete id |> |>).
Proof.
  intros [Hh [Hs Hc Hm Hi Hb] Hirqs] Hq. split; [| |exact Hirqs].
  - eapply (holds_ext _ w); [done..|]. rewrite (dev_items_sq _ _ _ Hq) in Hh.
    revert Hh. apply holds_perm; [|done]. solve_Permutation.
  - split; try done. cbn. by apply map_Forall_delete.
Qed.
Lemma inv_drop_cq id q :
  inv X w → ndev_cqs (w_dev w) !! id = Some q →
  inv (cq_items q ++ X) (w <| w_dev ::= λ d, d <| ndev_cqs ::= delete id |> |>).
Proof.
  intros [Hh [Hs Hc Hm Hi Hb] Hirqs] Hq. split; [| |exact Hirqs].
  - eapply (holds_ext _ w); [done..|]. rewrite (dev_items_cq _ _ _ Hq) in Hh.
    revert Hh. apply holds_perm; [|done]. solve_Permutation.
  - split; try done. cbn. by apply map_Forall_delete.
Qed.
Lemma inv_drop_meta id m :
  inv X w → ndev_meta (w_dev w) !! id = Some m →
  inv (meta_items m ++ X) (w <| w_dev ::= λ d, d <| ndev_meta ::= delete id |> |>).
Proof.
  intros [Hh [Hs Hc Hm Hi Hb] Hirqs] Hq. split; [| |exact Hirqs].
  - eapply (holds_ext _ w); [done..|]. rewrite (dev_items_meta _ _ _ Hq) in Hh.
    revert Hh. apply holds_perm; [|done]. solve_Permutation.
  - split; try done. cbn. by apply map_Forall_delete.
Qed.

(** An update of one queue that moves the items [Y] out and [Z] in. *)
Lemma inv_upd_sq id q g Y Z :
  inv (Z ++ X) w → ndev_sqs (w_dev w) !! id = Some q →
  Z ++ sq_items q ≡ₚ Y ++ sq_items (g q) → sq_wf id (g q) →
  inv (Y ++ X) (w <| w_dev ::= λ d, d <| ndev_sqs ::= alter g id |> |>).
Proof.
  intros [Hh [Hs Hc Hm Hi Hb] Hirqs] Hq Hit Hwf. split; [| |exact Hirqs].
  - eapply (holds_ext _ w); [done..|]. cbn. rewrite (dev_items_upd_sq _ _ _ _ Hq).
    rewrite (dev_items_sq _ _ _ Hq) in Hh. revert Hh. apply holds_perm; [|done].
    transitivity ((Y ++ sq_items (g q)) ++
      dev_items ((w_dev w) <| ndev_sqs ::= delete id |>) ++ X); [solve_Permutation|].
    rewrite <- Hit. solve_Permutation.
  - split; try done. cbn. intros i x. destruct (decide (i = id)) as [->|].
    + rewrite lookup_alter_eq, Hq. by intros [= <-].
    + rewrite lookup_alter_ne by done. apply Hs.
Qed.
Lemma inv_upd_cq id q g Y Z :
  inv (Z ++ X) w → ndev_cqs (w_dev w) !! id = Some q →
  Z ++ cq_items q ≡ₚ Y ++ cq_items (g q) → cq_wf id (g q) →
  inv (Y ++ X) (w <| w_dev ::= λ d, d <| ndev_cqs ::= alter g id |> |>).
Proof.
  intros [Hh [Hs Hc Hm Hi Hb] Hirqs] Hq Hit Hwf. split; [| |exact Hirqs].
  - eapply (holds_ext _ w); [done..|]. cbn. rewrite (dev_items_upd_cq _ _ _ _ Hq).
    rewrite (dev_items_cq _ _ _ Hq) in Hh. revert Hh. apply holds_perm; [|done].
    transitivity ((Y ++ cq_items (g q)) ++
      dev_items ((w_dev w) <| ndev_cqs ::= delete id |>) ++ X); [solve_Permutation|].
    rewrite <- Hit. solve_Permutation.
  - split; try done. cbn. intros i x. destruct (decide (i = id)) as [->|].
    + rewrite lookup_alter_eq, Hq. by intros [= <-].
    + rewrite lookup_alter_ne by done. apply Hc.
Qed.
End handover.

(** Steps of a proof by [wp]: [wcall Y L] runs a call whose triple is [L] while the
    items [Y] stay aside. *)
Ltac wcall Y L :=
  apply wp_bind; eapply (wp_own _ Y); [apply L|eassumption|solve_Permutation|].
