(* ===== verification/Demo.v ===== *)
(** * A concrete device

    An executable check for [holds], and a device with an admin queue pair, an I/O
    queue pair and a pending command that satisfies the invariant.  The witnesses
    of the components start from it. *)

From S2P Require Import Prelude Types Kernel Io Own Prp Ring Irq Queue Inv.

(** ** Checking [holds] by computation *)

Definition blk_okb (b : block) : bool :=
  match blk_kind b with
  | AK_coherent | AK_p2p | AK_vmap =>
    Z.of_nat (length (blk_data b)) =? Z.max 0 (blk_size b)
  | _ => true
  end.
Definition item_inb (h : gmap Z block) (it : item) : bool :=
  match it with
  | Blk p k sz =>
    negb (p =? 0) &&
    match h !! p with
    | Some b => bool_decide (blk_kind b = k) && (default (blk_size b) sz =? blk_size b) &&
                blk_okb b
    | None => false
    end
  | _ => true
  end.
Definition holdsb (R : list item) (w : world) : bool :=
  bool_decide (NoDup (ptrs R)) &&
  forallb (λ p, bool_decide (p ∈ ptrs R)) (map_to_list (w_heap w)).*1 &&
  forallb (item_inb (w_heap w)) R &&
  (w_pins w =? sumZ (item_pins <$> R)) && (w_sgmaps w =? sumZ (item_maps <$> R)).

Lemma item_inb_ok h it : item_inb h it = true → item_in h it.
Proof.
  destruct it as [p k sz| |]; try done. simpl.
  rewrite andb_true_iff, negb_true_iff, Z.eqb_neq. intros [Hp Hb]. split; [done|].
  destruct (h !! p) as [b|]; [|done]. exists b.
  rewrite !andb_true_iff, bool_decide_eq_true, Z.eqb_eq in Hb.
  destruct Hb as [[Hk Hs] Hok]. split_and!; try done.
  unfold blk_ok, blk_okb in *. intros [H|[H|H]]; rewrite H in Hok; by apply Z.eqb_eq.
Qed.

Lemma holdsb_ok R w : holdsb R w = true → holds R w.
Proof.
  unfold holdsb. rewrite !andb_true_iff, bool_decide_eq_true, !forallb_forall, !Z.eqb_eq.
  intros [[[[Hn Hd] Hi] Hp] Hm]. split; try done.
  - intros p [b Hb]. specialize (Hd p). rewrite bool_decide_eq_true in Hd. apply Hd.
    apply list_elem_of_In, list_elem_of_fmap. exists (p, b).
    split; [done|]. by apply elem_of_map_to_list.
  - apply Forall_forall. intros it Hit. by apply item_inb_ok, Hi, list_elem_of_In.
Qed.

(** ** The device *)

Definition demo_sq (id ptr buf elements : Z) (cmds : list nvme_cmd) : nvme_sq := {|
  sq_ptr := ptr;
  sq_pub := {| sqp_sq_id := id; sqp_cq_id := id; sqp_tail_ptr := 0; sqp_tail_ptr_virt := 1;
               sqp_head_ptr := 0; sqp_elements := elements; sqp_sqes := NVME_NVM_IOSQES |};
  sq_cmd_list := cmds; sq_buf := buf; sq_dma := 4096 * buf; sq_size := 64 * elements;
  sq_prps := None; sq_db := 0x11000 + 8 * id; sq_next_cid := 1;
  sq_contig := true; sq_created := true; sq_use_cmb := false |}.
Definition demo_cq' (id ptr buf elements : Z) : nvme_cq := {|
  cq_ptr := ptr;
  cq_pub := {| cqp_q_id := id; cqp_tail_ptr := 0; cqp_head_ptr := 0; cqp_elements := elements;
               cqp_irq_enabled := 1; cqp_irq_no := 0; cqp_pbit_new_entry := 1;
               cqp_cqes := NVME_NVM_IOCQES |};
  cq_buf := buf; cq_dma := 4096 * buf; cq_size := 16 * elements; cq_prps := None;
  cq_db := 0x11004 + 8 * id; cq_contig := true; cq_created := true; cq_use_cmb := false |}.

(** A command in flight on the I/O queue, without a data buffer. *)
Definition demo_node : nvme_cmd := {|
  cmd_ptr := 9; cmd_cid := 0; cmd_sqid := 1; cmd_target_qid := 0; cmd_idx := 0;
  cmd_opcode := 0x02; cmd_prps := None |}.

(** One irq (the pin) with the admin completion queue bound to it. *)
Definition demo_irq_set : nvme_irq_set := {|
  is_irq_list := [{| irq_ptr := 10; irq_icq_list := [mk_icq 11 0]; irq_id := 0;
                     irq_int_vec := 11; irq_isr_fired := 0; irq_isr_count := 0 |}];
  is_msix_irqs := 0; is_msix_tb := 0; is_msix_pba := 0;
  is_irq_type := NVME_INT_PIN; is_nr_irq := 1; is_wq := 13; is_wq_pending := [];
  is_work_list := [{| work_ptr := 12; work_irq_id := 0; work_int_vec := 11 |}] |}.

(** The completion of the command: entry 0 of the I/O completion queue. *)
Definition demo_cqe : list Z :=
  le_bytes 8 0 ++ le_bytes 2 1 ++ le_bytes 2 1 ++ le_bytes 2 0 ++ le_bytes 2 1.

Definition full_dev : nvme_device :=
  demo_dev <| ndev_sqs := {[ 0 := demo_sq 0 1 2 4 []; 1 := demo_sq 1 5 6 4 [demo_node] ]} |>
           <| ndev_cqs := {[ 0 := demo_cq' 0 3 4 4; 1 := demo_cq' 1 7 8 4 ]} |>
           <| ndev_irq_set := demo_irq_set |>.
Definition full_world : world := {|
  w_dev := full_dev;
  w_heap := {[ 1 := mk_block AK_kmalloc 96 []; 2 := mk_block AK_coherent 256 (zeros 256);
               3 := mk_block AK_kmalloc 88 []; 4 := mk_block AK_coherent 64 (zeros 64);
               5 := mk_block AK_kmalloc 96 []; 6 := mk_block AK_coherent 256 (zeros 256);
               7 := mk_block AK_kmalloc 88 [];
               8 := mk_block AK_coherent 64 (demo_cqe ++ zeros 48);
               9 := mk_block AK_kmalloc 40 []; 10 := mk_block AK_kmalloc 56 [];
               11 := mk_block AK_kmalloc 24 []; 12 := mk_block AK_kmalloc 72 [];
               13 := mk_block AK_wq 0 [] ]};
  w_pins := 0; w_sgmaps := 0; w_irqs := [11]; w_mode := MODE_none; w_hist := [] |}.

Lemma map_Forall_pair {A} (P : Z → A → Prop) i x j y :
  P i x → P j y → map_Forall P ({[ i := x; j := y ]} : gmap Z A).
Proof. intros. apply map_Forall_insert_2; [done|]. by apply map_Forall_singleton. Qed.

Lemma demo_sq_wf id ptr buf elements cmds :
  1 < elements ≤ 2 ^ 16 → Forall cmd_wf cmds → Forall (λ c, cmd_prps c = None) cmds →
  sq_wf id (demo_sq id ptr buf elements cmds).
Proof.
  intros He Hc Hp. split; simpl; try done; try lia.
  intros _. eapply Forall_impl; [exact Hp|]. done.
Qed.
Lemma demo_cq_wf id ptr buf elements :
  0 < elements < 2 ^ 16 → cq_wf id (demo_cq' id ptr buf elements).
Proof. intros He. split; simpl; try done; try lia. Qed.

Lemma demo_irq_wf : irq_wf demo_irq_set.
Proof.
  split; simpl; try done.
  - repeat constructor; set_solver.
  - repeat constructor; set_solver.
  - intros p Hp. by apply elem_of_nil in Hp.
  - intros _. repeat constructor; simpl; lia.
Qed.

Lemma full_world_inv : inv [] full_world.
Proof.
  split; [by apply holdsb_ok; vm_compute| |done]. split.
  - apply map_Forall_pair; apply demo_sq_wf; try lia; repeat constructor; done.
  - apply map_Forall_pair; apply demo_cq_wf; lia.
  - apply map_Forall_empty.
  - apply demo_irq_wf.
  - done.
Qed.

(** The device without queues and interrupts. *)
Lemma demo_world_inv : inv [] demo_world.
Proof.
  split; [by apply holdsb_ok; vm_compute| |done]. split; try apply map_Forall_empty; try done.
  split; simpl; try done; try constructor;
    by intros p ?%elem_of_nil.
Qed.
