(* ===== verification/QueueSpec.v ===== *)
(** * Queues keep the invariant

    Allocation and release of queues ([Queue]) own and return exactly what they
    should, on every path; the doorbells of the queues are distinct registers; the
    admin queues are set up only while the controller is disabled. *)

From S2P Require Import Prelude Types Kernel Io Own Prp Ring Irq Queue Inv Demo.

(** ** Stores into owned memory *)

Definition mem_kind (k : akind) : Prop := k = AK_coherent ∨ k = AK_p2p ∨ k = AK_vmap.

(** Contents may change, by whatever hand; what is live does not. *)
Lemma holds_contents R p b bs w :
  holds R w → w_heap w !! p = Some b → length bs = length (blk_data b) →
  holds R (w <| w_heap ::= alter (λ b, b <| blk_data := bs |>) p |>).
Proof.
  intros [Hn Hd Hi Hp Hm] Hb Hl. split; try done.
  - intros q. cbn. rewrite lookup_alter_is_Some. apply Hd.
  - cbn. eapply Forall_impl; [exact Hi|]. intros [q k' sz'| |]; try done. simpl.
    intros (Hq & b' & Hb' & Hk & Hs & Hok). split; [done|].
    destruct (decide (p = q)) as [->|].
    + exists (b <| blk_data := bs |>). rewrite lookup_alter_eq, Hb. simplify_eq.
      split_and!; try done. unfold blk_ok in *. cbn. by rewrite Hl.
    + exists b'. by rewrite lookup_alter_ne.
Qed.
Lemma holds_put_data p k sz R w b bs :
  holds (Blk p k sz :: R) w → w_heap w !! p = Some b → length bs = length (blk_data b) →
  holds (Blk p k sz :: R) (w <| w_heap ::= alter (λ b, b <| blk_data := bs |>) p |>).
Proof. apply holds_contents. Qed.

Lemma untouched_put_data p k sz R w f :
  holds (Blk p k sz :: R) w → untouched R w (w <| w_heap ::= alter f p |>).
Proof.
  intros [Hn _ _ _ _] q Hq. simpl in Hn. apply NoDup_cons in Hn as [Hnin _]. cbn.
  rewrite lookup_alter_ne; [done|]. by intros ->.
Qed.

Lemma triple_mem_write p k size off bs :
  mem_kind k → 0 ≤ off → off + Z.of_nat (length bs) ≤ size →
  triple [Blk p k (Some size)] (mem_write p off bs) (λ _ R, R = [Blk p k (Some size)]).
Proof.
  intros Hk Ho Hl X w Hw. destruct (holds_blk _ _ _ _ _ Hw) as (Hp & b & Hb & Hbk & Hs & Hok).
  unfold mem_write, get_block. apply wp_bind. unfold wp.
  rewrite (proj2 (Z.eqb_neq p 0) Hp), Hb.
  assert (Z.of_nat (length (blk_data b)) = Z.max 0 size) as Hlen.
  { simpl in Hs. rewrite Hs. apply Hok. by rewrite Hbk. }
  destruct (store_bytes_Some (blk_data b) off bs) as [d Hd]; [lia|lia|]. rewrite Hd. simpl.
  exists [Blk p k (Some size)]. split_and!; [done| |done|by eapply untouched_put_data].
  apply (holds_put_data _ _ _ _ _ b); [done|done|]. by eapply length_store_bytes.
Qed.

Lemma triple_memset0 p k size : mem_kind k → 0 ≤ size →
  triple [Blk p k (Some size)] (memset0 p size) (λ _ R, R = [Blk p k (Some size)]).
Proof.
  intros. apply triple_mem_write; [done|done|]. unfold zeros. rewrite length_replicate. lia.
Qed.

Section queue_spec.
Context {E : Env}.

(** ** The memory of a queue *)

Lemma triple_alloc_queue_buf contig use_cmb support size : 0 ≤ size →
  triple [] (alloc_queue_buf contig use_cmb support size)
    (λ r R, r = None ∧ R = [] ∨
      ∃ buf dma cmb, r = Some (buf, dma, cmb) ∧ R = qmem_items contig cmb buf size None ∧
        (cmb = true → use_cmb = true ∧ support = true) ∧ 0 ≤ dma < 2 ^ 64).
Proof.
  intros Hs. unfold alloc_queue_buf. destruct contig; [destruct use_cmb|].
  - destruct support; [|apply triple_ret; by left]. simpl.
    tcall (triple_p2p_alloc size Hs). intros buf R [[-> ->]|[Hb ->]]; simpl.
    { apply triple_ret. by left. }
    rewrite (proj2 (Z.eqb_neq buf 0)) by lia. tcall triple_p2p_bus. intros dma R [Hd ->].
    tif; intros _.
    { tgive (@nil item) (triple_p2p_free buf size). intros _ R ->. apply triple_ret. by left. }
    tgive (@nil item) (triple_memset0 buf AK_p2p size); [by right; left|done|].
    intros _ R ->. apply triple_ret. right. exists buf, dma, true. done.
  - tcall (triple_dma_alloc size Hs). intros [buf dma] R [[[Hb ->]|[Hb ->]] Hd]; simpl in *.
    { subst. apply triple_ret. by left. }
    rewrite (proj2 (Z.eqb_neq buf 0)) by lia.
    tgive (@nil item) (triple_memset0 buf AK_coherent size); [by left|done|].
    intros _ R ->. apply triple_ret. right. exists buf, dma, false. done.
  - apply triple_ret. right. exists 0, 0, false. done.
Qed.

(** Giving it back: for a queue in the CMB the size is needed. *)
Lemma triple_free_queue_buf contig (cmb : bool) buf size o (psize : Z) :
  oprps_wf o → (cmb = true → psize = size) →
  triple (qmem_items contig cmb buf size o)
    (if contig then if cmb then pci_free_p2pmem buf psize else dma_free_coherent size buf
     else dnvme_release_prps o) gone.
Proof.
  intros Ho Hsz. destruct contig; [|by apply triple_release_prps]. simpl.
  destruct cmb; [rewrite Hsz by done; apply triple_p2p_free|apply triple_dma_free].
Qed.

(** ** Allocation *)

(** A queue as [dnvme_alloc_sq] and [dnvme_alloc_cq] set it up. *)
Record sq_fresh (d : nvme_device) (prep : nvme_prep_sq) (sqes : Z) (q : nvme_sq) : Prop := {
  sqf_pub : sq_pub q = {| sqp_sq_id := psq_sq_id prep; sqp_cq_id := psq_cq_id prep;
    sqp_tail_ptr := 0; sqp_tail_ptr_virt := 0; sqp_head_ptr := 0;
    sqp_elements := psq_elements prep; sqp_sqes := sqes |};
  sqf_cmds : sq_cmd_list q = [];
  sqf_size : sq_size q = u32 (Z.shiftl (psq_elements prep) sqes);
  sqf_prps : sq_prps q = None;
  sqf_db : sq_db q = db_addr d (u32 (psq_sq_id prep * 2 * ndev_db_stride d));
  sqf_contig : sq_contig q = psq_contig prep;
  sqf_created : sq_created q = false;
  sqf_cid : sq_next_cid q = 0;
  sqf_dma : 0 ≤ sq_dma q < 2 ^ 64 }.
Record cq_fresh (d : nvme_device) (prep : nvme_prep_cq) (cqes : Z) (q : nvme_cq) : Prop := {
  cqf_pub : cq_pub q = {| cqp_q_id := pcq_cq_id prep; cqp_tail_ptr := 0; cqp_head_ptr := 0;
    cqp_elements := pcq_elements prep; cqp_irq_enabled := pcq_irq_en prep;
    cqp_irq_no := pcq_irq_no prep; cqp_pbit_new_entry := 1; cqp_cqes := cqes |};
  cqf_size : cq_size q = u32 (Z.shiftl (pcq_elements prep) cqes);
  cqf_prps : cq_prps q = None;
  cqf_db : cq_db q = db_addr d (u32 ((pcq_cq_id prep * 2 + 1) * ndev_db_stride d));
  cqf_contig : cq_contig q = pcq_contig prep;
  cqf_cmb : cq_use_cmb q = true →
    pcq_use_cmb prep = true ∧ dnvme_cmb_support_cq (ndev_cmb d) = true;
  cqf_created : cq_created q = false;
  cqf_dma : 0 ≤ cq_dma q < 2 ^ 64 }.

Lemma sq_fresh_wf d prep q :
  sq_fresh d prep NVME_NVM_IOSQES q → 0 < psq_elements prep ≤ 2 ^ 16 →
  (psq_sq_id prep = NVME_AQ_ID → psq_contig prep = true) →
  sq_wf (psq_sq_id prep) q.
Proof.
  intros [Hp Hc Hs Ho _ Hco _ _ _] He Haq.
  split; rewrite ?Hp, ?Hc, ?Hs, ?Ho, ?Hco; simpl; try lia; try done.
  rewrite Z.shiftl_mul_pow2 by (unfold NVME_NVM_IOSQES; lia).
  unfold NVME_NVM_IOSQES. rewrite u32_small; lia.
Qed.
Lemma cq_fresh_wf d prep q :
  cq_fresh d prep NVME_NVM_IOCQES q → 0 < pcq_elements prep < 2 ^ 16 →
  pcq_use_cmb prep = false ∨ dnvme_cmb_support_cq (ndev_cmb d) = false →
  (pcq_cq_id prep = NVME_AQ_ID → pcq_contig prep = true) →
  cq_wf (pcq_cq_id prep) q.
Proof.
  intros [Hp Hs Ho _ Hco Hcmb _ _] He Hn Haq.
  split; rewrite ?Hp, ?Hs, ?Ho, ?Hco; simpl; try lia; try done.
  - rewrite Z.shiftl_mul_pow2 by (unfold NVME_NVM_IOCQES; lia).
    unfold NVME_NVM_IOCQES. rewrite u32_small; lia.
  - destruct (cq_use_cmb q); [|done]. destruct Hcmb as [H1 H2]; [done|].
    destruct Hn; congruence.
Qed.

(** [xa_insert] fails when the identifier is taken. *)
Lemma triple_xa_insert {A} (m : gmap Z A) id :
  triple [] (xa_insert_ret m id) (λ r R, (r < 0 ∨ r = 0 ∧ m !! id = None) ∧ R = []).
Proof.
  eapply triple_bind; [apply triple_ext|]. intros r R ->. apply triple_ret. split; [|done].
  destruct (m !! id); [by left|]. destruct (r =? 0); [by right|by left].
Qed.

(** [dnvme_alloc_sq] fails and changes nothing, or adds a fresh queue; no other
    item is taken or left. *)
Lemma wp_alloc_sq X prep w :
  inv X w → 0 < psq_elements prep ≤ 2 ^ 16 →
  (psq_sq_id prep = NVME_AQ_ID → psq_contig prep = true) →
  wp (dnvme_alloc_sq prep NVME_NVM_IOSQES)
    (λ r w', r = None ∧ inv X w' ∧ same_dev w w' ∨
      r = Some (psq_sq_id prep) ∧ inv X w' ∧ ndev_sqs (w_dev w) !! psq_sq_id prep = None ∧
      ∃ q, sq_fresh (w_dev w) prep NVME_NVM_IOSQES q ∧
           w_dev w' = (w_dev w) <| ndev_sqs ::= <[psq_sq_id prep := q]> |>) w.
Proof.
  intros Hw He Haq. unfold dnvme_alloc_sq. apply wp_bind, wp_gets.
  wcall X triple_kmalloc. intros p R w1 Hr Hw1 Hs1. destruct Hr as [[-> ->]|[Hp ->]]; simpl.
  { apply wp_ret. by left. }
  rewrite (proj2 (Z.eqb_neq p 0)) by lia.
  set (size := u32 (Z.shiftl (psq_elements prep) NVME_NVM_IOSQES)).
  wcall ([Blk p AK_kmalloc None] ++ X) (triple_alloc_queue_buf (psq_contig prep)
    (psq_use_cmb prep) (dnvme_cmb_support_sq (ndev_cmb (w_dev w))) size (proj1 (u32_range _))).
  intros r R w2 Hr Hw2 Hs2. destruct Hr as [[-> ->]|(buf & dma & cmb & -> & -> & Hcmb & Hdma)].
  { wcall X (triple_kfree p None); [lia|]. intros _ R w3 -> Hw3 Hs3.
    apply wp_ret. left. split_and!; [done|done|]. by do 2 (etrans; [done|]). }
  wcall (qmem_items (psq_contig prep) cmb buf size None ++ [Blk p AK_kmalloc None] ++ X)
    (triple_xa_insert (ndev_sqs (w_dev w)) (psq_sq_id prep)).
  intros r R w3 [Hr ->] Hw3 Hs3. cbn zeta.
  assert (same_dev w w3) as Hs13 by (by do 2 (etrans; [done|])).
  destruct Hr as [Hr|[-> Hnone]]; simpl.
  - rewrite (proj2 (Z.ltb_lt r 0)) by done.
    eapply wp_bind, (wp_own _ ([Blk p AK_kmalloc None] ++ X));
      [by apply (triple_free_queue_buf _ cmb buf size None size)|exact Hw3|solve_Permutation|].
    intros _ R w4 -> Hw4 Hs4.
    wcall X (triple_kfree p None); [lia|]. intros _ R w5 -> Hw5 Hs5.
    apply wp_ret. left. split_and!; [done|done|]. by do 2 (etrans; [done|]).
  - apply wp_bind, wp_modify, wp_ret. right. rewrite <- (same_dev_dev _ _ Hs13) in Hnone |- *.
    split_and!; [done| |done|].
    + apply inv_new_sq; [|done|].
      * revert Hw3. apply inv_perm; [|done]. unfold sq_items. simpl. solve_Permutation.
      * apply (sq_fresh_wf (w_dev w3) prep); [|done|done]. by split.
    + eexists. split; [|done]. by split.
Qed.

Lemma wp_alloc_cq X prep w :
  inv X w → 0 < pcq_elements prep < 2 ^ 16 →
  pcq_use_cmb prep = false ∨ dnvme_cmb_support_cq (ndev_cmb (w_dev w)) = false →
  (pcq_cq_id prep = NVME_AQ_ID → pcq_contig prep = true) →
  wp (dnvme_alloc_cq prep NVME_NVM_IOCQES)
    (λ r w', r = None ∧ inv X w' ∧ same_dev w w' ∨
      r = Some (pcq_cq_id prep) ∧ inv X w' ∧ ndev_cqs (w_dev w) !! pcq_cq_id prep = None ∧
      ∃ q, cq_fresh (w_dev w) prep NVME_NVM_IOCQES q ∧ cq_wf (pcq_cq_id prep) q ∧
           w_irqs w' = w_irqs w ∧ w_mode w' = w_mode w ∧
           w_dev w' = (w_dev w) <| ndev_cqs ::= <[pcq_cq_id prep := q]> |>) w.
Proof.
  intros Hw He Hn Haq. unfold dnvme_alloc_cq. apply wp_bind, wp_gets.
  wcall X triple_kmalloc. intros p R w1 Hr Hw1 Hs1. destruct Hr as [[-> ->]|[Hp ->]]; simpl.
  { apply wp_ret. by left. }
  rewrite (proj2 (Z.eqb_neq p 0)) by lia.
  set (size := u32 (Z.shiftl (pcq_elements prep) NVME_NVM_IOCQES)).
  wcall ([Blk p AK_kmalloc None] ++ X) (triple_alloc_queue_buf (pcq_contig prep)
    (pcq_use_cmb prep) (dnvme_cmb_support_cq (ndev_cmb (w_dev w))) size (proj1 (u32_range _))).
  intros r R w2 Hr Hw2 Hs2. destruct Hr as [[-> ->]|(buf & dma & cmb & -> & -> & Hcmb & Hdma)].
  { wcall X (triple_kfree p None); [lia|]. intros _ R w3 -> Hw3 Hs3.
    apply wp_ret. left. split_and!; [done|done|]. by do 2 (etrans; [done|]). }
  assert (cmb = false) as ->.
  { destruct cmb; [|done]. destruct Hcmb as [H1 H2]; [done|]. destruct Hn; congruence. }
  wcall (qmem_items (pcq_contig prep) false buf size None ++ [Blk p AK_kmalloc None] ++ X)
    (triple_xa_insert (ndev_cqs (w_dev w)) (pcq_cq_id prep)).
  intros r R w3 [Hr ->] Hw3 Hs3. cbn zeta.
  assert (same_dev w w3) as Hs13 by (by do 2 (etrans; [done|])).
  destruct Hr as [Hr|[-> Hnone]]; simpl.
  - rewrite (proj2 (Z.ltb_lt r 0)) by done.
    eapply wp_bind, (wp_own _ ([Blk p AK_kmalloc None] ++ X));
      [by apply (triple_free_queue_buf _ false buf size None 0)|exact Hw3|solve_Permutation|].
    intros _ R w4 -> Hw4 Hs4.
    wcall X (triple_kfree p None); [lia|]. intros _ R w5 -> Hw5 Hs5.
    apply wp_ret. left. split_and!; [done|done|]. by do 2 (etrans; [done|]).
  - apply wp_bind, wp_modify, wp_ret. right. destruct Hs13 as (Hdev & Hirqs & Hmode).
    rewrite <- Hdev in Hnone, Hn |- *.
    match goal with |- context [<[_ := ?q]>] => set (cq := q) end.
    assert (cq_fresh (w_dev w3) prep NVME_NVM_IOCQES cq) as Hf by (by split).
    pose proof (cq_fresh_wf _ _ _ Hf He Hn Haq) as Hwf.
    split_and!; [done| |done|by exists cq].
    apply inv_new_cq; [|done|done].
    revert Hw3. apply inv_perm; [|done]. unfold cq_items. simpl. solve_Permutation.
Qed.

(** ** Release *)

(** The queue is taken out of the structure and everything it owns is returned. *)
Lemma wp_release_sq X id q w :
  inv X w → ndev_sqs (w_dev w) !! id = Some q →
  wp (dnvme_release_sq (Some q))
    (λ _ w', inv X w' ∧ w_dev w' = (w_dev w) <| ndev_sqs ::= delete id |> ∧
             w_irqs w' = w_irqs w ∧ w_mode w' = w_mode w ∧
             untouched (dev_items (w_dev w') ++ X) w w') w.
Proof.
  intros Hw Hq. pose proof (dw_sqs _ (i_dev _ _ Hw) _ _ Hq) as Hwf.
  unfold dnvme_release_sq. apply wp_bind, wp_modify.
  rewrite (sqw_id _ _ Hwf). pose proof (inv_drop_sq X w id q Hw Hq) as Hd.
  set (w0 := w <| w_dev ::= _ |>) in *.
  pose proof (h_in _ _ (i_holds _ _ Hd)) as Hin.
  assert (sq_ptr q ≠ 0) as Hptr.
  { rewrite Forall_forall in Hin. destruct (Hin (Blk (sq_ptr q) AK_kmalloc None)) as [? _];
      [|done]. unfold sq_items. set_solver. }
  destruct (sqw_mem _ _ Hwf) as [_ _ Ho _].
  apply wp_bind. eapply (wp_own_frame _ (Blk (sq_ptr q) AK_kmalloc None ::
    qmem_items (sq_contig q) (sq_use_cmb q) (sq_buf q) (sq_size q) (sq_prps q) ++ X));
    [apply triple_delete_cmd_list, (sqw_cmds _ _ Hwf)|exact Hd|
     unfold sq_items; solve_Permutation|].
  intros q' R w1 [-> ->] Hw1 Hs1 Hu1. cbn [sq_contig sq_use_cmb sq_buf sq_size sq_prps sq_ptr].
  apply wp_bind. eapply (wp_own_frame _ (Blk (sq_ptr q) AK_kmalloc None :: X));
    [by apply (triple_free_queue_buf (sq_contig q) (sq_use_cmb q) (sq_buf q) (sq_size q)
        (sq_prps q) (sq_size q))|exact Hw1|solve_Permutation|].
  intros _ R w2 -> Hw2 Hs2 Hu2.
  eapply (wp_own_frame _ X); [by apply (triple_kfree (sq_ptr q) None)|exact Hw2|done|].
  intros _ R w3 -> Hw3 Hs3 Hu3. assert (same_dev w0 w3) as (Hdev & Hirqs & Hmode)
    by (by do 2 (etrans; [done|])). rewrite Hdev, Hirqs, Hmode.
  split_and!; try done. rewrite (same_dev_dev _ _ Hs2), (same_dev_dev _ _ Hs1) in Hu3.
  rewrite (same_dev_dev _ _ Hs1) in Hu2.
  transitivity w0; [done|]. transitivity w1; [|transitivity w2].
  - eapply untouched_incl; [|exact Hu1]. set_solver.
  - eapply untouched_incl; [|exact Hu2]. set_solver.
  - exact Hu3.
Qed.

Lemma wp_release_cq X id q w :
  inv X w → ndev_cqs (w_dev w) !! id = Some q →
  wp (dnvme_release_cq (Some q))
    (λ _ w', inv X w' ∧ w_dev w' = (w_dev w) <| ndev_cqs ::= delete id |> ∧
             w_irqs w' = w_irqs w ∧ w_mode w' = w_mode w ∧
             untouched (dev_items (w_dev w') ++ X) w w') w.
Proof.
  intros Hw Hq. pose proof (dw_cqs _ (i_dev _ _ Hw) _ _ Hq) as Hwf.
  unfold dnvme_release_cq. apply wp_bind, wp_modify.
  rewrite (cqw_id _ _ Hwf). pose proof (inv_drop_cq X w id q Hw Hq) as Hd.
  set (w0 := w <| w_dev ::= _ |>) in *.
  pose proof (h_in _ _ (i_holds _ _ Hd)) as Hin.
  assert (cq_ptr q ≠ 0) as Hptr.
  { rewrite Forall_forall in Hin. destruct (Hin (Blk (cq_ptr q) AK_kmalloc None)) as [? _];
      [|done]. unfold cq_items. set_solver. }
  destruct (cqw_mem _ _ Hwf) as [_ _ Ho _]. pose proof (cqw_cmb _ _ Hwf) as Hcmb.
  apply wp_bind. eapply (wp_own_frame _ (Blk (cq_ptr q) AK_kmalloc None :: X));
    [apply (triple_free_queue_buf (cq_contig q) (cq_use_cmb q) (cq_buf q) (cq_size q)
        (cq_prps q) (cq_dma q)); [done|congruence]|exact Hd|
     unfold cq_items; solve_Permutation|].
  intros _ R w2 -> Hw2 Hs2 Hu2.
  eapply (wp_own_frame _ X); [by apply (triple_kfree (cq_ptr q) None)|exact Hw2|done|].
  intros _ R w3 -> Hw3 Hs3 Hu3. assert (same_dev w0 w3) as (Hdev & Hirqs & Hmode) by (by etrans).
  rewrite Hdev, Hirqs, Hmode.
  split_and!; try done. rewrite (same_dev_dev _ _ Hs2) in Hu3.
  transitivity w0; [done|]. transitivity w2; [|exact Hu3].
  eapply untouched_incl; [|exact Hu2]. set_solver.
Qed.

(** ** Reset of the admin queues *)

Definition asq_reset (q : nvme_sq) : nvme_sq :=
  q <| sq_cmd_list := [] |>
    <| sq_pub ::= λ p, p <| sqp_head_ptr := 0 |> <| sqp_tail_ptr := 0 |>
                         <| sqp_tail_ptr_virt := 0 |> |>
    <| sq_next_cid := 0 |>.
Definition acq_reset (q : nvme_cq) : nvme_cq :=
  q <| cq_pub ::= λ p, p <| cqp_head_ptr := 0 |> <| cqp_tail_ptr := 0 |>
                         <| cqp_pbit_new_entry := 1 |> <| cqp_irq_enabled := 1 |> |>.

Lemma asq_reset_wf id q : sq_wf id q → sq_wf id (asq_reset q).
Proof. intros [? ? ? ? ? ? ? ? ?]. split; simpl; try done; lia. Qed.
Lemma acq_reset_wf id q : cq_wf id q → cq_wf id (acq_reset q).
Proof. intros [? ? ? ? ? ? ? ? ?]. split; simpl; try done; [lia|by right]. Qed.

Lemma wp_memset_sq X id q w (Φ : unit → world → Prop) :
  inv X w → ndev_sqs (w_dev w) !! id = Some q → sq_contig q = true →
  (∀ w', inv X w' → same_dev w w' → Φ tt w') → wp (memset0 (sq_buf q) (sq_size q)) Φ w.
Proof.
  intros Hw Hq Hc HΦ. pose proof (dw_sqs _ (i_dev _ _ Hw) _ _ Hq) as Hwf.
  pose proof (sqw_elements _ _ Hwf). pose proof (sqw_size _ _ Hwf).
  eapply (wp_borrow _ (Blk (sq_ptr q) AK_kmalloc None :: (sq_cmd_list q ≫= cmd_items) ++
    dev_items ((w_dev w) <| ndev_sqs ::= delete id |>) ++ X));
    [apply (triple_memset0 _ (if sq_use_cmb q then AK_p2p else AK_coherent));
    [destruct (sq_use_cmb q); [by right; left|by left]|lia]|exact Hw| |intros []; apply HΦ].
  rewrite (dev_items_sq _ _ _ Hq). unfold sq_items, qmem_items. rewrite Hc. solve_Permutation.
Qed.
Lemma wp_memset_cq X id q w (Φ : unit → world → Prop) :
  inv X w → ndev_cqs (w_dev w) !! id = Some q → cq_contig q = true →
  (∀ w', inv X w' → same_dev w w' → Φ tt w') → wp (memset0 (cq_buf q) (cq_size q)) Φ w.
Proof.
  intros Hw Hq Hc HΦ. pose proof (dw_cqs _ (i_dev _ _ Hw) _ _ Hq) as Hwf.
  pose proof (cqw_elements _ _ Hwf). pose proof (cqw_size _ _ Hwf).
  eapply (wp_borrow _ (Blk (cq_ptr q) AK_kmalloc None ::
    dev_items ((w_dev w) <| ndev_cqs ::= delete id |>) ++ X));
    [apply (triple_memset0 _ (if cq_use_cmb q then AK_p2p else AK_coherent));
    [destruct (cq_use_cmb q); [by right; left|by left]|lia]|exact Hw| |intros []; apply HΦ].
  rewrite (dev_items_cq _ _ _ Hq). unfold cq_items, qmem_items. rewrite Hc. solve_Permutation.
Qed.

(** Once the commands of a queue are freed, storing the queue without them restores
    the invariant. *)
Lemma wp_clear_cmds X id q w :
  inv X w → ndev_sqs (w_dev w) !! id = Some q →
  wp (dnvme_delete_cmd_list q)
    (λ q0 w1, q0 = q <| sq_cmd_list := [] |> ∧
      ∀ q', sq_items q' = sq_items q0 → sq_wf id q' →
      let w' := w1 <| w_dev ::= λ d, d <| ndev_sqs ::= alter (λ _, q') id |> |> in
      inv X w' ∧ w_irqs w' = w_irqs w ∧
      w_dev w' = (w_dev w) <| ndev_sqs ::= alter (λ _, q') id |>) w.
Proof.
  intros Hw Hq. pose proof (dw_sqs _ (i_dev _ _ Hw) _ _ Hq) as Hwq.
  eapply (wp_triple _ (sq_items (q <| sq_cmd_list := [] |>) ++
    dev_items ((w_dev w) <| ndev_sqs ::= delete id |>) ++ X));
    [apply triple_delete_cmd_list, (sqw_cmds _ _ Hwq)|apply (i_holds _ _ Hw)| |].
  { rewrite (dev_items_sq _ _ _ Hq). unfold sq_items. simpl. solve_Permutation. }
  intros q0 R w1 [-> ->] Hw1 (Hdev & Hirqs & _). split; [done|]. intros q' Hit Hwf w'.
  pose proof (i_dev _ _ Hw) as Hd. pose proof (i_irqs _ _ Hw) as Hi.
  split_and!; [|done|cbn; by rewrite Hdev].
  rewrite <- Hdev in Hq, Hd, Hi, Hw1. split; [| |cbn; by rewrite Hirqs].
  - eapply (holds_ext _ w1); [done..|]. cbn. rewrite (dev_items_upd_sq _ _ _ _ Hq), Hit.
    by rewrite <- (assoc_L (++)).
  - destruct Hd as [Hs Hc Hm Hii Hb]. split; try done. cbn. intros i x.
    destruct (decide (i = id)) as [->|].
    + rewrite lookup_alter_eq, Hq. by intros [= <-].
    + rewrite lookup_alter_ne by done. apply Hs.
Qed.

Lemma wp_get_sq id q (Φ : nvme_sq → world → Prop) w :
  ndev_sqs (w_dev w) !! id = Some q → Φ q w → wp (get_sq id) Φ w.
Proof. intros Hq HΦ. unfold wp, get_sq, get_dev, gets, mbind, M_bind, dnvme_find_sq. by rewrite Hq. Qed.
Lemma wp_get_cq id q (Φ : nvme_cq → world → Prop) w :
  ndev_cqs (w_dev w) !! id = Some q → Φ q w → wp (get_cq id) Φ w.
Proof. intros Hq HΦ. unfold wp, get_cq, get_dev, gets, mbind, M_bind, dnvme_find_cq. by rewrite Hq. Qed.

Lemma wp_reinit_asq X id q w :
  inv X w → ndev_sqs (w_dev w) !! id = Some q → sq_contig q = true →
  wp (dnvme_reinit_asq id)
    (λ _ w', inv X w' ∧ w_irqs w' = w_irqs w ∧
      w_dev w' = (w_dev w) <| ndev_sqs ::= alter (λ _, asq_reset q) id |>) w.
Proof.
  intros Hw Hq Hc. unfold dnvme_reinit_asq. apply wp_bind, (wp_get_sq id q); [done|].
  apply wp_bind. eapply wp_mono; [by apply (wp_clear_cmds X id)|].
  intros q0 w1 [-> Hst]. apply wp_bind, wp_modify.
  destruct (Hst (asq_reset q)) as (Hw2 & Hi2 & Hd2); [done| |].
  { apply asq_reset_wf, (dw_sqs _ (i_dev _ _ Hw) _ _ Hq). }
  apply (wp_memset_sq X id (asq_reset q)); [exact Hw2| |done|].
  - transitivity (ndev_sqs ((w_dev w) <| ndev_sqs ::= alter (λ _, asq_reset q) id |>) !! id);
      [exact (f_equal (λ d, ndev_sqs d !! id) Hd2)|]. cbn. by rewrite lookup_alter_eq, Hq.
  - intros w3 Hw3 (Hd3 & Hi3 & _). rewrite Hd3, Hi3. done.
Qed.

Lemma wp_reinit_acq X id q w :
  inv X w → ndev_cqs (w_dev w) !! id = Some q → cq_contig q = true →
  wp (dnvme_reinit_acq id)
    (λ _ w', inv X w' ∧ w_irqs w' = w_irqs w ∧
      w_dev w' = (w_dev w) <| ndev_cqs ::= alter acq_reset id |>) w.
Proof.
  intros Hw Hq Hc. unfold dnvme_reinit_acq. apply wp_bind, (wp_get_cq id q); [done|].
  apply wp_bind, wp_modify.
  apply (wp_memset_cq X id (acq_reset q)); [| |done|].
  - eapply (inv_upd_cq X w id q acq_reset [] []); [done|done|done|].
    apply acq_reset_wf, (dw_cqs _ (i_dev _ _ Hw) _ _ Hq).
  - by cbn; rewrite lookup_alter_eq, Hq.
  - intros w3 Hw3 (Hd3 & Hi3 & _). by rewrite Hd3, Hi3.
Qed.
(** ** Deleting all queues *)

Lemma xa_keys_elem {A} (m : gmap Z A) i : i ∈ xa_keys m ↔ is_Some (m !! i).
Proof.
  unfold xa_keys. rewrite merge_sort_Permutation, list_elem_of_fmap. split.
  - intros ([k x] & -> & Hx%elem_of_map_to_list). by exists x.
  - intros [x Hx]. exists (i, x). split; [done|]. by apply elem_of_map_to_list.
Qed.
Lemma xa_keys_NoDup {A} (m : gmap Z A) : NoDup (xa_keys m).
Proof. unfold xa_keys. rewrite merge_sort_Permutation. apply NoDup_fst_map_to_list. Qed.

(** What stays: nothing, or the admin queue, reset. *)
Definition kept {A} (save : bool) (reset : A → A) (m : gmap Z A) : gmap Z A :=
  match m !! NVME_AQ_ID with
  | Some q => if save then {[ NVME_AQ_ID := reset q ]} else ∅
  | None => ∅
  end.

Lemma kept_aq {A} (reset : A → A) m q :
  m !! NVME_AQ_ID = Some q → kept true reset m !! NVME_AQ_ID = Some (reset q).
Proof. intros Hq. unfold kept. rewrite Hq. apply lookup_singleton_eq. Qed.
Lemma kept_none {A} save (reset : A → A) m i :
  (save = true → i ≠ NVME_AQ_ID) → kept save reset m !! i = None.
Proof.
  intros Hi. unfold kept. destruct (m !! NVME_AQ_ID); [|apply lookup_empty].
  destruct save; [|apply lookup_empty]. apply lookup_singleton_ne. by apply not_eq_sym, Hi.
Qed.

(** The objects while the keys [l] are still to be visited. *)
Definition part_done {A} (save : bool) (reset : A → A) (m0 : gmap Z A) (l : list Z)
    (m : gmap Z A) : Prop :=
  NoDup l ∧ ∀ i, m !! i = if decide (i ∈ l) then m0 !! i else kept save reset m0 !! i.

Section part_done.
Context {A : Type} (save : bool) (reset : A → A) (m0 : gmap Z A).

Lemma part_done_init : part_done save reset m0 (xa_keys m0) m0.
Proof.
  split; [apply xa_keys_NoDup|]. intros i. case_decide as Hi; [done|].
  rewrite xa_keys_elem in Hi. destruct (m0 !! i) eqn:Hm; [by destruct Hi|]. symmetry.
  unfold kept. destruct (m0 !! NVME_AQ_ID) eqn:Ha; [|apply lookup_empty].
  destruct save; [|apply lookup_empty]. apply lookup_singleton_ne. congruence.
Qed.

Lemma part_done_end m : part_done save reset m0 [] m → m = kept save reset m0.
Proof.
  intros [_ Hm]. apply map_eq. intros i. rewrite Hm.
  destruct (decide (i ∈ [])) as [Hin|_]; [by apply elem_of_nil in Hin|done].
Qed.

Lemma part_done_head m i l : part_done save reset m0 (i :: l) m → m !! i = m0 !! i.
Proof. intros [_ Hm]. rewrite Hm, decide_True; [done|]. set_solver. Qed.

Lemma part_done_next m m' i l :
  part_done save reset m0 (i :: l) m →
  m' !! i = kept save reset m0 !! i → (∀ j, j ≠ i → m' !! j = m !! j) →
  part_done save reset m0 l m'.
Proof.
  intros [Hn Hm] Hi Hj. apply NoDup_cons in Hn as [Hnin Hn]. split; [done|]. intros j.
  destruct (decide (j = i)) as [->|].
  - by rewrite decide_False.
  - rewrite Hj, Hm by done. destruct (decide (j ∈ l)).
    + rewrite decide_True by set_solver. done.
    + rewrite decide_False by set_solver. done.
Qed.
End part_done.

(** The loop over an xarray of the device, [get]/[put] being its access. *)
Section delete_all.
Context {A : Type} (get : nvme_device → gmap Z A) (put : gmap Z A → nvme_device → nvme_device).
Context (save : bool) (reset : A → A) (body : Z → M unit) (X : list item) (w : world).
Context (get_put : ∀ m d, get (put m d) = m).
Context (put_get : ∀ d, put (get d) d = d).
Context (put_put : ∀ m m' d, put m' (put m d) = put m' d).
Context (Hbody : ∀ i w1, inv X w1 →
  get (w_dev w1) !! i = get (w_dev w) !! i →
  wp (body i) (λ _ w2, inv X w2 ∧ w_irqs w2 = w_irqs w1 ∧
    w_dev w2 = put (if save && (i =? NVME_AQ_ID) then alter reset i (get (w_dev w1))
                    else delete i (get (w_dev w1))) (w_dev w1)) w1).

Lemma wp_delete_all :
  inv X w →
  wp (mapM_ body (xa_keys (get (w_dev w))))
    (λ _ w', inv X w' ∧ w_irqs w' = w_irqs w ∧
      w_dev w' = put (kept save reset (get (w_dev w))) (w_dev w)) w.
Proof.
  intros Hw. set (m0 := get (w_dev w)) in *.
  apply (wp_mapM_ _ (λ l w', inv X w' ∧ w_irqs w' = w_irqs w ∧ ∃ m,
    w_dev w' = put m (w_dev w) ∧ part_done save reset m0 l m)).
  - split_and!; [done|done|]. exists m0. split; [by subst m0; rewrite put_get|apply part_done_init].
  - intros i l w1 (Hw1 & Hi1 & m & Hd1 & Hm).
    pose proof (part_done_head _ _ _ _ _ _ Hm) as Hmi.
    eapply wp_mono; [apply Hbody; [done|by rewrite Hd1, get_put]|].
    intros _ w2 (Hw2 & Hi2 & Hd2). rewrite Hd1, get_put, put_put in Hd2.
    split_and!; [done|congruence|]. eexists. split; [exact Hd2|].
    eapply part_done_next; [exact Hm|..].
    + destruct (save && (i =? NVME_AQ_ID)) eqn:Hs.
      * apply andb_true_iff in Hs as [-> ->%Z.eqb_eq]. rewrite lookup_alter_eq, Hmi.
        destruct (m0 !! NVME_AQ_ID) as [q|] eqn:Hq; [by rewrite (kept_aq reset m0 q)|].
        unfold kept. by rewrite Hq.
      * rewrite lookup_delete_eq. symmetry. apply kept_none. intros ->. by apply Z.eqb_neq.
    + intros j Hj. destruct (_ && _); [by apply lookup_alter_ne|by apply lookup_delete_ne].
  - intros w' (Hw' & Hi' & m & Hd' & Hm). split_and!; [done|done|].
    by rewrite <- (part_done_end _ _ _ _ Hm).
Qed.
End delete_all.

Lemma delete_None {A} (m : gmap Z A) i : m !! i = None → delete i m = m.
Proof. apply delete_id. Qed.
Lemma alter_None {A} (f : A → A) (m : gmap Z A) i : m !! i = None → alter f i m = m.
Proof. intros Hi. apply alter_id. intros x Hx. congruence. Qed.

Lemma alter_const {A} (f : A → A) (m : gmap Z A) i x :
  m !! i = Some x → alter (λ _, f x) i m = alter f i m.
Proof.
  intros Hi. apply map_eq. intros j. destruct (decide (j = i)) as [->|].
  - by rewrite !lookup_alter_eq, Hi.
  - by rewrite !lookup_alter_ne.
Qed.

Lemma wp_delete_sqs X (save : bool) w :
  inv X w →
  wp (mapM_ (λ i,
        d ← get_dev;
        match dnvme_find_sq d i with
        | None => mret tt
        | Some sq =>
          if save && (sqp_sq_id (sq_pub sq) =? NVME_AQ_ID) then dnvme_reinit_asq i
          else dnvme_release_sq (Some sq)
        end) (xa_keys (ndev_sqs (w_dev w))))
    (λ _ w', inv X w' ∧ w_irqs w' = w_irqs w ∧ w_dev w' =
      (w_dev w) <| ndev_sqs := kept save asq_reset (ndev_sqs (w_dev w)) |>) w.
Proof.
  intros Hw. apply (wp_delete_all ndev_sqs (λ m d, d <| ndev_sqs := m |>)); try done.
  { by intros []. }
  intros i w1 Hw1 Hi. apply wp_bind, wp_gets. unfold dnvme_find_sq.
  destruct (ndev_sqs (w_dev w1) !! i) as [q|] eqn:Hq.
  - pose proof (dw_sqs _ (i_dev _ _ Hw1) _ _ Hq) as Hwf. rewrite (sqw_id _ _ Hwf).
    destruct (save && (i =? NVME_AQ_ID)) eqn:Hs.
    + apply andb_true_iff in Hs as [-> ->%Z.eqb_eq].
      eapply wp_mono; [apply (wp_reinit_asq X NVME_AQ_ID q); [done|done|by apply Hwf]|].
      intros _ w2 (Hw2 & Hi2 & Hd2). split_and!; [done|done|].
      rewrite <- (alter_const asq_reset _ _ _ Hq). exact Hd2.
    + eapply wp_mono; [by apply (wp_release_sq X i q)|]. by intros _ w2 (? & ? & ? & ?).
  - apply wp_ret. split_and!; [done|done|].
    rewrite (alter_None _ _ _ Hq), (delete_None _ _ Hq). destruct (_ && _); by destruct (w_dev w1).
Qed.

Lemma wp_delete_cqs X (save : bool) w :
  inv X w →
  wp (mapM_ (λ i,
        d ← get_dev;
        match dnvme_find_cq d i with
        | None => mret tt
        | Some cq =>
          if save && (cqp_q_id (cq_pub cq) =? NVME_AQ_ID) then dnvme_reinit_acq i
          else dnvme_release_cq (Some cq)
        end) (xa_keys (ndev_cqs (w_dev w))))
    (λ _ w', inv X w' ∧ w_irqs w' = w_irqs w ∧ w_dev w' =
      (w_dev w) <| ndev_cqs := kept save acq_reset (ndev_cqs (w_dev w)) |>) w.
Proof.
  intros Hw. apply (wp_delete_all ndev_cqs (λ m d, d <| ndev_cqs := m |>)); try done.
  { by intros []. }
  intros i w1 Hw1 Hi. apply wp_bind, wp_gets. unfold dnvme_find_cq.
  destruct (ndev_cqs (w_dev w1) !! i) as [q|] eqn:Hq.
  - pose proof (dw_cqs _ (i_dev _ _ Hw1) _ _ Hq) as Hwf. rewrite (cqw_id _ _ Hwf).
    destruct (save && (i =? NVME_AQ_ID)) eqn:Hs.
    + apply andb_true_iff in Hs as [-> ->%Z.eqb_eq].
      eapply wp_mono; [apply (wp_reinit_acq X NVME_AQ_ID q); [done|done|by apply Hwf]|].
      by intros _ w2 (Hw2 & Hi2 & Hd2).
    + eapply wp_mono; [by apply (wp_release_cq X i q)|]. by intros _ w2 (? & ? & ? & ?).
  - apply wp_ret. split_and!; [done|done|].
    rewrite (alter_None _ _ _ Hq), (delete_None _ _ Hq). destruct (_ && _); by destruct (w_dev w1).
Qed.

(** The registers of the admin queues, cleared. *)
Definition admin_regs_cleared (bar0 : Z) : history :=
  (λ r, E_writel (bar0 + r) 0) <$>
    [NVME_REG_ACQ + 4; NVME_REG_ACQ; NVME_REG_ASQ + 4; NVME_REG_ASQ; NVME_REG_AQA].

Lemma wp_delete_all_queues X st w (Hw : inv X w) :
  let save := negb (bool_decide (st = NVME_ST_DISABLE_COMPLETE)) in
  wp (dnvme_delete_all_queues st)
    (λ _ w', inv X w' ∧ w_irqs w' = w_irqs w ∧
      w_dev w' = (w_dev w)
        <| ndev_sqs := kept save asq_reset (ndev_sqs (w_dev w)) |>
        <| ndev_cqs := kept save acq_reset (ndev_cqs (w_dev w)) |> ∧
      (save = false → ∃ h, w_hist w' = admin_regs_cleared (ndev_bar0 (w_dev w)) ++ h)) w.
Proof.
  intros save. unfold dnvme_delete_all_queues, get_bar0.
  apply wp_bind, wp_bind, wp_gets, wp_ret. fold save. apply wp_bind, wp_gets.
  apply wp_bind. eapply wp_mono; [by apply wp_delete_sqs|].
  intros _ w1 (Hw1 & Hi1 & Hd1). apply wp_bind, wp_gets, wp_bind.
  eapply wp_mono; [by apply wp_delete_cqs|]. intros _ w2 (Hw2 & Hi2 & Hd2).
  rewrite Hd1 in Hd2. destruct save; simpl.
  - apply wp_ret. split_and!; [done|congruence|exact Hd2|done].
  - apply wp_bind, wp_emit, wp_bind, wp_bind, wp_emit, wp_emit, wp_bind, wp_emit, wp_emit.
    split_and!; [|by etrans; [exact Hi2|exact Hi1]|exact Hd2|].
    + by do 5 apply (inv_hist X).
    + intros _. exists (w_hist w2). cbn. unfold dnvme_writel. simpl.
      rewrite !Z.add_assoc. done.
Qed.

End queue_spec.

(** *** Witness *)

