(* ===== verification/IrqSpec.v ===== *)
(** * Interrupt set-up and tear-down keep the invariant

    [dnvme_clean_interrupt] frees every handler before it gives the vectors back,
    runs what is queued, and returns all nodes and the workqueue. *)

From S2P Require Import Prelude Types Kernel Io Own Prp Ring Irq Inv.

(** ** The interrupt part of the device *)

Definition other_items (d : nvme_device) : list item :=
  xa_items sq_items (ndev_sqs d) ++ xa_items cq_items (ndev_cqs d) ++
  xa_items meta_items (ndev_meta d) ++ hmb_items (ndev_hmb d).

Lemma dev_items_irq d : dev_items d ≡ₚ irq_items (ndev_irq_set d) ++ other_items d.
Proof. unfold dev_items, other_items. solve_Permutation. Qed.

(** The world while the interrupt code runs: the structure is [d0] with the irq set
    [s], what is live is what [s] owns and [Y], the handlers are [L]. *)
Record irq_st (Y : list item) (d0 : nvme_device) (s : nvme_irq_set) (L : list Z) (w : world) :
    Prop := {
  st_holds : holds (irq_items s ++ Y) w;
  st_dev : w_dev w = d0 <| ndev_irq_set := s |>;
  st_irqs : w_irqs w = L }.

Section irq_spec.
Context {E : Env}.
Implicit Types (Y : list item) (s : nvme_irq_set) (L : list Z).

Lemma irq_st_set Y d0 s L w : irq_st Y d0 s L w → ndev_irq_set (w_dev w) = s.
Proof. intros [_ Hd _]. by rewrite Hd. Qed.

Lemma wp_get_irq_set Y d0 s L (Φ : nvme_irq_set → world → Prop) w :
  irq_st Y d0 s L w → Φ s w → wp get_irq_set Φ w.
Proof.
  intros Hs HΦ. apply wp_bind, wp_gets, wp_ret. by rewrite (irq_st_set _ _ _ _ _ Hs).
Qed.

Lemma wp_upd_irq_set Y Y' d0 s s' L f (Φ : unit → world → Prop) w :
  irq_st Y d0 s L w → f s = s' → irq_items s ++ Y ≡ₚ irq_items s' ++ Y' →
  (∀ w', irq_st Y' d0 s' L w' → w_mode w' = w_mode w → Φ tt w') →
  wp (upd_irq_set f) Φ w.
Proof.
  intros [Hh Hd Hi] <- Hit HΦ. apply wp_modify, HΦ; [|done]. split; [| |done].
  - rewrite Hit in Hh. by eapply holds_ext, Hh.
  - cbn. by rewrite Hd.
Qed.

(** A call that works on items [P] that the irq set does not own. *)
Lemma wp_irq_own {A} P Y Y' d0 s L (m : M A) Q (Φ : A → world → Prop) w :
  triple P m Q → irq_st Y d0 s L w → Y ≡ₚ P ++ Y' →
  (∀ a R w', Q a R → irq_st (R ++ Y') d0 s L w' → w_mode w' = w_mode w → Φ a w') → wp m Φ w.
Proof.
  intros Hm [Hh Hd Hi] HY HΦ. eapply (wp_triple P (irq_items s ++ Y')); [exact Hm|exact Hh| |].
  { rewrite HY. solve_Permutation. }
  intros a R w' HQ Hw' (Hd' & Hi' & Hm'). eapply HΦ; [exact HQ| |done]. split.
  - revert Hw'. apply holds_perm; [|done]. solve_Permutation.
  - by rewrite Hd'.
  - by rewrite Hi'.
Qed.

(** ** Handlers *)

Lemma wp_free_irqs (vecs : list Z) (Φ : unit → world → Prop) w :
  w_irqs w ≡ₚ vecs →
  (∀ w', w_irqs w' = [] → w_dev w' = w_dev w → w_heap w' = w_heap w →
         w_pins w' = w_pins w → w_sgmaps w' = w_sgmaps w → w_mode w' = w_mode w → Φ tt w') →
  wp (mapM_ free_irq vecs) Φ w.
Proof.
  intros Hv HΦ. apply (wp_mapM_ _ (λ l w', w_irqs w' ≡ₚ l ∧ w_dev w' = w_dev w ∧
    w_heap w' = w_heap w ∧ w_pins w' = w_pins w ∧ w_sgmaps w' = w_sgmaps w ∧
    w_mode w' = w_mode w)); [done| |].
  - intros v l w1 (Hl & ? & ? & ? & ? & ?). apply wp_bind, wp_emit, wp_modify.
    split_and!; try done. cbn.
    assert (∀ l1, v ∈ l1 → l1 ≡ₚ v :: remove_one v l1) as Hrem.
    { induction l1 as [|y l1 IH]; [set_solver|]. simpl. intros Hin.
      destruct (Z.eqb_spec v y) as [->|]; [done|].
      rewrite (Permutation_swap y v). by rewrite <- IH by set_solver. }
    apply (Permutation_cons_inv (a := v)). rewrite <- Hl. symmetry. apply Hrem.
    rewrite Hl. set_solver.
  - intros w' (Hl & ? & ? & ? & ? & ?). apply HΦ; try done. by apply Permutation_nil_r.
Qed.

Lemma mapM_fmap {A B} (g : B → M unit) (f : A → B) l :
  mapM_ (λ x, g (f x)) l = mapM_ g (f <$> l).
Proof. induction l as [|x l IH]; [done|]. cbn. by rewrite IH. Qed.

(** ** The bottom half *)

(** What an interrupt changes in a node. *)
Definition irq_same (n n' : nvme_irq) : Prop :=
  irq_ptr n' = irq_ptr n ∧ irq_icq_list n' = irq_icq_list n ∧ irq_id n' = irq_id n ∧
  irq_int_vec n' = irq_int_vec n ∧ (irq_isr_fired n = 1 → irq_isr_fired n' = 1).
#[local] Instance irq_same_preorder : PreOrder irq_same.
Proof. split; [done|]. intros ? ? ? (?&?&?&?&?) (?&?&?&?&?). split_and!; [congruence..|auto]. Qed.

(** The flag of irq [id] is set. *)
Definition fired (l : list nvme_irq) (id : Z) : Prop :=
  ∃ n, n ∈ l ∧ irq_id n = id ∧ irq_isr_fired n = 1.

Lemma fired_same l l' id : Forall2 irq_same l l' → fired l id → fired l' id.
Proof.
  intros Hl (n & [i Hi]%list_elem_of_lookup_1 & Hid & Hf).
  destruct (Forall2_lookup_l _ _ _ _ _ Hl Hi) as (n' & Hi' & (_ & _ & Hid' & _ & Hf')).
  exists n'. split_and!; [by eapply list_elem_of_lookup_2|congruence|auto].
Qed.

Lemma irq_same_proj {A} (f : nvme_irq → A) l l' :
  (∀ n n', irq_same n n' → f n' = f n) → Forall2 irq_same l l' → f <$> l' = f <$> l.
Proof. intros Hf. induction 1; [done|]. cbn. f_equal; auto. Qed.

Lemma irq_same_items l l' : Forall2 irq_same l l' → l' ≫= irq_node_items = l ≫= irq_node_items.
Proof.
  induction 1 as [|n n' l l' (Hp&Hc&_) _ IH]; [done|]. cbn. rewrite IH.
  unfold irq_node_items. by rewrite Hp, Hc.
Qed.

Lemma fmap_same (p : Z) (f : nvme_irq → nvme_irq) l :
  (∀ n, irq_same n (f n)) → Forall2 irq_same l ((λ n, if irq_ptr n =? p then f n else n) <$> l).
Proof.
  intros Hf. induction l as [|n l IH]; cbn; constructor; [|done]. by destruct (_ =? _).
Qed.

Lemma list_find_snd {A} (P : A → Prop) `{∀ x, Decision (P x)} l x :
  snd <$> list_find P l = Some x → x ∈ l ∧ P x.
Proof.
  intros Hf. destruct (list_find P l) as [[i y]|] eqn:Hl; [|done]. injection Hf as ->.
  apply list_find_Some in Hl as (Hi & HP & _). split; [|done]. by eapply list_elem_of_lookup_2.
Qed.

Lemma find_some {A} (f : A → Z) l x :
  x ∈ (f <$> l) → is_Some (snd <$> list_find (λ n, f n = x) l).
Proof.
  intros (n & -> & Hn)%list_elem_of_fmap.
  destruct (list_find (λ m, f m = f n) l) as [[i m]|] eqn:Hf; [by eexists|].
  apply list_find_None in Hf. rewrite Forall_forall in Hf. by destruct (Hf n).
Qed.

Lemma find_unique {A} (f : A → Z) l i x :
  NoDup (f <$> l) → l !! i = Some x → snd <$> list_find (λ y, f y = f x) l = Some x.
Proof.
  intros Hnd Hi. destruct (find_some f l (f x)) as [y Hy].
  { apply list_elem_of_fmap_2. by eapply list_elem_of_lookup_2. }
  rewrite Hy. apply list_find_snd in Hy as [[j Hj]%list_elem_of_lookup_1 Heq]. f_equal.
  assert (j = i) as ->; [|congruence].
  eapply NoDup_lookup; [exact Hnd| |]; rewrite list_lookup_fmap; [by rewrite Hj|].
  by rewrite Hi; simpl; rewrite Heq.
Qed.

Lemma triple_destroy_workqueue p : triple [Blk p AK_wq None] (destroy_workqueue p) gone.
Proof. apply triple_emit_then, triple_free_block. Qed.

Lemma holds_nonnull R w p k sz : holds R w → Blk p k sz ∈ R → p ≠ 0.
Proof.
  intros Hh Hin. pose proof (h_in _ _ Hh) as Hi. rewrite Forall_forall in Hi.
  by destruct (Hi _ Hin).
Qed.

Lemma work_nonnull Y d0 s L w n :
  irq_st Y d0 s L w → n ∈ is_work_list s → work_ptr n ≠ 0.
Proof.
  intros [Hh _ _] Hn. eapply holds_nonnull; [exact Hh|]. unfold irq_items.
  rewrite !elem_of_app. left. right. left. rewrite list_elem_of_bind. exists n.
  by split; [left|].
Qed.

Lemma work_nodup Y d0 s L w :
  irq_st Y d0 s L w → NoDup (work_ptr <$> is_work_list s).
Proof.
  intros [Hh _ _]. pose proof (h_nodup _ _ Hh) as Hn. unfold irq_items in Hn.
  rewrite !ptrs_app in Hn. apply NoDup_app in Hn as [Hn _]. apply NoDup_app in Hn as (_ & _ & Hn).
  apply NoDup_app in Hn as [Hn _]. revert Hn. generalize (is_work_list s). intros l.
  assert (ptrs (l ≫= work_items) = work_ptr <$> l) as ->; [|done].
  unfold ptrs. induction l; [done|]. cbn. by f_equal.
Qed.

(** Running an item: the irq node of the work node gets its flag. *)
Lemma wp_update_irq_flag Y d0 s L wk (Φ : unit → world → Prop) w :
  irq_st Y d0 s L w → wk ∈ is_work_list s → NoDup (work_ptr <$> is_work_list s) →
  (∀ l' w', Forall2 irq_same (is_irq_list s) l' →
    (work_irq_id wk ∈ (irq_id <$> is_irq_list s) → fired l' (work_irq_id wk)) →
    irq_st Y d0 (s <| is_irq_list := l' |>) L w' → w_mode w' = w_mode w → Φ tt w') →
  wp (update_irq_flag (work_ptr wk)) Φ w.
Proof.
  intros Hs [i Hi]%list_elem_of_lookup_1 Hnd HΦ. unfold update_irq_flag.
  apply wp_bind, (wp_get_irq_set _ _ _ _ _ _ Hs).
  pose proof (find_unique work_ptr _ _ _ Hnd Hi) as Hf.
  destruct (list_find _ (is_work_list s)) as [[j n]|]; [injection Hf as ->|done].
  unfold inc_isr_count. apply wp_bind, (wp_get_irq_set _ _ _ _ _ _ Hs).
  destruct (find_irq_node_by_id s (work_irq_id wk)) as [irq|] eqn:Hirq.
  - apply list_find_snd in Hirq as [Hin Hid].
    set (g := λ n : nvme_irq, n <| irq_isr_fired := 1 |> <| irq_isr_count ::= λ c, s32 (c + 1) |>).
    pose proof (fmap_same (irq_ptr irq) g (is_irq_list s) ltac:(done)) as Hl.
    eapply (wp_upd_irq_set Y Y); [exact Hs|reflexivity| |].
    + unfold irq_items. cbn. by rewrite (irq_same_items _ _ Hl).
    + intros w' Hw' Hm'. apply (HΦ _ _ Hl); [|done|done]. intros _. exists (g irq).
      split_and!; [|done|done]. apply list_elem_of_fmap. exists irq. by rewrite Z.eqb_refl.
  - apply wp_ret, (HΦ (is_irq_list s)); [reflexivity| |by destruct s|done]. intros Hin.
    destruct (find_some irq_id _ _ Hin) as [n Hn]. unfold find_irq_node_by_id in Hirq. congruence.
Qed.

(** Every item queued has its node, and its flag after the flush. *)
Lemma wp_flush_workqueue Y d0 s L (Φ : unit → world → Prop) w :
  irq_st Y d0 s L w → NoDup (work_ptr <$> is_work_list s) →
  (∀ p, p ∈ is_wq_pending s → p ∈ (work_ptr <$> is_work_list s)) →
  (∀ l' w', Forall2 irq_same (is_irq_list s) l' →
    (∀ wk, wk ∈ is_work_list s → work_ptr wk ∈ is_wq_pending s →
      work_irq_id wk ∈ (irq_id <$> is_irq_list s) → fired l' (work_irq_id wk)) →
    irq_st Y d0 (s <| is_irq_list := l' |> <| is_wq_pending := [] |>) L w' →
    w_mode w' = w_mode w → Φ tt w') →
  wp flush_workqueue Φ w.
Proof.
  intros Hs Hnd Hp HΦ. unfold flush_workqueue.
  apply wp_bind. eapply (wp_irq_own [] Y Y); [apply triple_emit|exact Hs|reflexivity|].
  intros _ R w1 -> Hs1 Hm1. simpl in Hs1.
  apply wp_bind, (wp_get_irq_set _ _ _ _ _ _ Hs1), wp_bind.
  apply (wp_mapM_ _ (λ l w', (∀ p, p ∈ l → p ∈ is_wq_pending s) ∧ w_mode w' = w_mode w ∧
    ∃ l', Forall2 irq_same (is_irq_list s) l' ∧ irq_st Y d0 (s <| is_irq_list := l' |>) L w' ∧
    (∀ wk, wk ∈ is_work_list s → work_ptr wk ∈ is_wq_pending s → work_ptr wk ∉ l →
      work_irq_id wk ∈ (irq_id <$> is_irq_list s) → fired l' (work_irq_id wk)))).
  - split_and!; [done|done|]. exists (is_irq_list s). split_and!; [reflexivity|by destruct s|done].
  - intros p l w2 (Hl & Hm2 & l' & Hsame & Hs2 & Hfd).
    assert (p ∈ is_wq_pending s) as Hpp by (apply Hl; by left).
    apply Hp, list_elem_of_fmap in Hpp as (wk & -> & Hwk).
    eapply (wp_update_irq_flag Y d0 (s <| is_irq_list := l' |>) L wk); [exact Hs2|done|done|].
    intros l2 w3 Hsame2 Hfd2 Hs3 Hm3. split_and!; [set_solver|congruence|].
    exists l2. split_and!; [by etrans|done|]. intros wk' Hwk' Hpend Hnl Hid.
    destruct (decide (work_ptr wk' = work_ptr wk)) as [Heq|].
    + assert (wk' = wk) as ->; [|apply Hfd2; cbn; by rewrite (irq_same_proj irq_id _ _ ltac:(by intros ? ? (?&?&?&?)) Hsame)].
      apply list_elem_of_lookup_1 in Hwk as [i Hi], Hwk' as [j Hj].
      assert (j = i) as ->; [|congruence]. eapply (NoDup_lookup _ _ _ _ Hnd);
        rewrite list_lookup_fmap; [by rewrite Hj|by rewrite Hi; simpl; rewrite Heq].
    + eapply fired_same; [exact Hsame2|]. apply Hfd; try done. set_solver.
  - intros w2 (_ & Hm2 & l' & Hsame & Hs2 & Hfd).
    eapply (wp_upd_irq_set Y Y); [exact Hs2|reflexivity|done|]. intros w3 Hs3 Hm3.
    apply (HΦ l'); [done| |done|congruence]. intros wk H1 H2 H3. apply Hfd; try done. set_solver.
Qed.

Lemma wp_destroy_irq_work_queue Y d0 s L (Φ : unit → world → Prop) w :
  irq_st Y d0 s L w → (∀ p, p ∈ is_wq_pending s → p ∈ (work_ptr <$> is_work_list s)) →
  (∀ l' w', Forall2 irq_same (is_irq_list s) l' →
    irq_st Y d0 (s <| is_irq_list := l' |> <| is_wq := 0 |>
      <| is_wq_pending := if is_wq s =? 0 then is_wq_pending s else [] |>) L w' →
    w_mode w' = w_mode w → Φ tt w') →
  wp destroy_irq_work_queue Φ w.
Proof.
  intros Hs Hp HΦ. unfold destroy_irq_work_queue.
  apply wp_bind, (wp_get_irq_set _ _ _ _ _ _ Hs).
  destruct (Z.eqb_spec (is_wq s) 0) as [H0|H0].
  { apply wp_ret, (HΦ (is_irq_list s)); [reflexivity| |done].
    destruct s; simpl in *; by subst. }
  apply wp_bind. eapply wp_flush_workqueue; [exact Hs|by eapply work_nodup|exact Hp|].
  intros l' w1 Hsame _ Hs1 Hm1.
  set (s' := s <| is_irq_list := l' |> <| is_wq := 0 |> <| is_wq_pending := [] |>).
  apply wp_bind. eapply (wp_triple _ (irq_items s' ++ Y));
    [apply triple_destroy_workqueue|apply (st_holds _ _ _ _ _ Hs1)| |].
  { unfold irq_items. cbn. rewrite (proj2 (Z.eqb_neq _ _) H0). solve_Permutation. }
  intros _ R w2 -> Hw2 (Hd2 & Hi2 & Hm2). apply wp_modify.
  apply (HΦ l'); [done| |cbn; congruence]. split.
  - by eapply holds_ext, Hw2.
  - cbn. by rewrite Hd2, (st_dev _ _ _ _ _ Hs1).
  - cbn. by rewrite Hi2, (st_irqs _ _ _ _ _ Hs1).
Qed.

(** ** The node lists *)

Lemma ptrs_icqs l : ptrs (l ≫= icq_items) = icq_ptr <$> l.
Proof. unfold ptrs. induction l; [done|]. cbn. by f_equal. Qed.

Lemma elem_ptrs p k sz R : Blk p k sz ∈ R → p ∈ ptrs R.
Proof.
  intros Hin. unfold ptrs. rewrite list_elem_of_bind. exists (Blk p k sz). split; [|done].
  set_solver.
Qed.

(** A node in the list: its address is its own, and so are those of its queues. *)
Lemma st_node Y d0 s L w l1 n l2 :
  irq_st Y d0 s L w → is_irq_list s = l1 ++ n :: l2 →
  Forall (λ n', irq_ptr n' ≠ irq_ptr n) (l1 ++ l2) ∧ NoDup (icq_ptr <$> irq_icq_list n) ∧
  irq_ptr n ≠ 0 ∧ Forall (λ i, icq_ptr i ≠ 0) (irq_icq_list n).
Proof.
  intros [Hh _ _] Hl.
  assert (∃ Z, irq_items s ++ Y ≡ₚ Blk (irq_ptr n) AK_kmalloc None ::
    (irq_icq_list n ≫= icq_items) ++ ((l1 ++ l2) ≫= irq_node_items) ++ Z) as [Z HZ].
  { exists ((is_work_list s ≫= work_items) ++
      (if is_wq s =? 0 then [] else [Blk (is_wq s) AK_wq None]) ++ Y).
    unfold irq_items. rewrite Hl, !bind_app. cbn. solve_Permutation. }
  rewrite HZ in Hh. pose proof (h_nodup _ _ Hh) as Hn.
  change (NoDup (irq_ptr n :: ptrs ((irq_icq_list n ≫= icq_items) ++
    ((l1 ++ l2) ≫= irq_node_items) ++ Z))) in Hn.
  rewrite !ptrs_app, ptrs_icqs in Hn. apply NoDup_cons in Hn as [Hnin Hn].
  split_and!.
  - apply Forall_forall. intros n' Hn' Heq. apply Hnin. rewrite <- Heq.
    apply elem_of_app. right. apply elem_of_app. left.
    apply (elem_ptrs _ AK_kmalloc None).
    rewrite list_elem_of_bind. exists n'. split; [by left|done].
  - by apply NoDup_app in Hn as [Hn _].
  - eapply holds_nonnull; [exact Hh|by left].
  - apply Forall_forall. intros i Hi. eapply holds_nonnull; [exact Hh|].
    right. apply elem_of_app. left. rewrite list_elem_of_bind. exists i. by split; [left|].
Qed.

(** Updating or removing a node by address changes only it. *)
Lemma upd_node l1 n l2 f :
  Forall (λ n', irq_ptr n' ≠ irq_ptr n) (l1 ++ l2) →
  ((λ x, if irq_ptr x =? irq_ptr n then f x else x) <$> l1 ++ n :: l2) = l1 ++ f n :: l2.
Proof.
  intros [H1 H2]%Forall_app. rewrite fmap_app. cbn. rewrite Z.eqb_refl.
  assert (∀ l, Forall (λ n', irq_ptr n' ≠ irq_ptr n) l →
    ((λ x, if irq_ptr x =? irq_ptr n then f x else x) <$> l) = l) as Hid.
  { induction 1 as [|x l Hx _ IH]; [done|]. cbn. by rewrite (proj2 (Z.eqb_neq _ _) Hx), IH. }
  by rewrite !Hid.
Qed.

Lemma filter_node {A} (f : A → Z) l1 x l2 :
  Forall (λ y, f y ≠ f x) (l1 ++ l2) → filter (λ y, f y ≠ f x) (l1 ++ x :: l2) = l1 ++ l2.
Proof.
  intros [H1 H2]%Forall_app. rewrite filter_app, filter_cons_False by naive_solver.
  assert (∀ l, Forall (λ y, f y ≠ f x) l → filter (λ y, f y ≠ f x) l = l) as Hid.
  { induction 1 as [|y l Hy _ IH]; [done|]. by rewrite filter_cons_True, IH. }
  by rewrite !Hid.
Qed.

Lemma nodup_head {A} (f : A → Z) x l : NoDup (f <$> x :: l) → Forall (λ y, f y ≠ f x) l.
Proof.
  intros [Hnin _]%NoDup_cons. apply Forall_forall. intros y Hy Heq. apply Hnin.
  rewrite <- Heq. by apply list_elem_of_fmap_2.
Qed.

Lemma wp_delete_icq_list Y d0 s L l1 n l2 (Φ : unit → world → Prop) w :
  irq_st Y d0 s L w → is_irq_list s = l1 ++ n :: l2 →
  (∀ w', irq_st Y d0 (s <| is_irq_list := l1 ++ n <| irq_icq_list := [] |> :: l2 |>) L w' →
    w_mode w' = w_mode w → Φ tt w') →
  wp (delete_icq_list n) Φ w.
Proof.
  intros Hs Hl HΦ.
  apply (wp_mapM_ _ (λ icqs w', w_mode w' = w_mode w ∧
    irq_st Y d0 (s <| is_irq_list := l1 ++ n <| irq_icq_list := icqs |> :: l2 |>) L w')).
  - split; [done|]. destruct s; simpl in *. subst. by destruct n.
  - intros i icqs w1 [Hm1 Hs1].
    destruct (st_node _ _ _ _ _ _ _ _ Hs1 eq_refl) as (Hne & Hnd & _ & Hnz).
    cbn in Hnd, Hnz. pose proof (nodup_head icq_ptr i icqs Hnd) as Hnin.
    apply Forall_cons in Hnz as [Hnz _].
    unfold delete_icq_node. apply wp_bind.
    eapply (wp_upd_irq_set Y (icq_items i ++ Y) _ _
      (s <| is_irq_list := l1 ++ n <| irq_icq_list := icqs |> :: l2 |>)); [exact Hs1| | |].
    { set (g := λ x : nvme_irq, x <| irq_icq_list ::= filter (λ y, icq_ptr y ≠ icq_ptr i) |>).
      assert (g (n <| irq_icq_list := i :: icqs |>) = n <| irq_icq_list := icqs |>) as Hg.
      { change (n <| irq_icq_list := filter (λ y, icq_ptr y ≠ icq_ptr i) ([] ++ i :: icqs) |> =
          n <| irq_icq_list := icqs |>). by rewrite (filter_node icq_ptr). }
      rewrite <- Hg, <- (upd_node l1 _ l2 g Hne). reflexivity. }
    { unfold irq_items, irq_node_items. cbn. rewrite !bind_app. cbn. solve_Permutation. }
    intros w2 Hs2 Hm2.
    eapply (wp_irq_own _ _ Y); [by apply (triple_kfree (icq_ptr i) None)|exact Hs2|done|].
    intros _ R w3 -> Hs3 Hm3. split; [congruence|exact Hs3].
  - intros w' [Hm' Hs']. by apply HΦ.
Qed.

(** Deleting a node. *)
Lemma wp_delete_irq_node Y d0 s L l1 n l2 (Φ : unit → world → Prop) w :
  irq_st Y d0 s L w → is_irq_list s = l1 ++ n :: l2 →
  (∀ w', irq_st Y d0 (s <| is_irq_list := l1 ++ l2 |>) L w' → w_mode w' = w_mode w → Φ tt w') →
  wp (delete_irq_node (Some n)) Φ w.
Proof.
  intros Hs Hl HΦ. destruct (st_node _ _ _ _ _ _ _ _ Hs Hl) as (Hne & _ & Hnz & _).
  unfold delete_irq_node. apply wp_bind. eapply wp_delete_icq_list; [exact Hs|exact Hl|].
  intros w1 Hs1 Hm1. apply wp_bind.
  eapply (wp_upd_irq_set Y (Blk (irq_ptr n) AK_kmalloc None :: Y) _ _
    (s <| is_irq_list := l1 ++ l2 |>)); [exact Hs1| | |].
  { transitivity (s <| is_irq_list :=
      filter (λ x, irq_ptr x ≠ irq_ptr (n <| irq_icq_list := [] |>))
        (l1 ++ n <| irq_icq_list := [] |> :: l2) |>); [reflexivity|].
    by rewrite (filter_node irq_ptr _ (n <| irq_icq_list := [] |>)). }
  { unfold irq_items, irq_node_items. cbn. rewrite !bind_app. cbn. solve_Permutation. }
  intros w2 Hs2 Hm2.
  eapply (wp_irq_own _ _ Y); [by apply (triple_kfree (irq_ptr n) None)|exact Hs2|done|].
  intros [] R w3 -> Hs3 Hm3. apply HΦ; [exact Hs3|congruence].
Qed.

Lemma wp_delete_irq_list Y d0 s L (Φ : unit → world → Prop) w :
  irq_st Y d0 s L w →
  (∀ w', irq_st Y d0 (s <| is_irq_list := [] |>) L w' → w_mode w' = w_mode w → Φ tt w') →
  wp delete_irq_list Φ w.
Proof.
  intros Hs HΦ. apply wp_bind, (wp_get_irq_set _ _ _ _ _ _ Hs).
  apply (wp_mapM_ _ (λ l w', irq_st Y d0 (s <| is_irq_list := l |>) L w' ∧
    w_mode w' = w_mode w)).
  - by destruct s.
  - intros n l w1 [Hs1 Hm1]. eapply (wp_delete_irq_node _ _ _ _ []); [exact Hs1|done|].
    intros w2 Hs2 Hm2. split; [exact Hs2|congruence].
  - intros w' [Hs' Hm']. by apply HΦ.
Qed.

Lemma wp_delete_work_node Y d0 s L l1 n l2 (Φ : unit → world → Prop) w :
  irq_st Y d0 s L w → is_work_list s = l1 ++ n :: l2 →
  (∀ w', irq_st Y d0 (s <| is_work_list := l1 ++ l2 |>) L w' → w_mode w' = w_mode w → Φ tt w') →
  wp (delete_work_node (Some n)) Φ w.
Proof.
  intros Hs Hl HΦ. pose proof (work_nodup _ _ _ _ _ Hs) as Hnd.
  assert (work_ptr n ≠ 0) as Hnz
    by (eapply work_nonnull; [exact Hs|rewrite Hl; apply elem_of_app; right; by left]).
  assert (Forall (λ y, work_ptr y ≠ work_ptr n) (l1 ++ l2)) as Hne.
  { apply (nodup_head work_ptr n). rewrite Hl in Hnd. revert Hnd.
    by rewrite (Permutation_middle l1 l2 n). }
  apply wp_bind. eapply (wp_upd_irq_set Y (work_items n ++ Y) _ _
    (s <| is_work_list := l1 ++ l2 |>)); [exact Hs| | |].
  { transitivity (s <| is_work_list := filter (λ x, work_ptr x ≠ work_ptr n) (l1 ++ n :: l2) |>);
      [by destruct s; simpl in *; subst|]. by rewrite (filter_node work_ptr). }
  { unfold irq_items. rewrite Hl. cbn. rewrite !bind_app. cbn. solve_Permutation. }
  intros w2 Hs2 Hm2.
  eapply (wp_irq_own _ _ Y); [by apply (triple_kfree (work_ptr n) None)|exact Hs2|done|].
  intros [] R w3 -> Hs3 Hm3. apply HΦ; [exact Hs3|congruence].
Qed.

Lemma wp_delete_work_list Y d0 s L (Φ : unit → world → Prop) w :
  irq_st Y d0 s L w →
  (∀ w', irq_st Y d0 (s <| is_work_list := [] |>) L w' → w_mode w' = w_mode w → Φ tt w') →
  wp delete_work_list Φ w.
Proof.
  intros Hs HΦ. apply wp_bind, (wp_get_irq_set _ _ _ _ _ _ Hs).
  apply (wp_mapM_ _ (λ l w', irq_st Y d0 (s <| is_work_list := l |>) L w' ∧
    w_mode w' = w_mode w)).
  - by destruct s.
  - intros n l w1 [Hs1 Hm1]. eapply (wp_delete_work_node _ _ _ _ []); [exact Hs1|done|].
    intros w2 Hs2 Hm2. split; [exact Hs2|congruence].
  - intros w' [Hs' Hm']. by apply HΦ.
Qed.

(** ** Tear-down *)

(** The irq set after it: no scheme, no node, no workqueue. *)
Definition irq_set_clean (s : nvme_irq_set) : nvme_irq_set :=
  s <| is_irq_list := [] |> <| is_work_list := [] |> <| is_wq := 0 |>
    <| is_irq_type := NVME_INT_NONE |> <| is_nr_irq := 0 |>.

Lemma triple_pci_disable_int_pin : triple [] pci_disable_int_pin gone.
Proof.
  intros X w Hw. unfold pci_disable_int_pin, pci_read_config, pci_write_config.
  apply wp_bind, wp_bind, wp_ext_dma, wp_ret, wp_bind.
  apply wp_if; intros _.
  - apply wp_bind, wp_ext, wp_ret, wp_ret. exists []. split_and!; [done| |done..].
    by eapply holds_ext, Hw.
  - do 2 apply wp_ret. exists []. split_and!; [done| |done..]. by eapply holds_ext, Hw.
Qed.

(** What the scheme switches off. *)
Definition clean_mode (t : nvme_irq_type) (m : int_mode) : int_mode :=
  match t with
  | NVME_INT_MSI_SINGLE | NVME_INT_MSI_MULTI | NVME_INT_MSIX => MODE_none
  | _ => m
  end.

Lemma wp_disable_scheme Y d0 s (Φ : unit → world → Prop) w :
  irq_st Y d0 s [] w →
  (∀ w', irq_st Y d0 s [] w' → w_mode w' = clean_mode (is_irq_type s) (w_mode w) → Φ tt w') →
  wp (match is_irq_type s with
      | NVME_INT_MSI_SINGLE | NVME_INT_MSI_MULTI => pci_disable_msi
      | NVME_INT_MSIX => pci_disable_msix
      | NVME_INT_PIN => pci_disable_int_pin;; mret tt
      | NVME_INT_NONE | NVME_INT_OTHER _ => mret tt
      end) Φ w.
Proof.
  intros Hs HΦ.
  assert (∀ e, clean_mode (is_irq_type s) (w_mode w) = MODE_none →
    wp (pci_disable_vectors e) Φ w) as Hdis.
  { intros e Hm. unfold pci_disable_vectors. apply wp_bind, wp_gets.
    rewrite (st_irqs _ _ _ _ _ Hs). apply wp_bind, wp_emit, wp_modify, HΦ; [|done].
    destruct Hs as [Hh Hd Hi]. split; [by eapply holds_ext, Hh|done|done]. }
  destruct (is_irq_type s) eqn:Ht; try (by apply Hdis); try (by apply wp_ret, HΦ).
  apply wp_bind. eapply (wp_irq_own [] Y Y); [apply triple_pci_disable_int_pin|exact Hs|done|].
  intros _ R w1 -> Hs1 Hm1. apply wp_ret, HΦ; [exact Hs1|done].
Qed.

Lemma inv_irq_st X w :
  inv X w → irq_st (other_items (w_dev w) ++ X) (w_dev w) (ndev_irq_set (w_dev w)) (w_irqs w) w.
Proof.
  intros [Hh _ _]. split; [|by destruct (w_dev w)|done].
  rewrite dev_items_irq in Hh. by rewrite app_assoc.
Qed.

(** Back to the invariant with a new irq set. *)
Lemma irq_st_inv X d0 s L w :
  irq_st (other_items d0 ++ X) d0 s L w → dev_wf d0 → irq_wf s →
  L ≡ₚ (irq_int_vec <$> is_irq_list s) → inv X w.
Proof.
  intros [Hh Hd Hi] [Hs Hc Hm _ Hb] Hwf HL. split; rewrite Hd.
  - rewrite dev_items_irq. rewrite app_assoc in Hh. exact Hh.
  - by split.
  - cbn. by rewrite Hi.
Qed.

Lemma wp_clean_interrupt X w :
  inv X w →
  wp dnvme_clean_interrupt
    (λ _ w', inv X w' ∧ w_irqs w' = [] ∧
      w_mode w' = clean_mode (is_irq_type (ndev_irq_set (w_dev w))) (w_mode w) ∧
      w_dev w' = (w_dev w) <| ndev_irq_set ::=
        λ s, (irq_set_clean s) <| is_wq_pending := [] |> |>) w.
Proof.
  intros Hw. pose proof (inv_irq_st X w Hw) as Hs. destruct (i_dev _ _ Hw) as [? ? ? Hwf ?].
  pose proof (i_irqs _ _ Hw) as Hirqs. set (d0 := w_dev w) in *. set (s := ndev_irq_set d0) in *.
  set (Y := other_items d0 ++ X) in *. unfold dnvme_clean_interrupt.
  apply wp_bind, (wp_get_irq_set _ _ _ _ _ _ Hs), wp_bind.
  rewrite (mapM_fmap free_irq irq_int_vec). eapply wp_free_irqs; [exact Hirqs|].
  intros w1 Hi1 Hd1 Hh1 Hp1 Hg1 Hm1.
  assert (irq_st Y d0 s [] w1) as Hs1.
  { destruct Hs as [Hh Hd _]. split; [by eapply holds_ext, Hh|congruence|done]. }
  apply wp_bind. eapply wp_disable_scheme; [exact Hs1|]. intros w2 Hs2 Hm2.
  apply wp_bind. eapply wp_destroy_irq_work_queue; [exact Hs2|apply Hwf|].
  assert ((if is_wq s =? 0 then is_wq_pending s else []) = []) as ->.
  { destruct (Z.eqb_spec (is_wq s) 0); [|done]. by apply Hwf. }
  intros l3 w3 Hsame Hs3 Hm3.
  apply wp_bind. eapply wp_delete_irq_list; [exact Hs3|]. intros w4 Hs4 Hm4.
  apply wp_bind. eapply wp_delete_work_list; [exact Hs4|]. intros w5 Hs5 Hm5.
  eapply (wp_upd_irq_set Y Y); [exact Hs5|reflexivity|done|]. intros w6 Hs6 Hm6.
  split_and!.
  - eapply (irq_st_inv X d0); [exact Hs6|by split| |done].
    split; simpl; try done; constructor.
  - by apply (st_irqs _ _ _ _ _ Hs6).
  - congruence.
  - by rewrite (st_dev _ _ _ _ _ Hs6).
Qed.
End irq_spec.
