(* ===== verification/IrqSet.v ===== *)
(** * Setting up an interrupt scheme

    [dnvme_set_interrupt] tears the old scheme down and builds the new one: vectors,
    handlers, one irq node and one work node per vector, the admin completion queue
    bound to irq 0.  A failure at any step takes everything built so far back. *)

From S2P Require Import Prelude Types Kernel Io Own Prp Ring Irq Inv Demo IrqSpec.

(** ** Finding nodes *)

Lemma find_none {A} (f : A → Z) l x :
  x ∉ (f <$> l) → snd <$> list_find (λ n, f n = x) l = None.
Proof.
  intros Hx. destruct (list_find (λ n, f n = x) l) as [[i n]|] eqn:Hf; [|done].
  apply list_find_Some in Hf as (Hi & <- & _). exfalso. apply Hx.
  by eapply list_elem_of_fmap_2, list_elem_of_lookup_2.
Qed.

Lemma find_last {A} (f : A → Z) l n :
  f n ∉ (f <$> l) → snd <$> list_find (λ m, f m = f n) (l ++ [n]) = Some n.
Proof.
  intros Hn. rewrite list_find_app_r.
  - simpl. by rewrite decide_True.
  - destruct (list_find (λ m, f m = f n) l) as [[i m]|] eqn:Hf; [|done].
    apply list_find_Some in Hf as (Hi & Hm & _). exfalso. apply Hn. rewrite <- Hm.
    by eapply list_elem_of_fmap_2, list_elem_of_lookup_2.
Qed.

(** [s] is [s0] with the pairs ([vector], [id]) [ps], in this order. *)
Record pairs_st (s0 : nvme_irq_set) (ps : list (Z * Z)) (s : nvme_irq_set) : Prop := {
  ps_set : s = s0 <| is_irq_list := is_irq_list s |> <| is_work_list := is_work_list s |>;
  ps_irqs : ((λ n, (irq_int_vec n, irq_id n)) <$> is_irq_list s) = ps;
  ps_works : ((λ n, (work_int_vec n, work_irq_id n)) <$> is_work_list s) = ps;
  ps_vecs : NoDup ps.*1;
  ps_ids : NoDup ps.*2 }.

Section pairs_st.
Context (s0 : nvme_irq_set) (ps : list (Z * Z)) (s : nvme_irq_set) (Hp : pairs_st s0 ps s).

Lemma ps_irq_vecs : irq_int_vec <$> is_irq_list s = ps.*1.
Proof. by rewrite <- (ps_irqs _ _ _ Hp), <- list_fmap_compose. Qed.
Lemma ps_irq_ids : irq_id <$> is_irq_list s = ps.*2.
Proof. by rewrite <- (ps_irqs _ _ _ Hp), <- list_fmap_compose. Qed.
Lemma ps_work_vecs : work_int_vec <$> is_work_list s = ps.*1.
Proof. by rewrite <- (ps_works _ _ _ Hp), <- list_fmap_compose. Qed.
Lemma ps_work_ids : work_irq_id <$> is_work_list s = ps.*2.
Proof. by rewrite <- (ps_works _ _ _ Hp), <- list_fmap_compose. Qed.
End pairs_st.

Lemma pairs_st_nil s0 s :
  pairs_st s0 [] s → s = s0 <| is_irq_list := [] |> <| is_work_list := [] |>.
Proof.
  intros [Hs Hi Hw _ _]. rewrite Hs. apply fmap_nil_inv in Hi, Hw. by rewrite Hi, Hw.
Qed.

Lemma pairs_st_irq_wf s0 ps s t :
  pairs_st s0 ps s → is_wq s0 ≠ 0 → is_wq_pending s0 = [] →
  (ps ≠ [] → t ≠ NVME_INT_NONE) →
  (t ≠ NVME_INT_MSIX → Forall (λ p, 0 ≤ p.2 < 32) ps) →
  ∀ n, irq_wf (s <| is_irq_type := t |> <| is_nr_irq := n |>).
Proof.
  intros Hp Hwq Hpend Ht Hb n. pose proof (ps_set _ _ _ Hp) as Hs. split; simpl.
  - rewrite (ps_irq_ids _ _ _ Hp). apply Hp.
  - rewrite (ps_irq_vecs _ _ _ Hp). apply Hp.
  - transitivity (prod_swap <$> ps).
    + rewrite <- (ps_irqs _ _ _ Hp), <- list_fmap_compose. done.
    + rewrite <- (ps_works _ _ _ Hp), <- list_fmap_compose. done.
  - rewrite Hs. simpl. rewrite Hpend. intros p Hin. by apply elem_of_nil in Hin.
  - rewrite Hs. simpl. done.
  - intros ->. destruct ps as [|p ps]; [|by destruct Ht].
    by apply (fmap_nil_inv _ _ (ps_irqs _ _ _ Hp)).
  - intros Hm. specialize (Hb Hm). rewrite <- (ps_irqs _ _ _ Hp), Forall_fmap in Hb. exact Hb.
Qed.

Lemma wp_bind_assoc {A B C} (m : M A) (f : A → M B) (k : B → M C) Φ w :
  wp (x ← m; f x) (λ b, wp (k b) Φ) w → wp (x ← m; y ← f x; k y) Φ w.
Proof. unfold wp, mbind, M_bind. destruct (m w) as [a w'| |]; [|done..]. by destruct (f a w'). Qed.

Section irq_set.
Context {E : Env}.
Implicit Types (Y : list item) (s : nvme_irq_set) (L : list Z).

(** [kmalloc] while the interrupt code runs. *)
Lemma wp_irq_kmalloc Y d0 s L size (Φ : Z → world → Prop) w :
  irq_st Y d0 s L w →
  (∀ w', irq_st Y d0 s L w' → w_mode w' = w_mode w → Φ 0 w') →
  (∀ p w', p ≠ 0 → irq_st (Blk p AK_kmalloc None :: Y) d0 s L w' → w_mode w' = w_mode w →
    Φ p w') →
  wp (kmalloc size) Φ w.
Proof.
  intros Hs H0 H1. eapply (wp_irq_own [] Y Y); [apply triple_kmalloc|exact Hs|done|].
  intros p R w' [[-> ->]|[Hp ->]] Hs' Hm'; [by apply H0|]. apply H1; [lia|done|done].
Qed.

(** ** One pair *)

Lemma wp_create_irq_node Y d0 s L v id (Φ : Z → world → Prop) w :
  irq_st Y d0 s L w → id ∉ (irq_id <$> is_irq_list s) →
  (∀ r w', r < 0 → irq_st Y d0 s L w' → w_mode w' = w_mode w → Φ r w') →
  (∀ n w', irq_id n = id → irq_int_vec n = v → irq_icq_list n = [] →
    v ∉ (irq_int_vec <$> is_irq_list s) →
    irq_st Y d0 (s <| is_irq_list ::= λ l, l ++ [n] |>) L w' → w_mode w' = w_mode w → Φ 0 w') →
  wp (create_irq_node v id) Φ w.
Proof.
  intros Hs Hid Hf Hok. unfold create_irq_node.
  apply wp_bind, (wp_get_irq_set _ _ _ _ _ _ Hs).
  unfold find_irq_node_by_id, find_irq_node_by_vec. rewrite (find_none irq_id) by done.
  destruct (decide (v ∈ (irq_int_vec <$> is_irq_list s))) as [Hv|Hv].
  { destruct (find_some irq_int_vec _ _ Hv) as [n ->]. by apply wp_ret, Hf. }
  rewrite (find_none irq_int_vec) by done.
  apply wp_bind. eapply wp_irq_kmalloc; [exact Hs| |].
  - intros w1 Hs1 Hm1. by apply wp_ret, Hf.
  - intros p w1 Hp Hs1 Hm1. rewrite (proj2 (Z.eqb_neq p 0) Hp). apply wp_bind.
    eapply (wp_upd_irq_set _ Y); [exact Hs1|reflexivity| |].
    { unfold irq_items. cbn. rewrite bind_app. cbn. solve_Permutation. }
    intros w2 Hs2 Hm2. apply wp_ret. eapply Hok; [..|exact Hs2|congruence]; done.
Qed.

Lemma wp_create_work_node Y d0 s L v id (Φ : Z → world → Prop) w :
  irq_st Y d0 s L w → id ∉ (work_irq_id <$> is_work_list s) →
  (∀ r w', r < 0 → irq_st Y d0 s L w' → w_mode w' = w_mode w → Φ r w') →
  (∀ n w', work_irq_id n = id → work_int_vec n = v →
    irq_st Y d0 (s <| is_work_list ::= λ l, l ++ [n] |>) L w' → w_mode w' = w_mode w → Φ 0 w') →
  wp (create_work_node v id) Φ w.
Proof.
  intros Hs Hid Hf Hok. unfold create_work_node.
  apply wp_bind, (wp_get_irq_set _ _ _ _ _ _ Hs).
  unfold find_work_node_by_id, find_work_node_by_vec. rewrite (find_none work_irq_id) by done.
  destruct (snd <$> list_find (λ n, work_int_vec n = v) (is_work_list s)).
  { by apply wp_ret, Hf. }
  apply wp_bind. eapply wp_irq_kmalloc; [exact Hs| |].
  - intros w1 Hs1 Hm1. by apply wp_ret, Hf.
  - intros p w1 Hp Hs1 Hm1. rewrite (proj2 (Z.eqb_neq p 0) Hp). apply wp_bind.
    eapply (wp_upd_irq_set _ Y); [exact Hs1|reflexivity| |].
    { unfold irq_items. cbn. rewrite bind_app. cbn. solve_Permutation. }
    intros w2 Hs2 Hm2. apply wp_ret. eapply Hok; [..|exact Hs2|congruence]; done.
Qed.

(** Deleting the last nodes again. *)
Lemma wp_drop_irq Y d0 s L l n (Φ : unit → world → Prop) w :
  irq_st Y d0 (s <| is_irq_list := l ++ [n] |>) L w → irq_id n ∉ (irq_id <$> l) →
  (∀ w', irq_st Y d0 (s <| is_irq_list := l |>) L w' → w_mode w' = w_mode w → Φ tt w') →
  wp (o ← irq_node_now (irq_id n); delete_irq_node o) Φ w.
Proof.
  intros Hs Hid HΦ. unfold irq_node_now.
  apply wp_bind, wp_bind, (wp_get_irq_set _ _ _ _ _ _ Hs), wp_ret.
  unfold find_irq_node_by_id. cbn. rewrite (find_last irq_id) by done.
  eapply (wp_delete_irq_node _ _ _ _ l n []); [exact Hs|done|].
  intros w' Hs' Hm'. rewrite app_nil_r in Hs'. by apply HΦ.
Qed.
Lemma wp_drop_work Y d0 s L l n (Φ : unit → world → Prop) w :
  irq_st Y d0 (s <| is_work_list := l ++ [n] |>) L w → work_irq_id n ∉ (work_irq_id <$> l) →
  (∀ w', irq_st Y d0 (s <| is_work_list := l |>) L w' → w_mode w' = w_mode w → Φ tt w') →
  wp (o ← work_node_now (work_irq_id n); delete_work_node o) Φ w.
Proof.
  intros Hs Hid HΦ. unfold work_node_now.
  apply wp_bind, wp_bind, (wp_get_irq_set _ _ _ _ _ _ Hs), wp_ret.
  unfold find_work_node_by_id. cbn. rewrite (find_last work_irq_id) by done.
  eapply (wp_delete_work_node _ _ _ _ l n []); [exact Hs|done|].
  intros w' Hs' Hm'. rewrite app_nil_r in Hs'. by apply HΦ.
Qed.

(** Binding a completion queue to an irq. *)
Lemma wp_create_icq Y d0 s L l1 n l2 cq (Φ : Z → world → Prop) w :
  irq_st Y d0 s L w → is_irq_list s = l1 ++ n :: l2 →
  (find_icq_node n cq ≠ None → Φ 0 w) →
  (∀ r w', r < 0 → irq_st Y d0 s L w' → w_mode w' = w_mode w → Φ r w') →
  (∀ i w', icq_cq_id i = cq →
    irq_st Y d0 (s <| is_irq_list := l1 ++ n <| irq_icq_list ::= λ l, l ++ [i] |> :: l2 |>) L w' →
    w_mode w' = w_mode w → Φ 0 w') →
  wp (create_icq_node n cq) Φ w.
Proof.
  intros Hs Hl Hhas Hf Hok. unfold create_icq_node. destruct (find_icq_node n cq).
  { by apply wp_ret, Hhas. }
  apply wp_bind. eapply wp_irq_kmalloc; [exact Hs| |].
  - intros w1 Hs1 Hm1. by apply wp_ret, Hf.
  - intros p w1 Hp Hs1 Hm1. rewrite (proj2 (Z.eqb_neq p 0) Hp).
    destruct (st_node _ _ _ _ _ _ _ _ Hs Hl) as (Hne & _).
    apply wp_bind. unfold upd_irq_node.
    set (g := λ x : nvme_irq, x <| irq_icq_list ::= λ l, l ++ [mk_icq p cq] |>).
    eapply (wp_upd_irq_set _ Y _ _ (s <| is_irq_list := l1 ++ g n :: l2 |>)); [exact Hs1| | |].
    { rewrite <- (upd_node l1 n l2 g Hne), <- Hl. reflexivity. }
    { unfold irq_items, irq_node_items. cbn. rewrite Hl, !bind_app. cbn. rewrite !bind_app. cbn.
      solve_Permutation. }
    intros w2 Hs2 Hm2. apply wp_ret. eapply (Hok (mk_icq p cq)); [done|exact Hs2|congruence].
Qed.

(** Appending a pair to [ps]. *)
Lemma pairs_st_snoc s0 ps s n wk :
  pairs_st s0 ps s → (work_int_vec wk, work_irq_id wk) = (irq_int_vec n, irq_id n) →
  irq_int_vec n ∉ ps.*1 → irq_id n ∉ ps.*2 →
  pairs_st s0 (ps ++ [(irq_int_vec n, irq_id n)])
    (s <| is_irq_list := is_irq_list s ++ [n] |> <| is_work_list := is_work_list s ++ [wk] |>).
Proof.
  intros [Hs Hi Hw Hnv Hni] Heq Hv Hid. split; simpl.
  - rewrite Hs at 1. by destruct s0.
  - by rewrite fmap_app, Hi.
  - by rewrite fmap_app, Hw; simpl; rewrite Heq.
  - rewrite fmap_app. apply NoDup_app. split_and!; [done| |apply NoDup_singleton].
    intros x Hx ->%list_elem_of_singleton. by apply Hv.
  - rewrite fmap_app. apply NoDup_app. split_and!; [done| |apply NoDup_singleton].
    intros x Hx ->%list_elem_of_singleton. by apply Hid.
Qed.

(** A pair is created whole, or not at all. *)
Lemma wp_create_pair Y d0 s0 ps s L v id (Φ : Z → world → Prop) w :
  irq_st Y d0 s L w → pairs_st s0 ps s → id ∉ ps.*2 →
  (∀ r w', r < 0 → irq_st Y d0 s L w' → w_mode w' = w_mode w → Φ r w') →
  (∀ s' w', pairs_st s0 (ps ++ [(v, id)]) s' → irq_st Y d0 s' L w' → w_mode w' = w_mode w →
    Φ 0 w') →
  wp (create_irq_work_pair v id) Φ w.
Proof.
  intros Hs Hp Hid Hf Hok. unfold create_irq_work_pair.
  assert (id ∉ (irq_id <$> is_irq_list s)) as Hid1 by (by rewrite (ps_irq_ids _ _ _ Hp)).
  assert (id ∉ (work_irq_id <$> is_work_list s)) as Hid2 by (by rewrite (ps_work_ids _ _ _ Hp)).
  apply wp_bind. eapply wp_create_irq_node; [exact Hs|exact Hid1| |].
  { intros r w1 Hr Hs1 Hm1. rewrite (proj2 (Z.ltb_lt _ _) Hr). by apply wp_ret, Hf. }
  intros n w1 <- <- Hn Hv Hs1 Hm1. rewrite (ps_irq_vecs _ _ _ Hp) in Hv. simpl.
  assert (∀ m (k : M Z) w2,
    irq_st Y d0 (s <| is_irq_list := is_irq_list s ++ [m] |>) L w2 → irq_id m = irq_id n →
    (∀ w3, irq_st Y d0 s L w3 → w_mode w3 = w_mode w2 → wp k Φ w3) →
    wp (o ← irq_node_now (irq_id n); delete_irq_node o;; k) Φ w2) as Hdrop.
  { intros m k w2 Hs2 Hm Hk. rewrite <- Hm in Hid1 |- *.
    apply wp_bind_assoc.
    eapply wp_drop_irq; [exact Hs2|exact Hid1|].
    intros w3 Hs3 Hm3. apply Hk; [by destruct s|done]. }
  apply wp_bind. eapply wp_create_work_node; [exact Hs1|exact Hid2| |].
  { intros r w2 Hr Hs2 Hm2. rewrite (proj2 (Z.ltb_lt _ _) Hr).
    apply (Hdrop n); [exact Hs2|done|]. intros w3 Hs3 Hm3. apply wp_ret, Hf; [done|done|congruence]. }
  intros wk w2 Hwk1 Hwk2 Hs2 Hm2. simpl.
  assert ((work_int_vec wk, work_irq_id wk) = (irq_int_vec n, irq_id n)) as Hwk by congruence.
  destruct (Z.eqb_spec (irq_id n) 0) as [H0|H0].
  2:{ apply wp_ret. eapply Hok; [by eapply pairs_st_snoc|exact Hs2|congruence]. }
  apply wp_bind. unfold irq_node_now.
  apply wp_bind, (wp_get_irq_set _ _ _ _ _ _ Hs2), wp_ret.
  unfold find_irq_node_by_id. cbn. rewrite (find_last irq_id) by done. apply wp_bind.
  eapply (wp_create_icq _ _ _ L (is_irq_list s) n []); [exact Hs2|done| | |].
  - unfold find_icq_node. by rewrite Hn.
  - intros r w3 Hr Hs3 Hm3. rewrite (proj2 (Z.ltb_lt _ _) Hr). rewrite <- Hwk1.
    apply wp_bind_assoc.
    eapply (wp_drop_work _ _ (s <| is_irq_list := is_irq_list s ++ [n] |>) L (is_work_list s));
      [exact Hs3|by rewrite Hwk1|].
    intros w4 Hs4 Hm4. rewrite Hwk1. apply (Hdrop n); [by destruct s|done|].
    intros w5 Hs5 Hm5. apply wp_ret, Hf; [done|done|congruence].
  - intros i w3 Hi Hs3 Hm3. simpl. apply wp_ret.
    set (n' := n <| irq_icq_list ::= λ l, l ++ [i] |>) in *.
    eapply (Hok _ w3); [apply (pairs_st_snoc s0 ps s n' wk Hp Hwk Hv Hid)|exact Hs3|congruence].
Qed.

(** ** All pairs *)

Lemma snoc_fmap {A B} (f : A → B) l x xs :
  f <$> l = xs ++ [x] → ∃ l' y, l = l' ++ [y] ∧ f <$> l' = xs ∧ f y = x.
Proof.
  intros Hl. apply fmap_app_inv in Hl as (l' & l2 & Hl' & Hl2 & ->). symmetry in Hl', Hl2.
  destruct l2 as [|y [|]]; try done. exists l', y. split_and!; try done. by injection Hl2.
Qed.

Lemma wp_destroy_pair Y d0 s0 ps v id s L (Φ : unit → world → Prop) w :
  irq_st Y d0 s L w → pairs_st s0 (ps ++ [(v, id)]) s →
  (∀ s' w', pairs_st s0 ps s' → irq_st Y d0 s' L w' → w_mode w' = w_mode w → Φ tt w') →
  wp (destroy_irq_work_pair id) Φ w.
Proof.
  intros Hs [Hset Hi Hw Hnv Hni] HΦ. unfold destroy_irq_work_pair.
  apply snoc_fmap in Hi as (ns & n & Hns & Hi & Hn), Hw as (wks & wk & Hwks & Hw & Hwk).
  rewrite fmap_app in Hnv, Hni. injection Hn as <- <-. injection Hwk as Hwk1 Hwk2.
  apply NoDup_app in Hnv as (Hnv & _), Hni as (Hni & Hd & _).
  assert (irq_id n ∉ ps.*2) as Hnin.
  { intros Hin. eapply Hd; [exact Hin|]. by left. }
  rewrite <- Hwk2. apply wp_bind_assoc.
  eapply (wp_drop_work _ _ s L wks wk).
  { rewrite <- Hwks. by destruct s. }
  { rewrite Hwk2. replace (work_irq_id <$> wks) with ps.*2; [done|].
    by rewrite <- Hw, <- list_fmap_compose. }
  intros w1 Hs1 Hm1. rewrite Hwk2. eapply (wp_drop_irq _ _ (s <| is_work_list := wks |>) L ns n).
  { rewrite <- Hns. by destruct s. }
  { replace (irq_id <$> ns) with ps.*2; [done|]. by rewrite <- Hi, <- list_fmap_compose. }
  intros w2 Hs2 Hm2. eapply (HΦ _ w2); [|exact Hs2|congruence]. split; try done.
  rewrite Hset. by destruct s0.
Qed.

Lemma wp_destroy_pairs Y d0 s0 ps s L (Φ : unit → world → Prop) w :
  irq_st Y d0 s L w → pairs_st s0 ps s →
  (∀ s' w', pairs_st s0 [] s' → irq_st Y d0 s' L w' → w_mode w' = w_mode w → Φ tt w') →
  wp (destroy_pairs ps.*2) Φ w.
Proof.
  unfold destroy_pairs. revert s w. induction ps as [|[v id] ps IH] using rev_ind; intros s w Hs Hp HΦ.
  { apply wp_ret. by apply (HΦ s). }
  rewrite fmap_app, reverse_app. cbn. apply wp_bind.
  eapply wp_destroy_pair; [exact Hs|exact Hp|]. intros s1 w1 Hp1 Hs1 Hm1.
  eapply IH; [exact Hs1|exact Hp1|]. intros s2 w2 Hp2 Hs2 Hm2.
  eapply HΦ; [exact Hp2|exact Hs2|congruence].
Qed.

Lemma wp_create_pairs Y d0 s0 todo ps s L (Φ : Z * list Z → world → Prop) w :
  irq_st Y d0 s L w → pairs_st s0 ps s → NoDup (ps ++ todo).*2 →
  (∀ r ps' s' w', r < 0 → pairs_st s0 ps' s' → irq_st Y d0 s' L w' →
    w_mode w' = w_mode w → Φ (r, ps'.*2) w') →
  (∀ s' w', pairs_st s0 (ps ++ todo) s' → irq_st Y d0 s' L w' → w_mode w' = w_mode w →
    Φ (0, (ps ++ todo).*2) w') →
  wp (create_pairs todo ps.*2) Φ w.
Proof.
  revert ps s w. induction todo as [|[v id] todo IH]; intros ps s w Hs Hp Hnd Hf Hok; cbn.
  { apply wp_ret. rewrite app_nil_r in Hok. by apply (Hok s). }
  assert (id ∉ ps.*2) as Hid.
  { rewrite fmap_app in Hnd. apply NoDup_app in Hnd as (_ & Hd & _).
    intros Hin. eapply Hd; [exact Hin|]. by left. }
  replace (ps ++ (v, id) :: todo) with ((ps ++ [(v, id)]) ++ todo) in *
    by (by rewrite <- (assoc_L (++))).
  apply wp_bind. eapply wp_create_pair; [exact Hs|exact Hp|exact Hid| |].
  - intros r w1 Hr Hs1 Hm1. rewrite (proj2 (Z.ltb_lt _ _) Hr). apply wp_ret. by apply (Hf r ps s).
  - intros s1 w1 Hp1 Hs1 Hm1. simpl. replace (ps.*2 ++ [id]) with ((ps ++ [(v, id)]).*2)
      by (by rewrite fmap_app).
    eapply IH; [exact Hs1|exact Hp1|exact Hnd| |].
    + intros. eapply Hf; [done|done|done|congruence].
    + intros. eapply Hok; [done|done|congruence].
Qed.

(** ** Handlers *)

Lemma wp_request_irq Y d0 s L v (Φ : Z → world → Prop) w :
  irq_st Y d0 s L w →
  (∀ r w', r < 0 → irq_st Y d0 s L w' → w_mode w' = w_mode w → Φ r w') →
  (∀ w', irq_st Y d0 s (v :: L) w' → w_mode w' = w_mode w → Φ 0 w') →
  wp (request_irq v) Φ w.
Proof.
  intros [Hh Hd Hi] Hf Hok. unfold request_irq. apply wp_bind, wp_ext. apply wp_if; intros Hr.
  - apply wp_ret, Hf; [by apply Z.ltb_lt| |done]. split; [by eapply holds_ext, Hh|done|done].
  - apply wp_bind, wp_modify, wp_ret, Hok; [|done].
    split; [by eapply holds_ext, Hh|done|]. cbn. by rewrite Hi.
Qed.

Lemma wp_request_irqs Y d0 s vecs got (Φ : Z * list Z → world → Prop) w :
  irq_st Y d0 s (reverse got) w →
  (∀ r got' w', r < 0 → irq_st Y d0 s (reverse got') w' → w_mode w' = w_mode w →
    Φ (r, got') w') →
  (∀ w', irq_st Y d0 s (reverse (got ++ vecs)) w' → w_mode w' = w_mode w →
    Φ (0, got ++ vecs) w') →
  wp (request_irqs vecs got) Φ w.
Proof.
  revert got w. induction vecs as [|v vecs IH]; intros got w Hs Hf Hok; cbn.
  { apply wp_ret. rewrite app_nil_r in Hok. by apply Hok. }
  apply wp_bind. eapply wp_request_irq; [exact Hs| |].
  - intros r w1 Hr Hs1 Hm1. rewrite (proj2 (Z.ltb_lt _ _) Hr). by apply wp_ret, Hf.
  - intros w1 Hs1 Hm1. simpl. replace (got ++ v :: vecs) with ((got ++ [v]) ++ vecs) in *
      by (by rewrite <- (assoc_L (++))).
    apply IH.
    + by rewrite reverse_snoc.
    + intros. apply Hf; [done|done|congruence].
    + intros. apply Hok; [done|congruence].
Qed.

Lemma wp_free_got Y d0 s got (Φ : unit → world → Prop) w :
  irq_st Y d0 s (reverse got) w →
  (∀ w', irq_st Y d0 s [] w' → w_mode w' = w_mode w → Φ tt w') →
  wp (free_irqs got) Φ w.
Proof.
  intros [Hh Hd Hi] HΦ. apply wp_free_irqs; [by rewrite Hi|].
  intros w' Hi' Hd' Hh' Hp' Hg' Hm'. apply HΦ; [|done].
  split; [by eapply holds_ext, Hh|congruence|done].
Qed.

(** ** Services the schemes use *)

(** [d1] is [d0] with another [pdev->irq]. *)
Definition irq_moved (d0 d1 : nvme_device) : Prop :=
  ∃ v, d1 = d0 <| ndev_pdev ::= λ p, p <| pdev_irq := v |> |>.

Lemma irq_moved_refl d : irq_moved d d.
Proof. exists (pdev_irq (ndev_pdev d)). by destruct d as [[]]. Qed.

Lemma wp_irq_reg {A} Y d0 s L (m : M A) (Φ : A → world → Prop) w :
  triple [] m gone → irq_st Y d0 s L w →
  (∀ a w', irq_st Y d0 s L w' → w_mode w' = w_mode w → Φ a w') → wp m Φ w.
Proof.
  intros Hm Hs HΦ. eapply (wp_irq_own [] Y Y); [exact Hm|exact Hs|done|].
  intros a R w' ->. apply HΦ.
Qed.

Lemma triple_set_int_mask b v : triple [] (set_int_mask b v) gone.
Proof.
  eapply triple_bind; [apply triple_writel|]. intros _ R ->. destruct cfg_flush_reg_write.
  - eapply triple_bind; [apply triple_readl|]. intros _ R ->. by apply triple_ret.
  - by apply triple_ret.
Qed.
Lemma triple_clear_int_mask b v : triple [] (clear_int_mask b v) gone.
Proof.
  eapply triple_bind; [apply triple_writel|]. intros _ R ->. destruct cfg_flush_reg_write.
  - eapply triple_bind; [apply triple_readl|]. intros _ R ->. by apply triple_ret.
  - by apply triple_ret.
Qed.
Lemma triple_pci_enable_int_pin : triple [] pci_enable_int_pin gone.
Proof.
  intros X w Hw. unfold pci_enable_int_pin, pci_read_config, pci_write_config.
  apply wp_bind, wp_bind, wp_ext_dma, wp_ret, wp_bind.
  apply wp_if; intros _.
  - apply wp_bind, wp_ext, wp_ret, wp_ret. exists []. split_and!; [done| |done..].
    by eapply holds_ext, Hw.
  - do 2 apply wp_ret. exists []. split_and!; [done| |done..]. by eapply holds_ext, Hw.
Qed.
Lemma triple_set_msix_mask tbl n : triple [] (set_msix_mask tbl n) gone.
Proof.
  unfold set_msix_mask. induction (seqZ 0 n) as [|e l IH]; [by apply triple_ret|]. cbn.
  eapply (triple_bind _ _ _ gone); [|intros _ R ->; exact IH].
  eapply triple_bind; [apply triple_readl|]. intros v R ->. apply triple_writel.
Qed.
Lemma triple_pba_bits pba l : triple [] (pba_bits_is_set pba l) gone.
Proof.
  induction l as [|e l IH]; [by apply triple_ret|]. cbn.
  eapply (triple_bind _ _ _ gone).
  - eapply triple_bind; [apply triple_readl|]. intros v R ->. by apply triple_ret.
  - intros [] R ->; [by apply triple_ret|exact IH].
Qed.

Lemma wp_get_bar0 Y d0 s L (Φ : Z → world → Prop) w :
  irq_st Y d0 s L w → Φ (ndev_bar0 d0) w → wp get_bar0 Φ w.
Proof. intros [_ Hd _] HΦ. apply wp_bind, wp_gets, wp_ret. by rewrite Hd. Qed.

(** Vectors: an error changes nothing, success moves the function to the mode. *)
Lemma wp_msi_vectors Y d0 s e n (Φ : Z → world → Prop) w :
  irq_st Y d0 s [] w →
  (∀ r w', r < 0 → irq_st Y d0 s [] w' → w_mode w' = w_mode w → Φ r w') →
  (∀ d1 w', irq_moved d0 d1 → irq_st Y d1 s [] w' → w_mode w' = MODE_msi → Φ n w') →
  wp (r ← ext e;
      if s32 r <? 0 then mret (s32 r)
      else h ← gets w_hist;
           set_mode MODE_msi;; set_pdev_irq (u32 (ans_vector h 0));; mret n) Φ w.
Proof.
  intros [Hh Hd Hi] Hf Hok. apply wp_bind, wp_ext. apply wp_if; intros Hr.
  - apply wp_ret, Hf; [by apply Z.ltb_lt| |done]. split; [by eapply holds_ext, Hh|done|done].
  - apply wp_bind, wp_gets, wp_bind, wp_modify, wp_bind, wp_modify, wp_ret.
    eapply (Hok (d0 <| ndev_pdev ::= λ p, p <| pdev_irq := _ |> |>)); [by eexists| |done].
    split; [by eapply holds_ext, Hh|cbn; by rewrite Hd|done].
Qed.

Lemma wp_disable_vectors Y d0 s e (Φ : unit → world → Prop) w :
  irq_st Y d0 s [] w →
  (∀ w', irq_st Y d0 s [] w' → w_mode w' = MODE_none → Φ tt w') →
  wp (pci_disable_vectors e) Φ w.
Proof.
  intros [Hh Hd Hi] HΦ. unfold pci_disable_vectors. apply wp_bind, wp_gets. rewrite Hi.
  apply wp_bind, wp_emit, wp_modify, HΦ; [|done].
  split; [by eapply holds_ext, Hh|done|done].
Qed.

(** ** Schemes *)

(** What a scheme leaves behind: nothing, or the handlers of the vectors and their
    pairs with the numbers [ids]. *)
Definition scheme_out Y d0 s0 (ids : list Z) (m : int_mode) (r : Z) (w : world) : Prop :=
  ∃ d1 s, irq_moved d0 d1 ∧
    (r < 0 ∧ pairs_st s0 [] s ∧ irq_st Y d1 s [] w ∨
     r = 0 ∧ ∃ vecs, length vecs = length ids ∧ pairs_st s0 (zip vecs ids) s ∧
       irq_st Y d1 s (reverse vecs) w ∧ w_mode w = m).

Lemma scheme_fail Y d0 d1 s0 s ids m r w :
  r < 0 → irq_moved d0 d1 → pairs_st s0 [] s → irq_st Y d1 s [] w →
  scheme_out Y d0 s0 ids m r w.
Proof. intros. exists d1, s. split; [done|]. by left. Qed.
Lemma scheme_ok Y d0 d1 s0 s vecs ids m w :
  irq_moved d0 d1 → length vecs = length ids → pairs_st s0 (zip vecs ids) s →
  irq_st Y d1 s (reverse vecs) w → w_mode w = m → scheme_out Y d0 s0 ids m 0 w.
Proof. intros. exists d1, s. split; [done|]. right. split; [done|]. by exists vecs. Qed.

Lemma wp_set_int_pin Y d0 s0 w :
  irq_st Y d0 s0 [] w → pairs_st s0 [] s0 →
  wp set_int_pin (scheme_out Y d0 s0 [0] (w_mode w)) w.
Proof.
  intros Hs Hp. unfold set_int_pin, get_pdev_irq.
  apply wp_bind, (wp_get_bar0 _ _ _ _ _ _ Hs), wp_bind, wp_bind, wp_gets, wp_ret.
  set (v := pdev_irq _). apply wp_bind. eapply wp_request_irq; [exact Hs| |].
  { intros r w1 Hr Hs1 _. rewrite (proj2 (Z.ltb_lt _ _) Hr). apply wp_ret.
    by apply (scheme_fail _ _ d0 _ s0); [|apply irq_moved_refl|..]. }
  intros w1 Hs1 Hm1. simpl. apply wp_bind.
  eapply (wp_create_pair _ _ s0 []); [exact Hs1|exact Hp|set_solver| |].
  - intros r w2 Hr Hs2 _. rewrite (proj2 (Z.ltb_lt _ _) Hr). apply wp_bind.
    eapply (wp_free_got _ _ _ [v]); [exact Hs2|]. intros w3 Hs3 _. apply wp_ret.
    by apply (scheme_fail _ _ d0 _ s0); [|apply irq_moved_refl|..].
  - intros s2 w2 Hp2 Hs2 Hm2. simpl.
    apply wp_bind. eapply wp_irq_reg; [apply triple_clear_int_mask|exact Hs2|].
    intros _ w3 Hs3 Hm3.
    apply wp_bind. eapply wp_irq_reg; [apply triple_pci_enable_int_pin|exact Hs3|].
    intros _ w4 Hs4 Hm4. apply wp_ret.
    eapply (scheme_ok _ _ d0 _ _ [v]); [apply irq_moved_refl|done|exact Hp2|exact Hs4|congruence].
Qed.

Lemma wp_set_int_msi_single Y d0 s0 w :
  irq_st Y d0 s0 [] w → pairs_st s0 [] s0 →
  wp set_int_msi_single (scheme_out Y d0 s0 [0] MODE_msi) w.
Proof.
  intros Hs Hp. unfold set_int_msi_single.
  apply wp_bind, (wp_get_bar0 _ _ _ _ _ _ Hs), wp_bind.
  eapply wp_irq_reg; [apply triple_clear_int_mask|exact Hs|]. intros _ w1 Hs1 _.
  (** every failure ends here *)
  assert (∀ r d1 w2, r < 0 → irq_moved d0 d1 → irq_st Y d1 s0 [] w2 →
    wp (set_int_mask (ndev_bar0 d0) UINT_MAX;; mret r) (scheme_out Y d0 s0 [0] MODE_msi) w2)
    as Hfail.
  { intros r d1 w2 Hr Hd Hs2. apply wp_bind.
    eapply wp_irq_reg; [apply triple_set_int_mask|exact Hs2|]. intros _ w3 Hs3 _.
    apply wp_ret. by apply (scheme_fail _ _ d1 _ s0). }
  apply wp_bind. eapply wp_msi_vectors; [exact Hs1| |].
  { intros r w2 Hr Hs2 _. rewrite (proj2 (Z.eqb_neq r 0)) by lia. simpl.
    eapply Hfail; [done|apply irq_moved_refl|exact Hs2]. }
  intros d1 w2 Hd1 Hs2 Hm2. simpl. apply wp_bind, wp_bind, wp_gets, wp_ret.
  set (v := pdev_irq _). apply wp_bind. eapply wp_request_irq; [exact Hs2| |].
  { intros r w3 Hr Hs3 _. rewrite (proj2 (Z.ltb_lt _ _) Hr). apply wp_bind.
    eapply wp_disable_vectors; [exact Hs3|]. intros w4 Hs4 _. by eapply Hfail. }
  intros w3 Hs3 Hm3. simpl. apply wp_bind.
  eapply (wp_create_pair _ _ s0 []); [exact Hs3|exact Hp|set_solver| |].
  - intros r w4 Hr Hs4 _. rewrite (proj2 (Z.ltb_lt _ _) Hr). apply wp_bind.
    eapply (wp_free_got _ _ _ [v]); [exact Hs4|]. intros w5 Hs5 _. apply wp_bind.
    eapply wp_disable_vectors; [exact Hs5|]. intros w6 Hs6 _. by eapply Hfail.
  - intros s4 w4 Hp4 Hs4 Hm4. apply wp_ret.
    eapply (scheme_ok _ _ d1 _ _ [v]); [done|done|exact Hp4|exact Hs4|congruence].
Qed.

(** The common part of the schemes with many vectors: handlers, then pairs; [undo]
    takes the vectors back. *)
Lemma wp_many_vectors Y d0 d1 s0 n vecs (fail : Z → M Z) (k : list Z → list Z → M Z) Φ w :
  irq_moved d0 d1 → irq_st Y d1 s0 [] w → pairs_st s0 [] s0 →
  length vecs = Z.to_nat n →
  (∀ r s w', r < 0 → pairs_st s0 [] s → irq_st Y d1 s [] w' → w_mode w' = w_mode w →
    wp (fail r) Φ w') →
  (∀ s w', pairs_st s0 (zip vecs (seqZ 0 n)) s → irq_st Y d1 s (reverse vecs) w' →
    w_mode w' = w_mode w → wp (k vecs (seqZ 0 n)) Φ w') →
  wp ('(ret, got) ← request_irqs vecs [];
      if ret <? 0 then free_irqs got;; fail ret
      else
        '(ret, ids) ← create_pairs (zip vecs (seqZ 0 n)) [];
        if ret <? 0 then destroy_pairs ids;; free_irqs got;; fail ret else k got ids) Φ w.
Proof.
  intros Hd Hs Hp Hlen Hf Hok. apply wp_bind.
  assert ((zip vecs (seqZ 0 n)).*2 = seqZ 0 n) as Hids.
  { apply snd_zip. rewrite length_seqZ. lia. }
  eapply (wp_request_irqs _ _ _ _ []); [exact Hs| |].
  - intros r got w1 Hr Hs1 Hm1. rewrite (proj2 (Z.ltb_lt _ _) Hr).
    apply wp_bind. eapply wp_free_got; [exact Hs1|]. intros w2 Hs2 Hm2.
    eapply Hf; [done|exact Hp|exact Hs2|congruence].
  - intros w1 Hs1 Hm1. simpl in Hs1 |- *. apply wp_bind.
    eapply (wp_create_pairs _ _ s0 _ []); [exact Hs1|exact Hp|simpl; rewrite Hids; apply NoDup_seqZ| |].
    + intros r ps s2 w2 Hr Hp2 Hs2 Hm2. rewrite (proj2 (Z.ltb_lt _ _) Hr).
      apply wp_bind. eapply wp_destroy_pairs; [exact Hs2|exact Hp2|].
      intros s3 w3 Hp3 Hs3 Hm3.
      apply wp_bind. eapply wp_free_got; [exact Hs3|]. intros w4 Hs4 Hm4.
      eapply Hf; [done|exact Hp3|exact Hs4|congruence].
    + intros s2 w2 Hp2 Hs2 Hm2. simpl in Hp2, Hs2 |- *. rewrite Hids.
      eapply Hok; [exact Hp2|exact Hs2|congruence].
Qed.

Lemma wp_set_int_msi_multi Y d0 s0 n w :
  irq_st Y d0 s0 [] w → pairs_st s0 [] s0 → 0 ≤ n →
  wp (set_int_msi_multi n) (scheme_out Y d0 s0 (seqZ 0 n) MODE_msi) w.
Proof.
  intros Hs Hp Hn. unfold set_int_msi_multi.
  apply wp_bind, (wp_get_bar0 _ _ _ _ _ _ Hs), wp_bind.
  eapply wp_irq_reg; [apply triple_clear_int_mask|exact Hs|]. intros _ w1 Hs1 _.
  assert (∀ r s d1 w2, r < 0 → irq_moved d0 d1 → pairs_st s0 [] s → irq_st Y d1 s [] w2 →
    wp (set_int_mask (ndev_bar0 d0) UINT_MAX;; mret r)
      (scheme_out Y d0 s0 (seqZ 0 n) MODE_msi) w2) as Hfail.
  { intros r s d1 w2 Hr Hd Hp2 Hs2. apply wp_bind.
    eapply wp_irq_reg; [apply triple_set_int_mask|exact Hs2|]. intros _ w3 Hs3 _.
    apply wp_ret. by apply (scheme_fail _ _ d1 _ s). }
  apply wp_bind. eapply wp_msi_vectors; [exact Hs1| |].
  { intros r w2 Hr Hs2 _. rewrite (proj2 (Z.eqb_neq r n)) by lia. simpl.
    eapply Hfail; [done|apply irq_moved_refl|exact Hp|exact Hs2]. }
  intros d1 w2 Hd1 Hs2 Hm2. rewrite Z.eqb_refl. simpl. apply wp_bind, wp_bind, wp_gets, wp_ret.
  eapply wp_many_vectors; [exact Hd1|exact Hs2|exact Hp|by rewrite length_fmap, length_seqZ| |].
  - intros. by eapply Hfail.
  - intros s3 w3 Hp3 Hs3 Hm3. apply wp_ret.
    eapply scheme_ok; [exact Hd1| |exact Hp3|exact Hs3|congruence]. by rewrite length_fmap.
Qed.

(** MSI-X: giving the entry array back, the way out of a failure, the last steps. *)
Lemma wp_msix_free Y d0 s L e (k : M Z) Φ w :
  e ≠ 0 → irq_st (Blk e AK_kmalloc None :: Y) d0 s L w →
  (∀ w', irq_st Y d0 s L w' → w_mode w' = w_mode w → wp k Φ w') → wp (kfree e;; k) Φ w.
Proof.
  intros He Hs Hk. apply wp_bind.
  eapply (wp_irq_own _ _ Y); [by apply (triple_kfree e None)|exact Hs|done|].
  intros _ R w3 -> Hs3 Hm3. by apply Hk.
Qed.
Lemma wp_msix_fail Y d0 s0 s e r ids w :
  e ≠ 0 → r < 0 → pairs_st s0 [] s → irq_st (Blk e AK_kmalloc None :: Y) d0 s [] w →
  wp (pci_disable_msix;; kfree e;; mret r) (scheme_out Y d0 s0 ids MODE_msix) w.
Proof.
  intros He Hr Hp Hs. apply wp_bind. eapply wp_disable_vectors; [exact Hs|].
  intros w3 Hs3 _. eapply wp_msix_free; [done|exact Hs3|]. intros w4 Hs4 _. apply wp_ret.
  apply (scheme_fail _ _ d0 _ s); [done|apply irq_moved_refl|done|done].
Qed.
Lemma wp_msix_finish Y d0 s0 s n vecs e w :
  e ≠ 0 → length vecs = Z.to_nat n → pairs_st s0 (zip vecs (seqZ 0 n)) s →
  irq_st (Blk e AK_kmalloc None :: Y) d0 s (reverse vecs) w → w_mode w = MODE_msix →
  wp (s ← get_irq_set;
      b ← pba_bits_is_set (is_msix_pba s) (seqZ 0 n);
      if b : bool
      then destroy_pairs (seqZ 0 n);; free_irqs vecs;; pci_disable_msix;; kfree e;;
           mret (- EINVAL)
      else set_msix_mask (is_msix_tb s) n;; kfree e;; mret 0)
    (scheme_out Y d0 s0 (seqZ 0 n) MODE_msix) w.
Proof.
  intros He Hlen Hp Hs Hm. apply wp_bind, (wp_get_irq_set _ _ _ _ _ _ Hs), wp_bind.
  eapply wp_irq_reg; [apply triple_pba_bits|exact Hs|]. intros [] w1 Hs1 Hm1.
  - rewrite <- (snd_zip vecs (seqZ 0 n)) at 1 by (rewrite length_seqZ; lia).
    apply wp_bind. eapply wp_destroy_pairs; [exact Hs1|exact Hp|]. intros s2 w2 Hp2 Hs2 _.
    apply wp_bind. eapply wp_free_got; [exact Hs2|]. intros w3 Hs3 _.
    by eapply wp_msix_fail.
  - apply wp_bind. eapply wp_irq_reg; [apply triple_set_msix_mask|exact Hs1|].
    intros _ w2 Hs2 Hm2. eapply wp_msix_free; [done|exact Hs2|]. intros w3 Hs3 Hm3. apply wp_ret.
    eapply scheme_ok; [apply irq_moved_refl| |exact Hp|exact Hs3|congruence].
    by rewrite length_seqZ.
Qed.

Lemma wp_set_int_msix Y d0 s0 n w :
  irq_st Y d0 s0 [] w → pairs_st s0 [] s0 → 0 ≤ n →
  wp (set_int_msix n) (scheme_out Y d0 s0 (seqZ 0 n) MODE_msix) w.
Proof.
  intros Hs Hp Hn. unfold set_int_msix. apply wp_bind. eapply wp_irq_kmalloc; [exact Hs| |].
  { intros w1 Hs1 _. apply wp_ret.
    by apply (scheme_fail _ _ d0 _ s0); [|apply irq_moved_refl|..]. }
  intros e w1 He Hs1 Hm1. rewrite (proj2 (Z.eqb_neq e 0) He).
  apply wp_bind. unfold pci_enable_msix_range. apply wp_bind, wp_ext. apply wp_if; intros Hr.
  { apply wp_ret. apply Z.ltb_lt in Hr. rewrite (proj2 (Z.eqb_neq _ n)) by lia. simpl.
    eapply (wp_msix_free _ d0 s0 []); [done| |].
    - destruct Hs1 as [Hh ? ?]. split; [by eapply holds_ext, Hh|done|done].
    - intros w3 Hs3 _. apply wp_ret.
      by apply (scheme_fail _ _ d0 _ s0); [|apply irq_moved_refl|..]. }
  apply wp_bind, wp_gets, wp_bind, wp_modify, wp_ret. rewrite Z.eqb_refl. simpl.
  set (vecs := _ <$> seqZ 0 n). set (w2 := _ <| w_mode := _ |>).
  assert (irq_st (Blk e AK_kmalloc None :: Y) d0 s0 [] w2) as Hs2.
  { destruct Hs1 as [Hh ? ?]. split; [by eapply holds_ext, Hh|done|done]. }
  assert (length vecs = Z.to_nat n) as Hlen by (unfold vecs; by rewrite length_fmap, length_seqZ).
  eapply (wp_many_vectors _ d0); [apply irq_moved_refl|exact Hs2|exact Hp|exact Hlen| |].
  - intros. by eapply wp_msix_fail.
  - intros s3 w3 Hp3 Hs3 Hm3. by eapply wp_msix_finish.
Qed.

(** ** The request *)

(** [s'] is [s] with other MSI-X table addresses. *)
Definition msix_upd (s s' : nvme_irq_set) : Prop :=
  s' = s <| is_msix_irqs := is_msix_irqs s' |> <| is_msix_tb := is_msix_tb s' |>
         <| is_msix_pba := is_msix_pba s' |>.

Lemma msix_upd_refl s : msix_upd s s.
Proof. by destruct s. Qed.

Lemma wp_init_msix_ptr Y d0 s L cap w :
  irq_st Y d0 s L w →
  wp (init_msix_ptr cap)
    (λ r w', r ≤ 0 ∧ ∃ s', msix_upd s s' ∧ irq_st Y d0 s' L w' ∧ w_mode w' = w_mode w) w.
Proof.
  intros Hs. unfold init_msix_ptr.
  apply wp_bind, (wp_get_irq_set _ _ _ _ _ _ Hs), wp_bind, (wp_get_bar0 _ _ _ _ _ _ Hs).
  apply wp_if; intros _.
  { apply wp_ret. split; [done|]. exists s. by split; [apply msix_upd_refl|]. }
  apply wp_bind. eapply (wp_upd_irq_set Y Y); [exact Hs|reflexivity|done|]. intros w1 Hs1 Hm1.
  apply wp_if; intros _.
  { apply wp_ret. split; [done|]. eexists. split; [|by split; [exact Hs1|]].
    reflexivity. }
  apply wp_bind. eapply (wp_upd_irq_set Y Y); [exact Hs1|reflexivity|done|]. intros w2 Hs2 Hm2.
  apply wp_if; intros _.
  { apply wp_ret. split; [done|]. eexists. split; [|by split; [exact Hs2|congruence]].
    reflexivity. }
  apply wp_bind. eapply (wp_upd_irq_set Y Y); [exact Hs2|reflexivity|done|]. intros w3 Hs3 Hm3.
  apply wp_ret. split; [done|]. eexists. split; [|by split; [exact Hs3|congruence]].
  reflexivity.
Qed.

Lemma pcibios_err_neg r : pcibios_err_to_errno r ≤ 0.
Proof.
  unfold pcibios_err_to_errno. destruct (Z.leb_spec r 0); [lia|].
  repeat (destruct (_ =? _); [done|]). done.
Qed.

Lemma triple_msi_read_mc off : triple [] (pci_msi_read_mc off) (λ rv R, rv.1 ≤ 0 ∧ R = []).
Proof.
  intros X w Hw. unfold pci_msi_read_mc, pci_read_config.
  apply wp_bind, wp_bind, wp_ext_dma, wp_ret, wp_ret. exists [].
  split_and!; [apply pcibios_err_neg|done| |done..]. by eapply holds_ext, Hw.
Qed.

(** A request that passes the checks asks for a scheme the device has, and outside
    MSI-X for at most 32 vectors. *)
Definition int_ok (irq : nvme_interrupt) : Prop :=
  match int_irq_type irq with
  | NVME_INT_MSI_SINGLE => int_num_irqs irq = 1
  | NVME_INT_MSI_MULTI => 0 < int_num_irqs irq ≤ 32
  | NVME_INT_MSIX => 0 < int_num_irqs irq ≤ 2048
  | NVME_INT_PIN | NVME_INT_NONE => True
  | NVME_INT_OTHER _ => False
  end.

Lemma wp_check_interrupt Y d0 s L irq w :
  irq_st Y d0 s L w → 0 ≤ int_num_irqs irq →
  wp (check_interrupt irq)
    (λ r w', r ≤ 0 ∧ (r = 0 → int_ok irq) ∧
      ∃ s', msix_upd s s' ∧ irq_st Y d0 s' L w' ∧ w_mode w' = w_mode w) w.
Proof.
  intros Hs Hn. unfold check_interrupt, int_ok. apply wp_bind, wp_gets, wp_bind.
  eapply wp_irq_reg; [apply triple_readl|exact Hs|]. intros cc w1 Hs1 Hm1.
  assert (∀ r w2, r ≤ 0 → irq_st Y d0 s L w2 → w_mode w2 = w_mode w →
    r ≤ 0 ∧ ∃ s', msix_upd s s' ∧ irq_st Y d0 s' L w2 ∧ w_mode w2 = w_mode w) as Hend.
  { intros r w2 Hr Hs2 Hm2. split; [done|]. exists s. by split; [apply msix_upd_refl|]. }
  assert (∀ r (P : Prop) w2, r ≤ 0 → (r = 0 → P) → irq_st Y d0 s L w2 → w_mode w2 = w_mode w →
    wp (mret r) (λ r w', r ≤ 0 ∧ (r = 0 → P) ∧
      ∃ s', msix_upd s s' ∧ irq_st Y d0 s' L w' ∧ w_mode w' = w_mode w) w2) as Hret.
  { intros r P w2 Hr HP Hs2 Hm2. apply wp_ret. destruct (Hend r w2) as [_ ?]; done. }
  apply wp_if; intros _; [by apply Hret|].
  destruct (int_irq_type irq); try (by apply Hret).
  - destruct (Z.eqb_spec (int_num_irqs irq) 1); [|by apply Hret]. simpl.
    destruct (cap_msi _) as [msi|]; [|by apply Hret]. destruct (_ =? 0); by apply Hret.
  - unfold PCI_MSI_VEC_MAX.
    destruct (Z.ltb_spec 32 (int_num_irqs irq)); [by apply Hret|].
    destruct (Z.eqb_spec (int_num_irqs irq) 0); [by apply Hret|]. simpl.
    destruct (cap_msi _) as [msi|]; [|by apply Hret].
    destruct (_ =? 0); [by apply Hret|]. apply wp_bind.
    eapply (wp_irq_own [] Y Y); [apply triple_msi_read_mc|exact Hs1|done|].
    intros [r mc] R w2 [Hr ->] Hs2 Hm2. simpl in Hr. assert (w_mode w2 = w_mode w) by congruence.
    destruct (Z.ltb_spec r 0); [by apply Hret; [|lia|..]|].
    destruct (_ <? _); apply Hret; try done. intros _. lia.
  - unfold PCI_MSIX_VEC_MAX.
    destruct (Z.ltb_spec 2048 (int_num_irqs irq)); [by apply Hret|].
    destruct (Z.eqb_spec (int_num_irqs irq) 0); [by apply Hret|]. simpl.
    destruct (cap_msix _) as [msix|]; [|by apply Hret].
    destruct (_ =? 0); [by apply Hret|]. apply wp_bind.
    eapply wp_mono; [apply wp_init_msix_ptr, Hs1|]. intros r w2 (Hr & s2 & Hu & Hs2 & Hm2).
    rewrite Hm1 in Hm2.
    destruct (Z.ltb_spec r 0).
    { apply wp_ret. split_and!; [done|lia|by exists s2]. }
    apply wp_bind, (wp_get_irq_set _ _ _ _ _ _ Hs2).
    destruct (_ <? _); apply wp_ret; (split_and!; [done|try lia|by exists s2]).
Qed.

(** No scheme is set up. *)
Record idle (s : nvme_irq_set) : Prop := {
  id_irqs : is_irq_list s = [];
  id_works : is_work_list s = [];
  id_pending : is_wq_pending s = [];
  id_type : is_irq_type s = NVME_INT_NONE }.

Lemma irq_wf_idle s : irq_wf s → is_irq_type s = NVME_INT_NONE → idle s.
Proof.
  intros Hwf Ht. pose proof (iw_none _ Hwf Ht) as Hi.
  assert (is_work_list s = []) as Hw.
  { pose proof (iw_step _ Hwf) as Hst. rewrite Hi in Hst. by apply (fmap_nil_inv _ _ (eq_sym Hst)). }
  split; try done. pose proof (iw_pending _ Hwf) as Hp. rewrite Hw in Hp.
  destruct (is_wq_pending s) as [|p l]; [done|].
  exfalso. apply (not_elem_of_nil p), Hp. by left.
Qed.
Lemma idle_irq_wf s : idle s → irq_wf s.
Proof.
  intros [Hi Hw Hp Ht]. split; rewrite ?Hi, ?Hw, ?Hp, ?Ht; simpl; try done; try constructor;
    by intros ? ?%elem_of_nil.
Qed.
Lemma idle_pairs s : idle s → pairs_st s [] s.
Proof.
  intros [Hi Hw _ _]. split; rewrite ?Hi, ?Hw; try done; try constructor.
  destruct s; simpl in *. by subst.
Qed.

(** The old scheme, if any, is gone. *)
Lemma wp_old_down X w :
  inv X w →
  wp (if decide (is_irq_type (ndev_irq_set (w_dev w)) = NVME_INT_NONE) then mret tt
      else dnvme_clean_interrupt)
    (λ _ w', idle (ndev_irq_set (w_dev w')) ∧
      irq_st (other_items (w_dev w) ++ X) (w_dev w) (ndev_irq_set (w_dev w')) [] w') w.
Proof.
  intros Hw. pose proof (dw_irq _ (i_dev _ _ Hw)) as Hwf. case_decide as Ht.
  - apply wp_ret. pose proof (irq_wf_idle _ Hwf Ht) as Hid. split; [done|].
    pose proof (inv_irq_st X w Hw) as Hs. pose proof (i_irqs _ _ Hw) as Hi.
    rewrite (id_irqs _ Hid) in Hi. by rewrite (proj1 (Permutation_nil_r _) Hi) in Hs.
  - eapply wp_mono; [by apply wp_clean_interrupt|]. intros _ w' (Hw' & Hi' & _ & Hd').
    split; [by rewrite Hd'|]. pose proof (inv_irq_st X w' Hw') as Hs. rewrite Hi' in Hs.
    destruct Hs as [Hh Hd _]. split; [|by rewrite Hd'; destruct (w_dev w)|done].
    rewrite Hd' in Hh. rewrite Hd'. exact Hh.
Qed.

Lemma wp_create_wq Y d0 s (Φ : Z → world → Prop) w :
  irq_st Y d0 s [] w →
  (∀ r w', r < 0 → irq_st Y d0 s [] w' → Φ r w') →
  (∀ q w', q ≠ 0 → irq_st Y d0 (s <| is_wq := q |>) [] w' → Φ 0 w') →
  wp create_irq_work_queue Φ w.
Proof.
  intros Hs Hf Hok. unfold create_irq_work_queue.
  apply wp_bind, (wp_get_irq_set _ _ _ _ _ _ Hs).
  destruct (Z.eqb_spec (is_wq s) 0) as [H0|H0]; simpl.
  2:{ apply wp_ret, (Hok (is_wq s)); [done|by destruct s]. }
  unfold create_workqueue. apply wp_bind, wp_bind, wp_ext.
  destruct Hs as [Hh Hd Hi]. apply wp_if; intros _.
  - apply wp_ret, wp_bind, wp_modify, wp_ret, Hf; [done|]. split; [by eapply holds_ext, Hh| |done].
    cbn. rewrite Hd. destruct s; simpl in *. by subst.
  - apply wp_new_block. intros p Hp Hnone. apply wp_bind, wp_modify, wp_ret. cbn.
    rewrite (proj2 (Z.eqb_neq p 0)) by lia. apply (Hok p); [lia|]. split; [|cbn; by rewrite Hd|done].
    assert (holds (Blk p AK_wq None :: irq_items s ++ Y)
      (w <| w_heap ::= <[p := mk_block AK_wq 0 []]> |>)) as Hh'.
    { apply (holds_new p AK_wq None 0 [] _ w); try done. }
    eapply (holds_ext _ (w <| w_heap ::= <[p := mk_block AK_wq 0 []]> |>)); [done..|].
    revert Hh'. apply holds_perm; [|done]. unfold irq_items. cbn.
    rewrite H0, Z.eqb_refl, (proj2 (Z.eqb_neq p 0)) by lia. solve_Permutation.
Qed.

(** The numbers of the irqs a request makes. *)
Definition scheme_ids (irq : nvme_interrupt) : list Z :=
  match int_irq_type irq with
  | NVME_INT_MSI_SINGLE | NVME_INT_PIN => [0]
  | NVME_INT_MSI_MULTI | NVME_INT_MSIX => seqZ 0 (int_num_irqs irq)
  | NVME_INT_NONE | NVME_INT_OTHER _ => []
  end.

Lemma wp_scheme Y d0 s irq w :
  irq_st Y d0 s [] w → pairs_st s [] s → int_ok irq → 0 ≤ int_num_irqs irq →
  wp (match int_irq_type irq with
      | NVME_INT_MSI_SINGLE => set_int_msi_single
      | NVME_INT_MSI_MULTI => set_int_msi_multi (int_num_irqs irq)
      | NVME_INT_MSIX => set_int_msix (int_num_irqs irq)
      | NVME_INT_PIN => set_int_pin
      | NVME_INT_NONE => mret 0
      | NVME_INT_OTHER _ => mret (- EBADRQC)
      end) (λ r w', ∃ m, scheme_out Y d0 s (scheme_ids irq) m r w') w.
Proof.
  intros Hs Hp Hok Hn. unfold int_ok, scheme_ids in *. destruct (int_irq_type irq).
  - eapply wp_mono; [by apply wp_set_int_msi_single|]. eauto.
  - eapply wp_mono; [by apply wp_set_int_msi_multi|]. eauto.
  - eapply wp_mono; [by apply wp_set_int_msix|]. eauto.
  - eapply wp_mono; [by apply wp_set_int_pin|]. eauto.
  - apply wp_ret. exists (w_mode w).
    by apply (scheme_ok _ _ d0 _ s []); [apply irq_moved_refl|..].
  - done.
Qed.

(** What a request may change: the irq set and [pdev->irq]. *)
Definition irq_part (d d' : nvme_device) : Prop :=
  ∃ v s, d' = d <| ndev_pdev ::= λ p, p <| pdev_irq := v |> |> <| ndev_irq_set := s |>.

Lemma irq_moved_part d0 d1 s : irq_moved d0 d1 → irq_part d0 (d1 <| ndev_irq_set := s |>).
Proof. intros [v ->]. by exists v, s. Qed.

(** Closing a request: the irq set [s] is well formed again. *)
Lemma inv_of_moved X d0 d1 s L w :
  irq_moved d0 d1 → irq_st (other_items d0 ++ X) d1 s L w → dev_wf d0 → irq_wf s →
  L ≡ₚ (irq_int_vec <$> is_irq_list s) → inv X w.
Proof.
  intros [v ->] Hs Hd Hwf HL. set (d1 := d0 <| ndev_pdev ::= _ |>) in *.
  apply (irq_st_inv X d1 s L); [exact Hs| |exact Hwf|exact HL].
  by destruct Hd.
Qed.

(** The second half of [dnvme_set_interrupt], from a device without a scheme. *)
Lemma wp_build_scheme X d0 s irq w :
  irq_st (other_items d0 ++ X) d0 s [] w → idle s → is_wq s ≠ 0 → dev_wf d0 →
  int_ok irq → 0 ≤ int_num_irqs irq →
  wp (ret ← (match int_irq_type irq with
             | NVME_INT_MSI_SINGLE => set_int_msi_single
             | NVME_INT_MSI_MULTI => set_int_msi_multi (int_num_irqs irq)
             | NVME_INT_MSIX => set_int_msix (int_num_irqs irq)
             | NVME_INT_PIN => set_int_pin
             | NVME_INT_NONE => mret 0
             | NVME_INT_OTHER _ => mret (- EBADRQC)
             end);
      if ret <? 0 then destroy_irq_work_queue;; mret ret
      else
        upd_irq_set (λ s, s <| is_irq_type := int_irq_type irq |>
                            <| is_nr_irq := int_num_irqs irq |>);;
        mret 0)
    (λ r w', inv X w' ∧ irq_part d0 (w_dev w') ∧
      let s' := ndev_irq_set (w_dev w') in
      (r = 0 ∧ is_irq_type s' = int_irq_type irq ∧
         (irq_id <$> is_irq_list s') = scheme_ids irq ∨
       r < 0 ∧ idle s' ∧ w_irqs w' = [])) w.
Proof.
  intros Hs Hid Hwq Hd Hok Hn. apply wp_bind.
  eapply wp_mono; [apply (wp_scheme _ _ s _ _ Hs); [by apply idle_pairs|done|done]|].
  intros r w1 (m & d1 & s1 & Hd1 & [(Hr & Hp1 & Hs1)|(-> & vecs & Hlen & Hp1 & Hs1 & Hm1)]).
  - rewrite (proj2 (Z.ltb_lt _ _) Hr). apply pairs_st_nil in Hp1.
    assert (s1 = s) as ->.
    { rewrite Hp1. destruct Hid as [Hi Hw _ _], s; simpl in *. by subst. }
    apply wp_bind. eapply wp_destroy_irq_work_queue; [exact Hs1| |].
    { rewrite (id_pending _ Hid). by intros p ?%elem_of_nil. }
    rewrite (id_irqs _ Hid), (proj2 (Z.eqb_neq _ 0) Hwq).
    intros l w2 Hl Hs2 _. apply Forall2_nil_inv_l in Hl as ->. apply wp_ret.
    assert (idle (s <| is_irq_list := [] |> <| is_wq := 0 |> <| is_wq_pending := [] |>)) as Hid2.
    { destruct Hid as [? ? ? ?]. by split. }
    split_and!.
    + eapply inv_of_moved; [exact Hd1|exact Hs2|done|by apply idle_irq_wf|done].
    + rewrite (st_dev _ _ _ _ _ Hs2). by apply irq_moved_part.
    + right. split_and!; [done|by rewrite (st_dev _ _ _ _ _ Hs2)|apply (st_irqs _ _ _ _ _ Hs2)].
  - simpl. apply wp_bind. eapply wp_upd_irq_set; [exact Hs1|reflexivity|done|].
    intros w2 Hs2 _. apply wp_ret.
    assert ((zip vecs (scheme_ids irq)).*2 = scheme_ids irq) as Hz2 by (apply snd_zip; lia).
    assert ((zip vecs (scheme_ids irq)).*1 = vecs) as Hz1 by (apply fst_zip; lia).
    split_and!.
    + eapply inv_of_moved; [exact Hd1|exact Hs2|done| |].
      * apply (pairs_st_irq_wf s (zip vecs (scheme_ids irq))); try done; [apply Hid| |].
        { intros Hne Ht. unfold scheme_ids in Hne. rewrite Ht in Hne. by destruct vecs. }
        intros Hmx. apply (Forall_fmap snd (λ i, 0 ≤ i < 32)). rewrite Hz2.
        unfold scheme_ids, int_ok in *. apply Forall_forall. intros i.
        destruct (int_irq_type irq); try done;
          rewrite ?list_elem_of_singleton, ?elem_of_seqZ; try lia. by intros ?%elem_of_nil.
      * simpl. rewrite (ps_irq_vecs _ _ _ Hp1), Hz1. by rewrite reverse_Permutation.
    + rewrite (st_dev _ _ _ _ _ Hs2). by apply irq_moved_part.
    + left. rewrite (st_dev _ _ _ _ _ Hs2). simpl. split_and!; [done|done|].
      by rewrite (ps_irq_ids _ _ _ Hp1).
Qed.

Lemma msix_upd_wf s s' : msix_upd s s' → irq_wf s → irq_wf s'.
Proof. intros -> []. by split. Qed.

Definition set_interrupt_post (X : list item) (irq : nvme_interrupt) (w : world) : Z → world → Prop :=
  λ r w', inv X w' ∧ irq_part (w_dev w) (w_dev w') ∧
    let s := ndev_irq_set (w_dev w) in
    let s' := ndev_irq_set (w_dev w') in
    (r = 0 ∧ is_irq_type s' = int_irq_type irq ∧
       (irq_id <$> is_irq_list s') = scheme_ids irq ∨
     r < 0 ∧ msix_upd s s' ∧ w_irqs w' = w_irqs w ∨
     r < 0 ∧ idle s' ∧ w_irqs w' = []).

Lemma wp_set_interrupt X irq w
    (Hw : inv X w) (Hn : 0 ≤ int_num_irqs irq) :
  wp (dnvme_set_interrupt irq) (set_interrupt_post X irq w) w.
Proof.
  pose proof (inv_irq_st X w Hw) as Hs. pose proof (i_dev _ _ Hw) as Hd.
  pose proof (dw_irq _ Hd) as Hwf. pose proof (i_irqs _ _ Hw) as HL.
  set (d0 := w_dev w) in *. set (s := ndev_irq_set d0) in *. unfold dnvme_set_interrupt.
  apply wp_bind, (wp_get_irq_set _ _ _ _ _ _ Hs), wp_bind.
  eapply wp_irq_reg; [apply triple_copy_from_user|exact Hs|]. intros ok w1 Hs1 _.
  assert (∀ r s' w', r < 0 → msix_upd s s' → irq_st (other_items d0 ++ X) d0 s' (w_irqs w) w' →
    wp (mret r) (λ r w', inv X w' ∧ irq_part d0 (w_dev w') ∧
      (r = 0 ∧ is_irq_type (ndev_irq_set (w_dev w')) = int_irq_type irq ∧
         (irq_id <$> is_irq_list (ndev_irq_set (w_dev w'))) = scheme_ids irq ∨
       r < 0 ∧ msix_upd s (ndev_irq_set (w_dev w')) ∧ w_irqs w' = w_irqs w ∨
       r < 0 ∧ idle (ndev_irq_set (w_dev w')) ∧ w_irqs w' = [])) w') as Hrefuse.
  { intros r s' w' Hr Hu Hs'. apply wp_ret. split_and!.
    - eapply inv_of_moved; [apply irq_moved_refl|exact Hs'|done|by eapply msix_upd_wf|].
      by rewrite Hu.
    - rewrite (st_dev _ _ _ _ _ Hs'). apply irq_moved_part, irq_moved_refl.
    - right. left. rewrite (st_dev _ _ _ _ _ Hs').
      split_and!; [done|done|apply (st_irqs _ _ _ _ _ Hs')]. }
  destruct ok; simpl; [|by eapply Hrefuse; [|apply msix_upd_refl|]].
  apply wp_bind. eapply wp_mono; [by apply wp_check_interrupt|].
  intros r w2 (Hr & Hok & s2 & Hu & Hs2 & _).
  destruct (Z.ltb_spec r 0) as [Hneg|Hpos]; [by eapply Hrefuse|].
  assert (r = 0) as -> by lia. specialize (Hok eq_refl).
  assert (inv X w2) as Hw2.
  { eapply inv_of_moved; [apply irq_moved_refl|exact Hs2|done|by eapply msix_upd_wf|].
    by rewrite Hu. }
  assert (is_irq_type s = is_irq_type (ndev_irq_set (w_dev w2))) as ->.
  { rewrite (st_dev _ _ _ _ _ Hs2), Hu. done. }
  assert (w_dev w2 = d0 <| ndev_irq_set := s2 |>) as Hd2 by apply (st_dev _ _ _ _ _ Hs2).
  apply wp_bind. eapply wp_mono; [by apply wp_old_down|].
  rewrite Hd2. intros _ w3 [Hid Hs3']. set (s3 := ndev_irq_set (w_dev w3)) in *.
  assert (irq_st (other_items d0 ++ X) d0 s3 [] w3) as Hs3 by (by destruct Hs3'; split).
  apply wp_bind. eapply wp_create_wq; [exact Hs3| |].
  - intros r w4 Hr4 Hs4. rewrite (proj2 (Z.ltb_lt _ _) Hr4). apply wp_ret. split_and!.
    + eapply inv_of_moved; [apply irq_moved_refl|exact Hs4|done|by apply idle_irq_wf|].
      by rewrite (id_irqs _ Hid).
    + rewrite (st_dev _ _ _ _ _ Hs4). apply irq_moved_part, irq_moved_refl.
    + right. right. rewrite (st_dev _ _ _ _ _ Hs4).
      split_and!; [done|done|apply (st_irqs _ _ _ _ _ Hs4)].
  - intros q w4 Hq Hs4. simpl.
    eapply wp_mono; [eapply wp_build_scheme; [exact Hs4| |done..]|].
    + destruct Hid. by split.
    + intros r w5 (? & ? & [?|?]); split_and!; try done; [by left|by right; right].
Qed.

End irq_set.

(** *** Witness: replacing the pin scheme by another pin scheme. *)
Definition demo_pin : nvme_interrupt := {| int_num_irqs := 1; int_irq_type := NVME_INT_PIN |}.

