(* ===== verification/IrqRun.v ===== *)
(** * The interrupt handler and its bottom half

    The handler masks its vector and queues the work item of the irq; the bottom
    half sets the flag of the irq node, which [reap] looks at.  Nothing is lost
    between the two, and the nodes the items point to are there when they run. *)

From S2P Require Import Prelude Types Kernel Io Own Prp Ring Irq Inv Demo IrqSpec IrqSet.

(** ** Nodes by position *)

(** The irq node and the work node of a vector are at the same position. *)
Lemma step_lookup s i n :
  irq_wf s → is_irq_list s !! i = Some n →
  ∃ wk, is_work_list s !! i = Some wk ∧ work_irq_id wk = irq_id n ∧
        work_int_vec wk = irq_int_vec n.
Proof.
  intros Hwf Hi. pose proof (iw_step _ Hwf) as Hst.
  assert (((λ n, (work_irq_id n, work_int_vec n)) <$> is_work_list s) !! i =
    Some (irq_id n, irq_int_vec n)) as Hw.
  { rewrite <- Hst, list_lookup_fmap, Hi. done. }
  rewrite list_lookup_fmap in Hw. destruct (is_work_list s !! i) as [wk|]; [|done].
  injection Hw as H1 H2. by exists wk.
Qed.

Lemma find_work_vec s i n :
  irq_wf s → is_irq_list s !! i = Some n →
  ∃ wk, find_work_node_by_vec s (irq_int_vec n) = Some wk ∧ wk ∈ is_work_list s ∧
        work_irq_id wk = irq_id n.
Proof.
  intros Hwf Hi. destruct (step_lookup s i n Hwf Hi) as (wk & Hwk & Hid & Hv).
  exists wk. unfold find_work_node_by_vec. rewrite <- Hv. split_and!; [|by eapply list_elem_of_lookup_2|done].
  apply (find_unique work_int_vec _ i); [|done].
  replace (work_int_vec <$> is_work_list s) with (irq_int_vec <$> is_irq_list s); [apply Hwf|].
  pose proof (f_equal (fmap snd) (iw_step _ Hwf)) as Heq. rewrite <- !list_fmap_compose in Heq.
  exact Heq.
Qed.

Section irq_run.
Context {E : Env}.
Implicit Types (Y : list item) (s : nvme_irq_set) (L : list Z).

Lemma triple_msix_mask t e : triple [] (set_msix_single_mask t e) gone.
Proof. eapply triple_bind; [apply triple_readl|]. intros v R ->. apply triple_writel. Qed.

Lemma irq_st_hist Y d0 s L w h :
  irq_st Y d0 s L w → irq_st Y d0 s L (w <| w_hist := h |>).
Proof. intros [Hh ? ?]. split; [by eapply holds_ext, Hh|done|done]. Qed.

(** Masking: outside MSI-X the bit of the irq is written to INTMS. *)
Definition masked (s : nvme_irq_set) (bar0 id : Z) (h : history) : Prop :=
  match is_irq_type s with
  | NVME_INT_PIN | NVME_INT_MSI_SINGLE | NVME_INT_MSI_MULTI =>
    E_writel (bar0 + NVME_REG_INTMS) (u32 (Z.shiftl 1 id)) ∈ h
  | NVME_INT_MSIX =>
    ∃ v, E_writel (is_msix_tb s + u32 (id * PCI_MSIX_ENTRY_SIZE) + PCI_MSIX_ENTRY_VECTOR_CTRL)
           (u32 (Z.lor v PCI_MSIX_ENTRY_CTRL_MASKBIT)) ∈ h
  | NVME_INT_NONE | NVME_INT_OTHER _ => True
  end.

Lemma wp_mask_interrupt Y d0 s L id (Φ : Z → world → Prop) w :
  irq_st Y d0 s L w → (is_irq_type s ≠ NVME_INT_MSIX → 0 ≤ id < 32) →
  (∀ r w', irq_st Y d0 s L w' → w_mode w' = w_mode w →
    masked s (ndev_bar0 d0) id (w_hist w') → Φ r w') →
  wp (dnvme_mask_interrupt id) Φ w.
Proof.
  intros Hs Hid HΦ. unfold dnvme_mask_interrupt, masked in *.
  apply wp_bind, (wp_get_irq_set _ _ _ _ _ _ Hs), wp_bind, (wp_get_bar0 _ _ _ _ _ _ Hs).
  assert (is_irq_type s ≠ NVME_INT_MSIX →
    (∀ r w', irq_st Y d0 s L w' → w_mode w' = w_mode w →
      E_writel (ndev_bar0 d0 + NVME_REG_INTMS) (u32 (Z.shiftl 1 id)) ∈ w_hist w' → Φ r w') →
    wp (b ← irq_bit id; set_int_mask (ndev_bar0 d0) b;; mret 0) Φ w) as Hbit.
  { intros Ht HΦ'. unfold irq_bit, set_int_mask. rewrite (proj2 (Z.ltb_lt id 32)) by (by apply Hid).
    apply wp_bind, wp_ret, wp_bind, wp_bind, wp_emit. destruct cfg_flush_reg_write.
    - apply wp_bind, wp_bind, wp_ext, wp_ret, wp_ret, wp_ret, HΦ'; [|done|right; by left].
      by do 2 apply irq_st_hist.
    - apply wp_ret, wp_ret, HΦ'; [by apply irq_st_hist|done|by left]. }
  destruct (is_irq_type s); try (by apply Hbit); try (by apply wp_ret, HΦ).
  apply wp_bind, wp_bind, wp_bind, wp_ext, wp_ret, wp_emit, wp_ret, HΦ; [|done|eexists; by left].
  by do 2 apply irq_st_hist.
Qed.

(** The handler: the vector is masked and its item is queued, once. *)
Lemma wp_interrupt Y d0 s L i n (Φ : irqreturn_t → world → Prop) w :
  irq_st Y d0 s L w → irq_wf s → is_irq_list s !! i = Some n →
  (∀ wk l w', wk ∈ is_work_list s → work_irq_id wk = irq_id n → work_ptr wk ∈ l →
    (∀ p, p ∈ l → p ∈ is_wq_pending s ∨ p = work_ptr wk) →
    (NoDup (is_wq_pending s) → NoDup l) →
    irq_st Y d0 (s <| is_wq_pending := l |>) L w' → w_mode w' = w_mode w →
    masked s (ndev_bar0 d0) (irq_id n) (w_hist w') → Φ IRQ_HANDLED w') →
  wp (dnvme_interrupt (irq_int_vec n)) Φ w.
Proof.
  intros Hs Hwf Hi HΦ. destruct (find_work_vec s i n Hwf Hi) as (wk & Hf & Hwk & Hid).
  unfold dnvme_interrupt. apply wp_bind, (wp_get_irq_set _ _ _ _ _ _ Hs). rewrite Hf, Hid.
  apply wp_bind. eapply wp_mask_interrupt; [exact Hs| |].
  { intros Ht. pose proof (iw_bits _ Hwf Ht) as Hb. rewrite Forall_forall in Hb.
    apply (Hb n). by eapply list_elem_of_lookup_2. }
  intros _ w1 Hs1 Hm1 Hmask. apply wp_bind, (wp_get_irq_set _ _ _ _ _ _ Hs1), wp_bind.
  assert (is_wq s ≠ 0) as Hwq.
  { intros H0. destruct (iw_wq _ Hwf H0) as [Hl _]. by rewrite Hl in Hi. }
  rewrite (proj2 (Z.eqb_neq _ 0) Hwq). case_decide as Hp.
  - apply wp_ret, wp_ret, (HΦ wk (is_wq_pending s)); try done; [auto|by destruct s].
  - apply wp_modify, wp_ret, (HΦ wk (is_wq_pending s ++ [work_ptr wk])); try done.
    + set_solver.
    + intros p. rewrite elem_of_app, list_elem_of_singleton. done.
    + intros Hnd. apply NoDup_app. split_and!; [done|set_solver|apply NoDup_singleton].
    + destruct Hs1 as [Hh Hd Hirq]. split; [by eapply holds_ext, Hh|cbn; by rewrite Hd|done].
Qed.

(** Flags and the queue change, the nodes stay. *)
Lemma irq_wf_same s l' p :
  irq_wf s → Forall2 irq_same (is_irq_list s) l' →
  (∀ x, x ∈ p → x ∈ (work_ptr <$> is_work_list s)) → (is_wq s = 0 → p = []) →
  irq_wf (s <| is_irq_list := l' |> <| is_wq_pending := p |>).
Proof.
  intros Hwf Hsame Hp H0.
  assert (∀ A (f : nvme_irq → A), (∀ n n', irq_same n n' → f n' = f n) →
    f <$> l' = f <$> is_irq_list s) as Hproj by (intros A f Hf; by apply irq_same_proj).
  assert (is_irq_list s = [] → l' = []) as Hnil
    by (intros Hl; rewrite Hl in Hsame; by inversion Hsame).
  split; simpl; try done.
  - rewrite Hproj by (by intros ? ? (?&?&?&?&?)). apply Hwf.
  - rewrite Hproj by (by intros ? ? (?&?&?&?&?)). apply Hwf.
  - rewrite Hproj by (by intros ? ? (?&?&->&->&?)). apply Hwf.
  - intros Hq. split; [apply Hnil, (iw_wq _ Hwf Hq)|by apply H0].
  - intros Hq. apply Hnil, (iw_none _ Hwf Hq).
  - intros Ht. apply (Forall_fmap irq_id (λ i, 0 ≤ i < 32)).
    rewrite Hproj by (by intros ? ? (?&?&?&?&?)). apply Forall_fmap, (iw_bits _ Hwf Ht).
Qed.

Lemma inv_flushed X d0 s p l' L w :
  irq_st (other_items d0 ++ X) d0
    (s <| is_wq_pending := p |> <| is_irq_list := l' |> <| is_wq_pending := [] |>) L w →
  dev_wf d0 → irq_wf s → Forall2 irq_same (is_irq_list s) l' →
  L ≡ₚ (irq_int_vec <$> is_irq_list s) → inv X w.
Proof.
  intros Hs Hd Hwf Hsame HL. eapply (irq_st_inv X d0); [exact Hs|done| |].
  - apply (irq_wf_same s l' []); [done|done|by intros ? ?%elem_of_nil|done].
  - simpl. rewrite (irq_same_proj irq_int_vec _ _ ltac:(by intros ? ? (?&?&?&?&?)) Hsame). exact HL.
Qed.

(** C21. No interrupt is lost.  From every device in the invariant, an interrupt on
    the vector of an irq is handled: its source is masked (the bit of the irq in
    INTMS, or the mask bit of its MSI-X entry), and once the workqueue has run the
    flag of that irq is set, whatever was queued before.  The work item runs on
    nodes that are there, nothing is leaked, and the queue is empty again. *)
Theorem interrupt_sets_flag X i n w
    (Hw : inv X w) (Hi : is_irq_list (ndev_irq_set (w_dev w)) !! i = Some n) :
  let s := ndev_irq_set (w_dev w) in
  wp (r ← dnvme_interrupt (irq_int_vec n); h ← gets w_hist; flush_workqueue;; mret (r, h))
    (λ rh w', rh.1 = IRQ_HANDLED ∧ inv X w' ∧
      masked s (ndev_bar0 (w_dev w)) (irq_id n) rh.2 ∧
      let s' := ndev_irq_set (w_dev w') in
      fired (is_irq_list s') (irq_id n) ∧ is_wq_pending s' = [] ∧
      Forall2 irq_same (is_irq_list s) (is_irq_list s')) w.
Proof.
  intros s. pose proof (inv_irq_st X w Hw) as Hs. pose proof (i_dev _ _ Hw) as Hd.
  pose proof (dw_irq _ Hd) as Hwf. fold s in Hi, Hs, Hwf. set (d0 := w_dev w) in *.
  apply wp_bind. eapply wp_interrupt; [exact Hs|exact Hwf|exact Hi|].
  intros wk l w1 Hwk Hid Hin Hsub _ Hs1 _ Hmask. apply wp_bind, wp_gets, wp_bind.
  eapply wp_flush_workqueue; [exact Hs1|exact (work_nodup _ _ _ _ _ Hs1)| |].
  { intros p Hp. destruct (Hsub p Hp) as [Hp'| ->]; [by apply Hwf|]. by apply list_elem_of_fmap_2. }
  intros l' w2 Hsame Hfd Hs2 _. apply wp_ret.
  assert (ndev_irq_set (w_dev w2) = s <| is_wq_pending := [] |> <| is_irq_list := l' |>) as ->
    by (rewrite (st_dev _ _ _ _ _ Hs2); by destruct s).
  cbv zeta. split_and!; try done.
  - eapply inv_flushed; [exact Hs2|done|exact Hwf|exact Hsame|apply (i_irqs _ _ Hw)].
  - rewrite <- Hid. apply (Hfd wk Hwk Hin). rewrite Hid. apply list_elem_of_fmap_2.
    by eapply list_elem_of_lookup_2.
Qed.

End irq_run.

(** *** Witnesses *)

Lemma interrupt_sets_flag_witness :
  let n := {| irq_ptr := 10; irq_icq_list := [mk_icq 11 0]; irq_id := 0;
              irq_int_vec := 11; irq_isr_fired := 0; irq_isr_count := 0 |} in
  is_irq_list (ndev_irq_set (w_dev full_world)) !! 0%nat = Some n ∧
  wp (r ← @dnvme_interrupt demo_env 11; h ← gets w_hist; flush_workqueue;; mret (r, h))
    (λ rh w', rh.1 = IRQ_HANDLED ∧ inv [] w' ∧
      masked demo_irq_set 0x10000 0 rh.2 ∧
      let s' := ndev_irq_set (w_dev w') in
      fired (is_irq_list s') 0 ∧ is_wq_pending s' = [] ∧
      Forall2 irq_same (is_irq_list demo_irq_set) (is_irq_list s')) full_world.
Proof.
  intros n. split; [reflexivity|].
  exact (@interrupt_sets_flag demo_env [] 0%nat n full_world full_world_inv eq_refl).
Defined.

