(* ===== verification/Trace.v ===== *)
(** * What a function may do to the outside

    [adds P m]: every call to the kernel that [m] makes satisfies [P].  The rules
    follow the structure of programs; [solve_adds] applies them.  With [quiet], which
    excludes writes to device registers, they give the functions that never ring a
    doorbell or touch the controller. *)

From S2P Require Import Prelude Types Kernel Own Prp Ring.

Section adds.
Context (P : event → Prop).

Definition adds {A} (m : M A) : Prop :=
  ∀ w a w', m w = Val a w' → ∃ h, w_hist w' = h ++ w_hist w ∧ Forall P h.

Lemma adds_ret {A} (a : A) : adds (mret a).
Proof. intros w ? ? [= <- <-]. by exists []. Qed.
Lemma adds_oops {A} f : adds (oops (A := A) f).
Proof. by intros ???. Qed.
Lemma adds_hang {A} : adds (hang (A := A)).
Proof. by intros ???. Qed.
Lemma adds_gets {A} (f : world → A) : adds (gets f).
Proof. intros w ? ? [= <- <-]. by exists []. Qed.
Lemma adds_modify f : (∀ w, w_hist (f w) = w_hist w) → adds (modify f).
Proof. intros Hf w ? ? [= <- <-]. by exists []. Qed.

Lemma adds_bind {A B} (m : M A) (f : A → M B) :
  adds m → (∀ a, adds (f a)) → adds (x ← m; f x).
Proof.
  intros Hm Hf w b w2. unfold mbind, M_bind. destruct (m w) as [a w1| |] eqn:H1; [|done..].
  intros H2. destruct (Hm _ _ _ H1) as (h1 & Hw1 & Hp1), (Hf _ _ _ _ H2) as (h2 & Hw2 & Hp2).
  exists (h2 ++ h1). rewrite Hw2, Hw1, (assoc_L (++)). split; [done|]. by apply Forall_app.
Qed.

Lemma adds_if {A} (b : bool) (m1 m2 : M A) : adds m1 → adds m2 → adds (if b then m1 else m2).
Proof. by destruct b. Qed.

Lemma adds_mapM_ {A} (f : A → M unit) l : (∀ x, adds (f x)) → adds (mapM_ f l).
Proof.
  intros Hf. induction l as [|x l IH]; [apply adds_ret|]. apply adds_bind; [done|]. by intros [].
Qed.

Lemma wp_adds {A} (m : M A) (Φ : A → world → Prop) w :
  adds m → wp m Φ w →
  wp m (λ a w', Φ a w' ∧ ∃ h, w_hist w' = h ++ w_hist w ∧ Forall P h) w.
Proof. unfold wp. intros Hm. destruct (m w) as [a w'| |] eqn:H; [|done..]. eauto. Qed.

Section services.
Context {E : Env}.

Lemma adds_ext e : P e → adds (ext e).
Proof. intros Hp w ? ? [= <- <-]. exists [e]. split; [done|]. by constructor. Qed.
Lemma adds_ext_dma e : P e → adds (ext_dma e).
Proof. intros Hp w ? ? [= <- <-]. exists [e]. split; [done|]. by constructor. Qed.
Lemma adds_emit e : P e → adds (emit e).
Proof. intros Hp w ? ? [= <- <-]. exists [e]. split; [done|]. by constructor. Qed.
Lemma adds_new_block k s d : adds (new_block k s d).
Proof. intros w ? ? [= <- <-]. by exists []. Qed.
Lemma adds_free_block k p s : adds (free_block k p s).
Proof.
  intros w a w'. unfold free_block. destruct (w_heap w !! p); [|done]. case_decide; [|done].
  intros [= <- <-]. by exists [].
Qed.
Lemma adds_get_block p : adds (get_block p).
Proof.
  intros w a w'. unfold get_block. destruct (p =? 0); [done|]. destruct (w_heap w !! p); [|done].
  intros [= <- <-]. by exists [].
Qed.
Lemma adds_dma_map_sg n : P (E_map_sg n) → adds (dma_map_sg n).
Proof. intros Hp w ? ? [= <- <-]. exists [E_map_sg n]. split; [done|]. by constructor. Qed.
End services.
End adds.

(** No device register is written and no configuration space. *)
Definition quiet (e : event) : Prop :=
  match e with
  | E_writeb _ _ | E_writew _ _ | E_writel _ _ | E_cfg_write _ _ _ => False
  | _ => True
  end.

(** Nor is anything handed to user space. *)
Definition silent (e : event) : Prop :=
  match e with E_copy_to_user _ => False | _ => quiet e end.

(** A predicate that allows what is silent. *)
Class Admits (P : event → Prop) := admits : ∀ e, silent e → P e.
#[export] Instance admits_silent : Admits silent.
Proof. by intros e. Qed.
#[export] Instance admits_quiet : Admits quiet.
Proof. by intros []. Qed.

(** Splits a program along its binds and branches; the goals left are the calls. *)
Ltac solve_adds :=
  repeat match goal with
  | |- adds _ (mret _) => apply adds_ret
  | |- adds _ (oops _) => apply adds_oops
  | |- adds _ hang => apply adds_hang
  | |- adds _ (gets _) => apply adds_gets
  | |- adds _ get_dev => apply adds_gets
  | |- adds _ (modify _) => apply adds_modify; by intros []
  | |- adds _ (upd_dev _) => apply adds_modify; by intros []
  | |- adds _ (mbind _ _) => apply adds_bind; [|intros ?]
  | |- adds _ (mapM_ _ _) => apply adds_mapM_; intros ?
  | |- adds _ (ext _) => apply adds_ext; try first [done | by apply admits]
  | |- adds _ (ext_dma _) => apply adds_ext_dma; try first [done | by apply admits]
  | |- adds _ (emit _) => apply adds_emit; try first [done | by apply admits]
  | |- adds _ (new_block _ _ _) => apply adds_new_block
  | |- adds _ (free_block _ _ _) => apply adds_free_block
  | |- adds _ (get_block _) => apply adds_get_block
  | |- adds _ (dma_map_sg _) => apply adds_dma_map_sg; try first [done | by apply admits]
  | |- adds _ (if ?b then _ else _) => destruct b
  | |- adds _ (let _ := _ in _) => cbv zeta
  | |- adds _ (match ?x with _ => _ end) => destruct x
  | |- adds _ _ => progress cbv beta
  | |- adds _ _ => solve [eauto with adds]
  end.

Create HintDb adds.

Section quiet.
Context {E : Env} {P : event → Prop} `{!Admits P}.

Lemma quiet_kmalloc n : adds P (kmalloc n).
Proof. unfold kmalloc. solve_adds. Qed.
Lemma quiet_kfree p : adds P (kfree p).
Proof. unfold kfree. solve_adds. Qed.
Lemma quiet_dma_alloc n : adds P (dma_alloc_coherent n).
Proof. unfold dma_alloc_coherent. solve_adds. Qed.
Lemma quiet_dma_free n p : adds P (dma_free_coherent n p).
Proof. unfold dma_free_coherent. solve_adds. Qed.
Lemma quiet_p2p_alloc n : adds P (pci_alloc_p2pmem n).
Proof. unfold pci_alloc_p2pmem. solve_adds. Qed.
Lemma quiet_p2p_bus p : adds P (pci_p2pmem_virt_to_bus p).
Proof. unfold pci_p2pmem_virt_to_bus. solve_adds. Qed.
Lemma quiet_p2p_free p n : adds P (pci_free_p2pmem p n).
Proof. unfold pci_free_p2pmem. solve_adds. Qed.
Lemma quiet_pool_alloc p : adds P (dma_pool_alloc p).
Proof. unfold dma_pool_alloc. solve_adds. Qed.
Lemma quiet_pool_free p q : adds P (dma_pool_free p q).
Proof. unfold dma_pool_free. solve_adds. Qed.
Lemma quiet_mem_write p o bs : adds P (mem_write p o bs).
Proof. unfold mem_write, put_data. solve_adds. Qed.
Lemma quiet_memset0 p n : adds P (memset0 p n).
Proof. unfold memset0, put_data. solve_adds. Qed.
Lemma quiet_copy_from_user : adds P copy_from_user.
Proof. unfold copy_from_user. solve_adds. Qed.
Lemma quiet_gup a n : adds P (get_user_pages_fast a n).
Proof. unfold get_user_pages_fast. solve_adds. Qed.
Lemma quiet_put_pages n : adds P (put_pages n).
Proof. unfold put_pages. solve_adds. Qed.
Lemma quiet_vmap n : adds P (vmap n).
Proof. unfold vmap. solve_adds. Qed.
Lemma quiet_vunmap p : adds P (vunmap p).
Proof. unfold vunmap. solve_adds. Qed.
Lemma quiet_unmap_sg n : adds P (dma_unmap_sg n).
Proof. unfold dma_unmap_sg. solve_adds. Qed.
Lemma quiet_readl a o : adds P (readl (a + o)).
Proof. unfold readl. solve_adds. Qed.
End quiet.
Lemma quiet_copy_to_user {E : Env} u : adds quiet (copy_to_user u).
Proof. unfold copy_to_user. solve_adds. Qed.
#[export] Hint Resolve quiet_kmalloc quiet_kfree quiet_dma_alloc quiet_dma_free quiet_p2p_alloc
  quiet_p2p_bus quiet_p2p_free quiet_pool_alloc quiet_pool_free quiet_mem_write quiet_memset0
  quiet_copy_from_user quiet_gup quiet_put_pages quiet_vmap quiet_vunmap
  quiet_unmap_sg quiet_readl quiet_copy_to_user admits_silent admits_quiet : adds.
