(* ===== verification/QueueOps.v ===== *)
(** * Preparing queues and the admin queues

    [dnvme_prepare_sq], [dnvme_prepare_cq] and [dnvme_create_asq]/[_acq]: what they
    set up, what they refuse, the registers they program, and that the doorbells of
    different queues are different registers. *)

From S2P Require Import Prelude Types Kernel Io Own Prp PrpSpec Ring Irq Queue Meta Ioctl Inv Demo QueueSpec IrqSpec IrqSet Trace.

(** ** Interrupt nodes and the invariant *)

(** The nodes may change what is bound to them. *)
Lemma irq_wf_proj s l :
  irq_wf s →
  ((λ n, (irq_id n, irq_int_vec n)) <$> l) =
    ((λ n, (irq_id n, irq_int_vec n)) <$> is_irq_list s) →
  irq_wf (s <| is_irq_list := l |>).
Proof.
  intros Hwf Heq.
  assert (irq_id <$> l = irq_id <$> is_irq_list s) as Hids.
  { pose proof (f_equal (fmap fst) Heq) as H. by rewrite <- !list_fmap_compose in H. }
  assert (irq_int_vec <$> l = irq_int_vec <$> is_irq_list s) as Hvecs.
  { pose proof (f_equal (fmap snd) Heq) as H. by rewrite <- !list_fmap_compose in H. }
  assert (is_irq_list s = [] → l = []) as Hnil.
  { intros Hs. rewrite Hs in Hids. by apply (fmap_nil_inv _ _ Hids). }
  split; simpl.
  - rewrite Hids. apply Hwf.
  - rewrite Hvecs. apply Hwf.
  - rewrite Heq. apply Hwf.
  - apply Hwf.
  - intros H0. destruct (iw_wq _ Hwf H0). auto.
  - intros H0. pose proof (iw_none _ Hwf H0). auto.
  - intros Ht. apply (Forall_fmap irq_id (λ i, 0 ≤ i < 32)). rewrite Hids.
    apply Forall_fmap, (iw_bits _ Hwf Ht).
Qed.

Lemma proj_mid {A B} (f : A → B) l1 x y l2 :
  f x = f y → f <$> l1 ++ x :: l2 = f <$> l1 ++ y :: l2.
Proof. intros Hf. by rewrite !fmap_app, !fmap_cons, Hf. Qed.

(** Completion queue [cq] is bound to irq [id]. *)
Definition bound (s : nvme_irq_set) (id cq : Z) : Prop :=
  ∃ n, n ∈ is_irq_list s ∧ irq_id n = id ∧ cq ∈ (icq_cq_id <$> irq_icq_list n).

Lemma find_split {A} (f : A → Z) l x y :
  snd <$> list_find (λ z, f z = y) l = Some x → f x = y ∧ ∃ l1 l2, l = l1 ++ x :: l2.
Proof.
  intros [Hin Hf]%list_find_snd. split; [done|]. by apply list_elem_of_split in Hin.
Qed.

Lemma dev_irq_eta d : d <| ndev_irq_set := ndev_irq_set d |> = d.
Proof. by destruct d. Qed.

Section icq.
Context {E : Env}.

Lemma wp_bind_cq X cq no w :
  inv X w →
  wp (dnvme_create_icq_node cq no)
    (λ r w', inv X w' ∧
      (r < 0 ∧ same_dev w w' ∨
       r = 0 ∧ w_irqs w' = w_irqs w ∧ bound (ndev_irq_set (w_dev w')) no cq ∧
       ∃ s, w_dev w' = (w_dev w) <| ndev_irq_set := s |>)) w.
Proof.
  intros Hw. pose proof (inv_irq_st X w Hw) as Hs. pose proof (i_dev _ _ Hw) as Hd.
  pose proof (dw_irq _ Hd) as Hwf. pose proof (i_irqs _ _ Hw) as HL.
  set (d0 := w_dev w) in *. set (s := ndev_irq_set d0) in *.
  unfold dnvme_create_icq_node. apply wp_bind, (wp_get_irq_set _ _ _ _ _ _ Hs).
  destruct (find_irq_node_by_id s no) as [n|] eqn:Hf.
  2:{ apply wp_ret. split; [done|by left]. }
  apply (find_split irq_id) in Hf as (Hid & l1 & l2 & Hl).
  apply wp_bind. eapply wp_create_icq; [exact Hs|exact Hl| | |].
  - intros Hhas. apply wp_ret. split; [done|]. right. split_and!; [done|done| |].
    + exists n. split_and!; [|done|].
      * change (n ∈ is_irq_list s). rewrite Hl. set_solver.
      * unfold find_icq_node in Hhas.
        destruct (list_find _ (irq_icq_list n)) as [[j i]|] eqn:Hj; [|done].
        apply list_find_Some in Hj as (Hj & <- & _).
        by eapply list_elem_of_fmap_2, list_elem_of_lookup_2.
    + exists s. symmetry. apply dev_irq_eta.
  - intros r w1 Hr Hs1 Hm1. rewrite (proj2 (Z.ltb_lt _ _) Hr). apply wp_ret. split.
    + eapply (irq_st_inv X d0); [exact Hs1|done|done|done].
    + left. split; [done|]. split_and!; [|apply (st_irqs _ _ _ _ _ Hs1)|done].
      rewrite (st_dev _ _ _ _ _ Hs1). apply dev_irq_eta.
  - intros i w1 Hi Hs1 Hm1. simpl. apply wp_ret.
    set (n' := n <| irq_icq_list ::= _ |>) in *. split.
    + eapply (irq_st_inv X d0); [exact Hs1|done| |].
      * apply irq_wf_proj; [done|]. rewrite Hl. by apply proj_mid.
      * simpl. rewrite HL, Hl. by rewrite (proj_mid _ l1 n n').
    + right. split_and!; [done|apply (st_irqs _ _ _ _ _ Hs1)| |].
      * rewrite (st_dev _ _ _ _ _ Hs1). exists n'. split_and!; [simpl; set_solver|done|].
        unfold n'. cbn. rewrite fmap_app. cbn. rewrite Hi. set_solver.
      * eexists. apply (st_dev _ _ _ _ _ Hs1).
Qed.
End icq.

(** ** Preparation *)

Section prepare.
Context {E : Env}.

Lemma inv_copy_from_user X (Φ : bool → world → Prop) w :
  inv X w → (∀ b w', inv X w' → same_dev w w' → Φ b w') → wp copy_from_user Φ w.
Proof.
  intros Hw HΦ. eapply (wp_own [] X); [apply triple_copy_from_user|exact Hw|done|].
  intros b R w' ->. apply HΦ.
Qed.

Lemma qid_unique_sq d id :
  dnvme_check_qid_unique d NVME_SQ id <? 0 = bool_decide (is_Some (ndev_sqs d !! id)).
Proof. unfold dnvme_check_qid_unique, dnvme_find_sq. by destruct (ndev_sqs d !! id). Qed.
Lemma qid_unique_cq d id :
  dnvme_check_qid_unique d NVME_CQ id <? 0 = bool_decide (is_Some (ndev_cqs d !! id)).
Proof. unfold dnvme_check_qid_unique, dnvme_find_cq. by destruct (ndev_cqs d !! id). Qed.
Lemma qid_unique_nonpos d t id : dnvme_check_qid_unique d t id ≤ 0.
Proof.
  unfold dnvme_check_qid_unique. destruct t; try done.
  - by destruct (dnvme_find_cq d id).
  - by destruct (dnvme_find_sq d id).
Qed.

(** What [dnvme_prepare_sq] and [dnvme_prepare_cq] check. *)
Definition sq_acceptable (d : nvme_device) (prep : nvme_prep_sq) : Prop :=
  0 < psq_elements prep ≤ ndev_q_depth d ∧ ndev_sqs d !! psq_sq_id prep = None ∧
  (NVME_CAP_CQR (ndev_reg_cap d) ≠ 0 → psq_contig prep = true).
Definition cq_acceptable (d : nvme_device) (prep : nvme_prep_cq) : Prop :=
  0 < pcq_elements prep ≤ ndev_q_depth d ∧ ndev_cqs d !! pcq_cq_id prep = None ∧
  (NVME_CAP_CQR (ndev_reg_cap d) ≠ 0 → pcq_contig prep = true).

Definition prepare_sq_post (X : list item) (prep : nvme_prep_sq) (w : world) : Z → world → Prop :=
  λ r w', inv X w' ∧
    (r < 0 ∧ same_dev w w' ∨
     r = 0 ∧ sq_acceptable (w_dev w) prep ∧ ∃ q,
       sq_fresh (w_dev w) prep NVME_NVM_IOSQES q ∧
       w_dev w' = (w_dev w) <| ndev_sqs ::= <[psq_sq_id prep := q]> |>).

Lemma wp_prepare_sq X prep w
    (Hw : inv X w) (He : 0 ≤ psq_elements prep) (Hq : ndev_q_depth (w_dev w) ≤ 2 ^ 16)
    (Haq : psq_sq_id prep = NVME_AQ_ID → psq_contig prep = true) :
  wp (dnvme_prepare_sq prep) (prepare_sq_post X prep w) w.
Proof.
  unfold dnvme_prepare_sq, prepare_sq_post, sq_acceptable. apply wp_bind. eapply inv_copy_from_user; [exact Hw|].
  intros ok w1 Hw1 Hs1. destruct ok; cbn [negb]; [|apply wp_ret; split; [done|by left]].
  apply wp_bind, wp_gets. rewrite (same_dev_dev _ _ Hs1).
  destruct (Z.eqb_spec (psq_elements prep) 0); [apply wp_ret; split; [done|by left]|].
  destruct (Z.ltb_spec (ndev_q_depth (w_dev w)) (psq_elements prep));
    [apply wp_ret; split; [done|by left]|]. cbn [orb]. cbv zeta.
  rewrite qid_unique_sq. case_bool_decide as Hex.
  { apply wp_ret. split; [done|left; split; [|done]].
    unfold dnvme_check_qid_unique, dnvme_find_sq. by destruct Hex as [? ->]. }
  apply eq_None_not_Some in Hex.
  destruct (negb (NVME_CAP_CQR (ndev_reg_cap (w_dev w)) =? 0) && negb (psq_contig prep)) eqn:Hc;
    [apply wp_ret; split; [done|by left]|].
  apply wp_bind. eapply wp_mono; [apply (wp_alloc_sq X prep); [done|lia|done]|].
  rewrite (same_dev_dev _ _ Hs1).
  intros r w2 [(-> & Hw2 & Hs2)|(-> & Hw2 & _ & q & Hf & Hd)]; apply wp_ret; (split; [done|]).
  - left. split; [done|by etrans].
  - right. split_and!; [done|lia|lia|done| |by exists q].
    intros Hne. apply Z.eqb_neq in Hne. rewrite Hne in Hc. by destruct (psq_contig prep).
Qed.

(** C31. Preparing a submission queue is exact.  From every device in the invariant
    it returns an error and leaves the device structure as it was, or it returns 0,
    and then the request was acceptable (size within CAP.MQES, identifier free,
    contiguous where the controller demands it) and exactly one queue was added:
    empty, of the requested size, with the doorbell of its identifier.  No memory is
    lost on any path.  (A queue with identifier 0 must be contiguous: see
    [aq_discontiguous_faults].) *)
Theorem prepare_sq_exact X prep w
    (Hw : inv X w) (He : 0 ≤ psq_elements prep) (Hq : ndev_q_depth (w_dev w) ≤ 2 ^ 16)
    (Haq : psq_sq_id prep = NVME_AQ_ID → psq_contig prep = true) :
  wp (dnvme_prepare_sq prep) (prepare_sq_post X prep w) w.
Proof. by apply wp_prepare_sq. Qed.

Definition prepare_cq_post (X : list item) (prep : nvme_prep_cq) (w : world) : Z → world → Prop :=
  λ r w', inv X w' ∧
    (r < 0 ∧ same_dev w w' ∨
     r = 0 ∧ cq_acceptable (w_dev w) prep ∧
       (pcq_irq_en prep ≠ 0 →
         bound (ndev_irq_set (w_dev w')) (pcq_irq_no prep) (pcq_cq_id prep)) ∧ ∃ q s,
       cq_fresh (w_dev w) prep NVME_NVM_IOCQES q ∧
       w_dev w' = (w_dev w) <| ndev_cqs ::= <[pcq_cq_id prep := q]> |>
                            <| ndev_irq_set := s |>).

Lemma wp_prepare_cq X prep w
    (Hw : inv X w) (He : 0 ≤ pcq_elements prep < 2 ^ 16)
    (Hcmb : pcq_use_cmb prep = false ∨ dnvme_cmb_support_cq (ndev_cmb (w_dev w)) = false)
    (Haq : pcq_cq_id prep = NVME_AQ_ID → pcq_contig prep = true) :
  wp (dnvme_prepare_cq prep) (prepare_cq_post X prep w) w.
Proof.
  unfold dnvme_prepare_cq, prepare_cq_post, cq_acceptable. apply wp_bind. eapply inv_copy_from_user; [exact Hw|].
  intros ok w1 Hw1 Hs1. destruct ok; cbn [negb]; [|apply wp_ret; split; [done|by left]].
  apply wp_bind, wp_gets. rewrite (same_dev_dev _ _ Hs1).
  destruct (Z.eqb_spec (pcq_elements prep) 0); [apply wp_ret; split; [done|by left]|].
  destruct (Z.ltb_spec (ndev_q_depth (w_dev w)) (pcq_elements prep));
    [apply wp_ret; split; [done|by left]|]. cbn [orb]. cbv zeta.
  rewrite qid_unique_cq. case_bool_decide as Hex.
  { apply wp_ret. split; [done|left; split; [|done]].
    unfold dnvme_check_qid_unique, dnvme_find_cq. by destruct Hex as [? ->]. }
  apply eq_None_not_Some in Hex.
  destruct (negb (NVME_CAP_CQR (ndev_reg_cap (w_dev w)) =? 0) && negb (pcq_contig prep)) eqn:Hc;
    [apply wp_ret; split; [done|by left]|].
  assert (NVME_CAP_CQR (ndev_reg_cap (w_dev w)) ≠ 0 → pcq_contig prep = true) as Hcqr.
  { intros Hne. apply Z.eqb_neq in Hne. rewrite Hne in Hc. by destruct (pcq_contig prep). }
  pose proof (same_dev_dev _ _ Hs1) as Hd1.
  apply wp_bind. eapply wp_mono; [apply (wp_alloc_cq X prep); [done|lia|by rewrite Hd1|done]|].
  rewrite Hd1.
  intros r w2 [(-> & Hw2 & Hs2)|(-> & Hw2 & _ & q & Hf & Hwf & Hi2 & Hm2 & Hd2)].
  { apply wp_ret. split; [done|]. left. split; [done|by etrans]. }
  assert (ndev_cqs (w_dev w2) !! pcq_cq_id prep = Some q) as Hq
    by (rewrite Hd2; apply lookup_insert_eq).
  apply wp_bind. eapply wp_get_cq; [exact Hq|]. rewrite (cqf_pub _ _ _ _ Hf). simpl.
  destruct (Z.eqb_spec (pcq_irq_en prep) 0) as [Hen|Hen].
  { apply wp_ret. split; [done|]. right. split_and!; [done|lia|lia|done|done|done|].
    exists q, (ndev_irq_set (w_dev w)). split; [done|]. by rewrite Hd2. }
  apply wp_bind. eapply wp_mono; [by apply (wp_bind_cq X)|].
  intros r w3 (Hw3 & [(Hr & Hs3)|(-> & Hi3 & Hb & s & Hd3)]).
  - rewrite (proj2 (Z.ltb_lt _ _) Hr). apply wp_bind. destruct Hs3 as (Hd3 & Hi3 & Hm3).
    eapply wp_mono; [apply (wp_release_cq X (pcq_cq_id prep) q); [done|by rewrite Hd3]|].
    intros _ w4 (Hw4 & Hd4 & Hi4 & Hm4 & _). apply wp_ret. split; [done|]. left. split; [done|].
    destruct Hs1 as (_ & Hi1 & Hm1). split_and!; [|congruence|congruence].
    rewrite Hd4, Hd3, Hd2.
    transitivity ((w_dev w) <| ndev_cqs := delete (pcq_cq_id prep)
      (<[pcq_cq_id prep := q]> (ndev_cqs (w_dev w))) |>); [done|].
    rewrite (delete_insert_id _ _ q Hex). by destruct (w_dev w).
  - simpl. apply wp_ret. split; [done|]. right. split_and!; [done|lia|lia|done|done|done|].
    exists q, s. split; [done|]. by rewrite Hd3, Hd2.
Qed.

(** Preparing a completion queue is exact.  It returns an error and leaves the
    device structure as it was (a queue already set up is released again when its
    interrupt cannot be bound), or it returns 0, and then exactly one queue was
    added, empty with phase 1 and the doorbell of its identifier, and it is bound to
    its irq when interrupts are enabled for it.  Queues of 65536 entries and queues
    in the CMB are excluded: see [get_cqe_remain_diverges] and
    [cmb_cq_release_faults]. *)
Theorem prepare_cq_exact X prep w
    (Hw : inv X w) (He : 0 ≤ pcq_elements prep < 2 ^ 16)
    (Hcmb : pcq_use_cmb prep = false ∨ dnvme_cmb_support_cq (ndev_cmb (w_dev w)) = false)
    (Haq : pcq_cq_id prep = NVME_AQ_ID → pcq_contig prep = true) :
  wp (dnvme_prepare_cq prep) (prepare_cq_post X prep w) w.
Proof. by apply wp_prepare_cq. Qed.
End prepare.

(** ** Doorbells *)


(** ** The admin queues *)

Section admin.
Context {E : Env}.

Lemma quiet_alloc_queue_buf c u s n : adds quiet (alloc_queue_buf c u s n).
Proof. unfold alloc_queue_buf. solve_adds. Qed.
Hint Resolve quiet_alloc_queue_buf : adds.
Lemma quiet_alloc_sq prep es : adds quiet (dnvme_alloc_sq prep es).
Proof. unfold dnvme_alloc_sq, xa_insert_ret. solve_adds. Qed.
Lemma quiet_alloc_cq prep es : adds quiet (dnvme_alloc_cq prep es).
Proof. unfold dnvme_alloc_cq, xa_insert_ret. solve_adds. Qed.

(** The 12-bit field at [sh] of AQA gets the value [n], the rest stays. *)
Definition aqa_with (sh aqa n : Z) : Z :=
  Z.lor (Z.land aqa (u32 (Z.lnot (Z.shiftl 0xfff sh)))) (Z.shiftl n sh).

(** The register writes of [create_asq]/[create_acq], last one first. *)
Definition aq_regs (bar0 reg aqa dma : Z) : history :=
  [E_writel (bar0 + reg + 4) (u32 (Z.shiftr dma 32)); E_writel (bar0 + reg) (u32 dma);
   E_writel (bar0 + NVME_REG_AQA) (u32 aqa); E_readl (bar0 + NVME_REG_AQA)].

(** The value of CC as the device answers now. *)
Definition cc_now (w : world) : Z :=
  u32 (ans (E_readl (ndev_bar0 (w_dev w) + NVME_REG_CC) :: w_hist w)).

(** The value of AQA read when [h] has happened. *)
Definition aqa_read (bar0 : Z) (h : history) : Z := u32 (ans (E_readl (bar0 + NVME_REG_AQA) :: h)).

Lemma wp_readl_inv X b o (Φ : Z → world → Prop) w :
  inv X w →
  (let w' := w <| w_hist := E_readl (b + o) :: w_hist w |> in
   inv X w' → Φ (u32 (ans (E_readl (b + o) :: w_hist w))) w') →
  wp (dnvme_readl b o) Φ w.
Proof. intros Hw HΦ. apply wp_bind, wp_ext, wp_ret, HΦ. by apply inv_hist. Qed.

Lemma aq_field n : 0 < n ≤ NVME_AQ_MAX_SIZE → Z.land (u32 (n - 1)) 0xfff = n - 1.
Proof.
  unfold NVME_AQ_MAX_SIZE. intros Hn. rewrite u32_small by lia.
  change 0xfff with (Z.ones 12). rewrite Z.land_ones by lia. apply Z.mod_small. lia.
Qed.

Section create_asq.
Context (X : list item) (elements : Z) (w : world) (Φ : Z → world → Prop).
Context (Hw : inv X w) (He : 0 ≤ elements).
Let bar0 := ndev_bar0 (w_dev w).
Let prep := {| psq_elements := elements; psq_sq_id := 0; psq_cq_id := 0;
               psq_contig := true; psq_use_cmb := false |}.
Context (Hfail : ∀ r w' h, r < 0 → inv X w' → same_dev w w' → w_hist w' = h ++ w_hist w →
  Forall quiet h → Φ r w').
Context (Hok : ∀ q h w', Z.land (cc_now w) NVME_CC_ENABLE = 0 → 0 < elements ≤ NVME_AQ_MAX_SIZE →
  ndev_sqs (w_dev w) !! 0 = None → sq_fresh (w_dev w) prep NVME_NVM_IOSQES q → inv X w' →
  w_dev w' = (w_dev w) <| ndev_sqs ::= <[0 := q]> |> → Forall quiet h →
  w_hist w' = aq_regs bar0 NVME_REG_ASQ
    (aqa_with 0 (aqa_read bar0 (h ++ w_hist w)) (elements - 1)) (sq_dma q) ++ h ++ w_hist w →
  Φ 0 w').

Lemma wp_create_asq : wp (dnvme_create_asq elements) Φ w.
Proof using All.
  unfold dnvme_create_asq. apply wp_bind, wp_bind, wp_gets, wp_ret.
  assert (∀ r, r < 0 → wp (mret r) Φ w) as Hret by (intros r Hr; by apply wp_ret, (Hfail r w [])).
  destruct (Z.eqb_spec elements 0); [by apply Hret|].
  destruct (Z.ltb_spec NVME_AQ_MAX_SIZE elements); [by apply Hret|]. cbn [orb].
  apply wp_bind, wp_gets. cbv zeta. rewrite qid_unique_sq. case_bool_decide as Hex.
  { apply Hret. unfold dnvme_check_qid_unique, dnvme_find_sq. by destruct Hex as [? ->]. }
  apply eq_None_not_Some in Hex. apply wp_bind. eapply wp_readl_inv; [exact Hw|].
  cbv zeta. fold bar0. set (e := E_readl _). set (w1 := w <| w_hist := _ |>). intros Hw1. apply wp_if; intros Hcc.
  { by apply wp_ret, (Hfail _ w1 [e]); [..|constructor]. }
  apply negb_false_iff, Z.eqb_eq in Hcc.
  apply wp_bind. eapply wp_mono.
  { apply (wp_adds quiet); [apply quiet_alloc_sq|].
    apply (wp_alloc_sq X prep); [done|simpl; unfold NVME_AQ_MAX_SIZE in *; lia|done]. }
  intros r w2 [[(-> & Hw2 & Hs2)|(-> & Hw2 & _ & q & Hf & Hd2)] (h & Hh & Hq)].
  { eapply wp_ret, (Hfail _ w2 (h ++ [e])); [done|done|done| |].
    - by rewrite Hh, <- (assoc_L (++)).
    - apply Forall_app. by split; [|constructor]. }
  apply wp_bind. eapply wp_readl_inv; [exact Hw2|]. cbv zeta. intros Hw3.
  apply wp_bind, wp_emit, wp_bind.
  eapply (wp_get_sq 0 q); [cbn; rewrite Hd2; apply lookup_insert_eq|].
  apply wp_bind, wp_bind, wp_emit, wp_emit, wp_ret.
  eapply (Hok q (h ++ [e])); [done|lia|done|exact Hf| |exact Hd2| |].
  - by do 3 apply (inv_hist X).
  - apply Forall_app. by split; [|constructor].
  - cbn. rewrite Hh, (u64_small (sq_dma q)) by apply Hf. rewrite <- (assoc_L (++)).
    unfold aqa_with, NVME_AQA_FOR_ASQS. by rewrite aq_field, !Z.shiftl_0_r by lia.
Qed.
End create_asq.

Section create_acq.
Context (X : list item) (elements : Z) (w : world) (Φ : Z → world → Prop).
Context (Hw : inv X w) (He : 0 ≤ elements).
Let bar0 := ndev_bar0 (w_dev w).
Let prep := {| pcq_elements := elements; pcq_cq_id := 0; pcq_irq_en := 1; pcq_irq_no := 0;
               pcq_contig := true; pcq_use_cmb := false |}.
Context (Hfail : ∀ r w' h, r < 0 → inv X w' → same_dev w w' → w_hist w' = h ++ w_hist w →
  Forall quiet h → Φ r w').
Context (Hok : ∀ q h w', Z.land (cc_now w) NVME_CC_ENABLE = 0 → 0 < elements ≤ NVME_AQ_MAX_SIZE →
  ndev_cqs (w_dev w) !! 0 = None → cq_fresh (w_dev w) prep NVME_NVM_IOCQES q → inv X w' →
  w_dev w' = (w_dev w) <| ndev_cqs ::= <[0 := q]> |> → Forall quiet h →
  w_hist w' = aq_regs bar0 NVME_REG_ACQ
    (aqa_with 16 (aqa_read bar0 (h ++ w_hist w)) (elements - 1)) (cq_dma q) ++ h ++ w_hist w →
  Φ 0 w').

Lemma wp_create_acq : wp (dnvme_create_acq elements) Φ w.
Proof using All.
  unfold dnvme_create_acq. apply wp_bind, wp_bind, wp_gets, wp_ret.
  assert (∀ r, r < 0 → wp (mret r) Φ w) as Hret by (intros r Hr; by apply wp_ret, (Hfail r w [])).
  destruct (Z.eqb_spec elements 0); [by apply Hret|].
  destruct (Z.ltb_spec NVME_AQ_MAX_SIZE elements); [by apply Hret|]. cbn [orb].
  apply wp_bind, wp_gets. cbv zeta. rewrite qid_unique_cq. case_bool_decide as Hex.
  { apply Hret. unfold dnvme_check_qid_unique, dnvme_find_cq. by destruct Hex as [? ->]. }
  apply eq_None_not_Some in Hex. apply wp_bind. eapply wp_readl_inv; [exact Hw|].
  cbv zeta. fold bar0. set (e := E_readl _). set (w1 := w <| w_hist := _ |>). intros Hw1. apply wp_if; intros Hcc.
  { by apply wp_ret, (Hfail _ w1 [e]); [..|constructor]. }
  apply negb_false_iff, Z.eqb_eq in Hcc.
  apply wp_bind. eapply wp_mono.
  { apply (wp_adds quiet); [apply quiet_alloc_cq|].
    apply (wp_alloc_cq X prep); [done|simpl; unfold NVME_AQ_MAX_SIZE in *; lia|by left|done]. }
  intros r w2 [[(-> & Hw2 & Hs2)|(-> & Hw2 & _ & q & Hf & _ & _ & _ & Hd2)] (h & Hh & Hq)].
  { eapply wp_ret, (Hfail _ w2 (h ++ [e])); [done|done|done| |].
    - by rewrite Hh, <- (assoc_L (++)).
    - apply Forall_app. by split; [|constructor]. }
  apply wp_bind. eapply wp_readl_inv; [exact Hw2|]. cbv zeta. intros Hw3.
  apply wp_bind, wp_emit, wp_bind.
  eapply (wp_get_cq 0 q); [cbn; rewrite Hd2; apply lookup_insert_eq|].
  apply wp_bind, wp_bind, wp_emit, wp_emit, wp_ret.
  eapply (Hok q (h ++ [e])); [done|lia|done|exact Hf| |exact Hd2| |].
  - by do 3 apply (inv_hist X).
  - apply Forall_app. by split; [|constructor].
  - cbn. rewrite Hh, (u64_small (cq_dma q)) by apply Hf. rewrite <- (assoc_L (++)).
    unfold aqa_with, NVME_AQA_FOR_ACQS. by rewrite aq_field by lia.
Qed.
End create_acq.

(** The admin submission queue is created only while the controller is disabled:
    the call fails without touching a register or the device structure, or it
    returns 0, and then CC.EN was read as 0, the size was within 1 .. 4096, the
    queue with identifier 0 was added, and the registers were programmed with it as
    the last step: AQA.ASQS is the size minus one with AQA.ACQS as it was, and ASQ
    the bus address of the queue. *)
Theorem create_asq_exact X elements w (Hw : inv X w) (He : 0 ≤ elements) :
  let bar0 := ndev_bar0 (w_dev w) in
  let prep := {| psq_elements := elements; psq_sq_id := 0; psq_cq_id := 0;
                 psq_contig := true; psq_use_cmb := false |} in
  wp (dnvme_create_asq elements)
    (λ r w', inv X w' ∧
      (r < 0 ∧ same_dev w w' ∧ (∃ h, w_hist w' = h ++ w_hist w ∧ Forall quiet h) ∨
       r = 0 ∧ Z.land (cc_now w) NVME_CC_ENABLE = 0 ∧ 0 < elements ≤ NVME_AQ_MAX_SIZE ∧
       ndev_sqs (w_dev w) !! 0 = None ∧ ∃ q h,
         sq_fresh (w_dev w) prep NVME_NVM_IOSQES q ∧
         w_dev w' = (w_dev w) <| ndev_sqs ::= <[0 := q]> |> ∧ Forall quiet h ∧
         w_hist w' = aq_regs bar0 NVME_REG_ASQ
           (aqa_with 0 (aqa_read bar0 (h ++ w_hist w)) (elements - 1)) (sq_dma q) ++
           h ++ w_hist w)) w.
Proof.
  intros bar0 prep. apply (wp_create_asq X); [done|done| |].
  - intros r w' h ? ? ? ? ?. split; [done|]. left. eauto.
  - intros q h w' ? ? ? ? ? ? ? ?. split; [done|]. right. split_and!; try done; try lia.
    by exists q, h.
Qed.

(** The admin completion queue is created only while the controller is disabled: the
    call fails without touching a register or the device structure, or it returns 0, and
    then CC.EN was read as 0, the size was within 1 .. 4096, the queue with identifier 0
    was added, and the registers were programmed with it as the last step: AQA.ACQS is
    the size minus one with AQA.ASQS as it was, and ACQ the bus address of the queue. *)
Theorem create_acq_exact X elements w (Hw : inv X w) (He : 0 ≤ elements) :
  let bar0 := ndev_bar0 (w_dev w) in
  let prep := {| pcq_elements := elements; pcq_cq_id := 0; pcq_irq_en := 1; pcq_irq_no := 0;
                 pcq_contig := true; pcq_use_cmb := false |} in
  wp (dnvme_create_acq elements)
    (λ r w', inv X w' ∧
      (r < 0 ∧ same_dev w w' ∧ (∃ h, w_hist w' = h ++ w_hist w ∧ Forall quiet h) ∨
       r = 0 ∧ Z.land (cc_now w) NVME_CC_ENABLE = 0 ∧ 0 < elements ≤ NVME_AQ_MAX_SIZE ∧
       ndev_cqs (w_dev w) !! 0 = None ∧ ∃ q h,
         cq_fresh (w_dev w) prep NVME_NVM_IOCQES q ∧
         w_dev w' = (w_dev w) <| ndev_cqs ::= <[0 := q]> |> ∧ Forall quiet h ∧
         w_hist w' = aq_regs bar0 NVME_REG_ACQ
           (aqa_with 16 (aqa_read bar0 (h ++ w_hist w)) (elements - 1)) (cq_dma q) ++
           h ++ w_hist w)) w.
Proof.
  intros bar0 prep. apply (wp_create_acq X); [done|done| |].
  - intros r w' h ? ? ? ? ?. split; [done|]. left. eauto.
  - intros q h w' ? ? ? ? ? ? ? ?. split; [done|]. right. split_and!; try done; try lia.
    by exists q, h.
Qed.
End admin.

(** ** Two faults *)

Section faults.
Context {E : Env}.

(** The interface lets user space prepare queue 0 as a discontiguous I/O queue,
    but the code that resets the admin queues assumes it is contiguous: after a
    successful [dnvme_prepare_sq] of that kind, the reset every (non-complete)
    disable runs dereferences NULL. *)
Theorem aq_discontiguous_faults prep w w'
    (Hid : psq_sq_id prep = NVME_AQ_ID) (Hc : psq_contig prep = false)
    (Hrun : dnvme_prepare_sq prep w = Val 0 w') :
  dnvme_reinit_asq NVME_AQ_ID w' = Oops F_null.
Proof.
  assert (wp (dnvme_prepare_sq prep)
    (λ r w', r = 0 → ∃ q, ndev_sqs (w_dev w') !! NVME_AQ_ID = Some q ∧
      sq_cmd_list q = [] ∧ sq_buf q = 0) w) as Hwp.
  { unfold dnvme_prepare_sq, dnvme_alloc_sq, alloc_queue_buf in Hrun |- *. rewrite Hc, Hid in *.
    apply wp_bind, wp_bind, wp_ext, wp_ret. apply wp_if; intros _; [by apply wp_ret|].
    apply wp_bind, wp_gets. apply wp_if; intros _; [by apply wp_ret|].
    cbv zeta. apply wp_if; intros Hu; [apply wp_ret; apply Z.ltb_lt in Hu; lia|].
    apply wp_if; intros _; [by apply wp_ret|].
    apply wp_bind, wp_bind, wp_gets, wp_bind, wp_kmalloc; [by apply wp_ret, wp_ret|].
    intros p Hp Hnone. rewrite (proj2 (Z.eqb_neq p 0)) by lia.
    apply wp_bind, wp_ret, wp_bind, wp_bind, wp_ext, wp_ret. apply wp_if; intros _.
    - apply wp_bind, wp_ret, wp_bind, wp_kfree. left. split_and!; [|by apply wp_ret, wp_ret|lia].
      exists (mk_block AK_kmalloc SIZEOF_nvme_sq []). split; [|done]. cbn. apply lookup_insert_eq.
    - apply wp_bind, wp_modify, wp_ret, wp_ret. intros _. eexists.
      split; [cbn; apply lookup_insert_eq|]. done. }
  unfold wp in Hwp. rewrite Hrun in Hwp. destruct (Hwp eq_refl) as (q & Hq & Hl & Hb).
  unfold dnvme_reinit_asq, get_sq, get_dev, gets, mbind, M_bind, dnvme_find_sq. rewrite Hq.
  destruct q. simpl in Hl, Hb |- *. by subst.
Qed.

(** A completion queue in the controller memory buffer cannot be released: the
    code passes the bus address where the allocator expects the size, so unless the
    two happen to be equal the release frees with the wrong size. *)
Theorem cmb_cq_release_faults q b w
    (Hc : cq_contig q = true) (Hcmb : cq_use_cmb q = true)
    (Hb : w_heap w !! cq_buf q = Some b) (Hsz : blk_size b = cq_size q)
    (Hdma : cq_dma q ≠ cq_size q) :
  dnvme_release_cq (Some q) w = Oops F_bad_free.
Proof.
  unfold dnvme_release_cq, upd_dev, modify, mbind, M_bind. rewrite Hc, Hcmb.
  unfold pci_free_p2pmem, emit, modify, mbind, M_bind, free_block. simpl.
  rewrite Hb, decide_False; [done|]. intros [_ Heq]. simpl in Heq. congruence.
Qed.
End faults.

(** *** Witnesses *)

Definition demo_prep_sq : nvme_prep_sq := {|
  psq_elements := 8; psq_sq_id := 3; psq_cq_id := 1; psq_contig := true; psq_use_cmb := false |}.
Definition demo_prep_cq : nvme_prep_cq := {|
  pcq_elements := 8; pcq_cq_id := 3; pcq_irq_en := 1; pcq_irq_no := 0;
  pcq_contig := true; pcq_use_cmb := false |}.

Lemma prepare_sq_exact_witness :
  wp (@dnvme_prepare_sq demo_env demo_prep_sq)
    (λ r w', inv [] w' ∧
      (r < 0 ∧ same_dev full_world w' ∨
       r = 0 ∧ sq_acceptable full_dev demo_prep_sq ∧ ∃ q,
         sq_fresh full_dev demo_prep_sq NVME_NVM_IOSQES q ∧
         w_dev w' = full_dev <| ndev_sqs ::= <[3 := q]> |>)) full_world.
Proof.
  exact (@prepare_sq_exact demo_env [] demo_prep_sq full_world full_world_inv
    ltac:(simpl; lia) ltac:(simpl; lia) ltac:(done)).
Defined.

Lemma prepare_cq_exact_witness :
  wp (@dnvme_prepare_cq demo_env demo_prep_cq)
    (λ r w', inv [] w' ∧
      (r < 0 ∧ same_dev full_world w' ∨
       r = 0 ∧ cq_acceptable full_dev demo_prep_cq ∧
         (1 ≠ 0 → bound (ndev_irq_set (w_dev w')) 0 3) ∧ ∃ q s,
         cq_fresh full_dev demo_prep_cq NVME_NVM_IOCQES q ∧
         w_dev w' = full_dev <| ndev_cqs ::= <[3 := q]> |> <| ndev_irq_set := s |>)) full_world.
Proof.
  exact (@prepare_cq_exact demo_env [] demo_prep_cq full_world full_world_inv
    ltac:(simpl; lia) ltac:(by left) ltac:(done)).
Defined.

(** The queues the preparation of [full_world] makes. *)
Definition demo_fresh_sq : nvme_sq := {|
  sq_ptr := 14;
  sq_pub := {| sqp_sq_id := 3; sqp_cq_id := 1; sqp_tail_ptr := 0; sqp_tail_ptr_virt := 0;
               sqp_head_ptr := 0; sqp_elements := 8; sqp_sqes := 6 |};
  sq_cmd_list := []; sq_buf := 15; sq_dma := 4096; sq_size := 512; sq_prps := None;
  sq_db := 0x11000 + 4 * 6; sq_next_cid := 0; sq_contig := true; sq_created := false;
  sq_use_cmb := false |}.
Definition demo_fresh_cq : nvme_cq := {|
  cq_ptr := 14;
  cq_pub := {| cqp_q_id := 3; cqp_tail_ptr := 0; cqp_head_ptr := 0; cqp_elements := 8;
               cqp_irq_enabled := 1; cqp_irq_no := 0; cqp_pbit_new_entry := 1; cqp_cqes := 4 |};
  cq_buf := 15; cq_dma := 4096; cq_size := 128; cq_prps := None; cq_db := 0x11000 + 4 * 7;
  cq_contig := true; cq_created := false; cq_use_cmb := false |}.


Lemma create_asq_exact_witness :
  inv [] demo_world ∧
  match @dnvme_create_asq demo_env 32 demo_world with
  | Val r w' => inv [] w' ∧ r = 0 ∧ 0 < 32 ≤ NVME_AQ_MAX_SIZE
  | _ => False
  end.
Proof.
  assert (inv [] demo_world) as Hinv by exact demo_world_inv. split; [exact Hinv|].
  pose proof (@create_asq_exact demo_env [] 32 demo_world Hinv ltac:(lia)) as H.
  unfold wp in H.
  assert (match @dnvme_create_asq demo_env 32 demo_world with Val r _ => r =? 0 | _ => false end
    = true) as Hr by (vm_compute; reflexivity).
  destruct (@dnvme_create_asq demo_env 32 demo_world) as [r w'| |]; [|exact H|exact H].
  apply Z.eqb_eq in Hr. destruct H as [Hi _]. split; [exact Hi|]. split; [exact Hr|].
  unfold NVME_AQ_MAX_SIZE. lia.
Defined.

Lemma create_acq_exact_witness :
  inv [] demo_world ∧
  match @dnvme_create_acq demo_env 32 demo_world with
  | Val r w' => inv [] w' ∧ r = 0 ∧ 0 < 32 ≤ NVME_AQ_MAX_SIZE
  | _ => False
  end.
Proof.
  assert (inv [] demo_world) as Hinv by exact demo_world_inv. split; [exact Hinv|].
  pose proof (@create_acq_exact demo_env [] 32 demo_world Hinv ltac:(lia)) as H.
  unfold wp in H.
  assert (match @dnvme_create_acq demo_env 32 demo_world with Val r _ => r =? 0 | _ => false end
    = true) as Hr by (vm_compute; reflexivity).
  destruct (@dnvme_create_acq demo_env 32 demo_world) as [r w'| |]; [|exact H|exact H].
  apply Z.eqb_eq in Hr. destruct H as [Hi _]. split; [exact Hi|]. split; [exact Hr|].
  unfold NVME_AQ_MAX_SIZE. lia.
Defined.

Lemma aq_discontiguous_faults_witness :
  let prep := {| psq_elements := 8; psq_sq_id := 0; psq_cq_id := 0; psq_contig := false;
                 psq_use_cmb := false |} in
  match @dnvme_prepare_sq demo_env prep demo_world with
  | Val r w' => r = 0 ∧ dnvme_reinit_asq 0 w' = Oops F_null
  | _ => False
  end.
Proof.
  intros prep. destruct (@dnvme_prepare_sq demo_env prep demo_world) as [r w'| |] eqn:Hrun.
  - assert (r = 0) as -> by (vm_compute in Hrun; congruence). split; [reflexivity|].
    exact (@aq_discontiguous_faults demo_env prep demo_world w' eq_refl eq_refl Hrun).
  - vm_compute in Hrun. discriminate.
  - vm_compute in Hrun. discriminate.
Defined.

Lemma cmb_cq_release_faults_witness :
  let q := demo_fresh_cq <| cq_use_cmb := true |> in
  let w := demo_world <| w_heap := {[ 15 := mk_block AK_p2p 128 (zeros 128) ]} |> in
  cq_dma q = 4096 ∧ cq_size q = 128 ∧ dnvme_release_cq (Some q) w = Oops F_bad_free.
Proof.
  intros q w. split; [reflexivity|]. split; [reflexivity|].
  exact (cmb_cq_release_faults q (mk_block AK_p2p 128 (zeros 128)) w eq_refl eq_refl eq_refl
    eq_refl ltac:(done)).
Defined.
