(* ===== verification/MetaSpec.v ===== *)
(** * Meta buffers

    The SGL of a meta buffer is one descriptor in the first page, which MPTR points
    to, and for more than one page of data a chain of segments behind it.  A meta
    buffer is created whole or not at all, and deleted with all it owns. *)

From S2P Require Import Prelude Types Kernel Io Own Prp Paged PrpSpec Sgl SglSpec Ring Irq Queue Meta Inv Demo QueueSpec QueueOps.

(** ** The chain behind the first page *)

Lemma set_cell_tail {A} (p0 : list A) pages j k v w : 0 ≤ j →
  set_cell (p0 :: pages) (j + 1) k v w =
  match set_cell pages j k v w with
  | Val ps w' => Val (p0 :: ps) w'
  | Oops f => Oops f
  | Hang => Hang
  end.
Proof.
  intros Hj. unfold set_cell. replace (Z.to_nat (j + 1)) with (S (Z.to_nat j)) by lia.
  simpl. destruct (pages !! Z.to_nat j); [|done].
  rewrite (proj2 (Z.leb_le 0 (j + 1))), (proj2 (Z.leb_le 0 j)) by lia.
  by destruct (_ && _).
Qed.

Section meta_chain.
Context (cs : list nvme_sgl_desc) (d0 : Z) (dmas : list Z) (np : Z) (p0 : list nvme_sgl_desc).
Local Abbreviation N := (Z.of_nat (length cs)).
Local Abbreviation table := (sgl_table cs dmas np).
Context (Hdmas : Z.of_nat (length dmas) = np) (HN : 0 < N) (Hnp : N ≤ 255 * np).

(** One descriptor; [k] is not at the end of the page. *)
Lemma meta_fill_entry s rest fuel j k w :
  0 ≤ j → 0 ≤ k < 255 → cs !! Z.to_nat (255 * j + k) = Some (dnvme_sgl_set_data s) →
  255 * j + k < N →
  meta_fill (S fuel) (d0 :: dmas) (j + 1) k (Z.of_nat (length (s :: rest))) (s :: rest)
    (p0 :: table j k) w =
  meta_fill fuel (d0 :: dmas) (j + 1) (k + 1) (Z.of_nat (length rest)) rest
    (p0 :: table j (k + 1)) w.
Proof.
  intros Hj Hk Hc Hlt. cbn [meta_fill length].
  rewrite (proj2 (Z.eqb_neq (Z.of_nat (S _)) 0)) by lia.
  change (NVME_SGES_PER_PAGE - 1) with 255. rewrite (proj2 (Z.eqb_neq k 255)) by lia.
  unfold mbind, M_bind. rewrite set_cell_tail by done. unfold sgl_table.
  rewrite (set_entry 255 sgl_desc_zero cs (seg_link cs dmas) np ltac:(lia) j k
    (dnvme_sgl_set_data s)) by (done || lia).
  f_equal. lia.
Qed.

(** The link at the end of a page. *)
Lemma meta_fill_turn rest fuel j w :
  0 ≤ j → 255 * (j + 1) + Z.of_nat (length rest) = N → rest ≠ [] →
  meta_fill (S fuel) (d0 :: dmas) (j + 1) 255 (Z.of_nat (length rest)) rest
    (p0 :: table j 255) w =
  meta_fill fuel (d0 :: dmas) (j + 1 + 1) 0 (Z.of_nat (length rest)) rest
    (p0 :: table (j + 1) 0) w.
Proof.
  intros Hj Hlen Hne. cbn [meta_fill].
  destruct rest as [|s rest]; [done|]. cbn [length] in *.
  rewrite (proj2 (Z.eqb_neq (Z.of_nat (S _)) 0)) by lia.
  change (NVME_SGES_PER_PAGE - 1) with 255. rewrite Z.eqb_refl.
  assert (get_dma (d0 :: dmas) (j + 1 + 1) w = Val (next_page dmas j) w) as Hd.
  { unfold get_dma, next_page. replace (Z.to_nat (j + 1 + 1)) with (S (Z.to_nat (j + 1))) by lia.
    simpl. destruct (dmas !! Z.to_nat (j + 1)) eqn:Hd.
    - by rewrite (proj2 (Z.leb_le 0 _)) by lia.
    - apply lookup_ge_None in Hd. lia. }
  unfold mbind, M_bind. rewrite Hd, set_cell_tail by done.
  replace (Z.of_nat (S (length rest))) with (N - 255 * (j + 1)) by lia.
  fold (seg_link cs dmas j). unfold sgl_table. by rewrite set_link by lia.
Qed.

Lemma meta_fill_data rest : ∀ fuel j k w,
  0 ≤ j → 0 ≤ k ≤ 255 → rest ≠ [] →
  (∀ i, cs !! (Z.to_nat (255 * j + k) + i)%nat = (dnvme_sgl_set_data <$> rest) !! i) →
  255 * j + k + Z.of_nat (length rest) = N → (2 * length rest ≤ fuel)%nat →
  meta_fill fuel (d0 :: dmas) (j + 1) k (Z.of_nat (length rest)) rest (p0 :: table j k) w =
  Val (p0 :: paged_final 255 sgl_desc_zero cs (seg_link cs dmas) np) w.
Proof.
  induction rest as [|s rest IH]; intros fuel j k w Hj Hk Hne Hcs Hlen Hf; [done|].
  assert (Hgo : ∀ fuel j k, 0 ≤ j → 0 ≤ k < 255 →
    (∀ i, cs !! (Z.to_nat (255 * j + k) + i)%nat = (dnvme_sgl_set_data <$> s :: rest) !! i) →
    255 * j + k + Z.of_nat (length (s :: rest)) = N → (1 + 2 * length rest ≤ fuel)%nat →
    meta_fill fuel (d0 :: dmas) (j + 1) k (Z.of_nat (length (s :: rest))) (s :: rest)
      (p0 :: table j k) w =
    Val (p0 :: paged_final 255 sgl_desc_zero cs (seg_link cs dmas) np) w).
  { clear Hcs Hlen Hf Hj Hk j k fuel. intros fuel j k Hj Hk Hcs Hlen Hf. cbn [length] in Hlen.
    destruct fuel as [|fuel]; [lia|]. rewrite meta_fill_entry; [|lia|lia| |lia].
    2:{ specialize (Hcs O). by rewrite Nat.add_0_r in Hcs. }
    destruct rest as [|s' rest'].
    - assert (∀ f j' pgs, meta_fill f (d0 :: dmas) j' (k + 1) (Z.of_nat (length (@nil scatterlist)))
        [] pgs w = Val pgs w) as -> by (by intros []).
      unfold paged_final. destruct (last_index 255 N j k) as [-> ->]; simpl in Hlen; [lia|lia|done].
    - apply IH; [lia|lia|done|by apply (suffix_step _ _ _ _ _ Hcs); nia| |lia].
      rewrite Nat2Z.inj_succ in Hlen. lia. }
  cbn [length] in Hf. destruct (decide (k = 255)) as [->|]; [|apply Hgo; try done; lia].
  destruct fuel as [|fuel]; [lia|]. rewrite meta_fill_turn; [|lia|lia|done].
  apply Hgo; try done; try lia. intros i. rewrite <- Hcs. f_equal. lia.
Qed.
End meta_chain.

(** ** What the device reads

    MPTR is the bus address of the first page: one descriptor, of data or of the
    first segment. *)
Definition meta_decode (prps : nvme_prps) : option (list nvme_sgl_desc) :=
  a ← head (pg_addr prps);
  page ← prps_seg_mem prps a;
  d ← head page;
  if sge_type d =? Z.shiftl NVME_SGL_TYPE_DATA_DESC 4 then Some [d]
  else sgl_walk (S (length (pg_addr prps))) (prps_seg_mem prps) d.

Section meta_sgl.
Context {E : Env}.

Lemma sgl_walk_mem fuel mem1 mem2 d r :
  (∀ a pg, mem1 a = Some pg → mem2 a = Some pg) →
  sgl_walk fuel mem1 d = Some r → sgl_walk fuel mem2 d = Some r.
Proof.
  intros Hm. revert d r. induction fuel as [|fuel IH]; intros d r; [done|]. cbn [sgl_walk].
  destruct (mem1 (sge_addr d)) as [pg|] eqn:H1; [|done]. rewrite (Hm _ _ H1). cbn.
  destruct (_ =? _); [done|]. destruct (_ =? _); [|done].
  destruct (pg !! _) as [next|]; [|done]. cbn.
  destruct (sgl_walk fuel mem1 next) as [rest|] eqn:H2; [|done]. by rewrite (IH _ _ H2).
Qed.

(** What [dnvme_meta_setup_sgl] leaves. *)
Definition meta_post (prps : nvme_prps) (r : Z * nvme_prps) (R : list item) : Prop :=
  let '(ret, p') := r in
  ret = - ENOMEM ∧ R = [] ∧ p' = prps ∨
  ret = 0 ∧ R ≡ₚ list_items p' ∧ map_items p' = map_items prps ∧ prps_wf p' ∧
  (pg_addr_ptr p' ≠ 0 ∧ pg_addr p' ≠ []) ∧
  (NoDup (pg_addr p') → meta_decode p' = Some (dnvme_sgl_set_data <$> sg prps)).

Context (prps : nvme_prps).
Context (Hnum : num_map_pgs prps = Z.of_nat (length (sg prps))).
Context (Hne : sg prps ≠ []) (Hcnt : num_map_pgs prps < 2 ^ 28).

(** One page: the descriptor of the data itself. *)
Lemma triple_meta_one s lp dp pgs R :
  sg prps = [s] → lp ≠ 0 → dp ≠ 0 → length pgs = 1%nat →
  R ≡ₚ pool_items (pg_pool prps) pgs.*1 ++ [Blk dp AK_kmalloc None; Blk lp AK_kmalloc None] →
  triple R
    (pages ← set_cell (replicate (length pgs)
       (replicate (Z.to_nat NVME_SGES_PER_PAGE) sgl_desc_zero)) 0 0 (dnvme_sgl_set_data s);
     mret (0, prps <| prp_list_ptr := lp |> <| pg_va := pgs.*1 |> <| pg_addr_ptr := dp |>
                   <| pg_addr := pgs.*2 |> <| nr_pages := 1 |> <| prp_list := PP_sgl pages |>))
    (meta_post prps).
Proof.
  intros Hs Hl Hd Hpgs HR. destruct pgs as [|[va da] [|]]; try done.
  eapply triple_bind.
  { eapply (triple_pure _ _ [<[0%nat := dnvme_sgl_set_data s]>
      (replicate (Z.to_nat NVME_SGES_PER_PAGE) sgl_desc_zero)]). done. }
  intros ? R' [-> ->]. eapply triple_perm; [exact HR|]. apply triple_ret. right.
  split_and!; [done| |done|done|done|done|].
  - unfold list_items. simpl. by rewrite (proj2 (Z.eqb_neq lp 0) Hl).
  - intros _. rewrite Hs. unfold meta_decode, prps_seg_mem. simpl.
    by rewrite decide_True.
Qed.

(** The chain is found from the descriptor in the first page. *)
Lemma meta_decode_chain cs d0 dmas np p0 prps' :
  Z.of_nat (length dmas) = np → 0 < Z.of_nat (length cs) ≤ 255 * np →
  Z.of_nat (length cs) < 2 ^ 28 → Forall (λ d, 0 ≤ d < 2 ^ 64) dmas → NoDup (d0 :: dmas) →
  head p0 = (λ d, dnvme_sgl_set_seg d (Z.of_nat (length cs))) <$> head dmas →
  pg_addr prps' = d0 :: dmas →
  prp_list prps' = PP_sgl (p0 :: paged_final 255 sgl_desc_zero cs (seg_link cs dmas) np) →
  meta_decode prps' = Some cs.
Proof.
  intros Hdm HN HN28 Hr Hnd Hp0 Ha Hl.
  assert (∀ a pg, seg_mem cs dmas np a = Some pg → prps_seg_mem prps' a = Some pg) as Hmem.
  { intros a pg. unfold seg_mem, prps_seg_mem. rewrite Hl, Ha.
    destruct (list_find (eq a) dmas) as [[i d]|] eqn:Hf; [|done]. cbn.
    apply list_find_Some in Hf as Hf'. destruct Hf' as (Hi & <- & _).
    apply NoDup_cons in Hnd as [Hnin _]. rewrite decide_False.
    - rewrite Hf. done.
    - intros ->. apply Hnin. by eapply list_elem_of_lookup_2. }
  destruct dmas as [|d1 dmas]; [simpl in *; lia|]. destruct p0 as [|c0 p0]; [done|].
  injection Hp0 as ->. unfold meta_decode. rewrite Ha. cbn [head mbind option_bind].
  assert (prps_seg_mem prps' d0 =
    Some (dnvme_sgl_set_seg d1 (Z.of_nat (length cs)) :: p0)) as ->.
  { unfold prps_seg_mem. rewrite Hl, Ha. simpl. by rewrite decide_True. }
  cbn [head mbind option_bind]. replace (_ =? _) with false.
  2:{ unfold dnvme_sgl_set_seg. by destruct (_ <? _). }
  eapply sgl_walk_mem; [exact Hmem|].
  replace (Z.of_nat (length cs)) with (Z.of_nat (length cs) - 255 * 0) by lia.
  rewrite (sgl_walk_chain cs (d1 :: dmas) np) with (j := 0); try done; try lia.
  - by apply NoDup_cons in Hnd as [_ Hnd].
  - assert ((Z.of_nat (length cs) - 1) / 255 < np) by (apply Z.div_lt_upper_bound; lia).
    simpl in *. lia.
Qed.

Lemma nr_seg_bound n : 1 < n < 2 ^ 28 →
  let k := u32 (DIV_ROUND_UP (SGL_DESC_SIZE * n) (PAGE_SIZE - SGL_DESC_SIZE) + 1) in
  1 < k ∧ n ≤ 255 * (k - 1).
Proof.
  intros Hn k. unfold k, SGL_DESC_SIZE, PAGE_SIZE. change (4096 - 16) with 4080.
  destruct (DIV_ROUND_UP_spec (16 * n) 4080) as [Hb|Hb]; [lia|lia| |lia].
  rewrite u32_small by lia. lia.
Qed.

(** More than one page. *)
Lemma triple_meta_many lp dp pgs R nr_seg :
  1 < num_map_pgs prps → 1 < nr_seg → num_map_pgs prps ≤ 255 * (nr_seg - 1) →
  lp ≠ 0 → dp ≠ 0 → length pgs = Z.to_nat nr_seg → Forall dma_ok pgs →
  R ≡ₚ pool_items (pg_pool prps) pgs.*1 ++ [Blk dp AK_kmalloc None; Blk lp AK_kmalloc None] →
  triple R
    (d ← get_dma pgs.*2 1;
     pages ← set_cell (replicate (length pgs)
       (replicate (Z.to_nat NVME_SGES_PER_PAGE) sgl_desc_zero)) 0 0
       (dnvme_sgl_set_seg d (num_map_pgs prps));
     pages ← meta_fill (2 * Z.to_nat (num_map_pgs prps)) pgs.*2 1 0 (num_map_pgs prps)
       (sg prps) pages;
     mret (0, prps <| prp_list_ptr := lp |> <| pg_va := pgs.*1 |> <| pg_addr_ptr := dp |>
                   <| pg_addr := pgs.*2 |> <| nr_pages := nr_seg |>
                   <| prp_list := PP_sgl pages |>))
    (meta_post prps).
Proof.
  intros H1 Hseg Hfit Hl Hd Hpgs Hok HR.
  destruct pgs as [|[va0 d0] [|[va1 d1] pgs]]; [simpl in *; lia..|]. set (np := nr_seg - 1).
  set (dmas := d1 :: pgs.*2). set (cs := dnvme_sgl_set_data <$> sg prps).
  assert (length cs = length (sg prps)) as Hcs by apply length_fmap.
  assert (Z.of_nat (length dmas) = np) as Hdm
    by (unfold dmas, np; cbn [length] in *; rewrite length_fmap; lia).
  eapply triple_bind; [by apply (triple_pure _ _ d1)|]. intros ? R' [-> ->].
  set (row0 := replicate (Z.to_nat NVME_SGES_PER_PAGE) sgl_desc_zero).
  set (p0 := <[0%nat := dnvme_sgl_set_seg d1 (num_map_pgs prps)]> row0).
  eapply triple_bind.
  { apply (triple_pure _ _ (p0 :: replicate (S (length pgs)) row0)). done. }
  intros ? R' [-> ->]. eapply triple_bind.
  { eapply (triple_pure _ _ (p0 :: paged_final 255 sgl_desc_zero cs (seg_link cs dmas) np)).
    intros w. rewrite Hnum, Nat2Z.id.
    assert (replicate (S (length pgs)) row0 = sgl_table cs dmas np 0 0) as ->.
    { unfold sgl_table, row0. rewrite <- paged_zero by lia. f_equal. simpl in *. lia. }
    eapply (meta_fill_data cs d0 dmas np p0) with (j := 0); try done; try (unfold np; lia); lia. }
  intros ? R' [-> ->]. eapply triple_perm; [exact HR|]. apply triple_ret. right.
  split_and!; [done| |done| |done|done|].
  - unfold list_items. simpl. by rewrite (proj2 (Z.eqb_neq lp 0) Hl).
  - intros _. simpl in *. rewrite length_fmap. split; [lia|done].
  - intros Hnd. apply (meta_decode_chain cs d0 dmas np p0); try done; try (unfold np; lia).
    + apply (Forall_fmap snd (λ d, 0 ≤ d < 2 ^ 64) ((va1, d1) :: pgs)).
      by apply Forall_cons in Hok as [_ Hok].
    + unfold p0, row0. simpl. do 2 f_equal. lia.
Qed.

Lemma triple_meta_setup_sgl : triple [] (dnvme_meta_setup_sgl prps) (meta_post prps).
Proof.
  unfold dnvme_meta_setup_sgl. cbv zeta. set (nr_seg := u32 _).
  assert (num_map_pgs prps = 1 ∧ nr_seg = 1 ∨
    1 < num_map_pgs prps ∧ 1 < nr_seg ∧ num_map_pgs prps ≤ 255 * (nr_seg - 1)) as Hcase.
  { assert (0 < num_map_pgs prps) by (rewrite Hnum; destruct (sg prps); [done|simpl; lia]).
    unfold nr_seg. destruct (Z.eqb_spec (num_map_pgs prps) 1); [by left|right].
    split; [lia|]. apply nr_seg_bound. lia. }
  tcall triple_alloc_list. intros o R [[-> ->]|(lp & dp & pgs & -> & Hl & Hd & Hpgs & Hok & HR)].
  { apply triple_ret. by left. }
  rewrite app_nil_r. destruct Hcase as [[H1 Hseg]|(H1 & Hseg & Hfit)].
  - rewrite H1. simpl. rewrite Hseg in *. destruct (sg prps) as [|s [|]] eqn:Hs; [done| |simpl in *; lia].
    by apply triple_meta_one.
  - rewrite (proj2 (Z.eqb_neq _ 1)) by lia. by apply triple_meta_many.
Qed.
End meta_sgl.

(** ** Creation and deletion *)

Section meta_node.
Context {E : Env}.

(** Pages of a user buffer. *)
Definition buf_pages (buf size : Z) : Z := DIV_ROUND_UP (offset_in_page buf + size) PAGE_SIZE.

(** The request describes a buffer within 32 bits, and its scatterlist can be had (a
    failure of that allocation is taken for success). *)
Definition user_buf_ok (buf size : Z) : Prop :=
  0 ≤ size ∧ offset_in_page buf + size < 2 ^ 32 ∧
  alloc_ok (buf_pages buf size * SIZEOF_scatterlist).

Lemma buf_pages_bound buf size :
  0 ≤ size → offset_in_page buf + size < 2 ^ 32 → buf_pages buf size ≤ 2 ^ 20.
Proof.
  intros Hs Hw. unfold buf_pages. pose proof (offset_in_page_range buf).
  destruct (DIV_ROUND_UP_spec (offset_in_page buf + size) PAGE_SIZE) as [Hb|Hb];
    [done|lia| |lia]. unfold PAGE_SIZE in *. lia.
Qed.

Lemma triple_meta_prepare_sgl buf size :
  user_buf_ok buf size →
  triple [] (dnvme_meta_prepare_sgl buf size)
    (λ ro R, ro.1 < 0 ∧ ro.2 = None ∧ R = [] ∨
      ro.1 = 0 ∧ R ≡ₚ oprps_items ro.2 ∧ oprps_wf ro.2 ∧ ∃ p prps h, ro.2 = Some (p, prps) ∧
        (pg_addr_ptr prps ≠ 0 ∧ pg_addr prps ≠ []) ∧
        let n := buf_pages buf size in
        (NoDup (pg_addr prps) → meta_decode prps =
          Some (dnvme_sgl_set_data <$> sg_answer (E_map_sg n :: h) n))).
Proof.
  intros (Hs & Hw & Hal). unfold dnvme_meta_prepare_sgl. tcall triple_kmalloc.
  intros p R [[-> ->]|[Hp ->]]; simpl; [apply triple_ret; by left|].
  rewrite (proj2 (Z.eqb_neq p 0)) by lia.
  apply triple_get_dev. intros d. set (prps0 := prps_zero <| pg_pool := _ |>).
  tcall (triple_map_user_page prps0 buf size DMA_BIDIRECTIONAL true); [done|done|done|done|].
  intros [ret prps] R [(Hret & Hp1 & ->)|(Hret & HR & Hn & sgl & h & b & Hsgl & _ & Hp1)];
    simpl in Hret, Hp1 |- *.
  { destruct Hret as [Hret|[_ []]]; [|exact Hal]. rewrite (proj2 (Z.ltb_lt _ _) Hret).
    tgive (@nil item) (triple_kfree p None ltac:(lia)). intros _ R ->. apply triple_ret. by left. }
  subst ret. simpl. fold (buf_pages buf size) in Hn, Hp1. set (n := buf_pages buf size) in *.
  pose proof (buf_pages_bound buf size Hs Hw) as Hb. fold n in Hb.
  assert (length (sg prps) = Z.to_nat n) as Hlen by (by rewrite Hp1; apply length_sg_answer).
  assert (num_map_pgs prps = n) as Hnum by (by rewrite Hp1).
  eapply (triple_step (Blk p AK_kmalloc None :: map_items prps) []).
  { apply triple_meta_setup_sgl; [lia| |lia]. intros Hnil. rewrite Hnil in Hlen. simpl in Hlen. lia. }
  { rewrite HR. simpl. solve_Permutation. }
  intros [ret p'] R' [(-> & -> & ->)|(-> & HR' & Hm & Hwf & Hpa & Hdec)]; simpl.
  - eapply (triple_step [Blk p AK_kmalloc None]); [apply triple_unmap_user_page|solve_Permutation|].
    intros ? R' [-> _]. tgive (@nil item) (triple_kfree p None ltac:(lia)). intros _ R' ->.
    apply triple_ret. by left.
  - apply triple_ret. right. simpl. split_and!; [done| |lia|done|].
    + unfold prps_items. rewrite Hm, HR'. solve_Permutation.
    + exists p, p', h. split; [done|]. split; [done|]. intros Hnd. rewrite (Hdec Hnd), Hp1. done.
Qed.

Lemma triple_random_bytes p size : 0 ≤ size →
  triple [Blk p AK_coherent (Some size)] (get_random_bytes p size)
    (λ _ R, R = [Blk p AK_coherent (Some size)]).
Proof.
  intros Hs X w Hw. apply wp_bind, wp_gets. apply triple_mem_write; [by left|lia| |done].
  unfold unset_bytes. rewrite length_fmap, length_seqZ. lia.
Qed.

(** The memory of a new meta buffer. *)
Lemma triple_meta_mem mc p :
  in_u32 (mc_size mc) → (mc_contig mc = 0 → user_buf_ok (mc_buf mc) (mc_size mc)) →
  triple []
    (if negb (mc_contig mc =? 0)
     then
       '(buf, dma) ← dma_alloc_coherent (mc_size mc);
       let meta := {| meta_ptr := p; meta_id := mc_id mc; meta_buf := buf;
                      meta_dma := dma; meta_size := mc_size mc; meta_prps := None;
                      meta_contig := true |} in
       if buf =? 0 then mret (- ENOMEM, meta)
       else get_random_bytes buf (mc_size mc);; mret (0, meta)
     else
       '(ret, prps) ← dnvme_meta_prepare_sgl (mc_buf mc) (mc_size mc);
       mret (ret, {| meta_ptr := p; meta_id := mc_id mc; meta_buf := 0;
                     meta_dma := 0; meta_size := mc_size mc; meta_prps := prps;
                     meta_contig := false |}))
    (λ rm R, rm.1 < 0 ∧ R = [] ∨
      rm.1 = 0 ∧ meta_ptr rm.2 = p ∧ meta_contig rm.2 = negb (mc_contig mc =? 0) ∧
      meta_wf (mc_id mc) rm.2 ∧ Blk p AK_kmalloc None :: R ≡ₚ meta_items rm.2 ∧
      meta_size rm.2 = mc_size mc ∧
      (mc_contig mc = 0 → ∃ q prps h, meta_prps rm.2 = Some (q, prps) ∧
        let n := buf_pages (mc_buf mc) (mc_size mc) in
        (NoDup (pg_addr prps) → meta_decode prps =
          Some (dnvme_sgl_set_data <$> sg_answer (E_map_sg n :: h) n)))).
Proof.
  intros Hs Hbuf. destruct (Z.eqb_spec (mc_contig mc) 0) as [Hc|Hc]; cbn [negb].
  - tcall (triple_meta_prepare_sgl (mc_buf mc) (mc_size mc) (Hbuf Hc)).
    intros [ret o] R [(Hr & Ho & ->)|(Hr & HR & Hwf & Hd)]; simpl in *; apply triple_ret.
    + by left.
    + destruct Hd as (p' & prps & h & Ho & Hpa & Hd). right. simpl. split_and!; try done.
      * split; [done|done|done|]. intros _. simpl. by exists p', prps.
      * unfold meta_items. simpl. by rewrite app_nil_r, HR.
      * intros _. by exists p', prps, h.
  - tcall (triple_dma_alloc (mc_size mc) (proj1 Hs)).
    intros [buf dma] R [[[Hb ->]|[Hb ->]] Hdma]; simpl in Hb |- *.
    + subst. apply triple_ret. by left.
    + rewrite (proj2 (Z.eqb_neq buf 0)) by lia.
      tgive (@nil item) (triple_random_bytes buf (mc_size mc)); [apply Hs|]. intros _ R ->.
      apply triple_ret. right. simpl. split_and!; try done.
Qed.

Lemma triple_free_meta_mem m :
  oprps_wf (meta_prps m) →
  triple (qmem_items (meta_contig m) false (meta_buf m) (meta_size m) (meta_prps m))
    (if meta_contig m then dma_free_coherent (meta_size m) (meta_buf m)
     else dnvme_release_prps (meta_prps m)) gone.
Proof.
  intros Ho. destruct (meta_contig m); [apply triple_dma_free|by apply triple_release_prps].
Qed.

Definition create_meta_post (X : list item) (mc : nvme_meta_create) (w : world) : Z → world → Prop :=
  λ r w', inv X w' ∧
    (r < 0 ∧ same_dev w w' ∨
     r = 0 ∧ ndev_meta (w_dev w) !! mc_id mc = None ∧ ∃ m,
       w_dev w' = (w_dev w) <| ndev_meta ::= <[mc_id mc := m]> |> ∧
       meta_size m = mc_size mc ∧ meta_contig m = negb (mc_contig mc =? 0) ∧
       (mc_contig mc = 0 → ∃ q prps h, meta_prps m = Some (q, prps) ∧
         let n := buf_pages (mc_buf mc) (mc_size mc) in
         (NoDup (pg_addr prps) → meta_decode prps =
           Some (dnvme_sgl_set_data <$> sg_answer (E_map_sg n :: h) n)))).

Lemma wp_create_meta X mc w
    (Hw : inv X w) (Hs : in_u32 (mc_size mc))
    (Hbuf : mc_contig mc = 0 → user_buf_ok (mc_buf mc) (mc_size mc)) :
  wp (dnvme_create_meta_node mc) (create_meta_post X mc w) w.
Proof.
  unfold dnvme_create_meta_node. apply wp_bind. eapply inv_copy_from_user; [exact Hw|].
  intros ok w1 Hw1 Hs1. destruct ok; cbn [negb]; [|apply wp_ret; split; [done|by left]].
  apply wp_if; intros _; [apply wp_ret; split; [done|by left]|].
  apply wp_bind, wp_gets. rewrite (same_dev_dev _ _ Hs1). unfold dnvme_find_meta.
  destruct (ndev_meta (w_dev w) !! mc_id mc) as [m|] eqn:Hm; [apply wp_ret; split; [done|by left]|].
  wcall X triple_kmalloc. intros p R w2 Hr Hw2 Hs2. destruct Hr as [[-> ->]|[Hp ->]]; simpl.
  { apply wp_ret. split; [done|]. left. split; [done|by etrans]. }
  rewrite (proj2 (Z.eqb_neq p 0)) by lia.
  wcall ([Blk p AK_kmalloc None] ++ X) (triple_meta_mem mc p Hs Hbuf).
  intros [ret m] R w3 Hr Hw3 Hs3. cbn [fst snd] in Hr.
  assert (same_dev w w3) as Hs13 by (by do 2 (etrans; [done|])).
  destruct Hr as [(Hr & ->)|(-> & Hpm & Hcm & Hwf & HR & Hsz & Hd)].
  { rewrite (proj2 (Z.ltb_lt _ _) Hr). wcall X (triple_kfree p None); [lia|].
    intros _ R w4 -> Hw4 Hs4. apply wp_ret. split; [done|]. left. split; [done|by etrans]. }
  assert (inv (meta_items m ++ X) w3) as Hw3'.
  { revert Hw3. apply inv_perm; [|done]. rewrite <- HR. solve_Permutation. }
  wcall (meta_items m ++ X) (triple_xa_insert (ndev_meta (w_dev w)) (mc_id mc)).
  intros r R' w4 [Hr ->] Hw4 Hs4. assert (same_dev w w4) as Hs14 by (by etrans).
  destruct Hr as [Hr|[-> _]]; simpl.
  - rewrite (proj2 (Z.ltb_lt _ _) Hr), <- Hcm. apply wp_bind.
    eapply (wp_own _ ([Blk p AK_kmalloc None] ++ X)); [apply triple_free_meta_mem, Hwf|exact Hw4| |].
    { unfold meta_items. rewrite Hpm. solve_Permutation. }
    intros _ R' w5 -> Hw5 Hs5. wcall X (triple_kfree p None); [lia|].
    intros _ R' w6 -> Hw6 Hs6. apply wp_ret. split; [done|]. left. split; [done|].
    by do 2 (etrans; [done|]).
  - apply wp_bind, wp_modify, wp_ret. pose proof (same_dev_dev _ _ Hs14) as Hd4. split.
    + apply inv_new_meta; [done|by rewrite Hd4|done].
    + right. split_and!; [done|done|]. exists m. split_and!; try done. cbn. by rewrite Hd4.
Qed.


(** Deleting one buffer. *)
Lemma wp_delete_meta X id m w :
  inv X w → ndev_meta (w_dev w) !! id = Some m →
  wp (dnvme_delete_meta_node m)
    (λ _ w', inv X w' ∧ w_irqs w' = w_irqs w ∧
      w_dev w' = (w_dev w) <| ndev_meta ::= delete id |>) w.
Proof.
  intros Hw Hm. pose proof (dw_meta _ (i_dev _ _ Hw) _ _ Hm) as Hwf.
  unfold dnvme_delete_meta_node. apply wp_bind, wp_modify. rewrite (mw_id _ _ Hwf).
  pose proof (inv_drop_meta X w id m Hw Hm) as Hd. set (w0 := w <| w_dev ::= _ |>) in *.
  pose proof (h_in _ _ (i_holds _ _ Hd)) as Hin.
  assert (meta_ptr m ≠ 0) as Hptr.
  { rewrite Forall_forall in Hin. destruct (Hin (Blk (meta_ptr m) AK_kmalloc None)) as [? _];
      [|done]. unfold meta_items. set_solver. }
  apply wp_bind. eapply (wp_own _ (Blk (meta_ptr m) AK_kmalloc None :: X));
    [apply triple_free_meta_mem, Hwf|exact Hd|unfold meta_items; solve_Permutation|].
  intros _ R w2 -> Hw2 Hs2.
  eapply (wp_own _ X); [by apply (triple_kfree (meta_ptr m) None)|exact Hw2|done|].
  intros _ R w3 -> Hw3 Hs3. assert (same_dev w0 w3) as (Hdev & Hirqs & _) by (by etrans).
  by rewrite Hdev, Hirqs.
Qed.

Lemma wp_delete_meta_nodes X w :
  inv X w →
  wp dnvme_delete_meta_nodes
    (λ _ w', inv X w' ∧ w_irqs w' = w_irqs w ∧ w_dev w' = (w_dev w) <| ndev_meta := ∅ |>) w.
Proof.
  intros Hw. apply wp_bind, wp_gets.
  eapply wp_mono; [apply (wp_delete_all ndev_meta (λ m d, d <| ndev_meta := m |>) false id _ X)|];
    try done.
  - by intros [].
  - intros i w1 Hw1 _. apply wp_bind, wp_gets. unfold dnvme_find_meta.
    destruct (ndev_meta (w_dev w1) !! i) as [m|] eqn:Hm.
    + eapply wp_mono; [by apply (wp_delete_meta X i m)|]. done.
    + apply wp_ret. split_and!; [done|done|]. simpl. rewrite (delete_None _ _ Hm).
      by destruct (w_dev w1).
  - intros _ w' (? & ? & Hd). split_and!; [done|done|]. rewrite Hd. unfold kept.
    by destruct (_ !! _).
Qed.

Lemma wp_delete_meta_id X id w :
  inv X w →
  wp (dnvme_delete_meta_id id)
    (λ _ w', inv X w' ∧ w_irqs w' = w_irqs w ∧
      w_dev w' = (w_dev w) <| ndev_meta ::= delete id |>) w.
Proof.
  intros Hw. apply wp_bind, wp_gets. unfold dnvme_find_meta.
  destruct (ndev_meta (w_dev w) !! id) as [m|] eqn:Hm; [by apply (wp_delete_meta X id m)|].
  apply wp_ret. split_and!; [done|done|].
  transitivity ((w_dev w) <| ndev_meta := delete id (ndev_meta (w_dev w)) |>); [|done].
  rewrite (delete_None _ _ Hm). by destruct (w_dev w).
Qed.
End meta_node.

(** *** Witness: two pages of a user buffer. *)
Definition demo_meta : nvme_meta_create := {|
  mc_id := 7; mc_buf := 0x7f0000; mc_size := 8192; mc_contig := 0 |}.

