(* ===== verification/CmdSpec.v ===== *)
(** * Commands keep the invariant

    Preparing a command ([dnvme_prepare_64b_cmd]) and keeping it in the list of its
    queue: on an error everything is given back, on success the command node owns the
    description of the data buffer, or the queue that the command creates does.  The
    description is the one of [PrpSpec] and [SglSpec]. *)

From S2P Require Import Prelude Types Kernel Io Own Prp Paged PrpSpec Sgl SglSpec Ring Irq Queue Cmd Meta Inv Demo QueueSpec QueueOps MetaSpec.

(** ** Data buffers *)

Section transfer.
Context {E : Env}.

(** What [dma_map_sg] is relied on for: for PRPs the segments it leaves meet at page
    boundaries and hold the buffer (behind them are the entries it merged away); for
    an SGL every entry of the table is a segment. *)
Definition map_shape (cmd : nvme_64b_cmd) (flags : Z) (l : list scatterlist) : Prop :=
  if dnvme_use_sgls flags cmd
  then Forall seg_ok l ∧ total l < 2 ^ 32 ∧ bits_ok (sgl_bits cmd) ∧
       weights l (sgl_bits cmd) + Z.of_nat (length l) < 2 ^ 28
  else ∃ s l' rest, l = s :: l' ++ rest ∧ sg_wf (s :: l') (c64_data_buf_size cmd).

Definition mapped (cmd : nvme_64b_cmd) (l : list scatterlist) : Prop :=
  ∃ h, let n := buf_pages (c64_data_buf_ptr cmd) (c64_data_buf_size cmd) in
    l = sg_answer (E_map_sg n :: h) n.

Definition transfer_ok (cmd : nvme_64b_cmd) (flags : Z) : Prop :=
  user_buf_ok (c64_data_buf_ptr cmd) (c64_data_buf_size cmd) ∧
  ∀ l, mapped cmd l → map_shape cmd flags l.

(** The command and [prps] describe the buffer mapped as [l]. *)
Definition described (cmd : nvme_64b_cmd) (flags : Z) (l : list scatterlist) (c : list Z)
    (prps : nvme_prps) : Prop :=
  if dnvme_use_sgls flags cmd
  then ∃ ents, sem ents = (sg_data l, landing l <$> sgl_bits cmd) ∧
    (NoDup (pg_addr prps) → sgl_decode c prps = Some (desc_of <$> ents))
  else ∃ s l' rest, l = s :: l' ++ rest ∧ sg_wf (s :: l') (c64_data_buf_size cmd) ∧
    prp_desc c prps (sg_chunks (s :: l')).

Definition describe (cmd : nvme_64b_cmd) (ccmd : list Z) (flags : Z) (prps : nvme_prps) :
    M (Z * list Z * nvme_prps) :=
  if dnvme_use_sgls flags cmd
  then '(ret, ccmd, prps) ← dnvme_cmd_setup_sgl cmd ccmd prps;
       mret (ret, ccmd, prps <| is_sgl := true |>)
  else '(ret, ccmd, prps) ← dnvme_setup_prps cmd ccmd prps;
       mret (ret, ccmd, prps <| is_sgl := false |>).

Lemma triple_describe cmd ccmd flags op prps :
  sg prps ≠ [] → num_map_pgs prps = Z.of_nat (length (sg prps)) →
  data_buf_size prps = c64_data_buf_size cmd → prp_list_ptr prps = 0 →
  map_shape cmd flags (sg prps) →
  length ccmd = 64%nat → load_le 1 ccmd 0 = Some op → is_create cmd op = false →
  triple [] (describe cmd ccmd flags prps)
    (λ '(ret, c', p') R,
      ret < 0 ∧ R = [] ∧ map_items p' = map_items prps ∨
      ret = 0 ∧ R ≡ₚ list_items p' ∧ map_items p' = map_items prps ∧ prps_wf p' ∧
      dptr_only ccmd c' ∧ described cmd flags (sg prps) c' p').
Proof.
  intros Hne Hnum Hsz Hlp Hsh Hlen Hop Hcr. unfold describe, map_shape, described in *.
  destruct (dnvme_use_sgls flags cmd).
  - destruct Hsh as (Hseg & Htot & Hbits & Hcount).
    tcall (triple_setup_sgl cmd ccmd prps); try done.
    intros [[ret c'] p'] R [(Hr & -> & Hm)|(-> & HR & Hm & Hwf & Hd & Hdesc)];
      rewrite app_nil_r; apply triple_ret.
    + left. split_and!; [|done|exact Hm]. destruct Hr as [->|[->| ->]]; done.
    + right. split_and!; done.
  - destruct Hsh as (s & l & rest & Hs & Hwf). rewrite <- Hsz in Hwf.
    tcall (triple_setup_prps cmd ccmd prps s l rest op); try done.
    intros [[ret c'] p'] R [(Hr & -> & ->)|(-> & HR & Hm & Hpw & Hd & Hdesc)];
      rewrite app_nil_r; apply triple_ret.
    + left. split_and!; [|done|done]. destruct Hr as [->| ->]; done.
    + right. split_and!; try done. exists s, l, rest. by rewrite <- Hsz.
Qed.

(** ** The node of a command *)

(** The target of a queue command. *)
Definition target_of (sqid op qid : Z) : Z :=
  if (sqid =? NVME_AQ_ID) && is_queue_op op then qid else 0.

Definition push_cmd (id : Z) (node : nvme_cmd) (d : nvme_device) : nvme_device :=
  d <| ndev_sqs ::= alter (λ q, q <| sq_cmd_list ::= λ l, l ++ [node] |>) id |>.

Lemma cmd_target_ok sqid ccmd op qid w :
  load_le 1 ccmd 0 = Some op → load_le 2 ccmd 40 = Some qid →
  (sqid = NVME_AQ_ID → op = nvme_admin_create_sq → is_Some (ndev_sqs (w_dev w) !! qid)) →
  (sqid = NVME_AQ_ID → op = nvme_admin_create_cq → is_Some (ndev_cqs (w_dev w) !! qid)) →
  ∃ wq, cmd_target sqid ccmd w = Val (target_of sqid op qid, wq) w ∧
    (sqid = NVME_AQ_ID → op = nvme_admin_create_sq → wq = WAIT_sq) ∧
    (sqid = NVME_AQ_ID → op = nvme_admin_create_cq → wq = WAIT_cq).
Proof.
  intros Hop Hq Hsq Hcq. unfold cmd_target, target_of, ccmd_opcode, ccmd_qid, ccmd_get.
  rewrite Hop, Hq. destruct (Z.eqb_spec sqid NVME_AQ_ID) as [Hs|]; cbn [andb];
    [|by exists WAIT_none].
  unfold mbind, M_bind, get_dev, gets, dnvme_find_sq, dnvme_find_cq, is_queue_op. cbn.
  destruct (Z.eqb_spec op nvme_admin_create_sq) as [->|H1].
  { destruct (Hsq Hs eq_refl) as [q ->]. by exists WAIT_sq. }
  destruct (Z.eqb_spec op nvme_admin_create_cq) as [->|H2].
  { destruct (Hcq Hs eq_refl) as [q ->]. by exists WAIT_cq. }
  rewrite orb_false_r. destruct (op =? nvme_admin_delete_sq); [by exists WAIT_none|].
  cbn [orb]. destruct (op =? nvme_admin_delete_cq); by exists WAIT_none.
Qed.

Definition cmd_node (p cid op sqid t tail : Z) (o : option (owned nvme_prps)) : nvme_cmd := {|
  cmd_ptr := p; cmd_cid := cid; cmd_sqid := sqid; cmd_target_qid := t; cmd_idx := tail;
  cmd_opcode := op; cmd_prps := o |}.

(** A pending command more in a well-formed queue. *)
Lemma push_wf id q node :
  sq_wf id q → cmd_wf node →
  (id = NVME_AQ_ID → is_queue_op (cmd_opcode node) = true → cmd_prps node = None) →
  sq_wf id (q <| sq_cmd_list ::= λ l, l ++ [node] |>).
Proof.
  intros [] Hn Ha. split; try done; cbn.
  - apply Forall_app. split; [done|]. by constructor.
  - intros Hid. apply Forall_app. split; [auto|]. constructor; [auto|done].
Qed.
Lemma push_items q node :
  sq_items (q <| sq_cmd_list ::= λ l, l ++ [node] |>) ≡ₚ cmd_items node ++ sq_items q.
Proof. unfold sq_items. cbn. rewrite bind_app. cbn. rewrite app_nil_r. solve_Permutation. Qed.

Lemma inv_push X id q node w :
  inv (cmd_items node ++ X) w → ndev_sqs (w_dev w) !! id = Some q → cmd_wf node →
  (id = NVME_AQ_ID → is_queue_op (cmd_opcode node) = true → cmd_prps node = None) →
  inv X (w <| w_dev ::= push_cmd id node |>).
Proof.
  intros Hw Hq Hn Ha.
  apply (inv_upd_sq X w id q (λ q, q <| sq_cmd_list ::= λ l, l ++ [node] |>) [] (cmd_items node));
    [done|done|by rewrite push_items|].
  apply push_wf; [|done|done]. apply (dw_sqs _ (i_dev _ _ Hw) _ _ Hq).
Qed.

(** Worlds that differ in the device structure only. *)
Definition calm (w w' : world) : Prop :=
  w_irqs w' = w_irqs w ∧ w_mode w' = w_mode w ∧ untouched (dev_items (w_dev w)) w w'.

Lemma calm_trans w1 w2 w3 :
  calm w1 w2 → dev_items (w_dev w2) ≡ₚ dev_items (w_dev w1) → calm w2 w3 → calm w1 w3.
Proof.
  intros (?&?&H12) Hd (?&?&H23). split_and!; [congruence..|]. etrans; [exact H12|].
  by eapply untouched_perm.
Qed.
Lemma calm_same w1 w2 w3 : calm w1 w2 → w_dev w2 = w_dev w1 → calm w2 w3 → calm w1 w3.
Proof. intros H12 Hd. apply calm_trans; [done|by rewrite Hd]. Qed.

(** A call that works beside the device. *)
Lemma wp_aside {A} P Y (m : M A) Q T (Φ : A → world → Prop) w :
  triple P m Q → inv T w → T ≡ₚ P ++ Y →
  (∀ a R w', Q a R → inv (R ++ Y) w' → w_dev w' = w_dev w → calm w w' → Φ a w') → wp m Φ w.
Proof.
  intros Hm Hw HT HΦ. eapply wp_own_frame; [done..|]. intros a R w' HQ Hw' (?&?&?) Hu.
  eapply HΦ; [done..|]. split_and!; [done..|]. apply (untouched_app _ _ _ _ Hu).
Qed.

(** The command keeps its buffer, if any. *)
Lemma wp_add_node X cmd ccmd o q cid op t w :
  inv (oprps_items o ++ X) w → oprps_wf o →
  load_le 2 ccmd 2 = Some cid → load_le 1 ccmd 0 = Some op →
  ndev_sqs (w_dev w) !! c64_sqid cmd = Some q →
  (∀ w', w_dev w' = w_dev w → ∃ wq, cmd_target (c64_sqid cmd) ccmd w' = Val (t, wq) w') →
  (o = None ∨ t = 0) →
  (c64_sqid cmd = NVME_AQ_ID → is_queue_op op = true → o = None) →
  wp (dnvme_add_cmd_node cmd ccmd o)
    (λ r w', calm w w' ∧
      (r = - ENOMEM ∧ inv (oprps_items o ++ X) w' ∧ w_dev w' = w_dev w ∨
       r = 0 ∧ inv X w' ∧ ∃ p, w_dev w' = push_cmd (c64_sqid cmd)
         (cmd_node p cid op (c64_sqid cmd) t (sqp_tail_ptr_virt (sq_pub q)) o) (w_dev w))) w.
Proof.
  intros Hw Ho Hcid Hop Hq Ht Hot Ha. unfold dnvme_add_cmd_node.
  apply wp_bind, wp_gets. unfold dnvme_find_sq. rewrite Hq.
  apply wp_bind. eapply (wp_aside [] (oprps_items o ++ X)); [apply triple_kmalloc|exact Hw|done|].
  intros p R w1 HR Hw1 Hd1 Hc1. destruct (Z.eqb_spec p 0) as [->|Hp].
  { destruct HR as [[_ ->]|[? _]]; [|lia]. apply wp_ret. split; [done|by left]. }
  destruct HR as [[? _]|[_ ->]]; [lia|].
  apply wp_bind. unfold wp at 1. unfold ccmd_command_id. rewrite (ccmd_get_ok _ _ _ _ Hcid).
  apply wp_bind. unfold wp at 1. unfold ccmd_opcode. rewrite (ccmd_get_ok _ _ _ _ Hop).
  apply wp_bind. unfold wp at 1. destruct (Ht w1 Hd1) as [wq ->].
  set (node := cmd_node p cid op (c64_sqid cmd) t (sqp_tail_ptr_virt (sq_pub q)) o).
  assert (wp (upd_sq (c64_sqid cmd) (λ q, q <| sq_cmd_list ::= λ l, l ++ [node] |>);; mret 0)
    (λ r w', calm w w' ∧ (r = - ENOMEM ∧ inv (oprps_items o ++ X) w' ∧ w_dev w' = w_dev w ∨
       r = 0 ∧ inv X w' ∧ ∃ p, w_dev w' = push_cmd (c64_sqid cmd)
         (cmd_node p cid op (c64_sqid cmd) t (sqp_tail_ptr_virt (sq_pub q)) o) (w_dev w))) w1) as Hgo.
  { apply wp_bind, wp_modify, wp_ret. split; [done|right]. split_and!; [done| |].
    - apply (inv_push X (c64_sqid cmd) q node); [exact Hw1|by rewrite Hd1| |done]. done.
    - exists p. cbn. by rewrite Hd1. }
  destruct o as [[pp prps]|].
  - destruct Hot as [?| ->]; [done|]. exact Hgo.
  - destruct (t =? 0); exact Hgo.
Qed.

(** The queue that the command creates takes the buffer as its memory. *)
Definition hook_sq (t : Z) (o : option (owned nvme_prps)) (d : nvme_device) : nvme_device :=
  d <| ndev_sqs ::= alter (λ q, q <| sq_prps := o |> <| sq_created := true |>) t |>.
Definition hook_cq (t : Z) (o : option (owned nvme_prps)) (d : nvme_device) : nvme_device :=
  d <| ndev_cqs ::= alter (λ q, q <| cq_prps := o |> <| cq_created := true |>) t |>.
Definition mark_sq (t : Z) (d : nvme_device) : nvme_device :=
  d <| ndev_sqs ::= alter (λ q, q <| sq_created := true |>) t |>.
Definition mark_cq (t : Z) (d : nvme_device) : nvme_device :=
  d <| ndev_cqs ::= alter (λ q, q <| cq_created := true |>) t |>.

Lemma alter_around {A} (f g h k : A → A) (t id : Z) (m : gmap Z A) : t ≠ id → (∀ x, h (f x) = k x) →
  alter h t (alter g id (alter f t m)) = alter g id (alter k t m).
Proof.
  intros Hne Hk. apply map_eq. intros i.
  destruct (decide (i = t)) as [->|]; [|destruct (decide (i = id)) as [->|]];
    repeat first [rewrite lookup_alter_eq | rewrite lookup_alter_ne by done].
  - destruct (m !! t); simpl; by rewrite ?Hk.
  - done.
  - done.
Qed.

Lemma hook_sq_wf id q p prps :
  sq_wf id q → sq_contig q = false → oprps_wf (Some (p, prps)) → prps_buf prps ≠ 0 →
  sq_size q ≤ num_map_pgs prps * PAGE_SIZE →
  sq_wf id (q <| sq_prps := Some (p, prps) |> <| sq_created := true |>).
Proof.
  intros [] Hc Ho Hb Hs. split; try done. split; cbn; [congruence|done|done|].
  intros ?? [= <- <-]. done.
Qed.
Lemma hook_cq_wf id q p prps :
  cq_wf id q → cq_contig q = false → oprps_wf (Some (p, prps)) → prps_buf prps ≠ 0 →
  cq_size q ≤ num_map_pgs prps * PAGE_SIZE →
  cq_wf id (q <| cq_prps := Some (p, prps) |> <| cq_created := true |>).
Proof.
  intros [] Hc Ho Hb Hs. split; try done. split; cbn; [congruence|done|done|].
  intros ?? [= <- <-]. done.
Qed.

Lemma inv_hook_sq X t q p prps w :
  inv (oprps_items (Some (p, prps)) ++ X) w → ndev_sqs (w_dev w) !! t = Some q →
  sq_contig q = false → sq_created q = false → oprps_wf (Some (p, prps)) → prps_buf prps ≠ 0 →
  sq_size q ≤ num_map_pgs prps * PAGE_SIZE →
  inv X (w <| w_dev ::= hook_sq t (Some (p, prps)) |>).
Proof.
  intros Hw Hq Hc Hn Ho Hb Hs. pose proof (dw_sqs _ (i_dev _ _ Hw) _ _ Hq) as Hwf.
  apply (inv_upd_sq X w t q (λ q, q <| sq_prps := Some (p, prps) |> <| sq_created := true |>) []
    (oprps_items (Some (p, prps)))); [done|done| |by apply hook_sq_wf].
  pose proof (qm_new _ _ _ _ (sqw_mem _ _ Hwf) Hn) as H0.
  unfold sq_items, qmem_items. cbn. rewrite Hc, H0. simpl. solve_Permutation.
Qed.
Lemma inv_hook_cq X t q p prps w :
  inv (oprps_items (Some (p, prps)) ++ X) w → ndev_cqs (w_dev w) !! t = Some q →
  cq_contig q = false → cq_created q = false → oprps_wf (Some (p, prps)) → prps_buf prps ≠ 0 →
  cq_size q ≤ num_map_pgs prps * PAGE_SIZE →
  inv X (w <| w_dev ::= hook_cq t (Some (p, prps)) |>).
Proof.
  intros Hw Hq Hc Hn Ho Hb Hs. pose proof (dw_cqs _ (i_dev _ _ Hw) _ _ Hq) as Hwf.
  apply (inv_upd_cq X w t q (λ q, q <| cq_prps := Some (p, prps) |> <| cq_created := true |>) []
    (oprps_items (Some (p, prps)))); [done|done| |by apply hook_cq_wf].
  pose proof (qm_new _ _ _ _ (cqw_mem _ _ Hwf) Hn) as H0.
  unfold cq_items, qmem_items. cbn. rewrite Hc, H0. simpl. solve_Permutation.
Qed.

Lemma upd_dev_eq w f1 f2 f3 g1 g2 :
  f3 (f2 (f1 (w_dev w))) = g2 (g1 (w_dev w)) →
  w <| w_dev ::= f1 |> <| w_dev ::= f2 |> <| w_dev ::= f3 |> =
  w <| w_dev ::= g1 |> <| w_dev ::= g2 |>.
Proof. intros H. unfold set_field. simpl. by rewrite H. Qed.

Lemma mark_push_sq t node o d : t ≠ NVME_AQ_ID →
  mark_sq t (push_cmd NVME_AQ_ID node (d <| ndev_sqs ::= alter (λ q, q <| sq_prps := o |>) t |>)) =
  push_cmd NVME_AQ_ID node (hook_sq t o d).
Proof.
  intros Ht. transitivity (d <| ndev_sqs ::= λ m, alter (λ q, q <| sq_created := true |>) t
    (alter (λ q, q <| sq_cmd_list ::= λ l, l ++ [node] |>) NVME_AQ_ID
      (alter (λ q, q <| sq_prps := o |>) t m)) |>); [done|].
  unfold set_field at 1. by rewrite (alter_around _ _ _
    (λ q, q <| sq_prps := o |> <| sq_created := true |>)).
Qed.
Lemma mark_push_cq t node o d :
  mark_cq t (push_cmd NVME_AQ_ID node (d <| ndev_cqs ::= alter (λ q, q <| cq_prps := o |>) t |>)) =
  push_cmd NVME_AQ_ID node (hook_cq t o d).
Proof.
  transitivity (push_cmd NVME_AQ_ID node (d <| ndev_cqs ::= λ m,
    alter (λ q, q <| cq_created := true |>) t (alter (λ q, q <| cq_prps := o |>) t m) |>)); [done|].
  unfold push_cmd, hook_cq, set_field. by rewrite alter_alter_eq.
Qed.

(** Adding the node of a command that creates a queue with its own memory; the
    invariant holds again once the queue is marked as created. *)
Lemma wp_add_node_hook X cmd ccmd p prps q cid op t w (hook mark : nvme_device → nvme_device) :
  inv (oprps_items (Some (p, prps)) ++ X) w →
  load_le 2 ccmd 2 = Some cid → load_le 1 ccmd 0 = Some op →
  ndev_sqs (w_dev w) !! NVME_AQ_ID = Some q → c64_sqid cmd = NVME_AQ_ID → t ≠ 0 →
  (∃ wq, (∀ w', w_dev w' = w_dev w → cmd_target NVME_AQ_ID ccmd w' = Val (t, wq) w') ∧
    ((wq = WAIT_sq ∧ hook = hook_sq t (Some (p, prps)) ∧ mark = mark_sq t) ∨
     (wq = WAIT_cq ∧ hook = hook_cq t (Some (p, prps)) ∧ mark = mark_cq t))) →
  (∀ Y w', inv (oprps_items (Some (p, prps)) ++ Y) w' → w_dev w' = w_dev w →
    inv Y (w' <| w_dev ::= hook |>)) →
  wp (dnvme_add_cmd_node cmd ccmd (Some (p, prps)))
    (λ r w', calm w w' ∧
      (r = - ENOMEM ∧ inv (oprps_items (Some (p, prps)) ++ X) w' ∧ w_dev w' = w_dev w ∨
       r = 0 ∧ inv X (w' <| w_dev ::= mark |>) ∧
       ∃ pn, mark (w_dev w') = push_cmd NVME_AQ_ID
         (cmd_node pn cid op NVME_AQ_ID t (sqp_tail_ptr_virt (sq_pub q)) None)
         (hook (w_dev w)))) w.
Proof.
  intros Hw Hcid Hop Hq Hsq Ht (wq & Htgt & Hcase) Hhook. unfold dnvme_add_cmd_node. rewrite Hsq.
  apply wp_bind, wp_gets. unfold dnvme_find_sq. rewrite Hq.
  apply wp_bind. eapply (wp_aside [] (oprps_items (Some (p, prps)) ++ X));
    [apply triple_kmalloc|exact Hw|done|].
  intros pn R w1 HR Hw1 Hd1 Hc1. destruct (Z.eqb_spec pn 0) as [->|Hp].
  { destruct HR as [[_ ->]|[? _]]; [|lia]. apply wp_ret. split; [done|by left]. }
  destruct HR as [[? _]|[_ ->]]; [lia|].
  apply wp_bind. unfold wp at 1. unfold ccmd_command_id. rewrite (ccmd_get_ok _ _ _ _ Hcid).
  apply wp_bind. unfold wp at 1. unfold ccmd_opcode. rewrite (ccmd_get_ok _ _ _ _ Hop).
  apply wp_bind. unfold wp at 1. rewrite (Htgt w1 Hd1).
  rewrite (proj2 (Z.eqb_neq t 0) Ht).
  set (node := cmd_node pn cid op NVME_AQ_ID t (sqp_tail_ptr_virt (sq_pub q)) None).
  assert (inv X (w1 <| w_dev ::= hook |> <| w_dev ::= push_cmd NVME_AQ_ID node |>)) as Hend.
  { assert (∃ q', ndev_sqs (hook (w_dev w1)) !! NVME_AQ_ID = Some q') as [q' Hq'].
    { rewrite Hd1. destruct Hcase as [(_ & -> & _)|(_ & -> & _)]; cbn; [|eauto].
      rewrite lookup_alter_ne by (unfold NVME_AQ_ID; lia). eauto. }
    eapply (inv_push X NVME_AQ_ID q' node); [|exact Hq'|done|done].
    apply Hhook; [|done]. revert Hw1. apply inv_perm; [|done].
    unfold cmd_items. simpl. solve_Permutation. }
  destruct Hcase as [(-> & -> & ->)|(-> & -> & ->)].
  all: apply wp_bind, wp_modify, wp_bind, wp_modify, wp_ret; (split; [done|right]);
    (split; [done|]); change (cmd_node pn _ _ _ _ _ _) with node.
  - split; [|exists pn; rewrite <- Hd1; by apply mark_push_sq].
    refine (eq_ind _ (inv X) Hend _ _). symmetry. by apply upd_dev_eq, mark_push_sq.
  - split; [|exists pn; rewrite <- Hd1; by apply mark_push_cq].
    refine (eq_ind _ (inv X) Hend _ _). symmetry. by apply upd_dev_eq, mark_push_cq.
Qed.

(** ** Preparing a command *)

Section prepare.
Context (X : list item) (cmd : nvme_64b_cmd) (ccmd : list Z) (q : nvme_sq) (cid op qid flags : Z).
Context (Hlen : length ccmd = 64%nat) (Hcid : load_le 2 ccmd 2 = Some cid)
  (Hop : load_le 1 ccmd 0 = Some op) (Hqid : load_le 2 ccmd 40 = Some qid)
  (Hfl : load_le 1 ccmd 1 = Some flags).
Local Abbreviation sqid := (c64_sqid cmd).
Local Abbreviation tail := (sqp_tail_ptr_virt (sq_pub q)).

(** The queue that a create command names is there. *)
Definition target_there (d : nvme_device) : Prop :=
  (sqid = NVME_AQ_ID → op = nvme_admin_create_sq → is_Some (ndev_sqs d !! qid)) ∧
  (sqid = NVME_AQ_ID → op = nvme_admin_create_cq → is_Some (ndev_cqs d !! qid)).

Lemma need_prp_op :
  cmd_need_prp cmd (if sqid =? NVME_AQ_ID then op else 0) = cmd_need_prp cmd op.
Proof. unfold cmd_need_prp. by destruct (sqid =? NVME_AQ_ID). Qed.

Lemma need_prp_queue : (cmd_need_prp cmd op).1 = true → is_create cmd op = false →
  sqid = NVME_AQ_ID → is_queue_op op = false.
Proof.
  unfold cmd_need_prp, is_create, is_queue_op. intros Hn Hc Hs. rewrite Hs in *.
  change (NVME_AQ_ID =? NVME_AQ_ID) with true in *. cbn [andb] in *. rewrite Hc in Hn.
  apply orb_false_iff in Hc as [-> ->].
  destruct (op =? nvme_admin_delete_sq); [done|]. by destruct (op =? nvme_admin_delete_cq).
Qed.

Lemma wp_opcode {A} (f : Z → M A) (Φ : A → world → Prop) w :
  wp (f (if sqid =? NVME_AQ_ID then op else 0)) Φ w →
  wp (o ← (if sqid =? NVME_AQ_ID then ccmd_opcode ccmd else mret 0); f o) Φ w.
Proof.
  intros Hf. apply wp_bind. destruct (sqid =? NVME_AQ_ID); [|by apply wp_ret].
  unfold wp, ccmd_opcode. by rewrite (ccmd_get_ok _ _ _ _ Hop).
Qed.

(** What the command keeps. *)
Definition keeps_data (c : list Z) (o : option (owned nvme_prps)) : Prop :=
  match o with
  | None => (cmd_need_prp cmd op).1 = false ∧ c = ccmd
  | Some (_, prps) =>
    (cmd_need_prp cmd op).1 = true ∧ ∃ l, mapped cmd l ∧ described cmd flags l c prps
  end.

Definition prepared (w : world) (r : Z * list Z) (w' : world) : Prop :=
  calm w w' ∧
  (r.1 < 0 ∧ inv X w' ∧ w_dev w' = w_dev w ∨
   r.1 = 0 ∧ inv X w' ∧ dptr_only ccmd r.2 ∧ ∃ p o,
     w_dev w' = push_cmd sqid (cmd_node p cid op sqid (target_of sqid op qid) tail o) (w_dev w) ∧
     keeps_data r.2 o).

Lemma wp_prepare_none w :
  inv X w → ndev_sqs (w_dev w) !! sqid = Some q → target_there (w_dev w) →
  (cmd_need_prp cmd op).1 = false →
  wp (dnvme_prepare_64b_cmd cmd ccmd) (prepared w) w.
Proof.
  intros Hw Hq [Hs Hc] Hn. unfold dnvme_prepare_64b_cmd. apply wp_opcode. cbv zeta.
  rewrite need_prp_op. destruct (cmd_need_prp cmd op) as [need qm] eqn:Hnp. simpl in Hn. subst need.
  cbn [negb]. apply wp_bind. eapply wp_mono.
  { eapply (wp_add_node X cmd ccmd None q cid op (target_of sqid op qid)); try done; [|by left].
    intros w' Hd. destruct (cmd_target_ok sqid ccmd op qid w' Hop Hqid) as (wq & H & _);
      [rewrite Hd; done|rewrite Hd; done|]. by exists wq. }
  intros r w' (Hcalm & [(-> & Hi & Hd)|(-> & Hi & p & Hd)]); apply wp_ret; (split; [done|]).
  - by left.
  - right. split_and!; [done|done|done|]. exists p, None. split; [done|]. simpl. by rewrite Hnp.
Qed.

Lemma triple_cmd_map prps :
  user_buf_ok (c64_data_buf_ptr cmd) (c64_data_buf_size cmd) →
  prps_buf prps = 0 → sg_ptr prps = 0 →
  triple [] (dnvme_cmd_map_user_page cmd ccmd prps)
    (λ rp R, rp.1 < 0 ∧ R = [] ∨
      rp.1 = 0 ∧ R ≡ₚ map_items rp.2 ∧ mapped cmd (sg rp.2) ∧ sg rp.2 ≠ [] ∧
      let n := buf_pages (c64_data_buf_ptr cmd) (c64_data_buf_size cmd) in
      num_map_pgs rp.2 = n ∧ num_map_pgs rp.2 = Z.of_nat (length (sg rp.2)) ∧
      data_buf_size rp.2 = c64_data_buf_size cmd ∧ prp_list_ptr rp.2 = prp_list_ptr prps ∧
      (is_create cmd op = true → prps_buf rp.2 ≠ 0)).
Proof.
  intros (Hs & Hb & Hal) H0 H1. unfold dnvme_cmd_map_user_page.
  eapply triple_bind; [eapply triple_pure, ccmd_get_ok, Hop|]. intros ? R [-> ->].
  cbv zeta. fold (is_create cmd op).
  eapply triple_conseq; [done|by apply triple_map_user_page|].
  intros [ret p'] R [([Hr|[_ []]] & _ & ->)|(Hr & HR & Hn & sgl & h & b & _ & Hbuf & Hp)];
    [by left|exact Hal|right]. simpl in Hr, HR, Hp |- *.
  fold (buf_pages (c64_data_buf_ptr cmd) (c64_data_buf_size cmd)) in Hn, Hp.
  assert (length (sg p') = Z.to_nat (buf_pages (c64_data_buf_ptr cmd) (c64_data_buf_size cmd)))
    as Hl by (rewrite Hp; apply length_sg_answer).
  split_and!; [done|done| | |by rewrite Hp|rewrite Hl, Hp; simpl; lia|by rewrite Hp..|].
  - exists h. by rewrite Hp.
  - intros Hnil. rewrite Hnil in Hl. simpl in Hl. lia.
  - intros Hc. rewrite Hp. simpl. rewrite Hbuf, Hc. done.
Qed.

(** What the description of a buffer mapped with [prps] leaves, [Good] being what
    it achieves. *)
Definition describes (Good : nvme_prps → list Z → nvme_prps → Prop) : Prop :=
  ∀ prps, mapped cmd (sg prps) → sg prps ≠ [] →
    num_map_pgs prps = Z.of_nat (length (sg prps)) →
    data_buf_size prps = c64_data_buf_size cmd → prp_list_ptr prps = 0 →
    triple [] (describe cmd ccmd flags prps)
      (λ '(ret, c', p') R,
        ret < 0 ∧ R = [] ∧ map_items p' = map_items prps ∨
        ret = 0 ∧ R ≡ₚ list_items p' ∧ map_items p' = map_items prps ∧ prps_wf p' ∧
        Good prps c' p').

(** The error paths. *)
Lemma triple_undo_map p prps (r : Z * list Z) : p ≠ 0 →
  triple (map_items prps ++ [Blk p AK_kmalloc None])
    (dnvme_unmap_user_page prps;; kfree p;; mret r) (λ a R, a = r ∧ R = []).
Proof.
  intros Hp. eapply triple_step; [apply triple_unmap_user_page|done|]. intros ? R [-> _].
  tgive (@nil item) (triple_kfree p None Hp). intros _ R ->. by apply triple_ret.
Qed.
Lemma triple_undo_list p prps (r : Z * list Z) : p ≠ 0 → prps_wf prps →
  triple (oprps_items (Some (p, prps)))
    (prps ← dnvme_free_prp_list prps; dnvme_unmap_user_page prps;; kfree p;; mret r)
    (λ a R, a = r ∧ R = []).
Proof.
  intros Hp Hwf. unfold oprps_items, prps_items.
  eapply (triple_step (map_items prps ++ [Blk p AK_kmalloc None]));
    [by apply triple_free_prp_list|solve_Permutation|].
  intros p2 R [-> Hm]. rewrite <- Hm. by apply triple_undo_map.
Qed.

(** A command with a buffer, whoever keeps the description in the end. *)
Lemma wp_prepare_buf w Good (Done : list Z → owned nvme_prps → world → Prop) :
  inv X w → (cmd_need_prp cmd op).1 = true →
  user_buf_ok (c64_data_buf_ptr cmd) (c64_data_buf_size cmd) → describes Good →
  (∀ prps c' p p' w1, p ≠ 0 → prps_wf p' → Good prps c' p' → mapped cmd (sg prps) →
    num_map_pgs prps = buf_pages (c64_data_buf_ptr cmd) (c64_data_buf_size cmd) →
    (is_create cmd op = true → prps_buf prps ≠ 0) →
    inv (oprps_items (Some (p, p')) ++ X) w1 → w_dev w1 = w_dev w →
    wp (dnvme_add_cmd_node cmd c' (Some (p, p')))
      (λ r w2, calm w1 w2 ∧
        (r = - ENOMEM ∧ inv (oprps_items (Some (p, p')) ++ X) w2 ∧ w_dev w2 = w_dev w1 ∨
         r = 0 ∧ Done c' (p, p') w2)) w1) →
  wp (dnvme_prepare_64b_cmd cmd ccmd)
    (λ r w', calm w w' ∧
      (r.1 < 0 ∧ inv X w' ∧ w_dev w' = w_dev w ∨ r.1 = 0 ∧ ∃ o, Done r.2 o w')) w.
Proof.
  intros Hw Hn Hub Hdes Hadd. unfold dnvme_prepare_64b_cmd. apply wp_opcode. cbv zeta.
  rewrite need_prp_op. destruct (cmd_need_prp cmd op) as [need qm]. simpl in Hn. subst need.
  cbn [negb]. apply wp_bind.
  eapply (wp_aside [] X); [apply triple_kmalloc|exact Hw|done|].
  intros p R w1 HR Hw1 Hd1 Hc1. destruct (Z.eqb_spec p 0) as [->|Hp].
  { destruct HR as [[_ ->]|[? _]]; [|lia]. apply wp_ret. split; [done|by left]. }
  destruct HR as [[? _]|[_ ->]]; [lia|]. apply wp_bind, wp_gets.
  set (prps0 := prps_zero <| pg_pool := _ |>). apply wp_bind.
  eapply (wp_aside [] (Blk p AK_kmalloc None :: X));
    [by apply triple_cmd_map|exact Hw1|done|].
  intros [ret prps] R w2 [(Hr & ->)|(Hr & HR & Hm & Hne & Hnm & Hlen' & Hsz & Hlp & Hacc)]
    Hw2 Hd2 Hc2; cbn [fst snd] in *; pose proof (calm_same _ _ _ Hc1 Hd1 Hc2) as Hc12;
    rewrite Hd1 in Hd2.
  { rewrite (proj2 (Z.ltb_lt _ _) Hr). apply wp_bind.
    eapply (wp_aside [Blk p AK_kmalloc None] X); [by apply triple_kfree|exact Hw2|done|].
    intros _ R w3 -> Hw3 Hd3 Hc3. apply wp_ret.
    split; [by apply (calm_same _ _ _ Hc12 Hd2)|left]. rewrite Hd3. done. }
  subst ret. cbn. apply wp_bind. unfold wp at 1, ccmd_flags. rewrite (ccmd_get_ok _ _ _ _ Hfl).
  fold (describe cmd ccmd flags prps). apply wp_bind. rewrite HR in Hw2.
  eapply (wp_aside [] (map_items prps ++ Blk p AK_kmalloc None :: X));
    [by apply Hdes|exact Hw2|done|].
  intros [[ret c'] p'] R' w3 Hpost Hw3 Hd3 Hc3. rewrite Hd2 in Hd3.
  pose proof (calm_same _ _ _ Hc12 Hd2 Hc3) as Hc13.
  destruct Hpost as [(Hr & -> & Hmi)|(-> & HR' & Hmi & Hpw & Hgood)].
  { rewrite (proj2 (Z.ltb_lt _ _) Hr). rewrite <- Hmi in Hw3.
    eapply (wp_aside _ X); [by apply triple_undo_map|exact Hw3|solve_Permutation|].
    intros ? R' w4 [-> ->] Hw4 Hd4 Hc4. split; [by apply (calm_same _ w3)|]. left. by rewrite Hd4. }
  cbn. apply wp_bind. eapply wp_mono.
  { apply (Hadd prps c' p p'); try done. revert Hw3. rewrite HR', <- Hmi. apply inv_perm; [|done].
    unfold oprps_items, prps_items. solve_Permutation. }
  intros r w4 (Hc4 & [(-> & Hw4 & Hd4)|(-> & Hdone)]);
    pose proof (calm_same _ _ _ Hc13 Hd3 Hc4) as Hc14.
  2:{ apply wp_ret. split; [done|right]. split; [done|]. by exists (p, p'). }
  eapply (wp_aside _ X); [by apply triple_undo_list|exact Hw4|done|].
  intros ? R4 w5 [-> ->] Hw5 Hd5 Hc5. rewrite Hd3 in Hd4.
  split; [by apply (calm_same _ w4)|left]. by rewrite Hd5.
Qed.

Lemma wp_prepare_data w :
  inv X w → ndev_sqs (w_dev w) !! sqid = Some q →
  (cmd_need_prp cmd op).1 = true → is_create cmd op = false → transfer_ok cmd flags →
  wp (dnvme_prepare_64b_cmd cmd ccmd) (prepared w) w.
Proof.
  intros Hw Hq Hn Hcr [Hub Hsh].
  pose proof (need_prp_queue Hn Hcr) as Hnq.
  assert (target_of sqid op qid = 0) as Ht.
  { unfold target_of. destruct (Z.eqb_spec sqid NVME_AQ_ID); [|done]. by rewrite Hnq. }
  eapply wp_mono.
  - apply (wp_prepare_buf w
      (λ prps c' p', dptr_only ccmd c' ∧ described cmd flags (sg prps) c' p')
      (λ c' o w', inv X w' ∧ dptr_only ccmd c' ∧ (∃ p, w_dev w' =
        push_cmd sqid (cmd_node p cid op sqid (target_of sqid op qid) tail (Some o)) (w_dev w)) ∧
        ∃ l, mapped cmd l ∧ described cmd flags l c' o.2)); try done.
    + intros prps Hm Hne Hnum Hsz Hlp. eapply triple_describe; try done. by apply Hsh.
    + intros prps c' p p' w1 Hp Hpw [Hd Hdes] Hm _ _ Hw1 Hd1. eapply wp_mono.
      * eapply (wp_add_node X cmd c' (Some (p, p')) q cid op 0); try done.
        -- by rewrite (dptr_load_le _ _ _ _ Hd) by lia.
        -- by rewrite (dptr_load_le _ _ _ _ Hd) by lia.
        -- by rewrite Hd1.
        -- intros w' _. rewrite <- Ht.
           destruct (cmd_target_ok sqid c' op qid w') as (wq & H & _); [| | | |by exists wq].
           ++ by rewrite (dptr_load_le _ _ _ _ Hd) by lia.
           ++ by rewrite (dptr_load_le _ _ _ _ Hd) by lia.
           ++ intros Hs ->. by specialize (Hnq Hs).
           ++ intros Hs ->. by specialize (Hnq Hs).
        -- by right.
        -- intros Hs Hqo. rewrite (Hnq Hs) in Hqo. done.
      * intros r w2 (Hc & [?|(-> & Hi & pn & Hdev)]); (split; [done|]); [by left|right].
        split; [done|]. rewrite Ht, <- Hd1. split_and!; eauto.
  - intros [r c'] w' (Hc & [?|(Hr & o & Hi & Hd & [p Hdev] & Hl)]); (split; [done|]); [by left|right].
    split_and!; try done. exists p, (Some o). split; [done|]. by destruct o.
Qed.

(** All commands but those that create a queue on a user buffer. *)
Lemma wp_prepare w :
  inv X w → ndev_sqs (w_dev w) !! sqid = Some q → target_there (w_dev w) →
  (is_create cmd op = true → c64_data_buf_ptr cmd = 0) →
  (c64_data_buf_ptr cmd ≠ 0 → transfer_ok cmd flags) →
  wp (dnvme_prepare_64b_cmd cmd ccmd) (prepared w) w.
Proof.
  intros Hw Hq Ht Hcr Htr. destruct (cmd_need_prp cmd op).1 eqn:Hn; [|by apply wp_prepare_none].
  assert (c64_data_buf_ptr cmd ≠ 0) as Hb.
  { intros H0. unfold cmd_need_prp in Hn. rewrite H0 in Hn. cbn in Hn.
    destruct (_ =? _); [|done]. destruct (_ || _); [done|]. by destruct (_ || _). }
  apply wp_prepare_data; try done; [|by apply Htr].
  destruct (is_create cmd op); [|done]. by specialize (Hcr eq_refl).
Qed.

(** The memory of the queue to be created: the pages of [l], listed from PRP1. *)
Definition described_queue (l : list scatterlist) (c : list Z) (prps : nvme_prps) : Prop :=
  ∃ s l' rest prps0 d0, l = s :: l' ++ rest ∧ sg_wf (s :: l') (c64_data_buf_size cmd) ∧
    list_built prps0 (sg_chunks (s :: l')) prps d0 ∧ load_le 8 c 24 = Some d0.

Definition queue_mem_ok (size : Z) : Prop :=
  user_buf_ok (c64_data_buf_ptr cmd) (c64_data_buf_size cmd) ∧ size ≤ c64_data_buf_size cmd ∧
  ∀ l, mapped cmd l → ∃ s l' rest, l = s :: l' ++ rest ∧
    sg_wf (s :: l') (c64_data_buf_size cmd) ∧ offset_in_page (sg_dma_address s) = 0.

Lemma buf_pages_room buf size : 0 ≤ size → size ≤ buf_pages buf size * PAGE_SIZE.
Proof.
  intros Hs. unfold buf_pages. pose proof (offset_in_page_range buf).
  destruct (DIV_ROUND_UP_spec (offset_in_page buf + size) PAGE_SIZE) as [Hb|Hb];
    [done|lia|unfold PAGE_SIZE in *; lia|lia].
Qed.

Lemma is_create_admin : is_create cmd op = true → sqid = NVME_AQ_ID ∧ is_queue_op op = true ∧
  dnvme_use_sgls flags cmd = false ∧ (cmd_need_prp cmd op).1 = negb (c64_data_buf_ptr cmd =? 0).
Proof.
  unfold is_create, is_queue_op, dnvme_use_sgls, cmd_need_prp.
  intros [Hs Hc]%andb_true_iff. rewrite Hs, Hc. apply Z.eqb_eq in Hs. rewrite Hs.
  split_and!; try done.
  - apply orb_true_iff in Hc as [-> | ->]; by rewrite ?orb_true_r.
  - by destruct (negb _).
Qed.

(** A create command with the memory of the queue; [size] is the size of the queue. *)
Lemma wp_prepare_create w size hook mark :
  inv X w → ndev_sqs (w_dev w) !! NVME_AQ_ID = Some q → is_create cmd op = true →
  c64_data_buf_ptr cmd ≠ 0 → qid ≠ 0 → queue_mem_ok size → target_there (w_dev w) →
  (op = nvme_admin_create_sq ∧ hook = hook_sq qid ∧ mark = mark_sq qid ∨
   op = nvme_admin_create_cq ∧ hook = hook_cq qid ∧ mark = mark_cq qid) →
  (∀ p prps Y w', oprps_wf (Some (p, prps)) → prps_buf prps ≠ 0 →
    size ≤ num_map_pgs prps * PAGE_SIZE →
    inv (oprps_items (Some (p, prps)) ++ Y) w' → w_dev w' = w_dev w →
    inv Y (w' <| w_dev ::= hook (Some (p, prps)) |>)) →
  wp (dnvme_prepare_64b_cmd cmd ccmd)
    (λ r w', calm w w' ∧
      (r.1 < 0 ∧ inv X w' ∧ w_dev w' = w_dev w ∨
       r.1 = 0 ∧ inv X (w' <| w_dev ::= mark |>) ∧ dptr_only ccmd r.2 ∧ ∃ pn o l,
         mark (w_dev w') = push_cmd NVME_AQ_ID (cmd_node pn cid op NVME_AQ_ID qid tail None)
           (hook (Some o) (w_dev w)) ∧
         mapped cmd l ∧ described_queue l r.2 o.2)) w.
Proof.
  intros Hw Hq Hcr Hbuf Hq0 (Hub & Hsz & Hmap) [Hts Htc] Hcase Hhook.
  destruct (is_create_admin Hcr) as (Hs & Hqo & Hsgl & Hn).
  rewrite (proj2 (Z.eqb_neq _ 0) Hbuf) in Hn. simpl in Hn.
  set (Good := λ prps c' p', dptr_only ccmd c' ∧ described_queue (sg prps) c' p' ∧
    prps_buf p' = prps_buf prps ∧ num_map_pgs p' = num_map_pgs prps).
  eapply wp_mono.
  - apply (wp_prepare_buf w Good
      (λ c' o w', inv X (w' <| w_dev ::= mark |>) ∧ dptr_only ccmd c' ∧ ∃ pn l,
        mark (w_dev w') = push_cmd NVME_AQ_ID (cmd_node pn cid op NVME_AQ_ID qid tail None)
           (hook (Some o) (w_dev w)) ∧ mapped cmd l ∧ described_queue l c' o.2)); try done.
    + intros prps Hm Hne Hnum Hds Hlp. unfold describe. rewrite Hsgl.
      destruct (Hmap _ Hm) as (s & l & rest & Hl & Hwf & Hal).
      tcall (triple_setup_prps_queue cmd ccmd prps s l rest op); try done; [by rewrite Hds|].
      intros [[ret c'] p'] R [(Hr & -> & ->)|(-> & HR & Hd & d0 & Hb & Hl0)];
        rewrite app_nil_r; apply triple_ret.
      * left. split_and!; [|done|done]. destruct Hr as [->| ->]; done.
      * right. destruct (list_built_wf _ _ _ _ Hb) as [Hmi Hpw]. split_and!; try done.
        pose proof Hb as (? & ? & ? & ? & _ & _ & _ & _ & _ & _ & ->).
        split_and!; try done. exists s, l, rest, (prps <| is_sgl := false |>), d0.
        split_and!; try done. destruct Hb as (lp & dp & pgs & np & Hb). exists lp, dp, pgs, np.
        destruct Hb as (? & ? & ? & ? & ? & ? & Hp). rewrite Hp. done.
    + intros prps c' p p' w1 Hp Hpw (Hd & Hdq & Hb' & Hn') Hm Hnm Hacc Hw1 Hd1.
      assert (load_le 1 c' 0 = Some op) as Hop' by (by rewrite (dptr_load_le _ _ _ _ Hd) by lia).
      assert (load_le 2 c' 40 = Some qid) as Hqid' by (by rewrite (dptr_load_le _ _ _ _ Hd) by lia).
      eapply wp_mono.
      * eapply (wp_add_node_hook X cmd c' p p' q cid op qid w1 (hook (Some (p, p'))) mark); try done.
        -- by rewrite (dptr_load_le _ _ _ _ Hd) by lia.
        -- by rewrite Hd1.
        -- destruct Hcase as [(Ho & -> & ->)|(Ho & -> & ->)]; [exists WAIT_sq|exists WAIT_cq];
             (split; [|tauto]); intros w' Hd';
             destruct (cmd_target_ok NVME_AQ_ID c' op qid w' Hop' Hqid') as (wq & -> & H1 & H2);
             rewrite ?Hd', ?Hd1 by done; try (intros _; by apply Hts || by apply Htc).
           ++ rewrite (H1 eq_refl Ho). unfold target_of. by rewrite Hqo.
           ++ rewrite (H2 eq_refl Ho). unfold target_of. by rewrite Hqo.
        -- intros Y w' HY HdY. apply Hhook; try done; [by rewrite Hb'; apply Hacc| |by rewrite HdY].
           rewrite Hn', Hnm. etrans; [exact Hsz|]. apply buf_pages_room. by destruct Hub.
      * intros r w2 (Hc & [?|(-> & Hi & pn & Hdev)]); (split; [done|]); [by left|right].
        split; [done|]. rewrite <- Hd1. split_and!; eauto.
  - intros [r c'] w' (Hc & [?|(Hr & o & Hi & Hd & pn & l & Hdev & Hl)]); (split; [done|]);
      [by left|right]. split_and!; try done. by exists pn, o, l.
Qed.
End prepare.
End transfer.
