(* ===== verification/Submit.v ===== *)
(** * Submission

    [dnvme_submit_64b_cmd] as a whole: a command is refused and the device structure
    stays as it was but for the next command identifier, or its node joins the pending
    commands, the memory it describes is the buffer of the request, and its 64 bytes
    are in the entry of the submission queue that the tail pointed to. *)

From S2P Require Import Prelude Types Kernel Io Own Prp Paged PrpSpec Sgl SglSpec Ring Irq Queue Cmd Meta Inv Demo QueueSpec Trace QueueOps MetaSpec CmdSpec.

Section submit.
Context {E : Env}.

(** ** Queues marked as created *)

Lemma mark_sq_contig t id node qt d :
  ndev_sqs d !! t = Some qt → sq_prps qt = None →
  mark_sq t (push_cmd id node d) = push_cmd id node (hook_sq t None d).
Proof.
  intros Ht Hp. transitivity (d <| ndev_sqs ::= λ m, alter (λ q, q <| sq_created := true |>) t
    (alter (λ q, q <| sq_cmd_list ::= λ l, l ++ [node] |>) id m) |>); [done|].
  transitivity (d <| ndev_sqs ::= λ m, alter (λ q, q <| sq_cmd_list ::= λ l, l ++ [node] |>) id
    (alter (λ q, q <| sq_prps := None |> <| sq_created := true |>) t m) |>); [|done].
  unfold set_field at 1 4. f_equal. apply map_eq. intros i.
  destruct (decide (i = t)) as [->|]; destruct (decide (t = id)) as [->|];
    [| |destruct (decide (i = id)) as [->|]..];
    repeat first [rewrite lookup_alter_eq | rewrite lookup_alter_ne by done]; try done;
    rewrite Ht; destruct qt; simpl in Hp; subst; done.
Qed.
Lemma mark_cq_contig t id node qt d :
  ndev_cqs d !! t = Some qt → cq_prps qt = None →
  mark_cq t (push_cmd id node d) = push_cmd id node (hook_cq t None d).
Proof.
  intros Ht Hp. transitivity (push_cmd id node (d <| ndev_cqs ::= alter (λ q, q <| cq_created := true |>) t |>));
    [done|]. f_equal. unfold hook_cq, set_field at 1 3. f_equal. apply map_eq. intros i.
  destruct (decide (i = t)) as [->|].
  - rewrite !lookup_alter_eq, Ht. destruct qt; simpl in Hp; subst; done.
  - by rewrite !lookup_alter_ne.
Qed.

Lemma inv_mark_sq X t qt w :
  inv X w → ndev_sqs (w_dev w) !! t = Some qt → inv X (w <| w_dev ::= mark_sq t |>).
Proof.
  intros Hw Hq. apply (inv_upd_sq X w t qt (λ q, q <| sq_created := true |>) [] []); [done..|].
  destruct (dw_sqs _ (i_dev _ _ Hw) _ _ Hq) as [? ? ? ? ? [] ? ? ?]. split; try done.
Qed.
Lemma inv_mark_cq X t qt w :
  inv X w → ndev_cqs (w_dev w) !! t = Some qt → inv X (w <| w_dev ::= mark_cq t |>).
Proof.
  intros Hw Hq. apply (inv_upd_cq X w t qt (λ q, q <| cq_created := true |>) [] []); [done..|].
  destruct (dw_cqs _ (i_dev _ _ Hw) _ _ Hq) as [? ? ? ? ? ? ? ? []]. split; try done.
Qed.

(** ** The handler of a command *)

Section dispatch.
Context (X : list item) (cmd : nvme_64b_cmd) (ccmd : list Z) (q : nvme_sq) (cid op qid flags : Z).
Context (Hlen : length ccmd = 64%nat) (Hcid : load_le 2 ccmd 2 = Some cid)
  (Hop : load_le 1 ccmd 0 = Some op) (Hqid : load_le 2 ccmd 40 = Some qid)
  (Hfl : load_le 1 ccmd 1 = Some flags).
Local Abbreviation sqid := (c64_sqid cmd).
Local Abbreviation tail := (sqp_tail_ptr_virt (sq_pub q)).

(** A request the driver copes with: the buffer of a data command can be mapped; a
    contiguous queue is created without a buffer and any other one with at least its
    size, from a page boundary. *)
Definition queue_req_ok (contig : bool) (size : Z) : Prop :=
  if contig then c64_data_buf_ptr cmd = 0 else queue_mem_ok cmd size.
Definition admissible (d : nvme_device) : Prop :=
  (is_create cmd op = false → c64_data_buf_ptr cmd ≠ 0 → transfer_ok cmd flags) ∧
  (sqid = NVME_AQ_ID → op = nvme_admin_create_sq → ∀ t, ndev_sqs d !! qid = Some t →
    queue_req_ok (sq_contig t) (sq_size t)) ∧
  (sqid = NVME_AQ_ID → op = nvme_admin_create_cq → ∀ t, ndev_cqs d !! qid = Some t →
    queue_req_ok (cq_contig t) (cq_size t)).

(** The device structure once the command is accepted: [o] describes its buffer. *)
Definition accept_dev (pn : Z) (o : option (owned nvme_prps)) (d : nvme_device) : nvme_device :=
  push_cmd sqid (cmd_node pn cid op sqid (target_of sqid op qid) tail
                   (if is_create cmd op then None else o))
    (if is_create cmd op
     then if op =? nvme_admin_create_sq then hook_sq qid o d else hook_cq qid o d
     else d).

(** PRP1 of a created queue is its own memory or the list of its pages. *)
Definition queue_prp1 (dma : Z) (c : list Z) (o : option (owned nvme_prps)) : Prop :=
  match o with
  | None => load_le 8 c 24 = Some (u64 dma)
  | Some (_, prps) => ∃ l, mapped cmd l ∧ described_queue cmd l c prps
  end.
Definition accept_data (d : nvme_device) (c : list Z) (o : option (owned nvme_prps)) : Prop :=
  if is_create cmd op
  then if op =? nvme_admin_create_sq
       then ∃ t, ndev_sqs d !! qid = Some t ∧ queue_prp1 (sq_dma t) c o
       else ∃ t, ndev_cqs d !! qid = Some t ∧ queue_prp1 (cq_dma t) c o
  else keeps_data cmd ccmd op flags c o.

Definition accepted (w : world) (r : Z * list Z) (w' : world) : Prop :=
  calm w w' ∧
  (r.1 < 0 ∧ inv X w' ∧ w_dev w' = w_dev w ∨
   r.1 = 0 ∧ inv X w' ∧ dptr_only ccmd r.2 ∧ ∃ pn o,
     w_dev w' = accept_dev pn o (w_dev w) ∧ accept_data (w_dev w) r.2 o).

(** The handlers that only prepare the command. *)
Lemma wp_deal w :
  inv X w → ndev_sqs (w_dev w) !! sqid = Some q → is_create cmd op = false →
  admissible (w_dev w) →
  wp ('(ret, c) ← dnvme_prepare_64b_cmd cmd ccmd;
      if ret <? 0 then mret (ret, c) else mret (0, c)) (accepted w) w.
Proof.
  intros Hw Hq Hcr (Hok & _). apply wp_bind. eapply wp_mono.
  { apply (wp_prepare X cmd ccmd q cid op qid flags); try done; [|by rewrite Hcr|auto].
    unfold is_create in Hcr. split; intros Hs ->; rewrite Hs in Hcr; done. }
  intros [r c'] w' (Hc & [(Hr & Hi & Hd)|(Hr & Hi & Hp & pn & o & Hd & Hk)]); cbn [fst snd] in *.
  - rewrite (proj2 (Z.ltb_lt _ _) Hr). apply wp_ret. split; [done|by left].
  - subst r. apply wp_ret. split; [done|right]. split_and!; try done. exists pn, o.
    unfold accept_dev, accept_data. by rewrite Hcr.
Qed.

Lemma set_queue_mem dma c w : length c = 64%nat →
  ∃ c', ccmd_set_queue_mem dma c w = Val c' w ∧ dptr_only c c' ∧
    load_le 8 c' 24 = Some (u64 dma).
Proof.
  intros Hl. unfold ccmd_set_queue_mem, mbind, M_bind.
  destruct (ccmd_set_ok 8 24 dma c) as (c1 & H1 & W1); [lia|lia|].
  pose proof (length_store_bytes _ _ _ _ H1) as L1.
  destruct (ccmd_set_ok 8 32 0 c1) as (c2 & H2 & W2); [lia|lia|].
  exists c2. unfold ccmd_set_prp1, ccmd_set_prp2. rewrite W1, W2. split_and!; [done| |].
  - etrans; eapply store_dptr; (done || lia).
  - apply load_store_le in H1 as H24. by destruct (load_prps _ _ 0 _ ltac:(lia) H24 H2).
Qed.

(** What is common to [dnvme_create_iosq] and [dnvme_create_iocq], from the point where
    the queue of the command has been found fit for it. *)
Section create.
Context (contig : bool) (size dma : Z) (hook : option (owned nvme_prps) → nvme_device → nvme_device)
  (mark : nvme_device → nvme_device) (w : world).
Context (Hw : inv X w) (Hq : ndev_sqs (w_dev w) !! NVME_AQ_ID = Some q) (Hcr : is_create cmd op = true).
Context (Hcase : op = nvme_admin_create_sq ∧ hook = hook_sq qid ∧ mark = mark_sq qid ∨
   op = nvme_admin_create_cq ∧ hook = hook_cq qid ∧ mark = mark_cq qid).
Context (Hthere : target_there cmd op qid (w_dev w)).
Context (Hreq : queue_req_ok contig size) (Hmem : contig = false → c64_data_buf_ptr cmd ≠ 0 ∧ qid ≠ 0).
(** giving the queue its memory, and marking a contiguous one, keep the invariant *)
Context (Hhook : contig = false → ∀ p prps Y w', oprps_wf (Some (p, prps)) → prps_buf prps ≠ 0 →
    size ≤ num_map_pgs prps * PAGE_SIZE →
    inv (oprps_items (Some (p, prps)) ++ Y) w' → w_dev w' = w_dev w →
    inv Y (w' <| w_dev ::= hook (Some (p, prps)) |>)).
Context (Hmark : contig = true → ∀ node w', inv X w' → w_dev w' = push_cmd NVME_AQ_ID node (w_dev w) →
    inv X (w' <| w_dev ::= mark |>) ∧
    mark (w_dev w') = push_cmd NVME_AQ_ID node (hook None (w_dev w))).
Context (Hdata : ∀ c o, queue_prp1 dma c o → accept_data (w_dev w) c o).

Lemma hook_case o d :
  hook o d = if op =? nvme_admin_create_sq then hook_sq qid o d else hook_cq qid o d.
Proof. by destruct Hcase as [(-> & -> & _)|(-> & -> & _)]. Qed.

Lemma wp_create :
  wp ('(ret, c) ← dnvme_prepare_64b_cmd cmd ccmd;
      if ret <? 0 then mret (ret, c)
      else
        c ← (if contig then ccmd_set_queue_mem dma c else mret c);
        upd_dev mark;; mret (0, c)) (accepted w) w.
Proof.
  destruct (is_create_admin cmd op flags Hcr) as (Hs & Hqo & _ & Hn).
  assert (∀ pn o d, accept_dev pn o d = push_cmd NVME_AQ_ID
    (cmd_node pn cid op NVME_AQ_ID qid tail None) (hook o d)) as Heff.
  { intros. unfold accept_dev, target_of. by rewrite Hcr, Hs, Hqo, hook_case. }
  apply wp_bind. unfold queue_req_ok in Hreq. destruct contig eqn:Hct.
  - eapply wp_mono.
    { apply (wp_prepare_none X cmd ccmd q cid op qid flags); try done; [by rewrite Hs|].
      by rewrite Hn, Hreq. }
    intros [r c1] w1 (Hc & [(Hr & Hi & Hd)|(Hr & Hi & Hp & pn & o & Hd & Hk)]); cbn [fst snd] in *.
    { rewrite (proj2 (Z.ltb_lt _ _) Hr). apply wp_ret. split; [done|by left]. }
    subst r. cbn. destruct (set_queue_mem dma c1 w1) as (c2 & Hset & Hd2 & Hl2).
    { destruct Hp as [-> _]. done. }
    apply wp_bind. unfold wp at 1. rewrite Hset. apply wp_bind, wp_modify, wp_ret.
    assert (o = None) as ->.
    { destruct o as [[]|]; [|done]. destruct Hk as [Hk _]. by rewrite Hn, Hreq in Hk. }
    assert (target_of sqid op qid = qid) as Ht by (unfold target_of; by rewrite Hs, Hqo).
    rewrite Hs, <- Hs, Ht in Hd. rewrite Hs in Hd.
    destruct (Hmark eq_refl _ w1 Hi Hd) as [Hi2 Hd3].
    split; [exact Hc|right]. split_and!; [done|exact Hi2|by etrans|]. exists pn, None.
    split; [rewrite Heff; exact Hd3|]. by apply Hdata.
  - destruct (Hmem eq_refl) as [Hb Hq0]. eapply wp_mono.
    { apply (wp_prepare_create X cmd ccmd q cid op qid flags) with (size := size) (hook := hook)
        (mark := mark); try done. by apply Hhook. }
    intros [r c1] w1 (Hc & [(Hr & Hi & Hd)|(Hr & Hi & Hp & pn & o & l & Hd & Hl & Hdes)]);
      cbn [fst snd] in *.
    { rewrite (proj2 (Z.ltb_lt _ _) Hr). apply wp_ret. split; [done|by left]. }
    subst r. cbn. apply wp_bind, wp_ret, wp_bind, wp_modify, wp_ret.
    split; [exact Hc|right]. split_and!; [done|exact Hi|done|]. exists pn, (Some o).
    split; [rewrite Heff; exact Hd|]. apply Hdata. destruct o. by exists l.
Qed.
End create.

Lemma ccmd_get_64 n off {A} (f : Z → M A) (Φ : A → world → Prop) w :
  0 ≤ off → off + Z.of_nat n ≤ 64 → (∀ v, load_le n ccmd off = Some v → wp (f v) Φ w) →
  wp (v ← ccmd_get n off ccmd; f v) Φ w.
Proof.
  intros H0 H1 Hf. destruct (load_le n ccmd off) as [v|] eqn:Hv.
  - apply wp_bind. unfold wp at 1. rewrite (ccmd_get_ok _ _ _ _ Hv). by apply Hf.
  - exfalso. unfold load_le, load_bytes in Hv. rewrite decide_True in Hv by lia. done.
Qed.

Lemma wp_create_iosq w :
  inv X w → ndev_sqs (w_dev w) !! sqid = Some q → sqid = NVME_AQ_ID → op = nvme_admin_create_sq →
  admissible (w_dev w) → wp (dnvme_create_iosq cmd ccmd) (accepted w) w.
Proof.
  intros Hw Hq Hs Ho (_ & Hadm & _). rewrite Hs in Hq. unfold dnvme_create_iosq, ccmd_qid, ccmd_qflags.
  apply ccmd_get_64; [lia|lia|]. intros v. rewrite Hqid. intros [= <-].
  apply wp_bind, wp_gets. unfold dnvme_find_sq.
  destruct (ndev_sqs (w_dev w) !! qid) as [t|] eqn:Ht; [|apply wp_ret; split; [done|by left]].
  apply ccmd_get_64; [lia|lia|]. intros fl _.
  destruct (contig_mismatch _ _); [apply wp_ret; split; [done|by left]|].
  destruct (mem_mismatch _ _ _) eqn:Hmm; [apply wp_ret; split; [done|by left]|].
  destruct (sq_created t) eqn:Hnew; [apply wp_ret; split; [done|by left]|].
  pose proof (dw_sqs _ (i_dev _ _ Hw) _ _ Ht) as Hwf.
  apply (wp_create (sq_contig t) (sq_size t) (sq_dma t) (hook_sq qid) (mark_sq qid)); try done.
  - unfold is_create. by rewrite Hs, Ho.
  - left. done.
  - split; [by eexists|]. intros _ H. by rewrite Ho in H.
  - by apply Hadm.
  - intros Hc. unfold mem_mismatch in Hmm. rewrite Hc in Hmm. cbn in Hmm.
    rewrite orb_false_r in Hmm. apply Z.eqb_neq in Hmm. split; [done|]. intros H0.
    rewrite (sqw_aq _ _ Hwf H0) in Hc. done.
  - intros Hc p prps Y w' Hp Hb Hsz Hi Hd. apply (inv_hook_sq Y qid t); try done. by rewrite Hd.
  - intros Hc node w' Hi Hd. rewrite Hd. split.
    + destruct (ndev_sqs (w_dev w') !! qid) as [t'|] eqn:Ht'; [by apply (inv_mark_sq X qid t')|].
      exfalso. rewrite Hd in Ht'. cbn in Ht'. apply lookup_alter_None in Ht'. by rewrite Ht in Ht'.
    + apply (mark_sq_contig _ _ _ t); [done|]. apply (qm_contig _ _ _ _ (sqw_mem _ _ Hwf) Hc).
  - intros c o Hp. unfold accept_data, is_create. rewrite Hs, Ho. by exists t.
Qed.

Lemma wp_create_iocq w :
  inv X w → ndev_sqs (w_dev w) !! sqid = Some q → sqid = NVME_AQ_ID → op = nvme_admin_create_cq →
  admissible (w_dev w) → wp (dnvme_create_iocq cmd ccmd) (accepted w) w.
Proof.
  intros Hw Hq Hs Ho (_ & _ & Hadm). rewrite Hs in Hq. unfold dnvme_create_iocq, ccmd_qid, ccmd_qflags.
  apply ccmd_get_64; [lia|lia|]. intros v. rewrite Hqid. intros [= <-].
  apply wp_bind, wp_gets. unfold dnvme_find_cq.
  destruct (ndev_cqs (w_dev w) !! qid) as [t|] eqn:Ht; [|apply wp_ret; split; [done|by left]].
  apply ccmd_get_64; [lia|lia|]. intros fl _.
  destruct (contig_mismatch _ _); [apply wp_ret; split; [done|by left]|].
  destruct (mem_mismatch _ _ _) eqn:Hmm; [apply wp_ret; split; [done|by left]|].
  destruct (cq_created t) eqn:Hnew; [apply wp_ret; split; [done|by left]|].
  destruct (_ && _); [apply wp_ret; split; [done|by left]|].
  pose proof (dw_cqs _ (i_dev _ _ Hw) _ _ Ht) as Hwf.
  apply (wp_create (cq_contig t) (cq_size t) (cq_dma t) (hook_cq qid) (mark_cq qid)); try done.
  - unfold is_create. by rewrite Hs, Ho.
  - right. done.
  - split; [|by eexists]. intros _ H. by rewrite Ho in H.
  - by apply Hadm.
  - intros Hc. unfold mem_mismatch in Hmm. rewrite Hc in Hmm. cbn in Hmm.
    rewrite orb_false_r in Hmm. apply Z.eqb_neq in Hmm. split; [done|]. intros H0.
    rewrite (cqw_aq _ _ Hwf H0) in Hc. done.
  - intros Hc p prps Y w' Hp Hb Hsz Hi Hd. apply (inv_hook_cq Y qid t); try done. by rewrite Hd.
  - intros Hc node w' Hi Hd. rewrite Hd. split.
    + apply (inv_mark_cq X qid t); [done|]. by rewrite Hd.
    + apply (mark_cq_contig _ _ _ t); [done|]. apply (qm_contig _ _ _ _ (cqw_mem _ _ Hwf) Hc).
  - intros c o Hp. unfold accept_data, is_create. rewrite Hs, Ho. by exists t.
Qed.

Lemma wp_dispatch w :
  inv X w → ndev_sqs (w_dev w) !! sqid = Some q → admissible (w_dev w) →
  wp (dispatch_ccmd cmd ccmd) (accepted w) w.
Proof.
  intros Hw Hq Hadm. unfold dispatch_ccmd.
  destruct (Z.eqb_spec sqid NVME_AQ_ID) as [Hs|Hs].
  2:{ apply wp_deal; try done. unfold is_create. by rewrite (proj2 (Z.eqb_neq _ _) Hs). }
  apply wp_bind. unfold wp at 1, ccmd_opcode. rewrite (ccmd_get_ok _ _ _ _ Hop).
  assert (∀ b, b = (op =? nvme_admin_create_sq) || (op =? nvme_admin_create_cq) →
    is_create cmd op = b) as Hcr by (intros b ->; unfold is_create; by rewrite Hs).
  destruct (Z.eqb_spec op nvme_admin_delete_sq) as [Ho|];
    [apply wp_deal; try done; apply Hcr; by rewrite Ho|].
  destruct (Z.eqb_spec op nvme_admin_create_sq); [by apply wp_create_iosq|].
  destruct (Z.eqb_spec op nvme_admin_delete_cq) as [Ho|];
    [apply wp_deal; try done; apply Hcr; by rewrite Ho|].
  destruct (Z.eqb_spec op nvme_admin_create_cq); [by apply wp_create_iocq|].
  apply wp_deal; try done. by apply Hcr.
Qed.
End dispatch.

(** ** The entry of the queue *)

(** Where the entries of a queue are, and their bytes. *)
Definition sq_addr (q : nvme_sq) : Z :=
  if sq_contig q then sq_buf q else match sq_prps q with Some (_, prps) => prps_buf prps | None => 0 end.
Definition sq_bytes (w : world) (q : nvme_sq) : option (list Z) := blk_data <$> w_heap w !! sq_addr q.
Definition sq_usable (q : nvme_sq) : Prop := sq_contig q = false → is_Some (sq_prps q).

Definition advance (id : Z) (d : nvme_device) : nvme_device :=
  d <| ndev_sqs ::= alter (λ q, q <| sq_pub ::= λ p, p <| sqp_tail_ptr_virt ::= λ t,
         (t + 1) mod sqp_elements p |> |>) id |>.

(** A store into an owned block, with the contents. *)
Lemma mem_write_exact p k size R w off bs :
  holds (Blk p k (Some size) :: R) w → mem_kind k → 0 ≤ off → off + Z.of_nat (length bs) ≤ size →
  ∃ data data', blk_data <$> w_heap w !! p = Some data ∧ Z.of_nat (length data) = size ∧
    store_bytes data off bs = Some data' ∧
    wp (mem_write p off bs) (λ _ w', w_hist w' = w_hist w ∧ same_dev w w' ∧
      holds (Blk p k (Some size) :: R) w' ∧ untouched R w w' ∧
      blk_data <$> w_heap w' !! p = Some data') w.
Proof.
  intros Hw Hk Ho Hl. destruct (holds_blk _ _ _ _ _ Hw) as (Hp & b & Hb & Hbk & Hs & Hok).
  assert (Z.of_nat (length (blk_data b)) = size) as Hlen.
  { simpl in Hs. rewrite Hok by (by rewrite Hbk). lia. }
  destruct (store_bytes_Some (blk_data b) off bs) as [d Hd]; [lia|lia|].
  exists (blk_data b), d. split_and!; [by rewrite Hb|done|done|].
  unfold mem_write, get_block. apply wp_bind. unfold wp.
  rewrite (proj2 (Z.eqb_neq p 0) Hp), Hb, Hd. simpl. split_and!; try done.
  - apply (holds_put_data _ _ _ _ _ b); [done|done|]. by eapply length_store_bytes.
  - by eapply untouched_put_data.
  - rewrite lookup_alter_eq, Hb. done.
Qed.

(** The memory of a usable queue among what the device owns. *)
Lemma qmem_block contig created cmb buf size o :
  qmem_wf contig created size o → (contig = false → is_Some o) →
  ∃ k n, Blk (if contig then buf else match o with Some (_, prps) => prps_buf prps | None => 0 end)
    k (Some n) ∈ qmem_items contig cmb buf size o ∧ mem_kind k ∧ size ≤ n.
Proof.
  intros Hm Hu. unfold qmem_items. destruct contig.
  - exists (if cmb : bool then AK_p2p else AK_coherent), size. split_and!; [by left| |lia].
    destruct cmb; [by right; left|by left].
  - destruct (Hu eq_refl) as [[p prps] ->]. destruct (qm_size _ _ _ _ Hm p prps eq_refl) as [Hb Hsz].
    exists AK_vmap, (num_map_pgs prps * PAGE_SIZE). split_and!; [|by right; right|done].
    unfold oprps_items, prps_items, map_items, buf_items. rewrite (proj2 (Z.eqb_neq _ 0) Hb).
    set_solver.
Qed.

Lemma sq_mem_split X id q w :
  inv X w → ndev_sqs (w_dev w) !! id = Some q → sq_usable q →
  ∃ k n R, dev_items (w_dev w) ++ X ≡ₚ Blk (sq_addr q) k (Some n) :: R ∧ mem_kind k ∧ sq_size q ≤ n.
Proof.
  intros Hw Hq Hu. pose proof (dw_sqs _ (i_dev _ _ Hw) _ _ Hq) as Hwf.
  destruct (qmem_block _ _ (sq_use_cmb q) (sq_buf q) _ _ (sqw_mem _ _ Hwf) Hu) as (k & n & Hin & Hk & Hn).
  destruct (elem_of_Permutation (dev_items (w_dev w) ++ X) (Blk (sq_addr q) k (Some n)))
    as [H _]. destruct H as [R HR]; [|by exists k, n, R].
  rewrite (dev_items_sq _ _ _ Hq). unfold sq_items, sq_addr. set_solver.
Qed.

Lemma tail_next t e : 0 ≤ t < e → e ≤ 2 ^ 16 → u16 (u32 (t + 1) mod e) = (t + 1) mod e.
Proof.
  intros Ht He. rewrite (u32_small (t + 1)) by lia. apply u16_small.
  pose proof (Z.mod_pos_bound (t + 1) e). lia.
Qed.

Lemma advance_wf id q : sq_wf id q →
  sq_wf id (q <| sq_pub ::= λ p, p <| sqp_tail_ptr_virt ::= λ t, (t + 1) mod sqp_elements p |> |>).
Proof. intros []. split; try done. cbn. apply Z.mod_pos_bound. lia. Qed.

(** The command is written to the entry at the tail, and nothing else. *)
Lemma wp_place X id q c w :
  inv X w → ndev_sqs (w_dev w) !! id = Some q → sq_usable q → length c = 64%nat →
  ∃ data data', sq_bytes w q = Some data ∧
    store_bytes data (64 * sqp_tail_ptr_virt (sq_pub q)) c = Some data' ∧
    wp (place_cmd id c) (λ _ w', inv X w' ∧ w_dev w' = advance id (w_dev w) ∧
      w_irqs w' = w_irqs w ∧ w_mode w' = w_mode w ∧ sq_bytes w' q = Some data' ∧
      (w_hist w' = w_hist w ∨ w_hist w' = E_sync_sg :: w_hist w)) w.
Proof.
  intros Hw Hq Hu Hc. pose proof (dw_sqs _ (i_dev _ _ Hw) _ _ Hq) as Hwf.
  destruct (sq_mem_split X id q w Hw Hq Hu) as (k & n & R & HR & Hk & Hn).
  pose proof (i_holds _ _ Hw) as Hh. rewrite HR in Hh.
  pose proof (sqw_elements _ _ Hwf). pose proof (sqw_tail _ _ Hwf). pose proof (sqw_size _ _ Hwf).
  set (off := 64 * sqp_tail_ptr_virt (sq_pub q)).
  destruct (mem_write_exact _ _ _ _ _ off c Hh Hk) as (data & data' & Hd & _ & Hst & Hwp);
    [lia|rewrite Hc; lia|].
  exists data, data'. split_and!; [done|done|]. unfold place_cmd.
  apply wp_bind, (wp_get_sq id q); [done|].
  replace (u32 (Z.shiftl _ _)) with off.
  2:{ rewrite (sqw_sqes _ _ Hwf). unfold off, NVME_NVM_IOSQES. rewrite Z.shiftl_mul_pow2 by lia.
      rewrite u32_small; lia. }
  apply wp_bind. eapply wp_mono.
  { instantiate (1 := λ _ w', (w_hist w' = w_hist w ∨ w_hist w' = E_sync_sg :: w_hist w) ∧
      same_dev w w' ∧ holds (dev_items (w_dev w) ++ X) w' ∧ sq_bytes w' q = Some data').
    unfold sq_bytes, sq_addr, sq_usable in *. destruct (sq_contig q).
    - eapply wp_mono; [exact Hwp|]. intros _ w' (? & ? & ? & _ & ?). rewrite HR. split_and!; [by left|done..].
    - destruct (Hu eq_refl) as [[p prps] Hp]. rewrite Hp in *. apply wp_bind.
      eapply wp_mono; [exact Hwp|]. intros _ w' (Hhi & ? & ? & _ & ?). apply wp_emit. rewrite HR.
      split_and!; [right; cbn; by rewrite Hhi|done| |done]. by eapply (holds_ext _ w'). }
  intros _ w1 (Hh1 & Hs1 & Hw1 & Hb1). rewrite (proj2 (Z.eqb_neq _ 0)) by lia.
  apply wp_modify. pose proof Hs1 as (Hd1 & Hi1 & Hm1).
  assert (∀ d, ndev_sqs d !! id = Some q → d <| ndev_sqs ::= alter (λ q, q <| sq_pub ::= λ p,
      p <| sqp_tail_ptr_virt ::= λ t, u16 (u32 (t + 1) mod sqp_elements p) |> |>) id |> =
      advance id d) as Hadv.
  { intros d Hqd. apply (upd_sq_eq _ _ q); [done|]. unfold set_field. by rewrite tail_next by lia. }
  assert (inv X w1) as Hi by (eapply inv_same_dev; [exact Hw|exact Hs1|done]).
  rewrite <- Hd1 in Hq. cbn. rewrite (Hadv _ Hq).
  split_and!; [|by rewrite Hd1|done|done|done|done].
  eapply (inv_upd_eq X w1 _ (advance id)); [by apply Hadv|].
  apply (inv_upd_sq X w1 id q (λ q, q <| sq_pub ::= λ p,
    p <| sqp_tail_ptr_virt ::= λ t, (t + 1) mod sqp_elements p |> |>) [] []); [done..|].
  by apply advance_wf.
Qed.

(** ** The whole *)

Definition set_cid (id n : Z) (d : nvme_device) : nvme_device :=
  d <| ndev_sqs ::= alter (λ q, q <| sq_next_cid := n |>) id |>.

Lemma set_cid_items id n d : dev_items (set_cid id n d) ≡ₚ dev_items d.
Proof.
  unfold set_cid. destruct (ndev_sqs d !! id) as [q|] eqn:Hq.
  - rewrite (dev_items_upd_sq _ _ _ _ Hq), (dev_items_sq _ _ _ Hq). done.
  - unfold dev_items. cbn. by rewrite (alter_None _ _ _ Hq).
Qed.
Lemma inv_set_cid X id n w : inv X w → inv X (w <| w_dev ::= set_cid id n |>).
Proof.
  intros Hw. destruct (ndev_sqs (w_dev w) !! id) as [q|] eqn:Hq.
  - apply (inv_upd_sq X w id q (λ q, q <| sq_next_cid := n |>) [] []); [done..|].
    destruct (dw_sqs _ (i_dev _ _ Hw) _ _ Hq). by split.
  - apply (inv_upd_eq X w _ (λ d, d)).
    + unfold set_cid. unfold set_field at 1. rewrite (alter_None _ _ _ Hq). by destruct (w_dev w).
    + by destruct w.
Qed.
Lemma set_cid_twice id n m d : set_cid id n (set_cid id m d) = set_cid id n d.
Proof.
  unfold set_cid. unfold set_field at 1 4. cbn. f_equal. rewrite alter_alter_eq. done.
Qed.

(** The bus address of a meta buffer. *)
Definition meta_bus (d : nvme_device) (id : Z) : option Z :=
  m ← ndev_meta d !! id;
  if meta_contig m then Some (meta_dma m) else '(_, prps) ← meta_prps m; head (pg_addr prps).

(** The command with its identifier and, when asked for, its metadata pointer. *)
Definition stamped (d : nvme_device) (cmd : nvme_64b_cmd) (cid : Z) (raw c : list Z) : Prop :=
  ∃ c1, store_le 2 raw 2 cid = Some c1 ∧
    if has_mask (c64_bit_mask cmd) NVME_MASK_MPTR
    then ∃ a, meta_bus d (c64_meta_id cmd) = Some a ∧ store_le 8 c1 16 a = Some c
    else c = c1.

Lemma stamped_load d cmd cid raw c n off :
  stamped d cmd cid raw c → off + Z.of_nat n ≤ 2 ∨ 24 ≤ off → load_le n c off = load_le n raw off.
Proof.
  intros (c1 & H1 & H2) Ho. unfold load_le. f_equal.
  transitivity (load_bytes c1 off (Z.of_nat n)).
  - destruct (has_mask _ _); [|by subst]. destruct H2 as (a & _ & H2).
    eapply load_store_ne; [exact H2|]. rewrite length_le_bytes. lia.
  - eapply load_store_ne; [exact H1|]. rewrite length_le_bytes. lia.
Qed.
Lemma stamped_cid d cmd cid raw c :
  stamped d cmd cid raw c → length c = length raw ∧ load_le 2 c 2 = Some (u16 cid).
Proof.
  intros (c1 & H1 & H2). pose proof (length_store_bytes _ _ _ _ H1) as L1.
  apply load_store_le in H1. change (cid mod _) with (u16 cid) in H1.
  destruct (has_mask _ _); [|by subst].
  destruct H2 as (a & _ & H2). split; [by rewrite (length_store_bytes _ _ _ _ H2)|].
  unfold load_le in *. rewrite <- H1. f_equal. eapply load_store_ne; [exact H2|].
  rewrite length_le_bytes. lia.
Qed.

Lemma wp_fill_mptr X c id w :
  inv X w → length c = 64%nat →
  wp (dnvme_fill_mptr c id) (λ r w', w' = w ∧
    (r = (- EINVAL, c) ∨ ∃ a c', meta_bus (w_dev w) id = Some a ∧
      store_le 8 c 16 a = Some c' ∧ r = (0, c'))) w.
Proof.
  intros Hw Hl. unfold dnvme_fill_mptr. apply wp_bind, wp_gets. unfold dnvme_find_meta, meta_bus.
  destruct (ndev_meta (w_dev w) !! id) as [m|] eqn:Hm; [|apply wp_ret; by split; [|left]].
  pose proof (dw_meta _ (i_dev _ _ Hw) _ _ Hm) as Hwf. cbn.
  assert (∃ a, (∀ w, (if meta_contig m then mret (meta_dma m)
         else match meta_prps m with
              | None => oops F_null
              | Some (_, prps) =>
                if pg_addr_ptr prps =? 0 then oops F_null else get_dma (pg_addr prps) 0
              end) w = Val a w) ∧
    (if meta_contig m then Some (meta_dma m) else '(_, prps) ← meta_prps m; head (pg_addr prps)) = Some a)
    as (a & Ha & Hb).
  { destruct (meta_contig m) eqn:Hc; [by eexists|].
    destruct (mw_addr _ _ Hwf Hc) as (p & prps & -> & Hp & Hne). cbn.
    destruct (pg_addr prps) as [|a l] eqn:Hpa; [done|]. exists a.
    rewrite (proj2 (Z.eqb_neq _ 0) Hp). done. }
  apply wp_bind. unfold wp at 1. rewrite Ha.
  destruct (ccmd_set_ok 8 16 a c) as (c' & Hst & Hset); [lia|lia|].
  apply wp_bind. unfold wp at 1, ccmd_set_metadata. rewrite Hset. apply wp_ret.
  split; [done|]. right. by exists a, c'.
Qed.

Lemma accept_lookup cmd op qid q0 cid pn o q d :
  ndev_sqs d !! c64_sqid cmd = Some q → sq_wf (c64_sqid cmd) q → sq_usable q →
  ∃ q2, ndev_sqs (accept_dev cmd q0 cid op qid pn o d) !! c64_sqid cmd = Some q2 ∧
    sq_pub q2 = sq_pub q ∧ sq_addr q2 = sq_addr q ∧ sq_usable q2.
Proof.
  intros Hq Hwf Hu. unfold accept_dev. cbn. rewrite lookup_alter_eq.
  destruct (is_create cmd op) eqn:Hcr; [|rewrite Hq; by eexists].
  destruct (is_create_admin cmd op 0 Hcr) as (Hs & _). pose proof (sqw_aq _ _ Hwf Hs) as Hc.
  destruct (op =? nvme_admin_create_sq); [|cbn; rewrite Hq; by eexists].
  cbn. destruct (decide (qid = c64_sqid cmd)) as [->|].
  - rewrite lookup_alter_eq, Hq. eexists. split; [done|]. unfold sq_addr, sq_usable. cbn.
    rewrite Hc. done.
  - rewrite lookup_alter_ne by done. rewrite Hq. by eexists.
Qed.

Lemma sq_addr_owned X id q w :
  inv X w → ndev_sqs (w_dev w) !! id = Some q → sq_usable q → sq_addr q ∈ ptrs (dev_items (w_dev w)).
Proof.
  intros Hw Hq Hu. pose proof (dw_sqs _ (i_dev _ _ Hw) _ _ Hq) as Hwf.
  destruct (qmem_block _ _ (sq_use_cmb q) (sq_buf q) _ _ (sqw_mem _ _ Hwf) Hu) as (k & n & Hin & _).
  rewrite (dev_items_sq _ _ _ Hq), ptrs_app. apply elem_of_app. left.
  unfold ptrs. apply list_elem_of_bind. eexists. split; [|unfold sq_items; apply list_elem_of_further, elem_of_app; left; exact Hin].
  simpl. unfold sq_addr. set_solver.
Qed.

(** What a submission leaves: refused, or accepted. *)
Definition refused (cmd : nvme_64b_cmd) (w w' : world) : Prop :=
  calm w w' ∧ (w_dev w' = w_dev w ∨ ∃ n, w_dev w' = set_cid (c64_sqid cmd) n (w_dev w)).

Definition submitted (cmd : nvme_64b_cmd) (raw : list Z) (op qid flags : Z) (w w' : world) : Prop :=
  ∃ q c0 c pn o data data', ndev_sqs (w_dev w) !! c64_sqid cmd = Some q ∧
    let cid := sq_next_cid q in
    let d := set_cid (c64_sqid cmd) (u16 (cid + 1)) (w_dev w) in
    stamped (w_dev w) cmd cid raw c0 ∧ dptr_only c0 c ∧
    w_dev w' = advance (c64_sqid cmd) (accept_dev cmd q (u16 cid) op qid pn o d) ∧
    accept_data cmd c0 op qid flags d c o ∧
    sq_bytes w q = Some data ∧
    store_bytes data (64 * sqp_tail_ptr_virt (sq_pub q)) c = Some data' ∧
    sq_bytes w' q = Some data'.

Section whole.
Context (X : list item) (cmd : nvme_64b_cmd) (mem : Z → Z) (op qid flags : Z) (w : world).
Local Abbreviation raw := (user_bytes mem 64).
Local Abbreviation sqid := (c64_sqid cmd).
Context (Hw : inv X w) (Hop : load_le 1 raw 0 = Some op) (Hfl : load_le 1 raw 1 = Some flags)
  (Hqid : load_le 2 raw 40 = Some qid).
Context (q : nvme_sq) (Hq : ndev_sqs (w_dev w) !! sqid = Some q) (Hu : sq_usable q).
Local Abbreviation d1 := (set_cid sqid (u16 (sq_next_cid q + 1)) (w_dev w)).
Context (Hadm : admissible cmd op qid flags d1).

(** The outcomes of a submission. *)
Definition submit_out (r : Z) (w' : world) : Prop :=
  inv X w' ∧ w_irqs w' = w_irqs w ∧ w_mode w' = w_mode w ∧
  (r < 0 ∧ refused cmd w w' ∨ r = 0 ∧ submitted cmd raw op qid flags w w').

Lemma submit_out_refused r w' : inv X w' → r < 0 → refused cmd w w' → submit_out r w'.
Proof. intros Hi Hr Href. destruct (Href) as [(Hi' & Hm' & _) _]. split_and!; [done..|by left]. Qed.

(** [out:] gives the copy of the command back. *)
Lemma wp_out p ret w1 :
  inv (Blk p AK_kmalloc None :: X) w1 → p ≠ 0 → ret < 0 → calm w w1 →
  (w_dev w1 = w_dev w ∨ ∃ n, w_dev w1 = set_cid sqid n (w_dev w)) →
  wp (kfree p;; mret ret) submit_out w1.
Proof.
  intros Hw1 Hp Hr Hc1 Hd1. apply wp_bind.
  eapply (wp_aside [Blk p AK_kmalloc None] X); [by apply triple_kfree|exact Hw1|done|].
  intros _ R w2 -> Hw2 Hd2 Hc2. apply wp_ret, submit_out_refused; [done|done|]. split.
  - apply (calm_trans w w1 w2); [done| |done].
    destruct Hd1 as [->|[n ->]]; [done|apply set_cid_items].
  - by rewrite Hd2.
Qed.

Local Abbreviation q1 := (q <| sq_next_cid := u16 (sq_next_cid q + 1) |>).

(** [out2:] takes the identifier back. *)
Lemma wp_out2 p ret w1 :
  inv (Blk p AK_kmalloc None :: X) w1 → p ≠ 0 → ret < 0 → calm w w1 → w_dev w1 = d1 →
  wp (upd_sq sqid (λ q, q <| sq_next_cid ::= λ c, u16 (c - 1) |>);; kfree p;; mret ret) submit_out w1.
Proof.
  intros Hw1 Hp Hr Hc1 Hd1. apply wp_bind, wp_modify. set (n := u16 (u16 (sq_next_cid q + 1) - 1)).
  set (w3 := w1 <| w_dev ::= _ |>).
  assert (w_dev w3 = set_cid sqid n (w_dev w1)) as Hd3.
  { apply (upd_sq_eq _ _ q1); [|done]. rewrite Hd1. cbn. by rewrite lookup_alter_eq, Hq. }
  apply wp_out; [|done|done|done|].
  - eapply (inv_upd_eq _ _ _ (set_cid sqid n)); [exact Hd3|by apply inv_set_cid].
  - right. exists n. rewrite Hd3, Hd1. apply set_cid_twice.
Qed.

(** The accepted command is placed. *)
Lemma wp_submit_place p c0 c pn o w1 :
  inv (Blk p AK_kmalloc None :: X) w1 → p ≠ 0 → calm w w1 → length c = 64%nat →
  stamped (w_dev w) cmd (sq_next_cid q) raw c0 → dptr_only c0 c →
  w_dev w1 = accept_dev cmd q (u16 (sq_next_cid q)) op qid pn o d1 →
  accept_data cmd c0 op qid flags d1 c o →
  wp (place_cmd sqid c;; kfree p;; mret 0) submit_out w1.
Proof.
  intros Hw1 Hp (Hi1 & Hm1 & Hu1) Hl Hst Hdp Hd1 Hdata.
  destruct (accept_lookup cmd op qid q (u16 (sq_next_cid q)) pn o q1 d1) as
    (q2 & Hq2 & Hpub & Hadr & Hu2); [cbn; by rewrite lookup_alter_eq, Hq| |done|].
  { destruct (dw_sqs _ (i_dev _ _ Hw) _ _ Hq). by split. }
  change (sq_pub q1) with (sq_pub q) in Hpub. change (sq_addr q1) with (sq_addr q) in Hadr.
  rewrite <- Hd1 in Hq2.
  destruct (wp_place _ _ q2 c w1 Hw1 Hq2 Hu2 Hl) as (data & data' & Hb & Hsto & Hwp).
  apply wp_bind. eapply wp_mono; [exact Hwp|].
  intros _ w3 (Hw3 & Hd3 & Hi3 & Hm3 & Hb3 & _). apply wp_bind.
  eapply (wp_aside [Blk p AK_kmalloc None] X); [by apply triple_kfree|exact Hw3|done|].
  intros _ R w4 -> Hw4 Hd4 (Hi4 & Hm4 & Hu4). apply wp_ret.
  split_and!; [done|congruence|congruence|]. right. split; [done|].
  exists q, c0, c, pn, o, data, data'. unfold sq_bytes in *.
  split_and!; try done; [by rewrite Hd4, Hd3, Hd1| |by rewrite <- Hpub|].
  - rewrite <- Hb, Hadr. f_equal. symmetry. apply Hu1. by apply (sq_addr_owned X sqid q w).
  - rewrite <- Hadr, Hu4; [done|].
    pose (q3 := q2 <| sq_pub ::= λ p, p <| sqp_tail_ptr_virt ::= λ t, (t + 1) mod sqp_elements p |> |>).
    assert (sq_addr q2 = sq_addr q3) as -> by done.
    apply (sq_addr_owned _ sqid q3 _ Hw3); [|exact Hu2].
    rewrite Hd3. cbn. by rewrite lookup_alter_eq, Hq2.
Qed.

(** From the point where the command is stamped. *)
Lemma wp_submit_go p c0 w1 :
  inv (Blk p AK_kmalloc None :: X) w1 → p ≠ 0 → w_dev w1 = d1 → calm w w1 →
  stamped (w_dev w) cmd (sq_next_cid q) raw c0 →
  wp ('(ret, ccmd) ← dispatch_ccmd (cmd <| c64_cid := sq_next_cid q |>) c0;
      if ret <? 0
      then upd_sq sqid (λ q, q <| sq_next_cid ::= λ c, u16 (c - 1) |>);; kfree p;; mret ret
      else place_cmd sqid ccmd;; kfree p;; mret 0) submit_out w1.
Proof.
  intros Hw1 Hp Hd1 Hc1 Hst. destruct (stamped_cid _ _ _ _ _ Hst) as [Hl Hcid].
  assert (length c0 = 64%nat) as Hl64
    by (rewrite Hl; by unfold user_bytes; rewrite length_fmap, length_seqZ).
  apply wp_bind. eapply wp_mono.
  { apply (wp_dispatch (Blk p AK_kmalloc None :: X) (cmd <| c64_cid := sq_next_cid q |>) c0 q1
      (u16 (sq_next_cid q)) op qid flags);
      try done; [by rewrite (stamped_load _ _ _ _ _ _ _ Hst) by lia..| |by rewrite Hd1].
    rewrite Hd1. cbn. by rewrite lookup_alter_eq, Hq. }
  intros [ret c] w2 (Hc2 & Hr). assert (calm w w2) as Hc12.
  { apply (calm_trans w w1 w2); [done| |done]. rewrite Hd1. apply set_cid_items. }
  destruct Hr as [(Hr & Hw2 & Hd2)|(Hr & Hw2 & Hdp & pn & o & Hd2 & Hdata)]; cbn [fst snd] in *.
  - rewrite (proj2 (Z.ltb_lt _ _) Hr). apply wp_out2; [done..|by rewrite Hd2].
  - subst ret. rewrite Hd1 in Hd2, Hdata. apply (wp_submit_place p c0 c pn o); try done.
    by destruct Hdp as [-> _].
Qed.

Lemma is_full_room (Hwf : sq_wf sqid q) w1 :
  dnvme_sq_is_full (sq_pub q) w1 =
  Val ((sqp_tail_ptr_virt (sq_pub q) + 1) mod sqp_elements (sq_pub q) =? sqp_head_ptr (sq_pub q)) w1.
Proof.
  pose proof (sqw_elements _ _ Hwf). pose proof (sqw_tail _ _ Hwf).
  unfold dnvme_sq_is_full. rewrite (proj2 (Z.eqb_neq _ 0)) by lia. by rewrite u32_small by lia.
Qed.

(** From the point where the copy of the command is in [p]. *)
Lemma wp_submit_stamp p w1 :
  inv (Blk p AK_kmalloc None :: X) w1 → p ≠ 0 → w_dev w1 = w_dev w → calm w w1 →
  wp (let ccmd := raw in
      let cid := sq_next_cid q in
      upd_sq sqid (λ q, q <| sq_next_cid := u16 (cid + 1) |>);;
      let cmd := cmd <| c64_cid := cid |> in
      ccmd ← ccmd_set_command_id cid ccmd;
      ok ← copy_to_user (UP_64b_cmd cmd);
      if negb ok then kfree p;; mret (- EFAULT)
      else
        '(ret, ccmd) ← (if has_mask (c64_bit_mask cmd) NVME_MASK_MPTR
                        then dnvme_fill_mptr ccmd (c64_meta_id cmd)
                        else mret (0, ccmd));
        if ret <? 0 then kfree p;; mret ret
        else
          '(ret, ccmd) ← dispatch_ccmd cmd ccmd;
          if ret <? 0
          then upd_sq sqid (λ q, q <| sq_next_cid ::= λ c, u16 (c - 1) |>);; kfree p;; mret ret
          else place_cmd sqid ccmd;; kfree p;; mret 0) submit_out w1.
Proof.
  intros Hw1 Hp Hd1 Hc1. cbv zeta. apply wp_bind, wp_modify.
  set (w2 := w1 <| w_dev ::= _ |>).
  assert (inv (Blk p AK_kmalloc None :: X) w2) as Hw2 by (by apply (inv_set_cid _ sqid)).
  assert (w_dev w2 = d1) as Hd2 by (cbn; by rewrite Hd1).
  destruct (ccmd_set_ok 2 2 (sq_next_cid q) raw) as (c1 & Hc & Hset);
    [lia|unfold user_bytes; rewrite length_fmap, length_seqZ; lia|].
  pose proof (length_store_bytes _ _ _ _ Hc) as Hl1. unfold user_bytes in Hl1.
  rewrite length_fmap, length_seqZ in Hl1.
  apply wp_bind. unfold wp at 1, ccmd_set_command_id. rewrite Hset. apply wp_bind.
  eapply (wp_aside [] (Blk p AK_kmalloc None :: X)); [apply triple_copy_to_user|exact Hw2|done|].
  intros ok R w3 -> Hw3 Hd3 Hc3. rewrite Hd2 in Hd3.
  assert (calm w w3) as Hc13.
  { apply (calm_trans w w2 w3); [exact Hc1| |done]. rewrite Hd2. apply set_cid_items. }
  destruct ok; cbn [negb]; [|apply wp_out; try done; right; by eexists].
  set (cid := sq_next_cid q) in *. set (cmd' := cmd <| c64_cid := cid |>).
  apply wp_bind. eapply (wp_mono _ (λ r w', w' = w3 ∧
    (r.1 < 0 ∨ r.1 = 0 ∧ stamped (w_dev w) cmd cid raw r.2))).
  { change (c64_bit_mask cmd') with (c64_bit_mask cmd). unfold stamped.
    destruct (has_mask (c64_bit_mask cmd) NVME_MASK_MPTR).
    - eapply wp_mono; [apply (wp_fill_mptr _ _ _ _ Hw3); by rewrite Hl1|].
      intros r w' (-> & [->|(a & c' & Ha & Hst & ->)]); (split; [done|]); [by left|right].
      split; [done|]. exists c1. split; [done|]. exists a. split; [|done].
      rewrite Hd3 in Ha. exact Ha.
    - apply wp_ret. split; [done|]. right. split; [done|]. by exists c1. }
  intros [ret c] w' (-> & [Hr|[Hr Hst]]); cbn [fst snd] in *.
  - rewrite (proj2 (Z.ltb_lt _ _) Hr). apply wp_out; try done. right. by eexists.
  - subst ret. by apply wp_submit_go.
Qed.
End whole.

Lemma admissible_set_cid cmd op qid flags id n d :
  admissible cmd op qid flags d → admissible cmd op qid flags (set_cid id n d).
Proof.
  intros (H1 & H2 & H3). split_and!; [done| |done]. intros Hs Ho t Ht.
  cbn in Ht. destruct (decide (qid = id)) as [->|]; [|rewrite lookup_alter_ne in Ht by done; auto].
  rewrite lookup_alter_eq in Ht. destruct (ndev_sqs d !! id) as [t'|] eqn:Ht'; [|done].
  injection Ht as <-. by apply (H2 Hs Ho t').
Qed.

Lemma wp_submit X cmd mem op qid flags w
    (Hw : inv X w)
    (Hop : load_le 1 (user_bytes mem 64) 0 = Some op)
    (Hfl : load_le 1 (user_bytes mem 64) 1 = Some flags)
    (Hqid : load_le 2 (user_bytes mem 64) 40 = Some qid)
    (Husable : ∀ q, ndev_sqs (w_dev w) !! c64_sqid cmd = Some q → sq_usable q)
    (Hadm : admissible cmd op qid flags (w_dev w)) :
  wp (dnvme_submit_64b_cmd cmd mem)
    (λ r w', inv X w' ∧ w_irqs w' = w_irqs w ∧ w_mode w' = w_mode w ∧
      (r < 0 ∧ refused cmd w w' ∨
       r = 0 ∧ submitted cmd (user_bytes mem 64) op qid flags w w' ∧
       ∃ q, ndev_sqs (w_dev w) !! c64_sqid cmd = Some q ∧
         (sqp_tail_ptr_virt (sq_pub q) + 1) mod sqp_elements (sq_pub q) ≠ sqp_head_ptr (sq_pub q))) w.
Proof.
  assert (∀ r w', inv X w' → r < 0 → w_dev w' = w_dev w → calm w w' →
    inv X w' ∧ w_irqs w' = w_irqs w ∧ w_mode w' = w_mode w ∧
    (r < 0 ∧ refused cmd w w' ∨ r = 0 ∧ submitted cmd (user_bytes mem 64) op qid flags w w' ∧
     ∃ q, ndev_sqs (w_dev w) !! c64_sqid cmd = Some q ∧
      (sqp_tail_ptr_virt (sq_pub q) + 1) mod sqp_elements (sq_pub q) ≠ sqp_head_ptr (sq_pub q))) as Hno.
  { intros r w' Hi Hr Hd (Hi' & Hm' & Hu'). split_and!; [done..|]. left. split; [done|].
    split; [done|by left]. }
  unfold dnvme_submit_64b_cmd. apply wp_bind.
  eapply (wp_aside [] X); [apply triple_copy_from_user|exact Hw|done|].
  intros ok R w1 -> Hw1 Hd1 Hc1. destruct ok; cbn [negb]; [|apply wp_ret; by apply Hno].
  apply wp_if; intros _; [apply wp_ret; by apply Hno|].
  apply wp_if; intros _; [apply wp_ret; by apply Hno|]. cbv zeta.
  apply wp_bind, wp_gets. unfold dnvme_find_sq. rewrite Hd1.
  destruct (ndev_sqs (w_dev w) !! c64_sqid cmd) as [q|] eqn:Hq; [|apply wp_ret; by apply Hno].
  pose proof (dw_sqs _ (i_dev _ _ Hw) _ _ Hq) as Hwf.
  apply wp_bind. unfold wp at 1. rewrite (is_full_room cmd q Hwf).
  destruct (Z.eqb_spec ((sqp_tail_ptr_virt (sq_pub q) + 1) mod sqp_elements (sq_pub q))
    (sqp_head_ptr (sq_pub q))) as [|Hroom]; [apply wp_ret; by apply Hno|].
  rewrite (sqw_sqes _ _ Hwf). change (Z.shiftl 1 NVME_NVM_IOSQES) with 64.
  apply wp_bind. eapply (wp_aside [] X); [apply triple_kmalloc|exact Hw1|done|].
  intros p R w2 HR Hw2 Hd2 Hc2. rewrite Hd1 in Hd2.
  pose proof (calm_same _ _ _ Hc1 Hd1 Hc2) as Hc12.
  destruct (Z.eqb_spec p 0) as [->|Hp].
  { destruct HR as [[_ ->]|[? _]]; [|lia]. apply wp_ret. by apply Hno. }
  destruct HR as [[? _]|[_ ->]]; [lia|]. apply wp_bind.
  eapply (wp_aside [] (Blk p AK_kmalloc None :: X)); [apply triple_copy_from_user|exact Hw2|done|].
  intros ok R w3 -> Hw3 Hd3 Hc3. rewrite Hd2 in Hd3.
  pose proof (calm_same _ _ _ Hc12 Hd2 Hc3) as Hc13.
  eapply (wp_mono _ (submit_out X cmd mem op qid flags w)); [|intros r w' (? & ? & ? & [?|[-> ?]]);
    (split_and!; [done..|]); [by left|right; split_and!; [done|done|by exists q]]].
  destruct ok; cbn [negb]; [|by apply wp_out; [..|left]].
  apply (wp_submit_stamp X cmd mem op qid flags w Hw Hop Hfl Hqid q Hq (Husable q eq_refl));
    try done. by apply admissible_set_cid.
Qed.

End submit.

(** *** Witness: a read of two pages on the I/O queue, with PRPs. *)

Definition demo_read : nvme_64b_cmd := {|
  c64_sqid := 1; c64_cid := 0; c64_has_cmd_buf := true; c64_bit_mask := 0xf;
  c64_data_buf_ptr := 0x7f0000; c64_data_buf_size := 8192;
  c64_data_dir := DMA_FROM_DEVICE; c64_meta_id := 0; c64_nr_bit_bucket := 0;
  c64_bit_bucket := [] |}.
Definition demo_mem (i : Z) : Z := if i =? 0 then 2 else 0.

Lemma demo_read_ok d : @admissible demo_env demo_read 2 0 0 d.
Proof.
  split_and!; [intros _ _|intros H; discriminate H..]. split.
  - split_and!; [simpl; lia|vm_compute; reflexivity|done].
  - intros l [h ->]. exists (mk_sg 0x100000 4096), [mk_sg 0x101000 4096], [].
    split; [vm_compute; reflexivity|]. split_and!; try done; intros _; by exists 1.
Qed.

