(* ===== verification/Quiet.v ===== *)
(** * What the controller can notice

    The functions of the submission path write no device register: until
    [dnvme_ring_sq_doorbell] writes the tail, the controller knows nothing of the
    commands in the queue.  The doorbell writes that one register. *)

From S2P Require Import Prelude Types Kernel Io Own Prp Sgl Ring Irq Queue Cmd Inv Demo Trace.

Section silent_cmd.
Context {E : Env} {P : event → Prop} `{!Admits P}.

Lemma quiet_ccmd_get n o c : adds P (ccmd_get n o c).
Proof. unfold ccmd_get. solve_adds. Qed.
Lemma quiet_ccmd_set n o v c : adds P (ccmd_set n o v c).
Proof. unfold ccmd_set. solve_adds. Qed.
Lemma quiet_set_cell {A} (pages : list (list A)) j k v : adds P (set_cell pages j k v).
Proof. unfold set_cell. solve_adds. Qed.
Lemma quiet_get_dma l j : adds P (get_dma l j).
Proof. unfold get_dma. solve_adds. Qed.
Lemma quiet_put_desc c l e : adds P (put_desc c l e).
Proof. unfold put_desc. solve_adds. Qed.
#[local] Hint Resolve quiet_ccmd_get quiet_ccmd_set quiet_set_cell quiet_get_dma quiet_put_desc : adds.

Lemma quiet_map_user_page prps d s dir acc : adds P (dnvme_map_user_page prps d s dir acc).
Proof. unfold dnvme_map_user_page, dnvme_pages_to_sgl. solve_adds. Qed.
#[local] Hint Resolve quiet_map_user_page : adds.
Lemma quiet_cmd_map cmd c prps : adds P (dnvme_cmd_map_user_page cmd c prps).
Proof. unfold dnvme_cmd_map_user_page, ccmd_opcode. solve_adds. Qed.
Lemma quiet_unmap prps : adds P (dnvme_unmap_user_page prps).
Proof. unfold dnvme_unmap_user_page. solve_adds. Qed.
Lemma quiet_free_pool_pages p l : adds P (free_pool_pages p l).
Proof. unfold free_pool_pages. solve_adds. Qed.
#[local] Hint Resolve quiet_cmd_map quiet_unmap quiet_free_pool_pages : adds.
Lemma quiet_alloc_pool_pages p n : ∀ got, adds P (alloc_pool_pages p n got).
Proof. induction n; intros got; simpl; solve_adds. Qed.
#[local] Hint Resolve quiet_alloc_pool_pages : adds.
Lemma quiet_alloc_list p n : adds P (alloc_list p n).
Proof. unfold alloc_list. solve_adds. Qed.
Lemma quiet_free_prp_list prps : adds P (dnvme_free_prp_list prps).
Proof. unfold dnvme_free_prp_list. solve_adds. Qed.
#[local] Hint Resolve quiet_alloc_list quiet_free_prp_list : adds.

Lemma quiet_prp_fill fuel : ∀ dmas j k bl dl po a sgs pages nr,
  adds P (prp_fill fuel dmas j k bl dl po a sgs pages nr).
Proof. induction fuel; intros; simpl; solve_adds. Qed.
#[local] Hint Resolve quiet_prp_fill : adds.
Lemma quiet_setup_prp_list fl bl dl po a sgs c prps :
  adds P (setup_prp_list fl bl dl po a sgs c prps).
Proof. unfold setup_prp_list, ccmd_set_prp1, ccmd_set_prp2. solve_adds. Qed.
#[local] Hint Resolve quiet_setup_prp_list : adds.
Lemma quiet_setup_prps cmd c prps : adds P (dnvme_setup_prps cmd c prps).
Proof. unfold dnvme_setup_prps, ccmd_opcode, ccmd_set_prp1, ccmd_set_prp2. solve_adds. Qed.

Lemma quiet_lead_buckets c bits : ∀ last l, adds P (lead_buckets c bits last l).
Proof. induction bits; intros; simpl; solve_adds. Qed.
Lemma quiet_sge_buckets c bits : ∀ o a n s last l, adds P (sge_buckets c bits o a n s last l).
Proof. induction bits; intros; simpl; solve_adds. Qed.
#[local] Hint Resolve quiet_lead_buckets quiet_sge_buckets : adds.
Lemma quiet_sg_loop c sgs : ∀ bits o last l, adds P (sg_loop c sgs bits o last l).
Proof. induction sgs; intros; simpl; solve_adds. Qed.
Lemma quiet_trail_buckets c bits : ∀ l, adds P (trail_buckets c bits l).
Proof. induction bits; intros; simpl; solve_adds. Qed.
#[local] Hint Resolve quiet_sg_loop quiet_trail_buckets : adds.
Lemma quiet_init_desc_list sgs bits n : adds P (dnvme_init_sgl_desc_list sgs bits n).
Proof. unfold dnvme_init_sgl_desc_list, fill_desc_list. solve_adds. Qed.
Lemma quiet_sgl_fill fuel : ∀ dmas j k ents pages, adds P (sgl_fill fuel dmas j k ents pages).
Proof. induction fuel; intros dmas j k [|e ents] pages; simpl; solve_adds. Qed.
#[local] Hint Resolve quiet_init_desc_list quiet_sgl_fill : adds.
Lemma quiet_setup_sgl cmd c prps : adds P (dnvme_cmd_setup_sgl cmd c prps).
Proof.
  unfold dnvme_cmd_setup_sgl, ccmd_set_sgl, free_bit_bucket, dnvme_deinit_sgl_desc_list. solve_adds.
Qed.
#[local] Hint Resolve quiet_setup_prps quiet_setup_sgl : adds.

Lemma quiet_add_cmd_node cmd c o : adds P (dnvme_add_cmd_node cmd c o).
Proof.
  unfold dnvme_add_cmd_node, cmd_target, ccmd_opcode, ccmd_command_id, ccmd_qid, set_sq_prps,
    set_cq_prps, upd_sq, upd_cq. solve_adds.
Qed.
#[local] Hint Resolve quiet_add_cmd_node : adds.
Lemma quiet_prepare cmd c : adds P (dnvme_prepare_64b_cmd cmd c).
Proof. unfold dnvme_prepare_64b_cmd, ccmd_opcode, ccmd_flags. solve_adds. Qed.
#[local] Hint Resolve quiet_prepare : adds.
Lemma quiet_dispatch cmd c : adds P (dispatch_ccmd cmd c).
Proof.
  unfold dispatch_ccmd, dnvme_create_iosq, dnvme_create_iocq, dnvme_delete_iosq, dnvme_delete_iocq,
    dnvme_deal_ccmd, ccmd_set_queue_mem, ccmd_set_prp1, ccmd_set_prp2, ccmd_opcode, ccmd_qid,
    ccmd_qflags, upd_sq, upd_cq. solve_adds.
Qed.
Lemma quiet_place id c : adds P (place_cmd id c).
Proof. unfold place_cmd, get_sq, upd_sq. solve_adds. Qed.
Lemma quiet_fill_mptr c id : adds P (dnvme_fill_mptr c id).
Proof. unfold dnvme_fill_mptr, ccmd_set_metadata. solve_adds. Qed.
End silent_cmd.
#[export] Hint Resolve quiet_ccmd_set quiet_dispatch quiet_place quiet_fill_mptr : adds.

Section quiet_cmd.
Context {E : Env}.

Lemma quiet_submit cmd mem : adds quiet (dnvme_submit_64b_cmd cmd mem).
Proof. unfold dnvme_submit_64b_cmd, dnvme_sq_is_full, upd_sq, ccmd_set_command_id. solve_adds. Qed.

(** C23. The doorbell protocol: however many commands are submitted, to whatever queues
    and with whatever outcome, no device register is written; ringing the doorbell of a
    queue then makes exactly one write, of its current tail, to its doorbell register,
    and records that tail. *)
Theorem submit_then_ring reqs id q w w'
    (Hrun : mapM_ (λ r, dnvme_submit_64b_cmd r.1 r.2;; mret tt) reqs w = Val tt w')
    (Hq : ndev_sqs (w_dev w') !! id = Some q) :
  (∃ h, w_hist w' = h ++ w_hist w ∧ Forall quiet h) ∧
  let tail := sqp_tail_ptr_virt (sq_pub q) in
  dnvme_ring_sq_doorbell id w' =
  Val 0 (w' <| w_dev ::= λ d, d <| ndev_sqs ::=
                alter (λ q, q <| sq_pub ::= λ p, p <| sqp_tail_ptr := tail |> |>) id |> |>
            <| w_hist ::= cons (E_writel (sq_db q + 0) (u32 tail)) |>).
Proof.
  split.
  - apply (adds_mapM_ quiet) in Hrun; [done|]. intros x. pose proof quiet_submit. solve_adds.
  - unfold dnvme_ring_sq_doorbell, mbind, M_bind, get_dev, gets, dnvme_find_sq. rewrite Hq. done.
Qed.
End quiet_cmd.

(** *** Witness: two commands without data on the I/O queue. *)

Definition demo_flush : nvme_64b_cmd := {|
  c64_sqid := 1; c64_cid := 0; c64_has_cmd_buf := true; c64_bit_mask := 0;
  c64_data_buf_ptr := 0; c64_data_buf_size := 0; c64_data_dir := DMA_NONE; c64_meta_id := 0;
  c64_nr_bit_bucket := 0; c64_bit_bucket := [] |}.
Definition demo_two : outcome unit :=
  mapM_ (λ r, @dnvme_submit_64b_cmd demo_env r.1 r.2;; mret tt)
    [(demo_flush, λ _, 0); (demo_flush, λ _, 0)] full_world.
Definition demo_two_world : world := match demo_two with Val _ w => w | _ => full_world end.
Definition demo_two_q : nvme_sq :=
  default (demo_sq 1 5 6 4 []) (ndev_sqs (w_dev demo_two_world) !! 1).

Lemma submit_then_ring_witness :
  demo_two = Val tt demo_two_world ∧
  (∃ h, w_hist demo_two_world = h ++ w_hist full_world ∧ Forall quiet h) ∧
  ∃ q w', ndev_sqs (w_dev demo_two_world) !! 1 = Some q ∧ sqp_tail_ptr_virt (sq_pub q) = 3 ∧
    @dnvme_ring_sq_doorbell 1 demo_two_world = Val 0 w' ∧
    head (w_hist w') = Some (E_writel 0x11008 3).
Proof.
  assert (demo_two = Val tt demo_two_world) as Hrun by (vm_compute; reflexivity).
  split; [exact Hrun|].
  assert (ndev_sqs (w_dev demo_two_world) !! 1 = Some demo_two_q) as Hq by (vm_compute; reflexivity).
  assert (sqp_tail_ptr_virt (sq_pub demo_two_q) = 3) as Ht by (vm_compute; reflexivity).
  assert (sq_db demo_two_q = 0x11008) as Hdb by (vm_compute; reflexivity).
  destruct (@submit_then_ring demo_env _ 1 demo_two_q full_world demo_two_world Hrun Hq) as [Hh Hr].
  split; [exact Hh|]. exists demo_two_q. eexists. split; [exact Hq|]. split; [exact Ht|].
  split; [exact Hr|].
  cbn. rewrite Hdb, Ht. reflexivity.
Defined.
