(* ===== verification/SqFifo.v ===== *)
(** * The submission queue is a bounded FIFO

    The specification of a submission queue of [e] entries: a list of at most [e - 1]
    commands, where the driver appends and the controller takes from the front.  The
    ring of [head], [tail] and memory implements it. *)

From S2P Require Import Prelude Types Kernel Io Own Prp Paged PrpSpec Sgl SglSpec Ring Irq Queue Cmd Meta Inv Demo QueueSpec Trace QueueOps MetaSpec CmdSpec Submit.

(** ** Positions on a ring *)

Lemma ring_wrap x e : 0 ≤ x < 2 * e → x mod e = if x <? e then x else x - e.
Proof.
  intros Hx. destruct (Z.ltb_spec x e); [apply Z.mod_small; lia|].
  rewrite <- (Z.mod_small (x - e) e) by lia. rewrite <- (Z_mod_plus_full (x - e) 1 e). f_equal. lia.
Qed.
Lemma ring_dist head tail e : 0 ≤ head < e → 0 ≤ tail < e →
  (tail - head) mod e = if head <=? tail then tail - head else tail - head + e.
Proof.
  intros Hh Ht. rewrite <- (Z_mod_plus_full (tail - head) 1 e), Z.mul_1_l, ring_wrap by lia.
  destruct (Z.ltb_spec (tail - head + e) e), (Z.leb_spec head tail); lia.
Qed.

(** ** The entries between head and tail *)

Definition sq_entry (data : list Z) (i : Z) : list Z := default [] (load_bytes data (64 * i) 64).
Definition ring_fifo (data : list Z) (e head tail : Z) : list (list Z) :=
  (λ i, sq_entry data ((head + i) mod e)) <$> seqZ 0 ((tail - head) mod e).

Lemma length_ring_fifo data e head tail : 0 < e →
  Z.of_nat (length (ring_fifo data e head tail)) = (tail - head) mod e.
Proof.
  intros He. unfold ring_fifo. rewrite length_fmap, length_seqZ.
  pose proof (Z.mod_pos_bound (tail - head) e He). lia.
Qed.

Section ring.
Context (e head tail : Z) (Hh : 0 ≤ head < e) (Ht : 0 ≤ tail < e).

Lemma ring_full data :
  (tail + 1) mod e = head ↔ Z.of_nat (length (ring_fifo data e head tail)) = e - 1.
Proof.
  rewrite length_ring_fifo, ring_dist, ring_wrap by lia.
  destruct (Z.ltb_spec (tail + 1) e), (Z.leb_spec head tail); lia.
Qed.

(** Storing at the tail and moving it appends. *)
Lemma ring_push data data' c :
  (tail + 1) mod e ≠ head → length c = 64%nat → store_bytes data (64 * tail) c = Some data' →
  ring_fifo data' e head ((tail + 1) mod e) = ring_fifo data e head tail ++ [c].
Proof.
  intros Hroom Hc Hst. set (n := (tail - head) mod e).
  assert (0 ≤ n < e) as Hn by (apply Z.mod_pos_bound; lia).
  assert (((tail + 1) mod e - head) mod e = n + 1) as Hn'.
  { pose proof (Z.mod_pos_bound (tail + 1) e). unfold n. rewrite !ring_dist by lia.
    rewrite ring_wrap in * by lia.
    destruct (Z.ltb_spec (tail + 1) e), (Z.leb_spec head tail); destruct (Z.leb_spec head (tail + 1));
      destruct (Z.leb_spec head (tail + 1 - e)); lia. }
  assert (∀ i, 0 ≤ i ≤ n → (head + i) mod e = tail ↔ i = n) as Hpos.
  { intros i Hi. unfold n in *. rewrite ring_dist in * by lia. rewrite ring_wrap by lia.
    destruct (Z.ltb_spec (head + i) e), (Z.leb_spec head tail); lia. }
  unfold ring_fifo. rewrite Hn', seqZ_app, fmap_app by lia. fold n. f_equal.
  - apply list_fmap_ext. intros j i Hi. apply lookup_seqZ in Hi as [-> Hj].
    unfold sq_entry. f_equal. eapply load_store_ne; [exact Hst|]. rewrite Hc.
    pose proof (Hpos (0 + Z.of_nat j) ltac:(lia)) as Hp.
    pose proof (Z.mod_pos_bound (head + (0 + Z.of_nat j)) e). lia.
  - rewrite Z.add_0_l, seqZ_cons by lia. rewrite seqZ_nil by lia. simpl.
    rewrite (proj2 (Hpos n ltac:(lia)) eq_refl). unfold sq_entry.
    apply load_store_same in Hst. rewrite Hc in Hst. change (Z.of_nat 64) with 64 in Hst. by rewrite Hst.
Qed.

(** Moving the head over [k] pending entries takes them from the front. *)
Lemma ring_pop data head' :
  0 ≤ head' < e → (head' - head) mod e ≤ (tail - head) mod e →
  ring_fifo data e head' tail =
  drop (Z.to_nat ((head' - head) mod e)) (ring_fifo data e head tail).
Proof.
  intros Hh' Hk. set (k := (head' - head) mod e) in *. set (n := (tail - head) mod e) in *.
  pose proof (Z.mod_pos_bound (head' - head) e). pose proof (Z.mod_pos_bound (tail - head) e).
  assert ((tail - head') mod e = n - k) as Hn.
  { unfold n, k in *. rewrite !ring_dist in * by lia.
    destruct (Z.leb_spec head' tail), (Z.leb_spec head tail), (Z.leb_spec head head'); lia. }
  assert (∀ i, 0 ≤ i < n - k → (head' + i) mod e = (head + (k + i)) mod e) as Hp.
  { intros i Hi. unfold k. rewrite ring_dist by lia. destruct (Z.leb_spec head head').
    - f_equal. lia.
    - rewrite <- (Z_mod_plus_full (head' + i) 1 e). f_equal. lia. }
  unfold ring_fifo. rewrite Hn. fold n. rewrite <- fmap_drop.
  replace (drop (Z.to_nat k) (seqZ 0 n)) with (seqZ k (n - k)).
  - apply list_eq. intros j. rewrite !list_lookup_fmap.
    destruct (decide (Z.of_nat j < n - k)).
    + rewrite !lookup_seqZ_lt by lia. simpl. do 2 f_equal. rewrite Z.add_0_l. apply Hp. lia.
    + by rewrite !lookup_seqZ_ge by lia.
  - replace n with (k + (n - k)) at 2 by lia. rewrite seqZ_app by lia.
    rewrite drop_app_length'; [f_equal; lia|]. rewrite length_seqZ. lia.
Qed.
End ring.

(** ** The queue of the driver *)

(** The commands the controller has still to take. *)
Definition sq_fifo (w : world) (q : nvme_sq) : list (list Z) :=
  ring_fifo (default [] (sq_bytes w q)) (sqp_elements (sq_pub q)) (sqp_head_ptr (sq_pub q))
    (sqp_tail_ptr_virt (sq_pub q)).

Section fifo.
Context {E : Env}.

(** C16. A submission queue is a FIFO of [elements - 1] commands, whatever the positions
    of head and tail: the driver takes it for full exactly when it holds that many,
    placing a command when it is not full appends the 64 bytes of the command behind
    all those pending and changes none of them, and the head reported by a completion
    removes the pending commands in front of it, in order. *)
Theorem sq_refines_fifo X id q c w
    (Hw : inv X w) (Hq : ndev_sqs (w_dev w) !! id = Some q) (Hu : sq_usable q)
    (Hhead : 0 ≤ sqp_head_ptr (sq_pub q) < sqp_elements (sq_pub q)) (Hc : length c = 64%nat) :
  let cap := sqp_elements (sq_pub q) - 1 in
  let len := Z.of_nat (length (sq_fifo w q)) in
  len ≤ cap ∧
  dnvme_sq_is_full (sq_pub q) w = Val (len =? cap) w ∧
  (len < cap → wp (place_cmd id c)
    (λ _ w', inv X w' ∧ ∃ q', ndev_sqs (w_dev w') !! id = Some q' ∧
      sq_fifo w' q' = sq_fifo w q ++ [c]) w) ∧
  (∀ head', 0 ≤ head' ≤ cap →
    let k := (head' - sqp_head_ptr (sq_pub q)) mod sqp_elements (sq_pub q) in
    k ≤ len →
    sq_fifo w (q <| sq_pub ::= λ p, p <| sqp_head_ptr := head' |> |>) = drop (Z.to_nat k) (sq_fifo w q)).
Proof.
  intros cap len. pose proof (dw_sqs _ (i_dev _ _ Hw) _ _ Hq) as Hwf.
  pose proof (sqw_elements _ _ Hwf). pose proof (sqw_tail _ _ Hwf).
  assert (len = (sqp_tail_ptr_virt (sq_pub q) - sqp_head_ptr (sq_pub q)) mod sqp_elements (sq_pub q))
    as Hlen by (apply length_ring_fifo; lia).
  pose proof (Z.mod_pos_bound (sqp_tail_ptr_virt (sq_pub q) - sqp_head_ptr (sq_pub q))
    (sqp_elements (sq_pub q)) ltac:(lia)) as Hb.
  pose proof (ring_full _ _ _ Hhead (sqw_tail _ _ Hwf) (default [] (sq_bytes w q))) as Hfull.
  fold (sq_fifo w q) len cap in Hfull. split_and!; [lia| | |].
  - unfold dnvme_sq_is_full. rewrite (proj2 (Z.eqb_neq _ 0)), u32_small by lia. unfold mret, M_ret.
    f_equal. apply eq_bool_prop_intro. rewrite !Is_true_true, !Z.eqb_eq. exact Hfull.
  - intros Hroom. destruct (wp_place X id q c w Hw Hq Hu Hc) as (data & data' & Hd & Hst & Hwp).
    eapply wp_mono; [exact Hwp|]. intros _ w' (Hi & Hdev & _ & _ & Hd' & _). split; [done|].
    eexists. split; [rewrite Hdev; cbn; by rewrite lookup_alter_eq, Hq|].
    unfold sq_fifo. rewrite Hd. transitivity (ring_fifo data' (sqp_elements (sq_pub q))
      (sqp_head_ptr (sq_pub q)) ((sqp_tail_ptr_virt (sq_pub q) + 1) mod sqp_elements (sq_pub q))).
    + change (sq_bytes w' _) with (sq_bytes w' q). by rewrite Hd'.
    + apply ring_push; try done; try lia.
  - intros head' Hh' k Hk. unfold cap in Hh'. rewrite Hlen in Hk.
    apply (ring_pop _ _ _ Hhead (sqw_tail _ _ Hwf)); [simpl; lia|exact Hk].
Qed.
End fifo.

Lemma sq_refines_fifo_witness :
  let q := demo_sq 1 5 6 4 [demo_node] in
  1 ≤ 3 ∧ dnvme_sq_is_full (sq_pub q) full_world = Val false full_world ∧
  wp (place_cmd 1 (replicate 64 7))
    (λ _ w', inv [] w' ∧ ∃ q', ndev_sqs (w_dev w') !! 1 = Some q' ∧
      sq_fifo w' q' = [replicate 64 0; replicate 64 7]) full_world ∧
  sq_fifo full_world (q <| sq_pub ::= λ p, p <| sqp_head_ptr := 1 |> |>) = [].
Proof.
  intros q.
  destruct (sq_refines_fifo [] 1 q (replicate 64 7) full_world full_world_inv) as (H1 & H2 & H3 & H4);
    [done|done|simpl; lia|done|].
  split; [exact H1|]. split; [exact H2|]. split; [exact (H3 eq_refl)|].
  exact (H4 1 ltac:(vm_compute; split; discriminate) ltac:(vm_compute; discriminate)).
Defined.
