(* ===== verification/Complete.v ===== *)
(** * Completion of commands

    [handle_cmd_completion]: the node of the completed command is freed with all it
    owns, the head of its submission queue is the one the controller reported, and a
    queue goes when the controller deleted it or refused to create it. *)

From S2P Require Import Prelude Types Kernel Io Own Prp Paged PrpSpec Sgl SglSpec Ring Irq Queue Cmd Meta Inv Demo QueueSpec IrqSpec IrqSet Trace QueueOps MetaSpec CmdSpec.

Section complete.
Context {E : Env}.

(** ** The node of a queue at an irq *)

Lemma nodup_mid {A} (f : A → Z) l1 x l2 :
  NoDup (f <$> l1 ++ x :: l2) → Forall (λ y, f y ≠ f x) (l1 ++ l2).
Proof.
  rewrite fmap_app, fmap_cons. intros Hn. apply Forall_forall. intros y Hy Heq.
  assert (f x ∈ (f <$> l1) ++ (f <$> l2)) as Hin.
  { rewrite <- fmap_app, <- Heq. by apply list_elem_of_fmap_2. }
  rewrite <- Permutation_middle in Hn. apply NoDup_cons in Hn as [Hnin _]. done.
Qed.

(** The irq set may lose nodes of completion queues; everything else of the device
    structure stays. *)
Definition unbound (d d' : nvme_device) : Prop :=
  ∃ s, d' = d <| ndev_irq_set := s |> ∧ is_irq_type s = is_irq_type (ndev_irq_set d).

Lemma wp_delete_icq X cq no w :
  inv X w →
  wp (dnvme_delete_icq_node cq no)
    (λ _ w', inv X w' ∧ w_irqs w' = w_irqs w ∧ w_mode w' = w_mode w ∧ unbound (w_dev w) (w_dev w') ∧
      untouched (dev_items (w_dev w') ++ X) w w') w.
Proof.
  intros Hw. pose proof (inv_irq_st X w Hw) as Hs. pose proof (i_dev _ _ Hw) as Hd.
  pose proof (dw_irq _ Hd) as Hwf. pose proof (i_irqs _ _ Hw) as HL.
  set (d0 := w_dev w) in *. set (s := ndev_irq_set d0) in *.
  assert (inv X w ∧ w_irqs w = w_irqs w ∧ w_mode w = w_mode w ∧ unbound d0 (w_dev w) ∧
    untouched (dev_items (w_dev w) ++ X) w w) as Hsame.
  { split_and!; try done. exists s. split; [|done]. symmetry. apply dev_irq_eta. }
  unfold dnvme_delete_icq_node. apply wp_bind, (wp_get_irq_set _ _ _ _ _ _ Hs).
  destruct (find_irq_node_by_id s no) as [n|] eqn:Hf; [|by apply wp_ret].
  apply (find_split irq_id) in Hf as (Hid & l1 & l2 & Hl).
  destruct (find_icq_node n cq) as [i|] eqn:Hfi; [|by apply wp_ret].
  apply (find_split icq_cq_id) in Hfi as (_ & i1 & i2 & Hi).
  destruct (st_node _ _ _ _ _ _ _ _ Hs Hl) as (Hne & Hnd & _ & Hnz).
  rewrite Hi in Hnd, Hnz. apply (nodup_mid icq_ptr) in Hnd.
  apply Forall_app in Hnz as [_ [Hnz _]%Forall_cons].
  set (n' := n <| irq_icq_list := i1 ++ i2 |>).
  set (s' := s <| is_irq_list := l1 ++ n' :: l2 |>).
  set (f := λ t : nvme_irq_set, t <| is_irq_list ::= fmap (λ m, if irq_ptr m =? irq_ptr n then
    m <| irq_icq_list ::= filter (λ y, icq_ptr y ≠ icq_ptr i) |> else m) |>).
  assert (f s = s') as Hfs.
  { set (g := λ x : nvme_irq, x <| irq_icq_list ::= filter (λ y, icq_ptr y ≠ icq_ptr i) |>).
    assert (g n = n') as Hg by (unfold g, n', set_field; by rewrite Hi, (filter_node icq_ptr)).
    unfold s'. rewrite <- Hg, <- (upd_node l1 _ l2 g Hne), <- Hl. reflexivity. }
  unfold delete_icq_node. apply wp_bind, wp_modify. set (w2 := w <| w_dev ::= _ |>).
  assert (w_dev w2 = d0 <| ndev_irq_set := s' |>) as Hd2.
  { rewrite <- Hfs. reflexivity. }
  assert (inv (icq_items i ++ X) w2) as Hw2.
  { apply (irq_st_inv _ d0 s' (w_irqs w)); [|done| |].
    - split; [|done|done]. eapply (holds_ext _ w); [done..|].
      pose proof (st_holds _ _ _ _ _ Hs) as Hh. revert Hh. apply holds_perm; [|done].
      unfold s', n', irq_items, irq_node_items. cbn. rewrite Hl, !bind_app. cbn.
      rewrite Hi, !bind_app. cbn. solve_Permutation.
    - apply irq_wf_proj; [done|]. rewrite Hl. by apply proj_mid.
    - simpl. rewrite HL, Hl. by rewrite (proj_mid _ l1 n n'). }
  eapply (wp_own_frame _ X); [by apply (triple_kfree (icq_ptr i) None)|exact Hw2|done|].
  intros _ R w3 -> Hw3 (Hd3 & Hi3 & Hm3) Hu3. rewrite Hd3.
  split_and!; [done|done|done| |exact Hu3]. rewrite Hd2. by exists s'.
Qed.

(** What every step below keeps: the interrupts, and the memory that stays owned. *)
Definition rest (X : list item) (w w' : world) : Prop :=
  inv X w' ∧ w_irqs w' = w_irqs w ∧ w_mode w' = w_mode w ∧
  untouched (dev_items (w_dev w') ++ X) w w'.

(** ** Deleting a queue *)

Lemma wp_delete_sq X id w :
  inv X w →
  wp (dnvme_delete_sq id)
    (λ _ w', rest X w w' ∧ w_dev w' = (w_dev w) <| ndev_sqs ::= delete id |>) w.
Proof.
  intros Hw. unfold dnvme_delete_sq, dnvme_find_sq. apply wp_bind, wp_gets.
  destruct (ndev_sqs (w_dev w) !! id) as [q|] eqn:Hq.
  - eapply wp_mono; [by apply (wp_release_sq X id q)|]. intros _ w' (? & ? & ? & ? & ?).
    split; [by split_and!|done].
  - apply wp_ret. split; [by split_and!|].
    transitivity ((w_dev w) <| ndev_sqs := delete id (ndev_sqs (w_dev w)) |>); [|done].
    rewrite (delete_None _ _ Hq). by destruct (w_dev w).
Qed.

Lemma wp_delete_cq X id w :
  inv X w →
  wp (dnvme_delete_cq id)
    (λ _ w', rest X w w' ∧ unbound ((w_dev w) <| ndev_cqs ::= delete id |>) (w_dev w')) w.
Proof.
  intros Hw. unfold dnvme_delete_cq, dnvme_find_cq. apply wp_bind, wp_gets.
  destruct (ndev_cqs (w_dev w) !! id) as [q|] eqn:Hq.
  - apply wp_bind. eapply wp_mono; [by apply (wp_delete_icq X)|].
    intros _ w1 (Hw1 & Hi1 & Hm1 & (s & Hd1 & Ht) & Hu1).
    eapply wp_mono; [apply (wp_release_cq X id q); [done|by rewrite Hd1]|].
    intros _ w2 (Hw2 & Hd2 & Hi2 & Hm2 & Hu2). split.
    + split_and!; [done|congruence|congruence|]. transitivity w1; [|exact Hu2].
      eapply untouched_incl; [|exact Hu1]. rewrite Hd2. intros x.
      rewrite !elem_of_app, (dev_items_cq (w_dev w1) id q) by (by rewrite Hd1).
      rewrite elem_of_app. tauto.
    + exists s. split; [|done]. rewrite Hd2, Hd1. done.
  - apply wp_ret. split; [by split_and!|]. exists (ndev_irq_set (w_dev w)). split; [|done].
    transitivity ((w_dev w) <| ndev_cqs := delete id (ndev_cqs (w_dev w)) |>); [|done].
    rewrite (delete_None _ _ Hq). by destruct (w_dev w).
Qed.

(** ** Freeing the node of a command *)

Definition drop_cmd (id : Z) (c : nvme_cmd) (d : nvme_device) : nvme_device :=
  d <| ndev_sqs ::= alter (λ q, q <| sq_cmd_list ::= filter (λ x, cmd_ptr x ≠ cmd_ptr c) |>) id |>.

(** The addresses of the pending commands are distinct. *)
Lemma cmd_ptrs_nodup X id q w :
  inv X w → ndev_sqs (w_dev w) !! id = Some q → NoDup (cmd_ptr <$> sq_cmd_list q).
Proof.
  intros Hw Hq. pose proof (h_nodup _ _ (i_holds _ _ Hw)) as Hn.
  rewrite (dev_items_sq _ _ _ Hq) in Hn. unfold sq_items in Hn. simpl in Hn.
  apply NoDup_cons in Hn as [_ Hn]. rewrite !ptrs_app in Hn.
  apply NoDup_app in Hn as (Hn & _). apply NoDup_app in Hn as (Hn & _).
  apply NoDup_app in Hn as (_ & _ & Hn). revert Hn.
  induction (sq_cmd_list q) as [|c l IH]; [constructor|]. cbn. rewrite ptrs_app.
  intros [Hnin Hn]%NoDup_cons. apply NoDup_app in Hn as (_ & _ & Hn). constructor; [|auto].
  intros Hin. apply Hnin. apply elem_of_app. right. apply list_elem_of_fmap in Hin as (c' & Heq & Hc').
  rewrite Heq. apply (elem_ptrs _ AK_kmalloc None). apply list_elem_of_bind. exists c'.
  split; [by left|done].
Qed.

Lemma wp_finish_cmd X id q c w :
  inv X w → ndev_sqs (w_dev w) !! id = Some q → c ∈ sq_cmd_list q →
  wp (dnvme_release_prps (cmd_prps c);; dnvme_delete_cmd id c)
    (λ _ w', rest X w w' ∧ w_dev w' = drop_cmd id c (w_dev w)) w.
Proof.
  intros Hw Hq Hc. pose proof (dw_sqs _ (i_dev _ _ Hw) _ _ Hq) as Hwf.
  pose proof (cmd_ptrs_nodup _ _ _ _ Hw Hq) as Hnd.
  apply list_elem_of_split in Hc as (l1 & l2 & Hl). rewrite Hl in Hnd. apply nodup_mid in Hnd.
  set (q' := q <| sq_cmd_list := l1 ++ l2 |>).
  assert (sq_items q ≡ₚ cmd_items c ++ sq_items q') as Hit.
  { unfold sq_items, q'. cbn. rewrite Hl, !bind_app. cbn. solve_Permutation. }
  pose proof (sqw_cmds _ _ Hwf) as Hcw. rewrite Hl in Hcw.
  apply Forall_app in Hcw as [Hcl1 [[Hcp Hco] Hcl2]%Forall_cons].
  assert (sq_wf id q') as Hwf'.
  { destruct Hwf as [? ? ? ? ? ? ? ? Ha]. split; try done; [by apply Forall_app|].
    intros Hid. specialize (Ha Hid). rewrite Hl in Ha.
    apply Forall_app in Ha as [? [_ ?]%Forall_cons]. by apply Forall_app. }
  assert (∀ d, ndev_sqs d !! id = Some q → drop_cmd id c d = d <| ndev_sqs ::= alter (λ _, q') id |>)
    as Hdrop.
  { intros d Hd. apply (upd_sq_eq d id q); [done|]. unfold q', set_field. by rewrite Hl, (filter_node cmd_ptr). }
  pose proof (inv_upd_sq X w id q (λ _, q') (cmd_items c) [] Hw Hq) as Hend.
  apply wp_bind. set (R := sq_items q' ++ dev_items ((w_dev w) <| ndev_sqs ::= delete id |>) ++ X).
  assert (dev_items (w_dev w) ++ X ≡ₚ cmd_items c ++ R) as HR.
  { rewrite (dev_items_sq _ _ _ Hq), Hit. unfold R. solve_Permutation. }
  assert (inv (cmd_items c ++ X) (w <| w_dev ::= drop_cmd id c |>)) as Hout.
  { eapply (inv_upd_eq _ _ _ (λ d, d <| ndev_sqs ::= alter (λ _, q') id |>)); [by apply Hdrop|].
    apply Hend; [|done]. by rewrite Hit. }
  assert (dev_items (drop_cmd id c (w_dev w)) ++ X ≡ₚ R) as HR'.
  { rewrite (Hdrop _ Hq), (dev_items_upd_sq _ _ _ _ Hq). unfold R. by rewrite (assoc_L (++)). }
  eapply (wp_triple_frame _ (Blk (cmd_ptr c) AK_kmalloc None :: R));
    [by apply triple_release_prps|apply (i_holds _ _ Hw)|rewrite HR; unfold cmd_items; solve_Permutation|].
  intros _ R1 w1 -> Hw1 Hs1 Hu1. unfold dnvme_delete_cmd.
  apply wp_bind, (wp_get_sq id q); [by rewrite (same_dev_dev _ _ Hs1)|].
  apply wp_bind, wp_modify. set (w2 := w1 <| w_dev ::= _ |>). destruct Hs1 as (Hd1 & Hi1 & Hm1).
  assert (w_dev w2 = drop_cmd id c (w_dev w)) as Hd2 by (by rewrite <- Hd1).
  assert (inv (Blk (cmd_ptr c) AK_kmalloc None :: X) w2) as Hw2.
  { destruct Hout as [_ Hdw Hir]. split; rewrite Hd2; [|exact Hdw|cbn; rewrite Hi1; exact Hir].
    eapply (holds_ext _ w1); [done..|]. revert Hw1. apply holds_perm; [|done].
    rewrite <- HR'. solve_Permutation. }
  eapply (wp_own_frame _ X); [by apply (triple_kfree (cmd_ptr c) None)|exact Hw2|done|].
  intros _ R3 w3 -> Hw3 (Hd3 & Hi3 & Hm3) Hu3. rewrite Hd2 in Hd3, Hu3.
  split; [|exact Hd3].
  split_and!; [done|by etrans; [exact Hi3|]|by etrans; [exact Hm3|]|]. rewrite Hd3.
  transitivity w1; [|exact Hu3]. eapply untouched_incl; [|exact Hu1]. intros x.
  rewrite HR'. set_solver.
Qed.

(** ** The completion *)

(** The queue that goes with a completed queue command. *)
Definition retires (op status : Z) : option nvme_queue_type :=
  if op =? nvme_admin_delete_sq then if status =? 0 then Some NVME_SQ else None
  else if op =? nvme_admin_create_sq then if status =? 0 then None else Some NVME_SQ
  else if op =? nvme_admin_delete_cq then if status =? 0 then Some NVME_CQ else None
  else if op =? nvme_admin_create_cq then if status =? 0 then None else Some NVME_CQ
  else None.
(** ... unless it is the admin queue. *)
Definition retired (sqid : Z) (c : nvme_cmd) (status : Z) (d d' : nvme_device) : Prop :=
  if (sqid =? NVME_AQ_ID) && negb (cmd_target_qid c =? NVME_AQ_ID)
  then match retires (cmd_opcode c) status with
       | Some NVME_SQ => d' = d <| ndev_sqs ::= delete (cmd_target_qid c) |>
       | Some NVME_CQ => unbound (d <| ndev_cqs ::= delete (cmd_target_qid c) |>) d'
       | _ => d' = d
       end
  else d' = d.
(** Only the attempt to retire the admin queue is an error. *)
Definition retire_ret (sqid : Z) (c : nvme_cmd) (status : Z) : Z :=
  if (sqid =? NVME_AQ_ID) && (cmd_target_qid c =? NVME_AQ_ID)
  then match retires (cmd_opcode c) status with Some _ => - EINVAL | None => 0 end
  else 0.

Lemma rest_trans X w1 w2 w3 :
  rest X w1 w2 → rest X w2 w3 →
  (∀ x, x ∈ dev_items (w_dev w3) → x ∈ dev_items (w_dev w2)) → rest X w1 w3.
Proof.
  intros (_ & Hi1 & Hm1 & Hu1) (Hw & Hi2 & Hm2 & Hu2) Hin.
  split_and!; [done|congruence|congruence|]. transitivity w2; [|exact Hu2].
  eapply untouched_incl; [|exact Hu1]. intros x. rewrite !elem_of_app. naive_solver.
Qed.

Lemma drop_cmd_incl id c d x : x ∈ dev_items (drop_cmd id c d) → x ∈ dev_items d.
Proof.
  unfold drop_cmd. destruct (ndev_sqs d !! id) as [q|] eqn:Hq.
  - rewrite (dev_items_upd_sq _ _ _ _ Hq), (dev_items_sq _ _ _ Hq).
    rewrite !elem_of_app. intros [Hx|Hx]; [left|by right]. revert Hx. unfold sq_items. cbn.
    rewrite !elem_of_cons, !elem_of_app, !list_elem_of_bind.
    intros [?|[?|(c' & ? & Hc'%list_elem_of_filter)]]; [tauto|tauto|]. right. right. exists c'. tauto.
  - unfold dev_items. cbn. by rewrite (alter_None _ _ _ Hq).
Qed.

Lemma wp_handle_queue X c type (free : bool) q w :
  inv X w → ndev_sqs (w_dev w) !! NVME_AQ_ID = Some q → c ∈ sq_cmd_list q →
  is_queue_op (cmd_opcode c) = true → type = NVME_SQ ∨ type = NVME_CQ →
  let t := if free then Some type else None in
  wp (handle_queue_cmd_completion NVME_AQ_ID c type free)
    (λ r w', rest X w w' ∧ ∃ d,
      (if negb (cmd_target_qid c =? NVME_AQ_ID)
       then match t with
            | Some NVME_SQ => d = (w_dev w) <| ndev_sqs ::= delete (cmd_target_qid c) |>
            | Some NVME_CQ => unbound ((w_dev w) <| ndev_cqs ::= delete (cmd_target_qid c) |>) d
            | _ => d = w_dev w
            end
       else d = w_dev w) ∧
      w_dev w' = drop_cmd NVME_AQ_ID c d ∧
      r = (if cmd_target_qid c =? NVME_AQ_ID then match t with Some _ => - EINVAL | None => 0 end
           else 0)) w.
Proof.
  intros Hw Hq Hc Hqo Hty t. unfold handle_queue_cmd_completion.
  pose proof (sqw_admin _ _ (dw_sqs _ (i_dev _ _ Hw) _ _ Hq) eq_refl) as Ha.
  rewrite Forall_forall in Ha. specialize (Ha c Hc Hqo).

  assert (∀ (ret : Z) d w1, rest X w w1 → w_dev w1 = d → ndev_sqs d !! NVME_AQ_ID = Some q →
    wp (dnvme_delete_cmd NVME_AQ_ID c;; mret ret)
      (λ r w', rest X w w' ∧ w_dev w' = drop_cmd NVME_AQ_ID c d ∧ r = ret) w1) as Hend.
  { intros ret d w1 Hr1 Hd1 Hq1. destruct Hr1 as (Hw1 & Hr1).
    apply wp_bind. pose proof (wp_finish_cmd X NVME_AQ_ID q c w1 Hw1) as Hf. rewrite Ha, Hd1 in Hf.
    specialize (Hf Hq1 Hc). change (wp (dnvme_delete_cmd NVME_AQ_ID c) (λ _ w', rest X w1 w' ∧
      w_dev w' = drop_cmd NVME_AQ_ID c d) w1) in Hf.
    eapply wp_mono; [exact Hf|]. intros _ w2 [Hr2 Hd2]. apply wp_ret.
    split_and!; [|done|done]. apply (rest_trans X w w1 w2); [done|done|].
    rewrite Hd2, Hd1. apply drop_cmd_incl. }
  assert (rest X w w) as Hrefl by done.
  apply wp_bind. destruct free; cbn [negb].
  2:{ apply wp_ret. eapply wp_mono; [by apply (Hend 0 (w_dev w))|].
      intros r w' (Hr & Hd & ->). split; [done|]. exists (w_dev w). subst t.
      split_and!; [by destruct (_ =? _)|done|by destruct (_ =? _)]. }
  destruct (Z.eqb_spec (cmd_target_qid c) NVME_AQ_ID) as [Ht|Ht].
  { apply wp_ret. eapply wp_mono; [by apply (Hend (- EINVAL) (w_dev w))|].
    intros r w' (Hr & Hd & ->). split; [done|]. by exists (w_dev w). }
  cbn [negb]. apply wp_bind. subst t. destruct Hty as [-> | ->].
  - eapply wp_mono; [by apply (wp_delete_sq X)|]. intros _ w1 [Hr1 Hd1]. apply wp_ret.
    eapply wp_mono; [apply (Hend 0 _ _ Hr1 Hd1); cbn; by rewrite lookup_delete_ne|].
    intros r w' (Hr & Hd & ->). split; [done|].
    exists ((w_dev w) <| ndev_sqs ::= delete (cmd_target_qid c) |>). done.
  - eapply wp_mono; [by apply (wp_delete_cq X)|]. intros _ w1 [Hr1 Hd1]. apply wp_ret.
    eapply wp_mono; [apply (Hend 0 (w_dev w1) _ Hr1 eq_refl); by destruct Hd1 as (s & -> & _)|].
    intros r w' (Hr & Hd & ->). split; [done|]. by exists (w_dev w1).
Qed.

Definition set_head (id head : Z) (d : nvme_device) : nvme_device :=
  d <| ndev_sqs ::= alter (λ q, q <| sq_pub ::= λ p, p <| sqp_head_ptr := head |> |>) id |>.

Lemma inv_set_head X id head w q :
  inv X w → ndev_sqs (w_dev w) !! id = Some q → inv X (w <| w_dev ::= set_head id head |>).
Proof.
  intros Hw Hq. apply (inv_upd_sq X w id q (λ q, q <| sq_pub ::= λ p, p <| sqp_head_ptr := head |> |>)
    [] []); [done..|]. destruct (dw_sqs _ (i_dev _ _ Hw) _ _ Hq). by split.
Qed.
Lemma set_head_items id head d : dev_items (set_head id head d) ≡ₚ dev_items d.
Proof.
  unfold set_head. destruct (ndev_sqs d !! id) as [q|] eqn:Hq.
  - rewrite (dev_items_upd_sq _ _ _ _ Hq), (dev_items_sq _ _ _ Hq). done.
  - unfold dev_items. cbn. by rewrite (alter_None _ _ _ Hq).
Qed.

(** The command of a pending identifier, freed. *)
Lemma wp_handle X sqid q c status w :
  inv X w → ndev_sqs (w_dev w) !! sqid = Some q → c ∈ sq_cmd_list q →
  wp (if sqid =? NVME_AQ_ID then handle_admin_cmd_completion sqid c status
      else handle_gen_cmd_completion sqid c)
    (λ r w', rest X w w' ∧ ∃ d, retired sqid c status (w_dev w) d ∧
      w_dev w' = drop_cmd sqid c d ∧ r = retire_ret sqid c status) w.
Proof.
  intros Hw Hq Hc. unfold retired, retire_ret, handle_admin_cmd_completion.
  assert (wp (handle_gen_cmd_completion sqid c) (λ r w', rest X w w' ∧
    w_dev w' = drop_cmd sqid c (w_dev w) ∧ r = 0) w) as Hgen.
  { apply (wp_bind_assoc (dnvme_release_prps (cmd_prps c)) (λ _, dnvme_delete_cmd sqid c) (λ _, mret 0)).
    eapply wp_mono; [by eapply wp_finish_cmd|]. intros _ w' [? ?]. by apply wp_ret. }
  destruct (Z.eqb_spec sqid NVME_AQ_ID) as [->|Hs]; cbn [andb].
  2:{ eapply wp_mono; [exact Hgen|]. intros r w' (? & ? & ->). split; [done|]. by exists (w_dev w). }
  assert (∀ (b : bool) (t : nvme_queue_type), is_queue_op (cmd_opcode c) = true →
    (t = NVME_SQ ∨ t = NVME_CQ) → retires (cmd_opcode c) status = (if b then Some t else None) →
    wp (handle_queue_cmd_completion NVME_AQ_ID c t b)
    (λ r w', rest X w w' ∧ ∃ d,
      (if negb (cmd_target_qid c =? NVME_AQ_ID)
       then match retires (cmd_opcode c) status with
       | Some NVME_SQ => d = (w_dev w) <| ndev_sqs ::= delete (cmd_target_qid c) |>
       | Some NVME_CQ => unbound ((w_dev w) <| ndev_cqs ::= delete (cmd_target_qid c) |>) d
       | _ => d = w_dev w
       end
       else d = w_dev w) ∧ w_dev w' = drop_cmd NVME_AQ_ID c d ∧
      r = if cmd_target_qid c =? NVME_AQ_ID
          then match retires (cmd_opcode c) status with Some _ => - EINVAL | None => 0 end
          else 0) w) as Hqueue.
  { intros b t Hqo Ht ->. by apply (wp_handle_queue X c t b q). }
  unfold is_queue_op, retires in Hqueue. unfold retires.
  destruct (cmd_opcode c =? nvme_admin_delete_sq);
    [apply (Hqueue (status =? 0) NVME_SQ); auto|].
  destruct (cmd_opcode c =? nvme_admin_create_sq);
    [apply (Hqueue (negb (status =? 0)) NVME_SQ); auto; by destruct (status =? 0)|].
  destruct (cmd_opcode c =? nvme_admin_delete_cq);
    [apply (Hqueue (status =? 0) NVME_CQ); auto|].
  destruct (cmd_opcode c =? nvme_admin_create_cq);
    [apply (Hqueue (negb (status =? 0)) NVME_CQ); auto; by destruct (status =? 0)|].
  eapply wp_mono; [exact Hgen|]. intros r w' (? & ? & ->). split; [done|]. exists (w_dev w).
  by destruct (_ =? _).
Qed.

(** The fields of a completion. *)
Record cqe_is (data : list Z) (base sqid head cid status : Z) : Prop := {
  ce_sqid : load_le 2 data (base + 10) = Some sqid;
  ce_head : load_le 2 data (base + 8) = Some head;
  ce_cid : load_le 2 data (base + 12) = Some cid;
  ce_status : ∃ st, load_le 2 data (base + 14) = Some st ∧
    status = Z.land (NVME_CQE_STATUS_TO_STATE st) 0x7ff }.

Lemma cqe_field_ok n off data base v w :
  load_le n data (base + off) = Some v → cqe_field n off data base w = Val v w.
Proof. intros H. unfold cqe_field. by rewrite H. Qed.

(** What a completion does to the device structure, and its return code. *)
Definition completed (sqid head cid status : Z) (d : nvme_device) (r : Z) (d' : nvme_device) : Prop :=
  match ndev_sqs d !! sqid with
  | None => r = - EBADSLT ∧ d' = d
  | Some q =>
    match dnvme_find_cmd q cid with
    | None => r = - EBADSLT ∧ d' = set_head sqid head d
    | Some c => r = retire_ret sqid c status ∧
        ∃ d1, retired sqid c status (set_head sqid head d) d1 ∧ d' = drop_cmd sqid c d1
    end
  end.

Lemma wp_completion X data base sqid head cid status w :
  inv X w → cqe_is data base sqid head cid status →
  wp (handle_cmd_completion data base)
    (λ r w', rest X w w' ∧ completed sqid head cid status (w_dev w) r (w_dev w')) w.
Proof.
  intros Hw [Hsq Hh Hc (st & Hst & ->)]. unfold handle_cmd_completion, completed.
  apply wp_bind. unfold wp at 1, cqe_sq_id. rewrite (cqe_field_ok _ _ _ _ _ _ Hsq).
  apply wp_bind, wp_gets. unfold dnvme_find_sq.
  destruct (ndev_sqs (w_dev w) !! sqid) as [q|] eqn:Hq; [|apply wp_ret; by split].
  apply wp_bind. unfold wp at 1, cqe_sq_head. rewrite (cqe_field_ok _ _ _ _ _ _ Hh).
  apply wp_bind, wp_modify. set (w1 := w <| w_dev ::= _ |>).
  assert (inv X w1) as Hw1 by (by apply (inv_set_head X sqid head w q)).
  assert (w_dev w1 = set_head sqid head (w_dev w)) as Hd1 by done.
  assert (rest X w w1) as Hr1 by done.
  apply wp_bind. unfold wp at 1, cqe_status. rewrite (cqe_field_ok _ _ _ _ _ _ Hst).
  apply wp_bind. unfold wp at 1, cqe_command_id. rewrite (cqe_field_ok _ _ _ _ _ _ Hc).
  destruct (dnvme_find_cmd q cid) as [c|] eqn:Hf; [|by apply wp_ret].
  eapply wp_mono.
  { apply (wp_handle X sqid (q <| sq_pub ::= λ p, p <| sqp_head_ptr := head |> |>)); [done| |].
    - rewrite Hd1. cbn. by rewrite lookup_alter_eq, Hq.
    - cbn. unfold dnvme_find_cmd in Hf. by apply list_find_snd in Hf as [? _]. }
  intros r w2 (Hr2 & d & Hd & Hd2 & ->). split; [|split; [done|by exists d]].
  destruct Hr2 as (Hw2 & Hi2 & Hm2 & Hu2). split_and!; [done|done|done|].
  transitivity w1; [|exact Hu2]. done.
Qed.

(** C9. A completion, whatever the controller wrote into it (any queue, any command
    identifier, any status), never faults and keeps the invariant.  An unknown queue or
    identifier is reported and frees nothing; otherwise the head of the submission queue
    is the reported one and the command's node goes with everything it owns, exactly
    once; a queue goes with it exactly when its deletion succeeded or its creation
    failed, with its memory, its pending commands and its place at the interrupt, and
    never the admin queue. *)
Theorem completion_exact X data base sqid head cid status w
    (Hw : inv X w) (Hcqe : cqe_is data base sqid head cid status) :
  wp (handle_cmd_completion data base)
    (λ r w', inv X w' ∧ w_irqs w' = w_irqs w ∧ w_mode w' = w_mode w ∧
      completed sqid head cid status (w_dev w) r (w_dev w')) w.
Proof.
  eapply wp_mono; [by apply wp_completion|]. intros r w' ((? & ? & ? & _) & ?). done.
Qed.
End complete.

(** *** Witness: the completion of the pending command of the I/O queue. *)

Lemma completion_exact_witness :
  wp (handle_cmd_completion demo_cqe 0)
    (λ r w', inv [] w' ∧ w_irqs w' = [11] ∧ w_mode w' = MODE_none ∧
      completed 1 1 0 0 full_dev r (w_dev w')) full_world.
Proof.
  refine (completion_exact [] demo_cqe 0 1 1 0 0 full_world full_world_inv _).
  split; [vm_compute; reflexivity..|]. exists 1. split; vm_compute; reflexivity.
Defined.
