(* ===== verification/CqFifo.v ===== *)
(** * The completion queue is a FIFO

    What the controller has posted and the driver has not reaped is the run of entries
    of the current phase from the head ([Ring]).  Moving the head over [k] of them with
    [update_cq_head] leaves exactly the rest, also across the end of the ring, where the
    phase changes. *)

From S2P Require Import Prelude Types Kernel Io Own Prp Ring Irq Queue Inv Demo.

Definition cq_entry (data : list Z) (i : Z) : list Z := default [] (load_bytes data (16 * i) 16).
(** The entries to reap, oldest first. *)
Definition cq_fifo (cq : nvme_cq) (data : list Z) : list (list Z) :=
  let p := cq_pub cq in
  (λ i, cq_entry data (pos (cqp_elements p) (cqp_head_ptr p) i)) <$> seqZ 0 (cq_news cq data).

(** Head and phase after [k] entries. *)
Definition cq_turn (k : Z) (p : nvme_cq_public) : nvme_cq_public :=
  p <| cqp_head_ptr := pos (cqp_elements p) (cqp_head_ptr p) k |>
    <| cqp_pbit_new_entry := ph (cqp_elements p) (cqp_head_ptr p) (cqp_pbit_new_entry p) k |>.
Definition cq_reaped (k : Z) (cq : nvme_cq) : nvme_cq := cq <| cq_pub ::= cq_turn k |>.

Lemma cq_news_bounds cq data : cq_ok cq data → 0 ≤ cq_news cq data ≤ cqp_elements (cq_pub cq).
Proof.
  intros (He & _). unfold cq_news.
  pose proof (new_run_bounds (Z.to_nat (cqp_elements (cq_pub cq))) data (cqp_elements (cq_pub cq))
    (cqp_head_ptr (cq_pub cq)) (cqp_pbit_new_entry (cq_pub cq)) 0). lia.
Qed.

Section turn.
Context (data : list Z) (e head phase k : Z).
Context (He : 0 < e < 2 ^ 16) (Hh : 0 ≤ head < e) (Hp : phase = 0 ∨ phase = 1).
Local Abbreviation run h p := (new_run (Z.to_nat e) data e h p 0).
Context (Hk : 0 ≤ k ≤ run head phase).
Local Abbreviation head' := (pos e head k).
Local Abbreviation phase' := (ph e head phase k).

Lemma run_bound h p : 0 ≤ run h p ≤ e.
Proof. pose proof (new_run_bounds (Z.to_nat e) data e h p 0). lia. Qed.

Lemma phase'_bit : phase' = 0 ∨ phase' = 1.
Proof. unfold ph. destruct (_ <? _); [done|]. destruct Hp as [-> | ->]; [by right|by left]. Qed.

Lemma phase'_flip : Z.lxor phase' 1 = ph e head (Z.lxor phase 1) k.
Proof. unfold ph. by destruct (_ <? _). Qed.

(** Entry [i] from the new head is entry [k + i] from the old one. *)
Lemma turn_pos i : 0 ≤ i → k + i ≤ e → pos e head' i = pos e head (k + i).
Proof.
  intros Hi Hki. unfold pos. destruct (Z.ltb_spec (head + k) e);
    destruct (Z.ltb_spec (head + (k + i)) e);
    repeat match goal with |- context [?a <? ?b] => destruct (Z.ltb_spec a b) end; lia.
Qed.
Lemma turn_new i : 0 ≤ i → k + i ≤ e →
  cqe_new data e head' phase' i ↔ cqe_new data e head phase (k + i).
Proof.
  intros Hi Hki. rewrite !cqe_new_pos, turn_pos by done.
  assert (ph e head' phase' i = ph e head phase (k + i)) as ->; [|done].
  unfold ph, pos. pose proof (run_bound head phase).
  destruct (Z.ltb_spec (head + k) e), (Z.ltb_spec (head + (k + i)) e);
    repeat match goal with |- context [?a <? ?b] => destruct (Z.ltb_spec a b) end; try lia; try done.
Qed.

(** The entry behind the run is not new, also after a full turn. *)
Lemma run_stops : ¬ cqe_new data e head phase (run head phase).
Proof.
  destruct (new_run_spec (Z.to_nat e) data e head phase 0) as [H1 H2]. rewrite !Z.add_0_l in *.
  pose proof (run_bound head phase) as Hb.
  destruct (decide (run head phase = e)) as [Heq|]; [|apply H2; lia].
  rewrite Heq. apply (full_turn data e head phase Hh Hp).
  replace 0 with (0 + 0) at 1 by lia. apply H1. lia.
Qed.

(** A run is determined by what is new and where it stops. *)
Lemma run_unique h p r : 0 ≤ r ≤ e → (∀ i, 0 ≤ i < r → cqe_new data e h p i) →
  ¬ cqe_new data e h p r → run h p = r.
Proof.
  intros Hr Hnew Hstop. destruct (new_run_spec (Z.to_nat e) data e h p 0) as [H1 H2].
  pose proof (run_bound h p) as Hb. set (n := run h p) in *.
  destruct (Z.lt_trichotomy n r) as [Hlt|[?|Hgt]]; [|done|].
  - exfalso. apply H2; [lia|]. apply Hnew. lia.
  - exfalso. apply Hstop. replace r with (0 + r) by lia. apply H1. lia.
Qed.

Lemma turn_run : run head' phase' = run head phase - k.
Proof.
  pose proof (run_bound head phase) as Hb.
  destruct (new_run_spec (Z.to_nat e) data e head phase 0) as [H1 _].
  apply run_unique; [lia| |].
  - intros i Hi. apply turn_new; [lia|lia|]. replace (k + i) with (0 + (k + i)) by lia. apply H1. lia.
  - rewrite turn_new by lia. replace (k + (run head phase - k)) with (run head phase) by lia.
    apply run_stops.
Qed.
End turn.

Lemma cq_fifo_turn cq data k :
  cq_ok cq data → 0 ≤ k ≤ cq_news cq data →
  cq_fifo (cq_reaped k cq) data = drop (Z.to_nat k) (cq_fifo cq data).
Proof.
  intros Hok Hk. pose proof (cq_news_bounds _ _ Hok) as Hb.
  destruct Hok as (He & Hh & Hp & _). unfold cq_fifo. set (n := cq_news cq data) in *.
  assert (cq_news (cq_reaped k cq) data = n - k) as Hn by (by apply turn_run).
  rewrite Hn, <- fmap_drop.
  replace (drop (Z.to_nat k) (seqZ 0 n)) with (seqZ k (n - k)).
  2:{ replace n with (k + (n - k)) at 2 by lia. rewrite seqZ_app by lia.
      rewrite drop_app_length'; [f_equal; lia|]. rewrite length_seqZ. lia. }
  apply list_eq. intros j. rewrite !list_lookup_fmap.
  destruct (decide (Z.of_nat j < n - k)).
  - rewrite !lookup_seqZ_lt by lia. simpl. do 2 f_equal. rewrite Z.add_0_l.
    apply turn_pos; unfold cq_reaped, cq_turn; simpl; lia.
  - by rewrite !lookup_seqZ_ge by lia.
Qed.

Lemma update_cq_head_eq id cq k w data :
  dnvme_find_cq (w_dev w) id = Some cq → cq_ok cq data → 0 ≤ k ≤ cqp_elements (cq_pub cq) →
  update_cq_head id k w =
  Val tt (w <| w_dev ::= λ d, d <| ndev_cqs ::= alter (cq_reaped k) id |> |>
            <| w_hist ::= cons (E_writel (cq_db cq + 0)
                 (u32 (pos (cqp_elements (cq_pub cq)) (cqp_head_ptr (cq_pub cq)) k))) |>).
Proof.
  intros Hcq (He & Hh & Hp & _) Hk. unfold update_cq_head, get_cq, get_dev, gets, mbind, M_bind.
  rewrite Hcq. cbn. rewrite (u32_small (_ + k)) by lia.
  set (p := cq_pub cq) in *. set (e := cqp_elements p) in *.
  rewrite (proj2 (Z.eqb_neq e 0)), andb_false_r by lia. cbn.
  assert (p <| cqp_pbit_new_entry ::= λ b, if e <=? cqp_head_ptr p + k then if b =? 0 then 1 else 0 else b |>
    <| cqp_head_ptr := u16 (if e <=? cqp_head_ptr p + k then (cqp_head_ptr p + k) mod e
                            else cqp_head_ptr p + k) |> = cq_turn k p) as Hturn.
  { unfold cq_turn, pos, ph, set_field. cbn. fold e.
    destruct (Z.leb_spec e (cqp_head_ptr p + k)) as [Hw|Hw].
    - rewrite (proj2 (Z.ltb_ge _ _)) by lia.
      assert ((cqp_head_ptr p + k) mod e = cqp_head_ptr p + k - e) as ->.
      { rewrite <- (Z.mod_small (_ - e) e) by lia. rewrite <- (Z_mod_plus_full (_ - e) 1 e). f_equal. lia. }
      rewrite u16_small by lia. f_equal. by destruct Hp as [-> | ->].
    - rewrite (proj2 (Z.ltb_lt _ _)) by lia. by rewrite u16_small by lia. }
  change (pos e (cqp_head_ptr p) k) with (cqp_head_ptr (cq_turn k p)). rewrite <- Hturn.
  unfold upd_cq, upd_dev, modify, dnvme_writel, writel, emit, modify. cbn.
  unfold set_field. cbn. do 3 f_equal. apply alter_ext. intros x Hx.
  unfold dnvme_find_cq in Hcq. simplify_eq.
  unfold cq_reaped, set_field. fold p. cbn. rewrite <- Hturn. done.
Qed.

(** C17. Reaping [k] of the new entries with [update_cq_head] leaves exactly the other
    ones, oldest first, wherever the head is: the head moves by [k] around the ring, the
    expected phase changes when it passes the end, the doorbell of the queue is written
    once with the new head, and nothing else changes. *)
Theorem cq_head_consumes id cq data k w
    (Hcq : dnvme_find_cq (w_dev w) id = Some cq) (Hok : cq_ok cq data)
    (Hk : 0 ≤ k ≤ cq_news cq data) :
  let p := cq_pub cq in
  cq_fifo (cq_reaped k cq) data = drop (Z.to_nat k) (cq_fifo cq data) ∧
  cqp_head_ptr (cq_pub (cq_reaped k cq)) = (cqp_head_ptr p + k) mod cqp_elements p ∧
  update_cq_head id k w =
  Val tt (w <| w_dev ::= λ d, d <| ndev_cqs ::= alter (cq_reaped k) id |> |>
            <| w_hist ::= cons (E_writel (cq_db cq + 0)
                 ((cqp_head_ptr p + k) mod cqp_elements p)) |>).
Proof.
  intros p. pose proof (cq_news_bounds _ _ Hok) as Hb. pose proof Hok as (He & Hh & Hp & _).
  assert (pos (cqp_elements p) (cqp_head_ptr p) k = (cqp_head_ptr p + k) mod cqp_elements p) as Hpos.
  { unfold pos. fold p in He, Hh, Hb. destruct (Z.ltb_spec (cqp_head_ptr p + k) (cqp_elements p)).
    - symmetry. apply Z.mod_small. lia.
    - rewrite <- (Z.mod_small (_ - _) (cqp_elements p)) by lia.
      rewrite <- (Z_mod_plus_full (_ - _) 1 (cqp_elements p)). f_equal. lia. }
  split_and!; [by apply cq_fifo_turn|exact Hpos|].
  rewrite (update_cq_head_eq id cq k w data) by (done || lia). fold p. rewrite Hpos, u32_small; [done|].
  pose proof (Z.mod_pos_bound (cqp_head_ptr p + k) (cqp_elements p)). fold p in He. lia.
Qed.

(** *** Witness: two new entries of two, from the last entry on, and the queue behind. *)

Definition turn_cq : nvme_cq :=
  demo_cq <| cq_pub ::= λ p, p <| cqp_head_ptr := 1 |> |>.
Definition turn_data : list Z := replicate 14 0 ++ [0; 0] ++ replicate 14 0 ++ [1; 0].
Definition turn_world : world :=
  demo_cq_world <| w_dev ::= λ d, d <| ndev_cqs := {[ 1 := turn_cq ]} |> |>.

Lemma cq_head_consumes_witness :
  cq_fifo turn_cq turn_data = [replicate 14 0 ++ [1; 0]; replicate 16 0] ∧
  cq_fifo (cq_reaped 1 turn_cq) turn_data = [replicate 16 0] ∧
  ∃ w', update_cq_head 1 1 turn_world = Val tt w' ∧
    head (w_hist w') = Some (E_writel (cq_db turn_cq + 0) 0).
Proof.
  destruct (cq_head_consumes 1 turn_cq turn_data 1 turn_world) as (H1 & _ & H3).
  - vm_compute. reflexivity.
  - split_and!; vm_compute; try (by left); try (by right); try done; discriminate.
  - vm_compute. split; discriminate.
  - split; [vm_compute; reflexivity|]. split; [rewrite H1; vm_compute; reflexivity|].
    eexists. split; [exact H3|]. vm_compute. reflexivity.
Defined.
