(* ===== verification/Reap.v ===== *)
(** * Reaping completions

    [dnvme_reap_cqe_legacy]: the new entries are handled and copied to the user one by
    one, the head moves over those that were, and the interrupt of the queue is let
    through again when nothing is left.  [reaps] is what a run of the copy loop does to
    the device structure; [uploaded] is what the user received. *)

From S2P Require Import Prelude Types Kernel Io Own Prp Paged PrpSpec Sgl SglSpec Ring Irq Queue Cmd Meta Inv Demo QueueSpec IrqSpec IrqSet IrqRun Trace QueueOps MetaSpec CmdSpec Submit Complete CqFifo.

(** ** What freeing tells the outside *)

Definition frees (e : event) : Prop :=
  match e with
  | E_kfree _ | E_dma_free _ _ | E_p2p_free _ _ | E_pool_free _ _ | E_put_pages _
  | E_vunmap _ | E_unmap_sg _ => True
  | _ => False
  end.

Lemma frees_kfree p : adds frees (kfree p).
Proof. unfold kfree. solve_adds. Qed.
Lemma frees_dma_free n p : adds frees (dma_free_coherent n p).
Proof. unfold dma_free_coherent. solve_adds. Qed.
Lemma frees_p2p_free p n : adds frees (pci_free_p2pmem p n).
Proof. unfold pci_free_p2pmem. solve_adds. Qed.
Lemma frees_pool_free p q : adds frees (dma_pool_free p q).
Proof. unfold dma_pool_free. solve_adds. Qed.
Lemma frees_put_pages n : adds frees (put_pages n).
Proof. unfold put_pages. solve_adds. Qed.
Lemma frees_vunmap p : adds frees (vunmap p).
Proof. unfold vunmap. solve_adds. Qed.
Lemma frees_unmap_sg n : adds frees (dma_unmap_sg n).
Proof. unfold dma_unmap_sg. solve_adds. Qed.
#[local] Hint Resolve frees_kfree frees_dma_free frees_p2p_free frees_pool_free frees_put_pages
  frees_vunmap frees_unmap_sg : adds.

#[local] Arguments cqe_scan : simpl never.

Section reap.
Context {E : Env}.

Lemma frees_release_prps o : adds frees (dnvme_release_prps o).
Proof.
  unfold dnvme_release_prps, dnvme_unmap_user_page, dnvme_free_prp_list, free_pool_pages. solve_adds.
Qed.
#[local] Hint Resolve frees_release_prps : adds.
Lemma frees_delete_cmd_list q : adds frees (dnvme_delete_cmd_list q).
Proof. unfold dnvme_delete_cmd_list. solve_adds. Qed.
#[local] Hint Resolve frees_delete_cmd_list : adds.
Lemma frees_release_sq o : adds frees (dnvme_release_sq o).
Proof. unfold dnvme_release_sq. solve_adds. Qed.
Lemma frees_release_cq o : adds frees (dnvme_release_cq o).
Proof. unfold dnvme_release_cq. solve_adds. Qed.
Lemma frees_delete_icq q n : adds frees (dnvme_delete_icq_node q n).
Proof. unfold dnvme_delete_icq_node, delete_icq_node, upd_irq_node, upd_irq_set, get_irq_set. solve_adds. Qed.
#[local] Hint Resolve frees_release_sq frees_release_cq frees_delete_icq : adds.
Lemma frees_delete_cmd id c : adds frees (dnvme_delete_cmd id c).
Proof. unfold dnvme_delete_cmd, get_sq, upd_sq. solve_adds. Qed.
#[local] Hint Resolve frees_delete_cmd : adds.
Lemma frees_queue_completion id c t b : adds frees (handle_queue_cmd_completion id c t b).
Proof. unfold handle_queue_cmd_completion, dnvme_delete_cq, dnvme_delete_sq. solve_adds. Qed.
#[local] Hint Resolve frees_queue_completion : adds.
Lemma frees_gen_completion id c : adds frees (handle_gen_cmd_completion id c).
Proof. unfold handle_gen_cmd_completion. solve_adds. Qed.
#[local] Hint Resolve frees_gen_completion : adds.
Lemma frees_admin_completion id c st : adds frees (handle_admin_cmd_completion id c st).
Proof. unfold handle_admin_cmd_completion. solve_adds. Qed.
Lemma frees_cqe_field n o data b : adds frees (cqe_field n o data b).
Proof. unfold cqe_field. solve_adds. Qed.
#[local] Hint Resolve frees_admin_completion frees_cqe_field : adds.
Lemma frees_completion data base : adds frees (handle_cmd_completion data base).
Proof.
  unfold handle_cmd_completion, cqe_sq_id, cqe_sq_head, cqe_status, cqe_command_id, upd_sq. solve_adds.
Qed.

(** ** What the user received *)

(** The bytes of the copies that went through, oldest first. *)
Fixpoint uploaded (h : history) : list (list Z) :=
  match h with
  | [] => []
  | e :: t => uploaded t ++ (match e with
                             | E_copy_to_user (UP_bytes bs) => if ans h =? 0 then [bs] else []
                             | _ => []
                             end)
  end.

Lemma uploaded_frees h h' : Forall frees h → uploaded (h ++ h') = uploaded h'.
Proof.
  induction 1 as [|e h He _ IH]; [done|]. simpl. rewrite IH. destruct e; try done; apply app_nil_r.
Qed.
(** ** The memory of a completion queue *)

Definition cq_base (q : nvme_cq) : Z :=
  if cq_contig q then cq_buf q else match cq_prps q with Some (_, prps) => prps_buf prps | None => 0 end.
Definition cq_bytes (w : world) (q : nvme_cq) : list Z :=
  default [] (blk_data <$> w_heap w !! cq_base q).
Definition cq_usable (q : nvme_cq) : Prop := cq_contig q = false → is_Some (cq_prps q).

Lemma cq_mem X id q w :
  inv X w → ndev_cqs (w_dev w) !! id = Some q → cq_usable q →
  cq_base q ≠ 0 ∧ (∃ b, w_heap w !! cq_base q = Some b ∧ blk_data b = cq_bytes w q) ∧
  cq_ok q (cq_bytes w q) ∧ cq_base q ∈ ptrs (dev_items (w_dev w)).
Proof.
  intros Hw Hq Hu. pose proof (dw_cqs _ (i_dev _ _ Hw) _ _ Hq) as Hwf.
  destruct (qmem_block _ _ (cq_use_cmb q) (cq_buf q) _ _ (cqw_mem _ _ Hwf) Hu) as (k & n & Hin & Hk & Hn).
  fold (cq_base q) in Hin.
  assert (Blk (cq_base q) k (Some n) ∈ dev_items (w_dev w)) as Hin'.
  { rewrite (dev_items_cq _ _ _ Hq). unfold cq_items. set_solver. }
  pose proof (h_in _ _ (i_holds _ _ Hw)) as Hi. rewrite Forall_app, Forall_forall in Hi.
  destruct (proj1 Hi _ Hin') as (H0 & b & Hb & Hbk & Hs & Hok). simpl in Hs.
  assert (cq_bytes w q = blk_data b) as Hd by (unfold cq_bytes; by rewrite Hb).
  split_and!; [done|by exists b| |].
  - destruct Hwf. split_and!; try done; try lia. rewrite Hd. unfold SIZEOF_completion.
    rewrite Hok by (by rewrite Hbk). lia.
  - apply list_elem_of_bind. exists (Blk (cq_base q) k (Some n)). split; [by left|done].
Qed.

(** What looking at the queues keeps; the user receives no entry meanwhile. *)
Definition scanned (X : list item) (w w' : world) : Prop :=
  inv X w' ∧ w_irqs w' = w_irqs w ∧ w_mode w' = w_mode w ∧ w_heap w' = w_heap w ∧
  uploaded (w_hist w') = uploaded (w_hist w) ∧ w_hist w `suffix_of` w_hist w'.
Lemma scanned_trans X w1 w2 w3 : scanned X w1 w2 → scanned X w2 w3 → scanned X w1 w3.
Proof. intros (?&?&?&?&?&?) (?&?&?&?&?&?). split_and!; [done|congruence..|by etrans]. Qed.
Lemma scanned_refl X w : inv X w → scanned X w w.
Proof. intros Hw. by split_and!. Qed.
Lemma scanned_in X w w' e : scanned X w w' → e ∈ w_hist w → e ∈ w_hist w'.
Proof. intros (_&_&_&_&_&[h ->]). rewrite elem_of_app. auto. Qed.

(** The scan on any queue in the invariant. *)
Definition next_tail (w : world) (q : nvme_cq) : Z :=
  pos (cqp_elements (cq_pub q)) (cqp_head_ptr (cq_pub q)) (cq_news q (cq_bytes w q)).
Lemma wp_remain X id q (Φ : Z → world → Prop) w :
  inv X w → ndev_cqs (w_dev w) !! id = Some q → cq_usable q →
  (∀ w', scanned X w w' →
    w_dev w' = w_dev (set_cq_tail id (next_tail w q) w) → Φ (cq_news q (cq_bytes w q)) w') →
  wp (dnvme_get_cqe_remain id) Φ w.
Proof.
  intros Hw Hq Hu HΦ. destruct (cq_mem X id q w Hw Hq Hu) as (H0 & (b & Hb & Hd) & Hok & _).
  set (w1 := if cq_contig q then w else w <| w_hist ::= cons E_sync_sg |>).
  assert (inv X w1) as Hw1 by (unfold w1; destruct (cq_contig q); [done|by apply inv_hist]).
  assert (dnvme_get_cqe_remain id w = Val (cq_news q (cq_bytes w q))
    (set_cq_tail id (next_tail w q) w1)) as Heq.
  { destruct Hok as (He & Hh & Hp & Hl). unfold next_tail.
    unfold dnvme_get_cqe_remain, get_cq, get_dev, gets, cq_addr, get_block, upd_cq, upd_dev,
      emit, modify, mbind, M_bind, mret, M_ret, dnvme_find_cq. rewrite Hq.
    unfold cq_base, w1, cq_usable in *. destruct (cq_contig q); [|destruct (Hu eq_refl) as [[? prps] Hprps]; rewrite Hprps in *];
      cbn; rewrite (proj2 (Z.eqb_neq _ _) H0), Hb, Hd; by rewrite cqe_scan_counts. }
  unfold wp. rewrite Heq. apply HΦ; [split_and!|]; try (unfold w1; by destruct (cq_contig q)).
  - apply (inv_upd_cq X w1 id q (λ q', q' <| cq_pub ::= λ p, p <| cqp_tail_ptr := next_tail w q |> |>) [] []);
      [done|unfold w1; by destruct (cq_contig q)|done|].
    destruct (dw_cqs _ (i_dev _ _ Hw) _ _ Hq). by split.
  - unfold w1, set_cq_tail. destruct (cq_contig q); [done|]. simpl. apply app_nil_r.
  - unfold w1, set_cq_tail. destruct (cq_contig q); [done|]. by exists [E_sync_sg].
Qed.
(** ** The copy loop *)

(** Where a completion of queue [id] may not be found: the admin commands that delete
    an I/O completion queue complete on the admin queue. *)
Definition keeps_cq (id : Z) (data : list Z) (e head n : Z) : Prop :=
  id = NVME_AQ_ID ∨ ∀ i, 0 ≤ i < n → load_le 2 data (16 * pos e head i + 10) ≠ Some NVME_AQ_ID.

(** A run over [n] entries from the [i]-th on: what the user received, the return
    code and the device structure at the end. *)
Inductive reaps (data : list Z) (e head : Z) : nat → Z → nvme_device → list (list Z) → Z → nvme_device → Prop :=
| reaps_all i d : reaps data e head 0 i d [] 0 d
| reaps_fault n i d sqid hd cid st r d' :
    cqe_is data (16 * pos e head i) sqid hd cid st → completed sqid hd cid st d r d' →
    reaps data e head (S n) i d [] (- EFAULT) d'
| reaps_error n i d sqid hd cid st r d' :
    cqe_is data (16 * pos e head i) sqid hd cid st → completed sqid hd cid st d r d' → r ≠ 0 →
    reaps data e head (S n) i d [cq_entry data (pos e head i)] r d'
| reaps_next n i d sqid hd cid st d1 es r d' :
    cqe_is data (16 * pos e head i) sqid hd cid st → completed sqid hd cid st d 0 d1 →
    reaps data e head n (i + 1) d1 es r d' →
    reaps data e head (S n) i d (cq_entry data (pos e head i) :: es) r d'.

Lemma load_le_some n data o :
  0 ≤ o → o + Z.of_nat n ≤ Z.of_nat (length data) → is_Some (load_le n data o).
Proof. intros H1 H2. unfold load_le, load_bytes. rewrite decide_True by lia. eauto. Qed.

Lemma cqe_is_some data b :
  0 ≤ b → b + 16 ≤ Z.of_nat (length data) → ∃ sqid hd cid st, cqe_is data b sqid hd cid st.
Proof.
  intros Hb Hl. destruct (load_le_some 2 data (b + 10)) as [sqid ?]; [lia..|].
  destruct (load_le_some 2 data (b + 8)) as [hd ?]; [lia..|].
  destruct (load_le_some 2 data (b + 12)) as [cid ?]; [lia..|].
  destruct (load_le_some 2 data (b + 14)) as [st ?]; [lia..|].
  exists sqid, hd, cid, (Z.land (NVME_CQE_STATUS_TO_STATE st) 0x7ff). split; try done. eauto.
Qed.

(** A completion keeps the completion queues but the one it deletes. *)
Lemma completed_cqs sqid hd cid st d r d' :
  completed sqid hd cid st d r d' → ndev_cqs d' ⊆ ndev_cqs d.
Proof.
  unfold completed, retired, set_head. destruct (ndev_sqs d !! sqid) as [q|]; [|by intros [_ ->]].
  destruct (dnvme_find_cmd q cid) as [c|]; [|by intros [_ ->]].
  intros (_ & d1 & Hd1 & ->). change (ndev_cqs d1 ⊆ ndev_cqs d).
  destruct (_ && _); [|by subst d1]. destruct (retires _ _) as [[]|]; try by subst d1.
  destruct Hd1 as (s & -> & _). apply delete_subseteq.
Qed.
Lemma completed_keeps sqid hd cid st d r d' id :
  completed sqid hd cid st d r d' → id = NVME_AQ_ID ∨ sqid ≠ NVME_AQ_ID →
  ndev_cqs d' !! id = ndev_cqs d !! id.
Proof.
  unfold completed, retired, set_head. destruct (ndev_sqs d !! sqid) as [q|]; [|by intros [_ ->]].
  destruct (dnvme_find_cmd q cid) as [c|]; [|by intros [_ ->]].
  intros (_ & d1 & Hd1 & ->) Hid. change (ndev_cqs d1 !! id = ndev_cqs d !! id).
  destruct (Z.eqb_spec sqid NVME_AQ_ID); cbn in Hd1; [|by subst d1].
  destruct (Z.eqb_spec (cmd_target_qid c) NVME_AQ_ID); cbn in Hd1; [by subst d1|].
  destruct (retires _ _) as [[]|]; try by subst d1.
  destruct Hd1 as (s & -> & _). apply lookup_delete_ne. by destruct Hid as [-> |].
Qed.

(** The entry behind the last one is the first. *)
Lemma pos_step e head i : 0 < e → 0 ≤ head < e → 0 ≤ i → i + 1 ≤ e →
  (if 16 * e <=? 16 * pos e head i + 16 then 0 else 16 * pos e head i + 16) = 16 * pos e head (i + 1).
Proof.
  intros He Hh Hi Hl. unfold pos.
  destruct (Z.ltb_spec (head + i) e), (Z.ltb_spec (head + (i + 1)) e);
    match goal with |- context [?a <=? ?b] => destruct (Z.leb_spec a b) end; lia.
Qed.
(** What a step of the loop keeps. *)
Record reap_keeps (X : list item) (id : Z) (q : nvme_cq) (w w' : world) : Prop := {
  rk_inv : inv X w';
  rk_irqs : w_irqs w' = w_irqs w;
  rk_mode : w_mode w' = w_mode w;
  rk_cq : ndev_cqs (w_dev w') !! id = Some q;
  rk_cqs : ndev_cqs (w_dev w') ⊆ ndev_cqs (w_dev w);
  rk_bytes : ∀ i q', ndev_cqs (w_dev w') !! i = Some q' → cq_usable q' → cq_bytes w' q' = cq_bytes w q' }.

Lemma rk_trans X id q w1 w2 w3 :
  reap_keeps X id q w1 w2 → reap_keeps X id q w2 w3 → reap_keeps X id q w1 w3.
Proof.
  intros [? ? ? ? ? Hb1] [? ? ? ? Hs2 Hb2]. split; try done; try congruence; [by etrans|].
  intros i q' Hq' Hu. rewrite (Hb2 i q' Hq' Hu). apply (Hb1 i q'); [|done].
  by eapply lookup_weaken.
Qed.
Lemma rk_hist X id q w h : inv X w → ndev_cqs (w_dev w) !! id = Some q →
  reap_keeps X id q w (w <| w_hist := h |>).
Proof. intros Hw Hq. split; try done. by apply inv_hist. Qed.

Lemma rk_completion X id q data base sqid hd cid st w :
  inv X w → ndev_cqs (w_dev w) !! id = Some q → id = NVME_AQ_ID ∨ sqid ≠ NVME_AQ_ID →
  cqe_is data base sqid hd cid st →
  wp (handle_cmd_completion data base)
    (λ r w', reap_keeps X id q w w' ∧ uploaded (w_hist w') = uploaded (w_hist w) ∧
      completed sqid hd cid st (w_dev w) r (w_dev w')) w.
Proof.
  intros Hw Hq Hid Hc. eapply wp_mono.
  { eapply (wp_adds frees); [apply frees_completion|by apply (wp_completion X)]. }
  intros r w' [[(Hw' & Hi & Hm & Hu) Hd] (h & Hh & Hf)].
  split_and!; [|by rewrite Hh, uploaded_frees|done].
  split; try done.
  - rewrite (completed_keeps _ _ _ _ _ _ _ id Hd Hid). done.
  - by eapply completed_cqs.
  - intros i q' Hq' Hu'. unfold cq_bytes. do 2 f_equal. apply Hu. rewrite ptrs_app. apply elem_of_app.
    left. by apply (cq_mem X i q' w').
Qed.

(** The entries stay readable and as they are. *)
Lemma rk_block X id q w w' : cq_usable q → reap_keeps X id q w w' →
  ∃ b, get_block (cq_base q) w' = Val b w' ∧ blk_data b = cq_bytes w q.
Proof.
  intros Hu [Hw' _ _ Hq' _ Hb']. destruct (cq_mem X id q w' Hw' Hq' Hu) as (H0 & (b & Hb & Hd) & _).
  exists b. unfold get_block. rewrite (proj2 (Z.eqb_neq _ 0) H0), Hb. split; [done|].
  by rewrite Hd, (Hb' id q Hq' Hu).
Qed.

(** One entry. *)
Lemma wp_copy_step X id q n o sqid hd cid st (Φ : Z * Z → world → Prop) w :
  inv X w → ndev_cqs (w_dev w) !! id = Some q → cq_usable q →
  let data := cq_bytes w q in let e := cqp_elements (cq_pub q) in
  0 ≤ o < e → cqe_is data (16 * o) sqid hd cid st → id = NVME_AQ_ID ∨ sqid ≠ NVME_AQ_ID →
  (∀ r w', reap_keeps X id q w w' → completed sqid hd cid st (w_dev w) r (w_dev w') →
    uploaded (w_hist w') = uploaded (w_hist w) → Φ (- EFAULT, Z.of_nat (S n)) w') →
  (∀ r w', reap_keeps X id q w w' → completed sqid hd cid st (w_dev w) r (w_dev w') →
    uploaded (w_hist w') = uploaded (w_hist w) ++ [cq_entry data o] →
    wp (if negb (r =? 0) then mret (r, Z.of_nat n)
        else copy_loop n id (cq_base q) (if 16 * e <=? 16 * o + 16 then 0 else 16 * o + 16) 16) Φ w') →
  wp (copy_loop (S n) id (cq_base q) (16 * o) 16) Φ w.
Proof.
  intros Hw Hq Hu data e Ho Hc Hid Hfault Hgo. cbn [copy_loop].
  destruct (cq_mem X id q w Hw Hq Hu) as (_ & _ & (_ & _ & _ & Hl) & _).
  fold e data in Hl. unfold SIZEOF_completion in Hl.
  assert (reap_keeps X id q w w) as Hrefl by (by split).
  destruct (rk_block X id q w w Hu Hrefl) as (b & Hb & Hd).
  apply wp_bind. unfold wp at 1. rewrite Hb, Hd.
  apply wp_bind. eapply wp_mono; [by apply (rk_completion X id q)|]. intros r w1 (Hr1 & Hu1 & Hcd).
  destruct (rk_block X id q w w1 Hu Hr1) as (b1 & Hb1 & Hd1).
  apply wp_bind. unfold wp at 1. rewrite Hb1, Hd1.
  assert (load_bytes data (16 * o) 16 = Some (cq_entry data o)) as Hent.
  { unfold cq_entry, load_bytes. by rewrite decide_True by lia. }
  fold data. rewrite Hent. apply wp_bind, wp_bind, wp_ext, wp_ret.
  set (ev := E_copy_to_user (UP_bytes (cq_entry data o))).
  set (w2 := w1 <| w_hist := ev :: w_hist w1 |>).
  assert (reap_keeps X id q w w2) as Hr2
    by (eapply rk_trans; [exact Hr1|apply rk_hist; apply Hr1]).
  assert (uploaded (w_hist w2) = uploaded (w_hist w) ++
    (if ans (ev :: w_hist w1) =? 0 then [cq_entry data o] else [])) as Hu2 by (cbn; by rewrite Hu1).
  destruct (ans (ev :: w_hist w1) =? 0); cbn [negb].
  2:{ rewrite app_nil_r in Hu2. by apply wp_ret, (Hfault r). }
  apply wp_bind. unfold get_cq. apply wp_bind, wp_gets. unfold dnvme_find_cq.
  rewrite (rk_cq _ _ _ _ _ Hr2). apply wp_ret.
  rewrite (cqw_size _ _ (dw_cqs _ (i_dev _ _ Hw) _ _ Hq)). by apply Hgo.
Qed.

Lemma wp_copy_loop X id q n : ∀ i w,
  inv X w → ndev_cqs (w_dev w) !! id = Some q → cq_usable q →
  let p := cq_pub q in let e := cqp_elements p in let data := cq_bytes w q in
  0 ≤ i → i + Z.of_nat n ≤ e → keeps_cq id data e (cqp_head_ptr p) (i + Z.of_nat n) →
  wp (copy_loop n id (cq_base q) (16 * pos e (cqp_head_ptr p) i) 16)
    (λ ra w', ∃ es, reap_keeps X id q w w' ∧
      reaps data e (cqp_head_ptr p) n i (w_dev w) es ra.1 (w_dev w') ∧
      ra.2 = Z.of_nat n - Z.of_nat (length es) ∧ (length es ≤ n)%nat ∧
      uploaded (w_hist w') = uploaded (w_hist w) ++ es) w.
Proof.
  induction n as [|n IH]; intros i w Hw Hq Hu p e data Hi Hn Hk.
  { apply wp_ret. exists []. rewrite app_nil_r. split_and!; try done. constructor. }
  destruct (cq_mem X id q w Hw Hq Hu) as (_ & _ & (He & Hh & _ & Hl) & _).
  fold p e data in He, Hh, Hl. unfold SIZEOF_completion in Hl.
  assert (0 ≤ pos e (cqp_head_ptr p) i < e) as Hpos by (unfold pos; destruct (Z.ltb_spec (cqp_head_ptr p + i) e); lia).
  set (o := pos e (cqp_head_ptr p) i) in *.
  destruct (cqe_is_some data (16 * o)) as (sqid & hd & cid & st & Hc); [lia..|].
  eapply (wp_copy_step X id q n o); [done..| | |].
  - destruct Hk as [->|Hk]; [by left|right]. intros ->. apply (Hk i); [lia|]. apply Hc.
  - intros r w2 Hr2 Hcd Hu2. exists []. rewrite app_nil_r. split_and!; try done; try (simpl; lia).
    by eapply reaps_fault.
  - fold p e data. intros r w2 Hr2 Hcd Hu2. destruct (Z.eqb_spec r 0) as [->|Hr]; cbn [negb].
    2:{ apply wp_ret. exists [cq_entry data o]. split_and!; try done; try (simpl; lia).
        by eapply reaps_error. }
    unfold o. rewrite pos_step by lia.
    assert (cq_bytes w2 q = data) as Hb2 by (apply (rk_bytes _ _ _ _ _ Hr2 id); [apply Hr2|done]).
    pose proof (IH (i + 1) w2 (rk_inv _ _ _ _ _ Hr2) (rk_cq _ _ _ _ _ Hr2) Hu) as IH'.
    cbv zeta in IH'. fold p e in IH'. rewrite Hb2 in IH'.
    replace (i + 1 + Z.of_nat n) with (i + Z.of_nat (S n)) in IH' by lia.
    eapply wp_mono; [apply IH'; [lia|lia|done]|].
    intros [ret actual] w3 (es & Hr3 & Hrun & Hact & Hle & Hu3).
    exists (cq_entry data o :: es). cbn [fst snd length] in *. split_and!; try lia.
    + by eapply rk_trans.
    + eapply reaps_next; [exact Hc|exact Hcd|exact Hrun].
    + rewrite Hu3, Hu2, <- (assoc_L (++)). done.
Qed.
(** ** The flag of the interrupt *)

(** The completion queues but for their tails. *)
Definition cq_notail (q : nvme_cq) : nvme_cq := q <| cq_pub ::= λ p, p <| cqp_tail_ptr := 0 |> |>.
Definition retail (d d' : nvme_device) : Prop :=
  ∃ m, d' = d <| ndev_cqs := m |> ∧ cq_notail <$> m = cq_notail <$> ndev_cqs d.
#[global] Instance retail_preorder : PreOrder retail.
Proof.
  split.
  - intros d. exists (ndev_cqs d). split; [by destruct d|done].
  - intros d1 d2 d3 (m1 & -> & H1) (m2 & -> & H2). exists m2. split; [done|].
    cbn in H2. by rewrite H2.
Qed.

Lemma retail_lookup d d' i q :
  retail d d' → ndev_cqs d !! i = Some q → ∃ q', ndev_cqs d' !! i = Some q' ∧ cq_notail q' = cq_notail q.
Proof.
  intros (m & -> & Hm) Hq. cbn. pose proof (f_equal (lookup i) Hm) as Hl.
  rewrite !lookup_fmap, Hq in Hl. destruct (m !! i) as [q'|]; [|done]. exists q'. split; [done|]. by apply (inj Some).
Qed.
Lemma retail_none d d' i : retail d d' → ndev_cqs d !! i = None → ndev_cqs d' !! i = None.
Proof.
  intros (m & -> & Hm) Hq. cbn. pose proof (f_equal (lookup i) Hm) as Hl.
  rewrite !lookup_fmap, Hq in Hl. by destruct (m !! i).
Qed.
Lemma retail_tail id t w : retail (w_dev w) (w_dev (set_cq_tail id t w)).
Proof.
  eexists. split; [reflexivity|]. apply map_eq. intros i. rewrite !lookup_fmap.
  destruct (decide (i = id)) as [->|]; [rewrite lookup_alter_eq|by rewrite lookup_alter_ne].
  by destruct (ndev_cqs (w_dev w) !! id).
Qed.

Definition cqs_usable (d : nvme_device) : Prop := map_Forall (λ _, cq_usable) (ndev_cqs d).
Lemma notail_eq q q' :
  cq_notail q' = cq_notail q → cq_base q' = cq_base q ∧ (cq_usable q' ↔ cq_usable q) ∧
  ∀ data, cq_news q' data = cq_news q data.
Proof.
  unfold cq_notail, cq_base, cq_usable, cq_news. destruct q as [? [] ? ? ? ? ? ? ? ?], q' as [? [] ? ? ? ? ? ? ? ?].
  cbn. intros [=]. by subst.
Qed.
Lemma retail_usable d d' : retail d d' → cqs_usable d → cqs_usable d'.
Proof.
  intros Hr Hu i q' Hq'. destruct (ndev_cqs d !! i) as [q|] eqn:Hq.
  - destruct (retail_lookup _ _ _ _ Hr Hq) as (q1 & Hq1 & Hn).
    rewrite Hq' in Hq1. injection Hq1 as <-. apply (notail_eq _ _ Hn). by eapply Hu.
  - rewrite (retail_none _ _ _ Hr Hq) in Hq'. done.
Qed.

(** All queues bound to an interrupt are there and have nothing to reap. *)
Definition idle (w : world) (l : list nvme_icq) (d : nvme_device) : Prop :=
  Forall (λ i, ∃ q, ndev_cqs d !! icq_cq_id i = Some q ∧ cq_news q (cq_bytes w q) = 0) l.
Lemma retail_idle w w' l d d' :
  retail d d' → w_heap w' = w_heap w → idle w l d → idle w' l d'.
Proof.
  intros Hr Hh Hl. eapply Forall_impl; [exact Hl|]. intros i (q & Hq & H0).
  destruct (retail_lookup _ _ _ _ Hr Hq) as (q' & Hq' & Hn). exists q'. split; [done|].
  destruct (notail_eq _ _ Hn) as (Hb & _ & Hnews). unfold cq_bytes in *. by rewrite Hnews, Hb, Hh.
Qed.
#[global] Instance retail_sym : Symmetric retail.
Proof.
  intros d d' (m & -> & Hm). exists (ndev_cqs d). split; [by destruct d|]. cbn. done.
Qed.

Lemma wp_icq_remain X l : ∀ w, inv X w → cqs_usable (w_dev w) →
  wp (icq_remain l 0)
    (λ r w', scanned X w w' ∧ retail (w_dev w) (w_dev w') ∧
      match r with
      | inl v => v = - EBADSLT ∧ ¬ idle w l (w_dev w)
      | inr n => n = 0 ↔ idle w l (w_dev w)
      end) w.
Proof.
  induction l as [|i l IH]; intros w Hw Hu; cbn [icq_remain].
  { apply wp_ret. split_and!; try done. split; [by constructor|done]. }
  apply wp_bind, wp_gets. unfold dnvme_find_cq.
  destruct (ndev_cqs (w_dev w) !! icq_cq_id i) as [q|] eqn:Hq.
  2:{ apply wp_ret. split_and!; try done. intros [(q & Hq' & _) _]%Forall_cons. by rewrite Hq in Hq'. }
  apply wp_bind. eapply wp_remain; [done|exact Hq|by eapply Hu|]. intros w1 Hs1 Hd1.
  assert (retail (w_dev w) (w_dev w1)) as Hr1 by (rewrite Hd1; apply retail_tail).
  destruct (Z.eqb_spec (cq_news q (cq_bytes w q)) 0) as [H0|H0]; cbn [negb].
  - rewrite H0. eapply wp_mono; [apply (IH w1); [apply Hs1|by eapply retail_usable]|].
    intros r w2 (Hs2 & Hr2 & Hr). split; [by eapply scanned_trans|]. split; [by etrans|].
    pose proof (proj1 (proj2 (proj2 (proj2 Hs1)))) as Hh1.
    assert (idle w1 l (w_dev w1) ↔ idle w (i :: l) (w_dev w)) as Hiff.
    { unfold idle at 2. rewrite Forall_cons. split.
      - intros Hl. split; [by exists q|]. by apply (retail_idle w1 w _ (w_dev w1)).
      - intros [_ Hl]. by apply (retail_idle w w1 _ (w_dev w)). }
    destruct r; [|by rewrite <- Hiff]. by rewrite <- Hiff.
  - apply wp_ret. split_and!; try done. split; [done|].
    intros [(q' & Hq' & H0') _]%Forall_cons. congruence.
Qed.

(** The flag of the irq is cleared exactly when all its queues are idle. *)
Definition unfire (p : Z) (d : nvme_device) : nvme_device :=
  d <| ndev_irq_set ::= λ s, s <| is_irq_list ::=
    fmap (λ n, if irq_ptr n =? p then n <| irq_isr_fired := 0 |> else n) |> |>.
Definition flag_reset (w : world) (no r : Z) (d d' : nvme_device) : Prop :=
  ∃ d1, retail d d1 ∧
  match find_irq_node_by_id (ndev_irq_set d) no with
  | None => r = - EINVAL ∧ d' = d1
  | Some n =>
    idle w (irq_icq_list n) d ∧ r = 0 ∧ d' = unfire (irq_ptr n) d1 ∨
    ¬ idle w (irq_icq_list n) d ∧ (r = 0 ∨ r = - EBADSLT) ∧ d' = d1
  end.

Lemma unfire_proj {A} (f : nvme_irq → A) p (l : list nvme_irq) :
  (∀ n, f (n <| irq_isr_fired := 0 |>) = f n) →
  f <$> ((λ n, if irq_ptr n =? p then n <| irq_isr_fired := 0 |> else n) <$> l) = f <$> l.
Proof.
  intros Hf. rewrite <- list_fmap_compose. apply list_fmap_ext. intros _ n _. cbn.
  by destruct (_ =? _).
Qed.

Lemma unfire_items p (l : list nvme_irq) :
  ((λ n, if irq_ptr n =? p then n <| irq_isr_fired := 0 |> else n) <$> l) ≫= irq_node_items =
  l ≫= irq_node_items.
Proof. induction l as [|n l IH]; [done|]. cbn. rewrite IH. by destruct (irq_ptr n =? p). Qed.

Lemma inv_unfire X p w : inv X w → inv X (w <| w_dev ::= unfire p |>).
Proof.
  intros Hw. pose proof (inv_irq_st X w Hw) as Hs. pose proof (i_dev _ _ Hw) as Hd.
  set (l := (λ n : nvme_irq, if irq_ptr n =? p then n <| irq_isr_fired := 0 |> else n) <$>
    is_irq_list (ndev_irq_set (w_dev w))).
  eapply (irq_st_inv X (w_dev w) ((ndev_irq_set (w_dev w)) <| is_irq_list := l |>) (w_irqs w)).
  - destruct Hs as [Hh _ _]. split; [|done|done]. eapply (holds_ext _ w); [done..|].
    revert Hh. apply holds_perm; [|done]. unfold irq_items. cbn. unfold l.
    by rewrite unfire_items.
  - done.
  - apply irq_wf_proj; [apply Hd|]. by apply (unfire_proj (λ n, (irq_id n, irq_int_vec n))).
  - cbn. rewrite (i_irqs _ _ Hw). unfold l. by rewrite (unfire_proj irq_int_vec).
Qed.

Lemma wp_reset_flag X no w :
  inv X w → cqs_usable (w_dev w) →
  wp (dnvme_reset_isr_flag no)
    (λ r w', scanned X w w' ∧ flag_reset w no r (w_dev w) (w_dev w')) w.
Proof.
  intros Hw Hu. unfold dnvme_reset_isr_flag, flag_reset, get_irq_set.
  apply wp_bind, wp_bind, wp_gets, wp_ret.
  destruct (find_irq_node_by_id (ndev_irq_set (w_dev w)) no) as [n|];
    [|apply wp_ret; split; [done|]; by exists (w_dev w)].
  apply wp_bind. eapply wp_mono; [by apply (wp_icq_remain X)|]. intros [v|m] w1 (Hs1 & Hr1 & Hv).
  { apply wp_ret. split; [done|]. exists (w_dev w1). split; [done|]. right. destruct Hv. auto. }
  apply wp_bind. destruct (Z.eqb_spec m 0) as [->|Hm].
  - apply wp_modify, wp_ret. split.
    + eapply scanned_trans; [exact Hs1|]. split_and!; try done. apply inv_unfire, Hs1.
    + exists (w_dev w1). split; [done|]. left. split_and!; try done. by apply Hv.
  - apply wp_ret, wp_ret. split; [done|]. exists (w_dev w1). split; [done|]. right.
    split_and!; try done; [|by left]. by rewrite <- Hv.
Qed.

(** ** Letting the interrupt through *)

Definition unmasked (s : nvme_irq_set) (bar0 id : Z) (h : history) : Prop :=
  match is_irq_type s with
  | NVME_INT_PIN | NVME_INT_MSI_SINGLE | NVME_INT_MSI_MULTI =>
    E_writel (bar0 + NVME_REG_INTMC) (u32 (Z.shiftl 1 id)) ∈ h
  | NVME_INT_MSIX =>
    ∃ v, E_writel (is_msix_tb s + u32 (id * PCI_MSIX_ENTRY_SIZE) + PCI_MSIX_ENTRY_VECTOR_CTRL)
           (u32 (Z.land v (u32 (Z.lnot PCI_MSIX_ENTRY_CTRL_MASKBIT)))) ∈ h
  | NVME_INT_NONE | NVME_INT_OTHER _ => True
  end.

Lemma scanned_io X w e :
  inv X w → (∀ bs, e ≠ E_copy_to_user (UP_bytes bs)) → scanned X w (w <| w_hist := e :: w_hist w |>).
Proof.
  intros Hw He. split_and!; try done; [by apply inv_hist| |by eexists [e]]. cbn.
  destruct e; try apply app_nil_r. match goal with u : upayload |- _ => destruct u end;
    try apply app_nil_r. by edestruct He.
Qed.

Lemma wp_unmask X id w :
  inv X w → (is_irq_type (ndev_irq_set (w_dev w)) ≠ NVME_INT_MSIX → id < 32) →
  wp (dnvme_unmask_interrupt id)
    (λ _ w', scanned X w w' ∧ w_dev w' = w_dev w ∧
      unmasked (ndev_irq_set (w_dev w)) (ndev_bar0 (w_dev w)) id (w_hist w')) w.
Proof.
  intros Hw Hid. unfold dnvme_unmask_interrupt, unmasked, get_irq_set, get_bar0 in *.
  apply wp_bind, wp_bind, wp_gets, wp_ret, wp_bind, wp_bind, wp_gets, wp_ret.
  set (s := ndev_irq_set (w_dev w)) in *. set (bar0 := ndev_bar0 (w_dev w)).
  assert (is_irq_type s ≠ NVME_INT_MSIX →
    wp (b ← irq_bit id; clear_int_mask bar0 b;; mret 0) (λ _ w', scanned X w w' ∧ w_dev w' = w_dev w ∧
      E_writel (bar0 + NVME_REG_INTMC) (u32 (Z.shiftl 1 id)) ∈ w_hist w') w) as Hbit.
  { intros Ht. unfold irq_bit, clear_int_mask. rewrite (proj2 (Z.ltb_lt id 32)) by auto.
    apply wp_bind, wp_ret, wp_bind, wp_bind, wp_emit.
    assert (scanned X w (w <| w_hist ::= cons (E_writel (bar0 + NVME_REG_INTMC) (u32 (Z.shiftl 1 id))) |>))
      as Hs1 by (by apply scanned_io).
    destruct cfg_flush_reg_write.
    - apply wp_bind, wp_bind, wp_ext, wp_ret, wp_ret, wp_ret. split_and!; [|done|right; by left].
      eapply scanned_trans; [exact Hs1|]. apply scanned_io; [apply Hs1|done].
    - apply wp_ret, wp_ret. split_and!; [exact Hs1|done|by left]. }
  destruct (is_irq_type s); try (by apply Hbit); try (apply wp_ret; by split_and!).
  apply wp_bind, wp_bind, wp_bind, wp_ext, wp_ret. set (w1 := w <| w_hist := _ |>).
  assert (scanned X w w1) as Hs1 by (by apply scanned_io).
  apply wp_emit, wp_ret. split_and!; [|done|eexists; by left].
  eapply scanned_trans; [exact Hs1|]. apply scanned_io; [apply Hs1|done].
Qed.

(** The end of a reap on a queue that is empty now. *)
Definition settled (w : world) (no r : Z) (d : nvme_device) (w' : world) : Prop :=
  flag_reset w no r d (w_dev w') ∧ (r = 0 → unmasked (ndev_irq_set d) (ndev_bar0 d) no (w_hist w')).

Lemma flag_reset_same w no r d d' :
  flag_reset w no r d d' → ndev_bar0 d' = ndev_bar0 d ∧
  is_irq_type (ndev_irq_set d') = is_irq_type (ndev_irq_set d) ∧
  is_msix_tb (ndev_irq_set d') = is_msix_tb (ndev_irq_set d).
Proof.
  intros (d1 & (m & -> & _) & H). destruct (find_irq_node_by_id _ _);
    [destruct H as [(_ & _ & ->)|(_ & _ & ->)]|destruct H as [_ ->]]; done.
Qed.
Lemma flag_reset_ret w no r d d' :
  flag_reset w no r d d' → r = - EINVAL ∨ r = - EBADSLT ∨
    r = 0 ∧ ∃ n, n ∈ is_irq_list (ndev_irq_set d) ∧ irq_id n = no.
Proof.
  intros (d1 & _ & H). destruct (find_irq_node_by_id _ no) as [n|] eqn:Hf; [|left; by destruct H].
  apply list_find_snd in Hf as [Hin Hid].
  destruct H as [(_ & -> & _)|(_ & [-> | ->] & _)]; eauto 8.
Qed.

Lemma wp_settle X no w :
  inv X w → cqs_usable (w_dev w) →
  wp (ret ← dnvme_reset_isr_flag no;
      if ret <? 0 then mret ret else dnvme_unmask_interrupt no;; mret 0)
    (λ r w', scanned X w w' ∧ settled w no r (w_dev w) w') w.
Proof.
  intros Hw Hu. apply wp_bind. eapply wp_mono; [by apply (wp_reset_flag X)|].
  intros r w1 [Hs1 Hf]. destruct (flag_reset_ret _ _ _ _ _ Hf) as [-> |[-> |[-> (n & Hn & Hid)]]];
    [apply wp_ret; by split_and!..|].
  destruct (flag_reset_same _ _ _ _ _ Hf) as (Hb & Ht & Hm).
  change (0 <? 0) with false. apply wp_bind. eapply wp_mono.
  { apply (wp_unmask X no w1); [apply Hs1|]. rewrite Ht. intros Hx.
    pose proof (iw_bits _ (dw_irq _ (i_dev _ _ Hw)) Hx) as Hi. rewrite Forall_forall in Hi.
    rewrite <- Hid. by apply Hi. }
  intros _ w2 (Hs2 & Hd2 & Hm2). apply wp_ret. split; [by eapply scanned_trans|].
  split; [by rewrite Hd2|]. intros _. unfold unmasked in *. by rewrite Ht, Hm, Hb in Hm2.
Qed.

(** ** Reaping *)

Lemma reaps_entries data e head n i d es r d' :
  reaps data e head n i d es r d' →
  es = (λ j, cq_entry data (pos e head j)) <$> seqZ i (Z.of_nat (length es)).
Proof.
  induction 1 as [| | |n i d sqid hd cid st d1 es r d' _ _ _ IH]; try done.
  cbn [length]. rewrite seqZ_cons, fmap_cons by lia. f_equal. rewrite IH at 1. replace (Z.succ i) with (i + 1) by lia. do 2 f_equal. lia.
Qed.

Lemma reaps_ret data e head n i d es r d' : reaps data e head n i d es r d' → r ≤ 0.
Proof.
  induction 1 as [| |n i d sqid hd cid st r d' _ Hc Hr|]; try done. revert Hc.
  unfold completed, retire_ret. destruct (ndev_sqs d !! sqid) as [q|]; [|by intros [-> _]].
  destruct (dnvme_find_cmd q cid) as [c|]; [|by intros [-> _]]. intros [-> _].
  destruct (_ && _); [|done]. by destruct (retires _ _).
Qed.

Lemma wp_copy_data X id q n w :
  inv X w → ndev_cqs (w_dev w) !! id = Some q → cq_usable q →
  let p := cq_pub q in let e := cqp_elements p in let data := cq_bytes w q in
  0 ≤ n ≤ e → keeps_cq id data e (cqp_head_ptr p) n →
  wp (copy_cq_data id n)
    (λ ra w', ∃ es, reap_keeps X id q w w' ∧
      reaps data e (cqp_head_ptr p) (Z.to_nat n) 0 (w_dev w) es ra.1 (w_dev w') ∧
      ra.2 = n - Z.of_nat (length es) ∧ Z.of_nat (length es) ≤ n ∧
      uploaded (w_hist w') = uploaded (w_hist w) ++ es) w.
Proof.
  intros Hw Hq Hu p e data Hn Hk. unfold copy_cq_data, get_cq.
  apply wp_bind, wp_bind, wp_gets. unfold dnvme_find_cq. rewrite Hq. apply wp_ret, wp_bind.
  destruct (dw_cqs _ (i_dev _ _ Hw) _ _ Hq) as [_ He Hh _ Hc _ _ _ _].
  fold p e in He, Hh, Hc. fold p. rewrite Hc. change (u32 (Z.shiftl 1 NVME_NVM_IOCQES)) with 16.
  assert (u32 (Z.shiftl (cqp_head_ptr p) NVME_NVM_IOCQES) = 16 * pos e (cqp_head_ptr p) 0) as ->.
  { unfold pos. rewrite Z.add_0_r, (proj2 (Z.ltb_lt _ _)) by lia.
    rewrite Z.shiftl_mul_pow2 by done. change (2 ^ NVME_NVM_IOCQES) with 16.
    rewrite u32_small by lia. lia. }
  assert (wp (copy_loop (Z.to_nat n) id (cq_base q) (16 * pos e (cqp_head_ptr p) 0) 16)
    (λ ra w', ∃ es, reap_keeps X id q w w' ∧
      reaps data e (cqp_head_ptr p) (Z.to_nat n) 0 (w_dev w) es ra.1 (w_dev w') ∧
      ra.2 = n - Z.of_nat (length es) ∧ Z.of_nat (length es) ≤ n ∧
      uploaded (w_hist w') = uploaded (w_hist w) ++ es) w) as Hloop.
  { eapply wp_mono; [apply (wp_copy_loop X id q (Z.to_nat n) 0 w Hw Hq Hu); fold p e; rewrite ?Z2Nat.id by lia; [lia|lia|done]|].
    fold p e data. intros ra w' (es & ? & ? & ? & ? & ?). exists es. split_and!; try done; lia. }
  unfold cq_base in Hloop. unfold cq_usable in Hu. destruct (cq_contig q); [by apply wp_ret|].
  destruct (Hu eq_refl) as [[? prps] Hp]. rewrite Hp in *. by apply wp_ret.
Qed.

Lemma idle_heap w w' l d : w_heap w' = w_heap w → idle w l d ↔ idle w' l d.
Proof. intros Hh. split; by apply retail_idle. Qed.
Lemma settled_heap w1 w2 no r d w' :
  w_heap w2 = w_heap w1 → settled w1 no r d w' → settled w2 no r d w'.
Proof.
  intros Hh [(d1 & Hd1 & Hf) Hu]. split; [|done]. exists d1. split; [done|].
  destruct (find_irq_node_by_id _ _); [|done]. by rewrite <- (idle_heap w1 w2).
Qed.

Lemma inv_reaped X id q k w e : inv X w → ndev_cqs (w_dev w) !! id = Some q →
  0 ≤ k ≤ cqp_elements (cq_pub q) →
  inv X (w <| w_dev ::= λ d, d <| ndev_cqs ::= alter (cq_reaped k) id |> |> <| w_hist ::= cons e |>).
Proof.
  intros Hw Hq Hk. apply inv_hist. apply (inv_upd_cq X w id q (cq_reaped k) [] []); [done..|].
  destruct (dw_cqs _ (i_dev _ _ Hw) _ _ Hq) as [? He Hh Hp ? ? ? ? ?]. split; try done; cbn.
  - unfold pos. destruct (Z.ltb_spec (cqp_head_ptr (cq_pub q) + k) (cqp_elements (cq_pub q))); lia.
  - unfold ph. destruct (_ <? _); [done|]. destruct Hp as [-> | ->]; [by right|by left].
Qed.

(** How many entries are asked for. *)
Definition reap_room (reap : nvme_reap) : Z :=
  let room := Z.shiftr (rp_size reap) NVME_NVM_IOCQES in
  if rp_expect reap =? 0 then room else Z.min (rp_expect reap) room.
Definition irq_on (w : world) (q : nvme_cq) : bool :=
  negb (bool_decide (is_irq_type (ndev_irq_set (w_dev w)) = NVME_INT_NONE)) &&
  (cqp_irq_enabled (cq_pub q) =? 1).

(** The head over the entries in [es]. *)
Definition move_head (id : Z) (es : list (list Z)) (d : nvme_device) : nvme_device :=
  if decide (es = []) then d
  else d <| ndev_cqs ::= alter (cq_reaped (Z.of_nat (length es))) id |>.
(** The counts are with the user, the head is moved over what the user has, the
    interrupt is let through when nothing is left. *)
Definition reap_ended (reap : nvme_reap) (q : nvme_cq) (data : list Z) (es : list (list Z))
    (d2 : nvme_device) (w : world) (r : Z) (w' : world) : Prop :=
  let k := Z.of_nat (length es) in let p := cq_pub q in
  E_copy_to_user (UP_reap (reap <| rp_reaped := k |> <| rp_remained := cq_news q data - k |>)) ∈ w_hist w' ∧
  (es ≠ [] → E_writel (cq_db q + 0) (pos (cqp_elements p) (cqp_head_ptr p) k) ∈ w_hist w') ∧
  if irq_on w q && (k =? cq_news q data)
  then settled w' (cqp_irq_no p) r (move_head (rp_cqid reap) es d2) w'
  else r = 0 ∧ w_dev w' = move_head (rp_cqid reap) es d2.

Lemma wp_move_head X id q es (Φ : unit → world → Prop) w :
  inv X w → ndev_cqs (w_dev w) !! id = Some q → Z.of_nat (length es) ≤ cqp_elements (cq_pub q) →
  (∀ w', scanned X w w' → w_dev w' = move_head id es (w_dev w) →
    (es ≠ [] → E_writel (cq_db q + 0) (pos (cqp_elements (cq_pub q)) (cqp_head_ptr (cq_pub q))
      (Z.of_nat (length es))) ∈ w_hist w') → Φ tt w') →
  wp (if Z.of_nat (length es) =? 0 then mret tt else update_cq_head id (Z.of_nat (length es))) Φ w.
Proof.
  intros Hw Hq Hk HΦ. destruct es as [|x es]; [apply wp_ret, HΦ; done|].
  set (k := Z.of_nat (length (x :: es))) in *. assert (0 < k) as H0 by (subst k; simpl; lia).
  rewrite (proj2 (Z.eqb_neq k 0)) by lia.
  destruct (dw_cqs _ (i_dev _ _ Hw) _ _ Hq) as [? He Hh Hp ? ? ? ? ?].
  assert (cq_ok q (replicate (Z.to_nat (16 * cqp_elements (cq_pub q))) 0)) as Hok.
  { split_and!; try done; try lia. rewrite length_replicate. unfold SIZEOF_completion. lia. }
  unfold wp. rewrite (update_cq_head_eq id q k w _ Hq Hok) by lia.
  assert (u32 (pos (cqp_elements (cq_pub q)) (cqp_head_ptr (cq_pub q)) k) =
    pos (cqp_elements (cq_pub q)) (cqp_head_ptr (cq_pub q)) k) as ->.
  { apply u32_small. unfold pos. destruct (Z.ltb_spec (cqp_head_ptr (cq_pub q) + k) (cqp_elements (cq_pub q))); lia. }
  apply HΦ.
  - split_and!; try done; [apply (inv_reaped X id q); [done..|lia]|cbn; apply app_nil_r|by eexists [_]].
  - unfold move_head. by rewrite decide_False by done.
  - intros _. by left.
Qed.

(** What is left in the queue. *)
Definition leaves (id : Z) (data : list Z) (l : list (list Z)) (d : nvme_device) : Prop :=
  ∃ q, ndev_cqs d !! id = Some q ∧ cq_fifo q data = l.

Lemma fifo_notail q q' data : cq_notail q' = cq_notail q → cq_fifo q' data = cq_fifo q data.
Proof.
  intros Hn. unfold cq_fifo. rewrite (proj2 (proj2 (notail_eq _ _ Hn)) data).
  assert (cqp_elements (cq_pub q') = cqp_elements (cq_pub q)) as ->
    by exact (f_equal (λ x, cqp_elements (cq_pub x)) Hn).
  assert (cqp_head_ptr (cq_pub q') = cqp_head_ptr (cq_pub q)) as ->
    by exact (f_equal (λ x, cqp_head_ptr (cq_pub x)) Hn). done.
Qed.
Lemma retail_leaves id data l d d' : retail d d' → leaves id data l d → leaves id data l d'.
Proof.
  intros Hr (q & Hq & Hl). destruct (retail_lookup _ _ _ _ Hr Hq) as (q' & Hq' & Hn).
  exists q'. split; [done|]. by rewrite (fifo_notail _ _ _ Hn).
Qed.
Lemma flag_reset_leaves id data l w no r d d' :
  flag_reset w no r d d' → leaves id data l d → leaves id data l d'.
Proof.
  intros (d1 & Hr & Hf) Hl. apply (retail_leaves _ _ _ _ _ Hr) in Hl.
  destruct (find_irq_node_by_id _ _);
    [destruct Hf as [(_ & _ & ->)|(_ & _ & ->)]|destruct Hf as [_ ->]]; exact Hl.
Qed.
Lemma settled_leaves id data l w no r d w' :
  settled w no r d w' → leaves id data l d → leaves id data l (w_dev w').
Proof. intros [Hf _] Hl. by eapply flag_reset_leaves. Qed.
Lemma move_head_leaves id data q es d :
  ndev_cqs d !! id = Some q → cq_ok q data → Z.of_nat (length es) ≤ cq_news q data →
  leaves id data (drop (length es) (cq_fifo q data)) (move_head id es d).
Proof.
  intros Hq Hok Hk. unfold move_head, leaves. case_decide as H0; [subst; by exists q|].
  exists (cq_reaped (Z.of_nat (length es)) q). cbn. rewrite lookup_alter_eq, Hq. split; [done|].
  rewrite cq_fifo_turn by (done || lia). by rewrite Nat2Z.id.
Qed.

Lemma reaps_prefix q data n d es r d' :
  cq_ok q data →
  reaps data (cqp_elements (cq_pub q)) (cqp_head_ptr (cq_pub q)) n 0 d es r d' →
  Z.of_nat (length es) ≤ cq_news q data → es `prefix_of` cq_fifo q data.
Proof.
  intros Hok Hr Hk. rewrite (reaps_entries _ _ _ _ _ _ _ _ _ Hr). unfold cq_fifo.
  replace (cq_news q data) with (Z.of_nat (length es) + (cq_news q data - Z.of_nat (length es))) by lia.
  rewrite seqZ_app by lia. rewrite fmap_app. by eexists.
Qed.

Lemma sub_usable d d' : ndev_cqs d' ⊆ ndev_cqs d → cqs_usable d → cqs_usable d'.
Proof. intros Hs Hu i q Hq. eapply (Hu i). by eapply lookup_weaken. Qed.
Lemma move_head_usable id es d : cqs_usable d → cqs_usable (move_head id es d).
Proof.
  intros Hu. unfold move_head. case_decide; [done|]. intros i q. cbn.
  destruct (decide (i = id)) as [->|]; [rewrite lookup_alter_eq|rewrite lookup_alter_ne by done; apply Hu].
  destruct (ndev_cqs d !! id) as [q0|] eqn:Hq; [|done]. intros [= <-]. apply (Hu _ _ Hq).
Qed.

(** The part behind the copies, on a queue of which [k] of [n] new entries are with the
    user. *)
Lemma wp_reap_end X id q (es : list (list Z)) rem (t : bool) w :
  inv X w → ndev_cqs (w_dev w) !! id = Some q → cqs_usable (w_dev w) →
  Z.of_nat (length es) ≤ cqp_elements (cq_pub q) →
  let p := cq_pub q in let d3 := move_head id es (w_dev w) in
  wp ((if Z.of_nat (length es) =? 0 then mret tt else update_cq_head id (Z.of_nat (length es)));;
      cq ← get_cq id;
      if t && (cqp_irq_enabled (cq_pub cq) =? 1) && (rem =? 0)
      then ret ← dnvme_reset_isr_flag (cqp_irq_no (cq_pub cq));
           if ret <? 0 then mret ret else dnvme_unmask_interrupt (cqp_irq_no (cq_pub cq));; mret 0
      else mret 0)
    (λ r w', scanned X w w' ∧
      (es ≠ [] → E_writel (cq_db q + 0) (pos (cqp_elements p) (cqp_head_ptr p) (Z.of_nat (length es)))
                   ∈ w_hist w') ∧
      if t && (cqp_irq_enabled p =? 1) && (rem =? 0) then settled w' (cqp_irq_no p) r d3 w'
      else r = 0 ∧ w_dev w' = d3) w.
Proof.
  intros Hw Hq Hu Hk p d3. apply wp_bind. eapply (wp_move_head X id q); [done..|].
  intros w1 Hs1 Hd1 Hdb. pose proof (proj1 Hs1) as Hw1. fold d3 in Hd1.
  assert (∃ q1, ndev_cqs (w_dev w1) !! id = Some q1 ∧ cqp_irq_enabled (cq_pub q1) = cqp_irq_enabled p ∧
    cqp_irq_no (cq_pub q1) = cqp_irq_no p) as (q1 & Hq1 & He1 & Hn1).
  { rewrite Hd1. unfold d3, move_head. case_decide; [by exists q|]. cbn. rewrite lookup_alter_eq, Hq.
    by eexists. }
  apply wp_bind. unfold get_cq. apply wp_bind, wp_gets. unfold dnvme_find_cq. rewrite Hq1.
  apply wp_ret. rewrite He1, Hn1. destruct (t && _ && _); [|apply wp_ret; by split_and!].
  eapply wp_mono; [apply (wp_settle X)|]; [done|rewrite Hd1; by apply move_head_usable|].
  rewrite Hd1. intros r w2 [Hs2 Hset]. split_and!; [by eapply scanned_trans| |].
  - intros H0. by eapply scanned_in, Hdb.
  - eapply settled_heap; [|exact Hset]. apply Hs2.
Qed.

(** Everything a reap may have done, with the entries [es] that the user received. *)
Definition reap_out (reap : nvme_reap) (q : nvme_cq) (data : list Z) (es : list (list Z))
    (w : world) (r : Z) (w' : world) : Prop :=
  let p := cq_pub q in let n := Z.min (reap_room reap) (cq_news q data) in
  r < 0 ∧ es = [] ∧ retail (w_dev w) (w_dev w') ∨
  ∃ d1 ret d2, retail (w_dev w) d1 ∧
    reaps data (cqp_elements p) (cqp_head_ptr p) (Z.to_nat n) 0 d1 es ret d2 ∧
    (r < 0 ∧ w_dev w' = d2 ∨
     reap_ended reap q data es d2 w r w' ∧
     leaves (rp_cqid reap) data (drop (length es) (cq_fifo q data)) (w_dev w')).

Lemma reap_room_nonneg reap : 0 ≤ rp_size reap → 0 ≤ rp_expect reap → 0 ≤ reap_room reap.
Proof.
  intros Hs He. unfold reap_room. pose proof (proj2 (Z.shiftr_nonneg (rp_size reap) NVME_NVM_IOCQES) Hs).
  destruct (_ =? _); lia.
Qed.

(** The copies and what follows, once the new entries are counted. *)
Lemma wp_reap_copies X reap q w0 w :
  let id := rp_cqid reap in let p := cq_pub q in let data := cq_bytes w q in
  let news := cq_news q data in let n := Z.min (reap_room reap) news in
  inv X w → ndev_cqs (w_dev w) !! id = Some q → cqs_usable (w_dev w) →
  0 ≤ reap_room reap → keeps_cq id data (cqp_elements p) (cqp_head_ptr p) news →
  is_irq_type (ndev_irq_set (w_dev w)) = is_irq_type (ndev_irq_set (w_dev w0)) →
  wp ('(ret, actual) ← copy_cq_data id n;
      let reaped := u32 (n - actual) in
      let remained := u32 (u32 (news - n) + actual) in
      ok ← copy_to_user (UP_reap (reap <| rp_reaped := reaped |> <| rp_remained := remained |>));
      if negb ok then mret (if ret =? 0 then - EFAULT else ret)
      else
        (if reaped =? 0 then mret tt else update_cq_head id reaped);;
        cq ← get_cq id;
        if negb (bool_decide (is_irq_type (ndev_irq_set (w_dev w0)) = NVME_INT_NONE)) &&
           (cqp_irq_enabled (cq_pub cq) =? 1) && (remained =? 0)
        then
          ret ← dnvme_reset_isr_flag (cqp_irq_no (cq_pub cq));
          if ret <? 0 then mret ret
          else dnvme_unmask_interrupt (cqp_irq_no (cq_pub cq));; mret 0
        else mret 0)
    (λ r w', inv X w' ∧ w_irqs w' = w_irqs w ∧ w_mode w' = w_mode w ∧ ∃ es ret d2,
      uploaded (w_hist w') = uploaded (w_hist w) ++ es ∧
      Z.of_nat (length es) ≤ news ∧
      reaps data (cqp_elements p) (cqp_head_ptr p) (Z.to_nat n) 0 (w_dev w) es ret d2 ∧
      (r = (if ret =? 0 then - EFAULT else ret) ∧ w_dev w' = d2 ∨
       reap_ended reap q data es d2 w0 r w' ∧
       leaves id data (drop (length es) (cq_fifo q data)) (w_dev w'))) w.
Proof.
  intros id p data news n Hw Hq Hu H0 Hk Ht.
  pose proof (cq_mem X id q w Hw Hq (Hu _ _ Hq)) as (_ & _ & Hok & _). fold data in Hok.
  pose proof (cq_news_bounds _ _ Hok) as Hb. fold p news in Hb.
  assert (cqp_elements p < 2 ^ 16) as He by apply Hok.
  apply wp_bind. eapply wp_mono; [apply (wp_copy_data X id q n w Hw Hq (Hu _ _ Hq)); fold p; [lia|]|].
  { fold data. destruct Hk as [->|Hk]; [by left|right]. intros i Hi. apply Hk. lia. }
  fold p data. intros [ret actual] w1 (es & Hr1 & Hrun & Hact & Hle & Hup). cbn [fst snd] in *.
  set (k := Z.of_nat (length es)) in *. cbv zeta.
  replace (u32 (n - actual)) with k by (rewrite u32_small; lia).
  replace (u32 (u32 (news - n) + actual)) with (news - k) by (rewrite (u32_small (news - n)), u32_small; lia).
  apply wp_bind, wp_bind, wp_ext, wp_ret.
  set (ev := E_copy_to_user (UP_reap _)). set (w2 := w1 <| w_hist := ev :: w_hist w1 |>).
  assert (scanned X w1 w2) as Hs2 by (by apply scanned_io; [apply Hr1|]).
  destruct Hr1 as [Hw1 Hi1 Hm1 Hq1 Hsub Hb1].
  destruct (ans (ev :: w_hist w1) =? 0); cbn [negb].
  2:{ apply wp_ret. split_and!; [apply Hs2|done|done|]. exists es, ret, (w_dev w1).
      destruct Hs2 as (_&_&_&_&->&_). split_and!; try done; [lia|by left]. }
  eapply wp_mono; [apply (wp_reap_end X id q es); [apply Hs2|done|by eapply sub_usable|fold p k; lia]|].
  fold p k. intros r w3 (Hs3 & Hdb & Hend). change (w_dev w2) with (w_dev w1) in Hend.
  pose proof (scanned_trans _ _ _ _ Hs2 Hs3) as (Hw3 & Hi3 & Hm3 & _ & Hu3 & _).
  split_and!; [done|congruence|congruence|]. exists es, ret, (w_dev w1). rewrite Hu3.
  split_and!; [done|fold k; lia|done|]. right.
  pose proof (move_head_leaves id data q es (w_dev w1) Hq1 Hok ltac:(fold k news; lia)) as Hl. split.
  - unfold reap_ended, irq_on. fold p k news. split_and!.
    + eapply scanned_in; [exact Hs3|by left].
    + done.
    + replace (k =? news) with (news - k =? 0) by (destruct (Z.eqb_spec k news), (Z.eqb_spec (news - k) 0); lia).
      exact Hend.
  - destruct (_ && _); [by eapply settled_leaves|]. by destruct Hend as [_ ->].
Qed.

Lemma wp_reap X reap q w (Hw : inv X w)
    (Hq : ndev_cqs (w_dev w) !! rp_cqid reap = Some q) (Hu : cqs_usable (w_dev w))
    (Hsize : 0 ≤ rp_size reap) (Hexpect : 0 ≤ rp_expect reap) :
  let data := cq_bytes w q in
  keeps_cq (rp_cqid reap) data (cqp_elements (cq_pub q)) (cqp_head_ptr (cq_pub q)) (cq_news q data) →
  wp (dnvme_reap_cqe_legacy reap)
    (λ r w', inv X w' ∧ w_irqs w' = w_irqs w ∧ w_mode w' = w_mode w ∧
      ∃ es, uploaded (w_hist w') = uploaded (w_hist w) ++ es ∧
        es `prefix_of` cq_fifo q data ∧ reap_out reap q data es w r w') w.
Proof.
  intros data Hk. set (id := rp_cqid reap) in *.
  pose proof (reap_room_nonneg reap Hsize Hexpect) as H0.
  pose proof (cq_mem X id q w Hw Hq (Hu _ _ Hq)) as (_ & _ & Hok & _). fold data in Hok.
  assert (∀ r w', scanned X w w' → r < 0 → retail (w_dev w) (w_dev w') →
    inv X w' ∧ w_irqs w' = w_irqs w ∧ w_mode w' = w_mode w ∧
      ∃ es, uploaded (w_hist w') = uploaded (w_hist w) ++ es ∧
        es `prefix_of` cq_fifo q data ∧ reap_out reap q data es w r w') as Hnone.
  { intros r w' (?&?&?&_&Hup&_) Hr Hd. split_and!; try done. exists []. rewrite app_nil_r.
    split_and!; [done|by apply prefix_nil|by left]. }
  unfold dnvme_reap_cqe_legacy, get_irq_set. apply wp_bind, wp_bind, wp_gets, wp_ret.
  apply wp_bind, wp_bind, wp_ext, wp_ret. set (w1 := w <| w_hist := _ |>).
  assert (scanned X w w1) as Hs1 by (by apply scanned_io).
  destruct (_ =? 0); cbn [negb]; [|by apply wp_ret, Hnone].
  apply wp_bind, wp_gets. fold id. unfold dnvme_find_cq. change (w_dev w1) with (w_dev w). rewrite Hq.
  pose proof (dw_cqs _ (i_dev _ _ Hw) _ _ Hq) as Hwf. rewrite (cqw_cqes _ _ Hwf).
  apply wp_bind. eapply (wp_remain X id q); [apply Hs1|done|by eapply Hu|].
  change (cq_bytes w1 q) with data. change (next_tail w1 q) with (next_tail w q).
  intros w2 Hs2 Hd2. pose proof (scanned_trans _ _ _ _ Hs1 Hs2) as Hs.
  assert (retail (w_dev w) (w_dev w2)) as Hr2 by (rewrite Hd2; apply (retail_tail id _ w1)).
  destruct (Z.leb_spec (cqp_elements (cq_pub q)) (cq_news q data)); [by apply wp_ret, Hnone|].
  destruct (retail_lookup _ _ _ _ Hr2 Hq) as (q2 & Hq2 & Hn2).
  assert (q2 = q <| cq_pub ::= λ p, p <| cqp_tail_ptr := next_tail w q |> |>) as ->.
  { rewrite Hd2 in Hq2. cbn in Hq2. rewrite lookup_alter_eq, Hq in Hq2. by injection Hq2 as <-. }
  set (q2 := q <| cq_pub ::= _ |>) in *.
  assert (cq_bytes w2 q2 = data) as Hb2.
  { unfold cq_bytes, data. change (cq_base q2) with (cq_base q). by destruct Hs as (_&_&_&->&_). }
  pose proof (wp_reap_copies X reap q2 w w2) as Hgo. cbv zeta in Hgo. rewrite Hb2 in Hgo.
  assert (is_irq_type (ndev_irq_set (w_dev w2)) = is_irq_type (ndev_irq_set (w_dev w))) as Ht
    by (rewrite Hd2; done).
  specialize (Hgo (proj1 Hs) Hq2 (retail_usable _ _ Hr2 Hu) H0 Hk Ht).
  eapply wp_mono; [exact Hgo|]. intros r w3 (Hw3 & Hi3 & Hm3 & es & ret & d2 & Hu3 & Hle & Hrun & Hend).
  destruct Hs as (_ & Hi & Hm & _ & Hup & _). split_and!; [done|congruence|congruence|].
  exists es. rewrite Hu3, Hup. split_and!; [done|by eapply reaps_prefix|]. right.
  exists (w_dev w2), ret, d2. split_and!; [done|exact Hrun|].
  rewrite (fifo_notail q q2 data Hn2) in Hend.
  destruct Hend as [[-> Hd]|Hend]; [left|by right]. split; [|done].
  pose proof (reaps_ret _ _ _ _ _ _ _ _ _ Hrun). destruct (Z.eqb_spec ret 0); [done|lia].
Qed.

End reap.

(** *** Witness: the completion of the pending command of the I/O queue is reaped, and
    the queue is empty behind it. *)

Definition demo_reap : nvme_reap :=
  {| rp_cqid := 1; rp_expect := 0; rp_reaped := 0; rp_remained := 0; rp_size := 64 |}.
Definition reap_data : list Z := demo_cqe ++ zeros 48.


(** ** An error that is not reported *)

(** The same device with a completion of a queue that does not exist. *)
Definition bad_cqe : list Z :=
  le_bytes 8 0 ++ le_bytes 2 1 ++ le_bytes 2 9 ++ le_bytes 2 0 ++ le_bytes 2 1.
Definition bad_world : world :=
  full_world <| w_heap ::= <[8 := mk_block AK_coherent 64 (bad_cqe ++ zeros 48)]> |>.

(** A completion that cannot be handled does not make the call fail.  The loop of
    [copy_cq_data] stops with the error "to let the entire IOCTL error", but
    [dnvme_reap_cqe_legacy] returns [0] all the same, with one entry reaped: the error
    code of the loop is returned only when the copy of the counts fails too. *)
Theorem reap_hides_error :
  inv [] bad_world ∧
  wp (copy_cq_data (E := demo_env) 1 1) (λ ra _, ra = (- EBADSLT, 0)) bad_world ∧
  wp (dnvme_reap_cqe_legacy (E := demo_env) demo_reap)
    (λ r w', r = 0 ∧ @uploaded demo_env (w_hist w') = [bad_cqe]) bad_world.
Proof.
  split_and!; [|vm_compute; reflexivity|vm_compute; split; reflexivity].
  destruct full_world_inv as [_ Hd Hi]. split; [|exact Hd|exact Hi].
  by apply holdsb_ok; vm_compute.
Qed.
