(* ===== verification/Hmb.v ===== *)
(** * The host memory buffer

    [dnvme_alloc_hmb]: the buffers and the page of descriptors that the controller is
    given.  While the buffer is being set up the structure at [ndev->hmb] is incomplete;
    [hmb_st] describes these states. *)

From S2P Require Import Prelude Types Kernel Io Own Prp Paged PrpSpec Ring Irq Queue Cmd Meta Ioctl Inv Demo QueueSpec CmdSpec Submit.

Section hmb.
Context {E : Env}.

(** ** The buffers *)

(** Buffer [i] has the size the request asks for. *)
Definition hmb_sized (ps : Z) (bsize : list Z) (bufs : list nvme_hmb_buffer) : Prop :=
  ∀ i b, bufs !! i = Some b → ∃ n, bsize !! i = Some n ∧ hb_size b = u32 (ps * n) ∧
    0 ≤ hb_phy_addr b < 2 ^ 64.

Lemma hmb_sized_snoc ps bsize bufs b n :
  hmb_sized ps bsize bufs → bsize !! length bufs = Some n → hb_size b = u32 (ps * n) →
  0 ≤ hb_phy_addr b < 2 ^ 64 → hmb_sized ps bsize (bufs ++ [b]).
Proof.
  intros Hs Hn Hb Hp i x. rewrite lookup_app_Some, list_lookup_singleton_Some.
  intros [Hx|(Hi & H0 & <-)]; [by eapply Hs|]. exists n. split; [|by split].
  by replace i with (length bufs) by lia.
Qed.

Lemma triple_free_bufs bufs :
  triple (bufs ≫= hmb_buf_items)
    (mapM_ (λ hb, dma_free_coherent (hb_size hb) (hb_virt_addr hb)) bufs) gone.
Proof. apply triple_mapM_gone. intros b _. apply triple_dma_free. Qed.

Lemma triple_hmb_bufs ps bsize n : ∀ got,
  hmb_sized ps bsize got → (length got + n ≤ length bsize)%nat →
  triple (got ≫= hmb_buf_items) (alloc_hmb_bufs n (length got) ps bsize got)
    (λ r R, r = None ∧ R = [] ∨ ∃ bufs, r = Some bufs ∧ R = bufs ≫= hmb_buf_items ∧
      length bufs = (length got + n)%nat ∧ hmb_sized ps bsize bufs).
Proof.
  induction n as [|n IH]; intros got Hs Hn; cbn [alloc_hmb_bufs].
  { apply triple_ret. right. exists got. by split_and!. }
  destruct (lookup_lt_is_Some_2 bsize (length got)) as [b Hb]; [lia|]. rewrite Hb.
  tcall (triple_dma_alloc (u32 (ps * b)) (proj1 (u32_range _))).
  intros [va pa] R [Hnew Hpa]. cbn [fst snd] in *. destruct Hnew as [[-> ->]|[Hva ->]].
  { cbn. eapply (triple_bind _ _ _ gone); [|intros _ R ->; apply triple_ret; by left].
    eapply triple_perm; [|apply triple_free_bufs]. by rewrite reverse_Permutation. }
  rewrite (proj2 (Z.eqb_neq va 0)) by lia.
  tgive (got ≫= hmb_buf_items) (triple_memset0 va AK_coherent (u32 (ps * b)) ltac:(by left) (proj1 (u32_range _))).
  intros _ R ->. set (hb := {| hb_virt_addr := va; hb_phy_addr := pa; hb_size := _ |}).
  replace (S (length got)) with (length (got ++ [hb])) by (rewrite length_app; simpl; lia).
  eapply triple_conseq; [|apply (IH (got ++ [hb]))|].
  - rewrite bind_app. cbn. solve_Permutation.
  - by apply (hmb_sized_snoc _ _ _ _ b).
  - rewrite length_app. simpl. lia.
  - intros r R [?|(bufs & -> & -> & Hl & ?)]; [by left|right]. exists bufs. split_and!; try done.
    rewrite Hl, length_app. simpl. lia.
Qed.

(** ** The descriptors *)

(** Descriptor [i] of the page [data] has address and size of buffer [i]. *)
Definition desc_is (data : list Z) (i : nat) (b : nvme_hmb_buffer) : Prop :=
  load_le 8 data (SIZEOF_hmb_descriptor * Z.of_nat i) = Some (hb_phy_addr b) ∧
  load_le 4 data (SIZEOF_hmb_descriptor * Z.of_nat i + 8) = Some (hb_size b).

Lemma desc_is_store data off bs data' j b :
  store_bytes data off bs = Some data' →
  SIZEOF_hmb_descriptor * (Z.of_nat j + 1) ≤ off → desc_is data j b → desc_is data' j b.
Proof.
  intros Hs Ho [H1 H2]. unfold desc_is, load_le, SIZEOF_hmb_descriptor in *.
  by rewrite !(load_store_ne _ _ _ _ _ _ Hs) by lia.
Qed.

Lemma fill_desc data i b d1 d2 :
  0 ≤ hb_phy_addr b < 2 ^ 64 → in_u32 (hb_size b) →
  store_bytes data (SIZEOF_hmb_descriptor * Z.of_nat i) (le_bytes 8 (hb_phy_addr b)) = Some d1 →
  store_bytes d1 (SIZEOF_hmb_descriptor * Z.of_nat i + 8) (le_bytes 4 (hb_size b)) = Some d2 →
  desc_is d2 i b.
Proof.
  intros Ha Hsz H1 H2. split.
  - unfold load_le. rewrite (load_store_ne _ _ _ _ _ _ H2) by (left; unfold SIZEOF_hmb_descriptor; lia).
    change (load_le 8 d1 (SIZEOF_hmb_descriptor * Z.of_nat i) = Some (hb_phy_addr b)).
    rewrite (load_store_le 8 data _ _ _ H1). f_equal. apply Z.mod_small. lia.
  - rewrite (load_store_le 4 d1 _ _ _ H2). f_equal. apply Z.mod_small. unfold in_u32 in Hsz. lia.
Qed.

(** The loop over the buffers [i ..]. *)
Lemma wp_fill p R n : ∀ i bufs w,
  holds (Blk p AK_coherent (Some PAGE_SIZE) :: R) w → (i + n = length bufs)%nat →
  SIZEOF_hmb_descriptor * Z.of_nat (length bufs) ≤ PAGE_SIZE →
  Forall (λ b, 0 ≤ hb_phy_addr b < 2 ^ 64 ∧ in_u32 (hb_size b)) bufs →
  (∃ data, blk_data <$> w_heap w !! p = Some data ∧
    ∀ j b, (j < i)%nat → bufs !! j = Some b → desc_is data j b) →
  wp (fill_hmb n (Z.of_nat i) p bufs)
    (λ _ w', holds (Blk p AK_coherent (Some PAGE_SIZE) :: R) w' ∧ same_dev w w' ∧ w_hist w' = w_hist w ∧
      ∃ data, blk_data <$> w_heap w' !! p = Some data ∧
        ∀ j b, (j < i + n)%nat → bufs !! j = Some b → desc_is data j b) w.
Proof.
  unfold SIZEOF_hmb_descriptor.
  induction n as [|n IH]; intros i bufs w Hw Hi Hl Hb (data & Hd & Hpre); cbn [fill_hmb].
  { apply wp_ret. rewrite Nat.add_0_r. split_and!; try done. by exists data. }
  rewrite Nat2Z.id. destruct (lookup_lt_is_Some_2 bufs i) as [b Hbi]; [lia|]. rewrite Hbi.
  destruct (proj1 (Forall_lookup _ _) Hb i b Hbi) as [Ha Hsz].
  destruct (mem_write_exact p AK_coherent PAGE_SIZE R w (16 * Z.of_nat i) (le_bytes 8 (hb_phy_addr b)))
    as (dx & d1 & Hdx & _ & Hs1 & Hwp1); [done|by left|lia|rewrite length_le_bytes; lia|].
  rewrite Hd in Hdx. injection Hdx as <-.
  apply wp_bind. eapply wp_mono; [exact Hwp1|]. intros _ w1 (Hh1 & Hs'1 & Hw1 & _ & Hd1).
  destruct (mem_write_exact p AK_coherent PAGE_SIZE R w1 (16 * Z.of_nat i + 8) (le_bytes 4 (hb_size b)))
    as (dx & d2 & Hdx & _ & Hs2 & Hwp2); [done|by left|lia|rewrite length_le_bytes; lia|].
  rewrite Hd1 in Hdx. injection Hdx as <-.
  apply wp_bind. eapply wp_mono; [exact Hwp2|]. intros _ w2 (Hh2 & Hs'2 & Hw2 & _ & Hd2).
  replace (Z.of_nat i + 1) with (Z.of_nat (S i)) by lia.
  eapply wp_mono; [apply (IH (S i) bufs w2); try done; [lia|]|].
  - exists d2. split; [done|]. intros j b' Hj Hbj. destruct (decide (j = i)) as [->|].
    + simplify_eq. by eapply fill_desc.
    + eapply desc_is_store; [exact Hs2|unfold SIZEOF_hmb_descriptor; lia|].
      eapply desc_is_store; [exact Hs1|unfold SIZEOF_hmb_descriptor; lia|]. apply Hpre; [lia|done].
  - intros _ w3 (Hw3 & Hs3 & Hh3 & Hd3). split_and!; [done|by etrans; [|etrans]|congruence|].
    by replace (i + S n)%nat with (S i + n)%nat by lia.
Qed.

(** ** Setting up *)

Section setup.
Context (X : list item) (w0 : world).

(** [ndev->hmb] is [h], and [Y] is owned beside what the device owned before. *)
Record hmb_st (h : nvme_hmb) (Y : list item) (w : world) : Prop := {
  hs_holds : holds (Y ++ dev_items (w_dev w0) ++ X) w;
  hs_dev : w_dev w = (w_dev w0) <| ndev_hmb := Some h |>;
  hs_irqs : w_irqs w = w_irqs w0;
  hs_mode : w_mode w = w_mode w0 }.

Lemma hs_call {A} P Y' (m : M A) Q h Y (Φ : A → world → Prop) w :
  triple P m Q → hmb_st h Y w → Y ≡ₚ P ++ Y' →
  (∀ a R w', Q a R → hmb_st h (R ++ Y') w' → untouched Y' w w' → Φ a w') → wp m Φ w.
Proof.
  intros Hm [Hh Hd Hi Hmo] HY HΦ. eapply (wp_triple_frame P (Y' ++ dev_items (w_dev w0) ++ X)); [done|exact Hh| |].
  - rewrite HY. solve_Permutation.
  - intros a R w' HQ Hw' (? & ? & ?) Hu. eapply HΦ; [exact HQ| |].
    + split; try congruence. revert Hw'. apply holds_perm; [|done]. solve_Permutation.
    + eapply untouched_incl; [|exact Hu]. set_solver.
Qed.

Lemma hs_upd f h Y (Φ : unit → world → Prop) w :
  hmb_st h Y w → (∀ w', hmb_st (f h) Y w' → w_heap w' = w_heap w → Φ tt w') → wp (upd_hmb f) Φ w.
Proof.
  intros [Hh Hd Hi Hmo] HΦ. apply wp_modify, HΦ; [|done].
  split; try done; [by eapply holds_ext, Hh|]. cbn. rewrite Hd. done.
Qed.
Lemma hs_get h Y (Φ : nvme_hmb → world → Prop) w : hmb_st h Y w → Φ h w → wp get_hmb Φ w.
Proof.
  intros [_ Hd _ _] HΦ. unfold get_hmb. apply wp_bind, wp_gets. rewrite Hd. by apply wp_ret.
Qed.

(** Without a buffer again, and with one. *)
Lemma dev_hmb_none d : ndev_hmb d = None → d <| ndev_hmb := None |> = d.
Proof. destruct d. cbn. by intros ->. Qed.
Lemma dev_items_hmb d h : ndev_hmb d = None →
  dev_items (d <| ndev_hmb := Some h |>) ≡ₚ hmb_items (Some h) ++ dev_items d.
Proof. intros Hd. unfold dev_items at 2. rewrite Hd. unfold dev_items. cbn. solve_Permutation. Qed.

Lemma wp_free_hmb h hp cp (ret : Z) w :
  inv X w0 → ndev_hmb (w_dev w0) = None → hp ≠ 0 → cp ≠ 0 → hmb_st h [Blk hp AK_kmalloc None; Blk cp AK_kmalloc None] w →
  wp (kfree hp;; upd_dev (λ d, d <| ndev_hmb := None |>);; kfree cp;; mret ret)
    (λ r w', r = ret ∧ inv X w' ∧ same_dev w0 w') w.
Proof.
  intros Hw0 Hnone Hhp Hcp Hs. apply wp_bind. eapply (hs_call _ [Blk cp AK_kmalloc None]);
    [by apply (triple_kfree hp None)|exact Hs|done|]. intros _ R w1 -> [Hh1 Hd1 Hi1 Hm1] _.
  apply wp_bind, wp_modify. set (w2 := w1 <| w_dev ::= _ |>).
  assert (w_dev w2 = w_dev w0) as Hd2 by (cbn; rewrite Hd1; by apply (dev_hmb_none (w_dev w0))).
  assert (inv (Blk cp AK_kmalloc None :: X) w2) as Hw2.
  { destruct Hw0 as [_ Hdw Hir]. split; rewrite Hd2; [|done|by rewrite <- Hi1 in Hir].
    eapply (holds_ext _ w1); [done..|]. revert Hh1. apply holds_perm; [|done]. solve_Permutation. }
  apply wp_bind. eapply (wp_own _ X); [by apply (triple_kfree cp None)|exact Hw2|done|].
  intros _ R w3 -> Hw3 (Hd3 & Hi3 & Hm3). apply wp_ret. split_and!; [done|done|].
  split_and!; [congruence|by rewrite <- Hi1|by rewrite <- Hm1].
Qed.

Lemma hs_inv h w :
  inv X w0 → ndev_hmb (w_dev w0) = None →
  hmb_st h (hmb_items (Some h)) w → hmb_wf h → inv X w.
Proof.
  intros Hw0 Hnone [Hh Hd Hi _] Hwf. destruct Hw0 as [_ [? ? ? ? ?] Hir]. split; rewrite Hd.
  - rewrite (dev_items_hmb _ _ Hnone). by rewrite <- (assoc_L (++)).
  - split; try done. cbn. by intros ? [= <-].
  - cbn. by rewrite Hi.
Qed.

Lemma wp_release_bufs h Y (Φ : unit → world → Prop) w :
  hmb_st h ((hmb_bufs h ≫= hmb_buf_items) ++ Y) w → hmb_desc_num h = Z.of_nat (length (hmb_bufs h)) →
  (∀ w', hmb_st h Y w' → Φ tt w') → wp dnvme_release_hmb_buffer Φ w.
Proof.
  intros Hs Hn HΦ. unfold dnvme_release_hmb_buffer. apply wp_bind, (hs_get _ _ _ _ Hs).
  rewrite Hn, (proj2 (Z.ltb_ge _ _)), Nat2Z.id, firstn_all by lia.
  eapply (hs_call _ Y); [apply triple_free_bufs|exact Hs|done|]. intros [] R w' -> Hs' _. by apply HΦ.
Qed.

(** The two allocations, one after the other. *)
Definition hmb_new (hp : Z) (bufs : list nvme_hmb_buffer) : nvme_hmb := {|
  hmb_ptr := hp; hmb_desc := 0; hmb_desc_addr := 0; hmb_desc_size := 0; hmb_desc_num := 0;
  hmb_bufs := bufs |}.

Lemma wp_alloc_bufs need hp Y (Φ : Z → world → Prop) w :
  hmb_st (hmb_new hp []) Y w → 0 ≤ ha_nr_desc need →
  ha_nr_desc need ≤ Z.of_nat (length (ha_bsize need)) →
  (∀ w', hmb_st (hmb_new hp []) Y w' → Φ (- ENOMEM) w') →
  (∀ bufs w', hmb_st (hmb_new hp bufs) ((bufs ≫= hmb_buf_items) ++ Y) w' →
    Z.of_nat (length bufs) = ha_nr_desc need → hmb_sized (ha_page_size need) (ha_bsize need) bufs →
    Φ 0 w') →
  wp (dnvme_alloc_hmb_buffer need) Φ w.
Proof.
  intros Hs H0 Hn Hfail Hok. unfold dnvme_alloc_hmb_buffer. apply wp_bind, (hs_get _ _ _ _ Hs), wp_bind.
  eapply (hs_call _ Y); [apply (triple_hmb_bufs (ha_page_size need) (ha_bsize need)
    (Z.to_nat (ha_nr_desc need)) [])|exact Hs|done|].
  - by intros i b ?.
  - simpl. lia.
  - intros r R w1 Hr Hs1 _. destruct Hr as [[-> ->]|(bufs & -> & -> & Hl & Hsz)].
    { by apply wp_ret, Hfail. }
    apply wp_bind. eapply hs_upd; [exact Hs1|]. intros w2 Hs2 _. apply wp_ret, (Hok bufs); try done.
    rewrite Hl. simpl. lia.
Qed.

(** The descriptor page can always be had. *)
Definition dma_page_ok : Prop := ∀ h, ans (E_dma_alloc PAGE_SIZE :: h) ≠ 0.

Lemma triple_dma_page : dma_page_ok →
  triple [] (dma_alloc_coherent PAGE_SIZE)
    (λ pd R, 0 < pd.1 ∧ R = [Blk pd.1 AK_coherent (Some PAGE_SIZE)]).
Proof.
  intros Hok X' w Hw. unfold dma_alloc_coherent. apply wp_bind, wp_ext_dma.
  rewrite (proj2 (Z.eqb_neq _ 0) (Hok _)). set (w1 := w <| w_hist := _ |>).
  assert (holds X' w1) as Hw1 by (by eapply holds_ext, Hw).
  apply wp_bind. eapply wp_mono;
    [apply (triple_new_block AK_coherent (Some PAGE_SIZE) PAGE_SIZE (zeros PAGE_SIZE)); [done| |exact Hw1]|].
  { intros _. change (Z.of_nat (length (zeros PAGE_SIZE)) = Z.max 0 PAGE_SIZE).
    unfold zeros. by rewrite length_replicate. }
  intros p w2 (R & [Hp ->] & Hw2 & Hs2 & Hu2). apply wp_ret. eexists. done.
Qed.

Lemma wp_alloc_desc need hp bufs Y (Φ : Z → world → Prop) w :
  dma_page_ok → hmb_st (hmb_new hp bufs) Y w →
  (∀ va pa w', 0 < va →
    hmb_st {| hmb_ptr := hp; hmb_desc := va; hmb_desc_addr := pa; hmb_desc_size := PAGE_SIZE;
              hmb_desc_num := ha_nr_desc need; hmb_bufs := bufs |}
      (Blk va AK_coherent (Some PAGE_SIZE) :: Y) w' → Φ 0 w') →
  wp (dnvme_alloc_hmb_desc need) Φ w.
Proof.
  intros Hok Hs HΦ. unfold dnvme_alloc_hmb_desc. apply wp_bind, (hs_get _ _ _ _ Hs), wp_bind.
  eapply (hs_call [] Y); [by apply triple_dma_page|exact Hs|done|].
  intros [va pa] R w1 [Hva ->] Hs1 _. cbn [fst] in *. apply wp_bind. eapply hs_upd; [exact Hs1|].
  intros w2 Hs2 _. rewrite (proj2 (Z.eqb_neq va 0)) by lia. apply wp_bind.
  eapply (hs_call _ Y); [by apply (triple_memset0 va AK_coherent PAGE_SIZE); [left|]|exact Hs2|done|].
  intros _ R w3 -> Hs3 _. apply wp_bind. eapply hs_upd; [exact Hs3|]. intros w4 Hs4 _.
  by apply wp_ret, (HΦ va pa).
Qed.
End setup.

(** ** The claims *)

(** The structure of a complete buffer, with the page the controller reads. *)
Definition hmb_ready (need : nvme_hmb_alloc) (h : nvme_hmb) (w : world) : Prop :=
  hmb_desc_num h = ha_nr_desc need ∧ hmb_desc_num h = Z.of_nat (length (hmb_bufs h)) ∧
  hmb_sized (ha_page_size need) (ha_bsize need) (hmb_bufs h) ∧
  ∃ data, blk_data <$> w_heap w !! hmb_desc h = Some data ∧
    ∀ i b, hmb_bufs h !! i = Some b → desc_is data i b.

(** A request as the code expects it: it does not change between the two reads. *)
Record hmb_request (head copy : nvme_hmb_alloc) : Prop := {
  hr_same : ha_nr_desc copy = ha_nr_desc head;
  hr_num : 0 ≤ ha_nr_desc head;
  hr_len : ha_nr_desc head ≤ Z.of_nat (length (ha_bsize copy)) }.

Lemma hmb_sized_take ps bs n bufs :
  hmb_sized ps (take n bs) bufs → hmb_sized ps bs bufs.
Proof.
  intros Hs i b Hi. destruct (Hs i b Hi) as (x & Hx & ?). exists x. split; [|done].
  by apply lookup_take_Some in Hx as [? _].
Qed.

(** From the new structure on. *)
Lemma wp_hmb_fill X w0 need head (psz : Z) hp cp w :
  inv X w0 → ndev_hmb (w_dev w0) = None → dma_page_ok → hp ≠ 0 → cp ≠ 0 →
  0 ≤ ha_nr_desc need → ha_nr_desc need ≤ Z.of_nat (length (ha_bsize need)) →
  SIZEOF_hmb_descriptor * ha_nr_desc need ≤ PAGE_SIZE →
  hmb_st X w0 (hmb_new hp []) [Blk hp AK_kmalloc None; Blk cp AK_kmalloc None] w →
  let free_hmb (ret : Z) : M Z :=
    kfree hp;; upd_dev (λ d, d <| ndev_hmb := None |>);; kfree cp;; mret ret in
  wp (ret ← dnvme_alloc_hmb_buffer need;
      if ret <? 0 then free_hmb ret
      else
        ret ← dnvme_alloc_hmb_desc need;
        if ret <? 0 then dnvme_release_hmb_buffer;; free_hmb ret
        else
          dnvme_fill_hmb_descriptor;;
          hmb ← get_hmb;
          ok ← copy_to_user (UP_hmb (hmb_desc_addr hmb) psz head);
          if negb ok
          then dnvme_release_hmb_desc;; dnvme_release_hmb_buffer;; free_hmb (- EFAULT)
          else kfree cp;; mret 0)
    (λ r w', inv X w' ∧
      (r < 0 ∧ same_dev w0 w' ∨
       r = 0 ∧ ∃ h, w_dev w' = (w_dev w0) <| ndev_hmb := Some h |> ∧ hmb_ready need h w')) w.
Proof.
  intros Hw0 Hn Hpage Hhp Hcp H0 Hlen Hsz Hs free_hmb.
  assert (∀ h ret w', ret < 0 → hmb_st X w0 h [Blk hp AK_kmalloc None; Blk cp AK_kmalloc None] w' →
    wp (free_hmb ret) (λ r w', inv X w' ∧
      (r < 0 ∧ same_dev w0 w' ∨
       r = 0 ∧ ∃ h, w_dev w' = (w_dev w0) <| ndev_hmb := Some h |> ∧ hmb_ready need h w')) w') as Hfree.
  { intros h ret w' Hr Hs'. eapply wp_mono; [by apply (wp_free_hmb X w0 h)|].
    intros r w2 (-> & ? & ?). split; [done|by left]. }
  apply wp_bind. eapply wp_alloc_bufs; [exact Hs|done..| |].
  { intros w1 Hs1. by eapply Hfree. }
  intros bufs w1 Hs1 Hl Hbs. change (0 <? 0) with false. apply wp_bind.
  eapply wp_alloc_desc; [done|exact Hs1|]. intros va pa w2 Hva Hs2. cbv iota.
  set (h := {| hmb_ptr := hp; hmb_desc := va; hmb_desc_addr := pa; hmb_desc_size := PAGE_SIZE;
               hmb_desc_num := ha_nr_desc need; hmb_bufs := bufs |}) in *.
  set (O := (bufs ≫= hmb_buf_items) ++ [Blk hp AK_kmalloc None; Blk cp AK_kmalloc None]) in *.
  unfold dnvme_fill_hmb_descriptor. apply wp_bind, wp_bind, (hs_get _ _ _ _ _ _ Hs2), wp_bind.
  destruct Hs2 as [Hh2 Hd2 Hi2 Hm2]. cbn [h hmb_desc_num hmb_desc hmb_bufs].
  assert (Forall (λ b, 0 ≤ hb_phy_addr b < 2 ^ 64 ∧ in_u32 (hb_size b)) bufs) as Hrng.
  { apply Forall_lookup. intros i b Hi. destruct (Hbs i b Hi) as (n & _ & -> & ?).
    split; [done|]. apply u32_range. }
  eapply wp_mono; [apply (wp_fill va (O ++ dev_items (w_dev w0) ++ X) (Z.to_nat (ha_nr_desc need)) 0 bufs w2);
    [exact Hh2|lia|by rewrite Hl|done|]|].
  { destruct (holds_blk _ _ _ _ _ Hh2) as (_ & b & Hb & _). exists (blk_data b). rewrite Hb. split; [done|]. lia. }
  intros _ w3 (Hw3 & (Hd3 & Hi3 & Hm3) & _ & data & Hdata & Hdesc). apply wp_ret.
  assert (hmb_st X w0 h (Blk va AK_coherent (Some PAGE_SIZE) :: O) w3) as Hs3.
  { split; [exact Hw3|congruence..]. }
  apply wp_bind, (hs_get _ _ _ _ _ _ Hs3), wp_bind.
  eapply (hs_call X w0 [] (Blk va AK_coherent (Some PAGE_SIZE) :: O)); [apply triple_copy_to_user|exact Hs3|done|].
  intros ok R w4 -> Hs4 Hu4. destruct ok; cbn [negb].
  - apply wp_bind. eapply (hs_call X w0 _ (Blk va AK_coherent (Some PAGE_SIZE) ::
      (bufs ≫= hmb_buf_items) ++ [Blk hp AK_kmalloc None])); [by apply (triple_kfree cp None)|exact Hs4| |].
    { unfold O. solve_Permutation. }
    intros _ R w5 -> Hs5 Hu5. apply wp_ret. split.
    + eapply (hs_inv X w0 h); [done|done| |split; [cbn; lia|cbn; lia]]. destruct Hs5 as [Hh5 ? ? ?].
      split; try done. revert Hh5. apply holds_perm; [|done]. unfold h, hmb_items. cbn.
      rewrite (proj2 (Z.eqb_neq va 0)) by lia. solve_Permutation.
    + right. split; [done|]. exists h. split; [apply Hs5|]. split_and!; try done.
      exists data. split.
      * rewrite <- Hdata. cbn [h hmb_desc]. f_equal. transitivity (w_heap w4 !! va).
        -- apply Hu5. simpl. by left.
        -- apply Hu4. simpl. by left.
      * intros i b Hi. apply Hdesc; [|done]. apply lookup_lt_Some in Hi. cbn [h hmb_bufs] in Hi. lia.
  - unfold dnvme_release_hmb_desc. apply wp_bind, wp_bind, (hs_get _ _ _ _ _ _ Hs4).
    eapply (hs_call X w0 _ O); [apply triple_dma_free|exact Hs4|done|]. intros _ R w5 -> Hs5 _.
    apply wp_bind. eapply (wp_release_bufs X w0 h); [exact Hs5|cbn; lia|]. intros w6 Hs6.
    by eapply Hfree.
Qed.

Lemma wp_alloc_hmb X head copy w :
  inv X w → hmb_request head copy → dma_page_ok →
  wp (dnvme_alloc_hmb head copy)
    (λ r w', inv X w' ∧
      (r < 0 ∧ same_dev w w' ∨
       r = 0 ∧ ndev_hmb (w_dev w) = None ∧ ∃ h,
         w_dev w' = (w_dev w) <| ndev_hmb := Some h |> ∧ hmb_ready copy h w')) w.
Proof.
  intros Hw [Hsame Hnum Hlen] Hpage. set (Ψ := λ (r : Z) (w' : world), inv X w' ∧ _). unfold dnvme_alloc_hmb. apply wp_bind, wp_gets.
  destruct (ndev_hmb (w_dev w)) as [h|] eqn:Hn; [by apply wp_ret; split; [|left]|].
  wcall X triple_copy_from_user. intros ok R w1 -> Hw1 Hs1.
  destruct ok; cbn [negb]; [|apply wp_ret; by split; [|left]].
  destruct (_ =? 0); [apply wp_ret; by split; [|left]|].
  destruct (Z.ltb_spec (PAGE_SIZE / SIZEOF_hmb_descriptor) (ha_nr_desc head)) as [|Hmax];
    [apply wp_ret; by split; [|left]|].
  wcall X (triple_kmalloc (SIZEOF_hmb_alloc + 4 * ha_nr_desc head)).
  intros cp R w2 [[-> ->]|[Hcp ->]] Hw2 Hs2; cbn [app] in Hw2.
  { apply wp_ret. split; [done|left]. split; [done|by etrans]. }
  rewrite (proj2 (Z.eqb_neq cp 0)) by lia.
  wcall (Blk cp AK_kmalloc None :: X) triple_copy_from_user. intros ok R w3 -> Hw3 Hs3. cbn [app] in Hw3.
  assert (same_dev w w3) as Hs03 by (by etrans; [|etrans]).
  assert (∀ (ret : Z) w', ret < 0 → inv (Blk cp AK_kmalloc None :: X) w' → same_dev w w' →
    wp (kfree cp;; mret ret) Ψ w') as Hout.
  { intros ret w' Hr Hw' Hs'. wcall X (triple_kfree cp None ltac:(lia)). intros _ R w2' -> Hw2' Hs2'.
    apply wp_ret. split; [done|left]. split; [done|by etrans]. }
  destruct ok; cbn [negb]; [|by apply Hout]. cbv zeta. rewrite Hsame. cbn [ha_nr_desc].
  wcall (Blk cp AK_kmalloc None :: X) (triple_kmalloc (SIZEOF_nvme_hmb + ha_nr_desc head * SIZEOF_nvme_hmb_buffer)).
  intros hp R w4 [[-> ->]|[Hhp ->]] Hw4 Hs4; cbn [app] in Hw4.
  { apply Hout; [done|done|by etrans]. }
  rewrite (proj2 (Z.eqb_neq hp 0)) by lia. apply wp_bind, wp_modify. set (w5 := w4 <| w_dev ::= _ |>).
  assert (same_dev w w4) as (Hd4 & Hi4 & Hm4) by (by etrans).
  eapply wp_mono; [apply (wp_hmb_fill X w _ _ _ hp cp w5 Hw Hn Hpage); [lia|lia|done|..]|].
  - cbn. rewrite length_take. lia.
  - change (PAGE_SIZE / SIZEOF_hmb_descriptor) with 256 in Hmax. unfold SIZEOF_hmb_descriptor, PAGE_SIZE. cbn. lia.
  - split; [|cbn; by rewrite Hd4|done|done]. eapply (holds_ext _ w4); [done..|].
    pose proof (i_holds _ _ Hw4) as Hh. rewrite Hd4 in Hh. revert Hh. apply holds_perm; [|done]. solve_Permutation.
  - intros r w6 [Hw6 [Hr|(-> & h & Hd6 & Hr1 & Hr2 & Hr3 & Hr4)]]; (split; [done|]); [by left|right].
    split_and!; [done|done|]. exists h. split; [done|]. cbn [ha_nr_desc ha_page_size ha_bsize] in *.
    split_and!; [congruence|done|by eapply hmb_sized_take|done].
Qed.


Lemma oops_after {A B} (m : M A) (Φ : A → world → Prop) (f : fault) w :
  wp m Φ w → (m;; oops (A := B) f) w = Oops f.
Proof. unfold wp, mbind, M_bind. by destruct (m w). Qed.

(** Releasing a host memory buffer never works: from every device in the invariant
    that has one, [dnvme_release_hmb] frees the memory and then passes a local pointer
    that was never assigned to [kfree].  The clean-up at close and at a controller reset
    runs into the same call. *)
Theorem release_hmb_faults X h w
    (Hw : inv X w) (Hh : ndev_hmb (w_dev w) = Some h) :
  dnvme_release_hmb w = Oops F_uninit.
Proof.
  unfold dnvme_release_hmb. unfold mbind at 1, M_bind at 1, get_dev, gets. rewrite Hh.
  destruct (dw_hmb _ (i_dev _ _ Hw) h Hh) as [Hdesc Hnum].
  change ((dnvme_release_hmb_desc;; dnvme_release_hmb_buffer;; oops (A := Z) F_uninit) w = Oops F_uninit).
  set (O := dev_items ((w_dev w) <| ndev_hmb := None |>) ++ X).
  assert (dev_items (w_dev w) ++ X ≡ₚ
    Blk (hmb_desc h) AK_coherent (Some (hmb_desc_size h)) :: (hmb_bufs h ≫= hmb_buf_items) ++
    Blk (hmb_ptr h) AK_kmalloc None :: O) as HO.
  { unfold O, dev_items. cbn. rewrite Hh. cbn. rewrite (proj2 (Z.eqb_neq _ 0) Hdesc). solve_Permutation. }
  assert (wp (dnvme_release_hmb_desc;; dnvme_release_hmb_buffer) (λ _ _, True) w) as Hwp.
  { unfold dnvme_release_hmb_desc, dnvme_release_hmb_buffer, get_hmb.
    apply wp_bind, wp_bind, wp_bind, wp_gets. rewrite Hh. apply wp_ret.
    eapply wp_triple; [apply triple_dma_free|apply (i_holds _ _ Hw)|exact HO|].
    intros _ R w1 -> Hw1 Hs1. apply wp_bind, wp_bind, wp_gets. rewrite (same_dev_dev _ _ Hs1), Hh.
    apply wp_ret. rewrite Hnum, (proj2 (Z.ltb_ge _ _)), Nat2Z.id, firstn_all by lia.
    eapply (wp_triple _ (Blk (hmb_ptr h) AK_kmalloc None :: O)); [apply triple_free_bufs|exact Hw1|done|done]. }
  apply (oops_after (B := Z) _ _ F_uninit) in Hwp. rewrite <- Hwp.
  unfold mbind, M_bind. by destruct (dnvme_release_hmb_desc w).
Qed.
End hmb.

(** ** Witnesses *)

(** Two buffers, of one page and of three. *)
Definition demo_hmb : nvme_hmb_alloc :=
  {| ha_page_size := 4096; ha_nr_desc := 2; ha_bsize := [1; 3] |}.


Definition hmb_world : world :=
  demo_world <| w_dev ::= λ d, d <| ndev_hmb := Some {| hmb_ptr := 1; hmb_desc := 2; hmb_desc_addr := 4096;
      hmb_desc_size := PAGE_SIZE; hmb_desc_num := 1;
      hmb_bufs := [{| hb_virt_addr := 3; hb_phy_addr := 8192; hb_size := 16 |}] |} |> |>
    <| w_heap := {[ 1 := mk_block AK_kmalloc 56 []; 2 := mk_block AK_coherent PAGE_SIZE (zeros PAGE_SIZE);
                    3 := mk_block AK_coherent 16 (zeros 16) ]} |>.

Lemma release_hmb_faults_witness : dnvme_release_hmb hmb_world = Oops F_uninit.
Proof.
  refine (release_hmb_faults [] _ hmb_world _ eq_refl).
  split; [by apply holdsb_ok; vm_compute| |done].
  destruct (i_dev _ _ demo_world_inv) as [? ? ? ? _]. split; try done.
  intros h [= <-]. split; done.
Defined.

(** ** A leak *)

(** A kernel that has no page for the descriptors. *)
Definition no_page_env : Env := {|
  ans h := match h with
           | E_dma_alloc n :: _ => if n =? PAGE_SIZE then 0 else 1
           | _ => @ans demo_env h
           end;
  ans_dma := @ans_dma demo_env; ans_sg := @ans_sg demo_env; ans_fill := @ans_fill demo_env;
  ans_vector := @ans_vector demo_env; ans_sort := @ans_sort demo_env;
  cfg_flush_reg_write := false; cfg_hz := 1000 |}.
Definition leak_hmb : nvme_hmb_alloc :=
  {| ha_page_size := 64; ha_nr_desc := 1; ha_bsize := [3] |}.

(** When the page of descriptors cannot be had, the buffers are lost: [desc_num] is
    still [0] when [dnvme_release_hmb_buffer] loops up to it, so nothing is freed, and
    the structure that knew the buffers goes.  The device is as before, no buffer is
    registered, and memory that nobody owns stays allocated. *)
Theorem hmb_desc_failure_leaks :
  inv [] demo_world ∧
  wp (@dnvme_alloc_hmb no_page_env leak_hmb leak_hmb)
    (λ r w', r = - ENOMEM ∧ w_dev w' = w_dev demo_world ∧ ¬ inv [] w' ∧
      ∃ p b, w_heap w' !! p = Some b ∧ blk_kind b = AK_coherent ∧ blk_size b = 192) demo_world.
Proof.
  split; [apply demo_world_inv|]. unfold wp.
  destruct (@dnvme_alloc_hmb no_page_env leak_hmb leak_hmb demo_world) as [r w'| |] eqn:Hrun;
    [|by vm_compute in Hrun..].
  assert (r = - ENOMEM ∧ w_dev w' = w_dev demo_world ∧
    (λ b, (blk_kind b, blk_size b)) <$> w_heap w' !! 3 = Some (AK_coherent, 192)) as (Hr & Hd & Hb).
  { revert Hrun. generalize (eq_refl (@dnvme_alloc_hmb no_page_env leak_hmb leak_hmb demo_world)).
    generalize (@dnvme_alloc_hmb no_page_env leak_hmb leak_hmb demo_world) at 2 3. intros o Ho ->.
    vm_compute in Ho. injection Ho as <- <-. split_and!; vm_compute; reflexivity. }
  destruct (w_heap w' !! 3) as [b|] eqn:Hl; [|done]. injection Hb as Hk Hs.
  split_and!; try done; [|by exists 3, b]. intros Hinv. pose proof (h_dom _ _ (i_holds _ _ Hinv) 3) as Hin.
  rewrite Hd in Hin. apply (not_elem_of_nil (A := Z) 3). apply Hin. by eexists.
Qed.
