(* ===== verification/Clock.v ===== *)
(** * Waiting for the controller

    [dnvme_wait_ready] polls the status register until it has the wanted value, the
    device is gone, or the time of CAP.TO is over.  [Clock] is what the kernel promises
    about its clock; under it the loop ends, after a number of rounds that does not
    depend on the device. *)

From S2P Require Import Prelude Types Kernel Io Own Prp PrpSpec Ring Irq Queue Meta Ioctl.

(** ** The clock *)

(** [time h] is the time in microseconds when the calls in [h] are done.  It does not
    run backwards, no call takes longer than 2^40 microseconds (12 days), a sleep
    ([usleep_range(1000, 2000)]) takes at least a millisecond, and [jiffies] counts
    it in units of [1 / HZ]. *)
Class Clock {E : Env} := {
  time : history → Z;
  boot : Z;
  time_step : ∀ h e, time h ≤ time (e :: h) ≤ time h + 2 ^ 40;
  time_sleep : ∀ h, time h + 1000 ≤ time (E_sleep :: h);
  time_jiffies : ∀ h, u64 (ans (E_jiffies :: h)) = u64 (boot + time h * cfg_hz / 1000000);
  hz_range : 1 ≤ cfg_hz ≤ 10000 }.

(** Differences of 64-bit counters. *)
Lemma s64_diff a b c : - 2 ^ 63 ≤ c + a - b < 2 ^ 63 → s64 (u64 (c + u64 a) - u64 b) = c + a - b.
Proof.
  intros H. unfold s64, u64.
  pose proof (Z.div_mod a (2 ^ 64)) as Ha. pose proof (Z.div_mod b (2 ^ 64)) as Hb.
  pose proof (Z.div_mod (c + a mod 2 ^ 64) (2 ^ 64)) as Hc.
  set (k := b / 2 ^ 64 - a / 2 ^ 64 - (c + a mod 2 ^ 64) / 2 ^ 64).
  assert ((c + a mod 2 ^ 64) mod 2 ^ 64 - b mod 2 ^ 64 + 2 ^ 63 = (c + a - b + 2 ^ 63) + k * 2 ^ 64) as ->
    by (subst k; lia).
  rewrite Z_mod_plus_full, Z.mod_small; lia.
Qed.

Section wait.
Context {E : Env} {C : Clock}.

(** The jiffies of a time. *)
Definition ticks (t : Z) : Z := t * cfg_hz / 1000000.

Lemma ticks_bounds t1 t2 : t1 ≤ t2 →
  (t2 - t1) * cfg_hz / 1000000 ≤ ticks t2 - ticks t1 ∧
  1000000 * (ticks t2 - ticks t1) ≤ (t2 - t1) * cfg_hz + 999999.
Proof.
  intros Ht. pose proof hz_range as Hz. unfold ticks.
  assert (t2 * cfg_hz = t1 * cfg_hz + (t2 - t1) * cfg_hz) as -> by lia.
  set (x := t1 * cfg_hz). set (y := (t2 - t1) * cfg_hz).
  pose proof (Z.div_mod x 1000000). pose proof (Z.mod_pos_bound x 1000000).
  pose proof (Z.div_mod y 1000000). pose proof (Z.mod_pos_bound y 1000000).
  pose proof (Z.div_mod (x + y) 1000000). pose proof (Z.mod_pos_bound (x + y) 1000000). lia.
Qed.

(** The most rounds the loop can need: half a second for each of the at most 256 units
    of CAP.TO, and a second for rounding. *)
Definition WAIT_ROUNDS : Z := 129000.

Section loop.
Context (bar0 bit t0 limit : Z) (Hlimit : 0 ≤ limit ≤ 128 * cfg_hz).
(** The [timeout] of the code, from a start at [t0]. *)
Local Abbreviation timeout := (u64 (limit + u64 (boot + ticks t0))).

(** What the loop returns, with the reason for it in the history. *)
Definition wait_done (w : world) (r : Z) (w' : world) : Prop :=
  hist_only w w' ∧
  ((r = 0 ∨ r = - ENODEV) ∧ (∃ h csts, w_hist w' = E_readl (bar0 + NVME_REG_CSTS) :: h ∧
     csts = u32 (ans (w_hist w')) ∧
     if r =? 0 then Z.land csts NVME_CSTS_RDY = bit else csts = 2 ^ 32 - 1) ∨
   r = - ETIME ∧ limit < ticks (time (w_hist w')) - ticks t0).

(** Round [k]: the clock is between the least and the most it can show then. *)
Definition round_time (k t : Z) : Prop := t0 + 1000 * k ≤ t ≤ t0 + 2 ^ 42 * (k + 1).

Lemma timeout_after k t :
  0 ≤ k ≤ WAIT_ROUNDS → round_time k t →
  time_after (u64 (boot + ticks t)) timeout = (limit <? ticks t - ticks t0).
Proof.
  intros Hk [Ht1 Ht2]. unfold WAIT_ROUNDS in Hk. pose proof hz_range as Hz.
  destruct (ticks_bounds t0 t) as [_ Hb]; [lia|]. destruct (ticks_bounds t0 t) as [Hb' _]; [lia|].
  assert (0 ≤ (t - t0) * cfg_hz / 1000000) by (apply Z.div_pos; nia).
  assert ((t - t0) * cfg_hz ≤ 2 ^ 42 * 129001 * 10000) by nia.
  unfold time_after. rewrite s64_diff by lia.
  destruct (Z.ltb_spec (limit + (boot + ticks t0) - (boot + ticks t)) 0), (Z.ltb_spec limit (ticks t - ticks t0));
    try done; lia.
Qed.

Lemma last_round t : t0 + 1000 * WAIT_ROUNDS ≤ t → limit < ticks t - ticks t0.
Proof.
  unfold WAIT_ROUNDS. intros Ht. pose proof hz_range as Hz.
  destruct (ticks_bounds t0 t) as [Hb _]; [lia|].
  assert (129 * cfg_hz ≤ (t - t0) * cfg_hz / 1000000) by (apply Z.div_le_lower_bound; nia). lia.
Qed.

Lemma wp_wait_loop fuel : ∀ k w,
  0 ≤ k < WAIT_ROUNDS → WAIT_ROUNDS ≤ k + Z.of_nat fuel → round_time k (time (w_hist w)) →
  wp (wait_loop fuel bar0 bit timeout) (wait_done w) w.
Proof.
  induction fuel as [|fuel IH]; intros k w Hk Hf [Ht1 Ht2]; [lia|]. cbn [wait_loop].
  apply wp_bind, wp_bind, wp_ext, wp_ret. set (h1 := E_readl _ :: w_hist w).
  destruct (Z.eqb_spec (u32 (ans h1)) (u32 (Z.lnot 0))) as [Hx|Hx].
  { apply wp_ret. split; [by apply hist_only_cons|]. left. split; [by right|]. by eexists _, _. }
  destruct (Z.eqb_spec (Z.land (u32 (ans h1)) NVME_CSTS_RDY) bit) as [Hr|Hr].
  { apply wp_ret. split; [by apply hist_only_cons|]. left. split; [by left|]. by eexists _, _. }
  apply wp_bind, wp_emit, wp_bind, wp_bind, wp_ext, wp_ret. cbn.
  set (h2 := E_sleep :: h1). set (w3 := w <| w_hist := h1 |> <| w_hist ::= cons E_sleep |> <| w_hist := E_jiffies :: h2 |>).
  assert (hist_only w w3) as Hw3 by (by exists [E_jiffies; E_sleep; E_readl (bar0 + NVME_REG_CSTS)]).
  pose proof (time_step (w_hist w) (E_readl (bar0 + NVME_REG_CSTS))) as Hs1. fold h1 in Hs1.
  pose proof (time_step h1 E_sleep) as Hs2. pose proof (time_sleep h1) as Hs2'. fold h2 in Hs2, Hs2'.
  pose proof (time_step h2 E_jiffies) as Hs3.
  rewrite time_jiffies. fold (ticks (time h2)).
  rewrite (timeout_after (k + 1)); [|lia|unfold round_time; lia].
  destruct (Z.ltb_spec limit (ticks (time h2) - ticks t0)) as [Hlt|Hge].
  - apply wp_ret. split; [done|]. right. split; [done|]. cbn.
    destruct (ticks_bounds (time h2) (time (E_jiffies :: h2))) as [Hb _]; [lia|].
    pose proof hz_range. assert (0 ≤ (time (E_jiffies :: h2) - time h2) * cfg_hz / 1000000) by (apply Z.div_pos; nia).
    lia.
  - destruct (decide (k + 1 = WAIT_ROUNDS)) as [Hlast|].
    { pose proof (last_round (time h2)). lia. }
    eapply wp_mono; [apply (IH (k + 1) w3); [lia|lia|unfold round_time; cbn; lia]|].
    intros r w4 [H4 Hd]. split; [by etrans|done].
Qed.
End loop.

(** CAP as the two reads at the start see it. *)
Definition cap_lo (bar0 : Z) (w : world) : history := E_readl (bar0 + NVME_REG_CAP) :: w_hist w.
Definition cap_hi (bar0 : Z) (w : world) : history := E_readl (bar0 + NVME_REG_CAP + 4) :: cap_lo bar0 w.
Definition cap_now (w : world) : Z :=
  let bar0 := ndev_bar0 (w_dev w) in
  Z.lor (u32 (ans (cap_lo bar0 w))) (Z.shiftl (u32 (ans (cap_hi bar0 w))) 32).
(** The time the code waits, in jiffies. *)
Definition wait_limit (w : world) : Z := (NVME_CAP_TIMEOUT (cap_now w) + 1) * cfg_hz / 2.

Lemma cap_timeout_range cap : 0 ≤ NVME_CAP_TIMEOUT cap < 256.
Proof.
  unfold NVME_CAP_TIMEOUT. change 0xff with (Z.ones 8). rewrite Z.land_ones by lia.
  apply Z.mod_pos_bound. lia.
Qed.

Lemma wp_wait_ready fuel enabled w :
  WAIT_ROUNDS ≤ Z.of_nat fuel →
  let bar0 := ndev_bar0 (w_dev w) in
  wp (dnvme_wait_ready fuel enabled)
    (wait_done bar0 (if enabled : bool then NVME_CSTS_RDY else 0) (time (cap_hi bar0 w)) (wait_limit w) w) w.
Proof.
  intros Hf bar0. pose proof hz_range as Hz. pose proof (cap_timeout_range (cap_now w)) as Hto.
  unfold dnvme_wait_ready, get_bar0, dnvme_readq, lo_hi_readq.
  apply wp_bind, wp_bind, wp_gets, wp_ret, wp_bind, wp_bind, wp_bind, wp_ext, wp_ret.
  apply wp_bind, wp_bind, wp_ext, wp_ret, wp_ret. fold bar0. cbn.
  change (E_readl (bar0 + NVME_REG_CAP + 4) :: E_readl (bar0 + NVME_REG_CAP) :: w_hist w) with (cap_hi bar0 w).
  change (E_readl (bar0 + NVME_REG_CAP) :: w_hist w) with (cap_lo bar0 w).
  apply wp_bind, wp_bind, wp_ext, wp_ret. cbn. rewrite time_jiffies.
  fold bar0 (ticks (time (cap_hi bar0 w))). fold (cap_now w). fold (wait_limit w).
  eapply wp_mono; [apply (wp_wait_loop bar0 _ (time (cap_hi bar0 w)) (wait_limit w)) with (k := 0)|].
  - unfold wait_limit. split; [apply Z.div_pos; nia|apply Z.div_le_upper_bound; nia].
  - unfold WAIT_ROUNDS. lia.
  - lia.
  - unfold round_time. cbn. pose proof (time_step (cap_hi bar0 w) E_jiffies). lia.
  - intros r w' [Hh Hd]. split; [|exact Hd]. etrans; [|exact Hh].
    by exists [E_jiffies; E_readl (bar0 + NVME_REG_CAP + 4); E_readl (bar0 + NVME_REG_CAP)].
Qed.

(** C34. Waiting for the controller ends.  Whatever the device answers, and given the
    clock, [dnvme_wait_ready] returns after at most [WAIT_ROUNDS] rounds and only reads:
    with 0 exactly when the last status read has the wanted RDY bit, with [-ENODEV] when
    it is all ones, and with [-ETIME] only when more than the time of CAP.TO
    ((TO + 1) * HZ / 2 jiffies) has passed. *)
Theorem wait_ready_terminates fuel enabled w (Hfuel : WAIT_ROUNDS ≤ Z.of_nat fuel) :
  let bar0 := ndev_bar0 (w_dev w) in
  wp (dnvme_wait_ready fuel enabled)
    (wait_done bar0 (if enabled : bool then NVME_CSTS_RDY else 0) (time (cap_hi bar0 w)) (wait_limit w) w) w.
Proof. by apply wp_wait_ready. Qed.
End wait.

(** *** Witness: a device that never gets ready, and a clock that only sleeping moves. *)

Fixpoint sleeps (h : history) : Z :=
  match h with
  | [] => 0
  | E_sleep :: h => 1 + sleeps h
  | _ :: h => sleeps h
  end.
Definition slow_env : Env := {|
  ans h := match h with E_jiffies :: h => sleeps h | _ => @ans demo_env h end;
  ans_dma := @ans_dma demo_env; ans_sg := @ans_sg demo_env; ans_fill := @ans_fill demo_env;
  ans_vector := @ans_vector demo_env; ans_sort := @ans_sort demo_env;
  cfg_flush_reg_write := false; cfg_hz := 1000 |}.
#[export] Program Instance slow_clock : @Clock slow_env := {|
  time h := 1000 * sleeps h; boot := 0 |}.
Next Obligation. intros h e. destruct e; cbn; lia. Qed.
Next Obligation. intros h. cbn. lia. Qed.
Next Obligation.
  intros h. cbn [ans slow_env cfg_hz]. rewrite Z.add_0_l.
  replace (1000 * sleeps h * 1000) with (sleeps h * 1000000) by lia. by rewrite Z.div_mul.
Qed.
Next Obligation. cbn. lia. Qed.

Lemma wait_ready_terminates_witness :
  wp (@dnvme_wait_ready slow_env (Z.to_nat WAIT_ROUNDS) true)
    (@wait_done slow_env slow_clock 0x10000 NVME_CSTS_RDY 0 500 demo_world) demo_world.
Proof.
  refine (@wait_ready_terminates slow_env slow_clock (Z.to_nat WAIT_ROUNDS) true demo_world _).
  unfold WAIT_ROUNDS. lia.
Defined.
