(* ===== verification/Life.v ===== *)
(** * The life of the device

    [allowed w req] is what the driver relies on when a request comes in (each condition
    is one a theorem of another file shows to be needed), and [step] is everything that
    can happen to the driver: the file operations, interrupts and their bottom halves,
    and writes of the controller to memory it was given.  Every allowed request returns
    and keeps the invariant, so that the invariant holds in every reachable world, and
    closing the device returns all there is. *)

From S2P Require Import Prelude Types Kernel Io Own Prp Paged PrpSpec Sgl SglSpec Ring Irq Queue Cmd Tamper Meta Ioctl Core Inv Demo QueueSpec IrqSpec IrqSet IrqRun Trace QueueOps MetaSpec CmdSpec Submit Complete CqFifo Reap Hmb Clock.

Section life.
Context {E : Env} {C : Clock}.

(** ** Requests the driver can serve *)

Definition allowed (w : world) (req : ioctl_req) : Prop :=
  let d := w_dev w in
  match req with
  | IOCTL_READ_GENERIC a => in_u32 (acc_bytes a)
  | IOCTL_WRITE_GENERIC a data => in_u32 (acc_bytes a) ∧ Z.of_nat (length data) = acc_bytes a
  | IOCTL_CREATE_ADMIN_QUEUE aq => 0 ≤ aq_elements aq
  | IOCTL_SET_DEV_STATE _ => ndev_hmb d = None
  | IOCTL_PREPARE_IOSQ prep =>
    0 ≤ psq_elements prep ∧ ndev_q_depth d ≤ 2 ^ 16 ∧
    (psq_sq_id prep = NVME_AQ_ID → psq_contig prep = true)
  | IOCTL_PREPARE_IOCQ prep =>
    0 ≤ pcq_elements prep < 2 ^ 16 ∧
    (pcq_use_cmb prep = false ∨ dnvme_cmb_support_cq (ndev_cmb d) = false) ∧
    (pcq_cq_id prep = NVME_AQ_ID → pcq_contig prep = true)
  | IOCTL_SUBMIT_64B_CMD cmd mem =>
    (∀ q, ndev_sqs d !! c64_sqid cmd = Some q → sq_usable q) ∧
    ∃ op qid flags, load_le 1 (user_bytes mem 64) 0 = Some op ∧
      load_le 1 (user_bytes mem 64) 1 = Some flags ∧ load_le 2 (user_bytes mem 64) 40 = Some qid ∧
      admissible cmd op qid flags d
  | IOCTL_INQUIRY_CQE inq => ∀ q, ndev_cqs d !! inq_cqid inq = Some q → cq_usable q
  | IOCTL_REAP_CQE reap =>
    0 ≤ rp_size reap ∧ 0 ≤ rp_expect reap ∧ cqs_usable d ∧
    ∀ q, ndev_cqs d !! rp_cqid reap = Some q →
      let data := cq_bytes w q in
      keeps_cq (rp_cqid reap) data (cqp_elements (cq_pub q)) (cqp_head_ptr (cq_pub q)) (cq_news q data)
  | IOCTL_CREATE_META_NODE mc =>
    in_u32 (mc_size mc) ∧ (mc_contig mc = 0 → user_buf_ok (mc_buf mc) (mc_size mc))
  | IOCTL_SET_IRQ irq => 0 ≤ int_num_irqs irq
  | IOCTL_MASK_IRQ arg | IOCTL_UNMASK_IRQ arg =>
    is_irq_type (ndev_irq_set d) ≠ NVME_INT_MSIX → u16 arg < 32
  | IOCTL_ALLOC_HMB head copy => hmb_request head copy ∧ dma_page_ok
  | IOCTL_RELEASE_HMB => ndev_hmb d = None
  | IOCTL_TAMPER_CMD _ | IOCTL_IOPS _ => False
  | IOCTL_GET_SQ_INFO _ | IOCTL_GET_CQ_INFO _ | IOCTL_GET_PCI_BDF | IOCTL_GET_DEV_INFO _ | IOCTL_GET_CAPABILITY _
  | IOCTL_RING_SQ_DOORBELL _ | IOCTL_EMPTY_CMD_LIST _ | IOCTL_DELETE_META_NODE _ | IOCTL_OTHER => True
  end.

(** ** Handlers that only talk to the outside *)

Lemma inv_hist_only X w w' : inv X w → hist_only w w' → inv X w'.
Proof. intros Hw [h ->]. by apply inv_hist. Qed.

(** [tells m]: nothing but the history changes. *)
Definition tells {A} (m : M A) : Prop := ∀ w, wp m (λ _, hist_only w) w.

Lemma tells_ret {A} (a : A) : tells (mret a).
Proof. intros w. by apply wp_ret. Qed.
Lemma tells_ext e : tells (ext e).
Proof. intros w. apply wp_ext, hist_only_cons. Qed.
Lemma tells_ext_dma e : tells (ext_dma e).
Proof. intros w. apply wp_ext_dma, hist_only_cons. Qed.
Lemma tells_emit e : tells (emit e).
Proof. intros w. apply wp_emit, hist_only_cons. Qed.
Lemma tells_gets {A} (f : world → A) : tells (gets f).
Proof. intros w. by apply wp_gets. Qed.
Lemma tells_bind {A B} (m : M A) (f : A → M B) : tells m → (∀ a, tells (f a)) → tells (x ← m; f x).
Proof.
  intros Hm Hf w. apply wp_bind. eapply wp_mono; [apply Hm|]. intros a w1 H1.
  eapply wp_mono; [apply Hf|]. intros b w2 H2. cbn in *. by transitivity w1.
Qed.
End life.

Ltac solve_tells :=
  repeat match goal with
  | |- tells (mret _) => apply tells_ret
  | |- tells (ext _) => apply tells_ext
  | |- tells (ext_dma _) => apply tells_ext_dma
  | |- tells (emit _) => apply tells_emit
  | |- tells (gets _) => apply tells_gets
  | |- tells get_dev => apply tells_gets
  | |- tells (mbind _ _) => apply tells_bind; [|intros ?]
  | |- tells (if ?b then _ else _) => destruct b
  | |- tells (match ?x with _ => _ end) => destruct x
  | |- tells (let _ := _ in _) => cbv zeta
  | |- tells _ => progress cbv beta
  end.

Section life2.
Context {E : Env} {C : Clock}.

Lemma tells_get_sq_info id : tells (dnvme_get_sq_info id).
Proof. unfold dnvme_get_sq_info, copy_from_user, copy_to_user. solve_tells. Qed.
Lemma tells_get_cq_info id : tells (dnvme_get_cq_info id).
Proof. unfold dnvme_get_cq_info, copy_from_user, copy_to_user. solve_tells. Qed.
Lemma tells_pci_bdf : tells dnvme_get_pci_bdf.
Proof. unfold dnvme_get_pci_bdf, copy_to_user. solve_tells. Qed.
Lemma tells_dev_info f : tells (dnvme_get_dev_info f).
Proof. unfold dnvme_get_dev_info, copy_to_user. solve_tells. Qed.
Lemma tells_capability gcap : tells (dnvme_get_capability gcap).
Proof.
  unfold dnvme_get_capability, dnvme_get_pci_capability, dnvme_get_pcie_capability, give_cap, give_offset,
    pci_find_capability, pci_find_ext_capability, copy_from_user, copy_to_user. solve_tells.
Qed.
Lemma tells_flr : tells pcie_do_flr_reset.
Proof. unfold pcie_do_flr_reset. solve_tells. Qed.
Lemma tells_hot : tells pcie_do_hot_reset.
Proof. unfold pcie_do_hot_reset. solve_tells. Qed.
Lemma tells_linkdown : tells pcie_do_linkdown_reset.
Proof. unfold pcie_do_linkdown_reset, pcie_set_link. solve_tells. Qed.
End life2.

(** ** Keeping the invariant *)

Section serve.
Context {E : Env} {C : Clock}.
Implicit Types (X : list item).

Definition keeps {A} (X : list item) (m : M A) (w : world) : Prop := wp m (λ _, inv X) w.

Lemma keeps_tells {A} X (m : M A) w : tells m → inv X w → keeps X m w.
Proof. intros Hm Hw. eapply wp_mono; [apply Hm|]. intros a w'. by apply inv_hist_only. Qed.

Lemma tells_wait_ready fuel b : WAIT_ROUNDS ≤ Z.of_nat fuel → tells (dnvme_wait_ready fuel b).
Proof. intros Hf w. eapply wp_mono; [by apply wp_wait_ready|]. by intros r w' [? _]. Qed.
Lemma tells_ctrl_state fuel b :
  WAIT_ROUNDS ≤ Z.of_nat fuel → tells (dnvme_set_ctrl_state fuel b).
Proof.
  intros Hf. unfold dnvme_set_ctrl_state, get_bar0, dnvme_readl, readl, dnvme_writel, writel.
  solve_tells. by apply tells_wait_ready.
Qed.
Lemma tells_subsystem fuel : WAIT_ROUNDS ≤ Z.of_nat fuel → tells (dnvme_reset_subsystem fuel).
Proof.
  intros Hf. unfold dnvme_reset_subsystem, dnvme_writel, writel. solve_tells.
  by apply tells_wait_ready.
Qed.

(** The structure a clean-up leaves. *)
Definition cleaned (st : nvme_state) (d : nvme_device) : nvme_device :=
  let save := negb (bool_decide (st = NVME_ST_DISABLE_COMPLETE)) in
  d <| ndev_irq_set ::= λ s, (irq_set_clean s) <| is_wq_pending := [] |> |>
    <| ndev_sqs := kept save asq_reset (ndev_sqs d) |>
    <| ndev_cqs := kept save acq_reset (ndev_cqs d) |>
    <| ndev_meta := ∅ |>.

Lemma wp_cleanup X st w :
  inv X w → ndev_hmb (w_dev w) = None →
  wp (dnvme_cleanup_device st)
    (λ _ w', inv X w' ∧ w_irqs w' = [] ∧ w_dev w' = cleaned st (w_dev w)) w.
Proof.
  intros Hw Hh. unfold dnvme_cleanup_device.
  apply wp_bind. eapply wp_mono; [by apply wp_clean_interrupt|]. intros _ w1 (Hw1 & Hi1 & _ & Hd1).
  apply wp_bind. eapply wp_mono; [by apply wp_delete_all_queues|]. intros _ w2 (Hw2 & Hi2 & Hd2 & _).
  apply wp_bind. eapply wp_mono; [by apply wp_delete_meta_nodes|]. intros _ w3 (Hw3 & Hi3 & Hd3).
  assert (ndev_hmb (w_dev w3) = None) as Hh3 by (by rewrite Hd3, Hd2, Hd1).
  apply wp_bind. unfold dnvme_release_hmb. apply wp_bind, wp_gets. rewrite Hh3.
  apply wp_ret, wp_ret. split_and!; [done|congruence|]. rewrite Hd3, Hd2, Hd1. done.
Qed.

Lemma keeps_device_state X fuel st w :
  WAIT_ROUNDS ≤ Z.of_nat fuel → inv X w → ndev_hmb (w_dev w) = None →
  keeps X (dnvme_set_device_state fuel st) w.
Proof.
  intros Hf Hw Hh.
  assert (∀ st, keeps X (ret ← dnvme_set_ctrl_state fuel false;
    if ret <? 0 then mret ret else dnvme_cleanup_device st;; mret ret) w) as Hoff.
  { intros st'. apply wp_bind. eapply wp_mono; [by apply tells_ctrl_state|]. intros r w1 H1.
    pose proof (inv_hist_only _ _ _ Hw H1) as Hw1. apply wp_if; intros _; [by apply wp_ret|].
    apply wp_bind. eapply wp_mono; [apply (wp_cleanup X); [done|by rewrite (hist_only_dev _ _ H1)]|].
    intros _ w2 (Hw2 & _). by apply wp_ret. }
  destruct st; try apply Hoff; apply keeps_tells; try done.
  - by apply tells_ctrl_state.
  - by apply tells_subsystem.
  - apply tells_flr.
  - apply tells_hot.
  - apply tells_linkdown.
  - apply tells_ret.
Qed.

(** *** Queues *)

Lemma keeps_ring X id w : inv X w → keeps X (dnvme_ring_sq_doorbell id) w.
Proof.
  intros Hw. unfold keeps, dnvme_ring_sq_doorbell, dnvme_find_sq. apply wp_bind, wp_gets.
  destruct (ndev_sqs (w_dev w) !! id) as [q|] eqn:Hq; [|by apply wp_ret].
  apply wp_bind, wp_modify, wp_bind, wp_emit, wp_ret. apply (inv_hist X (w <| w_dev ::= _ |>)).
  apply (inv_upd_sq X w id q _ [] []); [done|done|done|].
  destruct (dw_sqs _ (i_dev _ _ Hw) _ _ Hq). by split.
Qed.

Lemma keeps_empty_cmds X id w :
  inv X w →
  keeps X (d ← get_dev;
    match dnvme_find_sq d id with
    | Some sq => sq ← dnvme_delete_cmd_list sq; upd_sq id (λ _, sq);; mret 0
    | None => mret (- EINVAL)
    end) w.
Proof.
  intros Hw. unfold keeps, dnvme_find_sq. apply wp_bind, wp_gets.
  destruct (ndev_sqs (w_dev w) !! id) as [q|] eqn:Hq; [|by apply wp_ret].
  apply wp_bind. eapply wp_mono; [by apply (wp_clear_cmds X id)|].
  intros q0 w1 [-> Hst]. apply wp_bind, wp_modify, wp_ret.
  apply (Hst (q <| sq_cmd_list := [] |>)); [done|].
  destruct (dw_sqs _ (i_dev _ _ Hw) _ _ Hq). split; cbn; try done; intros; constructor.
Qed.

Lemma keeps_create_admin X aq w :
  inv X w → 0 ≤ aq_elements aq → keeps X (dnvme_create_admin_queue aq) w.
Proof.
  intros Hw He. unfold keeps, dnvme_create_admin_queue. apply wp_bind.
  eapply inv_copy_from_user; [exact Hw|]. intros ok w1 Hw1 _.
  destruct ok; cbn [negb]; [|by apply wp_ret].
  destruct (aq_type aq); try (by apply wp_ret); by apply (wp_create_asq X) || by apply (wp_create_acq X).
Qed.

Lemma keeps_inquiry X inq w :
  inv X w → (∀ q, ndev_cqs (w_dev w) !! inq_cqid inq = Some q → cq_usable q) →
  keeps X (dnvme_inquiry_cqe inq) w.
Proof.
  intros Hw Hu. unfold keeps, dnvme_inquiry_cqe. apply wp_bind.
  eapply inv_copy_from_user; [exact Hw|]. intros ok w1 Hw1 Hs1.
  destruct ok; cbn [negb]; [|by apply wp_ret].
  apply wp_bind, wp_gets. unfold dnvme_find_cq. rewrite (same_dev_dev _ _ Hs1).
  destruct (ndev_cqs (w_dev w) !! inq_cqid inq) as [q|] eqn:Hq; [|by apply wp_ret].
  apply wp_bind. eapply (wp_remain X _ q); [exact Hw1|by rewrite (same_dev_dev _ _ Hs1)|by apply Hu|].
  intros w2 [Hw2 _] _. apply wp_bind, wp_bind, wp_ext, wp_ret.
  apply wp_if; intros _; [by apply wp_ret, inv_hist|].
  apply wp_if; intros _; by apply wp_ret, inv_hist.
Qed.

Lemma keeps_reap X reap w :
  inv X w → allowed w (IOCTL_REAP_CQE reap) → keeps X (dnvme_reap_cqe_legacy reap) w.
Proof.
  intros Hw (H1 & H2 & Hu & Hk).
  destruct (ndev_cqs (w_dev w) !! rp_cqid reap) as [q|] eqn:Hq.
  - eapply wp_mono; [apply (wp_reap X reap q); try done; by apply Hk|]. by intros r w' [? _].
  - unfold keeps, dnvme_reap_cqe_legacy, get_irq_set. apply wp_bind, wp_bind, wp_gets, wp_ret.
    apply wp_bind. eapply inv_copy_from_user; [exact Hw|]. intros ok w1 Hw1 Hs1.
    destruct ok; cbn [negb]; [|by apply wp_ret]. apply wp_bind, wp_gets. unfold dnvme_find_cq.
    rewrite (same_dev_dev _ _ Hs1), Hq. by apply wp_ret.
Qed.

Lemma keeps_submit X cmd mem w :
  inv X w → allowed w (IOCTL_SUBMIT_64B_CMD cmd mem) → keeps X (dnvme_submit_64b_cmd cmd mem) w.
Proof.
  intros Hw (Hu & op & qid & flags & ? & ? & ? & Hadm).
  eapply wp_mono; [by apply (wp_submit X cmd mem op qid flags)|]. by intros r w' [? _].
Qed.

(** *** Interrupts *)

Lemma keeps_mask X id w :
  inv X w → (is_irq_type (ndev_irq_set (w_dev w)) ≠ NVME_INT_MSIX → 0 ≤ id < 32) →
  keeps X (dnvme_mask_interrupt id) w.
Proof.
  intros Hw Hid. pose proof (i_dev _ _ Hw) as Hd. eapply wp_mask_interrupt; [by apply inv_irq_st|done|].
  intros r w' Hs _ _. eapply irq_st_inv; [exact Hs|done|apply Hd|apply (i_irqs _ _ Hw)].
Qed.

(** An interrupt of the device, on a vector with a handler. *)
Lemma keeps_interrupt X v w : inv X w → v ∈ w_irqs w → keeps X (dnvme_interrupt v) w.
Proof.
  intros Hw Hv. rewrite (i_irqs _ _ Hw) in Hv. apply list_elem_of_fmap in Hv as (n & -> & Hn).
  apply list_elem_of_lookup in Hn as [i Hi]. pose proof (i_dev _ _ Hw) as Hd.
  pose proof (dw_irq _ Hd) as Hwf. eapply wp_interrupt; [by apply inv_irq_st|exact Hwf|exact Hi|].
  intros wk l w' Hwk _ _ Hsub _ Hs _ _.
  eapply irq_st_inv; [exact Hs|done| |apply (i_irqs _ _ Hw)].
  set (s := ndev_irq_set (w_dev w)) in *.
  replace (s <| is_wq_pending := l |>) with
    (s <| is_irq_list := is_irq_list s |> <| is_wq_pending := l |>) by (by destruct s).
  apply irq_wf_same; [done|by apply Forall_Forall2_diag, Forall_true| |].
  - intros p Hp. destruct (Hsub p Hp) as [Hp'| ->]; [by apply Hwf|by apply list_elem_of_fmap_2].
  - intros H0. destruct (iw_wq _ Hwf H0) as [Hl _]. by rewrite Hl in Hi.
Qed.

(** The bottom halves run. *)
Lemma keeps_flush X w : inv X w → keeps X flush_workqueue w.
Proof.
  intros Hw. pose proof (i_dev _ _ Hw) as Hd. pose proof (dw_irq _ Hd) as Hwf.
  pose proof (inv_irq_st X w Hw) as Hs.
  eapply wp_flush_workqueue; [exact Hs|by eapply work_nodup|apply Hwf|].
  intros l' w' Hsame _ Hs' _.
  eapply (inv_flushed X (w_dev w) (ndev_irq_set (w_dev w)) [] l');
    [|done|done|exact Hsame|apply (i_irqs _ _ Hw)].
  revert Hs'. by destruct (ndev_irq_set (w_dev w)).
Qed.

(** *** Requests *)

Lemma keeps_post {A} X (m : M A) (Q : A → world → Prop) w :
  wp m (λ a w', inv X w' ∧ Q a w') w → keeps X m w.
Proof. intros Hm. eapply wp_mono; [exact Hm|]. by intros a w' [? _]. Qed.

Lemma keeps_ioctl X fuel req w :
  inv X w → WAIT_ROUNDS ≤ Z.of_nat fuel → allowed w req → keeps X (ioctl_body fuel req) w.
Proof.
  intros Hw Hf Ha. destruct req; cbn [ioctl_body]; try done.
  - by apply keeps_tells; [apply tells_get_sq_info|].
  - by apply keeps_tells; [apply tells_get_cq_info|].
  - eapply wp_mono; [by apply generic_read_ok|]. intros ? w'. by apply inv_hist_only.
  - destruct Ha. eapply wp_mono; [by apply generic_write_ok|]. intros ? w'. by apply inv_hist_only.
  - by apply keeps_tells; [apply tells_pci_bdf|].
  - by apply keeps_tells; [apply tells_dev_info|].
  - by apply keeps_tells; [apply tells_capability|].
  - by apply keeps_create_admin.
  - by apply keeps_device_state.
  - destruct Ha as (? & ? & ?). eapply keeps_post. by apply wp_prepare_sq.
  - destruct Ha as (? & ? & ?). eapply keeps_post. by apply wp_prepare_cq.
  - by apply keeps_ring.
  - by apply keeps_submit.
  - by apply keeps_empty_cmds.
  - by apply keeps_inquiry.
  - by apply keeps_reap.
  - destruct Ha. eapply keeps_post. by apply wp_create_meta.
  - apply wp_bind. eapply wp_mono; [by apply (wp_delete_meta_id X)|]. intros _ w' [Hw' _].
    by apply wp_ret.
  - eapply keeps_post. by apply wp_set_interrupt.
  - apply keeps_mask; [done|]. intros Ht. specialize (Ha Ht). pose proof (u16_range arg). lia.
  - eapply wp_mono; [by apply (wp_unmask X)|]. by intros r w' [[? _] _].
  - destruct Ha. eapply keeps_post. by apply wp_alloc_hmb.
  - unfold keeps, dnvme_release_hmb. apply wp_bind, wp_gets. cbn in Ha. rewrite Ha. by apply wp_ret.
Qed.

(** ** Everything that can happen *)

Lemma inv_opened X b w : inv X w → inv X (w <| w_dev ::= λ d, d <| ndev_opened := b |> |>).
Proof.
  intros [Hh [] Hi]. split; [|by split|done]. by eapply (holds_ext _ w).
Qed.

Inductive op :=
| Op_open (minor : Z)
| Op_ioctl (fuel : nat) (minor : Z) (req : ioctl_req)
| Op_mmap (minor vm_pgoff vm_len : Z)
| Op_close (minor : Z)
| Op_interrupt (vec : Z)
| Op_work
| Op_device (p : Z) (bs : list Z).

Definition run_op (o : op) : M unit :=
  match o with
  | Op_open minor => dnvme_open minor;; mret tt
  | Op_ioctl fuel minor req => dnvme_ioctl fuel minor req;; mret tt
  | Op_mmap minor off len => dnvme_mmap minor off len;; mret tt
  | Op_close minor => dnvme_release minor;; mret tt
  | Op_interrupt vec => dnvme_interrupt vec;; mret tt
  | Op_work => flush_workqueue
  | Op_device p bs => put_data p bs
  end.

(** Interrupts come on vectors with a handler; the controller (or the process, through
    its mapping) writes to memory that is live and for both. *)
Definition can (w : world) (o : op) : Prop :=
  match o with
  | Op_open _ | Op_mmap _ _ _ | Op_work => True
  | Op_ioctl fuel _ req => WAIT_ROUNDS ≤ Z.of_nat fuel ∧ allowed w req
  | Op_close _ => ndev_hmb (w_dev w) = None
  | Op_interrupt vec => vec ∈ w_irqs w
  | Op_device p bs =>
    ∃ b, w_heap w !! p = Some b ∧ mem_kind (blk_kind b) ∧ length bs = length (blk_data b)
  end.

Inductive reachable (w0 : world) : world → Prop :=
| reach_start : reachable w0 w0
| reach_step w o w' : reachable w0 w → can w o → run_op o w = Val tt w' → reachable w0 w'.

Lemma keeps_discard {A} X (m : M A) w : keeps X m w → keeps X (m;; mret tt) w.
Proof. intros Hm. apply wp_bind. eapply wp_mono; [exact Hm|]. intros a w' Hw. by apply wp_ret. Qed.

Lemma tells_mmap minor off len : tells (dnvme_mmap minor off len).
Proof. unfold dnvme_mmap, dnvme_lock_device, mmap_parse_vmpgoff. solve_tells. Qed.

Lemma wp_release X minor w :
  inv X w → ndev_hmb (w_dev w) = None →
  wp (dnvme_release minor)
    (λ r w', inv X w' ∧
      (r = - ENODEV ∧ minor ≠ ndev_instance (w_dev w) ∧ w' = w ∨
       r = 0 ∧ minor = ndev_instance (w_dev w) ∧ w_irqs w' = [] ∧
         w_dev w' = cleaned NVME_ST_DISABLE_COMPLETE ((w_dev w) <| ndev_opened := false |>))) w.
Proof.
  intros Hw Hh. unfold dnvme_release, dnvme_lock_device.
  apply wp_bind, wp_bind, wp_gets, wp_ret.
  destruct (Z.eqb_spec minor (ndev_instance (w_dev w))); cbn [negb]; [|apply wp_ret; auto].
  apply wp_bind, wp_modify. pose proof (inv_opened X false w Hw) as Hw1.
  apply wp_bind. eapply wp_mono; [by apply (wp_cleanup X)|]. intros _ w' (Hw' & Hi & Hd).
  apply wp_ret. split; [done|]. right. done.
Qed.

Lemma keeps_op X o w : inv X w → can w o → keeps X (run_op o) w.
Proof.
  intros Hw Hc. destruct o as [minor|fuel minor req|minor off len|minor|vec| |p bs]; cbn [run_op];
    try apply keeps_discard.
  - unfold keeps, dnvme_open, dnvme_lock_device. apply wp_bind, wp_bind, wp_gets, wp_ret.
    apply wp_if; intros _; [by apply wp_ret|]. apply wp_bind, wp_gets.
    apply wp_if; intros _; [by apply wp_ret|]. by apply wp_bind, wp_modify, wp_ret, inv_opened.
  - unfold keeps, dnvme_ioctl, dnvme_lock_device. apply wp_bind, wp_bind, wp_gets, wp_ret.
    apply wp_if; intros _; [by apply wp_ret|]. destruct Hc. by apply keeps_ioctl.
  - by apply keeps_tells; [apply tells_mmap|].
  - eapply keeps_post. by apply wp_release.
  - by apply keeps_interrupt.
  - by apply keeps_flush.
  - destruct Hc as (b & Hb & _ & Hl). apply wp_modify. destruct Hw as [Hh Hd Hi].
    split; [|done|done]. cbn. eapply holds_contents; [exact Hh|exact Hb|exact Hl].
Qed.

(** The driver at rest: it holds nothing, and [X] is what is live. *)
Record at_rest (X : list item) (w : world) : Prop := {
  ar_holds : holds X w;
  ar_sqs : ndev_sqs (w_dev w) = ∅;
  ar_cqs : ndev_cqs (w_dev w) = ∅;
  ar_meta : ndev_meta (w_dev w) = ∅;
  ar_hmb : ndev_hmb (w_dev w) = None;
  ar_irq : IrqSet.idle (ndev_irq_set (w_dev w));
  ar_wq : is_wq (ndev_irq_set (w_dev w)) = 0;
  ar_irqs : w_irqs w = [] }.

Lemma rest_items d :
  ndev_sqs d = ∅ → ndev_cqs d = ∅ → ndev_meta d = ∅ → ndev_hmb d = None →
  IrqSet.idle (ndev_irq_set d) → is_wq (ndev_irq_set d) = 0 → dev_items d = [].
Proof.
  intros Hs Hc Hm Hh [? ? ? ?] Hq. unfold dev_items, irq_items.
  rewrite Hs, Hc, Hm, Hh, !xa_items_empty. by destruct (ndev_irq_set d); simpl in *; subst.
Qed.

Lemma at_rest_inv X w : at_rest X w → inv X w.
Proof.
  intros [Hh Hs Hc Hm Hb Hi Hq Hl]. split.
  - by rewrite rest_items.
  - split; rewrite ?Hs, ?Hc, ?Hm, ?Hb; try apply map_Forall_empty; [by apply idle_irq_wf|done].
  - rewrite Hl. by destruct Hi as [-> _ _ _].
Qed.

Lemma reachable_inv X w0 w : at_rest X w0 → reachable w0 w → inv X w.
Proof.
  intros H0. induction 1 as [|w o w' _ IH Hc Hr]; [by apply at_rest_inv|].
  pose proof (keeps_op X o w IH Hc) as Hk. apply wp_run in Hk as ([] & w1 & Hr1 & Hw1). congruence.
Qed.

(** What is left of the structure when everything was cleaned up. *)
Lemma cleaned_rest d : ndev_hmb d = None →
  let d' := cleaned NVME_ST_DISABLE_COMPLETE d in
  ndev_sqs d' = ∅ ∧ ndev_cqs d' = ∅ ∧ ndev_meta d' = ∅ ∧ ndev_hmb d' = None ∧
  IrqSet.idle (ndev_irq_set d') ∧ is_wq (ndev_irq_set d') = 0.
Proof.
  intros Hh. unfold cleaned, kept. rewrite bool_decide_true by done. cbn.
  split_and!; try done; by repeat case_match.
Qed.



(** C2. Closing returns everything.  Whatever has happened since the driver was at rest,
    [dnvme_release] (on a device without a host memory buffer) takes it to rest again:
    no queue, buffer, pending command, interrupt node, handler or workqueue is left, and
    what is live in the kernel, pinned and mapped is what was there at the start. *)
Theorem close_returns_all X w0 w
    (H0 : at_rest X w0) (Hr : reachable w0 w) (Hh : ndev_hmb (w_dev w) = None) :
  wp (dnvme_release (ndev_instance (w_dev w)))
    (λ r w', r = 0 ∧ at_rest X w' ∧ ndev_opened (w_dev w') = false) w.
Proof.
  eapply wp_mono; [by apply (wp_release X); [eapply reachable_inv|]|].
  intros r w' (Hw' & [(_ & ? & _)|(-> & _ & Hi & Hd)]); [done|].
  assert (at_rest X w') as Hrest; [|split_and!; [done|done|by rewrite Hd]].
  pose proof (cleaned_rest ((w_dev w) <| ndev_opened := false |>)) as Hrest.
  destruct Hrest as (Hs & Hc & Hm & Hb & Hq & Hz); [done|].
  rewrite <- Hd in Hs, Hc, Hm, Hb, Hq, Hz.
  split; try done. pose proof (i_holds _ _ Hw') as Hh'. by rewrite rest_items in Hh'.
Qed.
End serve.

(** *** Witnesses: a short life of the device: pin interrupts, an admin completion queue
    bound to them, an interrupt with its bottom half, a write of the controller to the
    queue. *)

Definition life_start : world := demo_world.
Lemma life_start_rest : at_rest [] life_start.
Proof. split; try done. by apply holdsb_ok. Qed.

Definition FUEL : nat := Z.to_nat WAIT_ROUNDS.
Definition life_ops : list op := [
  Op_open 0;
  Op_ioctl FUEL 0 (IOCTL_SET_IRQ demo_pin);
  Op_ioctl FUEL 0 (IOCTL_CREATE_ADMIN_QUEUE {| aq_type := NVME_ADMIN_CQ; aq_elements := 2 |});
  Op_interrupt 11;
  Op_work;
  Op_device 6 (replicate 32 1)].

Fixpoint play (l : list op) (w : world) : option world :=
  match l with
  | [] => Some w
  | o :: l => match @run_op slow_env o w with Val _ w' => play l w' | _ => None end
  end.
Definition life_mid : world := default life_start (play life_ops life_start).

(** [o] can happen along the play. *)
Fixpoint playable (l : list op) (w : world) : Prop :=
  match l with
  | [] => True
  | o :: l => @can slow_env w o ∧
    match @run_op slow_env o w with Val _ w' => playable l w' | _ => False end
  end.
Lemma play_reachable w0 l : ∀ w,
  @reachable slow_env w0 w → playable l w → ∃ w', play l w = Some w' ∧ @reachable slow_env w0 w'.
Proof.
  induction l as [|o l IH]; intros w Hw Hl; [by exists w|]. cbn in Hl |- *. destruct Hl as [Hc Hl].
  destruct (run_op o w) as [[] w'| |] eqn:Hr; [|done|done]. apply IH; [|done].
  by eapply reach_step.
Qed.

Lemma fuel_enough : WAIT_ROUNDS ≤ Z.of_nat FUEL.
Proof. unfold FUEL, WAIT_ROUNDS. lia. Qed.

Lemma playable_step o l w w' :
  @can slow_env w o → @run_op slow_env o w = Val tt w' → playable l w' → playable (o :: l) w.
Proof. intros Hc Hr Hl. cbn. by rewrite Hr. Qed.

Lemma life_playable : playable life_ops life_start.
Proof.
  unfold life_ops.
  eapply playable_step; [done|vm_compute; reflexivity|].
  eapply playable_step; [split; [apply fuel_enough|done]|vm_compute; reflexivity|].
  eapply playable_step; [split; [apply fuel_enough|done]|vm_compute; reflexivity|].
  eapply playable_step; [by apply list_elem_of_here|vm_compute; reflexivity|].
  eapply playable_step; [done|vm_compute; reflexivity|].
  eapply playable_step; [|vm_compute; reflexivity|done].
  eexists. split; [vm_compute; reflexivity|]. split; [by left|done].
Qed.
Lemma life_mid_reachable : @reachable slow_env life_start life_mid.
Proof.
  destruct (play_reachable life_start life_ops life_start) as (w' & Hp & Hw');
    [constructor|apply life_playable|]. unfold life_mid. by rewrite Hp.
Qed.

Lemma close_returns_all_witness :
  wp (@dnvme_release slow_env 0)
    (λ r w', r = 0 ∧ at_rest [] w' ∧ ndev_opened (w_dev w') = false) life_mid.
Proof.
  refine (@close_returns_all slow_env slow_clock [] life_start life_mid life_start_rest life_mid_reachable _).
  by vm_compute.
Defined.
