(* ===== verification/Netlink.v ===== *)
(** * Reaping over netlink

    [modules/dnvme/netlink.c]: a process asks for a number of completions and a time it
    is willing to wait; the driver polls the queue once a millisecond, copies out what
    there is, and answers with a message.

    The kernel parses the message: [gnl_attrs] has the values of the attributes that were
    there.  What happens during [msleep] is a parameter: the device writes completions,
    interrupts run. *)

From S2P Require Import Prelude Types Kernel Io Own Prp Paged PrpSpec Ring Irq Queue Cmd Meta Ioctl Core Inv Demo QueueSpec IrqSpec Trace QueueOps CmdSpec Submit Complete CqFifo Reap Life.

Record gnl_attrs := {
  ga_devno : option Z; ga_timeout : option Z; ga_cqid : option Z; ga_num : option Z;
  ga_buf_ptr : option Z; ga_buf_size : option Z }.

Definition S32_MAX := 2 ^ 31 - 1.

Section netlink.
Context {E : Env} (msleep : M unit).

(** [do { ... timeout--; } while (timeout > 0)]: at least one round. *)
Fixpoint gnl_wait (timeout : nat) (cqid expect : Z) : M Z :=
  actual ← dnvme_get_cqe_remain cqid;
  if expect <=? actual then mret actual
  else
    msleep;;
    match timeout with
    | S (S _ as timeout) => gnl_wait timeout cqid expect
    | _ => mret actual
    end.

(** [status] and [actual], which is [None] as long as the code has not set it. *)
Definition gnl_reap (instance cqid expect buf_ptr buf_size timeout : Z) : M (Z * option Z) :=
  ok ← dnvme_lock_device instance;
  if negb ok then mret (- ENODEV, None)
  else
    d ← get_dev;
    match dnvme_find_cq d cqid with
    | None => mret (- ENOENT, None)
    | Some _ =>
      actual ← gnl_wait (Z.to_nat timeout) cqid expect;
      status ← (if expect <=? actual
                then dnvme_reap_cqe cqid expect (negb (buf_ptr =? 0)) buf_size
                else if 0 <? actual
                then dnvme_reap_cqe cqid actual (negb (buf_ptr =? 0)) buf_size
                else mret (- ETIMEDOUT));
      mret (if 0 <=? status then (0, Some status) else (status, Some actual))
    end.

(** The answer: a message with the status and the number. *)
Definition gnl_reply (status : Z) (actual : option Z) : M Z :=
  msg ← ext E_genlmsg_new;
  if msg =? 0 then mret (- ENOMEM)
  else
    hdr ← ext E_genlmsg_put;
    if hdr =? 0 then mret (- EMSGSIZE)
    else ret ← ext (E_genl_unicast status actual); mret (s32 ret).

Definition dnvme_gnl_cmd_reap_cqe (a : gnl_attrs) : M Z :=
  match ga_devno a, ga_cqid a, ga_num a, ga_buf_ptr a, ga_buf_size a with
  | Some instance, Some cqid, Some expect, Some buf_ptr, Some buf_size =>
    let timeout := match ga_timeout a with
                   | None => 0
                   | Some t => if t <? 0 then S32_MAX else t
                   end in
    '(status, actual) ← gnl_reap instance cqid expect buf_ptr buf_size timeout;
    gnl_reply status actual
  | _, _, _, _, _ => gnl_reply (- EINVAL) None
  end.
End netlink.

(** ** The copies *)

Section spec.
Context {E : Env} (X : list item) (id : Z).

(** The completions do not delete the queue itself, and its vector has a bit. *)
Definition honest (w : world) : Prop :=
  ∀ q, ndev_cqs (w_dev w) !! id = Some q →
    let p := cq_pub q in let data := cq_bytes w q in
    keeps_cq id data (cqp_elements p) (cqp_head_ptr p) (cq_news q data) ∧
    (is_irq_type (ndev_irq_set (w_dev w)) ≠ NVME_INT_MSIX → cqp_irq_no p < 32).

(** The entries [es] are gone from the front of the queue [q], of which [data] is the
    memory. *)
Definition delivered (q : nvme_cq) (data : list Z) (es : list (list Z)) (w' : world) : Prop :=
  ∃ q', ndev_cqs (w_dev w') !! id = Some q' ∧ cq_bytes w' q' = data ∧
    cq_fifo q data = es ++ cq_fifo q' data.

(** The addresses of the queues. *)
Definition bases (d : nvme_device) : gmap Z Z := cq_base <$> ndev_cqs d.
Lemma retail_bases d d' : retail d d' → bases d' = bases d.
Proof.
  intros Hr. apply map_eq. intros i. unfold bases. rewrite !lookup_fmap.
  destruct (ndev_cqs d !! i) as [q|] eqn:Hq.
  - destruct (retail_lookup _ _ _ _ Hr Hq) as (q' & -> & Hn). cbn. f_equal. by apply notail_eq.
  - by rewrite (retail_none _ _ _ Hr Hq).
Qed.
Lemma flag_reset_bases w no r d d' : flag_reset w no r d d' → bases d' = bases d.
Proof.
  intros (d1 & Hr & Hf). rewrite <-(retail_bases _ _ Hr).
  destruct (find_irq_node_by_id _ _);
    [destruct Hf as [(_ & _ & ->)|(_ & _ & ->)]|destruct Hf as [_ ->]]; reflexivity.
Qed.
Lemma move_head_bases es d : bases (move_head id es d) = bases d.
Proof.
  unfold move_head, bases. case_decide; [done|]. apply map_eq. intros i. cbn. rewrite !lookup_fmap.
  destruct (decide (i = id)) as [->|]; [rewrite lookup_alter_eq|by rewrite lookup_alter_ne].
  by destruct (ndev_cqs d !! id).
Qed.

Lemma completed_irq sqid hd cid st d r d' :
  completed sqid hd cid st d r d' → is_irq_type (ndev_irq_set d') = is_irq_type (ndev_irq_set d).
Proof.
  unfold completed, retired, set_head. destruct (ndev_sqs d !! sqid) as [q|]; [|by intros [_ ->]].
  destruct (dnvme_find_cmd q cid) as [c|]; [|by intros [_ ->]].
  intros (_ & d1 & Hd1 & ->). change (is_irq_type (ndev_irq_set d1) = is_irq_type (ndev_irq_set d)).
  destruct (_ && _); [|by subst d1]. destruct (retires _ _) as [[]|]; try by subst d1.
  destruct Hd1 as (s & -> & Hs). exact Hs.
Qed.
Lemma reaps_irq data e head n i d es r d' :
  reaps data e head n i d es r d' → is_irq_type (ndev_irq_set d') = is_irq_type (ndev_irq_set d).
Proof.
  induction 1 as [|? ? ? ? ? ? ? ? ? _ Hc|? ? ? ? ? ? ? ? ? _ Hc _|? ? ? ? ? ? ? ? ? ? ? _ Hc _ IH]; [done|..];
    apply completed_irq in Hc; congruence.
Qed.

(** The head over the entries with the user, a last look at the queue, and the interrupt. *)
Lemma wp_reap_finish q data (es : list (list Z)) (t : bool) w :
  inv X w → ndev_cqs (w_dev w) !! id = Some q → cqs_usable (w_dev w) → cq_ok q data →
  Z.of_nat (length es) ≤ cq_news q data →
  (is_irq_type (ndev_irq_set (w_dev w)) ≠ NVME_INT_MSIX → cqp_irq_no (cq_pub q) < 32) →
  wp ((if Z.of_nat (length es) =? 0 then mret tt else update_cq_head id (Z.of_nat (length es)));;
      remain ← dnvme_get_cqe_remain id;
      cq ← get_cq id;
      (if t && (cqp_irq_enabled (cq_pub cq) =? 1) && (remain =? 0)
       then dnvme_reset_isr_flag (cqp_irq_no (cq_pub cq));;
            dnvme_unmask_interrupt (cqp_irq_no (cq_pub cq));; mret tt
       else mret tt);;
      mret (Z.of_nat (length es)))
    (λ r w', scanned X w w' ∧ r = Z.of_nat (length es) ∧ bases (w_dev w') = bases (w_dev w) ∧
      leaves id data (drop (length es) (cq_fifo q data)) (w_dev w')) w.
Proof.
  intros Hw Hq Hu Hok Hk Hirq. pose proof (cq_news_bounds _ _ Hok) as Hb.
  apply wp_bind. eapply (wp_move_head X id q); [done|done|lia|]. intros w1 Hs1 Hd1 _.
  pose proof (move_head_leaves id data q es (w_dev w) Hq Hok Hk) as Hl1. rewrite <-Hd1 in Hl1.
  assert (∃ q1, ndev_cqs (w_dev w1) !! id = Some q1 ∧ cqp_irq_no (cq_pub q1) = cqp_irq_no (cq_pub q)) as (q1 & Hq1 & Hn1).
  { rewrite Hd1. unfold move_head. case_decide; [by exists q|]. cbn. rewrite lookup_alter_eq, Hq. by eexists. }
  assert (cqs_usable (w_dev w1)) as Hu1 by (rewrite Hd1; by apply move_head_usable).
  assert (is_irq_type (ndev_irq_set (w_dev w1)) = is_irq_type (ndev_irq_set (w_dev w))) as Ht1.
  { rewrite Hd1. unfold move_head. by case_decide. }
  apply wp_bind. eapply (wp_remain X id q1); [apply Hs1|done|by eapply Hu1|]. intros w2 Hs2 Hd2.
  pose proof (scanned_trans _ _ _ _ Hs1 Hs2) as Hs12.
  assert (retail (w_dev w1) (w_dev w2)) as Hr2 by (rewrite Hd2; apply retail_tail).
  destruct (retail_lookup _ _ _ _ Hr2 Hq1) as (q2 & Hq2 & Hn2).
  assert (cqp_irq_no (cq_pub q2) = cqp_irq_no (cq_pub q)) as Hno.
  { rewrite <-Hn1. exact (f_equal (λ x, cqp_irq_no (cq_pub x)) Hn2). }
  pose proof (retail_leaves _ _ _ _ _ Hr2 Hl1) as Hl2.
  assert (bases (w_dev w2) = bases (w_dev w)) as Hb2.
  { by rewrite (retail_bases _ _ Hr2), Hd1, move_head_bases. }
  assert (is_irq_type (ndev_irq_set (w_dev w2)) = is_irq_type (ndev_irq_set (w_dev w))) as Ht2.
  { rewrite <-Ht1. destruct Hr2 as (m & -> & _). done. }
  apply wp_bind. unfold get_cq. apply wp_bind, wp_gets. unfold dnvme_find_cq. rewrite Hq2. apply wp_ret.
  apply wp_bind. destruct (t && _ && _); [|apply wp_ret, wp_ret; by split_and!].
  apply wp_bind. eapply wp_mono; [apply (wp_reset_flag X); [apply Hs2|by eapply retail_usable]|].
  intros r w3 [Hs3 Hf]. destruct (flag_reset_same _ _ _ _ _ Hf) as (_ & Ht3 & _).
  apply wp_bind. eapply wp_mono.
  { apply (wp_unmask X _ w3); [apply Hs3|]. rewrite Ht3, Ht2, Hno. exact Hirq. }
  intros _ w4 (Hs4 & Hd4 & _). apply wp_ret, wp_ret. split_and!; [|done| |].
  - eapply scanned_trans; [exact Hs12|]. by eapply scanned_trans.
  - by rewrite Hd4, (flag_reset_bases _ _ _ _ _ Hf).
  - rewrite Hd4. by eapply flag_reset_leaves.
Qed.

Lemma wp_reap_cqe q n has_buf size w :
  inv X w → ndev_cqs (w_dev w) !! id = Some q → cqs_usable (w_dev w) → honest w →
  0 ≤ n ≤ cq_news q (cq_bytes w q) →
  wp (dnvme_reap_cqe id n has_buf size)
    (λ r w', inv X w' ∧ ∃ es, uploaded (w_hist w') = uploaded (w_hist w) ++ es ∧
      (r < 0 ∧ es = [] ∨
       r = Z.of_nat (length es) ∧ r ≤ n ∧ delivered q (cq_bytes w q) es w')) w.
Proof.
  intros Hw Hq Hu Hh Hn. set (data := cq_bytes w q) in *. destruct (Hh q Hq) as [Hk Hirq]. cbv zeta in Hk. fold data in Hk.
  destruct (cq_mem X id q w Hw Hq (Hu _ _ Hq)) as (_ & _ & Hok & _). fold data in Hok.
  pose proof (cq_news_bounds _ _ Hok) as Hb. assert (cqp_elements (cq_pub q) < 2 ^ 16) as He by apply Hok.
  assert (∀ r, r < 0 → inv X w ∧ ∃ es, uploaded (w_hist w) = uploaded (w_hist w) ++ es ∧
    (r < 0 ∧ es = [] ∨ r = Z.of_nat (length es) ∧ r ≤ n ∧ delivered q data es w)) as Hno.
  { intros r Hr. split; [done|]. exists []. rewrite app_nil_r. split; [done|by left]. }
  unfold dnvme_reap_cqe, get_irq_set, get_cq. apply wp_bind, wp_bind, wp_gets, wp_ret.
  apply wp_bind, wp_bind, wp_gets. unfold dnvme_find_cq. rewrite Hq. apply wp_ret.
  apply wp_if; intros _; [by apply wp_ret, Hno|]. apply wp_if; intros _; [by apply wp_ret, Hno|].
  apply wp_if; intros _; [by apply wp_ret, Hno|].
  apply wp_bind. eapply wp_mono; [apply (wp_copy_data X id q n w Hw Hq (Hu _ _ Hq)); [lia|]|].
  { fold data. destruct Hk as [->|Hk]; [by left|right]. intros i Hi. apply Hk. lia. }
  fold data. intros [ret actual] w1 (es & Hr1 & Hrun & Hact & Hle & Hup). cbn [fst snd] in *. cbv zeta.
  replace (u32 (n - actual)) with (Z.of_nat (length es)) by (rewrite u32_small; lia).
  destruct Hr1 as [Hw1 _ _ Hq1 Hsub Hb1].
  eapply wp_mono; [apply (wp_reap_finish q data es); [done|done|by eapply sub_usable|done|lia|]|].
  { rewrite (reaps_irq _ _ _ _ _ _ _ _ _ Hrun). exact Hirq. }
  intros r w2 ((Hw2 & _ & _ & Hh2 & Hu2 & _) & -> & Hbs & (q2 & Hq2 & Hf)). split; [done|]. exists es.
  rewrite Hu2. split; [done|]. right. split_and!; [done|done|]. exists q2. split_and!; [done| |].
  - pose proof (f_equal (lookup id) Hbs) as Hbase. unfold bases in Hbase.
    rewrite !lookup_fmap, Hq1, Hq2 in Hbase. injection Hbase as Hbase.
    unfold data. rewrite <-(Hb1 _ _ Hq1 (Hu _ _ Hq)). unfold cq_bytes. by rewrite Hbase, Hh2.
  - rewrite Hf. destruct (reaps_prefix q data (Z.to_nat n) (w_dev w) es ret (w_dev w1) Hok Hrun) as [l Hl]; [lia|].
    rewrite Hl. by rewrite drop_app_length.
Qed.

(** ** The wait *)

(** The queue [q] is there and its completions are honest. *)
Record ready (w : world) (q : nvme_cq) : Prop := {
  rd_inv : inv X w;
  rd_cq : ndev_cqs (w_dev w) !! id = Some q;
  rd_usable : cqs_usable (w_dev w);
  rd_honest : honest w }.

(** What another context may do during [msleep(1)]: the device appends completions to
    the queue, nobody reaps it or deletes it. *)
Definition patient (msleep : M unit) : Prop :=
  ∀ w q, ready w q →
    wp msleep (λ _ w', ready w' q ∧ uploaded (w_hist w') = uploaded (w_hist w) ∧
      cq_news q (cq_bytes w q) ≤ cq_news q (cq_bytes w' q)) w.

Lemma retail_ready w w' q :
  scanned X w w' → retail (w_dev w) (w_dev w') → ready w q →
  ∃ q', ready w' q' ∧ cq_notail q' = cq_notail q ∧ cq_bytes w' q' = cq_bytes w q.
Proof.
  intros (Hw' & _ & _ & Hh & _) Hr [_ Hq Hu Ho].
  destruct (retail_lookup _ _ _ _ Hr Hq) as (q' & Hq' & Hn). exists q'.
  destruct (notail_eq _ _ Hn) as (Hb & _ & Hnews).
  assert (cq_bytes w' q' = cq_bytes w q) as Hd by (unfold cq_bytes; by rewrite Hb, Hh).
  split; [|done]. split; [done|done|by eapply retail_usable|].
  intros q1 Hq1. rewrite Hq' in Hq1. injection Hq1 as <-. cbv zeta. rewrite Hd, Hnews.
  pose proof (f_equal (λ x, cqp_elements (cq_pub x)) Hn) as He. cbn in He.
  pose proof (f_equal (λ x, cqp_head_ptr (cq_pub x)) Hn) as Hp. cbn in Hp.
  pose proof (f_equal (λ x, cqp_irq_no (cq_pub x)) Hn) as Hi. cbn in Hi.
  rewrite He, Hp, Hi. destruct Hr as (m & -> & _). by apply Ho.
Qed.

(** The number the loop ends with is there when the copies start; when it was there from
    the start, no time passes. *)
Definition waited (expect : Z) (w : world) (q : nvme_cq) (actual : Z) (w' : world) : Prop :=
  ∃ q', ready w' q' ∧ cq_notail q' = cq_notail q ∧ uploaded (w_hist w') = uploaded (w_hist w) ∧
    0 ≤ actual ≤ cq_news q' (cq_bytes w' q') ∧
    (expect ≤ cq_news q (cq_bytes w q) → expect ≤ actual ∧ cq_bytes w' q' = cq_bytes w q).

Lemma wp_wait msleep expect : patient msleep → ∀ timeout w q, ready w q →
  wp (gnl_wait msleep timeout id expect) (waited expect w q) w.
Proof.
  intros Hp timeout. induction timeout as [|timeout IH]; intros w q Hr; cbn [gnl_wait].
  all: apply wp_bind, (wp_remain X id q);
    [apply Hr|apply Hr|by eapply (rd_usable _ _ Hr), (rd_cq _ _ Hr)|].
  all: intros w1 Hs1 Hd1; assert (retail (w_dev w) (w_dev w1)) as Ht by (rewrite Hd1; apply retail_tail).
  all: destruct (retail_ready _ _ _ Hs1 Ht Hr) as (q1 & Hr1 & Hn1 & Hb1).
  all: destruct (notail_eq _ _ Hn1) as (_ & _ & Hnews).
  all: assert (uploaded (w_hist w1) = uploaded (w_hist w)) as Hu1 by apply Hs1.
  all: destruct (cq_mem X id q w (rd_inv _ _ Hr) (rd_cq _ _ Hr)
    (rd_usable _ _ Hr _ _ (rd_cq _ _ Hr))) as (_ & _ & Hok & _); pose proof (cq_news_bounds _ _ Hok) as Hb.
  all: destruct (Z.leb_spec expect (cq_news q (cq_bytes w q))) as [Hle|Hlt];
    [apply wp_ret; exists q1; rewrite Hb1, Hnews; split_and!; [done..|lia|lia|done]|].
  all: apply wp_bind; eapply wp_mono; [by apply Hp|]; intros _ w2 (Hr2 & Hu2 & Hm).
  all: rewrite Hb1, Hnews in Hm.
  all: assert (waited expect w q (cq_news q (cq_bytes w q)) w2) as Hdone
    by (exists q1; split_and!; [done|done|congruence|lia|lia|lia]).
  { by apply wp_ret. }
  destruct timeout; [by apply wp_ret|]. eapply wp_mono; [by apply (IH w2 q1)|].
  intros a w3 (q3 & Hr3 & Hn3 & Hu3 & Ha & _). exists q3. split_and!; [done|congruence|congruence|lia|lia|lia].
Qed.

(** ** The answer *)

(** What the caller has when the message says [status] and [num]. *)
Definition gnl_outcome (expect status : Z) (num : option Z) (w w' : world) : Prop :=
  ∃ es, uploaded (w_hist w') = uploaded (w_hist w) ++ es ∧
    (status < 0 ∧ es = [] ∨
     status = 0 ∧ num = Some (Z.of_nat (length es)) ∧ Z.of_nat (length es) ≤ expect ∧
     ∃ q data, ndev_cqs (w_dev w) !! id = Some q ∧ delivered q data es w' ∧
       (expect ≤ cq_news q (cq_bytes w q) → data = cq_bytes w q)).

Lemma outcome_early expect status num w : status < 0 → gnl_outcome expect status num w w.
Proof. intros Hs. exists []. rewrite app_nil_r. auto. Qed.

Lemma wp_gnl_reap msleep instance expect buf_ptr buf_size timeout w :
  patient msleep → inv X w → 0 ≤ expect →
  (∀ q, ndev_cqs (w_dev w) !! id = Some q → ready w q) →
  wp (gnl_reap msleep instance id expect buf_ptr buf_size timeout)
    (λ sa w', inv X w' ∧ gnl_outcome expect sa.1 sa.2 w w') w.
Proof.
  intros Hp Hw He Hr. unfold gnl_reap, dnvme_lock_device, get_dev.
  apply wp_bind, wp_bind, wp_gets, wp_ret.
  apply wp_if; intros _; [apply wp_ret; split; [done|by apply outcome_early]|].
  apply wp_bind, wp_gets. unfold dnvme_find_cq.
  destruct (ndev_cqs (w_dev w) !! id) as [q|] eqn:Hq; [|apply wp_ret; split; [done|by apply outcome_early]].
  apply wp_bind. eapply wp_mono; [apply wp_wait; auto|].
  intros a w1 (q1 & [Hw1 Hq1 Hu1 Ho1] & Hn1 & Hup & Ha & Hf). apply wp_bind.
  assert (∀ n, 0 ≤ n ≤ a → n ≤ expect → wp (dnvme_reap_cqe id n (negb (buf_ptr =? 0)) buf_size)
    (λ s, wp (mret (if 0 <=? s then (0, Some s) else (s, Some a)))
      (λ sa w', inv X w' ∧ gnl_outcome expect sa.1 sa.2 w w')) w1) as Hreap.
  { intros n Hn Hne. eapply wp_mono; [apply (wp_reap_cqe q1); [done..|lia]|].
    intros s w2 (Hw2 & es & Hes & Hs). apply wp_ret. split; [done|].
    exists es. rewrite Hes, Hup. split; [done|].
    destruct Hs as [[Hs ->]|(-> & Hle & Hd)]; [left|right]; case_match; cbn [fst snd]; try (split; [done || lia|done]); try lia.
    split_and!; [done..|lia|]. exists q, (cq_bytes w1 q1).
    split; [done|]. split; [|by intros [_ ?]%Hf]. destruct Hd as (q2 & Hq2 & Hb2 & Hd).
    exists q2. split_and!; [done..|]. by rewrite <-(fifo_notail _ _ _ Hn1). }
  destruct (Z.leb_spec expect a); [by apply Hreap; lia|].
  destruct (Z.ltb_spec 0 a); [by apply Hreap; lia|].
  apply wp_ret, wp_ret. split; [done|]. exists []. rewrite app_nil_r. split; [done|]. by left.
Qed.

(** The message, or the reason that there is none. *)
Definition replied (status : Z) (num : option Z) (r : Z) (w w' : world) : Prop :=
  w_dev w' = w_dev w ∧ uploaded (w_hist w') = uploaded (w_hist w) ∧
  (r = - ENOMEM ∨ r = - EMSGSIZE ∨ ∃ h, w_hist w' = E_genl_unicast status num :: h).
Lemma wp_reply status num w :
  inv X w → wp (gnl_reply status num) (λ r w', inv X w' ∧ replied status num r w w') w.
Proof.
  intros Hw. unfold gnl_reply, replied. apply wp_bind, wp_ext. apply wp_if; intros _.
  { apply wp_ret. split; [by apply inv_hist|]. cbn. rewrite app_nil_r. auto. }
  apply wp_bind, wp_ext. apply wp_if; intros _.
  { apply wp_ret. split; [by do 2 apply inv_hist|]. cbn. rewrite !app_nil_r. auto. }
  apply wp_bind, wp_ext, wp_ret. split; [by do 3 apply inv_hist|]. cbn. rewrite !app_nil_r. eauto 10.
Qed.

End spec.

(** One completion in queue [1], asked for with a second to wait. *)
Definition demo_attrs : gnl_attrs := {|
  ga_devno := Some 0; ga_timeout := Some 1000; ga_cqid := Some 1; ga_num := Some 1;
  ga_buf_ptr := Some 4096; ga_buf_size := Some 16 |}.

