(* ===== verification/Probe.v ===== *)
(** * Probe and removal

    [dnvme_probe] and [dnvme_remove] of [modules/dnvme/core.c] with what they call: DMA
    pools, the character device, the BARs, the PCI function, capabilities ([pci.c]), the
    controller memory buffer ([cmb.c]) and the persistent memory region ([pmr.c]).

    Memory that is allocated here is on the heap of the model; whatever else the kernel
    hands out is recorded in [ndev_res] when it is given ([acquire]), and giving back what
    is not held is a fault ([release_res]).  The structure of the device is [w_dev]; its
    address, which only [kfree] needs, is passed around.  Messages are left out, and the
    proc entry, which only prints. *)

From S2P Require Import Prelude Types Kernel Io Own Prp Ring Irq Queue Meta Ioctl.

Definition PCI_BAR_MAX_NUM := 6.
Definition PCI_CFG_SPACE_SIZE := 256.
Definition PCI_MSIX_FLAGS := 2.
Definition PCI_MSIX_TABLE := 4.
Definition PCI_MSIX_PBA := 8.
Definition PCI_PM_PMC := 2.
Definition PCI_PM_CTRL := 4.
Definition PCI_EXP_FLAGS := 2.
Definition PCI_EXP_DEVCAP := 4.
Definition SIZEOF_nvme_device := 4096.
Definition SIZEOF_nvme_cmb := 48.
Definition SIZEOF_nvme_pmr := 40.

Definition NVME_CMBLOC_BIR (cmbloc : Z) := Z.land cmbloc 0x7.
Definition NVME_CMBLOC_OFST (cmbloc : Z) := Z.land (Z.shiftr cmbloc 12) 0xfffff.
Definition NVME_CMBSZ_SZU (cmbsz : Z) := Z.land (Z.shiftr cmbsz 8) 0xf.
Definition NVME_CMBSZ_SZ (cmbsz : Z) := Z.land (Z.shiftr cmbsz 12) 0xfffff.
Definition NVME_CMBMSC_CRE := BIT 0.
Definition NVME_CMBMSC_CMSE := BIT 1.
Definition NVME_CMBSZ_RDS := BIT 3.
Definition NVME_CMBSZ_WDS := BIT 4.

Definition NVME_PMRCAP_BIR (cap : Z) := Z.land (Z.shiftr cap 5) 0x7.
Definition NVME_PMRCAP_PMRTU (cap : Z) := Z.land (Z.shiftr cap 8) 0x3.
Definition NVME_PMRCAP_PMRTO (cap : Z) := Z.land (Z.shiftr cap 16) 0xff.
Definition NVME_PMRCAP_CMSS := BIT 24.
Definition NVME_PMRCTL_EN := BIT 0.
Definition NVME_PMRSTS_NRDY := BIT 8.
Definition NVME_PMRSTS_CBAI := BIT 12.
Definition NVME_PMRMSCL_CMSE := BIT 1.
Definition NVME_PMRMSCL_RSVD := 0xffd.

(** Take one [r] out of a list. *)
Fixpoint remove_res (r : probe_res) (l : list probe_res) : option (list probe_res) :=
  match l with
  | [] => None
  | x :: l => if decide (x = r) then Some l else cons x <$> remove_res r l
  end.

(** [x & mask] as a condition. *)
Definition bit_set (x mask : Z) : bool := negb (Z.land x mask =? 0).

Section probe.
Context {E : Env}.

Definition call (c : probe_call) : M Z := ext (E_probe c).
Definition tell (c : probe_call) : M unit := emit (E_probe c).
Definition acquire (r : probe_res) : M unit := upd_dev (λ d, d <| ndev_res ::= cons r |>).
Definition release_res (r : probe_res) : M unit :=
  d ← get_dev;
  match remove_res r (ndev_res d) with
  | Some l => upd_dev (λ d, d <| ndev_res := l |>)
  | None => oops F_bad_free
  end.

(** ** BARs *)

Definition bar_of (d : nvme_device) (idx : Z) : Z :=
  if idx =? 0 then ndev_bar0 d else default 0 (ndev_bars d !! idx).
Definition set_bar (idx p : Z) (d : nvme_device) : nvme_device :=
  if idx =? 0 then d <| ndev_bar0 := p |> else d <| ndev_bars ::= <[idx := p]> |>.

Definition dnvme_map_bar (idx : Z) : M Z :=
  d ← get_dev;
  if negb (bar_of d idx =? 0) then mret 0
  else
    r ← call (PC_request_region idx);
    let ret := s32 r in
    if ret <? 0 then mret ret
    else
      acquire (R_region idx);;
      p ← call (PC_ioremap idx);
      let p := u64 p in
      upd_dev (set_bar idx p);;
      if p =? 0
      then tell (PC_release_region idx);; release_res (R_region idx);; mret (- ENOMEM)
      else acquire (R_iomap p);; mret 0.

Definition dnvme_unmap_bar (idx : Z) : M unit :=
  d ← get_dev;
  let p := bar_of d idx in
  if p =? 0 then mret tt
  else
    tell (PC_iounmap p);; release_res (R_iomap p);;
    upd_dev (set_bar idx 0);;
    tell (PC_release_region idx);; release_res (R_region idx).

(** BARs [idx ..] up to [idx + n - 1]; on an error, the index where it happened. *)
Fixpoint map_bars (n : nat) (idx bars : Z) : M (Z * Z) :=
  match n with
  | O => mret (0, idx)
  | S n =>
    if bit_set bars (BIT idx)
    then ret ← dnvme_map_bar idx;
         if ret <? 0 then mret (ret, idx) else map_bars n (idx + 1) bars
    else map_bars n (idx + 1) bars
  end.

Definition dnvme_map_resource : M Z :=
  bars ← call PC_select_bars;
  if negb (bit_set bars (BIT 0)) then mret (- ENODEV)
  else
    '(ret, idx) ← map_bars (Z.to_nat PCI_BAR_MAX_NUM) 0 bars;
    if ret <? 0
    then mapM_ dnvme_unmap_bar (reverse (seqZ 0 idx));; mret ret
    else upd_dev (λ d, d <| ndev_dbs := ndev_bar0 d + NVME_REG_DBS |>);; mret 0.

Definition dnvme_unmap_resource : M unit :=
  mapM_ dnvme_unmap_bar (seqZ 0 PCI_BAR_MAX_NUM);;
  upd_dev (λ d, d <| ndev_dbs := 0 |>).

(** ** The structure and the character device *)

Definition dnvme_init_irq : M Z :=
  upd_dev (λ d, d <| ndev_irq_set ::= λ s, s <| is_irq_type := NVME_INT_NONE |> <| is_nr_irq := 0 |> |>);;
  mret 0.

Definition pool_create (which : Z) : M Z :=
  p ← call (PC_pool_create which);
  let p := u64 p in
  if p =? 0 then mret 0 else acquire (R_pool p);; mret p.
(** [dma_pool_destroy] ignores [NULL]. *)
Definition pool_destroy (p : Z) : M unit :=
  if p =? 0 then mret tt else tell (PC_pool_destroy p);; release_res (R_pool p).

Definition dnvme_create_pool : M Z :=
  p ← pool_create 0;
  if p =? 0 then mret (- ENOMEM)
  else
    upd_dev (λ d, d <| ndev_cmd_pool := p |>);;
    let out_destroy_cmd_pool : M Z :=
      d ← get_dev; pool_destroy (ndev_cmd_pool d);;
      upd_dev (λ d, d <| ndev_cmd_pool := 0 |>);; mret (- ENOMEM) in
    p ← pool_create 1;
    if p =? 0 then out_destroy_cmd_pool
    else
      upd_dev (λ d, d <| ndev_queue_pool := p |>);;
      p ← pool_create 2;
      if p =? 0
      then d ← get_dev; pool_destroy (ndev_queue_pool d);;
           upd_dev (λ d, d <| ndev_queue_pool := 0 |>);; out_destroy_cmd_pool
      else upd_dev (λ d, d <| ndev_meta_pool := p |>);; mret 0.

Definition dnvme_destroy_pool : M unit :=
  d ← get_dev;
  pool_destroy (ndev_meta_pool d);; upd_dev (λ d, d <| ndev_meta_pool := 0 |>);;
  pool_destroy (ndev_queue_pool d);; upd_dev (λ d, d <| ndev_queue_pool := 0 |>);;
  pool_destroy (ndev_cmd_pool d);; upd_dev (λ d, d <| ndev_cmd_pool := 0 |>).

(** The structure after [kzalloc], with [ndev->pdev] set.  The enumeration value 0 is
    [NVME_INT_MSI_SINGLE]. *)
Definition zero_irq_set : nvme_irq_set := {|
  is_irq_list := []; is_msix_irqs := 0; is_msix_tb := 0; is_msix_pba := 0;
  is_irq_type := NVME_INT_MSI_SINGLE; is_nr_irq := 0; is_wq := 0; is_wq_pending := [];
  is_work_list := [] |}.
Definition zero_dev (pdev : pci_dev) : nvme_device := {|
  ndev_pdev := pdev; ndev_sqs := ∅; ndev_cqs := ∅; ndev_meta := ∅;
  ndev_bar0 := 0; ndev_bars := ∅; ndev_dbs := 0;
  ndev_cmd_pool := 0; ndev_queue_pool := 0; ndev_meta_pool := 0;
  ndev_irq_set := zero_irq_set; ndev_cap := no_capability;
  ndev_hmb := None; ndev_cmb := None; ndev_pmr := None; ndev_res := [];
  ndev_reg_cap := 0; ndev_q_depth := 0; ndev_db_stride := 0;
  ndev_opened := false; ndev_instance := 0 |}.

Definition ida_simple_get : M Z :=
  r ← call PC_ida_get;
  let r := s32 r in
  if r <? 0 then mret r else acquire (R_instance r);; mret r.
Definition ida_simple_remove (i : Z) : M unit := tell (PC_ida_remove i);; release_res (R_instance i).

(** The address of the structure, [0] on failure.  The device list, the tables and the
    lists are initialised empty in [zero_dev]. *)
Definition dnvme_alloc_device (pdev : pci_dev) : M Z :=
  p ← kmalloc SIZEOF_nvme_device;
  if p =? 0 then mret 0
  else
    upd_dev (λ _, zero_dev pdev);;
    let out_free_ndev : M Z := kfree p;; mret 0 in
    let out_destroy_pool : M Z := dnvme_destroy_pool;; out_free_ndev in
    let out_release_instance : M Z :=
      d ← get_dev; ida_simple_remove (ndev_instance d);; out_destroy_pool in
    let out_free_name : M Z := tell PC_free_name;; release_res R_name;; out_release_instance in
    ret ← dnvme_create_pool;
    if ret <? 0 then out_free_ndev
    else
      ret ← ida_simple_get;
      if ret <? 0 then out_destroy_pool
      else
        upd_dev (λ d, d <| ndev_instance := ret |>);;
        ret ← call PC_set_name;
        if negb (s32 ret =? 0) then out_release_instance
        else
          acquire R_name;;
          ret ← call PC_cdev_add;
          if negb (s32 ret =? 0) then out_free_name
          else acquire R_cdev;; dnvme_init_irq;; mret p.

Definition dnvme_release_device (p : Z) : M unit :=
  tell PC_cdev_del;; release_res R_cdev;;
  tell PC_free_name;; release_res R_name;;
  d ← get_dev; ida_simple_remove (ndev_instance d);;
  dnvme_destroy_pool;;
  kfree p;; mret tt.

(** [old_kernel]: before 6.5 the mask is asked for first. *)
Definition dnvme_set_dma_mask (old_kernel : bool) : M Z :=
  ok ← (if old_kernel then r ← call PC_dma_supported; mret (negb (s32 r =? 0)) else mret true);
  if negb ok then mret (- EPERM)
  else
    r ← call PC_dma_mask;
    if s32 r <? 0 then mret (s32 r)
    else r ← call PC_dma_coherent_mask; mret (s32 r).

(** ** The PCI function *)

Definition dnvme_pci_enable : M Z :=
  d ← get_dev;
  let bar0 := ndev_bar0 d in
  tell PC_set_master;;
  r ← call PC_enable;
  if s32 r <? 0 then mret (s32 r)
  else
    acquire R_enabled;;
    cap ← dnvme_readq bar0 NVME_REG_CAP;
    upd_dev (λ d, d <| ndev_reg_cap := cap |>
                    <| ndev_q_depth := u32 (NVME_CAP_MQES cap + 1) |>
                    <| ndev_db_stride := u32 (Z.shiftl 1 (NVME_CAP_STRIDE cap)) |>);;
    mret 0.
(** [pci_is_enabled] holds while the function is enabled by this driver. *)
Definition dnvme_pci_disable : M unit :=
  d ← get_dev;
  if decide (R_enabled ∈ ndev_res d) then tell PC_disable;; release_res R_enabled else mret tt.

(** ** Capabilities *)

(** Reads that fail are reported only; the field has what the read left. *)
Definition pci_get_msi_cap (offset : Z) : M (option pci_cap_msi) :=
  if offset =? 0 then mret None
  else
    p ← kmalloc SIZEOF_pci_cap_msi;
    if p =? 0 then mret None
    else
      '(_, mc) ← pci_msi_read_mc offset;
      mret (Some {| msi_ptr := p; msi_offset := offset; msi_mc := mc |}).
Definition pci_get_msix_cap (offset : Z) : M (option pci_cap_msix) :=
  if offset =? 0 then mret None
  else
    p ← kmalloc SIZEOF_pci_cap_msix;
    if p =? 0 then mret None
    else
      '(_, mc) ← pci_read_config 2 (u32 (offset + PCI_MSIX_FLAGS));
      '(_, table) ← pci_read_config 4 (u32 (offset + PCI_MSIX_TABLE));
      '(_, pba) ← pci_read_config 4 (u32 (offset + PCI_MSIX_PBA));
      mret (Some {| msix_ptr := p; msix_offset := offset; msix_mc := mc;
                    msix_table := table; msix_pba := pba |}).
Definition pci_get_pm_cap (offset : Z) : M (option pci_cap_pm) :=
  if offset =? 0 then mret None
  else
    p ← kmalloc SIZEOF_pci_cap_pm;
    if p =? 0 then mret None
    else
      '(_, pmc) ← pci_read_config 2 (offset + PCI_PM_PMC);
      '(_, pmcsr) ← pci_read_config 2 (offset + PCI_PM_CTRL);
      mret (Some {| pm_ptr := p; pm_offset := offset; pm_pmc := pmc; pm_pmcsr := pmcsr |}).
Definition pci_get_express_cap (offset : Z) : M (option pci_cap_express) :=
  if offset =? 0 then mret None
  else
    p ← kmalloc SIZEOF_pci_cap_express;
    if p =? 0 then mret None
    else
      '(_, exp_cap) ← pci_read_config 2 (offset + PCI_EXP_FLAGS);
      '(_, dev_cap) ← pci_read_config 4 (offset + PCI_EXP_DEVCAP);
      mret (Some {| exp_ptr := p; exp_offset := offset; exp_exp_cap := exp_cap; exp_dev_cap := dev_cap |}).
Definition pci_ext_get_ltr_cap (offset : Z) : M (option pci_ext_cap_ltr) :=
  if offset <? PCI_CFG_SPACE_SIZE then mret None
  else
    p ← kmalloc SIZEOF_pci_ext_cap;
    if p =? 0 then mret None else mret (Some {| ltr_ptr := p; ltr_offset := offset |}).
Definition pci_ext_get_l1ss_cap (offset : Z) : M (option pci_ext_cap_l1ss) :=
  if offset <? PCI_CFG_SPACE_SIZE then mret None
  else
    p ← kmalloc SIZEOF_pci_ext_cap;
    if p =? 0 then mret None else mret (Some {| l1ss_ptr := p; l1ss_offset := offset |}).

Definition upd_cap (f : nvme_capability → nvme_capability) : M unit :=
  upd_dev (λ d, d <| ndev_cap ::= f |>).

Definition dnvme_init_capability : M Z :=
  o ← pci_find_capability PCI_CAP_ID_MSI; c ← pci_get_msi_cap o; upd_cap (λ x, x <| cap_msi := c |>);;
  o ← pci_find_capability PCI_CAP_ID_MSIX; c ← pci_get_msix_cap o; upd_cap (λ x, x <| cap_msix := c |>);;
  o ← pci_find_capability PCI_CAP_ID_PM; c ← pci_get_pm_cap o; upd_cap (λ x, x <| cap_pm := c |>);;
  o ← pci_find_capability PCI_CAP_ID_EXP; c ← pci_get_express_cap o;
  upd_cap (λ x, x <| cap_express := c |>);;
  o ← pci_find_ext_capability PCI_EXT_CAP_ID_LTR; c ← pci_ext_get_ltr_cap o;
  upd_cap (λ x, x <| cap_ltr := c |>);;
  o ← pci_find_ext_capability PCI_EXT_CAP_ID_L1SS; c ← pci_ext_get_l1ss_cap o;
  upd_cap (λ x, x <| cap_l1ss := c |>);;
  mret 0.

Definition free_cap {A} (ptr : A → Z) (o : option A) : M unit :=
  match o with Some c => kfree (ptr c) | None => mret tt end.
Definition dnvme_deinit_capability : M unit :=
  d ← get_dev;
  let cap := ndev_cap d in
  free_cap msi_ptr (cap_msi cap);; upd_cap (λ x, x <| cap_msi := None |>);;
  free_cap msix_ptr (cap_msix cap);; upd_cap (λ x, x <| cap_msix := None |>);;
  free_cap pm_ptr (cap_pm cap);; upd_cap (λ x, x <| cap_pm := None |>);;
  free_cap exp_ptr (cap_express cap);; upd_cap (λ x, x <| cap_express := None |>);;
  free_cap ltr_ptr (cap_ltr cap);; upd_cap (λ x, x <| cap_ltr := None |>);;
  free_cap l1ss_ptr (cap_l1ss cap);; upd_cap (λ x, x <| cap_l1ss := None |>);;
  mret tt.

(** ** Controller memory buffer *)

Definition dnvme_cmb_size_unit (cmbsz : Z) : Z := u64 (Z.shiftl 1 (12 + 4 * NVME_CMBSZ_SZU cmbsz)).
Definition dnvme_cmb_size (cmbsz : Z) : Z := NVME_CMBSZ_SZ cmbsz.

Definition dnvme_cmb_parse_capability (cmb : nvme_cmb) (cmbsz cmbloc : Z) : nvme_cmb :=
  let on (old : bool) (x b : Z) : bool := if bit_set x (BIT b) then true else old in
  cmb <| cmb_sqs ::= λ o, on o cmbsz 0 |> <| cmb_cqs ::= λ o, on o cmbsz 1 |>
      <| cmb_lists ::= λ o, on o cmbsz 2 |> <| cmb_rds ::= λ o, on o cmbsz 3 |>
      <| cmb_wds ::= λ o, on o cmbsz 4 |>
      <| cmb_cqmms ::= λ o, on o cmbloc 3 |> <| cmb_cqpds ::= λ o, on o cmbloc 4 |>
      <| cmb_cdpmls ::= λ o, on o cmbloc 5 |> <| cmb_cdpcils ::= λ o, on o cmbloc 6 |>
      <| cmb_cdmmms ::= λ o, on o cmbloc 7 |> <| cmb_cqda ::= λ o, on o cmbloc 8 |>.

Definition zero_cmb (p : Z) : nvme_cmb := {|
  cmb_ptr := p; cmb_bar := 0; cmb_res_addr := 0; cmb_bus_addr := 0; cmb_size := 0;
  cmb_offset := 0; cmb_sqs := false; cmb_cqs := false; cmb_lists := false; cmb_rds := false;
  cmb_wds := false; cmb_cqmms := false; cmb_cqpds := false; cmb_cdpmls := false;
  cmb_cdpcils := false; cmb_cdmmms := false; cmb_cqda := false |}.

Definition dnvme_cmb_setup (cmb : nvme_cmb) : M (Z * nvme_cmb) :=
  bar0 ← get_bar0;
  dnvme_writel bar0 NVME_REG_CMBMSC NVME_CMBMSC_CRE;;
  cmbsz ← dnvme_readl bar0 NVME_REG_CMBSZ;
  if cmbsz =? 0 then mret (- EOPNOTSUPP, cmb)
  else
    cmbloc ← dnvme_readl bar0 NVME_REG_CMBLOC;
    let cmb := dnvme_cmb_parse_capability cmb cmbsz cmbloc in
    let bar := NVME_CMBLOC_BIR cmbloc in
    let size := u64 (dnvme_cmb_size_unit cmbsz * dnvme_cmb_size cmbsz) in
    let offset := u64 (dnvme_cmb_size_unit cmbsz * NVME_CMBLOC_OFST cmbloc) in
    res ← call (PC_res_start bar);
    bus ← call (PC_bus_address bar);
    len ← call (PC_res_len bar);
    let bar_size := u64 len in
    let cmb := cmb <| cmb_bar := bar |> <| cmb_size := size |> <| cmb_offset := offset |>
                   <| cmb_res_addr := u64 res |> <| cmb_bus_addr := u64 bus |> in
    if bar_size <? offset then mret (- EPERM, cmb)
    else
      dnvme_writeq bar0 NVME_REG_CMBMSC
        (Z.lor (Z.lor NVME_CMBMSC_CRE NVME_CMBMSC_CMSE) (u64 (u64 bus + offset)));;
      let cmb := if u64 (bar_size - offset) <? size
                 then cmb <| cmb_size := u64 (bar_size - offset) |> else cmb in
      r ← call (PC_p2p_add bar (cmb_size cmb) offset);
      if s32 r <? 0 then mret (s32 r, cmb)
      else
        (if Z.land cmbsz (Z.lor NVME_CMBSZ_WDS NVME_CMBSZ_RDS) =? Z.lor NVME_CMBSZ_WDS NVME_CMBSZ_RDS
         then tell PC_p2p_publish else mret tt);;
        mret (0, cmb).

Definition dnvme_map_cmb : M Z :=
  d ← get_dev;
  match ndev_cmb d with
  | Some _ => mret 0
  | None =>
    if NVME_CAP_CMBS (ndev_reg_cap d) =? 0 then mret (- EOPNOTSUPP)
    else
      p ← kmalloc SIZEOF_nvme_cmb;
      if p =? 0 then mret (- ENOMEM)
      else
        '(ret, cmb) ← dnvme_cmb_setup (zero_cmb p);
        if ret <? 0 then kfree p;; mret ret
        else upd_dev (λ d, d <| ndev_cmb := Some cmb |>);; mret 0
  end.

Definition dnvme_unmap_cmb : M unit :=
  d ← get_dev;
  match ndev_cmb d with
  | None => mret tt
  | Some cmb => kfree (cmb_ptr cmb);; upd_dev (λ d, d <| ndev_cmb := None |>)
  end.

(** ** Persistent memory region *)

Definition dnvme_pmr_parse_capability (pmr : nvme_pmr) : M (Z * nvme_pmr) :=
  d ← get_dev;
  pmrcap ← dnvme_readl (ndev_bar0 d) NVME_REG_PMRCAP;
  let bir := NVME_PMRCAP_BIR pmrcap in
  let pmr := pmr <| pmr_bir := bir |> in
  if (bir <? 2) || (5 <? bir) then mret (- EPERM, pmr)
  else if bar_of d bir =? 0 then mret (- EPERM, pmr)
  else
    mret (0, pmr <| pmr_timeout := u32 (NVME_PMRCAP_PMRTO pmrcap *
                      (if NVME_PMRCAP_PMRTU pmrcap =? 0 then 500 else 60 * 1000)) |>
                 <| pmr_cmss := bit_set pmrcap NVME_PMRCAP_CMSS |>).

Definition dnvme_pmr_enable_cba (pmr : nvme_pmr) : M (Z * nvme_pmr) :=
  bar0 ← get_bar0;
  if negb (pmr_cmss pmr) then mret (0, pmr)
  else
    res ← call (PC_res_start (pmr_bir pmr));
    bus ← call (PC_bus_address (pmr_bir pmr));
    len ← call (PC_res_len (pmr_bir pmr));
    let bus := u64 bus in
    let pmr := pmr <| pmr_res_addr := u64 res |> <| pmr_bus_addr := bus |> <| pmr_size := u64 len |> in
    let pmrmscu := u32 (Z.shiftr bus 32) in
    let pmrmscl := Z.lor (u32 bus) NVME_PMRMSCL_CMSE in
    if bit_set pmrmscl NVME_PMRMSCL_RSVD then mret (- EPERM, pmr)
    else
      dnvme_writel bar0 NVME_REG_PMRMSCU pmrmscu;;
      dnvme_writel bar0 NVME_REG_PMRMSCL pmrmscl;;
      pmrsts ← dnvme_readl bar0 NVME_REG_PMRSTS;
      if bit_set pmrsts NVME_PMRSTS_CBAI then mret (- EPERM, pmr) else mret (0, pmr).

Definition dnvme_pmr_disable_cba (pmr : nvme_pmr) : M unit :=
  bar0 ← get_bar0;
  if negb (pmr_cmss pmr) then mret tt
  else
    pmrmscl ← dnvme_readl bar0 NVME_REG_PMRMSCL;
    dnvme_writel bar0 NVME_REG_PMRMSCL (Z.land pmrmscl (u32 (Z.lnot NVME_PMRMSCL_CMSE))).

(** The loop has no sleep in it. *)
Fixpoint pmr_loop (fuel : nat) (bar0 : Z) (enable : bool) (timeout : Z) : M Z :=
  match fuel with
  | O => hang
  | S fuel =>
    pmrsts ← dnvme_readl bar0 NVME_REG_PMRSTS;
    if (enable && negb (bit_set pmrsts NVME_PMRSTS_NRDY)) ||
       (negb enable && bit_set pmrsts NVME_PMRSTS_NRDY)
    then mret 0
    else
      j ← get_jiffies;
      if time_after j timeout then mret (- ETIME) else pmr_loop fuel bar0 enable timeout
  end.

(** [msecs_to_jiffies] rounds up. *)
Definition msecs_to_jiffies (ms : Z) : Z := (ms * cfg_hz + 999) / 1000.

Definition dnvme_config_pmr (fuel : nat) (pmr : nvme_pmr) (enable : bool) : M Z :=
  bar0 ← get_bar0;
  pmrctl ← dnvme_readl bar0 NVME_REG_PMRCTL;
  if enable && bit_set pmrctl NVME_PMRCTL_EN then mret 0
  else if negb enable && negb (bit_set pmrctl NVME_PMRCTL_EN) then mret 0
  else
    dnvme_writel bar0 NVME_REG_PMRCTL
      (if enable then Z.lor pmrctl NVME_PMRCTL_EN else Z.land pmrctl (u32 (Z.lnot NVME_PMRCTL_EN)));;
    j ← get_jiffies;
    pmr_loop fuel bar0 enable (u64 (j + msecs_to_jiffies (pmr_timeout pmr))).

Definition dnvme_enable_pmr (fuel : nat) (pmr : nvme_pmr) : M Z := dnvme_config_pmr fuel pmr true.
Definition dnvme_disable_pmr (fuel : nat) (pmr : nvme_pmr) : M unit :=
  dnvme_config_pmr fuel pmr false;; mret tt.

Definition zero_pmr (p : Z) : nvme_pmr := {|
  pmr_ptr := p; pmr_bir := 0; pmr_timeout := 0; pmr_res_addr := 0; pmr_bus_addr := 0;
  pmr_size := 0; pmr_cmss := false |}.

Definition dnvme_map_pmr (fuel : nat) : M Z :=
  d ← get_dev;
  match ndev_pmr d with
  | Some _ => mret 0
  | None =>
    if NVME_CAP_PMRS (ndev_reg_cap d) =? 0 then mret (- EOPNOTSUPP)
    else
      p ← kmalloc SIZEOF_nvme_pmr;
      if p =? 0 then mret (- ENOMEM)
      else
        let out_free_pmr (ret : Z) : M Z := kfree p;; mret ret in
        '(ret, pmr) ← dnvme_pmr_parse_capability (zero_pmr p);
        if ret <? 0 then out_free_pmr ret
        else
          '(ret, pmr) ← dnvme_pmr_enable_cba pmr;
          if ret <? 0 then out_free_pmr ret
          else
            ret ← dnvme_enable_pmr fuel pmr;
            if ret <? 0 then dnvme_pmr_disable_cba pmr;; out_free_pmr ret
            else upd_dev (λ d, d <| ndev_pmr := Some pmr |>);; mret 0
  end.

Definition dnvme_unmap_pmr (fuel : nat) : M unit :=
  d ← get_dev;
  match ndev_pmr d with
  | None => mret tt
  | Some pmr =>
    dnvme_disable_pmr fuel pmr;;
    dnvme_pmr_disable_cba pmr;;
    kfree (pmr_ptr pmr);;
    upd_dev (λ d, d <| ndev_pmr := None |>)
  end.

(** ** Probe and remove *)

(** The return value and the address of the structure. *)
Definition dnvme_probe (fuel : nat) (old_kernel : bool) (pdev : pci_dev) : M (Z * Z) :=
  ret ← dnvme_set_dma_mask old_kernel;
  if ret <? 0 then mret (ret, 0)
  else
    p ← dnvme_alloc_device pdev;
    if p =? 0 then mret (- ENOMEM, 0)
    else
      let out_release_ctx (ret : Z) : M (Z * Z) := dnvme_release_device p;; mret (ret, 0) in
      let out_unmap_res ret := dnvme_unmap_resource;; out_release_ctx ret in
      let out_disable_pci ret := dnvme_pci_disable;; out_unmap_res ret in
      let out_deinit_cap ret := dnvme_deinit_capability;; out_disable_pci ret in
      let out_unmap_cmb ret := dnvme_unmap_cmb;; out_deinit_cap ret in
      ret ← dnvme_map_resource;
      if ret <? 0 then out_release_ctx ret
      else
        ret ← dnvme_pci_enable;
        if ret <? 0 then out_unmap_res ret
        else
          ret ← dnvme_init_capability;
          if ret <? 0 then out_disable_pci ret
          else
            ret ← dnvme_map_cmb;
            if (ret <? 0) && negb (ret =? - EOPNOTSUPP) then out_deinit_cap ret
            else
              ret ← dnvme_map_pmr fuel;
              if (ret <? 0) && negb (ret =? - EOPNOTSUPP) then out_unmap_cmb ret
              else tell PC_list_add;; acquire R_listed;; mret (0, p).

(** The device is in the list of devices when it was probed; [p] is its address. *)
Definition dnvme_remove (fuel : nat) (p : Z) : M unit :=
  d ← get_dev;
  if decide (R_listed ∈ ndev_res d)
  then
    tell PC_list_del;; release_res R_listed;;
    dnvme_cleanup_device NVME_ST_DISABLE_COMPLETE;;
    dnvme_unmap_pmr fuel;;
    dnvme_unmap_cmb;;
    dnvme_deinit_capability;;
    tell PC_disable;; release_res R_enabled;;
    dnvme_unmap_resource;;
    dnvme_release_device p
  else mret tt.
End probe.
