(* ===== verification/Frame.v ===== *)
(** * What the requests leave alone

    [fixed d] is the device structure without what the file operations work on: its BARs,
    pools, capabilities, memory regions and identity, which probe sets up and removal
    takes down.  No file operation, interrupt or bottom half changes it, whatever it does
    otherwise and on every path.  The lemmas are found by going through the code. *)

From S2P Require Import Prelude Types Kernel Io Own Prp Sgl Ring Irq Queue Cmd Tamper Meta Ioctl Core Inv Clock Life Probe.

Definition fixed (d : nvme_device) : nvme_device :=
  d <| ndev_pdev ::= λ p, p <| pdev_irq := 0 |> |>
    <| ndev_sqs := ∅ |> <| ndev_cqs := ∅ |> <| ndev_meta := ∅ |>
    <| ndev_irq_set := zero_irq_set |> <| ndev_hmb := None |> <| ndev_opened := false |>.

(** [frames m]: when [m] returns, the fixed part is as it was. *)
Definition frames {A} (m : M A) : Prop :=
  ∀ w, match m w with Val _ w' => fixed (w_dev w') = fixed (w_dev w) | Oops _ | Hang => True end.

Lemma frames_ret {A} (a : A) : frames (mret a).
Proof. by intros w. Qed.
Lemma frames_bind {A B} (m : M A) (f : A → M B) : frames m → (∀ a, frames (f a)) → frames (x ← m; f x).
Proof.
  intros Hm Hf w. specialize (Hm w). unfold mbind, M_bind. destruct (m w) as [a w'| |]; [|done..].
  specialize (Hf a w'). destruct (f a w'); [|done..]. congruence.
Qed.
Lemma frames_gets {A} (f : world → A) : frames (gets f).
Proof. by intros w. Qed.
Lemma frames_modify f : (∀ w, fixed (w_dev (f w)) = fixed (w_dev w)) → frames (modify f).
Proof. intros Hf w. apply Hf. Qed.
Lemma frames_oops {A} f : frames (oops (A := A) f).
Proof. by intros w. Qed.
Lemma frames_hang {A} : frames (hang (A := A)).
Proof. by intros w. Qed.

Lemma frames_mapM {A} (f : A → M unit) l : (∀ a, frames (f a)) → frames (mapM_ f l).
Proof.
  intros Hf. induction l as [|a l IH]; [apply frames_ret|]. by apply frames_bind; [|intros _].
Qed.
Lemma frames_foldM {A B} (f : B → A → M B) l : (∀ b a, frames (f b a)) → ∀ b, frames (foldM f b l).
Proof.
  intros Hf. induction l as [|a l IH]; intros b; [apply frames_ret|]. by apply frames_bind.
Qed.

Create HintDb frame.
Ltac head_of t := lazymatch t with ?f _ => head_of f | _ => t end.
(** One step through the code: a rule, a case, a known lemma, or a definition to open. *)
Ltac frame_step :=
  match goal with
  | |- frames (mret _) => apply frames_ret
  | |- frames (gets _) => apply frames_gets
  | |- frames (oops _) => apply frames_oops
  | |- frames hang => apply frames_hang
  | |- frames (modify _) => apply frames_modify; intros ?; reflexivity
  | |- frames (mbind _ _) => apply frames_bind; [|intros ?]
  | |- frames (mapM_ _ _) => apply frames_mapM; intros ?
  | |- frames (foldM _ _ _) => apply frames_foldM; intros ? ?
  | |- frames (if ?b then _ else _) => destruct b
  | |- frames (match ?x with _ => _ end) => destruct x
  | |- frames (let _ := _ in _) => cbv zeta
  | |- frames _ => solve [auto 2 with frame nocore]
  | |- frames ?m => let h := head_of m in progress unfold h; cbv beta
  end.
Ltac frame := repeat (intros; frame_step).

Section frame.
Context {E : Env}.

(** ** Kernel calls that are functions of the world *)

Lemma frames_ext e : frames (ext e).
Proof. by intros w. Qed.
Lemma frames_ext_dma e : frames (ext_dma e).
Proof. by intros w. Qed.
Lemma frames_new_block k size d : frames (new_block k size d).
Proof. by intros w. Qed.
Lemma frames_free_block k p size : frames (free_block k p size).
Proof. intros w. unfold free_block. repeat case_match; by simplify_eq. Qed.
Lemma frames_get_block p : frames (get_block p).
Proof. intros w. unfold get_block. repeat case_match; by simplify_eq. Qed.
Lemma frames_dma_map_sg n : frames (dma_map_sg n).
Proof. intros w. unfold dma_map_sg. repeat case_match; by simplify_eq. Qed.
End frame.
#[export] Hint Resolve frames_ext frames_ext_dma frames_new_block frames_free_block frames_get_block
  frames_dma_map_sg : frame.

(** ** Loops *)

Section loops.
Context {E : Env}.

Lemma frames_read_config_loop fuel access : ∀ idx buf, frames (read_config_loop fuel access idx buf).
Proof. induction fuel; intros; cbn [read_config_loop]; frame. Qed.
Lemma frames_write_config_loop fuel access : ∀ idx buf, frames (write_config_loop fuel access idx buf).
Proof. induction fuel; intros; cbn [write_config_loop]; frame. Qed.
Lemma frames_read_bar_loop fuel bar access : ∀ idx buf, frames (read_bar_loop fuel bar access idx buf).
Proof. induction fuel; intros; cbn [read_bar_loop]; frame. Qed.
Lemma frames_write_bar_loop fuel bar access : ∀ idx buf, frames (write_bar_loop fuel bar access idx buf).
Proof. induction fuel; intros; cbn [write_bar_loop]; frame. Qed.

Lemma frames_alloc_pool_pages pool n : ∀ got, frames (alloc_pool_pages pool n got).
Proof. induction n; intros; cbn [alloc_pool_pages]; frame. Qed.
Lemma frames_prp_fill fuel prp_dma : ∀ j k bl dl po da sgs pages nr,
  frames (prp_fill fuel prp_dma j k bl dl po da sgs pages nr).
Proof. induction fuel; intros; cbn [prp_fill]; frame. Qed.

Lemma frames_lead_buckets cap bits : ∀ last l, frames (lead_buckets cap bits last l).
Proof. induction bits; intros; cbn [lead_buckets]; frame. Qed.
Lemma frames_sge_buckets cap bits : ∀ o a n so last l, frames (sge_buckets cap bits o a n so last l).
Proof. induction bits; intros; cbn [sge_buckets]; frame. Qed.
Lemma frames_trail_buckets cap bits : ∀ l, frames (trail_buckets cap bits l).
Proof. induction bits; intros; cbn [trail_buckets]; frame. Qed.
Hint Resolve frames_sge_buckets : frame.
Lemma frames_sg_loop cap sgs : ∀ bits o last l, frames (sg_loop cap sgs bits o last l).
Proof. induction sgs; intros; cbn [sg_loop]; frame. Qed.
Lemma frames_sgl_fill fuel prp_dma : ∀ j k ents pages, frames (sgl_fill fuel prp_dma j k ents pages).
Proof. induction fuel; intros; cbn [sgl_fill]; frame. Qed.
Lemma frames_meta_fill fuel prp_dma : ∀ j k nr sgs pages, frames (meta_fill fuel prp_dma j k nr sgs pages).
Proof. induction fuel; intros; cbn [meta_fill]; frame. Qed.

Lemma frames_cqe_scan fuel data elements : ∀ tail phase remain,
  frames (cqe_scan fuel data elements tail phase remain).
Proof. induction fuel; intros; cbn [cqe_scan]; frame. Qed.
Lemma frames_iops_scan fuel data elements : ∀ tail phase remain h,
  frames (iops_scan fuel data elements tail phase remain h).
Proof. induction fuel; intros; cbn [iops_scan]; frame. Qed.
Hint Resolve frames_cqe_scan frames_iops_scan : frame.

Lemma frames_pba_bits pba entries : frames (pba_bits_is_set pba entries).
Proof. induction entries; cbn [pba_bits_is_set]; frame. Qed.
Lemma frames_request_irqs vecs : ∀ got, frames (request_irqs vecs got).
Proof. induction vecs; intros; cbn [request_irqs]; frame. Qed.
Lemma frames_create_pairs pairs : ∀ got, frames (create_pairs pairs got).
Proof. induction pairs; intros; cbn [create_pairs]; frame. Qed.
Lemma frames_icq_remain icqs : ∀ remain, frames (icq_remain icqs remain).
Proof. induction icqs; intros; cbn [icq_remain]; frame. Qed.
Lemma frames_copy_loop nr id addr : ∀ head cqes, frames (copy_loop nr id addr head cqes).
Proof. induction nr; intros; cbn [copy_loop]; frame. Qed.

Lemma frames_fetch_entries {A} (put : Z → A → list Z → M (list Z)) ents nr :
  (∀ i a l, frames (put i a l)) → ∀ cnt all, frames (fetch_entries put ents cnt nr all).
Proof. intros Hp. induction ents; intros; cbn [fetch_entries]; frame. Qed.
Lemma frames_modify_page {A} n (get : Z → M A) i nr :
  (∀ a, frames (get a)) → ∀ j pages cnt, frames (modify_page n get i j pages cnt nr).
Proof. intros Hg. induction n; intros; cbn [modify_page]; frame. Qed.
Lemma frames_modify_pages {A} n width (get : Z → M A) nr :
  (∀ a, frames (get a)) → ∀ i pages cnt, frames (modify_pages n width get i pages cnt nr).
Proof.
  intros Hg. pose proof (λ n i j pages cnt, frames_modify_page n get i nr Hg j pages cnt).
  induction n; intros; cbn [modify_pages]; frame.
Qed.

Lemma frames_wait_loop fuel bar0 bit timeout : frames (wait_loop fuel bar0 bit timeout).
Proof. induction fuel; cbn [wait_loop]; frame. Qed.
Lemma frames_alloc_hmb_bufs n page_size bsize : ∀ i got, frames (alloc_hmb_bufs n i page_size bsize got).
Proof. induction n; intros; cbn [alloc_hmb_bufs]; frame. Qed.
Lemma frames_fill_hmb n desc bufs : ∀ i, frames (fill_hmb n i desc bufs).
Proof. induction n; intros; cbn [fill_hmb]; frame. Qed.
Lemma frames_iops_loop fuel sqid cqid stop : ∀ total, frames (iops_loop fuel sqid cqid stop total).
Proof. induction fuel; intros; cbn [iops_loop]; frame. Qed.
End loops.
#[export] Hint Resolve frames_read_config_loop frames_write_config_loop
  frames_read_bar_loop frames_write_bar_loop frames_alloc_pool_pages frames_prp_fill frames_lead_buckets
  frames_sge_buckets frames_trail_buckets frames_sg_loop frames_sgl_fill frames_meta_fill frames_cqe_scan
  frames_iops_scan frames_pba_bits frames_request_irqs frames_create_pairs frames_icq_remain
  frames_copy_loop frames_wait_loop
  frames_alloc_hmb_bufs frames_fill_hmb frames_iops_loop : frame.
#[export] Hint Extern 1 (frames (fetch_entries _ _ _ _ _)) => apply frames_fetch_entries; frame : frame.
#[export] Hint Extern 1 (frames (modify_pages _ _ _ _ _ _ _)) => apply frames_modify_pages; frame : frame.

(** ** The operations *)

Section operations.
Context {E : Env}.

Lemma frames_cleanup st : frames (dnvme_cleanup_device st).
Proof. frame. Qed.
Hint Resolve frames_cleanup : frame.
Lemma frames_ioctl_body fuel req : frames (ioctl_body fuel req).
Proof. destruct req; cbn [ioctl_body]; frame. Qed.
Hint Resolve frames_ioctl_body : frame.
Lemma frames_op o : frames (run_op o).
Proof. destruct o; cbn [run_op]; frame. Qed.
End operations.
