(* ===== verification/ProbeSpec.v ===== *)
(** * The steps of probe and removal

    [probing F Y w]: the device is being set up or taken down; the kernel has registered
    for it exactly what its fields say (mapped BARs, pools) and [F], what is live is what
    its fields own and [Y], and it has no queue, buffer or interrupt yet.  Each step is
    specified by what it adds to or takes from [F] and [Y]. *)

From S2P Require Import Prelude Types Kernel Io Own Prp Ring Irq Queue Meta Ioctl Inv Demo QueueSpec IrqSpec IrqSet IrqRun Trace QueueOps MetaSpec Clock Life Probe.

(** ** What the fields hold *)

Definition bar_res (d : nvme_device) (idx : Z) : list probe_res :=
  if bar_of d idx =? 0 then [] else [R_iomap (bar_of d idx); R_region idx].
Definition bars_res (d : nvme_device) : list probe_res := seqZ 0 6 ≫= bar_res d.
Definition pool_res (p : Z) : list probe_res := if p =? 0 then [] else [R_pool p].
Definition pools_res (d : nvme_device) : list probe_res :=
  pool_res (ndev_cmd_pool d) ++ pool_res (ndev_queue_pool d) ++ pool_res (ndev_meta_pool d).

Definition ptr_items {A} (ptr : A → Z) (o : option A) : list item :=
  match o with Some c => [Blk (ptr c) AK_kmalloc None] | None => [] end.
Definition caps_items (c : nvme_capability) : list item :=
  ptr_items msi_ptr (cap_msi c) ++ ptr_items msix_ptr (cap_msix c) ++ ptr_items pm_ptr (cap_pm c) ++
  ptr_items exp_ptr (cap_express c) ++ ptr_items ltr_ptr (cap_ltr c) ++ ptr_items l1ss_ptr (cap_l1ss c).
Definition probe_items (d : nvme_device) : list item :=
  caps_items (ndev_cap d) ++ ptr_items cmb_ptr (ndev_cmb d) ++ ptr_items pmr_ptr (ndev_pmr d).

(** No queue, no buffer, no interrupt, and no BAR but the six. *)
Definition unused (d : nvme_device) : Prop :=
  (∀ j, ¬ 0 ≤ j < 6 → bar_of d j = 0) ∧
  ndev_sqs d = ∅ ∧ ndev_cqs d = ∅ ∧ ndev_meta d = ∅ ∧ ndev_hmb d = None ∧
  is_irq_list (ndev_irq_set d) = [] ∧ is_work_list (ndev_irq_set d) = [] ∧
  is_wq_pending (ndev_irq_set d) = [] ∧ is_wq (ndev_irq_set d) = 0.

Record probing (F : list probe_res) (Y : list item) (w : world) : Prop := {
  pb_res : ndev_res (w_dev w) ≡ₚ bars_res (w_dev w) ++ pools_res (w_dev w) ++ F;
  pb_mem : holds (probe_items (w_dev w) ++ Y) w;
  pb_unused : unused (w_dev w);
  pb_inst : ∀ i, R_instance i ∈ F → ndev_instance (w_dev w) = i;
  pb_irqs : w_irqs w = [] }.

#[export] Instance probing_perm : Proper ((≡ₚ) ==> (≡ₚ) ==> eq ==> iff) probing.
Proof.
  assert (∀ F F' Y Y' w, F ≡ₚ F' → Y ≡ₚ Y' → probing F Y w → probing F' Y' w) as Himp.
  { intros F F' Y Y' w HF HY [Hr Hm Hu Hn Hi].
    split; [by rewrite <- HF|by rewrite <- HY|done|intros i; rewrite <- HF; apply Hn|done]. }
  intros F F' HF Y Y' HY w ? <-. split; apply Himp; by symmetry.
Qed.

Lemma remove_res_perm r l l0 : l ≡ₚ r :: l0 → ∃ l', remove_res r l = Some l' ∧ l' ≡ₚ l0.
Proof.
  revert l0. induction l as [|x l IH]; intros l0 Hp; [by apply Permutation_nil_cons in Hp|].
  cbn. destruct (decide (x = r)) as [->|Hne].
  { exists l. split; [done|]. by apply Permutation_cons_inv in Hp. }
  assert (r ∈ l) as Hin.
  { assert (r ∈ x :: l) as Hr by (rewrite Hp; by left). by apply elem_of_cons in Hr as [->|]. }
  apply elem_of_Permutation in Hin as [l1 Hl1]. destruct (IH l1 Hl1) as (l' & -> & Hl').
  exists (x :: l'). split; [done|]. rewrite Hl'. rewrite Hl1 in Hp.
  apply (Permutation_cons_inv (a := r)). by rewrite <- Hp, Permutation_swap.
Qed.

(** No device: [X] is live, and nothing is registered for it. *)
Definition absent (X : list item) (w : world) : Prop :=
  holds X w ∧ ndev_res (w_dev w) = [] ∧ w_irqs w = [].
(** All BARs unmapped. *)
Definition no_bars (d : nvme_device) : Prop := ∀ j, bar_of d j = 0.
(** No BAR mapped, and no memory behind the fields. *)
Definition bare (d : nvme_device) : Prop := no_bars d ∧ probe_items d = [].

(** [reads P m]: [m] changes nothing but the history, and its result satisfies [P]. *)
Definition reads {A} (P : A → Prop) (m : M A) : Prop := ∀ w, wp m (λ r w', hist_only w w' ∧ P r) w.
Lemma reads_ret {A} (P : A → Prop) a : P a → reads P (mret a).
Proof. intros Ha w. by apply wp_ret. Qed.
Lemma reads_bind {A B} (Q : A → Prop) (P : B → Prop) (m : M A) (f : A → M B) :
  reads Q m → (∀ a, Q a → reads P (f a)) → reads P (x ← m; f x).
Proof.
  intros Hm Hf w. apply wp_bind. eapply wp_mono; [apply Hm|]. intros a w1 [H1 Ha].
  eapply wp_mono; [by apply Hf|]. intros b w2 [H2 Hb]. cbn in *. split; [by transitivity w1|done].
Qed.
Lemma reads_tells {A B} (P : B → Prop) (m : M A) (f : A → M B) :
  tells m → (∀ a, reads P (f a)) → reads P (x ← m; f x).
Proof.
  intros Hm Hf. apply (reads_bind (λ _, True)); [|auto]. intros w. eapply wp_mono; [apply Hm|done].
Qed.
Ltac solve_reads :=
  repeat match goal with
  | |- reads _ (mret _) => apply reads_ret
  | |- reads _ (mbind _ _) => apply reads_tells; [by solve_tells|intros ?]
  | |- reads _ (if ?b then _ else _) => destruct b eqn:?
  | |- reads _ (match ?x with _ => _ end) => destruct x
  | |- reads _ (let _ := _ in _) => cbv zeta
  | |- reads _ _ => progress cbv beta
  end.

Section probe_spec.
Context {E : Env}.
Implicit Types (F : list probe_res) (Y : list item).

(** ** Steps *)

Lemma wp_release_res r l (Φ : unit → world → Prop) w :
  ndev_res (w_dev w) ≡ₚ r :: l →
  (∀ l', l' ≡ₚ l → Φ tt (w <| w_dev ::= λ d, d <| ndev_res := l' |> |>)) →
  wp (release_res r) Φ w.
Proof.
  intros Hp HΦ. unfold release_res. apply wp_bind, wp_gets.
  destruct (remove_res_perm _ _ _ Hp) as (l' & -> & Hl'). by apply wp_modify, HΦ.
Qed.

Lemma probing_hist F Y w h : probing F Y w → probing F Y (w <| w_hist := h |>).
Proof. intros [Hr Hm Hu Hn Hi]. split; [done| |done..]. by eapply holds_ext, Hm. Qed.
Lemma probing_hist_only F Y w w' : probing F Y w → hist_only w w' → probing F Y w'.
Proof. intros Hw [h ->]. by apply probing_hist. Qed.

Lemma wp_call F Y c (Φ : Z → world → Prop) w :
  probing F Y w → (∀ r w', probing F Y w' → w_dev w' = w_dev w → Φ r w') → wp (call c) Φ w.
Proof. intros Hw HΦ. apply wp_ext, HΦ; [by apply probing_hist|done]. Qed.
Lemma wp_tell F Y c (Φ : unit → world → Prop) w :
  probing F Y w → (∀ w', probing F Y w' → w_dev w' = w_dev w → Φ tt w') → wp (tell c) Φ w.
Proof. intros Hw HΦ. apply wp_emit, HΦ; [by apply probing_hist|done]. Qed.

(** A change of the structure that its resources and memory do not notice. *)
Lemma probing_upd F F' Y Y' f w :
  probing F Y w → unused (f (w_dev w)) →
  ndev_res (f (w_dev w)) ≡ₚ bars_res (f (w_dev w)) ++ pools_res (f (w_dev w)) ++ F' →
  probe_items (f (w_dev w)) ++ Y' ≡ₚ probe_items (w_dev w) ++ Y →
  (∀ i, R_instance i ∈ F' → ndev_instance (f (w_dev w)) = i) →
  probing F' Y' (w <| w_dev ::= f |>).
Proof.
  intros [Hr Hm Hu Hn Hi] Hu' Hr' Hy Hn'. split; [done| |done..].
  eapply (holds_ext _ w); [done..|]. cbn. by rewrite Hy.
Qed.
Lemma probing_dev F Y f w :
  probing F Y w → unused (f (w_dev w)) → ndev_res (f (w_dev w)) = ndev_res (w_dev w) →
  bars_res (f (w_dev w)) = bars_res (w_dev w) → pools_res (f (w_dev w)) = pools_res (w_dev w) →
  probe_items (f (w_dev w)) = probe_items (w_dev w) →
  ndev_instance (f (w_dev w)) = ndev_instance (w_dev w) → probing F Y (w <| w_dev ::= f |>).
Proof.
  intros Hw Hu H1 H2 H3 H4 H5. apply (probing_upd F F Y Y f w Hw Hu); [|by rewrite H4|by rewrite H5; apply Hw].
  rewrite H1, H2, H3. apply Hw.
Qed.

Lemma wp_acquire F Y r (Φ : unit → world → Prop) w :
  probing F Y w → (∀ i, r ≠ R_instance i) → (∀ w', probing (r :: F) Y w' →
    w_dev w' = (w_dev w) <| ndev_res ::= cons r |> → Φ tt w') → wp (acquire r) Φ w.
Proof.
  intros Hw Hi HΦ. apply wp_modify, HΦ; [|done]. apply (probing_upd F _ Y Y _ w Hw); [apply Hw| |done|].
  - cbn. rewrite (pb_res _ _ _ Hw). solve_Permutation.
  - intros i [Hr|Hr]%elem_of_cons; [by destruct (Hi i)|by apply (pb_inst _ _ _ Hw)].
Qed.
Lemma wp_give_back F F' Y r (Φ : unit → world → Prop) w :
  probing F Y w → F ≡ₚ r :: F' →
  (∀ w', probing F' Y w' → (∃ l, w_dev w' = (w_dev w) <| ndev_res := l |>) → Φ tt w') →
  wp (release_res r) Φ w.
Proof.
  intros Hw HF HΦ. apply (wp_release_res r (bars_res (w_dev w) ++ pools_res (w_dev w) ++ F')).
  { rewrite (pb_res _ _ _ Hw), HF. solve_Permutation. }
  intros l' Hl'. apply HΦ; [|by exists l'].
  apply (probing_upd F _ Y Y _ w Hw); [apply Hw|done|done|].
  intros i Hin. apply (pb_inst _ _ _ Hw). rewrite HF. by right.
Qed.

(** ** BARs *)

Lemma bar_of_set d idx p j :
  bar_of (set_bar idx p d) j = if decide (j = idx) then p else bar_of d j.
Proof.
  unfold bar_of, set_bar. destruct (Z.eqb_spec idx 0) as [->|Hi], (Z.eqb_spec j 0) as [->|Hj]; cbn.
  - by rewrite decide_True.
  - by rewrite decide_False by done.
  - by rewrite decide_False by done.
  - destruct (decide (j = idx)) as [->|]; [by rewrite lookup_insert_eq|by rewrite lookup_insert_ne].
Qed.

(** The BARs but one. *)
Definition other_bars (idx : Z) : list Z := filter (λ j, j ≠ idx) (seqZ 0 6).

Lemma seqZ_other idx : 0 ≤ idx < 6 → seqZ 0 6 ≡ₚ idx :: other_bars idx.
Proof.
  intros Hi. assert (Forall (λ i, seqZ 0 6 ≡ₚ i :: other_bars i) (seqZ 0 6)) as H.
  { apply (bool_decide_unpack _). by vm_compute. }
  rewrite Forall_forall in H. apply H, elem_of_seqZ. lia.
Qed.
Lemma bars_res_split d idx : 0 ≤ idx < 6 →
  bars_res d ≡ₚ bar_res d idx ++ (other_bars idx ≫= bar_res d).
Proof. intros Hi. unfold bars_res. by rewrite (seqZ_other idx Hi). Qed.
Lemma bars_res_set d idx p : 0 ≤ idx < 6 →
  bars_res (set_bar idx p d) ≡ₚ
  (if p =? 0 then [] else [R_iomap p; R_region idx]) ++ (other_bars idx ≫= bar_res d).
Proof.
  intros Hi. rewrite (bars_res_split _ idx Hi). unfold bar_res at 1. rewrite bar_of_set, decide_True by done.
  f_equiv. apply reflexive_eq. unfold other_bars.
  assert (∀ l, Forall (λ j, j ≠ idx) l → l ≫= bar_res (set_bar idx p d) = l ≫= bar_res d) as Hl.
  { induction 1 as [|j l Hj _ IH]; [done|]. cbn. rewrite IH. f_equal. unfold bar_res.
    by rewrite bar_of_set, decide_False. }
  apply Hl, Forall_forall. intros j. by rewrite list_elem_of_filter; intros [? _].
Qed.

(** What [set_bar] leaves alone. *)
Lemma set_bar_unused idx p d : 0 ≤ idx < 6 → unused d → unused (set_bar idx p d).
Proof.
  intros Hi [Hb Hu]. split; [|unfold set_bar; by destruct (idx =? 0)].
  intros j Hj. rewrite bar_of_set, decide_False by (intros ->; lia). by apply Hb.
Qed.
Lemma set_bar_same idx p d :
  pools_res (set_bar idx p d) = pools_res d ∧
  probe_items (set_bar idx p d) = probe_items d ∧ ndev_res (set_bar idx p d) = ndev_res d ∧
  ndev_instance (set_bar idx p d) = ndev_instance d.
Proof. unfold set_bar. by destruct (idx =? 0). Qed.

(** The structure but for its BARs and what is registered. *)
Definition off_bars (d : nvme_device) : nvme_device :=
  d <| ndev_bar0 := 0 |> <| ndev_bars := ∅ |> <| ndev_dbs := 0 |> <| ndev_res := [] |>.
Lemma off_bars_set idx p d : off_bars (set_bar idx p d) = off_bars d.
Proof. unfold set_bar. by destruct (idx =? 0). Qed.

Lemma wp_map_bar F Y idx w : probing F Y w → 0 ≤ idx < 6 →
  wp (dnvme_map_bar idx) (λ r w', probing F Y w' ∧ off_bars (w_dev w') = off_bars (w_dev w) ∧
    (∀ j, j ≠ idx → bar_of (w_dev w') j = bar_of (w_dev w) j) ∧
    (if r <? 0 then bar_of (w_dev w') idx = 0 else bar_of (w_dev w') idx ≠ 0)) w.
Proof.
  intros Hw Hi. unfold dnvme_map_bar. apply wp_bind, wp_gets.
  destruct (Z.eqb_spec (bar_of (w_dev w) idx) 0) as [H0|]; cbn [negb]; [|by apply wp_ret].
  apply wp_bind. eapply wp_call; [exact Hw|]. intros r w1 Hw1 Hd1. cbv zeta.
  destruct (Z.ltb_spec (s32 r) 0) as [Hlt|Hge].
  { apply wp_ret. rewrite Hd1, (proj2 (Z.ltb_lt _ _) Hlt). done. }
  apply wp_bind. eapply wp_acquire; [exact Hw1|done|]. intros w2 Hw2 Hd2.
  apply wp_bind. eapply wp_call; [exact Hw2|]. intros p w3 Hw3 Hd3. cbv zeta. set (a := u64 p).
  apply wp_bind, wp_modify. set (w4 := w3 <| w_dev ::= set_bar idx a |>).
  assert (w_dev w4 = set_bar idx a (w_dev w3)) as Hd4 by done.
  destruct (set_bar_same idx a (w_dev w3)) as (Hp4 & Hi4 & Hr4 & Hn4).
  pose proof (set_bar_unused idx a _ Hi (pb_unused _ _ _ Hw3)) as Hu4.
  assert (off_bars (set_bar idx a (w_dev w3)) = off_bars (w_dev w)) as Ho.
  { rewrite off_bars_set, Hd3, Hd2, Hd1. done. }
  assert (∀ j, bar_of (w_dev w3) j = bar_of (w_dev w) j) as Hbar.
  { intros j. rewrite Hd3, Hd2, Hd1. done. }
  assert (bar_res (w_dev w3) idx = []) as Hnone by (unfold bar_res; rewrite Hbar, H0; done).
  pose proof (pb_res _ _ _ Hw3) as Hres. rewrite (bars_res_split _ idx Hi), Hnone in Hres. cbn in Hres.
  destruct (Z.eqb_spec a 0) as [Ha|Ha].
  - assert (probing (R_region idx :: F) Y w4) as Hw4.
    { apply (probing_upd _ _ _ _ _ _ Hw3); rewrite ?Hp4, ?Hi4, ?Hr4, ?Hn4; [done| |done|apply Hw3].
      rewrite (bars_res_set _ idx a Hi), Ha. exact Hres. }
    apply wp_bind. eapply wp_tell; [exact Hw4|]. intros w5 Hw5 Hd5.
    apply wp_bind. eapply wp_give_back; [exact Hw5|reflexivity|]. intros w6 Hw6 [l Hd6].
    apply wp_ret. split; [done|]. split; [by rewrite <- Ho, Hd6, Hd5, Hd4|].
    assert (∀ j, bar_of (w_dev w6) j = bar_of (set_bar idx a (w_dev w3)) j) as Hb6
      by (intros j; rewrite Hd6, Hd5, Hd4; done).
    split; [|cbn; by rewrite Hb6, bar_of_set, decide_True].
    intros j Hj. by rewrite Hb6, bar_of_set, decide_False, Hbar.
  - apply wp_bind, wp_modify, wp_ret. split; [|split; [exact Ho|split]].
    + apply (probing_upd (R_region idx :: F) _ Y _ (λ d, (set_bar idx a d) <| ndev_res ::= cons (R_iomap a) |>) w3 Hw3).
      * exact Hu4.
      * change (R_iomap a :: ndev_res (set_bar idx a (w_dev w3)) ≡ₚ
          bars_res (set_bar idx a (w_dev w3)) ++ pools_res (set_bar idx a (w_dev w3)) ++ F).
        rewrite Hr4, Hp4, (bars_res_set _ idx a Hi), (proj2 (Z.eqb_neq _ _) Ha), Hres. solve_Permutation.
      * change (probe_items (set_bar idx a (w_dev w3)) ++ Y ≡ₚ probe_items (w_dev w3) ++ Y). by rewrite Hi4.
      * intros i Hin. transitivity (ndev_instance (w_dev w3)); [exact Hn4|]. apply (pb_inst _ _ _ Hw3). by right.
    + intros j Hj. change (bar_of (set_bar idx a (w_dev w3)) j = bar_of (w_dev w) j).
      by rewrite bar_of_set, decide_False, Hbar.
    + change (bar_of (set_bar idx a (w_dev w3)) idx ≠ 0). by rewrite bar_of_set, decide_True.
Qed.

Lemma wp_unmap_bar F Y idx w : probing F Y w → 0 ≤ idx < 6 →
  wp (dnvme_unmap_bar idx) (λ _ w', probing F Y w' ∧ off_bars (w_dev w') = off_bars (w_dev w) ∧
    bar_of (w_dev w') idx = 0 ∧ ∀ j, j ≠ idx → bar_of (w_dev w') j = bar_of (w_dev w) j) w.
Proof.
  intros Hw Hi. unfold dnvme_unmap_bar. apply wp_bind, wp_gets. cbv zeta.
  set (p := bar_of (w_dev w) idx). destruct (Z.eqb_spec p 0) as [H0|Hp]; [by apply wp_ret|].
  apply wp_bind. eapply wp_tell; [exact Hw|]. intros w1 Hw1 Hd1.
  pose proof (pb_res _ _ _ Hw1) as Hres. rewrite (bars_res_split _ idx Hi) in Hres.
  unfold bar_res at 1 in Hres. rewrite Hd1 in Hres. fold p in Hres.
  rewrite (proj2 (Z.eqb_neq _ _) Hp) in Hres. rewrite <- Hd1 in Hres.
  set (rest := other_bars idx ≫= bar_res (w_dev w1)) in *.
  apply wp_bind. eapply (wp_release_res _ (R_region idx :: rest ++ pools_res (w_dev w1) ++ F)).
  { rewrite Hres. solve_Permutation. }
  intros l1 Hl1. apply wp_bind, wp_modify.
  apply wp_bind, wp_emit. set (d' := set_bar idx 0 ((w_dev w1) <| ndev_res := l1 |>)).
  destruct (set_bar_same idx 0 ((w_dev w1) <| ndev_res := l1 |>)) as (Hps & Hit & Hr & Hn). fold d' in Hps, Hit, Hr, Hn.
  eapply (wp_release_res _ (rest ++ pools_res (w_dev w1) ++ F)).
  { change (ndev_res d' ≡ₚ R_region idx :: rest ++ pools_res (w_dev w1) ++ F). rewrite Hr. exact Hl1. }
  intros l2 Hl2. split; [|split; [|split]].
  - assert (probing F Y (w1 <| w_hist ::= cons (E_probe (PC_release_region idx)) |>)) as Hw2
      by (by apply probing_hist).
    pose proof (probing_upd F F Y Y (λ d, (set_bar idx 0 (d <| ndev_res := l1 |>)) <| ndev_res := l2 |>)
      _ Hw2) as Hgoal. apply Hgoal; clear Hgoal.
    + apply (set_bar_unused idx 0 ((w_dev w1) <| ndev_res := l1 |>) Hi), Hw1.
    + change (l2 ≡ₚ bars_res d' ++ pools_res d' ++ F). unfold d' at 1.
      rewrite (bars_res_set _ idx 0 Hi), Hps. exact Hl2.
    + change (probe_items d' ++ Y ≡ₚ probe_items (w_dev w1) ++ Y). by rewrite Hit.
    + intros i Hin. transitivity (ndev_instance (w_dev w1)); [exact Hn|]. by apply (pb_inst _ _ _ Hw1).
  - change (off_bars d' = off_bars (w_dev w)). unfold d'. rewrite off_bars_set, <- Hd1. done.
  - change (bar_of d' idx = 0). unfold d'. by rewrite bar_of_set, decide_True.
  - intros j Hj. change (bar_of d' j = bar_of (w_dev w) j). unfold d'.
    rewrite bar_of_set, decide_False by done. change (bar_of (w_dev w1) j = bar_of (w_dev w) j). by rewrite Hd1.
Qed.

Lemma wp_unmap_bars F Y l : ∀ w, probing F Y w → Forall (λ i, 0 ≤ i < 6) l →
  wp (mapM_ dnvme_unmap_bar l) (λ _ w', probing F Y w' ∧ off_bars (w_dev w') = off_bars (w_dev w) ∧
    ∀ j, bar_of (w_dev w') j = if decide (j ∈ l) then 0 else bar_of (w_dev w) j) w.
Proof.
  induction l as [|i l IH]; intros w Hw Hl.
  { apply wp_ret. do 2 (split; [done|]). intros j. by rewrite decide_False by apply not_elem_of_nil. }
  apply Forall_cons in Hl as [Hi Hl]. apply wp_bind.
  eapply wp_mono; [by apply (wp_unmap_bar F Y i)|]. intros _ w1 (Hw1 & Ho1 & H0 & Hb1).
  eapply wp_mono; [by apply IH|]. intros _ w2 (Hw2 & Ho2 & Hb2). split; [done|]. split; [by rewrite Ho2|].
  intros j. rewrite Hb2. destruct (decide (j = i)) as [->|Hne].
  - rewrite H0. rewrite (decide_True (P := i ∈ i :: l)) by (by left). by destruct (decide _).
  - rewrite Hb1 by done. destruct (decide (j ∈ l)), (decide (j ∈ i :: l)); set_solver.
Qed.

(** What mapping the selected BARs from [idx] on does. *)
Definition bars_mapped F Y (bars : Z) (n : nat) (idx : Z) (w : world) (r : Z * Z) (w' : world) : Prop :=
  probing F Y w' ∧ r.1 ≤ 0 ∧ off_bars (w_dev w') = off_bars (w_dev w) ∧
  (∀ j, j < idx → bar_of (w_dev w') j = bar_of (w_dev w) j) ∧
  (0 ≤ r.1 → (0 < n)%nat → bit_set bars (BIT idx) = true → bar_of (w_dev w') idx ≠ 0) ∧
  (r.1 < 0 → idx ≤ r.2 < 6 ∧ bar_of (w_dev w') r.2 = 0 ∧
     ∀ j, r.2 < j → bar_of (w_dev w') j = bar_of (w_dev w) j).

Lemma wp_map_bars F Y bars n : ∀ idx w, probing F Y w → 0 ≤ idx → idx + Z.of_nat n = 6 →
  wp (map_bars n idx bars) (bars_mapped F Y bars n idx w) w.
Proof.
  induction n as [|n IH]; intros idx w Hw Hi Hn; cbn [map_bars].
  { apply wp_ret. unfold bars_mapped. cbn. split_and!; [done|lia|done|done|lia|lia]. }
  assert (∀ w1, probing F Y w1 → off_bars (w_dev w1) = off_bars (w_dev w) →
    (∀ j, j ≠ idx → bar_of (w_dev w1) j = bar_of (w_dev w) j) →
    (bit_set bars (BIT idx) = true → bar_of (w_dev w1) idx ≠ 0) →
    wp (map_bars n (idx + 1) bars) (bars_mapped F Y bars (S n) idx w) w1) as Hgo.
  { intros w1 Hw1 Ho1 Hb1 Hs1. eapply wp_mono; [apply IH; [done|lia|lia]|].
    intros [r i] w2 (Hw2 & Hr & Ho2 & Hlo & _ & Hf). unfold bars_mapped. cbn in *.
    split_and!; [done|done|by rewrite Ho2| | |].
    - intros j Hj. rewrite Hlo by lia. apply Hb1. lia.
    - intros _ _ Hs. rewrite Hlo by lia. by apply Hs1.
    - intros Hr'. destruct (Hf Hr') as (? & ? & Hhi). split_and!; [lia|lia|done|].
      intros j Hj. rewrite Hhi by lia. apply Hb1. lia. }
  destruct (bit_set bars (BIT idx)) eqn:Hs; [|by apply Hgo].
  apply wp_bind. eapply wp_mono; [apply (wp_map_bar F Y idx); [done|lia]|].
  intros r w1 (Hw1 & Ho1 & Hb1 & Hz). destruct (Z.ltb_spec r 0); [|by apply Hgo].
  apply wp_ret. unfold bars_mapped. cbn. split_and!; [done|lia|done| |lia|].
  - intros j Hj. apply Hb1. lia.
  - intros _. split_and!; [lia|lia|done|]. intros j Hj. apply Hb1. lia.
Qed.

Lemma no_bars_res d : no_bars d → bars_res d = [].
Proof.
  intros Hd. unfold bars_res. generalize (seqZ 0 6). intros l. induction l as [|j l IH]; [done|].
  cbn. rewrite IH. unfold bar_res. by rewrite Hd.
Qed.

Lemma probing_dbs F Y g w : probing F Y w → probing F Y (w <| w_dev ::= λ d, d <| ndev_dbs := g d |> |>).
Proof. intros Hw. apply probing_dev; try done. apply Hw. Qed.

Lemma wp_map_resource F Y w : probing F Y w → no_bars (w_dev w) →
  wp dnvme_map_resource (λ r w', probing F Y w' ∧ r ≤ 0 ∧ off_bars (w_dev w') = off_bars (w_dev w) ∧
    (r < 0 → no_bars (w_dev w')) ∧
    (r = 0 → ndev_bar0 (w_dev w') ≠ 0 ∧ ndev_dbs (w_dev w') = ndev_bar0 (w_dev w') + NVME_REG_DBS)) w.
Proof.
  intros Hw Hn. unfold dnvme_map_resource. apply wp_bind. eapply wp_call; [exact Hw|].
  intros bars w1 Hw1 Hd1. destruct (bit_set bars (BIT 0)) eqn:Hs; cbn [negb].
  2: { apply wp_ret. split_and!; [done|done|by rewrite Hd1|by rewrite Hd1|done]. }
  apply wp_bind. eapply wp_mono; [apply (wp_map_bars F Y bars _ 0 w1); done|].
  rewrite <- Hd1. intros [r i] w2 (Hw2 & Hr & Ho2 & Hlo & Hne & Hf). cbn in *. destruct (Z.ltb_spec r 0).
  - destruct (Hf ltac:(done)) as (Hi & Hz & Hhi). apply wp_bind.
    eapply wp_mono; [apply (wp_unmap_bars F Y (reverse (seqZ 0 i))); [done|]|].
    { apply Forall_reverse, Forall_forall. intros j Hj%elem_of_seqZ. lia. }
    intros _ w3 (Hw3 & Ho3 & Hb3). apply wp_ret. split_and!; [done|lia|by rewrite Ho3| |lia]. intros _ j. rewrite Hb3.
    destruct (decide (j ∈ _)) as [|Hj]; [done|]. rewrite elem_of_reverse, elem_of_seqZ in Hj.
    destruct (decide (j = i)) as [->|]; [done|]. destruct (decide (i < j)).
    + rewrite Hhi by done. by rewrite Hd1.
    + rewrite Hlo by lia. by rewrite Hd1.
  - apply wp_bind, wp_modify, wp_ret. split_and!; [by apply probing_dbs|lia|done|lia|].
    intros _. split; [|done]. by apply Hne; [|unfold PCI_BAR_MAX_NUM; lia|].
Qed.

Lemma wp_unmap_resource F Y w : probing F Y w →
  wp dnvme_unmap_resource (λ _ w', probing F Y w' ∧ no_bars (w_dev w') ∧ off_bars (w_dev w') = off_bars (w_dev w)) w.
Proof.
  intros Hw. pose proof (proj1 (pb_unused _ _ _ Hw)) as Hout. unfold dnvme_unmap_resource. apply wp_bind.
  eapply wp_mono; [apply (wp_unmap_bars F Y (seqZ 0 6)); [done|]|].
  { apply Forall_forall. intros j Hj%elem_of_seqZ. lia. }
  intros _ w1 (Hw1 & Ho1 & Hb1). apply wp_modify. split; [by apply probing_dbs|]. split; [|exact Ho1].
  intros j. change (bar_of (w_dev w1) j = 0). rewrite Hb1.
  destruct (decide (j ∈ seqZ 0 6)) as [|Hj]; [done|]. apply Hout. rewrite elem_of_seqZ in Hj. lia.
Qed.

(** ** Pools *)

Lemma wp_pool_create F Y which (Φ : Z → world → Prop) w :
  probing F Y w →
  (∀ w', probing F Y w' → w_dev w' = w_dev w → Φ 0 w') →
  (∀ p w', p ≠ 0 → probing (R_pool p :: F) Y w' →
    w_dev w' = (w_dev w) <| ndev_res ::= cons (R_pool p) |> → Φ p w') →
  wp (pool_create which) Φ w.
Proof.
  intros Hw H0 H1. unfold pool_create. apply wp_bind. eapply wp_call; [exact Hw|].
  intros p w1 Hw1 Hd1. cbv zeta. destruct (Z.eqb_spec (u64 p) 0); [by apply wp_ret, H0|].
  apply wp_bind. eapply wp_acquire; [exact Hw1|done|]. intros w2 Hw2 Hd2. apply wp_ret, H1; [done|done|].
  by rewrite Hd2, Hd1.
Qed.

(** Destroying the pool in a field: the rest [P] of the pools stays. *)
Lemma wp_pool_destroy p (l : list probe_res) (Φ : unit → world → Prop) w :
  ndev_res (w_dev w) ≡ₚ pool_res p ++ l →
  (∀ h l', l' ≡ₚ l → Φ tt (w <| w_hist := h |> <| w_dev ::= λ d, d <| ndev_res := l' |> |>)) →
  wp (pool_destroy p) Φ w.
Proof.
  intros Hl HΦ. unfold pool_destroy, pool_res in *. destruct (p =? 0); cbn in Hl.
  - apply wp_ret. specialize (HΦ (w_hist w) _ Hl). revert HΦ.
    assert (w <| w_hist := w_hist w |> <| w_dev ::= λ d, d <| ndev_res := ndev_res (w_dev w) |> |> = w) as ->;
      [|done]. unfold set_field. cbn. destruct w as [d]. cbn. by destruct d.
  - apply wp_bind, wp_emit. eapply wp_release_res; [exact Hl|]. intros l' Hl'.
    exact (HΦ (E_probe (PC_pool_destroy p) :: w_hist w) l' Hl').
Qed.

(** Destroying the pool of a field, which [f] clears. *)
Lemma wp_clear_pool F Y p (f : nvme_device → nvme_device) (Ψ : world → Prop) w :
  probing F Y w → (∀ d l, f (d <| ndev_res := l |>) = (f d) <| ndev_res := l |>) →
  unused (f (w_dev w)) → bars_res (f (w_dev w)) = bars_res (w_dev w) →
  probe_items (f (w_dev w)) = probe_items (w_dev w) →
  ndev_instance (f (w_dev w)) = ndev_instance (w_dev w) →
  pools_res (w_dev w) ≡ₚ pool_res p ++ pools_res (f (w_dev w)) →
  (∀ w' l, probing F Y w' → w_dev w' = (f (w_dev w)) <| ndev_res := l |> → Ψ w') →
  wp (pool_destroy p) (λ _ w', Ψ (w' <| w_dev ::= f |>)) w.
Proof.
  intros Hw Hf Hu Hb Hi Hn Hp HΨ. pose proof (pb_res _ _ _ Hw) as Hr.
  eapply (wp_pool_destroy _ (bars_res (w_dev w) ++ pools_res (f (w_dev w)) ++ F)).
  { rewrite Hr, Hp. solve_Permutation. }
  intros h l Hl.
  assert (w <| w_hist := h |> <| w_dev ::= λ d, d <| ndev_res := l |> |> <| w_dev ::= f |> =
    w <| w_hist := h |> <| w_dev ::= λ d, (f d) <| ndev_res := l |> |>) as ->.
  { transitivity (w <| w_hist := h |> <| w_dev := f ((w_dev w) <| ndev_res := l |>) |>); [done|].
    by rewrite Hf. }
  apply (HΨ _ l); [|done].
  apply (probing_upd F F Y Y _ _ (probing_hist F Y w h Hw)); [done| | |].
  - change (l ≡ₚ bars_res (f (w_dev w)) ++ pools_res (f (w_dev w)) ++ F). by rewrite Hb.
  - change (probe_items (f (w_dev w)) ++ Y ≡ₚ probe_items (w_dev w) ++ Y). by rewrite Hi.
  - intros i Hin. transitivity (ndev_instance (w_dev w)); [exact Hn|]. by apply (pb_inst _ _ _ Hw).
Qed.

Lemma wp_clear_then {A} F Y p (f : nvme_device → nvme_device) (k : M A) Φ w :
  probing F Y w → (∀ d l, f (d <| ndev_res := l |>) = (f d) <| ndev_res := l |>) →
  unused (f (w_dev w)) → bars_res (f (w_dev w)) = bars_res (w_dev w) →
  probe_items (f (w_dev w)) = probe_items (w_dev w) →
  ndev_instance (f (w_dev w)) = ndev_instance (w_dev w) →
  pools_res (w_dev w) ≡ₚ pool_res p ++ pools_res (f (w_dev w)) →
  (∀ w' l, probing F Y w' → w_dev w' = (f (w_dev w)) <| ndev_res := l |> → wp k Φ w') →
  wp (pool_destroy p;; upd_dev f;; k) Φ w.
Proof.
  intros. apply wp_bind. eapply wp_mono; [by apply (wp_clear_pool F Y p f (wp k Φ))|].
  intros [] w' Hk. by apply wp_bind, wp_modify.
Qed.

(** The structure but for its pools and what is registered. *)
Definition off_pools (d : nvme_device) : nvme_device :=
  d <| ndev_cmd_pool := 0 |> <| ndev_queue_pool := 0 |> <| ndev_meta_pool := 0 |> <| ndev_res := [] |>.
Definition pools_gone F Y (w w' : world) : Prop :=
  probing F Y w' ∧ pools_res (w_dev w') = [] ∧ off_pools (w_dev w') = off_pools (w_dev w).

Lemma wp_destroy_pool F Y w : probing F Y w → wp dnvme_destroy_pool (λ _, pools_gone F Y w) w.
Proof.
  intros Hw. unfold dnvme_destroy_pool. apply wp_bind, wp_gets.
  eapply (wp_clear_then F Y); try done; [apply Hw|unfold pools_res; cbn; solve_Permutation|].
  intros w1 l1 Hw1 Hd1.
  eapply (wp_clear_then F Y); try done; [apply Hw1|rewrite Hd1; unfold pools_res; cbn; solve_Permutation|].
  intros w2 l2 Hw2 Hd2. apply wp_bind. eapply wp_mono.
  { apply (wp_clear_pool F Y _ (λ d, d <| ndev_cmd_pool := 0 |>) (pools_gone F Y w)); try done; [apply Hw2| |].
    - rewrite Hd2, Hd1. unfold pools_res. cbn. solve_Permutation.
    - intros w3 l3 Hw3 Hd3. split; [done|]. by rewrite Hd3, Hd2, Hd1. }
  intros [] w3 H3. by apply wp_modify.
Qed.

(** The field takes the pool over. *)
Lemma probing_pool F Y p (f : nvme_device → nvme_device) w :
  probing (R_pool p :: F) Y w → p ≠ 0 → unused (f (w_dev w)) →
  ndev_res (f (w_dev w)) = ndev_res (w_dev w) → bars_res (f (w_dev w)) = bars_res (w_dev w) →
  probe_items (f (w_dev w)) = probe_items (w_dev w) →
  ndev_instance (f (w_dev w)) = ndev_instance (w_dev w) →
  pools_res (f (w_dev w)) ≡ₚ pool_res p ++ pools_res (w_dev w) →
  probing F Y (w <| w_dev ::= f |>).
Proof.
  intros Hw Hp Hu H1 H2 H3 Hn H4. apply (probing_upd _ _ _ _ _ _ Hw Hu); [|by rewrite H3|].
  2: { intros i Hin. rewrite Hn. apply (pb_inst _ _ _ Hw). by right. }
  rewrite H1, H2, H4, (pb_res _ _ _ Hw). unfold pool_res. rewrite (proj2 (Z.eqb_neq p 0) Hp). solve_Permutation.
Qed.

Lemma wp_create_pool F Y w :
  probing F Y w → pools_res (w_dev w) = [] →
  wp dnvme_create_pool (λ r w', r < 0 ∧ pools_gone F Y w w' ∨
    r = 0 ∧ probing F Y w' ∧ off_pools (w_dev w') = off_pools (w_dev w)) w.
Proof.
  intros Hw H0. set (Φ := λ (r : Z) (w' : world), _). pose proof H0 as Hnil. unfold pools_res in H0.
  apply app_eq_nil in H0 as [Hc0 H0]. apply app_eq_nil in H0 as [Hq0 Hm0].
  unfold dnvme_create_pool. apply wp_bind. eapply wp_pool_create; [exact Hw| |].
  { intros w1 Hw1 Hd1. apply wp_ret. left. split; [done|]. split; [done|]. by rewrite Hd1. }
  intros c w1 Hc Hw1 Hd1. rewrite (proj2 (Z.eqb_neq c 0) Hc). apply wp_bind, wp_modify. set (w2 := w1 <| w_dev ::= _ |>).
  assert (w_dev w2 = (w_dev w) <| ndev_res ::= cons (R_pool c) |> <| ndev_cmd_pool := c |>) as Hd2
    by (unfold w2; cbn; by rewrite Hd1).
  assert (probing F Y w2) as Hw2.
  { apply (probing_pool F Y c); try done; [apply Hw1|]. rewrite Hd1. unfold pools_res. cbn.
    by rewrite Hc0, Hq0, Hm0, !app_nil_r. }
  (* the first pool goes again *)
  assert (∀ w' l, probing F Y w' → w_dev w' = (w_dev w2) <| ndev_queue_pool := 0 |> <| ndev_res := l |> ∨ w_dev w' = w_dev w2 →
    wp (d ← get_dev; pool_destroy (ndev_cmd_pool d);; upd_dev (λ d, d <| ndev_cmd_pool := 0 |>);;
        mret (- ENOMEM)) Φ w') as Hout.
  { intros w' l Hw' Hd'. apply wp_bind, wp_gets.
    eapply (wp_clear_then F Y); try done; [apply Hw'|].
    intros w3 l3 Hw3 Hd3. apply wp_ret. left. split; [done|]. split; [done|]. rewrite Hd3.
    destruct Hd' as [-> | ->]; rewrite Hd2; unfold pools_res; cbn; rewrite ?Hq0, ?Hm0; done. }
  apply wp_bind. eapply wp_pool_create; [exact Hw2|intros w3 Hw3 Hd3; apply (Hout w3 []); auto|].
  intros q w3 Hq Hw3 Hd3. rewrite (proj2 (Z.eqb_neq q 0) Hq). apply wp_bind, wp_modify. set (w4 := w3 <| w_dev ::= _ |>).
  assert (w_dev w4 = (w_dev w2) <| ndev_res ::= cons (R_pool q) |> <| ndev_queue_pool := q |>) as Hd4
    by (unfold w4; cbn; by rewrite Hd3).
  assert (probing F Y w4) as Hw4.
  { apply (probing_pool F Y q); try done; [apply Hw3|]. rewrite Hd3, Hd2. unfold pools_res. cbn.
    rewrite Hq0, Hm0. solve_Permutation. }
  apply wp_bind. eapply wp_pool_create; [exact Hw4| |].
  - intros w5 Hw5 Hd5. apply wp_bind, wp_gets.
    eapply (wp_clear_then F Y); try done; [apply Hw5|unfold pools_res; cbn; solve_Permutation|].
    intros w6 l6 Hw6 Hd6. apply (Hout w6 l6 Hw6). left. by rewrite Hd6, Hd5, Hd4.
  - intros m w5 Hm Hw5 Hd5. rewrite (proj2 (Z.eqb_neq m 0) Hm). apply wp_bind, wp_modify, wp_ret. right.
    split; [done|]. split; [|cbn; by rewrite Hd5, Hd4, Hd2].
    apply (probing_pool F Y m); try done; [apply Hw5|]. rewrite Hd5, Hd4, Hd2. unfold pools_res. cbn.
    rewrite Hm0. solve_Permutation.
Qed.

(** ** Memory *)

Lemma probing_items F Y Y' w w' :
  probing F Y w → w_dev w' = w_dev w → w_irqs w' = w_irqs w → holds (probe_items (w_dev w) ++ Y') w' →
  probing F Y' w'.
Proof. intros [Hr Hm Hu Hn Hi] Hd Hq Hh. split; rewrite ?Hd, ?Hq; done. Qed.

Lemma wp_new F Y size (Φ : Z → world → Prop) w :
  probing F Y w → (∀ w', probing F Y w' → w_dev w' = w_dev w → Φ 0 w') →
  (∀ p w', 0 < p → probing F (Blk p AK_kmalloc None :: Y) w' → w_dev w' = w_dev w → Φ p w') →
  wp (kmalloc size) Φ w.
Proof.
  intros Hw H0 H1. apply wp_kmalloc; [apply H0; [by apply probing_hist|done]|].
  intros p Hp Hn. apply H1; [done| |done]. eapply (probing_items _ _ _ _ _ Hw); [done..|].
  rewrite <- Permutation_middle. apply (holds_new p AK_kmalloc None size [] _ w); try done; [|apply Hw].
  by intros [|[]].
Qed.

Lemma wp_del F Y p (Φ : unit → world → Prop) w :
  probing F (Blk p AK_kmalloc None :: Y) w → (∀ w', probing F Y w' → w_dev w' = w_dev w → Φ tt w') →
  wp (kfree p) Φ w.
Proof.
  intros Hw HΦ. pose proof (pb_mem _ _ _ Hw) as Hm. rewrite <- Permutation_middle in Hm.
  destruct (holds_blk _ _ _ _ _ Hm) as (Hp & b & Hb & Hk & _).
  apply wp_kfree. left. split_and!; [by exists b| |done]. apply HΦ; [|done].
  eapply (probing_items _ _ _ _ _ Hw); [done..|]. by eapply (holds_free p), Hm.
Qed.

(** ** The structure and the character device *)

Lemma wp_drop_pools F Y w : probing F Y w → bare (w_dev w) →
  wp dnvme_destroy_pool (λ _ w', probing F Y w' ∧ bare (w_dev w') ∧ pools_res (w_dev w') = []) w.
Proof.
  intros Hw Hb. eapply wp_mono; [by apply wp_destroy_pool|]. intros _ w' (Hw' & Hp & Ho).
  split_and!; [done| |done]. change (bare (off_pools (w_dev w'))). by rewrite Ho.
Qed.
Lemma wp_drop_ndev X p w :
  probing [] (Blk p AK_kmalloc None :: X) w → bare (w_dev w) → pools_res (w_dev w) = [] →
  wp (kfree p) (λ _, absent X) w.
Proof.
  intros Hw [Hb Hi] Hp. eapply wp_del; [exact Hw|]. intros w' Hw' Hd. split_and!; [| |apply Hw'].
  - pose proof (pb_mem _ _ _ Hw') as Hm. by rewrite Hd, Hi in Hm.
  - pose proof (pb_res _ _ _ Hw') as Hr. rewrite Hd, no_bars_res, Hp in Hr by done.
    rewrite Hd. by apply Permutation_nil_r.
Qed.
Lemma wp_drop_instance F F' Y i w : probing F Y w → F ≡ₚ R_instance i :: F' →
  wp (ida_simple_remove (ndev_instance (w_dev w)))
    (λ _ w', probing F' Y w' ∧ ∃ l, w_dev w' = (w_dev w) <| ndev_res := l |>) w.
Proof.
  intros Hw HF. rewrite (pb_inst _ _ _ Hw i) by (rewrite HF; by left).
  apply wp_bind. eapply wp_tell; [exact Hw|]. intros w1 Hw1 Hd1.
  eapply wp_give_back; [exact Hw1|exact HF|]. intros w2 Hw2 Hd2. by rewrite <- Hd1.
Qed.
Lemma bare_res d l : bare d → bare (d <| ndev_res := l |>).
Proof. done. Qed.

(** The end of [dnvme_release_device] and of the error paths of [dnvme_alloc_device]. *)
Lemma wp_undo_pools {A} (v : A) X p w :
  probing [] (Blk p AK_kmalloc None :: X) w → bare (w_dev w) →
  wp (dnvme_destroy_pool;; kfree p;; mret v) (λ r w', r = v ∧ absent X w') w.
Proof.
  intros Hw Hb. apply wp_bind. eapply wp_mono; [by apply wp_drop_pools|]. intros _ w1 (Hw1 & Hb1 & Hp1).
  apply wp_bind. eapply wp_mono; [by apply wp_drop_ndev|]. intros [] w2 Hw2. by apply wp_ret.
Qed.
Lemma wp_undo_instance {A} (v : A) X p i w :
  probing [R_instance i] (Blk p AK_kmalloc None :: X) w → bare (w_dev w) →
  wp (d ← get_dev; ida_simple_remove (ndev_instance d);; dnvme_destroy_pool;; kfree p;; mret v)
    (λ r w', r = v ∧ absent X w') w.
Proof.
  intros Hw Hb. apply wp_bind, wp_gets, wp_bind.
  eapply wp_mono; [by eapply wp_drop_instance|]. intros _ w1 (Hw1 & l1 & Hd1).
  apply (wp_undo_pools v X p w1 Hw1). by rewrite Hd1.
Qed.
Lemma wp_undo_name {A} (v : A) X p i w :
  probing [R_name; R_instance i] (Blk p AK_kmalloc None :: X) w → bare (w_dev w) →
  wp (tell PC_free_name;; release_res R_name;; d ← get_dev; ida_simple_remove (ndev_instance d);;
      dnvme_destroy_pool;; kfree p;; mret v) (λ r w', r = v ∧ absent X w') w.
Proof.
  intros Hw Hb. apply wp_bind. eapply wp_tell; [exact Hw|]. intros w1 Hw1 Hd1.
  apply wp_bind. eapply wp_give_back; [exact Hw1|done|]. intros w2 Hw2 [l Hd2].
  apply (wp_undo_instance v X p i w2 Hw2). rewrite Hd2, Hd1. by apply bare_res.
Qed.
Lemma wp_release_device X p i w :
  probing [R_cdev; R_name; R_instance i] (Blk p AK_kmalloc None :: X) w → bare (w_dev w) →
  wp (dnvme_release_device p) (λ _ w', absent X w') w.
Proof.
  intros Hw Hb. apply wp_bind. eapply wp_tell; [exact Hw|]. intros w1 Hw1 Hd1.
  apply wp_bind. eapply wp_give_back; [exact Hw1|done|]. intros w2 Hw2 [l Hd2].
  eapply wp_mono; [apply (wp_undo_name tt X p i w2 Hw2); rewrite Hd2, Hd1; by apply bare_res|].
  by intros r w3 [_ ?].
Qed.

Lemma zero_probing X p pdev w :
  holds (Blk p AK_kmalloc None :: X) w → w_irqs w = [] →
  probing [] (Blk p AK_kmalloc None :: X) (w <| w_dev ::= λ _, zero_dev pdev |>).
Proof.
  intros Hh Hi. split; [done|by eapply holds_ext, Hh| |by intros i ?%elem_of_nil|done].
  split; [|done]. intros j _. unfold bar_of. cbn. by destruct (j =? 0).
Qed.
Lemma zero_bare pdev : bare (zero_dev pdev).
Proof. split; [|done]. intros j. unfold bar_of. cbn. by destruct (j =? 0). Qed.

(** The instance is recorded in its field at once. *)
Lemma wp_ida_get {A} Y (k : Z → M A) (Φ : A → world → Prop) w :
  probing [] Y w →
  (∀ r w', r < 0 → probing [] Y w' → w_dev w' = w_dev w → wp (k r) Φ w') →
  (∀ r w', 0 ≤ r → probing [R_instance r] Y (w' <| w_dev ::= λ d, d <| ndev_instance := r |> |>) →
    off_pools (w_dev w') = off_pools (w_dev w) → wp (k r) Φ w') →
  wp (ida_simple_get ≫= k) Φ w.
Proof.
  intros Hw Hf Hs. apply wp_bind. unfold ida_simple_get. apply wp_bind.
  eapply wp_call; [exact Hw|]. intros r0 w1 Hw1 Hd1. cbv zeta. set (r := s32 r0).
  destruct (Z.ltb_spec r 0); [apply wp_ret; by apply Hf|].
  apply wp_bind, wp_modify, wp_ret, Hs; [lia| |by rewrite <- Hd1].
  apply (probing_upd [] [R_instance r] Y Y
    (λ d, d <| ndev_res ::= cons (R_instance r) |> <| ndev_instance := r |>) w1 Hw1); [apply Hw1| |done|].
  - cbn. rewrite (pb_res _ _ _ Hw1). solve_Permutation.
  - by intros i [= ->]%list_elem_of_singleton.
Qed.

(** What a probed device has beside BARs and pools. *)
Definition chrdev (i : Z) : list probe_res := [R_cdev; R_name; R_instance i].

Lemma wp_alloc_device X pdev w : absent X w →
  wp (dnvme_alloc_device pdev) (λ p w', p = 0 ∧ absent X w' ∨
    0 < p ∧ (∃ i, probing (chrdev i) (Blk p AK_kmalloc None :: X) w') ∧ bare (w_dev w') ∧
    is_irq_type (ndev_irq_set (w_dev w')) = NVME_INT_NONE) w.
Proof.
  intros (Hh & Hr & Hq). unfold dnvme_alloc_device. apply wp_bind, wp_kmalloc.
  { apply wp_ret. left. split; [done|]. split; [|done]. by eapply holds_ext, Hh. }
  intros p Hp Hn. rewrite (proj2 (Z.eqb_neq p 0)) by lia. set (Φ := λ (r : Z) (w' : world), _).
  assert (∀ (m : M Z) w', wp m (λ r w'', r = 0 ∧ absent X w'') w' → wp m Φ w') as Hfail.
  { intros m w' Hm. eapply wp_mono; [exact Hm|]. intros r w'' ?. by left. }
  apply wp_bind, wp_modify. cbv zeta. set (w1 := _ <| w_dev ::= _ |>).
  assert (probing [] (Blk p AK_kmalloc None :: X) w1) as Hw1.
  { apply zero_probing; [|done]. apply (holds_new p AK_kmalloc None SIZEOF_nvme_device [] _ w); try done.
    by intros [|[]]. }
  assert (w_dev w1 = zero_dev pdev) as Hd1 by done. pose proof (zero_bare pdev) as Hb. clearbody w1.
  apply wp_bind. eapply wp_mono; [apply wp_create_pool; [exact Hw1|by rewrite Hd1]|].
  intros r w2 [(Hlt & Hw2 & Hp2 & Ho2)|(-> & Hw2 & Ho2)].
  { rewrite (proj2 (Z.ltb_lt r 0)) by done. apply Hfail, wp_bind.
    eapply wp_mono; [apply (wp_drop_ndev X p w2 Hw2); [|done]|intros [] w3 H3; by apply wp_ret].
    change (bare (off_pools (w_dev w2))). rewrite Ho2, Hd1. exact Hb. }
  assert (bare (w_dev w2)) as Hb2 by (change (bare (off_pools (w_dev w2))); by rewrite Ho2, Hd1).
  cbn [Z.ltb Z.compare]. eapply wp_ida_get; [exact Hw2| |].
  { intros r w3 Hlt Hw3 Hd3. rewrite (proj2 (Z.ltb_lt r 0)) by done. apply Hfail, wp_undo_pools; [done|by rewrite Hd3]. }
  intros i w3 Hi Hw3 Ho3. rewrite (proj2 (Z.ltb_ge i 0)) by done. apply wp_bind, wp_modify.
  set (w4 := w3 <| w_dev ::= _ |>) in *.
  assert (bare (w_dev w4)) as Hb4 by (change (bare (off_pools (w_dev w3))); by rewrite Ho3). clearbody w4.
  apply wp_bind. eapply wp_call; [exact Hw3|]. intros r w5 Hw5 Hd5.
  destruct (Z.eqb_spec (s32 r) 0); cbn [negb]; [|apply Hfail, (wp_undo_instance _ _ _ i); [done|by rewrite Hd5]].
  apply wp_bind. eapply wp_acquire; [exact Hw5|done|]. intros w6 Hw6 Hd6.
  apply wp_bind. eapply wp_call; [exact Hw6|]. intros r' w7 Hw7 Hd7.
  assert (bare (w_dev w7)) as Hb7 by (rewrite Hd7, Hd6, Hd5; done).
  destruct (Z.eqb_spec (s32 r') 0); cbn [negb]; [|by apply Hfail, (wp_undo_name _ _ _ i)].
  apply wp_bind. eapply wp_acquire; [exact Hw7|done|]. intros w8 Hw8 Hd8.
  apply wp_bind, wp_bind, wp_modify, wp_ret, wp_ret. right. split; [done|]. split; [exists i|split; [change (bare (w_dev w8)); by rewrite Hd8|done]].
  apply probing_dev; try done. apply Hw8.
Qed.

Lemma wp_reads {A} F Y (P : A → Prop) (m : M A) (Φ : A → world → Prop) w :
  probing F Y w → reads P m → (∀ r w', P r → probing F Y w' → w_dev w' = w_dev w → Φ r w') → wp m Φ w.
Proof.
  intros Hw Hm HΦ. eapply wp_mono; [apply Hm|]. intros r w' [Hh Hr].
  apply HΦ; [done|by eapply probing_hist_only|by apply hist_only_dev].
Qed.

(** ** The PCI function *)

Definition pci_enabled (cap : Z) (d : nvme_device) : nvme_device :=
  d <| ndev_res ::= cons R_enabled |> <| ndev_reg_cap := cap |>
    <| ndev_q_depth := u32 (NVME_CAP_MQES cap + 1) |>
    <| ndev_db_stride := u32 (Z.shiftl 1 (NVME_CAP_STRIDE cap)) |>.

Lemma wp_pci_enable F Y w : probing F Y w →
  wp dnvme_pci_enable (λ r w', r < 0 ∧ probing F Y w' ∧ w_dev w' = w_dev w ∨
    r = 0 ∧ probing (R_enabled :: F) Y w' ∧ ∃ cap, w_dev w' = pci_enabled cap (w_dev w)) w.
Proof.
  intros Hw. unfold dnvme_pci_enable. apply wp_bind, wp_gets. cbv zeta.
  apply wp_bind. eapply wp_tell; [exact Hw|]. intros w1 Hw1 Hd1.
  apply wp_bind. eapply wp_call; [exact Hw1|]. intros r w2 Hw2 Hd2.
  destruct (Z.ltb_spec (s32 r) 0); [apply wp_ret; left; by rewrite Hd2, Hd1|].
  apply wp_bind. eapply wp_acquire; [exact Hw2|done|]. intros w3 Hw3 Hd3.
  apply wp_bind. eapply (wp_reads _ _ (λ _, True)); [exact Hw3| |].
  { unfold dnvme_readq, lo_hi_readq, readl. solve_reads. done. }
  intros cap w4 _ Hw4 Hd4. apply wp_bind, wp_modify, wp_ret. right. split; [done|]. split.
  - apply probing_dev; try done. apply Hw4.
  - exists cap. cbn. rewrite Hd4, Hd3, Hd2, Hd1. done.
Qed.

Lemma wp_pci_disable F Y w : probing (R_enabled :: F) Y w →
  wp dnvme_pci_disable (λ _ w', probing F Y w' ∧ ∃ l, w_dev w' = (w_dev w) <| ndev_res := l |>) w.
Proof.
  intros Hw. unfold dnvme_pci_disable. apply wp_bind, wp_gets.
  rewrite decide_True by (rewrite (pb_res _ _ _ Hw); set_solver).
  apply wp_bind. eapply wp_tell; [exact Hw|]. intros w1 Hw1 Hd1.
  eapply wp_give_back; [exact Hw1|done|]. intros w2 Hw2 Hd2. by rewrite <- Hd1.
Qed.

(** ** Capabilities *)

(** A structure that is allocated and filled in by [body]. *)
Lemma wp_get_struct {A} F Y (none : bool) size (ptr : A → Z) (body : Z → M (option A)) w :
  probing F Y w → (∀ p, reads (λ c, ∃ x, c = Some x ∧ ptr x = p) (body p)) →
  wp (if none then mret None else p ← kmalloc size; if p =? 0 then mret None else body p)
    (λ c w', probing F (ptr_items ptr c ++ Y) w' ∧ w_dev w' = w_dev w) w.
Proof.
  intros Hw Hb. destruct none; [by apply wp_ret|]. apply wp_bind. eapply wp_new; [exact Hw| |].
  { intros w1 Hw1 Hd1. by apply wp_ret. }
  intros p w1 Hp Hw1 Hd1. rewrite (proj2 (Z.eqb_neq p 0)) by lia.
  eapply wp_reads; [exact Hw1|apply Hb|]. intros c w2 (x & -> & <-) Hw2 Hd2. by rewrite Hd2.
Qed.

(** Finding, reading and recording one capability, whose field was empty. *)
Lemma wp_cap {A B} F Y (ptr : A → Z) (find : M Z) (get : Z → M (option A))
    (f : option A → nvme_capability → nvme_capability) (k : M B) Φ w :
  probing F Y w → tells find →
  (∀ o w, probing F Y w →
    wp (get o) (λ c w', probing F (ptr_items ptr c ++ Y) w' ∧ w_dev w' = w_dev w) w) →
  (∀ c, caps_items (f c (ndev_cap (w_dev w))) ≡ₚ ptr_items ptr c ++ caps_items (ndev_cap (w_dev w))) →
  (∀ c w', probing F Y w' → w_dev w' = (w_dev w) <| ndev_cap ::= f c |> → wp k Φ w') →
  wp (o ← find; c ← get o; upd_cap (f c);; k) Φ w.
Proof.
  intros Hw Ht Hg Hf Hk. apply wp_bind. eapply wp_mono; [apply Ht|]. intros o w1 Hh.
  pose proof (hist_only_dev _ _ Hh) as Hd1. apply wp_bind.
  eapply wp_mono; [by eapply Hg, probing_hist_only|]. intros c w2 [Hw2 Hd2]. apply wp_bind, wp_modify, (Hk c).
  - apply (probing_upd _ _ _ _ _ _ Hw2); [apply Hw2|apply Hw2| |apply Hw2].
    unfold probe_items. cbn. rewrite Hd2, Hd1, Hf. solve_Permutation.
  - cbn. by rewrite Hd2, Hd1.
Qed.

Lemma wp_get_msi F Y o w : probing F Y w →
  wp (pci_get_msi_cap o) (λ c w', probing F (ptr_items msi_ptr c ++ Y) w' ∧ w_dev w' = w_dev w) w.
Proof.
  intros Hw. apply wp_get_struct; [done|]. intros p. unfold pci_msi_read_mc, pci_read_config.
  solve_reads; by eexists.
Qed.
Lemma wp_get_msix F Y o w : probing F Y w →
  wp (pci_get_msix_cap o) (λ c w', probing F (ptr_items msix_ptr c ++ Y) w' ∧ w_dev w' = w_dev w) w.
Proof. intros Hw. apply wp_get_struct; [done|]. intros p. unfold pci_read_config. solve_reads; by eexists. Qed.
Lemma wp_get_pm F Y o w : probing F Y w →
  wp (pci_get_pm_cap o) (λ c w', probing F (ptr_items pm_ptr c ++ Y) w' ∧ w_dev w' = w_dev w) w.
Proof. intros Hw. apply wp_get_struct; [done|]. intros p. unfold pci_read_config. solve_reads; by eexists. Qed.
Lemma wp_get_express F Y o w : probing F Y w →
  wp (pci_get_express_cap o) (λ c w', probing F (ptr_items exp_ptr c ++ Y) w' ∧ w_dev w' = w_dev w) w.
Proof. intros Hw. apply wp_get_struct; [done|]. intros p. unfold pci_read_config. solve_reads; by eexists. Qed.
Lemma wp_get_ltr F Y o w : probing F Y w →
  wp (pci_ext_get_ltr_cap o) (λ c w', probing F (ptr_items ltr_ptr c ++ Y) w' ∧ w_dev w' = w_dev w) w.
Proof. intros Hw. apply wp_get_struct; [done|]. intros p. solve_reads; by eexists. Qed.
Lemma wp_get_l1ss F Y o w : probing F Y w →
  wp (pci_ext_get_l1ss_cap o) (λ c w', probing F (ptr_items l1ss_ptr c ++ Y) w' ∧ w_dev w' = w_dev w) w.
Proof. intros Hw. apply wp_get_struct; [done|]. intros p. solve_reads; by eexists. Qed.

Lemma tells_find_cap id : tells (pci_find_capability id).
Proof. unfold pci_find_capability. solve_tells. Qed.
Lemma tells_find_ext_cap id : tells (pci_find_ext_capability id).
Proof. unfold pci_find_ext_capability. solve_tells. Qed.

Ltac cap_step Hw get H := eapply wp_cap;
  [exact Hw|first [apply tells_find_cap|apply tells_find_ext_cap]|intros; by apply get|
   intros c; rewrite H; unfold caps_items; cbn; solve_Permutation|].
Lemma wp_init_capability F Y w : probing F Y w → ndev_cap (w_dev w) = no_capability →
  wp dnvme_init_capability (λ r w', r = 0 ∧ probing F Y w' ∧
    ∃ c, w_dev w' = (w_dev w) <| ndev_cap := c |>) w.
Proof.
  intros Hw H0. unfold dnvme_init_capability.
  cap_step Hw wp_get_msi H0. intros c1 w1 Hw1 Hd1.
  assert (ndev_cap (w_dev w1) = no_capability <| cap_msi := c1 |>) as H1 by (rewrite Hd1; cbn; by rewrite H0).
  cap_step Hw1 wp_get_msix H1. intros c2 w2 Hw2 Hd2.
  assert (ndev_cap (w_dev w2) = no_capability <| cap_msi := c1 |> <| cap_msix := c2 |>) as H2
    by (rewrite Hd2; cbn; by rewrite H1).
  cap_step Hw2 wp_get_pm H2. intros c3 w3 Hw3 Hd3.
  assert (ndev_cap (w_dev w3) = no_capability <| cap_msi := c1 |> <| cap_msix := c2 |> <| cap_pm := c3 |>)
    as H3 by (rewrite Hd3; cbn; by rewrite H2).
  cap_step Hw3 wp_get_express H3. intros c4 w4 Hw4 Hd4.
  assert (ndev_cap (w_dev w4) = no_capability <| cap_msi := c1 |> <| cap_msix := c2 |> <| cap_pm := c3 |>
    <| cap_express := c4 |>) as H4 by (rewrite Hd4; cbn; by rewrite H3).
  cap_step Hw4 wp_get_ltr H4. intros c5 w5 Hw5 Hd5.
  assert (ndev_cap (w_dev w5) = no_capability <| cap_msi := c1 |> <| cap_msix := c2 |> <| cap_pm := c3 |>
    <| cap_express := c4 |> <| cap_ltr := c5 |>) as H5 by (rewrite Hd5; cbn; by rewrite H4).
  cap_step Hw5 wp_get_l1ss H5. intros c6 w6 Hw6 Hd6.
  apply wp_ret. split; [done|]. split; [done|]. eexists. rewrite Hd6, Hd5, Hd4, Hd3, Hd2, Hd1. done.
Qed.

(** Freeing memory whose field [f] clears. *)
Lemma wp_del_upd F Y p (f : nvme_device → nvme_device) (Φ : unit → world → Prop) w :
  probing F (Blk p AK_kmalloc None :: Y) (w <| w_dev ::= f |>) →
  (∀ w', probing F Y (w' <| w_dev ::= f |>) → w_dev w' = w_dev w → Φ tt w') → wp (kfree p) Φ w.
Proof.
  intros Hw HΦ. pose proof (pb_mem _ _ _ Hw) as Hm. rewrite <- Permutation_middle in Hm.
  destruct (holds_blk _ _ _ _ _ Hm) as (Hp & b & Hb & Hk & _).
  apply wp_kfree. left. split_and!; [by exists b| |done]. apply HΦ; [|done].
  eapply (probing_items _ _ _ _ _ Hw); [done..|]. by eapply (holds_free p), Hm.
Qed.

Lemma wp_free_cap {A B} F Y (ptr : A → Z) (o : option A) (f : nvme_capability → nvme_capability) (k : M B) Φ w :
  probing F Y w →
  caps_items (ndev_cap (w_dev w)) ≡ₚ ptr_items ptr o ++ caps_items (f (ndev_cap (w_dev w))) →
  (∀ w', probing F Y w' → w_dev w' = (w_dev w) <| ndev_cap ::= f |> → wp k Φ w') →
  wp (free_cap ptr o;; upd_cap f;; k) Φ w.
Proof.
  intros Hw Hf Hk. apply wp_bind. destruct o as [c|]; cbn [free_cap ptr_items] in *.
  - set (w0 := w <| w_dev ::= λ d, d <| ndev_cap ::= f |> |>).
    assert (probing F (Blk (ptr c) AK_kmalloc None :: Y) w0) as Hw0.
    { apply (probing_upd _ _ _ _ _ _ Hw); [apply Hw|apply Hw| |apply Hw].
      unfold probe_items. cbn. rewrite Hf. solve_Permutation. }
    eapply wp_del_upd; [exact Hw0|]. intros w1 Hw1 Hd1. apply wp_bind, wp_modify, Hk; [done|].
    cbn. by rewrite Hd1.
  - apply wp_ret, wp_bind, wp_modify, Hk; [|done].
    apply (probing_upd _ _ _ _ _ _ Hw); [apply Hw|apply Hw| |apply Hw]. unfold probe_items. cbn. by rewrite Hf.
Qed.

Ltac free_step Hw Hd :=
  eapply (wp_free_cap _ _); [exact Hw|rewrite ?Hd; unfold caps_items; cbn; solve_Permutation|].
Lemma wp_deinit_capability F Y w : probing F Y w →
  wp dnvme_deinit_capability (λ _ w', probing F Y w' ∧
    w_dev w' = (w_dev w) <| ndev_cap := no_capability |>) w.
Proof.
  intros Hw. unfold dnvme_deinit_capability. apply wp_bind, wp_gets. cbv zeta.
  free_step Hw Hw. intros w1 Hw1 Hd1.
  free_step Hw1 Hd1. intros w2 Hw2 Hd2. rewrite Hd1 in Hd2.
  free_step Hw2 Hd2. intros w3 Hw3 Hd3. rewrite Hd2 in Hd3.
  free_step Hw3 Hd3. intros w4 Hw4 Hd4. rewrite Hd3 in Hd4.
  free_step Hw4 Hd4. intros w5 Hw5 Hd5. rewrite Hd4 in Hd5.
  free_step Hw5 Hd5. intros w6 Hw6 Hd6. rewrite Hd5 in Hd6.
  apply wp_ret. split; [done|]. rewrite Hd6. done.
Qed.

(** ** Controller memory buffer *)

Lemma reads_cmb_setup cmb : reads (λ r, r.1 ≤ 0 ∧ cmb_ptr r.2 = cmb_ptr cmb) (dnvme_cmb_setup cmb).
Proof.
  unfold dnvme_cmb_setup, get_bar0, dnvme_readl, readl, dnvme_writel, dnvme_writeq, lo_hi_writeq, writel, call, tell.
  solve_reads; cbn; repeat case_match; cbn; split; try done; lia.
Qed.

Lemma wp_map_cmb F Y w : probing F Y w → ndev_cmb (w_dev w) = None →
  wp dnvme_map_cmb (λ r w', probing F Y w' ∧
    (r < 0 ∧ w_dev w' = w_dev w ∨ r = 0 ∧ ∃ c, w_dev w' = (w_dev w) <| ndev_cmb := Some c |>)) w.
Proof.
  intros Hw H0. unfold dnvme_map_cmb. apply wp_bind, wp_gets. rewrite H0.
  destruct (_ =? 0); [apply wp_ret; split; [done|by left]|].
  apply wp_bind. eapply wp_new; [exact Hw|intros w1 Hw1 Hd1; apply wp_ret; split; [done|by left]|].
  intros p w1 Hp Hw1 Hd1. rewrite (proj2 (Z.eqb_neq p 0)) by lia.
  apply wp_bind. eapply wp_reads; [exact Hw1|apply reads_cmb_setup|].
  intros [r cmb] w2 [Hr Hc] Hw2 Hd2. cbn in Hr, Hc. destruct (Z.ltb_spec r 0).
  - apply wp_bind. eapply wp_del; [exact Hw2|]. intros w3 Hw3 Hd3. apply wp_ret.
    split; [done|]. left. split; [done|congruence].
  - apply wp_bind, wp_modify, wp_ret. split; [|right; split; [done|]; exists cmb; cbn; by rewrite Hd2, Hd1].
    apply (probing_upd _ _ _ _ _ _ Hw2); [apply Hw2|apply Hw2| |apply Hw2].
    unfold probe_items. cbn. rewrite Hd2, Hd1, H0, Hc. solve_Permutation.
Qed.

Lemma wp_unmap_cmb F Y w : probing F Y w →
  wp dnvme_unmap_cmb (λ _ w', probing F Y w' ∧ w_dev w' = (w_dev w) <| ndev_cmb := None |>) w.
Proof.
  intros Hw. unfold dnvme_unmap_cmb. apply wp_bind, wp_gets.
  destruct (ndev_cmb (w_dev w)) as [c|] eqn:Hc.
  2: { apply wp_ret. split; [done|]. destruct w as [d]. cbn in *. destruct d. cbn in *. by subst. }
  apply wp_bind. set (f := λ d : nvme_device, d <| ndev_cmb := None |>).
  assert (probing F (Blk (cmb_ptr c) AK_kmalloc None :: Y) (w <| w_dev ::= f |>)) as Hw0.
  { apply (probing_upd _ _ _ _ _ _ Hw); [apply Hw|apply Hw| |apply Hw].
    unfold probe_items. cbn. rewrite Hc. solve_Permutation. }
  eapply wp_del_upd; [exact Hw0|]. intros w1 Hw1 Hd1. apply wp_modify. split; [done|]. cbn. by rewrite Hd1.
Qed.

(** ** Persistent memory region *)

(** [polled fuel enable]: [fuel] rounds are enough for the poll of PMRSTS. *)
Definition polled (fuel : nat) (enable : bool) : Prop :=
  ∀ bar0 timeout w, pmr_loop fuel bar0 enable timeout w ≠ Hang.

Lemma pmr_loop_reads bar0 enable timeout fuel : ∀ w, pmr_loop fuel bar0 enable timeout w ≠ Hang →
  wp (pmr_loop fuel bar0 enable timeout) (λ r w', hist_only w w' ∧ r ≤ 0) w.
Proof.
  induction fuel as [|fuel IH]; intros w Hne; [done|]. cbn [pmr_loop] in *.
  apply wp_bind, wp_bind, wp_ext, wp_ret. set (w1 := w <| w_hist := _ |>).
  assert (hist_only w w1) as H1 by apply hist_only_cons.
  destruct (_ || _) eqn:Hb; [by apply wp_ret|].
  apply wp_bind, wp_bind, wp_ext, wp_ret. set (w2 := w1 <| w_hist := _ |>).
  assert (hist_only w w2) as H2 by (transitivity w1; [done|apply hist_only_cons]).
  destruct (time_after _ _) eqn:Ht; [by apply wp_ret|].
  eapply wp_mono; [apply IH|intros r w' [Hh Hr]; split; [by transitivity w2|done]].
  intros Hh. apply Hne. unfold dnvme_readl, readl, get_jiffies, ext, mbind, M_bind, mret, M_ret.
  cbn. rewrite Hb. unfold ext, mbind, M_bind, mret, M_ret. cbn.
  unfold w2, w1 in Ht. cbn in Ht. by rewrite Ht.
Qed.

Lemma reads_config_pmr fuel pmr enable : polled fuel enable →
  reads (λ r, r ≤ 0) (dnvme_config_pmr fuel pmr enable).
Proof.
  intros Hp. unfold dnvme_config_pmr, get_bar0, dnvme_readl, readl, dnvme_writel, writel, get_jiffies.
  solve_reads; try done. all: intros w; apply pmr_loop_reads, Hp.
Qed.

Lemma reads_pmr_parse pmr : reads (λ r, r.1 ≤ 0 ∧ pmr_ptr r.2 = pmr_ptr pmr) (dnvme_pmr_parse_capability pmr).
Proof. unfold dnvme_pmr_parse_capability, dnvme_readl, readl. solve_reads; done. Qed.
Lemma reads_enable_cba pmr : reads (λ r, r.1 ≤ 0 ∧ pmr_ptr r.2 = pmr_ptr pmr) (dnvme_pmr_enable_cba pmr).
Proof.
  unfold dnvme_pmr_enable_cba, get_bar0, dnvme_readl, readl, dnvme_writel, writel, call. solve_reads; done.
Qed.
Lemma tells_disable_cba pmr : tells (dnvme_pmr_disable_cba pmr).
Proof. unfold dnvme_pmr_disable_cba, get_bar0, dnvme_readl, readl, dnvme_writel, writel. solve_tells. Qed.
Lemma tells_reads {A} (m : M A) : tells m → reads (λ _, True) m.
Proof. intros Hm w. eapply wp_mono; [apply Hm|done]. Qed.

Lemma wp_map_pmr fuel F Y w : probing F Y w → ndev_pmr (w_dev w) = None → polled fuel true →
  wp (dnvme_map_pmr fuel) (λ r w', probing F Y w' ∧
    (r < 0 ∧ w_dev w' = w_dev w ∨ r = 0 ∧ ∃ c, w_dev w' = (w_dev w) <| ndev_pmr := Some c |>)) w.
Proof.
  intros Hw H0 Hp. unfold dnvme_map_pmr. apply wp_bind, wp_gets. rewrite H0.
  destruct (_ =? 0); [apply wp_ret; split; [done|by left]|].
  apply wp_bind. eapply wp_new; [exact Hw|intros w1 Hw1 Hd1; apply wp_ret; split; [done|by left]|].
  intros p w1 Hpos Hw1 Hd1. rewrite (proj2 (Z.eqb_neq p 0)) by lia. cbv zeta. set (Φ := λ (r : Z) (w' : world), _).
  assert (∀ r w', r < 0 → probing F (Blk p AK_kmalloc None :: Y) w' → w_dev w' = w_dev w →
    wp (kfree p;; mret r) Φ w') as Hout.
  { intros r w' Hr Hw' Hd'. apply wp_bind. eapply wp_del; [exact Hw'|]. intros w2 Hw2 Hd2.
    apply wp_ret. split; [done|]. left. split; [done|congruence]. }
  apply wp_bind. eapply wp_reads; [exact Hw1|apply reads_pmr_parse|].
  intros [r1 pmr1] w2 [Hr1 Hc1] Hw2 Hd2. cbn in Hr1, Hc1.
  destruct (Z.ltb_spec r1 0); [apply Hout; [done|done|congruence]|].
  apply wp_bind. eapply wp_reads; [exact Hw2|apply reads_enable_cba|].
  intros [r2 pmr2] w3 [Hr2 Hc2] Hw3 Hd3. cbn in Hr2, Hc2.
  destruct (Z.ltb_spec r2 0); [apply Hout; [done|done|congruence]|].
  apply wp_bind. eapply wp_reads; [exact Hw3|by apply reads_config_pmr|]. intros r3 w4 Hr3 Hw4 Hd4.
  destruct (Z.ltb_spec r3 0).
  - apply wp_bind. eapply wp_reads; [exact Hw4|apply tells_reads, tells_disable_cba|].
    intros _ w5 _ Hw5 Hd5. apply Hout; [done|done|congruence].
  - apply wp_bind, wp_modify, wp_ret. assert (w_dev w4 = w_dev w) as Hd by congruence.
    split; [|right; split; [done|]; exists pmr2; cbn; by rewrite Hd].
    apply (probing_upd _ _ _ _ _ _ Hw4); [apply Hw4|apply Hw4| |apply Hw4].
    unfold probe_items. cbn. rewrite Hd, H0, Hc2, Hc1. cbn. solve_Permutation.
Qed.

Lemma wp_unmap_pmr fuel F Y w : probing F Y w → polled fuel false →
  wp (dnvme_unmap_pmr fuel) (λ _ w', probing F Y w' ∧ w_dev w' = (w_dev w) <| ndev_pmr := None |>) w.
Proof.
  intros Hw Hp. unfold dnvme_unmap_pmr. apply wp_bind, wp_gets.
  destruct (ndev_pmr (w_dev w)) as [c|] eqn:Hc.
  2: { apply wp_ret. split; [done|]. destruct w as [d]. cbn in *. destruct d. cbn in *. by subst. }
  apply wp_bind, wp_bind. eapply wp_reads; [exact Hw|by apply reads_config_pmr|]. intros r w1 _ Hw1 Hd1.
  apply wp_ret, wp_bind. eapply wp_reads; [exact Hw1|apply tells_reads, tells_disable_cba|].
  intros _ w2 _ Hw2 Hd2. apply wp_bind. set (f := λ d : nvme_device, d <| ndev_pmr := None |>).
  assert (probing F (Blk (pmr_ptr c) AK_kmalloc None :: Y) (w2 <| w_dev ::= f |>)) as Hw0.
  { apply (probing_upd _ _ _ _ _ _ Hw2); [apply Hw2|apply Hw2| |apply Hw2].
    unfold probe_items. cbn. rewrite Hd2, Hd1, Hc. cbn. solve_Permutation. }
  eapply wp_del_upd; [exact Hw0|]. intros w3 Hw3 Hd3. apply wp_modify. split; [done|].
  cbn. by rewrite Hd3, Hd2, Hd1.
Qed.
End probe_spec.
