(* ===== verification/ProbeLife.v ===== *)
(** * Probe is all or nothing, removal returns everything

    The two claims of this file: what [dnvme_probe] leaves behind on each of its paths, and
    that a device that was probed and used is removed without a trace. *)

From S2P Require Import Prelude Types Kernel Io Own Prp Ring Irq Queue Meta Ioctl Core Inv Demo QueueSpec IrqSpec IrqSet IrqRun Trace QueueOps MetaSpec Clock Life Probe Frame ProbeSpec.

Section probe_life.
Context {E : Env} {C : Clock}.
Implicit Types (F : list probe_res) (Y : list item).

(** ** The error paths of [dnvme_probe] *)

Lemma items_off_bars d d' : off_bars d' = off_bars d → probe_items d' = probe_items d.
Proof. intros H. change (probe_items (off_bars d') = probe_items (off_bars d)). by rewrite H. Qed.

Section undo.
Context {A : Type} (v : A) (X : list item) (p i : Z).
Local Abbreviation Y := (Blk p AK_kmalloc None :: X).
Local Abbreviation undone := (λ (r : A) w', r = v ∧ absent X w').

Lemma wp_undo_ctx w : probing (chrdev i) Y w → bare (w_dev w) →
  wp (dnvme_release_device p;; mret v) undone w.
Proof.
  intros Hw Hb. apply wp_bind. eapply wp_mono; [by eapply wp_release_device|]. intros [] w' Hw'. by apply wp_ret.
Qed.
Lemma wp_undo_res w : probing (chrdev i) Y w → probe_items (w_dev w) = [] →
  wp (dnvme_unmap_resource;; dnvme_release_device p;; mret v) undone w.
Proof.
  intros Hw Hi. apply wp_bind. eapply wp_mono; [by apply wp_unmap_resource|]. intros [] w' (Hw' & Hn & Ho).
  apply wp_undo_ctx; [done|]. split; [done|]. by rewrite (items_off_bars _ _ Ho).
Qed.
Lemma wp_undo_pci w : probing (R_enabled :: chrdev i) Y w → probe_items (w_dev w) = [] →
  wp (dnvme_pci_disable;; dnvme_unmap_resource;; dnvme_release_device p;; mret v) undone w.
Proof.
  intros Hw Hi. apply wp_bind. eapply wp_mono; [by apply wp_pci_disable|]. intros [] w' (Hw' & l & Hd).
  apply wp_undo_res; [done|]. by rewrite Hd.
Qed.
Lemma wp_undo_cap w : probing (R_enabled :: chrdev i) Y w →
  ndev_cmb (w_dev w) = None → ndev_pmr (w_dev w) = None →
  wp (dnvme_deinit_capability;; dnvme_pci_disable;; dnvme_unmap_resource;; dnvme_release_device p;; mret v)
    undone w.
Proof.
  intros Hw Hc Hp. apply wp_bind. eapply wp_mono; [by apply wp_deinit_capability|]. intros [] w' (Hw' & Hd).
  apply wp_undo_pci; [done|]. rewrite Hd. unfold probe_items. cbn. by rewrite Hc, Hp.
Qed.
Lemma wp_undo_cmb w : probing (R_enabled :: chrdev i) Y w → ndev_pmr (w_dev w) = None →
  wp (dnvme_unmap_cmb;; dnvme_deinit_capability;; dnvme_pci_disable;; dnvme_unmap_resource;;
      dnvme_release_device p;; mret v) undone w.
Proof.
  intros Hw Hp. apply wp_bind. eapply wp_mono; [by apply wp_unmap_cmb|]. intros [] w' (Hw' & Hd).
  apply wp_undo_cap; [done|by rewrite Hd|by rewrite Hd].
Qed.
End undo.

(** ** Probe *)

(** Everything registered is in its field, and a probed device is enabled and listed. *)
Definition registered (d : nvme_device) : Prop :=
  (∀ j, ¬ 0 ≤ j < 6 → bar_of d j = 0) ∧
  ndev_res d ≡ₚ bars_res d ++ pools_res d ++ R_listed :: R_enabled :: chrdev (ndev_instance d).

(** The registers are mapped, and what CAP says is in the fields. *)
Definition configured (d : nvme_device) : Prop :=
  ndev_bar0 d ≠ 0 ∧ ndev_dbs d = ndev_bar0 d + NVME_REG_DBS ∧
  ndev_q_depth d = NVME_CAP_MQES (ndev_reg_cap d) + 1 ∧ 1 ≤ ndev_q_depth d ≤ 2 ^ 16 ∧
  ndev_db_stride d = 2 ^ NVME_CAP_STRIDE (ndev_reg_cap d).

Lemma pci_enabled_configured cap d :
  ndev_bar0 d ≠ 0 → ndev_dbs d = ndev_bar0 d + NVME_REG_DBS → configured (pci_enabled cap d).
Proof.
  intros H0 Hd. unfold configured. cbn.
  assert (0 ≤ NVME_CAP_MQES cap < 2 ^ 16) as Hm.
  { unfold NVME_CAP_MQES. change 0xffff with (Z.ones 16). rewrite Z.land_ones by lia. apply Z.mod_pos_bound. lia. }
  assert (0 ≤ NVME_CAP_STRIDE cap < 2 ^ 4) as Hs.
  { unfold NVME_CAP_STRIDE. change 0xf with (Z.ones 4). rewrite Z.land_ones by lia. apply Z.mod_pos_bound. lia. }
  rewrite (u32_small (_ + 1)) by lia. split_and!; [done|done|done|lia|lia|].
  rewrite Z.shiftl_1_l, u32_small; [done|]. split; [lia|]. apply Z.pow_lt_mono_r; lia.
Qed.

Lemma registered_listed i X w : probing (R_listed :: R_enabled :: chrdev i) X w → registered (w_dev w).
Proof.
  intros Hw. split; [apply (pb_unused _ _ _ Hw)|]. rewrite (pb_inst _ _ _ Hw i) by set_solver. apply Hw.
Qed.

Lemma probing_rest F Y w : probing F Y w → is_irq_type (ndev_irq_set (w_dev w)) = NVME_INT_NONE →
  at_rest (probe_items (w_dev w) ++ Y) w.
Proof.
  intros [Hr Hm (Hb & Hs & Hc & Hme & Hh & Hl & Hwl & Hp & Hq) Hn Hi] Ht. by split.
Qed.

Lemma tells_dma_mask old_kernel : tells (dnvme_set_dma_mask old_kernel).
Proof. unfold dnvme_set_dma_mask, call. solve_tells. Qed.

(** What is known of the structure when the BARs are mapped. *)
Definition set_up (d : nvme_device) : Prop :=
  is_irq_type (ndev_irq_set d) = NVME_INT_NONE ∧
  ndev_cap d = no_capability ∧ ndev_cmb d = None ∧ ndev_pmr d = None.
Lemma ptr_items_none {A} (ptr : A → Z) o : ptr_items ptr o = [] → o = None.
Proof. by destruct o. Qed.
Lemma bare_set_up d : probe_items d = [] → is_irq_type (ndev_irq_set d) = NVME_INT_NONE → set_up d.
Proof.
  intros Hi Ht. unfold probe_items, caps_items in Hi. rewrite !app_nil in Hi. unfold set_up, no_capability.
  destruct Hi as ((? & ? & ? & ? & ? & ?) & ? & ?).
  split_and!; try done; [|by eapply ptr_items_none..].
  destruct (ndev_cap d); cbn in *. f_equal; by eapply ptr_items_none.
Qed.

(** The last part of [dnvme_probe], with the function enabled. *)
Section probe_end.
Context (fuel : nat) (X : list item) (p i : Z) (Φ : Z * Z → world → Prop).
Local Abbreviation Y := (Blk p AK_kmalloc None :: X).
Context (Hfuel : polled fuel true).
Context (Hfail : ∀ r (m : M (Z * Z)) w, r < 0 → wp m (λ x w', x = (r, 0) ∧ absent X w') w → wp m Φ w).
Context (Hok : ∀ w, probing (R_listed :: R_enabled :: chrdev i) Y w → configured (w_dev w) →
  is_irq_type (ndev_irq_set (w_dev w)) = NVME_INT_NONE → Φ (0, p) w).

Lemma wp_probe_pmr w :
  probing (R_enabled :: chrdev i) Y w → configured (w_dev w) →
  is_irq_type (ndev_irq_set (w_dev w)) = NVME_INT_NONE → ndev_pmr (w_dev w) = None →
  wp (ret ← dnvme_map_pmr fuel;
      if (ret <? 0) && negb (ret =? - EOPNOTSUPP)
      then dnvme_unmap_cmb;; dnvme_deinit_capability;; dnvme_pci_disable;; dnvme_unmap_resource;;
           dnvme_release_device p;; mret (ret, 0)
      else tell PC_list_add;; acquire R_listed;; mret (0, p)) Φ w.
Proof.
  intros Hw Hc Ht Hp. apply wp_bind. eapply wp_mono; [by apply wp_map_pmr|]. intros r w1 (Hw1 & Hd1).
  destruct ((r <? 0) && _) eqn:Hb.
  - apply andb_true_iff in Hb as [Hr%Z.ltb_lt _]. apply (Hfail r); [done|]. apply (wp_undo_cmb _ X p i); [done|].
    destruct Hd1 as [[_ ->]|[? _]]; [done|lia].
  - apply wp_bind. eapply wp_tell; [exact Hw1|]. intros w2 Hw2 Hd2.
    apply wp_bind. eapply wp_acquire; [exact Hw2|done|]. intros w3 Hw3 Hd3. apply wp_ret, Hok; [done|..].
    all: rewrite Hd3, Hd2; destruct Hd1 as [[_ ->]|[_ [c ->]]]; done.
Qed.

Lemma wp_probe_cmb w :
  probing (R_enabled :: chrdev i) Y w → configured (w_dev w) →
  is_irq_type (ndev_irq_set (w_dev w)) = NVME_INT_NONE →
  ndev_cmb (w_dev w) = None → ndev_pmr (w_dev w) = None →
  wp (ret ← dnvme_map_cmb;
      if (ret <? 0) && negb (ret =? - EOPNOTSUPP)
      then dnvme_deinit_capability;; dnvme_pci_disable;; dnvme_unmap_resource;;
           dnvme_release_device p;; mret (ret, 0)
      else
        ret ← dnvme_map_pmr fuel;
        if (ret <? 0) && negb (ret =? - EOPNOTSUPP)
        then dnvme_unmap_cmb;; dnvme_deinit_capability;; dnvme_pci_disable;; dnvme_unmap_resource;;
             dnvme_release_device p;; mret (ret, 0)
        else tell PC_list_add;; acquire R_listed;; mret (0, p)) Φ w.
Proof.
  intros Hw Hc Ht Hcm Hp. apply wp_bind. eapply wp_mono; [by apply wp_map_cmb|]. intros r w1 (Hw1 & Hd1).
  destruct ((r <? 0) && _) eqn:Hb.
  - apply andb_true_iff in Hb as [Hr%Z.ltb_lt _]. apply (Hfail r); [done|].
    destruct Hd1 as [[_ Hd1]|[? _]]; [|lia]. apply (wp_undo_cap _ X p i); [done|by rewrite Hd1|by rewrite Hd1].
  - apply wp_probe_pmr; [done|..]; destruct Hd1 as [[_ ->]|[_ [c ->]]]; done.
Qed.
End probe_end.

Lemma wp_probe X fuel old_kernel pdev w
    (Hw : absent X w) (Hfuel : polled fuel true) :
  wp (dnvme_probe fuel old_kernel pdev)
    (λ rp w', rp.1 < 0 ∧ absent X w' ∨
      rp.1 = 0 ∧ 0 < rp.2 ∧ registered (w_dev w') ∧ configured (w_dev w') ∧
      at_rest (probe_items (w_dev w') ++ Blk rp.2 AK_kmalloc None :: X) w') w.
Proof.
  set (Φ := λ (rp : Z * Z) (w' : world), _).
  assert (∀ r (m : M (Z * Z)) w1, r < 0 → wp m (λ x w', x = (r, 0) ∧ absent X w') w1 → wp m Φ w1) as Hfail.
  { intros r m w1 Hr Hm. eapply wp_mono; [exact Hm|]. intros x w' [-> Ha]. by left. }
  unfold dnvme_probe. apply wp_bind. eapply wp_mono; [apply tells_dma_mask|]. intros r0 w1 [h1 ->].
  assert (absent X (w <| w_hist := h1 ++ w_hist w |>)) as Hw1.
  { destruct Hw as (Hh & Hr & Hq). split_and!; [|done|done]. by eapply holds_ext, Hh. }
  destruct (Z.ltb_spec r0 0); [apply wp_ret; by left|].
  apply wp_bind. eapply wp_mono; [by apply wp_alloc_device|].
  intros p w2 [[-> Hw2]|(Hp & [i Hw2] & [Hb2 Hi2] & Ht2)]; [apply wp_ret; by left|].
  rewrite (proj2 (Z.eqb_neq p 0)) by lia. cbv zeta.
  apply wp_bind. eapply wp_mono; [by apply wp_map_resource|]. intros r w3 (Hw3 & Hr & Ho3 & Hn3 & Hd3).
  assert (probe_items (w_dev w3) = []) as Hi3 by (by rewrite (items_off_bars _ _ Ho3)).
  destruct (bare_set_up (w_dev w3)) as (Ht3 & Hc3 & Hm3 & Hp3); [done| |].
  { change (is_irq_type (ndev_irq_set (off_bars (w_dev w3))) = NVME_INT_NONE). by rewrite Ho3. }
  destruct (Z.ltb_spec r 0); [apply (Hfail r), (wp_undo_ctx _ X p i); auto; by split; auto|].
  destruct Hd3 as [H03 Hd3]; [lia|]. apply wp_bind. eapply wp_mono; [by apply wp_pci_enable|].
  intros r4 w4 [(Hr4 & Hw4 & Hd4)|(-> & Hw4 & cap & Hd4)].
  { rewrite (proj2 (Z.ltb_lt r4 0)) by done. apply (Hfail r4), (wp_undo_res _ X p i); auto. by rewrite Hd4. }
  cbn [Z.ltb Z.compare]. apply wp_bind. eapply wp_mono; [apply (wp_init_capability _ _ _ Hw4); by rewrite Hd4|].
  intros r5 w5 (-> & Hw5 & c5 & Hd5). cbn [Z.ltb Z.compare].
  apply (wp_probe_cmb fuel X p i Φ Hfuel Hfail); [|done|rewrite Hd5, Hd4; try done..].
  - intros w6 Hw6 Hc6 Ht6. right. cbn. split_and!; [done|done|by eapply registered_listed|done|by eapply probing_rest].
  - by apply pci_enabled_configured.
Qed.

(** C4. Probe is all or nothing.  Start with no device ([absent]) and let every call to the
    kernel answer as it likes.  Either [dnvme_probe] returns a negative error, and then
    every pool, BAR, region, instance, name, character device and capability it had
    obtained is given back; or it returns 0 with a device at rest, whose registered
    resources and memory are exactly what its fields name, with the registers mapped, the
    doorbells 4 KiB behind them and queue depth and doorbell stride as CAP says. *)
Theorem probe_all_or_nothing X fuel old_kernel pdev w
    (Hw : absent X w) (Hfuel : polled fuel true) :
  wp (dnvme_probe fuel old_kernel pdev)
    (λ rp w', rp.1 < 0 ∧ absent X w' ∨
      rp.1 = 0 ∧ 0 < rp.2 ∧ registered (w_dev w') ∧ configured (w_dev w') ∧
      at_rest (probe_items (w_dev w') ++ Blk rp.2 AK_kmalloc None :: X) w') w.
Proof. by apply wp_probe. Qed.

(** ** Removal *)

Lemma probing_cleaned X w w' Y F :
  inv Y w' → w_irqs w' = [] → w_dev w' = cleaned NVME_ST_DISABLE_COMPLETE (w_dev w) →
  ndev_hmb (w_dev w) = None → Y ≡ₚ probe_items (w_dev w) ++ X →
  (∀ j, ¬ 0 ≤ j < 6 → bar_of (w_dev w) j = 0) →
  (∀ i, R_instance i ∈ F → ndev_instance (w_dev w) = i) →
  ndev_res (w_dev w) ≡ₚ bars_res (w_dev w) ++ pools_res (w_dev w) ++ F → probing F X w'.
Proof.
  intros Hi Hq Hd Hh HY Hb Hn Hr.
  destruct (cleaned_rest (w_dev w) Hh) as (Hs & Hc & Hm & Hhm & Hid & Hz). rewrite <- Hd in Hs, Hc, Hm, Hhm, Hid, Hz.
  pose proof (i_holds _ _ Hi) as Hmem. rewrite rest_items, HY in Hmem by done. cbn in Hmem.
  destruct Hid as [? ? ? _]. split; [by rewrite Hd|by rewrite Hd| |by rewrite Hd|done].
  split; [by rewrite Hd|done].
Qed.

(** Removal returns everything.  A probed device (everything registered is in its
    fields, no host memory buffer) is removed in whatever state its users left it: its
    queues, buffers, commands, interrupts and handlers, PMR, CMB, capabilities, mappings,
    pools, character device and structure go, each once and in an order the kernel allows;
    what is live afterwards is what was there before it was probed. *)
Lemma wp_remove X fuel p w
    (Hw : inv (probe_items (w_dev w) ++ Blk p AK_kmalloc None :: X) w)
    (Hreg : registered (w_dev w)) (Hh : ndev_hmb (w_dev w) = None) (Hfuel : polled fuel false) :
  wp (dnvme_remove fuel p) (λ _ w', absent X w') w.
Proof.
  destruct Hreg as [Hb Hr]. set (i := ndev_instance (w_dev w)) in *.
  unfold dnvme_remove. apply wp_bind, wp_gets. rewrite decide_True by (rewrite Hr; set_solver).
  apply wp_bind, wp_emit, wp_bind.
  eapply (wp_release_res _ (bars_res (w_dev w) ++ pools_res (w_dev w) ++ R_enabled :: chrdev i)).
  { cbn. rewrite Hr. solve_Permutation. }
  intros l Hl. set (w1 := _ <| w_dev ::= _ |>). assert (inv (probe_items (w_dev w) ++ Blk p AK_kmalloc None :: X) w1) as Hw1.
  { destruct Hw as [Hm [] Hq]. split; [|by split|done]. by eapply (holds_ext _ w). }
  apply wp_bind. eapply wp_mono; [by eapply (wp_cleanup _ _ w1)|]. intros [] w2 (Hw2 & Hq2 & Hd2).
  assert (probing (R_enabled :: chrdev i) (Blk p AK_kmalloc None :: X) w2) as Hp2.
  { eapply (probing_cleaned _ w1); try done. intros j. unfold i. set_solver. }
  apply wp_bind. eapply wp_mono; [by apply wp_unmap_pmr|]. intros [] w3 (Hw3 & Hd3).
  apply wp_bind. eapply wp_mono; [by apply wp_unmap_cmb|]. intros [] w4 (Hw4 & Hd4).
  apply wp_bind. eapply wp_mono; [by apply wp_deinit_capability|]. intros [] w5 (Hw5 & Hd5).
  apply wp_bind. eapply wp_tell; [exact Hw5|]. intros w6 Hw6 Hd6.
  apply wp_bind. eapply wp_give_back; [exact Hw6|done|]. intros w7 Hw7 [l7 Hd7].
  apply wp_bind. eapply wp_mono; [by apply wp_unmap_resource|]. intros [] w8 (Hw8 & Hn8 & Ho8).
  eapply wp_release_device; [exact Hw8|]. split; [done|]. rewrite (items_off_bars _ _ Ho8), Hd7, Hd6, Hd5, Hd4, Hd3.
  done.
Qed.

(** ** The life of a device *)

Lemma reachable_fixed w0 w : reachable w0 w → fixed (w_dev w) = fixed (w_dev w0).
Proof.
  induction 1 as [|w o w' _ IH _ Hr]; [done|]. pose proof (frames_op o w) as Hf. rewrite Hr in Hf. congruence.
Qed.
Lemma registered_fixed d d' : fixed d' = fixed d → registered d → registered d'.
Proof. intros Hd H. change (registered (fixed d')). by rewrite Hd. Qed.
Lemma items_fixed d d' : fixed d' = fixed d → probe_items d' = probe_items d.
Proof. intros Hd. change (probe_items (fixed d') = probe_items (fixed d)). by rewrite Hd. Qed.

Lemma wp_val {A} (m : M A) Φ a w w' : wp m Φ w → m w = Val a w' → Φ a w'.
Proof. unfold wp. intros H Hm. by rewrite Hm in H. Qed.

End probe_life.

(** *** Witnesses: a controller with CMB and PMR *)

(** PMRSTS.NRDY changes with every poll; a clock that only sleeping moves. *)
Definition probe_answers (c : probe_call) : Z :=
  match c with
  | PC_dma_supported => 1
  | PC_select_bars => 5
  | PC_ioremap idx => 0x10000 + 0x10000 * idx
  | PC_pool_create which => 1 + which
  | PC_res_len _ => 0x100000
  | PC_find_capability id => if id =? PCI_CAP_ID_MSI then 0x50 else 0
  | _ => 0
  end.
Definition probe_reg (a : Z) : Z :=
  if a =? 0x10000 then 0x3ff - 0x100 else if a =? 0x10004 then 3 * 2 ^ 24
  else if a =? 0x1003c then 2 ^ 12 else if a =? 0x10e00 then 2 ^ 6 else 0.
Definition turn (h : history) : Z := (Z.of_nat (length h) / 2) mod 2.
Definition probe_env : Env := {|
  ans h := match h with
           | E_jiffies :: h => sleeps h
           | E_probe c :: _ => probe_answers c
           | E_readl a :: h => probe_reg a + 256 * turn h
           | _ => @ans demo_env h
           end;
  ans_dma := @ans_dma demo_env; ans_sg := @ans_sg demo_env; ans_fill := @ans_fill demo_env;
  ans_vector := @ans_vector demo_env; ans_sort := @ans_sort demo_env;
  cfg_flush_reg_write := false; cfg_hz := 1000 |}.
#[export] Program Instance probe_clock : @Clock probe_env := {|
  time h := 1000 * sleeps h; boot := 0 |}.
Next Obligation. intros h e. destruct e; cbn; lia. Qed.
Next Obligation. intros h. cbn. lia. Qed.
Next Obligation.
  intros h. cbn [ans probe_env cfg_hz]. rewrite Z.add_0_l.
  replace (1000 * sleeps h * 1000) with (sleeps h * 1000000) by lia. by rewrite Z.div_mul.
Qed.
Next Obligation. cbn. lia. Qed.

Lemma turn_cases h : turn h = 0 ∨ turn h = 1.
Proof. unfold turn. pose proof (Z.mod_pos_bound (Z.of_nat (length h) / 2) 2). lia. Qed.
Lemma turn_next e1 e2 h : turn (e1 :: e2 :: h) = 1 - turn h.
Proof.
  unfold turn. cbn [length]. rewrite !Nat2Z.inj_succ.
  replace (Z.succ (Z.succ (Z.of_nat (length h)))) with (Z.of_nat (length h) + 1 * 2) by lia.
  rewrite Z.div_add by lia. set (x := Z.of_nat (length h) / 2).
  pose proof (Z.div_mod x 2). pose proof (Z.mod_pos_bound x 2).
  pose proof (Z.div_mod (x + 1) 2). pose proof (Z.mod_pos_bound (x + 1) 2). lia.
Qed.
Lemma nrdy_turn a h : bit_set (u32 (probe_reg a + 256 * turn h)) NVME_PMRSTS_NRDY = (turn h =? 1).
Proof.
  destruct (turn_cases h) as [-> | ->]; unfold probe_reg;
    destruct (a =? 0x10000), (a =? 0x10004), (a =? 0x1003c), (a =? 0x10e00); by vm_compute.
Qed.
Lemma probe_polled enable : @polled probe_env 2 enable.
Proof.
  intros bar0 t w. cbn [pmr_loop].
  unfold dnvme_readl, readl, get_jiffies, ext, mbind, M_bind, mret, M_ret. cbn [ans probe_env w_hist].
  rewrite nrdy_turn. destruct ((enable && _) || _) eqn:H1; [done|]. cbn.
  destruct (time_after _ _); [done|]. cbn.
  rewrite nrdy_turn, turn_next.
  destruct (turn_cases (w_hist w)) as [Ht|Ht]; rewrite Ht in H1 |- *; by destruct enable.
Qed.

Definition probe_start : world := demo_world.
Definition probe_run : outcome (Z * Z) :=
  @dnvme_probe probe_env 2 true (ndev_pdev demo_dev) probe_start.
Definition probed_world : world := match probe_run with Val _ w => w | _ => probe_start end.
(** Opened, and with an admin completion queue. *)
Definition opened_world : world :=
  match @run_op probe_env (Op_open 0) probed_world with Val _ w => w | _ => probe_start end.
Definition used_op : op :=
  Op_ioctl FUEL 0 (IOCTL_CREATE_ADMIN_QUEUE {| aq_type := NVME_ADMIN_CQ; aq_elements := 2 |}).
Definition used_world : world :=
  match @run_op probe_env used_op opened_world with Val _ w => w | _ => probe_start end.

Lemma probe_start_absent : absent [] probe_start.
Proof. split_and!; [by apply holdsb_ok|done|done]. Qed.
Lemma probe_runs : @dnvme_probe probe_env 2 true (ndev_pdev demo_dev) probe_start = Val (0, 1) probed_world.
Proof. by vm_compute. Qed.
Lemma used_reachable : @reachable probe_env probed_world used_world.
Proof.
  eapply (@reach_step probe_env _ opened_world used_op).
  - eapply (@reach_step probe_env _ probed_world (Op_open 0)); [constructor|done|by vm_compute].
  - split; [apply fuel_enough|by vm_compute].
  - by vm_compute.
Qed.

Lemma probe_all_or_nothing_witness :
  wp (@dnvme_probe probe_env 2 true (ndev_pdev demo_dev))
    (λ rp w', rp.1 < 0 ∧ absent [] w' ∨
      rp.1 = 0 ∧ 0 < rp.2 ∧ registered (w_dev w') ∧ configured (w_dev w') ∧
      at_rest (probe_items (w_dev w') ++ [Blk rp.2 AK_kmalloc None]) w') probe_start.
Proof.
  exact (@probe_all_or_nothing probe_env [] 2 true (ndev_pdev demo_dev) probe_start
    probe_start_absent (probe_polled true)).
Defined.
