(* ===== verification/Mmap.v ===== *)
(** * Mappings stay inside their buffer

    [dnvme_mmap] of [modules/dnvme/core.c] gives a process the memory of a queue or of a
    meta buffer. *)

From S2P Require Import Prelude Types Kernel Io Own Prp Ring Queue Meta Ioctl Core Inv Demo.

Section mmap.
Context {E : Env}.

(** A size of 32 bits is at most [2 ^ 20] pages. *)
Lemma map_pages size : in_u32 size →
  u64 (s32 (DIV_ROUND_UP size PAGE_SIZE) * PAGE_SIZE) = DIV_ROUND_UP size PAGE_SIZE * PAGE_SIZE ∧
  size ≤ DIV_ROUND_UP size PAGE_SIZE * PAGE_SIZE < size + PAGE_SIZE.
Proof.
  unfold in_u32, PAGE_SIZE. intros Hs. pose proof (DIV_ROUND_UP_spec size 4096 ltac:(lia) ltac:(lia)) as Hd.
  rewrite s32_small, u64_small by lia. lia.
Qed.

(** What is behind an offset: the buffer of the object, when it is contiguous. *)
Definition behind (d : nvme_device) (off : Z) : option (Z * Z) :=
  let id := u32 (NVME_VMPGOFF_ID off) in
  match u32 (NVME_VMPGOFF_TO_TYPE off) with
  | 0 => q ← ndev_cqs d !! id; if cq_contig q then Some (cq_buf q, cq_size q) else None
  | 1 => q ← ndev_sqs d !! id; if sq_contig q then Some (sq_buf q, sq_size q) else None
  | 2 => m ← ndev_meta d !! id; if meta_contig m then Some (meta_buf m, meta_size m) else None
  | _ => None
  end.

(** The pages of a block that the device owns. *)
Lemma qmem_owned contig cmb buf size o :
  contig = true → ∃ k, Blk buf k (Some size) ∈ qmem_items contig cmb buf size o.
Proof. intros ->. eexists. by apply list_elem_of_here. Qed.

Lemma xa_items_in {A} (f : A → list item) m i x it : m !! i = Some x → it ∈ f x → it ∈ xa_items f m.
Proof.
  intros Hi Hit. unfold xa_items. apply list_elem_of_bind. exists (i, x). split; [done|].
  by apply elem_of_map_to_list.
Qed.

Lemma behind_owned d off p sz : dev_wf d → behind d off = Some (p, sz) →
  in_u32 sz ∧ ∃ k, Blk p k (Some sz) ∈ dev_items d.
Proof.
  intros [Hs Hc Hm _ _] Hb. unfold behind in Hb. set (id := u32 (NVME_VMPGOFF_ID off)) in Hb.
  unfold dev_items. destruct (u32 (NVME_VMPGOFF_TO_TYPE off)) as [|[[]|[]|]|]; try done.
  - destruct (ndev_cqs d !! id) as [q|] eqn:Hq; [|done]. cbn in Hb.
    destruct (cq_contig q) eqn:Hct; [|done]. injection Hb as <- <-. pose proof (Hc _ _ Hq) as Hwf.
    split; [rewrite (cqw_size _ _ Hwf); pose proof (cqw_elements _ _ Hwf); unfold in_u32; lia|].
    destruct (qmem_owned (cq_contig q) (cq_use_cmb q) (cq_buf q) (cq_size q) (cq_prps q) Hct) as [k Hk].
    exists k. rewrite !elem_of_app. right. left. eapply xa_items_in; [exact Hq|].
    unfold cq_items. by apply list_elem_of_further.
  - destruct (ndev_meta d !! id) as [q|] eqn:Hq; [|done]. cbn in Hb.
    destruct (meta_contig q) eqn:Hct; [|done]. injection Hb as <- <-. pose proof (Hm _ _ Hq) as Hwf.
    split; [apply Hwf|].
    destruct (qmem_owned (meta_contig q) false (meta_buf q) (meta_size q) (meta_prps q) Hct) as [k Hk].
    exists k. rewrite !elem_of_app. right. right. left. eapply xa_items_in; [exact Hq|].
    unfold meta_items. by apply list_elem_of_further.
  - destruct (ndev_sqs d !! id) as [q|] eqn:Hq; [|done]. cbn in Hb.
    destruct (sq_contig q) eqn:Hct; [|done]. injection Hb as <- <-. pose proof (Hs _ _ Hq) as Hwf.
    split; [rewrite (sqw_size _ _ Hwf); pose proof (sqw_elements _ _ Hwf); unfold in_u32; lia|].
    destruct (qmem_owned (sq_contig q) (sq_use_cmb q) (sq_buf q) (sq_size q) (sq_prps q) Hct) as [k Hk].
    exists k. rewrite !elem_of_app. left. eapply xa_items_in; [exact Hq|].
    unfold sq_items. apply list_elem_of_further, elem_of_app. by left.
Qed.

Lemma parse_behind off w : ∃ e, e < 0 ∧
  mmap_parse_vmpgoff off w =
    Val (match behind (w_dev w) off with Some (p, sz) => (0, p, sz) | None => (e, 0, 0) end) w.
Proof.
  unfold mmap_parse_vmpgoff, behind, dnvme_find_cq, dnvme_find_sq, dnvme_find_meta.
  set (id := u32 (NVME_VMPGOFF_ID off)). unfold mbind, M_bind, get_dev, gets. cbn.
  destruct (u32 (NVME_VMPGOFF_TO_TYPE off)) as [|[[]|[]|]|]; cbn; try (by exists (- EINVAL)).
  - destruct (ndev_cqs (w_dev w) !! id) as [q|]; cbn; [|by exists (- EBADSLT)].
    destruct (cq_contig q); by exists (- EOPNOTSUPP).
  - destruct (ndev_meta (w_dev w) !! id) as [q|]; cbn; [|by exists (- EBADSLT)].
    destruct (meta_contig q); by exists (- EOPNOTSUPP).
  - destruct (ndev_sqs (w_dev w) !! id) as [q|]; cbn; [|by exists (- EBADSLT)].
    destruct (sq_contig q); by exists (- EOPNOTSUPP).
Qed.

(** C24. A mapping never shows foreign memory.  For every offset and length, [dnvme_mmap]
    changes nothing in the driver; it either maps nothing and fails, or it maps exactly
    the requested length, starting at the physical page of the contiguous buffer of the
    queue or meta object the offset names, a buffer the device owns, and the length is
    within the pages of that buffer: less than a page more than its size. *)
Theorem mmap_bounded X minor off len w (Hw : inv X w) :
  wp (dnvme_mmap minor off len)
    (λ r w', hist_only w w' ∧
      (r < 0 ∧ (∀ pfn n, E_remap pfn n ∉ take (length (w_hist w') - length (w_hist w)) (w_hist w')) ∨
       minor = ndev_instance (w_dev w) ∧ ∃ p sz k,
         behind (w_dev w) off = Some (p, sz) ∧ Blk p k (Some sz) ∈ dev_items (w_dev w) ∧
         len ≤ DIV_ROUND_UP sz PAGE_SIZE * PAGE_SIZE < sz + PAGE_SIZE ∧
         let h := E_virt_to_phys p :: w_hist w in
         w_hist w' = E_remap (Z.shiftr (u64 (ans h)) 12) len :: h)) w.
Proof.
  set (Φ := λ (r : Z) (w' : world), _). assert (∀ r, r < 0 → Φ r w) as Hno.
  { intros r Hr. split; [done|]. left. split; [done|]. rewrite Nat.sub_diag. by intros ? ? ?%elem_of_nil. }
  unfold dnvme_mmap, dnvme_lock_device. apply wp_bind, wp_bind, wp_gets, wp_ret.
  destruct (Z.eqb_spec minor (ndev_instance (w_dev w))) as [Hm|]; cbn [negb]; [|by apply wp_ret, Hno].
  apply wp_bind. destruct (parse_behind off w) as (e & He & Hp). unfold wp at 1. rewrite Hp.
  destruct (behind (w_dev w) off) as [[p sz]|] eqn:Hb; cbn.
  2: { rewrite (proj2 (Z.ltb_lt e 0)) by done. by apply wp_ret, Hno. }
  destruct (behind_owned _ _ _ _ (i_dev _ _ Hw) Hb) as [Hsz [k Hk]].
  destruct (map_pages sz Hsz) as [Heq Hle]. rewrite Heq.
  destruct (Z.ltb_spec (DIV_ROUND_UP sz PAGE_SIZE * PAGE_SIZE) len); [by apply wp_ret, Hno|].
  apply wp_bind, wp_ext. set (h := E_virt_to_phys p :: w_hist w). set (w1 := w <| w_hist := h |>).
  assert (hist_only w w1) as H1 by apply hist_only_cons.
  destruct (_ =? 0).
  - apply wp_ret. split; [done|]. left. split; [done|]. cbn.
    rewrite Nat.sub_succ_l, Nat.sub_diag by lia. cbn. by intros ? ? ?%list_elem_of_singleton.
  - apply wp_bind, wp_ext, wp_ret. split; [etrans; [exact H1|apply hist_only_cons]|].
    right. split; [done|]. exists p, sz, k. split_and!; try done. lia.
Qed.
End mmap.

(** *** Witness: the page of the admin submission queue. *)
Lemma mmap_bounded_witness :
  wp (@dnvme_mmap demo_env 0 (NVME_VMPGOFF_FOR_TYPE NVME_VMPGOFF_TYPE_SQ) 4096)
    (λ r w', hist_only full_world w' ∧
      (r < 0 ∧ (∀ pfn n, E_remap pfn n ∉ take (length (w_hist w') - length (w_hist full_world)) (w_hist w')) ∨
       0 = 0 ∧ ∃ p sz k,
         behind full_dev (2 ^ 16) = Some (p, sz) ∧ Blk p k (Some sz) ∈ dev_items full_dev ∧
         4096 ≤ DIV_ROUND_UP sz PAGE_SIZE * PAGE_SIZE < sz + PAGE_SIZE ∧
         let h := E_virt_to_phys p :: w_hist full_world in
         w_hist w' = E_remap (Z.shiftr (u64 (@ans demo_env h)) 12) 4096 :: h)) full_world.
Proof. exact (@mmap_bounded demo_env [] 0 (2 ^ 16) 4096 full_world full_world_inv). Defined.
