(* ===== verification/Crc.v ===== *)
(** * Checksums

    [lib/crc/crc.c] with [reverse_8bits] of [lib/base/base.c] and the wider reversals of
    [lib/include/libbase.h].  A [struct crc_instance] is the polynomial and the table it
    was filled for, which outlive a call; an access outside an array is [None].  The
    functions for 16, 32 and 64 bits are the same text with other constants, so they are
    one definition with the width as its argument.

    The specification is the shift register: one bit of the message at a time. *)

From Stdlib Require Import Btauto.
From S2P Require Import Prelude.

(** ** Bit reversal *)

Definition reverse_8bits (data : Z) : Z :=
  let data := u8 (Z.lor (Z.land (Z.shiftl data 4) 0xf0) (Z.land (Z.shiftr data 4) 0x0f)) in
  let data := u8 (Z.lor (Z.land (Z.shiftl data 2) 0xcc) (Z.land (Z.shiftr data 2) 0x33)) in
  u8 (Z.lor (Z.land (Z.shiftl data 1) 0xaa) (Z.land (Z.shiftr data 1) 0x55)).
Definition reverse_16bits (data : Z) : Z :=
  u16 (Z.lor (Z.shiftl (reverse_8bits (u8 (Z.land data 0xff))) 8)
             (reverse_8bits (u8 (Z.shiftr data 8)))).
Definition reverse_32bits (data : Z) : Z :=
  u32 (Z.lor (Z.shiftl (reverse_16bits (u16 (Z.land data 0xffff))) 16)
             (reverse_16bits (u16 (Z.shiftr data 16)))).
Definition reverse_64bits (data : Z) : Z :=
  u64 (Z.lor (Z.shiftl (reverse_32bits (u32 (Z.land data 0xffffffff))) 32)
             (reverse_32bits (u32 (Z.shiftr data 32)))).

(** ** Data *)

Record crc_config := {
  crc_poly : Z; crc_init : Z; crc_xorout : Z; crc_refin : bool; crc_refout : bool }.
Record crc_instance := { ci_poly : Z; ci_table : list Z }.
(** The instances as they are initialised. *)
Definition g_crc : crc_instance := {| ci_poly := 0; ci_table := replicate 256 0 |}.
Definition nr_entry (crc : crc_instance) : Z := Z.of_nat (length (ci_table crc)).

(** ** CRC-8 *)

Definition crc8_shift (poly remainder : Z) : Z :=
  if negb (Z.land remainder (BIT 7) =? 0)
  then u8 (Z.lxor (Z.shiftl remainder 1) poly)
  else u8 (Z.shiftl remainder 1).
(** The entry is stored in every round. *)
Fixpoint crc8_bits (n : nat) (poly : Z) (i : nat) (remainder : Z) (table : list Z) : list Z :=
  match n with
  | O => table
  | S n => let remainder := crc8_shift poly remainder in
           crc8_bits n poly i remainder (<[i := remainder]> table)
  end.
Definition crc8_init_table (table : list Z) (idx poly : Z) : list Z :=
  foldl (λ table i, crc8_bits 8 poly i (u8 (Z.of_nat i)) table) table (seq 0 (S (Z.to_nat idx))).

Fixpoint crc8_loop (refin : bool) (table data : list Z) (n i : nat) (remainder : Z) : option Z :=
  match n with
  | O => Some remainder
  | S n =>
    d ← data !! i;
    let byte := u8 (Z.lxor remainder (if refin then reverse_8bits d else d)) in
    remainder ← table !! Z.to_nat byte;
    crc8_loop refin table data n (S i) remainder
  end.

Definition crc8_calculate (crc8 : crc_instance) (cfg : crc_config) (data : list Z) (size : Z) :
    option (Z * crc_instance) :=
  let crc8 :=
    if (ci_poly crc8 =? 0) || negb (ci_poly crc8 =? crc_poly cfg)
    then {| ci_table := crc8_init_table (ci_table crc8) (u8 (nr_entry crc8 - 1)) (crc_poly cfg);
            ci_poly := crc_poly cfg |}
    else crc8 in
  remainder ← crc8_loop (crc_refin cfg) (ci_table crc8) data (Z.to_nat size) 0 (crc_init cfg);
  let remainder := if crc_refout cfg then reverse_8bits remainder else remainder in
  Some (Z.lxor remainder (crc_xorout cfg), crc8).

(** ** CRC-16, CRC-32 and CRC-64: width [w], reversal [rev] *)

Section wide.
Context (w : Z) (rev : Z → Z).

Definition crc_trunc (x : Z) : Z := x mod 2 ^ w.

Definition crc_shift (poly remainder : Z) : Z :=
  if negb (Z.land remainder (BIT (w - 1)) =? 0)
  then crc_trunc (Z.lxor (Z.shiftl remainder 1) poly)
  else crc_trunc (Z.shiftl remainder 1).
Definition crc_init_table (table : list Z) (idx poly : Z) : list Z :=
  foldl (λ table i,
      <[i := Nat.iter 8 (crc_shift poly) (crc_trunc (Z.shiftl (Z.of_nat i) (w - 8)))]> table)
    table (seq 0 (S (Z.to_nat idx))).

Fixpoint crc_loop (refin : bool) (table data : list Z) (n i : nat) (remainder : Z) : option Z :=
  match n with
  | O => Some remainder
  | S n =>
    d ← data !! i;
    let byte := u8 (Z.lxor (Z.shiftr remainder (w - 8)) (if refin then reverse_8bits d else d)) in
    t ← table !! Z.to_nat byte;
    crc_loop refin table data n (S i) (crc_trunc (Z.lxor t (Z.shiftl remainder 8)))
  end.

Definition crc_calculate (crc : crc_instance) (cfg : crc_config) (data : list Z) (size : Z) :
    option (Z * crc_instance) :=
  let crc :=
    if (ci_poly crc =? 0) || negb (ci_poly crc =? crc_poly cfg)
    then {| ci_table := crc_init_table (ci_table crc) (crc_trunc (nr_entry crc - 1)) (crc_poly cfg);
            ci_poly := crc_poly cfg |}
    else crc in
  remainder ← crc_loop (crc_refin cfg) (ci_table crc) data (Z.to_nat size) 0 (crc_init cfg);
  let remainder := if crc_refout cfg then rev remainder else remainder in
  Some (Z.lxor remainder (crc_xorout cfg), crc).
End wide.

Definition crc16_calculate := crc_calculate 16 reverse_16bits.
Definition crc32_calculate := crc_calculate 32 reverse_32bits.
Definition crc64_calculate := crc_calculate 64 reverse_64bits.

(** ** The named checksums *)

Definition maxim_cfg : crc_config :=
  {| crc_poly := 0x31; crc_init := 0; crc_xorout := 0; crc_refin := true; crc_refout := true |}.
Definition usb_cfg : crc_config :=
  {| crc_poly := 0x8005; crc_init := 2 ^ 16 - 1; crc_xorout := 2 ^ 16 - 1;
     crc_refin := true; crc_refout := true |}.
Definition t10_dif_cfg : crc_config :=
  {| crc_poly := 0x8bb7; crc_init := 0; crc_xorout := 0; crc_refin := false; crc_refout := false |}.
Definition castagnoli_cfg : crc_config :=
  {| crc_poly := 0x1edc6f41; crc_init := 2 ^ 32 - 1; crc_xorout := 2 ^ 32 - 1;
     crc_refin := true; crc_refout := true |}.
Definition nvme64b_cfg : crc_config :=
  {| crc_poly := 0xad93d23594c93659; crc_init := 2 ^ 64 - 1; crc_xorout := 2 ^ 64 - 1;
     crc_refin := true; crc_refout := true |}.

Definition crc8_maxim (crc : crc_instance) := crc8_calculate crc maxim_cfg.
Definition crc16_usb (crc : crc_instance) := crc16_calculate crc usb_cfg.
Definition crc16_t10_dif (crc : crc_instance) := crc16_calculate crc t10_dif_cfg.
Definition crc32_castagnoli (crc : crc_instance) := crc32_calculate crc castagnoli_cfg.
Definition crc64_nvme64bcrc (crc : crc_instance) := crc64_calculate crc nvme64b_cfg.

(** The check values given with the functions are those of the text "123456789". *)
Definition check_text : list Z := seqZ 49 9.

Example maxim_check : fst <$> crc8_maxim g_crc check_text 9 = Some 0xa1.
Proof. by vm_compute. Qed.
Example t10_dif_check : fst <$> crc16_t10_dif g_crc check_text 9 = Some 0xd0db.
Proof. by vm_compute. Qed.
Example castagnoli_check : fst <$> crc32_castagnoli g_crc check_text 9 = Some 0xe3069283.
Proof. by vm_compute. Qed.
Example usb_check : fst <$> crc16_usb g_crc check_text 9 = Some 0xb4c8.
Proof. by vm_compute. Qed.

(** ** The shift register *)

Definition bit_at (b : bool) (k : Z) : Z := if b then 2 ^ k else 0.

(** The bits of a number, the highest first, and the number with given top bits. *)
Fixpoint be_bits (n : nat) (x : Z) : list bool :=
  match n with O => [] | S n => Z.testbit x (Z.of_nat n) :: be_bits n x end.
Fixpoint place (k : Z) (bs : list bool) : Z :=
  match bs with [] => 0 | b :: bs => Z.lxor (bit_at b (k - 1)) (place (k - 1) bs) end.

Definition reflect (n : nat) (x : Z) : Z := place (Z.of_nat n) (reverse (be_bits n x)).

Section register.
Context (w poly : Z).

Definition lfsr (r : Z) : Z :=
  let r' := (2 * r) mod 2 ^ w in if Z.testbit r (w - 1) then Z.lxor r' poly else r'.
Definition feed (r : Z) (b : bool) : Z := lfsr (Z.lxor r (bit_at b (w - 1))).
End register.

(** The bits of a message, in the order they enter the register. *)
Definition byte_bits (refin : bool) (d : Z) : list bool :=
  if refin then reverse (be_bits 8 d) else be_bits 8 d.
Definition message (cfg : crc_config) (data : list Z) : list bool :=
  data ≫= byte_bits (crc_refin cfg).

Definition crc_spec (w : nat) (cfg : crc_config) (data : list Z) : Z :=
  let r := foldl (feed (Z.of_nat w) (crc_poly cfg)) (crc_init cfg) (message cfg data) in
  Z.lxor (if crc_refout cfg then reflect w r else r) (crc_xorout cfg).

(** *** Bits and numbers *)

Lemma lxor_range n a b : 0 ≤ a < 2 ^ n → 0 ≤ b < 2 ^ n → 0 ≤ Z.lxor a b < 2 ^ n.
Proof.
  intros Ha Hb. destruct (decide (n < 0)) as [Hn|Hn]; [rewrite Z.pow_neg_r in Ha; lia|].
  assert (0 ≤ Z.lxor a b) as H0 by (apply Z.lxor_nonneg; lia). split; [done|].
  destruct (decide (Z.lxor a b = 0)) as [->|Hne]; [lia|].
  apply Z.log2_lt_pow2; [lia|]. pose proof (Z.log2_lxor a b ltac:(lia) ltac:(lia)) as Hl.
  assert (∀ x, 0 ≤ x < 2 ^ n → x = 0 ∨ Z.log2 x < n) as Hlt.
  { intros x Hx. destruct (decide (x = 0)); [by left|right]. apply Z.log2_lt_pow2; lia. }
  destruct (Hlt a Ha) as [->|], (Hlt b Hb) as [->|]; try lia.
  - by rewrite Z.lxor_0_l in Hne.
  - by rewrite Z.lxor_0_l in *.
  - by rewrite Z.lxor_0_r in *.
Qed.
Lemma lxor_self_cancel a b : Z.lxor (Z.lxor a b) b = a.
Proof. by rewrite Z.lxor_assoc, Z.lxor_nilpotent, Z.lxor_0_r. Qed.
Lemma lxor_mod a b n : 0 ≤ n → (Z.lxor a b) mod 2 ^ n = Z.lxor (a mod 2 ^ n) (b mod 2 ^ n).
Proof.
  intros Hn. apply Z.bits_inj'. intros i Hi. rewrite Z.lxor_spec, !Z.testbit_mod_pow2 by lia.
  rewrite Z.lxor_spec. by destruct (i <? n).
Qed.
Lemma bit_at_range b k n : 0 ≤ k < n → 0 ≤ bit_at b k < 2 ^ n.
Proof.
  intros Hk. unfold bit_at. destruct b; [|split; [done|apply Z.pow_pos_nonneg; lia]].
  split; [apply Z.pow_nonneg; lia|apply Z.pow_lt_mono_r; lia].
Qed.

Lemma testbit_high x n i : 0 ≤ x < 2 ^ n → n ≤ i → Z.testbit x i = false.
Proof.
  intros Hx Hi. destruct (decide (n < 0)) as [Hn|Hn]; [rewrite Z.pow_neg_r in Hx; lia|].
  rewrite <- (Z.mod_small x (2 ^ n)) by done. apply Z.mod_pow2_bits_high; lia.
Qed.

Lemma place_range bs : ∀ k, Z.of_nat (length bs) ≤ k → 0 ≤ place k bs < 2 ^ k.
Proof.
  induction bs as [|b bs IH]; intros k Hk; cbn in *.
  { split; [done|apply Z.pow_pos_nonneg; lia]. }
  apply lxor_range; [apply bit_at_range; lia|]. pose proof (IH (k - 1) ltac:(lia)) as H.
  pose proof (Z.pow_lt_mono_r 2 (k - 1) k). lia.
Qed.
Lemma place_double bs : ∀ k, Z.of_nat (length bs) ≤ k → 2 * place k bs = place (k + 1) bs.
Proof.
  induction bs as [|b bs IH]; intros k Hk; cbn in *; [done|].
  replace (k + 1 - 1) with ((k - 1) + 1) by lia. rewrite <- IH by lia.
  assert (∀ x, 2 * x = Z.shiftl x 1) as Hsh by (intros; rewrite Z.shiftl_mul_pow2; lia).
  rewrite !Hsh, Z.shiftl_lxor. f_equal. unfold bit_at. destruct b; [|done].
  rewrite <- Hsh, <- Z.pow_succ_r by lia. f_equal; lia.
Qed.

Lemma place_bits n : ∀ k x, Z.of_nat n ≤ k →
  place k (be_bits n x) = Z.shiftl (x mod 2 ^ Z.of_nat n) (k - Z.of_nat n).
Proof.
  induction n as [|n IH]; intros k x Hk; cbn [place be_bits].
  { rewrite Z.mod_1_r. by rewrite Z.shiftl_0_l. }
  rewrite IH by lia. replace (k - 1 - Z.of_nat n) with (k - Z.of_nat (S n)) by lia.
  assert (bit_at (Z.testbit x (Z.of_nat n)) (k - 1) =
    Z.shiftl (bit_at (Z.testbit x (Z.of_nat n)) (Z.of_nat n)) (k - Z.of_nat (S n))) as ->.
  { unfold bit_at. destruct (Z.testbit _ _); [|by rewrite Z.shiftl_0_l].
    rewrite Z.shiftl_mul_pow2, <- Z.pow_add_r by lia. f_equal. lia. }
  rewrite <- Z.shiftl_lxor. f_equal. apply Z.bits_inj'. intros i Hi.
  rewrite Z.lxor_spec, !Z.testbit_mod_pow2 by lia. unfold bit_at.
  assert (Z.testbit (if Z.testbit x (Z.of_nat n) then 2 ^ Z.of_nat n else 0) i =
    (i =? Z.of_nat n) && Z.testbit x (Z.of_nat n)) as ->.
  { destruct (Z.testbit x (Z.of_nat n)); [|by rewrite Z.bits_0, andb_false_r].
    rewrite Z.pow2_bits_eqb by lia. rewrite Z.eqb_sym. by rewrite andb_true_r. }
  destruct (Z.eqb_spec i (Z.of_nat n)) as [->|].
  - rewrite Z.ltb_irrefl, (proj2 (Z.ltb_lt _ _)) by lia. by destruct (Z.testbit _ _).
  - destruct (Z.ltb_spec i (Z.of_nat (S n))), (Z.ltb_spec i (Z.of_nat n)); try lia; by rewrite ?xorb_false_l.
Qed.

Lemma be_bits_length n x : length (be_bits n x) = n.
Proof. induction n; cbn; auto. Qed.
Lemma be_bits_ext n x y :
  (∀ i, 0 ≤ i < Z.of_nat n → Z.testbit x i = Z.testbit y i) → be_bits n x = be_bits n y.
Proof. induction n as [|n IH]; intros H; [done|]. cbn. f_equal; [apply H; lia|apply IH]. intros. apply H. lia. Qed.
Lemma be_bits_inj n x y :
  0 ≤ x < 2 ^ Z.of_nat n → 0 ≤ y < 2 ^ Z.of_nat n → be_bits n x = be_bits n y → x = y.
Proof.
  intros Hx Hy H. pose proof (place_bits n (Z.of_nat n) x ltac:(lia)) as H1.
  pose proof (place_bits n (Z.of_nat n) y ltac:(lia)) as H2. rewrite H in H1.
  rewrite Z.sub_diag, Z.shiftl_0_r, Z.mod_small in H1, H2 by done. congruence.
Qed.
Lemma be_bits_place bs : be_bits (length bs) (place (Z.of_nat (length bs)) bs) = bs.
Proof.
  induction bs as [|b bs IH]; [done|]. cbn [length be_bits place].
  replace (Z.of_nat (S (length bs)) - 1) with (Z.of_nat (length bs)) by lia.
  pose proof (place_range bs (Z.of_nat (length bs)) ltac:(lia)) as Hr. f_equal.
  - rewrite Z.lxor_spec, (testbit_high (place _ _) _ _ Hr), xorb_false_r by lia. unfold bit_at.
    destruct b; [apply Z.pow2_bits_true; lia|apply Z.bits_0].
  - etransitivity; [|exact IH]. apply be_bits_ext. intros i Hi. rewrite Z.lxor_spec.
    unfold bit_at. destruct b; [rewrite Z.pow2_bits_false by lia|rewrite Z.bits_0]; apply xorb_false_l.
Qed.

(** *** Reversal is reflection *)

Lemma reverse_8bits_ok : Forall (λ x,
  be_bits 8 (reverse_8bits x) = reverse (be_bits 8 x) ∧ in_u8 (reverse_8bits x)) (seqZ 0 256).
Proof. apply (bool_decide_unpack _). by vm_compute. Qed.
Lemma reverse_8bits_spec x : in_u8 x →
  be_bits 8 (reverse_8bits x) = reverse (be_bits 8 x) ∧ in_u8 (reverse_8bits x).
Proof.
  intros Hx. pose proof reverse_8bits_ok as H. rewrite Forall_forall in H. apply H, elem_of_seqZ.
  unfold in_u8 in Hx. lia.
Qed.

Lemma be_bits_app n m a b : 0 ≤ b < 2 ^ Z.of_nat m →
  be_bits (n + m) (Z.lor (Z.shiftl a (Z.of_nat m)) b) = be_bits n a ++ be_bits m b.
Proof.
  intros Hb. induction n as [|n IH]; cbn.
  - apply be_bits_ext. intros i Hi. rewrite Z.lor_spec, Z.shiftl_spec_low by lia. done.
  - f_equal; [|exact IH]. rewrite Z.lor_spec, Z.shiftl_spec, (testbit_high b _ _ Hb), orb_false_r by lia.
    f_equal. lia.
Qed.
Lemma be_bits_split n m x :
  be_bits (n + m) x = be_bits n (Z.shiftr x (Z.of_nat m)) ++ be_bits m (x mod 2 ^ Z.of_nat m).
Proof.
  induction n as [|n IH]; cbn.
  - apply be_bits_ext. intros i Hi. by rewrite Z.mod_pow2_bits_low by lia.
  - f_equal; [|exact IH]. rewrite Z.shiftr_spec by lia. f_equal. lia.
Qed.

Lemma shiftr_range x n m : 0 ≤ n → 0 ≤ m → 0 ≤ x < 2 ^ (n + m) → 0 ≤ Z.shiftr x m < 2 ^ n.
Proof.
  intros Hn Hm Hx. rewrite Z.pow_add_r in Hx by lia. rewrite Z.shiftr_div_pow2 by done.
  assert (0 < 2 ^ m) by (by apply Z.pow_pos_nonneg).
  split; [apply Z.div_pos; lia|apply Z.div_lt_upper_bound; lia].
Qed.

(** Two halves reversed and exchanged. *)
Lemma reverse_halves (n : nat) (rev : Z → Z) x :
  let W := 2 ^ Z.of_nat n in
  (∀ y, 0 ≤ y < W → be_bits n (rev y) = reverse (be_bits n y) ∧ 0 ≤ rev y < W) →
  0 ≤ x < 2 ^ Z.of_nat (n + n) →
  let y := Z.lor (Z.shiftl (rev (x mod W)) (Z.of_nat n)) (rev (Z.shiftr x (Z.of_nat n))) in
  be_bits (n + n) y = reverse (be_bits (n + n) x) ∧ 0 ≤ y < 2 ^ Z.of_nat (n + n).
Proof.
  intros W Hrev Hx. set (lo := x mod W). set (hi := Z.shiftr x (Z.of_nat n)).
  assert (0 < W) as HW by (apply Z.pow_pos_nonneg; lia).
  assert (2 ^ Z.of_nat (n + n) = W * W) as HWW by (unfold W; rewrite <- Z.pow_add_r by lia; f_equal; lia).
  assert (0 ≤ lo < W) as Hlo by (apply Z.mod_pos_bound; lia).
  assert (0 ≤ hi < W) as Hhi by (apply shiftr_range; [lia|lia|]; by rewrite <- Nat2Z.inj_add).
  destruct (Hrev lo Hlo) as [Hl1 Hl2], (Hrev hi Hhi) as [Hh1 Hh2]. cbv zeta. split.
  - rewrite be_bits_app by done. rewrite Hl1, Hh1, (be_bits_split n n x), reverse_app. done.
  - assert (Z.lor (Z.shiftl (rev lo) (Z.of_nat n)) (rev hi) = rev lo * W + rev hi) as ->.
    { assert (Z.land (Z.shiftl (rev lo) (Z.of_nat n)) (rev hi) = 0) as H0.
      { apply Z.bits_inj'; intros i Hi; rewrite Z.land_spec, Z.bits_0.
        destruct (decide (i < Z.of_nat n)); [by rewrite Z.shiftl_spec_low|].
        by rewrite (testbit_high (rev hi) _ _ Hh2), andb_false_r by lia. }
      rewrite <- Z.lxor_lor, <- Z.add_nocarry_lxor by done. by rewrite Z.shiftl_mul_pow2 by lia. }
    rewrite HWW. nia.
Qed.

Lemma reverse_16bits_spec x : in_u16 x →
  be_bits 16 (reverse_16bits x) = reverse (be_bits 16 x) ∧ in_u16 (reverse_16bits x).
Proof.
  intros Hx. destruct (reverse_halves 8 reverse_8bits x reverse_8bits_spec Hx) as [H1 H2].
  unfold reverse_16bits. change 0xff with (Z.ones 8). rewrite Z.land_ones by lia.
  rewrite (u8_small (x mod _)) by (by apply Z.mod_pos_bound).
  rewrite (u8_small (Z.shiftr x 8)), u16_small; [by split|done|].
  by apply (shiftr_range x 8 8).
Qed.
Lemma reverse_32bits_spec x : in_u32 x →
  be_bits 32 (reverse_32bits x) = reverse (be_bits 32 x) ∧ in_u32 (reverse_32bits x).
Proof.
  intros Hx. destruct (reverse_halves 16 reverse_16bits x reverse_16bits_spec Hx) as [H1 H2].
  unfold reverse_32bits. change 0xffff with (Z.ones 16). rewrite Z.land_ones by lia.
  rewrite (u16_small (x mod _)) by (by apply Z.mod_pos_bound).
  rewrite (u16_small (Z.shiftr x 16)), u32_small; [by split|done|].
  by apply (shiftr_range x 16 16).
Qed.
Lemma reverse_64bits_spec x : in_u64 x →
  be_bits 64 (reverse_64bits x) = reverse (be_bits 64 x) ∧ in_u64 (reverse_64bits x).
Proof.
  intros Hx. destruct (reverse_halves 32 reverse_32bits x reverse_32bits_spec Hx) as [H1 H2].
  unfold reverse_64bits. change 0xffffffff with (Z.ones 32). rewrite Z.land_ones by lia.
  rewrite (u32_small (x mod _)) by (by apply Z.mod_pos_bound).
  rewrite (u32_small (Z.shiftr x 32)), u64_small; [by split|done|].
  by apply (shiftr_range x 32 32).
Qed.

(** A function that reverses the bits is [reflect]. *)
Definition reverses (n : nat) (rev : Z → Z) : Prop := ∀ x, 0 ≤ x < 2 ^ Z.of_nat n →
  be_bits n (rev x) = reverse (be_bits n x) ∧ 0 ≤ rev x < 2 ^ Z.of_nat n.

Lemma reflect_range n x : 0 ≤ reflect n x < 2 ^ Z.of_nat n.
Proof. apply place_range. rewrite length_reverse, be_bits_length. lia. Qed.
Lemma reflect_bits n x : be_bits n (reflect n x) = reverse (be_bits n x).
Proof.
  unfold reflect. pose proof (be_bits_place (reverse (be_bits n x))) as H.
  by rewrite length_reverse, be_bits_length in H.
Qed.
Lemma reverses_reflect n rev x : reverses n rev → 0 ≤ x < 2 ^ Z.of_nat n → rev x = reflect n x.
Proof.
  intros Hr Hx. destruct (Hr x Hx) as [Hb Hlt].
  apply (be_bits_inj n); [done|apply reflect_range|]. by rewrite Hb, reflect_bits.
Qed.
Lemma reflect_inj n x y :
  0 ≤ x < 2 ^ Z.of_nat n → 0 ≤ y < 2 ^ Z.of_nat n → reflect n x = reflect n y → x = y.
Proof.
  intros Hx Hy H. apply (be_bits_inj n); [done|done|]. apply (inj reverse).
  by rewrite <- !reflect_bits, H.
Qed.

(** *** The register is linear *)

Section linear.
Context (w poly : Z) (Hw : 8 ≤ w) (Hpoly : 0 ≤ poly < 2 ^ w).
Local Abbreviation step := (lfsr w poly).

Lemma lfsr_range r : 0 ≤ step r < 2 ^ w.
Proof using Hw Hpoly.
  pose proof (Z.mod_pos_bound (2 * r) (2 ^ w) ltac:(apply Z.pow_pos_nonneg; lia)).
  unfold lfsr. destruct (Z.testbit _ _); [by apply lxor_range|done].
Qed.
Lemma lfsr_lxor a b : step (Z.lxor a b) = Z.lxor (step a) (step b).
Proof using Hw.
  assert (∀ x, 2 * x = Z.shiftl x 1) as Hsh by (intros; rewrite Z.shiftl_mul_pow2; lia).
  unfold lfsr. rewrite !Hsh, Z.shiftl_lxor, lxor_mod, Z.lxor_spec by lia.
  destruct (Z.testbit a _), (Z.testbit b _); cbn;
    apply Z.bits_inj; intros i; rewrite ?Z.lxor_spec; btauto.
Qed.
Lemma lfsr_small v : 0 ≤ v < 2 ^ (w - 1) → step v = 2 * v.
Proof using Hw.
  intros Hv. unfold lfsr. rewrite (testbit_high v _ _ Hv) by lia. apply Z.mod_small.
  replace w with (Z.succ (w - 1)) by lia. rewrite Z.pow_succ_r; lia.
Qed.
Lemma iter_lxor n a b :
  Nat.iter n step (Z.lxor a b) = Z.lxor (Nat.iter n step a) (Nat.iter n step b).
Proof using Hw. induction n as [|n IH]; [done|]. by rewrite !Nat.iter_succ, IH, lfsr_lxor. Qed.
Lemma iter_small n : ∀ v, Z.of_nat n ≤ w → 0 ≤ v < 2 ^ (w - Z.of_nat n) →
  Nat.iter n step v = v * 2 ^ Z.of_nat n.
Proof using Hw.
  induction n as [|n IH]; intros v Hn Hv; [cbn; lia|]. rewrite Nat.iter_succ_r, lfsr_small.
  - rewrite IH; [|lia|].
    + rewrite Nat2Z.inj_succ, Z.pow_succ_r; lia.
    + replace (w - Z.of_nat n) with (Z.succ (w - Z.of_nat (S n))) by lia. rewrite Z.pow_succ_r; lia.
  - pose proof (Z.pow_le_mono_r 2 (w - Z.of_nat (S n)) (w - 1)). lia.
Qed.
Lemma iter_zero n : Nat.iter n step 0 = 0.
Proof using Hw.
  induction n as [|n IH]; [done|]. rewrite Nat.iter_succ, IH. apply (lfsr_small 0).
  split; [done|]. apply Z.pow_pos_nonneg; lia.
Qed.

(** Up to [w] bits at once: they are placed on top of the register. *)
Lemma feed_block bs : ∀ r, Z.of_nat (length bs) ≤ w →
  foldl (feed w poly) r bs = Nat.iter (length bs) step (Z.lxor r (place w bs)).
Proof using Hw.
  induction bs as [|b bs IH]; intros r Hl; cbn [foldl length place] in *.
  { cbn. by rewrite Z.lxor_0_r. }
  rewrite IH, Nat.iter_succ_r by lia. f_equal. unfold feed.
  pose proof (place_range bs (w - 1) ltac:(lia)) as Hr.
  rewrite <- Z.lxor_assoc, (lfsr_lxor (Z.lxor _ _)), (lfsr_small (place _ _)) by done.
  rewrite place_double by lia. by replace (w - 1 + 1) with w by lia.
Qed.

Lemma feed_range bs r : 0 ≤ r < 2 ^ w → 0 ≤ foldl (feed w poly) r bs < 2 ^ w.
Proof using Hw Hpoly. revert r. induction bs; intros r Hr; [done|]. cbn. apply IHbs, lfsr_range. Qed.

(** The register never forgets when the polynomial has its lowest term. *)
Lemma lfsr_inj a b : Z.odd poly = true →
  0 ≤ a < 2 ^ w → 0 ≤ b < 2 ^ w → step a = step b → a = b.
Proof using Hw Hpoly.
  intros Hodd Ha Hb H. pose proof (lxor_range w a b Ha Hb) as Hc. set (c := Z.lxor a b) in *.
  assert (step c = 0) as H0 by (unfold c; rewrite lfsr_lxor, H; apply Z.lxor_nilpotent).
  apply Z.lxor_eq. fold c.
  destruct (decide (c < 2 ^ (w - 1))) as [Hlt|Hge]; [rewrite lfsr_small in H0; lia|exfalso].
  assert (2 ^ w = 2 * 2 ^ (w - 1)) as Hpow.
  { replace w with (Z.succ (w - 1)) at 1 by lia. by rewrite Z.pow_succ_r by lia. }
  assert (Z.testbit c (w - 1) = true) as Htop.
  { apply Z.testbit_true; [lia|]. assert (0 < 2 ^ (w - 1)) by (apply Z.pow_pos_nonneg; lia).
    assert (c / 2 ^ (w - 1) = 1) as ->; [|done].
    symmetry. apply (Z.div_unique _ _ _ (c - 2 ^ (w - 1))); lia. }
  assert (Z.testbit (step c) 0 = true) as Hbit; [|by rewrite H0, Z.bits_0 in Hbit].
  unfold lfsr. rewrite Htop, Z.lxor_spec, Z.mod_pow2_bits_low, Z.bit0_odd, Z.bit0_odd, Hodd by lia.
  by rewrite Z.odd_mul.
Qed.
Lemma iter_inj n a b : Z.odd poly = true →
  0 ≤ a < 2 ^ w → 0 ≤ b < 2 ^ w → Nat.iter n step a = Nat.iter n step b → a = b.
Proof using Hw Hpoly.
  intros Ho. revert a b. induction n as [|n IH]; intros a b Ha Hb H; [done|].
  rewrite !Nat.iter_succ_r in H. apply IH in H; [|apply lfsr_range..]. by apply lfsr_inj.
Qed.
Lemma feed_inj bs a b : Z.odd poly = true → 0 ≤ a < 2 ^ w → 0 ≤ b < 2 ^ w →
  foldl (feed w poly) a bs = foldl (feed w poly) b bs → a = b.
Proof using Hw Hpoly.
  intros Ho. revert a b. induction bs as [|x bs IH]; intros a b Ha Hb H; [done|].
  cbn in H. apply IH in H; [|apply lfsr_range..]. pose proof (bit_at_range x (w - 1) w ltac:(lia)) as Hx.
  apply lfsr_inj in H; [|done|by apply lxor_range..].
  apply (f_equal (λ y, Z.lxor y (bit_at x (w - 1)))) in H. by rewrite !lxor_self_cancel in H.
Qed.
End linear.

(** *** Tables *)

Definition table_ok (w poly : Z) (table : list Z) : Prop :=
  length table = 256%nat ∧ ∀ i, (i < 256)%nat →
    table !! i = Some (Nat.iter 8 (lfsr w poly) (Z.of_nat i * 2 ^ (w - 8))).

(** Filling an array by increasing index. *)
Lemma foldl_insert_lookup {A} (f : nat → A) (table : list A) n i :
  (i < length table)%nat →
  foldl (λ t i, <[i := f i]> t) table (seq 0 n) !! i = (if decide (i < n)%nat then Some (f i) else table !! i) ∧
  length (foldl (λ t i, <[i := f i]> t) table (seq 0 n)) = length table.
Proof.
  intros Hi. induction n as [|n [IH1 IH2]]; [done|].
  rewrite seq_S, foldl_app. cbn. rewrite length_insert. split; [|done].
  destruct (decide (i = n)) as [->|Hne].
  - rewrite list_lookup_insert_eq by lia. by rewrite decide_True by lia.
  - rewrite list_lookup_insert_ne, IH1 by done. destruct (decide (i < n)%nat), (decide (i < S n)%nat); done || lia.
Qed.

Section tables.
Context (w poly : Z) (Hw : 8 ≤ w) (Hpoly : 0 ≤ poly < 2 ^ w).

Lemma crc_shift_lfsr r : 0 ≤ r < 2 ^ w → crc_shift w poly r = lfsr w poly r.
Proof using Hw Hpoly.
  intros Hr. unfold crc_shift, lfsr, crc_trunc.
  replace (2 * r) with (Z.shiftl r 1) by (rewrite Z.shiftl_mul_pow2; lia).
  assert (Z.land r (BIT (w - 1)) = bit_at (Z.testbit r (w - 1)) (w - 1)) as ->.
  { unfold BIT, bit_at. rewrite Z.shiftl_1_l. apply Z.bits_inj'. intros i Hi.
    rewrite Z.land_spec, Z.pow2_bits_eqb by lia. destruct (Z.eqb_spec (w - 1) i) as [<-|].
    - destruct (Z.testbit r _); [by rewrite Z.pow2_bits_true by lia|by rewrite Z.bits_0].
    - rewrite andb_false_r. destruct (Z.testbit r _); [by rewrite Z.pow2_bits_false by lia|by rewrite Z.bits_0]. }
  unfold bit_at. destruct (Z.testbit r (w - 1)); [|done].
  assert (2 ^ (w - 1) ≠ 0) as Hne by (apply Z.pow_nonzero; lia).
  rewrite (proj2 (Z.eqb_neq _ 0) Hne). cbn. by rewrite lxor_mod, (Z.mod_small poly) by lia.
Qed.
Lemma crc_shift_iter n r : 0 ≤ r < 2 ^ w →
  Nat.iter n (crc_shift w poly) r = Nat.iter n (lfsr w poly) r ∧ 0 ≤ Nat.iter n (lfsr w poly) r < 2 ^ w.
Proof using Hw Hpoly.
  intros Hr. induction n as [|n [IH1 IH2]]; [done|].
  rewrite !Nat.iter_succ, IH1, crc_shift_lfsr by done. split; [done|by apply lfsr_range].
Qed.

Lemma entry_range i : (i < 256)%nat → 0 ≤ Z.of_nat i * 2 ^ (w - 8) < 2 ^ w.
Proof using Hw.
  intros Hi. assert (2 ^ w = 2 ^ 8 * 2 ^ (w - 8)) as -> by (rewrite <- Z.pow_add_r by lia; f_equal; lia).
  assert (0 < 2 ^ (w - 8)) by (apply Z.pow_pos_nonneg; lia). change (2 ^ 8) with 256. nia.
Qed.

Lemma init_table_ok table :
  length table = 256%nat → table_ok w poly (crc_init_table w table 255 poly).
Proof using Hw Hpoly.
  intros Hl. unfold crc_init_table. change (S (Z.to_nat 255)) with 256%nat.
  set (f := λ i : nat, Nat.iter 8 (crc_shift w poly) (crc_trunc w (Z.shiftl (Z.of_nat i) (w - 8)))).
  split.
  - etransitivity; [apply (foldl_insert_lookup f table 256 0); lia|exact Hl].
  - intros i Hi. etransitivity; [apply (foldl_insert_lookup f table 256 i); lia|].
    rewrite decide_True by done. unfold f, crc_trunc. rewrite Z.shiftl_mul_pow2 by lia.
    pose proof (entry_range i Hi) as He. rewrite Z.mod_small by done.
    by rewrite (proj1 (crc_shift_iter 8 _ He)).
Qed.

(** One byte through the table is eight steps of the register. *)
Lemma table_step table r d t :
  table_ok w poly table → 0 ≤ r < 2 ^ w → in_u8 d →
  table !! Z.to_nat (Z.lxor (Z.shiftr r (w - 8)) d) = Some t →
  crc_trunc w (Z.lxor t (Z.shiftl r 8)) = foldl (feed w poly) r (be_bits 8 d).
Proof using Hw Hpoly.
  intros [Hlen Ht] Hr Hd. set (hi := Z.shiftr r (w - 8)). set (lo := r mod 2 ^ (w - 8)).
  assert (0 ≤ hi < 2 ^ 8) as Hhi by (apply shiftr_range; [lia|lia|]; by replace (8 + (w - 8)) with w by lia).
  pose proof (lxor_range 8 hi d Hhi Hd) as Hx.
  assert (0 ≤ lo < 2 ^ (w - 8)) as Hlo by (apply Z.mod_pos_bound, Z.pow_pos_nonneg; lia).
  assert (r = Z.lxor (Z.shiftl hi (w - 8)) lo) as Hsplit.
  { apply Z.bits_inj'. intros i Hi. unfold hi, lo.
    rewrite Z.lxor_spec, Z.testbit_mod_pow2 by lia. destruct (Z.ltb_spec i (w - 8)).
    - by rewrite Z.shiftl_spec_low by lia.
    - rewrite Z.shiftl_spec, Z.shiftr_spec by lia. rewrite xorb_false_r. f_equal. lia. }
  rewrite Ht by lia. intros [= <-]. rewrite Z2Nat.id by lia.
  rewrite feed_block by (rewrite ?be_bits_length; lia). rewrite be_bits_length, place_bits by lia.
  rewrite (Z.mod_small d) by done. change (Z.of_nat 8) with 8.
  assert (Z.lxor r (Z.shiftl d (w - 8)) = Z.lxor (Z.lxor hi d * 2 ^ (w - 8)) lo) as ->.
  { rewrite <- Z.shiftl_mul_pow2, Z.shiftl_lxor by lia. rewrite Hsplit at 1.
    rewrite !Z.lxor_assoc. f_equal. apply Z.lxor_comm. }
  rewrite iter_lxor by done. rewrite (iter_small w poly Hw 8 lo) by (cbn; lia || done).
  unfold crc_trunc. rewrite lxor_mod by lia. f_equal.
  - apply Z.mod_small, crc_shift_iter. rewrite <- (Z2Nat.id (Z.lxor hi d)) by lia.
    apply entry_range. lia.
  - assert (2 ^ w = 2 ^ (w - 8) * 2 ^ 8) as -> by (rewrite <- Z.pow_add_r by lia; f_equal; lia).
    rewrite Z.shiftl_mul_pow2, Z.mul_mod_distr_r; [done|..]; try apply Z.pow_nonzero; lia.
Qed.
End tables.

(** *** The calculation *)

Definition inst_ok (w : nat) (crc : crc_instance) : Prop :=
  length (ci_table crc) = 256%nat ∧
  (ci_poly crc ≠ 0 → table_ok (Z.of_nat w) (ci_poly crc) (ci_table crc)).
Record cfg_ok (w : nat) (cfg : crc_config) : Prop := {
  co_poly : 0 ≤ crc_poly cfg < 2 ^ Z.of_nat w;
  co_init : 0 ≤ crc_init cfg < 2 ^ Z.of_nat w;
  co_xorout : 0 ≤ crc_xorout cfg < 2 ^ Z.of_nat w }.

Lemma byte_in (refin : bool) d : in_u8 d → in_u8 (if refin then reverse_8bits d else d) ∧
  be_bits 8 (if refin then reverse_8bits d else d) = byte_bits refin d.
Proof. intros Hd. destruct refin; [|done]. by destruct (reverse_8bits_spec d Hd). Qed.

Lemma crc_loop_ok w poly table refin data (Hw : 8 ≤ w) (Hpoly : 0 ≤ poly < 2 ^ w)
    (Ht : table_ok w poly table) (Hd : Forall in_u8 data) n : ∀ i r,
  0 ≤ r < 2 ^ w → (i + n ≤ length data)%nat →
  crc_loop w refin table data n i r =
    Some (foldl (feed w poly) r (take n (drop i data) ≫= byte_bits refin)).
Proof.
  induction n as [|n IH]; intros i r Hr Hi; [done|]. cbn [crc_loop].
  destruct (data !! i) as [d|] eqn:Hdi; [|apply lookup_ge_None in Hdi; lia].
  rewrite (drop_S _ _ _ Hdi). cbn [take mbind list_bind option_bind mret].
  rewrite Forall_lookup in Hd. destruct (byte_in refin d (Hd _ _ Hdi)) as [Hb8 Hbits].
  set (d' := if refin then reverse_8bits d else d) in *.
  assert (0 ≤ Z.shiftr r (w - 8) < 2 ^ 8) as Hhi
    by (apply shiftr_range; [lia|lia|]; by replace (8 + (w - 8)) with w by lia).
  pose proof (lxor_range 8 _ _ Hhi Hb8) as Hx. rewrite (u8_small _ Hx).
  assert (is_Some (table !! Z.to_nat (Z.lxor (Z.shiftr r (w - 8)) d'))) as [t Hti]
    by (apply lookup_lt_is_Some; destruct Ht; lia).
  cbn. rewrite Hti. cbn. rewrite (table_step w poly Hw Hpoly _ _ _ _ Ht Hr Hb8 Hti), foldl_app, Hbits.
  apply IH; [|lia]. by apply feed_range.
Qed.

Section calculate.
Context (w : nat) (rev : Z → Z) (Hw : (8 ≤ w)%nat) (Hrev : reverses w rev).

(** [f] computes the checksum of the first [size] bytes, whatever table was left behind. *)
Definition computes (f : crc_instance → crc_config → list Z → Z → option (Z * crc_instance)) : Prop :=
  ∀ crc cfg data size, inst_ok w crc → cfg_ok w cfg → Forall in_u8 data →
  0 ≤ size ≤ Z.of_nat (length data) → ∃ crc', inst_ok w crc' ∧
    f crc cfg data size = Some (crc_spec w cfg (take (Z.to_nat size) data), crc').

(** The instance a calculation works with. *)
Definition prepared (crc : crc_instance) (cfg : crc_config) : crc_instance :=
  if (ci_poly crc =? 0) || negb (ci_poly crc =? crc_poly cfg)
  then {| ci_table := crc_init_table (Z.of_nat w) (ci_table crc)
            (crc_trunc (Z.of_nat w) (nr_entry crc - 1)) (crc_poly cfg);
          ci_poly := crc_poly cfg |}
  else crc.
Lemma prepared_ok crc cfg : inst_ok w crc → cfg_ok w cfg →
  inst_ok w (prepared crc cfg) ∧ table_ok (Z.of_nat w) (crc_poly cfg) (ci_table (prepared crc cfg)).
Proof using Hw.
  intros [Hl Ht] [Hp _ _]. unfold prepared.
  assert (table_ok (Z.of_nat w) (crc_poly cfg) (crc_init_table (Z.of_nat w) (ci_table crc)
    (crc_trunc (Z.of_nat w) (nr_entry crc - 1)) (crc_poly cfg))) as Hnew.
  { unfold nr_entry, crc_trunc. rewrite Hl. pose proof (Z.pow_le_mono_r 2 8 (Z.of_nat w)).
    rewrite Z.mod_small by lia. apply init_table_ok; [lia|done|done]. }
  destruct (Z.eqb_spec (ci_poly crc) 0) as [|Hne]; cbn; [split; [split; [apply Hnew|by intros _]|done]|].
  destruct (Z.eqb_spec (ci_poly crc) (crc_poly cfg)) as [<-|]; cbn;
    [split; [by split|by apply Ht]|split; [split; [apply Hnew|by intros _]|done]].
Qed.

Lemma crc_calculate_ok : computes (crc_calculate (Z.of_nat w) rev).
Proof using Hw Hrev.
  intros crc cfg data size Hc Hcfg Hd Hs. destruct (prepared_ok crc cfg Hc Hcfg) as [Hp Ht].
  exists (prepared crc cfg). split; [done|]. destruct Hcfg as [Hpoly Hinit _].
  unfold crc_calculate. fold (prepared crc cfg).
  rewrite (crc_loop_ok (Z.of_nat w) (crc_poly cfg)) by (done || lia). cbn. rewrite drop_0.
  unfold crc_spec. fold (message cfg (take (Z.to_nat size) data)).
  set (r := foldl _ _ _). assert (0 ≤ r < 2 ^ Z.of_nat w) as Hr by (by apply feed_range; [lia|..]).
  destruct (crc_refout cfg); [|done]. by rewrite (reverses_reflect w rev r Hrev Hr).
Qed.
End calculate.

Lemma crc8_bits_iter n : ∀ poly i r table, (0 < n)%nat →
  crc8_bits n poly i r table = <[i := Nat.iter n (crc_shift 8 poly) r]> table.
Proof.
  induction n as [|n IH]; intros poly i r table Hn; [lia|]. cbn [crc8_bits].
  destruct n as [|n]; [done|]. rewrite IH, list_insert_insert_eq by lia.
  by rewrite (Nat.iter_succ_r (S n)).
Qed.
Lemma crc8_init_table_eq table idx poly : crc8_init_table table idx poly = crc_init_table 8 table idx poly.
Proof.
  unfold crc8_init_table, crc_init_table. generalize (seq 0 (S (Z.to_nat idx))). intros l.
  revert table. induction l as [|i l IH]; intros t; [done|]. cbn [foldl]. rewrite <- IH. f_equal.
  cbn beta. rewrite crc8_bits_iter by lia. change (8 - 8) with 0. by rewrite Z.shiftl_0_r.
Qed.
Lemma crc8_loop_eq refin table data n poly : table_ok 8 poly table → 0 ≤ poly < 2 ^ 8 → ∀ i r,
  crc8_loop refin table data n i r = crc_loop 8 refin table data n i r.
Proof.
  intros [Hl Ht] Hp. induction n as [|n IH]; intros i r; [done|]. cbn [crc8_loop crc_loop].
  change (8 - 8) with 0. rewrite Z.shiftr_0_r. destruct (data !! i) as [d|]; [|done]. cbn.
  set (byte := u8 _). assert (Z.to_nat byte < 256)%nat as Hb by (pose proof (u8_range (Z.lxor r (if refin then reverse_8bits d else d))); unfold byte; lia).
  rewrite (Ht _ Hb). cbn [mbind option_bind]. rewrite IH. f_equal. unfold crc_trunc. rewrite lxor_mod by lia.
  rewrite Z.shiftl_mul_pow2, Z_mod_mult, Z.lxor_0_r by lia. symmetry. apply Z.mod_small.
  apply (crc_shift_iter 8 poly ltac:(lia) Hp 8), entry_range; [lia|done].
Qed.
Lemma crc8_calculate_ok : computes 8 crc8_calculate.
Proof.
  intros crc cfg data size Hc Hcfg Hd Hs.
  destruct (crc_calculate_ok 8 reverse_8bits ltac:(lia) reverse_8bits_spec crc cfg data size Hc Hcfg Hd Hs)
    as (crc' & Hc' & Heq). exists crc'. split; [done|]. rewrite <- Heq.
  unfold crc8_calculate, crc_calculate. rewrite crc8_init_table_eq.
  change (u8 (nr_entry crc - 1)) with (crc_trunc (Z.of_nat 8) (nr_entry crc - 1)).
  fold (prepared 8 crc cfg). destruct (prepared_ok 8 ltac:(lia) crc cfg Hc Hcfg) as [_ Ht].
  by rewrite (crc8_loop_eq _ _ _ _ (crc_poly cfg) Ht (co_poly _ _ Hcfg)).
Qed.

Lemma crc16_calculate_ok : computes 16 crc16_calculate.
Proof. apply (crc_calculate_ok 16 reverse_16bits); [lia|exact reverse_16bits_spec]. Qed.
Lemma crc32_calculate_ok : computes 32 crc32_calculate.
Proof. apply (crc_calculate_ok 32 reverse_32bits); [lia|exact reverse_32bits_spec]. Qed.
Lemma crc64_calculate_ok : computes 64 crc64_calculate.
Proof. apply (crc_calculate_ok 64 reverse_64bits); [lia|exact reverse_64bits_spec]. Qed.

(** C35. The table-driven checksums are the bit-serial ones.  At every width, for every
    polynomial, initial value, reflection and final XOR, and whatever polynomial the
    shared table was filled for by an earlier call (the table is filled again exactly when
    it is another one), the function reads inside its arrays only and returns what the
    shift register ends with that takes the message bit by bit. *)
Theorem crc_is_serial :
  computes 8 crc8_calculate ∧ computes 16 crc16_calculate ∧
  computes 32 crc32_calculate ∧ computes 64 crc64_calculate.
Proof.
  split_and!; [apply crc8_calculate_ok|apply crc16_calculate_ok|apply crc32_calculate_ok
              |apply crc64_calculate_ok].
Qed.

(** *** Protection information *)

Lemma guard_bits c : be_bits 8 (Z.shiftr c 8) ++ be_bits 8 (Z.land c 0xff) = be_bits 16 c.
Proof.
  change 0xff with (Z.ones 8). rewrite Z.land_ones by lia. symmetry. exact (be_bits_split 8 8 c).
Qed.
(** Feeding the register its own contents clears it. *)
Lemma feed_self (w : nat) poly r : (8 ≤ w)%nat → 0 ≤ r < 2 ^ Z.of_nat w →
  foldl (feed (Z.of_nat w) poly) r (be_bits w r) = 0.
Proof.
  intros Hw Hr. rewrite feed_block by (rewrite ?be_bits_length; lia).
  rewrite place_bits, Z.sub_diag, Z.shiftl_0_r, Z.mod_small, Z.lxor_nilpotent by (done || lia).
  apply iter_zero. lia.
Qed.
Lemma t10_spec data : crc_spec 16 t10_dif_cfg data = foldl (feed 16 0x8bb7) 0 (data ≫= be_bits 8).
Proof. apply Z.lxor_0_r. Qed.

(** C37. Guarding data and checking it: when the T10 DIF checksum of the data is stored
    behind the data, high byte first, the checksum of the whole is 0. *)
Theorem t10_guard_roundtrip crc data (Hc : inst_ok 16 crc) (Hd : Forall in_u8 data) :
  ∃ c crc1 crc2, in_u16 c ∧
    crc16_t10_dif crc data (Z.of_nat (length data)) = Some (c, crc1) ∧
    crc16_t10_dif crc1 (data ++ [Z.shiftr c 8; Z.land c 0xff]) (Z.of_nat (length data) + 2) =
      Some (0, crc2).
Proof.
  assert (cfg_ok 16 t10_dif_cfg) as Hcfg by (by split).
  destruct (crc16_calculate_ok crc t10_dif_cfg data (Z.of_nat (length data))) as (crc1 & Hc1 & He1);
    [done..|lia|]. rewrite Nat2Z.id, take_ge, t10_spec in He1 by lia. set (c := foldl _ _ _) in *.
  assert (in_u16 c) as Hcr by (by apply (feed_range 16); [lia|..]).
  exists c, crc1.
  destruct (crc16_calculate_ok crc1 t10_dif_cfg (data ++ [Z.shiftr c 8; Z.land c 0xff])
    (Z.of_nat (length data) + 2)) as (crc2 & _ & He2); [done|done| | |].
  - apply Forall_app. split; [done|]. repeat constructor.
    + apply (shiftr_range c 8 8); [lia|lia|exact Hcr].
    + apply (shiftr_range c 8 8); [lia|lia|exact Hcr].
    + change 0xff with (Z.ones 8). rewrite Z.land_ones by lia. by apply Z.mod_pos_bound.
    + change 0xff with (Z.ones 8). rewrite Z.land_ones by lia. by apply Z.mod_pos_bound.
  - rewrite length_app. cbn. lia.
  - exists crc2. split; [done|]. split; [exact He1|]. unfold crc16_t10_dif. rewrite He2.
    rewrite take_ge, t10_spec by (rewrite length_app; cbn; lia). do 2 f_equal.
    rewrite bind_app, foldl_app. cbn [mbind list_bind]. rewrite app_nil_r, guard_bits.
    fold c. by apply (feed_self 16); [lia|].
Qed.

Lemma t10_guard_roundtrip_witness :
  ∃ c crc1 crc2, in_u16 c ∧
    crc16_t10_dif g_crc check_text 9 = Some (c, crc1) ∧
    crc16_t10_dif crc1 (check_text ++ [Z.shiftr c 8; Z.land c 0xff]) 11 = Some (0, crc2).
Proof.
  refine (t10_guard_roundtrip g_crc check_text _ _); [by split|].
  apply (bool_decide_unpack _). reflexivity.
Defined.

(** *** Error detection *)

(** Two messages of one length that differ, and only within [w] bits in a row. *)
Definition burst (w : nat) (cfg : crc_config) (d1 d2 : list Z) : Prop :=
  length d1 = length d2 ∧ ∃ a x y b,
    message cfg d1 = a ++ x ++ b ∧ message cfg d2 = a ++ y ++ b ∧
    length x = length y ∧ (length x ≤ w)%nat ∧ x ≠ y.

Definition detects (w : nat) (cfg : crc_config)
    (f : crc_instance → list Z → Z → option (Z * crc_instance)) : Prop :=
  ∀ crc1 crc2 d1 d2, inst_ok w crc1 → inst_ok w crc2 → Forall in_u8 d1 → Forall in_u8 d2 →
  burst w cfg d1 d2 → ∃ c1 c2 crc1' crc2', c1 ≠ c2 ∧
    f crc1 d1 (Z.of_nat (length d1)) = Some (c1, crc1') ∧
    f crc2 d2 (Z.of_nat (length d2)) = Some (c2, crc2').

Lemma place_inj x y k : Z.of_nat (length x) ≤ k → length x = length y → place k x = place k y → x = y.
Proof.
  intros Hk Hl. revert y k Hk Hl. induction x as [|a x IH]; intros [|b y] k Hk Hl H; try done.
  cbn in Hk, Hl, H. pose proof (place_range x (k - 1) ltac:(lia)) as Hx.
  pose proof (place_range y (k - 1) ltac:(lia)) as Hy.
  assert (∀ c z, 0 ≤ z < 2 ^ (k - 1) → Z.testbit (Z.lxor (bit_at c (k - 1)) z) (k - 1) = c) as Htop.
  { intros c z Hz. rewrite Z.lxor_spec, (testbit_high z _ _ Hz), xorb_false_r by lia. unfold bit_at.
    destruct c; [apply Z.pow2_bits_true; lia|apply Z.bits_0]. }
  assert (a = b) as -> by (by rewrite <- (Htop a _ Hx), H, Htop).
  f_equal. apply (IH y (k - 1)); [lia|lia|].
  apply (f_equal (λ z, Z.lxor z (bit_at b (k - 1)))) in H.
  by rewrite !(Z.lxor_comm (bit_at b (k - 1))), !lxor_self_cancel in H.
Qed.

Lemma spec_detects (w : nat) cfg d1 d2 : (8 ≤ w)%nat → cfg_ok w cfg → Z.odd (crc_poly cfg) = true →
  burst w cfg d1 d2 → crc_spec w cfg d1 ≠ crc_spec w cfg d2.
Proof.
  intros Hw [Hp Hi _] Ho (_ & a & x & y & b & H1 & H2 & Hl & Hlw & Hne) Heq. apply Hne. clear Hne.
  assert (8 ≤ Z.of_nat w) as Hw' by lia.
  unfold crc_spec in Heq. apply (f_equal (λ z, Z.lxor z (crc_xorout cfg))) in Heq.
  rewrite !lxor_self_cancel, H1, H2, !foldl_app in Heq.
  set (F := feed (Z.of_nat w) (crc_poly cfg)) in *. set (r := foldl F (crc_init cfg) a) in *.
  assert (∀ l s, 0 ≤ s < 2 ^ Z.of_nat w → 0 ≤ foldl F s l < 2 ^ Z.of_nat w) as Hrange
    by (intros; by apply feed_range).
  pose proof (Hrange a _ Hi) as Hr. fold r in Hr.
  assert (foldl F (foldl F r x) b = foldl F (foldl F r y) b) as Hb.
  { destruct (crc_refout cfg); [|done]. apply (reflect_inj w) in Heq; auto. }
  apply feed_inj in Hb; try done; auto. unfold F in Hb. rewrite !feed_block in Hb by lia.
  rewrite Hl in Hb. pose proof (place_range x (Z.of_nat w) ltac:(lia)) as Hx.
  pose proof (place_range y (Z.of_nat w) ltac:(lia)) as Hy.
  apply iter_inj in Hb; try done; try by apply lxor_range.
  apply (f_equal (Z.lxor r)) in Hb. rewrite <- !Z.lxor_assoc, Z.lxor_nilpotent, !Z.lxor_0_l in Hb.
  by apply (place_inj x y (Z.of_nat w)); [lia|..].
Qed.

Lemma computes_detects w f cfg : (8 ≤ w)%nat → computes w f → cfg_ok w cfg →
  Z.odd (crc_poly cfg) = true → detects w cfg (λ crc, f crc cfg).
Proof.
  intros Hw Hf Hcfg Ho crc1 crc2 d1 d2 Hc1 Hc2 Hd1 Hd2 Hb.
  destruct (Hf crc1 cfg d1 (Z.of_nat (length d1))) as (e1 & _ & He1); [done..|lia|].
  destruct (Hf crc2 cfg d2 (Z.of_nat (length d2))) as (e2 & _ & He2); [done..|lia|].
  rewrite Nat2Z.id, take_ge in He1, He2 by lia.
  exists (crc_spec w cfg d1), (crc_spec w cfg d2), e1, e2. split; [by apply spec_detects|done].
Qed.

(** C36. Every error burst is detected.  Each of the five named checksums gives different
    results for two messages of the same length that differ only within a run of bits
    (in the order they are transmitted) no longer than the checksum; in particular no
    change of one byte, or of two adjacent bits, goes unnoticed. *)
Theorem bursts_detected :
  detects 8 maxim_cfg crc8_maxim ∧ detects 16 usb_cfg crc16_usb ∧
  detects 16 t10_dif_cfg crc16_t10_dif ∧ detects 32 castagnoli_cfg crc32_castagnoli ∧
  detects 64 nvme64b_cfg crc64_nvme64bcrc.
Proof.
  split_and!; (apply computes_detects; [lia| |by split|done]).
  - apply crc8_calculate_ok.
  - apply crc16_calculate_ok.
  - apply crc16_calculate_ok.
  - apply crc32_calculate_ok.
  - apply crc64_calculate_ok.
Qed.

(** The check value that is given with [crc64_nvme64bcrc] is not its value: on the
    text "123456789" the function returns AE8B14860A799888h, the value of the catalogue the
    file refers to, and not 11199E50_6128D175h.  The other check values hold
    ([maxim_check], [t10_dif_check], [castagnoli_check]). *)
Theorem nvme64b_check_value :
  fst <$> crc64_nvme64bcrc g_crc check_text 9 = Some 0xae8b14860a799888 ∧
  fst <$> crc64_nvme64bcrc g_crc check_text 9 ≠ Some 0x11199e506128d175.
Proof. split; by vm_compute. Qed.
