(* ===== verification/Layout.v ===== *)
(** * Layout of C structures

    The commands, completions and identify data that the user library builds and reads
    are C structures laid over byte buffers.  This file has the layout rules of the
    platform (every integer aligned to its size, fields in order with padding, a
    structure padded to its alignment), so that [sizeof], the offset of a field and the
    typed access to a field are computed from the declaration. *)

From S2P Require Import Prelude.

(** An integer of [n] bytes, an array, a structure, a union.  A pointer is an integer of
    8 bytes; an unnamed member has the name [""]. *)
Inductive ctype :=
| CInt (n : nat)
| CArr (n : nat) (t : ctype)
| CStruct (fs : list (string * ctype))
| CUnion (fs : list (string * ctype)).

Abbreviation cu8 := (CInt 1).
Abbreviation cu16 := (CInt 2).
Abbreviation cu32 := (CInt 4).
Abbreviation cu64 := (CInt 8).

Definition align_up (p a : Z) : Z := (p + a - 1) / a * a.

Fixpoint alignof (t : ctype) : Z :=
  match t with
  | CInt n => Z.of_nat n
  | CArr _ t => alignof t
  | CStruct fs | CUnion fs => foldr (λ f a, let '(_, t) := f in Z.max (alignof t) a) 1 fs
  end.

Fixpoint sizeof (t : ctype) : Z :=
  match t with
  | CInt n => Z.of_nat n
  | CArr n t => Z.of_nat n * sizeof t
  | CStruct fs =>
    align_up (foldl (λ p f, let '(_, t) := f in align_up p (alignof t) + sizeof t) 0 fs)
      (alignof (CStruct fs))
  | CUnion fs =>
    align_up (foldr (λ f m, let '(_, t) := f in Z.max (sizeof t) m) 0 fs) (alignof (CUnion fs))
  end.

(** The offset and the type of a member of a structure whose fields start at [p]. *)
Fixpoint field_at (p : Z) (fs : list (string * ctype)) (s : string) : option (Z * ctype) :=
  match fs with
  | [] => None
  | (n, t) :: fs =>
    let o := align_up p (alignof t) in
    if decide (n = s) then Some (o, t) else field_at (o + sizeof t) fs s
  end.

Fixpoint member (fs : list (string * ctype)) (s : string) : option ctype :=
  match fs with
  | [] => None
  | (n, t) :: fs => if decide (n = s) then Some t else member fs s
  end.

(** An lvalue: members and array elements. *)
Inductive acc := Fld (s : string) | Idx (i : Z).
Coercion Fld : string >-> acc.
Notation ".[ x ; .. ; y ]" := (@cons acc x .. (@cons acc y (@nil acc)) ..)
  (at level 0, format ".[ x ;  .. ;  y ]").

Fixpoint resolve (t : ctype) (p : list acc) : option (Z * ctype) :=
  match p with
  | [] => Some (0, t)
  | a :: p =>
    '(o, u) ← match a, t with
              | Fld s, CStruct fs => field_at 0 fs s
              | Fld s, CUnion fs => (λ u, (0, u)) <$> member fs s
              | Idx i, CArr n u =>
                if decide (0 ≤ i < Z.of_nat n) then Some (i * sizeof u, u) else None
              | _, _ => None
              end;
    '(o', v) ← resolve u p;
    Some (o + o', v)
  end.

(** The typed accesses [x.p] and [x.p = v] of an object [bs] of type [t]. *)
Definition cget (t : ctype) (p : list acc) (bs : list Z) : option Z :=
  '(o, u) ← resolve t p; load_le (Z.to_nat (sizeof u)) bs o.
Definition cset (t : ctype) (p : list acc) (v : Z) (bs : list Z) : option (list Z) :=
  '(o, u) ← resolve t p; store_le (Z.to_nat (sizeof u)) bs o v.

(** [struct t x = {0}; x.p1 = v1; x.p2 = v2; ...] *)
Definition czero (t : ctype) : list Z := replicate (Z.to_nat (sizeof t)) 0.
Fixpoint cassign (t : ctype) (as' : list (list acc * Z)) (bs : list Z) : option (list Z) :=
  match as' with
  | [] => Some bs
  | (p, v) :: as' => bs' ← cset t p v bs; cassign t as' bs'
  end.
Definition cinit (t : ctype) (as' : list (list acc * Z)) : option (list Z) :=
  cassign t as' (czero t).

(** ** Well-formed types: integers of 1, 2, 4 or 8 bytes *)

Definition pow2 (a : Z) : Prop := a = 1 ∨ a = 2 ∨ a = 4 ∨ a = 8.

Fixpoint cwf (t : ctype) : Prop :=
  match t with
  | CInt n => pow2 (Z.of_nat n)
  | CArr _ t => cwf t
  | CStruct fs | CUnion fs => foldr (λ f P, let '(_, t) := f in cwf t ∧ P) True fs
  end.

Fixpoint cwfb (t : ctype) : bool :=
  match t with
  | CInt n => existsb (Nat.eqb n) [1; 2; 4; 8]%nat
  | CArr _ t => cwfb t
  | CStruct fs | CUnion fs => forallb (λ f, let '(_, t) := f in cwfb t) fs
  end.

(** Induction with the hypothesis for every field. *)
Lemma ctype_ind' (P : ctype → Prop) :
  (∀ n, P (CInt n)) → (∀ n t, P t → P (CArr n t)) →
  (∀ fs, Forall (λ f : string * ctype, P f.2) fs → P (CStruct fs)) →
  (∀ fs, Forall (λ f : string * ctype, P f.2) fs → P (CUnion fs)) →
  ∀ t, P t.
Proof.
  intros Hi Ha Hs Hu. fix IH 1. intros [n|n t|fs|fs].
  - apply Hi.
  - apply Ha, IH.
  - apply Hs. revert fs. fix IHl 1. intros [|[s t] fs]; constructor; [apply IH|apply IHl].
  - apply Hu. revert fs. fix IHl 1. intros [|[s t] fs]; constructor; [apply IH|apply IHl].
Qed.

Lemma align_up_spec p a : 0 < a → p ≤ align_up p a < p + a ∧ (a | align_up p a).
Proof.
  intros Ha. unfold align_up. split; [|by exists ((p + a - 1) / a)].
  pose proof (Z.div_mod (p + a - 1) a ltac:(lia)).
  pose proof (Z.mod_pos_bound (p + a - 1) a Ha). nia.
Qed.

Lemma align_up_id p a : 0 < a → (a | p) → align_up p a = p.
Proof.
  intros Ha [k ->]. unfold align_up.
  replace (k * a + a - 1) with (k * a + (a - 1)) by lia.
  rewrite Z.div_add_l, Z.div_small; lia.
Qed.

Lemma pow2_divide a b : pow2 a → pow2 b → a ≤ b → (a | b).
Proof.
  intros Ha Hb Hle.
  destruct Ha as [->|[->|[->| ->]]], Hb as [->|[->|[->| ->]]]; try lia;
    first [by exists 1|by exists 2|by exists 4|by exists 8].
Qed.
Lemma pow2_pos a : pow2 a → 0 < a.
Proof. unfold pow2. lia. Qed.
Lemma pow2_max a b : pow2 a → pow2 b → pow2 (Z.max a b).
Proof. unfold pow2. lia. Qed.

Lemma cwf_fields fs : foldr (λ f P, let '(_, t) := f in cwf t ∧ P) True fs ↔
  Forall (λ f : string * ctype, cwf f.2) fs.
Proof.
  induction fs as [|[s t] fs IH]; [split; [constructor|done]|].
  simpl. rewrite Forall_cons, IH. done.
Qed.

Lemma cwfb_cwf t : cwfb t = true → cwf t.
Proof.
  assert (∀ fs, Forall (λ f : string * ctype, cwfb f.2 = true → cwf f.2) fs →
    forallb (λ f, let '(_, t) := f in cwfb t) fs = true → cwf (CStruct fs)) as Hfs.
  { induction 1 as [|[s u] fs Hu _ IH]; [done|]. simpl in *.
    intros [? ?]%andb_true_iff. auto. }
  induction t as [n|n u IH|fs IH|fs IH] using ctype_ind'; simpl; [|done|by apply Hfs..].
  unfold pow2. rewrite !orb_true_iff, !Nat.eqb_eq. lia.
Qed.

Lemma alignof_pow2 t : cwf t → pow2 (alignof t).
Proof.
  assert (∀ fs, Forall (λ f : string * ctype, cwf f.2 → pow2 (alignof f.2)) fs →
    Forall (λ f : string * ctype, cwf f.2) fs → pow2 (alignof (CStruct fs))) as Hfs.
  { intros fs IH Hwf. induction fs as [|[s u] fs IHfs]; [by left|].
    inversion_clear IH. inversion_clear Hwf. simpl. apply pow2_max; [auto|].
    by apply IHfs. }
  induction t as [n|n u IH|fs IH|fs IH] using ctype_ind'; simpl; [done|done|..];
    rewrite cwf_fields; intros Hwf; by apply (Hfs fs IH Hwf).
Qed.

Lemma alignof_field fs s t : Forall (λ f : string * ctype, cwf f.2) fs →
  (s, t) ∈ fs → (alignof t | alignof (CStruct fs)).
Proof.
  intros Hwf Hin. apply pow2_divide.
  - apply alignof_pow2. rewrite Forall_forall in Hwf. by apply (Hwf (s, t)).
  - apply alignof_pow2. simpl. by rewrite cwf_fields.
  - clear Hwf. induction fs as [|[n u] fs IH]; [by apply not_elem_of_nil in Hin|].
    apply elem_of_cons in Hin as [[= <- <-]|Hin]; simpl in *; [lia|specialize (IH Hin); lia].
Qed.

(** ** Every member lies inside the object, at a multiple of its alignment *)

Lemma sizeof_nonneg t : cwf t → 0 ≤ sizeof t.
Proof.
  induction t as [n|n u IH|fs IH|fs IH] using ctype_ind'; simpl;
    [lia|intros Hu; specialize (IH Hu); nia|..]; rewrite cwf_fields; intros Hwf.
  - pose proof (alignof_pow2 (CStruct fs)) as Ha. simpl in Ha. rewrite cwf_fields in Ha.
    specialize (pow2_pos _ (Ha Hwf)) as Hpos.
    match goal with |- 0 ≤ align_up ?x ?a => pose proof (align_up_spec x a Hpos) as Hup end.
    enough (∀ p, 0 ≤ p → 0 ≤ foldl (λ p f, let '(_, t) := f in
      align_up p (alignof t) + sizeof t) p fs) as H0 by (specialize (H0 0); lia).
    clear Ha Hpos Hup. induction fs as [|[s t] fs IHfs]; intros p Hp; [done|].
    inversion_clear IH. inversion_clear Hwf. simpl. apply IHfs; [done..|].
    pose proof (align_up_spec p (alignof t) (pow2_pos _ (alignof_pow2 _ ltac:(done)))).
    assert (0 ≤ sizeof t) by auto. lia.
  - pose proof (alignof_pow2 (CUnion fs)) as Ha. simpl in Ha. rewrite cwf_fields in Ha.
    specialize (pow2_pos _ (Ha Hwf)) as Hpos.
    match goal with |- 0 ≤ align_up ?x ?a => pose proof (align_up_spec x a Hpos) end.
    enough (0 ≤ foldr (λ f m, let '(_, t) := f in Z.max (sizeof t) m) 0 fs) by lia.
    clear. induction fs as [|[s t] fs IHfs]; simpl; lia.
Qed.

(** The end of the fields. *)
Definition fields_end (p : Z) (fs : list (string * ctype)) : Z :=
  foldl (λ p f, let '(_, t) := f in align_up p (alignof t) + sizeof t) p fs.

Lemma fields_end_le p fs : Forall (λ f : string * ctype, cwf f.2) fs → p ≤ fields_end p fs.
Proof.
  intros Hwf. revert p. induction Hwf as [|[s t] fs Ht _ IH]; intros p; [done|].
  simpl in *. pose proof (align_up_spec p (alignof t) (pow2_pos _ (alignof_pow2 _ Ht))).
  pose proof (sizeof_nonneg _ Ht). specialize (IH (align_up p (alignof t) + sizeof t)).
  unfold fields_end in *. simpl. lia.
Qed.

Lemma field_at_spec p fs s o t : Forall (λ f : string * ctype, cwf f.2) fs →
  field_at p fs s = Some (o, t) →
  (s, t) ∈ fs ∧ p ≤ o ∧ o + sizeof t ≤ fields_end p fs ∧ (alignof t | o).
Proof.
  intros Hwf. revert p. induction Hwf as [|[n u] fs Hu Hfs IH]; intros p; [done|].
  simpl in *. pose proof (align_up_spec p (alignof u) (pow2_pos _ (alignof_pow2 _ Hu))) as [? ?].
  pose proof (sizeof_nonneg _ Hu). case_decide as Hs.
  - intros [= <- <-]. subst. split_and!; [apply list_elem_of_here|lia| |done].
    by apply fields_end_le.
  - intros Hf. destruct (IH _ Hf) as (Hin & ? & ? & ?).
    split_and!; [by apply list_elem_of_further|lia|done|done].
Qed.

Lemma member_spec fs s t : member fs s = Some t → (s, t) ∈ fs.
Proof.
  induction fs as [|[n u] fs IH]; simpl; [done|].
  case_decide; [intros [= <-]; subst; apply list_elem_of_here|].
  intros. apply list_elem_of_further. auto.
Qed.

Lemma sizeof_member (fs : list (string * ctype)) s t : (s, t) ∈ fs →
  sizeof t ≤ foldr (λ f m, let '(_, t) := f in Z.max (sizeof t) m) 0 fs.
Proof.
  intros Hin. induction fs as [|[n u] fs IH]; [by apply not_elem_of_nil in Hin|].
  apply elem_of_cons in Hin as [[= <- <-]|Hin]; simpl; [lia|specialize (IH Hin); lia].
Qed.

Lemma alignof_sizeof t : cwf t → (alignof t | sizeof t).
Proof.
  induction t as [n|n u IH|fs IH|fs IH] using ctype_ind'; simpl; intros Hwf.
  - done.
  - destruct (IH Hwf) as [k ->]. exists (Z.of_nat n * k). lia.
  - apply align_up_spec, pow2_pos, (alignof_pow2 (CStruct fs) Hwf).
  - apply align_up_spec, pow2_pos, (alignof_pow2 (CUnion fs) Hwf).
Qed.

(** One step of an lvalue. *)
Lemma step_spec t a o u : cwf t →
  match a, t with
  | Fld s, CStruct fs => field_at 0 fs s
  | Fld s, CUnion fs => (λ u, (0, u)) <$> member fs s
  | Idx i, CArr n u => if decide (0 ≤ i < Z.of_nat n) then Some (i * sizeof u, u) else None
  | _, _ => None
  end = Some (o, u) →
  cwf u ∧ 0 ≤ o ∧ o + sizeof u ≤ sizeof t ∧ (alignof u | o) ∧ (alignof u | alignof t).
Proof.
  intros Hwf. destruct a as [s|i], t as [n|n v|fs|fs]; try done.
  - simpl in Hwf. rewrite cwf_fields in Hwf. intros Hf.
    destruct (field_at_spec _ _ _ _ _ Hwf Hf) as (Hin & ? & Hend & ?).
    assert (cwf u) by (rewrite Forall_forall in Hwf; by apply (Hwf (s, u))).
    split_and!; [done|lia| |done|by eapply alignof_field].
    pose proof (align_up_spec (fields_end 0 fs) (alignof (CStruct fs))) as Hup.
    etrans; [exact Hend|]. apply Hup, pow2_pos, alignof_pow2. simpl. by rewrite cwf_fields.
  - simpl in Hwf. rewrite cwf_fields in Hwf. intros Hf.
    apply fmap_Some in Hf as (v & Hm%member_spec & [= -> ->]).
    assert (cwf v) by (rewrite Forall_forall in Hwf; by apply (Hwf (s, v))).
    split_and!; [done|lia| |apply Z.divide_0_r|by eapply (alignof_field fs)].
    cbn [sizeof]. pose proof (sizeof_member _ _ _ Hm).
    pose proof (align_up_spec (foldr (λ f m, let '(_, t) := f in Z.max (sizeof t) m) 0 fs)
      (alignof (CUnion fs))) as Hup.
    destruct Hup; [|lia]. apply pow2_pos, alignof_pow2. simpl. by rewrite cwf_fields.
  - case_decide; [|done]. intros [= <- <-]. simpl in *.
    pose proof (sizeof_nonneg _ Hwf). split_and!; [done|nia|nia| |done].
    apply Z.divide_mul_r, alignof_sizeof, Hwf.
Qed.

(** An lvalue of a well-formed object stays inside it and is aligned. *)
Lemma resolve_spec t p o u : cwf t → resolve t p = Some (o, u) →
  cwf u ∧ 0 ≤ o ∧ o + sizeof u ≤ sizeof t ∧ (alignof u | o) ∧ (alignof u | alignof t).
Proof.
  revert t o u. induction p as [|a p IH]; intros t o u Hwf Hr.
  { injection Hr as <- <-. split_and!; [done|lia|lia|apply Z.divide_0_r|done]. }
  cbn [resolve] in Hr. apply bind_Some in Hr as [[o1 u1] [H1 H2]].
  apply bind_Some in H2 as [[o2 v] [H2 [= <- <-]]].
  destruct (step_spec _ _ _ _ Hwf H1) as (Hu & ? & ? & ? & ?).
  destruct (IH _ _ _ Hu H2) as (? & ? & ? & ? & ?).
  split_and!; [done|lia|lia| |by trans (alignof u1)].
  apply Z.divide_add_r; [|done]. by trans (alignof u1).
Qed.

(** ** Accesses *)

(** Two lvalues of [t] that share no byte; [width] is the size of an lvalue in bits. *)
Definition separate (t : ctype) (p q : list acc) : bool :=
  match resolve t p, resolve t q with
  | Some (o, u), Some (o', u') =>
    (o + sizeof u <=? o') || (o' + sizeof u' <=? o)
  | _, _ => false
  end.
Definition width (t : ctype) (p : list acc) : Z :=
  match resolve t p with Some (_, u) => 8 * sizeof u | None => 0 end.

Lemma separate_comm t p q : separate t p q = separate t q p.
Proof.
  unfold separate. destruct (resolve t p) as [[? ?]|], (resolve t q) as [[? ?]|]; try done.
  apply orb_comm.
Qed.

Section access.
Context (t : ctype) (Hwf : cwf t).

Lemma cset_Some p v bs : is_Some (resolve t p) → Z.of_nat (length bs) = sizeof t →
  ∃ bs', cset t p v bs = Some bs' ∧ length bs' = length bs.
Proof.
  intros [[o u] Hr] Hlen. unfold cset. rewrite Hr. simpl.
  destruct (resolve_spec _ _ _ _ Hwf Hr) as (Hu & ? & ? & _).
  pose proof (sizeof_nonneg _ Hu). unfold store_le.
  destruct (store_bytes_Some bs o (le_bytes (Z.to_nat (sizeof u)) v)) as [bs' Hs];
    [lia|rewrite length_le_bytes; lia|].
  exists bs'. split; [done|by eapply length_store_bytes].
Qed.

Lemma cget_cset p v bs bs' :
  cset t p v bs = Some bs' → cget t p bs' = Some (v mod 2 ^ width t p).
Proof.
  unfold cset, cget, width. destruct (resolve t p) as [[o u]|] eqn:Hr; [|done]. simpl.
  intros Hs. rewrite (load_store_le _ _ _ _ _ Hs).
  destruct (resolve_spec _ _ _ _ Hwf Hr) as (Hu & _).
  by rewrite Z2Nat.id by (by apply sizeof_nonneg).
Qed.

Lemma cget_cset_ne p q v bs bs' :
  separate t p q = true → cset t p v bs = Some bs' → cget t q bs' = cget t q bs.
Proof.
  unfold separate, cset, cget. destruct (resolve t p) as [[o u]|] eqn:Hp; [|done].
  destruct (resolve t q) as [[o' u']|] eqn:Hq; [|done]. simpl.
  destruct (resolve_spec _ _ _ _ Hwf Hp) as (Hu & _).
  destruct (resolve_spec _ _ _ _ Hwf Hq) as (Hu' & _).
  pose proof (sizeof_nonneg _ Hu). pose proof (sizeof_nonneg _ Hu').
  intros Hs%orb_true_iff Hset. unfold load_le. f_equal.
  eapply load_store_ne; [exact Hset|]. rewrite length_le_bytes.
  rewrite !Z.leb_le in Hs. lia.
Qed.

Lemma cget_zero p : is_Some (resolve t p) → cget t p (czero t) = Some 0.
Proof.
  intros [[o u] Hr]. unfold cget. rewrite Hr. simpl.
  destruct (resolve_spec _ _ _ _ Hwf Hr) as (Hu & ? & ? & _).
  pose proof (sizeof_nonneg _ Hu). unfold load_le, load_bytes, czero.
  rewrite decide_True by (rewrite length_replicate; lia). simpl. f_equal.
  rewrite drop_replicate, take_replicate.
  induction (_ `min` _)%nat as [|n IH]; simpl; [done|]. rewrite IH. done.
Qed.
End access.

(** The assignments of an initialiser: every lvalue exists and no two share a byte. *)
Fixpoint cok (t : ctype) (ps : list (list acc)) : bool :=
  match ps with
  | [] => true
  | p :: ps => bool_decide (is_Some (resolve t p)) && forallb (separate t p) ps && cok t ps
  end.

Definition byte_list (bs : list Z) : Prop := Forall in_u8 bs.

Lemma le_bytes_byte n v : byte_list (le_bytes n v).
Proof.
  revert v. induction n as [|n IH]; intros v; [constructor|].
  constructor; [|apply IH]. unfold in_u8. apply Z.mod_pos_bound. lia.
Qed.

Lemma cset_byte t p v bs bs' : cset t p v bs = Some bs' → byte_list bs → byte_list bs'.
Proof.
  unfold cset. destruct (resolve t p) as [[o u]|]; [|done]. simpl.
  unfold store_le, store_bytes. case_decide; [|done]. intros [= <-] Hb.
  unfold byte_list. rewrite !Forall_app. split_and!;
    [by apply Forall_take|apply le_bytes_byte|by apply Forall_drop].
Qed.

(** A structure built from an initialiser reads back as written: every assigned member
    has its value (cut to its width), every other member is zero. *)
Lemma cassign_spec t as' bs : cwf t → cok t as'.*1 = true →
  Z.of_nat (length bs) = sizeof t → byte_list bs →
  ∃ bs', cassign t as' bs = Some bs' ∧ Z.of_nat (length bs') = sizeof t ∧ byte_list bs' ∧
    (∀ p v, (p, v) ∈ as' → cget t p bs' = Some (v mod 2 ^ width t p)) ∧
    (∀ q, forallb (λ p, separate t p q) as'.*1 = true → cget t q bs' = cget t q bs).
Proof.
  intros Hwf. revert bs. induction as' as [|[p v] as' IH]; intros bs Hok Hlen Hb.
  { exists bs. split_and!; [done..| |done]. by intros ? ? ?%not_elem_of_nil. }
  cbn [fmap list_fmap cok fst] in Hok. apply andb_true_iff in Hok as [[Hp Hsep]%andb_true_iff Hok].
  apply bool_decide_eq_true in Hp.
  destruct (cset_Some t Hwf p v bs Hp Hlen) as (bs1 & Hs & Hl1).
  destruct (IH bs1 Hok ltac:(lia) ltac:(by eapply cset_byte)) as (bs' & Ha & Hl & Hb' & Hget & Hne).
  exists bs'. cbn [cassign]. rewrite Hs. cbn [mbind option_bind].
  split_and!; [done..| |].
  - intros p' v' [[= -> ->]|Hin]%elem_of_cons; [|by apply Hget].
    rewrite Hne; [by eapply cget_cset|].
    rewrite forallb_forall in Hsep |- *. intros q Hq. rewrite separate_comm. by apply Hsep.
  - intros q. cbn [fmap list_fmap forallb fst]. intros [H1 H2]%andb_true_iff.
    rewrite Hne by done. by eapply cget_cset_ne.
Qed.

Definition cstruct (t : ctype) (as' : list (list acc * Z)) : list Z := default [] (cinit t as').

Lemma cstruct_spec t as' : cwf t → cok t as'.*1 = true →
  Z.of_nat (length (cstruct t as')) = sizeof t ∧ byte_list (cstruct t as') ∧
  (∀ p v, (p, v) ∈ as' → cget t p (cstruct t as') = Some (v mod 2 ^ width t p)) ∧
  (∀ q, is_Some (resolve t q) → forallb (λ p, separate t p q) as'.*1 = true →
    cget t q (cstruct t as') = Some 0).
Proof.
  intros Hwf Hok. pose proof (sizeof_nonneg _ Hwf).
  destruct (cassign_spec t as' (czero t) Hwf Hok) as (bs & Hc & Hl & Hb & Hget & Hne).
  { unfold czero. rewrite length_replicate. lia. }
  { unfold byte_list, czero. apply Forall_replicate. unfold in_u8. lia. }
  unfold cstruct, cinit. rewrite Hc. simpl. split_and!; [done..|].
  intros q Hq Hs. rewrite Hne by done. by apply cget_zero.
Qed.

(** ** Buffers in pieces

    An access to a buffer written as what precedes, the bytes, what follows. *)

Lemma load_bytes_app (pre mid post : list Z) off n :
  off = Z.of_nat (length pre) → n = Z.of_nat (length mid) →
  load_bytes (pre ++ mid ++ post) off n = Some mid.
Proof.
  intros -> ->. unfold load_bytes. rewrite decide_True by (rewrite !length_app; lia).
  by rewrite !Nat2Z.id, drop_app_length, take_app_length.
Qed.
Lemma store_bytes_app (pre old post bs : list Z) off :
  off = Z.of_nat (length pre) → length bs = length old →
  store_bytes (pre ++ old ++ post) off bs = Some (pre ++ bs ++ post).
Proof.
  intros -> Hl. unfold store_bytes. rewrite decide_True by (rewrite !length_app; lia).
  rewrite !Nat2Z.id, take_app_length. do 3 f_equal. rewrite drop_app_ge by lia.
  rewrite drop_app_ge by lia. replace (_ - _ - _)%nat with 0%nat by lia. done.
Qed.
Lemma load_le_app n (pre mid post : list Z) off :
  off = Z.of_nat (length pre) → length mid = n → load_le n (pre ++ mid ++ post) off = Some (le_val mid).
Proof. intros Ho <-. unfold load_le. by rewrite (load_bytes_app pre mid post). Qed.
Lemma load_byte_app (pre post : list Z) b off :
  off = Z.of_nat (length pre) → load_le 1 (pre ++ b :: post) off = Some b.
Proof. intros Ho. rewrite (load_le_app 1 pre [b] post) by done. simpl. f_equal. lia. Qed.
