(* ===== verification/Structs.v ===== *)
(** * The structures of the NVMe interface

    The structures of [include/uapi/nvme/command.h] and the files it includes, with the
    members, types and order of the declarations.  [struct_x] is [struct x].  A flexible
    array member has no elements; a [guid_t] is 16 bytes; [""] is an unnamed member. *)

From S2P Require Import Prelude Layout Types Kernel Prp Sgl Ring Cmd.

#[local] Open Scope string_scope.
#[local] Open Scope Z_scope.

(** ** Commands and completions ([command.h]) *)

Definition struct_nvme_sgl_desc : ctype := CStruct [
  ("addr", cu64); ("length", cu32); ("rsvd", (CArr 3 cu8)); ("type", cu8)].

Definition struct_nvme_keyed_sgl_desc : ctype := CStruct [
  ("addr", cu64); ("length", (CArr 3 cu8)); ("key", (CArr 4 cu8)); ("type", cu8)].

Definition union_nvme_data_ptr : ctype := CUnion [
  ("", (CStruct [("prp1", cu64); ("prp2", cu64)])); ("sgl", struct_nvme_sgl_desc);
  ("ksgl", struct_nvme_keyed_sgl_desc)].

Definition struct_nvme_common_command : ctype := CStruct [
  ("opcode", cu8); ("flags", cu8); ("command_id", cu16); ("nsid", cu32);
  ("cdw2", (CArr 2 cu32)); ("metadata", cu64); ("dptr", union_nvme_data_ptr); ("cdw10", cu32);
  ("cdw11", cu32); ("cdw12", cu32); ("cdw13", cu32); ("cdw14", cu32); ("cdw15", cu32)].

Definition struct_nvme_delete_queue : ctype := CStruct [
  ("opcode", cu8); ("flags", cu8); ("command_id", cu16); ("rsvd1", (CArr 9 cu32));
  ("qid", cu16); ("rsvd10", cu16); ("rsvd11", (CArr 5 cu32))].

Definition struct_nvme_create_sq : ctype := CStruct [
  ("opcode", cu8); ("flags", cu8); ("command_id", cu16); ("rsvd1", (CArr 5 cu32));
  ("prp1", cu64); ("rsvd8", cu64); ("sqid", cu16); ("qsize", cu16); ("sq_flags", cu16);
  ("cqid", cu16); ("rsvd12", (CArr 4 cu32))].

Definition struct_nvme_create_cq : ctype := CStruct [
  ("opcode", cu8); ("flags", cu8); ("command_id", cu16); ("rsvd1", (CArr 5 cu32));
  ("prp1", cu64); ("rsvd8", cu64); ("cqid", cu16); ("qsize", cu16); ("cq_flags", cu16);
  ("irq_vector", cu16); ("rsvd12", (CArr 4 cu32))].

Definition struct_nvme_abort_cmd : ctype := CStruct [
  ("opcode", cu8); ("flags", cu8); ("command_id", cu16); ("rsvd1", (CArr 9 cu32));
  ("sqid", cu16); ("cid", cu16); ("rsvd11", (CArr 5 cu32))].

Definition struct_nvme_download_firmware : ctype := CStruct [
  ("opcode", cu8); ("flags", cu8); ("command_id", cu16); ("rsvd1", (CArr 5 cu32));
  ("dptr", union_nvme_data_ptr); ("numd", cu32); ("offset", cu32); ("rsvd12", (CArr 4 cu32))].

Definition struct_nvme_dbbuf : ctype := CStruct [
  ("opcode", cu8); ("flags", cu8); ("command_id", cu16); ("rsvd1", (CArr 5 cu32));
  ("prp1", cu64); ("prp2", cu64); ("rsvd12", (CArr 6 cu32))].

Definition struct_nvme_format_cmd : ctype := CStruct [
  ("opcode", cu8); ("flags", cu8); ("command_id", cu16); ("nsid", cu32);
  ("rsvd2", (CArr 4 cu64)); ("cdw10", cu32); ("rsvd11", (CArr 5 cu32))].

Definition struct_nvme_rw_command : ctype := CStruct [
  ("opcode", cu8); ("flags", cu8); ("command_id", cu16); ("nsid", cu32); ("cdw2", cu32);
  ("cdw3", cu32); ("metadata", cu64); ("dptr", union_nvme_data_ptr); ("slba", cu64);
  ("length", cu16); ("control", cu16); ("rsvd13", cu16); ("dspec", cu16); ("reftag", cu32);
  ("apptag", cu16); ("appmask", cu16)].

Definition struct_nvme_write_zeroes_cmd : ctype := CStruct [
  ("opcode", cu8); ("flags", cu8); ("command_id", cu16); ("nsid", cu32); ("rsvd2", cu64);
  ("metadata", cu64); ("dptr", union_nvme_data_ptr); ("slba", cu64); ("length", cu16);
  ("control", cu16); ("dsmgmt", cu32); ("reftag", cu32); ("apptag", cu16); ("appmask", cu16)].

Definition struct_nvme_dsm_cmd : ctype := CStruct [
  ("opcode", cu8); ("flags", cu8); ("command_id", cu16); ("nsid", cu32);
  ("rsvd2", (CArr 2 cu64)); ("dptr", union_nvme_data_ptr); ("nr", cu32); ("attributes", cu32);
  ("rsvd12", (CArr 4 cu32))].

Definition struct_nvme_dsm_range : ctype := CStruct [
  ("cattr", cu32); ("nlb", cu32); ("slba", cu64)].

Definition struct_nvme_verify_cmd : ctype := CStruct [
  ("opcode", cu8); ("flags", cu8); ("command_id", cu16); ("nsid", cu32); ("cdw2", cu32);
  ("cdw3", cu32); ("metadata", cu64); ("dptr", union_nvme_data_ptr); ("slba", cu64);
  ("nlb", cu16); ("control", cu16); ("cdw13", cu32); ("reftag", cu32); ("apptag", cu16);
  ("appmask", cu16)].

Definition struct_nvme_reg_ctrl : ctype := CStruct [
  ("cntlid", cu16); ("rcsts", cu8); ("rsvd3", (CArr 5 cu8)); ("hostid", cu64); ("rkey", cu64)].

Definition struct_nvme_reg_ctrl_extend : ctype := CStruct [
  ("cntlid", cu16); ("rcsts", cu8); ("rsvd3", (CArr 5 cu8)); ("rkey", cu64);
  ("hostid", (CArr 16 cu8)); ("rsvd32", (CArr 32 cu8))].

Definition struct_nvme_resv_status : ctype := CStruct [
  ("gen", cu32); ("rtype", cu8); ("regctl", (CArr 2 cu8)); ("rsvd7", (CArr 2 cu8));
  ("ptpls", cu8); ("rsvd10", (CArr 14 cu8)); ("regctl_ds", (CArr 0 struct_nvme_reg_ctrl))].

Definition struct_nvme_resv_status_extend : ctype := CStruct [
  ("gen", cu32); ("rtype", cu8); ("regctl", (CArr 2 cu8)); ("rsvd7", (CArr 2 cu8));
  ("ptpls", cu8); ("rsvd10", (CArr 54 cu8));
  ("regctl_ds", (CArr 0 struct_nvme_reg_ctrl_extend))].

Definition struct_nvme_copy_desc_fmt0 : ctype := CStruct [
  ("rsvd0", cu64); ("slba", cu64); ("length", cu16); ("rsvd4", cu16); ("rsvd5", cu32);
  ("tag", (CArr 4 cu8)); ("elbat", cu16); ("elbatm", cu16)].

Definition struct_nvme_copy_desc_fmt1 : ctype := CStruct [
  ("rsvd0", cu64); ("slba", cu64); ("length", cu16); ("rsvd4", cu16); ("rsvd5", cu32);
  ("rsvd6", cu16); ("tag", (CArr 10 cu8)); ("elbat", cu16); ("elbatm", cu16)].

Definition struct_nvme_copy_cmd : ctype := CStruct [
  ("opcode", cu8); ("flags", cu8); ("command_id", cu16); ("nsid", cu32);
  ("cdw2", (CArr 2 cu32)); ("metadata", cu64); ("dptr", union_nvme_data_ptr); ("slba", cu64);
  ("ranges", cu8); ("desc_fmt", cu8); ("dtype", cu8); ("control", cu8);
  ("rsvd13", (CArr 2 cu8)); ("dspec", cu16); ("cdw14", cu32); ("lbat", cu16); ("lbatm", cu16)].

Definition struct_nvme_zone_mgmt_send_cmd : ctype := CStruct [
  ("opcode", cu8); ("flags", cu8); ("command_id", cu16); ("nsid", cu32);
  ("cdw2", (CArr 2 cu32)); ("metadata", cu64); ("dptr", union_nvme_data_ptr); ("slba", cu64);
  ("cdw12", cu32); ("zsa", cu8); ("select_all", cu8); ("rsvd13", (CArr 2 cu8));
  ("cdw14", (CArr 2 cu32))].

Definition struct_nvme_zone_mgmt_recv_cmd : ctype := CStruct [
  ("opcode", cu8); ("flags", cu8); ("command_id", cu16); ("nsid", cu32);
  ("rsvd2", (CArr 2 cu64)); ("dptr", union_nvme_data_ptr); ("slba", cu64); ("numd", cu32);
  ("zra", cu8); ("zrasf", cu8); ("pr", cu8); ("rsvd13", cu8); ("cdw14", (CArr 2 cu32))].

Definition struct_nvme_zone_descriptor : ctype := CStruct [
  ("zt", cu8); ("zs", cu8); ("za", cu8); ("rsvd3", (CArr 5 cu8)); ("zcap", cu64);
  ("zslba", cu64); ("wp", cu64); ("rsvd32", (CArr 32 cu8))].

Definition struct_nvme_zone_report : ctype := CStruct [
  ("nr_zones", cu64); ("resv8", (CArr 56 cu8));
  ("entries", (CArr 0 struct_nvme_zone_descriptor))].

Definition struct_nvme_zone_append_cmd : ctype := CStruct [
  ("opcode", cu8); ("flags", cu8); ("command_id", cu16); ("nsid", cu32); ("rsvd2", cu64);
  ("metadata", cu64); ("dptr", union_nvme_data_ptr); ("zslba", cu64); ("length", cu16);
  ("control", cu16); ("rsvd13", cu16); ("dspec", cu16); ("reftag", cu32); ("apptag", cu16);
  ("appmask", cu16)].

Definition union_nvme_result : ctype := CUnion [
  ("u16", cu16); ("u32", cu32); ("u64", cu64)].

Definition struct_nvme_completion : ctype := CStruct [
  ("result", union_nvme_result); ("sq_head", cu16); ("sq_id", cu16); ("command_id", cu16);
  ("status", cu16)].

(** ** Log pages ([command/log_page.h]) *)

Definition struct_nvme_get_log_page_command : ctype := CStruct [
  ("opcode", cu8); ("flags", cu8); ("command_id", cu16); ("nsid", cu32);
  ("rsvd2", (CArr 2 cu64)); ("dptr", union_nvme_data_ptr); ("lid", cu8); ("lsp", cu8);
  ("numdl", cu16); ("numdu", cu16); ("rsvd11", cu16);
  ("", (CUnion [("", (CStruct [("lpol", cu32); ("lpou", cu32)])); ("lpo", cu64)]));
  ("rsvd14", (CArr 3 cu8)); ("csi", cu8); ("rsvd15", cu32)].

Definition struct_nvme_error_info_log : ctype := CStruct [
  ("err_cnt", cu64); ("sqid", cu16); ("cmdid", cu16); ("status", cu16); ("pel", cu16);
  ("lba", cu64); ("nsid", cu32); ("vs", cu8); ("trtype", cu8); ("rsvd30", (CArr 2 cu8));
  ("cs", cu64); ("tts", cu16); ("rsvd42", (CArr 22 cu8))].

Definition struct_nvme_smart_log : ctype := CStruct [
  ("critical_warning", cu8); ("temperature", (CArr 2 cu8)); ("avail_spare", cu8);
  ("spare_thresh", cu8); ("percent_used", cu8); ("endu_grp_crit_warn_sumry", cu8);
  ("rsvd7", (CArr 25 cu8)); ("data_units_read", (CArr 16 cu8));
  ("data_units_written", (CArr 16 cu8)); ("host_reads", (CArr 16 cu8));
  ("host_writes", (CArr 16 cu8)); ("ctrl_busy_time", (CArr 16 cu8));
  ("power_cycles", (CArr 16 cu8)); ("power_on_hours", (CArr 16 cu8));
  ("unsafe_shutdowns", (CArr 16 cu8)); ("media_errors", (CArr 16 cu8));
  ("num_err_log_entries", (CArr 16 cu8)); ("warning_temp_time", cu32);
  ("critical_comp_time", cu32); ("temp_sensor", (CArr 8 cu16)); ("thm_temp1_trans_count", cu32);
  ("thm_temp2_trans_count", cu32); ("thm_temp1_total_time", cu32);
  ("thm_temp2_total_time", cu32); ("rsvd232", (CArr 280 cu8))].

Definition struct_nvme_fw_slot_info_log : ctype := CStruct [
  ("afi", cu8); ("rsvd1", (CArr 7 cu8)); ("frs", (CArr 7 cu64)); ("rsvd64", (CArr 448 cu8))].

Definition struct_nvme_effects_log : ctype := CStruct [
  ("acs", (CArr 256 cu32)); ("iocs", (CArr 256 cu32)); ("resv", (CArr 2048 cu8))].

Definition struct_nvme_ana_group_desc : ctype := CStruct [
  ("grpid", cu32); ("nnsids", cu32); ("chgcnt", cu64); ("state", cu8);
  ("rsvd17", (CArr 15 cu8)); ("nsids", (CArr 0 cu32))].

Definition struct_nvme_ana_rsp_hdr : ctype := CStruct [
  ("chgcnt", cu64); ("ngrps", cu16); ("rsvd10", (CArr 3 cu16))].

Definition struct_rdma : ctype := CStruct [
  ("qptype", cu8); ("prtype", cu8); ("cms", cu8); ("resv3", (CArr 5 cu8)); ("pkey", cu16);
  ("resv10", (CArr 246 cu8))].

Definition union_tsas : ctype := CUnion [
  ("common", (CArr 256 cu8)); ("rdma", struct_rdma)].

Definition struct_nvmf_disc_rsp_page_entry : ctype := CStruct [
  ("trtype", cu8); ("adrfam", cu8); ("subtype", cu8); ("treq", cu8); ("portid", cu16);
  ("cntlid", cu16); ("asqsz", cu16); ("resv8", (CArr 22 cu8)); ("trsvcid", (CArr 32 cu8));
  ("resv64", (CArr 192 cu8)); ("subnqn", (CArr 256 cu8)); ("traddr", (CArr 256 cu8));
  ("tsas", union_tsas)].

Definition struct_nvmf_disc_rsp_page_hdr : ctype := CStruct [
  ("genctr", cu64); ("numrec", cu64); ("recfmt", cu16); ("resv14", (CArr 1006 cu8));
  ("entries", (CArr 0 struct_nvmf_disc_rsp_page_entry))].

(** ** Identify ([command/identify.h]) *)

Definition struct_nvme_identify : ctype := CStruct [
  ("opcode", cu8); ("flags", cu8); ("command_id", cu16); ("nsid", cu32);
  ("rsvd2", (CArr 2 cu64)); ("dptr", union_nvme_data_ptr); ("cns", cu8); ("rsvd3", cu8);
  ("ctrlid", cu16); ("rsvd11", (CArr 3 cu8)); ("csi", cu8); ("rsvd12", (CArr 4 cu32))].

Definition struct_nvme_lbaf : ctype := CStruct [
  ("ms", cu16); ("ds", cu8); ("rp", cu8)].

Definition struct_nvme_id_ns : ctype := CStruct [
  ("nsze", cu64); ("ncap", cu64); ("nuse", cu64); ("nsfeat", cu8); ("nlbaf", cu8);
  ("flbas", cu8); ("mc", cu8); ("dpc", cu8); ("dps", cu8); ("nmic", cu8); ("rescap", cu8);
  ("fpi", cu8); ("dlfeat", cu8); ("nawun", cu16); ("nawupf", cu16); ("nacwu", cu16);
  ("nabsn", cu16); ("nabo", cu16); ("nabspf", cu16); ("noiob", cu16); ("nvmcap", (CArr 16 cu8));
  ("npwg", cu16); ("npwa", cu16); ("npdg", cu16); ("npda", cu16); ("nows", cu16);
  ("mssrl", cu16); ("mcl", cu32); ("msrc", cu8); ("rsvd81", (CArr 11 cu8)); ("anagrpid", cu32);
  ("rsvd96", (CArr 3 cu8)); ("nsattr", cu8); ("nvmsetid", cu16); ("endgid", cu16);
  ("nguid", (CArr 16 cu8)); ("eui64", (CArr 8 cu8)); ("lbaf", (CArr 64 struct_nvme_lbaf));
  ("vs", (CArr 3712 cu8))].

Definition struct_nvme_id_power_state : ctype := CStruct [
  ("max_power", cu16); ("rsvd2", cu8); ("flags", cu8); ("entry_lat", cu32); ("exit_lat", cu32);
  ("read_tput", cu8); ("read_lat", cu8); ("write_tput", cu8); ("write_lat", cu8);
  ("idle_power", cu16); ("idle_scale", cu8); ("rsvd19", cu8); ("active_power", cu16);
  ("active_work_scale", cu8); ("rsvd23", (CArr 9 cu8))].

Definition struct_nvme_id_ctrl : ctype := CStruct [
  ("vid", cu16); ("ssvid", cu16); ("sn", (CArr 20 cu8)); ("mn", (CArr 40 cu8));
  ("fr", (CArr 8 cu8)); ("rab", cu8); ("ieee", (CArr 3 cu8)); ("cmic", cu8); ("mdts", cu8);
  ("cntlid", cu16); ("ver", cu32); ("rtd3r", cu32); ("rtd3e", cu32); ("oaes", cu32);
  ("ctratt", cu32); ("rsvd100", (CArr 28 cu8)); ("crdt1", cu16); ("crdt2", cu16);
  ("crdt3", cu16); ("rsvd134", (CArr 122 cu8)); ("oacs", cu16); ("acl", cu8); ("aerl", cu8);
  ("frmw", cu8); ("lpa", cu8); ("elpe", cu8); ("npss", cu8); ("avscc", cu8); ("apsta", cu8);
  ("wctemp", cu16); ("cctemp", cu16); ("mtfa", cu16); ("hmpre", cu32); ("hmmin", cu32);
  ("tnvmcap", (CArr 16 cu8)); ("unvmcap", (CArr 16 cu8)); ("rpmbs", cu32); ("edstt", cu16);
  ("dsto", cu8); ("fwug", cu8); ("kas", cu16); ("hctma", cu16); ("mntmt", cu16);
  ("mxtmt", cu16); ("sanicap", cu32); ("hmminds", cu32); ("hmmaxd", cu16);
  ("rsvd338", (CArr 4 cu8)); ("anatt", cu8); ("anacap", cu8); ("anagrpmax", cu32);
  ("nanagrpid", cu32); ("rsvd352", (CArr 160 cu8)); ("sqes", cu8); ("cqes", cu8);
  ("maxcmd", cu16); ("nn", cu32); ("oncs", cu16); ("fuses", cu16); ("fna", cu8); ("vwc", cu8);
  ("awun", cu16); ("awupf", cu16); ("nvscc", cu8); ("nwpc", cu8); ("acwu", cu16);
  ("rsvd534", (CArr 2 cu8)); ("sgls", cu32); ("mnan", cu32); ("rsvd544", (CArr 224 cu8));
  ("subnqn", (CArr 256 cu8)); ("rsvd1024", (CArr 768 cu8)); ("ioccsz", cu32); ("iorcsz", cu32);
  ("icdoff", cu16); ("ctrattr", cu8); ("msdbd", cu8); ("rsvd1804", (CArr 244 cu8));
  ("psd", (CArr 32 struct_nvme_id_power_state)); ("vs", (CArr 1024 cu8))].

Definition struct_nvme_ns_id_desc : ctype := CStruct [
  ("nidt", cu8); ("nidl", cu8); ("reserved", cu16); ("nid", (CArr 0 cu8))].

Definition struct_nvme_nvm_elbaf : ctype := CStruct [
  ("dw0", cu32)].

Definition struct_nvme_id_ns_nvm : ctype := CStruct [
  ("lbstm", cu64); ("pic", cu8); ("rsvd9", (CArr 3 cu8));
  ("elbaf", (CArr 64 struct_nvme_nvm_elbaf)); ("rsvd268", (CArr 3828 cu8))].

Definition struct_nvme_zns_lbafe : ctype := CStruct [
  ("zsze", cu64); ("zdes", cu8); ("rsvd9", (CArr 7 cu8))].

Definition struct_nvme_id_ns_zns : ctype := CStruct [
  ("zoc", cu16); ("ozcs", cu16); ("mar", cu32); ("mor", cu32); ("rrl", cu32); ("frl", cu32);
  ("rrl1", cu32); ("rrl2", cu32); ("rrl3", cu32); ("frl1", cu32); ("frl2", cu32);
  ("frl3", cu32); ("rsvd44", (CArr 2772 cu8)); ("lbafe", (CArr 64 struct_nvme_zns_lbafe));
  ("vs", (CArr 256 cu8))].

Definition struct_nvme_id_ctrl_nvm : ctype := CStruct [
  ("vsl", cu8); ("wzsl", cu8); ("wusl", cu8); ("dmrl", cu8); ("dmrsl", cu32); ("dmsl", cu64);
  ("rsvd16", (CArr 4080 cu8))].

Definition struct_nvme_id_ctrl_zns : ctype := CStruct [
  ("zasl", cu8); ("rsvd1", (CArr 4095 cu8))].

Definition struct_nvme_id_ctrl_csc : ctype := CStruct [
  ("vector", (CArr 512 cu64))].

(** ** Features ([command/feature.h]) *)

Definition struct_nvme_features : ctype := CStruct [
  ("opcode", cu8); ("flags", cu8); ("command_id", cu16); ("nsid", cu32);
  ("rsvd2", (CArr 2 cu64)); ("dptr", union_nvme_data_ptr); ("fid", cu32); ("dword11", cu32);
  ("dword12", cu32); ("dword13", cu32); ("dword14", cu32); ("dword15", cu32)].

Definition struct_nvme_feat_lba_range_type : ctype := CStruct [
  ("type", cu8); ("attr", cu8); ("rsvd2", (CArr 14 cu8)); ("slba", cu64); ("nlb", cu64);
  ("guid", (CArr 16 cu8)); ("rsvd48", (CArr 16 cu8))].

Definition struct_nvme_feat_auto_pst : ctype := CStruct [
  ("entries", (CArr 32 cu64))].

Definition struct_nvme_feat_hmb_descriptor : ctype := CStruct [
  ("addr", cu64); ("size", cu32); ("rsvd12", (CArr 4 cu8))].

Definition struct_nvme_feat_hmb_attribute : ctype := CStruct [
  ("hsize", cu32); ("hmdlal", cu32); ("hmdlau", cu32); ("hmdlec", cu32);
  ("rsvd16", (CArr 4080 cu8))].

Definition struct_nvme_feat_host_behavior : ctype := CStruct [
  ("acre", cu8); ("etdas", cu8); ("lbafee", cu8); ("resv1", (CArr 509 cu8))].

(** ** Directives ([command/directive.h]) *)

Definition struct_nvme_directive_cmd : ctype := CStruct [
  ("opcode", cu8); ("flags", cu8); ("command_id", cu16); ("nsid", cu32);
  ("rsvd2", (CArr 2 cu64)); ("dptr", union_nvme_data_ptr); ("numd", cu32); ("doper", cu8);
  ("dtype", cu8); ("dspec", cu16);
  ("dw12", (CUnion [("", (CStruct [("endir", cu8); ("tdtype", cu8)])); ("nsr", cu16); ("u32", cu32)]));
  ("rsvd13", (CArr 3 cu32))].

Definition struct_nvme_dir_identify_params : ctype := CStruct [
  ("dir_sup", (CArr 32 cu8)); ("dir_en", (CArr 32 cu8)); ("rsvd", (CArr 4032 cu8))].

Definition struct_nvme_dir_streams_params : ctype := CStruct [
  ("msl", cu16); ("nssa", cu16); ("nsso", cu16); ("rsvd", (CArr 10 cu8)); ("sws", cu32);
  ("sgs", cu16); ("nsa", cu16); ("nso", cu16); ("rsvd2", (CArr 6 cu8))].

(** ** Fabrics ([command/fabrics.h]) *)

Definition struct_nvmf_common_command : ctype := CStruct [
  ("opcode", cu8); ("resv1", cu8); ("command_id", cu16); ("fctype", cu8);
  ("resv2", (CArr 35 cu8)); ("ts", (CArr 24 cu8))].

Definition struct_nvmf_property_set_command : ctype := CStruct [
  ("opcode", cu8); ("resv1", cu8); ("command_id", cu16); ("fctype", cu8);
  ("resv2", (CArr 35 cu8)); ("attrib", cu8); ("resv3", (CArr 3 cu8)); ("offset", cu32);
  ("value", cu64); ("resv4", (CArr 8 cu8))].

Definition struct_nvmf_connect_command : ctype := CStruct [
  ("opcode", cu8); ("resv1", cu8); ("command_id", cu16); ("fctype", cu8);
  ("resv2", (CArr 19 cu8)); ("dptr", union_nvme_data_ptr); ("recfmt", cu16); ("qid", cu16);
  ("sqsize", cu16); ("cattr", cu8); ("resv3", cu8); ("kato", cu32); ("resv4", (CArr 12 cu8))].

Definition struct_nvmf_connect_data : ctype := CStruct [
  ("hostid", (CArr 16 cu8)); ("cntlid", cu16); ("resv4", (CArr 238 cu8));
  ("subsysnqn", (CArr 256 cu8)); ("hostnqn", (CArr 256 cu8)); ("resv5", (CArr 256 cu8))].

Definition struct_nvmf_property_get_command : ctype := CStruct [
  ("opcode", cu8); ("resv1", cu8); ("command_id", cu16); ("fctype", cu8);
  ("resv2", (CArr 35 cu8)); ("attrib", cu8); ("resv3", (CArr 3 cu8)); ("offset", cu32);
  ("resv4", (CArr 16 cu8))].

(** ** Vendor commands ([command/vendor.h]) *)

Definition struct_nvme_maxio_common_cmd : ctype := CStruct [
  ("opcode", cu8); ("flags", cu8); ("command_id", cu16); ("nsid", cu32); ("option", cu32);
  ("param", cu32); ("metadata", cu64); ("dptr", union_nvme_data_ptr); ("subcmd", cu32);
  ("cdw11", cu32); ("cdw12", cu32); ("cdw13", cu32); ("cdw14", cu32); ("cdw15", cu32)].

(** ** Any command *)

Definition struct_nvme_command : ctype := CStruct [

  ("", (CUnion [("common", struct_nvme_common_command); ("rw", struct_nvme_rw_command); ("identify", struct_nvme_identify); ("features", struct_nvme_features); ("create_cq", struct_nvme_create_cq); ("create_sq", struct_nvme_create_sq); ("delete_queue", struct_nvme_delete_queue); ("dlfw", struct_nvme_download_firmware); ("format", struct_nvme_format_cmd); ("dsm", struct_nvme_dsm_cmd); ("write_zeroes", struct_nvme_write_zeroes_cmd); ("zms", struct_nvme_zone_mgmt_send_cmd); ("zmr", struct_nvme_zone_mgmt_recv_cmd); ("abort", struct_nvme_abort_cmd); ("get_log_page", struct_nvme_get_log_page_command); ("fabrics", struct_nvmf_common_command); ("connect", struct_nvmf_connect_command); ("prop_set", struct_nvmf_property_set_command); ("prop_get", struct_nvmf_property_get_command); ("dbbuf", struct_nvme_dbbuf); ("directive", struct_nvme_directive_cmd)]))].

(** ** The static assertions of the library *)

Definition _nvme_check_size : list (ctype * Z) := [
  (struct_nvme_common_command, 64); (struct_nvme_delete_queue, 64); (struct_nvme_create_sq, 64);
  (struct_nvme_get_log_page_command, 64); (struct_nvme_create_cq, 64);
  (struct_nvme_identify, 64); (struct_nvme_abort_cmd, 64); (struct_nvme_features, 64);
  (struct_nvme_download_firmware, 64); (struct_nvme_directive_cmd, 64); (struct_nvme_dbbuf, 64);
  (struct_nvmf_common_command, 64); (struct_nvmf_property_set_command, 64);
  (struct_nvmf_connect_command, 64); (struct_nvmf_property_get_command, 64);
  (struct_nvme_format_cmd, 64); (struct_nvme_rw_command, 64);
  (struct_nvme_write_zeroes_cmd, 64); (struct_nvme_dsm_cmd, 64); (struct_nvme_verify_cmd, 64);
  (struct_nvme_copy_cmd, 64); (struct_nvme_zone_mgmt_send_cmd, 64);
  (struct_nvme_zone_mgmt_recv_cmd, 64); (struct_nvme_command, 64); (struct_nvme_completion, 16);
  (struct_nvme_smart_log, 512); (struct_nvme_fw_slot_info_log, 512);
  (struct_nvme_effects_log, 4096); (struct_nvme_ana_rsp_hdr, 16);
  (struct_nvme_ana_group_desc, 32); (struct_nvmf_disc_rsp_page_hdr, 1024);
  (struct_nvmf_disc_rsp_page_entry, 1024); (struct_nvme_id_ns, 4096);
  (struct_nvme_id_ctrl, 4096); (struct_nvme_id_power_state, 32); (struct_nvme_id_ns_nvm, 4096);
  (struct_nvme_id_ns_zns, 4096); (struct_nvme_zns_lbafe, 16); (struct_nvme_id_ctrl_nvm, 4096);
  (struct_nvme_id_ctrl_zns, 4096); (struct_nvme_id_ctrl_csc, 4096);
  (struct_nvme_feat_lba_range_type, 64); (struct_nvme_feat_auto_pst, 256);
  (struct_nvme_feat_hmb_attribute, 4096); (struct_nvme_feat_host_behavior, 512);
  (struct_nvme_dir_identify_params, 4096); (struct_nvme_dir_streams_params, 32);
  (struct_nvmf_connect_data, 1024); (struct_nvme_reg_ctrl, 24); (struct_nvme_resv_status, 24);
  (struct_nvme_reg_ctrl_extend, 64); (struct_nvme_resv_status_extend, 64);
  (struct_nvme_copy_desc_fmt0, 32); (struct_nvme_copy_desc_fmt1, 40);
  (struct_nvme_zone_report, 64); (struct_nvme_zone_descriptor, 64)].

(** ** The layout the driver assumes

    The driver accesses the bytes of a command and of a completion at fixed offsets.  A
    typed access to a member is [cread] and [cwrite]. *)

Definition cread (t : ctype) (p : list acc) (bs : list Z) : M Z :=
  match cget t p bs with Some v => mret v | None => oops F_oob end.
Definition cwrite (t : ctype) (p : list acc) (v : Z) (bs : list Z) : M (list Z) :=
  match cset t p v bs with Some bs' => mret bs' | None => oops F_oob end.

Definition check_size_ok : bool :=
  forallb (λ a : ctype * Z, cwfb a.1 && (sizeof a.1 =? a.2)) _nvme_check_size.

