(* ===== verification/Host.v ===== *)
(** * The process the user library runs in

    [lib/nvme] is user-space code.  Its surroundings (the kernel behind the system calls,
    the C library) are the parameter [Host]: a state of any type and one function per
    service.  Two instances matter: an arbitrary one, for the theorems about the library
    alone, and the driver of this development, for the composition of the two.

    What the library itself must get right is kept as state: the live allocations, the
    open file descriptors, the device information [struct nvme_dev_info].  Library code
    runs in the monad [U]: it returns ([Ret]), crashes ([Crash]: bad pointer, bad free,
    failed assertion, undefined arithmetic) or waits forever for the kernel ([Stuck]). *)

From S2P Require Import Prelude Layout Types Kernel Core.

(** ** Services *)

(** [k_ioctl] answers [ioctl(2)]: the value returned ([-1] on failure) and what was
    written to the memory of the caller; [None] when the call never returns.
    [k_recvmsg n] answers [recvmsg(2)] with a buffer of [n] bytes: the value returned, the
    bytes received, and the memory of the process that the kernel and, by DMA, the device
    have written since the last call ([p] and the bytes from [p] on).  [k_sendmsg] takes
    the bytes sent.  [k_calloc n] says whether the C library has [n] bytes left, [k_open]
    and [k_socket] whether there is a descriptor. *)
Class Host := {
  kern : Type;
  k_ioctl : ioctl_req → kern → option (Z * list upayload * kern);
  k_sendmsg : list Z → kern → Z * kern;
  k_recvmsg : Z → kern → option (Z * list Z * list (Z * list Z) * kern);
  k_socket : kern → bool * kern;
  k_bind : kern → Z * kern;
  k_open : kern → bool * kern;
  k_mmap : Z → Z → kern → Z * kern;
  k_calloc : Z → kern → bool * kern;
  k_rand : kern → Z * kern;
  k_system : string → kern → Z * kern }.

(** ** Structures of [lib/include/nvme/core.h]

    A pointer is the address of its block, [0] for [NULL]; a pointer that owns a typed
    object is an [option] of the address and the object.  An entry of [ns_id_desc] points
    into the block [ns_id_desc_raw] and is its offset there. *)

Record nvme_sq_info := {
  sqi_sqid : Z; sqi_cqid : Z; sqi_nr_entry : Z; sqi_prio : Z; sqi_cmd_cnt : Z;
  sqi_contig : bool; sqi_buf : Z; sqi_buf_size : Z }.
#[export] Instance eta_nvme_sq_info : Eta nvme_sq_info := λ q,
  Build_nvme_sq_info (sqi_sqid q) (sqi_cqid q) (sqi_nr_entry q) (sqi_prio q) (sqi_cmd_cnt q)
    (sqi_contig q) (sqi_buf q) (sqi_buf_size q).
Definition sq_info_zero : nvme_sq_info := Build_nvme_sq_info 0 0 0 0 0 false 0 0.

Record nvme_cq_info := {
  cqi_cqid : Z; cqi_irq_no : Z; cqi_irq_en : Z; cqi_nr_entry : Z;
  cqi_contig : bool; cqi_buf : Z; cqi_buf_size : Z }.
#[export] Instance eta_nvme_cq_info : Eta nvme_cq_info := λ q,
  Build_nvme_cq_info (cqi_cqid q) (cqi_irq_no q) (cqi_irq_en q) (cqi_nr_entry q)
    (cqi_contig q) (cqi_buf q) (cqi_buf_size q).
Definition cq_info_zero : nvme_cq_info := Build_nvme_cq_info 0 0 0 0 false 0 0.

Record nvme_ctrl_property := { prop_cap : Z; prop_vs : Z; prop_cc : Z }.
#[export] Instance eta_nvme_ctrl_property : Eta nvme_ctrl_property := λ p,
  Build_nvme_ctrl_property (prop_cap p) (prop_vs p) (prop_cc p).

Record nvme_ctrl_instance := {
  ctrl_nr_sq : Z; ctrl_nr_cq : Z; ctrl_id_ctrl : Z;
  ctrl_prop : option (owned nvme_ctrl_property);
  ctrl_id_ctrl_nvm : Z; ctrl_id_ctrl_zns : Z; ctrl_id_ctrl_csc : Z }.
#[export] Instance eta_nvme_ctrl_instance : Eta nvme_ctrl_instance := λ c,
  Build_nvme_ctrl_instance (ctrl_nr_sq c) (ctrl_nr_cq c) (ctrl_id_ctrl c) (ctrl_prop c)
    (ctrl_id_ctrl_nvm c) (ctrl_id_ctrl_zns c) (ctrl_id_ctrl_csc c).
Definition ctrl_zero : nvme_ctrl_instance := Build_nvme_ctrl_instance 0 0 0 None 0 0 0.

Record nvme_ns_instance := {
  ns_nsid : Z; ns_fmt_idx : Z; ns_blk_size : Z; ns_meta_size : Z;
  ns_id_ns : Z; ns_id_desc : list (option Z); ns_id_desc_raw : Z;
  ns_id_ns_nvm : Z; ns_id_ns_zns : Z }.
#[export] Instance eta_nvme_ns_instance : Eta nvme_ns_instance := λ n,
  Build_nvme_ns_instance (ns_nsid n) (ns_fmt_idx n) (ns_blk_size n) (ns_meta_size n)
    (ns_id_ns n) (ns_id_desc n) (ns_id_desc_raw n) (ns_id_ns_nvm n) (ns_id_ns_zns n).
Definition NVME_NIDT_FENCE := 5.
Definition ns_zero : nvme_ns_instance :=
  Build_nvme_ns_instance 0 0 0 0 0 (replicate (Z.to_nat NVME_NIDT_FENCE) None) 0 0 0.

Record nvme_ns_group := {
  grp_nr_act : Z; grp_act_list : Z; grp_nr_ns : Z; grp_ns : list nvme_ns_instance }.
#[export] Instance eta_nvme_ns_group : Eta nvme_ns_group := λ g,
  Build_nvme_ns_group (grp_nr_act g) (grp_act_list g) (grp_nr_ns g) (grp_ns g).

(** The capabilities are members by value here: their addresses are not used. *)
Record pci_dev_instance := {
  pdi_bdf : Z; pdi_vendor_id : Z; pdi_device_id : Z; pdi_link_speed : Z; pdi_link_width : Z;
  pdi_msi_cap_vectors : Z; pdi_msix_cap_vectors : Z;
  pdi_pm : pci_cap_pm; pdi_express : pci_cap_express; pdi_msi : pci_cap_msi;
  pdi_msix : pci_cap_msix; pdi_ltr : pci_ext_cap_ltr; pdi_l1ss : pci_ext_cap_l1ss }.
#[export] Instance eta_pci_dev_instance : Eta pci_dev_instance := λ p,
  Build_pci_dev_instance (pdi_bdf p) (pdi_vendor_id p) (pdi_device_id p) (pdi_link_speed p)
    (pdi_link_width p) (pdi_msi_cap_vectors p) (pdi_msix_cap_vectors p) (pdi_pm p)
    (pdi_express p) (pdi_msi p) (pdi_msix p) (pdi_ltr p) (pdi_l1ss p).
Definition pdi_zero : pci_dev_instance :=
  Build_pci_dev_instance 0 0 0 0 0 0 0 (Build_pci_cap_pm 0 0 0 0) (Build_pci_cap_express 0 0 0 0)
    (Build_pci_cap_msi 0 0 0) (Build_pci_cap_msix 0 0 0 0 0) (Build_pci_ext_cap_ltr 0 0)
    (Build_pci_ext_cap_l1ss 0 0).

Record nvme_dev_public := { dp_devno : Z; dp_family : Z }.

Record nvme_dev_info := {
  di_fd : Z; di_sock_fd : Z; di_asq : nvme_sq_info; di_acq : nvme_cq_info;
  di_iosqs : option (owned (list nvme_sq_info)); di_iocqs : option (owned (list nvme_cq_info));
  di_io_sqes : Z; di_io_cqes : Z;
  di_pdev : option (owned pci_dev_instance); di_ns_grp : option (owned nvme_ns_group);
  di_ctrl : option (owned nvme_ctrl_instance);
  di_irq_type : nvme_irq_type; di_nr_irq : Z; di_dev_pub : nvme_dev_public }.
#[export] Instance eta_nvme_dev_info : Eta nvme_dev_info := λ d,
  Build_nvme_dev_info (di_fd d) (di_sock_fd d) (di_asq d) (di_acq d) (di_iosqs d) (di_iocqs d)
    (di_io_sqes d) (di_io_cqes d) (di_pdev d) (di_ns_grp d) (di_ctrl d) (di_irq_type d)
    (di_nr_irq d) (di_dev_pub d).
(** [zalloc(sizeof(struct nvme_dev_info))]: irq type 0 is the first of the enumeration. *)
Definition dev_info_zero : nvme_dev_info :=
  Build_nvme_dev_info 0 0 sq_info_zero cq_info_zero None None 0 0 None None None
    NVME_INT_MSI_SINGLE 0 (Build_nvme_dev_public 0 0).

(** ** State and monad *)

Section host.
Context {H : Host}.

(** [u_ndev] is what the [ndev] of the code points to. *)
Record ustate := {
  u_ndev : nvme_dev_info; u_heap : gmap Z (list Z); u_fds : gset Z; u_kern : kern }.
#[export] Instance eta_ustate : Eta ustate := λ s,
  Build_ustate (u_ndev s) (u_heap s) (u_fds s) (u_kern s).

Inductive uout (A : Type) : Type :=
| Ret (a : A) (s : ustate)
| Crash (f : fault)
| Stuck.
End host.
Arguments Ret {H A} a s.
Arguments Crash {H A} f.
Arguments Stuck {H A}.

Definition U {H : Host} (A : Type) : Type := ustate → uout A.

#[export] Instance U_ret {H : Host} : MRet U := λ A a s, Ret a s.
#[export] Instance U_bind {H : Host} : MBind U := λ A B f m s,
  match m s with
  | Ret a s' => f a s'
  | Crash e => Crash e
  | Stuck => Stuck
  end.

Section services.
Context {H : Host}.

Definition crash {A} (f : fault) : U A := λ _, Crash f.
Definition stuck {A} : U A := λ _, Stuck.
Definition ugets {A} (f : ustate → A) : U A := λ s, Ret (f s) s.
Definition umodify (f : ustate → ustate) : U unit := λ s, Ret tt (f s).
Definition get_ndev : U nvme_dev_info := ugets u_ndev.
Definition upd_ndev (f : nvme_dev_info → nvme_dev_info) : U unit :=
  umodify (λ s, s <| u_ndev ::= f |>).

(** A service that always returns. *)
Definition call {A} (f : kern → A * kern) : U A := λ s,
  let '(a, k) := f (u_kern s) in Ret a (s <| u_kern := k |>).

(** *** Memory *)

Definition fresh_addr (h : gmap Z (list Z)) : Z := 1 + map_fold (λ k _ m, Z.max k m) 0 h.
Definition new_ublock (n : Z) : U Z := λ s,
  let p := fresh_addr (u_heap s) in
  Ret p (s <| u_heap ::= <[p := zeros n]> |>).
(** [calloc] of [n] bytes in all; [0] when there is no memory. *)
Definition zalloc (n : Z) : U Z :=
  ok ← call (k_calloc n);
  if ok : bool then new_ublock n else mret 0.
Definition free (p : Z) : U unit := λ s,
  if p =? 0 then Ret tt s
  else match u_heap s !! p with
       | Some _ => Ret tt (s <| u_heap ::= delete p |>)
       | None => Crash F_bad_free
       end.
(** The bytes of the block at [p]. *)
Definition ublock (p : Z) : U (list Z) := λ s,
  if p =? 0 then Crash F_null
  else match u_heap s !! p with Some bs => Ret bs s | None => Crash F_uaf end.
(** A member of the structure of type [t] at [p]. *)
Definition uread (t : ctype) (path : list acc) (p : Z) : U Z :=
  bs ← ublock p;
  match cget t path bs with Some v => mret v | None => crash F_oob end.

(** A local variable of [n] zero bytes whose address is taken: it is gone when the
    function returns. *)
Definition with_local {A} (n : Z) (body : Z → U A) : U A :=
  p ← new_ublock n; r ← body p; umodify (λ s, s <| u_heap ::= delete p |>);; mret r.

(** [bs] over the memory of a block. *)
Definition over (old bs : list Z) : list Z := take (length old) bs ++ drop (length bs) old.
Definition apply_writes (ws : list (Z * list Z)) (h : gmap Z (list Z)) : gmap Z (list Z) :=
  foldl (λ h w, alter (λ old, over old w.2) w.1 h) h ws.

(** *** Descriptors *)

Definition fresh_fd (fds : gset Z) : Z := 3 + set_fold Z.max 0 fds.
Definition new_fd (ok : bool) : U Z := λ s,
  if ok then let fd := fresh_fd (u_fds s) in Ret fd (s <| u_fds ::= ({[fd]} ∪.) |>)
  else Ret (-1) s.
Definition uopen : U Z := ok ← call k_open; new_fd ok.
Definition usocket : U Z := ok ← call k_socket; new_fd ok.
Definition uclose (fd : Z) : U unit := umodify (λ s, s <| u_fds ::= (.∖ {[fd]}) |>).

(** *** Kernel *)

Definition ioctl (req : ioctl_req) : U (Z * list upayload) := λ s,
  match k_ioctl req (u_kern s) with
  | Some (r, ps, k) => Ret (r, ps) (s <| u_kern := k |>)
  | None => Stuck
  end.
Definition recvmsg (n : Z) : U (Z * list Z) := λ s,
  match k_recvmsg n (u_kern s) with
  | Some (r, bs, ws, k) => Ret (r, bs) (s <| u_kern := k |> <| u_heap ::= apply_writes ws |>)
  | None => Stuck
  end.
Definition rand : U Z := r ← call k_rand; mret (r mod 2 ^ 31).

(** *** Checks ([lib/include/base/check.h] and [BUG_ON]) *)

Definition CHK_MATCH_MAGIC := 0x43484b6D.

Definition BUG_ON (b : bool) : U unit := if b then crash F_bug else mret tt.

(** The value of [expr] and whether it satisfies the condition; a value equal to the magic
    number fails the assertion. *)
Definition CHK_EXPR_VAL (expr : U Z) (cond : Z → bool) : U (Z * bool) :=
  ret ← expr;
  BUG_ON (ret =? CHK_MATCH_MAGIC);;
  mret (ret, cond ret).

(** [x = CHK_EXPR_NUM_LT0_RTN(expr, errno); rest] and [CHK_EXPR_NUM_NE_RTN]: return
    [errno] from the function, or go on with the value. *)
Definition chk_lt0_rtn {A} (expr : U Z) (errno : A) (rest : Z → U A) : U A :=
  '(ret, bad) ← CHK_EXPR_VAL expr (λ r, r <? 0);
  if bad : bool then mret errno else rest ret.
Definition chk_ne_rtn {A} (expr : U Z) (val : Z) (errno : A) (rest : Z → U A) : U A :=
  '(ret, bad) ← CHK_EXPR_VAL expr (λ r, negb (r =? val));
  if bad : bool then mret errno else rest ret.
(** [CHK_EXPR_NUM_LT0_GOTO(expr, ret, errno, label); rest]: [out] is the code at the
    label, run with [ret = errno]. *)
Definition chk_lt0_goto {A} (expr : U Z) (errno : Z) (out : Z → U A) (rest : Z → U A) : U A :=
  '(ret, bad) ← CHK_EXPR_VAL expr (λ r, r <? 0);
  if bad : bool then out errno else rest ret.
(** The same when [expr] also changes a local object: [rest] and [out] see it changed. *)
Definition chk_lt0_obj {A B} (expr : U (Z * A)) (errno : Z) (out : Z → A → U B)
    (rest : Z → A → U B) : U B :=
  '(ret, a) ← expr;
  BUG_ON (ret =? CHK_MATCH_MAGIC);;
  if ret <? 0 then out errno a else rest ret a.
End services.
