(* ===== verification/HostSpec.v ===== *)
(** * Reasoning about library code

    Weakest preconditions for the monad [U].  A [mode] says which faults a proof tolerates
    and whether the code may wait forever for the kernel: [total] tolerates nothing;
    [careful] is for library code above a kernel about which nothing is known: it may
    wait, stop at an assertion of its own or trip over data the kernel made up, but it
    never touches memory it does not own. *)

From S2P Require Import Prelude Layout Types Kernel Core Host.

Record mode := { may_fault : fault → Prop; may_wait : Prop }.
Definition total : mode := {| may_fault := λ _, False; may_wait := False |}.
Definition careful : mode := {|
  may_fault f := f = F_oob ∨ f = F_bug ∨ f = F_ub ∨ f = F_uninit; may_wait := True |}.

Definition uwp {H : Host} (E : mode) {A} (m : U A) (Q : A → ustate → Prop) (s : ustate) : Prop :=
  match m s with
  | Ret a s' => Q a s'
  | Crash f => may_fault E f
  | Stuck => may_wait E
  end.

Section rules.
Context {H : Host} {E : mode}.

Lemma uwp_ret {A} (a : A) Q s : Q a s → uwp E (mret a) Q s.
Proof. done. Qed.
Lemma uwp_bind {A B} (m : U A) (f : A → U B) Q s :
  uwp E m (λ a, uwp E (f a) Q) s → uwp E (m ≫= f) Q s.
Proof. unfold uwp, mbind, U_bind. by destruct (m s). Qed.
Lemma uwp_mono {A} (m : U A) (P Q : A → ustate → Prop) s :
  uwp E m P s → (∀ a s', P a s' → Q a s') → uwp E m Q s.
Proof. unfold uwp. destruct (m s); auto. Qed.
Lemma uwp_bind_of {A B} (m : U A) (f : A → U B) P Q s :
  uwp E m P s → (∀ a s', P a s' → uwp E (f a) Q s') → uwp E (m ≫= f) Q s.
Proof. intros Hm Hf. apply uwp_bind. by eapply uwp_mono. Qed.
Lemma uwp_ugets {A} (f : ustate → A) Q s : Q (f s) s → uwp E (ugets f) Q s.
Proof. done. Qed.
Lemma uwp_upd_ndev f Q s : Q tt (s <| u_ndev ::= f |>) → uwp E (upd_ndev f) Q s.
Proof. done. Qed.
Lemma uwp_crash {A} f (Q : A → ustate → Prop) s : may_fault E f → uwp E (crash f) Q s.
Proof. done. Qed.
Lemma uwp_BUG_ON (b : bool) Q s :
  may_fault E F_bug → (b = false → Q tt s) → uwp E (BUG_ON b) Q s.
Proof. by destruct b; [|intros _ Hq; apply Hq]. Qed.
Lemma uwp_no_bug (b : bool) Q s : b = false → Q tt s → uwp E (BUG_ON b) Q s.
Proof. by intros ->. Qed.
Lemma uwp_if {A} (b : bool) (m1 m2 : U A) Q s :
  (b = true → uwp E m1 Q s) → (b = false → uwp E m2 Q s) → uwp E (if b then m1 else m2) Q s.
Proof. destruct b; auto. Qed.
Lemma uwp_call {A} (f : kern → A * kern) Q s :
  (∀ a k, f (u_kern s) = (a, k) → Q a (s <| u_kern := k |>)) → uwp E (call f) Q s.
Proof. unfold uwp, call. destruct (f (u_kern s)); auto. Qed.
End rules.

(** A kernel that does nothing, successfully. *)
Definition idle_host : Host := {|
  kern := unit;
  k_ioctl _ k := Some (0, [], k);
  k_sendmsg _ k := (0, k);
  k_recvmsg _ k := Some (0, [], [], k);
  k_socket k := (true, k);
  k_bind k := (0, k);
  k_open k := (true, k);
  k_mmap _ _ k := (0, k);
  k_calloc _ k := (true, k);
  k_rand k := (5, k);
  k_system _ k := (0, k) |}.
Definition idle_state (d : nvme_dev_info) (h : gmap Z (list Z)) : @ustate idle_host :=
  @Build_ustate idle_host d h ∅ tt.
