(* ===== verification/LibIoctl.v ===== *)
(** * The user library: device access

    [lib/nvme/ioctl.c], [irq.c], [meta.c], [pcie.c] and the inline functions of
    [lib/include/nvme/ioctl.h], [pci.h], [pcie.h], [property.h], [meta.h]; [call_system]
    of [lib/base/base.c]; the functions of [queue.c] that are one ioctl.

    The file descriptor is the one of the device and is left out.  A function that stores
    through a pointer argument returns what it stored beside its result: [None] when the
    kernel wrote nothing.  [strerror] messages are left out. *)

From S2P Require Import Prelude Layout Types Kernel Prp Core Host.

Definition NVME_REG_VS := 0x8.
Definition PCI_VENDOR_ID := 0x00.
Definition PCI_DEVICE_ID := 0x02.
Definition PCI_PM_PMC := 2.
Definition PCI_PM_CTRL := 4.
Definition PCI_PM_CTRL_STATE_MASK := 0x3.
Definition PCI_MSIX_FLAGS := 2.
Definition PCI_EXP_DEVCAP := 0x04.
Definition PCI_EXP_DEVCTL := 0x08.
Definition PCI_EXP_DEVSTA := 0x0a.
Definition PCI_EXP_LNKCAP := 0x0c.
Definition PCI_EXP_LNKCTL := 0x10.
Definition PCI_EXP_LNKSTA := 0x12.
Definition PCI_EXP_LNKSTA_CLS := 0xf.
Definition PCI_EXP_LNKSTA_NLW := 0x3f0.
Definition PCI_EXP_LNKSTA_NLW_SHIFT := 4.
Definition PCI_EXP_DEVCTL2 := 0x28.
Definition PCI_EXP_LNKCTL2 := 0x30.
Definition PCI_LTR_MAX_SNOOP_LAT := 0x4.
Definition PCI_LTR_MAX_NOSNOOP_LAT := 0x6.
Definition PCI_L1SS_CTL1 := 0x08.

Definition NVME_CAP_MPSMIN (cap : Z) := Z.land (Z.shiftr cap 48) 0xf.
Definition NVME_CAP_MPSMAX (cap : Z) := Z.land (Z.shiftr cap 52) 0xf.

(** What the kernel wrote: the first payload of the kind. *)
Fixpoint find_payload {A} (f : upayload → option A) (ps : list upayload) : option A :=
  match ps with
  | [] => None
  | p :: ps => match f p with Some a => Some a | None => find_payload f ps end
  end.
Definition got_bytes := find_payload (λ p, match p with UP_bytes bs => Some bs | _ => None end).
Definition got_cid := find_payload (λ p, match p with UP_64b_cmd c => Some (c64_cid c) | _ => None end).
Definition got_u16 := find_payload (λ p, match p with UP_u16 v => Some v | _ => None end).
Definition got_sq := find_payload (λ p, match p with UP_sq q => Some q | _ => None end).
Definition got_cq := find_payload (λ p, match p with UP_cq q => Some q | _ => None end).
Definition got_inquiry := find_payload (λ p, match p with UP_inquiry i => Some i | _ => None end).
Definition got_reap := find_payload (λ p, match p with UP_reap r => Some r | _ => None end).
Definition got_hmb := find_payload (λ p, match p with UP_hmb desc _ _ => Some desc | _ => None end).
Definition got_dev := find_payload (λ p, match p with
  UP_dev_info n f => Some (Build_nvme_dev_public n f) | _ => None end).

Section ioctl.
Context {H : Host}.

(** Most functions return the error of the ioctl, or 0. *)
Definition ioctl_ret {A} (req : ioctl_req) (got : list upayload → A) : U (Z * A) :=
  '(ret, ps) ← ioctl req;
  mret (if ret <? 0 then ret else 0, got ps).
Definition ioctl0 (req : ioctl_req) : U Z :=
  '(ret, _) ← ioctl req;
  mret (if ret <? 0 then ret else 0).

(** ** ioctl.c *)

Definition nvme_select_access_type (oft len : Z) : nvme_access_type :=
  if IS_ALIGNED oft 4 && IS_ALIGNED len 4 then NVME_ACCESS_DWORD
  else if IS_ALIGNED oft 2 && IS_ALIGNED len 2 then NVME_ACCESS_WORD
  else NVME_ACCESS_BYTE.

(** The page offset asked for; the result is the address, [0] on failure. *)
Definition nvme_mmap (id size type : Z) : U Z :=
  let pgoff := Z.lor (u32 (NVME_VMPGOFF_FOR_TYPE type)) id in
  call (k_mmap size (u64 (PAGE_SIZE * pgoff))).

Definition nvme_get_pci_bdf : U (Z * option Z) := ioctl_ret IOCTL_GET_PCI_BDF got_u16.
(** The family is the driver's own number. *)
Definition nvme_get_dev_info : U (Z * option nvme_dev_public) :=
  ioctl_ret (IOCTL_GET_DEV_INFO 0) got_dev.

Definition nvme_get_capability {A} (id size : Z) (type : nvme_cap_type)
    (got : list upayload → option A) : U (Z * option A) :=
  ioctl_ret (IOCTL_GET_CAPABILITY (Build_nvme_get_cap type id size)) got.
Definition nvme_get_pci_capability {A} (id size : Z) (got : list upayload → option A) :=
  nvme_get_capability id size NVME_CAP_TYPE_PCI got.
Definition nvme_get_pcie_capability {A} (id size : Z) (got : list upayload → option A) :=
  nvme_get_capability id size NVME_CAP_TYPE_PCIE got.

Definition nvme_read_generic (region : nvme_region) (oft len : Z) : U (Z * option (list Z)) :=
  ioctl_ret (IOCTL_READ_GENERIC {|
    acc_region := region; acc_type := nvme_select_access_type oft len;
    acc_bytes := len; acc_offset := oft |}) got_bytes.
Definition nvme_write_generic (region : nvme_region) (oft len : Z) (data : list Z) : U Z :=
  ioctl0 (IOCTL_WRITE_GENERIC {|
    acc_region := region; acc_type := nvme_select_access_type oft len;
    acc_bytes := len; acc_offset := oft |} data).

Definition nvme_set_device_state (st : nvme_state) : U Z := ioctl0 (IOCTL_SET_DEV_STATE st).
Definition nvme_alloc_host_mem_buffer (alloc : nvme_hmb_alloc) : U (Z * option Z) :=
  ioctl_ret (IOCTL_ALLOC_HMB alloc alloc) got_hmb.
Definition nvme_release_host_mem_buffer : U Z := ioctl0 IOCTL_RELEASE_HMB.

(** ** ioctl.h *)

Definition nvme_read_ctrl_property (oft len : Z) := nvme_read_generic NVME_BAR0_BAR1 oft len.
Definition nvme_write_ctrl_property (oft len : Z) (buf : list Z) : U Z :=
  nvme_write_generic NVME_BAR0_BAR1 oft len buf.

(** An integer read from [n] bytes, and one written to them. *)
Definition read_val (m : U (Z * option (list Z))) : U (Z * option Z) :=
  '(ret, bs) ← m; mret (ret, le_val <$> bs).

Definition nvme_read_ctrl_cap : U (Z * option Z) := read_val (nvme_read_ctrl_property NVME_REG_CAP 8).
Definition nvme_read_ctrl_vs : U (Z * option Z) := read_val (nvme_read_ctrl_property NVME_REG_VS 4).
Definition nvme_read_ctrl_cc : U (Z * option Z) := read_val (nvme_read_ctrl_property NVME_REG_CC 4).
Definition nvme_write_ctrl_cc (val : Z) : U Z :=
  nvme_write_ctrl_property NVME_REG_CC 4 (le_bytes 4 val).

Definition nvme_enable_controller : U Z := nvme_set_device_state NVME_ST_ENABLE.
Definition nvme_disable_controller : U Z := nvme_set_device_state NVME_ST_DISABLE.
Definition nvme_disable_controller_complete : U Z :=
  nvme_set_device_state NVME_ST_DISABLE_COMPLETE.
Definition nvme_reset_subsystem : U Z := nvme_set_device_state NVME_ST_SUBSYSTEM_RESET.

(** ** pci.h *)

Definition pci_read_config_data (oft len : Z) := nvme_read_generic NVME_PCI_CONFIG oft len.
Definition pci_read_config_byte (oft : Z) := read_val (pci_read_config_data oft 1).
Definition pci_read_config_word (oft : Z) := read_val (pci_read_config_data oft 2).
Definition pci_read_config_dword (oft : Z) := read_val (pci_read_config_data oft 4).
Definition pci_write_config_data (oft len : Z) (buf : list Z) : U Z :=
  nvme_write_generic NVME_PCI_CONFIG oft len buf.
Definition pci_write_config_byte (oft val : Z) := pci_write_config_data oft 1 (le_bytes 1 val).
Definition pci_write_config_word (oft val : Z) := pci_write_config_data oft 2 (le_bytes 2 val).
Definition pci_write_config_dword (oft val : Z) := pci_write_config_data oft 4 (le_bytes 4 val).

Definition pci_hd_read_vendor_id := pci_read_config_word PCI_VENDOR_ID.
Definition pci_hd_read_device_id := pci_read_config_word PCI_DEVICE_ID.
Definition pci_hd_read_command := pci_read_config_word PCI_COMMAND.
Definition pci_hd_write_command (val : Z) := pci_write_config_word PCI_COMMAND val.

Definition pci_pm_read_capability (oft : Z) := pci_read_config_word (oft + PCI_PM_PMC).
Definition pci_pm_read_control_status (oft : Z) := pci_read_config_word (oft + PCI_PM_CTRL).
Definition pci_pm_write_control_status (oft val : Z) := pci_write_config_word (oft + PCI_PM_CTRL) val.

Definition pci_exp_read_device_capability (oft : Z) := pci_read_config_dword (oft + PCI_EXP_DEVCAP).
Definition pci_exp_read_device_control (oft : Z) := pci_read_config_word (oft + PCI_EXP_DEVCTL).
Definition pci_exp_write_device_control (oft val : Z) := pci_write_config_word (oft + PCI_EXP_DEVCTL) val.
Definition pci_exp_read_device_state (oft : Z) := pci_read_config_word (oft + PCI_EXP_DEVSTA).
Definition pci_exp_read_link_capability (oft : Z) := pci_read_config_dword (oft + PCI_EXP_LNKCAP).
Definition pci_exp_read_link_control (oft : Z) := pci_read_config_word (oft + PCI_EXP_LNKCTL).
Definition pci_exp_write_link_control (oft val : Z) := pci_write_config_word (oft + PCI_EXP_LNKCTL) val.
Definition pci_exp_read_link_status (oft : Z) := pci_read_config_word (oft + PCI_EXP_LNKSTA).
Definition pci_exp_read_device_control2 (oft : Z) := pci_read_config_word (oft + PCI_EXP_DEVCTL2).
Definition pci_exp_write_device_control2 (oft val : Z) := pci_write_config_word (oft + PCI_EXP_DEVCTL2) val.
Definition pci_exp_read_link_control2 (oft : Z) := pci_read_config_word (oft + PCI_EXP_LNKCTL2).
Definition pci_exp_write_link_control2 (oft val : Z) := pci_write_config_word (oft + PCI_EXP_LNKCTL2) val.
Definition pci_msix_read_control (oft : Z) := pci_read_config_word (oft + PCI_MSIX_FLAGS).

(** ** irq.c *)

(** [rand() % 4]; the case for some boards is a build option that is off. *)
Definition nvme_select_irq_type_random : U nvme_irq_type :=
  r ← rand;
  let num := r mod 4 in
  mret (if num =? 0 then NVME_INT_PIN else if num =? 1 then NVME_INT_MSI_SINGLE
        else if num =? 2 then NVME_INT_MSI_MULTI else if num =? 3 then NVME_INT_MSIX
        else NVME_INT_NONE).

Definition nvme_set_irq (type : nvme_irq_type) (nr_irqs : Z) : U Z :=
  ioctl0 (IOCTL_SET_IRQ (Build_nvme_interrupt nr_irqs type)).
Definition nvme_switch_irq (type : nvme_irq_type) (nr_irqs : Z) : U Z :=
  chk_lt0_rtn nvme_disable_controller (- EPERM) (λ _,
  chk_lt0_rtn (nvme_set_irq type nr_irqs) (- EPERM) (λ _,
  chk_lt0_rtn nvme_enable_controller (- EPERM) (λ _,
  mret 0))).
Definition nvme_mask_irq (irq_no : Z) : U Z := ioctl0 (IOCTL_MASK_IRQ irq_no).
Definition nvme_unmask_irq (irq_no : Z) : U Z := ioctl0 (IOCTL_UNMASK_IRQ irq_no).

(** ** meta.c, meta.h *)

Definition nvme_create_meta_node (mc : nvme_meta_create) : U Z := ioctl0 (IOCTL_CREATE_META_NODE mc).
Definition nvme_delete_meta_node (id : Z) : U Z := ioctl0 (IOCTL_DELETE_META_NODE id).
Definition nvme_map_meta_node (id size : Z) : U Z := nvme_mmap id size NVME_VMPGOFF_TYPE_META.

(** ** pcie.h *)

Definition pcie_ltr_read_max_snoop_latency (oft : Z) := pci_read_config_word (oft + PCI_LTR_MAX_SNOOP_LAT).
Definition pcie_ltr_write_max_snoop_latency (oft val : Z) :=
  pci_write_config_word (oft + PCI_LTR_MAX_SNOOP_LAT) val.
Definition pcie_ltr_read_max_no_snoop_latency (oft : Z) :=
  pci_read_config_word (oft + PCI_LTR_MAX_NOSNOOP_LAT).
Definition pcie_ltr_write_max_no_snoop_latency (oft val : Z) :=
  pci_write_config_word (oft + PCI_LTR_MAX_NOSNOOP_LAT) val.
Definition pcie_l1ss_read_control (oft : Z) := pci_read_config_dword (oft + PCI_L1SS_CTL1).
Definition pcie_l1ss_write_control (oft val : Z) := pci_write_config_dword (oft + PCI_L1SS_CTL1) val.
Definition pcie_do_flr : U Z := nvme_set_device_state NVME_ST_PCIE_FLR_RESET.
Definition pcie_do_hot_reset : U Z := nvme_set_device_state NVME_ST_PCIE_HOT_RESET.
Definition pcie_do_link_down : U Z := nvme_set_device_state NVME_ST_PCIE_LINKDOWN_RESET.

(** ** pcie.c *)

(** [system(3)] returns [-1], or the status of the shell in the encoding of [wait(2)]. *)
Definition call_system (command : string) : U Z :=
  status ← call (k_system command);
  if status =? -1 then mret (- EPERM)
  else if negb (Z.land status 0x7f =? 0) then mret (- EPERM)
  else if negb (Z.land (Z.shiftr status 8) 0xff =? 0) then mret (- EPERM)
  else mret 0.

(** [snprintf] into a buffer of 128 bytes. *)
Definition snprintf128 (s : string) : string := String.substring 0 127 s.
Definition digit (n : Z) : string := String (Ascii.ascii_of_nat (Z.to_nat (48 + n))) EmptyString.

Definition pcie_set_link_speed (lc2 : string) (speed : Z) : U Z :=
  if (speed <? 0) || (6 <? speed) then mret (- EINVAL)
  else
    let cmd := snprintf128 ("setpci -s " +:+ lc2 +:+ ".b=" +:+ digit speed +:+ ":f") in
    ret ← call_system cmd;
    if ret <? 0 then mret ret else mret 0.

Definition pcie_retrain_link (lc : string) : U Z :=
  let cmd := snprintf128 ("setpci -s " +:+ lc +:+ ".b=20:20") in
  ret ← call_system cmd;
  if ret <? 0 then mret ret else mret 0.

(** The result, the speed and the width; [status] is a local that the read fills. *)
Definition pcie_get_link_speed_width (expcap : Z) : U (Z * Z * Z) :=
  '(ret, v) ← pci_exp_read_link_status expcap;
  BUG_ON (ret =? CHK_MATCH_MAGIC);;
  if ret <? 0 then mret (- EPERM, 0, 0)
  else match v with
       | None => crash F_uninit
       | Some status =>
         mret (0, Z.land status PCI_EXP_LNKSTA_CLS, Z.shiftr (Z.land status PCI_EXP_LNKSTA_NLW) 4)
       end.

Definition pcie_check_link_speed_width (expcap speed width : Z) : U Z :=
  '(ret, cur_spd, cur_width) ← pcie_get_link_speed_width expcap;
  if ret <? 0 then mret ret
  else if negb (speed =? 0) && negb (cur_spd =? speed) then mret (- EPERM)
  else if negb (width =? 0) && negb (cur_width =? width) then mret (- EPERM)
  else mret 0.

(** [x = CHK_EXPR_NUM_LT0_RTN(read(&v), -EPERM); use v]. *)
Definition chk_read (m : U (Z * option Z)) (rest : Z → U Z) : U Z :=
  '(ret, v) ← m;
  BUG_ON (ret =? CHK_MATCH_MAGIC);;
  if ret <? 0 then mret (- EPERM)
  else match v with None => crash F_uninit | Some v => rest v end.

Definition pcie_set_power_state (pmcap ps : Z) : U Z :=
  chk_read (pci_pm_read_control_status pmcap) (λ pmcsr,
  let pmcsr := Z.lor (Z.land (u16 pmcsr) (Z.lnot PCI_PM_CTRL_STATE_MASK))
                     (Z.land ps PCI_PM_CTRL_STATE_MASK) in
  chk_lt0_rtn (pci_pm_write_control_status pmcap (u16 pmcsr)) (- EPERM) (λ _,
  chk_read (pci_pm_read_control_status pmcap) (λ pmcsr,
  if negb (Z.land pmcsr PCI_PM_CTRL_STATE_MASK =? Z.land ps PCI_PM_CTRL_STATE_MASK)
  then mret (- EPERM) else mret 0))).

(** ** property.h *)

(** [*ctrl->prop]. *)
Definition ctrl_property (ctrl : nvme_ctrl_instance) : U nvme_ctrl_property :=
  match ctrl_prop ctrl with Some (_, p) => mret p | None => crash F_null end.
Definition nvme_cap_support_discontig_queue (ctrl : nvme_ctrl_instance) : U bool :=
  p ← ctrl_property ctrl; mret (NVME_CAP_CQR (prop_cap p) =? 0).
Definition nvme_cap_mem_page_size_min (ctrl : nvme_ctrl_instance) : U Z :=
  p ← ctrl_property ctrl; mret (Z.shiftl 1 (12 + NVME_CAP_MPSMIN (prop_cap p))).
Definition nvme_cap_mem_page_size_max (ctrl : nvme_ctrl_instance) : U Z :=
  p ← ctrl_property ctrl; mret (Z.shiftl 1 (12 + NVME_CAP_MPSMAX (prop_cap p))).
Definition nvme_version (ctrl : nvme_ctrl_instance) : U Z :=
  p ← ctrl_property ctrl; mret (prop_vs p).

(** ** The ioctls of queue.c *)

Definition nvme_get_sq_info (sq_id : Z) : U (Z * option nvme_sq_public) :=
  ioctl_ret (IOCTL_GET_SQ_INFO sq_id) got_sq.
Definition nvme_get_cq_info (q_id : Z) : U (Z * option nvme_cq_public) :=
  ioctl_ret (IOCTL_GET_CQ_INFO q_id) got_cq.
Definition nvme_prepare_iosq (psq : nvme_prep_sq) : U Z := ioctl0 (IOCTL_PREPARE_IOSQ psq).
Definition nvme_prepare_iocq (pcq : nvme_prep_cq) : U Z := ioctl0 (IOCTL_PREPARE_IOCQ pcq).
Definition nvme_inquiry_cq_entries (cqid : Z) : U Z :=
  '(ret, ps) ← ioctl (IOCTL_INQUIRY_CQE (Build_nvme_inquiry cqid 0));
  if ret <? 0 then mret ret
  else mret (s32 (default 0 (inq_nr_cqe <$> got_inquiry ps))).
Definition nvme_reap_cq_entries (rp : nvme_reap) : U (Z * option nvme_reap) :=
  ioctl_ret (IOCTL_REAP_CQE rp) got_reap.
Definition nvme_ring_sq_doorbell (sqid : Z) : U Z := ioctl0 (IOCTL_RING_SQ_DOORBELL sqid).
Definition nvme_empty_sq_cmdlist (sqid : Z) : U Z := ioctl0 (IOCTL_EMPTY_CMD_LIST sqid).
Definition nvme_map_sq (sqid size : Z) : U Z := nvme_mmap sqid size NVME_VMPGOFF_TYPE_SQ.
Definition nvme_map_cq (cqid size : Z) : U Z := nvme_mmap cqid size NVME_VMPGOFF_TYPE_CQ.
End ioctl.
