(* ===== verification/LibNetlink.v ===== *)
(** * The user library: generic netlink

    [lib/nvme/netlink.c]: the messages with which the library asks the driver to reap
    completions.  A message is the buffer [nm_nlh] of [nm_size] bytes, an
    [struct nlmsghdr] followed by the generic header and a stream of attributes.  The
    structures and the alignments are those of [linux/netlink.h] and
    [linux/genetlink.h].

    A pointer into the message is its offset.  [None] of the outer [option] is an access
    outside the buffer; a function that may return [NULL] returns an [option] inside. *)

From S2P Require Import Prelude Layout Types Kernel Core Host.

#[local] Open Scope string_scope.
#[local] Open Scope Z_scope.

Definition struct_nlmsghdr : ctype := CStruct [
  ("nlmsg_len", cu32); ("nlmsg_type", cu16); ("nlmsg_flags", cu16); ("nlmsg_seq", cu32);
  ("nlmsg_pid", cu32)].
Definition struct_genlmsghdr : ctype := CStruct [("cmd", cu8); ("version", cu8); ("reserved", cu16)].
Definition struct_nlattr : ctype := CStruct [("nla_len", cu16); ("nla_type", cu16)].

Definition NLMSG_ALIGNTO := 4.
Definition NLMSG_ALIGN (len : Z) : Z := u32 (Z.land (len + NLMSG_ALIGNTO - 1) (Z.lnot (NLMSG_ALIGNTO - 1))).
Definition NLA_ALIGN (len : Z) : Z := Z.land (len + 4 - 1) (Z.lnot (4 - 1)).
Definition NLMSG_HDRLEN := 16.
Definition GENL_HDRLEN := 4.
Definition NLA_HDRLEN := 4.
Definition NLA_TYPE_MASK := 0x3fff.
Definition NLM_F_REQUEST := 1.

Definition NVME_GNL_CMD_REAP_CQE := 1.
Definition NVME_GNL_ATTR_TIMEOUT := 1.
Definition NVME_GNL_ATTR_DEVNO := 2.
Definition NVME_GNL_ATTR_SQID := 3.
Definition NVME_GNL_ATTR_CQID := 4.
Definition NVME_GNL_ATTR_OPT_NUM := 5.
Definition NVME_GNL_ATTR_OPT_DATA := 6.
Definition NVME_GNL_ATTR_OPT_BUF_PTR := 7.
Definition NVME_GNL_ATTR_OPT_BUF_SIZE := 8.
Definition NVME_GNL_ATTR_OPT_STATUS := 9.
Definition NVME_GNL_ATTR_MAX := 9.

(** [default_msg_size = getpagesize()]. *)
Definition default_msg_size := PAGE_SIZE.
Definition SIZEOF_nl_msg := 40.

Record nl_msg := { nm_nlh : list Z; nm_size : Z }.
#[export] Instance eta_nl_msg : Eta nl_msg := λ m, Build_nl_msg (nm_nlh m) (nm_size m).

(** Typed accesses at an offset of the buffer. *)
Definition get_at (t : ctype) (p : list acc) (buf : list Z) (base : Z) : option Z :=
  '(o, u) ← resolve t p; load_le (Z.to_nat (sizeof u)) buf (base + o).
Definition set_at (t : ctype) (p : list acc) (v : Z) (m : nl_msg) (base : Z) : option nl_msg :=
  '(o, u) ← resolve t p;
  buf ← store_le (Z.to_nat (sizeof u)) (nm_nlh m) (base + o) v;
  Some (m <| nm_nlh := buf |>).
Definition put_at (m : nl_msg) (off : Z) (bs : list Z) : option nl_msg :=
  buf ← store_bytes (nm_nlh m) off bs; Some (m <| nm_nlh := buf |>).

(** ** Messages *)

Definition nlmsg_len (m : nl_msg) : option Z := get_at struct_nlmsghdr .["nlmsg_len"] (nm_nlh m) 0.
Definition nlmsg_msg_size (payload : Z) : Z := NLMSG_HDRLEN + payload.
Definition nlmsg_total_size (payload : Z) : Z := NLMSG_ALIGN (nlmsg_msg_size payload).
Definition nlmsg_data : Z := NLMSG_HDRLEN.
Definition nlmsg_tail (m : nl_msg) : option Z := len ← nlmsg_len m; Some (NLMSG_ALIGN len).
Definition nlmsg_valid_hdr (m : nl_msg) (hdrlen : Z) : option bool :=
  len ← nlmsg_len m; Some (negb (len <? nlmsg_msg_size hdrlen)).

(** [tlen] is [len] rounded up to a multiple of [pad], a power of two. *)
Definition nlmsg_reserve (m : nl_msg) (len pad : Z) : option (option Z * nl_msg) :=
  nlen ← nlmsg_len m;
  let tlen := if pad =? 0 then len else u64 (Z.land (len + (pad - 1)) (Z.lnot (pad - 1))) in
  if nm_size m <? tlen + nlen then Some (None, m)
  else
    m ← set_at struct_nlmsghdr .["nlmsg_len"] (nlen + tlen) m 0;
    m ← (if len <? tlen then put_at m (nlen + len) (zeros (tlen - len)) else Some m);
    Some (Some nlen, m).

Definition nlmsg_append (m : nl_msg) (data : list Z) (pad : Z) : option (Z * nl_msg) :=
  '(tmp, m) ← nlmsg_reserve m (Z.of_nat (length data)) pad;
  match tmp with
  | None => Some (- ENOMEM, m)
  | Some tmp => m ← put_at m tmp data; Some (0, m)
  end.

Definition nlmsg_put (m : nl_msg) (port seq type payload flags : Z) : option (option Z * nl_msg) :=
  m ← set_at struct_nlmsghdr .["nlmsg_type"] type m 0;
  m ← set_at struct_nlmsghdr .["nlmsg_flags"] flags m 0;
  m ← set_at struct_nlmsghdr .["nlmsg_seq"] seq m 0;
  m ← set_at struct_nlmsghdr .["nlmsg_pid"] port m 0;
  if 0 <? payload
  then '(p, m) ← nlmsg_reserve m payload NLMSG_ALIGNTO;
       Some (match p with Some _ => Some nlmsg_data | None => None end, m)
  else Some (Some nlmsg_data, m).

(** ** Attributes *)

Definition nla_attr_size (payload : Z) : Z := NLA_HDRLEN + payload.
Definition nla_total_size (payload : Z) : Z := NLA_ALIGN (nla_attr_size payload).
Definition nla_padlen (payload : Z) : Z := nla_total_size payload - nla_attr_size payload.

Definition nla_len_field (buf : list Z) (nla : Z) : option Z := get_at struct_nlattr .["nla_len"] buf nla.
Definition nla_type (buf : list Z) (nla : Z) : option Z :=
  t ← get_at struct_nlattr .["nla_type"] buf nla; Some (Z.land t NLA_TYPE_MASK).
Definition nla_data (nla : Z) : Z := nla + NLA_HDRLEN.
Definition nla_len (buf : list Z) (nla : Z) : option Z :=
  l ← nla_len_field buf nla; Some (l - NLA_HDRLEN).

(** The comparison with [sizeof] is unsigned: a negative [remaining] passes it. *)
Definition nla_ok (buf : list Z) (nla remaining : Z) : option bool :=
  if u64 remaining <? sizeof struct_nlattr then Some false
  else
    l ← nla_len_field buf nla;
    Some ((sizeof struct_nlattr <=? l) && (l <=? remaining)).

Definition nla_next (buf : list Z) (nla remaining : Z) : option (Z * Z) :=
  l ← nla_len_field buf nla;
  let totlen := NLA_ALIGN l in
  Some (nla + totlen, remaining - totlen).

Definition nla_reserve (m : nl_msg) (attrtype attrlen : Z) : option (option Z * nl_msg) :=
  len ← nlmsg_len m;
  let total := s32 (NLMSG_ALIGN len + nla_total_size attrlen) in
  if nm_size m <? u64 total then Some (None, m)
  else
    nla ← nlmsg_tail m;
    m ← set_at struct_nlattr .["nla_type"] attrtype m nla;
    m ← set_at struct_nlattr .["nla_len"] (nla_attr_size attrlen) m nla;
    l ← nla_len_field (nm_nlh m) nla;
    m ← (if negb (attrlen =? 0) && negb (nla_padlen attrlen =? 0)
         then put_at m (nla + l) (zeros (nla_padlen attrlen)) else Some m);
    m ← set_at struct_nlmsghdr .["nlmsg_len"] total m 0;
    Some (Some nla, m).

Definition nla_put (m : nl_msg) (attrtype : Z) (data : list Z) : option (Z * nl_msg) :=
  let datalen := Z.of_nat (length data) in
  '(nla, m) ← nla_reserve m attrtype datalen;
  match nla with
  | None => Some (- ENOMEM, m)
  | Some nla =>
    m ← (if 0 <? datalen then put_at m (nla_data nla) data else Some m);
    Some (0, m)
  end.

Definition nla_put_u8 (m : nl_msg) (attrtype v : Z) := nla_put m attrtype (le_bytes 1 v).
Definition nla_put_u16 (m : nl_msg) (attrtype v : Z) := nla_put m attrtype (le_bytes 2 v).
Definition nla_put_u32 (m : nl_msg) (attrtype v : Z) := nla_put m attrtype (le_bytes 4 v).
Definition nla_put_u64 (m : nl_msg) (attrtype v : Z) := nla_put m attrtype (le_bytes 8 v).
Definition nla_put_s32 (m : nl_msg) (attrtype v : Z) := nla_put m attrtype (le_bytes 4 v).
(** With the final zero byte. *)
Definition nla_put_string (m : nl_msg) (attrtype : Z) (str : list Z) := nla_put m attrtype (str ++ [0]).

Definition nla_get_u8 (buf : list Z) (nla : Z) : option Z := load_le 1 buf (nla_data nla).
Definition nla_get_u16 (buf : list Z) (nla : Z) : option Z := load_le 2 buf (nla_data nla).
Definition nla_get_u32 (buf : list Z) (nla : Z) : option Z := load_le 4 buf (nla_data nla).
Definition nla_get_s32 (buf : list Z) (nla : Z) : option Z :=
  v ← load_le 4 buf (nla_data nla); Some (s32 v).
Definition nla_get_u64 (buf : list Z) (nla : option Z) : option Z :=
  match nla with
  | None => Some 0
  | Some nla =>
    l ← nla_len buf nla;
    if 8 <=? u64 l then load_le 8 buf (nla_data nla) else Some 0
  end.

(** The table [tb] of [maxtype + 1] pointers.  [fuel] bounds the loop. *)
Fixpoint nla_parse_loop (fuel : nat) (buf : list Z) (maxtype nla rem : Z) (tb : list (option Z)) :
    option (option (list (option Z))) :=
  match fuel with
  | O => Some None
  | S fuel =>
    ok ← nla_ok buf nla rem;
    if negb ok then Some (Some tb)
    else
      type ← nla_type buf nla;
      let tb := if maxtype <? type then tb else <[Z.to_nat type := Some nla]> tb in
      '(nla, rem) ← nla_next buf nla rem;
      nla_parse_loop fuel buf maxtype nla rem tb
  end.

Definition nla_parse (buf : list Z) (maxtype head len : Z) : option (option (list (option Z))) :=
  nla_parse_loop (S (Z.to_nat len)) buf maxtype head len
    (replicate (Z.to_nat (maxtype + 1)) None).

(** ** Generic netlink *)

Definition genlmsg_data (hdr : Z) : Z := hdr + GENL_HDRLEN.
Definition genlmsg_len (m : nl_msg) : option Z :=
  len ← nlmsg_len m; Some (s32 (len - GENL_HDRLEN - NLMSG_HDRLEN)).
Definition genlmsg_user_data (gnlh hdrlen : Z) : Z := genlmsg_data gnlh + NLMSG_ALIGN hdrlen.
Definition genlmsg_attrdata (gnlh hdrlen : Z) : Z := genlmsg_user_data gnlh hdrlen.
Definition genlmsg_attrlen (m : nl_msg) (hdrlen : Z) : option Z :=
  l ← genlmsg_len m; Some (s32 (l - NLMSG_ALIGN hdrlen)).

(** [BUG_ON(!hdr)] is the inner [None]. *)
Definition genlmsg_put (m : nl_msg) (port seq family flags cmd version : Z) :
    option (option Z * nl_msg) :=
  '(hdr, m) ← nlmsg_put m port seq family GENL_HDRLEN flags;
  match hdr with
  | None => Some (None, m)
  | Some hdr =>
    m ← set_at struct_genlmsghdr .["cmd"] cmd m hdr;
    m ← set_at struct_genlmsghdr .["version"] version m hdr;
    Some (Some (genlmsg_data hdr), m)
  end.

(** The length is compared with an unsigned number. *)
Definition genlmsg_valid_hdr (m : nl_msg) (hdrlen : Z) : option bool :=
  ok ← nlmsg_valid_hdr m GENL_HDRLEN;
  if negb ok then Some false
  else l ← genlmsg_len m; Some (negb (u32 l <? NLMSG_ALIGN hdrlen)).

(** The result and the table; the inner [None] is a loop out of fuel. *)
Definition genlmsg_parse (m : nl_msg) (hdrlen maxtype : Z) :
    option (option (Z * list (option Z))) :=
  ok ← genlmsg_valid_hdr m hdrlen;
  if negb ok then Some (Some (- EPERM, []))
  else
    len ← genlmsg_attrlen m hdrlen;
    tb ← nla_parse (nm_nlh m) maxtype (genlmsg_attrdata nlmsg_data hdrlen) len;
    Some (match tb with Some tb => Some (0, tb) | None => None end).

(** ** The request *)

(** The six attributes of a request to reap. *)
Definition reap_attrs (m : nl_msg) (devno timeout cqid expect ptr size : Z) : option nl_msg :=
  '(_, m) ← nla_put_s32 m NVME_GNL_ATTR_DEVNO devno;
  '(_, m) ← nla_put_s32 m NVME_GNL_ATTR_TIMEOUT timeout;
  '(_, m) ← nla_put_u16 m NVME_GNL_ATTR_CQID cqid;
  '(_, m) ← nla_put_u32 m NVME_GNL_ATTR_OPT_NUM expect;
  '(_, m) ← nla_put_u64 m NVME_GNL_ATTR_OPT_BUF_PTR ptr;
  '(_, m) ← nla_put_u32 m NVME_GNL_ATTR_OPT_BUF_SIZE size;
  Some m.

(** The buffer of a new message: zeroed, with its length set. *)
Definition new_msg : option nl_msg :=
  set_at struct_nlmsghdr .["nlmsg_len"] (nlmsg_total_size 0)
    {| nm_nlh := zeros default_msg_size; nm_size := default_msg_size |} 0.

Section netlink.
Context {H : Host}.

Definition in_bounds {A} (o : option A) : U A :=
  match o with Some a => mret a | None => crash F_oob end.

(** The addresses of the structure and of its buffer, and the message. *)
Definition nlmsg_alloc : U (option (Z * Z * nl_msg)) :=
  BUG_ON (default_msg_size <? nlmsg_total_size 0);;
  nm ← zalloc SIZEOF_nl_msg;
  if nm =? 0 then mret None
  else
    nlh ← zalloc default_msg_size;
    if nlh =? 0 then free nm;; mret None
    else
      m ← in_bounds new_msg;
      mret (Some (nm, nlh, m)).
Definition nlmsg_free (nm nlh : Z) : U unit := free nlh;; free nm.

(** The bytes up to [nlmsg_len] are sent. *)
Definition nl_send (m : nl_msg) : U Z :=
  len ← in_bounds (nlmsg_len m);
  bs ← in_bounds (load_bytes (nm_nlh m) 0 len);
  ret ← call (k_sendmsg bs);
  mret (if ret <? 0 then ret else 0).
(** At most [nm_size] bytes are received, over the start of the buffer. *)
Definition nl_recv (m : nl_msg) : U (Z * nl_msg) :=
  '(ret, bs) ← recvmsg (nm_size m);
  mret (if ret <? 0 then ret else 0, m <| nm_nlh ::= λ old, over old bs |>).

(** From the answer to the result: the checks after [nl_recv]. *)
Definition reap_answer (m : nl_msg) : U Z :=
  parsed ← in_bounds (genlmsg_parse m 0 NVME_GNL_ATTR_MAX);
  match parsed with
  | None => stuck
  | Some (ret, tb) =>
    if ret <? 0 then mret ret
    else
      cmd ← in_bounds (get_at struct_genlmsghdr .["cmd"] (nm_nlh m) nlmsg_data);
      if negb (cmd =? NVME_GNL_CMD_REAP_CQE) then mret (- EPERM)
      else match tb !! Z.to_nat NVME_GNL_ATTR_OPT_STATUS with
           | None => crash F_oob
           | Some None => mret (- EPERM)
           | Some (Some nla) =>
             ret ← in_bounds (nla_get_s32 (nm_nlh m) nla);
             if ret <? 0 then mret ret
             else match tb !! Z.to_nat NVME_GNL_ATTR_OPT_NUM with
                  | None => crash F_oob
                  | Some None => mret (- EPERM)
                  | Some (Some nla) =>
                    v ← in_bounds (nla_get_u32 (nm_nlh m) nla); mret (s32 v)
                  end
           end
  end.

(** The message up to the call of [nl_send]; [nm_src.nl_pad], passed as the port, is the
    zero of [zalloc]. *)
Definition reap_request (pub : nvme_dev_public) (m : nl_msg) (cqid expect buf size timeout : Z) : U nl_msg :=
  '(hdr, m) ← in_bounds (genlmsg_put m 0 0 (dp_family pub) NLM_F_REQUEST NVME_GNL_CMD_REAP_CQE 1);
  BUG_ON (match hdr with Some _ => false | None => true end);;
  in_bounds (reap_attrs m (dp_devno pub) timeout cqid expect buf size).

Definition nvme_gnl_cmd_reap_cqe_timeout (cqid expect buf size timeout : Z) : U Z :=
  d ← get_ndev;
  msg ← nlmsg_alloc;
  match msg with
  | None => mret (- ENOMEM)
  | Some (nm, nlh, m) =>
    m ← reap_request (di_dev_pub d) m cqid expect buf size timeout;
    ret ← (ret ← nl_send m;
           if ret <? 0 then mret ret
           else
             '(ret, m) ← nl_recv m;
             if ret <? 0 then mret ret else reap_answer m);
    nlmsg_free nm nlh;;
    mret ret
  end.

Definition nvme_gnl_cmd_reap_cqe (cqid expect buf size : Z) : U Z :=
  nvme_gnl_cmd_reap_cqe_timeout cqid expect buf size 5000.

Definition nvme_gnl_connect : U Z :=
  sockfd ← usocket;
  if sockfd <? 0 then mret sockfd
  else
    ret ← call k_bind;
    if ret <? 0 then uclose sockfd;; mret ret else mret sockfd.
Definition nvme_gnl_disconnect (sockfd : Z) : U unit := uclose sockfd.
End netlink.
