(* ===== verification/LibCmd.v ===== *)
(** * The user library: commands

    [lib/nvme/cmd/cmd.c], [zns.c], [vendor.c], [directive.c] and the inline functions of
    their headers.  A function [nvme_cmd_x] fills a command structure and submits it with
    one ioctl; [nvme_x] submits the command, rings the doorbell, reaps one completion and
    checks it.

    The command structure is its bytes ([cstruct] of the declared type); the structure
    [nvme_64b_cmd] that describes it to the driver is the record of the driver. *)

From S2P Require Import Prelude Layout Types Kernel Prp Ring Core Structs Host LibIoctl LibNetlink.

#[local] Open Scope string_scope.
#[local] Open Scope Z_scope.

Definition NVME_SC_SUCCESS := 0x0.

(** Opcodes. *)
Definition nvme_admin_keep_alive := 0x18.
Definition nvme_admin_directive_send := 0x19.
Definition nvme_admin_directive_recv := 0x1a.
Definition nvme_admin_format_nvm := 0x80.
Definition nvme_cmd_write := 0x01.
Definition nvme_cmd_read := 0x02.
Definition nvme_cmd_compare := 0x05.
Definition nvme_cmd_verify := 0x0c.
Definition nvme_cmd_copy := 0x19.
Definition nvme_cmd_zone_mgmt_send := 0x79.
Definition nvme_cmd_zone_mgmt_recv := 0x7a.
Definition nvme_cmd_zone_append := 0x7d.
Definition nvme_admin_maxio_nvme_top := 0xe0.
Definition nvme_admin_maxio_nvme_cqm := 0xe3.
Definition nvme_admin_maxio_nvme_hwrdma := 0xe4.
Definition nvme_admin_maxio_nvme_hwwdma := 0xe5.
Definition nvme_admin_maxio_nvme_case := 0xef.
Definition nvme_admin_maxio_pcie_msg := 0xd0.
Definition nvme_admin_maxio_pcie_interrupt := 0xd1.
Definition nvme_admin_maxio_pcie_special := 0xd2.
Definition nvme_admin_maxio_fwdma_fwdma := 0xf0.
Definition nvme_admin_maxio_fwdma_dpu := 0xf2.

Definition NVME_MAXIO_OPT_CHECK_RESULT := 0.
Definition NVME_MAXIO_OPT_SET_PARAM := 1.
Definition NVME_MAXIO_OPT_GET_PARAM := 2.

Definition NVME_DIR_IDENTIFY := 0x00.
Definition NVME_DIR_STREAMS := 0x01.
Definition NVME_DIR_SND_ID_OP_ENABLE := 0x01.
Definition NVME_DIR_RCV_ID_OP_PARAM := 0x01.
Definition NVME_DIR_SND_ST_OP_REL_ID := 0x01.
Definition NVME_DIR_SND_ST_OP_REL_RSC := 0x02.
Definition NVME_DIR_RCV_ST_OP_PARAM := 0x01.
Definition NVME_DIR_RCV_ST_OP_STATUS := 0x02.
Definition NVME_DIR_RCV_ST_OP_RESOURCE := 0x03.
Definition NVME_DIR_ENDIR := 0x01.

(** ** Arguments ([lib/include/nvme/cmd/cmd.h], [zns.h], [vendor.h]) *)

(** [rwc_bit_bucket] is [None] for [NULL]. *)
Record nvme_rwc_wrapper := {
  rwc_sqid : Z; rwc_cqid : Z; rwc_flags : Z; rwc_nsid : Z; rwc_slba : Z; rwc_nlb : Z;
  rwc_control : Z; rwc_dspec : Z; rwc_apptag : Z; rwc_appmask : Z;
  rwc_dw2 : Z; rwc_dw3 : Z; rwc_dw14 : Z; rwc_buf : Z; rwc_size : Z; rwc_meta_id : Z;
  rwc_use_bit_bucket : bool; rwc_check_none : bool;
  rwc_nr_bit_bucket : Z; rwc_bit_bucket : option (list nvme_sgl_bit_bucket) }.

Record nvme_verify_wrapper := {
  vfy_sqid : Z; vfy_cqid : Z; vfy_flags : Z; vfy_nsid : Z; vfy_slba : Z; vfy_nlb : Z;
  vfy_prinfo : Z; vfy_check_none : bool }.

Record nvme_copy_wrapper := {
  cpy_sqid : Z; cpy_cqid : Z; cpy_flags : Z; cpy_nsid : Z; cpy_slba : Z;
  cpy_ranges : Z; cpy_desc_fmt : Z; cpy_prinfor : Z; cpy_dtype : Z;
  cpy_stcw : Z; cpy_prinfow : Z; cpy_fua : Z; cpy_dspec : Z;
  cpy_desc : Z; cpy_size : Z; cpy_check_none : bool }.

Record nvme_zone_mgnt_send_wrapper := {
  zms_sqid : Z; zms_cqid : Z; zms_nsid : Z; zms_slba : Z; zms_action : Z;
  zms_select_all : Z; zms_buf : Z; zms_size : Z; zms_status : Z }.
Record nvme_zone_mgnt_recv_wrapper := {
  zmr_sqid : Z; zmr_cqid : Z; zmr_nsid : Z; zmr_slba : Z; zmr_action : Z; zmr_specific : Z;
  zmr_partial_report : Z; zmr_buf : Z; zmr_size : Z; zmr_status : Z }.
Record nvme_zone_append_wrapper := {
  zap_sqid : Z; zap_cqid : Z; zap_flags : Z; zap_nsid : Z; zap_zslba : Z; zap_nlb : Z;
  zap_piremap : Z; zap_buf : Z; zap_size : Z; zap_meta_id : Z; zap_status : Z;
  zap_check_none : bool }.

Record nvme_maxio_set_param := {
  msp_dw3 : Z; msp_dw11 : Z; msp_dw12 : Z; msp_dw13 : Z; msp_dw14 : Z; msp_dw15 : Z;
  msp_buf : Z; msp_buf_size : Z }.

(** [struct nvme_64b_cmd cmd = {0}; cmd.sqid = sqid; cmd.cmd_buf_ptr = &x]: the first data
    direction of the enumeration is bidirectional. *)
Definition cmd64 (sqid : Z) : nvme_64b_cmd := {|
  c64_sqid := sqid; c64_cid := 0; c64_has_cmd_buf := true; c64_bit_mask := 0;
  c64_data_buf_ptr := 0; c64_data_buf_size := 0; c64_data_dir := DMA_BIDIRECTIONAL;
  c64_meta_id := 0; c64_nr_bit_bucket := 0; c64_bit_bucket := [] |}.
Definition with_data (mask buf size : Z) (c : nvme_64b_cmd) : nvme_64b_cmd :=
  c <| c64_bit_mask := mask |> <| c64_data_buf_ptr := buf |> <| c64_data_buf_size := size |>
    <| c64_data_dir := DMA_BIDIRECTIONAL |>.
Definition PRP_MASKS : Z :=
  Z.lor (Z.lor (Z.lor NVME_MASK_PRP1_PAGE NVME_MASK_PRP1_LIST) NVME_MASK_PRP2_PAGE)
    NVME_MASK_PRP2_LIST.

(** The memory at [cmd_buf_ptr]. *)
Definition mem_of (bs : list Z) (i : Z) : Z := default 0 (bs !! Z.to_nat i).

Section cmd.
Context {H : Host}.

(** ** Submission *)

Definition nvme_submit_64b_cmd (cmd : nvme_64b_cmd) (bs : list Z) : U Z :=
  if negb (c64_has_cmd_buf cmd) then mret (- EINVAL)
  else
    '(ret, ps) ← ioctl (IOCTL_SUBMIT_64B_CMD cmd (mem_of bs));
    if ret <? 0 then mret ret else mret (default (c64_cid cmd) (got_cid ps)).

Definition nvme_tamper_cmd (mem : Z → Z) : U Z := ioctl0 (IOCTL_TAMPER_CMD mem).

(** [queue.c]: validate the completion at [entry]. *)
Definition nvme_valid_cq_entry (entry sqid cid status : Z) : U Z :=
  sq_id ← uread struct_nvme_completion .["sq_id"] entry;
  if negb (sq_id =? sqid) then mret (- EINVAL)
  else
    command_id ← uread struct_nvme_completion .["command_id"] entry;
    if negb (command_id =? cid) then mret (- EINVAL)
    else
      st ← uread struct_nvme_completion .["status"] entry;
      if negb (NVME_CQE_STATUS_TO_STATE st =? status) then mret (- EINVAL) else mret 0.

(** The four steps of every synchronous command; [rest] has the identifier of the command
    and the address of the completion, and [fail] is the result for an error. *)
Definition sync_cmd {A} (fail : Z → A) (submit : U Z) (sqid cqid : Z) (rest : Z → Z → U A) : U A :=
  with_local (sizeof struct_nvme_completion) (λ entry,
    chk_lt0_rtn submit (fail (- EPERM)) (λ ret,
    let cid := u16 ret in
    chk_lt0_rtn (nvme_ring_sq_doorbell sqid) (fail (- EPERM)) (λ _,
    chk_ne_rtn (nvme_gnl_cmd_reap_cqe cqid 1 entry (sizeof struct_nvme_completion)) 1
      (fail (- ETIME)) (λ _,
    rest cid entry)))).
Definition check_entry {A} (fail : Z → A) (entry sqid cid status : Z) (rest : U A) : U A :=
  chk_lt0_rtn (nvme_valid_cq_entry entry sqid cid status) (fail (- EPERM)) (λ _, rest).

(** A command of the admin queue that must succeed. *)
Definition admin_cmd {A} (fail : Z → A) (submit : U Z) (rest : Z → U A) : U A :=
  sync_cmd fail submit NVME_AQ_ID NVME_AQ_ID (λ cid entry,
    check_entry fail entry NVME_AQ_ID cid NVME_SC_SUCCESS (rest entry)).
Definition admin_cmd0 (submit : U Z) : U Z := admin_cmd id submit (λ _, mret 0).
(** A command of an I/O queue. *)
Definition io_cmd (submit : U Z) (sqid cqid status : Z) (check_none : bool) : U Z :=
  sync_cmd id submit sqid cqid (λ cid entry,
    if check_none then mret 0 else check_entry id entry sqid cid status (mret 0)).

(** ** cmd.c *)

Definition nvme_cmd_keep_alive : U Z :=
  nvme_submit_64b_cmd (cmd64 NVME_AQ_ID)
    (cstruct struct_nvme_common_command [(.["opcode"], nvme_admin_keep_alive)]).

(** [nvme_cmd_fill_create_sq] and [nvme_cmd_fill_create_cq] on a zeroed structure. *)
Definition nvme_cmd_fill_create_sq (sqid cqid elements : Z) (contig : bool) (prio : Z) : list Z :=
  cstruct struct_nvme_create_sq [
    (.["opcode"], nvme_admin_create_sq); (.["sqid"], sqid); (.["qsize"], elements - 1);
    (.["sq_flags"], Z.lor (if contig then NVME_QUEUE_PHYS_CONTIG else 0) prio);
    (.["cqid"], cqid)].
Definition nvme_cmd_fill_create_cq (cqid elements : Z) (contig : bool) (irq_en irq_no : Z) : list Z :=
  cstruct struct_nvme_create_cq [
    (.["opcode"], nvme_admin_create_cq); (.["cqid"], cqid); (.["qsize"], elements - 1);
    (.["cq_flags"], Z.lor (if contig then NVME_QUEUE_PHYS_CONTIG else 0)
                          (if irq_en =? 0 then 0 else NVME_CQ_IRQ_ENABLED));
    (.["irq_vector"], irq_no)].

Definition queue_mask (contig : bool) : Z :=
  if contig then NVME_MASK_PRP1_PAGE else NVME_MASK_PRP1_LIST.
Definition nvme_cmd_create_iosq (csq : list Z) (contig : bool) (buf size : Z) : U Z :=
  nvme_submit_64b_cmd (with_data (queue_mask contig) buf size (cmd64 NVME_AQ_ID)) csq.
Definition nvme_cmd_create_iocq (ccq : list Z) (contig : bool) (buf size : Z) : U Z :=
  nvme_submit_64b_cmd (with_data (queue_mask contig) buf size (cmd64 NVME_AQ_ID)) ccq.

Definition nvme_cmd_delete_iosq (sqid : Z) : U Z :=
  nvme_submit_64b_cmd (cmd64 NVME_AQ_ID)
    (cstruct struct_nvme_delete_queue [
      (.["opcode"], nvme_admin_delete_sq); (.["qid"], sqid)]).
Definition nvme_cmd_delete_iocq (cqid : Z) : U Z :=
  nvme_submit_64b_cmd (cmd64 NVME_AQ_ID)
    (cstruct struct_nvme_delete_queue [
      (.["opcode"], nvme_admin_delete_cq); (.["qid"], cqid)]).

Definition format_cmd (nsid flags dw10 : Z) : list Z :=
  cstruct struct_nvme_format_cmd [
    (.["opcode"], nvme_admin_format_nvm); (.["flags"], flags); (.["nsid"], nsid);
    (.["cdw10"], dw10)].
Definition nvme_cmd_format_nvm (nsid flags dw10 : Z) : U Z :=
  nvme_submit_64b_cmd (cmd64 NVME_AQ_ID) (format_cmd nsid flags dw10).
Definition nvme_format_nvm (nsid flags dw10 : Z) : U Z :=
  admin_cmd0 (nvme_cmd_format_nvm nsid flags dw10).

(** *** Read, write, compare *)

Definition rw_cmd (w : nvme_rwc_wrapper) (opcode : Z) : list Z :=
  cstruct struct_nvme_rw_command [
    (.["opcode"], opcode); (.["flags"], rwc_flags w); (.["nsid"], rwc_nsid w);
    (.["cdw2"], rwc_dw2 w); (.["cdw3"], rwc_dw3 w);
    (.["slba"], rwc_slba w); (.["length"], rwc_nlb w - 1); (.["control"], rwc_control w);
    (.["dspec"], rwc_dspec w); (.["reftag"], rwc_dw14 w); (.["apptag"], rwc_apptag w);
    (.["appmask"], rwc_appmask w)].
Definition rw_meta (w : nvme_rwc_wrapper) (c : nvme_64b_cmd) : nvme_64b_cmd :=
  if rwc_meta_id w =? 0 then c
  else c <| c64_meta_id := rwc_meta_id w |> <| c64_bit_mask ::= Z.lor NVME_MASK_MPTR |>.
Definition rw_64b (w : nvme_rwc_wrapper) : nvme_64b_cmd :=
  rw_meta w (with_data PRP_MASKS (rwc_buf w) (rwc_size w) (cmd64 (rwc_sqid w))).
Definition nvme_cmd_io_rw_common (w : nvme_rwc_wrapper) (opcode : Z) : U Z :=
  let cmd := rw_64b w in
  if rwc_use_bit_bucket w then
    BUG_ON ((rwc_nr_bit_bucket w =? 0) ||
            match rwc_bit_bucket w with None => true | Some _ => false end);;
    nvme_submit_64b_cmd (cmd <| c64_nr_bit_bucket := rwc_nr_bit_bucket w |>
                             <| c64_bit_bucket := default [] (rwc_bit_bucket w) |>)
      (rw_cmd w opcode)
  else nvme_submit_64b_cmd cmd (rw_cmd w opcode).
Definition nvme_io_rw_common (w : nvme_rwc_wrapper) (opcode : Z) : U Z :=
  io_cmd (nvme_cmd_io_rw_common w opcode) (rwc_sqid w) (rwc_cqid w) NVME_SC_SUCCESS
    (rwc_check_none w).

Definition nvme_cmd_io_read (w : nvme_rwc_wrapper) : U Z := nvme_cmd_io_rw_common w nvme_cmd_read.
Definition nvme_io_read (w : nvme_rwc_wrapper) : U Z := nvme_io_rw_common w nvme_cmd_read.
Definition nvme_cmd_io_write (w : nvme_rwc_wrapper) : U Z := nvme_cmd_io_rw_common w nvme_cmd_write.
Definition nvme_io_write (w : nvme_rwc_wrapper) : U Z := nvme_io_rw_common w nvme_cmd_write.
Definition nvme_cmd_io_compare (w : nvme_rwc_wrapper) : U Z :=
  nvme_cmd_io_rw_common w nvme_cmd_compare.
Definition nvme_io_compare (w : nvme_rwc_wrapper) : U Z := nvme_io_rw_common w nvme_cmd_compare.

(** *** Verify, copy *)

Definition verify_cmd (w : nvme_verify_wrapper) : list Z :=
  cstruct struct_nvme_verify_cmd [
    (.["opcode"], nvme_cmd_verify); (.["flags"], vfy_flags w); (.["nsid"], vfy_nsid w);
    (.["slba"], vfy_slba w); (.["nlb"], vfy_nlb w - 1);
    (.["control"], Z.shiftl (vfy_prinfo w) 2)].
Definition nvme_cmd_io_verify (w : nvme_verify_wrapper) : U Z :=
  nvme_submit_64b_cmd (cmd64 (vfy_sqid w)) (verify_cmd w).
Definition nvme_io_verify (w : nvme_verify_wrapper) : U Z :=
  io_cmd (nvme_cmd_io_verify w) (vfy_sqid w) (vfy_cqid w) NVME_SC_SUCCESS (vfy_check_none w).

Definition copy_cmd (w : nvme_copy_wrapper) : list Z :=
  cstruct struct_nvme_copy_cmd [
    (.["opcode"], nvme_cmd_copy); (.["flags"], cpy_flags w); (.["nsid"], cpy_nsid w);
    (.["slba"], cpy_slba w); (.["ranges"], cpy_ranges w);
    (.["desc_fmt"], Z.lor (cpy_desc_fmt w) (Z.shiftl (cpy_prinfor w) 4));
    (.["dtype"], Z.shiftl (cpy_dtype w) 4);
    (.["control"], Z.lor (Z.lor (cpy_stcw w) (Z.shiftl (cpy_prinfow w) 2)) (Z.shiftl (cpy_fua w) 6));
    (.["dspec"], cpy_dspec w)].
Definition nvme_cmd_io_copy (w : nvme_copy_wrapper) : U Z :=
  nvme_submit_64b_cmd (with_data PRP_MASKS (cpy_desc w) (cpy_size w) (cmd64 (cpy_sqid w)))
    (copy_cmd w).
Definition nvme_io_copy (w : nvme_copy_wrapper) : U Z :=
  io_cmd (nvme_cmd_io_copy w) (cpy_sqid w) (cpy_cqid w) NVME_SC_SUCCESS (cpy_check_none w).

(** ** zns.c *)

Definition zone_send_cmd (w : nvme_zone_mgnt_send_wrapper) : list Z :=
  cstruct struct_nvme_zone_mgmt_send_cmd [
    (.["opcode"], nvme_cmd_zone_mgmt_send); (.["nsid"], zms_nsid w); (.["slba"], zms_slba w);
    (.["zsa"], zms_action w); (.["select_all"], zms_select_all w)].
Definition nvme_cmd_io_zone_manage_send (w : nvme_zone_mgnt_send_wrapper) : U Z :=
  nvme_submit_64b_cmd (with_data PRP_MASKS (zms_buf w) (zms_size w) (cmd64 (zms_sqid w)))
    (zone_send_cmd w).
Definition nvme_io_zone_manage_send (w : nvme_zone_mgnt_send_wrapper) : U Z :=
  io_cmd (nvme_cmd_io_zone_manage_send w) (zms_sqid w) (zms_cqid w) (zms_status w) false.

Definition zone_recv_cmd (w : nvme_zone_mgnt_recv_wrapper) : list Z :=
  cstruct struct_nvme_zone_mgmt_recv_cmd [
    (.["opcode"], nvme_cmd_zone_mgmt_recv); (.["nsid"], zmr_nsid w); (.["slba"], zmr_slba w);
    (.["numd"], u32 (Z.shiftr (zmr_size w) 2 - 1)); (.["zra"], zmr_action w);
    (.["zrasf"], zmr_specific w); (.["pr"], zmr_partial_report w)].
Definition nvme_cmd_io_zone_manage_receive (w : nvme_zone_mgnt_recv_wrapper) : U Z :=
  BUG_ON (negb (IS_ALIGNED (zmr_size w) 4));;
  nvme_submit_64b_cmd (with_data PRP_MASKS (zmr_buf w) (zmr_size w) (cmd64 (zmr_sqid w)))
    (zone_recv_cmd w).
Definition nvme_io_zone_manage_receive (w : nvme_zone_mgnt_recv_wrapper) : U Z :=
  io_cmd (nvme_cmd_io_zone_manage_receive w) (zmr_sqid w) (zmr_cqid w) (zmr_status w) false.

Definition zone_append_cmd (w : nvme_zone_append_wrapper) : list Z :=
  cstruct struct_nvme_zone_append_cmd [
    (.["opcode"], nvme_cmd_zone_append); (.["flags"], zap_flags w); (.["nsid"], zap_nsid w);
    (.["zslba"], zap_zslba w); (.["length"], zap_nlb w - 1);
    (.["control"], Z.shiftl (zap_piremap w) 9)].
Definition nvme_cmd_io_zone_append (w : nvme_zone_append_wrapper) : U Z :=
  let cmd := with_data PRP_MASKS (zap_buf w) (zap_size w) (cmd64 (zap_sqid w))
               <| c64_meta_id := zap_meta_id w |> in
  nvme_submit_64b_cmd
    (if zap_meta_id w =? 0 then cmd else cmd <| c64_bit_mask ::= Z.lor NVME_MASK_MPTR |>)
    (zone_append_cmd w).
Definition nvme_io_zone_append (w : nvme_zone_append_wrapper) : U Z :=
  io_cmd (nvme_cmd_io_zone_append w) (zap_sqid w) (zap_cqid w) (zap_status w) (zap_check_none w).

(** ** vendor.c *)

Definition nvme_cmd_maxio_set_param_fmt1 (subcmd param opcode : Z) : U Z :=
  nvme_submit_64b_cmd (cmd64 NVME_AQ_ID)
    (cstruct struct_nvme_maxio_common_cmd [
      (.["opcode"], opcode); (.["option"], NVME_MAXIO_OPT_SET_PARAM); (.["param"], param);
      (.["subcmd"], subcmd)]).
Definition maxio_fmt2_cmd (subcmd : Z) (param : nvme_maxio_set_param) (opcode : Z) : list Z :=
  cstruct struct_nvme_maxio_common_cmd [
    (.["opcode"], opcode); (.["option"], NVME_MAXIO_OPT_SET_PARAM); (.["param"], msp_dw3 param);
    (.["subcmd"], subcmd); (.["cdw11"], msp_dw11 param); (.["cdw12"], msp_dw12 param);
    (.["cdw13"], msp_dw13 param); (.["cdw14"], msp_dw14 param); (.["cdw15"], msp_dw15 param)].
Definition nvme_cmd_maxio_set_param_fmt2 (subcmd : Z) (param : nvme_maxio_set_param) (opcode : Z) : U Z :=
  let cmd := cmd64 NVME_AQ_ID in
  nvme_submit_64b_cmd
    (if negb (msp_buf param =? 0) && negb (msp_buf_size param =? 0)
     then with_data PRP_MASKS (msp_buf param) (msp_buf_size param) cmd else cmd)
    (maxio_fmt2_cmd subcmd param opcode).
Definition nvme_maxio_set_param_fmt1 (subcmd param opcode : Z) : U Z :=
  admin_cmd0 (nvme_cmd_maxio_set_param_fmt1 subcmd param opcode).
Definition nvme_maxio_set_param_fmt2 (subcmd : Z) (param : nvme_maxio_set_param) (opcode : Z) : U Z :=
  admin_cmd0 (nvme_cmd_maxio_set_param_fmt2 subcmd param opcode).
Definition nvme_cmd_maxio_check_result_fmt1 (subcmd opcode : Z) : U Z :=
  nvme_submit_64b_cmd (cmd64 NVME_AQ_ID)
    (cstruct struct_nvme_maxio_common_cmd [
      (.["opcode"], opcode); (.["option"], NVME_MAXIO_OPT_CHECK_RESULT); (.["subcmd"], subcmd)]).
Definition nvme_maxio_check_result_fmt1 (subcmd opcode : Z) : U Z :=
  admin_cmd0 (nvme_cmd_maxio_check_result_fmt1 subcmd opcode).
Definition nvme_cmd_maxio_get_param_fmt1 (subcmd opcode : Z) : U Z :=
  nvme_submit_64b_cmd (cmd64 NVME_AQ_ID)
    (cstruct struct_nvme_maxio_common_cmd [
      (.["opcode"], opcode); (.["option"], NVME_MAXIO_OPT_GET_PARAM); (.["subcmd"], subcmd)]).
(** With [param->dw0]. *)
Definition nvme_maxio_get_param_fmt1 (subcmd opcode : Z) : U (Z * option Z) :=
  admin_cmd (λ e, (e, None)) (nvme_cmd_maxio_get_param_fmt1 subcmd opcode) (λ entry,
    v ← uread struct_nvme_completion .["result"; "u32"] entry; mret (0, Some v)).
Definition nvme_cmd_maxio_nvme_case_check_result (subcmd rbuf size : Z) : U Z :=
  nvme_submit_64b_cmd (with_data PRP_MASKS rbuf size (cmd64 NVME_AQ_ID))
    (cstruct struct_nvme_maxio_common_cmd [
      (.["opcode"], nvme_admin_maxio_nvme_case); (.["option"], NVME_MAXIO_OPT_CHECK_RESULT);
      (.["param"], size); (.["subcmd"], subcmd)]).
Definition nvme_maxio_nvme_case_check_result (subcmd rbuf size : Z) : U Z :=
  admin_cmd0 (nvme_cmd_maxio_nvme_case_check_result subcmd rbuf size).

(** *** The instances of [vendor.h] *)

Definition nvme_maxio_nvme_top_set_param (subcmd param : Z) :=
  nvme_maxio_set_param_fmt1 subcmd param nvme_admin_maxio_nvme_top.
Definition nvme_maxio_nvme_cqm_set_param (subcmd param : Z) :=
  nvme_maxio_set_param_fmt1 subcmd param nvme_admin_maxio_nvme_cqm.
Definition nvme_maxio_nvme_hwrdma_set_param (subcmd param : Z) :=
  nvme_maxio_set_param_fmt1 subcmd param nvme_admin_maxio_nvme_hwrdma.
Definition nvme_maxio_nvme_hwwdma_set_param (subcmd param : Z) :=
  nvme_maxio_set_param_fmt1 subcmd param nvme_admin_maxio_nvme_hwwdma.
Definition nvme_maxio_nvme_case_set_param (subcmd : Z) (param : nvme_maxio_set_param) :=
  nvme_maxio_set_param_fmt2 subcmd param nvme_admin_maxio_nvme_case.
Definition nvme_maxio_pcie_message_set_param (subcmd : Z) (param : nvme_maxio_set_param) :=
  nvme_maxio_set_param_fmt2 subcmd param nvme_admin_maxio_pcie_msg.
Definition nvme_maxio_pcie_interrupt_set_param (subcmd : Z) (param : nvme_maxio_set_param) :=
  nvme_maxio_set_param_fmt2 subcmd param nvme_admin_maxio_pcie_interrupt.
Definition nvme_maxio_pcie_special_set_param (subcmd : Z) (param : nvme_maxio_set_param) :=
  nvme_maxio_set_param_fmt2 subcmd param nvme_admin_maxio_pcie_special.
Definition nvme_maxio_fwdma_fwdma_set_param (subcmd : Z) (param : nvme_maxio_set_param) :=
  nvme_maxio_set_param_fmt2 subcmd param nvme_admin_maxio_fwdma_fwdma.
Definition nvme_maxio_fwdma_dpu_set_param (subcmd : Z) (param : nvme_maxio_set_param) :=
  nvme_maxio_set_param_fmt2 subcmd param nvme_admin_maxio_fwdma_dpu.
Definition nvme_maxio_nvme_top_check_result (subcmd : Z) :=
  nvme_maxio_check_result_fmt1 subcmd nvme_admin_maxio_nvme_top.
Definition nvme_maxio_nvme_cqm_check_result (subcmd : Z) :=
  nvme_maxio_check_result_fmt1 subcmd nvme_admin_maxio_nvme_cqm.
Definition nvme_maxio_nvme_hwrdma_check_result (subcmd : Z) :=
  nvme_maxio_check_result_fmt1 subcmd nvme_admin_maxio_nvme_hwrdma.
Definition nvme_maxio_nvme_hwwdma_check_result (subcmd : Z) :=
  nvme_maxio_check_result_fmt1 subcmd nvme_admin_maxio_nvme_hwwdma.
Definition nvme_maxio_pcie_message_check_result (subcmd : Z) :=
  nvme_maxio_check_result_fmt1 subcmd nvme_admin_maxio_pcie_msg.
Definition nvme_maxio_pcie_interrupt_check_result (subcmd : Z) :=
  nvme_maxio_check_result_fmt1 subcmd nvme_admin_maxio_pcie_interrupt.
Definition nvme_maxio_pcie_special_check_result (subcmd : Z) :=
  nvme_maxio_check_result_fmt1 subcmd nvme_admin_maxio_pcie_special.
Definition nvme_maxio_fwdma_fwdma_get_param (subcmd : Z) :=
  nvme_maxio_get_param_fmt1 subcmd nvme_admin_maxio_fwdma_fwdma.

(** ** directive.c *)

(** The assignments of the caller, then the opcode. *)
Definition nvme_cmd_directive (dir : list (list acc * Z)) (opcode buf size : Z) : U Z :=
  nvme_submit_64b_cmd
    (with_data (Z.lor NVME_MASK_PRP1_PAGE NVME_MASK_PRP2_PAGE) buf size (cmd64 NVME_AQ_ID))
    (cstruct struct_nvme_directive_cmd (dir ++ [(.["opcode"], opcode)])).
Definition nvme_cmd_dir_receive (dir : list (list acc * Z)) (buf size : Z) : U Z :=
  nvme_cmd_directive dir nvme_admin_directive_recv buf size.
Definition nvme_cmd_dir_send (dir : list (list acc * Z)) (buf size : Z) : U Z :=
  nvme_cmd_directive dir nvme_admin_directive_send buf size.

Definition nvme_cmd_dir_rcv_id_param (param nsid : Z) : U Z :=
  let sz := sizeof struct_nvme_dir_identify_params in
  nvme_cmd_dir_receive [
    (.["nsid"], nsid); (.["numd"], sz / 4 - 1); (.["doper"], NVME_DIR_RCV_ID_OP_PARAM);
    (.["dtype"], NVME_DIR_IDENTIFY)] param sz.
Definition nvme_cmd_dir_snd_id_enable (nsid type : Z) (enable : bool) : U Z :=
  nvme_cmd_dir_send ([
    (.["nsid"], nsid); (.["doper"], NVME_DIR_SND_ID_OP_ENABLE); (.["dtype"], NVME_DIR_IDENTIFY)] ++
    (if enable then [(.["dw12"; ""; "endir"], NVME_DIR_ENDIR)] else []) ++
    [(.["dw12"; ""; "tdtype"], type)]) 0 0.
Definition nvme_cmd_dir_rcv_st_param (param nsid : Z) : U Z :=
  let sz := sizeof struct_nvme_dir_streams_params in
  nvme_cmd_dir_receive [
    (.["nsid"], nsid); (.["numd"], sz / 4 - 1); (.["doper"], NVME_DIR_RCV_ST_OP_PARAM);
    (.["dtype"], NVME_DIR_STREAMS)] param sz.
Definition nvme_cmd_dir_rcv_st_status (buf size nsid : Z) : U Z :=
  if negb (IS_ALIGNED size 4) then mret (- EINVAL)
  else nvme_cmd_dir_receive [
    (.["nsid"], nsid); (.["numd"], u32 (size / 4 - 1)); (.["doper"], NVME_DIR_RCV_ST_OP_STATUS);
    (.["dtype"], NVME_DIR_STREAMS)] buf size.
Definition nvme_cmd_dir_rcv_st_resource (nsid req : Z) : U Z :=
  nvme_cmd_dir_receive [
    (.["nsid"], nsid); (.["doper"], NVME_DIR_RCV_ST_OP_RESOURCE); (.["dtype"], NVME_DIR_STREAMS);
    (.["dw12"; "nsr"], req)] 0 0.
Definition nvme_cmd_dir_snd_st_rel_id (nsid id : Z) : U Z :=
  nvme_cmd_dir_send [
    (.["nsid"], nsid); (.["doper"], NVME_DIR_SND_ST_OP_REL_ID); (.["dtype"], NVME_DIR_STREAMS);
    (.["dspec"], id)] 0 0.
Definition nvme_cmd_dir_snd_st_rel_rsc (nsid : Z) : U Z :=
  nvme_cmd_dir_send [
    (.["nsid"], nsid); (.["doper"], NVME_DIR_SND_ST_OP_REL_RSC); (.["dtype"], NVME_DIR_STREAMS)] 0 0.

Definition nvme_dir_rcv_id_param (param nsid : Z) : U Z :=
  admin_cmd0 (nvme_cmd_dir_rcv_id_param param nsid).
Definition nvme_dir_snd_id_enable (nsid type : Z) (enable : bool) : U Z :=
  admin_cmd0 (nvme_cmd_dir_snd_id_enable nsid type enable).
Definition nvme_dir_rcv_st_param (param nsid : Z) : U Z :=
  admin_cmd0 (nvme_cmd_dir_rcv_st_param param nsid).
Definition nvme_dir_rcv_st_status (buf size nsid : Z) : U Z :=
  admin_cmd0 (nvme_cmd_dir_rcv_st_status buf size nsid).
Definition nvme_dir_rcv_st_resource (nsid req : Z) : U Z :=
  admin_cmd id (nvme_cmd_dir_rcv_st_resource nsid req) (λ entry,
    uread struct_nvme_completion .["result"; "u16"] entry).
Definition nvme_dir_snd_st_rel_id (nsid id : Z) : U Z :=
  admin_cmd0 (nvme_cmd_dir_snd_st_rel_id nsid id).
Definition nvme_dir_snd_st_rel_rsc (nsid : Z) : U Z :=
  admin_cmd0 (nvme_cmd_dir_snd_st_rel_rsc nsid).
End cmd.
