(* ===== verification/LibAdmin.v ===== *)
(** * The user library: features and identify

    [lib/nvme/cmd/feature.c] and [identify.c] with the inline functions of [feature.h].
    The identify data the device returns is read from the buffers with the layouts of
    [Structs]. *)

From S2P Require Import Prelude Layout Types Kernel Core Structs Host LibIoctl LibNetlink LibCmd.

#[local] Open Scope string_scope.
#[local] Open Scope Z_scope.

Definition nvme_admin_identify := 0x06.
Definition nvme_admin_set_features := 0x09.
Definition nvme_admin_get_features := 0x0a.

Definition NVME_FEAT_ARBITRATION := 0x01.
Definition NVME_FEAT_POWER_MGMT := 0x02.
Definition NVME_FEAT_NUM_QUEUES := 0x07.
Definition NVME_FEAT_HOST_MEM_BUF := 0x0d.
Definition NVME_FEAT_HOST_BEHAVIOR := 0x16.
Definition NVME_FEAT_IOCS_PROFILE := 0x19.
Definition NVME_FEAT_WRITE_PROTECT := 0x84.
Definition NVME_FEAT_SEL_CUR := Z.shiftl 0 8.
Definition NVME_IOCS_CI_MASK := 0x1ff.
Definition NVME_NS_WPS_MASK := 0x7.
Definition NVME_POWER_MGMT_FOR_WH (wh : Z) := Z.shiftl (Z.land wh 0x7) 5.
Definition NVME_POWER_MGMT_FOR_PS (ps : Z) := Z.shiftl (Z.land ps 0x1f) 0.

Definition NVME_ID_CNS_NS := 0x00.
Definition NVME_ID_CNS_CTRL := 0x01.
Definition NVME_ID_CNS_NS_ACTIVE_LIST := 0x02.
Definition NVME_ID_CNS_NS_DESC_LIST := 0x03.
Definition NVME_ID_CNS_CS_NS_ACTIVE := 0x05.
Definition NVME_ID_CNS_CS_CTRL := 0x06.
Definition NVME_ID_CNS_NS_PRESENT_LIST := 0x10.
Definition NVME_ID_CNS_NS_PRESENT := 0x11.
Definition NVME_ID_CNS_CTRL_NS_LIST := 0x12.
Definition NVME_ID_CNS_CTRL_LIST := 0x13.
Definition NVME_ID_CNS_CTRL_CSC_LIST := 0x1c.
Definition NVME_CSI_NVM := 0x00.
Definition NVME_CSI_ZNS := 0x02.
Definition NVME_IDENTIFY_DATA_SIZE := 4096.

Definition NVME_NIDT_EUI64 := 1.
Definition NVME_NIDT_NGUID := 2.
Definition NVME_NIDT_UUID := 3.
Definition NVME_NIDT_CSI := 4.

Definition NVME_CTRL_CTRATT_ELBAS := Z.shiftl 1 15.
Definition NVME_CTRL_ONCS_COPY := Z.shiftl 1 8.
Definition NVME_CTRL_NWPC_WP := Z.shiftl 1 0.
Definition NVME_CTRL_SGLS_MASK := 3.
Definition NVME_CTRL_SGLS_KEYED_DATA_BLOCK := Z.shiftl 1 2.
Definition NVME_CTRL_SGLS_BIT_BUCKET := Z.shiftl 1 16.
Definition NVME_CTRL_SGLS_MPTR_SGL := Z.shiftl 1 19.
Definition NVME_CTRL_SGLS_DATA_BLOCK := Z.shiftl 1 21.

Record nvme_hmb_wrapper := {
  hmbw_sel : Z; hmbw_dw11 : Z; hmbw_hsize : Z; hmbw_hmdla : Z; hmbw_hmdlec : Z; hmbw_attr : Z }.
Record nvme_feat_arb_wrapper := { arb_hpw : Z; arb_mpw : Z; arb_lpw : Z; arb_burst : Z }.

Section admin.
Context {H : Host}.

(** ** feature.c, feature.h *)

Definition features_cmd (opcode nsid fid dw11 : Z) : list Z :=
  cstruct struct_nvme_features [
    (.["opcode"], opcode); (.["nsid"], nsid); (.["fid"], fid); (.["dword11"], dw11)].
Definition nvme_cmd_set_feature (nsid fid dw11 : Z) : U Z :=
  nvme_submit_64b_cmd (cmd64 NVME_AQ_ID) (features_cmd nvme_admin_set_features nsid fid dw11).
Definition nvme_cmd_get_feature (nsid fid dw11 : Z) : U Z :=
  nvme_submit_64b_cmd (cmd64 NVME_AQ_ID) (features_cmd nvme_admin_get_features nsid fid dw11).

Definition set_hmb_cmd (w : nvme_hmb_wrapper) : list Z :=
  cstruct struct_nvme_features [
    (.["opcode"], nvme_admin_set_features); (.["fid"], Z.lor (hmbw_sel w) NVME_FEAT_HOST_MEM_BUF);
    (.["dword11"], hmbw_dw11 w); (.["dword12"], hmbw_hsize w);
    (.["dword13"], u32 (hmbw_hmdla w)); (.["dword14"], u32 (Z.shiftr (hmbw_hmdla w) 32));
    (.["dword15"], hmbw_hmdlec w)].
Definition nvme_cmd_set_feat_hmb (w : nvme_hmb_wrapper) : U Z :=
  nvme_submit_64b_cmd (cmd64 NVME_AQ_ID) (set_hmb_cmd w).

(** A feature whose value is a data structure. *)
Definition feature_data_cmd (opcode fid : Z) : list Z :=
  cstruct struct_nvme_features [(.["opcode"], opcode); (.["fid"], fid)].
Definition nvme_cmd_get_feat_hmb (w : nvme_hmb_wrapper) : U Z :=
  nvme_submit_64b_cmd
    (with_data PRP_MASKS (hmbw_attr w) (sizeof struct_nvme_feat_hmb_attribute) (cmd64 NVME_AQ_ID))
    (feature_data_cmd nvme_admin_get_features (Z.lor (hmbw_sel w) NVME_FEAT_HOST_MEM_BUF)).
Definition nvme_cmd_set_feat_host_behavior (sel behavior : Z) : U Z :=
  nvme_submit_64b_cmd
    (with_data PRP_MASKS behavior (sizeof struct_nvme_feat_host_behavior) (cmd64 NVME_AQ_ID))
    (feature_data_cmd nvme_admin_set_features (Z.lor sel NVME_FEAT_HOST_BEHAVIOR)).
Definition nvme_cmd_get_feat_host_behavior (sel behavior : Z) : U Z :=
  nvme_submit_64b_cmd
    (with_data PRP_MASKS behavior (sizeof struct_nvme_feat_host_behavior) (cmd64 NVME_AQ_ID))
    (feature_data_cmd nvme_admin_get_features (Z.lor sel NVME_FEAT_HOST_BEHAVIOR)).

Definition nvme_cmd_set_feat_arbitration (w : nvme_feat_arb_wrapper) : U Z :=
  nvme_cmd_set_feature 0 NVME_FEAT_ARBITRATION
    (Z.lor (Z.lor (Z.lor (Z.shiftl (arb_hpw w) 24) (Z.shiftl (arb_mpw w) 16))
       (Z.shiftl (arb_lpw w) 8)) (Z.land (arb_burst w) 0x7)).
Definition nvme_cmd_set_feat_power_mgmt (ps wh : Z) : U Z :=
  nvme_cmd_set_feature 0 NVME_FEAT_POWER_MGMT
    (Z.lor (NVME_POWER_MGMT_FOR_WH wh) (NVME_POWER_MGMT_FOR_PS ps)).
Definition nvme_cmd_get_feat_power_mgmt (sel : Z) : U Z :=
  nvme_cmd_get_feature 0 (Z.lor sel NVME_FEAT_POWER_MGMT) 0.
Definition nvme_cmd_set_feat_num_queues (nr_sq nr_cq : Z) : U Z :=
  nvme_cmd_set_feature 0 NVME_FEAT_NUM_QUEUES (Z.lor (Z.shiftl nr_cq 16) nr_sq).
Definition nvme_cmd_set_feat_iocs_profile (sel index : Z) : U Z :=
  nvme_cmd_set_feature 0 (Z.lor sel NVME_FEAT_IOCS_PROFILE) index.
Definition nvme_cmd_get_feat_iocs_profile (sel : Z) : U Z :=
  nvme_cmd_get_feature 0 (Z.lor sel NVME_FEAT_IOCS_PROFILE) 0.
Definition nvme_cmd_set_feat_write_protect (nsid sel state : Z) : U Z :=
  nvme_cmd_set_feature nsid (Z.lor sel NVME_FEAT_WRITE_PROTECT) state.
Definition nvme_cmd_get_feat_write_protect (nsid sel : Z) : U Z :=
  nvme_cmd_get_feature nsid (Z.lor sel NVME_FEAT_WRITE_PROTECT) 0.

(** The result of the completion, masked. *)
Definition result_u32 (mask entry : Z) : U Z :=
  v ← uread struct_nvme_completion .["result"; "u32"] entry; mret (Z.land v mask).

Definition nvme_set_feat_arbitration (w : nvme_feat_arb_wrapper) : U Z :=
  admin_cmd0 (nvme_cmd_set_feat_arbitration w).
Definition nvme_set_feat_hmb (w : nvme_hmb_wrapper) : U Z := admin_cmd0 (nvme_cmd_set_feat_hmb w).
Definition nvme_get_feat_hmb (w : nvme_hmb_wrapper) : U Z :=
  admin_cmd id (nvme_cmd_get_feat_hmb w) (result_u32 0x3).
Definition nvme_set_feat_host_behavior (sel behavior : Z) : U Z :=
  admin_cmd0 (nvme_cmd_set_feat_host_behavior sel behavior).
Definition nvme_get_feat_host_behavior (sel behavior : Z) : U Z :=
  admin_cmd0 (nvme_cmd_get_feat_host_behavior sel behavior).
Definition nvme_set_feat_iocs_profile (sel index : Z) : U Z :=
  admin_cmd0 (nvme_cmd_set_feat_iocs_profile sel index).
Definition nvme_get_feat_iocs_profile (sel : Z) : U Z :=
  admin_cmd id (nvme_cmd_get_feat_iocs_profile sel) (result_u32 NVME_IOCS_CI_MASK).
Definition nvme_set_feat_write_protect (nsid sel state : Z) : U Z :=
  admin_cmd0 (nvme_cmd_set_feat_write_protect nsid sel state).
Definition nvme_get_feat_write_protect (nsid sel : Z) : U Z :=
  admin_cmd id (nvme_cmd_get_feat_write_protect nsid sel) (result_u32 NVME_NS_WPS_MASK).
Definition nvme_set_feat_power_mgmt (ps wh : Z) : U Z :=
  admin_cmd0 (nvme_cmd_set_feat_power_mgmt ps wh).

(** ** identify.c: the identify commands *)

Definition identify_cmd (cns nsid ctrlid csi : Z) : list Z :=
  cstruct struct_nvme_identify [
    (.["opcode"], nvme_admin_identify); (.["nsid"], nsid); (.["cns"], cns);
    (.["ctrlid"], ctrlid); (.["csi"], csi)].
Definition nvme_cmd_identify (identify : list Z) (buf size : Z) : U Z :=
  BUG_ON (negb (size =? NVME_IDENTIFY_DATA_SIZE));;
  nvme_submit_64b_cmd
    (with_data (Z.lor NVME_MASK_PRP1_PAGE NVME_MASK_PRP2_PAGE) buf size (cmd64 NVME_AQ_ID)) identify.

Definition nvme_cmd_identify_ns_active (ns nsid : Z) : U Z :=
  nvme_cmd_identify (identify_cmd NVME_ID_CNS_NS nsid 0 0) ns (sizeof struct_nvme_id_ns).
Definition nvme_identify_ns_active (ns nsid : Z) : U Z :=
  admin_cmd0 (nvme_cmd_identify_ns_active ns nsid).
Definition nvme_cmd_identify_ctrl (ctrl : Z) : U Z :=
  nvme_cmd_identify (identify_cmd NVME_ID_CNS_CTRL 0 0 0) ctrl (sizeof struct_nvme_id_ctrl).
Definition nvme_identify_ctrl (ctrl : Z) : U Z :=
  admin_cmd0 (nvme_cmd_identify_ctrl ctrl).
Definition nvme_cmd_identify_ns_list_active (buf size nsid : Z) : U Z :=
  nvme_cmd_identify (identify_cmd NVME_ID_CNS_NS_ACTIVE_LIST nsid 0 0) buf size.
Definition nvme_identify_ns_list_active (buf size nsid : Z) : U Z :=
  admin_cmd0 (nvme_cmd_identify_ns_list_active buf size nsid).
Definition nvme_cmd_identify_ns_desc_list (buf size nsid : Z) : U Z :=
  nvme_cmd_identify (identify_cmd NVME_ID_CNS_NS_DESC_LIST nsid 0 0) buf size.
Definition nvme_identify_ns_desc_list (buf size nsid : Z) : U Z :=
  admin_cmd0 (nvme_cmd_identify_ns_desc_list buf size nsid).
Definition nvme_cmd_identify_cs_ns (buf size nsid csi : Z) : U Z :=
  nvme_cmd_identify (identify_cmd NVME_ID_CNS_CS_NS_ACTIVE nsid 0 csi) buf size.
Definition nvme_identify_cs_ns (buf size nsid csi : Z) : U Z :=
  admin_cmd0 (nvme_cmd_identify_cs_ns buf size nsid csi).
Definition nvme_cmd_identify_cs_ctrl (buf size csi : Z) : U Z :=
  nvme_cmd_identify (identify_cmd NVME_ID_CNS_CS_CTRL 0 0 csi) buf size.
Definition nvme_identify_cs_ctrl (buf size csi : Z) : U Z :=
  admin_cmd0 (nvme_cmd_identify_cs_ctrl buf size csi).
Definition nvme_cmd_identify_ns_list_allocated (buf size nsid : Z) : U Z :=
  nvme_cmd_identify (identify_cmd NVME_ID_CNS_NS_PRESENT_LIST nsid 0 0) buf size.
Definition nvme_identify_ns_list_allocated (buf size nsid : Z) : U Z :=
  admin_cmd0 (nvme_cmd_identify_ns_list_allocated buf size nsid).
Definition nvme_cmd_identify_ns_allocated (ns nsid : Z) : U Z :=
  nvme_cmd_identify (identify_cmd NVME_ID_CNS_NS_PRESENT nsid 0 0) ns (sizeof struct_nvme_id_ns).
Definition nvme_identify_ns_allocated (ns nsid : Z) : U Z :=
  admin_cmd0 (nvme_cmd_identify_ns_allocated ns nsid).
Definition nvme_cmd_identify_ns_attached_ctrl_list (buf size nsid cntid : Z) : U Z :=
  nvme_cmd_identify (identify_cmd NVME_ID_CNS_CTRL_NS_LIST nsid cntid 0) buf size.
Definition nvme_identify_ns_attached_ctrl_list (buf size nsid cntid : Z) : U Z :=
  admin_cmd0 (nvme_cmd_identify_ns_attached_ctrl_list buf size nsid cntid).
Definition nvme_cmd_identify_ctrl_list (buf size cntid : Z) : U Z :=
  nvme_cmd_identify (identify_cmd NVME_ID_CNS_CTRL_LIST 0 cntid 0) buf size.
Definition nvme_identify_ctrl_list (buf size cntid : Z) : U Z :=
  admin_cmd0 (nvme_cmd_identify_ctrl_list buf size cntid).
Definition nvme_cmd_identify_ctrl_csc_list (csc cntid : Z) : U Z :=
  nvme_cmd_identify (identify_cmd NVME_ID_CNS_CTRL_CSC_LIST 0 cntid 0) csc (sizeof struct_nvme_id_ctrl_csc).
Definition nvme_identify_ctrl_csc_list (csc cntid : Z) : U Z :=
  admin_cmd0 (nvme_cmd_identify_ctrl_csc_list csc cntid).

(** ** identify.c: the identify data

    A member of the data at a pointer of the controller; [- ENODEV] when there is none. *)

Definition of_id (p : Z) (m : U Z) : U Z := if p =? 0 then mret (- ENODEV) else m.
Definition id_ctrl_field (f : string) (ctrl : nvme_ctrl_instance) : U Z :=
  uread struct_nvme_id_ctrl .[f] (ctrl_id_ctrl ctrl).
(** [(field & mask) ? 1 : 0] *)
Definition ctrl_supports (f : string) (mask : Z) (ctrl : nvme_ctrl_instance) : U Z :=
  of_id (ctrl_id_ctrl ctrl) (
    v ← id_ctrl_field f ctrl; mret (if negb (Z.land v mask =? 0) then 1 else 0)).
(** A result through a pointer: the value is given to [set]. *)
Definition id_store (p : Z) (m : U Z) : U (Z * option Z) :=
  if p =? 0 then mret (- ENODEV, None) else v ← m; mret (0, Some v).

Definition nvme_ctrl_support_ext_lba_formats := ctrl_supports "ctratt" NVME_CTRL_CTRATT_ELBAS.
Definition nvme_ctrl_support_copy_cmd := ctrl_supports "oncs" NVME_CTRL_ONCS_COPY.
Definition nvme_ctrl_support_write_protect := ctrl_supports "nwpc" NVME_CTRL_NWPC_WP.
Definition nvme_ctrl_support_sgl (ctrl : nvme_ctrl_instance) : U Z :=
  of_id (ctrl_id_ctrl ctrl) (v ← id_ctrl_field "sgls" ctrl; mret (Z.land v NVME_CTRL_SGLS_MASK)).
Definition nvme_ctrl_support_keyed_sgl_data_block :=
  ctrl_supports "sgls" NVME_CTRL_SGLS_KEYED_DATA_BLOCK.
Definition nvme_ctrl_support_sgl_bit_bucket := ctrl_supports "sgls" NVME_CTRL_SGLS_BIT_BUCKET.
Definition nvme_ctrl_support_sgl_mptr_sgl := ctrl_supports "sgls" NVME_CTRL_SGLS_MPTR_SGL.
Definition nvme_ctrl_support_sgl_data_block := ctrl_supports "sgls" NVME_CTRL_SGLS_DATA_BLOCK.

(** The first byte of the identifier of the descriptor at offset [desc] of the list. *)
Definition desc_nid0 (raw desc : Z) : U Z :=
  bs ← ublock raw;
  match load_le 1 bs (desc + sizeof struct_nvme_ns_id_desc) with
  | Some v => mret v
  | None => crash F_oob
  end.
Definition nvme_ns_support_zns_command_set (ns : nvme_ns_instance) : U Z :=
  match ns_id_desc ns !! Z.to_nat NVME_NIDT_CSI with
  | Some (Some desc) =>
    if ns_id_desc_raw ns =? 0 then mret (- ENODEV)
    else
      csi ← desc_nid0 (ns_id_desc_raw ns) desc;
      mret (if negb (Z.land csi NVME_CSI_ZNS =? 0) then 1 else 0)
  | _ => mret (- ENODEV)
  end.

Definition nvme_id_ctrl_npss (ctrl : nvme_ctrl_instance) : U Z :=
  of_id (ctrl_id_ctrl ctrl) (v ← id_ctrl_field "npss" ctrl; mret (v + 1)).
Definition nvme_id_ctrl_vid (ctrl : nvme_ctrl_instance) : U Z :=
  of_id (ctrl_id_ctrl ctrl) (id_ctrl_field "vid" ctrl).
Definition nvme_id_ctrl_hmminds (ctrl : nvme_ctrl_instance) : U (Z * option Z) :=
  id_store (ctrl_id_ctrl ctrl) (id_ctrl_field "hmminds" ctrl).
Definition nvme_id_ctrl_hmmaxd (ctrl : nvme_ctrl_instance) : U Z :=
  of_id (ctrl_id_ctrl ctrl) (id_ctrl_field "hmmaxd" ctrl).
Definition nvme_id_ctrl_nn (ctrl : nvme_ctrl_instance) : U (Z * option Z) :=
  id_store (ctrl_id_ctrl ctrl) (id_ctrl_field "nn" ctrl).
Definition nvme_id_ctrl_sgls (ctrl : nvme_ctrl_instance) : U (Z * option Z) :=
  id_store (ctrl_id_ctrl ctrl) (id_ctrl_field "sgls" ctrl).
Definition nvme_id_ctrl_nvm_vsl (ctrl : nvme_ctrl_instance) : U Z :=
  of_id (ctrl_id_ctrl_nvm ctrl) (uread struct_nvme_id_ctrl_nvm .["vsl"] (ctrl_id_ctrl_nvm ctrl)).

(** [grp->ns[nsid - 1]]: [nsid] is unsigned, so that 0 asks for element 2^32 - 1. *)
Definition ns_at (grp : nvme_ns_group) (nsid : Z) : U nvme_ns_instance :=
  match grp_ns grp !! Z.to_nat (u32 (nsid - 1)) with
  | Some ns => mret ns
  | None => crash F_oob
  end.

(** The result of the check, with the instance when it passes. *)
Definition check_ns_sanity (data : nvme_ns_instance → Z) (grp : nvme_ns_group) (nsid : Z) :
    U (Z + nvme_ns_instance) :=
  if grp_nr_ns grp <? nsid then mret (inl (- EINVAL))
  else
    ns ← ns_at grp nsid;
    if negb (ns_nsid ns =? nsid) then mret (inl (- ENODEV))
    else if data ns =? 0 then mret (inl (- EFAULT))
    else mret (inr ns).
Definition check_id_ns_sanity := check_ns_sanity ns_id_ns.
Definition check_id_ns_nvm_sanity := check_ns_sanity ns_id_ns_nvm.

Definition with_ns (grp : nvme_ns_group) (nsid : Z) (rest : nvme_ns_instance → U Z) : U Z :=
  r ← check_id_ns_sanity grp nsid;
  match r with inl ret => mret ret | inr ns => rest ns end.
Definition store_ns (check : U (Z + nvme_ns_instance)) (rest : nvme_ns_instance → U Z) :
    U (Z * option Z) :=
  r ← check;
  match r with inl ret => mret (ret, None) | inr ns => v ← rest ns; mret (0, Some v) end.
Definition id_ns_field (f : string) (ns : nvme_ns_instance) : U Z :=
  uread struct_nvme_id_ns .[f] (ns_id_ns ns).

Definition nvme_id_ns_nsze (grp : nvme_ns_group) (nsid : Z) : U (Z * option Z) :=
  store_ns (check_id_ns_sanity grp nsid) (id_ns_field "nsze").
Definition nvme_id_ns_flbas (grp : nvme_ns_group) (nsid : Z) : U Z :=
  with_ns grp nsid (id_ns_field "flbas").
Definition nvme_id_ns_mc (grp : nvme_ns_group) (nsid : Z) : U Z :=
  with_ns grp nsid (id_ns_field "mc").
Definition nvme_id_ns_dpc (grp : nvme_ns_group) (nsid : Z) : U Z :=
  with_ns grp nsid (id_ns_field "dpc").
Definition nvme_id_ns_dps (grp : nvme_ns_group) (nsid : Z) : U Z :=
  with_ns grp nsid (id_ns_field "dps").
Definition nvme_id_ns_mssrl (grp : nvme_ns_group) (nsid : Z) : U Z :=
  with_ns grp nsid (id_ns_field "mssrl").
Definition nvme_id_ns_mcl (grp : nvme_ns_group) (nsid : Z) : U (Z * option Z) :=
  store_ns (check_id_ns_sanity grp nsid) (id_ns_field "mcl").
Definition nvme_id_ns_msrc (grp : nvme_ns_group) (nsid : Z) : U Z :=
  with_ns grp nsid (λ ns, v ← id_ns_field "msrc" ns; mret (v + 1)).
Definition nvme_id_ns_ms (grp : nvme_ns_group) (nsid : Z) : U Z :=
  with_ns grp nsid (λ ns, mret (ns_meta_size ns)).
Definition nvme_id_ns_lbads (grp : nvme_ns_group) (nsid : Z) : U (Z * option Z) :=
  store_ns (check_id_ns_sanity grp nsid) (λ ns, mret (ns_blk_size ns)).
Definition nvme_id_ns_nvm_lbstm (grp : nvme_ns_group) (nsid : Z) : U (Z * option Z) :=
  store_ns (check_id_ns_nvm_sanity grp nsid) (λ ns,
    uread struct_nvme_id_ns_nvm .["lbstm"] (ns_id_ns_nvm ns)).
End admin.
