(* ===== verification/LibQueue.v ===== *)
(** * The user library: queues

    [lib/nvme/queue.c] and [queue.h]: creation and deletion of queues through the driver,
    the tables [ndev->iosqs] and [ndev->iocqs] and their random arrangement, the checks on
    completions.

    The tables are blocks of the heap whose contents are the lists; [sqs[i]] outside the
    table crashes.  Loops over a table recurse on the list of its indices. *)

From S2P Require Import Prelude Layout Types Kernel Ring Core Structs Host LibIoctl LibNetlink LibCmd.

#[local] Open Scope string_scope.
#[local] Open Scope Z_scope.

Definition NVME_SQ_PRIO_URGENT := Z.shiftl 0 1.
Definition NVME_SQ_PRIO_HIGH := Z.shiftl 1 1.
Definition NVME_SQ_PRIO_MEDIUM := Z.shiftl 2 1.
Definition NVME_SQ_PRIO_LOW := Z.shiftl 3 1.
Definition NVME_CIOQ_F_CQS_BIND_SINGLE_IRQ := Z.shiftl 1 0.

Definition SIZEOF_nvme_sq_info := 32.
Definition SIZEOF_nvme_cq_info := 32.

Record nvme_csq_wrapper := {
  csq_sqid : Z; csq_cqid : Z; csq_elements : Z; csq_prio : Z; csq_contig : bool;
  csq_buf : Z; csq_size : Z }.
Record nvme_ccq_wrapper := {
  ccq_cqid : Z; ccq_elements : Z; ccq_irq_no : Z; ccq_irq_en : Z; ccq_contig : bool;
  ccq_buf : Z; ccq_size : Z }.

Definition nvme_fill_prep_sq (sqid cqid elements : Z) (contig : bool) : nvme_prep_sq := {|
  psq_elements := elements; psq_sq_id := sqid; psq_cq_id := cqid; psq_contig := contig;
  psq_use_cmb := false |}.
Definition nvme_fill_prep_cq (cqid elements : Z) (contig : bool) (irq_en irq_no : Z) : nvme_prep_cq := {|
  pcq_elements := elements; pcq_cq_id := cqid; pcq_irq_en := irq_en; pcq_irq_no := irq_no;
  pcq_contig := contig; pcq_use_cmb := false |}.

(** [for (i = from; i < to; i++)]. *)
Definition upto (from to : Z) : list Z := seqZ from (to - from).

Section queue.
Context {H : Host}.

(** ** Admin queues *)

Definition nvme_create_asq (elements : Z) : U Z :=
  '(ret, _) ← ioctl (IOCTL_CREATE_ADMIN_QUEUE (Build_nvme_admin_queue NVME_ADMIN_SQ elements));
  if ret <? 0 then mret ret
  else
    upd_ndev (λ d, d <| di_asq ::= λ q,
      q <| sqi_sqid := NVME_AQ_ID |> <| sqi_cqid := NVME_AQ_ID |> <| sqi_nr_entry := elements |> |>);;
    mret 0.
Definition nvme_create_acq (elements : Z) : U Z :=
  '(ret, _) ← ioctl (IOCTL_CREATE_ADMIN_QUEUE (Build_nvme_admin_queue NVME_ADMIN_CQ elements));
  if ret <? 0 then mret ret
  else
    upd_ndev (λ d, d <| di_acq ::= λ q,
      q <| cqi_cqid := NVME_AQ_ID |> <| cqi_nr_entry := elements |> |>);;
    mret 0.
Definition nvme_create_aq_pair (sqsz cqsz : Z) : U Z :=
  chk_lt0_rtn (nvme_create_acq cqsz) (- EPERM) (λ _,
  chk_lt0_rtn (nvme_create_asq sqsz) (- EPERM) (λ _,
  mret 0)).

(** ** I/O queues *)

Definition nvme_create_iosq (w : nvme_csq_wrapper) : U Z :=
  chk_lt0_rtn (nvme_prepare_iosq
    (nvme_fill_prep_sq (csq_sqid w) (csq_cqid w) (csq_elements w) (csq_contig w))) (- EPERM) (λ _,
  let csq := nvme_cmd_fill_create_sq (csq_sqid w) (csq_cqid w) (csq_elements w) (csq_contig w)
               (csq_prio w) in
  admin_cmd0 (nvme_cmd_create_iosq csq (csq_contig w) (csq_buf w) (csq_size w))).
Definition nvme_delete_iosq (sqid : Z) : U Z := admin_cmd0 (nvme_cmd_delete_iosq sqid).
Definition nvme_create_iocq (w : nvme_ccq_wrapper) : U Z :=
  chk_lt0_rtn (nvme_prepare_iocq
    (nvme_fill_prep_cq (ccq_cqid w) (ccq_elements w) (ccq_contig w) (ccq_irq_en w) (ccq_irq_no w)))
    (- EPERM) (λ _,
  let ccq := nvme_cmd_fill_create_cq (ccq_cqid w) (ccq_elements w) (ccq_contig w) (ccq_irq_en w)
               (ccq_irq_no w) in
  admin_cmd0 (nvme_cmd_create_iocq ccq (ccq_contig w) (ccq_buf w) (ccq_size w))).
Definition nvme_delete_iocq (cqid : Z) : U Z := admin_cmd0 (nvme_cmd_delete_iocq cqid).

(** [sqs[i]] *)
Definition elem {A} (l : list A) (i : Z) : U A :=
  if i <? 0 then crash F_oob
  else match l !! Z.to_nat i with Some x => mret x | None => crash F_oob end.

(** Stop at the first error. *)
Fixpoint each {A} (f : A → U Z) (l : list A) : U Z :=
  match l with
  | [] => mret 0
  | x :: l => ret ← f x; if ret <? 0 then mret ret else each f l
  end.

Definition nvme_create_all_iosq (sqs : list nvme_sq_info) (nr_sq : Z) : U Z :=
  each (λ i, q ← elem sqs i;
             nvme_create_iosq {| csq_sqid := sqi_sqid q; csq_cqid := sqi_cqid q;
               csq_elements := sqi_nr_entry q; csq_prio := NVME_SQ_PRIO_MEDIUM;
               csq_contig := true; csq_buf := 0; csq_size := 0 |}) (upto 0 nr_sq).
Definition nvme_delete_all_iosq (sqs : list nvme_sq_info) (nr_sq : Z) : U Z :=
  each (λ i, q ← elem sqs i; nvme_delete_iosq (sqi_sqid q)) (upto 0 nr_sq).
Definition nvme_create_all_iocq (cqs : list nvme_cq_info) (nr_cq : Z) : U Z :=
  each (λ i, q ← elem cqs i;
             nvme_create_iocq {| ccq_cqid := cqi_cqid q; ccq_elements := cqi_nr_entry q;
               ccq_irq_no := cqi_irq_no q; ccq_irq_en := cqi_irq_en q; ccq_contig := true;
               ccq_buf := 0; ccq_size := 0 |}) (upto 0 nr_cq).
Definition nvme_delete_all_iocq (cqs : list nvme_cq_info) (nr_cq : Z) : U Z :=
  each (λ i, q ← elem cqs i; nvme_delete_iocq (cqi_cqid q)) (upto 0 nr_cq).

(** ** Completions *)

(** The index of the entry in the array of 16-byte entries at [entries]. *)
Fixpoint find_cq_entry (bs : list Z) (cid : Z) (ix : list Z) : U (option Z) :=
  match ix with
  | [] => mret None
  | i :: ix =>
    match load_le 2 bs (i * 16 + 12) with
    | None => crash F_oob
    | Some id => if id =? cid then mret (Some i) else find_cq_entry bs cid ix
    end
  end.
Definition nvme_find_cq_entry (entries num cid : Z) : U (option Z) :=
  bs ← ublock entries; find_cq_entry bs cid (upto 0 num).

(** Minus the number of entries with an error. *)
Fixpoint check_cq_entries (bs : list Z) (ix : list Z) (ret : Z) : U Z :=
  match ix with
  | [] => mret ret
  | i :: ix =>
    match load_le 2 bs (i * 16 + 14) with
    | None => crash F_oob
    | Some st =>
      check_cq_entries bs ix (if NVME_CQE_STATUS_TO_STATE st =? 0 then ret else s32 (ret - 1))
    end
  end.
Definition nvme_check_cq_entries (entries num : Z) : U Z :=
  bs ← ublock entries; check_cq_entries bs (upto 0 num) 0.

(** ** The tables of queues *)

Definition the_ctrl (d : nvme_dev_info) : U nvme_ctrl_instance :=
  match di_ctrl d with Some (_, c) => mret c | None => crash F_null end.
Definition the_iosqs (d : nvme_dev_info) : U (list nvme_sq_info) :=
  match di_iosqs d with Some (_, l) => mret l | None => crash F_null end.
Definition the_iocqs (d : nvme_dev_info) : U (list nvme_cq_info) :=
  match di_iocqs d with Some (_, l) => mret l | None => crash F_null end.
Definition put_iosqs (l : list nvme_sq_info) : U unit :=
  upd_ndev (λ d, d <| di_iosqs ::= λ o, match o with Some (p, _) => Some (p, l) | None => None end |>).
Definition put_iocqs (l : list nvme_cq_info) : U unit :=
  upd_ndev (λ d, d <| di_iocqs ::= λ o, match o with Some (p, _) => Some (p, l) | None => None end |>).

(** [l[i] = f l[i]] *)
Definition upd_elem {A} (f : A → A) (l : list A) (i : Z) : U (list A) :=
  x ← elem l i; mret (<[Z.to_nat i := f x]> l).

(** [rand() % n]; a zero divisor traps. *)
Definition rand_mod (n : Z) : U Z :=
  r ← rand; if n =? 0 then crash F_ub else mret (r mod n).

Definition nvme_set_sq_prio_random : U Z :=
  r ← rand_mod 4;
  mret (if r =? 0 then NVME_SQ_PRIO_URGENT else if r =? 1 then NVME_SQ_PRIO_HIGH
        else if r =? 2 then NVME_SQ_PRIO_MEDIUM else if r =? 3 then NVME_SQ_PRIO_LOW
        else NVME_SQ_PRIO_MEDIUM).

(** A random size: unsigned arithmetic, [mqes] of 1 to 65536. *)
Definition random_nr_entry (mqes : Z) : U Z :=
  if 256 <? mqes then r ← rand_mod (mqes - 255); mret (r + 256) else mret mqes.

(** [for (qid = 1; qid <= nr; qid++)] with a 16-bit [qid]: for [nr = 65535] the counter wraps
    to 0 and the loop goes on there. *)
Definition qids (nr : Z) : list Z := upto 1 (nr + 1) ++ (if nr =? 65535 then [0] else []).
Fixpoint fill_iosqs (ids : list Z) (mqes : Z) (sq : list nvme_sq_info) : U (list nvme_sq_info) :=
  match ids with
  | [] => mret sq
  | qid :: ids =>
    sq ← upd_elem (λ q, q <| sqi_sqid := qid |> <| sqi_cqid := qid |> <| sqi_contig := true |>) sq (qid - 1);
    n ← random_nr_entry mqes;
    sq ← upd_elem (λ q, q <| sqi_nr_entry := n |>) sq (qid - 1);
    prio ← nvme_set_sq_prio_random;
    sq ← upd_elem (λ q, q <| sqi_prio := prio |>) sq (qid - 1);
    fill_iosqs ids mqes sq
  end.
Definition nvme_alloc_iosq_info : U Z :=
  d ← get_ndev;
  ctrl ← the_ctrl d;
  prop ← ctrl_property ctrl;
  let nr_sq := ctrl_nr_sq ctrl in
  let mqes := NVME_CAP_MQES (prop_cap prop) + 1 in
  p ← zalloc (nr_sq * SIZEOF_nvme_sq_info);
  if p =? 0 then mret (- ENOMEM)
  else
    sq ← fill_iosqs (qids nr_sq) mqes (replicate (Z.to_nat nr_sq) sq_info_zero);
    upd_ndev (λ d, d <| di_iosqs := Some (p, sq) |>);;
    mret 0.

(** [irq_no] of queue [qid]: its own vector, or the last one. *)
Definition default_irq_no (qid nr_irq : Z) : Z :=
  u16 (if qid <=? nr_irq - 1 then qid else nr_irq - 1).
Fixpoint fill_iocqs (ids : list Z) (mqes nr_irq : Z) (cq : list nvme_cq_info) : U (list nvme_cq_info) :=
  match ids with
  | [] => mret cq
  | qid :: ids =>
    cq ← upd_elem (λ q, q <| cqi_cqid := qid |> <| cqi_irq_no := default_irq_no qid nr_irq |>
                         <| cqi_contig := true |>) cq (qid - 1);
    n ← random_nr_entry mqes;
    cq ← upd_elem (λ q, q <| cqi_nr_entry := n |>) cq (qid - 1);
    fill_iocqs ids mqes nr_irq cq
  end.
Definition nvme_alloc_iocq_info : U Z :=
  d ← get_ndev;
  ctrl ← the_ctrl d;
  prop ← ctrl_property ctrl;
  let nr_cq := ctrl_nr_cq ctrl in
  let mqes := NVME_CAP_MQES (prop_cap prop) + 1 in
  p ← zalloc (nr_cq * SIZEOF_nvme_cq_info);
  if p =? 0 then mret (- ENOMEM)
  else
    cq ← fill_iocqs (qids nr_cq) mqes (di_nr_irq d) (replicate (Z.to_nat nr_cq) cq_info_zero);
    upd_ndev (λ d, d <| di_iocqs := Some (p, cq) |>);;
    mret 0.

(** [free(ndev->iosqs); ndev->iosqs = NULL] *)
Definition free_iosqs : U unit :=
  d ← get_ndev;
  free (match di_iosqs d with Some (p, _) => p | None => 0 end);;
  upd_ndev (λ d, d <| di_iosqs := None |>).
Definition free_iocqs : U unit :=
  d ← get_ndev;
  free (match di_iocqs d with Some (p, _) => p | None => 0 end);;
  upd_ndev (λ d, d <| di_iocqs := None |>).

Definition nvme_init_ioq_info : U Z :=
  chk_lt0_rtn nvme_alloc_iosq_info (- EPERM) (λ _,
  chk_lt0_goto nvme_alloc_iocq_info (- EPERM) (λ ret, free_iosqs;; mret ret) (λ _,
  mret 0)).
Definition nvme_deinit_ioq_info : U unit := free_iosqs;; free_iocqs.

(** The index of the entry, [None] for [NULL]. *)
Definition nvme_find_iosq_info (sqid : Z) : U (option Z) :=
  d ← get_ndev;
  ctrl ← the_ctrl d;
  if ctrl_nr_sq ctrl <? sqid then mret None
  else
    sqs ← the_iosqs d;
    q ← elem sqs (sqid - 1);
    mret (if negb (sqi_sqid q =? sqid) then None else Some (sqid - 1)).
Definition nvme_find_iocq_info (cqid : Z) : U (option Z) :=
  d ← get_ndev;
  ctrl ← the_ctrl d;
  if ctrl_nr_cq ctrl <? cqid then mret None
  else
    cqs ← the_iocqs d;
    q ← elem cqs (cqid - 1);
    mret (if negb (cqi_cqid q =? cqid) then None else Some (cqid - 1)).

(** *** Random arrangements *)

(** C's remainder of an [int] by an [int]. *)
Definition rand_rem (n : Z) : U Z :=
  r ← rand; if n =? 0 then crash F_ub else mret (Z.rem r n).

Fixpoint reinit_iosqs (ix : list Z) (nr_cq mqes : Z) (sqs : list nvme_sq_info) : U (list nvme_sq_info) :=
  match ix with
  | [] => mret sqs
  | i :: ix =>
    c ← rand_rem nr_cq;
    sqs ← upd_elem (λ q, q <| sqi_cqid := u16 (c + 1) |>) sqs i;
    n ← rand_rem (mqes - 512);
    sqs ← upd_elem (λ q, q <| sqi_nr_entry := u32 (n + 512) |>) sqs i;
    reinit_iosqs ix nr_cq mqes sqs
  end.
Fixpoint reinit_iocqs (ix : list Z) (none : bool) (nr_irq mqes : Z) (cqs : list nvme_cq_info) :
    U (list nvme_cq_info) :=
  match ix with
  | [] => mret cqs
  | i :: ix =>
    cqs ← (if none then upd_elem (λ q, q <| cqi_irq_en := 0 |>) cqs i
           else
             r ← rand_rem nr_irq;
             upd_elem (λ q, q <| cqi_irq_en := 1 |> <| cqi_irq_no := u16 r |>) cqs i);
    n ← rand_rem (mqes - 512);
    cqs ← upd_elem (λ q, q <| cqi_nr_entry := u32 (n + 512) |>) cqs i;
    reinit_iocqs ix none nr_irq mqes cqs
  end.
Definition no_irq (d : nvme_dev_info) : bool :=
  bool_decide (di_irq_type d = NVME_INT_NONE) || (di_nr_irq d =? 0).
Definition nvme_reinit_ioq_info_random : U unit :=
  d ← get_ndev;
  ctrl ← the_ctrl d;
  prop ← ctrl_property ctrl;
  let mqes := NVME_CAP_MQES (prop_cap prop) in
  sqs ← the_iosqs d;
  sqs ← reinit_iosqs (upto 0 (ctrl_nr_sq ctrl)) (ctrl_nr_cq ctrl) mqes sqs;
  put_iosqs sqs;;
  cqs ← the_iocqs d;
  cqs ← reinit_iocqs (upto 0 (ctrl_nr_cq ctrl)) (no_irq d) (di_nr_irq d) mqes cqs;
  put_iocqs cqs.

(** Exchange a field of elements [i] and [j]. *)
Definition swap_cqid (l : list nvme_sq_info) (i j : Z) : U (list nvme_sq_info) :=
  a ← elem l i; b ← elem l j;
  l ← upd_elem (λ q, q <| sqi_cqid := sqi_cqid b |>) l i;
  upd_elem (λ q, q <| sqi_cqid := sqi_cqid a |>) l j.
Definition swap_sq_entry (l : list nvme_sq_info) (i j : Z) : U (list nvme_sq_info) :=
  a ← elem l i; b ← elem l j;
  l ← upd_elem (λ q, q <| sqi_nr_entry := sqi_nr_entry b |>) l i;
  upd_elem (λ q, q <| sqi_nr_entry := sqi_nr_entry a |>) l j.
Definition swap_cq_entry (l : list nvme_cq_info) (i j : Z) : U (list nvme_cq_info) :=
  a ← elem l i; b ← elem l j;
  l ← upd_elem (λ q, q <| cqi_nr_entry := cqi_nr_entry b |>) l i;
  upd_elem (λ q, q <| cqi_nr_entry := cqi_nr_entry a |>) l j.

Fixpoint swap_iosqs (ix : list Z) (nr_sq : Z) (sqs : list nvme_sq_info) : U (list nvme_sq_info) :=
  match ix with
  | [] => mret sqs
  | i :: ix =>
    r ← rand_rem (nr_sq - i);
    sqs ← swap_cqid sqs i (u16 (i + r));
    r ← rand_rem (nr_sq - i);
    sqs ← swap_sq_entry sqs i (u16 (i + r));
    swap_iosqs ix nr_sq sqs
  end.
Definition nvme_swap_iosq_info_random (sqs : list nvme_sq_info) (nr_sq : Z) : U (list nvme_sq_info) :=
  swap_iosqs (upto 0 (nr_sq - 1)) nr_sq sqs.

Fixpoint spread_irqs (ix : list Z) (nr_irq : Z) (cqs : list nvme_cq_info) : U (list nvme_cq_info) :=
  match ix with
  | [] => mret cqs
  | i :: ix =>
    cqs ← (if nr_irq =? 0 then upd_elem (λ q, q <| cqi_irq_en := 0 |>) cqs i
           else
             r ← rand_rem nr_irq;
             upd_elem (λ q, q <| cqi_irq_no := u16 r |> <| cqi_irq_en := 1 |>) cqs i);
    spread_irqs ix nr_irq cqs
  end.
Fixpoint swap_iocqs (ix : list Z) (nr_cq : Z) (cqs : list nvme_cq_info) : U (list nvme_cq_info) :=
  match ix with
  | [] => mret cqs
  | i :: ix =>
    r ← rand_rem (nr_cq - i);
    cqs ← swap_cq_entry cqs i (u16 (i + r));
    swap_iocqs ix nr_cq cqs
  end.
Definition nvme_swap_iocq_info_random (cqs : list nvme_cq_info) (nr_cq nr_irq : Z) :
    U (list nvme_cq_info) :=
  cqs ← spread_irqs (upto 0 nr_cq) nr_irq cqs;
  swap_iocqs (upto 0 (nr_cq - 1)) nr_cq cqs.

Definition nvme_swap_ioq_info_random : U unit :=
  d ← get_ndev;
  ctrl ← the_ctrl d;
  sqs ← the_iosqs d;
  sqs ← nvme_swap_iosq_info_random sqs (ctrl_nr_sq ctrl);
  put_iosqs sqs;;
  cqs ← the_iocqs d;
  cqs ← nvme_swap_iocq_info_random cqs (ctrl_nr_cq ctrl) (di_nr_irq d);
  put_iocqs cqs.

(** *** All queues *)

Fixpoint bind_irq (ix : list Z) (irq_no : Z) (cqs : list nvme_cq_info) : U (list nvme_cq_info) :=
  match ix with
  | [] => mret cqs
  | i :: ix => cqs ← upd_elem (λ q, q <| cqi_irq_no := irq_no |>) cqs i; bind_irq ix irq_no cqs
  end.
Definition nvme_create_all_ioq (flag : Z) : U Z :=
  d ← get_ndev;
  ctrl ← the_ctrl d;
  nvme_swap_ioq_info_random;;
  let create : U Z :=
    d ← get_ndev;
    cqs ← the_iocqs d;
    chk_lt0_rtn (nvme_create_all_iocq cqs (ctrl_nr_cq ctrl)) (- EPERM) (λ _,
    sqs ← the_iosqs d;
    chk_lt0_rtn (nvme_create_all_iosq sqs (ctrl_nr_sq ctrl)) (- EPERM) (λ _,
    mret 0)) in
  if negb (Z.land flag NVME_CIOQ_F_CQS_BIND_SINGLE_IRQ =? 0) then
    if no_irq d then mret (- EPERM)
    else
      r ← rand_rem (di_nr_irq d);
      d ← get_ndev;
      cqs ← the_iocqs d;
      cqs ← bind_irq (upto 0 (ctrl_nr_cq ctrl)) (u16 r) cqs;
      put_iocqs cqs;;
      create
  else create.
Definition nvme_delete_all_ioq : U Z :=
  d ← get_ndev;
  ctrl ← the_ctrl d;
  sqs ← the_iosqs d;
  chk_lt0_rtn (nvme_delete_all_iosq sqs (ctrl_nr_sq ctrl)) (- EPERM) (λ _,
  cqs ← the_iocqs d;
  chk_lt0_rtn (nvme_delete_all_iocq cqs (ctrl_nr_cq ctrl)) (- EPERM) (λ _,
  mret 0)).
End queue.
