(* ===== verification/LibCore.v ===== *)
(** * The user library: device start-up and shutdown

    [lib/nvme/core.c]: what [nvme_init] learns of the device and allocates for it, in two
    stages, and what [nvme_deinit] gives back.

    The functions on [ctrl] of stage 2 work on [ndev->ctrl] in place; those on an object
    that is not yet reachable from [ndev] (the controller of stage 1, a namespace) take it
    and return it changed.  Display functions are left out. *)

From S2P Require Import Prelude Layout Types Kernel Prp Core Irq Ioctl Structs Host LibIoctl LibNetlink LibCmd LibAdmin LibQueue.

#[local] Open Scope string_scope.
#[local] Open Scope Z_scope.

Inductive nvme_init_stage := NVME_INIT_STAGE1 | NVME_INIT_STAGE2.

Definition SIZEOF_nvme_ctrl_instance := 48.
Definition SIZEOF_nvme_ctrl_property := 16.
Definition SIZEOF_nvme_ns_instance := 88.
Definition SIZEOF_nvme_ns_group := 24.
Definition SIZEOF_pci_dev_instance := 60.
Definition SIZEOF_nvme_dev_info := 136.

Definition NVME_VS (major minor tertiary : Z) : Z :=
  Z.lor (Z.lor (Z.shiftl major 16) (Z.shiftl minor 8)) tertiary.
Definition NVME_CAP_CSS (cap : Z) := Z.land (Z.shiftr cap 37) 0xff.
Definition NVME_CAP_CSS_CSI := Z.shiftl 1 6.
Definition NVME_CC_TO_CSS (cc : Z) := Z.land (Z.shiftr cc 4) 0x7.
Definition NVME_CC_CSS_CSI := 6.
Definition NVME_NS_FLBAS_LBA (x : Z) := Z.lor (Z.shiftr (Z.land x 0x60) 1) (Z.land x 0xf).

Definition NVME_NIDT_EUI64_LEN := 8.
Definition NVME_NIDT_NGUID_LEN := 16.
Definition NVME_NIDT_UUID_LEN := 16.
Definition NVME_NIDT_CSI_LEN := 1.

Definition got_pm := find_payload (λ p, match p with UP_cap_pm c => Some c | _ => None end).
Definition got_msi := find_payload (λ p, match p with UP_cap_msi c => Some c | _ => None end).
Definition got_msix := find_payload (λ p, match p with UP_cap_msix c => Some c | _ => None end).
Definition got_express := find_payload (λ p, match p with UP_cap_express c => Some c | _ => None end).
Definition got_ltr := find_payload (λ p, match p with UP_cap_ltr c => Some c | _ => None end).
Definition got_l1ss := find_payload (λ p, match p with UP_cap_l1ss c => Some c | _ => None end).

Section core.
Context {H : Host}.

(** ** Controller *)

(** [le32_to_cpu(entry.result.u32)] is split in two zero-based 16-bit numbers; the sums are
    stored in 16 bits. *)
Definition request_io_queue_num (ctrl : nvme_ctrl_instance) : U (Z * nvme_ctrl_instance) :=
  let iosq := 65534 in
  let iocq := 65534 in
  admin_cmd (λ ret, (ret, ctrl)) (nvme_cmd_set_feat_num_queues iosq iocq) (λ entry,
    v ← uread struct_nvme_completion .["result"; "u32"] entry;
    mret (0, ctrl <| ctrl_nr_sq := u16 (Z.land v 0xffff + 1) |>
                  <| ctrl_nr_cq := u16 (Z.shiftr v 16 + 1) |>)).

Definition init_identify_ctrl_data (ctrl : nvme_ctrl_instance) : U (Z * nvme_ctrl_instance) :=
  id_ctrl ← zalloc (sizeof struct_nvme_id_ctrl);
  if id_ctrl =? 0 then mret (- ENOMEM, ctrl)
  else
    chk_lt0_goto (nvme_identify_ctrl id_ctrl) (- EPERM)
      (λ ret, free id_ctrl;; mret (ret, ctrl))
      (λ _, mret (0, ctrl <| ctrl_id_ctrl := id_ctrl |>)).
Definition deinit_identify_ctrl_data (ctrl : nvme_ctrl_instance) : U nvme_ctrl_instance :=
  if ctrl_id_ctrl ctrl =? 0 then mret ctrl
  else free (ctrl_id_ctrl ctrl);; mret (ctrl <| ctrl_id_ctrl := 0 |>).

(** Change [*ndev->ctrl]. *)
Definition upd_ctrl (f : nvme_ctrl_instance → nvme_ctrl_instance) : U unit :=
  upd_ndev (λ d, d <| di_ctrl ::= λ o, match o with Some (p, c) => Some (p, f c) | None => None end |>).
Definition get_ctrl : U nvme_ctrl_instance := d ← get_ndev; the_ctrl d.

Definition init_ctrl_property : U Z :=
  prop ← zalloc SIZEOF_nvme_ctrl_property;
  if prop =? 0 then mret (- ENOMEM)
  else
    let out (ret : Z) (_ : option Z) : U Z := free prop;; mret ret in
    chk_lt0_obj nvme_read_ctrl_cap (- EPERM) out (λ _ cap,
    chk_lt0_obj nvme_read_ctrl_vs (- EPERM) out (λ _ vs,
    chk_lt0_obj nvme_read_ctrl_cc (- EPERM) out (λ _ cc,
    upd_ctrl (λ c, c <| ctrl_prop := Some (prop,
      Build_nvme_ctrl_property (default 0 cap) (default 0 vs) (default 0 cc)) |>);;
    mret 0))).
Definition deinit_ctrl_property : U unit :=
  ctrl ← get_ctrl;
  match ctrl_prop ctrl with
  | None => mret tt
  | Some (p, _) => free p;; upd_ctrl (λ c, c <| ctrl_prop := None |>)
  end.

(** Free the data and clear the pointer, when it is set. *)
Definition free_ctrl_zns : U unit :=
  ctrl ← get_ctrl;
  if ctrl_id_ctrl_zns ctrl =? 0 then mret tt
  else free (ctrl_id_ctrl_zns ctrl);; upd_ctrl (λ c, c <| ctrl_id_ctrl_zns := 0 |>).
Definition free_ctrl_nvm : U unit :=
  ctrl ← get_ctrl;
  if ctrl_id_ctrl_nvm ctrl =? 0 then mret tt
  else free (ctrl_id_ctrl_nvm ctrl);; upd_ctrl (λ c, c <| ctrl_id_ctrl_nvm := 0 |>).
Definition free_ctrl_csc : U unit :=
  ctrl ← get_ctrl;
  if ctrl_id_ctrl_csc ctrl =? 0 then mret tt
  else free (ctrl_id_ctrl_csc ctrl);; upd_ctrl (λ c, c <| ctrl_id_ctrl_csc := 0 |>).
Definition deinit_id_cs_ctrl : U unit := free_ctrl_zns;; free_ctrl_nvm;; free_ctrl_csc.

(** The two blocks [if (vector & BIT(csi)) { ... }]: allocate, store the pointer with [set],
    identify; [rest] follows, [out] is the code at the label. *)
Definition id_cs_ctrl (vector csi size : Z) (set : Z → nvme_ctrl_instance → nvme_ctrl_instance)
    (out : Z → U Z) (rest : U Z) : U Z :=
  if Z.testbit vector csi then
    p ← zalloc size;
    upd_ctrl (set p);;
    if p =? 0 then out (- ENOMEM)
    else
      ret ← nvme_identify_cs_ctrl p size csi;
      if ret <? 0 then out ret else rest
  else rest.

Definition init_id_cs_ctrl : U Z :=
  ctrl ← get_ctrl;
  prop ← ctrl_property ctrl;
  let cap_css := NVME_CAP_CSS (prop_cap prop) in
  let out (ret : Z) : U Z := deinit_id_cs_ctrl;; mret ret in
  vs ← nvme_version ctrl;
  if vs <? NVME_VS 2 0 0 then mret 0
  else
    chk_lt0_obj nvme_read_ctrl_cc (- EPERM) (λ ret _, mret ret) (λ _ cc,
    let cc := default (prop_cc prop) cc in
    upd_ctrl (λ c, c <| ctrl_prop ::= λ o,
      match o with Some (p, q) => Some (p, q <| prop_cc := cc |>) | None => None end |>);;
    let cc_css := NVME_CC_TO_CSS cc in
    if negb (Z.land cap_css NVME_CAP_CSS_CSI =? 0) && (cc_css =? NVME_CC_CSS_CSI) then
      csc ← zalloc (sizeof struct_nvme_id_ctrl_csc);
      upd_ctrl (λ c, c <| ctrl_id_ctrl_csc := csc |>);;
      if csc =? 0 then mret (- ENOMEM)
      else
        ret ← nvme_identify_ctrl_csc_list csc 0xffff;
        if ret <? 0 then out ret
        else
          chk_lt0_goto (nvme_get_feat_iocs_profile NVME_FEAT_SEL_CUR) (- EPERM) out (λ ret,
          vector ← uread struct_nvme_id_ctrl_csc [Fld "vector"; Idx ret] csc;
          id_cs_ctrl vector NVME_CSI_NVM (sizeof struct_nvme_id_ctrl_nvm)
            (λ p c, c <| ctrl_id_ctrl_nvm := p |>) out (
          id_cs_ctrl vector NVME_CSI_ZNS (sizeof struct_nvme_id_ctrl_zns)
            (λ p c, c <| ctrl_id_ctrl_zns := p |>) out (
          mret 0)))
    else mret 0).

(** The stages are those of the two callers: the default case does not occur. *)
Definition init_ctrl_instance (stage : nvme_init_stage) : U Z :=
  d ← get_ndev;
  match stage with
  | NVME_INIT_STAGE1 =>
    match di_ctrl d with
    | Some _ => mret (- EFAULT)
    | None =>
      p ← zalloc SIZEOF_nvme_ctrl_instance;
      if p =? 0 then mret (- ENOMEM)
      else
        let free_ctrl (ret : Z) (_ : nvme_ctrl_instance) : U Z := free p;; mret ret in
        chk_lt0_obj (request_io_queue_num ctrl_zero) (- EPERM) free_ctrl (λ _ ctrl,
        chk_lt0_obj (init_identify_ctrl_data ctrl) (- EPERM) free_ctrl (λ _ ctrl,
        upd_ndev (λ d, d <| di_ctrl := Some (p, ctrl) |>);;
        mret 0))
    end
  | NVME_INIT_STAGE2 =>
    match di_ctrl d with
    | None => mret (- EFAULT)
    | Some _ =>
      chk_lt0_rtn init_ctrl_property (- EPERM) (λ _,
      chk_lt0_goto init_id_cs_ctrl (- EPERM) (λ ret, deinit_ctrl_property;; mret ret) (λ _,
      mret 0))
    end
  end.

Definition deinit_ctrl_instance (stage : nvme_init_stage) : U unit :=
  d ← get_ndev;
  match di_ctrl d with
  | None => mret tt
  | Some (p, ctrl) =>
    match stage with
    | NVME_INIT_STAGE1 =>
      _ ← deinit_identify_ctrl_data ctrl;
      free p;;
      upd_ndev (λ d, d <| di_ctrl := None |>)
    | NVME_INIT_STAGE2 => deinit_id_cs_ctrl;; deinit_ctrl_property
    end
  end.

(** ** Namespaces *)

(** [1 << ds]: [ds] is a byte, a shift by 32 or more is undefined. *)
Definition lba_size (ds : Z) : U Z := if 32 <=? ds then crash F_ub else mret (u32 (Z.shiftl 1 ds)).

(** The format in use, from the identify data at [id_ns]. *)
Definition ns_format (id_ns : Z) (ns : nvme_ns_instance) : U nvme_ns_instance :=
  flbas ← uread struct_nvme_id_ns .["flbas"] id_ns;
  let fmt_idx := NVME_NS_FLBAS_LBA flbas in
  ds ← uread struct_nvme_id_ns [Fld "lbaf"; Idx fmt_idx; Fld "ds"] id_ns;
  blk_size ← lba_size ds;
  meta_size ← uread struct_nvme_id_ns [Fld "lbaf"; Idx fmt_idx; Fld "ms"] id_ns;
  mret (ns <| ns_fmt_idx := fmt_idx |> <| ns_blk_size := blk_size |> <| ns_meta_size := meta_size |>).

Definition nvme_update_ns_instance (ns : nvme_ns_instance) : U (Z * nvme_ns_instance) :=
  let id_ns := ns_id_ns ns in
  ret ← nvme_identify_ns_active id_ns (ns_nsid ns);
  if ret <? 0 then mret (ret, ns)
  else
    ns ← ns_format id_ns ns;
    if negb (ns_id_ns_nvm ns =? 0) then
      ret ← nvme_identify_cs_ns (ns_id_ns_nvm ns) NVME_IDENTIFY_DATA_SIZE (ns_nsid ns) NVME_CSI_NVM;
      mret (if ret <? 0 then ret else 0, ns)
    else if negb (ns_id_ns_zns ns =? 0) then
      ret ← nvme_identify_cs_ns (ns_id_ns_zns ns) NVME_IDENTIFY_DATA_SIZE (ns_nsid ns) NVME_CSI_ZNS;
      mret (if ret <? 0 then ret else 0, ns)
    else mret (0, ns).

Definition init_id_ns (ns : nvme_ns_instance) : U (Z * nvme_ns_instance) :=
  id_ns ← zalloc (sizeof struct_nvme_id_ns);
  if id_ns =? 0 then mret (- ENOMEM, ns)
  else
    ret ← nvme_identify_ns_active id_ns (ns_nsid ns);
    if ret <? 0 then free id_ns;; mret (ret, ns)
    else
      ns ← ns_format id_ns (ns <| ns_id_ns := id_ns |>);
      BUG_ON (ns_blk_size ns <? 512);;
      mret (0, ns).
Definition deinit_id_ns (ns : nvme_ns_instance) : U nvme_ns_instance :=
  if ns_id_ns ns =? 0 then mret ns
  else free (ns_id_ns ns);; mret (ns <| ns_id_ns := 0 |>).

Definition nidt_len (nidt : Z) : option Z :=
  if nidt =? NVME_NIDT_EUI64 then Some NVME_NIDT_EUI64_LEN
  else if nidt =? NVME_NIDT_NGUID then Some NVME_NIDT_NGUID_LEN
  else if nidt =? NVME_NIDT_UUID then Some NVME_NIDT_UUID_LEN
  else if nidt =? NVME_NIDT_CSI then Some NVME_NIDT_CSI_LEN
  else None.
Definition no_descs : list (option Z) := replicate (Z.to_nat NVME_NIDT_FENCE) None.

(** The loop at offset [pos] ([list - data]) of the data [bs], with the table [descs]; [None] is an access
    outside the data, the inner [None] a loop out of fuel. *)
Fixpoint parse_descs (fuel : nat) (bs : list Z) (pos remain : Z) (descs : list (option Z)) :
    option (option (Z * list (option Z))) :=
  match fuel with
  | O => Some None
  | S fuel =>
    nidt ← load_le 1 bs pos;
    if nidt =? 0 then Some (Some (0, descs))
    else match nidt_len nidt with
         | None => Some (Some (- EINVAL, no_descs))
         | Some len =>
           nidl ← load_le 1 bs (pos + 1);
           if negb (nidl =? len) then Some (Some (- EINVAL, no_descs))
           else match descs !! Z.to_nat nidt with
                | None => None
                | Some (Some _) => Some (Some (- EINVAL, no_descs))
                | Some None =>
                  let descs := <[Z.to_nat nidt := Some pos]> descs in
                  let step := sizeof struct_nvme_ns_id_desc + len in
                  if u64 (remain - step) <=? sizeof struct_nvme_ns_id_desc
                  then Some (Some (0, descs))
                  else parse_descs fuel bs (pos + step) (remain - step) descs
                end
         end
  end.
(** A type may occur once: four descriptors and the end. *)
Definition parse_ns_id_desc (ns : nvme_ns_instance) (data size : Z) : U (Z * nvme_ns_instance) :=
  bs ← ublock data;
  r ← in_bounds (parse_descs (Z.to_nat NVME_NIDT_FENCE) bs 0 size (ns_id_desc ns));
  match r with
  | None => stuck
  | Some (ret, descs) =>
    let ns := ns <| ns_id_desc := descs |> in
    mret (ret, if ret <? 0 then ns else ns <| ns_id_desc_raw := data |>)
  end.

Definition init_ns_id_desc (ns : nvme_ns_instance) : U (Z * nvme_ns_instance) :=
  data ← zalloc NVME_IDENTIFY_DATA_SIZE;
  if data =? 0 then mret (- ENOMEM, ns)
  else
    ret ← nvme_identify_ns_desc_list data NVME_IDENTIFY_DATA_SIZE (ns_nsid ns);
    if ret <? 0 then free data;; mret (ret, ns)
    else
      '(ret, ns) ← parse_ns_id_desc ns data NVME_IDENTIFY_DATA_SIZE;
      if ret <? 0 then free data;; mret (ret, ns) else mret (0, ns).
Definition deinit_ns_id_desc (ns : nvme_ns_instance) : U nvme_ns_instance :=
  if ns_id_desc_raw ns =? 0 then mret ns
  else
    free (ns_id_desc_raw ns);;
    mret (ns <| ns_id_desc := no_descs |> <| ns_id_desc_raw := 0 |>).

Definition init_id_cs_ns (ns : nvme_ns_instance) : U (Z * nvme_ns_instance) :=
  ctrl ← get_ctrl;
  vs ← nvme_version ctrl;
  if vs <? NVME_VS 2 0 0 then mret (0, ns)
  else match ns_id_desc ns !! Z.to_nat NVME_NIDT_CSI with
       | None => crash F_oob
       | Some None => mret (0, ns)
       | Some (Some desc) =>
         csi ← desc_nid0 (ns_id_desc_raw ns) desc;
         data ← zalloc NVME_IDENTIFY_DATA_SIZE;
         if data =? 0 then mret (- ENOMEM, ns)
         else
           ret ← nvme_identify_cs_ns data NVME_IDENTIFY_DATA_SIZE (ns_nsid ns) csi;
           if ret <? 0 then free data;; mret (ret, ns)
           else if csi =? NVME_CSI_NVM then mret (0, ns <| ns_id_ns_nvm := data |>)
           else if csi =? NVME_CSI_ZNS then mret (0, ns <| ns_id_ns_zns := data |>)
           else free data;; mret (ret, ns)
       end.
Definition deinit_id_cs_ns (ns : nvme_ns_instance) : U nvme_ns_instance :=
  ns ← (if ns_id_ns_nvm ns =? 0 then mret ns
        else free (ns_id_ns_nvm ns);; mret (ns <| ns_id_ns_nvm := 0 |>));
  if ns_id_ns_zns ns =? 0 then mret ns
  else free (ns_id_ns_zns ns);; mret (ns <| ns_id_ns_zns := 0 |>).

Definition init_ns_instance (ns : nvme_ns_instance) : U (Z * nvme_ns_instance) :=
  '(ret, ns) ← init_id_ns ns;
  if ret <? 0 then mret (ret, ns)
  else
    '(ret, ns) ← init_ns_id_desc ns;
    if ret <? 0 then ns ← deinit_id_ns ns; mret (ret, ns)
    else
      '(ret, ns) ← init_id_cs_ns ns;
      if ret <? 0 then ns ← deinit_ns_id_desc ns; ns ← deinit_id_ns ns; mret (ret, ns)
      else mret (0, ns).
Definition deinit_ns_instance (ns : nvme_ns_instance) : U nvme_ns_instance :=
  ns ← deinit_id_cs_ns ns;
  ns ← deinit_ns_id_desc ns;
  deinit_id_ns ns.

(** How the loop over the active list ends. *)
Inductive ns_loop :=
| Loop_end (nr_act : Z) (nss : list nvme_ns_instance)
| Loop_free_list (nss : list nvme_ns_instance)
| Loop_exit (i ret : Z) (nss : list nvme_ns_instance).

(** [ns_list[i]] *)
Definition ns_list_at (ns_list i : Z) : U Z :=
  bs ← ublock ns_list;
  match load_le 4 bs (i * 4) with Some v => mret v | None => crash F_oob end.

Fixpoint init_ns_loop (ix : list Z) (ns_list nn last nr_act : Z) (nss : list nvme_ns_instance) :
    U ns_loop :=
  match ix with
  | [] => mret (Loop_end nr_act nss)
  | i :: ix =>
    nsid ← ns_list_at ns_list i;
    if nsid =? 0 then mret (Loop_end nr_act nss)
    else if nsid <=? last then mret (Loop_free_list nss)
    else if nn <? nsid then mret (Loop_end nr_act nss)
    else
      ns ← elem nss (nsid - 1);
      '(ret, ns) ← init_ns_instance (ns <| ns_nsid := nsid |>);
      let nss := <[Z.to_nat (nsid - 1) := ns]> nss in
      if ret <? 0 then mret (Loop_exit i ret nss)
      else init_ns_loop ix ns_list nn nsid (nr_act + 1) nss
  end.
(** [for (i--; i >= 0; i--)] over the indices [ix], the largest first. *)
Fixpoint exit_ns_loop (ix : list Z) (ns_list : Z) (nss : list nvme_ns_instance) :
    U (list nvme_ns_instance) :=
  match ix with
  | [] => mret nss
  | i :: ix =>
    nsid ← ns_list_at ns_list i;
    ns ← elem nss (u32 (nsid - 1));
    ns ← deinit_ns_instance ns;
    exit_ns_loop ix ns_list (<[Z.to_nat (u32 (nsid - 1)) := ns]> nss)
  end.

(** After [nvme_id_ctrl_nn] the value of [ret] is 0, and it stays 0 on the way to
    [free_ns_group] and to [free_ns_list] from inside the loop. *)
Definition init_ns_group : U Z :=
  ctrl ← get_ctrl;
  '(ret, nn) ← nvme_id_ctrl_nn ctrl;
  if ret <? 0 then mret ret
  else
    nn ← match nn with Some nn => mret nn | None => crash F_uninit end;
    let nn := if 1024 <? nn then 1024 else nn in
    ns_grp ← zalloc (SIZEOF_nvme_ns_group + nn * SIZEOF_nvme_ns_instance);
    if ns_grp =? 0 then mret (- ENOMEM)
    else
      ns_list ← zalloc NVME_IDENTIFY_DATA_SIZE;
      if ns_list =? 0 then free ns_grp;; mret ret
      else
        let free_ns_list (ret : Z) : U Z := free ns_list;; free ns_grp;; mret ret in
        ret ← nvme_identify_ns_list_active ns_list NVME_IDENTIFY_DATA_SIZE 0;
        if ret <? 0 then free_ns_list ret
        else
          r ← init_ns_loop (upto 0 nn) ns_list nn 0 0 (replicate (Z.to_nat nn) ns_zero);
          match r with
          | Loop_end nr_act nss =>
            BUG_ON (nr_act =? 0);;
            upd_ndev (λ d, d <| di_ns_grp := Some (ns_grp, Build_nvme_ns_group nr_act ns_list nn nss) |>);;
            mret 0
          | Loop_free_list _ => free_ns_list 0
          | Loop_exit i ret nss =>
            _ ← exit_ns_loop (reverse (upto 0 i)) ns_list nss;
            free_ns_list ret
          end.

Fixpoint deinit_nss (nss : list nvme_ns_instance) : U unit :=
  match nss with
  | [] => mret tt
  | ns :: nss => _ ← deinit_ns_instance ns; deinit_nss nss
  end.
Definition deinit_ns_group : U unit :=
  d ← get_ndev;
  match di_ns_grp d with
  | None => mret tt
  | Some (p, grp) =>
    deinit_nss (take (Z.to_nat (grp_nr_ns grp)) (grp_ns grp));;
    free (grp_act_list grp);;
    free p;;
    upd_ndev (λ d, d <| di_ns_grp := None |>)
  end.

(** ** PCI device *)

(** [ret |= get(&pdev->field)] *)
Definition or_get {A} (ret : Z) (m : U (Z * option A)) (set : A → pci_dev_instance → pci_dev_instance)
    (pdev : pci_dev_instance) : U (Z * pci_dev_instance) :=
  '(r, v) ← m;
  mret (Z.lor ret r, match v with Some v => set v pdev | None => pdev end).

Definition init_pci_dev_instance : U Z :=
  p ← zalloc SIZEOF_pci_dev_instance;
  if p =? 0 then mret (- ENOMEM)
  else
    let free_pdev (ret : Z) : U Z := free p;; mret ret in
    '(ret, pdev) ← or_get 0 nvme_get_pci_bdf (λ v x, x <| pdi_bdf := v |>) pdi_zero;
    if ret <? 0 then free_pdev ret
    else
      '(ret, pdev) ← or_get 0 pci_hd_read_vendor_id (λ v x, x <| pdi_vendor_id := v |>) pdev;
      '(ret, pdev) ← or_get ret pci_hd_read_device_id (λ v x, x <| pdi_device_id := v |>) pdev;
      '(ret, pdev) ← or_get ret (nvme_get_pci_capability PCI_CAP_ID_MSI SIZEOF_pci_cap_msi got_msi)
                       (λ v x, x <| pdi_msi := v |>) pdev;
      '(ret, pdev) ← or_get ret (nvme_get_pci_capability PCI_CAP_ID_MSIX SIZEOF_pci_cap_msix got_msix)
                       (λ v x, x <| pdi_msix := v |>) pdev;
      '(ret, pdev) ← or_get ret (nvme_get_pci_capability PCI_CAP_ID_PM SIZEOF_pci_cap_pm got_pm)
                       (λ v x, x <| pdi_pm := v |>) pdev;
      '(ret, pdev) ← or_get ret
                       (nvme_get_pci_capability PCI_CAP_ID_EXP SIZEOF_pci_cap_express got_express)
                       (λ v x, x <| pdi_express := v |>) pdev;
      '(_, pdev) ← or_get 0 (nvme_get_pcie_capability PCI_EXT_CAP_ID_LTR SIZEOF_pci_ext_cap got_ltr)
                     (λ v x, x <| pdi_ltr := v |>) pdev;
      '(_, pdev) ← or_get 0 (nvme_get_pcie_capability PCI_EXT_CAP_ID_L1SS SIZEOF_pci_ext_cap got_l1ss)
                     (λ v x, x <| pdi_l1ss := v |>) pdev;
      if ret <? 0 then free_pdev ret
      else
        '(ret, link_sts) ← pci_exp_read_link_status (exp_offset (pdi_express pdev));
        if ret <? 0 then free_pdev ret
        else
          link_sts ← match link_sts with Some v => mret v | None => crash F_uninit end;
          let pdev := pdev
            <| pdi_link_speed := Z.land link_sts PCI_EXP_LNKSTA_CLS |>
            <| pdi_link_width := Z.shiftr (Z.land link_sts PCI_EXP_LNKSTA_NLW) PCI_EXP_LNKSTA_NLW_SHIFT |>
            <| pdi_msi_cap_vectors :=
                 Z.shiftl 1 (Z.shiftr (Z.land (msi_mc (pdi_msi pdev)) PCI_MSI_FLAGS_QMASK) 1) |>
            <| pdi_msix_cap_vectors := Z.land (msix_mc (pdi_msix pdev)) PCI_MSIX_FLAGS_QSIZE + 1 |> in
          upd_ndev (λ d, d <| di_pdev := Some (p, pdev) |>);;
          mret 0.
Definition deinit_pci_dev_instance : U unit :=
  d ← get_ndev;
  match di_pdev d with
  | None => mret tt
  | Some (p, _) => free p;; upd_ndev (λ d, d <| di_pdev := None |>)
  end.

(** ** Stages *)

Definition disconnect : U unit :=
  d ← get_ndev;
  nvme_gnl_disconnect (di_sock_fd d);;
  upd_ndev (λ d, d <| di_sock_fd := -1 |>).

Definition nvme_init_stage1 : U Z :=
  let out_gnl_disconnect (ret : Z) : U Z := disconnect;; mret ret in
  chk_lt0_rtn nvme_disable_controller_complete (- EPERM) (λ _,
  chk_lt0_obj (nvme_get_dev_info) (- EPERM) (λ ret _, mret ret) (λ _ pub,
  upd_ndev (λ d, match pub with Some pub => d <| di_dev_pub := pub |> | None => d end);;
  chk_lt0_rtn nvme_gnl_connect (- EPERM) (λ sock_fd,
  upd_ndev (λ d, d <| di_sock_fd := sock_fd |>);;
  chk_lt0_goto (nvme_create_aq_pair NVME_AQ_MAX_SIZE NVME_AQ_MAX_SIZE) (- EPERM) out_gnl_disconnect (λ _,
  chk_lt0_goto (nvme_set_irq NVME_INT_PIN 1) (- EPERM) out_gnl_disconnect (λ _,
  upd_ndev (λ d, d <| di_irq_type := NVME_INT_PIN |> <| di_nr_irq := 1 |>);;
  chk_lt0_goto nvme_enable_controller (- EPERM) out_gnl_disconnect (λ _,
  chk_lt0_goto (init_ctrl_instance NVME_INIT_STAGE1) (- EPERM) out_gnl_disconnect (λ _,
  mret 0))))))).
Definition nvme_release_stage1 : U unit :=
  deinit_ctrl_instance NVME_INIT_STAGE1;; disconnect.

Definition nvme_init_stage2 : U Z :=
  let exit_pci_dev_instance (ret : Z) : U Z := deinit_pci_dev_instance;; mret ret in
  let exit_ctrl_instance (ret : Z) : U Z :=
    deinit_ctrl_instance NVME_INIT_STAGE2;; exit_pci_dev_instance ret in
  let exit_ioq (ret : Z) : U Z := nvme_deinit_ioq_info;; exit_ctrl_instance ret in
  chk_lt0_rtn nvme_disable_controller_complete (- EPERM) (λ _,
  chk_lt0_rtn (nvme_create_aq_pair NVME_AQ_MAX_SIZE NVME_AQ_MAX_SIZE) (- EPERM) (λ _,
  chk_lt0_rtn init_pci_dev_instance (- EPERM) (λ _,
  d ← get_ndev;
  ctrl ← the_ctrl d;
  pdev ← match di_pdev d with Some (_, pdev) => mret pdev | None => crash F_null end;
  let vectors := pdi_msix_cap_vectors pdev in
  let nr_irq := u16 (if vectors <? ctrl_nr_cq ctrl + 1 then vectors else ctrl_nr_cq ctrl + 1) in
  upd_ndev (λ d, d <| di_irq_type := NVME_INT_MSIX |> <| di_nr_irq := nr_irq |>);;
  chk_lt0_goto (nvme_set_irq NVME_INT_MSIX nr_irq) (- EPERM) exit_pci_dev_instance (λ _,
  chk_lt0_goto nvme_enable_controller (- EPERM) exit_pci_dev_instance (λ _,
  chk_lt0_goto (init_ctrl_instance NVME_INIT_STAGE2) (- EPERM) exit_pci_dev_instance (λ _,
  chk_lt0_goto nvme_init_ioq_info (- EPERM) exit_ctrl_instance (λ _,
  chk_lt0_goto init_ns_group (- EPERM) exit_ioq (λ _,
  mret 0)))))))).
Definition nvme_release_stage2 : U unit :=
  deinit_ns_group;;
  nvme_deinit_ioq_info;;
  deinit_ctrl_instance NVME_INIT_STAGE2;;
  deinit_pci_dev_instance.

(** The address of the device information, [None] for [NULL]. *)
Definition nvme_init : U (option Z) :=
  ndev ← zalloc SIZEOF_nvme_dev_info;
  if ndev =? 0 then mret None
  else
    let out : U (option Z) := free ndev;; mret None in
    upd_ndev (λ _, dev_info_zero);;
    fd ← uopen;
    upd_ndev (λ d, d <| di_fd := fd |>);;
    if fd <? 0 then out
    else
      ret ← nvme_init_stage1;
      if ret <? 0 then out
      else
        ret ← nvme_init_stage2;
        if ret <? 0 then out
        else
          upd_ndev (λ d, d <| di_io_sqes := NVME_NVM_IOSQES |> <| di_io_cqes := NVME_NVM_IOCQES |>);;
          mret (Some ndev).

Definition nvme_deinit (ndev : Z) : U unit :=
  nvme_release_stage2;;
  nvme_release_stage1;;
  d ← get_ndev;
  uclose (di_fd d);;
  free ndev.

(** [nr_irq] has no value when [type] is none of the four. *)
Definition nvme_reinit (asqsz acqsz : Z) (type : nvme_irq_type) : U Z :=
  ctrl ← get_ctrl;
  let nr_cq := u16 (ctrl_nr_cq ctrl + 1) in
  chk_lt0_rtn nvme_disable_controller_complete (- EPERM) (λ _,
  chk_lt0_rtn (nvme_create_aq_pair asqsz acqsz) (- EPERM) (λ _,
  nr_irq ← match type with
           | NVME_INT_PIN | NVME_INT_MSI_SINGLE => mret 1
           | NVME_INT_MSI_MULTI => mret (if 32 <? nr_cq then 32 else nr_cq)
           | NVME_INT_MSIX => mret (if 2048 <? nr_cq then 2048 else nr_cq)
           | _ => crash F_uninit
           end;
  ret ← nvme_set_irq type nr_irq;
  if ret <? 0 then
    upd_ndev (λ d, d <| di_irq_type := NVME_INT_NONE |> <| di_nr_irq := 0 |>);;
    mret ret
  else
    upd_ndev (λ d, d <| di_irq_type := type |> <| di_nr_irq := nr_irq |>);;
    chk_lt0_rtn nvme_enable_controller (- EPERM) (λ _,
    mret 0))).
End core.
