(* ===== verification/Bag.v ===== *)
(** * Ownership of memory and descriptors in library code

    A triple [owns l F d m Q] reads: started with the allocations [l] (beside those of
    the caller, [base]), the open descriptors [F] and the device information [d], [m] is
    safe in mode [E] and ends in allocations, descriptors and device information that
    satisfy [Q].  [l] is a bag: its order does not matter ([owns_perm]).  What the kernel
    answers, and what it writes to memory, is arbitrary. *)

From S2P Require Import Prelude Layout Types Kernel Core Host HostSpec LibIoctl LibNetlink LibCmd.

(** The block of a pointer that may be [NULL]. *)
Definition ptrs (p : Z) : list Z := if p =? 0 then [] else [p].
Lemma ptrs_pos p : p ≠ 0 → ptrs p = [p].
Proof. intros. unfold ptrs. by rewrite (proj2 (Z.eqb_neq p 0)). Qed.
Lemma ptrs_cons p l : p ≠ 0 → p :: l = ptrs p ++ l.
Proof. intros. by rewrite ptrs_pos. Qed.

Section bag.
Context {H : Host} (base : gset Z).

Definition live (s : ustate) : gset Z := dom (u_heap s).

Record held (l : list Z) (F : gset Z) (d : nvme_dev_info) (s : ustate) : Prop := {
  held_nodup : NoDup l;
  held_null : 0 ∉ l;
  held_base : (list_to_set l : gset Z) ## base;
  held_live : live s = list_to_set l ∪ base;
  held_fds : u_fds s = F;
  held_ndev : u_ndev s = d }.

Definition post A := A → list Z → gset Z → nvme_dev_info → Prop.
Definition owns (E : mode) {A} (l : list Z) (F : gset Z) (d : nvme_dev_info) (m : U A) (Q : post A) : Prop :=
  ∀ s, held l F d s → uwp E m (λ r s', ∃ l' F' d', held l' F' d' s' ∧ Q r l' F' d') s.

#[export] Instance held_proper : Proper ((≡ₚ) ==> eq ==> eq ==> eq ==> impl) held.
Proof.
  intros l l' Hl F ? <- d ? <- s ? <- [H1 H2 H3 H4 H5 H6]. split.
  all: try done.
  - by rewrite <-Hl.
  - by rewrite <-Hl.
  - by rewrite <-Hl.
  - by rewrite <-Hl.
Qed.

(** A change of the kernel only, or of the contents of blocks. *)
Lemma held_same l F d s s' :
  live s' = live s → u_fds s' = u_fds s → u_ndev s' = u_ndev s → held l F d s → held l F d s'.
Proof. intros Hl Hf Hd []. split; try done; congruence. Qed.

Section rules.
Context {E : mode}.
#[local] Notation owns := (owns E).

Lemma owns_perm {A} l l' F d (m : U A) Q : l ≡ₚ l' → owns l' F d m Q → owns l F d m Q.
Proof. intros Hl Hm s Hs. apply Hm. by rewrite <-Hl. Qed.
Lemma owns_ret {A} (r : A) l F d (Q : post A) : Q r l F d → owns l F d (mret r) Q.
Proof. intros HQ s Hs. apply uwp_ret. eauto 10. Qed.
Lemma owns_bind {A B} (m : U A) (f : A → U B) l F d Q :
  owns l F d m (λ r l' F' d', owns l' F' d' (f r) Q) → owns l F d (m ≫= f) Q.
Proof.
  intros Hm s Hs. eapply uwp_bind_of; [by apply Hm|].
  intros r s' (l' & F' & d' & Hs' & Hf). by apply Hf.
Qed.
Lemma owns_mono {A} (m : U A) l F d (P Q : post A) :
  owns l F d m P → (∀ r l' F' d', P r l' F' d' → Q r l' F' d') → owns l F d m Q.
Proof.
  intros Hm HQ s Hs. eapply uwp_mono; [by apply Hm|].
  intros r s' (l' & F' & d' & Hs' & HP). eauto 10.
Qed.
Lemma owns_bind_of {A B} (m : U A) (f : A → U B) l F d P Q :
  owns l F d m P → (∀ r l' F' d', P r l' F' d' → owns l' F' d' (f r) Q) → owns l F d (m ≫= f) Q.
Proof. intros Hm Hf. apply owns_bind. by eapply owns_mono. Qed.
Lemma owns_get_ndev l F d Q : Q d l F d → owns l F d get_ndev Q.
Proof.
  intros HQ s Hs. apply uwp_ugets. rewrite (held_ndev _ _ _ _ Hs). eauto 10.
Qed.
Lemma owns_upd_ndev l F d f Q : Q tt l F (f d) → owns l F d (upd_ndev f) Q.
Proof.
  intros HQ s Hs. apply uwp_upd_ndev. exists l, F, (f d). split; [|done].
  destruct Hs as [?? ? ? ? ?]; split; simpl; try done. congruence.
Qed.
Lemma owns_crash {A} f l F d (Q : post A) : may_fault E f → owns l F d (crash f) Q.
Proof. by intros ? s _. Qed.
Lemma owns_BUG_ON (b : bool) l F d Q :
  may_fault E F_bug → (b = false → Q tt l F d) → owns l F d (BUG_ON b) Q.
Proof. intros ? HQ s Hs. apply uwp_BUG_ON; [done|]. intros Hb. eauto 10. Qed.
Lemma owns_if {A} (b : bool) (m1 m2 : U A) l F d Q :
  (b = true → owns l F d m1 Q) → (b = false → owns l F d m2 Q) → owns l F d (if b then m1 else m2) Q.
Proof. destruct b; auto. Qed.

(** *** Memory *)

Lemma fresh_addr_ge (h : gmap Z (list Z)) : 1 ≤ fresh_addr h ∧ ∀ k, k ∈ dom h → k < fresh_addr h.
Proof.
  unfold fresh_addr.
  cut (0 ≤ map_fold (λ k _ m, Z.max k m) 0 h ∧ ∀ k, k ∈ dom h → k ≤ map_fold (λ k _ m, Z.max k m) 0 h).
  { intros [? Hk]. split; [lia|]. intros k ?%Hk. lia. }
  apply (map_fold_weak_ind (λ r h, 0 ≤ r ∧ ∀ k, k ∈ dom h → k ≤ r)); [split; [done|set_solver]|].
  intros i x h' r _ [? Hk]. split; [lia|]. intros k. rewrite dom_insert_L, elem_of_union, elem_of_singleton.
  intros [->|Hin]; [lia|]. specialize (Hk _ Hin). lia.
Qed.
Lemma fresh_addr_new h : fresh_addr h ∉ dom h ∧ fresh_addr h ≠ 0.
Proof. destruct (fresh_addr_ge h) as [? Hk]. split; [|lia]. intros ?%Hk. lia. Qed.

Lemma held_new l F d s n :
  held l F d s →
  held (fresh_addr (u_heap s) :: l) F d (s <| u_heap ::= <[fresh_addr (u_heap s) := zeros n]> |>).
Proof.
  intros [H1 H2 H3 H4 H5 H6]. destruct (fresh_addr_new (u_heap s)) as [Hn H0].
  unfold live in *. rewrite H4 in Hn.
  split; unfold live; simpl; try done.
  - apply NoDup_cons. set_solver.
  - set_solver.
  - set_solver.
  - rewrite dom_insert_L, H4. set_solver.
Qed.
Lemma held_drop p l F d s :
  held (p :: l) F d s → held l F d (s <| u_heap ::= delete p |>).
Proof.
  intros [H1 H2 H3 H4 H5 H6]. apply NoDup_cons in H1 as [Hp H1].
  split; unfold live in *; simpl in *; try done.
  - set_solver.
  - set_solver.
  - rewrite dom_delete_L, H4. set_solver.
Qed.

Lemma owns_new_ublock n l F d (Q : post Z) :
  (∀ p, p ≠ 0 → Q p (p :: l) F d) → owns l F d (new_ublock n) Q.
Proof.
  intros HQ s Hs. unfold uwp, new_ublock. simpl. do 3 eexists.
  split; [by apply held_new|]. apply HQ. by apply fresh_addr_new.
Qed.
Lemma owns_call {A} (f : kern → A * kern) l F d (Q : post A) :
  (∀ r, Q r l F d) → owns l F d (call f) Q.
Proof. intros HQ s Hs. apply uwp_call. intros r k _. exists l, F, d. split; [|done]. by apply (held_same _ _ _ s). Qed.
Lemma owns_zalloc n l F d (Q : post Z) :
  Q 0 l F d → (∀ p, p ≠ 0 → Q p (p :: l) F d) → owns l F d (zalloc n) Q.
Proof.
  intros H0 Hp. apply owns_bind, owns_call. intros [|]; [by apply owns_new_ublock|]. by apply (owns_ret 0).
Qed.
Lemma owns_free p l F d (Q : post unit) : Q tt l F d → owns (ptrs p ++ l) F d (free p) Q.
Proof.
  intros HQ s Hs. unfold uwp, free, ptrs in *. destruct (Z.eqb_spec p 0); [by eauto 10|]. simpl in Hs.
  assert (Hin : p ∈ live s) by (rewrite (held_live _ _ _ _ Hs); set_solver).
  unfold live in Hin. apply elem_of_dom in Hin as [? Hin]. rewrite Hin. simpl. do 3 eexists. split; [|done]. by apply held_drop.
Qed.
Lemma owns_ublock p l F d (Q : post (list Z)) :
  p ≠ 0 → p ∈ l → (∀ bs, Q bs l F d) → owns l F d (ublock p) Q.
Proof.
  intros Hp Hl HQ s Hs. unfold uwp, ublock. destruct (Z.eqb_spec p 0); [done|].
  assert (Hin : p ∈ live s) by (rewrite (held_live _ _ _ _ Hs); set_solver).
  unfold live in Hin. apply elem_of_dom in Hin as [? Hin]. rewrite Hin. simpl. eauto 10.
Qed.
Lemma owns_with_local {A} n (body : Z → U A) l F d (Q : post A) :
  (∀ p, p ≠ 0 → owns (p :: l) F d (body p) (λ r l' F' d', ∃ l2, l' ≡ₚ p :: l2 ∧ Q r l2 F' d')) →
  owns l F d (with_local n body) Q.
Proof.
  intros Hb. apply owns_bind, owns_new_ublock. intros p Hp. eapply owns_bind_of; [by apply Hb|].
  intros r l' F' d' (l2 & Hl & HQ) s Hs. rewrite Hl in Hs. unfold uwp. simpl.
  do 3 eexists. split; [|done]. by apply held_drop.
Qed.

(** *** Descriptors *)

Lemma fresh_fd_new F : fresh_fd F ∉ F ∧ 0 ≤ fresh_fd F.
Proof.
  unfold fresh_fd.
  cut (0 ≤ set_fold Z.max 0 F ∧ ∀ k, k ∈ F → k ≤ set_fold Z.max 0 F).
  { intros [? Hk]. split; [|lia]. intros ?%Hk. lia. }
  apply (set_fold_ind_L (λ r (X : gset Z), 0 ≤ r ∧ ∀ k, k ∈ X → k ≤ r)); [split; [done|set_solver]|].
  intros x X r _ [? Hk]. split; [lia|]. intros k [->%elem_of_singleton|Hin]%elem_of_union; [lia|].
  specialize (Hk _ Hin). lia.
Qed.
Lemma owns_new_fd ok l F d (Q : post Z) :
  Q (-1) l F d → (∀ fd, 0 ≤ fd → fd ∉ F → Q fd l ({[fd]} ∪ F) d) → owns l F d (new_fd ok) Q.
Proof.
  intros Hn Hf s Hs. unfold uwp, new_fd. pose proof (held_fds _ _ _ _ Hs) as HF. rewrite HF.
  destruct ok; [|by eauto 10]. exists l, ({[fresh_fd F]} ∪ F), d. split; [|apply Hf; by apply fresh_fd_new].
  destruct Hs; split; simpl; try done. by rewrite HF.
Qed.
Lemma owns_uclose fd l F d (Q : post unit) : Q tt l (F ∖ {[fd]}) d → owns l F d (uclose fd) Q.
Proof.
  intros HQ s Hs. unfold uwp, uclose, umodify. exists l, (F ∖ {[fd]}), d. split; [|done].
  destruct Hs as [?????? ]; split; simpl; try done. congruence.
Qed.

(** *** Checks *)

Lemma owns_CHK {A} (expr : U Z) cond (f : Z * bool → U A) l F d Q :
  may_fault E F_bug →
  owns l F d expr (λ r l' F' d', owns l' F' d' (f (r, cond r)) Q) →
  owns l F d (CHK_EXPR_VAL expr cond ≫= f) Q.
Proof.
  intros Hb Hm. apply owns_bind, owns_bind. eapply owns_mono; [exact Hm|]. intros r l' F' d' Hf.
  apply owns_bind, owns_BUG_ON; [done|]. intros _. by apply owns_ret.
Qed.
Lemma owns_chk_lt0_goto {A} (expr : U Z) errno (out rest : Z → U A) l F d Q :
  may_fault E F_bug →
  owns l F d expr (λ r l' F' d',
    (r < 0 → owns l' F' d' (out errno) Q) ∧ (0 ≤ r → owns l' F' d' (rest r) Q)) →
  owns l F d (chk_lt0_goto expr errno out rest) Q.
Proof.
  intros Hb Hm. apply owns_CHK; [done|]. eapply owns_mono; [exact Hm|]. intros r l' F' d' [Ho Hr].
  destruct (Z.ltb_spec r 0); auto with lia.
Qed.
Lemma owns_chk_lt0_rtn {A} (expr : U Z) (errno : A) rest l F d Q :
  may_fault E F_bug →
  owns l F d expr (λ r l' F' d',
    (r < 0 → Q errno l' F' d') ∧ (0 ≤ r → owns l' F' d' (rest r) Q)) →
  owns l F d (chk_lt0_rtn expr errno rest) Q.
Proof.
  intros Hb Hm. apply owns_CHK; [done|]. eapply owns_mono; [exact Hm|]. intros r l' F' d' [Ho Hr].
  destruct (Z.ltb_spec r 0); [apply owns_ret|]; auto with lia.
Qed.
Lemma owns_chk_ne_rtn {A} (expr : U Z) val (errno : A) rest l F d Q :
  may_fault E F_bug →
  owns l F d expr (λ r l' F' d',
    (r ≠ val → Q errno l' F' d') ∧ (r = val → owns l' F' d' (rest r) Q)) →
  owns l F d (chk_ne_rtn expr val errno rest) Q.
Proof.
  intros Hb Hm. apply owns_CHK; [done|]. eapply owns_mono; [exact Hm|]. intros r l' F' d' [Ho Hr].
  destruct (Z.eqb_spec r val); simpl; [|apply owns_ret]; auto.
Qed.
Lemma owns_chk_lt0_obj {A B} (expr : U (Z * A)) errno (out rest : Z → A → U B) l F d Q :
  may_fault E F_bug →
  owns l F d expr (λ r l' F' d',
    (r.1 < 0 → owns l' F' d' (out errno r.2) Q) ∧ (0 ≤ r.1 → owns l' F' d' (rest r.1 r.2) Q)) →
  owns l F d (chk_lt0_obj expr errno out rest) Q.
Proof.
  intros Hb Hm. apply owns_bind. eapply owns_mono; [exact Hm|]. intros [r a] l' F' d' [Ho Hr]. simpl in *.
  apply owns_bind, owns_BUG_ON; [done|]. intros _. destruct (Z.ltb_spec r 0); auto with lia.
Qed.
End rules.
End bag.
