(* ===== verification/LibQuiet.v ===== *)
(** * Library calls that keep no memory

    Most of the library, the synchronous commands above all, gives back whatever it
    allocates: it is [quiet].  Blocks it reads must be live ([L]).  The tactic [solve_quiet]
    derives this from the shape of the code. *)

From S2P Require Import Prelude Layout Types Kernel Core Structs Host HostSpec LibIoctl LibNetlink LibCmd LibAdmin LibQueue LibCore Bag.

Create HintDb quiet.

Section quiet.
Context {H : Host} (base : gset Z).
#[local] Notation owns := (owns base careful).

(** The results satisfy [P]. *)
Definition quiet_at {A} (P : A → Prop) (L : list Z) (m : U A) : Prop :=
  ∀ l F d (Q : post A), Forall (λ p, p ≠ 0 ∧ p ∈ l) L → (∀ r, P r → Q r l F d) → owns l F d m Q.
Definition quiet {A} : list Z → U A → Prop := quiet_at (λ _, True).

Lemma quiet_at_ret {A} (P : A → Prop) L (a : A) : P a → quiet_at P L (mret a).
Proof. intros HP l F d Q _ HQ. by apply owns_ret, HQ. Qed.
Lemma quiet_ret {A} L (a : A) : quiet L (mret a).
Proof. by apply quiet_at_ret. Qed.
Lemma quiet_bind {A B} (P : B → Prop) L (m : U A) (f : A → U B) :
  quiet L m → (∀ a, quiet_at P L (f a)) → quiet_at P L (m ≫= f).
Proof. intros Hm Hf l F d Q HL HQ. apply owns_bind, Hm; [done|]. intros a _. by apply Hf. Qed.
Lemma owns_quiet {A} (m : U A) l F d (Q : post A) : quiet [] m → (∀ r, Q r l F d) → owns l F d m Q.
Proof. intros Hm HQ. apply Hm; auto. Qed.
Lemma quiet_mono {A} L L' (m : U A) : L' ⊆ L → quiet L' m → quiet L m.
Proof.
  intros Hs Hm l F d Q HL HQ. apply Hm; [|done]. rewrite Forall_forall in *. auto.
Qed.
Lemma quiet_crash {A} (P : A → Prop) L f : may_fault careful f → quiet_at P L (crash f).
Proof. intros Hf l F d Q _ _. by apply owns_crash. Qed.
Lemma quiet_stuck {A} (P : A → Prop) L : quiet_at P L stuck.
Proof. intros l F d Q _ _ s Hs. exact I. Qed.
Lemma quiet_get_ndev L : quiet L get_ndev.
Proof. intros l F d Q _ HQ. by apply owns_get_ndev, HQ. Qed.
Lemma quiet_call {A} L (f : kern → A * kern) : quiet L (call f).
Proof. intros l F d Q _ HQ. apply owns_call. auto. Qed.
Lemma quiet_ioctl L req : quiet L (ioctl req).
Proof.
  intros l F d Q _ HQ s Hs. unfold uwp, ioctl. destruct (k_ioctl req (u_kern s)) as [[[r ps] k]|]; [|exact I].
  exists l, F, d. split; [|by apply HQ]. by apply (held_same _ _ _ _ s).
Qed.
Lemma apply_writes_dom ws (h : gmap Z (list Z)) : dom (apply_writes ws h) = dom h.
Proof.
  unfold apply_writes. revert h. induction ws as [|w ws IH]; [done|]. intros h. simpl.
  by rewrite IH, dom_alter_L.
Qed.
Lemma quiet_recvmsg L n : quiet L (recvmsg n).
Proof.
  intros l F d Q _ HQ s Hs. unfold uwp, recvmsg.
  destruct (k_recvmsg n (u_kern s)) as [[[[r bs] ws] k]|]; [|exact I].
  exists l, F, d. split; [|by apply HQ]. apply (held_same _ _ _ _ s); [|done..|done].
  unfold live. simpl. apply apply_writes_dom.
Qed.
Lemma quiet_BUG_ON L b : quiet L (BUG_ON b).
Proof. intros l F d Q _ HQ. apply owns_BUG_ON; [simpl; auto|]. auto. Qed.
Lemma quiet_ublock L p : p ∈ L → quiet L (ublock p).
Proof.
  intros Hp l F d Q HL HQ. rewrite Forall_forall in HL. destruct (HL p Hp). apply owns_ublock; auto.
Qed.
Lemma quiet_in_bounds {A} L (o : option A) : quiet L (in_bounds o).
Proof. destruct o; [by apply quiet_at_ret|apply quiet_crash; simpl; auto]. Qed.
Lemma quiet_with_local {A} (P : A → Prop) L n (body : Z → U A) :
  (∀ p, quiet_at P (p :: L) (body p)) → quiet_at P L (with_local n body).
Proof.
  intros Hb l F d Q HL HQ. apply owns_with_local. intros p Hp. apply Hb.
  - constructor; [set_solver|]. eapply Forall_impl; [exact HL|]. set_solver.
  - intros r HP. exists l. auto.
Qed.
Lemma quiet_CHK L expr cond : quiet L expr → quiet L (CHK_EXPR_VAL expr cond).
Proof.
  intros He. apply quiet_bind; [done|]. intros r.
  apply quiet_bind; [apply quiet_BUG_ON|]. intros _. apply quiet_ret.
Qed.
Lemma quiet_lt0_rtn {A} (P : A → Prop) L (expr : U Z) (errno : A) rest :
  quiet L expr → P errno → (∀ r, quiet_at P L (rest r)) → quiet_at P L (chk_lt0_rtn expr errno rest).
Proof.
  intros He HP Hr. apply quiet_bind; [by apply quiet_CHK|]. intros [r b].
  destruct b; [by apply quiet_at_ret|apply Hr].
Qed.
Lemma quiet_ne_rtn {A} (P : A → Prop) L (expr : U Z) val (errno : A) rest :
  quiet L expr → P errno → (∀ r, quiet_at P L (rest r)) → quiet_at P L (chk_ne_rtn expr val errno rest).
Proof.
  intros He HP Hr. apply quiet_bind; [by apply quiet_CHK|]. intros [r b].
  destruct b; [by apply quiet_at_ret|apply Hr].
Qed.
Lemma quiet_if {A} (P : A → Prop) L (b : bool) (m1 m2 : U A) :
  quiet_at P L m1 → quiet_at P L m2 → quiet_at P L (if b then m1 else m2).
Proof. by destruct b. Qed.
End quiet.

#[export] Hint Resolve quiet_at_ret quiet_ret quiet_stuck quiet_get_ndev quiet_call quiet_ioctl quiet_recvmsg
  quiet_BUG_ON quiet_in_bounds : quiet.
#[export] Hint Extern 1 (may_fault careful _) => simpl; tauto : quiet.
#[export] Hint Extern 1 (_ ∈ _ :: _) => set_solver : quiet.
#[export] Hint Resolve quiet_crash quiet_ublock : quiet.

(** Follow the code; a function that has its own lemma is not entered. *)
Ltac solve_quiet :=
  intros; repeat first
    [ solve [eauto 2 with quiet]
    | lazymatch goal with |- quiet_at ?b (λ _, True) ?L ?m => solve [change (quiet b L m); eauto 2 with quiet] end
    | apply quiet_lt0_rtn; [|done|intros] | apply quiet_ne_rtn; [|done|intros]
    | apply quiet_bind; intros | apply quiet_if | case_match ].
(** [owns_quiet] under a bind. *)
Ltac pass tac := apply owns_bind, owns_quiet; [tac|].

(** The function a call is about. *)
Ltac head t := lazymatch t with ?f _ => head f | _ => t end.

Section calls.
Context {H : Host} (base : gset Z).
#[local] Notation owns := (owns base careful).
#[local] Notation quiet := (quiet base).
#[local] Notation quiet_at := (quiet_at base).

Lemma quiet_uread L t p q : q ∈ L → quiet L (uread t p q).
Proof. intros. apply quiet_bind; [by apply quiet_ublock|]. solve_quiet. Qed.
Lemma quiet_ioctl0 L req : quiet L (ioctl0 req).
Proof. unfold ioctl0. solve_quiet. Qed.
Lemma quiet_ioctl_ret {A} L req (got : list upayload → A) : quiet L (ioctl_ret req got).
Proof. unfold ioctl_ret. solve_quiet. Qed.
Lemma quiet_read_val L m : quiet L m → quiet L (read_val m).
Proof. unfold read_val. solve_quiet. Qed.
Lemma quiet_read_generic L region oft len : quiet L (read_val (nvme_read_generic region oft len)).
Proof. apply quiet_read_val, quiet_ioctl_ret. Qed.
Lemma quiet_lib_submit L cmd bs : quiet L (nvme_submit_64b_cmd cmd bs).
Proof. unfold nvme_submit_64b_cmd. solve_quiet. Qed.

(** The message is freed on every path after it was allocated. *)
Lemma quiet_exchange L m : quiet L (
  ret ← nl_send m;
  if ret <? 0 then mret ret
  else '(ret, m) ← nl_recv m; if ret <? 0 then mret ret else reap_answer m).
Proof. unfold nl_send, nl_recv, reap_answer. solve_quiet. Qed.
Lemma quiet_gnl_timeout L cqid expect buf size timeout :
  quiet L (nvme_gnl_cmd_reap_cqe_timeout cqid expect buf size timeout).
Proof.
  intros l F d Q _ HQ. unfold nvme_gnl_cmd_reap_cqe_timeout.
  assert (Hret : ∀ r, owns l F d (mret r) Q) by (intros r; by apply owns_ret, HQ).
  apply owns_bind, owns_get_ndev. apply owns_bind, owns_bind, owns_BUG_ON; [simpl; auto|]. intros _.
  apply owns_bind, owns_zalloc; [by apply owns_ret|]. intros nm Hnm.
  rewrite (proj2 (Z.eqb_neq nm 0)) by done. apply owns_bind, owns_zalloc.
  { rewrite ptrs_cons by done. apply owns_bind, owns_free. by apply owns_ret. }
  intros nlh Hnlh. rewrite (proj2 (Z.eqb_neq nlh 0)) by done.
  pass solve_quiet. intros m. apply owns_ret.
  pass ltac:(unfold reap_request; solve_quiet). intros m''.
  pass ltac:(apply quiet_exchange). intros r.
  apply owns_bind, owns_bind. rewrite ptrs_cons by done. apply owns_free.
  rewrite ptrs_cons by done. by apply owns_free.
Qed.
Lemma quiet_gnl L cqid expect buf size : quiet L (nvme_gnl_cmd_reap_cqe cqid expect buf size).
Proof. apply quiet_gnl_timeout. Qed.

Lemma quiet_valid_entry L entry sqid cid st : entry ∈ L → quiet L (nvme_valid_cq_entry entry sqid cid st).
Proof.
  intros. unfold nvme_valid_cq_entry.
  repeat first [apply quiet_uread; done | apply quiet_bind; intros | apply quiet_ret | case_match].
Qed.
Lemma quiet_sync {A} (P : A → Prop) L (fail : Z → A) submit sqid cqid rest :
  (∀ L, quiet L submit) → P (fail (- EPERM)) → P (fail (- ETIME)) →
  (∀ cid entry, quiet_at P (entry :: L) (rest cid entry)) →
  quiet_at P L (sync_cmd fail submit sqid cqid rest).
Proof.
  intros Hs Hp He Hr. apply quiet_with_local. intros p.
  apply quiet_lt0_rtn; [done..|]. intros r. apply quiet_lt0_rtn; [apply quiet_ioctl0|done|]. intros _.
  apply quiet_ne_rtn; [apply quiet_gnl|done|]. intros _. apply Hr.
Qed.
Lemma quiet_admin {A} (P : A → Prop) L (fail : Z → A) submit rest :
  (∀ L, quiet L submit) → P (fail (- EPERM)) → P (fail (- ETIME)) →
  (∀ entry, quiet_at P (entry :: L) (rest entry)) → quiet_at P L (admin_cmd fail submit rest).
Proof.
  intros Hs Hp He Hr. apply quiet_sync; [done..|]. intros cid entry.
  apply quiet_lt0_rtn; [apply quiet_valid_entry; set_solver|done|]. intros _. apply Hr.
Qed.
Lemma quiet_admin0 L submit : (∀ L, quiet L submit) → quiet L (admin_cmd0 submit).
Proof. intros. apply quiet_admin; [done..|]. solve_quiet. Qed.

Lemma quiet_cmd_identify L identify buf size : quiet L (nvme_cmd_identify identify buf size).
Proof. unfold nvme_cmd_identify. apply quiet_bind; [solve_quiet|]. intros _. apply quiet_lib_submit. Qed.

Ltac identify := match goal with |- LibQuiet.quiet _ _ ?m => let h := head m in unfold h end; apply quiet_admin0; intros;
  match goal with |- LibQuiet.quiet _ _ ?m => let h := head m in unfold h end; apply quiet_cmd_identify.

Lemma quiet_identify_ctrl L p : quiet L (nvme_identify_ctrl p).
Proof. identify. Qed.
Lemma quiet_identify_ns_active L p nsid : quiet L (nvme_identify_ns_active p nsid).
Proof. identify. Qed.
Lemma quiet_identify_ns_list L p size nsid : quiet L (nvme_identify_ns_list_active p size nsid).
Proof. identify. Qed.
Lemma quiet_identify_ns_desc L p size nsid : quiet L (nvme_identify_ns_desc_list p size nsid).
Proof. identify. Qed.
Lemma quiet_identify_cs_ns L p size nsid csi : quiet L (nvme_identify_cs_ns p size nsid csi).
Proof. identify. Qed.
Lemma quiet_identify_cs_ctrl L p size csi : quiet L (nvme_identify_cs_ctrl p size csi).
Proof. identify. Qed.
Lemma quiet_identify_csc L p cntid : quiet L (nvme_identify_ctrl_csc_list p cntid).
Proof. identify. Qed.
Lemma quiet_iocs_profile L sel : quiet L (nvme_get_feat_iocs_profile sel).
Proof.
  apply quiet_admin; [|done..|].
  - intros. unfold nvme_cmd_get_feat_iocs_profile, nvme_cmd_get_feature. apply quiet_lib_submit.
  - intros entry. apply quiet_bind; [apply quiet_uread; set_solver|]. solve_quiet.
Qed.
End calls.

#[export] Hint Resolve quiet_uread quiet_ioctl0 quiet_ioctl_ret quiet_read_generic quiet_lib_submit quiet_gnl
  quiet_cmd_identify quiet_identify_ctrl quiet_identify_ns_active quiet_identify_ns_list
  quiet_identify_ns_desc quiet_identify_cs_ns quiet_identify_cs_ctrl quiet_identify_csc
  quiet_iocs_profile : quiet.
