(* ===== verification/LibSafe.v ===== *)
(** * Start-up and shutdown of the library keep account of memory

    For any kernel and any device: [nvme_init] frees nothing it does not own, and when it
    succeeds [nvme_deinit] gives back all that the device information owns. *)

From S2P Require Import Prelude Layout Types Kernel Core Irq Ioctl Structs Host HostSpec LibIoctl LibNetlink LibCmd LibAdmin LibQueue LibCore Bag LibQuiet.


(** ** What the structures own *)

Definition own {A} (o : option (owned A)) : list Z := match o with Some (p, _) => ptrs p | None => [] end.

Definition cs_ptrs (c : nvme_ctrl_instance) : list Z :=
  ptrs (ctrl_id_ctrl_zns c) ++ ptrs (ctrl_id_ctrl_nvm c) ++ ptrs (ctrl_id_ctrl_csc c).
Definition ctrl_ptrs (o : option (owned nvme_ctrl_instance)) : list Z :=
  match o with
  | Some (p, c) => ptrs p ++ ptrs (ctrl_id_ctrl c) ++ own (ctrl_prop c) ++ cs_ptrs c
  | None => []
  end.
Definition ns_ptrs (n : nvme_ns_instance) : list Z :=
  ptrs (ns_id_ns_nvm n) ++ ptrs (ns_id_ns_zns n) ++ ptrs (ns_id_desc_raw n) ++ ptrs (ns_id_ns n).
Definition grp_ptrs (o : option (owned nvme_ns_group)) : list Z :=
  match o with
  | Some (p, g) => ptrs p ++ ptrs (grp_act_list g) ++ mjoin (ns_ptrs <$> grp_ns g)
  | None => []
  end.
Definition blocks (d : nvme_dev_info) : list Z :=
  grp_ptrs (di_ns_grp d) ++ own (di_iosqs d) ++ own (di_iocqs d) ++ ctrl_ptrs (di_ctrl d) ++ own (di_pdev d).

(** [nr_ns] is the number of instances. *)
Definition grp_ok (o : option (owned nvme_ns_group)) : Prop :=
  match o with Some (_, g) => length (grp_ns g) = Z.to_nat (grp_nr_ns g) | None => True end.

Lemma ptrs_nil p : ptrs p = [] → p = 0.
Proof. unfold ptrs. by destruct (Z.eqb_spec p 0). Qed.
Lemma cs_nil c : cs_ptrs c = [] → ctrl_id_ctrl_zns c = 0 ∧ ctrl_id_ctrl_nvm c = 0 ∧ ctrl_id_ctrl_csc c = 0.
Proof. unfold cs_ptrs. by intros [?%ptrs_nil [?%ptrs_nil ?%ptrs_nil]%app_eq_nil]%app_eq_nil. Qed.
Lemma ns_ptrs_eq n a b c e :
  ns_id_ns_nvm n = a → ns_id_ns_zns n = b → ns_id_desc_raw n = c → ns_id_ns n = e →
  ns_ptrs n = ptrs a ++ ptrs b ++ ptrs c ++ ptrs e.
Proof. by intros <- <- <- <-. Qed.
Lemma ns_nil n :
  ns_ptrs n = [] → ns_id_ns_nvm n = 0 ∧ ns_id_ns_zns n = 0 ∧ ns_id_desc_raw n = 0 ∧ ns_id_ns n = 0.
Proof.
  unfold ns_ptrs.
  by intros [?%ptrs_nil [?%ptrs_nil [?%ptrs_nil ?%ptrs_nil]%app_eq_nil]%app_eq_nil]%app_eq_nil.
Qed.

Ltac perm := try unfold cs_ptrs; simpl; try solve_Permutation.
(** An update with the value that is there. *)
Ltac same_record := repeat match goal with x : _ |- _ = ?x => is_var x; destruct x end; unfold set_field; simpl in *; by subst.
(** [owns_perm] to the list [l]. *)
Tactic Notation "reorder" constr(l) := apply (owns_perm _ _ l); [by perm|].

Section safe.
Context {H : Host} (base : gset Z).

(** ** Releasing: safe in any mode *)

Section release.
Context {E : mode}.
#[local] Notation owns := (owns base E).

(** Free a member when it is set, and clear it. *)
Lemma owns_free_if {A} p (m : U A) (m0 : U A) l F d Q :
  (p = 0 → owns l F d m0 Q) → owns l F d m Q →
  owns (ptrs p ++ l) F d (if p =? 0 then m0 else free p;; m) Q.
Proof.
  intros H0 Hm. destruct (Z.eqb_spec p 0) as [->|Hp]; [by apply H0|].
  apply owns_bind, owns_free. done.
Qed.

Lemma owns_get_ctrl p c l F d (Q : post _) :
  di_ctrl d = Some (p, c) → Q c l F d → owns l F d get_ctrl Q.
Proof. intros Hc HQ. apply owns_bind, owns_get_ndev. unfold the_ctrl. rewrite Hc. by apply owns_ret. Qed.

Section ctrl.
Context (p : Z) (c : nvme_ctrl_instance) (l : list Z) (F : gset Z) (d : nvme_dev_info)
  (Q : post unit) (Hc : di_ctrl d = Some (p, c)).
Let upd (c' : nvme_ctrl_instance) : nvme_dev_info := d <| di_ctrl := Some (p, c') |>.

Lemma owns_upd_ctrl f : Q tt l F (upd (f c)) → owns l F d (upd_ctrl f) Q.
Proof using Hc. intros HQ. apply owns_upd_ndev. unfold upd, set_field in *. by rewrite Hc. Qed.
Lemma upd_same : upd c = d.
Proof using Hc. unfold upd. same_record. Qed.

Lemma owns_free_ctrl_zns z :
  ctrl_id_ctrl_zns c = z → Q tt l F (upd (c <| ctrl_id_ctrl_zns := 0 |>)) → owns (ptrs z ++ l) F d free_ctrl_zns Q.
Proof using Hc.
  intros <- HQ. apply owns_bind, (owns_get_ctrl p c); [done|]. apply owns_free_if; [|by apply owns_upd_ctrl].
  intros Hz. apply owns_ret. rewrite <-upd_same. replace c with (c <| ctrl_id_ctrl_zns := 0 |>); [done|same_record].
Qed.
Lemma owns_free_ctrl_nvm z :
  ctrl_id_ctrl_nvm c = z → Q tt l F (upd (c <| ctrl_id_ctrl_nvm := 0 |>)) → owns (ptrs z ++ l) F d free_ctrl_nvm Q.
Proof using Hc.
  intros <- HQ. apply owns_bind, (owns_get_ctrl p c); [done|]. apply owns_free_if; [|by apply owns_upd_ctrl].
  intros Hz. apply owns_ret. rewrite <-upd_same. replace c with (c <| ctrl_id_ctrl_nvm := 0 |>); [done|same_record].
Qed.
Lemma owns_free_ctrl_csc z :
  ctrl_id_ctrl_csc c = z → Q tt l F (upd (c <| ctrl_id_ctrl_csc := 0 |>)) → owns (ptrs z ++ l) F d free_ctrl_csc Q.
Proof using Hc.
  intros <- HQ. apply owns_bind, (owns_get_ctrl p c); [done|]. apply owns_free_if; [|by apply owns_upd_ctrl].
  intros Hz. apply owns_ret. rewrite <-upd_same. replace c with (c <| ctrl_id_ctrl_csc := 0 |>); [done|same_record].
Qed.
Lemma owns_deinit_ctrl_property o :
  ctrl_prop c = o → Q tt l F (upd (c <| ctrl_prop := None |>)) → owns (own o ++ l) F d deinit_ctrl_property Q.
Proof using Hc.
  intros <- HQ. apply owns_bind, (owns_get_ctrl p c); [done|].
  destruct (ctrl_prop c) as [[q x]|] eqn:Hp; [by apply owns_bind, owns_free, owns_upd_ctrl|].
  apply owns_ret. rewrite <-upd_same. replace c with (c <| ctrl_prop := None |>); [done|same_record].
Qed.
End ctrl.

Definition no_cs (c : nvme_ctrl_instance) : nvme_ctrl_instance :=
  c <| ctrl_id_ctrl_zns := 0 |> <| ctrl_id_ctrl_nvm := 0 |> <| ctrl_id_ctrl_csc := 0 |>.
Lemma owns_deinit_id_cs_ctrl p c l F d (Q : post unit) :
  di_ctrl d = Some (p, c) → Q tt l F (d <| di_ctrl := Some (p, no_cs c) |>) →
  owns (cs_ptrs c ++ l) F d deinit_id_cs_ctrl Q.
Proof.
  intros Hc HQ. unfold cs_ptrs. rewrite <-!app_assoc.
  apply owns_bind, (owns_free_ctrl_zns p c); [done..|].
  apply owns_bind, (owns_free_ctrl_nvm p (c <| ctrl_id_ctrl_zns := 0 |>)); [done..|].
  apply (owns_free_ctrl_csc p (c <| ctrl_id_ctrl_zns := 0 |> <| ctrl_id_ctrl_nvm := 0 |>)); done.
Qed.

Lemma owns_deinit_stage2 p c l F d (Q : post unit) :
  di_ctrl d = Some (p, c) →
  Q tt l F (d <| di_ctrl := Some (p, no_cs c <| ctrl_prop := None |>) |>) →
  owns (own (ctrl_prop c) ++ cs_ptrs c ++ l) F d (deinit_ctrl_instance NVME_INIT_STAGE2) Q.
Proof.
  intros Hc HQ. apply owns_bind, owns_get_ndev. rewrite Hc.
  reorder (cs_ptrs c ++ own (ctrl_prop c) ++ l). apply owns_bind, (owns_deinit_id_cs_ctrl p c); [done|].
  apply (owns_deinit_ctrl_property p (no_cs c)); done.
Qed.
Lemma owns_deinit_stage1 o l F d (Q : post unit) :
  di_ctrl d = o → match o with Some (_, c) => own (ctrl_prop c) ++ cs_ptrs c = [] | None => True end →
  Q tt l F (d <| di_ctrl := None |>) →
  owns (ctrl_ptrs o ++ l) F d (deinit_ctrl_instance NVME_INIT_STAGE1) Q.
Proof.
  intros <- He HQ. apply owns_bind, owns_get_ndev.
  destruct (di_ctrl d) as [[p c]|] eqn:Hc; simpl.
  - rewrite He, app_nil_r, <-app_assoc. reorder (ptrs (ctrl_id_ctrl c) ++ ptrs p ++ l).
    apply owns_bind, owns_free_if; intros; apply owns_ret; (apply owns_bind, owns_free);
      by apply owns_upd_ndev.
  - apply owns_ret. replace d with (d <| di_ctrl := None |>); [done|same_record].
Qed.

Lemma owns_deinit_id_cs_ns n l F d (Q : post _) :
  Q (n <| ns_id_ns_nvm := 0 |> <| ns_id_ns_zns := 0 |>) l F d →
  owns (ptrs (ns_id_ns_nvm n) ++ ptrs (ns_id_ns_zns n) ++ l) F d (deinit_id_cs_ns n) Q.
Proof.
  intros HQ. apply owns_bind, owns_free_if; [|by apply owns_ret, owns_free_if; intros; apply owns_ret;
    [replace (n <| ns_id_ns_nvm := 0 |>) with (n <| ns_id_ns_nvm := 0 |> <| ns_id_ns_zns := 0 |>) by
      (destruct n; unfold set_field; simpl in *; by subst)|]].
  intros Hz. apply owns_ret. assert (n <| ns_id_ns_nvm := 0 |> = n) as Hn by same_record.
  rewrite Hn in HQ. apply owns_free_if; intros; apply owns_ret; [|done].
  by replace n with (n <| ns_id_ns_zns := 0 |>) by same_record.
Qed.
Lemma owns_deinit_ns_id_desc n z l F d (Q : post _) :
  ns_id_desc_raw n = z → (∀ t, Q (n <| ns_id_desc := t |> <| ns_id_desc_raw := 0 |>) l F d) →
  owns (ptrs z ++ l) F d (deinit_ns_id_desc n) Q.
Proof.
  intros <- HQ. apply owns_free_if; intros; apply owns_ret; [|done]. specialize (HQ (ns_id_desc n)).
  by replace n with (n <| ns_id_desc := ns_id_desc n |> <| ns_id_desc_raw := 0 |>) by same_record.
Qed.
Lemma owns_deinit_id_ns n z l F d (Q : post _) :
  ns_id_ns n = z → Q (n <| ns_id_ns := 0 |>) l F d → owns (ptrs z ++ l) F d (deinit_id_ns n) Q.
Proof.
  intros <- HQ. apply owns_free_if; intros; apply owns_ret; [|done].
  by replace n with (n <| ns_id_ns := 0 |>) by same_record.
Qed.
Lemma owns_deinit_ns_instance n l F d (Q : post _) :
  (∀ n', ns_ptrs n' = [] → Q n' l F d) → owns (ns_ptrs n ++ l) F d (deinit_ns_instance n) Q.
Proof.
  intros HQ. unfold ns_ptrs. rewrite <-!app_assoc.
  apply owns_bind, owns_deinit_id_cs_ns, owns_bind, owns_deinit_ns_id_desc; [done|]. intros t.
  apply owns_deinit_id_ns; [done|]. by apply HQ.
Qed.
Lemma owns_deinit_nss nss l F d (Q : post unit) :
  Q tt l F d → owns (mjoin (ns_ptrs <$> nss) ++ l) F d (deinit_nss nss) Q.
Proof.
  intros HQ. induction nss as [|n nss IH]; [by apply owns_ret|].
  rewrite fmap_cons. simpl. rewrite <-app_assoc. by apply owns_bind, owns_deinit_ns_instance.
Qed.
Lemma owns_deinit_ns_group l F d (Q : post unit) :
  grp_ok (di_ns_grp d) → Q tt l F (d <| di_ns_grp := None |>) →
  owns (grp_ptrs (di_ns_grp d) ++ l) F d deinit_ns_group Q.
Proof.
  intros Hok HQ. apply owns_bind, owns_get_ndev.
  destruct (di_ns_grp d) as [[p g]|] eqn:Hg; simpl in *.
  - rewrite <-Hok, take_ge by done.
    reorder (mjoin (ns_ptrs <$> grp_ns g) ++ ptrs (grp_act_list g) ++ ptrs p ++ l).
    apply owns_bind, owns_deinit_nss, owns_bind, owns_free, owns_bind, owns_free. by apply owns_upd_ndev.
  - apply owns_ret. by replace d with (d <| di_ns_grp := None |>) by same_record.
Qed.
Lemma owns_free_iosqs o l F d (Q : post unit) :
  di_iosqs d = o → Q tt l F (d <| di_iosqs := None |>) → owns (own o ++ l) F d free_iosqs Q.
Proof.
  intros <- HQ. apply owns_bind, owns_get_ndev, owns_bind.
  destruct (di_iosqs d) as [[p q]|]; [apply owns_free|apply (owns_free _ 0)]; by apply owns_upd_ndev.
Qed.
Lemma owns_free_iocqs o l F d (Q : post unit) :
  di_iocqs d = o → Q tt l F (d <| di_iocqs := None |>) → owns (own o ++ l) F d free_iocqs Q.
Proof.
  intros <- HQ. apply owns_bind, owns_get_ndev, owns_bind.
  destruct (di_iocqs d) as [[p q]|]; [apply owns_free|apply (owns_free _ 0)]; by apply owns_upd_ndev.
Qed.
Lemma owns_deinit_ioq_info s c l F d (Q : post unit) :
  di_iosqs d = s → di_iocqs d = c → Q tt l F (d <| di_iosqs := None |> <| di_iocqs := None |>) →
  owns (own s ++ own c ++ l) F d nvme_deinit_ioq_info Q.
Proof.
  intros Hs Hc HQ. apply owns_bind, owns_free_iosqs; [done|]. by apply owns_free_iocqs.
Qed.
Lemma owns_deinit_pdev o l F d (Q : post unit) :
  di_pdev d = o → Q tt l F (d <| di_pdev := None |>) → owns (own o ++ l) F d deinit_pci_dev_instance Q.
Proof.
  intros <- HQ. apply owns_bind, owns_get_ndev.
  destruct (di_pdev d) as [[p x]|] eqn:Hp; [by apply owns_bind, owns_free, owns_upd_ndev|].
  apply owns_ret. by replace d with (d <| di_pdev := None |>) by same_record.
Qed.
Lemma owns_disconnect l F d (Q : post unit) :
  Q tt l (F ∖ {[di_sock_fd d]}) (d <| di_sock_fd := -1 |>) → owns l F d disconnect Q.
Proof. intros HQ. apply owns_bind, owns_get_ndev, owns_bind, owns_uclose. by apply owns_upd_ndev. Qed.

Lemma owns_nvme_deinit p x F d (Q : post unit) :
  grp_ok (di_ns_grp d) →
  (∀ d', Q tt x (F ∖ {[di_sock_fd d]} ∖ {[di_fd d]}) d') →
  owns (ptrs p ++ blocks d ++ x) F d (nvme_deinit p) Q.
Proof.
  intros Hok HQ. unfold blocks.
  reorder (grp_ptrs (di_ns_grp d) ++ own (di_iosqs d) ++ own (di_iocqs d) ++ ctrl_ptrs (di_ctrl d) ++
           own (di_pdev d) ++ ptrs p ++ x).
  apply owns_bind, owns_bind, owns_deinit_ns_group; [done|].
  apply owns_bind, owns_deinit_ioq_info; [done..|].
  assert (Hend : ∀ d' o, di_fd d' = di_fd d → di_sock_fd d' = di_sock_fd d → di_ctrl d' = o →
    match o with Some (_, c) => own (ctrl_prop c) ++ cs_ptrs c = [] | None => True end →
    owns (ctrl_ptrs o ++ ptrs p ++ x) F d' (nvme_release_stage1;; d ← get_ndev; uclose (di_fd d);; free p) Q).
  { intros d' o Hfd Hsock Ho Hno. apply owns_bind, owns_bind, owns_deinit_stage1; [done..|].
    apply owns_disconnect, owns_bind, owns_get_ndev, owns_bind, owns_uclose, owns_free.
    unfold set_field. simpl. rewrite Hfd, Hsock. apply HQ. }
  destruct (di_ctrl d) as [[q c]|] eqn:Hc; simpl.
  - reorder (own (ctrl_prop c) ++ cs_ptrs c ++ own (di_pdev d) ++ ptrs q ++ ptrs (ctrl_id_ctrl c) ++ ptrs p ++ x).
    apply owns_bind, (owns_deinit_stage2 q c); [done|]. apply owns_deinit_pdev; [done|].
    rewrite (app_assoc (ptrs q)). eapply (owns_perm _ _ _); [|by eapply Hend]. simpl. by rewrite app_nil_r.
  - apply owns_bind, owns_bind, owns_get_ndev. unfold set_field at 1. simpl. rewrite Hc.
    apply owns_ret, owns_deinit_pdev; [done|]. by eapply (Hend _ None).
Qed.
End release.

(** ** Acquiring, with any kernel *)

Section acquire.
#[local] Notation owns := (owns base careful).
#[local] Notation quiet := (quiet base).
#[local] Notation quiet_at := (quiet_at base).

Lemma careful_bug : may_fault careful F_bug.
Proof. simpl. auto. Qed.
Hint Resolve careful_bug : core.
Ltac quick := solve [solve_quiet | unfold nvme_read_ctrl_cap, nvme_read_ctrl_vs, nvme_read_ctrl_cc, nvme_read_ctrl_property; solve_quiet].

(** The result of a check on a quiet call. *)
Lemma owns_quiet_rtn {A} (m : U Z) (errno : A) rest l F d (Q : post A) :
  quiet [] m → Q errno l F d → (∀ r, owns l F d (rest r) Q) → owns l F d (chk_lt0_rtn m errno rest) Q.
Proof. intros Hm He Hr. apply owns_chk_lt0_rtn; [done|]. by apply owns_quiet. Qed.
Lemma owns_quiet_goto {A} (m : U Z) errno (out rest : Z → U A) l F d (Q : post A) :
  quiet [] m → owns l F d (out errno) Q → (∀ r, owns l F d (rest r) Q) →
  owns l F d (chk_lt0_goto m errno out rest) Q.
Proof. intros Hm He Hr. apply owns_chk_lt0_goto; [done|]. by apply owns_quiet. Qed.
Lemma owns_quiet_obj {A B} (m : U (Z * A)) errno (out rest : Z → A → U B) l F d (Q : post B) :
  quiet [] m → (∀ a, owns l F d (out errno a) Q) → (∀ r a, owns l F d (rest r a) Q) →
  owns l F d (chk_lt0_obj m errno out rest) Q.
Proof. intros Hm He Hr. apply owns_chk_lt0_obj; [done|]. apply owns_quiet; auto. Qed.

Lemma quiet_request c : quiet_at (λ r, ∃ a b, r.2 = c <| ctrl_nr_sq := a |> <| ctrl_nr_cq := b |>) []
  (request_io_queue_num c).
Proof.
  apply quiet_admin.
  - intros L. unfold nvme_cmd_set_feat_num_queues, nvme_cmd_set_feature. apply quiet_lib_submit.
  - exists (ctrl_nr_sq c), (ctrl_nr_cq c). by destruct c.
  - exists (ctrl_nr_sq c), (ctrl_nr_cq c). by destruct c.
  - intros entry. apply quiet_bind; [apply quiet_uread; set_solver|]. intros v. apply quiet_at_ret. eauto.
Qed.

Lemma owns_init_identify c l F d (Q : post (Z * nvme_ctrl_instance)) :
  (∀ r, r < 0 → Q (r, c) l F d) →
  (∀ p, p ≠ 0 → Q (0, c <| ctrl_id_ctrl := p |>) (p :: l) F d) →
  owns l F d (init_identify_ctrl_data c) Q.
Proof.
  intros Hf Hs. apply owns_bind, owns_zalloc; [by apply owns_ret, Hf|]. intros p Hp.
  rewrite (proj2 (Z.eqb_neq p 0)) by done.
  apply owns_quiet_goto; [apply quiet_identify_ctrl| |].
  - rewrite ptrs_cons by done. apply owns_bind, owns_free. by apply owns_ret, Hf.
  - intros r. by apply owns_ret, Hs.
Qed.

Lemma owns_init_stage1 l F d (Q : post Z) :
  di_ctrl d = None →
  (∀ r, r < 0 → Q r l F d) →
  (∀ p c l', own (ctrl_prop c) ++ cs_ptrs c = [] →
      l' ≡ₚ ctrl_ptrs (Some (p, c)) ++ l → Q 0 l' F (d <| di_ctrl := Some (p, c) |>)) →
  owns l F d (init_ctrl_instance NVME_INIT_STAGE1) Q.
Proof.
  intros Hd Hf Hs. apply owns_bind, owns_get_ndev. rewrite Hd.
  apply owns_bind, owns_zalloc; [by apply owns_ret, Hf|]. intros p Hp.
  rewrite (proj2 (Z.eqb_neq p 0)) by done. rewrite ptrs_cons by done.
  assert (Hfree : owns (ptrs p ++ l) F d (free p;; mret (- EPERM)) Q).
  { apply owns_bind, owns_free. by apply owns_ret, Hf. }
  apply owns_chk_lt0_obj; [done|]. apply quiet_request; [constructor|]. intros [r c'] (a & b & Hc). simpl in Hc.
  split; [by intros _|]. intros _. simpl. rewrite Hc.
  apply owns_chk_lt0_obj; [done|]. apply owns_init_identify.
  - intros r' Hr. split; [by intros _|simpl; lia].
  - intros q Hq. split; [simpl; lia|]. intros _. simpl. apply owns_bind, owns_upd_ndev, owns_ret.
    apply Hs; [done|]. rewrite (ptrs_cons q) by done. by perm.
Qed.

Lemma quiet_cap L : LibQuiet.quiet base L nvme_read_ctrl_cap.
Proof. apply quiet_read_generic. Qed.
Lemma quiet_vs L : LibQuiet.quiet base L nvme_read_ctrl_vs.
Proof. apply quiet_read_generic. Qed.
Lemma quiet_cc L : LibQuiet.quiet base L nvme_read_ctrl_cc.
Proof. apply quiet_read_generic. Qed.

Lemma owns_init_ctrl_property p c l F d (Q : post Z) :
  di_ctrl d = Some (p, c) →
  (∀ r, r < 0 → Q r l F d) →
  (∀ q x, q ≠ 0 → Q 0 (q :: l) F (d <| di_ctrl := Some (p, c <| ctrl_prop := Some (q, x) |>) |>)) →
  owns l F d init_ctrl_property Q.
Proof.
  intros Hc Hf Hs. apply owns_bind, owns_zalloc; [by apply owns_ret, Hf|]. intros q Hq.
  rewrite (proj2 (Z.eqb_neq q 0)) by done.
  assert (Hfree : owns (q :: l) F d (free q;; mret (- EPERM)) Q).
  { rewrite ptrs_cons by done. apply owns_bind, owns_free. by apply owns_ret, Hf. }
  apply owns_quiet_obj; [apply quiet_cap|done|]. intros _ cap.
  apply owns_quiet_obj; [apply quiet_vs|done|]. intros _ vs.
  apply owns_quiet_obj; [apply quiet_cc|done|]. intros _ cc.
  apply owns_bind, (owns_upd_ctrl p c); [done|]. by apply owns_ret, Hs.
Qed.

(** The state while the data of the command sets is collected: the controller at [p] with
    the properties at [q], and beside [l] the blocks of the command sets. *)
Section cs.
Context (p q : Z) (l : list Z) (F : gset Z) (d0 : nvme_dev_info) (id_ctrl : Z) (Q : post Z).
Let upd (c : nvme_ctrl_instance) : nvme_dev_info := d0 <| di_ctrl := Some (p, c) |>.
Definition cs_state (c : nvme_ctrl_instance) : Prop :=
  (∃ x, ctrl_prop c = Some (q, x)) ∧ ctrl_id_ctrl c = id_ctrl.
Context (Hf : ∀ r c, r < 0 → cs_state c → cs_ptrs c = [] → Q r l F (upd c)).
Context (Hs : ∀ c l', cs_state c → l' ≡ₚ cs_ptrs c ++ l → Q 0 l' F (upd c)).

Lemma owns_cs_out r c l' :
  r < 0 → cs_state c → l' ≡ₚ cs_ptrs c ++ l → owns l' F (upd c) (deinit_id_cs_ctrl;; mret r) Q.
Proof using Hf.
  intros Hr Hc Hl. apply (owns_perm _ _ _ _ _ _ _ Hl). apply owns_bind, (owns_deinit_id_cs_ctrl p c); [done|].
  apply owns_ret. by apply (Hf r (no_cs c)).
Qed.

(** [set] stores into a member that is clear. *)
Lemma owns_id_cs_ctrl vector csi size set rest c l' :
  (∀ z, z ≠ 0 → cs_ptrs (set z c) ≡ₚ z :: cs_ptrs c) → (set 0 c = c) → (∀ z, cs_state (set z c)) →
  cs_state c → l' ≡ₚ cs_ptrs c ++ l →
  (∀ c' l', cs_state c' → (c' = c ∨ ∃ z, c' = set z c) → l' ≡ₚ cs_ptrs c' ++ l → owns l' F (upd c') rest Q) →
  owns l' F (upd c) (id_cs_ctrl vector csi size set (λ r, deinit_id_cs_ctrl;; mret r) rest) Q.
Proof using Hf.
  intros Hset H0 Hst Hc Hl Hrest. unfold id_cs_ctrl.
  destruct (Z.testbit vector csi); [|by apply Hrest; auto].
  apply owns_bind, owns_zalloc.
  { apply owns_bind, (owns_upd_ctrl p c); [done|]. rewrite H0. simpl. by apply owns_cs_out. }
  intros z Hz. apply owns_bind, (owns_upd_ctrl p c); [done|]. rewrite (proj2 (Z.eqb_neq z 0)) by done.
  assert (Hl' : z :: l' ≡ₚ cs_ptrs (set z c) ++ l) by (rewrite Hset, Hl by done; done).
  pass ltac:(apply quiet_identify_cs_ctrl). intros r.
  destruct (Z.ltb_spec r 0); [by apply owns_cs_out|]. apply Hrest; eauto.
Qed.

Lemma owns_init_csc c out :
  cs_state c → ctrl_id_ctrl_zns c = 0 → ctrl_id_ctrl_nvm c = 0 → ctrl_id_ctrl_csc c = 0 →
  out = (λ r, deinit_id_cs_ctrl;; mret r) →
  owns l F (upd c) (
    csc ← zalloc (sizeof struct_nvme_id_ctrl_csc);
    upd_ctrl (λ c, c <| ctrl_id_ctrl_csc := csc |>);;
    if csc =? 0 then mret (- ENOMEM)
    else
      ret ← nvme_identify_ctrl_csc_list csc 0xffff;
      if ret <? 0 then out ret
      else
        chk_lt0_goto (nvme_get_feat_iocs_profile NVME_FEAT_SEL_CUR) (- EPERM) out (λ ret,
        vector ← uread struct_nvme_id_ctrl_csc [Fld "vector"; Idx ret] csc;
        id_cs_ctrl vector NVME_CSI_NVM (sizeof struct_nvme_id_ctrl_nvm)
          (λ p c, c <| ctrl_id_ctrl_nvm := p |>) out (
        id_cs_ctrl vector NVME_CSI_ZNS (sizeof struct_nvme_id_ctrl_zns)
          (λ p c, c <| ctrl_id_ctrl_zns := p |>) out (
        mret 0)))) Q.
Proof using Hf Hs.
  intros Hc Hz Hn Hcs ->. apply owns_bind, owns_zalloc.
  { apply owns_bind, (owns_upd_ctrl p c); [done|]. apply owns_ret, Hf; [done|done|].
    unfold cs_ptrs, set_field. simpl. by rewrite Hz, Hn. }
  intros csc Hnz. apply owns_bind, (owns_upd_ctrl p c); [done|]. rewrite (proj2 (Z.eqb_neq csc 0)) by done.
  set (c1 := c <| ctrl_id_ctrl_csc := csc |>).
  assert (Hc1 : cs_state c1) by done.
  assert (Hl : csc :: l ≡ₚ cs_ptrs c1 ++ l).
  { unfold cs_ptrs, c1, set_field. simpl. by rewrite Hz, Hn, (ptrs_pos csc). }
  pass ltac:(apply quiet_identify_csc). intros r. apply owns_if; intros ?; [apply owns_cs_out; [lia|done..]|].
  apply owns_quiet_goto; [apply quiet_iocs_profile|by apply owns_cs_out|]. intros ci.
  apply owns_bind, (quiet_uread _ [csc]); [set_solver|by constructor; [set_solver|]|]. intros vector _.
  apply owns_id_cs_ctrl; [| |done..|].
  { intros z Hz'. unfold cs_ptrs, c1, set_field. simpl. rewrite Hz, Hn, (ptrs_pos z) by done. done. }
  { unfold c1, set_field. destruct c; simpl in *. by subst. }
  intros c2 l2 Hc2 Hcase Hl2. assert (Hz2 : ctrl_id_ctrl_zns c2 = 0) by by destruct Hcase as [->|[z ->]].
  apply owns_id_cs_ctrl; [| |done..|].
  { intros z Hz'. unfold cs_ptrs, set_field. simpl. by rewrite Hz2, (ptrs_pos z). }
  { same_record. }
  intros c3 l3 Hc3 _ Hl3. by apply owns_ret, Hs.
Qed.

Lemma owns_init_id_cs_ctrl c :
  cs_state c → ctrl_id_ctrl_zns c = 0 → ctrl_id_ctrl_nvm c = 0 → ctrl_id_ctrl_csc c = 0 →
  owns l F (upd c) init_id_cs_ctrl Q.
Proof using Hf Hs.
  intros [[x Hx] Hid] Hz Hn Hcs.
  assert (Hq : ∀ c', cs_state c' → ctrl_id_ctrl_zns c' = 0 → ctrl_id_ctrl_nvm c' = 0 → ctrl_id_ctrl_csc c' = 0 →
    owns l F (upd c') (mret 0) Q).
  { intros c' Hc' Hz' Hn' Hcs'. apply owns_ret, Hs; [done|]. unfold cs_ptrs. by rewrite Hz', Hn', Hcs'. }
  apply owns_bind, (owns_get_ctrl p c); [done|].
  apply owns_bind. unfold ctrl_property. rewrite Hx. apply owns_ret.
  apply owns_bind. unfold nvme_version, ctrl_property. rewrite Hx. apply owns_bind, owns_ret, owns_ret.
  apply owns_if; intros _; [apply Hq; [split; eauto|done..]|].
  apply owns_quiet_obj; [apply quiet_cc| |].
  { intros _. apply owns_ret, Hf; [done|split; eauto|]. unfold cs_ptrs. by rewrite Hz, Hn, Hcs. }
  intros _ cc. apply owns_bind, (owns_upd_ctrl p c); [done|].
  match goal with |- context [@set_field _ _ ctrl_prop _ ?f c] => set (c1 := c <| ctrl_prop ::= f |>) end.
  assert (Hc1 : cs_state c1).
  { split; [|done]. unfold c1, set_field. simpl. rewrite Hx. eauto. }
  apply owns_if; intros _; [by apply owns_init_csc|by apply Hq].
Qed.
End cs.

Lemma owns_init_stage2 p c l F d (Q : post Z) :
  di_ctrl d = Some (p, c) → own (ctrl_prop c) ++ cs_ptrs c = [] →
  (∀ r c', r < 0 → ctrl_id_ctrl c' = ctrl_id_ctrl c → own (ctrl_prop c') ++ cs_ptrs c' = [] →
     Q r l F (d <| di_ctrl := Some (p, c') |>)) →
  (∀ c' l' q x, ctrl_id_ctrl c' = ctrl_id_ctrl c → ctrl_prop c' = Some (q, x) →
     l' ≡ₚ own (ctrl_prop c') ++ cs_ptrs c' ++ l → Q 0 l' F (d <| di_ctrl := Some (p, c') |>)) →
  owns l F d (init_ctrl_instance NVME_INIT_STAGE2) Q.
Proof.
  intros Hc Hnil Hf Hs. apply app_eq_nil in Hnil as [Hp Hcs].
  apply owns_bind, owns_get_ndev. rewrite Hc.
  assert (Hd : d <| di_ctrl := Some (p, c) |> = d) by same_record.
  apply cs_nil in Hcs as (Hz & Hn & Hcsc).
  apply owns_chk_lt0_rtn; [done|]. apply (owns_init_ctrl_property p c); [done|..].
  { intros r Hr. split; [|lia]. intros _. rewrite <-Hd. apply Hf; [done..|].
    rewrite Hp. unfold cs_ptrs. by rewrite Hz, Hn, Hcsc. }
  intros q x Hq. split; [lia|]. intros _. apply owns_chk_lt0_goto; [done|].
  apply (owns_init_id_cs_ctrl p q (q :: l) F d (ctrl_id_ctrl c)); [| |by split; eauto|done..].
  - intros r c' Hr [[x' Hx] Hid] Hnil. split; [|lia]. intros _. rewrite ptrs_cons by done.
    change (ptrs q) with (own (Some (q, x'))). apply owns_bind, (owns_deinit_ctrl_property p c'); [done..|].
    by apply owns_ret, Hf.
  - intros c' l' [[x' Hx] Hid] Hl. split; [lia|]. intros _. apply owns_ret, (Hs _ _ q x'); [done..|].
    rewrite Hl, Hx. simpl. rewrite (ptrs_cons q) by done. by perm.
Qed.

(** *** Namespaces *)

Lemma owns_ns_format id_ns n l F d (Q : post _) :
  id_ns ≠ 0 → id_ns ∈ l →
  (∀ a b c, Q (n <| ns_fmt_idx := a |> <| ns_blk_size := b |> <| ns_meta_size := c |>) l F d) →
  owns l F d (ns_format id_ns n) Q.
Proof.
  intros H0 Hin HQ.
  assert (Hr : ∀ t path (R : post Z), (∀ v, R v l F d) → owns l F d (uread t path id_ns) R).
  { intros t path R HR. apply (quiet_uread _ [id_ns]); [set_solver|by constructor|auto]. }
  apply owns_bind, Hr. intros flbas. apply owns_bind, Hr. intros ds.
  apply owns_bind. unfold lba_size. apply owns_if; intros _; [apply owns_crash; simpl; auto|apply owns_ret].
  apply owns_bind, Hr. intros ms. by apply owns_ret.
Qed.

Lemma owns_init_id_ns n l F d (Q : post (Z * nvme_ns_instance)) :
  (∀ r, r < 0 → Q (r, n) l F d) →
  (∀ p a b c, p ≠ 0 →
     Q (0, n <| ns_id_ns := p |> <| ns_fmt_idx := a |> <| ns_blk_size := b |> <| ns_meta_size := c |>) (p :: l) F d) →
  owns l F d (init_id_ns n) Q.
Proof.
  intros Hf Hs. apply owns_bind, owns_zalloc; [by apply owns_ret, Hf|]. intros p Hp.
  rewrite (proj2 (Z.eqb_neq p 0)) by done. pass ltac:(apply quiet_identify_ns_active). intros r.
  destruct (Z.ltb_spec r 0).
  - rewrite ptrs_cons by done. apply owns_bind, owns_free. by apply owns_ret, Hf.
  - apply owns_bind, owns_ns_format; [done|set_solver|]. intros a b c.
    pass solve_quiet. intros _. by apply owns_ret, Hs.
Qed.

Lemma owns_init_ns_id_desc n l F d (Q : post (Z * nvme_ns_instance)) :
  ns_id_desc_raw n = 0 →
  (∀ r t, r < 0 → Q (r, n <| ns_id_desc := t |>) l F d) →
  (∀ p t, p ≠ 0 → Q (0, n <| ns_id_desc := t |> <| ns_id_desc_raw := p |>) (p :: l) F d) →
  owns l F d (init_ns_id_desc n) Q.
Proof.
  intros Hraw Hf Hs.
  assert (Hf0 : ∀ r, r < 0 → Q (r, n) l F d).
  { intros r Hr. specialize (Hf r (ns_id_desc n) Hr). by destruct n. }
  apply owns_bind, owns_zalloc; [by apply owns_ret, Hf0|]. intros p Hp.
  rewrite (proj2 (Z.eqb_neq p 0)) by done. pass ltac:(apply quiet_identify_ns_desc). intros r.
  destruct (Z.ltb_spec r 0).
  { rewrite ptrs_cons by done. apply owns_bind, owns_free. by apply owns_ret, Hf0. }
  apply owns_bind, owns_bind, owns_ublock; [done|set_solver|]. intros bs.
  pass solve_quiet. intros [[ret t]|]; [|by intros ? ?].
  apply owns_ret. destruct (Z.ltb_spec ret 0); [|by apply owns_ret, Hs].
  rewrite ptrs_cons by done. apply owns_bind, owns_free. by apply owns_ret, Hf.
Qed.

Lemma owns_init_id_cs_ns pc c q x n l F d (Q : post (Z * nvme_ns_instance)) :
  di_ctrl d = Some (pc, c) → ctrl_prop c = Some (q, x) →
  ns_id_desc_raw n ≠ 0 → ns_id_desc_raw n ∈ l → ns_id_ns_nvm n = 0 → ns_id_ns_zns n = 0 →
  (∀ r, Q (r, n) l F d) →
  (∀ p, p ≠ 0 → Q (0, n <| ns_id_ns_nvm := p |>) (p :: l) F d) →
  (∀ p, p ≠ 0 → Q (0, n <| ns_id_ns_zns := p |>) (p :: l) F d) →
  owns l F d (init_id_cs_ns n) Q.
Proof.
  intros Hc Hx Hraw Hin Hn Hz Hsame Hnvm Hzns.
  apply owns_bind, (owns_get_ctrl pc c); [done|].
  apply owns_bind. unfold nvme_version, ctrl_property. rewrite Hx. apply owns_bind, owns_ret, owns_ret.
  apply owns_if; intros _; [by apply owns_ret|].
  destruct (ns_id_desc n !! _) as [[desc|]|]; [|by apply owns_ret|apply owns_crash; simpl; auto].
  apply owns_bind, owns_bind, owns_ublock; [done..|]. intros bs.
  destruct (load_le 1 bs _) as [csi|]; [apply owns_ret|apply owns_crash; simpl; auto].
  apply owns_bind, owns_zalloc; [by apply owns_ret|]. intros p Hp.
  rewrite (proj2 (Z.eqb_neq p 0)) by done. pass ltac:(apply quiet_identify_cs_ns). intros r.
  assert (Hfree : owns (p :: l) F d (free p;; mret (r, n)) Q).
  { rewrite ptrs_cons by done. apply owns_bind, owns_free. by apply owns_ret. }
  repeat (apply owns_if; intros _); [done|by apply owns_ret, Hnvm|by apply owns_ret, Hzns|done].
Qed.

(** The property table is there when the namespaces are set up. *)
Definition has_prop (d : nvme_dev_info) : Prop :=
  ∃ pc c q x, di_ctrl d = Some (pc, c) ∧ ctrl_prop c = Some (q, x).

Lemma owns_init_ns_instance n l F d (Q : post (Z * nvme_ns_instance)) :
  has_prop d → ns_ptrs n = [] →
  (∀ r n' l', (r < 0 → ns_ptrs n' = []) → l' ≡ₚ ns_ptrs n' ++ l → Q (r, n') l' F d) →
  owns l F d (init_ns_instance n) Q.
Proof.
  intros (pc & c & q & x & Hc & Hx) (Hn & Hz & Hraw & Hid)%ns_nil HQ.
  assert (Hp : ∀ n', ns_id_ns_nvm n' = 0 → ns_id_ns_zns n' = 0 →
    ns_ptrs n' = ptrs (ns_id_desc_raw n') ++ ptrs (ns_id_ns n')).
  { intros n' H1 H2. unfold ns_ptrs. by rewrite H1, H2. }
  apply owns_bind, owns_init_id_ns.
  { intros r Hr. rewrite (proj2 (Z.ltb_lt r 0)) by done. apply owns_ret, HQ; rewrite Hp, Hraw, Hid; done. }
  intros p1 f b m Hp1. simpl. rewrite (ptrs_cons p1) by done.
  apply owns_bind, owns_init_ns_id_desc; [done|..].
  { intros r t Hr. rewrite (proj2 (Z.ltb_lt r 0)) by done. apply owns_bind, owns_deinit_id_ns; [done|].
    apply owns_ret, HQ; [intros _|]; rewrite Hp by done; unfold set_field; simpl; by rewrite Hraw. }
  intros p2 t Hp2. simpl. rewrite (ptrs_cons p2) by done.
  apply owns_bind, (owns_init_id_cs_ns pc c q x);
    [done|done|done|simpl; rewrite (ptrs_pos p2) by done; set_solver|done|done|..].
  - intros r. destruct (Z.ltb_spec r 0).
    + apply owns_bind, owns_deinit_ns_id_desc; [done|]. intros t'.
      apply owns_bind, owns_deinit_id_ns; [done|]. apply owns_ret, HQ; [intros _|]; by rewrite Hp.
    + apply owns_ret, HQ; [lia|]. by rewrite Hp, <-app_assoc.
  - intros p Hp0. simpl. apply owns_ret, HQ; [lia|].
    rewrite (ns_ptrs_eq _ p 0 p2 p1) by (reflexivity || exact Hz). rewrite (ptrs_pos p) by done. by perm.
  - intros p Hp0. simpl. apply owns_ret, HQ; [lia|].
    rewrite (ns_ptrs_eq _ 0 p p2 p1) by (reflexivity || exact Hn). rewrite (ptrs_pos p) by done. by perm.
Qed.

Lemma owns_elem {A} (xs : list A) i l F d (Q : post A) :
  (∀ x, 0 ≤ i → xs !! Z.to_nat i = Some x → Q x l F d) → owns l F d (elem xs i) Q.
Proof.
  intros HQ. apply owns_if; intros Hi; [apply owns_crash; simpl; auto|].
  destruct (xs !! Z.to_nat i) eqn:Hx; [apply owns_ret, HQ; auto with lia|apply owns_crash; simpl; auto].
Qed.
Lemma owns_ns_list_at p i l F d (Q : post Z) :
  p ≠ 0 → p ∈ l → (∀ v, Q v l F d) → owns l F d (ns_list_at p i) Q.
Proof.
  intros Hp Hin HQ. apply owns_bind, owns_ublock; [done..|]. intros bs.
  destruct (load_le 4 bs (i * 4)); [by apply owns_ret|apply owns_crash; simpl; auto].
Qed.

Definition bag (nss : list nvme_ns_instance) : list Z := mjoin (ns_ptrs <$> nss).
Lemma bag_insert nss i n n' :
  nss !! i = Some n → ns_ptrs n ++ bag (<[i := n']> nss) ≡ₚ ns_ptrs n' ++ bag nss.
Proof.
  intros Hi. unfold bag. rewrite <-(take_drop_middle nss i n) at 2 by done.
  rewrite insert_take_drop by (by eapply lookup_lt_Some).
  rewrite !fmap_app, !fmap_cons, !join_app. simpl. solve_Permutation.
Qed.

Section ns_loop.
Context (F : gset Z) (d : nvme_dev_info) (Hd : has_prop d) (l0 : list Z) (ns_list : Z).
Context (H0 : ns_list ≠ 0) (Hin : ns_list ∈ l0).

Definition loop_post (len : nat) (l' : list Z) (nss : list nvme_ns_instance) : Prop :=
  length nss = len ∧ l' ≡ₚ bag nss ++ l0.

Lemma owns_init_ns_loop (Q : post ns_loop) ix nn last nr_act nss l :
  loop_post (length nss) l nss → 0 ≤ last →
  (∀ i n, last ≤ i → nss !! Z.to_nat i = Some n → ns_ptrs n = []) →
  (∀ k nss' l', loop_post (length nss) l' nss' → Q (Loop_end k nss') l' F d) →
  (∀ nss' l', loop_post (length nss) l' nss' → Q (Loop_free_list nss') l' F d) →
  (∀ i r nss' l', r < 0 → loop_post (length nss) l' nss' → Q (Loop_exit i r nss') l' F d) →
  owns l F d (init_ns_loop ix ns_list nn last nr_act nss) Q.
Proof using H0 Hin Hd.
  intros Hl Hlast Hclean Hend Hfree Hexit. revert last nr_act nss l Hl Hlast Hclean Hend Hfree Hexit.
  induction ix as [|i ix IH]; intros last nr_act nss l Hl Hlast Hclean Hend Hfree Hexit.
  { by apply owns_ret, Hend. }
  apply owns_bind, owns_ns_list_at; [done|destruct Hl as [_ ->]; set_solver|]. intros nsid.
  apply owns_if; intros ?; [by apply owns_ret, Hend|].
  apply owns_if; intros ?; [by apply owns_ret, Hfree|].
  apply owns_if; intros ?; [by apply owns_ret, Hend|].
  apply owns_bind, owns_elem. intros n Hn Hx.
  assert (Hnp : ns_ptrs n = []) by (apply (Hclean (nsid - 1)); [lia|done]).
  apply owns_bind, owns_init_ns_instance; [done|done|]. intros r n' l' Hneg Hl'.
  assert (Hl2 : loop_post (length nss) l' (<[Z.to_nat (nsid - 1) := n']> nss)).
  { split; [by rewrite length_insert|]. pose proof (bag_insert nss _ n n' Hx) as Hb. rewrite Hnp in Hb.
    simpl in Hb. rewrite Hb, Hl'. destruct Hl as [_ ->]. solve_Permutation. }
  destruct (Z.ltb_spec r 0); [by apply owns_ret, Hexit|].
  apply IH; [by rewrite length_insert|lia|..]; rewrite ?length_insert; try done.
  intros j m Hj Hm. rewrite list_lookup_insert_ne in Hm by lia. apply (Hclean j); [lia|done].
Qed.

Lemma owns_exit_ns_loop (Q : post _) ix nss l :
  loop_post (length nss) l nss →
  (∀ nss' l', loop_post (length nss) l' nss' → Q nss' l' F d) →
  owns l F d (exit_ns_loop ix ns_list nss) Q.
Proof using H0 Hin Hd.
  revert nss l. induction ix as [|i ix IH]; intros nss l Hl HQ; [by apply owns_ret, HQ|].
  apply owns_bind, owns_ns_list_at; [done|destruct Hl as [_ ->]; set_solver|]. intros nsid.
  apply owns_bind, owns_elem. intros n Hn Hx. set (k := Z.to_nat (u32 (nsid - 1))) in *.
  destruct Hl as [_ Hl]. apply (owns_perm _ _ (ns_ptrs n ++ bag (<[k := ns_zero]> nss) ++ l0)).
  { rewrite app_assoc, (bag_insert _ _ _ _ Hx). done. }
  apply owns_bind, owns_deinit_ns_instance. intros n' Hn'. apply IH; [|by rewrite length_insert].
  split; [done|]. apply Permutation_app_tail.
  pose proof (bag_insert nss k n n' Hx) as H1. pose proof (bag_insert nss k n ns_zero Hx) as H2.
  rewrite Hn' in H1. simpl in *. rewrite <-H2 in H1. by apply Permutation_app_inv_l in H1.
Qed.
End ns_loop.

Lemma bag_zero n : bag (replicate n ns_zero) = [].
Proof. unfold bag. by induction n. Qed.

Lemma owns_init_ns_group pc c l F d (Q : post Z) :
  has_prop d → di_ctrl d = Some (pc, c) → (ctrl_id_ctrl c ≠ 0 → ctrl_id_ctrl c ∈ l) →
  (∀ r leak l', l' ≡ₚ leak ++ l → Q r l' F d) →
  (∀ p g l', grp_ok (Some (p, g)) → l' ≡ₚ grp_ptrs (Some (p, g)) ++ l →
     Q 0 l' F (d <| di_ns_grp := Some (p, g) |>)) →
  owns l F d init_ns_group Q.
Proof.
  intros Hprop Hc Hid Hf Hs. apply owns_bind, (owns_get_ctrl pc c); [done|].
  assert (Hf0 : ∀ r, Q r l F d) by (intros r; by apply (Hf r [])).
  apply owns_bind. unfold nvme_id_ctrl_nn, id_store. apply owns_if; intros ?; [by do 2 apply owns_ret|].
  apply owns_bind, (quiet_uread _ [ctrl_id_ctrl c]); [set_solver|by constructor; auto with lia|]. intros nn _.
  apply owns_ret. simpl. apply owns_bind, owns_ret.
  apply owns_bind, owns_zalloc; [by apply owns_ret|]. intros grp Hg. rewrite (proj2 (Z.eqb_neq grp 0)) by done.
  rewrite (ptrs_cons grp) by done.
  apply owns_bind, owns_zalloc; [by apply owns_bind, owns_free, owns_ret|]. intros lst Hlst.
  rewrite (proj2 (Z.eqb_neq lst 0)) by done. rewrite (ptrs_cons lst) by done.
  assert (Hfree : ∀ r leak l', l' ≡ₚ leak ++ ptrs lst ++ ptrs grp ++ l →
    owns l' F d (free lst;; free grp;; mret r) Q).
  { intros r leak l' Hl. apply (owns_perm _ _ (ptrs lst ++ ptrs grp ++ leak ++ l)); [rewrite Hl; by perm|].
    apply owns_bind, owns_free, owns_bind, owns_free. by apply owns_ret, (Hf _ leak). }
  pass ltac:(apply quiet_identify_ns_list). intros r.
  apply owns_if; intros ?; [by apply (Hfree r [])|].
  set (k := if 1024 <? nn then 1024 else nn).
  assert (Hin : lst ∈ ptrs lst ++ ptrs grp ++ l) by (rewrite ptrs_pos by done; set_solver).
  apply owns_bind, (owns_init_ns_loop F d Hprop (ptrs lst ++ ptrs grp ++ l) lst Hlst Hin).
  - split; [done|]. by rewrite bag_zero.
  - done.
  - intros i n _ Hi. apply lookup_replicate in Hi as [-> _]. done.
  - intros nr nss l' [Hlen Hl]. rewrite length_replicate in Hlen.
    apply owns_bind, owns_BUG_ON; [done|]. intros _. apply owns_bind, owns_upd_ndev, owns_ret, Hs.
    + done.
    + rewrite Hl. simpl. fold (bag nss). by perm.
  - intros nss l' [_ Hl]. by apply (Hfree 0 (bag nss)).
  - intros i r' nss l' Hr [_ Hl].
    apply owns_bind, (owns_exit_ns_loop F d Hprop _ lst Hlst Hin); [by split|]. intros nss' l2 [_ Hl2].
    by apply (Hfree r' (bag nss')).
Qed.

(** *** Device and queues *)

Lemma quiet_or_get {A} L ret (m : U (Z * option A)) set x : LibQuiet.quiet base L m → LibQuiet.quiet base L (or_get ret m set x).
Proof. intros Hm. apply quiet_bind; [done|]. solve_quiet. Qed.

Lemma owns_init_pdev l F d (Q : post Z) :
  (∀ r, r < 0 → Q r l F d) → (∀ p x, p ≠ 0 → Q 0 (p :: l) F (d <| di_pdev := Some (p, x) |>)) →
  owns l F d init_pci_dev_instance Q.
Proof.
  intros Hf Hs. apply owns_bind, owns_zalloc; [by apply owns_ret, Hf|]. intros p Hp.
  rewrite (proj2 (Z.eqb_neq p 0)) by done.
  assert (Hfree : ∀ r, (r <? 0) = true → owns (p :: l) F d (free p;; mret r) Q).
  { intros r Hr. rewrite ptrs_cons by done. apply owns_bind, owns_free. apply owns_ret, Hf. lia. }
  pass ltac:(apply quiet_or_get, quiet_ioctl_ret). intros [r x]. apply owns_if; [by apply Hfree|intros _].
  do 2 (pass ltac:(apply quiet_or_get, quiet_read_generic); intros [? ?]).
  do 6 (pass ltac:(apply quiet_or_get, quiet_ioctl_ret); intros [? ?]).
  apply owns_if; [by apply Hfree|intros _]. pass ltac:(apply quiet_read_generic). intros [r' sts].
  apply owns_if; [by apply Hfree|intros _].
  destruct sts; [apply owns_bind, owns_ret|by apply owns_bind, owns_crash; simpl; auto].
  by apply owns_bind, owns_upd_ndev, owns_ret, Hs.
Qed.

Lemma quiet_rand L : LibQuiet.quiet base L rand.
Proof. unfold rand. solve_quiet. Qed.
Lemma quiet_rand_mod L n : LibQuiet.quiet base L (rand_mod n).
Proof. apply quiet_bind; [apply quiet_rand|]. solve_quiet. Qed.
Lemma quiet_upd_elem {A} L (f : A → A) xs i : LibQuiet.quiet base L (upd_elem f xs i).
Proof. unfold upd_elem, elem. solve_quiet. Qed.
Lemma quiet_random_entry L mqes : LibQuiet.quiet base L (random_nr_entry mqes).
Proof. unfold random_nr_entry. apply quiet_if; [apply quiet_bind; [apply quiet_rand_mod|]|]; solve_quiet. Qed.
Lemma quiet_prio L : LibQuiet.quiet base L nvme_set_sq_prio_random.
Proof. apply quiet_bind; [apply quiet_rand_mod|]. solve_quiet. Qed.
Hint Resolve quiet_upd_elem quiet_random_entry quiet_prio : quiet.
Lemma quiet_fill_iosqs L ids mqes sq : LibQuiet.quiet base L (fill_iosqs ids mqes sq).
Proof.
  revert sq. induction ids as [|i ids IH]; intros sq; [apply quiet_ret|].
  simpl. repeat (apply quiet_bind; [solve [eauto with quiet]|intros]). apply IH.
Qed.
Lemma quiet_fill_iocqs L ids mqes n cq : LibQuiet.quiet base L (fill_iocqs ids mqes n cq).
Proof.
  revert cq. induction ids as [|i ids IH]; intros cq; [apply quiet_ret|].
  simpl. repeat (apply quiet_bind; [solve [eauto with quiet]|intros]). apply IH.
Qed.

Lemma owns_alloc_iosq l F d (Q : post Z) :
  has_prop d → (∀ r, r < 0 → Q r l F d) → (∀ p x, p ≠ 0 → Q 0 (p :: l) F (d <| di_iosqs := Some (p, x) |>)) →
  owns l F d nvme_alloc_iosq_info Q.
Proof.
  intros (pc & c & q & x & Hc & Hx) Hf Hs. apply owns_bind, owns_get_ndev. unfold the_ctrl. rewrite Hc.
  apply owns_bind, owns_ret, owns_bind. unfold ctrl_property. rewrite Hx. apply owns_ret.
  apply owns_bind, owns_zalloc; [by apply owns_ret, Hf|]. intros p Hp. rewrite (proj2 (Z.eqb_neq p 0)) by done.
  pass ltac:(apply quiet_fill_iosqs). intros sq. by apply owns_bind, owns_upd_ndev, owns_ret, Hs.
Qed.
Lemma owns_alloc_iocq l F d (Q : post Z) :
  has_prop d → (∀ r, r < 0 → Q r l F d) → (∀ p x, p ≠ 0 → Q 0 (p :: l) F (d <| di_iocqs := Some (p, x) |>)) →
  owns l F d nvme_alloc_iocq_info Q.
Proof.
  intros (pc & c & q & x & Hc & Hx) Hf Hs. apply owns_bind, owns_get_ndev. unfold the_ctrl. rewrite Hc.
  apply owns_bind, owns_ret, owns_bind. unfold ctrl_property. rewrite Hx. apply owns_ret.
  apply owns_bind, owns_zalloc; [by apply owns_ret, Hf|]. intros p Hp. rewrite (proj2 (Z.eqb_neq p 0)) by done.
  pass ltac:(apply quiet_fill_iocqs). intros cq. by apply owns_bind, owns_upd_ndev, owns_ret, Hs.
Qed.
Lemma owns_init_ioq l F d (Q : post Z) :
  has_prop d → di_iosqs d = None →
  (∀ r, r < 0 → Q r l F d) →
  (∀ p x q y, p ≠ 0 → q ≠ 0 →
     Q 0 (q :: p :: l) F (d <| di_iosqs := Some (p, x) |> <| di_iocqs := Some (q, y) |>)) →
  owns l F d nvme_init_ioq_info Q.
Proof.
  intros Hprop Hd Hf Hs. apply owns_chk_lt0_rtn; [done|]. apply owns_alloc_iosq; [done|..].
  { intros r Hr. split; [|lia]. intros _. by apply Hf. }
  intros p x Hp. split; [lia|]. intros _. apply owns_chk_lt0_goto; [done|]. apply owns_alloc_iocq; [done|..].
  - intros r Hr. split; [|lia]. intros _. rewrite ptrs_cons by done. change (ptrs p) with (own (Some (p, x))).
    apply owns_bind, owns_free_iosqs; [done|]. apply owns_ret.
    replace (d <| di_iosqs := Some (p, x) |> <| di_iosqs := None |>) with d; [by apply Hf|].
    destruct d; simpl in *; by subst.
  - intros q y Hq. split; [lia|]. intros _. by apply owns_ret, Hs.
Qed.

(** Members of [d] that own nothing may change. *)
Definition same_own (d d' : nvme_dev_info) : Prop :=
  di_ctrl d' = di_ctrl d ∧ di_ns_grp d' = di_ns_grp d ∧ di_iosqs d' = di_iosqs d ∧
  di_iocqs d' = di_iocqs d ∧ di_pdev d' = di_pdev d ∧ di_fd d' = di_fd d ∧ di_sock_fd d' = di_sock_fd d.

Lemma owns_aq_pair sq cq l F d (Q : post Z) :
  (∀ r d', same_own d d' → Q r l F d') → owns l F d (nvme_create_aq_pair sq cq) Q.
Proof.
  intros HQ. unfold nvme_create_aq_pair.
  apply owns_chk_lt0_rtn; [done|]. unfold nvme_create_acq. pass ltac:(apply quiet_ioctl). intros [r ps].
  apply owns_if; intros ?.
  { apply owns_ret. split; [intros _; by apply HQ|lia]. }
  apply owns_bind, owns_upd_ndev, owns_ret. split; [lia|]. intros _.
  apply owns_chk_lt0_rtn; [done|]. unfold nvme_create_asq. pass ltac:(apply quiet_ioctl). intros [r' ps'].
  apply owns_if; intros ?.
  { apply owns_ret. split; [intros _; by apply HQ|lia]. }
  apply owns_bind, owns_upd_ndev, owns_ret. split; [lia|]. intros _. by apply owns_ret, HQ.
Qed.

(** ** Stages *)

(** Stage 1 leaves a controller without its properties, and the socket. *)
Definition stage1_post (Q : post Z) (l : list Z) (F : gset Z) (fd : Z) : Prop :=
  ∀ d p c sock l', di_ctrl d = Some (p, c) → own (ctrl_prop c) ++ cs_ptrs c = [] →
    di_iosqs d = None → di_iocqs d = None → di_ns_grp d = None → di_pdev d = None → di_fd d = fd → di_sock_fd d = sock → sock ∉ F →
    l' ≡ₚ ctrl_ptrs (Some (p, c)) ++ l → Q 0 l' ({[sock]} ∪ F) d.

Lemma owns_stage1 l F d (Q : post Z) :
  di_ctrl d = None → di_ns_grp d = None → di_iosqs d = None → di_iocqs d = None → di_pdev d = None →
  (∀ r d', r < 0 → Q r l F d') → stage1_post Q l F (di_fd d) →
  owns l F d nvme_init_stage1 Q.
Proof.
  intros Hc Hg Hs Hq Hp Hf HQ. unfold nvme_init_stage1.
  apply owns_quiet_rtn; [apply quiet_ioctl0|by apply Hf|]. intros _.
  apply owns_quiet_obj; [apply quiet_ioctl_ret|intros _; by apply owns_ret, Hf|]. intros _ pub.
  apply owns_bind, owns_upd_ndev. set (d1 := match pub with Some pub => _ | None => d end).
  assert (H1 : same_own d d1) by (unfold d1; by destruct pub). clearbody d1.
  apply owns_chk_lt0_rtn; [done|]. apply owns_bind. pass solve_quiet. intros ok.
  apply owns_new_fd; [apply owns_ret; split; [intros _; by apply Hf|lia]|]. intros sock Hsock Hnew.
  rewrite (proj2 (Z.ltb_ge sock 0)) by done.
  assert (HF : ({[sock]} ∪ F) ∖ {[sock]} = F) by set_solver.
  pass solve_quiet. intros b. apply owns_if; intros ?.
  { apply owns_bind, owns_uclose. rewrite HF. apply owns_ret. split; [intros _; by apply Hf|lia]. }
  apply owns_ret. split; [lia|]. intros _. apply owns_bind, owns_upd_ndev.
  assert (Hout : ∀ d', di_sock_fd d' = sock → owns l ({[sock]} ∪ F) d' (disconnect;; mret (- EPERM)) Q).
  { intros d' Hd. apply owns_bind, owns_disconnect. rewrite Hd, HF. by apply owns_ret, Hf. }
  apply owns_chk_lt0_goto; [done|]. apply owns_aq_pair. intros r2 d2 H2.
  destruct H1 as (Hc1 & Hg1 & Hs1 & Hq1 & Hp1 & Hfd1 & _).
  destruct H2 as (Hc2 & Hg2 & Hs2 & Hq2 & Hp2 & Hfd2 & Hsock2).
  split; [intros _; by apply Hout|]. intros _.
  apply owns_quiet_goto; [apply quiet_ioctl0|by apply Hout|]. intros _.
  apply owns_bind, owns_upd_ndev.
  apply owns_quiet_goto; [apply quiet_ioctl0|by apply Hout|]. intros _.
  apply owns_chk_lt0_goto; [done|]. apply owns_init_stage1; [by etrans; [exact Hc2|etrans; [exact Hc1|]]|..].
  - intros r Hr. split; [|lia]. intros _. by apply Hout.
  - intros p c l' Hnil Hl. split; [lia|]. intros _. apply owns_ret.
    unfold set_field in *. simpl in *. apply (HQ _ p c sock); simpl; done || congruence.
Qed.

(** Stage 2 ends with everything in place, but for namespaces the device listed out of
    order: their blocks are lost. *)
Definition full_post (Q : post Z) (l : list Z) (F : gset Z) (d0 : nvme_dev_info) : Prop :=
  ∀ d leak l', di_fd d = di_fd d0 → di_sock_fd d = di_sock_fd d0 → grp_ok (di_ns_grp d) →
    (di_ns_grp d ≠ None → leak = []) → l' ≡ₚ blocks d ++ leak ++ l → Q 0 l' F d.

Section stage2.
Context (p q : Z) (x : pci_dev_instance) (l : list Z) (F : gset Z) (Q : post Z).
Context (Hf : ∀ r d leak l', r < 0 → l' ≡ₚ leak ++ l → Q r l' F d).

Lemma owns_exit_pci r d leak l' :
  r < 0 → di_pdev d = Some (q, x) → l' ≡ₚ ptrs q ++ leak ++ l →
  owns l' F d (deinit_pci_dev_instance;; mret r) Q.
Proof using Hf.
  intros ? Hd Hl. apply (owns_perm _ _ _ _ _ _ _ Hl). change (ptrs q) with (own (Some (q, x))).
  apply owns_bind, owns_deinit_pdev; [done|]. by apply owns_ret, (Hf _ _ leak).
Qed.
Lemma owns_exit_ctrl c r d leak l' :
  r < 0 → di_ctrl d = Some (p, c) → di_pdev d = Some (q, x) →
  l' ≡ₚ own (ctrl_prop c) ++ cs_ptrs c ++ ptrs q ++ leak ++ l →
  owns l' F d (deinit_ctrl_instance NVME_INIT_STAGE2;; deinit_pci_dev_instance;; mret r) Q.
Proof using Hf.
  intros ? Hd Hd' Hl. apply (owns_perm _ _ _ _ _ _ _ Hl).
  apply owns_bind, (owns_deinit_stage2 p c); [done|]. by eapply owns_exit_pci.
Qed.

(** The tables of queues and the namespaces, once the controller is known. *)
Lemma owns_stage2_tables c l2 l1 d :
  di_ctrl d = Some (p, c) → di_pdev d = Some (q, x) → di_iosqs d = None → di_ns_grp d = None → has_prop d →
  l2 = ptrs p ++ ptrs (ctrl_id_ctrl c) →
  l1 ≡ₚ own (ctrl_prop c) ++ cs_ptrs c ++ ptrs q ++ l2 ++ l → full_post Q l F d →
  owns l1 F d (
    let exit_ctrl (ret : Z) : U Z :=
      deinit_ctrl_instance NVME_INIT_STAGE2;; deinit_pci_dev_instance;; mret ret in
    chk_lt0_goto nvme_init_ioq_info (- EPERM) exit_ctrl (λ _,
    chk_lt0_goto init_ns_group (- EPERM) (λ ret, nvme_deinit_ioq_info;; exit_ctrl ret) (λ _,
    mret 0))) Q.
Proof using Hf.
  intros Hc Hp Hs Hg Hprop El2 Hl1 HQ. simpl. apply owns_chk_lt0_goto; [done|]. apply owns_init_ioq; [done..| |].
  { intros r ?. split; [|lia]. intros _. by eapply owns_exit_ctrl. }
  intros ps xs pq xq Hps Hpq. split; [lia|]. intros _. rewrite (ptrs_cons pq), (ptrs_cons ps) by done.
  set (d5 := d <| di_iosqs := Some (ps, xs) |> <| di_iocqs := Some (pq, xq) |>).
  assert (Hl5 : ptrs pq ++ ptrs ps ++ l1 ≡ₚ
    ptrs ps ++ ptrs pq ++ own (ctrl_prop c) ++ cs_ptrs c ++ ptrs q ++ l2 ++ l) by (rewrite Hl1; by perm).
  apply owns_chk_lt0_goto; [done|]. apply (owns_init_ns_group p c); [done|done|..].
  { intros Hn. rewrite Hl5, El2, (ptrs_pos (ctrl_id_ctrl c)) by done. set_solver. }
  - intros r leak l' Hl. split.
    + intros Hr. apply (owns_perm _ _ (own (Some (ps, xs)) ++ own (Some (pq, xq)) ++ own (ctrl_prop c) ++
        cs_ptrs c ++ ptrs q ++ (leak ++ l2) ++ l)); [rewrite Hl, Hl5; by perm|].
      apply owns_bind, owns_deinit_ioq_info; [done..|]. by eapply owns_exit_ctrl.
    + intros _. apply owns_ret, (HQ d5 leak); [done|done|by unfold d5, set_field; simpl; rewrite Hg|done|].
      rewrite Hl, Hl5, El2. unfold blocks, d5, set_field. simpl. rewrite Hg, Hp, Hc. simpl. by perm.
  - intros pg g l' Hok Hl. split; [lia|]. intros _. apply owns_ret, (HQ _ []); [done..|].
    rewrite Hl, Hl5, El2. unfold blocks, d5, set_field. simpl. rewrite Hp, Hc. simpl. by perm.
Qed.
End stage2.

Lemma owns_stage2 p c l0 l F d (Q : post Z) :
  di_ctrl d = Some (p, c) → own (ctrl_prop c) ++ cs_ptrs c = [] →
  di_iosqs d = None → di_iocqs d = None → di_ns_grp d = None → di_pdev d = None →
  l0 = ctrl_ptrs (Some (p, c)) ++ l →
  (∀ r d' leak l', r < 0 → l' ≡ₚ leak ++ l → Q r l' F d') → full_post Q l F d →
  owns l0 F d nvme_init_stage2 Q.
Proof.
  intros Hc Hnil Hs Hq Hg Hp -> Hf HQ. unfold nvme_init_stage2.
  assert (Hr : ∀ r d', r < 0 → Q r (ctrl_ptrs (Some (p, c)) ++ l) F d').
  { intros r d' ?. by apply (Hf _ _ (ctrl_ptrs (Some (p, c)))). }
  apply owns_quiet_rtn; [apply quiet_ioctl0|by apply Hr|]. intros _.
  apply owns_chk_lt0_rtn; [done|]. apply owns_aq_pair. intros r1 d1 H1.
  split; [intros _; by apply Hr|]. intros _.
  apply owns_chk_lt0_rtn; [done|]. apply owns_init_pdev.
  { intros r ?. split; [intros _; by apply Hr|lia]. }
  intros q x Hq0. split; [lia|]. intros _. rewrite (ptrs_cons q) by done.
  destruct H1 as (Hc1 & Hg1 & Hs1 & Hq1 & Hp1 & Hfd1 & Hsock1).
  apply owns_bind, owns_get_ndev. unfold the_ctrl, set_field at 1. simpl. rewrite Hc1, Hc.
  apply owns_bind, owns_ret. unfold set_field at 1. simpl. apply owns_bind, owns_ret.
  apply owns_bind, owns_upd_ndev. match goal with |- Bag.owns _ _ _ _ ?x _ _ => set (d3 := x) end.
  assert (H3 : di_ctrl d3 = Some (p, c) ∧ di_ns_grp d3 = None ∧ di_iosqs d3 = None ∧ di_pdev d3 = Some (q, x) ∧
    di_fd d3 = di_fd d ∧ di_sock_fd d3 = di_sock_fd d) by (unfold d3, set_field; simpl; repeat split; congruence).
  clearbody d3. destruct H3 as (Hc3 & Hg3 & Hs3 & Hp3 & Hfd3 & Hsock3).
  apply owns_quiet_goto; [apply quiet_ioctl0|by eapply (owns_exit_pci q x)|]. intros _.
  apply owns_quiet_goto; [apply quiet_ioctl0|by eapply (owns_exit_pci q x)|]. intros _.
  apply owns_chk_lt0_goto; [done|]. apply (owns_init_stage2 p c); [done|done|..].
  { intros r c' Hr' _ _. split; [|lia]. intros _. by eapply (owns_exit_pci q x). }
  intros c' l1 qp xp Hid Hprop Hl1. split; [lia|]. intros _.
  apply (owns_stage2_tables p q x l F Q Hf c' (ptrs p ++ ptrs (ctrl_id_ctrl c'))); [done|done|done|done| |done| |].
  - by exists p, c', qp, xp.
  - rewrite Hl1, Hid. simpl. rewrite Hnil, app_nil_r. by perm.
  - intros d' leak l' Hfd' Hsock'. apply HQ; etrans; [exact Hfd'|done|exact Hsock'|done].
Qed.

Lemma owns_nvme_init F d (Q : post (option Z)) :
  (∀ l F' d', F ⊆ F' → Q None l F' d') →
  (∀ p d' leak l F', F' ∖ {[di_sock_fd d']} ∖ {[di_fd d']} = F → grp_ok (di_ns_grp d') →
     (di_ns_grp d' ≠ None → leak = []) → l ≡ₚ ptrs p ++ blocks d' ++ leak → Q (Some p) l F' d') →
  owns [] F d nvme_init Q.
Proof.
  intros Hf Hs. apply owns_bind, owns_zalloc; [by apply owns_ret, Hf|]. intros p Hp.
  rewrite (proj2 (Z.eqb_neq p 0)) by done. rewrite (ptrs_cons p) by done.
  assert (Hout : ∀ l F' d', F ⊆ F' → owns (ptrs p ++ l) F' d' (free p;; mret None) Q).
  { intros l F' d' ?. apply owns_bind, owns_free. by apply owns_ret, Hf. }
  apply owns_bind, owns_upd_ndev. apply owns_bind, owns_bind. apply owns_call. intros ok.
  apply owns_new_fd.
  { apply owns_bind, owns_upd_ndev. by apply Hout. }
  intros fd Hfd Hnew. apply owns_bind, owns_upd_ndev. rewrite (proj2 (Z.ltb_ge fd 0)) by done.
  apply owns_bind, owns_stage1; [done..| |].
  { intros r d' Hr. rewrite (proj2 (Z.ltb_lt r 0)) by done. apply Hout. set_solver. }
  intros d1 q c sock l1 Hc Hnil Hs1 Hq1 Hg1 Hp1 Hfd1 <- Hsock Hl1. simpl.
  apply (owns_perm _ _ _ _ _ _ _ Hl1).
  apply owns_bind, (owns_stage2 q c _ (ptrs p ++ [])); [done..| |].
  - intros r d' leak l' Hr Hl. rewrite (proj2 (Z.ltb_lt r 0)) by done.
    apply (owns_perm _ _ (ptrs p ++ leak)); [rewrite Hl; by perm|]. apply Hout. set_solver.
  - intros d2 leak l2 Hfd2 Hsock2 Hok Hleak Hl2. simpl. apply owns_bind, owns_upd_ndev, owns_ret.
    apply (Hs _ _ leak); [|done|done|].
    + unfold set_field at 1 2. simpl. rewrite Hfd2, Hsock2, Hfd1. set_solver.
    + rewrite Hl2. unfold blocks, set_field. simpl. by perm.
Qed.
End acquire.
End safe.

