(* ===== verification/IdDesc.v ===== *)
(** * Namespace identification descriptors

    The list of descriptors a device returns is an encoding: a type byte, a length byte,
    two reserved bytes and the identifier, ended by type 0.  [parse_ns_id_desc] of
    [lib/nvme/core.c] accepts exactly the encodings of lists of descriptors of known
    types, right lengths and no type twice, stays inside the data and ends. *)

From S2P Require Import Prelude Layout Types Kernel Core Structs Host HostSpec LibIoctl LibNetlink LibCmd LibAdmin LibQueue LibCore.

Record id_desc := { idd_type : Z; idd_rsv : list Z; idd_nid : list Z }.

Definition enc_desc (x : id_desc) : list Z :=
  idd_type x :: Z.of_nat (length (idd_nid x)) :: idd_rsv x ++ idd_nid x.
Definition desc_ok (x : id_desc) : Prop :=
  nidt_len (idd_type x) = Some (Z.of_nat (length (idd_nid x))) ∧ length (idd_rsv x) = 2%nat.
Definition encode (xs : list id_desc) : list Z := mjoin (enc_desc <$> xs).
Lemma encode_cons x xs : encode (x :: xs) = enc_desc x ++ encode xs.
Proof. done. Qed.
(** [bs] starts with the encoding of [xs]. *)
Definition desc_stream (bs : list Z) (xs : list id_desc) : Prop :=
  (∃ rest, bs = encode xs ++ 0 :: rest) ∧ Forall desc_ok xs ∧ NoDup (idd_type <$> xs).

(** The table: for each type the offset of its descriptor. *)
Fixpoint desc_table (pos : Z) (xs : list id_desc) (t : list (option Z)) : list (option Z) :=
  match xs with
  | [] => t
  | x :: xs => desc_table (pos + 4 + Z.of_nat (length (idd_nid x))) xs (<[Z.to_nat (idd_type x) := Some pos]> t)
  end.

(** Types not seen yet. *)
Definition nones (t : list (option Z)) : nat := length (filter (λ o, o = None) t).

Lemma nones_insert t i v : t !! i = Some None → nones t = S (nones (<[i := Some v]> t)).
Proof.
  intros Hi. unfold nones. rewrite <-(take_drop_middle t i None) at 1 by done.
  rewrite insert_take_drop by (by eapply lookup_lt_Some).
  rewrite !filter_app, !length_app, !filter_cons. simpl. lia.
Qed.
Lemma nones_pos t i : t !! i = Some None → (0 < nones t)%nat.
Proof. intros Hi. rewrite (nones_insert t i 0) by done. lia. Qed.

Lemma nidt_len_cases ty len :
  nidt_len ty = Some len → (1 ≤ ty ≤ 4) ∧ (1 ≤ len ≤ 16).
Proof.
  unfold nidt_len, NVME_NIDT_EUI64, NVME_NIDT_NGUID, NVME_NIDT_UUID, NVME_NIDT_CSI,
    NVME_NIDT_EUI64_LEN, NVME_NIDT_NGUID_LEN, NVME_NIDT_UUID_LEN, NVME_NIDT_CSI_LEN.
  repeat case_match; intros; simplify_eq; lia.
Qed.

Lemma encode_inj xs ys r r' :
  Forall desc_ok xs → Forall desc_ok ys → encode xs ++ 0 :: r = encode ys ++ 0 :: r' → xs = ys.
Proof.
  revert ys. induction xs as [|x xs IH]; intros [|y ys] Hx Hy Heq; [done|..].
  - apply Forall_cons in Hy as [[Hl _] _]. apply nidt_len_cases in Hl. injection Heq. lia.
  - apply Forall_cons in Hx as [[Hl _] _]. apply nidt_len_cases in Hl. injection Heq. lia.
  - apply Forall_cons in Hx as [[Hlx Hrx] Hx], Hy as [[Hly Hry] Hy]. unfold encode in Heq. simpl in Heq.
    injection Heq as Ht Hl Heq. rewrite <-!app_assoc in Heq.
    apply app_inj_1 in Heq as [Hr Heq]; [|congruence]. apply app_inj_1 in Heq as [Hn Heq]; [|lia].
    f_equal; [destruct x, y; simpl in *; congruence|by apply (IH ys)].
Qed.

(** One step of the loop on a descriptor. *)
Lemma parse_step fuel pre x suf t :
  desc_ok x → t !! Z.to_nat (idd_type x) = Some None → (length pre ≤ 80)%nat →
  let pos := Z.of_nat (length pre) in
  let pos' := pos + 4 + Z.of_nat (length (idd_nid x)) in
  parse_descs (S fuel) (pre ++ enc_desc x ++ suf) pos (4096 - pos) t =
  parse_descs fuel (pre ++ enc_desc x ++ suf) pos' (4096 - pos')
    (<[Z.to_nat (idd_type x) := Some pos]> t).
Proof.
  intros [Hl Hr] Ht Hpre pos pos'. pose proof (nidt_len_cases _ _ Hl) as [Hty Hlen].
  assert (H0 : load_le 1 (pre ++ enc_desc x ++ suf) pos = Some (idd_type x)).
  { unfold enc_desc. by apply load_byte_app. }
  assert (H1 : load_le 1 (pre ++ enc_desc x ++ suf) (pos + 1) = Some (Z.of_nat (length (idd_nid x)))).
  { unfold enc_desc. simpl. rewrite cons_middle, app_assoc. apply load_byte_app. rewrite length_app. simpl. lia. }
  cbn [parse_descs]. rewrite H0. cbn [mbind option_bind]. rewrite (proj2 (Z.eqb_neq _ 0)) by lia.
  rewrite Hl, H1. cbn [mbind option_bind]. rewrite Z.eqb_refl, Ht. cbn [negb]. change (sizeof struct_nvme_ns_id_desc) with 4.
  rewrite u64_small by lia. rewrite (proj2 (Z.leb_gt _ _)) by lia. unfold pos'. f_equal; lia.
Qed.

(** A type and the right length are the start of a descriptor when there is room. *)
Lemma take_desc b len suf :
  nidt_len b = Some len → (2 + Z.to_nat len ≤ length suf)%nat →
  ∃ x, desc_ok x ∧ idd_type x = b ∧ length (idd_nid x) = Z.to_nat len ∧
    b :: len :: suf = enc_desc x ++ drop (Z.to_nat len) (drop 2 suf).
Proof.
  intros Hl Hs. pose proof (nidt_len_cases _ _ Hl) as [_ Hlen].
  assert (Hn : length (take (Z.to_nat len) (drop 2 suf)) = Z.to_nat len) by (rewrite length_take, length_drop; lia).
  exists {| idd_type := b; idd_rsv := take 2 suf; idd_nid := take (Z.to_nat len) (drop 2 suf) |}.
  unfold desc_ok, enc_desc. cbn [idd_type idd_rsv idd_nid]. rewrite Hn, Z2Nat.id by lia. split_and!; try done.
  - rewrite length_take. lia.
  - simpl. f_equal. f_equal. by rewrite <-app_assoc, !take_drop.
Qed.

(** A stream of types that the table does not have yet. *)
Definition fresh_stream (t : list (option Z)) (bs : list Z) (xs : list id_desc) : Prop :=
  desc_stream bs xs ∧ Forall (λ x, t !! Z.to_nat (idd_type x) = Some None) xs.

Lemma type_nat x y : desc_ok x → desc_ok y → Z.to_nat (idd_type x) = Z.to_nat (idd_type y) → idd_type x = idd_type y.
Proof. intros [Hx _] [Hy _]. apply nidt_len_cases in Hx, Hy. lia. Qed.

Lemma fresh_stream_cons t x xs p bs :
  desc_ok x → t !! Z.to_nat (idd_type x) = Some None →
  fresh_stream (<[Z.to_nat (idd_type x) := Some p]> t) bs xs → fresh_stream t (enc_desc x ++ bs) (x :: xs).
Proof.
  intros Hx Ht [[[rest ->] [Hok Hnd]] Hf].
  assert (Hne : ∀ y, y ∈ xs → Z.to_nat (idd_type y) ≠ Z.to_nat (idd_type x) ∧ t !! Z.to_nat (idd_type y) = Some None).
  { intros y Hy. rewrite Forall_forall in Hf. specialize (Hf y Hy).
    assert (Hn : Z.to_nat (idd_type y) ≠ Z.to_nat (idd_type x)).
    { intros Hn. rewrite Hn, list_lookup_insert_eq in Hf; [done|by eapply lookup_lt_Some]. }
    by rewrite list_lookup_insert_ne in Hf by done. }
  split; [split_and!|].
  - exists rest. by rewrite encode_cons, <-app_assoc.
  - by constructor.
  - rewrite fmap_cons. apply NoDup_cons. split; [|done].
    intros (y & Hy1 & Hy2)%list_elem_of_fmap. apply Hne in Hy2 as [Hn _]. congruence.
  - constructor; [done|]. apply Forall_forall. intros y Hy. by apply Hne.
Qed.
Lemma fresh_stream_inv t x ys p bs :
  desc_ok x → fresh_stream t (enc_desc x ++ bs) ys →
  ∃ xs, ys = x :: xs ∧ fresh_stream (<[Z.to_nat (idd_type x) := Some p]> t) bs xs.
Proof.
  intros Hx [[[rest Heq] [Hok Hnd]] Hf]. destruct ys as [|y ys].
  { destruct Hx as [Hl _]. apply nidt_len_cases in Hl. injection Heq. lia. }
  apply Forall_cons in Hok as [Hy Hok], Hf as [Ht Hf]. rewrite fmap_cons, NoDup_cons in Hnd.
  unfold encode in Heq. simpl in Heq. injection Heq as Hty Hl Heq. rewrite <-!app_assoc in Heq.
  destruct Hx as [Hlx Hrx], Hy as [Hly Hry].
  apply app_inj_1 in Heq as [Hr Heq]; [|congruence]. apply app_inj_1 in Heq as [Hn Heq]; [|lia].
  assert (y = x) as -> by (destruct x, y; simpl in *; congruence).
  exists ys. split; [done|]. split; [split_and!; [by exists rest|done|by destruct Hnd]|].
  apply Forall_forall. intros z Hz. rewrite Forall_forall in Hf, Hok.
  rewrite list_lookup_insert_ne; [by apply Hf|]. intros Hn'. destruct Hnd as [[] _].
  rewrite (type_nat x z); [by apply list_elem_of_fmap_2|by split|by apply Hok|done].
Qed.
Lemma fresh_stream_head t b bs xs :
  fresh_stream t (b :: bs) xs → b ≠ 0 →
  ∃ x, x ∈ xs ∧ desc_ok x ∧ idd_type x = b ∧ t !! Z.to_nat b = Some None ∧
    ∃ bs', bs = Z.of_nat (length (idd_nid x)) :: bs'.
Proof.
  intros [[[rest Heq] [Hok _]] Hf] Hb. destruct xs as [|x xs]; [injection Heq; lia|].
  apply Forall_cons in Hok as [Hx _], Hf as [Ht _]. injection Heq as Hty Heq.
  exists x. rewrite Hty. split_and!; [set_solver|done..|]. eauto.
Qed.

Definition loop_result (pos : Z) (t : list (option Z)) (suf : list Z)
    (r : option (option (Z * list (option Z)))) : Prop :=
  (∃ xs, fresh_stream t suf xs ∧ r = Some (Some (0, desc_table pos xs t))) ∨
  (r = Some (Some (- EINVAL, no_descs)) ∧ ∀ xs, ¬ fresh_stream t suf xs).

Lemma parse_loop fuel pre suf t :
  length t = 5%nat → t !! 0%nat = Some None → (nones t ≤ fuel)%nat → (nones t ≤ 5)%nat →
  (length pre ≤ 20 * (5 - nones t))%nat → (length pre + length suf = 4096)%nat →
  loop_result (Z.of_nat (length pre)) t suf
    (parse_descs fuel (pre ++ suf) (Z.of_nat (length pre)) (4096 - Z.of_nat (length pre)) t).
Proof.
  revert pre suf t. induction fuel as [|fuel IH]; intros pre suf t Hlen Ht0 Hfuel H5 Hpre Htot.
  { pose proof (nones_pos t 0 Ht0). lia. }
  pose proof (nones_pos t 0 Ht0) as Hpos. assert (Hp : (length pre ≤ 80)%nat) by lia.
  destruct suf as [|b suf]; [simpl in Htot; lia|].
  assert (Hread : load_le 1 (pre ++ b :: suf) (Z.of_nat (length pre)) = Some b) by by apply load_byte_app.
  destruct (decide (b = 0)) as [->|Hb].
  { left. exists []. split; [|by cbn [parse_descs]; rewrite Hread].
    split; [|constructor]. split_and!; [by exists suf|constructor|constructor]. }
  destruct (nidt_len b) as [len|] eqn:Hl.
  2: { right. cbn [parse_descs]. rewrite Hread. cbn [mbind option_bind].
       rewrite (proj2 (Z.eqb_neq b 0)), Hl by done. split; [done|]. intros xs Hs.
       destruct (fresh_stream_head _ _ _ _ Hs Hb) as (x & _ & [Hx _] & Hty & _). congruence. }
  pose proof (nidt_len_cases _ _ Hl) as [Hty Hlen'].
  destruct suf as [|c suf]; [simpl in Htot; lia|].
  assert (Hread2 : load_le 1 (pre ++ b :: c :: suf) (Z.of_nat (length pre) + 1) = Some c).
  { rewrite cons_middle, app_assoc. apply load_byte_app. rewrite length_app. simpl. lia. }
  destruct (lookup_lt_is_Some_2 t (Z.to_nat b)) as [o Ho]; [lia|].
  destruct (decide (c = len ∧ o = None)) as [[-> ->]|Hbad].
  2: { right. cbn [parse_descs]. rewrite Hread. cbn [mbind option_bind].
       rewrite (proj2 (Z.eqb_neq b 0)), Hl, Hread2, Ho by done. cbn [mbind option_bind]. split.
       - destruct (Z.eqb_spec c len); [destruct o; [done|naive_solver]|done].
       - intros xs Hs. destruct (fresh_stream_head _ _ _ _ Hs Hb) as (x & _ & [Hx _] & Hty' & Hnone & bs' & [=]).
         naive_solver congruence. }
  simpl in Htot. destruct (take_desc b len suf) as (x & Hx & <- & Hnid & Henc); [done|lia|].
  rewrite Henc. rewrite (parse_step fuel pre x) by done. set (t' := <[_ := _]> t).
  assert (Hn : nones t = S (nones t')) by by apply nones_insert.
  assert (Hel : length (enc_desc x) = (4 + Z.to_nat len)%nat).
  { unfold enc_desc. simpl. rewrite length_app, Hnid. destruct Hx as [_ ->]. lia. }
  assert (Hpos' : Z.of_nat (length pre) + 4 + Z.of_nat (length (idd_nid x)) = Z.of_nat (length (pre ++ enc_desc x)))
    by (rewrite length_app; lia).
  rewrite Hpos'.
  rewrite app_assoc. destruct (IH (pre ++ enc_desc x) (drop (Z.to_nat len) (drop 2 suf)) t') as [(xs & Hs & ->)|[-> Hs]].
  all: try (unfold t'; rewrite ?length_insert, ?list_lookup_insert_ne by lia; done).
  all: try (rewrite ?length_app, ?length_drop; lia).
  - left. exists (x :: xs). split; [by eapply fresh_stream_cons|]. cbn [desc_table]. by rewrite Hpos'.
  - right. split; [done|]. intros ys Hy. destruct (fresh_stream_inv t x ys (Z.of_nat (length pre)) _ Hx Hy) as (xs & _ & Hxs).
    by apply (Hs xs).
Qed.

(** C15. The list of identification descriptors of a namespace is parsed exactly: when the
    4096 bytes the device returned start with the encoding of descriptors of known types
    and lengths, none twice, the call succeeds and the table has the offset of each
    descriptor; otherwise it fails with -EINVAL and the table is empty.  No access leaves
    the data and the loop ends in every case. *)
Theorem id_desc_exact {H : Host} (s : ustate) (ns : nvme_ns_instance) (data : Z) (bs : list Z)
    (Hd : data ≠ 0) (Hbs : u_heap s !! data = Some bs) (Hlen : length bs = 4096%nat)
    (Ht : ns_id_desc ns = no_descs) :
  (∀ xs, desc_stream bs xs →
     parse_ns_id_desc ns data NVME_IDENTIFY_DATA_SIZE s =
     Ret (0, ns <| ns_id_desc := desc_table 0 xs no_descs |> <| ns_id_desc_raw := data |>) s) ∧
  ((∀ xs, ¬ desc_stream bs xs) →
     parse_ns_id_desc ns data NVME_IDENTIFY_DATA_SIZE s = Ret (- EINVAL, ns <| ns_id_desc := no_descs |>) s).
Proof.
  assert (Hfresh : ∀ xs, desc_stream bs xs → fresh_stream no_descs bs xs).
  { intros xs Hs. split; [done|]. destruct Hs as (_ & Hok & _). eapply Forall_impl; [exact Hok|].
    intros x [Hl _]. apply nidt_len_cases in Hl. apply lookup_replicate_2. unfold NVME_NIDT_FENCE. lia. }
  assert (Hrun : ∀ r, parse_descs (Z.to_nat NVME_NIDT_FENCE) bs 0 4096 no_descs = Some (Some r) →
    parse_ns_id_desc ns data NVME_IDENTIFY_DATA_SIZE s =
    Ret (r.1, if r.1 <? 0 then ns <| ns_id_desc := r.2 |>
              else ns <| ns_id_desc := r.2 |> <| ns_id_desc_raw := data |>) s).
  { intros [r t] Hr. unfold parse_ns_id_desc. rewrite Ht. unfold mbind at 1, U_bind, ublock.
    rewrite (proj2 (Z.eqb_neq data 0)), Hbs by done. unfold NVME_IDENTIFY_DATA_SIZE. by rewrite Hr. }
  assert (Hloop : loop_result 0 no_descs bs (parse_descs (Z.to_nat NVME_NIDT_FENCE) bs 0 4096 no_descs))
    by (apply (parse_loop _ []); done || (vm_compute; lia)).
  destruct Hloop as [(xs & Hs & Hr)|[Hr Hs]].
  - rewrite (Hrun _ Hr). split; [|by intros Hn; destruct (Hn xs); destruct Hs].
    intros ys Hy. destruct Hs as [([r Hx] & Hok & _) _], Hy as ([r' Hy] & Hok' & _).
    rewrite Hx in Hy. by rewrite (encode_inj _ _ _ _ Hok Hok' Hy).
  - rewrite (Hrun _ Hr). split; [|done]. intros xs Hx. by destruct (Hs xs); apply Hfresh.
Qed.

(** *** Witness: a namespace with an EUI64 and a command set identifier *)

Definition demo_xs : list id_desc := [
  {| idd_type := 1; idd_rsv := [0; 0]; idd_nid := [1; 2; 3; 4; 5; 6; 7; 8] |};
  {| idd_type := 4; idd_rsv := [0; 0]; idd_nid := [2] |} ].
Definition demo_descs : list Z := encode demo_xs ++ 0 :: zeros 4078.

Lemma id_desc_exact_witness :
  let s := idle_state dev_info_zero {[ 7 := demo_descs ]} in
  @parse_ns_id_desc idle_host ns_zero 7 NVME_IDENTIFY_DATA_SIZE s =
  Ret (0, ns_zero <| ns_id_desc := [None; Some 0; None; None; Some 12] |> <| ns_id_desc_raw := 7 |>) s.
Proof.
  intros s. apply (@id_desc_exact idle_host s ns_zero 7 demo_descs) with (xs := demo_xs).
  - discriminate.
  - reflexivity.
  - reflexivity.
  - reflexivity.
  - split; [by exists (zeros 4078)|]. split; [repeat constructor|]. repeat constructor; set_solver.
Defined.
