(* ===== verification/NetSpec.v ===== *)
(** * Netlink messages: encoding, parsing, safety

    A message in memory is its header, the generic header and a stream of attributes, each
    padded to four bytes.  [nla_put] appends to the stream; [nla_parse] finds in a stream
    the last attribute of each type; on bytes that are not a stream it still ends and
    stays close to the bytes it was given. *)

From S2P Require Import Prelude Layout Types Kernel Core Host HostSpec LibNetlink.

Record attr := { at_type : Z; at_data : list Z }.

Definition at_len (a : attr) : Z := 4 + Z.of_nat (length (at_data a)).
Definition at_pad (a : attr) : Z := NLA_ALIGN (at_len a) - at_len a.
Definition enc_attr (a : attr) : list Z :=
  le_bytes 2 (at_len a) ++ le_bytes 2 (at_type a) ++ at_data a ++ zeros (at_pad a).
Definition stream (xs : list attr) : list Z := mjoin (enc_attr <$> xs).
Definition attr_ok (a : attr) : Prop := 0 ≤ at_type a < 2 ^ 14 ∧ at_len a < 2 ^ 16.

Lemma align4 n : 0 ≤ n → NLA_ALIGN n = (n + 3) / 4 * 4.
Proof.
  intros Hn. unfold NLA_ALIGN. replace (n + 4 - 1) with (n + 3) by lia. replace (4 - 1) with (Z.ones 2) by done.
  rewrite <-Z.ldiff_land, Z.ldiff_ones_r, Z.shiftr_div_pow2, Z.shiftl_mul_pow2 by lia. done.
Qed.
Lemma align4_bounds n : 0 ≤ n → n ≤ NLA_ALIGN n < n + 4 ∧ NLA_ALIGN n mod 4 = 0.
Proof. intros Hn. rewrite align4 by done. split; [|apply Z_mod_mult]. pose proof (Z.div_mod (n + 3) 4). pose proof (Z.mod_pos_bound (n + 3) 4). lia. Qed.
Lemma align4_same n : 0 ≤ n → n mod 4 = 0 → NLA_ALIGN n = n.
Proof. intros Hn Hm. destruct (align4_bounds n Hn) as [? H2]. pose proof (Z.div_mod n 4). pose proof (Z.div_mod (NLA_ALIGN n) 4). lia. Qed.

Lemma length_zeros n : length (zeros n) = Z.to_nat n.
Proof. apply length_replicate. Qed.
Lemma length_enc_attr a : Z.of_nat (length (enc_attr a)) = NLA_ALIGN (at_len a).
Proof.
  unfold enc_attr. rewrite !length_app, !length_le_bytes, length_zeros. unfold at_pad.
  pose proof (align4_bounds (at_len a)). unfold at_len in *. lia.
Qed.
Lemma stream_app xs ys : stream (xs ++ ys) = stream xs ++ stream ys.
Proof. unfold stream. by rewrite fmap_app, join_app. Qed.
Lemma length_stream_mod xs : Z.of_nat (length (stream xs)) mod 4 = 0.
Proof.
  induction xs as [|a xs IH]; [done|]. change (stream (a :: xs)) with (enc_attr a ++ stream xs).
  rewrite length_app, Nat2Z.inj_add, length_enc_attr.
  assert (0 ≤ at_len a) by (unfold at_len; lia). destruct (align4_bounds (at_len a)) as [_ Ha]; [done|].
  by rewrite Z.add_mod, Ha, IH by done.
Qed.

(** ** Parsing a stream *)

(** The table of offsets: the last attribute of a type wins. *)
Fixpoint attr_table (pos maxtype : Z) (xs : list attr) (tb : list (option Z)) : list (option Z) :=
  match xs with
  | [] => tb
  | a :: xs => attr_table (pos + NLA_ALIGN (at_len a)) maxtype xs
                 (if maxtype <? at_type a then tb else <[Z.to_nat (at_type a) := Some pos]> tb)
  end.

Lemma type_mask t : 0 ≤ t < 2 ^ 14 → Z.land t NLA_TYPE_MASK = t.
Proof.
  intros Ht. change NLA_TYPE_MASK with (Z.ones 14). rewrite Z.land_ones by lia. by apply Z.mod_small.
Qed.

Lemma attr_fields pre a suf :
  attr_ok a →
  nla_len_field (pre ++ enc_attr a ++ suf) (Z.of_nat (length pre)) = Some (at_len a) ∧
  nla_type (pre ++ enc_attr a ++ suf) (Z.of_nat (length pre)) = Some (at_type a).
Proof.
  intros [Ht Hl]. unfold enc_attr. rewrite <-!app_assoc. split.
  - unfold nla_len_field, get_at. change (resolve _ _) with (Some (0, cu16)). cbn [mbind option_bind].
    rewrite (load_le_app (Z.to_nat (sizeof cu16)) pre) by (rewrite ?length_le_bytes; simpl; lia).
    rewrite le_val_bytes. f_equal. apply Z.mod_small. unfold at_len in *. simpl. lia.
  - unfold nla_type, get_at. change (resolve _ _) with (Some (2, cu16)). cbn [mbind option_bind].
    rewrite (app_assoc pre), (load_le_app (Z.to_nat (sizeof cu16)) (pre ++ _));
      [|rewrite length_app, length_le_bytes; simpl; lia|by rewrite length_le_bytes].
    cbn [mbind option_bind]. rewrite le_val_bytes, (Z.mod_small (at_type a)) by (simpl; lia). by rewrite type_mask.
Qed.

Lemma nla_parse_stream fuel maxtype xs pre suf tb :
  Forall attr_ok xs → (length xs < fuel)%nat →
  Z.of_nat (length (stream xs)) < 2 ^ 63 →
  nla_parse_loop fuel (pre ++ stream xs ++ suf) maxtype (Z.of_nat (length pre)) (Z.of_nat (length (stream xs))) tb =
  Some (Some (attr_table (Z.of_nat (length pre)) maxtype xs tb)).
Proof.
  revert pre xs tb. induction fuel as [|fuel IH]; intros pre xs tb Hok Hf Hb; [lia|].
  destruct xs as [|a xs]; [done|]. apply Forall_cons in Hok as [Ha Hok]. simpl in Hf.
  change (stream (a :: xs)) with (enc_attr a ++ stream xs) in *. rewrite <-!app_assoc.
  destruct (attr_fields pre a (stream xs ++ suf) Ha) as [Hl Ht].
  rewrite length_app, Nat2Z.inj_add, length_enc_attr in *.
  assert (Hn : 4 ≤ at_len a) by (unfold at_len; lia). pose proof (align4_bounds (at_len a)) as [Hal _]; [lia|].
  cbn [nla_parse_loop]. unfold nla_ok. rewrite u64_small by lia.
  change (sizeof struct_nlattr) with 4. rewrite (proj2 (Z.ltb_ge _ 4)) by lia. rewrite Hl. cbn [mbind option_bind].
  rewrite (proj2 (Z.leb_le 4 _)), (proj2 (Z.leb_le (at_len a) _)) by lia. cbn [andb negb]. rewrite Ht. cbn [mbind option_bind].
  unfold nla_next. rewrite Hl. cbn [mbind option_bind]. rewrite Z.add_simpl_l.
  specialize (IH (pre ++ enc_attr a) xs). rewrite <-app_assoc, length_app, Nat2Z.inj_add, length_enc_attr in IH.
  rewrite IH by (done || lia). done.
Qed.

(** ** Building a message *)

(** The bytes of a message with the rest [h] of the header, the generic header [g], the
    attributes [xs], in a buffer with [junk] after it. *)
Definition msg_len (xs : list attr) : Z := 20 + Z.of_nat (length (stream xs)).
Definition msg_bytes (h g : list Z) (xs : list attr) (junk : list Z) : list Z :=
  le_bytes 4 (msg_len xs) ++ h ++ g ++ stream xs ++ junk.

Lemma put_at_app m pre old post bs off :
  nm_nlh m = pre ++ old ++ post → off = Z.of_nat (length pre) → length bs = length old →
  put_at m off bs = Some {| nm_nlh := pre ++ bs ++ post; nm_size := nm_size m |}.
Proof. intros Hm Ho Hl. unfold put_at. rewrite Hm, (store_bytes_app pre old) by done. done. Qed.
Lemma set_at_put t p o u v m base :
  resolve t p = Some (o, u) → set_at t p v m base = put_at m (base + o) (le_bytes (Z.to_nat (sizeof u)) v).
Proof. intros Hr. unfold set_at, put_at, store_le. by rewrite Hr. Qed.

Lemma nlmsg_len_app m n rest :
  nm_nlh m = le_bytes 4 n ++ rest → 0 ≤ n < 2 ^ 32 → nlmsg_len m = Some n.
Proof.
  intros Hm Hn. unfold nlmsg_len, get_at. change (resolve _ _) with (Some (0, cu32)). cbn [mbind option_bind].
  rewrite Hm. rewrite (load_le_app (Z.to_nat (sizeof cu32)) [] (le_bytes 4 n) rest) by done.
  rewrite le_val_bytes. f_equal. apply Z.mod_small. simpl. lia.
Qed.

Lemma nlmsg_align n : 0 ≤ n < 2 ^ 31 → n mod 4 = 0 → NLMSG_ALIGN n = n.
Proof.
  intros Hn Hm. change (NLMSG_ALIGN n) with (u32 (NLA_ALIGN n)). rewrite align4_same by lia.
  by apply u32_small; lia.
Qed.
Lemma s32_range n : - 2 ^ 31 ≤ s32 n < 2 ^ 31.
Proof. unfold s32. pose proof (Z.mod_pos_bound (n + 2 ^ 31) (2 ^ 32)). lia. Qed.

Lemma msg_prefix h g xs n :
  length h = 12%nat → length g = 4%nat →
  Z.of_nat (length (le_bytes 4 n ++ h ++ g ++ stream xs)) = msg_len xs.
Proof. intros. unfold msg_len. rewrite !length_app, length_le_bytes. lia. Qed.
Lemma nla_total_align a : nla_total_size (Z.of_nat (length (at_data a))) = NLA_ALIGN (at_len a).
Proof. done. Qed.

Lemma split_junk (junk : list Z) n p :
  (4 + n + p ≤ length junk)%nat →
  ∃ j0 j1 jd jp J, junk = j0 ++ j1 ++ jd ++ jp ++ J ∧ length j0 = 2%nat ∧ length j1 = 2%nat ∧
    length jd = n ∧ length jp = p.
Proof.
  intros Hl. exists (take 2 junk), (take 2 (drop 2 junk)), (take n (drop 4 junk)), (take p (drop (4 + n) junk)),
    (drop (4 + n + p) junk).
  split_and!; [|rewrite length_take, ?length_drop; lia..].
  rewrite <-(drop_drop junk p (4 + n)), take_drop. rewrite <-(drop_drop junk n 4), take_drop.
  change (drop 4 junk) with (drop (2 + 2) junk). rewrite <-(drop_drop junk 2 2), take_drop. by rewrite take_drop.
Qed.

Lemma nla_len_field_app pre v post :
  0 ≤ v < 2 ^ 16 → ∀ off, off = Z.of_nat (length pre) → nla_len_field (pre ++ le_bytes 2 v ++ post) off = Some v.
Proof.
  intros Hv off ->. unfold nla_len_field, get_at. change (resolve _ _) with (Some (0, cu16)). cbn [mbind option_bind].
  rewrite (load_le_app (Z.to_nat (sizeof cu16)) pre) by (rewrite ?length_le_bytes; simpl; lia).
  rewrite le_val_bytes. f_equal. apply Z.mod_small. simpl. lia.
Qed.

(** Clearing the padding, when there is any. *)
Lemma put_pad m A hd jd jp J a off :
  nm_nlh m = A ++ hd ++ jd ++ jp ++ J → length hd = 4%nat → length jd = length (at_data a) →
  length jp = Z.to_nat (at_pad a) → off = Z.of_nat (length A) + at_len a →
  (if negb (Z.of_nat (length (at_data a)) =? 0) && negb (at_pad a =? 0) then put_at m off (zeros (at_pad a)) else Some m) =
  Some {| nm_nlh := A ++ hd ++ jd ++ zeros (at_pad a) ++ J; nm_size := nm_size m |}.
Proof.
  intros Hm Hh Hd Hp ->. assert (Hpos : 4 ≤ at_len a) by (unfold at_len; lia).
  pose proof (align4_bounds (at_len a)) as [Hal _]; [lia|].
  destruct (decide (at_pad a = 0)) as [H0|H0].
  { rewrite H0 in *. destruct jp; [|done]. rewrite (andb_false_r _). destruct m; simpl in *. by rewrite Hm. }
  assert (Z.of_nat (length (at_data a)) ≠ 0).
  { intros Hz. apply H0. unfold at_pad, at_len. by rewrite Hz. }
  rewrite (proj2 (Z.eqb_neq _ 0)), (proj2 (Z.eqb_neq _ 0)) by done. cbn [negb andb].
  rewrite (put_at_app m (A ++ hd ++ jd) jp J).
  - by rewrite <-!app_assoc.
  - by rewrite Hm, <-!app_assoc.
  - rewrite !length_app. unfold at_len. lia.
  - by rewrite length_zeros.
Qed.

Lemma put_data m A hd jd post data off :
  nm_nlh m = A ++ hd ++ jd ++ post → length hd = 4%nat → length jd = length data →
  off = Z.of_nat (length A) + 4 →
  (if 0 <? Z.of_nat (length data) then put_at m off data else Some m) =
  Some {| nm_nlh := A ++ hd ++ data ++ post; nm_size := nm_size m |}.
Proof.
  intros Hm Hh Hd ->. destruct (Z.ltb_spec 0 (Z.of_nat (length data))).
  - rewrite (put_at_app m (A ++ hd) jd post) by (rewrite ?length_app, <-?app_assoc; done || lia).
    by rewrite <-!app_assoc.
  - destruct data; [|simpl in *; lia]. destruct jd; [|done]. destruct m; simpl in *. by rewrite Hm.
Qed.

Lemma size_u16 : Z.to_nat (sizeof cu16) = 2%nat.
Proof. done. Qed.

Section put.
Context (m : nl_msg) (h g junk : list Z) (xs : list attr) (a : attr).
Context (Hm : nm_nlh m = msg_bytes h g xs junk) (Hh : length h = 12%nat) (Hg : length g = 4%nat).
Context (Hs : nm_size m = Z.of_nat (length (nm_nlh m))) (Hmax : nm_size m ≤ 2 ^ 30).

Lemma msg_len_bounds : 20 ≤ msg_len xs ≤ nm_size m ∧ msg_len xs mod 4 = 0.
Proof using Hm Hh Hg Hs.
  unfold msg_len. split.
  - rewrite Hs, Hm. unfold msg_bytes. rewrite !length_app, length_le_bytes. lia.
  - rewrite Z.add_mod, length_stream_mod by done. done.
Qed.

Lemma nla_put_full :
  nm_size m < msg_len xs + NLA_ALIGN (at_len a) → at_len a < 2 ^ 16 →
  nla_put m (at_type a) (at_data a) = Some (- ENOMEM, m).
Proof using Hm Hh Hg Hs Hmax.
  intros Hfull Ha. destruct msg_len_bounds as [Hb Hmod].
  assert (Hn : 4 ≤ at_len a) by (unfold at_len; lia). pose proof (align4_bounds (at_len a)) as [Hal _]; [lia|].
  unfold nla_put, nla_reserve. rewrite (nlmsg_len_app m (msg_len xs) _ Hm) by lia. cbn [mbind option_bind].
  rewrite nla_total_align, nlmsg_align by lia. rewrite s32_small, u64_small by lia. by rewrite (proj2 (Z.ltb_lt (nm_size m) _)) by lia.
Qed.

Lemma nla_put_fits :
  msg_len xs + NLA_ALIGN (at_len a) ≤ nm_size m → attr_ok a →
  ∃ m' junk', nla_put m (at_type a) (at_data a) = Some (0, m') ∧ nm_size m' = nm_size m ∧
    nm_nlh m' = msg_bytes h g (xs ++ [a]) junk' ∧ length (nm_nlh m') = length (nm_nlh m).
Proof using Hm Hh Hg Hs Hmax.
  intros Hfit [Ht Ha]. destruct msg_len_bounds as [Hb Hmod].
  assert (Hn : 4 ≤ at_len a) by (unfold at_len; lia). pose proof (align4_bounds (at_len a)) as [Hal _]; [lia|].
  set (L := msg_len xs) in *. set (dl := length (at_data a)).
  assert (Hjunk : (4 + dl + Z.to_nat (at_pad a) ≤ length junk)%nat).
  { pose proof (msg_prefix h g xs L Hh Hg) as Hp. rewrite Hs, Hm in Hfit. unfold msg_bytes in Hfit.
    fold L in Hfit, Hp. rewrite !length_app in *. unfold at_pad, at_len in *. fold dl in Hfit, Hal |- *. lia. }
  destruct (split_junk junk dl (Z.to_nat (at_pad a)) Hjunk) as (j0 & j1 & jd & jp & J & -> & H0 & H1 & Hd & Hp).
  unfold nla_put, nla_reserve. rewrite (nlmsg_len_app m L _ Hm) by lia. cbn [mbind option_bind].
  rewrite nla_total_align, nlmsg_align by lia. rewrite s32_small by lia. rewrite u64_small by lia.
  rewrite (proj2 (Z.ltb_ge (nm_size m) _)) by lia. unfold nlmsg_tail. rewrite (nlmsg_len_app m L _ Hm) by lia.
  cbn [mbind option_bind]. rewrite nlmsg_align by lia. fold dl.
  set (A := le_bytes 4 L ++ h ++ g ++ stream xs). pose proof (msg_prefix h g xs L Hh Hg) as HA. fold A L in HA.
  assert (Hm1 : nm_nlh m = (A ++ j0) ++ j1 ++ jd ++ jp ++ J).
  { rewrite Hm. unfold msg_bytes, A. fold L. by rewrite <-!app_assoc. }
  rewrite (set_at_put _ _ 2 cu16) by done.
  rewrite (put_at_app m _ j1 _ _ _ Hm1) by (rewrite ?length_app, ?length_le_bytes, ?size_u16; lia).
  cbn [mbind option_bind]. rewrite (set_at_put _ _ 0 cu16) by done.
  rewrite (put_at_app _ A j0 (le_bytes 2 (at_type a) ++ jd ++ jp ++ J)) by
    (cbn [nm_nlh]; rewrite ?length_le_bytes, ?size_u16, <-?app_assoc; done || lia).
  cbn [mbind option_bind nm_nlh nm_size]. change (nla_attr_size (Z.of_nat dl)) with (at_len a).
  change (Z.to_nat (sizeof cu16)) with 2%nat. rewrite nla_len_field_app by lia. cbn [mbind option_bind].
  change (nla_padlen (Z.of_nat dl)) with (at_pad a).
  rewrite (put_pad _ A (le_bytes 2 (at_len a) ++ le_bytes 2 (at_type a)) jd jp J a) by
    (rewrite <-?app_assoc, ?length_app, ?length_le_bytes; done || lia).
  cbn [mbind option_bind nm_size]. rewrite (set_at_put _ _ 0 cu32) by done.
  rewrite (put_at_app _ [] (le_bytes 4 L) (h ++ g ++ stream xs ++ le_bytes 2 (at_len a) ++ le_bytes 2 (at_type a) ++ jd ++ zeros (at_pad a) ++ J))
    by (unfold A; cbn [nm_nlh]; rewrite <-?app_assoc, ?length_le_bytes; done).
  cbn [mbind option_bind nm_size app]. change (Z.to_nat (sizeof cu32)) with 4%nat.
  set (A' := le_bytes 4 (L + NLA_ALIGN (at_len a)) ++ h ++ g ++ stream xs).
  pose proof (msg_prefix h g xs (L + NLA_ALIGN (at_len a)) Hh Hg) as HA'. fold A' L in HA'.
  rewrite (put_data _ A' (le_bytes 2 (at_len a) ++ le_bytes 2 (at_type a)) jd (zeros (at_pad a) ++ J) (at_data a));
    [|unfold A'; cbn [nm_nlh]; by rewrite <-!app_assoc|by rewrite length_app, !length_le_bytes|done|
     unfold nla_data, NLA_HDRLEN; lia].
  cbn [mbind option_bind nm_size]. eexists _, J. split; [done|]. split; [done|].
  assert (Hlen : L + NLA_ALIGN (at_len a) = msg_len (xs ++ [a])).
  { unfold L, msg_len. rewrite stream_app, length_app, Nat2Z.inj_add.
    change (stream [a]) with (enc_attr a ++ []). rewrite app_nil_r, length_enc_attr. lia. }
  split.
  - unfold A', msg_bytes. cbn [nm_nlh]. rewrite Hlen, stream_app.
    change (stream [a]) with (enc_attr a ++ []). unfold enc_attr. by rewrite app_nil_r, <-!app_assoc.
  - cbn [nm_nlh]. rewrite Hm1. apply Nat2Z.inj. rewrite !length_app, !length_le_bytes, length_zeros in *. lia.
Qed.
End put.

(** ** The request to reap *)

Definition reap_header (family : Z) : list Z := le_bytes 2 family ++ [1; 0] ++ zeros 8.
Definition reap_list (devno timeout cqid expect ptr size : Z) : list attr := [
  {| at_type := NVME_GNL_ATTR_DEVNO; at_data := le_bytes 4 devno |};
  {| at_type := NVME_GNL_ATTR_TIMEOUT; at_data := le_bytes 4 timeout |};
  {| at_type := NVME_GNL_ATTR_CQID; at_data := le_bytes 2 cqid |};
  {| at_type := NVME_GNL_ATTR_OPT_NUM; at_data := le_bytes 4 expect |};
  {| at_type := NVME_GNL_ATTR_OPT_BUF_PTR; at_data := le_bytes 8 ptr |};
  {| at_type := NVME_GNL_ATTR_OPT_BUF_SIZE; at_data := le_bytes 4 size |}].

Lemma genlmsg_put_new family :
  ∃ m0 m junk, new_msg = Some m0 ∧
    genlmsg_put m0 0 0 family NLM_F_REQUEST NVME_GNL_CMD_REAP_CQE 1 = Some (Some 20, m) ∧
    nm_nlh m = msg_bytes (reap_header family) [1; 1; 0; 0] [] junk ∧
    nm_size m = 4096 ∧ length (nm_nlh m) = 4096%nat.
Proof.
  assert (Hf : ∃ x y, le_bytes 2 family = [x; y]) by (simpl; eauto). destruct Hf as (x & y & Hf).
  eexists _, _, (zeros 4076). split; [vm_compute; reflexivity|]. split.
  - unfold genlmsg_put, nlmsg_put. rewrite (set_at_put _ _ 4 cu16) by done. rewrite size_u16, Hf. vm_compute. reflexivity.
  - split; [|split]; [unfold reap_header; rewrite Hf|..]; vm_compute; reflexivity.
Qed.

(** A message of a page that has room for the next attribute. *)
Definition page_msg (h g : list Z) (xs : list attr) (m : nl_msg) : Prop :=
  ∃ junk, nm_nlh m = msg_bytes h g xs junk ∧ nm_size m = 4096 ∧ length (nm_nlh m) = 4096%nat.
Lemma page_put h g xs m a :
  length h = 12%nat → length g = 4%nat → page_msg h g xs m →
  msg_len xs + NLA_ALIGN (at_len a) ≤ 4096 → attr_ok a →
  ∃ m', nla_put m (at_type a) (at_data a) = Some (0, m') ∧ page_msg h g (xs ++ [a]) m'.
Proof.
  intros Hh Hg (junk & Hm & Hs & Hl) Hfit Ha.
  destruct (nla_put_fits m h g junk xs a) as (m' & junk' & Hput & Hs' & Hm' & Hl'); try done; [lia..|].
  exists m'. split; [done|]. exists junk'. split_and!; [done|congruence|lia].
Qed.

Lemma page_reap_attrs h g m devno timeout cqid expect ptr size :
  length h = 12%nat → length g = 4%nat → page_msg h g [] m →
  ∃ m', reap_attrs m devno timeout cqid expect ptr size = Some m' ∧
    page_msg h g (reap_list devno timeout cqid expect ptr size) m'.
Proof.
  intros Hh Hg Hm. unfold reap_list.
  assert (Hstep : ∀ xs a m (rest : Z * nl_msg → option nl_msg) Q, page_msg h g xs m →
    msg_len xs + NLA_ALIGN (at_len a) ≤ 4096 → attr_ok a →
    (∀ m', page_msg h g (xs ++ [a]) m' → ∃ r, rest (0, m') = Some r ∧ Q r) →
    ∃ r, nla_put m (at_type a) (at_data a) ≫= rest = Some r ∧ Q r).
  { intros xs a m0 rest Q H0 Hfit Ha Hr. destruct (page_put h g xs m0 a) as (m' & -> & Hm'); try done. by apply Hr. }
  unfold reap_attrs.
  apply (Hstep [] {| at_type := NVME_GNL_ATTR_DEVNO; at_data := le_bytes 4 devno |}); [done|done|done|]. intros m1 H1.
  apply (Hstep _ {| at_type := NVME_GNL_ATTR_TIMEOUT; at_data := le_bytes 4 timeout |} _ _ _ H1); [done|done|]. clear H1; intros m2 H2.
  apply (Hstep _ {| at_type := NVME_GNL_ATTR_CQID; at_data := le_bytes 2 cqid |} _ _ _ H2); [done|done|]. clear H2; intros m3 H3.
  apply (Hstep _ {| at_type := NVME_GNL_ATTR_OPT_NUM; at_data := le_bytes 4 expect |} _ _ _ H3); [done|done|]. clear H3; intros m4 H4.
  apply (Hstep _ {| at_type := NVME_GNL_ATTR_OPT_BUF_PTR; at_data := le_bytes 8 ptr |} _ _ _ H4); [done|done|]. clear H4; intros m5 H5.
  apply (Hstep _ {| at_type := NVME_GNL_ATTR_OPT_BUF_SIZE; at_data := le_bytes 4 size |} _ _ _ H5); [done|done|]. clear H5; intros m6 H6.
  eauto.
Qed.

Lemma length_stream_ge xs : (length xs ≤ length (stream xs))%nat.
Proof.
  induction xs as [|a xs IH]; [done|]. change (stream (a :: xs)) with (enc_attr a ++ stream xs).
  rewrite length_app. unfold enc_attr. simpl. lia.
Qed.

Lemma genlmsg_parse_msg h g xs junk sz maxtype :
  length h = 12%nat → length g = 4%nat → Forall attr_ok xs → msg_len xs < 2 ^ 31 →
  genlmsg_parse {| nm_nlh := msg_bytes h g xs junk; nm_size := sz |} 0 maxtype =
  Some (Some (0, attr_table 20 maxtype xs (replicate (Z.to_nat (maxtype + 1)) None))).
Proof.
  intros Hh Hg Hok Hlt. set (m := {| nm_nlh := _; nm_size := sz |}).
  assert (Hl : nlmsg_len m = Some (msg_len xs)).
  { apply (nlmsg_len_app m _ (h ++ g ++ stream xs ++ junk)); [done|]. unfold msg_len in *. lia. }
  assert (H20 : 20 ≤ msg_len xs) by (unfold msg_len; lia).
  unfold genlmsg_parse, genlmsg_valid_hdr, nlmsg_valid_hdr, genlmsg_attrlen, genlmsg_len. rewrite Hl.
  change (nlmsg_msg_size GENL_HDRLEN) with 20. change (NLMSG_ALIGN 0) with 0.
  change (GENL_HDRLEN) with 4. change NLMSG_HDRLEN with 16. cbn [mbind option_bind].
  rewrite (proj2 (Z.ltb_ge _ 20)) by done. cbn [negb mbind option_bind].
  rewrite (s32_small (msg_len xs - 4 - 16)) by lia. rewrite (proj2 (Z.ltb_ge _ 0)) by apply u32_range.
  cbn [negb mbind option_bind]. rewrite Z.sub_0_r, s32_small by lia.
  replace (msg_len xs - 4 - 16) with (Z.of_nat (length (stream xs))) by (unfold msg_len; lia).
  unfold nla_parse. change (genlmsg_attrdata nlmsg_data 0) with 20.
  set (A := le_bytes 4 (msg_len xs) ++ h ++ g).
  replace (nm_nlh m) with (A ++ stream xs ++ junk) by (unfold m, A, msg_bytes; simpl; by rewrite <-!app_assoc).
  replace 20 with (Z.of_nat (length A)) by (unfold A; rewrite !length_app, length_le_bytes; lia).
  rewrite Nat2Z.id. pose proof (length_stream_ge xs).
  rewrite nla_parse_stream; [done|done|lia|unfold msg_len in *; lia].
Qed.

(** The payload of an attribute of a message. *)
Lemma attr_payload h g xs ys a zs junk n off :
  length h = 12%nat → length g = 4%nat → xs = ys ++ a :: zs → length (at_data a) = n → off = msg_len ys →
  load_le n (msg_bytes h g xs junk) (nla_data off) = Some (le_val (at_data a)).
Proof.
  intros Hh Hg -> Hn ->. unfold msg_bytes. rewrite stream_app.
  change (stream (a :: zs)) with (enc_attr a ++ stream zs). unfold enc_attr.
  set (v := msg_len (ys ++ a :: zs)).
  replace (le_bytes 4 v ++ _) with ((le_bytes 4 v ++ h ++ g ++ stream ys ++ le_bytes 2 (at_len a) ++ le_bytes 2 (at_type a)) ++
    at_data a ++ zeros (at_pad a) ++ stream zs ++ junk) by (by rewrite <-!app_assoc).
  apply load_le_app; [|done]. unfold nla_data, NLA_HDRLEN, msg_len. rewrite !length_app, !length_le_bytes. lia.
Qed.

Lemma attr_len_field h g xs ys a zs junk off :
  length h = 12%nat → length g = 4%nat → xs = ys ++ a :: zs → off = msg_len ys → attr_ok a →
  nla_len_field (msg_bytes h g xs junk) off = Some (at_len a).
Proof.
  intros Hh Hg -> -> Ha. unfold msg_bytes. rewrite stream_app.
  change (stream (a :: zs)) with (enc_attr a ++ stream zs). set (v := msg_len (ys ++ a :: zs)).
  replace (le_bytes 4 v ++ _) with ((le_bytes 4 v ++ h ++ g ++ stream ys) ++ enc_attr a ++ stream zs ++ junk)
    by (by rewrite <-!app_assoc).
  rewrite <-(msg_prefix h g ys v Hh Hg). by apply attr_fields.
Qed.

(** The attribute of type [t], read with [get]. *)
Definition attr_of (tb : list (option Z)) (t : Z) (get : list Z → Z → option Z) (bs : list Z) : option Z :=
  match tb !! Z.to_nat t with Some (Some nla) => get bs nla | _ => None end.

(** C13. The request to reap completions says what was asked for: for any device, queue,
    count, buffer, size and timeout the message is built in the page without an error, one
    [sendmsg] carries it whole, and a receiver that parses the bytes sent finds the family,
    the command and the six attributes with their values, each cut to its width. *)
Theorem reap_request_roundtrip {H : Host} (s : ustate) (pub : nvme_dev_public)
    (cqid expect ptr size timeout : Z) :
  ∃ m0 m bs tb, new_msg = Some m0 ∧
    reap_request pub m0 cqid expect ptr size timeout s = Ret m s ∧
    (∀ s, nl_send m s = (ret ← call (k_sendmsg bs); mret (if ret <? 0 then ret else 0)) s) ∧
    genlmsg_parse {| nm_nlh := bs; nm_size := Z.of_nat (length bs) |} 0 NVME_GNL_ATTR_MAX = Some (Some (0, tb)) ∧
    load_le 2 bs 4 = Some (u16 (dp_family pub)) ∧ load_le 1 bs 16 = Some NVME_GNL_CMD_REAP_CQE ∧
    attr_of tb NVME_GNL_ATTR_DEVNO nla_get_s32 bs = Some (s32 (u32 (dp_devno pub))) ∧
    attr_of tb NVME_GNL_ATTR_TIMEOUT nla_get_s32 bs = Some (s32 (u32 timeout)) ∧
    attr_of tb NVME_GNL_ATTR_CQID nla_get_u16 bs = Some (u16 cqid) ∧
    attr_of tb NVME_GNL_ATTR_OPT_NUM nla_get_u32 bs = Some (u32 expect) ∧
    attr_of tb NVME_GNL_ATTR_OPT_BUF_PTR (λ bs nla, nla_get_u64 bs (Some nla)) bs = Some (u64 ptr) ∧
    attr_of tb NVME_GNL_ATTR_OPT_BUF_SIZE nla_get_u32 bs = Some (u32 size) ∧
    (∀ t, t ∉ [NVME_GNL_ATTR_DEVNO; NVME_GNL_ATTR_TIMEOUT; NVME_GNL_ATTR_CQID; NVME_GNL_ATTR_OPT_NUM;
               NVME_GNL_ATTR_OPT_BUF_PTR; NVME_GNL_ATTR_OPT_BUF_SIZE] → 0 ≤ t →
       tb !! Z.to_nat t ∈ [None; Some None]).
Proof.
  destruct (genlmsg_put_new (dp_family pub)) as (m0 & m1 & junk & Hnew & Hput & Hm1 & Hs1 & Hl1).
  set (h := reap_header (dp_family pub)) in *. set (g := [1; 1; 0; 0]) in *.
  destruct (page_reap_attrs h g m1 (dp_devno pub) timeout cqid expect ptr size) as (m & Hattrs & junk' & Hm & Hs & Hl);
    [done|done|by exists junk|].
  set (xs := reap_list _ _ _ _ _ _) in *.
  exists m0, m, (msg_bytes h g xs []), (attr_table 20 NVME_GNL_ATTR_MAX xs (replicate 10 None)).
  assert (Hlen : nlmsg_len m = Some 72) by by apply (nlmsg_len_app m 72 (h ++ g ++ stream xs ++ junk')).
  split; [done|]. split; [|split; [|split]].
  - unfold reap_request, in_bounds, mbind, U_bind, BUG_ON, mret, U_ret. rewrite Hput. cbv beta iota. by rewrite Hattrs.
  - assert (Hload : load_bytes (nm_nlh m) 0 72 = Some (msg_bytes h g xs [])).
    { rewrite Hm. unfold msg_bytes. rewrite app_nil_r, !app_assoc. by apply (load_bytes_app []). }
    intros s'. unfold nl_send, in_bounds. rewrite Hlen. unfold mbind at 1, U_bind, mret at 1, U_ret. by rewrite Hload.
  - apply genlmsg_parse_msg; [done|done|repeat constructor; done|done].
  - assert (Hpay : ∀ ys a zs n off, xs = ys ++ a :: zs → length (at_data a) = n → off = msg_len ys →
      load_le n (msg_bytes h g xs []) (nla_data off) = Some (le_val (at_data a))).
    { intros ys a zs n off. by apply attr_payload. }
    split; [|split; [done|]].
    { unfold h, reap_header, msg_bytes. rewrite <-!app_assoc.
      rewrite (load_le_app 2 (le_bytes 4 (msg_len xs)) (le_bytes 2 (dp_family pub))) by done.
      by rewrite le_val_bytes. }
    pose proof (Hpay [] _ _ 4%nat 20 eq_refl eq_refl eq_refl) as P0.
    pose proof (Hpay (take 1 xs) _ _ 4%nat 28 eq_refl eq_refl eq_refl) as P1.
    pose proof (Hpay (take 2 xs) _ _ 2%nat 36 eq_refl eq_refl eq_refl) as P2.
    pose proof (Hpay (take 3 xs) _ _ 4%nat 44 eq_refl eq_refl eq_refl) as P3.
    pose proof (Hpay (take 4 xs) _ _ 8%nat 52 eq_refl eq_refl eq_refl) as P4.
    pose proof (Hpay (take 5 xs) _ _ 4%nat 64 eq_refl eq_refl eq_refl) as P5.
    assert (Pl : nla_len_field (msg_bytes h g xs []) 52 = Some 12)
      by by apply (attr_len_field h g xs (take 4 xs) _ _ [] 52 eq_refl eq_refl eq_refl eq_refl).
    change (attr_table _ _ xs _) with
      [None; Some 28; Some 20; None; Some 36; Some 44; None; Some 52; Some 64; @None Z].
    revert P0 P1 P2 P3 P4 P5 Pl. generalize (msg_bytes h g xs []). clear -H. cbn [at_data].
    intros bs P0 P1 P2 P3 P4 P5 Pl. rewrite !le_val_bytes in *.
    unfold attr_of, nla_get_s32, nla_get_u32, nla_get_u16, nla_get_u64, nla_len.
    split_and!; [by apply (f_equal (fmap s32)) in P0|by apply (f_equal (fmap s32)) in P1|done|done| |done|].
    + change ((l ← (n ← nla_len_field bs 52; Some (n - NLA_HDRLEN));
               if 8 <=? u64 l then load_le 8 bs (nla_data 52) else Some 0) = Some (u64 ptr)).
      rewrite Pl. exact P4.
    + intros t Ht H0. destruct (decide (10 ≤ t)).
      { rewrite lookup_ge_None_2; [set_solver|]. simpl. lia. }
      assert (Hc : t = 0 ∨ t = 3 ∨ t = 6 ∨ t = 9).
      { unfold NVME_GNL_ATTR_DEVNO, NVME_GNL_ATTR_TIMEOUT, NVME_GNL_ATTR_CQID, NVME_GNL_ATTR_OPT_NUM,
          NVME_GNL_ATTR_OPT_BUF_PTR, NVME_GNL_ATTR_OPT_BUF_SIZE in Ht.
        repeat rewrite not_elem_of_cons in Ht. lia. }
      destruct Hc as [-> | [-> | [-> | ->]]]; simpl; set_solver.
Qed.

(** ** Answers that are not what was expected *)

Lemma le_val_range bs : byte_list bs → 0 ≤ le_val bs < 2 ^ (8 * Z.of_nat (length bs)).
Proof.
  induction bs as [|b bs IH]; [done|]. intros [Hb Hbs]%Forall_cons. specialize (IH Hbs).
  change (length (b :: bs)) with (S (length bs)). rewrite Nat2Z.inj_succ, Z.mul_succ_r, Z.pow_add_r by lia.
  cbn [le_val]. unfold in_u8 in Hb. change (2 ^ 8) with 256 in *. lia.
Qed.
Lemma load_le_Some n buf off :
  byte_list buf → 0 ≤ off → off + Z.of_nat n ≤ Z.of_nat (length buf) →
  ∃ v, load_le n buf off = Some v ∧ 0 ≤ v < 2 ^ (8 * Z.of_nat n).
Proof.
  intros Hb H0 Hle. unfold load_le, load_bytes. rewrite decide_True by lia. eexists. split; [done|].
  rewrite Nat2Z.id. set (l := take _ _).
  assert (Hl : length l = n) by (unfold l; rewrite length_take, length_drop; lia).
  rewrite <-Hl. apply le_val_range. by apply Forall_take, Forall_drop.
Qed.

Section hostile.
Context (buf : list Z) (Hb : byte_list buf) (maxtype head stop : Z) (Hhead : 0 ≤ head).
Context (Hstop : stop + 5 ≤ Z.of_nat (length buf)).

(** An attribute found lies between [head] and [stop]. *)
Definition found_ok (tb : list (option Z)) : Prop :=
  ∀ t nla, tb !! t = Some (Some nla) → head ≤ nla ∧
    ∃ l, nla_len_field buf nla = Some l ∧ 4 ≤ l ∧ nla + l ≤ stop ∧ nla_type buf nla = Some (Z.of_nat t).

Lemma get_u16_at p o off :
  resolve struct_nlattr p = Some (o, cu16) → 0 ≤ o ≤ 2 → head ≤ off → off + o ≤ stop + 3 →
  ∃ v, get_at struct_nlattr p buf off = Some v ∧ 0 ≤ v < 2 ^ 16.
Proof using Hb Hhead Hstop.
  intros Hr Ho H1 H2. unfold get_at. rewrite Hr. cbn [mbind option_bind]. rewrite size_u16.
  apply (load_le_Some 2); [done|lia|lia].
Qed.

Lemma nla_parse_loop_safe fuel nla rem tb :
  head ≤ nla → nla + rem = stop → -3 ≤ rem < 2 ^ 31 → (Z.to_nat rem < fuel)%nat → found_ok tb →
  ∃ tb', nla_parse_loop fuel buf maxtype nla rem tb = Some (Some tb') ∧ found_ok tb' ∧ length tb' = length tb.
Proof using Hb Hhead Hstop.
  revert nla rem tb. induction fuel as [|fuel IH]; intros nla rem tb H1 Hsum Hrem Hfuel Htb; [lia|].
  cbn [nla_parse_loop]. unfold nla_ok. change (sizeof struct_nlattr) with 4.
  destruct (get_u16_at .["nla_len"] 0 nla) as (l & Hl & Hlr); [done|lia..|]. fold (nla_len_field buf nla) in Hl.
  destruct (decide (0 ≤ rem < 4)) as [Hsmall|Hbig].
  { rewrite u64_small by lia. rewrite (proj2 (Z.ltb_lt rem 4)) by lia. cbn. eauto. }
  assert (Hu : u64 rem <? 4 = false).
  { apply Z.ltb_ge. destruct (decide (0 ≤ rem)); [rewrite u64_small; lia|]. unfold u64.
    rewrite <-(Z_mod_plus_full rem 1 (2 ^ 64)), Z.mod_small by lia. lia. }
  rewrite Hu, Hl. cbn [mbind option_bind]. destruct (Z.leb_spec 4 l); [|cbn; by eauto].
  destruct (Z.leb_spec l rem) as [Hle|]; [|cbn; by eauto]. cbn [andb negb].
  destruct (get_u16_at .["nla_type"] 2 nla) as (ty & Ht & Htr); [done|lia..|].
  unfold nla_type at 1. rewrite Ht. cbn [mbind option_bind]. unfold nla_next. rewrite Hl. cbn [mbind option_bind].
  destruct (align4_bounds l) as [Hal _]; [lia|].
  assert (Hmask : 0 ≤ Z.land ty NLA_TYPE_MASK) by (apply Z.land_nonneg; lia).
  set (tb1 := if maxtype <? _ then tb else _).
  assert (Htb1 : found_ok tb1).
  { unfold tb1. destruct (maxtype <? _); [done|]. intros t nla' [(Heq & Hn & _)|[Hne Hx]]%list_lookup_insert_Some.
    - injection Hn as <-. split; [done|]. exists l. split_and!; [done|lia|lia|].
      unfold nla_type. rewrite Ht. cbn [mbind option_bind]. f_equal. lia.
    - by apply Htb in Hx. }
  destruct (IH (nla + NLA_ALIGN l) (rem - NLA_ALIGN l) tb1) as (tb' & Hp & Hok & Hlen); [lia..|done|].
  exists tb'. split_and!; [done|done|]. rewrite Hlen. unfold tb1. destruct (maxtype <? _); [done|apply length_insert].
Qed.
End hostile.

Lemma nlmsg_len_nonneg m n : byte_list (nm_nlh m) → nlmsg_len m = Some n → 0 ≤ n.
Proof.
  intros Hb Hn. unfold nlmsg_len, get_at in Hn. change (resolve _ _) with (Some (0, cu32)) in Hn.
  cbn [mbind option_bind] in Hn. unfold load_le, load_bytes in Hn. case_decide; [|done]. injection Hn as <-.
  apply le_val_range. by apply Forall_take, Forall_drop.
Qed.
Lemma genlmsg_parse_safe m n :
  byte_list (nm_nlh m) → nlmsg_len m = Some n → n + 5 ≤ Z.of_nat (length (nm_nlh m)) → n < 2 ^ 31 →
  ∃ ret tb, genlmsg_parse m 0 NVME_GNL_ATTR_MAX = Some (Some (ret, tb)) ∧
    (ret = - EPERM ∨ ret = 0 ∧ 20 ≤ n ∧ length tb = 10%nat ∧ found_ok (nm_nlh m) 20 n tb).
Proof.
  intros Hb Hn Hroom Hmax. pose proof (nlmsg_len_nonneg m n Hb Hn) as Hpos.
  unfold genlmsg_parse, genlmsg_valid_hdr, nlmsg_valid_hdr, genlmsg_attrlen, genlmsg_len. rewrite Hn.
  change (nlmsg_msg_size GENL_HDRLEN) with 20. change (NLMSG_ALIGN 0) with 0. cbn [mbind option_bind].
  destruct (Z.ltb_spec n 20) as [|H20]; [cbn; by eauto|]. cbn [negb mbind option_bind].
  change GENL_HDRLEN with 4. change NLMSG_HDRLEN with 16.
  rewrite (proj2 (Z.ltb_ge _ 0)) by apply u32_range. cbn [negb mbind option_bind].
  rewrite (s32_small (n - 4 - 16)) by lia. rewrite Z.sub_0_r, s32_small by lia.
  unfold nla_parse. change (genlmsg_attrdata nlmsg_data 0) with 20.
  destruct (nla_parse_loop_safe (nm_nlh m) Hb NVME_GNL_ATTR_MAX 20 n ltac:(lia) Hroom (S (Z.to_nat (n - 4 - 16)))
    20 (n - 4 - 16) (replicate 10 None)) as (tb & Hp & Hok & Hlen); [lia..| |].
  { intros t nla Ht. by apply lookup_replicate in Ht as [? _]. }
  change (replicate (Z.to_nat (NVME_GNL_ATTR_MAX + 1)) None) with (replicate 10 (@None Z)).
  rewrite Hp. cbn. eauto 10.
Qed.


(** *** Witness: the message of an error, from a driver that answers -EINVAL *)

Definition demo_answer : nl_msg :=
  {| nm_nlh := le_bytes 4 28 ++ le_bytes 2 0x20 ++ zeros 10 ++ [NVME_GNL_CMD_REAP_CQE; 1; 0; 0] ++
               le_bytes 2 8 ++ le_bytes 2 NVME_GNL_ATTR_OPT_STATUS ++ le_bytes 4 (- EINVAL) ++ zeros 4068;
     nm_size := 4096 |}.

