(* ===== verification/Ioq.v ===== *)
(** * The tables of I/O queues

    [lib/nvme/queue.c]: what [nvme_init_ioq_info] puts in the tables, and that the random
    rearrangement before the queues are created only moves values between entries.  The
    random numbers are those of the C library: any. *)

From S2P Require Import Prelude Layout Types Kernel Core Structs Host HostSpec LibIoctl LibNetlink LibCmd LibQueue Bag.

(** ** Lists *)

Lemma insert_perm {A} (l : list A) i a b : l !! i = Some a → a :: <[i := b]> l ≡ₚ b :: l.
Proof.
  intros Hi. rewrite <-(take_drop_middle l i a) at 2 by done.
  rewrite insert_take_drop by (by eapply lookup_lt_Some). solve_Permutation.
Qed.
Lemma swap_perm {A} (l : list A) i j a b :
  l !! i = Some a → l !! j = Some b → <[j := a]> (<[i := b]> l) ≡ₚ l.
Proof.
  intros Hi Hj. assert (Hb : <[i := b]> l !! j = Some b).
  { destruct (decide (i = j)) as [->|]; [apply list_lookup_insert_eq; by eapply lookup_lt_Some|].
    by rewrite list_lookup_insert_ne. }
  apply (Permutation_cons_inv (a := b)). rewrite (insert_perm _ j b a) by done. by apply insert_perm.
Qed.
Lemma elem_of_upto i a b : i ∈ upto a b ↔ a ≤ i < b.
Proof. unfold upto. rewrite elem_of_seqZ. lia. Qed.

Section rules.
Context {H : Host} {E : mode}.

(** Only the kernel moved on. *)
Definition kern_only (s s' : ustate) : Prop :=
  u_ndev s' = u_ndev s ∧ u_heap s' = u_heap s ∧ u_fds s' = u_fds s.
#[export] Instance kern_only_refl : Reflexive kern_only.
Proof. by intros s. Qed.
#[export] Instance kern_only_trans : Transitive kern_only.
Proof. intros a b c (H1 & H2 & H3) (H4 & H5 & H6). repeat split; congruence. Qed.

Lemma uwp_rand (Q : Z → ustate → Prop) s :
  (∀ r s', 0 ≤ r < 2 ^ 31 → kern_only s s' → Q r s') → uwp E rand Q s.
Proof.
  intros HQ. apply uwp_bind, uwp_call. intros r k _. apply uwp_ret, HQ; [by apply Z.mod_pos_bound|done].
Qed.
Lemma uwp_rand_rem n (Q : Z → ustate → Prop) s :
  0 < n → (∀ r s', 0 ≤ r < n → kern_only s s' → Q r s') → uwp E (rand_rem n) Q s.
Proof.
  intros Hn HQ. apply uwp_bind, uwp_rand. intros r s' Hr Hs. rewrite (proj2 (Z.eqb_neq n 0)) by lia.
  apply uwp_ret, HQ; [|done]. rewrite Z.rem_mod_nonneg by lia. by apply Z.mod_pos_bound.
Qed.
Lemma uwp_rand_mod n (Q : Z → ustate → Prop) s :
  0 < n → (∀ r s', 0 ≤ r < n → kern_only s s' → Q r s') → uwp E (rand_mod n) Q s.
Proof.
  intros Hn HQ. apply uwp_bind, uwp_rand. intros r s' Hr Hs. rewrite (proj2 (Z.eqb_neq n 0)) by lia.
  apply uwp_ret, HQ; [|done]. by apply Z.mod_pos_bound.
Qed.
Lemma uwp_elem {A} (l : list A) i (Q : A → ustate → Prop) s :
  0 ≤ i < Z.of_nat (length l) → (∀ x, l !! Z.to_nat i = Some x → Q x s) → uwp E (elem l i) Q s.
Proof.
  intros Hi HQ. unfold elem. rewrite (proj2 (Z.ltb_ge i 0)) by lia.
  destruct (lookup_lt_is_Some_2 l (Z.to_nat i)) as [x Hx]; [lia|]. rewrite Hx. by apply uwp_ret, HQ.
Qed.
Lemma uwp_upd_elem {A} f (l : list A) i (Q : list A → ustate → Prop) s :
  0 ≤ i < Z.of_nat (length l) →
  (∀ x, l !! Z.to_nat i = Some x → Q (<[Z.to_nat i := f x]> l) s) → uwp E (upd_elem f l i) Q s.
Proof. intros Hi HQ. apply uwp_bind, uwp_elem; [done|]. intros x Hx. by apply uwp_ret, HQ. Qed.

(** ** Exchanging a field of two entries *)

Lemma uwp_swap {A} (g : A → Z) (put : Z → A → A) l i j (Q : list A → ustate → Prop) s :
  (∀ v q, g (put v q) = v) →
  0 ≤ i < Z.of_nat (length l) → 0 ≤ j < Z.of_nat (length l) →
  (∀ l', g <$> l' ≡ₚ g <$> l →
     (∀ B (e : A → B), (∀ v q, e (put v q) = e q) → e <$> l' = e <$> l) → Q l' s) →
  uwp E (a ← elem l i; b ← elem l j; l ← upd_elem (put (g b)) l i; upd_elem (put (g a)) l j) Q s.
Proof.
  intros Hg Hi Hj HQ. apply uwp_bind, uwp_elem; [done|]. intros a Ha.
  apply uwp_bind, uwp_elem; [done|]. intros b Hb.
  apply uwp_bind, uwp_upd_elem; [done|]. intros a' Ha'. simplify_eq.
  apply uwp_upd_elem; [by rewrite length_insert|]. intros b' Hb'. apply HQ.
  - rewrite !list_fmap_insert, !Hg. apply swap_perm; by rewrite list_lookup_fmap, ?Ha, ?Hb.
  - intros B e He. rewrite !list_fmap_insert, !He.
    rewrite (list_insert_id (e <$> l)) by (by rewrite list_lookup_fmap, Ha).
    apply list_insert_id. rewrite list_lookup_fmap.
    destruct (decide (Z.to_nat i = Z.to_nat j)) as [Hij|Hij].
    + rewrite <-Hij in *. rewrite list_lookup_insert_eq in Hb' by (by eapply lookup_lt_Some).
      injection Hb' as <-. rewrite Ha. simpl. by rewrite He.
    + rewrite list_lookup_insert_ne in Hb' by done. by rewrite Hb'.
Qed.

(** ** Submission queues *)

(** What stays with the entry: all but its completion queue and its size. *)
Definition sq_rest (q : nvme_sq_info) : nvme_sq_info := q <| sqi_cqid := 0 |> <| sqi_nr_entry := 0 |>.
Record sq_shuffled (l l' : list nvme_sq_info) : Prop := {
  sqs_rest : sq_rest <$> l' = sq_rest <$> l;
  sqs_cqid : sqi_cqid <$> l' ≡ₚ sqi_cqid <$> l;
  sqs_entry : sqi_nr_entry <$> l' ≡ₚ sqi_nr_entry <$> l }.
#[export] Instance sq_shuffled_refl : Reflexive sq_shuffled.
Proof. by split. Qed.
#[export] Instance sq_shuffled_trans : Transitive sq_shuffled.
Proof. intros a b c [H1 H2 H3] [H4 H5 H6]. split; [congruence|by rewrite H5|by rewrite H6]. Qed.
Lemma sq_shuffled_length l l' : sq_shuffled l l' → length l' = length l.
Proof. intros [Hr _ _]. apply (f_equal length) in Hr. by rewrite !length_fmap in Hr. Qed.

Lemma uwp_swap_cqid l i j (Q : list nvme_sq_info → ustate → Prop) s :
  0 ≤ i < Z.of_nat (length l) → 0 ≤ j < Z.of_nat (length l) →
  (∀ l', sq_shuffled l l' → Q l' s) → uwp E (swap_cqid l i j) Q s.
Proof.
  intros Hi Hj HQ. apply (uwp_swap sqi_cqid (λ v q, q <| sqi_cqid := v |>)); [done..|].
  intros l' Hp He. apply HQ. split; [by apply He|done|by rewrite He].
Qed.
Lemma uwp_swap_sq_entry l i j (Q : list nvme_sq_info → ustate → Prop) s :
  0 ≤ i < Z.of_nat (length l) → 0 ≤ j < Z.of_nat (length l) →
  (∀ l', sq_shuffled l l' → Q l' s) → uwp E (swap_sq_entry l i j) Q s.
Proof.
  intros Hi Hj HQ. apply (uwp_swap sqi_nr_entry (λ v q, q <| sqi_nr_entry := v |>)); [done..|].
  intros l' Hp He. apply HQ. split; [by apply He|by rewrite He|done].
Qed.

Lemma uwp_swap_iosqs ix nr l (Q : list nvme_sq_info → ustate → Prop) s :
  nr = Z.of_nat (length l) → nr < 2 ^ 16 → Forall (λ i, 0 ≤ i < nr) ix →
  (∀ l' s', kern_only s s' → sq_shuffled l l' → Q l' s') → uwp E (swap_iosqs ix nr l) Q s.
Proof.
  intros Hl Hnr. revert l s Hl. induction ix as [|i ix IH]; intros l s Hl Hix HQ; [by apply uwp_ret, HQ|].
  apply Forall_cons in Hix as [Hi Hix].
  apply uwp_bind, uwp_rand_rem; [lia|]. intros r1 s1 Hr1 Hs1. rewrite u16_small by lia.
  apply uwp_bind, uwp_swap_cqid; [lia..|]. intros l1 Hl1. pose proof (sq_shuffled_length _ _ Hl1).
  apply uwp_bind, uwp_rand_rem; [lia|]. intros r2 s2 Hr2 Hs2. rewrite u16_small by lia.
  apply uwp_bind, uwp_swap_sq_entry; [lia..|]. intros l2 Hl2. pose proof (sq_shuffled_length _ _ Hl2).
  apply IH; [lia|done|]. intros l' s' Hs' Hl'. apply HQ; [by etrans; [|etrans]|by etrans; [|etrans]].
Qed.

(** ** Completion queues *)

Definition cq_rest (q : nvme_cq_info) : nvme_cq_info :=
  q <| cqi_nr_entry := 0 |> <| cqi_irq_no := 0 |> <| cqi_irq_en := 0 |>.
(** The vector drawn: none when there are none. *)
Definition irq_drawn (nr_irq : Z) (q : nvme_cq_info) : Prop :=
  if nr_irq =? 0 then cqi_irq_en q = 0 else cqi_irq_en q = 1 ∧ 0 ≤ cqi_irq_no q < nr_irq.
Record cq_shuffled (nr_irq : Z) (l l' : list nvme_cq_info) : Prop := {
  cqs_rest : cq_rest <$> l' = cq_rest <$> l;
  cqs_entry : cqi_nr_entry <$> l' ≡ₚ cqi_nr_entry <$> l;
  cqs_irq : Forall (irq_drawn nr_irq) l' }.

(** The entries at [ix] have drawn their vector, the others are as before. *)
Lemma uwp_spread_irqs ix nr_irq l (Q : list nvme_cq_info → ustate → Prop) s :
  0 ≤ nr_irq < 2 ^ 16 → Forall (λ i, 0 ≤ i < Z.of_nat (length l)) ix →
  (∀ l' s', kern_only s s' → cq_rest <$> l' = cq_rest <$> l → cqi_nr_entry <$> l' = cqi_nr_entry <$> l →
     (∀ j q', l' !! j = Some q' → (Z.of_nat j ∈ ix ∨ ∃ q, l !! j = Some q ∧ irq_drawn nr_irq q) → irq_drawn nr_irq q') →
     Q l' s') →
  uwp E (spread_irqs ix nr_irq l) Q s.
Proof.
  intros Hn. revert l s. induction ix as [|i ix IH]; intros l s Hix HQ.
  { apply uwp_ret, HQ; [done..|]. intros j q' Hj [[]%elem_of_nil|(q & Hq & Hd)]. by simplify_eq. }
  apply Forall_cons in Hix as [Hi Hix].
  assert (Hnext : ∀ (f : nvme_cq_info → nvme_cq_info) q s1, kern_only s s1 → l !! Z.to_nat i = Some q →
    cq_rest (f q) = cq_rest q → cqi_nr_entry (f q) = cqi_nr_entry q → irq_drawn nr_irq (f q) →
    uwp E (spread_irqs ix nr_irq (<[Z.to_nat i := f q]> l)) Q s1).
  { intros f q s1 Hs1 Hq Hr He Hd. apply IH; [by rewrite length_insert|].
    intros l' s' Hs' Hr' He' Hall. apply HQ; [by etrans|..].
    - rewrite Hr', list_fmap_insert, Hr. apply list_insert_id. by rewrite list_lookup_fmap, Hq.
    - rewrite He', list_fmap_insert, He. apply list_insert_id. by rewrite list_lookup_fmap, Hq.
    - intros j q' Hj Hc. apply (Hall j q' Hj). destruct (decide (j = Z.to_nat i)) as [->|Hne].
      + right. exists (f q). split; [|done]. apply list_lookup_insert_eq. by eapply lookup_lt_Some.
      + rewrite list_lookup_insert_ne by done. destruct Hc as [[Heq|]%elem_of_cons|]; [|by left|by right].
        lia. }
  cbn [spread_irqs]. apply uwp_bind. unfold irq_drawn in Hnext. destruct (nr_irq =? 0) eqn:Hz.
  - apply uwp_upd_elem; [done|]. intros q Hq. by apply (Hnext (λ q, q <| cqi_irq_en := 0 |>)).
  - apply uwp_bind, uwp_rand_rem; [lia|]. intros r s1 Hr Hs1. rewrite u16_small by lia.
    apply uwp_upd_elem; [done|]. intros q Hq.
    by apply (Hnext (λ q, q <| cqi_irq_no := r |> <| cqi_irq_en := 1 |>)).
Qed.

Lemma uwp_swap_iocqs ix nr l (Q : list nvme_cq_info → ustate → Prop) s :
  nr = Z.of_nat (length l) → nr < 2 ^ 16 → Forall (λ i, 0 ≤ i < nr) ix →
  (∀ l' s', kern_only s s' → cqi_nr_entry <$> l' ≡ₚ cqi_nr_entry <$> l →
     (λ q, q <| cqi_nr_entry := 0 |>) <$> l' = (λ q, q <| cqi_nr_entry := 0 |>) <$> l → Q l' s') →
  uwp E (swap_iocqs ix nr l) Q s.
Proof.
  intros Hl Hnr. revert l s Hl. induction ix as [|i ix IH]; intros l s Hl Hix HQ; [by apply uwp_ret, HQ|].
  apply Forall_cons in Hix as [Hi Hix].
  apply uwp_bind, uwp_rand_rem; [lia|]. intros r1 s1 Hr1 Hs1. rewrite u16_small by lia.
  apply uwp_bind, (uwp_swap cqi_nr_entry (λ v q, q <| cqi_nr_entry := v |>)); [done|lia..|]. intros l1 Hp He.
  specialize (He _ (λ q, q <| cqi_nr_entry := 0 |>)). pose proof (f_equal length (He ltac:(done))) as Hlen.
  rewrite !length_fmap in Hlen.
  apply IH; [lia|done|]. intros l' s' Hs' Hp' He'. apply HQ; [by etrans|by rewrite Hp'|by rewrite He', He].
Qed.
End rules.

Lemma cq_shuffled_of n l l1 l' :
  cq_rest <$> l1 = cq_rest <$> l → cqi_nr_entry <$> l1 = cqi_nr_entry <$> l →
  (∀ j q, l1 !! j = Some q → irq_drawn n q) →
  cqi_nr_entry <$> l' ≡ₚ cqi_nr_entry <$> l1 →
  (λ q, q <| cqi_nr_entry := 0 |>) <$> l' = (λ q, q <| cqi_nr_entry := 0 |>) <$> l1 →
  cq_shuffled n l l'.
Proof.
  intros Hr He Hall Hp Heq.
  assert (Hf : ∀ B (f : nvme_cq_info → B), (∀ q, f q = f (q <| cqi_nr_entry := 0 |>)) → f <$> l' = f <$> l1).
  { intros B f Hf. apply (f_equal (fmap f)) in Heq. rewrite <-!list_fmap_compose in Heq.
    rewrite (list_fmap_ext f (f ∘ (λ q, q <| cqi_nr_entry := 0 |>)) l') by (intros; apply Hf).
    rewrite Heq. apply list_fmap_ext. intros. symmetry. apply Hf. }
  split; [by rewrite (Hf _ cq_rest)|by rewrite Hp, He|].
  apply Forall_lookup. intros j q Hj.
  assert (Hk : ((λ q, (cqi_irq_en q, cqi_irq_no q)) <$> l1) !! j = Some (cqi_irq_en q, cqi_irq_no q)).
  { rewrite <-(Hf _ (λ q, (cqi_irq_en q, cqi_irq_no q))) by done. by rewrite list_lookup_fmap, Hj. }
  rewrite list_lookup_fmap in Hk. destruct (l1 !! j) as [q1|] eqn:Hq1; [|done]. simpl in Hk.
  injection Hk as H1 H2. specialize (Hall j q1 Hq1). unfold irq_drawn in *. by rewrite <-H1, <-H2.
Qed.

(** The rest of the state, and of the device information, is as before. *)
Definition tables_only {H : Host} (s s' : ustate) (sqs : list nvme_sq_info) (cqs : list nvme_cq_info) : Prop :=
  u_heap s' = u_heap s ∧ u_fds s' = u_fds s ∧
  u_ndev s' = (u_ndev s) <| di_iosqs ::= fmap (λ x, (x.1, sqs)) |> <| di_iocqs ::= fmap (λ x, (x.1, cqs)) |>.

(** C27. The random rearrangement of the queue tables is a rearrangement: whatever numbers
    [rand] gives, it ends without touching an entry outside the tables; the submission
    queues keep their identifiers and priorities while their completion queues and their
    sizes are permuted among them; the completion queues keep their identifiers, their
    sizes are permuted, and each draws a vector below the number of vectors (or has
    interrupts off when there are none). *)
Theorem swap_ioq_permutes {H : Host} (s : ustate) pc c p q sqs cqs
    (Hc : di_ctrl (u_ndev s) = Some (pc, c))
    (Hs : di_iosqs (u_ndev s) = Some (p, sqs)) (Hq : di_iocqs (u_ndev s) = Some (q, cqs))
    (Hns : Z.of_nat (length sqs) = ctrl_nr_sq c) (Hnq : Z.of_nat (length cqs) = ctrl_nr_cq c)
    (Hsw : ctrl_nr_sq c < 2 ^ 16) (Hqw : ctrl_nr_cq c < 2 ^ 16) (Hirq : 0 ≤ di_nr_irq (u_ndev s) < 2 ^ 16) :
  uwp total nvme_swap_ioq_info_random (λ _ s', ∃ sqs' cqs', tables_only s s' sqs' cqs' ∧
    sq_shuffled sqs sqs' ∧ cq_shuffled (di_nr_irq (u_ndev s)) cqs cqs') s.
Proof.
  apply uwp_bind, uwp_ugets, uwp_bind. unfold the_ctrl. rewrite Hc. apply uwp_ret.
  apply uwp_bind. unfold the_iosqs. rewrite Hs. apply uwp_ret.
  apply uwp_bind, uwp_swap_iosqs; [done|done| |].
  { apply Forall_forall. intros i ?%elem_of_upto. lia. }
  intros sqs' s1 (Hd1 & Hh1 & Hf1) Hsq. apply uwp_bind, uwp_upd_ndev.
  apply uwp_bind. unfold the_iocqs. rewrite Hq. apply uwp_ret. apply uwp_bind, uwp_bind, uwp_spread_irqs; [done| |].
  { apply Forall_forall. intros i ?%elem_of_upto. lia. }
  intros l1 s2 (Hd2 & Hh2 & Hf2) Hrest Hent Hall.
  assert (Hlen : length l1 = length cqs) by (apply (f_equal length) in Hent; by rewrite !length_fmap in Hent).
  apply uwp_swap_iocqs; [congruence|done| |].
  { apply Forall_forall. intros i ?%elem_of_upto. lia. }
  intros cqs' s3 (Hd3 & Hh3 & Hf3) Hp He. apply uwp_upd_ndev. exists sqs', cqs'. split_and!.
  - split_and!; simpl in *; [congruence|congruence|]. unfold set_field in *. simpl in *. rewrite Hd3, Hd2, Hd1. simpl.
    by rewrite Hs, Hq.
  - done.
  - apply cq_shuffled_of with l1; try done. intros j x Hx. apply (Hall j); [done|]. left. apply elem_of_upto.
    apply lookup_lt_Some in Hx. lia.
Qed.

(** ** The first tables *)

Section tables.
Context {H : Host}.

Definition sq_fresh_info (mqes : Z) (qid : Z) (q : nvme_sq_info) : Prop :=
  sqi_sqid q = qid ∧ sqi_cqid q = qid ∧ sqi_contig q = true ∧
  1 ≤ sqi_nr_entry q ≤ mqes ∧ (256 < mqes → 256 ≤ sqi_nr_entry q) ∧
  sqi_prio q ∈ [NVME_SQ_PRIO_URGENT; NVME_SQ_PRIO_HIGH; NVME_SQ_PRIO_MEDIUM; NVME_SQ_PRIO_LOW].
Definition cq_fresh_info (mqes nr_irq : Z) (qid : Z) (q : nvme_cq_info) : Prop :=
  cqi_cqid q = qid ∧ cqi_contig q = true ∧ 1 ≤ cqi_nr_entry q ≤ mqes ∧
  (256 < mqes → 256 ≤ cqi_nr_entry q) ∧ cqi_irq_no q = Z.min qid (nr_irq - 1) ∧ 0 ≤ cqi_irq_no q < nr_irq.

Lemma uwp_random_entry mqes (Q : Z → ustate → Prop) s :
  1 ≤ mqes →
  (∀ n s', kern_only s s' → 1 ≤ n ≤ mqes → (256 < mqes → 256 ≤ n) → Q n s') →
  uwp total (random_nr_entry mqes) Q s.
Proof.
  intros Hm HQ. unfold random_nr_entry. destruct (Z.ltb_spec 256 mqes).
  - apply uwp_bind, uwp_rand_mod; [lia|]. intros r s' Hr Hs. apply uwp_ret, HQ; [done|lia..].
  - apply uwp_ret, HQ; [done|lia..].
Qed.
Lemma uwp_prio (Q : Z → ustate → Prop) s :
  (∀ v s', kern_only s s' →
     v ∈ [NVME_SQ_PRIO_URGENT; NVME_SQ_PRIO_HIGH; NVME_SQ_PRIO_MEDIUM; NVME_SQ_PRIO_LOW] → Q v s') →
  uwp total nvme_set_sq_prio_random Q s.
Proof.
  intros HQ. apply uwp_bind, uwp_rand_mod; [done|]. intros r s' Hr Hs. apply uwp_ret, HQ; [done|].
  repeat case_match; set_solver.
Qed.

(** After the loop the entries of [ids] are filled and the others are as before. *)
Lemma uwp_fill_iosqs mqes ids l (Q : list nvme_sq_info → ustate → Prop) s :
  1 ≤ mqes → NoDup ids → Forall (λ id, 1 ≤ id ≤ Z.of_nat (length l)) ids →
  (∀ l' s', kern_only s s' → length l' = length l →
     (∀ id q, id ∈ ids → l' !! Z.to_nat (id - 1) = Some q → sq_fresh_info mqes id q) →
     (∀ i, Z.of_nat i + 1 ∉ ids → l' !! i = l !! i) → Q l' s') →
  uwp total (fill_iosqs ids mqes l) Q s.
Proof.
  intros Hm. revert l s. induction ids as [|id ids IH]; intros l s Hnd Hids HQ.
  { apply uwp_ret, HQ; [done|done|set_solver|done]. }
  apply NoDup_cons in Hnd as [Hnew Hnd]. apply Forall_cons in Hids as [Hid Hids].
  apply uwp_bind, uwp_upd_elem; [lia|]. intros q0 Hq0.
  assert (Hlt : (Z.to_nat (id - 1) < length l)%nat) by lia.
  apply uwp_bind, uwp_random_entry; [done|]. intros n s1 Hs1 Hn1 Hn2.
  apply uwp_bind, uwp_upd_elem; [rewrite length_insert; lia|]. intros q1 Hq1.
  rewrite list_lookup_insert_eq in Hq1 by done. injection Hq1 as <-. rewrite list_insert_insert_eq.
  apply uwp_bind, uwp_prio. intros v s2 Hs2 Hv.
  apply uwp_bind, uwp_upd_elem; [rewrite length_insert; lia|]. intros q2 Hq2.
  rewrite list_lookup_insert_eq in Hq2 by done. injection Hq2 as <-. rewrite list_insert_insert_eq.
  apply IH; [done|by rewrite length_insert|]. intros l' s' Hs' Hlen Hin Hout. rewrite length_insert in Hlen.
  apply HQ; [by etrans; [|etrans]|done|..].
  - intros id' q [->|Hid']%elem_of_cons Hq; [|by apply Hin].
    rewrite Hout, list_lookup_insert_eq in Hq; [|done|rewrite Z2Nat.id by lia; by rewrite Z.sub_add].
    injection Hq as <-. repeat split; simpl; try done; lia.
  - intros i Hi. apply not_elem_of_cons in Hi as [Hi1 Hi2]. rewrite Hout by done.
    rewrite list_lookup_insert_ne by lia. done.
Qed.
Lemma uwp_fill_iocqs mqes nr_irq ids l (Q : list nvme_cq_info → ustate → Prop) s :
  1 ≤ mqes → 0 < nr_irq < 2 ^ 16 → NoDup ids → Forall (λ id, 1 ≤ id ≤ Z.of_nat (length l)) ids →
  (∀ l' s', kern_only s s' → length l' = length l →
     (∀ id q, id ∈ ids → l' !! Z.to_nat (id - 1) = Some q → cq_fresh_info mqes nr_irq id q) →
     (∀ i, Z.of_nat i + 1 ∉ ids → l' !! i = l !! i) → Q l' s') →
  uwp total (fill_iocqs ids mqes nr_irq l) Q s.
Proof.
  intros Hm Hirq. revert l s. induction ids as [|id ids IH]; intros l s Hnd Hids HQ.
  { apply uwp_ret, HQ; [done|done|set_solver|done]. }
  apply NoDup_cons in Hnd as [Hnew Hnd]. apply Forall_cons in Hids as [Hid Hids].
  apply uwp_bind, uwp_upd_elem; [lia|]. intros q0 Hq0.
  assert (Hlt : (Z.to_nat (id - 1) < length l)%nat) by lia.
  apply uwp_bind, uwp_random_entry; [done|]. intros n s1 Hs1 Hn1 Hn2.
  apply uwp_bind, uwp_upd_elem; [rewrite length_insert; lia|]. intros q1 Hq1.
  rewrite list_lookup_insert_eq in Hq1 by done. injection Hq1 as <-. rewrite list_insert_insert_eq.
  apply IH; [done|by rewrite length_insert|]. intros l' s' Hs' Hlen Hin Hout. rewrite length_insert in Hlen.
  apply HQ; [by etrans|done|..].
  - intros id' q [->|Hid']%elem_of_cons Hq; [|by apply Hin].
    rewrite Hout, list_lookup_insert_eq in Hq; [|done|rewrite Z2Nat.id by lia; by rewrite Z.sub_add].
    injection Hq as <-. assert (Hno : default_irq_no id nr_irq = Z.min id (nr_irq - 1)).
    { unfold default_irq_no. destruct (Z.leb_spec id (nr_irq - 1)); rewrite u16_small; lia. }
    repeat split; simpl; rewrite ?Hno; try done; lia.
  - intros i Hi. apply not_elem_of_cons in Hi as [Hi1 Hi2]. rewrite Hout by done.
    rewrite list_lookup_insert_ne by lia. done.
Qed.

Lemma uwp_zalloc n (Q : Z → ustate → Prop) s :
  (∀ s', kern_only s s' → Q 0 s') →
  (∀ p s', p ≠ 0 → u_ndev s' = u_ndev s → u_fds s' = u_fds s →
     u_heap s' = <[p := zeros n]> (u_heap s) → u_heap s !! p = None → Q p s') →
  uwp total (zalloc n) Q s.
Proof.
  intros H0 Hp. apply uwp_bind, uwp_call. intros [|] k _; [|by apply uwp_ret, H0].
  destruct (fresh_addr_new (u_heap s)) as [Hn Hz]. apply Hp; [done..|]. by apply not_elem_of_dom.
Qed.

Lemma qids_upto nr : 0 ≤ nr < 65535 → qids nr = upto 1 (nr + 1).
Proof. intros Hn. unfold qids. rewrite (proj2 (Z.eqb_neq nr 65535)) by lia. by rewrite app_nil_r. Qed.
Lemma NoDup_upto a b : NoDup (upto a b).
Proof. apply NoDup_seqZ. Qed.

Section alloc.
Context (s : ustate) (pc : Z) (c : nvme_ctrl_instance) (q : Z) (prop : nvme_ctrl_property).
Context (Hc : di_ctrl (u_ndev s) = Some (pc, c)) (Hp : ctrl_prop c = Some (q, prop)).
Let mqes := NVME_CAP_MQES (prop_cap prop) + 1.

Lemma mqes_pos : 1 ≤ mqes.
Proof using Type. unfold mqes, NVME_CAP_MQES. assert (0 ≤ Z.land (prop_cap prop) 0xffff); [apply Z.land_nonneg; lia|lia]. Qed.

Lemma uwp_alloc_iosq (Q : Z → ustate → Prop) :
  0 ≤ ctrl_nr_sq c < 65535 →
  (∀ s', kern_only s s' → Q (- ENOMEM) s') →
  (∀ p sqs s', p ≠ 0 → u_heap s' = <[p := zeros (ctrl_nr_sq c * 32)]> (u_heap s) → u_heap s !! p = None →
     u_fds s' = u_fds s → u_ndev s' = (u_ndev s) <| di_iosqs := Some (p, sqs) |> →
     Z.of_nat (length sqs) = ctrl_nr_sq c →
     (∀ id x, 1 ≤ id ≤ ctrl_nr_sq c → sqs !! Z.to_nat (id - 1) = Some x → sq_fresh_info mqes id x) → Q 0 s') →
  uwp total nvme_alloc_iosq_info Q s.
Proof using Hc Hp.
  intros Hn Hf HQ. apply uwp_bind, uwp_ugets, uwp_bind. unfold the_ctrl. rewrite Hc. apply uwp_ret, uwp_bind.
  unfold ctrl_property. rewrite Hp. apply uwp_ret, uwp_bind, uwp_zalloc; [intros; by apply uwp_ret, Hf|].
  intros p s1 Hp0 Hd Hfd Hh Hnew. rewrite (proj2 (Z.eqb_neq p 0)) by done.
  rewrite qids_upto by done. apply uwp_bind, uwp_fill_iosqs; [apply mqes_pos|apply NoDup_upto| |].
  { apply Forall_forall. intros i ?%elem_of_upto. rewrite length_replicate. lia. }
  intros sqs s2 (Hd2 & Hh2 & Hf2) Hlen Hin _. apply uwp_bind, uwp_upd_ndev, uwp_ret.
  rewrite length_replicate in Hlen.
  apply (HQ p sqs); [done|by etrans; [exact Hh2|]|done|simpl; congruence| |lia|].
  - unfold set_field. simpl. by rewrite Hd2, Hd.
  - intros id x Hid. apply Hin. apply elem_of_upto. lia.
Qed.
Lemma uwp_alloc_iocq (Q : Z → ustate → Prop) :
  0 ≤ ctrl_nr_cq c < 65535 → 0 < di_nr_irq (u_ndev s) < 2 ^ 16 →
  (∀ s', kern_only s s' → Q (- ENOMEM) s') →
  (∀ p cqs s', p ≠ 0 → u_heap s' = <[p := zeros (ctrl_nr_cq c * 32)]> (u_heap s) → u_heap s !! p = None →
     u_fds s' = u_fds s → u_ndev s' = (u_ndev s) <| di_iocqs := Some (p, cqs) |> →
     Z.of_nat (length cqs) = ctrl_nr_cq c →
     (∀ id x, 1 ≤ id ≤ ctrl_nr_cq c → cqs !! Z.to_nat (id - 1) = Some x →
        cq_fresh_info mqes (di_nr_irq (u_ndev s)) id x) → Q 0 s') →
  uwp total nvme_alloc_iocq_info Q s.
Proof using Hc Hp.
  intros Hn Hirq Hf HQ. apply uwp_bind, uwp_ugets, uwp_bind. unfold the_ctrl. rewrite Hc. apply uwp_ret, uwp_bind.
  unfold ctrl_property. rewrite Hp. apply uwp_ret, uwp_bind, uwp_zalloc; [intros; by apply uwp_ret, Hf|].
  intros p s1 Hp0 Hd Hfd Hh Hnew. rewrite (proj2 (Z.eqb_neq p 0)) by done.
  rewrite qids_upto by done. apply uwp_bind, uwp_fill_iocqs; [apply mqes_pos|done|apply NoDup_upto| |].
  { apply Forall_forall. intros i ?%elem_of_upto. rewrite length_replicate. lia. }
  intros cqs s2 (Hd2 & Hh2 & Hf2) Hlen Hin _. apply uwp_bind, uwp_upd_ndev, uwp_ret.
  rewrite length_replicate in Hlen.
  apply (HQ p cqs); [done|by etrans; [exact Hh2|]|done|simpl; congruence| |lia|].
  - unfold set_field. simpl. by rewrite Hd2, Hd.
  - intros id x Hid. apply Hin. apply elem_of_upto. lia.
Qed.
End alloc.
End tables.

Lemma find_iosq {H : Host} s pc c p sqs x id :
  di_ctrl (u_ndev s) = Some (pc, c) → di_iosqs (u_ndev s) = Some (p, sqs) → 1 ≤ id ≤ ctrl_nr_sq c →
  sqs !! Z.to_nat (id - 1) = Some x → sqi_sqid x = id → nvme_find_iosq_info id s = Ret (Some (id - 1)) s.
Proof.
  intros Hc Hs Hid Hx Hi. unfold nvme_find_iosq_info, mbind, U_bind, get_ndev, ugets, the_ctrl. rewrite Hc. cbn.
  rewrite (proj2 (Z.ltb_ge _ id)) by lia. unfold the_iosqs. rewrite Hs. cbn. unfold elem.
  rewrite (proj2 (Z.ltb_ge (id - 1) 0)) by lia. rewrite Hx. cbn. by rewrite Hi, Z.eqb_refl.
Qed.
Lemma find_iocq {H : Host} s pc c p cqs x id :
  di_ctrl (u_ndev s) = Some (pc, c) → di_iocqs (u_ndev s) = Some (p, cqs) → 1 ≤ id ≤ ctrl_nr_cq c →
  cqs !! Z.to_nat (id - 1) = Some x → cqi_cqid x = id → nvme_find_iocq_info id s = Ret (Some (id - 1)) s.
Proof.
  intros Hc Hs Hid Hx Hi. unfold nvme_find_iocq_info, mbind, U_bind, get_ndev, ugets, the_ctrl. rewrite Hc. cbn.
  rewrite (proj2 (Z.ltb_ge _ id)) by lia. unfold the_iocqs. rewrite Hs. cbn. unfold elem.
  rewrite (proj2 (Z.ltb_ge (id - 1) 0)) by lia. rewrite Hx. cbn. by rewrite Hi, Z.eqb_refl.
Qed.

(** C26. The tables of I/O queues are set up as the controller allows: for fewer than 65535
    queues of each kind, [nvme_init_ioq_info] either makes one entry per queue, numbered
    from 1, of a size within the capability [MQES] and, where that allows, of at least 256
    entries, each completion queue with its own vector or the last one, and every queue can
    then be found by its number; or memory runs out, and what it took is given back. *)
Theorem init_ioq_tables {H : Host} (s : ustate) pc c q prop
    (Hc : di_ctrl (u_ndev s) = Some (pc, c)) (Hp : ctrl_prop c = Some (q, prop))
    (Hns : 0 ≤ ctrl_nr_sq c < 65535) (Hnq : 0 ≤ ctrl_nr_cq c < 65535)
    (Hirq : 0 < di_nr_irq (u_ndev s) < 2 ^ 16) :
  let mqes := NVME_CAP_MQES (prop_cap prop) + 1 in
  uwp total nvme_init_ioq_info (λ r s',
    (r = 0 ∧ ∃ ps sqs pq cqs,
       u_ndev s' = (u_ndev s) <| di_iosqs := Some (ps, sqs) |> <| di_iocqs := Some (pq, cqs) |> ∧
       Z.of_nat (length sqs) = ctrl_nr_sq c ∧ Z.of_nat (length cqs) = ctrl_nr_cq c ∧
       (∀ id, 1 ≤ id ≤ ctrl_nr_sq c → ∃ x, sqs !! Z.to_nat (id - 1) = Some x ∧ sq_fresh_info mqes id x ∧
          nvme_find_iosq_info id s' = Ret (Some (id - 1)) s') ∧
       (∀ id, 1 ≤ id ≤ ctrl_nr_cq c → ∃ x, cqs !! Z.to_nat (id - 1) = Some x ∧
          cq_fresh_info mqes (di_nr_irq (u_ndev s)) id x ∧
          nvme_find_iocq_info id s' = Ret (Some (id - 1)) s')) ∨
    (r = - EPERM ∧ u_heap s' = u_heap s ∧ di_iocqs (u_ndev s') = di_iocqs (u_ndev s))) s.
Proof.
  intros mqes. apply uwp_bind, uwp_bind. apply (uwp_alloc_iosq s pc c q prop); [done..| |].
  { intros s1 (Hd & Hh & Hf). apply uwp_bind, uwp_no_bug; [done|]. apply uwp_ret, uwp_ret. right. by rewrite Hd. }
  intros ps sqs s1 Hps Hh1 Hnew1 Hf1 Hd1 Hls Hsq. apply uwp_bind, uwp_no_bug; [done|]. apply uwp_ret.
  change (0 <? 0) with false. cbn beta iota.
  apply uwp_bind, uwp_bind. apply (uwp_alloc_iocq s1 pc c q prop); [by rewrite Hd1|done|done|by rewrite Hd1|..].
  - intros s2 (Hd & Hh & Hf). apply uwp_bind, uwp_no_bug; [done|]. apply uwp_ret. cbn beta iota.
    apply uwp_bind, uwp_bind, uwp_ugets, uwp_bind. rewrite Hd, Hd1. cbn.
    unfold uwp, free. rewrite (proj2 (Z.eqb_neq ps 0)), Hh, Hh1, lookup_insert_eq by done. right. cbn.
    split_and!; [done|by rewrite Hh, Hh1, delete_insert_id|by rewrite Hd, Hd1].
  - intros pq cqs s2 Hpq Hh2 Hnew2 Hf2 Hd2 Hlq Hcq. apply uwp_bind, uwp_no_bug; [done|]. apply uwp_ret, uwp_ret. left.
    split; [done|]. exists ps, sqs, pq, cqs.
    assert (Hctrl : di_ctrl (u_ndev s2) = Some (pc, c)) by by rewrite Hd2, Hd1.
    split_and!; [by rewrite Hd2, Hd1|done|done| |].
    + intros id Hid. destruct (lookup_lt_is_Some_2 sqs (Z.to_nat (id - 1))) as [x Hx]; [lia|].
      exists x. split; [done|]. pose proof (Hsq id x Hid Hx) as Hfr. split; [done|].
      apply (find_iosq s2 pc c ps sqs x); [done|by rewrite Hd2, Hd1|lia|done|by destruct Hfr].
    + intros id Hid. destruct (lookup_lt_is_Some_2 cqs (Z.to_nat (id - 1))) as [x Hx]; [lia|].
      exists x. split; [done|]. pose proof (Hcq id x Hid Hx) as Hfr. rewrite Hd1 in Hfr. split; [done|].
      apply (find_iocq s2 pc c pq cqs x); [done|by rewrite Hd2|lia|done|by destruct Hfr].
Qed.

(** *** Witnesses: a controller with three queues of each kind and two vectors *)

Definition demo_ctrl : nvme_ctrl_instance :=
  ctrl_zero <| ctrl_nr_sq := 3 |> <| ctrl_nr_cq := 3 |>
            <| ctrl_prop := Some (2, {| prop_cap := 1023; prop_vs := 0; prop_cc := 0 |}) |>.
Definition demo_di : nvme_dev_info :=
  dev_info_zero <| di_ctrl := Some (1, demo_ctrl) |> <| di_nr_irq := 2 |>.
Definition demo_sqi (id : Z) : nvme_sq_info :=
  sq_info_zero <| sqi_sqid := id |> <| sqi_cqid := id |> <| sqi_nr_entry := 100 * id |>.
Definition demo_cqi (id : Z) : nvme_cq_info :=
  cq_info_zero <| cqi_cqid := id |> <| cqi_nr_entry := 100 * id |>.
Definition demo_tables : nvme_dev_info :=
  demo_di <| di_iosqs := Some (3, [demo_sqi 1; demo_sqi 2; demo_sqi 3]) |>
          <| di_iocqs := Some (4, [demo_cqi 1; demo_cqi 2; demo_cqi 3]) |>.

Lemma swap_ioq_permutes_witness :
  let s := idle_state demo_tables ∅ in
  uwp total (@nvme_swap_ioq_info_random idle_host) (λ _ s', ∃ sqs' cqs', tables_only s s' sqs' cqs' ∧
    sq_shuffled [demo_sqi 1; demo_sqi 2; demo_sqi 3] sqs' ∧
    cq_shuffled 2 [demo_cqi 1; demo_cqi 2; demo_cqi 3] cqs') s.
Proof.
  intros s. apply (@swap_ioq_permutes idle_host s 1 demo_ctrl 3 4); (reflexivity || (vm_compute; done)).
Defined.

Lemma init_ioq_tables_witness :
  let s := idle_state demo_di ∅ in
  uwp total (@nvme_init_ioq_info idle_host) (λ r s',
    (r = 0 ∧ ∃ ps sqs pq cqs,
       u_ndev s' = demo_di <| di_iosqs := Some (ps, sqs) |> <| di_iocqs := Some (pq, cqs) |> ∧
       Z.of_nat (length sqs) = 3 ∧ Z.of_nat (length cqs) = 3 ∧
       (∀ id, 1 ≤ id ≤ 3 → ∃ x, sqs !! Z.to_nat (id - 1) = Some x ∧ sq_fresh_info 1024 id x ∧
          @nvme_find_iosq_info idle_host id s' = Ret (Some (id - 1)) s') ∧
       (∀ id, 1 ≤ id ≤ 3 → ∃ x, cqs !! Z.to_nat (id - 1) = Some x ∧ cq_fresh_info 1024 2 id x ∧
          @nvme_find_iocq_info idle_host id s' = Ret (Some (id - 1)) s')) ∨
    (r = - EPERM ∧ u_heap s' = ∅ ∧ di_iocqs (u_ndev s') = None)) s.
Proof.
  intros s. apply (@init_ioq_tables idle_host s 1 demo_ctrl 2 {| prop_cap := 1023; prop_vs := 0; prop_cc := 0 |});
    (reflexivity || (vm_compute; done)).
Defined.
