(* ===== verification/Wire.v ===== *)
(** * What the driver hands to user space

    [written]: what the successful calls of [copy_to_user] have put in the memory of the
    process, oldest first.  [hands] is a precondition that speaks of it; with it, the
    submission of a command is shown to report the identifier the command was given.

    [driver_host] is the driver as the kernel below the user library: [ioctl(2)] runs
    [dnvme_ioctl] and gives the process the result in the convention of the C library. *)

From S2P Require Import Prelude Types Kernel Io Own Prp Ring Irq Queue Cmd Core Inv Trace Quiet Host.

Section wire.
Context {E : Env}.

Definition told (e : event) (h : list event) : list upayload :=
  match e with
  | E_copy_to_user u => if ans (e :: h) =? 0 then [u] else []
  | _ => []
  end.
Fixpoint written (n : nat) (h : list event) : list upayload :=
  match n, h with
  | S n, e :: h => written n h ++ told e h
  | _, _ => []
  end.

Lemma written_app h2 h1 h0 :
  written (length (h2 ++ h1)) (h2 ++ h1 ++ h0) =
  written (length h1) (h1 ++ h0) ++ written (length h2) (h2 ++ h1 ++ h0).
Proof.
  induction h2 as [|e h2 IH]; simpl; [by rewrite app_nil_r|]. by rewrite IH, <-app_assoc.
Qed.
Lemma written_silent h h0 : Forall silent h → written (length h) (h ++ h0) = [].
Proof.
  induction 1 as [|e h He Hh IH]; [done|]. simpl. rewrite IH. by destruct e.
Qed.

Definition hands {A} (m : M A) (Φ : A → list upayload → world → Prop) (w : world) : Prop :=
  match m w with
  | Val a w' => ∃ h, w_hist w' = h ++ w_hist w ∧ Φ a (written (length h) (w_hist w')) w'
  | _ => True
  end.

Lemma hands_ret {A} (a : A) (Φ : A → list upayload → world → Prop) w : Φ a [] w → hands (mret a) Φ w.
Proof. intros HΦ. by exists []. Qed.
Lemma hands_bind {A B} (m : M A) (f : A → M B) Φ w :
  hands m (λ a l w', hands (f a) (λ b l', Φ b (l ++ l')) w') w → hands (x ← m; f x) Φ w.
Proof.
  unfold hands, mbind, M_bind. destruct (m w) as [a w1| |]; [|done..].
  intros (h1 & H1 & Hf). destruct (f a w1) as [b w2| |]; [|done..].
  destruct Hf as (h2 & H2 & HΦ). exists (h2 ++ h1). rewrite H2, H1, app_assoc in *. split; [done|].
  rewrite <-app_assoc in HΦ |- *. by rewrite written_app.
Qed.
Lemma hands_silent {A} (m : M A) (Φ : A → list upayload → world → Prop) w :
  adds silent m → (∀ a w', Φ a [] w') → hands m Φ w.
Proof.
  intros Hm HΦ. unfold hands. destruct (m w) as [a w'| |] eqn:Hw; [|done..].
  destruct (Hm _ _ _ Hw) as (h & Hh & Hs). exists h. split; [done|]. by rewrite Hh, written_silent.
Qed.
Lemma hands_copy_to_user u Φ w :
  (∀ w', Φ true [u] w') → (∀ w', Φ false [] w') → hands (copy_to_user u) Φ w.
Proof.
  intros Ht Hf. unfold hands, copy_to_user, ext, mbind, M_bind. cbn. exists [E_copy_to_user u].
  split; [done|]. cbn. destruct (_ =? 0); auto.
Qed.

(** A command that was accepted is reported with its identifier. *)
Lemma hands_submit cmd mem q w :
  ndev_sqs (w_dev w) !! c64_sqid cmd = Some q →
  hands (dnvme_submit_64b_cmd cmd mem)
    (λ r l _, r = 0 → l = [UP_64b_cmd (cmd <| c64_cid := sq_next_cid q |>)]) w.
Proof.
  intros Hq. unfold dnvme_submit_64b_cmd.
  assert (Hc : ∀ Φ : bool → list upayload → world → Prop,
    (∀ b w', w_dev w' = w_dev w → Φ b [] w') → hands copy_from_user Φ w).
  { intros Φ HΦ. unfold hands, copy_from_user, ext, mbind, M_bind. cbn. exists [E_copy_from_user].
    split; [done|]. by apply HΦ. }
  apply hands_bind, Hc. intros ok w1 Hd1. destruct ok; [cbn [negb]|by apply hands_ret].
  destruct (negb _); [by apply hands_ret|]. destruct (_ || _); [by apply hands_ret|]. cbv zeta.
  apply hands_bind. exists []. split; [done|]. cbn [written length app]. unfold dnvme_find_sq. rewrite Hd1, Hq.
  apply hands_bind, hands_silent; [unfold dnvme_sq_is_full; solve_adds|]. intros full w2.
  destruct full; [by apply hands_ret|]. apply hands_bind, hands_silent; [solve_adds|]. intros p w3.
  destruct (p =? 0); [by apply hands_ret|].
  assert (Hout : ∀ ret (Φ : Z → list upayload → world → Prop) w', (∀ w', Φ ret [] w') →
    hands (kfree p;; mret ret) Φ w').
  { intros ret Φ w' HΦ. apply hands_bind, hands_silent; [solve_adds|]. intros _ w''. by apply hands_ret. }
  apply hands_bind, hands_silent; [solve_adds|]. intros ok w4. destruct ok; [cbn [negb]|by apply Hout].
  apply hands_bind, hands_silent; [unfold upd_sq; solve_adds|]. intros _ w5.
  apply hands_bind, hands_silent; [unfold ccmd_set_command_id; solve_adds|]. intros c w6.
  apply hands_bind, hands_copy_to_user; [|intros w'; by apply Hout]. intros w7. cbn [negb].
  apply hands_bind, hands_silent; [solve_adds|]. intros [ret c1] w8.
  destruct (Z.ltb_spec ret 0); [apply Hout; lia|].
  apply hands_bind, hands_silent; [solve_adds|]. intros [ret' c2] w9.
  destruct (Z.ltb_spec ret' 0).
  - apply hands_bind, hands_silent; [unfold upd_sq; solve_adds|]. intros _ w10. apply Hout. lia.
  - apply hands_bind, hands_silent; [solve_adds|]. intros _ w10. by apply Hout.
Qed.

(** The driver below the library; the other services are those of [other]. *)
Definition driver_host (other : Host) (fuel : nat) (minor : Z) : Host := {|
  kern := world * @kern other;
  k_ioctl req '(w, k) :=
    match dnvme_ioctl fuel minor req w with
    | Val r w' => Some (if r <? 0 then -1 else r,
                        written (length (w_hist w') - length (w_hist w)) (w_hist w'), (w', k))
    | _ => None
    end;
  k_sendmsg bs '(w, k) := let '(r, k) := k_sendmsg bs k in (r, (w, k));
  k_recvmsg n '(w, k) := '(r, bs, ws, k) ← k_recvmsg n k; Some (r, bs, ws, (w, k));
  k_socket '(w, k) := let '(r, k) := k_socket k in (r, (w, k));
  k_bind '(w, k) := let '(r, k) := k_bind k in (r, (w, k));
  k_open '(w, k) := let '(r, k) := k_open k in (r, (w, k));
  k_mmap a b '(w, k) := let '(r, k) := k_mmap a b k in (r, (w, k));
  k_calloc n '(w, k) := let '(r, k) := k_calloc n k in (r, (w, k));
  k_rand '(w, k) := let '(r, k) := k_rand k in (r, (w, k));
  k_system c '(w, k) := let '(r, k) := k_system c k in (r, (w, k)) |}.
End wire.
