(* ===== verification/LibDriver.v ===== *)
(** * The library on top of the driver

    The commands of [lib/nvme] run through [modules/dnvme]: [ioctl(2)] is [dnvme_ioctl]
    ([driver_host]).  What the library fills into a command structure arrives in the entry
    of the submission queue, and the requests it makes for registers and mappings are the
    ones the driver takes. *)

From S2P Require Import Prelude Layout Types Kernel Io Own Prp Paged PrpSpec Ring Irq Queue Cmd Meta Ioctl Core Inv Demo QueueSpec Trace QueueOps CmdSpec Submit Quiet Mmap Structs Host HostSpec LibIoctl LibNetlink LibCmd LibQueue Wire.

#[local] Open Scope string_scope.
#[local] Open Scope Z_scope.

(** ** Commands as bytes *)

Lemma user_mem_of bs : byte_list bs → length bs = 64%nat → user_bytes (mem_of bs) 64 = bs.
Proof.
  intros Hb Hl. unfold user_bytes. apply list_eq. intros i. rewrite list_lookup_fmap.
  destruct (decide (i < 64)%nat) as [Hi|Hi].
  - rewrite lookup_seqZ_lt by lia. simpl. unfold mem_of. rewrite Z.add_0_l, Nat2Z.id.
    destruct (lookup_lt_is_Some_2 bs i) as [b Hi']; [lia|]. rewrite Hi'. simpl. f_equal.
    apply u8_small. apply (Forall_lookup_1 _ _ _ _ Hb Hi').
  - rewrite lookup_seqZ_ge by lia. rewrite (lookup_ge_None_2 bs i) by lia. done.
Qed.

(** The bytes of an entry that the driver does not write: all but the identifier, the
    metadata pointer and the data pointer. *)
Definition kept (o n : Z) : bool := (o + n <=? 2) || (4 <=? o) && (o + n <=? 16) || (40 <=? o).

Section entry.
Context {E : Env} (d : nvme_device) (cmd : nvme_64b_cmd) (cid : Z) (raw c0 c : list Z).
Context (Hst : stamped d cmd cid raw c0) (Hdp : dptr_only c0 c).

Lemma entry_kept o n : kept o (Z.of_nat n) = true → load_le n c o = load_le n raw o.
Proof.
  intros Hk. unfold kept in Hk. rewrite !orb_true_iff, andb_true_iff, !Z.leb_le in Hk.
  unfold load_le. destruct Hdp as [_ Hd]. rewrite Hd by lia. f_equal.
  destruct Hst as (c1 & H1 & H2). transitivity (load_bytes c1 o (Z.of_nat n)).
  - destruct (has_mask _ _); [|by subst]. destruct H2 as (a & _ & H2).
    eapply load_store_ne; [exact H2|]. rewrite length_le_bytes. lia.
  - eapply load_store_ne; [exact H1|]. rewrite length_le_bytes. lia.
Qed.
Lemma entry_cid : load_le 2 c 2 = Some (u16 cid).
Proof.
  destruct (stamped_cid _ _ _ _ _ Hst) as [_ <-]. unfold load_le. destruct Hdp as [_ Hd].
  by rewrite Hd by lia.
Qed.

(** The members assigned by the library are in the entry. *)
Definition kept_field (t : ctype) (p : list acc) : bool :=
  match resolve t p with Some (o, u) => kept o (sizeof u) | None => false end.
Lemma entry_fields t as' :
  cwfb t = true → cok t as'.*1 = true → raw = cstruct t as' → forallb (kept_field t) as'.*1 = true →
  Forall (λ f : list acc * Z, cget t f.1 c = Some (f.2 mod 2 ^ width t f.1)) as'.
Proof.
  intros Hwf Hok Hraw Hk. apply cwfb_cwf in Hwf.
  destruct (cstruct_spec t as' Hwf Hok) as (_ & _ & Hget & _). apply Forall_forall. intros [p v] Hin. cbn [fst snd].
  rewrite <-(Hget _ _ Hin), <-Hraw.
  assert (kept_field t p = true) as Hp.
  { rewrite forallb_forall in Hk. apply Hk, list_elem_of_In, list_elem_of_fmap. by exists (p, v). }
  unfold cget, kept_field in *. destruct (resolve t p) as [[o u]|] eqn:Hr; [|done]. simpl.
  destruct (resolve_spec _ _ _ _ Hwf Hr) as (Hu & _). pose proof (sizeof_nonneg _ Hu).
  apply entry_kept. by rewrite Z2Nat.id.
Qed.
End entry.

(** ** One submission *)

Section through.
Context {E : Env} (other : Host) (fuel : nat) (minor : Z).
#[local] Instance below : Host := driver_host other fuel minor.

Definition driver (s : ustate) : world := (u_kern s).1.
(** The library's own state is as before. *)
Definition only_driver (s s' : ustate) : Prop :=
  u_ndev s' = u_ndev s ∧ u_heap s' = u_heap s ∧ u_fds s' = u_fds s.

(** The entry at the tail of the queue. *)
Definition tail_entry (w : world) (q : nvme_sq) : option (list Z) :=
  data ← sq_bytes w q; load_bytes data (64 * sqp_tail_ptr_virt (sq_pub q)) 64.

Lemma through_submit X cmd bs op qid flags q s :
  inv X (driver s) → minor = ndev_instance (w_dev (driver s)) → c64_has_cmd_buf cmd = true →
  byte_list bs → length bs = 64%nat →
  load_le 1 bs 0 = Some op → load_le 1 bs 1 = Some flags → load_le 2 bs 40 = Some qid →
  ndev_sqs (w_dev (driver s)) !! c64_sqid cmd = Some q → sq_usable q → 0 ≤ sq_next_cid q →
  admissible cmd op qid flags (w_dev (driver s)) →
  uwp total (nvme_submit_64b_cmd cmd bs) (λ r s', only_driver s s' ∧ inv X (driver s') ∧
    (r < 0 ∧ refused cmd (driver s) (driver s') ∨
     r = sq_next_cid q ∧ submitted cmd bs op qid flags (driver s) (driver s'))) s.
Proof.
  intros Hw Hmin Hbuf Hb Hl Hop Hfl Hqid Hq Hu Hcid Hadm.
  pose proof (user_mem_of bs Hb Hl) as Hmem.
  pose proof (wp_submit X cmd (mem_of bs) op qid flags (driver s) Hw) as Hwp. rewrite Hmem in Hwp.
  specialize (Hwp Hop Hfl Hqid). rewrite Hq in Hwp. specialize (Hwp ltac:(by intros ? [= <-]) Hadm).
  pose proof (hands_submit cmd (mem_of bs) q (driver s) Hq) as Ht.
  unfold nvme_submit_64b_cmd. rewrite Hbuf. cbn [negb].
  unfold uwp, mbind, U_bind, ioctl, k_ioctl, below, driver_host. destruct s as [nd hp fd [w k]].
  cbn [u_kern driver fst] in *. unfold dnvme_ioctl, dnvme_lock_device, mbind, M_bind, get_dev, gets.
  cbn [mret M_ret]. rewrite <-Hmin, Z.eqb_refl. cbn [negb ioctl_body].
  unfold wp in Hwp. unfold hands in Ht.
  destruct (dnvme_submit_64b_cmd cmd (mem_of bs) w) as [r w'| |]; [|done..].
  destruct Hwp as (Hi & _ & _ & Hr), Ht as (h & Hh & Hpay). cbn.
  destruct (Z.ltb_spec r 0) as [Hneg|Hpos]; cbn.
  { split; [done|]. split; [done|]. left. split; [lia|]. by destruct Hr as [[_ ?]|[? _]]; [|lia]. }
  destruct Hr as [[? _]|(-> & Hs & _)]; [lia|]. cbn.
  rewrite Hh, length_app, Nat.add_sub, <-Hh, (Hpay eq_refl). cbn. split; [done|]. split; [done|]. by right.
Qed.

Lemma submitted_entry cmd raw op qid flags q w w' :
  ndev_sqs (w_dev w) !! c64_sqid cmd = Some q → length raw = 64%nat →
  submitted cmd raw op qid flags w w' →
  ∃ c0 c, tail_entry w' q = Some c ∧ stamped (w_dev w) cmd (sq_next_cid q) raw c0 ∧ dptr_only c0 c ∧
    ∃ pn o, let d := set_cid (c64_sqid cmd) (u16 (sq_next_cid q + 1)) (w_dev w) in
      w_dev w' = advance (c64_sqid cmd) (accept_dev cmd q (u16 (sq_next_cid q)) op qid pn o d) ∧
      accept_data cmd c0 op qid flags d c o.
Proof.
  intros Hq Hl (q' & c0 & c & pn & o & data & data' & Hq' & Hst & Hdp & Hd & Hdata & _ & Hsto & Hb).
  rewrite Hq in Hq'. injection Hq' as <-. exists c0, c. split_and!; [|done|done|by exists pn, o].
  unfold tail_entry. rewrite Hb. cbn. destruct (stamped_cid _ _ _ _ _ Hst) as [Hl0 _].
  pose proof (load_store_same _ _ _ _ Hsto) as Hload. destruct Hdp as [Hlc _].
  by rewrite Hlc, Hl0, Hl in Hload.
Qed.

(** The value of members of the entry. *)
Definition entry_is (t : ctype) (c : list Z) (fs : list (list acc * Z)) : Prop :=
  Forall (λ f : list acc * Z, cget t f.1 c = Some f.2) fs.

Lemma cstruct_64 t as' : cwfb t = true → sizeof t = 64 → cok t as'.*1 = true →
  length (cstruct t as') = 64%nat ∧ byte_list (cstruct t as') ∧
  ∀ n o, 0 ≤ o → o + Z.of_nat n ≤ 64 → ∃ v, load_le n (cstruct t as') o = Some v.
Proof.
  intros Hwf Hs Hok. destruct (cstruct_spec t as' (cwfb_cwf _ Hwf) Hok) as (Hl & Hb & _).
  assert (length (cstruct t as') = 64%nat) as H64 by lia. split_and!; [done|done|].
  intros n o ? ?. unfold load_le, load_bytes. rewrite decide_True by lia. eauto.
Qed.

(** *** Read, write, compare *)

(** The request of [nvme_cmd_io_rw_common]. *)
Definition rw_request (w : nvme_rwc_wrapper) : nvme_64b_cmd :=
  if rwc_use_bit_bucket w
  then (rw_64b w) <| c64_nr_bit_bucket := rwc_nr_bit_bucket w |>
                <| c64_bit_bucket := default [] (rwc_bit_bucket w) |>
  else rw_64b w.
Definition rw_entry (w : nvme_rwc_wrapper) (opcode cid : Z) (c : list Z) : Prop :=
  entry_is struct_nvme_rw_command c [
    (.["opcode"], u8 opcode); (.["flags"], u8 (rwc_flags w)); (.["command_id"], cid);
    (.["nsid"], u32 (rwc_nsid w)); (.["cdw2"], u32 (rwc_dw2 w)); (.["cdw3"], u32 (rwc_dw3 w));
    (.["slba"], u64 (rwc_slba w)); (.["length"], u16 (rwc_nlb w - 1));
    (.["control"], u16 (rwc_control w)); (.["dspec"], u16 (rwc_dspec w));
    (.["reftag"], u32 (rwc_dw14 w)); (.["apptag"], u16 (rwc_apptag w));
    (.["appmask"], u16 (rwc_appmask w))].

Lemma rw_request_sqid w : c64_sqid (rw_request w) = rwc_sqid w ∧ c64_has_cmd_buf (rw_request w) = true.
Proof. unfold rw_request, rw_64b, rw_meta. by destruct (rwc_use_bit_bucket w), (rwc_meta_id w =? 0). Qed.

Lemma rw_request_buf w : c64_data_buf_ptr (rw_request w) = rwc_buf w.
Proof. unfold rw_request, rw_64b, rw_meta. by destruct (rwc_use_bit_bucket w), (rwc_meta_id w =? 0). Qed.
Lemma rw_cmd_64 w opcode :
  length (rw_cmd w opcode) = 64%nat ∧ byte_list (rw_cmd w opcode) ∧
  load_le 1 (rw_cmd w opcode) 0 = Some (u8 opcode) ∧
  load_le 1 (rw_cmd w opcode) 1 = Some (u8 (rwc_flags w)) ∧ ∃ qid, load_le 2 (rw_cmd w opcode) 40 = Some qid.
Proof.
  unfold rw_cmd. set (as' := [_; _; _; _; _; _; _; _; _; _; _; _]).
  assert (cok struct_nvme_rw_command as'.*1 = true) as Hok by (vm_compute; reflexivity).
  destruct (cstruct_64 struct_nvme_rw_command as' eq_refl eq_refl Hok) as (Hl & Hb & Hld).
  destruct (cstruct_spec struct_nvme_rw_command as' (cwfb_cwf struct_nvme_rw_command eq_refl) Hok) as (_ & _ & Hget & _).
  split_and!; [done|done| | |by apply Hld].
  - exact (Hget .["opcode"] opcode ltac:(left)).
  - exact (Hget .["flags"] (rwc_flags w) ltac:(right; left)).
Qed.

Lemma rw_entry_of {d cmd cid c0 c} w opcode :
  stamped d cmd cid (rw_cmd w opcode) c0 → dptr_only c0 c → in_u16 cid → rw_entry w opcode cid c.
Proof.
  intros Hst Hdp Hcid. pose proof (entry_cid _ _ _ _ _ _ Hst Hdp) as Hc. rewrite u16_small in Hc by done.
  epose proof (entry_fields _ _ _ _ _ _ Hst Hdp struct_nvme_rw_command _ eq_refl ?[Hok] eq_refl ?[Hk]) as Hall.
  [Hok]: vm_compute; reflexivity. [Hk]: vm_compute; reflexivity.
  rewrite !Forall_cons in Hall. unfold fst, snd in Hall.
  destruct Hall as (H1 & H2 & H3 & H4 & H5 & H6 & H7 & H8 & H9 & H10 & H11 & H12 & _).
  unfold rw_entry, entry_is. rewrite !Forall_cons, Forall_nil. unfold fst, snd.
  exact (conj H1 (conj H2 (conj Hc (conj H3 (conj H4 (conj H5 (conj H6 (conj H7 (conj H8 (conj H9
    (conj H10 (conj H11 (conj H12 I))))))))))))).
Qed.


(** *** Creation of a submission queue *)

Definition create_sq_request : nvme_64b_cmd := with_data (queue_mask true) 0 0 (cmd64 NVME_AQ_ID).
Definition create_sq_entry (sqid cqid elements prio dma cid : Z) (c : list Z) : Prop :=
  entry_is struct_nvme_create_sq c [
    (.["opcode"], nvme_admin_create_sq); (.["command_id"], cid); (.["prp1"], u64 dma);
    (.["sqid"], u16 sqid); (.["qsize"], u16 (elements - 1));
    (.["sq_flags"], u16 (Z.lor NVME_QUEUE_PHYS_CONTIG prio)); (.["cqid"], u16 cqid)].

Lemma create_sq_64 sqid cqid elements prio :
  let bs := nvme_cmd_fill_create_sq sqid cqid elements true prio in
  length bs = 64%nat ∧ byte_list bs ∧ load_le 1 bs 0 = Some nvme_admin_create_sq ∧
  load_le 1 bs 1 = Some 0 ∧ load_le 2 bs 40 = Some (u16 sqid).
Proof.
  unfold nvme_cmd_fill_create_sq. set (as' := [_; _; _; _; _]).
  assert (cok struct_nvme_create_sq as'.*1 = true) as Hok by (vm_compute; reflexivity).
  destruct (cstruct_64 struct_nvme_create_sq as' eq_refl eq_refl Hok) as (Hl & Hb & _).
  destruct (cstruct_spec struct_nvme_create_sq as' (cwfb_cwf struct_nvme_create_sq eq_refl) Hok) as (_ & _ & Hget & Hz).
  split_and!; [exact Hl|exact Hb| | |].
  - exact (Hget .["opcode"] nvme_admin_create_sq ltac:(left)).
  - exact (Hz .["flags"] ltac:(by eexists) ltac:(vm_compute; reflexivity)).
  - exact (Hget .["sqid"] sqid ltac:(right; left)).
Qed.

Lemma create_sq_entry_of {d cmd cid c0 c} sqid cqid elements prio dma :
  stamped d cmd cid (nvme_cmd_fill_create_sq sqid cqid elements true prio) c0 → dptr_only c0 c → in_u16 cid →
  load_le 8 c 24 = Some (u64 dma) → create_sq_entry sqid cqid elements prio dma cid c.
Proof.
  intros Hst Hdp Hcid Hd. pose proof (entry_cid _ _ _ _ _ _ Hst Hdp) as Hc. rewrite u16_small in Hc by done.
  epose proof (entry_fields _ _ _ _ _ _ Hst Hdp struct_nvme_create_sq _ eq_refl ?[Hok] eq_refl ?[Hk]) as Hall.
  [Hok]: vm_compute; reflexivity. [Hk]: vm_compute; reflexivity.
  rewrite !Forall_cons in Hall. unfold fst, snd in Hall. destruct Hall as (H1 & H2 & H3 & H4 & H5 & _).
  unfold create_sq_entry, entry_is. rewrite !Forall_cons, Forall_nil. unfold fst, snd.
  exact (conj H1 (conj Hc (conj Hd (conj H2 (conj H3 (conj H4 (conj H5 I))))))).
Qed.

(** The queue that a device has at [t] after the command was accepted. *)
Lemma created_sq q cid pn o t qt d d' :
  ndev_sqs d !! t = Some qt →
  d' = advance NVME_AQ_ID (accept_dev create_sq_request q cid nvme_admin_create_sq t pn o d) →
  ∃ qt', ndev_sqs d' !! t = Some qt' ∧ sq_created qt' = true ∧ sq_prps qt' = o ∧
    sq_contig qt' = sq_contig qt ∧ sq_dma qt' = sq_dma qt.
Proof.
  intros Ht ->. unfold accept_dev, advance, push_cmd, hook_sq. cbn.
  destruct (decide (t = NVME_AQ_ID)) as [->|Hne].
  - rewrite !lookup_alter_eq, Ht. cbn. eexists. split; [done|done].
  - rewrite !lookup_alter_ne by done. rewrite lookup_alter_eq, Ht. cbn. eexists. split; [done|done].
Qed.

(** C12. Creating a submission queue from the library sets up the device and the driver
    alike.  With the queue prepared in contiguous memory, [nvme_cmd_create_iosq] over the
    driver never faults or waits; either it is refused and nothing reached the admin queue,
    or the entry at the tail of the admin queue has the identifier that is returned, the
    numbers and the size of the new queue, its flags, and the bus address of the memory
    that was prepared, and the driver has the queue marked as created, without a list of
    pages. *)
Theorem create_sq_reaches_queue X sqid cqid elements prio q s
    (Hinv : inv X (driver s)) (Hmin : minor = ndev_instance (w_dev (driver s)))
    (Hq : ndev_sqs (w_dev (driver s)) !! NVME_AQ_ID = Some q) (Hu : sq_usable q)
    (Hcid : in_u16 (sq_next_cid q))
    (Hct : ∀ t, ndev_sqs (w_dev (driver s)) !! u16 sqid = Some t → sq_contig t = true) :
  uwp total (nvme_cmd_create_iosq (nvme_cmd_fill_create_sq sqid cqid elements true prio) true 0 0)
    (λ r s', only_driver s s' ∧ inv X (driver s') ∧
      (r < 0 ∧ refused create_sq_request (driver s) (driver s') ∨
       r = sq_next_cid q ∧ ∃ t' c, ndev_sqs (w_dev (driver s')) !! u16 sqid = Some t' ∧
         sq_created t' = true ∧ sq_prps t' = None ∧ tail_entry (driver s') q = Some c ∧
         create_sq_entry sqid cqid elements prio (sq_dma t') r c)) s.
Proof.
  destruct (create_sq_64 sqid cqid elements prio) as (Hl & Hb & Hop & Hfl & Hqid).
  eapply uwp_mono.
  { apply (through_submit X create_sq_request _ _ _ _ q s Hinv Hmin eq_refl Hb Hl Hop Hfl Hqid Hq Hu); [apply Hcid|].
    split_and!; [intros Hx; discriminate Hx| |intros _ Hx; discriminate Hx].
    intros _ _ t Ht. unfold queue_req_ok. rewrite (Hct t Ht). reflexivity. }
  intros r s' (Hs & Hi & [Hr|[-> Hsub]]); (split; [done|]); (split; [done|]); [by left|right]. split; [done|].
  destruct (submitted_entry create_sq_request _ _ _ _ q _ _ Hq Hl Hsub) as (c0 & c & Hc & Hst & Hdp & pn & o & Hdev & Hdata).
  destruct Hdata as (t & Ht & Hprp).
  destruct (created_sq _ _ _ _ _ _ _ _ Ht Hdev) as (t' & Ht' & Hcr & Ho & Hcc & Hdma).
  assert (sq_contig t = true) as Htc.
  { cbn in Ht. destruct (decide (u16 sqid = NVME_AQ_ID)) as [Heq|Hne].
    - rewrite Heq, lookup_alter_eq, Hq in Ht. injection Ht as <-. apply (Hct q). rewrite Heq. exact Hq.
    - rewrite lookup_alter_ne in Ht by congruence. exact (Hct t Ht). }
  assert (o = None) as ->.
  { rewrite <-Ho. apply (qm_contig _ _ _ _ (sqw_mem _ _ (dw_sqs _ (i_dev _ _ Hi) _ _ Ht'))). rewrite Hcc. exact Htc. }
  exists t', c. split_and!; [exact Ht'|exact Hcr|exact Ho|exact Hc|]. rewrite Hdma.
  exact (create_sq_entry_of _ _ _ _ _ Hst Hdp Hcid Hprp).
Qed.
End through.

(** ** Requests for registers and memory *)

Lemma aligned_mod x n : 0 ≤ n → IS_ALIGNED x (2 ^ n) = (x mod 2 ^ n =? 0).
Proof.
  intros Hn. unfold IS_ALIGNED. replace (2 ^ n - 1) with (Z.ones n) by (rewrite Z.ones_equiv; lia).
  by rewrite Z.land_ones.
Qed.

Section pgoff.
Context (t id : Z) (Ht : 0 ≤ t < 2 ^ 4) (Hid : in_u16 id).
Local Abbreviation pgoff := (Z.lor (u32 (NVME_VMPGOFF_FOR_TYPE t)) id).

Lemma for_type : u32 (NVME_VMPGOFF_FOR_TYPE t) = Z.shiftl t 16.
Proof. apply u32_small. unfold NVME_VMPGOFF_FOR_TYPE. rewrite Z.shiftl_mul_pow2; lia. Qed.
Lemma pgoff_range : 0 ≤ pgoff < 2 ^ 20.
Proof.
  unfold in_u16 in Hid. rewrite for_type.
  assert (0 ≤ Z.shiftl t 16 < 2 ^ 20) by (rewrite Z.shiftl_mul_pow2; lia).
  split; [apply Z.lor_nonneg; lia|]. destruct (Z.eq_dec (Z.lor (Z.shiftl t 16) id) 0) as [->|Hne]; [lia|].
  assert (0 < Z.lor (Z.shiftl t 16) id).
  { assert (0 ≤ Z.lor (Z.shiftl t 16) id) by (apply Z.lor_nonneg; lia). lia. }
  apply Z.log2_lt_pow2; [done|]. rewrite Z.log2_lor by lia.
  assert (∀ x, 0 ≤ x < 2 ^ 20 → Z.log2 x < 20) as Hlog.
  { intros x Hx. destruct (Z.eq_dec x 0) as [->|]; [done|]. apply Z.log2_lt_pow2; lia. }
  apply Z.max_lub_lt; apply Hlog; lia.
Qed.
Lemma pgoff_parts :
  u32 (NVME_VMPGOFF_TO_TYPE (u64 (PAGE_SIZE * pgoff) / PAGE_SIZE)) = t ∧
  u32 (NVME_VMPGOFF_ID (u64 (PAGE_SIZE * pgoff) / PAGE_SIZE)) = id.
Proof.
  pose proof pgoff_range as Hr. unfold in_u16, PAGE_SIZE in *.
  rewrite u64_small, Z.mul_comm, Z.div_mul by lia. unfold NVME_VMPGOFF_TO_TYPE, NVME_VMPGOFF_ID.
  change 0xffff with (Z.ones 16). rewrite for_type, Z.shiftr_lor, Z.land_lor_distr_l, !Z.land_ones by lia.
  rewrite Z.shiftr_shiftl_l, Z.sub_diag, Z.shiftl_0_r, (Z.shiftr_div_pow2 id), (Z.div_small id) by lia.
  rewrite Z.shiftl_mul_pow2, Z.mod_mul, (Z.mod_small id), Z.lor_0_r by lia. simpl.
  rewrite Z.lor_0_l, !u32_small by lia. done.
Qed.
End pgoff.

(** What the driver has behind a request of the library. *)
Definition mapped_queue {A} (contig : A → bool) (buf size : A → Z) (m : gmap Z A) (id : Z) : option (Z * Z) :=
  q ← m !! id; if contig q then Some (buf q, size q) else None.

(** C28. The library asks for registers and mappings in the terms of the driver.  For every
    region, offset and length the width it chooses for a register access passes the
    driver's test for alignment; and the offset it asks [mmap] for names, to the driver,
    the queue or meta buffer of the kind and number that was meant. *)
Theorem lib_requests_fit {H : Host} (d : nvme_device) (region : nvme_region) (oft len id size : Z)
    (Hid : in_u16 id) :
  (∃ acc, nvme_read_generic region oft len = ioctl_ret (IOCTL_READ_GENERIC acc) got_bytes ∧
     (∀ data, nvme_write_generic region oft len data = ioctl0 (IOCTL_WRITE_GENERIC acc data)) ∧
     (acc_region acc, acc_offset acc, acc_bytes acc) = (region, oft, len) ∧
     dnvme_check_access_align acc = 0) ∧
  (∃ off, nvme_map_cq id size = call (k_mmap size off) ∧
     behind d (off / PAGE_SIZE) = mapped_queue cq_contig cq_buf cq_size (ndev_cqs d) id) ∧
  (∃ off, nvme_map_sq id size = call (k_mmap size off) ∧
     behind d (off / PAGE_SIZE) = mapped_queue sq_contig sq_buf sq_size (ndev_sqs d) id) ∧
  (∃ off, nvme_map_meta_node id size = call (k_mmap size off) ∧
     behind d (off / PAGE_SIZE) = mapped_queue meta_contig meta_buf meta_size (ndev_meta d) id).
Proof.
  split.
  { eexists. split_and!; [reflexivity|intros; reflexivity|reflexivity|].
    unfold dnvme_check_access_align, nvme_select_access_type. cbn [acc_type acc_bytes acc_offset].
    assert (∀ x, IS_ALIGNED x 4 = (x mod 4 =? 0) ∧ IS_ALIGNED x 2 = (x mod 2 =? 0)) as Hal.
    { intros x. split; [apply (aligned_mod x 2)|apply (aligned_mod x 1)]; lia. }
    destruct (Hal oft) as [-> ->], (Hal len) as [-> ->].
    destruct (oft mod 4 =? 0) eqn:E1, (len mod 4 =? 0) eqn:E2; cbn [andb]; [by rewrite ?E1, ?E2|..].
    all: destruct (oft mod 2 =? 0) eqn:E3, (len mod 2 =? 0) eqn:E4; cbn [andb]; by rewrite ?E3, ?E4. }
  split_and!; [exists (u64 (PAGE_SIZE * Z.lor (u32 (NVME_VMPGOFF_FOR_TYPE 0)) id))
    |exists (u64 (PAGE_SIZE * Z.lor (u32 (NVME_VMPGOFF_FOR_TYPE 1)) id))
    |exists (u64 (PAGE_SIZE * Z.lor (u32 (NVME_VMPGOFF_FOR_TYPE 2)) id))]; (split; [reflexivity|]); unfold behind.
  - by destruct (pgoff_parts 0 id ltac:(lia) Hid) as [-> ->].
  - by destruct (pgoff_parts 1 id ltac:(lia) Hid) as [-> ->].
  - by destruct (pgoff_parts 2 id ltac:(lia) Hid) as [-> ->].
Qed.

(** *** Witnesses: the demo device below the library *)

Definition lib_demo : @ustate (@driver_host demo_env idle_host 0 0) :=
  @Build_ustate (@driver_host demo_env idle_host 0 0) dev_info_zero ∅ ∅ (full_world, tt).
(** A read of two pages on queue 1. *)
Definition rw_demo : nvme_rwc_wrapper := {|
  rwc_sqid := 1; rwc_cqid := 1; rwc_flags := 0; rwc_nsid := 1; rwc_slba := 0x1000; rwc_nlb := 16;
  rwc_control := 0; rwc_dspec := 0; rwc_apptag := 0; rwc_appmask := 0; rwc_dw2 := 0; rwc_dw3 := 0;
  rwc_dw14 := 0; rwc_buf := 0x7f0000; rwc_size := 8192; rwc_meta_id := 0;
  rwc_use_bit_bucket := false; rwc_check_none := false; rwc_nr_bit_bucket := 0;
  rwc_bit_bucket := None |}.


Lemma create_sq_reaches_queue_witness :
  @uwp (@driver_host demo_env idle_host 0 0) total _
    (@nvme_cmd_create_iosq _ (nvme_cmd_fill_create_sq 1 1 4 true 0) true 0 0)
    (λ r s', @only_driver demo_env idle_host 0 0 lib_demo s' ∧ inv [] (driver idle_host 0 0 s') ∧
      (r < 0 ∧ refused create_sq_request full_world (driver idle_host 0 0 s') ∨
       r = 1 ∧ ∃ t' c, ndev_sqs (w_dev (driver idle_host 0 0 s')) !! 1 = Some t' ∧
         sq_created t' = true ∧ sq_prps t' = None ∧
         tail_entry (driver idle_host 0 0 s') (demo_sq 0 1 2 4 []) = Some c ∧
         create_sq_entry 1 1 4 0 (sq_dma t') r c)) lib_demo.
Proof.
  refine (@create_sq_reaches_queue demo_env idle_host 0 0 [] 1 1 4 0 (demo_sq 0 1 2 4 []) lib_demo
    full_world_inv eq_refl eq_refl _ _ _).
  - intros Hx. discriminate Hx.
  - split; [discriminate|reflexivity].
  - intros t [= <-]. reflexivity.
Defined.

Lemma lib_requests_fit_witness :
  ∃ off, @nvme_map_sq idle_host 1 4096 = @call idle_host _ (@k_mmap idle_host 4096 off) ∧
    behind full_dev (off / PAGE_SIZE) = Some (6, 256).
Proof.
  destruct (@lib_requests_fit idle_host full_dev NVME_BAR0_BAR1 0x14 4 1 4096) as (_ & _ & (off & Hm & Hb) & _).
  { split; [discriminate|reflexivity]. }
  exists off. split; [exact Hm|]. rewrite Hb. reflexivity.
Defined.
